(* ===== verification/_CoqProject ===== *)
-Q . S2P
Prelude.v
Memory.v
CString.v
TimeFmt.v
Clock.v
ClockTests.v
BlockDev.v
Virtio.v
VirtioSpec.v
VirtioOps.v
VirtioDisk.v
VirtioTests.v
NodeFs.v
NodeFsSpec.v
NodeFsUpdate.v
NodeFsOps.v
NodeFsDisk.v
NodeFsTests.v
Vfs.v
VfsSpec.v
VfsTests.v
Process.v
ProcessSpec.v
ProcessOps.v
Scheduler.v
ProcessTests.v
PageTable.v
PageTableSpec.v
AddressSpace.v
Spaces.v
UserMemory.v
PageTableTests.v
Procfs.v
ProcfsSpec.v
Console.v
ConsoleSpec.v
ConsoleTests.v
Kernel.v
KernelTests.v
KernelSpec.v
System.v
SystemTests.v
Syscall.v
SyscallSpec.v
Traps.v
SyscallProps.v
SyscallSafe.v
SyscallTests.v
Asm.v
AsmSpec.v
Switch.v
FirstRun.v
Coroutines.v
AsmKernel.v
AsmTests.v
Firmware.v
Startup.v
UserPath.v
UserProg.v
ShellUtils.v
ShellUtilsSpec.v
UserFiles.v
HistorySpec.v
ShellEdit.v
ShellEditSpec.v
ShellSafe.v
ShellTests.v
Commands.v
CommandsSpec.v
LsSpec.v
CommandsTests.v
