(* ===== verification/Prelude.v ===== *)
(** * AquaCore: a verification development

    AquaCore ([src/]) is a small teaching operating system for 32-bit RISC-V: a
    kernel with a page allocator, Sv32 address spaces, processes with [fork], [exec],
    [waitpid], [kill] and a one-message mailbox, and a file system with three mounts,
    one of them kept on a virtio disk; and a user runtime with a shell and a few
    commands.  This library models both, translated from the C sources, and
    proves what makes them correct.  Paths below are relative to [src/src/].

    ** The parts, bottom up

    The machine and the library:

    - [Prelude] (this file): C integers at their width, C strings as byte lists,
      physical memory as a function from addresses to bytes, loops ([zfor],
      [zfor_opt]) with their invariant and totality rules, the [let!] notation of
      the option monad in which [None] is a panic, generic list lemmas.
    - [Memory] ([kernel/mm/memory.c]): the bitmap page allocator.  The bitmap is
      bytes of the memory it manages, as in the code.
    - [CString], [TimeFmt] ([lib/commonlibs.c], [kernel/rtc/rtc.c],
      [kernel/trap/syscall_time.c]): the bounded copies, [printf], the
      shift-and-subtract divisions and the calendar.
    - [Clock] ([kernel/time/timer.c], [kernel/rtc/rtc.c]): the re-arming of the timer
      and the double read of the two halves of the real-time clock, over the
      readings of the registers.

    The disk:

    - [BlockDev]: the disk as an interface, the class of what [include/blockdev.h]
      declares and the laws of a working disk, with a disk in memory as an instance.
    - [Virtio] ([kernel/fs/blockdev_virtio.c]): the driver over a class of device
      registers and a memory it shares with the device.  [VirtioSpec] states the
      laws of a device, [VirtioOps] proves what one transfer does, [VirtioDisk]
      proves that the driver is an instance of the laws of [BlockDev].

    The file system:

    - [NodeFs] ([kernel/fs/fs.c], [nodefs_*] and [pfs_*]): the node arrays behind
      every mount and the byte image of the persistent one.  [NodeFsSpec] states
      the invariant and the tree of names an array denotes; [NodeFsUpdate] and
      [NodeFsOps] prove what each operation does to the tree; [NodeFsDisk] has the
      disk round trip and the invariant over every sequence of operations.
    - [Vfs] ([kernel/fs/fs.c], [vfs_*] and [fs_*]): descriptors and mounts;
      [VfsSpec] has its invariant and theorems.

    Processes and their memory:

    - [Process] ([kernel/proc/process.c] and the parts of [kernel/trap/syscall_*.c]
      that change the table): the process table, over an interface [ProcEnv] for
      what it calls in the rest of the kernel.  [ProcessSpec] states the invariant,
      [ProcessOps] proves it of each operation, [Scheduler] takes the operations as
      the steps of a transition system and proves the invariant of every reachable
      state.
    - [PageTable] ([map_page] of [kernel/mm/memory.c] and the address-space code of
      [kernel/proc/process.c]): page tables as words of the memory the allocator
      hands out.  [PageTableSpec] defines the walk of the hardware and proves
      [map_page] and the freeing of an address space; [AddressSpace] proves the two
      ways an address space is made; [Spaces] has the invariant of all of them at
      once, and [UserMemory] what a user access reaches through them.
    - [Procfs] and [ProcfsSpec] (end of [kernel/proc/process.c]): the status file
      [/proc/<pid>/status] written through [Vfs].
    - [Console] ([kernel/trap/syscall_console.c]): the ring of characters typed and
      the blocking read of one; [ConsoleSpec] proves it first-in first-out.

    The kernel as one:

    - [Kernel] ([kernel/kernel.c]): the instance of [ProcEnv] over [Vfs], [Memory],
      [PageTable] and [Procfs], and the start-up.  [KernelSpec] proves the kernel's
      invariants of each operation of the processes, and [System] takes process,
      file and console operations as steps of one system: the invariants hold in
      every state it reaches.
    - [Syscall] and [Traps] ([kernel/trap/syscall_*.c], [kernel/trap/trap_handler.c]):
      the argument registers of the frame, the dispatch on [a3], the copies to and
      from the caller's pages, the causes of a trap.  [SyscallSpec] and [SyscallProps]
      prove what the calls do, [SyscallSafe] which of them answer whatever their
      arguments.  The handlers do not check the pointers they are given: where one is not
      to the caller's own pages the code goes on in memory that is the kernel's or another
      process's, which is not modelled, and the result is [Stray].
    - [Asm] ([boot], [kernel_entry] and [user_entry] of [kernel/kernel.c],
      [switch_context], [fork_child_trap_return], the assembly of [yield] and the first
      stacks of [kernel/proc/process.c]): the assembly, instruction by instruction, over
      registers, control registers and words of memory.  [AsmSpec] proves what a trap
      and its return do, [AsmKernel] puts [handle_trap] of [Syscall] under it, [Switch]
      proves one switch, [FirstRun] the first run of a new process, and [Coroutines]
      that all the switches are those of a map from processes to contexts.
    - [Firmware] ([kernel/platform/sbi.c]): the calls of the firmware over an interface,
      and what the legacy console promises; [Startup] ([kernel/kernel.c]): what the
      start-up and the shutdown print.

    The user side:

    - [UserPath] ([user/runtime/user_path.c]): the path resolution of the commands.
    - [UserProg] ([user/runtime/user_syscall.c], [user/runtime/user.c]): a program is
      an interaction tree whose events are the system calls; [world] answers the
      file and console calls with [Vfs] and [Console], and [wp] is its weakest
      precondition.  [UserFiles] has the rules of the file calls.
    - [ShellUtils] ([user/apps/shell/utils.c]): words, redirections, history;
      [ShellUtilsSpec] and [HistorySpec] prove them.
    - [ShellEdit] ([user/apps/shell/main.c]): the line editor and the shell's loop.
      [ShellEditSpec] proves that the editor refines an editor on a list of
      characters and a cursor; [ShellSafe] the redirection of [stdin] and [stdout], above a
      kernel in which other processes make calls meanwhile and [fork] has its two ends.
    - [Commands] ([user/apps/]): [cat], [write], [touch], [rm], [mkdir], [rmdir],
      [ls], [ps], [kill], [ipc_rx], [date], [bitmap] and [kernel_info];
      [CommandsSpec] and [LsSpec] prove those on files.

    The files [*Tests] apply the theorems at concrete inputs, with the definitions
    evaluated, and run whole scenarios: [KernelTests] boots the kernel on a blank
    disk and forks its shell; [VirtioTests] runs the driver against an emulated
    device; [CommandsTests] writes a file and prints it back.

    ** How the code is represented

    A C [int] or [uint32_t] is a [Z], with [u32], [i32], [u8] written where the code
    can wrap around; [char] is unsigned on this target.  A fixed-size array is a list
    of that length; a pointer into a table is the index of the slot; a NULL-able
    pointer argument is an [option].  A function that can panic returns an [option];
    one that returns 0 or -1 returns a [bool] or, where the code has more results,
    the [Z].  A call of [yield] in the middle of a function ends its model: the
    [outcome] says where the process waits, and what the code does when it is
    scheduled again is a definition of its own.  A user program is a tree of
    calls, so that it says what it does for every answer of the kernel.

    ** The theorems

    - The kernel over its life: [os_refines] (calls, traps and interrupts keep the
      kernel's invariant and refine a system of processes and files, as long as no call
      uses a pointer out of its caller's memory), [memory_isolation] (of the steps of that
      system) and [page_ownership] (no page belongs to two owners),
      [user_mode_confined], [calls_answer] and [kernel_calls_complete] (a call
      returns or waits), [fs_no_dangling] (no descriptor in use refers to a node
      that is gone), [process_table_invariant], [no_lost_wakeup], [no_lost_input],
      [nodefs_session_ok].
    - The disk: [virtio_block_device] (the driver on a lawful device is a block
      device), [transfer_right] (with time-outs, the device going on between a time-out
      and the reset), [pfs_roundtrip].
    - Contracts: the allocator is first fit ([alloc_pages_first_fit]); a new
      address space holds the image, or the parent's pages, in pages nobody else had
      ([create_address_space_spec], [copy_address_space_spec],
      [fork_duplicates_memory], [exec_loads_image]); the mount is the longest
      match ([vfs_resolve_mount_longest]); a process that calls [exit] wakes the parent
      that waits for it ([exit_wakes_parent]).
    - The assembly: [system_call_returns], [trap_returns], [switches_refine] (a process
      that is switched away from goes on with its context), [fork_child_returns].
    - The user side: [user_path_resolve_correct], [user_write_then_read],
      [write_then_cat], [ls_lists], [execv_then_getargs], [split_args_words],
      [parse_redirection_parses], [history_ring], [history_survives],
      [editor_refines], [stdio_restored].
    - Formats and time: [parse_int_correct], [unix_time_to_utc_str_correct],
      [rtc_reads_time].
    - Lemmas that state whole behaviours too: [waitpid_spec], [ipc_delivery],
      [procfs_status_file], [print_decimal_correct], [new_process_starts], the
      [nodefs_*_spec] lemmas.

    ** Bounds and fuel

    The loops of the code have constant bounds (64 processes, 16 descriptors, 128
    nodes, 1024 table entries) and are loops over those bounds here.  Loops over a
    string or a path recurse on the list, or take the length of the path as fuel,
    with the theorems stating the result outright, never on condition that fuel is
    left.  The calendar's loop over years takes the number of days as fuel.  [yield]
    waits for an interrupt when no process can run: the wait is the result [YWait].
    The driver polls at most 30,000,001 times, a recursion on a binary number.
    The loops of user programs that end only when the kernel answers so (reading to
    the end of a file, the shell's own loop) are [ITree.iter]; the theorems about
    them count the answers.  Jumps of the assembly go forward only, so its programs
    run by recursion on what is left of them.

    ** What is not modelled

    The firmware behind the SBI calls, the linker and the compiler, which are not in the
    repository: their addresses and answers are parameters.  The memory of [Asm] holds
    the trap frames and the kernel stacks; the tables of the kernel are the records of
    the other files, so that the two meet in the frame and not in one memory.  What a
    system call does with a pointer out of its caller's memory ([Stray]).  The state of the
    kernel behind the commands' process calls: [world] has the file system and the console,
    and a program that calls [fork] or [exec] ends there, the kernel's side being in
    [Syscall]; [ShellSafe] has a kernel that answers [fork] and [waitpid].  What a late
    disk device does after a call has returned an error.  The build, the scripts and the documents. *)
From Stdlib Require Import ZArith Lia ZifyBool String Ascii.
From stdpp Require Import base tactics list numbers option strings.

Declare Scope c_scope.
Delimit Scope c_scope with c.
#[global] Open Scope Z_scope.

(** ** C machine integers

    [u8], [u32], [u64] are the values of an unsigned C integer after the
    wrap-around of the assignment; [i32] is the two's complement value of an
    [int] after conversion from a 32-bit pattern. *)
Definition u8 (z : Z) : Z := z mod 256.
Definition u16 (z : Z) : Z := z mod 65536.
Definition u32 (z : Z) : Z := z mod 4294967296.
Definition u64 (z : Z) : Z := z mod 18446744073709551616.
Definition i32 (z : Z) : Z :=
  let w := u32 z in if w <? 2147483648 then w else w - 4294967296.

Lemma u8_small z : 0 ≤ z < 256 → u8 z = z.
Proof. apply Z.mod_small. Qed.
Lemma u32_small z : 0 ≤ z < 4294967296 → u32 z = z.
Proof. apply Z.mod_small. Qed.
Lemma u64_small z : 0 ≤ z < 18446744073709551616 → u64 z = z.
Proof. apply Z.mod_small. Qed.
Lemma u8_range z : 0 ≤ u8 z < 256.
Proof. apply Z.mod_pos_bound. lia. Qed.
Lemma u32_range z : 0 ≤ u32 z < 4294967296.
Proof. apply Z.mod_pos_bound. lia. Qed.
Lemma u64_range z : 0 ≤ u64 z < 18446744073709551616.
Proof. apply Z.mod_pos_bound. lia. Qed.
Lemma i32_small z : -2147483648 ≤ z < 2147483648 → i32 z = z.
Proof.
  intros Hz. unfold i32, u32.
  destruct (decide (0 ≤ z)).
  - rewrite Z.mod_small by lia. destruct (Z.ltb_spec z 2147483648); lia.
  - replace (z mod 4294967296) with (z + 4294967296)
      by (apply Z.mod_unique with (-1); lia).
    destruct (Z.ltb_spec (z + 4294967296) 2147483648); lia.
Qed.

Create HintDb cint.
Create Rewrite HintDb cint.
#[export] Hint Rewrite u8_small u32_small u64_small i32_small using lia : cint.

(** ** Proof automation *)

(** Splits the first [if] of the goal, keeping the test as an equation that
    [lia] reads. *)
Ltac case_if :=
  match goal with
  | |- context [if ?b then _ else _] => destruct b eqn:?
  end.

(** The same in a hypothesis. *)
Ltac case_if_in H :=
  match type of H with
  | context [if ?b then _ else _] => destruct b eqn:?
  end.

(** Proves [b = true], [b = false] and their converses for a test [b] decided by
    linear arithmetic. *)
Ltac ztest :=
  match goal with
  | |- true = _ => symmetry | |- false = _ => symmetry | |- _ => idtac
  end;
  match goal with
  | |- ?b = true => destruct b eqn:?; [reflexivity | exfalso; lia]
  | |- ?b = false => destruct b eqn:?; [exfalso; lia | reflexivity]
  end.

(** [lia] after the equations of the divisions and remainders. *)
Ltac zdiv := Z.to_euclidean_division_equations; lia.

(** ** Kernel panics

    [PANIC] prints and never returns: a routine that can reach it returns
    [None] there. [let! p := e in k] runs [k] on the result of [e] unless [e]
    panics. *)
Notation "'let!' p ':=' e 'in' k" :=
  (match e with Some p => k | None => None end)
  (at level 10, p pattern, e at level 100, k at level 200) : c_scope.
#[global] Open Scope c_scope.

(** ** Counted loops

    [zfor n i body s] is [for (j = i; j < i + n; j++) s = body(j, s)];
    [zfor_opt] is the loop whose body can panic. *)
Fixpoint zfor {S : Type} (n : nat) (i : Z) (body : Z → S → S) (s : S) : S :=
  match n with
  | O => s
  | Datatypes.S n' => zfor n' (i + 1) body (body i s)
  end.

Fixpoint zfor_opt {S : Type} (n : nat) (i : Z) (body : Z → S → option S) (s : S)
  : option S :=
  match n with
  | O => Some s
  | Datatypes.S n' => let! s' := body i s in zfor_opt n' (i + 1) body s'
  end.

Section loops.
Context {S : Type}.

Lemma zfor_inv (P : Z → S → Prop) n i body s :
  P i s →
  (∀ j s', i ≤ j < i + Z.of_nat n → P j s' → P (j + 1) (body j s')) →
  P (i + Z.of_nat n) (zfor n i body s).
Proof.
  revert i s. induction n as [|n IH]; intros i s H0 Hstep; simpl.
  - by rewrite Z.add_0_r.
  - replace (i + Z.of_nat (Datatypes.S n)) with (i + 1 + Z.of_nat n) by lia.
    apply IH.
    + apply Hstep; [lia | done].
    + intros j s' Hj. apply Hstep. lia.
Qed.

Lemma zfor_opt_inv (P : Z → S → Prop) n i body s s1 :
  P i s →
  (∀ j s' s'', i ≤ j < i + Z.of_nat n → P j s' → body j s' = Some s'' → P (j + 1) s'') →
  zfor_opt n i body s = Some s1 →
  P (i + Z.of_nat n) s1.
Proof.
  revert i s. induction n as [|n IH]; intros i s H0 Hstep Hrun; simpl in Hrun.
  - simplify_eq. by rewrite Z.add_0_r.
  - destruct (body i s) as [s'|] eqn:Hb; [|done].
    replace (i + Z.of_nat (Datatypes.S n)) with (i + 1 + Z.of_nat n) by lia.
    apply (IH (i + 1) s'); [|intros; eapply Hstep; eauto; lia|done].
    eapply Hstep; [|done|done]. lia.
Qed.

Lemma zfor_opt_total (P : Z → S → Prop) n i body s :
  P i s →
  (∀ j s', i ≤ j < i + Z.of_nat n → P j s' → ∃ s'', body j s' = Some s'' ∧ P (j + 1) s'') →
  ∃ s1, zfor_opt n i body s = Some s1 ∧ P (i + Z.of_nat n) s1.
Proof.
  revert i s. induction n as [|n IH]; intros i s H0 Hstep; simpl.
  - exists s. by rewrite Z.add_0_r.
  - destruct (Hstep i s) as (s' & Hb & HP); [lia|done|]. rewrite Hb.
    replace (i + Z.of_nat (Datatypes.S n)) with (i + 1 + Z.of_nat n) by lia.
    apply IH; [done|]. intros j s'' Hj. apply Hstep. lia.
Qed.

(** A loop whose body panics only when [short] holds. *)
Lemma zfor_opt_or (short : Prop) (P : Z → S → Prop) n i body s :
  P i s →
  (∀ j s', i ≤ j < i + Z.of_nat n → P j s' →
    match body j s' with Some s'' => P (j + 1) s'' | None => short end) →
  match zfor_opt n i body s with Some s1 => P (i + Z.of_nat n) s1 | None => short end.
Proof.
  revert i s. induction n as [|n IH]; intros i s H0 Hstep; simpl.
  - by rewrite Z.add_0_r.
  - pose proof (Hstep i s ltac:(lia) H0) as Hb. destruct (body i s) as [s'|]; [|done].
    replace (i + Z.of_nat (Datatypes.S n)) with (i + 1 + Z.of_nat n) by lia.
    apply IH; [done|]. intros j s'' Hj. apply Hstep. lia.
Qed.
End loops.

(** ** Byte-addressed memory

    A memory is the function from addresses to bytes; updates are pointwise,
    so equalities between memories are stated pointwise. *)
Definition memory : Type := Z → Z.

Definition mset (r : memory) (a v : Z) : memory :=
  λ x, if x =? a then v else r x.

(** [memset(a, c, n)]. *)
Definition mfill (r : memory) (a c n : Z) : memory :=
  λ x, if (a <=? x) && (x <? a + n) then c else r x.

Lemma mset_eq r a v : mset r a v a = v.
Proof. unfold mset. by rewrite Z.eqb_refl. Qed.
Lemma mset_ne r a v x : x ≠ a → mset r a v x = r x.
Proof. intros. unfold mset. by rewrite (proj2 (Z.eqb_neq x a)). Qed.
Lemma mfill_in r a c n x : a ≤ x < a + n → mfill r a c n x = c.
Proof. intros. unfold mfill. case_if; [done|lia]. Qed.
Lemma mfill_out r a c n x : ¬ (a ≤ x < a + n) → mfill r a c n x = r x.
Proof. intros. unfold mfill. case_if; [lia|done]. Qed.

(** ** Bytes and C strings

    A byte is its value as an [unsigned char] ([char] is unsigned on RISC-V).
    What a [char *] points to is the list of the bytes from there on; the string
    ends at the first NUL byte, and reading just past the end of the list gives
    a NUL, so that a list without NUL is a string with its terminator left
    implicit. *)
Definition bytes (s : string) : list Z :=
  map (λ a, Z.of_N (N_of_ascii a)) (list_ascii_of_string s).

(** A value of [unsigned char]. *)
Definition is_byte (z : Z) : Prop := 0 ≤ z < 256.

Lemma is_bytes_bytes s : Forall is_byte (bytes s).
Proof.
  unfold bytes. apply Forall_map, Forall_true. intros a. unfold is_byte, compose.
  pose proof (Ascii.N_ascii_bounded a). lia.
Qed.

(** The byte at an offset of a pointer. *)
Definition ch (s : list Z) (i : nat) : Z := nth i s 0.

(** The string a pointer denotes. *)
Fixpoint cstr (s : list Z) : list Z :=
  match s with
  | [] => []
  | c :: r => if c =? 0 then [] else c :: cstr r
  end.

Definition no_nul (s : list Z) : Prop := Forall (λ c, c ≠ 0) s.

Lemma cstr_no_nul s : no_nul (cstr s).
Proof.
  induction s as [|c s IH]; simpl; [constructor|].
  case_if; constructor; [lia|done].
Qed.

Lemma cstr_id s : no_nul s → cstr s = s.
Proof. induction 1 as [|c s Hc Hs IH]; simpl; [done|]. case_if; [lia|]. by rewrite IH. Qed.

Lemma cstr_app_nul s r : no_nul s → cstr (s ++ 0 :: r) = s.
Proof. induction 1 as [|c s Hc Hs IH]; simpl; [done|]. case_if; [lia|]. by rewrite IH. Qed.

Lemma cstr_length s : (length (cstr s) ≤ length s)%nat.
Proof. induction s; simpl; [lia|]. case_if; simpl; lia. Qed.

Lemma cstr_prefix s : take (length (cstr s)) s = cstr s.
Proof. induction s; simpl; [done|]. case_if; simpl; [done|]. by f_equal. Qed.

Lemma cstr_take n s : no_nul s → cstr (take n s) = take n s.
Proof. intros. apply cstr_id, Forall_take. done. Qed.

Lemma cstr_idemp s : cstr (cstr s) = cstr s.
Proof. apply cstr_id, cstr_no_nul. Qed.

Lemma no_nul_app s t : no_nul (s ++ t) ↔ no_nul s ∧ no_nul t.
Proof. apply Forall_app. Qed.

#[export] Hint Resolve cstr_no_nul : cint.

(** ** Search loops

    [first_idx p l] is the result of
    [for (i = 0; i < n; i++) if (p(l[i])) return i; return -1;]. *)
Fixpoint first_idx {A : Type} (p : A → bool) (l : list A) : option nat :=
  match l with
  | [] => None
  | x :: r => if p x then Some O else S <$> first_idx p r
  end.

Lemma first_idx_Some {A} (p : A → bool) l i :
  first_idx p l = Some i ↔
  (∃ x, l !! i = Some x ∧ p x = true) ∧
  (∀ j y, (j < i)%nat → l !! j = Some y → p y = false).
Proof.
  revert i. induction l as [|x l IH]; intros i; simpl.
  - split; [done|]. intros [(y&Hy&_) _]. done.
  - destruct (p x) eqn:Hx.
    + split.
      * intros [= <-]. split; [eauto|lia].
      * intros [(y&Hy&Hp) Hmin]. destruct i; [done|].
        rewrite (Hmin O x) in Hx; [done|lia|done].
    + destruct i as [|i]; simpl.
      * split; [by destruct (first_idx p l)|]. intros [(y&Hy&Hp) _]. congruence.
      * rewrite fmap_Some. setoid_rewrite IH. split.
        -- intros (i'&[Hi Hmin]&[= ->]). split; [done|].
           intros [|j] y Hj Hy; simpl in Hy; [congruence|]. eapply Hmin; [|done]. lia.
        -- intros [Hi Hmin]. exists i. split; [split|]; [done| |done].
           intros j y Hj Hy. apply (Hmin (S j)); [lia|done].
Qed.

Lemma first_idx_None {A} (p : A → bool) l :
  first_idx p l = None ↔ ∀ i x, l !! i = Some x → p x = false.
Proof.
  induction l as [|x l IH]; simpl; [done|].
  destruct (p x) eqn:Hx.
  - split; [done|]. intros H. by specialize (H O x eq_refl); congruence.
  - rewrite fmap_None, IH. split.
    + intros H [|i] y Hy; simpl in Hy; [congruence|eauto].
    + intros H i y Hy. by apply (H (S i)).
Qed.

Lemma first_idx_lt {A} (p : A → bool) l i : first_idx p l = Some i → (i < length l)%nat.
Proof.
  intros H. apply first_idx_Some in H as [(x&Hx&_) _]. by eapply lookup_lt_Some.
Qed.

Lemma first_idx_ext {A} (p q : A → bool) l :
  (∀ i x, l !! i = Some x → p x = q x) → first_idx p l = first_idx q l.
Proof.
  induction l as [|x l IH]; simpl; intros H; [done|].
  rewrite (H O x) by done. rewrite IH; [done|]. intros i y Hy. by apply (H (S i)).
Qed.

(** The elements a filter keeps have distinct images when their positions are
    determined by them. *)
Lemma NoDup_filter_map {A B} (f : A → B) (p : A → bool) l :
  (∀ i j x y, l !! i = Some x → l !! j = Some y → p x = true → p y = true → f x = f y → i = j) →
  NoDup (map f (List.filter p l)).
Proof.
  induction l as [|x l IH]; intros Hinj; simpl; [constructor|].
  assert (Hl : NoDup (map f (List.filter p l))).
  { apply IH. intros i j y z Hi Hj Hy Hz He.
    assert (S i = S j) by (by apply (Hinj (S i) (S j) y z)). lia. }
  destruct (p x) eqn:Hx; [|done]. constructor; [|done].
  intros (y&Hf&(Hy%list_elem_of_In&Hp)%filter_In)%list_elem_of_In%in_map_iff.
  apply list_elem_of_lookup in Hy as [j Hj]. by specialize (Hinj O (S j) x y eq_refl Hj Hx Hp (eq_sym Hf)).
Qed.
