(* ===== verification/Memory.v ===== *)
(** * The physical page allocator ([src/kernel/mm/memory.c])

    One bit per page in a bitmap that the allocator keeps at the start of the
    memory it manages.  The bitmap bytes are bytes of [ram], as in the C code,
    so that the allocator's own writes and the zeroing of the pages it hands
    out act on one memory. *)
From Stdlib Require Import ZArith Lia ZifyBool.
From stdpp Require Import base tactics list numbers option.
From S2P Require Import Prelude.

Definition PAGE_SIZE : Z := 4096.

(** The file-scope variables of [memory.c] and the memory they point into. *)
Record mem := Mem {
  page_bitmap : Z;
  managed_base : Z;
  managed_pages : Z;
  memory_initialized : bool;
  ram : memory
}.

Definition set_ram (m : mem) (r : memory) : mem :=
  Mem (page_bitmap m) (managed_base m) (managed_pages m) (memory_initialized m) r.

Definition bitmap_test (m : mem) (idx : Z) : bool :=
  negb (Z.land (Z.shiftr (ram m (page_bitmap m + idx / 8)) (idx mod 8)) 1 =? 0).

Definition bitmap_set (m : mem) (idx : Z) : mem :=
  let a := page_bitmap m + idx / 8 in
  set_ram m (mset (ram m) a (Z.lor (ram m a) (u8 (Z.shiftl 1 (idx mod 8))))).

Definition bitmap_clear (m : mem) (idx : Z) : mem :=
  let a := page_bitmap m + idx / 8 in
  set_ram m (mset (ram m) a (Z.land (ram m a) (u8 (Z.lnot (Z.shiftl 1 (idx mod 8)))))).

(** [free_start] and [free_end] are the linker symbols [__free_ram] and
    [__free_ram_end]. *)
Definition memory_init (free_start free_end : Z) (m : mem) : option (Z * mem) :=
  if free_end <=? free_start then None else
  let total_pages := u32 (free_end - free_start) / PAGE_SIZE in
  if total_pages =? 0 then None else
  let bitmap_bytes := u32 (total_pages + 7) / 8 in
  let bitmap_pages := u32 (bitmap_bytes + PAGE_SIZE - 1) / PAGE_SIZE in
  if total_pages <=? bitmap_pages then None else
  let r := mfill (ram m) free_start 0 (u32 (bitmap_pages * PAGE_SIZE)) in
  Some (total_pages,
        Mem free_start (u32 (free_start + bitmap_pages * PAGE_SIZE))
            (u32 (total_pages - bitmap_pages)) true r).

(** The loop of [alloc_pages] over [i], [managed_pages - i] iterations left:
    the index [i] at which the run of free pages reaches [n]. *)
Fixpoint alloc_scan (m : mem) (n : Z) (left : nat) (i run : Z) : option Z :=
  match left with
  | O => None
  | S left' =>
      if bitmap_test m i then alloc_scan m n left' (i + 1) 0
      else
        let run := u32 (run + 1) in
        if run =? n then Some i else alloc_scan m n left' (i + 1) run
  end.

Definition alloc_pages (n : Z) (m : mem) : option (Z * mem) :=
  if negb (memory_initialized m) then None else
  if (n =? 0) || (managed_pages m <? n) then None else
  let! i := alloc_scan m n (Z.to_nat (managed_pages m)) 0 0 in
  let start := u32 (i + 1 - n) in
  let m1 := zfor (Z.to_nat (i + 1 - start)) start (λ j m, bitmap_set m j) m in
  let paddr := u32 (managed_base m + u32 (start * PAGE_SIZE)) in
  Some (paddr, set_ram m1 (mfill (ram m1) paddr 0 (u32 (n * PAGE_SIZE)))).

(** The body of the loop of [free_pages]: iteration [i] of a free from page
    [start] on. *)
Definition free_page_at (start i : Z) (m : mem) : option mem :=
  let idx := u32 (start + i) in
  if negb (bitmap_test m idx) then None else Some (bitmap_clear m idx).

Definition free_pages (paddr n : Z) (m : mem) : option mem :=
  if negb (memory_initialized m) then None else
  if n =? 0 then None else
  if negb (paddr mod PAGE_SIZE =? 0) then None else
  if paddr <? managed_base m then None else
  let start := u32 (paddr - managed_base m) / PAGE_SIZE in
  if (managed_pages m <=? start) || (managed_pages m <? u32 (start + n)) then None else
  zfor_opt (Z.to_nat n) 0 (free_page_at start) m.

Definition bitmap_page_state (index : Z) (m : mem) : option Z :=
  if negb (memory_initialized m) then None else
  if (index <? 0) || (managed_pages m <=? u32 index) then Some (-1)
  else Some (if bitmap_test m (u32 index) then 1 else 0).

Definition bitmap_page_count (m : mem) : option Z :=
  if negb (memory_initialized m) then None else Some (i32 (managed_pages m)).

(** ** Bits of the bitmap *)

Lemma bitmap_test_testbit m i :
  bitmap_test m i = Z.testbit (ram m (page_bitmap m + i / 8)) (i mod 8).
Proof.
  unfold bitmap_test. rewrite (Z.land_ones _ 1) by lia.
  change (2 ^ 1) with 2. rewrite <-Z.bit0_mod, Z.shiftr_spec by lia.
  replace (0 + i mod 8) with (i mod 8) by lia.
  by destruct (Z.testbit _ _).
Qed.

Lemma testbit_u8 x k : 0 ≤ k < 8 → Z.testbit (u8 x) k = Z.testbit x k.
Proof. intros. unfold u8. change 256 with (2 ^ 8). apply Z.mod_pow2_bits_low. lia. Qed.

Lemma testbit_shiftl_1 k j : 0 ≤ k → 0 ≤ j → Z.testbit (Z.shiftl 1 k) j = (j =? k).
Proof.
  intros. rewrite Z.shiftl_1_l. destruct (Z.eqb_spec j k) as [->|].
  - by apply Z.pow2_bits_true.
  - apply Z.pow2_bits_false. lia.
Qed.

Lemma same_slot i j : j / 8 = i / 8 → (j mod 8 =? i mod 8) = (j =? i).
Proof. intros. destruct (Z.eqb_spec j i), (Z.eqb_spec (j mod 8) (i mod 8)); zdiv. Qed.

Lemma bitmap_test_set m i j :
  bitmap_test (bitmap_set m i) j = (j =? i) || bitmap_test m j.
Proof.
  rewrite !bitmap_test_testbit. unfold bitmap_set, mset. cbn [ram page_bitmap set_ram].
  case_if.
  - rewrite Z.lor_spec, testbit_u8, testbit_shiftl_1 by zdiv.
    rewrite same_slot by lia. replace (i / 8) with (j / 8) by lia. apply orb_comm.
  - destruct (Z.eqb_spec j i); [subst; lia|done].
Qed.

Lemma bitmap_test_clear m i j :
  bitmap_test (bitmap_clear m i) j = negb (j =? i) && bitmap_test m j.
Proof.
  rewrite !bitmap_test_testbit. unfold bitmap_clear, mset. cbn [ram page_bitmap set_ram].
  case_if.
  - rewrite Z.land_spec, testbit_u8, Z.lnot_spec, testbit_shiftl_1 by zdiv.
    rewrite same_slot by lia. replace (i / 8) with (j / 8) by lia. apply andb_comm.
  - destruct (Z.eqb_spec j i); [subst; lia|done].
Qed.

(** ** Invariant *)

(** Two allocator states with the same geometry: only bitmap bits and page
    contents differ. *)
Definition same_geometry (m m' : mem) : Prop :=
  page_bitmap m' = page_bitmap m ∧ managed_base m' = managed_base m ∧
  managed_pages m' = managed_pages m ∧ memory_initialized m' = memory_initialized m.

#[export] Instance same_geometry_equiv : Equivalence same_geometry.
Proof.
  split.
  - by intros m.
  - intros m m' (?&?&?&?). by repeat split.
  - intros m1 m2 m3 (?&?&?&?) (?&?&?&?). repeat split; congruence.
Qed.

(** The bytes of the bitmap. *)
Definition in_bitmap (m : mem) (x : Z) : Prop :=
  page_bitmap m ≤ x < page_bitmap m + (managed_pages m + 7) / 8.

(** The bitmap lies below the managed pages, which lie below 4 GiB. *)
Record mem_ok (m : mem) : Prop := {
  ok_initialized : memory_initialized m = true;
  ok_bitmap : 0 ≤ page_bitmap m;
  ok_bitmap_below : page_bitmap m + (managed_pages m + 7) / 8 ≤ managed_base m;
  ok_aligned : managed_base m mod PAGE_SIZE = 0;
  ok_pages : 0 ≤ managed_pages m;
  ok_top : managed_base m + managed_pages m * PAGE_SIZE ≤ 4294967296
}.

#[export] Instance mem_ok_proper : Proper (same_geometry ==> iff) mem_ok.
Proof.
  intros m m' (H1&H2&H3&H4).
  split; intros []; split; congruence.
Qed.

(** [n] free pages from page [s] on. *)
Definition free_run (m : mem) (s n : Z) : Prop :=
  0 ≤ s ∧ s + n ≤ managed_pages m ∧ ∀ j, s ≤ j < s + n → bitmap_test m j = false.

(** The bits of [m'] are those of [m] with the run [s .. s + n - 1] set to
    [b]; no byte outside the bitmap and outside [lo .. hi - 1] changes. *)
Definition run_changed (m m' : mem) (s n : Z) (b : bool) (lo hi : Z) : Prop :=
  same_geometry m m' ∧
  (∀ j, 0 ≤ j < managed_pages m →
     bitmap_test m' j = if (s <=? j) && (j <? s + n) then b else bitmap_test m j) ∧
  (∀ x, ¬ in_bitmap m x → ¬ (lo ≤ x < hi) → ram m' x = ram m x).

(** ** The scan of [alloc_pages] *)

Lemma alloc_scan_spec m n left i run :
  0 ≤ run < n → n ≤ managed_pages m → managed_pages m < 4294967296 →
  i + Z.of_nat left = managed_pages m → run ≤ i →
  (∀ j, i - run ≤ j < i → bitmap_test m j = false) →
  (∀ s, free_run m s n → i - run ≤ s) →
  match alloc_scan m n left i run with
  | Some k => free_run m (k + 1 - n) n ∧ (∀ s, free_run m s n → k + 1 - n ≤ s)
  | None => ∀ s, ¬ free_run m s n
  end.
Proof.
  revert i run. induction left as [|left IH]; intros i run Hrun Hn Hw Hi Hri Hfree Hmin; simpl.
  - intros s Hs. pose proof (Hmin s Hs). destruct Hs. lia.
  - destruct (bitmap_test m i) eqn:Hbit.
    + apply IH; try lia. intros s Hs. pose proof (Hmin s Hs).
      destruct (decide (i < s)); [lia|]. destruct Hs as (_&_&Hs).
      rewrite Hs in Hbit by lia. done.
    + rewrite u32_small by lia.
      assert (Hfree' : ∀ j, i - run ≤ j < i + 1 → bitmap_test m j = false).
      { intros j Hj. destruct (decide (j = i)) as [->|]; [done|apply Hfree; lia]. }
      destruct (Z.eqb_spec (run + 1) n) as [Heq|Hne].
      * split; [|intros s Hs; pose proof (Hmin s Hs); lia].
        split_and!; [lia..|]. intros j Hj. apply Hfree'. lia.
      * apply IH; try lia.
        -- intros j Hj. apply Hfree'. lia.
        -- intros s Hs. pose proof (Hmin s Hs). lia.
Qed.

(** Setting the bits of a run. *)
Lemma bitmap_set_range m s n :
  mem_ok m → 0 ≤ s → 0 ≤ n → s + n ≤ managed_pages m →
  run_changed m (zfor (Z.to_nat n) s (λ j m, bitmap_set m j) m) s n true 0 0.
Proof.
  intros Hok Hs Hn Htop.
  cut (let m1 := zfor (Z.to_nat n) s (λ j m, bitmap_set m j) m in
       run_changed m m1 s (s + Z.of_nat (Z.to_nat n) - s) true 0 0).
  { simpl. by replace (s + Z.of_nat (Z.to_nat n) - s) with n by lia. }
  simpl. apply (zfor_inv (λ k m', run_changed m m' s (k - s) true 0 0)).
  - split; [done|split; [|done]]. intros j Hj. case_if; [lia|done].
  - intros k m' Hk ((G1&G2&G3&G4) & Hbits & Hram).
    assert (Hg : same_geometry m (bitmap_set m' k)) by done.
    split; [done|split].
    + intros j Hj. rewrite bitmap_test_set, Hbits by lia.
      destruct (Z.eqb_spec j k); repeat case_if; try lia; done.
    + intros x Hx Hlo. unfold bitmap_set. cbn [ram set_ram].
      rewrite mset_ne; [by apply Hram|].
      intros ->. apply Hx. unfold in_bitmap. rewrite G1. zdiv.
Qed.

(** Clearing the bits of a run, with the double-free check. *)
Lemma bitmap_clear_range m s n :
  mem_ok m → 0 ≤ s → 0 ≤ n → s + n ≤ managed_pages m → managed_pages m < 4294967296 →
  (∀ j, s ≤ j < s + n → bitmap_test m j = true) →
  ∃ m', zfor_opt (Z.to_nat n) 0 (free_page_at s) m = Some m' ∧ run_changed m m' s n false 0 0.
Proof.
  intros Hok Hs Hn Htop Hw Hused.
  destruct (zfor_opt_total (λ k m', run_changed m m' s k false 0 0) (Z.to_nat n) 0
    (free_page_at s) m) as (m' & Hrun & HP).
  - split; [done|split; [|done]]. intros j Hj. case_if; [lia|done].
  - intros k m' Hk ((G1&G2&G3&G4) & Hbits & Hram). unfold free_page_at.
    rewrite u32_small by lia. rewrite Hbits by lia.
    replace ((s <=? s + k) && (s + k <? s + k)) with false by lia.
    rewrite Hused by lia. simpl. eexists; split; [done|].
    split; [done|split].
    + intros j Hj. rewrite bitmap_test_clear, Hbits by lia.
      destruct (Z.eqb_spec j (s + k)); repeat case_if; try lia; done.
    + intros x Hx Hlo. unfold bitmap_clear. cbn [ram set_ram].
      rewrite mset_ne; [by apply Hram|].
      intros ->. apply Hx. unfold in_bitmap. rewrite G1. zdiv.
  - exists m'. split; [done|]. by replace n with (0 + Z.of_nat (Z.to_nat n)) by lia.
Qed.

(** The loop of [free_pages] ends without a panic only on pages in use. *)
Lemma bitmap_clear_range_inv m m' s n :
  0 ≤ s → 0 ≤ n → s + n ≤ 4294967296 →
  zfor_opt (Z.to_nat n) 0 (free_page_at s) m = Some m' →
  ∀ j, s ≤ j < s + n → bitmap_test m j = true.
Proof.
  intros Hs Hn Hw Hrun.
  apply (zfor_opt_inv (λ k m', (∀ j, s + k ≤ j → bitmap_test m' j = bitmap_test m j) ∧
    ∀ j, s ≤ j < s + k → bitmap_test m j = true)) in Hrun as [_ Hall].
  - intros j Hj. apply Hall. lia.
  - split; [done|lia].
  - intros k m1 m2 Hk [Hrest Hdone] Hbody. unfold free_page_at in Hbody.
    rewrite u32_small in Hbody by lia.
    destruct (bitmap_test m1 (s + k)) eqn:Hbit; simplify_eq/=. split.
    + intros j Hj. rewrite bitmap_test_clear, Hrest by lia.
      destruct (Z.eqb_spec j (s + k)); [lia|done].
    + intros j Hj. destruct (decide (j = s + k)) as [->|]; [|apply Hdone; lia].
      rewrite <-Hrest by lia. done.
Qed.

Lemma mem_ok_width m : mem_ok m → 0 ≤ managed_pages m < 4294967296.
Proof. intros []. unfold PAGE_SIZE in *. assert (0 ≤ managed_base m) by zdiv. lia. Qed.

(** Writing outside the bitmap leaves every bit alone. *)
Lemma bitmap_test_set_ram m r i :
  0 ≤ i < managed_pages m →
  (∀ x, in_bitmap m x → r x = ram m x) →
  bitmap_test (set_ram m r) i = bitmap_test m i.
Proof.
  intros Hi Hr. rewrite !bitmap_test_testbit. cbn [ram page_bitmap set_ram].
  rewrite Hr; [done|]. unfold in_bitmap. zdiv.
Qed.

(** ** What the allocator promises *)

(** What [alloc_pages n] does to a well-formed allocator: the lowest run of [n]
    free pages. *)
Definition first_fit (m : mem) (n p : Z) (m' : mem) : Prop :=
  ∃ s, p = managed_base m + s * PAGE_SIZE ∧ free_run m s n ∧
    (∀ s', free_run m s' n → s ≤ s') ∧
    run_changed m m' s n true p (p + n * PAGE_SIZE) ∧
    (∀ x, p ≤ x < p + n * PAGE_SIZE → ram m' x = 0).

Lemma alloc_pages_outcome m n :
  mem_ok m → 1 ≤ n ≤ managed_pages m →
  match alloc_pages n m with
  | Some (p, m') => first_fit m n p m'
  | None => ∀ s, ¬ free_run m s n
  end.
Proof.
  intros Hok Hn. pose proof (mem_ok_width m Hok) as Hw.
  unfold alloc_pages. rewrite (ok_initialized m Hok). simpl.
  replace ((n =? 0) || (managed_pages m <? n)) with false by lia.
  pose proof (alloc_scan_spec m n (Z.to_nat (managed_pages m)) 0 0) as Hscan.
  destruct (alloc_scan m n (Z.to_nat (managed_pages m)) 0 0) as [k|];
    [|apply Hscan; try lia; intros s []; lia].
  destruct Hscan as [Hrun Hmin]; try lia; [intros s []; lia|].
  destruct (Hrun) as (Hs0 & Hs1 & _).
  assert (Hbase : 0 < managed_base m ∧ managed_base m + managed_pages m * 4096 ≤ 4294967296).
  { destruct Hok. unfold PAGE_SIZE in *. zdiv. }
  assert (Hs : u32 (k + 1 - n) = k + 1 - n) by (apply u32_small; lia).
  rewrite Hs. replace (k + 1 - (k + 1 - n)) with n by lia. set (s := k + 1 - n) in *.
  unfold PAGE_SIZE. rewrite (u32_small (s * 4096)), (u32_small (n * 4096)), u32_small by lia.
  destruct (bitmap_set_range m s n) as ((G1&G2&G3&G4) & Hbits & Hram); [done|lia..|].
  exists s. split; [done|split; [done|split; [done|split]]].
  - split; [done|split].
    + intros j Hj. rewrite bitmap_test_set_ram; [by apply Hbits|lia|].
      intros x Hx. apply mfill_out. unfold in_bitmap in Hx. rewrite G1, G3 in Hx.
      pose proof (ok_bitmap_below m Hok). lia.
    + intros x Hx Hlo. cbn [ram set_ram]. unfold PAGE_SIZE in Hlo.
      rewrite mfill_out by lia. apply Hram; [done|lia].
  - intros x Hx. cbn [ram set_ram]. by apply mfill_in.
Qed.

Lemma first_fit_ok m n p m' : mem_ok m → first_fit m n p m' → mem_ok m'.
Proof. intros Hok (s & _ & _ & _ & [Hg _] & _). by rewrite <-Hg. Qed.

Lemma free_pages_outcome m s n :
  mem_ok m → 0 ≤ s → 1 ≤ n → s + n ≤ managed_pages m →
  (∀ j, s ≤ j < s + n → bitmap_test m j = true) →
  ∃ m', free_pages (managed_base m + s * PAGE_SIZE) n m = Some m' ∧
        run_changed m m' s n false 0 0.
Proof.
  intros Hok Hs Hn Htop Hused. pose proof (mem_ok_width m Hok) as Hw.
  unfold free_pages. rewrite (ok_initialized m Hok). simpl.
  assert (Hal : (managed_base m + s * PAGE_SIZE) mod PAGE_SIZE = 0).
  { pose proof (ok_aligned m Hok). unfold PAGE_SIZE in *. zdiv. }
  rewrite Hal. replace (n =? 0) with false by lia. simpl.
  replace (managed_base m + s * PAGE_SIZE <? managed_base m) with false
    by (unfold PAGE_SIZE; lia).
  replace (managed_base m + s * PAGE_SIZE - managed_base m) with (s * PAGE_SIZE) by lia.
  assert (Hst : u32 (s * PAGE_SIZE) / PAGE_SIZE = s).
  { destruct Hok. unfold PAGE_SIZE in *. rewrite u32_small by zdiv. zdiv. }
  rewrite Hst. rewrite u32_small by lia.
  replace ((managed_pages m <=? s) || (managed_pages m <? s + n)) with false by lia.
  apply bitmap_clear_range; done || lia.
Qed.

(** C36. First-fit allocation is complete and sound: on a well-formed allocator
    and for a request between one page and all of them, [alloc_pages] returns
    the lowest run of free pages, marks exactly that run as used, zeroes its
    pages, changes no other byte outside its bitmap and keeps the allocator
    well formed; it panics only if there is no such run. *)
Theorem alloc_pages_first_fit m n :
  mem_ok m → 1 ≤ n ≤ managed_pages m →
  match alloc_pages n m with
  | Some (p, m') => first_fit m n p m' ∧ mem_ok m'
  | None => ∀ s, ¬ free_run m s n
  end.
Proof.
  intros Hok Hn. pose proof (alloc_pages_outcome m n Hok Hn) as H.
  destruct (alloc_pages n m) as [[p m']|]; [|done]. eauto using first_fit_ok.
Qed.

(** No double free, no foreign free: for a page count that does not wrap,
    [free_pages] returns exactly when the address is that of a run of managed
    pages all of which are in use, and then it clears exactly their bits. *)
Theorem free_pages_exact m p n :
  mem_ok m → 0 ≤ p < 4294967296 → 0 ≤ n < 4294967296 - managed_pages m →
  (∃ s, p = managed_base m + s * PAGE_SIZE ∧ 0 ≤ s ∧ 1 ≤ n ∧ s + n ≤ managed_pages m ∧
        (∀ j, s ≤ j < s + n → bitmap_test m j = true) ∧
        ∃ m', free_pages p n m = Some m' ∧ run_changed m m' s n false 0 0 ∧ mem_ok m')
  ∨ free_pages p n m = None.
Proof.
  intros Hok Hp Hn. destruct (free_pages p n m) as [m'|] eqn:Hfree; [left|by right].
  pose proof (mem_ok_width m Hok) as Hw. pose proof (ok_aligned m Hok) as Hal.
  pose proof Hfree as Hkeep.
  unfold free_pages in Hfree. rewrite (ok_initialized m Hok) in Hfree. simpl in Hfree.
  destruct (n =? 0) eqn:Hn0; [done|].
  destruct (negb (p mod PAGE_SIZE =? 0)) eqn:Hpal; [done|].
  destruct (p <? managed_base m) eqn:Hlo; [done|].
  assert (0 ≤ managed_base m) by (destruct Hok; unfold PAGE_SIZE in *; zdiv).
  rewrite (u32_small (p - _)) in Hfree by lia.
  set (s := (p - managed_base m) / PAGE_SIZE) in *.
  assert (Hps : p = managed_base m + s * PAGE_SIZE).
  { unfold s, PAGE_SIZE in *. zdiv. }
  destruct (managed_pages m <=? s) eqn:Hs1; [done|]. simpl in Hfree.
  rewrite u32_small in Hfree by (unfold s, PAGE_SIZE in *; zdiv).
  destruct (managed_pages m <? s + n) eqn:Hs2; [done|].
  assert (0 ≤ s) by (unfold s, PAGE_SIZE; zdiv).
  assert (Hused : ∀ j, s ≤ j < s + n → bitmap_test m j = true).
  { eapply bitmap_clear_range_inv; [..|exact Hfree]; lia. }
  exists s. split_and!; [done|lia..|done|].
  destruct (free_pages_outcome m s n) as (m'' & Hf & Hch); [done|lia..|done|].
  rewrite <-Hps, Hkeep in Hf. simplify_eq. exists m''.
  split; [done|split; [done|]]. destruct Hch as [Hg _]. by rewrite <-Hg.
Qed.

(** Freeing what was just allocated gives every page back its bit. *)
Theorem alloc_free_roundtrip m n p m1 :
  mem_ok m → 1 ≤ n ≤ managed_pages m → alloc_pages n m = Some (p, m1) →
  ∃ m2, free_pages p n m1 = Some m2 ∧ same_geometry m m2 ∧
    ∀ j, 0 ≤ j < managed_pages m → bitmap_test m2 j = bitmap_test m j.
Proof.
  intros Hok Hn Halloc. pose proof (alloc_pages_outcome m n Hok Hn) as Hff.
  rewrite Halloc in Hff. pose proof (first_fit_ok _ _ _ _ Hok Hff) as Hok1.
  destruct Hff as (s & -> & (Hs0&Hs1&Hfree) & _ & (Hg&Hbits&_) & _).
  pose proof Hg as (_ & G2 & G3 & _). rewrite <-G2.
  destruct (free_pages_outcome m1 s n) as (m2 & -> & Hg2 & Hbits2 & _); [done|lia..| |].
  { intros j Hj. rewrite Hbits by lia. case_if; [done|lia]. }
  exists m2. split; [done|split; [by transitivity m1|]].
  intros j Hj. rewrite Hbits2, Hbits by lia. repeat case_if; try done.
  symmetry. apply Hfree. lia.
Qed.

(** Initialisation: over a page-aligned range of at least two pages below
    4 GiB, [memory_init] returns the page count of the range and leaves a
    well-formed allocator whose managed pages are all free, follow the bitmap
    and end within the range. *)
Theorem memory_init_ok lo hi m :
  lo mod PAGE_SIZE = 0 → 0 ≤ lo → lo + 2 * PAGE_SIZE ≤ hi < 4294967296 →
  ∃ m', memory_init lo hi m = Some ((hi - lo) / PAGE_SIZE, m') ∧ mem_ok m' ∧
    1 ≤ managed_pages m' ∧
    managed_base m' + managed_pages m' * PAGE_SIZE = lo + (hi - lo) / PAGE_SIZE * PAGE_SIZE ∧
    ∀ j, 0 ≤ j < managed_pages m' → bitmap_test m' j = false.
Proof.
  intros Hal Hlo Hhi. unfold memory_init, PAGE_SIZE in *.
  replace (hi <=? lo) with false by lia.
  rewrite (u32_small (hi - lo)) by lia. set (t := (hi - lo) / 4096).
  assert (2 ≤ t < 1048576) by (unfold t; zdiv).
  replace (t =? 0) with false by lia.
  rewrite (u32_small (t + 7)) by lia.
  rewrite (u32_small ((t + 7) / 8 + 4096 - 1)) by zdiv.
  set (b := ((t + 7) / 8 + 4096 - 1) / 4096).
  assert (1 ≤ b < t ∧ (t + 7) / 8 ≤ b * 4096) by (unfold b; zdiv).
  replace (t <=? b) with false by lia.
  assert (t * 4096 ≤ hi - lo) by (unfold t; zdiv).
  clearbody t b. rewrite !u32_small by lia. eexists; split; [done|]. cbn.
  split; [split; cbn; unfold PAGE_SIZE; zdiv|].
  split; [lia|split; [lia|]]. intros j Hj.
  rewrite bitmap_test_testbit. cbn.
  assert (j / 8 < b * 4096) by zdiv. assert (0 ≤ j / 8) by zdiv.
  rewrite mfill_in by lia. apply Z.testbit_0_l.
Qed.

(** ** Witnesses *)

(** Eight pages above 0x80400000: one for the bitmap, seven managed. *)
Definition demo_mem : mem :=
  Mem 2151677952 2151682048 7 true (λ x, if x =? 2151677952 then 5 else 0).

Lemma demo_mem_ok : mem_ok demo_mem.
Proof. split; by vm_compute. Qed.

Lemma alloc_pages_first_fit_witness :
  ∃ p m', alloc_pages 2 demo_mem = Some (p, m') ∧ p = 2151682048 + 3 * PAGE_SIZE ∧
          first_fit demo_mem 2 p m'.
Proof.
  pose proof (alloc_pages_first_fit demo_mem 2 demo_mem_ok) as H.
  assert (Hp : fst <$> alloc_pages 2 demo_mem = Some (2151682048 + 3 * PAGE_SIZE))
    by (vm_compute; reflexivity).
  destruct (alloc_pages 2 demo_mem) as [[p m']|]; [|discriminate].
  exists p, m'. split; [done|]. split; [by simplify_eq/=|]. apply H. cbn. lia.
Defined.

Lemma free_pages_exact_witness :
  (∃ m', free_pages 2151682048 1 demo_mem = Some m') ∧ free_pages 2151682048 2 demo_mem = None.
Proof.
  split; [|reflexivity].
  destruct (free_pages_exact demo_mem 2151682048 1 demo_mem_ok) as [(s&?&?&?&?&?&m'&?&?)|H];
    [lia|cbn; lia|eauto|].
  assert (Hf : (λ _, tt) <$> free_pages 2151682048 1 demo_mem = Some tt) by (vm_compute; reflexivity).
  rewrite H in Hf. discriminate.
Defined.

Lemma alloc_free_roundtrip_witness :
  ∃ p m1 m2, alloc_pages 3 demo_mem = Some (p, m1) ∧ free_pages p 3 m1 = Some m2 ∧
    bitmap_test m2 3 = false.
Proof.
  assert (Hp : fst <$> alloc_pages 3 demo_mem = Some (2151682048 + 3 * PAGE_SIZE))
    by (vm_compute; reflexivity).
  destruct (alloc_pages 3 demo_mem) as [[p m1]|] eqn:Ha; [|discriminate].
  destruct (alloc_free_roundtrip demo_mem 3 p m1 demo_mem_ok) as (m2 & Hf & _ & Hb);
    [cbn; lia|done|].
  exists p, m1, m2. split; [done|split; [done|]]. rewrite Hb by (cbn; lia). reflexivity.
Defined.

Lemma memory_init_ok_witness :
  ∃ m', memory_init 2151677952 (2151677952 + 67108864) demo_mem = Some (16384, m') ∧ mem_ok m'.
Proof.
  destruct (memory_init_ok 2151677952 (2151677952 + 67108864) demo_mem)
    as (m' & Hi & Hok & _); [reflexivity|lia|unfold PAGE_SIZE; lia|].
  exists m'. split; [exact Hi|exact Hok].
Defined.
