(* ===== verification/CString.v ===== *)
(** * Strings, decimal output and formatted printing ([src/lib/commonlibs.c])

    A [char *] that a routine writes through is the list of the bytes from
    the pointer to the end of its array, and advancing the pointer is taking
    the tail; NULL arguments, which no caller of these routines passes, are not
    represented. *)
From Stdlib Require Import ZArith Lia ZifyBool.
From stdpp Require Import base tactics list numbers option strings.
From S2P Require Import Prelude.

(** ** Copying *)

(** [while (remain-- && *src) *d++ = *src++; *d = '\0';] *)
Fixpoint copy_bounded (remain : nat) (src d : list Z) : list Z :=
  match d with
  | [] => []
  | _ :: d' =>
      match remain with
      | O => 0 :: d'
      | S remain' =>
          if ch src 0 =? 0 then 0 :: d' else ch src 0 :: copy_bounded remain' (tail src) d'
      end
  end.

Definition strcpy_s (dst : list Z) (n : Z) (src : list Z) : list Z :=
  if n =? 0 then dst else copy_bounded (Z.to_nat (n - 1)) src dst.

(** [while (len < n && dst[len] != '\0') len++;] *)
Fixpoint scan_bounded (n : nat) (dst : list Z) : nat :=
  match n with
  | O => O
  | S n' => if ch dst 0 =? 0 then O else S (scan_bounded n' (tail dst))
  end.

Definition strcat_s (dst : list Z) (n : Z) (src : list Z) : list Z :=
  if n =? 0 then dst else
  let len := scan_bounded (Z.to_nat n) dst in
  if Z.of_nat len =? n then <[Z.to_nat (n - 1) := 0]> dst
  else take len dst ++ copy_bounded (Z.to_nat (n - Z.of_nat len - 1)) src (drop len dst).

(** [while ( *src ) *d++ = *src++; *d = '\0';] *)
Fixpoint copy_string (src d : list Z) : list Z :=
  match src, d with
  | _, [] => []
  | [], _ :: d' => 0 :: d'
  | c :: src', _ :: d' => if c =? 0 then 0 :: d' else c :: copy_string src' d'
  end.

Definition strcpy (dst src : list Z) : list Z := copy_string src dst.

Definition strcat (dst src : list Z) : list Z :=
  let len := length (cstr dst) in take len dst ++ copy_string src (drop len dst).

Fixpoint memcpy (n : nat) (src dst : list Z) : list Z :=
  match n, src, dst with
  | S n', c :: src', _ :: dst' => c :: memcpy n' src' dst'
  | _, _, _ => dst
  end.

Fixpoint memset (n : nat) (c : Z) (buf : list Z) : list Z :=
  match n, buf with
  | S n', _ :: buf' => u8 c :: memset n' c buf'
  | _, _ => buf
  end.

(** ** Comparing *)

Fixpoint strcmp (s1 s2 : list Z) : Z :=
  match s1 with
  | [] => 0 - ch s2 0
  | c :: s1' =>
      if (c =? 0) || (ch s2 0 =? 0) || negb (c =? ch s2 0) then c - ch s2 0
      else strcmp s1' (tail s2)
  end.

(** ** Appending to a bounded buffer

    The pair of the buffer [out] and of [*pos]; a routine returns whether it
    returned 0 and the pair it leaves. *)
Record abuf := ABuf { out : list Z; pos : Z }.

Definition append_char (out_size : Z) (b : abuf) (c : Z) : bool * abuf :=
  if out_size <=? u32 (pos b + 1) then (false, b)
  else
    let p := u32 (pos b + 1) in
    (true, ABuf (<[Z.to_nat p := 0]> (<[Z.to_nat (pos b) := c]> (out b))) p).

Notation "'append!' b ':=' e 'in' k" :=
  (match e with (true, b) => k | (false, b) => (false, b) end)
  (at level 10, b name, e at level 100, k at level 200) : c_scope.

Fixpoint append_str (out_size : Z) (b : abuf) (s : list Z) : bool * abuf :=
  match s with
  | [] => (true, b)
  | c :: s' =>
      if c =? 0 then (true, b)
      else append! b := append_char out_size b c in append_str out_size b s'
  end.

(** [while (v > 0 && n < 10) { tmp[n++] = '0' + v % 10; v /= 10; }]: [tmp],
    least significant digit first. *)
Fixpoint u32_digits (left : nat) (v : Z) : list Z :=
  match left with
  | O => []
  | S left' => if v <=? 0 then [] else u8 (48 + v mod 10) :: u32_digits left' (v / 10)
  end.

(** [for (i = n - 1; i >= 0; i--) append_char(tmp[i])]. *)
Fixpoint append_chars (out_size : Z) (b : abuf) (cs : list Z) : bool * abuf :=
  match cs with
  | [] => (true, b)
  | c :: cs' => append! b := append_char out_size b c in append_chars out_size b cs'
  end.

Definition append_u32 (out_size : Z) (b : abuf) (v : Z) : bool * abuf :=
  if v =? 0 then append_char out_size b 48
  else append_chars out_size b (rev (u32_digits 10 v)).

Definition append_2d (out_size : Z) (b : abuf) (v : Z) : bool * abuf :=
  append! b := append_char out_size b (u8 (48 + (v / 10) mod 10)) in
  append_char out_size b (u8 (48 + v mod 10)).

(** ** [printf]

    The bytes given to [putchar], for the arguments the format consumes; a
    conversion without its argument, undefined in C, prints nothing. *)
Inductive arg := AStr (s : list Z) | AInt (v : Z).

(** [while (magnitude / divisor > 9) divisor *= 10;] *)
Fixpoint top_divisor (fuel : nat) (magnitude divisor : Z) : option Z :=
  match fuel with
  | O => None
  | S f =>
      if 9 <? magnitude / divisor then top_divisor f magnitude (u32 (divisor * 10))
      else Some divisor
  end.

(** [while (divisor > 0) { putchar('0' + magnitude / divisor); ... }] *)
Fixpoint put_digits (fuel : nat) (magnitude divisor : Z) : option (list Z) :=
  match fuel with
  | O => None
  | S f =>
      if 0 <? divisor then
        (u8 (48 + magnitude / divisor) ::.) <$> put_digits f (magnitude mod divisor) (divisor / 10)
      else Some []
  end.

Definition print_fuel : nat := 12.

Definition print_decimal (value : Z) : option (list Z) :=
  let sign := if value <? 0 then [45] else [] in
  let magnitude := if value <? 0 then u32 (- u32 value) else u32 value in
  let! divisor := top_divisor print_fuel magnitude 1 in
  app sign <$> put_digits print_fuel magnitude divisor.

Definition hex_digits : list Z := bytes "0123456789abcdef".

Definition print_hex (value : Z) : list Z :=
  map (λ i, ch hex_digits (Z.to_nat (Z.land (Z.shiftr value (i * 4)) 15)))
      [7; 6; 5; 4; 3; 2; 1; 0].

Fixpoint printf (fmt : list Z) (args : list arg) : option (list Z) :=
  match fmt with
  | [] => Some []
  | c :: fmt1 =>
      if c =? 0 then Some []
      else if c =? 37 then
        match fmt1 with
        | [] => Some [37]
        | d :: fmt2 =>
            if d =? 0 then Some [37]
            else if d =? 37 then ([37] ++.) <$> printf fmt2 args
            else if d =? 115 then
              match args with
              | AStr s :: args' => (cstr s ++.) <$> printf fmt2 args'
              | _ => printf fmt2 args
              end
            else if d =? 100 then
              match args with
              | AInt v :: args' =>
                  let! n := print_decimal v in (n ++.) <$> printf fmt2 args'
              | _ => printf fmt2 args
              end
            else if d =? 120 then
              match args with
              | AInt v :: args' => (print_hex (u32 v) ++.) <$> printf fmt2 args'
              | _ => printf fmt2 args
              end
            else printf fmt2 args
        end
      else (c ::.) <$> printf fmt1 args
  end.

Example printf_ex :
  printf (bytes "pid=%d %s%%%x") [AInt (-2147483648); AStr (bytes "ok"); AInt 255]
  = Some (bytes "pid=-2147483648 ok%000000ff").
Proof. reflexivity. Qed.

(** ** Reference notions *)

Definition is_digit (c : Z) : Prop := 48 ≤ c ≤ 57.

(** The number a digit string denotes, most significant digit first. *)
Fixpoint dec_value (ds : list Z) : Z :=
  match ds with
  | [] => 0
  | c :: r => (c - 48) * 10 ^ Z.of_nat (length r) + dec_value r
  end.

(** [ds] is the canonical decimal notation of [v]: digits only, and no leading
    zero. *)
Record decimal_of (ds : list Z) (v : Z) : Prop := {
  decimal_digits : Forall is_digit ds;
  decimal_value : dec_value ds = v;
  decimal_lead : ds ≠ [] ∧ ((1 < length ds)%nat → ch ds 0 ≠ 48)
}.

(** The buffer holds the string [s], NUL-terminated within [size]. *)
Record holds (size : Z) (b : abuf) (s : list Z) : Prop := {
  holds_pos : pos b = Z.of_nat (length s);
  holds_fits : Z.of_nat (length s) < size ≤ Z.of_nat (length (out b));
  holds_width : size < 4294967296;
  holds_text : take (length s) (out b) = s;
  holds_end : out b !! length s = Some 0;
  holds_no_nul : no_nul s
}.

(** ** Bounded copies *)

Lemma ch_nil i : ch [] i = 0.
Proof. by destruct i. Qed.

Lemma cstr_ch0 s : ch s 0 = 0 → cstr s = [].
Proof. destruct s as [|c s]; [done|]. unfold ch. simpl. intros ->. done. Qed.

Lemma cstr_step s : ch s 0 ≠ 0 → cstr s = ch s 0 :: cstr (tail s).
Proof.
  destruct s as [|c s]; [by rewrite ch_nil|]. unfold ch. simpl. intros Hc.
  by rewrite (proj2 (Z.eqb_neq c 0)).
Qed.

Lemma copy_bounded_spec remain src d :
  (remain < length d)%nat →
  copy_bounded remain src d =
  take remain (cstr src) ++ 0 :: drop (S (length (take remain (cstr src)))) d.
Proof.
  revert src d. induction remain as [|r IH]; intros src [|x d] Hd; simpl in *; try (exfalso; lia); try done.
  destruct (Z.eqb_spec (ch src 0) 0) as [H0|H0].
  - by rewrite cstr_ch0.
  - rewrite (cstr_step src H0). simpl. rewrite IH by lia. done.
Qed.

Lemma scan_bounded_spec n d :
  (n ≤ length d)%nat → scan_bounded n d = length (cstr (take n d)).
Proof.
  revert d. induction n as [|n IH]; intros [|x d] Hd; simpl in *; try (exfalso; lia); try done.
  unfold ch. simpl. case_if; [done|]. simpl. by rewrite IH by lia.
Qed.

Lemma memcpy_spec n src dst :
  (n ≤ length src)%nat → (n ≤ length dst)%nat →
  memcpy n src dst = take n src ++ drop n dst.
Proof.
  revert src dst. induction n as [|n IH]; intros [|c src] [|x dst] Hs Hd; simpl in *; try lia; try done.
  rewrite IH by lia. done.
Qed.

Lemma memcpy_forall (P : Z → Prop) n src dst :
  Forall P src → Forall P dst → Forall P (memcpy n src dst).
Proof.
  intros Hs. revert n dst. induction Hs as [|c src Hc _ IH]; intros [|n] dst Hd; simpl; try done.
  - destruct Hd; [done|]. by constructor; [|apply IH].
Qed.

Lemma memcpy_length n src dst : length (memcpy n src dst) = length dst.
Proof.
  revert src dst. induction n as [|n IH]; intros [|c src] [|x dst]; simpl; try done.
  by rewrite IH.
Qed.

Lemma drop_app_cons (s d : list Z) c n :
  (length s < n)%nat → drop n (s ++ c :: drop (S (length s)) d) = drop n d.
Proof.
  intros Hn. rewrite drop_app_ge by lia.
  destruct (n - length s)%nat as [|k] eqn:Hk; [lia|]. simpl.
  rewrite drop_drop. f_equal. lia.
Qed.

Lemma cstr_take_app n s r : no_nul s → cstr (take n s ++ 0 :: r) = take n s.
Proof. intros. apply cstr_app_nul, Forall_take. done. Qed.

(** The string left at [d] by a bounded copy after the [len] characters of a
    string already there. *)
Lemma copy_bounded_after s d m src :
  no_nul s → (length s + m < length d)%nat → take (length s) d = s →
  let r := take (length s) d ++ copy_bounded m src (drop (length s) d) in
  length r = length d ∧ cstr r = s ++ take m (cstr src) ∧
  drop (length s + m + 1) r = drop (length s + m + 1) d.
Proof.
  intros Hs Hlen Htake r. unfold r. rewrite Htake.
  rewrite copy_bounded_spec by (rewrite length_drop; lia).
  set (t := take m (cstr src)).
  assert (Ht : (length t ≤ m)%nat) by (unfold t; rewrite length_take; lia).
  rewrite app_assoc, drop_drop.
  replace (length s + S (length t))%nat with (S (length (s ++ t)))
    by (rewrite length_app; lia).
  split_and!.
  - rewrite !length_app in *. simpl. rewrite length_drop. lia.
  - apply cstr_app_nul, no_nul_app. split; [done|].
    apply Forall_take, cstr_no_nul.
  - apply drop_app_cons. rewrite length_app. lia.
Qed.

Lemma strcpy_s_spec dst n src :
  1 ≤ n ≤ Z.of_nat (length dst) →
  cstr (strcpy_s dst n src) = take (Z.to_nat (n - 1)) (cstr src) ∧
  length (strcpy_s dst n src) = length dst ∧
  drop (Z.to_nat n) (strcpy_s dst n src) = drop (Z.to_nat n) dst.
Proof.
  intros Hn. unfold strcpy_s. replace (n =? 0) with false by lia.
  destruct (copy_bounded_after [] dst (Z.to_nat (n - 1)) src) as (H1&H2&H3);
    [constructor|simpl; lia|done|].
  simpl in *. rewrite drop_0 in *. split_and!; [done..|].
  by replace (Z.to_nat n) with (Z.to_nat (n - 1) + 1)%nat by lia.
Qed.

(** Bounded string copies: within the [n] bytes of the destination,
    [strcpy_s] leaves the source string and [strcat_s] the concatenation of the
    two strings, cut to [n - 1] characters and NUL-terminated; neither changes the
    size of the array or a byte beyond the first [n]. *)
Theorem bounded_copies dst n src :
  1 ≤ n ≤ Z.of_nat (length dst) →
  let cpy := strcpy_s dst n src in
  let cat := strcat_s dst n src in
  let keep := Z.to_nat n in
  (cstr cpy = take (Z.to_nat (n - 1)) (cstr src) ∧
   length cpy = length dst ∧ drop keep cpy = drop keep dst) ∧
  (cstr cat = take (Z.to_nat (n - 1)) (cstr (take keep dst) ++ cstr src) ∧
   length cat = length dst ∧ drop keep cat = drop keep dst).
Proof.
  intros Hn. cbv zeta. split; [by apply strcpy_s_spec|]. unfold strcat_s.
  replace (n =? 0) with false by lia.
  - rewrite scan_bounded_spec by lia. set (s := cstr (take (Z.to_nat n) dst)).
    assert (Hsn : (length s ≤ Z.to_nat n)%nat).
    { unfold s. pose proof (cstr_length (take (Z.to_nat n) dst)) as H.
      rewrite length_take in H. lia. }
    assert (Hs : take (length s) dst = s).
    { pose proof (cstr_prefix (take (Z.to_nat n) dst)) as H. fold s in H.
      by rewrite take_take, Nat.min_l in H by lia. }
    destruct (Z.eqb_spec (Z.of_nat (length s)) n) as [Heq|Hne].
    + assert (Hd : dst = take (Z.to_nat (n - 1)) s ++ drop (Z.to_nat (n - 1)) dst).
      { rewrite <-Hs, take_take, Nat.min_l by lia. symmetry. apply take_drop. }
      assert (Hl : length (take (Z.to_nat (n - 1)) s) = Z.to_nat (n - 1))
        by (rewrite length_take; lia).
      split_and!.
      * rewrite Hd at 1. rewrite insert_app_r_alt, Hl, Nat.sub_diag by lia.
        destruct (drop (Z.to_nat (n - 1)) dst) as [|x r] eqn:Hx.
        { apply (f_equal length) in Hx. rewrite length_drop in Hx. simpl in Hx. lia. }
        simpl. rewrite cstr_take_app by (subst s; auto with cint).
        rewrite take_app_le; [done|lia].
      * apply length_insert.
      * rewrite drop_insert_lt by lia. done.
    + destruct (copy_bounded_after s dst (Z.to_nat (n - Z.of_nat (length s) - 1)) src)
        as (H1&H2&H3); [subst s; auto with cint|lia|done|].
      split_and!; [|done|].
      * rewrite H2, take_app_ge by lia. do 2 f_equal. lia.
      * replace (Z.to_nat n) with (length s + Z.to_nat (n - Z.of_nat (length s) - 1) + 1)%nat
          by lia. done.
Qed.

(** [strcmp] returns 0 exactly on equal strings. *)
Theorem strcmp_zero a b : strcmp a b = 0 ↔ cstr a = cstr b.
Proof.
  revert b. induction a as [|c a IH]; intros b; simpl.
  - destruct (Z.eq_dec (ch b 0) 0) as [H|H].
    + rewrite (cstr_ch0 b H). split; [done|lia].
    + rewrite (cstr_step b H). split; [lia|done].
  - destruct (Z.eq_dec (ch b 0) 0) as [H|H]; [rewrite (cstr_ch0 b H)|rewrite (cstr_step b H)];
      repeat case_if; rewrite ?IH; split; intros; simplify_eq; try lia; try done.
    f_equal; [lia|done].
Qed.

(** ** Decimal output *)

Lemma dec_value_app ds es :
  dec_value (ds ++ es) = dec_value ds * 10 ^ Z.of_nat (length es) + dec_value es.
Proof.
  induction ds as [|c ds IH]; simpl; [lia|].
  rewrite IH, length_app, Nat2Z.inj_add, Z.pow_add_r by lia. lia.
Qed.

Lemma u8_digit x : 0 ≤ x < 10 → u8 (48 + x) = 48 + x.
Proof. intros. apply u8_small. lia. Qed.

Lemma u32_digits_spec left v :
  0 ≤ v < 10 ^ Z.of_nat left →
  let ds := rev (u32_digits left v) in
  Forall is_digit ds ∧ dec_value ds = v ∧ (0 < v → ds ≠ [] ∧ ch ds 0 ≠ 48) ∧
  (length ds ≤ left)%nat.
Proof.
  revert v. induction left as [|left IH]; intros v Hv.
  - simpl in *. split_and!; [constructor|lia..].
  - cbn [u32_digits]. destruct (Z.leb_spec v 0) as [Hle|Hgt].
    + simpl. split_and!; [constructor|lia..].
    + rewrite Nat2Z.inj_succ, Z.pow_succ_r in Hv by lia.
      destruct (IH (v / 10)) as (Hd&Hval&Hlead&Hlen); [zdiv|].
      cbv zeta in *. rewrite u8_digit by zdiv. simpl rev.
      remember (rev (u32_digits left (v / 10))) as ds eqn:Hds. split_and!.
      * apply Forall_app. split; [done|]. repeat constructor; zdiv.
      * rewrite dec_value_app. simpl. rewrite Hval. zdiv.
      * intros _. destruct ds as [|d ds']; simpl.
        -- split; [done|]. unfold ch. simpl. simpl in Hval. zdiv.
        -- split; [done|]. apply Hlead. destruct (Z.eq_dec (v / 10) 0) as [Hz|]; [|zdiv].
           exfalso. rewrite Hz in Hds. destruct left; simpl in Hds; congruence.
      * rewrite length_app. simpl. lia.
Qed.

Lemma top_divisor_spec fuel m k :
  0 ≤ m < 4294967296 → (k ≤ 9)%nat → (10 ≤ fuel + k)%nat →
  (k = O ∨ 10 ^ Z.of_nat k ≤ m) →
  ∃ j : nat, top_divisor fuel m (10 ^ Z.of_nat k) = Some (10 ^ Z.of_nat j) ∧
    (j ≤ 9)%nat ∧ m < 10 ^ (Z.of_nat j + 1) ∧ (j = O ∨ 10 ^ Z.of_nat j ≤ m).
Proof.
  revert k. induction fuel as [|fuel IH]; intros k Hm Hk Hf Hlo; [lia|]. simpl.
  assert (Hp : 0 < 10 ^ Z.of_nat k) by lia.
  assert (Hs : 10 ^ (Z.of_nat k + 1) = 10 * 10 ^ Z.of_nat k)
    by (rewrite Z.pow_add_r by lia; lia).
  destruct (Z.ltb_spec 9 (m / 10 ^ Z.of_nat k)) as [H9|H9].
  - assert (Hge : 10 * 10 ^ Z.of_nat k ≤ m).
    { pose proof (Z.mul_div_le m (10 ^ Z.of_nat k)). nia. }
    assert (Hk9 : (k < 9)%nat).
    { destruct (decide (k = 9%nat)) as [->|]; [|lia]. simpl in Hge. lia. }
    rewrite u32_small by lia.
    replace (10 ^ Z.of_nat k * 10) with (10 ^ Z.of_nat (S k))
      by (rewrite Nat2Z.inj_succ, Z.pow_succ_r; lia).
    apply IH; [done|lia|lia|right]. rewrite Nat2Z.inj_succ, Z.pow_succ_r; lia.
  - exists k. split_and!; [done|done| |done]. rewrite Hs.
    pose proof (Z.mod_pos_bound m (10 ^ Z.of_nat k)).
    pose proof (Z.div_mod m (10 ^ Z.of_nat k)). nia.
Qed.

Lemma put_digits_spec fuel k m :
  0 ≤ m < 10 ^ (Z.of_nat k + 1) → (k + 2 ≤ fuel)%nat →
  ∃ ds, put_digits fuel m (10 ^ Z.of_nat k) = Some ds ∧ length ds = S k ∧
    Forall is_digit ds ∧ dec_value ds = m ∧ ch ds 0 = 48 + m / 10 ^ Z.of_nat k.
Proof.
  revert k m. induction fuel as [|fuel IH]; intros k m Hm Hf; [lia|].
  assert (Hp : 0 < 10 ^ Z.of_nat k) by lia.
  rewrite Z.pow_add_r in Hm by lia.
  assert (Hd : 0 ≤ m / 10 ^ Z.of_nat k < 10).
  { split; [apply Z.div_pos; lia|apply Z.div_lt_upper_bound; lia]. }
  simpl. replace (0 <? 10 ^ Z.of_nat k) with true by lia. rewrite u8_digit by lia.
  destruct k as [|k].
  - simpl in *. rewrite Z.div_1_r, Z.mod_1_r in *.
    destruct fuel as [|fuel]; [lia|]. simpl. eexists. split; [done|].
    simpl. split_and!; [done|repeat constructor; lia|lia|].
    unfold ch. simpl. done.
  - destruct (IH k (m mod 10 ^ Z.of_nat (S k))) as (ds&He&Hl&Hds&Hv&_); [|lia|].
    { replace (Z.of_nat k + 1) with (Z.of_nat (S k)) by lia. apply Z.mod_pos_bound. lia. }
    replace (10 ^ Z.of_nat (S k) / 10) with (10 ^ Z.of_nat k).
    2:{ rewrite Nat2Z.inj_succ, Z.pow_succ_r by lia. by rewrite Z.mul_comm, Z.div_mul. }
    rewrite He. eexists. split; [done|]. split_and!.
    + simpl. by rewrite Hl.
    + constructor; [unfold is_digit; lia|done].
    + simpl. rewrite Hv, Hl. pose proof (Z.div_mod m (10 ^ Z.of_nat (S k))). lia.
    + done.
Qed.

Lemma print_magnitude m :
  0 ≤ m < 4294967296 →
  ∃ ds, (let! d := top_divisor print_fuel m 1 in put_digits print_fuel m d) = Some ds ∧
    decimal_of ds m.
Proof.
  intros Hm. destruct (top_divisor_spec print_fuel m 0) as (j & Htop & Hj & Hlt & Hlo);
    [done|lia|unfold print_fuel; lia|by left|].
  change (10 ^ Z.of_nat 0) with 1 in Htop. rewrite Htop.
  destruct (put_digits_spec print_fuel j m) as (ds&->&Hl&Hd&Hv&Hch);
    [lia|unfold print_fuel; lia|].
  exists ds. split; [done|]. split; [done|done|].
  split; [by destruct ds|]. intros Hlen. rewrite Hch.
  destruct Hlo as [->|Hlo]; [lia|].
  assert (1 ≤ m / 10 ^ Z.of_nat j); [|lia]. apply Z.div_le_lower_bound; lia.
Qed.

(** [%d] terminates and prints every 32-bit [int] in canonical decimal
    notation, [INT_MIN] included: the digits of the magnitude after a minus sign
    for a negative value. *)
Theorem print_decimal_correct v :
  -2147483648 ≤ v < 2147483648 →
  ∃ ds, print_decimal v = Some (if v <? 0 then 45 :: ds else ds) ∧ decimal_of ds (Z.abs v).
Proof.
  intros Hv. destruct (print_magnitude (Z.abs v)) as (ds & Hp & Hds); [lia|].
  exists ds. split; [|done]. unfold print_decimal.
  assert (Hmag : (if v <? 0 then u32 (- u32 v) else u32 v) = Z.abs v).
  { case_if; [|rewrite u32_small; lia].
    assert (Hu : u32 v = v + 4294967296).
    { unfold u32. symmetry. apply Z.mod_unique with (-1); lia. }
    rewrite Hu. unfold u32. symmetry. apply Z.mod_unique with (-1); lia. }
  rewrite Hmag. destruct (top_divisor print_fuel (Z.abs v) 1) as [d|]; [|done].
  rewrite Hp. simpl. by case_if.
Qed.

(** ** Bounded appending *)

Lemma holds_cstr size b s : holds size b s → cstr (out b) = s.
Proof.
  intros [_ _ _ Ht He Hs]. rewrite <-(take_drop (length s) (out b)), Ht.
  rewrite (drop_S _ 0 (length s)) by done. by apply cstr_app_nul.
Qed.

Lemma append_char_ok size b s c :
  holds size b s → Z.of_nat (length s) + 1 < size → c ≠ 0 →
  ∃ b', append_char size b c = (true, b') ∧ holds size b' (s ++ [c]).
Proof.
  intros [Hp Hf Hw Ht He Hs] Hroom Hc. unfold append_char. rewrite Hp.
  rewrite u32_small by lia. replace (size <=? Z.of_nat (length s) + 1) with false by lia.
  eexists; split; [done|]. rewrite Nat2Z.id.
  replace (Z.to_nat (Z.of_nat (length s) + 1)) with (S (length s)) by lia.
  assert (Hl : length (s ++ [c]) = S (length s)) by (rewrite length_app; simpl; lia).
  split; cbn [out pos]; rewrite ?Hl, ?length_insert; try lia.
  - rewrite take_insert_ge by lia.
    rewrite (take_S_r _ _ c) by (apply list_lookup_insert_eq; lia).
    by rewrite take_insert_ge, Ht by lia.
  - apply list_lookup_insert_eq. rewrite length_insert. lia.
  - apply no_nul_app. split; [done|]. by constructor.
Qed.

Lemma append_char_full size b s c :
  holds size b s → size ≤ Z.of_nat (length s) + 1 → append_char size b c = (false, b).
Proof.
  intros [Hp Hf Hw Ht He Hs] Hroom. unfold append_char. rewrite Hp, u32_small by lia.
  by replace (size <=? Z.of_nat (length s) + 1) with true by lia.
Qed.

(** Appending succeeds exactly when the result fits, and leaves the longest
    prefix that fits otherwise. *)
Lemma append_chars_spec size b s cs :
  holds size b s → no_nul cs →
  ∃ b', append_chars size b cs
        = (Z.of_nat (length s + length cs) <? size, b') ∧
    holds size b' (take (Z.to_nat (size - 1)) (s ++ cs)).
Proof.
  revert b s. induction cs as [|c cs IH]; intros b s Hb Hcs; simpl.
  - exists b. rewrite app_nil_r, take_ge by (destruct Hb; lia).
    rewrite Nat.add_0_r. destruct (Hb). split; [f_equal; symmetry; apply Z.ltb_lt; lia|done].
  - apply Forall_cons in Hcs as [Hc Hcs].
    destruct (decide (Z.of_nat (length s) + 1 < size)) as [Hroom|Hfull].
    + destruct (append_char_ok size b s c) as (b'&->&Hb'); [done..|].
      destruct (IH b' (s ++ [c])) as (b''&->&Hb''); [done..|].
      exists b''. rewrite <-app_assoc in Hb''. split; [|done].
      rewrite length_app. simpl. by rewrite <-Nat.add_assoc.
    + rewrite (append_char_full size b s c) by (done || lia). exists b.
      replace (Z.of_nat (length s + S (length cs)) <? size) with false by ztest.
      split; [done|]. destruct (Hb). rewrite take_app_le by lia. rewrite take_ge by lia. done.
Qed.

Lemma append_chars_length size b cs : length (out (append_chars size b cs).2) = length (out b).
Proof.
  revert b. induction cs as [|c cs IH]; intros b; simpl; [done|].
  unfold append_char. case_if; [done|]. rewrite IH. simpl. by rewrite !length_insert.
Qed.

Lemma append_str_chars size b s : append_str size b s = append_chars size b (cstr s).
Proof.
  revert b. induction s as [|c s IH]; intros b; simpl; [done|].
  case_if; [done|]. simpl. destruct (append_char size b c) as [[] b']; [apply IH|done].
Qed.

Lemma u32_digits_decimal v :
  0 < v < 4294967296 → decimal_of (rev (u32_digits 10 v)) v.
Proof.
  intros Hv. destruct (u32_digits_spec 10 v) as (H1&H2&H3&_); [simpl; lia|].
  destruct H3 as [H3 H4]; [lia|]. done.
Qed.

Lemma append_u32_chars size b v :
  0 ≤ v < 4294967296 →
  ∃ ds, decimal_of ds v ∧ append_u32 size b v = append_chars size b ds.
Proof.
  intros Hv. unfold append_u32. destruct (Z.eqb_spec v 0) as [->|Hne].
  - exists [48]. split; [|simpl; by destruct (append_char size b 48) as [[] ?]].
    split; [repeat constructor; lia|done|split; [done|simpl; lia]].
  - exists (rev (u32_digits 10 v)). split; [apply u32_digits_decimal; lia|done].
Qed.

Lemma decimal_no_nul ds v : decimal_of ds v → no_nul ds.
Proof. intros []. eapply Forall_impl; [done|]. unfold is_digit. lia. Qed.

(** ** Witnesses *)

Lemma bounded_copies_witness :
  let buf := [97; 98; 0; 1; 2; 3; 9] in
  cstr (strcpy_s buf 6 (bytes "hello world")) = bytes "hello" ∧
  cstr (strcat_s buf 6 (bytes "hello world")) = bytes "abhel" ∧
  drop 6 (strcat_s buf 6 (bytes "hello world")) = [9].
Proof.
  destruct (bounded_copies [97; 98; 0; 1; 2; 3; 9] 6 (bytes "hello world"))
    as ((H1&_&_)&(H2&_&H3)); [simpl; lia|].
  split; [exact H1|split; [exact H2|exact H3]].
Defined.

Lemma print_decimal_correct_witness :
  ∃ ds, print_decimal (-2147483648) = Some (45 :: ds) ∧ decimal_of ds 2147483648.
Proof. apply (print_decimal_correct (-2147483648)). lia. Defined.
