(* ===== verification/TimeFmt.v ===== *)
(** * Division without a divide instruction and calendar time

    [src/lib/commonlibs.c] ([udiv64_32_full], [unix_time_to_utc_str]),
    [src/kernel/rtc/rtc.c] ([udiv64_32]) and [src/kernel/trap/syscall_time.c]. *)
From Stdlib Require Import ZArith Lia ZifyBool.
From stdpp Require Import base tactics list numbers option strings.
From S2P Require Import Prelude CString.

(** ** Shift-and-subtract division *)

(** The iterations [i - 1], ..., [0] of the loop. *)
Fixpoint udiv_loop (i : nat) (n d q rem : Z) : Z * Z :=
  match i with
  | O => (q, rem)
  | S i' =>
      let rem := Z.lor (u64 (Z.shiftl rem 1)) (Z.land (Z.shiftr n (Z.of_nat i')) 1) in
      if d <=? rem
      then udiv_loop i' n d (Z.lor q (u64 (Z.shiftl 1 (Z.of_nat i')))) (u64 (rem - d))
      else udiv_loop i' n d q rem
  end.

(** The quotient and [*rem_out]. *)
Definition udiv64_32_full (n d : Z) : Z * Z :=
  let '(q, rem) := udiv_loop 64 n d 0 0 in (q, u32 rem).

Definition udiv64_32 (n d : Z) : Z := u32 (fst (udiv_loop 64 n d 0 0)).

(** [rtc_now_sec] on the value [ns] of [rtc_now_ns]. *)
Definition rtc_now_sec (ns : Z) : Z := udiv64_32 ns 1000000000.

(** [syscall_handle_gettime]: the [sec_lo], [sec_hi] and [nsec] written to the
    user's [time_spec]. *)
Definition gettime_fields (ns : Z) : Z * Z * Z :=
  let '(sec, nsec) := udiv64_32_full ns 1000000000 in
  (u32 sec, u32 (Z.shiftr sec 32), nsec).

(** ** Calendar *)

Definition is_leap_year (y : Z) : bool :=
  if Z.rem y 400 =? 0 then true
  else if Z.rem y 100 =? 0 then false
  else Z.rem y 4 =? 0.

Definition wday_name : list (list Z) :=
  map bytes ["Sun"; "Mon"; "Tue"; "Wed"; "Thu"; "Fri"; "Sat"]%string.
Definition mon_name : list (list Z) :=
  map bytes ["Jan"; "Feb"; "Mar"; "Apr"; "May"; "Jun";
             "Jul"; "Aug"; "Sep"; "Oct"; "Nov"; "Dec"]%string.
Definition mon_days : list Z := [31; 28; 31; 30; 31; 30; 31; 31; 30; 31; 30; 31].

Definition year_length (y : Z) : Z := if is_leap_year y then 366 else 365.

(** [while (1) { if (d < diy) break; d -= diy; year++; }]; [None] when the fuel
    runs out. *)
Fixpoint year_loop (fuel : nat) (year d : Z) : option (Z * Z) :=
  match fuel with
  | O => None
  | S f =>
      if d <? year_length year then Some (year, d)
      else year_loop f (i32 (year + 1)) (d - year_length year)
  end.

Definition month_length (year month : Z) : Z :=
  if (month =? 1) && is_leap_year year then 29 else ch mon_days (Z.to_nat month).

(** [while (month < 12) { if (d < dim) break; d -= dim; month++; }] *)
Fixpoint month_loop (left : nat) (year month d : Z) : Z * Z :=
  match left with
  | O => (month, d)
  | S l =>
      if d <? month_length year month then (month, d)
      else month_loop l year (month + 1) (d - month_length year month)
  end.

Definition year_fuel (d : Z) : nat := Z.to_nat (d / 365 + 1).

(** The appends that build the text. *)
Definition append_utc (out_size : Z) (b : abuf) (wday month mday hour min sec year : Z)
  : bool * abuf :=
  append! b := append_str out_size b (nth (Z.to_nat wday) wday_name []) in
  append! b := append_char out_size b 32 in
  append! b := append_str out_size b (nth (Z.to_nat month) mon_name []) in
  append! b := append_char out_size b 32 in
  append! b := append_u32 out_size b mday in
  append! b := append_char out_size b 32 in
  append! b := append_2d out_size b hour in
  append! b := append_char out_size b 58 in
  append! b := append_2d out_size b min in
  append! b := append_char out_size b 58 in
  append! b := append_2d out_size b sec in
  append! b := append_str out_size b (bytes " UTC ") in
  append_u32 out_size b (u32 year).

(** [None] only if [year_fuel] were too small; otherwise whether the routine
    returned 0, and the buffer it leaves. *)
Definition unix_time_to_utc_str (unix_sec : Z) (buf : list Z) (out_size : Z)
  : option (bool * list Z) :=
  if out_size =? 0 then Some (false, buf) else
  let b := ABuf (<[O := 0]> buf) 0 in
  let '(days, sod) := udiv64_32_full unix_sec 86400 in
  let hour := sod / 3600 in
  let min := (sod mod 3600) / 60 in
  let sec := sod mod 60 in
  let '(_, wday) := udiv64_32_full (u64 (days + 4)) 7 in
  let! (year, d) := year_loop (year_fuel days) 1970 days in
  let '(month, d) := month_loop 12 year 0 d in
  let mday := u32 (d + 1) in
  let r := append_utc out_size b wday month mday hour min sec year in
  Some (fst r, out (snd r)).

Example utc_ex :
  (λ r, cstr (snd r)) <$> unix_time_to_utc_str 1709210096 (repeat 7 40) 40
  = Some (bytes "Thu Feb 29 12:34:56 UTC 2024").
Proof. vm_compute. reflexivity. Qed.

(** ** Division *)

Lemma bit_of n i : 0 ≤ i → Z.land (Z.shiftr n i) 1 = (n / 2 ^ i) mod 2.
Proof. intros. rewrite (Z.land_ones _ 1), Z.shiftr_div_pow2 by lia. done. Qed.

Lemma lor_add_bit a b : 0 ≤ b < 2 → Z.lor (2 * a) b = 2 * a + b.
Proof.
  intros Hb. assert (b = 0 ∨ b = 1) as [->| ->] by lia.
  - rewrite Z.lor_0_r. lia.
  - destruct a as [|p|p]; try done. destruct p; done.
Qed.

Lemma lor_add_pow2 q i k : 0 ≤ i → q = k * 2 ^ (i + 1) → Z.lor q (2 ^ i) = q + 2 ^ i.
Proof.
  intros Hi ->. assert (Hland : Z.land (k * 2 ^ (i + 1)) (2 ^ i) = 0).
  { apply Z.bits_inj'. intros j Hj. rewrite Z.land_spec, Z.bits_0.
    destruct (Z.eq_dec j i) as [->|].
    - by rewrite Z.mul_pow2_bits_low by lia.
    - by rewrite Z.pow2_bits_false, andb_false_r by lia. }
  by rewrite <-Z.lxor_lor, <-Z.add_nocarry_lxor.
Qed.

Lemma udiv_loop_spec i n d q rem :
  0 ≤ n < 2 ^ 64 → 0 < d < 4294967296 → (i ≤ 64)%nat →
  q = n / 2 ^ Z.of_nat i / d * 2 ^ Z.of_nat i → rem = (n / 2 ^ Z.of_nat i) mod d →
  udiv_loop i n d q rem = (n / d, n mod d).
Proof.
  revert q rem. induction i as [|i IH]; intros q rem Hn Hd Hi Hq Hrem.
  - simpl in *. rewrite Z.div_1_r, Z.mul_1_r in *. by subst.
  - assert (Hp : 2 ^ Z.of_nat (S i) = 2 * 2 ^ Z.of_nat i)
      by (rewrite Nat2Z.inj_succ, Z.pow_succ_r; lia).
    assert (Hp0 : 0 < 2 ^ Z.of_nat i) by lia.
    set (N := n / 2 ^ Z.of_nat i) in *.
    assert (HN : n / 2 ^ Z.of_nat (S i) = N / 2).
    { unfold N. rewrite Hp, Z.div_div by lia. f_equal. lia. }
    rewrite HN in *. set (M := N / 2) in *.
    assert (HM : N = 2 * M + N mod 2) by (unfold M; zdiv).
    assert (Hrb : 0 ≤ rem < d) by (subst rem; apply Z.mod_pos_bound; lia).
    simpl. rewrite bit_of by lia. fold N.
    rewrite Z.shiftl_mul_pow2, (u64_small (rem * 2 ^ 1)) by lia.
    replace (rem * 2 ^ 1) with (2 * rem) by lia.
    assert (Hbit : 0 ≤ N mod 2 < 2) by (apply Z.mod_pos_bound; lia).
    rewrite lor_add_bit by done.
    assert (HNd : N = d * (2 * (M / d)) + (2 * rem + N mod 2)).
    { subst rem. pose proof (Z.div_mod M d). lia. }
    destruct (Z.leb_spec d (2 * rem + N mod 2)) as [Hle|Hlt].
    + assert (Hdiv : N / d = 2 * (M / d) + 1)
        by (symmetry; apply Z.div_unique with (2 * rem + N mod 2 - d); lia).
      assert (Hmod : N mod d = 2 * rem + N mod 2 - d)
        by (symmetry; apply Z.mod_unique with (2 * (M / d) + 1); lia).
      apply IH; try lia.
      * rewrite Z.shiftl_1_l, u64_small.
        2:{ split; [lia|]. apply Z.lt_le_trans with (2 ^ 64); [|done].
            apply Z.pow_lt_mono_r; lia. }
        rewrite (lor_add_pow2 q (Z.of_nat i) (M / d)), Hdiv, Hq, Hp; [lia|lia|].
        rewrite Hq, Z.pow_add_r by lia. lia.
      * rewrite u64_small; lia.
    + assert (Hdiv : N / d = 2 * (M / d))
        by (symmetry; apply Z.div_unique with (2 * rem + N mod 2); lia).
      assert (Hmod : N mod d = 2 * rem + N mod 2)
        by (symmetry; apply Z.mod_unique with (2 * (M / d)); lia).
      apply IH; nia || lia.
Qed.

Lemma udiv64_32_full_spec n d :
  0 ≤ n < 18446744073709551616 → 0 < d < 4294967296 →
  udiv64_32_full n d = (n / d, n mod d).
Proof.
  intros Hn Hd. unfold udiv64_32_full. rewrite udiv_loop_spec; try lia.
  - rewrite u32_small; [done|]. pose proof (Z.mod_pos_bound n d). lia.
  - by rewrite (Z.div_small n) by (simpl; lia).
  - by rewrite (Z.div_small n) by (simpl; lia).
Qed.

Lemma udiv64_32_spec n d :
  0 ≤ n < 18446744073709551616 → 0 < d < 4294967296 → udiv64_32 n d = u32 (n / d).
Proof.
  intros Hn Hd. unfold udiv64_32. rewrite udiv_loop_spec; try lia; [done|..].
  - by rewrite (Z.div_small n) by (simpl; lia).
  - by rewrite (Z.div_small n) by (simpl; lia).
Qed.

(** ** The calendar *)

(** The reference: the Gregorian calendar on its own terms.  Nothing of it is taken
    from the tables and helpers of the code above. *)

Definition gregorian_leap (y : Z) : bool :=
  (y mod 4 =? 0) && (negb (y mod 100 =? 0) || (y mod 400 =? 0)).

(** The months of a year, in order: their names and their lengths. *)
Definition gregorian_months (y : Z) : list (string * Z) :=
  [("Jan", 31); ("Feb", if gregorian_leap y then 29 else 28); ("Mar", 31); ("Apr", 30);
   ("May", 31); ("Jun", 30); ("Jul", 31); ("Aug", 31); ("Sep", 30); ("Oct", 31);
   ("Nov", 30); ("Dec", 31)]%string.

(** The days of the week from day 0, which is a Thursday. *)
Definition week_from_epoch : list string := ["Thu"; "Fri"; "Sat"; "Sun"; "Mon"; "Tue"; "Wed"]%string.

(** Days from 1970-01-01 to the first day of a year, in closed form: 477 leap
    years precede 1970. *)
Definition days_before_year (y : Z) : Z :=
  365 * (y - 1970) + ((y - 1) / 4 - (y - 1) / 100 + (y - 1) / 400) - 477.

Definition days_before_month (y : Z) (m : nat) : Z :=
  foldr Z.add 0 (take m (map snd (gregorian_months y))).

(** The number of a day of the proleptic Gregorian calendar, 0 for
    1970-01-01; months from 0 and days of the month from 1. *)
Definition day_number (y m d : Z) : Z :=
  days_before_year y + days_before_month y (Z.to_nat m) + (d - 1).

(** [d] is a day of month [m], which has this name. *)
Definition calendar_day (y m d : Z) (name : string) : Prop :=
  0 ≤ m ∧ ∃ len, gregorian_months y !! Z.to_nat m = Some (name, len) ∧ 1 ≤ d ≤ len.

Definition weekday (day : Z) : string := nth (Z.to_nat (day mod 7)) week_from_epoch EmptyString.

(** *** The helpers of the code agree with it *)

Lemma leap_spec y : 1 ≤ y → is_leap_year y = gregorian_leap y.
Proof.
  intros Hy. unfold is_leap_year, gregorian_leap. rewrite !Z.rem_mod_nonneg by lia.
  repeat case_if; try reflexivity; zdiv.
Qed.

Lemma months_spec y (m : nat) :
  1 ≤ y → (m < 12)%nat → ∃ name, gregorian_months y !! m = Some (name, month_length y (Z.of_nat m)) ∧
    nth m mon_name [] = bytes name.
Proof.
  intros Hy Hm. unfold month_length, gregorian_months. rewrite leap_spec by done.
  do 12 (destruct m as [|m]; [by eexists|]). lia.
Qed.

Lemma days_before_next_month y (m : nat) :
  1 ≤ y → (m < 12)%nat → days_before_month y (S m) = days_before_month y m + month_length y (Z.of_nat m).
Proof.
  intros Hy Hm. destruct (months_spec y m Hy Hm) as (name&Hn&_). unfold days_before_month.
  rewrite (take_S_r _ _ (month_length y (Z.of_nat m))) by (by rewrite list_lookup_fmap, Hn).
  rewrite foldr_app. cbn [foldr]. generalize (take m (map snd (gregorian_months y))). intros l.
  generalize (month_length y (Z.of_nat m)). intros z. induction l as [|x l IH]; simpl; lia.
Qed.

(** The code counts the days of the week from Sunday. *)
Lemma weekday_spec day : bytes (weekday day) = nth (Z.to_nat ((day + 4) mod 7)) wday_name [].
Proof.
  unfold weekday. pose proof (Z.mod_pos_bound day 7 ltac:(lia)) as Hr.
  assert (E : (day + 4) mod 7 = (day mod 7 + 4) mod 7) by (by rewrite Z.add_mod_idemp_l). rewrite E.
  generalize dependent (day mod 7). intros r Hr _.
  assert (r = 0 ∨ r = 1 ∨ r = 2 ∨ r = 3 ∨ r = 4 ∨ r = 5 ∨ r = 6) as Hc by lia.
  by repeat destruct Hc as [->|Hc]; [..|rewrite Hc].
Qed.

Lemma days_before_next_year y : 1 ≤ y →
  days_before_year (y + 1) = days_before_year y + year_length y.
Proof.
  intros Hy. unfold days_before_year, year_length. rewrite leap_spec by lia.
  replace (y + 1 - 1) with y by lia.
  assert (H4 : y / 4 = (y - 1) / 4 + (if y mod 4 =? 0 then 1 else 0)) by (case_if; zdiv).
  assert (H100 : y / 100 = (y - 1) / 100 + (if y mod 100 =? 0 then 1 else 0)) by (case_if; zdiv).
  assert (H400 : y / 400 = (y - 1) / 400 + (if y mod 400 =? 0 then 1 else 0)) by (case_if; zdiv).
  rewrite H4, H100, H400.
  unfold gregorian_leap.
  destruct (y mod 4 =? 0) eqn:E4, (y mod 100 =? 0) eqn:E100, (y mod 400 =? 0) eqn:E400;
    simpl; try lia; exfalso; zdiv.
Qed.

Lemma year_length_bounds y : 365 ≤ year_length y ≤ 366.
Proof. unfold year_length. case_if; lia. Qed.

(** The last year an [int] can hold bounds the days the year loop handles. *)
Definition max_days : Z := 365 * 2147481000.

Lemma year_loop_spec fuel y d :
  1970 ≤ y → 0 ≤ d → y + d / 365 < 2147483647 → d / 365 < Z.of_nat fuel →
  ∃ y' d', year_loop fuel y d = Some (y', d') ∧ y ≤ y' < 2147483647 ∧
    0 ≤ d' < year_length y' ∧ days_before_year y + d = days_before_year y' + d'.
Proof.
  revert y d. induction fuel as [|f IH]; intros y d Hy Hd Hw Hf; [zdiv|].
  pose proof (year_length_bounds y) as Hl. simpl.
  destruct (Z.ltb_spec d (year_length y)) as [Hlt|Hge].
  - exists y, d. split_and!; try done; zdiv.
  - rewrite i32_small by zdiv.
    destruct (IH (y + 1) (d - year_length y)) as (y'&d'&He&Hy'&Hd'&Hsum); [lia|lia|zdiv|zdiv|].
    exists y', d'. rewrite days_before_next_year in Hsum by lia. split_and!; try done; lia.
Qed.

Lemma days_before_month_year y : 1 ≤ y → days_before_month y 12 = year_length y.
Proof.
  intros Hy. unfold year_length, days_before_month, gregorian_months. rewrite leap_spec by done.
  by destruct (gregorian_leap y).
Qed.

Lemma month_loop_spec left y (m : nat) d :
  1 ≤ y → (m + left = 12)%nat → 0 ≤ d → days_before_month y m + d < year_length y →
  ∃ (m' : nat) d', month_loop left y (Z.of_nat m) d = (Z.of_nat m', d') ∧ (m' < 12)%nat ∧
    0 ≤ d' < month_length y (Z.of_nat m') ∧
    days_before_month y m + d = days_before_month y m' + d'.
Proof.
  intros Hy. revert m d. induction left as [|l IH]; intros m d Hm Hd Hyr.
  - replace m with 12%nat in * by lia. rewrite days_before_month_year in Hyr by done. lia.
  - pose proof (days_before_next_month y m Hy ltac:(lia)) as Hnext.
    simpl. destruct (Z.ltb_spec d (month_length y (Z.of_nat m))) as [Hlt|Hge].
    + exists m, d. split_and!; try done; lia.
    + replace (Z.of_nat m + 1) with (Z.of_nat (S m)) by lia.
      destruct (IH (S m) (d - month_length y (Z.of_nat m))) as (m'&d'&He&Hm'&Hd'&Hs); [lia..|].
      exists m', d'. split_and!; try done; lia.
Qed.

(** The date loops turn a day number into the valid date that has it. *)
Lemma date_loops days :
  0 ≤ days ≤ max_days →
  ∃ y d m mday name, year_loop (year_fuel days) 1970 days = Some (y, d) ∧
    month_loop 12 y 0 d = (m, mday) ∧ 1970 ≤ y < 2147483647 ∧ 0 ≤ m < 12 ∧ 0 ≤ mday < month_length y m ∧
    calendar_day y m (mday + 1) name ∧ nth (Z.to_nat m) mon_name [] = bytes name ∧
    day_number y m (mday + 1) = days.
Proof.
  unfold max_days. intros Hd.
  destruct (year_loop_spec (year_fuel days) 1970 days) as (y&d&Hyl&Hy&Hdy&Hs);
    [lia|lia|zdiv|unfold year_fuel; zdiv|].
  assert (H0 : days_before_month y 0 = 0) by done.
  destruct (month_loop_spec 12 y 0 d) as (m&mday&Hml&Hm&Hmd&Hms); [lia|done|lia|lia|].
  destruct (months_spec y m ltac:(lia) Hm) as (name&Hn&Hname).
  exists y, d, (Z.of_nat m), mday, name. unfold calendar_day, day_number. rewrite Nat2Z.id.
  change (days_before_year 1970) with 0 in Hs. split_and!; try done; try lia.
  exists (month_length y (Z.of_nat m)). split; [done|lia].
Qed.

(** ** The formatted time *)

Definition two_digits (v : Z) : list Z := [48 + v / 10; 48 + v mod 10].

(** [r] reads "Www Mmm d hh:mm:ss UTC yyyy". *)
Definition utc_text (wday mon : string) (d h mi s y : Z) (r : list Z) : Prop :=
  ∃ dd yy, decimal_of dd d ∧ decimal_of yy y ∧
    r = bytes wday ++ [32] ++ bytes mon ++ [32] ++
        dd ++ [32] ++ two_digits h ++ [58] ++ two_digits mi ++ [58] ++ two_digits s ++
        bytes " UTC " ++ yy.

Lemma decimal_length ds v k :
  decimal_of ds v → 0 ≤ v < 10 ^ Z.of_nat k → (1 ≤ k)%nat → (length ds ≤ k)%nat.
Proof.
  intros [Hd Hv [Hne Hlead]] Hlt Hk. destruct ds as [|c [|c' ds]]; [done|simpl; lia|].
  destruct (decide (length (c :: c' :: ds) ≤ k)%nat) as [|Hgt]; [done|exfalso].
  assert (Hc : ch (c :: c' :: ds) 0 ≠ 48) by (apply Hlead; simpl; lia).
  unfold ch in Hc. simpl in Hc.
  assert (Hpos : ∀ l, Forall is_digit l → 0 ≤ dec_value l).
  { induction 1 as [|x l Hx Hl IH]; simpl; [lia|]. unfold is_digit in Hx.
    assert (0 ≤ (x - 48) * 10 ^ Z.of_nat (length l)) by (apply Z.mul_nonneg_nonneg; lia). lia. }
  apply Forall_cons in Hd as [Hcd Hd]. pose proof (Hpos _ Hd). cbn [dec_value] in Hv.
  unfold is_digit in Hcd.
  assert (10 ^ Z.of_nat k ≤ 10 ^ Z.of_nat (length (c' :: ds))).
  { apply Z.pow_le_mono_r; [lia|]. simpl in *. lia. }
  cbn [dec_value] in *. nia.
Qed.

(** A chain of appends is the append of the concatenation. *)
Lemma append_seq size b t u e k :
  e = append_chars size b t → (∀ b', k b' = append_chars size b' u) →
  (append! b' := e in k b') = append_chars size b (t ++ u).
Proof.
  intros -> Hk. revert b. induction t as [|c t IH]; intros b; simpl; [apply Hk|].
  destruct (append_char size b c) as [[] b']; [apply IH|done].
Qed.

Lemma append_char_chars size b c : append_char size b c = append_chars size b [c].
Proof. simpl. by destruct (append_char size b c) as [[] ?]. Qed.

Lemma append_2d_chars size b v :
  0 ≤ v < 100 → append_2d size b v = append_chars size b (two_digits v).
Proof.
  intros Hv. unfold append_2d, two_digits. rewrite !u8_small by zdiv.
  replace ((v / 10) mod 10) with (v / 10) by zdiv. simpl.
  destruct (append_char size b (48 + v / 10)) as [[] b1]; [|done].
  by destruct (append_char size b1 (48 + v mod 10)) as [[] ?].
Qed.

Lemma no_nul_two v : 0 ≤ v < 100 → no_nul (two_digits v).
Proof. intros. repeat constructor; zdiv. Qed.

Lemma name_spec (l : list (list Z)) (i : Z) :
  Forall (λ n, no_nul n ∧ length n = 3%nat) l → 0 ≤ i < Z.of_nat (length l) →
  no_nul (nth (Z.to_nat i) l []) ∧ length (nth (Z.to_nat i) l []) = 3%nat.
Proof. intros Hl Hi. rewrite Forall_forall in Hl. apply Hl, list_elem_of_In, nth_In. lia. Qed.

Lemma wday_names : Forall (λ n, no_nul n ∧ length n = 3%nat) wday_name.
Proof. repeat constructor; done. Qed.
Lemma mon_names : Forall (λ n, no_nul n ∧ length n = 3%nat) mon_name.
Proof. repeat constructor; done. Qed.

Lemma append_str_lit size b s : no_nul s → append_str size b s = append_chars size b s.
Proof. intros. by rewrite append_str_chars, cstr_id. Qed.

Lemma append_u32_lit size b v ds :
  ds = (if v =? 0 then [48] else rev (u32_digits 10 v)) →
  append_u32 size b v = append_chars size b ds.
Proof.
  intros ->. unfold append_u32. case_if; [|done].
  simpl. by destruct (append_char size b 48) as [[] ?].
Qed.

(** The canonical digits of a 32-bit value. *)
Definition u32_text (v : Z) : list Z :=
  if v =? 0 then [48] else rev (u32_digits 10 v).

Lemma u32_text_decimal v : 0 ≤ v < 4294967296 → decimal_of (u32_text v) v.
Proof.
  intros Hv. unfold u32_text. destruct (Z.eqb_spec v 0) as [->|Hne].
  - split; [repeat constructor; lia|done|split; [done|simpl; lia]].
  - apply u32_digits_decimal. lia.
Qed.

Ltac append_one :=
  first [ apply append_char_chars | apply append_2d_chars; lia
        | apply append_u32_lit; reflexivity
        | apply append_str_lit; first [assumption | repeat constructor; done] ].

(** The text of given fields, and that it fits in 40 bytes. *)
Lemma append_utc_spec buf wd m mday h mi sc y wday mon :
  nth (Z.to_nat wd) wday_name [] = bytes wday → nth (Z.to_nat m) mon_name [] = bytes mon →
  (40 ≤ length buf)%nat → 0 ≤ wd < 7 → 0 ≤ m < 12 → 1 ≤ mday ≤ 31 →
  0 ≤ h < 24 → 0 ≤ mi < 60 → 0 ≤ sc < 60 → 0 ≤ y < 2147483648 →
  ∃ b', append_utc 40 (ABuf (<[O := 0]> buf) 0) wd m mday h mi sc y = (true, b') ∧
    utc_text wday mon mday h mi sc y (cstr (out b')) ∧ length (out b') = length buf.
Proof.
  intros Hwday Hmon Hbuf Hwd Hm Hmd Hh Hmi Hsc Hy.
  destruct (name_spec wday_name wd wday_names Hwd) as [Hwn Hwl].
  destruct (name_spec mon_name m mon_names Hm) as [Hmn Hml].
  pose proof (u32_text_decimal mday ltac:(lia)) as Hdd.
  pose proof (u32_text_decimal y ltac:(lia)) as Hyy.
  pose proof (decimal_length _ _ 2 Hdd ltac:(simpl; lia) ltac:(lia)) as Hddl.
  pose proof (decimal_length _ _ 10 Hyy ltac:(simpl; lia) ltac:(lia)) as Hyyl.
  assert (Hr : holds 40 (ABuf (<[O := 0]> buf) 0) []).
  { split; cbn [pos out length]; rewrite ?length_insert; try done; try lia.
    - apply list_lookup_insert_eq. lia.
    - constructor. }
  set (t := nth (Z.to_nat wd) wday_name [] ++ [32] ++
        nth (Z.to_nat m) mon_name [] ++ [32] ++ u32_text mday ++ [32] ++
        two_digits h ++ [58] ++ two_digits mi ++ [58] ++ two_digits sc ++
        bytes " UTC " ++ u32_text y).
  assert (Ht : no_nul t).
  { unfold t, no_nul. rewrite !Forall_app.
    split_and!; try done; try (by eapply decimal_no_nul); try (apply no_nul_two; lia);
      repeat constructor; done. }
  destruct (append_chars_spec 40 _ [] t Hr Ht) as (b'&Hb'&Hhold).
  assert (Htl : (length t < 40)%nat).
  { unfold t. rewrite !length_app, Hwl, Hml. simpl. lia. }
  rewrite app_nil_l, take_ge in Hhold by lia.
  assert (Hfit : (Z.of_nat (length (@nil Z) + length t) <? 40) = true) by (simpl; lia).
  rewrite Hfit in Hb'. exists b'. split; [|split].
  - rewrite <-Hb'. unfold t, append_utc. rewrite (u32_small y) by lia.
    repeat (apply append_seq; [append_one|intros]). append_one.
  - rewrite (holds_cstr _ _ _ Hhold). unfold utc_text. rewrite <-Hwday, <-Hmon. by exists (u32_text mday), (u32_text y).
  - pose proof (append_chars_length 40 (ABuf (<[O := 0]> buf) 0) t) as Hl.
    rewrite Hb' in Hl. cbn [snd out] in Hl. by rewrite Hl, length_insert.
Qed.

Lemma month_length_le y m : 0 ≤ m < 12 → month_length y m ≤ 31.
Proof.
  intros Hm. unfold month_length. case_if; [lia|].
  assert (Hc : Forall (λ x, x ≤ 31) mon_days) by (repeat constructor; lia).
  rewrite Forall_forall in Hc. apply Hc, list_elem_of_In, nth_In. simpl. lia.
Qed.

Lemma utc_correct unix_sec buf :
  0 ≤ unix_sec < 86400 * max_days → (40 ≤ length buf)%nat →
  ∃ y m d h mi s mon buf',
    unix_time_to_utc_str unix_sec buf 40 = Some (true, buf') ∧ length buf' = length buf ∧
    calendar_day y m d mon ∧ 0 ≤ h < 24 ∧ 0 ≤ mi < 60 ∧ 0 ≤ s < 60 ∧
    unix_sec = ((day_number y m d * 24 + h) * 60 + mi) * 60 + s ∧
    utc_text (weekday (day_number y m d)) mon d h mi s y (cstr buf').
Proof.
  intros Hsec Hbuf. unfold unix_time_to_utc_str. simpl (40 =? 0). cbv iota.
  unfold max_days in Hsec. rewrite udiv64_32_full_spec by lia.
  set (days := unix_sec / 86400). set (sod := unix_sec mod 86400).
  assert (Hdays : 0 ≤ days ≤ max_days) by (unfold days, max_days; zdiv).
  assert (Hsod : 0 ≤ sod < 86400 ∧ unix_sec = days * 86400 + sod) by (unfold sod, days; zdiv).
  clearbody days sod. destruct (date_loops days Hdays) as (y&dy&m&mday&name&Hyl&Hml&Hy&Hm&Hmd&Hcal&Hname&Hdn).
  unfold max_days in Hdays. rewrite u64_small, udiv64_32_full_spec by lia.
  rewrite Hyl, Hml. pose proof (month_length_le y m Hm) as Hmd31. rewrite (u32_small (mday + 1)) by lia.
  assert (Hwd : 0 ≤ (days + 4) mod 7 < 7) by (apply Z.mod_pos_bound; lia).
  destruct (append_utc_spec buf ((days + 4) mod 7) m (mday + 1) (sod / 3600)
    (sod mod 3600 / 60) (sod mod 60) y (weekday days) name) as (b'&Hb'&Htext&Hlen); try done;
    [by rewrite weekday_spec|zdiv..|].
  exists y, m, (mday + 1), (sod / 3600), (sod mod 3600 / 60), (sod mod 60), name, (out b').
  cbv zeta. rewrite Hb', Hdn. split; [done|]. split_and!; try done; zdiv.
Qed.

(** C38. Wall-clock text: for every time up to the last representable year and a
    buffer of 40 bytes (the size both callers use), the conversion terminates,
    returns 0 and leaves "Www Mmm d hh:mm:ss UTC yyyy" for the proleptic
    Gregorian date, time of day and day of the week of that many seconds after
    Thursday 1970-01-01.  The calendar is a reference of its own: leap years, the names
    and lengths of the months and the names of the days are written out in it, and
    nothing is taken from the tables of the code. *)
Theorem unix_time_to_utc_str_correct unix_sec buf :
  0 ≤ unix_sec < 86400 * max_days → (40 ≤ length buf)%nat →
  ∃ y m d h mi s mon buf',
    unix_time_to_utc_str unix_sec buf 40 = Some (true, buf') ∧ length buf' = length buf ∧
    calendar_day y m d mon ∧ 0 ≤ h < 24 ∧ 0 ≤ mi < 60 ∧ 0 ≤ s < 60 ∧
    unix_sec = ((day_number y m d * 24 + h) * 60 + mi) * 60 + s ∧
    utc_text (weekday (day_number y m d)) mon d h mi s y (cstr buf').
Proof. apply utc_correct. Qed.

Lemma unix_time_to_utc_str_correct_witness :
  ∃ y m d h mi s mon buf',
    unix_time_to_utc_str 1709210096 (repeat 7 40) 40 = Some (true, buf') ∧
    calendar_day y m d mon ∧ 1709210096 = ((day_number y m d * 24 + h) * 60 + mi) * 60 + s ∧
    utc_text (weekday (day_number y m d)) mon d h mi s y (cstr buf').
Proof.
  destruct (unix_time_to_utc_str_correct 1709210096 (repeat 7 40))
    as (y&m&d&h&mi&s&mon&buf'&H1&_&H2&_&_&_&H3&H4); [unfold max_days; lia|simpl; lia|].
  exists y, m, d, h, mi, s, mon, buf'. split; [exact H1|]. split; [exact H2|]. split; [exact H3|exact H4].
Defined.

(** The clock: the 64-step shift-and-subtract loops compute quotient and
    remainder of every 64-bit value by every non-zero 32-bit divisor, so
    [gettime] returns the seconds and nanoseconds of the 64-bit nanosecond counter
    exactly, and [rtc_now_sec] its seconds modulo [2 ^ 32]. *)
Theorem clock_division n d :
  0 ≤ n < 18446744073709551616 → 0 < d < 4294967296 →
  udiv64_32_full n d = (n / d, n mod d) ∧
  udiv64_32 n d = u32 (n / d) ∧
  rtc_now_sec n = u32 (n / 1000000000) ∧
  ∃ lo hi nsec, gettime_fields n = (lo, hi, nsec) ∧ 0 ≤ lo < 4294967296 ∧
    0 ≤ nsec < 1000000000 ∧ (hi * 4294967296 + lo) * 1000000000 + nsec = n.
Proof.
  intros Hn Hd. unfold gettime_fields, rtc_now_sec.
  rewrite !udiv64_32_spec, !udiv64_32_full_spec by lia.
  rewrite Z.shiftr_div_pow2 by lia. change (2 ^ 32) with 4294967296.
  split; [done|split; [done|split; [done|]]].
  do 3 eexists. split; [done|]. unfold u32. zdiv.
Qed.

Lemma clock_division_witness :
  udiv64_32_full 12345678901234567890 1000000000 = (12345678901, 234567890).
Proof. apply (clock_division 12345678901234567890 1000000000); lia. Defined.
