(* ===== verification/Clock.v ===== *)
(** * The clocks of the machine ([src/kernel/rtc/rtc.c], [src/kernel/time/timer.c])

    The real-time clock is read through two 32-bit registers, the time of the processor
    through two halves of a counter.  The registers are parameters; the documented
    behaviour of the real-time clock is the class [RtcLaws]. *)
From Stdlib Require Import ZArith Lia ZifyBool.
From stdpp Require Import base tactics list numbers option.
From S2P Require Import Prelude TimeFmt.
#[local] Open Scope Z_scope.

(** [((uint64_t) hi << 32) | lo] *)
Definition join (hi lo : Z) : Z := Z.lor (u64 (Z.shiftl hi 32)) lo.

Lemma join_halves hi lo : 0 ≤ hi < 4294967296 → 0 ≤ lo < 4294967296 → join hi lo = hi * 4294967296 + lo.
Proof.
  intros Hh Hl. unfold join. rewrite Z.shiftl_mul_pow2 by lia. change (2 ^ 32) with 4294967296.
  rewrite u64_small by lia. pose proof (Z.add_lor_land (hi * 4294967296) lo) as Ha.
  assert (Z.land (hi * 4294967296) lo = 0) as Hz; [|lia].
  apply Z.bits_inj'. intros n Hn. rewrite Z.land_spec, Z.bits_0.
  change 4294967296 with (2 ^ 32). destruct (decide (n < 32)).
  - rewrite (Z.mul_pow2_bits_low hi) by lia. done.
  - rewrite <-(Z.mod_small lo (2 ^ 32)) by (change (2 ^ 32) with 4294967296; lia).
    rewrite Z.mod_pow2_bits_high by lia. apply andb_false_r.
Qed.

(** ** The real-time clock *)

Class Rtc (R : Type) := { rtc_load : Z → R → Z * R }.

Definition GOLDFISH_RTC_BASE : Z := 1052672.
Definition RTC_TIME_LOW : Z := 0.
Definition RTC_TIME_HIGH : Z := 4.

Section rtc.
Context {R : Type} `{Rtc R}.
Implicit Types r : R.

Definition rtc_read32 (off : Z) r : Z * R :=
  let '(v, r) := rtc_load (GOLDFISH_RTC_BASE + off) r in (u32 v, r).

Definition rtc_init r : Z * R :=
  let '(lo, r) := rtc_read32 RTC_TIME_LOW r in
  let '(hi, r) := rtc_read32 RTC_TIME_HIGH r in
  (0, r).

(** [do ... while (hi1 != hi2)], at most [fuel] rounds. *)
Fixpoint rtc_now_ns (fuel : nat) r : option (Z * R) :=
  match fuel with
  | O => None
  | S fuel' =>
      let '(hi1, r) := rtc_read32 RTC_TIME_HIGH r in
      let '(lo, r) := rtc_read32 RTC_TIME_LOW r in
      let '(hi2, r) := rtc_read32 RTC_TIME_HIGH r in
      if negb (hi1 =? hi2) then rtc_now_ns fuel' r else Some (join hi1 lo, r)
  end.

Definition rtc_seconds (fuel : nat) r : option (Z * R) :=
  let! (ns, r) := rtc_now_ns fuel r in Some (rtc_now_sec ns, r).

(** The time in nanoseconds, and the time at the last load of the low register: the high
    register gives the high half of that.  Time goes on, and less than 0.4 seconds pass
    between two loads. *)
Class RtcLaws (now latched : R → Z) : Prop := {
  now_range r : 0 ≤ now r < 18446744073709551616;
  latched_range r : 0 ≤ latched r < 18446744073709551616;
  load_low r : let '(v, r') := rtc_load (GOLDFISH_RTC_BASE + RTC_TIME_LOW) r in
    ∃ t, now r ≤ t ≤ now r' ∧ t ≤ now r + 400000000 ∧ v = t mod 4294967296 ∧ latched r' = t;
  load_high r : let '(v, r') := rtc_load (GOLDFISH_RTC_BASE + RTC_TIME_HIGH) r in
    now r ≤ now r' ∧ v = latched r / 4294967296 ∧ latched r' = latched r;
  load_quick off r : now (rtc_load off r).2 ≤ now r + 400000000
}.

Context (now latched : R → Z) `{!RtcLaws now latched}.

Definition high (t : Z) : Z := t / 4294967296.

(** One round of the loop: what the two high halves are. *)
Lemma rtc_round fuel r :
  ∃ t r', now r ≤ t ≤ now r' ∧ t ≤ now r + 1200000000 ∧ now r' ≤ now r + 1200000000 ∧ latched r' = t ∧
    rtc_now_ns (S fuel) r =
    if high (latched r) =? high t then Some (t, r') else rtc_now_ns fuel r'.
Proof.
  cbn [rtc_now_ns]. unfold rtc_read32.
  pose proof (load_high r) as H1. pose proof (load_quick (GOLDFISH_RTC_BASE + RTC_TIME_HIGH) r) as Q1.
  pose proof (latched_range r) as L0.
  destruct (rtc_load (GOLDFISH_RTC_BASE + RTC_TIME_HIGH) r) as [hi1 r1]. destruct H1 as (A1&->&A2).
  pose proof (load_low r1) as H2. pose proof (load_quick (GOLDFISH_RTC_BASE + RTC_TIME_LOW) r1) as Q2.
  destruct (rtc_load (GOLDFISH_RTC_BASE + RTC_TIME_LOW) r1) as [lo r2]. destruct H2 as (t&B1&B2&->&B3).
  pose proof (load_high r2) as H3. pose proof (load_quick (GOLDFISH_RTC_BASE + RTC_TIME_HIGH) r2) as Q3.
  pose proof (latched_range r2) as L2.
  destruct (rtc_load (GOLDFISH_RTC_BASE + RTC_TIME_HIGH) r2) as [hi2 r3]. destruct H3 as (C1&->&C2).
  cbn [snd] in *. exists t, r3. split_and!; [lia..|congruence|].
  rewrite B3 in *. rewrite !u32_small by (zdiv || (apply Z.mod_pos_bound; lia)).
  unfold high. destruct (Z.eqb_spec (latched r / 4294967296) (t / 4294967296)) as [E|E]; cbn [negb]; [|done].
  rewrite E, join_halves by (zdiv || (apply Z.mod_pos_bound; lia)). do 2 f_equal. zdiv.
Qed.

(** C39. Reading the real-time clock ends after three rounds at most and gives the time,
    all its 64 bits, at one moment of the reading: the two halves always belong together,
    also when the low half wraps meanwhile; and the seconds are those of that moment. *)
Theorem rtc_reads_time r :
  ∃ t r', rtc_now_ns 3 r = Some (t, r') ∧ now r ≤ t ≤ now r' ∧
    rtc_seconds 3 r = Some (u32 (t / 1000000000), r').
Proof.
  assert (∃ t r', rtc_now_ns 3 r = Some (t, r') ∧ now r ≤ t ≤ now r') as (t&r'&Hn&Ht).
  { destruct (rtc_round 2 r) as (t1&r1&A1&A2&A3&A4&->). case_if; [by eauto|].
    destruct (rtc_round 1 r1) as (t2&r2&B1&B2&B3&B4&->). rewrite A4.
    case_if; [exists t2, r2; split; [done|lia]|].
    destruct (rtc_round 0 r2) as (t3&r3&C1&C2&C3&C4&->). rewrite B4.
    case_if; [exists t3, r3; split; [done|lia]|]. exfalso.
    unfold high in *. pose proof (now_range r). zdiv. }
  exists t, r'. split_and!; [done|lia..|]. unfold rtc_seconds. rewrite Hn. unfold rtc_now_sec.
  pose proof (now_range r). pose proof (now_range r'). rewrite udiv64_32_spec by lia. done.
Qed.
End rtc.

(** ** The timer *)

(** The registers of the processor that the timer uses; [T] is its counter. *)
Record csrs := Csrs { sie : Z; sstatus : Z; stimecmp : Z }.

Definition enable_timer_interrupt (c : csrs) : csrs :=
  Csrs (Z.lor (sie c) (Z.shiftl 1 5)) (Z.lor (sstatus c) (Z.shiftl 1 1)) (stimecmp c).

(** [csrr] of the two halves of the counter. *)
Class TimeCsr (T : Type) := { csr_timeh : T → Z * T; csr_time : T → Z * T }.

Definition TIMER_INTERVAL : Z := 200000.

Section timer.
Context {T : Type} `{TimeCsr T}.

Definition rdtime (t : T) : Z * T :=
  let '(hi, t) := csr_timeh t in
  let '(lo, t) := csr_time t in
  (join (u32 hi) (u32 lo), t).

Definition wrtimecmp (val : Z) (c : csrs) : csrs :=
  let lo := Z.land val 4294967295 in
  let hi := Z.shiftr val 32 in
  Csrs (sie c) (sstatus c) (join (u32 hi) lo).

Definition timer_set_next (t : T) (c : csrs) : T * csrs :=
  let '(now, t) := rdtime t in (t, wrtimecmp (u64 (now + TIMER_INTERVAL)) c).

(** The counter goes up, by less than 2^32 between the two reads. *)
Class TimeLaws (count : T → Z) : Prop := {
  count_range t : 0 ≤ count t < 18446744073709551616 - TIMER_INTERVAL;
  read_high t : let '(v, t') := csr_timeh t in v = count t / 4294967296 ∧ count t ≤ count t';
  read_low t : let '(v, t') := csr_time t in v = count t mod 4294967296 ∧ count t ≤ count t';
  read_quick t : count (csr_timeh t).2 < count t + 4294767296
}.

Lemma wrtimecmp_value v c : 0 ≤ v < 18446744073709551616 → stimecmp (wrtimecmp v c) = v.
Proof.
  intros Hv. unfold wrtimecmp. cbn [stimecmp]. change 4294967295 with (Z.ones 32).
  rewrite Z.land_ones, Z.shiftr_div_pow2 by lia. change (2 ^ 32) with 4294967296.
  rewrite u32_small by zdiv. rewrite join_halves by (zdiv || (apply Z.mod_pos_bound; lia)). zdiv.
Qed.

(** The next timer interrupt is due [TIMER_INTERVAL] ticks after a moment of the call;
    only when the low half of the counter wraps between the two reads it is due at once. It
    is never due later than that interval after the call, so the time slices go on. *)
Theorem timer_due (count : T → Z) `{!TimeLaws count} t c :
  let '(t', c') := timer_set_next t c in
  count t ≤ count t' ∧ stimecmp c' ≤ count t' + TIMER_INTERVAL ∧
  ((∃ s, count t ≤ s ≤ count t' ∧ stimecmp c' = s + TIMER_INTERVAL) ∨ stimecmp c' < count t') ∧
  sie c' = sie c ∧ sstatus c' = sstatus c.
Proof.
  unfold timer_set_next, rdtime.
  pose proof (read_high t) as H1. pose proof (read_quick t) as Q. pose proof (count_range t) as G.
  destruct (csr_timeh t) as [hi t1]. destruct H1 as [-> A]. cbn [snd] in Q.
  pose proof (read_low t1) as H2. pose proof (count_range t1) as G1.
  destruct (csr_time t1) as [lo t2]. destruct H2 as [-> B]. pose proof (count_range t2) as G2.
  unfold TIMER_INTERVAL in *.
  rewrite !u32_small by (zdiv || (apply Z.mod_pos_bound; lia)).
  rewrite join_halves by (zdiv || (apply Z.mod_pos_bound; lia)).
  rewrite u64_small by zdiv. rewrite wrtimecmp_value by zdiv.
  cbn [sie sstatus wrtimecmp]. split_and!; try done; [lia|zdiv|].
  destruct (decide (count t / 4294967296 = count t1 / 4294967296)) as [E|E].
  - left. exists (count t1). split; [lia|]. zdiv.
  - right. zdiv.
Qed.
End timer.
