(* ===== verification/ClockTests.v ===== *)
(** * The clocks on concrete counters *)
From Stdlib Require Import ZArith Lia ZifyBool.
From stdpp Require Import base tactics list numbers option.
From S2P Require Import Prelude TimeFmt Clock.
#[local] Open Scope Z_scope.

(** A clock that goes on by 100 ns with each load, and stops at its end. *)
Record ticking := Tick { ns_now : Z; ns_low : Z }.

Definition clamp (top z : Z) : Z := Z.max 0 (Z.min (top - 1) z).
Definition c64 : Z → Z := clamp 18446744073709551616.

#[export] Instance ticking_rtc : Rtc ticking := {
  rtc_load a r :=
    if a =? GOLDFISH_RTC_BASE then (c64 (ns_now r) mod 4294967296, Tick (ns_now r + 100) (ns_now r))
    else (c64 (ns_low r) / 4294967296, Tick (ns_now r + 100) (ns_low r))
}.

#[export] Instance ticking_laws : RtcLaws (λ r, c64 (ns_now r)) (λ r, c64 (ns_low r)).
Proof.
  unfold c64, clamp. split; cbn [rtc_load ticking_rtc].
  - intros r. lia.
  - intros r. lia.
  - intros r. rewrite (proj2 (Z.eqb_eq _ _)) by done. cbn [ns_now ns_low].
    eexists. split_and!; [reflexivity|lia|lia|done|done].
  - intros r. rewrite (proj2 (Z.eqb_neq _ _)) by done. cbn [ns_now ns_low]. split_and!; [lia|done|done].
  - intros a r. case_if; cbn [snd ns_now]; lia.
Qed.

(** Just before the low half wraps. *)
Definition before_wrap : ticking := Tick 4294967250 4294967250.

Lemma rtc_reads_time_witness :
  fst <$> rtc_now_ns 3 before_wrap = Some 4294967650 ∧
  ∃ t r', rtc_now_ns 3 before_wrap = Some (t, r') ∧ c64 (ns_now before_wrap) ≤ t ≤ c64 (ns_now r') ∧
    rtc_seconds 3 before_wrap = Some (u32 (t / 1000000000), r').
Proof.
  split; [vm_compute; reflexivity|].
  exact (rtc_reads_time (λ r, c64 (ns_now r)) (λ r, c64 (ns_low r)) before_wrap).
Defined.

(** A counter that goes up by one with each read. *)
Definition c_top : Z → Z := clamp (18446744073709551616 - TIMER_INTERVAL).

#[export] Instance counter_csr : TimeCsr Z := {
  csr_timeh t := (c_top t / 4294967296, t + 1);
  csr_time t := (c_top t mod 4294967296, t + 1)
}.

#[export] Instance counter_laws : TimeLaws c_top.
Proof.
  unfold c_top, clamp, TIMER_INTERVAL.
  split; intros t; unfold TIMER_INTERVAL; cbn [csr_timeh csr_time counter_csr snd]; try split; try done; lia.
Qed.

Lemma timer_due_witness :
  stimecmp (timer_set_next 4294967295 (Csrs 0 0 0)).2 = 200000 ∧
  let '(t', c') := timer_set_next 1000 (Csrs 0 0 0) in
  c_top 1000 ≤ c_top t' ∧ stimecmp c' ≤ c_top t' + TIMER_INTERVAL ∧
  ((∃ s, c_top 1000 ≤ s ≤ c_top t' ∧ stimecmp c' = s + TIMER_INTERVAL) ∨ stimecmp c' < c_top t') ∧
  sie c' = sie (Csrs 0 0 0) ∧ sstatus c' = sstatus (Csrs 0 0 0).
Proof. split; [vm_compute; reflexivity|]. exact (timer_due c_top 1000 (Csrs 0 0 0)). Defined.
