(* ===== verification/BlockDev.v ===== *)
(** * The block device interface ([src/include/blockdev.h])

    The file system reaches the disk through [blockdev_read] and
    [blockdev_write] only.  The class below is that interface: the file system
    is defined and verified over any instance. *)
From Stdlib Require Import ZArith Lia ZifyBool.
From stdpp Require Import base tactics list numbers option.
From S2P Require Import Prelude.

Definition BLOCKDEV_BLOCK_SIZE : Z := 512.
Definition BLOCKDEV_BLOCK_COUNT : Z := 256.

(** The initialisation panics ([None]) or not; a read gives the block or fails; a
    write tells whether it returned 0. *)
Class BlockDev (D : Type) := {
  blockdev_init : D → option D;
  blockdev_read : Z → D → option (list Z) * D;
  blockdev_write : Z → list Z → D → bool * D
}.

(** What a block store promises, [stored d i] being the contents of block [i]:
    reads return the contents and change none; a write that succeeds replaces one
    block, one that fails changes at most that block. *)
Class BlockDevLaws (D : Type) `{BlockDev D} (stored : D → Z → list Z) : Prop := {
  init_preserves d d' j : blockdev_init d = Some d' → stored d' j = stored d j;
  stored_length d i : length (stored d i) = Z.to_nat BLOCKDEV_BLOCK_SIZE;
  read_stored i d b d' :
    blockdev_read i d = (Some b, d') → b = stored d i;
  read_preserves i d r d' j :
    blockdev_read i d = (r, d') → stored d' j = stored d j;
  write_stored i b d d' :
    length b = Z.to_nat BLOCKDEV_BLOCK_SIZE →
    blockdev_write i b d = (true, d') → stored d' i = b;
  write_other i b d r d' j :
    j ≠ i → blockdev_write i b d = (r, d') → stored d' j = stored d j
}.

(** A store in memory whose writes start to fail after [budget] of them: the
    instance on which the theorems of the file system are exercised. *)
Record ramdisk := RamDisk { blocks : Z → list Z; budget : nat }.

Definition fit_block (b : list Z) : list Z := take 512 (b ++ repeat 0 512).

#[export] Instance ramdisk_dev : BlockDev ramdisk := {
  blockdev_init d := Some d;
  blockdev_read i d := (Some (fit_block (blocks d i)), d);
  blockdev_write i b d :=
    match budget d with
    | O => (false, d)
    | S n => (true, RamDisk (λ j, if j =? i then b else blocks d j) n)
    end
}.

Lemma fit_block_length b : length (fit_block b) = 512%nat.
Proof. unfold fit_block. rewrite length_take, length_app, repeat_length. lia. Qed.

Lemma fit_block_id b : length b = 512%nat → fit_block b = b.
Proof. intros Hb. unfold fit_block. rewrite take_app_le, take_ge by lia. done. Qed.

#[export] Instance ramdisk_laws : BlockDevLaws ramdisk (λ d i, fit_block (blocks d i)).
Proof.
  split.
  - intros d d' j [= <-]. done.
  - intros. apply fit_block_length.
  - intros i d b d' [= <- <-]. done.
  - intros i d r d' j [= <- <-]. done.
  - intros i b d d' Hb. simpl. destruct (budget d); intros [= <-]. simpl.
    rewrite Z.eqb_refl. by apply fit_block_id.
  - intros i b d r d' j Hj. simpl. destruct (budget d); intros [= <- <-]; simpl; [done|].
    by rewrite (proj2 (Z.eqb_neq j i)).
Qed.

(** An empty disk that takes [n] writes. *)
Definition blank_disk (n : nat) : ramdisk := RamDisk (λ _, []) n.
