(* ===== verification/Virtio.v ===== *)
(** * The virtio block driver ([src/kernel/fs/blockdev_virtio.c])

    The driver keeps a queue of requests in memory that it shares with the device, tells
    the device about a request by a store to one of its registers, and waits until the
    device has changed the queue.  The device and the addresses the linker chose are
    parameters: [VirtioMmio], [Layout]. *)
From Stdlib Require Import ZArith Lia ZifyBool String.
From stdpp Require Import base tactics list numbers option.
From S2P Require Import Prelude CString BlockDev.
#[local] Open Scope Z_scope.

(** ** Memory *)

(** Little-endian stores and loads of [n] bytes. *)
Fixpoint store_le (n : nat) (a v : Z) (r : memory) : memory :=
  match n with
  | O => r
  | S n' => store_le n' (a + 1) (v / 256) (mset r a (v mod 256))
  end.

Fixpoint load_le (n : nat) (a : Z) (r : memory) : Z :=
  match n with
  | O => 0
  | S n' => r a + 256 * load_le n' (a + 1) r
  end.

Definition load_block (a : Z) (r : memory) : list Z := map (λ i, r (a + i)) (seqZ 0 512).
Definition store_block (a : Z) (b : list Z) (r : memory) : memory :=
  λ x, if (a <=? x) && (x <? a + Z.of_nat (length b)) then nth (Z.to_nat (x - a)) b 0 else r x.

(** ** The device *)

(** A load and a store of a 32-bit register, by its address, and what the device does to
    the memory and to itself while the processor goes once round a waiting loop, or from
    one step of the recovery to the next. *)
Class VirtioMmio (V : Type) := {
  mmio_load : Z → V → Z * V;
  mmio_store : Z → Z → V → V;
  dma : memory → V → memory * V
}.

(** Where the static variables are, and the [probe] arrays on the stack. *)
Class Layout := { vq_mem : Z; req_hdr : Z; req_status : Z; probe : Z }.

Definition VIRTIO_MMIO_BASE : Z := 268439552.
Definition VIRTIO_MMIO_STRIDE : Z := 4096.
Definition VIRTIO_MMIO_MAX_DEVS : nat := 8.

Definition VIRTIO_MMIO_MAGIC_VALUE : Z := 0.
Definition VIRTIO_MMIO_VERSION : Z := 4.
Definition VIRTIO_MMIO_DEVICE_ID : Z := 8.
Definition VIRTIO_MMIO_VENDOR_ID : Z := 12.
Definition VIRTIO_MMIO_DEVICE_FEATURES : Z := 16.
Definition VIRTIO_MMIO_DEVICE_FEATURES_SEL : Z := 20.
Definition VIRTIO_MMIO_DRIVER_FEATURES : Z := 32.
Definition VIRTIO_MMIO_DRIVER_FEATURES_SEL : Z := 36.
Definition VIRTIO_MMIO_QUEUE_SEL : Z := 48.
Definition VIRTIO_MMIO_QUEUE_NUM_MAX : Z := 52.
Definition VIRTIO_MMIO_QUEUE_NUM : Z := 56.
Definition VIRTIO_MMIO_QUEUE_READY : Z := 68.
Definition VIRTIO_MMIO_QUEUE_NOTIFY : Z := 80.
Definition VIRTIO_MMIO_STATUS : Z := 112.
Definition VIRTIO_MMIO_QUEUE_DESC_LOW : Z := 128.
Definition VIRTIO_MMIO_QUEUE_DESC_HIGH : Z := 132.
Definition VIRTIO_MMIO_QUEUE_AVAIL_LOW : Z := 144.
Definition VIRTIO_MMIO_QUEUE_AVAIL_HIGH : Z := 148.
Definition VIRTIO_MMIO_QUEUE_USED_LOW : Z := 160.
Definition VIRTIO_MMIO_QUEUE_USED_HIGH : Z := 164.
Definition VIRTIO_MMIO_CONFIG : Z := 256.

Definition VIRTIO_MAGIC : Z := 1953655158.
Definition VIRTIO_VENDOR : Z := 1431127377.
Definition VIRTIO_DEV_BLOCK : Z := 2.

Definition VIRTIO_STATUS_ACKNOWLEDGE : Z := 1.
Definition VIRTIO_STATUS_DRIVER : Z := 2.
Definition VIRTIO_STATUS_FEATURES_OK : Z := 8.
Definition VIRTIO_STATUS_DRIVER_OK : Z := 4.
Definition VIRTIO_STATUS_FAILED : Z := 128.

Definition VIRTQ_DESC_F_NEXT : Z := 1.
Definition VIRTQ_DESC_F_WRITE : Z := 2.
Definition VIRTIO_BLK_T_IN : Z := 0.
Definition VIRTIO_BLK_T_OUT : Z := 1.
Definition VIRTIO_F_VERSION_1 : Z := 32.

Definition VQ_NUM : Z := 8.
Definition VQ_ALIGN : Z := 4096.
Definition VQ_BYTES : Z := 2 * VQ_ALIGN.
Definition VIRTIO_IO_SPIN_LIMIT : Z := 30000000.

(** The addresses of the fields of the queue. *)
Definition desc_at (desc i : Z) : Z := desc + 16 * i.
Definition desc_addr (d : Z) : Z := d.
Definition desc_len (d : Z) : Z := d + 8.
Definition desc_flags (d : Z) : Z := d + 12.
Definition desc_next (d : Z) : Z := d + 14.
Definition avail_idx (avail : Z) : Z := avail + 2.
Definition avail_ring (avail i : Z) : Z := avail + 4 + 2 * i.
Definition used_idx (used : Z) : Z := used + 2.

(** ** The driver *)

Section driver.
Context {V : Type} `{VirtioMmio V} {L : Layout}.

(** The static variables that are not shared with the device; the memory, the device, and
    what has been printed. *)
Record blk := Blk {
  virtio_mmio : Z; capacity_blocks : Z;
  vq_desc : Z; vq_avail : Z; vq_used : Z; vq_last_used_idx : Z;
  blk_log_once : bool; last_io_timed_out : bool; blk_recovering : bool;
  ram : memory; dev : V; printed : list Z
}.

Definition with_ram (m : blk) (r : memory) : blk :=
  Blk (virtio_mmio m) (capacity_blocks m) (vq_desc m) (vq_avail m) (vq_used m) (vq_last_used_idx m)
    (blk_log_once m) (last_io_timed_out m) (blk_recovering m) r (dev m) (printed m).
Definition with_dev (m : blk) (d : V) : blk :=
  Blk (virtio_mmio m) (capacity_blocks m) (vq_desc m) (vq_avail m) (vq_used m) (vq_last_used_idx m)
    (blk_log_once m) (last_io_timed_out m) (blk_recovering m) (ram m) d (printed m).
Definition with_capacity (m : blk) (c : Z) : blk :=
  Blk (virtio_mmio m) c (vq_desc m) (vq_avail m) (vq_used m) (vq_last_used_idx m)
    (blk_log_once m) (last_io_timed_out m) (blk_recovering m) (ram m) (dev m) (printed m).
Definition with_last (m : blk) (idx : Z) : blk :=
  Blk (virtio_mmio m) (capacity_blocks m) (vq_desc m) (vq_avail m) (vq_used m) idx
    (blk_log_once m) (last_io_timed_out m) (blk_recovering m) (ram m) (dev m) (printed m).
Definition timed_out (m : blk) (b : bool) : blk :=
  Blk (virtio_mmio m) (capacity_blocks m) (vq_desc m) (vq_avail m) (vq_used m) (vq_last_used_idx m)
    (blk_log_once m) b (blk_recovering m) (ram m) (dev m) (printed m).
Definition recovering (m : blk) (b : bool) : blk :=
  Blk (virtio_mmio m) (capacity_blocks m) (vq_desc m) (vq_avail m) (vq_used m) (vq_last_used_idx m)
    (blk_log_once m) (last_io_timed_out m) b (ram m) (dev m) (printed m).
Definition say_blk (m : blk) (fmt : string) (args : list arg) : blk :=
  Blk (virtio_mmio m) (capacity_blocks m) (vq_desc m) (vq_avail m) (vq_used m) (vq_last_used_idx m)
    (blk_log_once m) (last_io_timed_out m) (blk_recovering m) (ram m) (dev m)
    (printed m ++ default [] (printf (bytes fmt ++ [10]) args)).
(** A line printed the first time only. *)
Definition log_once (m : blk) (fmt : string) (args : list arg) : blk :=
  if blk_log_once m then m
  else
    let m := say_blk m fmt args in
    Blk (virtio_mmio m) (capacity_blocks m) (vq_desc m) (vq_avail m) (vq_used m) (vq_last_used_idx m)
      true (last_io_timed_out m) (blk_recovering m) (ram m) (dev m) (printed m).

Definition mmio_read (off : Z) (m : blk) : Z * blk :=
  let '(v, d) := mmio_load (u32 (virtio_mmio m + off)) (dev m) in (u32 v, with_dev m d).

Definition mmio_write (off val : Z) (m : blk) : blk :=
  with_dev m (mmio_store (u32 (virtio_mmio m + off)) (u32 val) (dev m)).

(** The four registers that tell what is in the slot at [base]. *)
Definition slot_regs (base : Z) (d : V) : Z * Z * Z * Z * V :=
  let '(magic, d) := mmio_load (u32 (base + VIRTIO_MMIO_MAGIC_VALUE)) d in
  let '(version, d) := mmio_load (u32 (base + VIRTIO_MMIO_VERSION)) d in
  let '(dev_id, d) := mmio_load (u32 (base + VIRTIO_MMIO_DEVICE_ID)) d in
  let '(vendor, d) := mmio_load (u32 (base + VIRTIO_MMIO_VENDOR_ID)) d in
  (u32 magic, u32 version, u32 dev_id, u32 vendor, d).

Fixpoint find_loop (left : nat) (i : Z) (m : blk) : bool * blk :=
  match left with
  | O => (false, m)
  | S left' =>
      let base := u32 (VIRTIO_MMIO_BASE + i * VIRTIO_MMIO_STRIDE) in
      let '(magic, version, dev_id, vendor, d) := slot_regs base (dev m) in
      let m := with_dev m d in
      if negb (magic =? VIRTIO_MAGIC) then find_loop left' (i + 1) m
      else if version <? 2 then find_loop left' (i + 1) m
      else if negb (dev_id =? VIRTIO_DEV_BLOCK) then find_loop left' (i + 1) m
      else if negb (vendor =? VIRTIO_VENDOR) then find_loop left' (i + 1) m
      else (true, Blk base (capacity_blocks m) (vq_desc m) (vq_avail m) (vq_used m) (vq_last_used_idx m)
                    (blk_log_once m) (last_io_timed_out m) (blk_recovering m) (ram m) (dev m) (printed m))
  end.

Definition virtio_find_blk : blk → bool * blk := find_loop VIRTIO_MMIO_MAX_DEVS 0.

Definition virtio_setup_vq_layout (m : blk) : blk :=
  let desc_bytes := 16 * VQ_NUM in
  Blk (virtio_mmio m) (capacity_blocks m) vq_mem (vq_mem + desc_bytes) (vq_mem + VQ_ALIGN) 0
    (blk_log_once m) (last_io_timed_out m) (blk_recovering m)
    (mfill (ram m) vq_mem 0 VQ_BYTES) (dev m) (printed m).

Definition virtio_setup_queue (m : blk) : bool * blk :=
  let m := mmio_write VIRTIO_MMIO_QUEUE_SEL 0 m in
  let '(qmax, m) := mmio_read VIRTIO_MMIO_QUEUE_NUM_MAX m in
  if (qmax =? 0) || (qmax <? VQ_NUM) then (false, m)
  else
    let m := mmio_write VIRTIO_MMIO_QUEUE_NUM VQ_NUM m in
    let m := mmio_write VIRTIO_MMIO_QUEUE_READY 0 m in
    let m := mmio_write VIRTIO_MMIO_QUEUE_DESC_LOW (vq_desc m) m in
    let m := mmio_write VIRTIO_MMIO_QUEUE_DESC_HIGH 0 m in
    let m := mmio_write VIRTIO_MMIO_QUEUE_AVAIL_LOW (vq_avail m) m in
    let m := mmio_write VIRTIO_MMIO_QUEUE_AVAIL_HIGH 0 m in
    let m := mmio_write VIRTIO_MMIO_QUEUE_USED_LOW (vq_used m) m in
    let m := mmio_write VIRTIO_MMIO_QUEUE_USED_HIGH 0 m in
    let m := mmio_write VIRTIO_MMIO_QUEUE_READY 1 m in
    (true, m).

Definition virtio_configure_device (m : blk) : bool * blk :=
  let m := mmio_write VIRTIO_MMIO_STATUS 0 m in
  let m := mmio_write VIRTIO_MMIO_STATUS VIRTIO_STATUS_ACKNOWLEDGE m in
  let m := mmio_write VIRTIO_MMIO_STATUS (Z.lor VIRTIO_STATUS_ACKNOWLEDGE VIRTIO_STATUS_DRIVER) m in
  let m := mmio_write VIRTIO_MMIO_DEVICE_FEATURES_SEL 0 m in
  let '(features0, m) := mmio_read VIRTIO_MMIO_DEVICE_FEATURES m in
  let m := mmio_write VIRTIO_MMIO_DEVICE_FEATURES_SEL 1 m in
  let '(features1, m) := mmio_read VIRTIO_MMIO_DEVICE_FEATURES m in
  if Z.land features1 (Z.shiftl 1 (VIRTIO_F_VERSION_1 - 32)) =? 0 then (false, m)
  else
    let m := mmio_write VIRTIO_MMIO_DRIVER_FEATURES_SEL 0 m in
    let m := mmio_write VIRTIO_MMIO_DRIVER_FEATURES 0 m in
    let m := mmio_write VIRTIO_MMIO_DRIVER_FEATURES_SEL 1 m in
    let m := mmio_write VIRTIO_MMIO_DRIVER_FEATURES (Z.shiftl 1 (VIRTIO_F_VERSION_1 - 32)) m in
    let '(status, m) := mmio_read VIRTIO_MMIO_STATUS m in
    let m := mmio_write VIRTIO_MMIO_STATUS (Z.lor status VIRTIO_STATUS_FEATURES_OK) m in
    let '(status, m) := mmio_read VIRTIO_MMIO_STATUS m in
    if Z.land status VIRTIO_STATUS_FEATURES_OK =? 0 then (false, m)
    else
      let '(ok, m) := virtio_setup_queue m in
      if negb ok then (false, m)
      else
        (true, mmio_write VIRTIO_MMIO_STATUS
                 (Z.lor (Z.lor VIRTIO_STATUS_ACKNOWLEDGE VIRTIO_STATUS_DRIVER) VIRTIO_STATUS_DRIVER_OK) m).

Definition virtio_read_capacity (m : blk) : bool * blk :=
  let '(cap_lo, m) := mmio_read VIRTIO_MMIO_CONFIG m in
  let '(cap_hi, m) := mmio_read (VIRTIO_MMIO_CONFIG + 4) m in
  let cap := Z.lor (u64 (Z.shiftl cap_hi 32)) cap_lo in
  if cap =? 0 then (false, m)
  else if 4294967295 <? cap then (true, with_capacity m 4294967295)
  else (true, with_capacity m (u32 cap)).

(** A descriptor. *)
Definition put_desc (d addr len flags next : Z) (r : memory) : memory :=
  let r := store_le 8 (desc_addr d) addr r in
  let r := store_le 4 (desc_len d) len r in
  let r := store_le 2 (desc_flags d) flags r in
  store_le 2 (desc_next d) next r.

(** The request in memory: its header, the three descriptors, the entry of the ring. *)
Definition put_request (type block_index buf : Z) (m : blk) : blk :=
  let r := ram m in
  let r := store_le 4 req_hdr type r in
  let r := store_le 4 (req_hdr + 4) 0 r in
  let r := store_le 8 (req_hdr + 8) block_index r in
  let r := store_le 1 req_status 255 r in
  let r := put_desc (desc_at (vq_desc m) 0) (u32 req_hdr) 16 VIRTQ_DESC_F_NEXT 1 r in
  let flags := VIRTQ_DESC_F_NEXT in
  let flags := if type =? VIRTIO_BLK_T_IN then Z.lor flags VIRTQ_DESC_F_WRITE else flags in
  let r := put_desc (desc_at (vq_desc m) 1) (u32 buf) BLOCKDEV_BLOCK_SIZE flags 2 r in
  let r := put_desc (desc_at (vq_desc m) 2) (u32 req_status) 1 VIRTQ_DESC_F_WRITE 0 r in
  let idx := load_le 2 (avail_idx (vq_avail m)) r in
  let r := store_le 2 (avail_ring (vq_avail m) (idx mod VQ_NUM)) 0 r in
  with_ram m (store_le 2 (avail_idx (vq_avail m)) (u16 (idx + 1)) r).

(** The device is at work while the driver does something else. *)
Definition meanwhile (m : blk) : blk :=
  let '(r, d) := dma (ram m) (dev m) in with_dev (with_ram m r) d.

(** One look at the queue, after what the device did meanwhile; whether it has answered. *)
Definition look (m : blk) : bool * blk :=
  let m := meanwhile m in
  (negb (load_le 2 (used_idx (vq_used m)) (ram m) =? vq_last_used_idx m), m).

(** [p] looks, or fewer: the loop ends with the first that finds an answer. *)
Fixpoint looks (p : positive) (m : blk) : bool * blk :=
  match p with
  | xH => look m
  | xO q =>
      let '(ok, m) := looks q m in if ok : bool then (true, m) else looks q m
  | xI q =>
      let '(ok, m) := looks q m in
      if ok : bool then (true, m)
      else let '(ok, m) := looks q m in if ok : bool then (true, m) else look m
  end.

(** [while (vq_used->idx == vq_last_used_idx) if (++spin > VIRTIO_IO_SPIN_LIMIT) ...] *)
Definition wait_used (m : blk) : bool * blk := looks (Z.to_pos (VIRTIO_IO_SPIN_LIMIT + 1)) m.

(** [true] where the code returns 0. *)
Definition virtio_do_io (type block_index buf : Z) (m : blk) : bool * blk :=
  let m := timed_out m false in
  let m := put_request type block_index buf m in
  let m := mmio_write VIRTIO_MMIO_QUEUE_NOTIFY 0 m in
  let '(answered, m) := wait_used m in
  if negb answered then
    let m := timed_out m true in
    (false, log_once m "[blk] timeout type=%d blk=%d status=%x used=%d last=%d"
              [AInt (i32 type); AInt (i32 block_index); AInt (load_le 1 req_status (ram m));
               AInt (load_le 2 (used_idx (vq_used m)) (ram m)); AInt (vq_last_used_idx m)])
  else
    let m := with_last m (load_le 2 (used_idx (vq_used m)) (ram m)) in
    let status := load_le 1 req_status (ram m) in
    if negb (status =? 0) then
      (false, log_once m "[blk] io err type=%d blk=%d status=%x"
                [AInt (i32 type); AInt (i32 block_index); AInt status])
    else (true, m).

(** The device still has the request that it did not answer in time, and runs until the
    reset at the start of [virtio_configure_device]: it may go on with the request, and
    finish it, before the queue is cleared, and it runs on above the cleared queue. *)
Definition virtio_recover_from_timeout (m : blk) : bool * blk :=
  if blk_recovering m then (false, m)
  else
    let m := recovering m true in
    let m := meanwhile m in
    let m := virtio_setup_vq_layout m in
    let m := meanwhile m in
    let '(ok, m) := virtio_configure_device m in
    let '(ok, m) := if ok : bool then virtio_read_capacity m else (false, m) in
    if negb ok then (false, recovering (mmio_write VIRTIO_MMIO_STATUS VIRTIO_STATUS_FAILED m) false)
    else
      let '(ok, m) := virtio_do_io VIRTIO_BLK_T_IN 0 probe m in
      if negb ok then (false, recovering (mmio_write VIRTIO_MMIO_STATUS VIRTIO_STATUS_FAILED m) false)
      else (true, recovering m false).

(** [None] for a panic. *)
Definition virtio_init (m : blk) : option blk :=
  let '(ok, m) := virtio_find_blk m in
  if negb ok then None
  else
    let m := virtio_setup_vq_layout m in
    let '(ok, m) := virtio_configure_device m in
    if negb ok then None
    else
      let '(ok, m) := virtio_read_capacity m in
      if negb ok then None
      else
        let '(ok, m) := virtio_do_io VIRTIO_BLK_T_IN 0 probe m in
        if negb ok then None else Some m.

(** What [blockdev_read] and [blockdev_write] have in common. *)
Definition virtio_transfer (type block_index buf : Z) (m : blk) : bool * blk :=
  if buf =? 0 then (false, m)
  else if (BLOCKDEV_BLOCK_COUNT <=? block_index) || (capacity_blocks m <=? block_index) then (false, m)
  else
    let '(ok, m) := virtio_do_io type block_index buf m in
    if ok : bool then (true, m)
    else if negb (last_io_timed_out m) then (false, m)
    else
      let m := say_blk m "[blk] recovering from timeout..." [] in
      let '(ok, m) := virtio_recover_from_timeout m in
      if negb ok then (false, m)
      else virtio_do_io type block_index buf m.

Definition virtio_read (block_index out_block : Z) (m : blk) : bool * blk :=
  virtio_transfer VIRTIO_BLK_T_IN block_index out_block m.
Definition virtio_write (block_index in_block : Z) (m : blk) : bool * blk :=
  virtio_transfer VIRTIO_BLK_T_OUT block_index in_block m.
End driver.
Arguments blk : clear implicits.
