(* ===== verification/VirtioSpec.v ===== *)
(** * What the virtio block device promises

    The device as the driver sees it: the registers it was told, the requests it has taken
    from the queue, its sectors; and the documented behaviour of a virtio-mmio block
    device with a split queue (virtio 1.x, sections 2.7, 4.2 and 5.2), as the laws of a
    class. *)
From Stdlib Require Import ZArith Lia ZifyBool String.
From stdpp Require Import base tactics list numbers option.
From S2P Require Import Prelude CString BlockDev Virtio.
#[local] Open Scope Z_scope.

(** ** Loads and stores *)

Lemma store_le_other n a v r x : x < a ∨ a + Z.of_nat n ≤ x → store_le n a v r x = r x.
Proof.
  revert a v r. induction n as [|n IH]; intros a v r Hx; [done|]. cbn [store_le].
  rewrite IH by lia. apply mset_ne. lia.
Qed.

Lemma load_le_ext n a r r' : (∀ x, a ≤ x < a + Z.of_nat n → r' x = r x) → load_le n a r' = load_le n a r.
Proof.
  revert a. induction n as [|n IH]; intros a Hx; [done|]. cbn [load_le].
  rewrite Hx, IH by (lia || (intros; apply Hx; lia)). done.
Qed.

Lemma load_store_ne k b n a v r :
  b + Z.of_nat k ≤ a ∨ a + Z.of_nat n ≤ b → load_le k b (store_le n a v r) = load_le k b r.
Proof. intros Hd. apply load_le_ext. intros x Hx. apply store_le_other. lia. Qed.

Lemma load_store_eq n a v r : load_le n a (store_le n a v r) = v mod 256 ^ Z.of_nat n.
Proof.
  revert a v r. induction n as [|n IH]; intros a v r; [by rewrite Z.mod_1_r|].
  cbn [load_le store_le]. rewrite IH, store_le_other, mset_eq by lia.
  rewrite Nat2Z.inj_succ, Z.pow_succ_r by lia. rewrite Z.mul_comm.
  rewrite (Z.rem_mul_r v 256) by (try apply Z.pow_pos_nonneg; lia). lia.
Qed.

#[global] Arguments load_le : simpl never.
#[global] Arguments store_le : simpl never.

Lemma load_block_ext a r r' : (∀ x, a ≤ x < a + 512 → r' x = r x) → load_block a r' = load_block a r.
Proof.
  intros Hx. apply map_ext_in. intros i Hi. apply list_elem_of_In, elem_of_seqZ in Hi. apply Hx. lia.
Qed.

Lemma load_block_length a r : length (load_block a r) = 512%nat.
Proof. reflexivity. Qed.

Lemma load_store_block a b r : length b = 512%nat → load_block a (store_block a b r) = b.
Proof.
  intros Hb. apply (nth_ext _ _ 0 0); [done|]. intros n Hn. rewrite load_block_length in Hn.
  unfold load_block. rewrite (nth_indep _ 0 (store_block a b r (a + 0))) by (rewrite length_map; simpl; lia).
  rewrite (map_nth (λ i, store_block a b r (a + i))). unfold store_block.
  assert (nth n (seqZ 0 512) 0 = Z.of_nat n) as ->.
  { apply nth_lookup_Some. rewrite lookup_seqZ. lia. }
  case_if; [|lia]. f_equal. lia.
Qed.

Lemma store_block_other a b r x : x < a ∨ a + Z.of_nat (length b) ≤ x → store_block a b r x = r x.
Proof. intros Hx. unfold store_block. case_if; [lia|done]. Qed.

(** ** Requests *)

Record request := Req { rq_in : bool; rq_sector : Z; rq_data : Z; rq_status : Z }.

(** The descriptor [i] of the table: address, length, flags, next. *)
Definition descriptor (desc i : Z) (r : memory) : Z * Z * Z * Z :=
  let d := desc_at desc i in
  (load_le 8 (desc_addr d) r, load_le 4 (desc_len d) r, load_le 2 (desc_flags d) r, load_le 2 (desc_next d) r).

(** The request at entry [n] of the ring: a chain of three descriptors, the header that
    the device reads, a block that it reads or writes, the status that it writes. *)
Definition request_at (desc avail n : Z) (r : memory) : option request :=
  let head := load_le 2 (avail_ring avail (n mod VQ_NUM)) r in
  let '(hdr, len0, flags0, next0) := descriptor desc head r in
  let '(data, len1, flags1, next1) := descriptor desc next0 r in
  let '(status, len2, flags2, _) := descriptor desc next1 r in
  let type := load_le 4 hdr r in
  let sector := load_le 8 (hdr + 8) r in
  if (head <? VQ_NUM) && (next0 <? VQ_NUM) && (next1 <? VQ_NUM) &&
     (len0 =? 16) && (flags0 =? VIRTQ_DESC_F_NEXT) && (len1 =? BLOCKDEV_BLOCK_SIZE) &&
     (len2 =? 1) && (flags2 =? VIRTQ_DESC_F_WRITE) then
    if (type =? VIRTIO_BLK_T_IN) && (flags1 =? Z.lor VIRTQ_DESC_F_NEXT VIRTQ_DESC_F_WRITE)
    then Some (Req true sector data status)
    else if (type =? VIRTIO_BLK_T_OUT) && (flags1 =? VIRTQ_DESC_F_NEXT)
    then Some (Req false sector data status)
    else None
  else None.

(** ** The device *)

(** Where it is; a register as it was last stored since the last reset; how many requests
    it has taken since, modulo 2^16; its sectors. *)
Class VirtioBlock (V : Type) := {
  blk_base : Z;
  reg : V → Z → Z;
  taken : V → Z;
  sectors : V → Z → list Z
}.

Section device.
Context {V : Type} `{VirtioMmio V} `{VirtioBlock V}.

(** The device runs its queue. *)
Definition live (d : V) : bool :=
  Z.testbit (reg d VIRTIO_MMIO_STATUS) 2 && (reg d VIRTIO_MMIO_QUEUE_READY =? 1) &&
  (reg d VIRTIO_MMIO_QUEUE_NUM =? VQ_NUM).

Definition q_desc (d : V) : Z := reg d VIRTIO_MMIO_QUEUE_DESC_LOW + 4294967296 * reg d VIRTIO_MMIO_QUEUE_DESC_HIGH.
Definition q_avail (d : V) : Z := reg d VIRTIO_MMIO_QUEUE_AVAIL_LOW + 4294967296 * reg d VIRTIO_MMIO_QUEUE_AVAIL_HIGH.
Definition q_used (d : V) : Z := reg d VIRTIO_MMIO_QUEUE_USED_LOW + 4294967296 * reg d VIRTIO_MMIO_QUEUE_USED_HIGH.

Definition offered (d : V) (r : memory) : Z := load_le 2 (avail_idx (q_avail d)) r.
Definition given_back (d : V) (r : memory) : Z := load_le 2 (used_idx (q_used d)) r.

Definition same_device (d d' : V) : Prop :=
  (∀ off, reg d' off = reg d off) ∧ taken d' = taken d ∧ ∀ j, sectors d' j = sectors d j.

(** What the device may write for a request: the status, the block that is read, and the
    used ring. *)
Definition writable (q : request) (d : V) (x : Z) : Prop :=
  x = rq_status q ∨ (rq_in q = true ∧ rq_data q ≤ x < rq_data q + 512) ∨ q_used d ≤ x < q_used d + 70.

(** These do not overlap, and none is over what the device reads of the queue. *)
Definition well_apart (q : request) (d : V) : Prop :=
  ¬ (q_used d ≤ rq_status q < q_used d + 70) ∧ ¬ (rq_data q ≤ rq_status q < rq_data q + 512) ∧
  (rq_data q + 512 ≤ q_used d ∨ q_used d + 70 ≤ rq_data q).

(** The device at work on a request: it may take its time, writing what it may write; and
    it is done when it has counted the request in the used ring.  Then the status tells
    whether the block has been transferred. *)
Record serves (q : request) (r : memory) (d : V) (r' : memory) (d' : V) : Prop := {
  sv_reg : ∀ off, reg d' off = reg d off;
  sv_ram : ∀ x, ¬ writable q d x → r' x = r x;
  sv_sectors : ∀ j, rq_in q = true ∨ j ≠ rq_sector q → sectors d' j = sectors d j;
  sv_done :
    (taken d' = taken d ∧ given_back d r' = given_back d r) ∨
    (taken d' = u16 (taken d + 1) ∧ given_back d r' = u16 (given_back d r + 1) ∧
     (load_le 1 (rq_status q) r' = 0 →
      if rq_in q then load_block (rq_data q) r' = sectors d (rq_sector q)
      else sectors d' (rq_sector q) = load_block (rq_data q) r))
}.

(** The registers that the driver stores to. *)
Definition driver_regs : list Z :=
  [VIRTIO_MMIO_DEVICE_FEATURES_SEL; VIRTIO_MMIO_DRIVER_FEATURES; VIRTIO_MMIO_DRIVER_FEATURES_SEL;
   VIRTIO_MMIO_QUEUE_SEL; VIRTIO_MMIO_QUEUE_NUM; VIRTIO_MMIO_QUEUE_READY; VIRTIO_MMIO_QUEUE_NOTIFY;
   VIRTIO_MMIO_STATUS; VIRTIO_MMIO_QUEUE_DESC_LOW; VIRTIO_MMIO_QUEUE_DESC_HIGH;
   VIRTIO_MMIO_QUEUE_AVAIL_LOW; VIRTIO_MMIO_QUEUE_AVAIL_HIGH; VIRTIO_MMIO_QUEUE_USED_LOW;
   VIRTIO_MMIO_QUEUE_USED_HIGH].

(** The documented behaviour.  The device with these four registers is the only block
    device; a load has no effect on what the driver relies on; a zero in the status resets
    the device; it remembers the other registers, of the queue 0; it does not touch the
    memory when it is not live or has taken all that was offered; and it serves the request
    that is offered next. *)
Class VirtioLaws : Prop := {
  base_slot : 0 ≤ blk_base ∧ blk_base + VIRTIO_MMIO_STRIDE ≤ 4294967296;
  only_block i d version d' :
    let base := u32 (VIRTIO_MMIO_BASE + i * VIRTIO_MMIO_STRIDE) in
    0 ≤ i < Z.of_nat VIRTIO_MMIO_MAX_DEVS →
    slot_regs base d = (VIRTIO_MAGIC, version, VIRTIO_DEV_BLOCK, VIRTIO_VENDOR, d') → 2 ≤ version →
    base = blk_base;
  load_same a d : same_device d (mmio_load a d).2;
  store_reset d :
    let d' := mmio_store (blk_base + VIRTIO_MMIO_STATUS) 0 d in
    (∀ off, reg d' off = 0) ∧ taken d' = 0 ∧ ∀ j, sectors d' j = sectors d j;
  store_reg off v d :
    off ∈ driver_regs → reg d VIRTIO_MMIO_QUEUE_SEL = 0 →
    (off = VIRTIO_MMIO_QUEUE_SEL → v = 0) → (off = VIRTIO_MMIO_STATUS → v ≠ 0) →
    (off = VIRTIO_MMIO_QUEUE_READY → taken d = 0) → 0 ≤ v < 4294967296 →
    let d' := mmio_store (blk_base + off) v d in
    (∀ o, reg d' o = if o =? off then v else reg d o) ∧ taken d' = taken d ∧ ∀ j, sectors d' j = sectors d j;
  quiet_dma r d :
    live d = false ∨ offered d r = taken d →
    (∀ x, (dma r d).1 x = r x) ∧ same_device d (dma r d).2;
  request_dma r d q :
    live d = true → offered d r = u16 (taken d + 1) → request_at (q_desc d) (q_avail d) (taken d) r = Some q →
    well_apart q d → serves q r d (dma r d).1 (dma r d).2;
  sector_length d j : length (sectors d j) = 512%nat
}.

(** What no standard says, and the recovery counts on: a running device whose queue has
    been cleared under it, before it is reset, finds no request there and does nothing. *)
Definition leaves_cleared : Prop :=
  ∀ r d, live d = true → q_avail d = q_desc d + 128 → q_used d = q_desc d + VQ_ALIGN →
    (∀ x, q_desc d ≤ x < q_desc d + VQ_BYTES → r x = 0) →
    (∀ x, (dma r d).1 x = r x) ∧ same_device d (dma r d).2.

(** A device that, told of a request, answers within the time the driver waits. *)
Class Prompt : Prop :=
  prompt r d0 q :
    let d := mmio_store (blk_base + VIRTIO_MMIO_QUEUE_NOTIFY) 0 d0 in
    live d = true → offered d r = u16 (taken d + 1) → request_at (q_desc d) (q_avail d) (taken d) r = Some q →
    well_apart q d →
    ∃ n, Z.of_nat n ≤ VIRTIO_IO_SPIN_LIMIT + 1 ∧
      taken (Nat.iter n (λ rd, dma rd.1 rd.2) (r, d)).2 ≠ taken d.
End device.
Arguments VirtioLaws V {_ _}.
Arguments Prompt V {_ _}.
Arguments leaves_cleared V {_ _}.
