(* ===== verification/VirtioOps.v ===== *)
(** * The virtio driver serves blocks

    The driver of [Virtio.v] above any device that keeps the laws of [VirtioSpec.v]. *)
From Stdlib Require Import ZArith Lia ZifyBool String.
From stdpp Require Import base tactics list numbers option.
From S2P Require Import Prelude CString BlockDev Virtio VirtioSpec.
#[local] Open Scope Z_scope.

Section ops.
Context {V : Type} `{VirtioLaws V} {L : Layout}.
Implicit Types m : blk V.

(** ** Where things are *)

(** The objects shared with the device do not overlap. *)
Record apart (buf : Z) : Prop := {
  ap_vq : 0 ≤ vq_mem ∧ vq_mem + VQ_BYTES ≤ 4294967296;
  ap_hdr : 0 ≤ req_hdr ∧ req_hdr + 16 ≤ 4294967296;
  ap_status : 0 ≤ req_status < 4294967296;
  ap_buf : 0 < buf ∧ buf + 512 ≤ 4294967296;
  ap_vq_hdr : req_hdr + 16 ≤ vq_mem ∨ vq_mem + VQ_BYTES ≤ req_hdr;
  ap_vq_status : req_status < vq_mem ∨ vq_mem + VQ_BYTES ≤ req_status;
  ap_hdr_status : req_status < req_hdr ∨ req_hdr + 16 ≤ req_status;
  ap_vq_buf : buf + 512 ≤ vq_mem ∨ vq_mem + VQ_BYTES ≤ buf;
  ap_hdr_buf : buf + 512 ≤ req_hdr ∨ req_hdr + 16 ≤ buf;
  ap_status_buf : req_status < buf ∨ buf + 512 ≤ req_status
}.

(** The variables of the driver but those of the last request. *)
Definition same_driver m m' : Prop :=
  virtio_mmio m' = virtio_mmio m ∧ capacity_blocks m' = capacity_blocks m ∧ vq_desc m' = vq_desc m ∧
  vq_avail m' = vq_avail m ∧ vq_used m' = vq_used m ∧ blk_recovering m' = blk_recovering m.

Lemma same_driver_refl m : same_driver m m.
Proof. done. Qed.
Lemma same_driver_trans m1 m2 m3 : same_driver m1 m2 → same_driver m2 m3 → same_driver m1 m3.
Proof. unfold same_driver. intuition congruence. Qed.

Lemma log_once_same m fmt args :
  same_driver m (log_once m fmt args) ∧ ram (log_once m fmt args) = ram m ∧
  dev (log_once m fmt args) = dev m ∧ vq_last_used_idx (log_once m fmt args) = vq_last_used_idx m ∧
  last_io_timed_out (log_once m fmt args) = last_io_timed_out m.
Proof. unfold log_once. by case_if. Qed.

(** The driver knows the device and where the queue is. *)
Record attached m : Prop := {
  at_base : virtio_mmio m = blk_base;
  at_desc : vq_desc m = vq_mem;
  at_avail : vq_avail m = vq_mem + 128;
  at_used : vq_used m = vq_mem + 4096
}.

Lemma same_attached m m' : same_driver m m' → attached m → attached m'.
Proof. intros (E1&_&E3&E4&E5&_) []. split; congruence. Qed.

(** The device runs the queue that is in the memory. *)
Definition runs_queue d : Prop :=
  live d = true ∧ q_desc d = vq_mem ∧ q_avail d = vq_mem + 128 ∧ q_used d = vq_mem + 4096 ∧
  reg d VIRTIO_MMIO_QUEUE_SEL = 0.

Lemma runs_queue_reg d d' : (∀ off, reg d' off = reg d off) → runs_queue d → runs_queue d'.
Proof.
  intros Hr. unfold runs_queue, live, q_desc, q_avail, q_used. by rewrite !Hr.
Qed.

(** Nothing is asked for, and all that was asked for is answered. *)
Record ready m : Prop := {
  rd_attached : attached m;
  rd_queue : runs_queue (dev m);
  rd_taken : 0 ≤ taken (dev m) < 65536;
  rd_offered : offered (dev m) (ram m) = taken (dev m);
  rd_given : given_back (dev m) (ram m) = taken (dev m);
  rd_last : vq_last_used_idx m = taken (dev m)
}.

(** ** Presenting a request *)

Lemma put_desc_other d a l f n r x : x < d ∨ d + 16 ≤ x → put_desc d a l f n r x = r x.
Proof.
  intros Hx. unfold put_desc, desc_addr, desc_len, desc_flags, desc_next. by rewrite !store_le_other by lia.
Qed.

Lemma descriptor_ext desc j r r' :
  (∀ x, desc_at desc j ≤ x < desc_at desc j + 16 → r' x = r x) → descriptor desc j r' = descriptor desc j r.
Proof.
  intros Hx. unfold descriptor, desc_addr, desc_len, desc_flags, desc_next. cbv zeta.
  f_equal; [f_equal; [f_equal|]|]; apply load_le_ext; intros x Hr; apply Hx; lia.
Qed.

Lemma descriptor_put desc j a l f n r :
  descriptor desc j (put_desc (desc_at desc j) a l f n r) =
  (u64 a, u32 l, u16 f, u16 n).
Proof.
  unfold descriptor, put_desc, desc_addr, desc_len, desc_flags, desc_next. cbv zeta.
  f_equal; [f_equal; [f_equal|]|]; rewrite ?load_store_ne by lia; by rewrite load_store_eq.
Qed.

Lemma descriptor_put_ne desc j k a l f n r :
  j ≠ k → descriptor desc j (put_desc (desc_at desc k) a l f n r) = descriptor desc j r.
Proof. intros Hjk. apply descriptor_ext. intros x Hx. apply put_desc_other. unfold desc_at in *. lia. Qed.

Lemma descriptor_store desc j n a v r :
  a + Z.of_nat n ≤ desc_at desc j ∨ desc_at desc j + 16 ≤ a →
  descriptor desc j (store_le n a v r) = descriptor desc j r.
Proof. intros Ha. apply descriptor_ext. intros x Hx. apply store_le_other. lia. Qed.

Lemma load_put_desc k b d a l f n r :
  b + Z.of_nat k ≤ d ∨ d + 16 ≤ b → load_le k b (put_desc d a l f n r) = load_le k b r.
Proof. intros Hd. apply load_le_ext. intros x Hx. apply put_desc_other. lia. Qed.

(** What is put behind the header, the status and the queue. *)
Lemma put_request_frame type i buf m x :
  attached m → apart buf →
  ¬ (vq_mem ≤ x < vq_mem + 4096) → ¬ (req_hdr ≤ x < req_hdr + 16) → x ≠ req_status →
  ram (put_request type i buf m) x = ram m x.
Proof.
  intros [Eb Ed Ea Eu] [] Hv Hh Hs. unfold put_request. cbn [ram with_ram].
  rewrite Ed, Ea. unfold avail_idx, avail_ring, VQ_NUM.
  set (idx := load_le 2 (vq_mem + 128 + 2) _).
  assert (0 ≤ idx mod 8 < 8) by (apply Z.mod_pos_bound; lia).
  unfold VQ_BYTES, VQ_ALIGN in *. rewrite 2!store_le_other by lia.
  rewrite 3!put_desc_other by (unfold desc_at; lia). by rewrite !store_le_other by lia.
Qed.

Definition is_in (type : Z) : bool := type =? VIRTIO_BLK_T_IN.

(** What the device reads of the request. *)
Record presented (type i buf n : Z) (r : memory) : Prop := {
  pr_ring : load_le 2 (avail_ring (vq_mem + 128) (n mod VQ_NUM)) r = 0;
  pr_desc0 : descriptor vq_mem 0 r = (req_hdr, 16, VIRTQ_DESC_F_NEXT, 1);
  pr_desc1 : descriptor vq_mem 1 r =
    (buf, BLOCKDEV_BLOCK_SIZE, if is_in type then 3 else VIRTQ_DESC_F_NEXT, 2);
  pr_desc2 : descriptor vq_mem 2 r = (req_status, 1, VIRTQ_DESC_F_WRITE, 0);
  pr_type : load_le 4 req_hdr r = type;
  pr_sector : load_le 8 (req_hdr + 8) r = i
}.

(** The device understands it. *)
Lemma presented_request type i buf n r :
  type = VIRTIO_BLK_T_IN ∨ type = VIRTIO_BLK_T_OUT → presented type i buf n r →
  request_at vq_mem (vq_mem + 128) n r = Some (Req (is_in type) i buf req_status).
Proof.
  intros Ht [P1 P2 P3 P4 P5 P6]. unfold request_at. rewrite P1, P2, P3, P4, P5, P6. by destruct Ht as [-> | ->].
Qed.

(** It is kept by what changes neither the queue nor the header. *)
Lemma presented_ext type i buf n r r' :
  (∀ x, vq_mem ≤ x < vq_mem + 4096 ∨ req_hdr ≤ x < req_hdr + 16 → r' x = r x) →
  presented type i buf n r → presented type i buf n r'.
Proof.
  intros Hx [P1 P2 P3 P4 P5 P6]. unfold avail_ring, VQ_NUM in *.
  assert (0 ≤ n mod 8 < 8) as Hn by (apply Z.mod_pos_bound; lia).
  split; unfold avail_ring, VQ_NUM;
    (rewrite (descriptor_ext _ _ r) || rewrite (load_le_ext _ _ r)); try done;
    intros x Hr; apply Hx; unfold desc_at in *; lia.
Qed.

Lemma put_request_spec type i buf m :
  attached m → apart buf → type = VIRTIO_BLK_T_IN ∨ type = VIRTIO_BLK_T_OUT → 0 ≤ i < 4294967296 →
  let n := load_le 2 (avail_idx (vq_mem + 128)) (ram m) in
  let r := ram (put_request type i buf m) in
  presented type i buf n r ∧ load_le 2 (avail_idx (vq_mem + 128)) r = u16 (n + 1).
Proof.
  intros [Eb Ed Ea Eu] [] Ht Hi n r. subst r n. unfold avail_idx in *.
  unfold put_request. cbn [ram with_ram]. rewrite Ed, Ea in *. clear Eb Ed Ea Eu.
  unfold VQ_BYTES, VQ_ALIGN, avail_idx in *. set (n := load_le 2 (vq_mem + 128 + 2) (ram m)).
  set (flags := if type =? _ then _ else _).
  set (r4 := store_le 1 req_status 255 _).
  set (r7 := put_desc (desc_at vq_mem 2) _ _ _ _ _).
  assert (load_le 2 (vq_mem + 128 + 2) r7 = n) as Hidx.
  { unfold r7. rewrite 3!load_put_desc by (unfold desc_at; lia). unfold r4. by rewrite 4!load_store_ne by lia. }
  rewrite Hidx. unfold avail_ring, VQ_NUM in *.
  assert (0 ≤ n mod 8 < 8) as Hn by (apply Z.mod_pos_bound; lia).
  split; [|rewrite load_store_eq; apply Z.mod_mod; lia].
  set (r9 := store_le 2 _ _ _).
  assert (∀ j, 0 ≤ j < 3 → descriptor vq_mem j r9 = descriptor vq_mem j r7) as Hdesc.
  { intros j Hj. unfold r9. rewrite 2!descriptor_store by (unfold desc_at; lia). done. }
  assert (∀ k x, req_hdr ≤ x → x + Z.of_nat k ≤ req_hdr + 16 → load_le k x r9 = load_le k x r4) as Hload.
  { intros k x Hx1 Hx2. unfold r9. rewrite 2!load_store_ne by lia. unfold r7.
    by rewrite 3!load_put_desc by (unfold desc_at; lia). }
  split.
  - unfold r9, avail_ring, VQ_NUM. rewrite load_store_ne by lia. by rewrite load_store_eq.
  - rewrite Hdesc by lia. unfold r7. rewrite 2!descriptor_put_ne, descriptor_put by lia.
    by rewrite u32_small, u64_small by lia.
  - rewrite Hdesc by lia. unfold r7. rewrite descriptor_put_ne, descriptor_put by lia.
    rewrite u32_small, u64_small by lia. unfold flags, is_in. by destruct Ht as [-> | ->].
  - rewrite Hdesc by lia. unfold r7. rewrite descriptor_put. by rewrite u32_small, u64_small by lia.
  - rewrite Hload by lia. unfold r4. rewrite 3!load_store_ne by lia. rewrite load_store_eq.
    by destruct Ht as [-> | ->].
  - rewrite Hload by lia. unfold r4. rewrite load_store_ne by lia. rewrite load_store_eq. apply Z.mod_small. lia.
Qed.

(** ** Waiting for the answer *)

Fixpoint looks_nat (n : nat) m : bool * blk V :=
  match n with
  | O => (false, m)
  | S n' => let '(ok, m) := look m in if ok : bool then (true, m) else looks_nat n' m
  end.

Lemma looks_nat_add a b m :
  looks_nat (a + b) m = let '(ok, m) := looks_nat a m in if ok : bool then (true, m) else looks_nat b m.
Proof.
  revert m. induction a as [|a IH]; intros m; [done|]. cbn [looks_nat Nat.add].
  destruct (look m) as [[|] m']; [done|]. apply IH.
Qed.

Lemma looks_unfold p m : looks p m = looks_nat (Pos.to_nat p) m.
Proof.
  revert m. induction p as [p IH|p IH|]; intros m; cbn [looks].
  - rewrite Pos2Nat.inj_xI. replace (S (2 * Pos.to_nat p)) with (Pos.to_nat p + (Pos.to_nat p + 1))%nat by lia.
    rewrite looks_nat_add, IH. destruct (looks_nat _ m) as [[|] m']; [done|].
    rewrite looks_nat_add, IH. destruct (looks_nat _ m') as [[|] m2]; [done|].
    cbn [looks_nat]. by destruct (look m2) as [[|] m3].
  - rewrite Pos2Nat.inj_xO. replace (2 * Pos.to_nat p)%nat with (Pos.to_nat p + Pos.to_nat p)%nat by lia.
    rewrite looks_nat_add, IH. destruct (looks_nat _ m) as [[|] m']; [done|]. apply IH.
  - cbn [looks_nat]. change (Pos.to_nat 1) with 1%nat. cbn [looks_nat]. by destruct (look m) as [[|] m3].
Qed.

(** What the device may have changed since [m0], serving the request. *)
Record served (type i buf : Z) m0 m : Prop := {
  se_driver : same_driver m0 m ∧ vq_last_used_idx m = vq_last_used_idx m0 ∧
              last_io_timed_out m = last_io_timed_out m0;
  se_reg : ∀ off, reg (dev m) off = reg (dev m0) off;
  se_ram : ∀ x, x ≠ req_status → ¬ (is_in type = true ∧ buf ≤ x < buf + 512) →
           ¬ (vq_mem + 4096 ≤ x < vq_mem + 4096 + 70) → ram m x = ram m0 x;
  se_sectors : ∀ j, is_in type = true ∨ j ≠ i → sectors (dev m) j = sectors (dev m0) j
}.

Lemma served_refl type i buf m : served type i buf m m.
Proof. done. Qed.
Lemma served_trans type i buf m1 m2 m3 :
  served type i buf m1 m2 → served type i buf m2 m3 → served type i buf m1 m3.
Proof.
  intros [(A1&A2&A3) B C D] [(E1&E2&E3) F G I]. split.
  - split_and!; [by eapply same_driver_trans|congruence..].
  - intros off. by rewrite F, B.
  - intros x X1 X2 X3. by rewrite G, C.
  - intros j Hj. by rewrite I, D.
Qed.

(** A request that the device has not answered yet. *)
Record waiting (type i buf : Z) m : Prop := {
  wt_attached : attached m;
  wt_queue : runs_queue (dev m);
  wt_taken : 0 ≤ taken (dev m) < 65536;
  wt_offered : load_le 2 (avail_idx (vq_mem + 128)) (ram m) = u16 (taken (dev m) + 1);
  wt_given : load_le 2 (used_idx (vq_mem + 4096)) (ram m) = taken (dev m);
  wt_last : vq_last_used_idx m = taken (dev m);
  wt_request : presented type i buf (taken (dev m)) (ram m)
}.

Lemma waiting_served type i buf m m' :
  apart buf → waiting type i buf m → served type i buf m m' → taken (dev m') = taken (dev m) →
  load_le 2 (used_idx (vq_mem + 4096)) (ram m') = load_le 2 (used_idx (vq_mem + 4096)) (ram m) →
  waiting type i buf m'.
Proof.
  intros [] [W1 W2 W3 W4 W5 W6 W7] [(S1&S2&S3) S4 S5 S6] Ht Hg. unfold VQ_BYTES, VQ_ALIGN, avail_idx in *.
  split; rewrite ?Ht, ?Hg; try done.
  - by eapply same_attached.
  - by eapply runs_queue_reg.
  - unfold avail_idx. rewrite (load_le_ext _ _ (ram m)); [done|]. intros x Hx. apply S5; lia.
  - congruence.
  - eapply presented_ext; [|done]. intros x Hx. apply S5; lia.
Qed.

(** The answer: the device has counted the request, and where the status is 0 it has
    transferred the block. *)
Record answered (type i buf : Z) m m' : Prop := {
  an_served : served type i buf m m';
  an_taken : taken (dev m') = u16 (taken (dev m) + 1);
  an_given : load_le 2 (used_idx (vq_mem + 4096)) (ram m') = u16 (taken (dev m) + 1);
  an_block : load_le 1 req_status (ram m') = 0 →
    if is_in type then load_block buf (ram m') = sectors (dev m) i
    else sectors (dev m') i = load_block buf (ram m)
}.

Lemma u16_succ_ne n : 0 ≤ n < 65536 → u16 (n + 1) ≠ n.
Proof. unfold u16. intros Hn He. zdiv. Qed.

(** The device goes on with the request, or finishes it. *)
Lemma meanwhile_spec type i buf m :
  type = VIRTIO_BLK_T_IN ∨ type = VIRTIO_BLK_T_OUT → apart buf → waiting type i buf m →
  let m' := meanwhile m in
  let given := load_le 2 (used_idx (vq_mem + 4096)) (ram m') in
  served type i buf m m' ∧
  (waiting type i buf m' ∧ given = taken (dev m) ∨ answered type i buf m m' ∧ given = u16 (taken (dev m) + 1)).
Proof.
  intros Ht Hap Hw. pose proof Hw as [W1 W2 W3 W4 W5 W6 W7]. pose proof W2 as (Ql&Qd&Qa&Qu&Qs).
  pose proof (request_dma (ram m) (dev m) (Req (is_in type) i buf req_status)) as Hs.
  unfold offered, given_back in Hs. rewrite Qd, Qa in Hs.
  specialize (Hs Ql W4 (presented_request _ _ _ _ _ Ht W7)).
  assert (well_apart (Req (is_in type) i buf req_status) (dev m)) as Hwa.
  { destruct Hap. unfold well_apart, VQ_BYTES, VQ_ALIGN in *. cbn [rq_status rq_data]. rewrite Qu. lia. }
  specialize (Hs Hwa). unfold meanwhile. destruct (dma (ram m) (dev m)) as [r d]. cbn [fst snd] in Hs.
  destruct W1 as [Eb Ed Ea Eu]. cbv zeta. cbn [ram with_ram with_dev].
  destruct Hs as [S1 S2 S3 S4]. unfold given_back in S4. rewrite Qu in S4. cbn [rq_in rq_sector rq_data rq_status] in *.
  assert (served type i buf m (with_dev (with_ram m r) d)) as Hserved.
  { split; cbn [ram dev with_ram with_dev]; try done. intros x X1 X2 X3. apply S2.
    unfold writable. cbn [rq_in rq_data rq_status]. rewrite Qu. tauto. }
  assert (q_used d = vq_mem + 4096) as Qu' by (unfold q_used in *; by rewrite !S1).
  split; [done|]. destruct S4 as [(T1&T2)|(T1&T2&T3)]; rewrite ?Qu' in *; rewrite T2, W5; [left|right].
  - split; [|done]. by eapply waiting_served.
  - split; [|done]. split; cbn [ram dev with_ram with_dev]; try done. by rewrite T2, W5.
Qed.

Lemma look_spec type i buf m ok m' :
  type = VIRTIO_BLK_T_IN ∨ type = VIRTIO_BLK_T_OUT → apart buf → waiting type i buf m →
  look m = (ok, m') →
  if ok then answered type i buf m m'
  else served type i buf m m' ∧ waiting type i buf m'.
Proof.
  intros Ht Hap Hw. destruct (meanwhile_spec type i buf m Ht Hap Hw) as [Hs Hc]. unfold look.
  pose proof Hs as [((_&_&_&_&Eu&_)&El&_) _ _ _]. pose proof Hw as [[_ _ _ Eq] _ Htk _ _ Ew _].
  rewrite Eu, El, Eq, Ew. destruct Hc as [[Hw' ->]|[Ha ->]].
  - rewrite Z.eqb_refl. by intros [= <- <-].
  - rewrite (proj2 (Z.eqb_neq _ _)) by (by apply u16_succ_ne). by intros [= <- <-].
Qed.

Lemma answered_after type i buf m m1 m' :
  apart buf → served type i buf m m1 → taken (dev m1) = taken (dev m) → answered type i buf m1 m' →
  answered type i buf m m'.
Proof.
  intros [] S Ht [A1 A2 A3 A4]. split.
  - by eapply served_trans.
  - congruence.
  - congruence.
  - intros Hz. specialize (A4 Hz). destruct S as [S1 S2 S3 S4]. destruct (is_in type) eqn:Ei.
    + rewrite A4. apply S4. by left.
    + rewrite A4. apply load_block_ext. intros x Hx. apply S3; [lia|by intros [? _]|].
      unfold VQ_BYTES, VQ_ALIGN in *. lia.
Qed.

Lemma looks_nat_spec type i buf n m ok m' :
  type = VIRTIO_BLK_T_IN ∨ type = VIRTIO_BLK_T_OUT → apart buf → waiting type i buf m →
  looks_nat n m = (ok, m') →
  if ok then answered type i buf m m'
  else served type i buf m m' ∧ waiting type i buf m' ∧ taken (dev m') = taken (dev m).
Proof.
  intros Ht Hap. revert m. induction n as [|n IH]; intros m Hw Hl; cbn [looks_nat] in Hl.
  - by simplify_eq.
  - destruct (look m) as [ok1 m1] eqn:E1. pose proof (look_spec _ _ _ _ _ _ Ht Hap Hw E1) as Hs.
    destruct ok1; [by simplify_eq|]. destruct Hs as [S1 Hw1].
    assert (taken (dev m1) = taken (dev m)) as Ht1.
    { destruct Hw, Hw1. destruct S1 as [(_&E&_) _ _ _]. congruence. }
    specialize (IH m1 Hw1 Hl). destruct ok.
    + by eapply answered_after.
    + destruct IH as (I1&I2&I3). split_and!; [by eapply served_trans|done|congruence].
Qed.

(** ** The registers *)

(** Decides the conditions on a register of the driver. *)
Ltac known_register :=
  first [done | by (apply (bool_decide_unpack _); vm_compute) | intros E; vm_compute in E; discriminate E
        | by vm_compute].

(** A store to a register, once the queue 0 is selected. *)
Lemma mmio_write_spec off v m :
  virtio_mmio m = blk_base → off ∈ driver_regs → reg (dev m) VIRTIO_MMIO_QUEUE_SEL = 0 →
  (off = VIRTIO_MMIO_QUEUE_SEL → v = 0) → (off = VIRTIO_MMIO_STATUS → v ≠ 0) →
  (off = VIRTIO_MMIO_QUEUE_READY → taken (dev m) = 0) → 0 ≤ v < 4294967296 →
  let d' := dev (mmio_write off v m) in
  (∀ o, reg d' o = if o =? off then v else reg (dev m) o) ∧ taken d' = taken (dev m) ∧
  ∀ j, sectors d' j = sectors (dev m) j.
Proof.
  intros Eb Hin Hs H1' H2' H3' Hv. unfold mmio_write. cbn [dev with_dev]. rewrite Eb.
  pose proof base_slot as Hb. unfold VIRTIO_MMIO_STRIDE in Hb.
  assert (0 ≤ off < 4096) as Ho.
  { unfold driver_regs in Hin. repeat (apply elem_of_cons in Hin as [->|Hin]; [by split|]).
    by apply not_elem_of_nil in Hin. }
  rewrite u32_small by lia. rewrite (u32_small v) by lia. by apply store_reg.
Qed.

(** ** A request *)

(** After a request: what is kept, and where the code returns 0 the block that is
    transferred.  When it was answered, with an error or not, the driver is ready again. *)
Record transferred (type i buf : Z) (ok : bool) m m' : Prop := {
  tr_driver : same_driver m m';
  tr_ram : ∀ x, ¬ (vq_mem ≤ x < vq_mem + VQ_BYTES) → ¬ (req_hdr ≤ x < req_hdr + 16) → x ≠ req_status →
           ¬ (is_in type = true ∧ buf ≤ x < buf + 512) → ram m' x = ram m x;
  tr_sectors : ∀ j, is_in type = true ∨ j ≠ i → sectors (dev m') j = sectors (dev m) j;
  tr_queue : runs_queue (dev m');
  tr_ready : last_io_timed_out m' = false → ready m';
  tr_waiting : last_io_timed_out m' = true → waiting type i buf m';
  tr_block : ok = true → last_io_timed_out m' = false ∧
    if is_in type then load_block buf (ram m') = sectors (dev m) i
    else sectors (dev m') i = load_block buf (ram m)
}.

(** The request is put and the device is told. *)
Lemma asked type i buf m :
  type = VIRTIO_BLK_T_IN ∨ type = VIRTIO_BLK_T_OUT → 0 ≤ i < 4294967296 → apart buf → ready m →
  let m1 := mmio_write VIRTIO_MMIO_QUEUE_NOTIFY 0 (put_request type i buf (timed_out m false)) in
  waiting type i buf m1 ∧ same_driver m m1 ∧ last_io_timed_out m1 = false ∧
  (∀ j, sectors (dev m1) j = sectors (dev m) j) ∧ taken (dev m1) = taken (dev m) ∧
  (∀ x, ¬ (vq_mem ≤ x < vq_mem + 4096) → ¬ (req_hdr ≤ x < req_hdr + 16) → x ≠ req_status →
     ram m1 x = ram m x).
Proof.
  intros Ht Hi Hap [R1 R2 R3 R4 R5 R6] m1. set (m0 := timed_out m false) in *.
  pose proof R2 as (Q1&Q2&Q3&Q4&Q5). assert (attached m0) as At by (by destruct R1).
  destruct (mmio_write_spec VIRTIO_MMIO_QUEUE_NOTIFY 0 (put_request type i buf m0)) as (N1&N2&N3);
    [by destruct R1|known_register..|].
  change (dev (put_request type i buf m0)) with (dev m) in *. fold m1 in N1, N2, N3.
  destruct (put_request_spec type i buf m0 At Hap Ht Hi) as [P1 P2].
  assert (∀ x, ¬ (vq_mem ≤ x < vq_mem + 4096) → ¬ (req_hdr ≤ x < req_hdr + 16) → x ≠ req_status →
     ram m1 x = ram m x) as Hram by (intros x; exact (put_request_frame type i buf m0 x At Hap)).
  unfold offered, given_back in *. rewrite Q3 in R4. rewrite Q4 in R5.
  change (ram m0) with (ram m) in P1, P2. rewrite R4 in P1, P2.
  split_and!; try done. split; rewrite ?N2; try done; [by destruct R1| |].
  - destruct R2 as (L1&L2&L3&L4&L5). unfold runs_queue, live, q_desc, q_avail, q_used. by rewrite !N1.
  - rewrite <-R5. apply load_le_ext. intros x Hx. destruct Hap. unfold used_idx, VQ_BYTES, VQ_ALIGN in *.
    apply Hram; lia.
Qed.

Lemma ready_same m m' :
  same_driver m m' → ram m' = ram m → dev m' = dev m → vq_last_used_idx m' = vq_last_used_idx m →
  ready m → ready m'.
Proof.
  intros Hs Er Ed El [R1 R2 R3 R4 R5 R6]. split; rewrite ?Er, ?Ed, ?El; try done.
  by eapply same_attached.
Qed.

Lemma waiting_same type i buf m m' :
  same_driver m m' → ram m' = ram m → dev m' = dev m → vq_last_used_idx m' = vq_last_used_idx m →
  waiting type i buf m → waiting type i buf m'.
Proof.
  intros Hs Er Ed El [R1 R2 R3 R4 R5 R6 R7]. split; rewrite ?Er, ?Ed, ?El; try done.
  by eapply same_attached.
Qed.

(** The driver takes note of the answer. *)
Lemma answered_ready type i buf m m' :
  apart buf → waiting type i buf m → answered type i buf m m' →
  ready (with_last m' (load_le 2 (used_idx (vq_used m')) (ram m'))).
Proof.
  intros [] [W1 W2 W3 W4 W5 W6 W7] [[(S1&S2&S3) S4 S5 S6] A2 A3 A4].
  pose proof (same_attached _ _ S1 W1) as At. pose proof (runs_queue_reg _ _ S4 W2) as Q.
  pose proof Q as (_&_&Qa&Qu&_). destruct At as [Eb Ed Ea Eu]. unfold VQ_BYTES, VQ_ALIGN in *.
  split; cbn [dev ram vq_last_used_idx with_last]; rewrite ?A2; try done.
  - unfold u16. apply Z.mod_pos_bound. lia.
  - unfold offered. rewrite Qa, <-W4. apply load_le_ext. intros x Hx. unfold avail_idx in Hx. apply S5; lia.
  - unfold given_back. by rewrite Qu.
  - by rewrite Eu.
Qed.

(** What has changed since [m], when the request of [m1] has been served. *)
Lemma served_transferred type i buf ok m m1 m2 m' :
  same_driver m m1 → (∀ j, sectors (dev m1) j = sectors (dev m) j) →
  (∀ x, ¬ (vq_mem ≤ x < vq_mem + 4096) → ¬ (req_hdr ≤ x < req_hdr + 16) → x ≠ req_status → ram m1 x = ram m x) →
  runs_queue (dev m1) → served type i buf m1 m2 → same_driver m2 m' → ram m' = ram m2 → dev m' = dev m2 →
  (last_io_timed_out m' = false → ready m') → (last_io_timed_out m' = true → waiting type i buf m') →
  (ok = true → last_io_timed_out m' = false ∧
    if is_in type then load_block buf (ram m') = sectors (dev m) i
    else sectors (dev m') i = load_block buf (ram m)) →
  transferred type i buf ok m m'.
Proof.
  intros D1 Hsec Hram Hq [(S1&S2&S3) S4 S5 S6] D2 Er Ed Hrd Hwt Hb. split; try done.
  - by eapply same_driver_trans; [|eapply same_driver_trans].
  - intros x X1 X2 X3 X4. unfold VQ_BYTES, VQ_ALIGN in *. rewrite Er, S5, Hram by (done || lia). done.
  - intros j Hj. by rewrite Ed, S6, Hsec.
  - rewrite Ed. by eapply runs_queue_reg.
Qed.

Lemma do_io_spec type i buf m ok m' :
  type = VIRTIO_BLK_T_IN ∨ type = VIRTIO_BLK_T_OUT → 0 ≤ i < 4294967296 → apart buf → ready m →
  virtio_do_io type i buf m = (ok, m') → transferred type i buf ok m m'.
Proof.
  intros Ht Hi Hap Hr. unfold virtio_do_io, wait_used. rewrite looks_unfold.
  destruct (asked type i buf m Ht Hi Hap Hr) as (Hw&Hsd&Hto&Hsec&Htk&Hram).
  set (m1 := mmio_write _ _ _) in *.
  generalize (Pos.to_nat (Z.to_pos (VIRTIO_IO_SPIN_LIMIT + 1))) as n. intros n.
  destruct (looks_nat n m1) as [ok2 m2] eqn:El.
  pose proof (looks_nat_spec _ _ _ _ _ _ _ Ht Hap Hw El) as Hs.
  destruct ok2; cbn [negb].
  2:{ destruct Hs as (S1&Hw2&_). intros [= <- <-].
      match goal with |- context [log_once ?a ?b ?c] => destruct (log_once_same a b c) as (L1&L2&L3&L4&L5) end.
      eapply served_transferred; try done; [by destruct Hw|by rewrite L5|]. intros _.
      apply (waiting_same _ _ _ m2); by rewrite ?L2, ?L3, ?L4. }
  pose proof (answered_ready _ _ _ _ _ Hap Hw Hs) as Hready.
  destruct Hs as [S1 A2 A3 A4].
  assert (last_io_timed_out m2 = false) as Hto2 by (destruct S1 as [(_&_&E) _ _ _]; congruence).
  set (m3 := with_last m2 _) in *. change (ram m3) with (ram m2) in *.
  destruct (Z.eqb_spec (load_le 1 req_status (ram m2)) 0) as [Hz|Hz]; cbn [negb]; intros [= <- <-].
  - eapply (served_transferred _ _ _ _ _ m1 m2 m3); try done; [by destruct Hw|by change (last_io_timed_out m3) with (last_io_timed_out m2); rewrite Hto2|]. intros _.
    split; [by destruct S1 as [(_&_&E) _ _ _]; etransitivity|]. specialize (A4 Hz).
    change (ram m3) with (ram m2). change (dev m3) with (dev m2). destruct (is_in type) eqn:Ei.
    + by rewrite A4.
    + rewrite A4. apply load_block_ext. intros x Hx. destruct Hap. unfold VQ_BYTES, VQ_ALIGN in *.
      apply Hram; lia.
  - match goal with |- context [log_once ?a ?b ?c] => destruct (log_once_same a b c) as (L1&L2&L3&L4&L5) end.
    eapply (served_transferred _ _ _ _ _ m1 m2); try done; [by destruct Hw|intros _; by eapply ready_same|].
    rewrite L5. change (last_io_timed_out m3) with (last_io_timed_out m2). by rewrite Hto2.
Qed.
(** ** Configuration *)

Definition upd (f : Z → Z) (off v : Z) (o : Z) : Z := if o =? off then v else f o.

(** Since [m0] only the device has changed, which was reset and has been told [f]. *)
Definition told m0 m (f : Z → Z) : Prop :=
  m = with_dev m0 (dev m) ∧ taken (dev m) = 0 ∧ (∀ j, sectors (dev m) j = sectors (dev m0) j) ∧
  ∀ off, reg (dev m) off = f off.

Lemma told_reset m0 : virtio_mmio m0 = blk_base → told m0 (mmio_write VIRTIO_MMIO_STATUS 0 m0) (λ _, 0).
Proof.
  intros Eb. unfold told, mmio_write. cbn [dev with_dev]. rewrite Eb. pose proof base_slot as Hb.
  unfold VIRTIO_MMIO_STRIDE in Hb. rewrite u32_small by (unfold VIRTIO_MMIO_STATUS; lia).
  destruct (store_reset (dev m0)) as (S1&S2&S3). done.
Qed.

Lemma told_write m0 m f off v :
  virtio_mmio m0 = blk_base → told m0 m f → f VIRTIO_MMIO_QUEUE_SEL = 0 → off ∈ driver_regs →
  (off = VIRTIO_MMIO_QUEUE_SEL → v = 0) → (off = VIRTIO_MMIO_STATUS → v ≠ 0) → 0 ≤ v < 4294967296 →
  told m0 (mmio_write off v m) (upd f off v).
Proof.
  intros Eb (T1&T2&T3&T4) Hs Hin C1 C2 Hv.
  destruct (mmio_write_spec off v m) as (S1&S2&S3); try done; [by rewrite T1|by rewrite T4|].
  split_and!.
  - rewrite T1. done.
  - by rewrite S2.
  - intros j. by rewrite S3.
  - intros o. rewrite S1, T4. done.
Qed.

Lemma told_read m0 m f off v m' :
  told m0 m f → mmio_read off m = (v, m') → told m0 m' f ∧ 0 ≤ v < 4294967296.
Proof.
  intros (T1&T2&T3&T4). unfold mmio_read.
  pose proof (load_same (u32 (virtio_mmio m + off)) (dev m)) as Hl.
  destruct (mmio_load _ (dev m)) as [w d]. cbn [snd] in Hl. intros [= <- <-].
  destruct Hl as (L1&L2&L3). split; [|apply u32_range]. cbn [dev with_dev]. split_and!.
  - by rewrite T1.
  - cbn [dev with_dev]. by rewrite L2.
  - intros j. cbn [dev with_dev]. by rewrite L3.
  - intros o. cbn [dev with_dev]. by rewrite L1.
Qed.

Lemma lor_ok a : 0 ≤ a < 4294967296 → 0 ≤ Z.lor a VIRTIO_STATUS_FEATURES_OK < 4294967296 ∧
  Z.lor a VIRTIO_STATUS_FEATURES_OK ≠ 0.
Proof.
  intros Ha. assert (0 ≤ Z.lor a 8) by (apply Z.lor_nonneg; lia). unfold VIRTIO_STATUS_FEATURES_OK.
  split; [split; [done|]|].
  - destruct (decide (Z.lor a 8 = 0)) as [->|]; [lia|]. apply Z.log2_lt_cancel.
    rewrite Z.log2_lor by lia. change (Z.log2 4294967296) with 32. change (Z.log2 8) with 3.
    assert (Z.log2 a < 32); [|lia]. destruct (decide (a = 0)) as [->|]; [by simpl|].
    apply Z.log2_lt_pow2; [lia|]. change (2 ^ 32) with 4294967296. lia.
  - intros E. apply Z.lor_eq_0_iff in E. lia.
Qed.

(** The next store, or the next load, of a configuration that has got as far as a
    hypothesis says. *)
Ltac tell :=
  match goal with
  | T : told ?m0 ?m ?f |- context [mmio_write ?off ?v ?m] =>
      lazymatch goal with
      | _ : told m0 (mmio_write off v m) _ |- _ => fail
      | _ => idtac
      end;
      let T' := fresh "T" in
      assert (told m0 (mmio_write off v m) (upd f off v)) as T' by
        (apply (told_write m0 m f off v); [done|exact T|reflexivity|known_register..|(done || lia || by split)])
  end.
Ltac ask :=
  match goal with
  | T : told ?m0 ?m ?f |- context [mmio_read ?off ?m] =>
      let E := fresh "E" in
      destruct (mmio_read off m) as [? ?] eqn:E; apply (told_read m0 m f) in E as [? ?]; [|exact T]
  end.
Ltac conf := repeat first [tell | ask].

Lemma desc_write off v m : vq_desc (mmio_write off v m) = vq_desc m.
Proof. done. Qed.
Lemma avail_write off v m : vq_avail (mmio_write off v m) = vq_avail m.
Proof. done. Qed.
Lemma used_write off v m : vq_used (mmio_write off v m) = vq_used m.
Proof. done. Qed.

(** Decides the comparisons of registers. *)
Ltac decide_regs :=
  repeat match goal with
  | |- context [?a =? ?b] =>
      let r := eval vm_compute in (a =? b) in
      lazymatch r with true => idtac | false => idtac end; change (a =? b) with r; cbv iota
  end.

Lemma told_attached m0 m f : attached m0 → told m0 m f → attached m.
Proof. intros [] (T&_). rewrite T. by split. Qed.

(** What holds when the configuration ends in [m]. *)
Definition configured m0 (ok : bool) m : Prop :=
  m = with_dev m0 (dev m) ∧ (∀ j, sectors (dev m) j = sectors (dev m0) j) ∧
  reg (dev m) VIRTIO_MMIO_QUEUE_SEL = 0 ∧ (ok = true → runs_queue (dev m) ∧ taken (dev m) = 0).

Lemma told_configured m0 m f ok :
  told m0 m f → f VIRTIO_MMIO_QUEUE_SEL = 0 → (ok = true → runs_queue (dev m)) → configured m0 ok m.
Proof. intros (T1&T2&T3&T4) Hf Hq. split_and!; [done..|by rewrite T4|]. split; auto. Qed.

Lemma configure_spec m ok m' :
  attached m → apart probe → virtio_configure_device m = (ok, m') → configured m ok m'.
Proof.
  intros Hat [Hvq _ _ _ _ _ _ _ _ _]. unfold VQ_BYTES, VQ_ALIGN in Hvq. pose proof (at_base m Hat) as Eb.
  assert (∀ m1 f, told m m1 f → f VIRTIO_MMIO_QUEUE_SEL = 0 → (false, m1) = (ok, m') → configured m ok m') as Hfail.
  { intros m1 f T Hf [= <- <-]. by eapply told_configured. }
  unfold virtio_configure_device. pose proof (told_reset m Eb) as T. conf.
  case_if; [by eapply Hfail|]. conf.
  match goal with Hz : 0 ≤ ?z < _ |- context [Z.lor ?z VIRTIO_STATUS_FEATURES_OK] => destruct (lor_ok z Hz) end.
  conf. case_if; [by eapply Hfail|].
  match goal with |- context [virtio_setup_queue ?b] => assert (attached b) as [Sb Sd Sa Su] by by eapply told_attached end.
  unfold virtio_setup_queue. conf. case_if; [by eapply Hfail|]. cbn [negb].
  match goal with |- context [vq_desc (mmio_write _ _ (mmio_write _ _ ?b))] =>
    assert (attached b) as [Cb Cd Ca Cu] by by eapply told_attached end.
  rewrite !desc_write, !avail_write, !used_write, Cd, Ca, Cu. conf. intros [= <- <-].
  eapply told_configured; [done|reflexivity|]. intros _.
  match goal with T : told m (mmio_write VIRTIO_MMIO_STATUS _ (mmio_write VIRTIO_MMIO_QUEUE_READY 1 _)) _ |- _ =>
    destruct T as (_&_&_&Hreg) end.
  unfold runs_queue, live, q_desc, q_avail, q_used. rewrite !Hreg. unfold upd. decide_regs. split_and!; [done|lia..|done].
Qed.
(** ** Starting and starting again *)

(** The device is configured and its capacity read: the driver is ready.  The memory has
    changed only where the queue is. *)
Record started m m' : Prop := {
  sd_ready : ready m';
  sd_recovering : blk_recovering m' = blk_recovering m;
  sd_ram : ∀ x, ¬ (vq_mem ≤ x < vq_mem + VQ_BYTES) → ram m' x = ram m x;
  sd_sectors : ∀ j, sectors (dev m') j = sectors (dev m) j
}.

Lemma mmio_read_same off m v m' :
  mmio_read off m = (v, m') → m' = with_dev m (dev m') ∧ same_device (dev m) (dev m').
Proof.
  unfold mmio_read. pose proof (load_same (u32 (virtio_mmio m + off)) (dev m)) as Hl.
  destruct (mmio_load _ (dev m)) as [w d]. by intros [= <- <-].
Qed.

Lemma read_capacity_spec m ok m' :
  virtio_read_capacity m = (ok, m') →
  (∃ c, m' = with_capacity (with_dev m (dev m')) c) ∧ same_device (dev m) (dev m').
Proof.
  unfold virtio_read_capacity. destruct (mmio_read _ m) as [lo m1] eqn:E1.
  destruct (mmio_read _ m1) as [hi m2] eqn:E2.
  apply mmio_read_same in E1 as [H1' (A1&A2&A3)], E2 as [H2' (B1&B2&B3)].
  assert (same_device (dev m) (dev m2)) as Hs.
  { split_and!; intros; [by rewrite B1, A1|by rewrite B2, A2|by rewrite B3, A3]. }
  assert (m2 = with_dev m (dev m2)) as Em by (rewrite H2', H1'; done).
  assert (m2 = with_capacity (with_dev m (dev m2)) (capacity_blocks m)) as Ec by (rewrite Em; by destruct m).
  case_if; [intros [= <- <-]; by eauto|]. case_if; intros [= <- <-]; (split; [|done]).
  - exists 4294967295. rewrite Em at 1. done.
  - eexists. rewrite Em at 1. done.
Qed.

Lemma load_zero n a r : (∀ x, a ≤ x < a + Z.of_nat n → r x = 0) → load_le n a r = 0.
Proof.
  revert a. induction n as [|n IH]; intros a Hx; [done|]. unfold load_le. fold load_le.
  rewrite Hx, IH by (lia || (intros; apply Hx; lia)). done.
Qed.

(** The queue is laid out anew, and the device does nothing above it. *)
Record cleared m m1 : Prop := {
  cl_attached : attached m1;
  cl_last : vq_last_used_idx m1 = 0;
  cl_recovering : blk_recovering m1 = blk_recovering m;
  cl_zero : ∀ x, vq_mem ≤ x < vq_mem + VQ_BYTES → ram m1 x = 0;
  cl_ram : ∀ x, ¬ (vq_mem ≤ x < vq_mem + VQ_BYTES) → ram m1 x = ram m x;
  cl_sectors : ∀ j, sectors (dev m1) j = sectors (dev m) j
}.

Lemma layout_cleared m : virtio_mmio m = blk_base → cleared m (virtio_setup_vq_layout m).
Proof. intros Eb. split; try done; [intros x Hx; by apply mfill_in|intros x Hx; by apply mfill_out]. Qed.

Lemma meanwhile_cleared m :
  leaves_cleared V → virtio_mmio m = blk_base → runs_queue (dev m) →
  cleared m (meanwhile (virtio_setup_vq_layout m)).
Proof.
  intros Hl Eb (Q1&Q2&Q3&Q4&Q5). destruct (layout_cleared m Eb) as [[Ca Cb Cc Cd] C2 C3 C4 C5 C6].
  destruct (Hl (ram (virtio_setup_vq_layout m)) (dev m) Q1) as [Hr (_&_&Hs)];
    [by rewrite Q2, Q3|by rewrite Q2, Q4|by rewrite Q2|].
  unfold meanwhile. change (dev (virtio_setup_vq_layout m)) with (dev m).
  destruct (dma _ (dev m)) as [r d]. cbn [fst snd] in *.
  split; cbn [ram dev with_ram with_dev]; try done; intros x Hx; rewrite Hr; [by apply C4|by apply C5].
Qed.

Lemma start_spec m m1 m2 ok m' :
  cleared m m1 → apart probe → virtio_configure_device m1 = (true, m2) →
  virtio_read_capacity m2 = (ok, m') → started m m'.
Proof.
  intros [Hat Hlast Hrec Hz Hram Hsec] Hap Hc Hr.
  destruct (configure_spec _ _ _ Hat Hap Hc) as (C1&C2&_&C3). destruct (C3 eq_refl) as [Q T].
  destruct (read_capacity_spec _ _ _ Hr) as [[c Em] (S1&S2&S3)].
  assert (ram m' = ram m1) as Er by (rewrite Em; cbn; by rewrite C1).
  pose proof (runs_queue_reg _ _ S1 Q) as Q'. pose proof Q' as (_&_&Qa&Qu&_).
  unfold VQ_BYTES, VQ_ALIGN in Hz.
  split.
  - split; rewrite ?S2, ?T; try done.
    + rewrite Em, C1. by destruct Hat.
    + unfold offered. rewrite Qa, Er. apply load_zero. intros x Hx. unfold avail_idx in Hx. apply Hz. lia.
    + unfold given_back. rewrite Qu, Er. apply load_zero. intros x Hx. unfold used_idx in Hx. apply Hz. lia.
    + rewrite Em, C1. done.
  - rewrite Em, C1. done.
  - intros x Hx. rewrite Er. by apply Hram.
  - intros j. by rewrite S3, C2.
Qed.
(** A request leaves the other variables of the driver as they are. *)
Lemma recovering_ready m b : ready m → ready (recovering m b).
Proof. intros [[] R2 R3 R4 R5 R6]. by split. Qed.

(** What stays when the driver starts again: all but its own memory, and the array that
    it reads the first block into. *)
Definition mine (x : Z) : Prop :=
  vq_mem ≤ x < vq_mem + VQ_BYTES ∨ req_hdr ≤ x < req_hdr + 16 ∨ x = req_status ∨ probe ≤ x < probe + 512.

(** The request that timed out may have been carried out meanwhile. *)
Record recovered (type i buf : Z) (ok : bool) m m' : Prop := {
  rc_ram : ∀ x, ¬ mine x → ¬ (is_in type = true ∧ buf ≤ x < buf + 512) → ram m' x = ram m x;
  rc_sectors : ∀ j, is_in type = true ∨ j ≠ i → sectors (dev m') j = sectors (dev m) j;
  rc_ready : ok = true → ready m' ∧ blk_recovering m' = false
}.

(** The device is told that the driver has abandoned. *)
Lemma told_failed type i buf m1 m :
  virtio_mmio m1 = blk_base → reg (dev m1) VIRTIO_MMIO_QUEUE_SEL = 0 →
  (∀ x, ¬ mine x → ¬ (is_in type = true ∧ buf ≤ x < buf + 512) → ram m1 x = ram m x) →
  (∀ j, is_in type = true ∨ j ≠ i → sectors (dev m1) j = sectors (dev m) j) →
  recovered type i buf false m (recovering (mmio_write VIRTIO_MMIO_STATUS VIRTIO_STATUS_FAILED m1) false).
Proof.
  intros Eb Es Hr Hs. destruct (mmio_write_spec VIRTIO_MMIO_STATUS VIRTIO_STATUS_FAILED m1) as (_&_&N3);
    [done|known_register|done|known_register..|].
  split; try done. intros j Hj. cbn [dev recovering]. rewrite N3. auto.
Qed.

(** The request is still with the device when the recovery starts. *)
Lemma abandoned type i buf m :
  type = VIRTIO_BLK_T_IN ∨ type = VIRTIO_BLK_T_OUT → leaves_cleared V → apart buf → waiting type i buf m →
  let m0 := meanwhile (recovering m true) in
  let m1 := meanwhile (virtio_setup_vq_layout m0) in
  cleared m0 m1 ∧ (∀ x, ¬ mine x → ¬ (is_in type = true ∧ buf ≤ x < buf + 512) → ram m1 x = ram m x) ∧
  (∀ j, is_in type = true ∨ j ≠ i → sectors (dev m1) j = sectors (dev m) j).
Proof.
  intros Ht Hl Hap [W1 W2 W3 W4 W5 W6 W7] m0.
  assert (waiting type i buf (recovering m true)) as Hw by (split; try done; by destruct W1).
  destruct (meanwhile_spec type i buf _ Ht Hap Hw) as [[(S1&_&_) S4 S5 S6] _]. fold m0 in S1, S4, S5, S6.
  assert (cleared m0 (meanwhile (virtio_setup_vq_layout m0))) as Hc.
  { apply meanwhile_cleared; [done| |].
    - destruct S1 as (->&_). by destruct W1.
    - by eapply runs_queue_reg. }
  split; [done|]. destruct Hc as [_ _ _ C4 C5 C6]. unfold mine, VQ_BYTES, VQ_ALIGN in *. split.
  - intros x Hx Hb. rewrite C5 by tauto. apply S5; [tauto|done|lia].
  - intros j Hj. rewrite C6. by apply S6.
Qed.

Lemma recover_spec type i buf m ok m' :
  type = VIRTIO_BLK_T_IN ∨ type = VIRTIO_BLK_T_OUT → leaves_cleared V → apart buf → apart probe →
  waiting type i buf m → virtio_recover_from_timeout m = (ok, m') → recovered type i buf ok m m'.
Proof.
  intros Ht Hl Hab Hap Hw. unfold virtio_recover_from_timeout. case_if; [by intros [= <- <-]|]. cbv zeta.
  destruct (abandoned type i buf m Ht Hl Hab Hw) as (Hc&Hm0&Hs0). cbv zeta in Hc, Hm0, Hs0.
  set (m0 := meanwhile (virtio_setup_vq_layout (meanwhile (recovering m true)))) in *.
  destruct (virtio_configure_device m0) as [ok1 m1] eqn:E1.
  destruct (configure_spec m0 _ _ (cl_attached _ _ Hc) Hap E1) as (C1&C2&C3&C4).
  pose proof (at_base _ (cl_attached _ _ Hc)) as Eb.
  destruct ok1; cbn [negb].
  2:{ intros [= <- <-]. apply told_failed; [by rewrite C1|done|by rewrite C1|]. intros j Hj. rewrite C2. auto. }
  destruct (virtio_read_capacity m1) as [ok2 m2] eqn:E2.
  destruct (start_spec m0 m0 m1 ok2 m2) as [T1 T2 T3 T4]; [by destruct Hc|done..|].
  assert (∀ x, ¬ mine x → ¬ (is_in type = true ∧ buf ≤ x < buf + 512) → ram m2 x = ram m x) as Hm2.
  { intros x Hx Hb. rewrite T3 by (unfold mine in Hx; tauto). auto. }
  assert (∀ j, is_in type = true ∨ j ≠ i → sectors (dev m2) j = sectors (dev m) j) as Hs2.
  { intros j Hj. rewrite T4. auto. }
  pose proof T1 as [[Tb _ _ _] (_&_&_&_&Ts) _ _ _ _].
  destruct ok2; cbn [negb]; [|intros [= <- <-]; by apply told_failed].
  destruct (virtio_do_io VIRTIO_BLK_T_IN 0 probe m2) as [ok3 m3] eqn:E3.
  apply do_io_spec in E3 as [I1 I2 I3 (_&_&_&_&I4) I5 _ I6]; [|by left|lia|done|done].
  assert (∀ x, ¬ mine x → ¬ (is_in type = true ∧ buf ≤ x < buf + 512) → ram m3 x = ram m x) as Hm3.
  { intros x Hx Hb. rewrite I2, Hm2 by (done || (unfold mine in Hx; tauto)). done. }
  assert (∀ j, is_in type = true ∨ j ≠ i → sectors (dev m3) j = sectors (dev m) j) as Hs3.
  { intros j Hj. rewrite I3 by (by left). auto. }
  destruct ok3; cbn [negb]; intros [= <- <-].
  - destruct (I6 eq_refl) as [Hto _]. split; [done|done|].
    intros _. split; [apply recovering_ready; auto|done].
  - apply told_failed; [by destruct I1 as (->&_)|done|done|done].
Qed.
End ops.
