(* ===== verification/VirtioDisk.v ===== *)
(** * The virtio driver is a block device

    Reads and writes of blocks above any device that keeps the laws of [VirtioSpec.v],
    with its errors, its time-outs and the recovery from them; and the instance of the
    interface [BlockDev] that they are, on which the file system runs. *)
From Stdlib Require Import ZArith Lia ZifyBool String.
From stdpp Require Import base tactics list numbers option.
From S2P Require Import Prelude CString BlockDev Virtio VirtioSpec VirtioOps.
#[local] Open Scope Z_scope.

Section disk.
Context {V : Type} `{VirtioLaws V} {L : Layout}.
Implicit Types m : blk V.

(** The block of the caller, and the one of the recovery. *)
Definition buffers (buf : Z) : Prop :=
  apart buf ∧ apart probe ∧ (buf + 512 ≤ probe ∨ probe + 512 ≤ buf).

(** ** A transfer *)


(** ** The start *)

Lemma slot_regs_same base (d : V) : same_device d (slot_regs base d).2.
Proof.
  unfold slot_regs.
  pose proof (load_same (u32 (base + VIRTIO_MMIO_MAGIC_VALUE)) d) as (A1&A2&A3).
  destruct (mmio_load _ d) as [v1 d1]. cbn [snd] in *.
  pose proof (load_same (u32 (base + VIRTIO_MMIO_VERSION)) d1) as (B1&B2&B3).
  destruct (mmio_load _ d1) as [v2 d2]. cbn [snd] in *.
  pose proof (load_same (u32 (base + VIRTIO_MMIO_DEVICE_ID)) d2) as (C1&C2&C3).
  destruct (mmio_load _ d2) as [v3 d3]. cbn [snd] in *.
  pose proof (load_same (u32 (base + VIRTIO_MMIO_VENDOR_ID)) d3) as (D1&D2&D3).
  destruct (mmio_load _ d3) as [v4 d4]. cbn [snd] in *.
  split_and!; intros; [by rewrite D1, C1, B1, A1|by rewrite D2, C2, B2, A2|by rewrite D3, C3, B3, A3].
Qed.

Lemma find_loop_spec n i m m' :
  0 ≤ i → i + Z.of_nat n ≤ Z.of_nat VIRTIO_MMIO_MAX_DEVS → find_loop n i m = (true, m') →
  virtio_mmio m' = blk_base ∧ blk_recovering m' = blk_recovering m ∧
  (∀ j, sectors (dev m') j = sectors (dev m) j).
Proof.
  revert i m. induction n as [|n IH]; intros i m Hi Hn; [done|]. cbn [find_loop].
  set (base := u32 _). pose proof (slot_regs_same base (dev m)) as (_&_&Hs).
  destruct (slot_regs base (dev m)) as [[[[magic version] dev_id] vendor] d] eqn:E. cbn [snd] in Hs.
  assert (find_loop n (i + 1) (with_dev m d) = (true, m') →
    virtio_mmio m' = blk_base ∧ blk_recovering m' = blk_recovering m ∧
    (∀ j, sectors (dev m') j = sectors (dev m) j)) as Hnext.
  { intros Hj. apply IH in Hj as (J1&J2&J3); [|lia..]. split_and!; [done..|]. intros k. by rewrite J3, <-Hs. }
  do 4 (case_if; [by apply Hnext|]). intros [= <-]. split_and!; [|done|exact Hs].
  cbn [virtio_mmio]. apply (only_block i (dev m) version d); [lia| |lia]. fold base.
  rewrite E. repeat f_equal; lia.
Qed.

(** Where the start does not panic the driver is ready. *)
Lemma init_spec m m' :
  apart probe → virtio_init m = Some m' →
  ready m' ∧ blk_recovering m' = blk_recovering m ∧ ∀ j, sectors (dev m') j = sectors (dev m) j.
Proof.
  intros Hap. unfold virtio_init, virtio_find_blk.
  destruct (find_loop _ 0 m) as [[|] m1] eqn:E1; [|done]. apply find_loop_spec in E1 as (F1&F2&F3); [|done..].
  cbn [negb]. destruct (virtio_configure_device _) as [[|] m2] eqn:E2; [|done]. cbn [negb].
  destruct (virtio_read_capacity m2) as [[|] m3] eqn:E3; [|done]. cbn [negb].
  destruct (start_spec m1 _ m2 _ m3 (layout_cleared m1 F1) Hap E2 E3) as [T1 T2 T3 T4].
  destruct (virtio_do_io _ _ _ m3) as [[|] m4] eqn:E4; [|done]. cbn [negb]. intros [= <-].
  apply do_io_spec in E4 as [I1 I2 I3 I4 I5 _ I6]; [|by left|lia|done|done].
  destruct (I6 eq_refl) as [Hto _]. split_and!.
  - auto.
  - destruct I1 as (_&_&_&_&_&->). by rewrite T2.
  - intros j. rewrite I3, T4 by (by left). apply F3.
Qed.
(** ** A device that answers in time *)

Definition dma_round (rd : memory * V) : memory * V := dma rd.1 rd.2.

Lemma looks_silent n m m' :
  looks_nat n m = (false, m') → (ram m', dev m') = Nat.iter n dma_round (ram m, dev m).
Proof.
  revert m. induction n as [|n IH]; intros m; [by intros [= <-]|]. cbn [looks_nat].
  rewrite Nat.iter_succ_r. unfold look, meanwhile. change (dma_round (ram m, dev m)) with (dma (ram m) (dev m)).
  destruct (dma (ram m) (dev m)) as [r d]. case_if; [done|]. intros Hl. by apply IH in Hl.
Qed.

Lemma looks_silent_before k n m m' :
  (k ≤ n)%nat → looks_nat n m = (false, m') → ∃ m1, looks_nat k m = (false, m1).
Proof.
  intros Hk. replace n with (k + (n - k))%nat by lia. rewrite looks_nat_add.
  destruct (looks_nat k m) as [[|] m1]; [done|]. by eauto.
Qed.

Context `{!Prompt V}.

Lemma prompt_answer type i buf m d0 :
  type = VIRTIO_BLK_T_IN ∨ type = VIRTIO_BLK_T_OUT → apart buf → waiting type i buf m →
  dev m = mmio_store (blk_base + VIRTIO_MMIO_QUEUE_NOTIFY) 0 d0 →
  (looks_nat (Z.to_nat (VIRTIO_IO_SPIN_LIMIT + 1)) m).1 = true.
Proof.
  intros Ht Hap Hw Ed. destruct (looks_nat _ m) as [[|] m'] eqn:El; [done|]. exfalso.
  pose proof Hw as [W1 W2 W3 W4 W5 W6 W7]. pose proof W2 as (Ql&Qd&Qa&Qu&_).
  destruct (prompt (ram m) d0 (Req (is_in type) i buf req_status)) as (n&Hn&Hne); rewrite <-?Ed; try done.
  - unfold offered. by rewrite Qa.
  - rewrite Qd, Qa. by apply presented_request.
  - destruct Hap. unfold well_apart, VQ_BYTES, VQ_ALIGN in *. cbn [rq_status rq_data]. rewrite Qu. lia.
  - rewrite <-Ed in Hne. apply Hne.
    destruct (looks_silent_before n (Z.to_nat (VIRTIO_IO_SPIN_LIMIT + 1)) m m') as [m1 E1]; [lia|done|].
    pose proof (looks_nat_spec _ _ _ _ _ _ _ Ht Hap Hw E1) as (_&_&Htk).
    apply looks_silent in E1. unfold dma_round in E1. by rewrite <-E1.
Qed.

Lemma to_pos_nat z : 0 < z → Pos.to_nat (Z.to_pos z) = Z.to_nat z.
Proof. by destruct z. Qed.

Lemma prompt_do_io type i buf m :
  type = VIRTIO_BLK_T_IN ∨ type = VIRTIO_BLK_T_OUT → 0 ≤ i < 4294967296 → apart buf → ready m →
  last_io_timed_out (virtio_do_io type i buf m).2 = false.
Proof.
  intros Ht Hi Hap Hr. unfold virtio_do_io, wait_used. rewrite looks_unfold.
  destruct (asked type i buf m Ht Hi Hap Hr) as (Hw&Hsd&Hto&Hsec&Htk&Hram).
  set (m1 := mmio_write _ _ _) in *.
  assert (dev m1 = mmio_store (blk_base + VIRTIO_MMIO_QUEUE_NOTIFY) 0 (dev m)) as Ed.
  { unfold m1, mmio_write. cbn [dev with_dev]. destruct Hr as [[Eb _ _ _] _ _ _ _ _].
    change (virtio_mmio (put_request type i buf (timed_out m false))) with (virtio_mmio m). rewrite Eb.
    pose proof base_slot as Hb. unfold VIRTIO_MMIO_STRIDE in Hb.
    rewrite u32_small by (unfold VIRTIO_MMIO_QUEUE_NOTIFY; lia). done. }
  pose proof (prompt_answer type i buf m1 _ Ht Hap Hw Ed) as Hok.
  rewrite to_pos_nat by (unfold VIRTIO_IO_SPIN_LIMIT; lia).
  destruct (looks_nat _ m1) as [ok2 m2] eqn:El. cbn [fst] in Hok. subst ok2. cbn [negb].
  pose proof (looks_nat_spec _ _ _ _ _ _ _ Ht Hap Hw El) as [[(_&_&S1) _ _ _] _ _ _].
  case_if; cbn [snd].
  - match goal with |- context [log_once ?a ?b ?c] => destruct (log_once_same a b c) as (_&_&_&_&L5) end.
    rewrite L5. cbn [last_io_timed_out with_last]. congruence.
  - cbn [last_io_timed_out with_last]. congruence.
Qed.

(** No request times out, so that what a transfer does is what one request does. *)
Lemma prompt_transfer type i buf m :
  type = VIRTIO_BLK_T_IN ∨ type = VIRTIO_BLK_T_OUT → 0 ≤ i → buffers buf → ready m →
  let r := virtio_transfer type i buf m in
  (∀ j, is_in type = true ∨ j ≠ i → sectors (dev r.2) j = sectors (dev m) j) ∧
  (r.1 = true → if is_in type then load_block buf (ram r.2) = sectors (dev m) i
                else sectors (dev r.2) i = load_block buf (ram m)).
Proof.
  intros Ht Hi (Hap&_) Hr. unfold virtio_transfer. case_if; [done|]. case_if; [done|].
  unfold BLOCKDEV_BLOCK_COUNT in *.
  pose proof (prompt_do_io type i buf m Ht ltac:(lia) Hap Hr) as Hto.
  destruct (virtio_do_io type i buf m) as [ok m1] eqn:E. cbn [snd] in Hto.
  apply do_io_spec in E as [_ _ I3 _ _ _ I6]; [|done|lia|done|done].
  rewrite Hto. cbn [negb]. destruct ok; cbn [fst snd]; (split; [done|]); [intros _; by apply I6|done].
Qed.

(** The driver stays ready. *)
Lemma transfer_ready type i buf m :
  type = VIRTIO_BLK_T_IN ∨ type = VIRTIO_BLK_T_OUT → 0 ≤ i → buffers buf → ready m →
  ready (virtio_transfer type i buf m).2.
Proof.
  intros Ht Hi (Hap&_) Hr. unfold virtio_transfer. case_if; [done|]. case_if; [done|].
  unfold BLOCKDEV_BLOCK_COUNT in *.
  pose proof (prompt_do_io type i buf m Ht ltac:(lia) Hap Hr) as Hto.
  destruct (virtio_do_io type i buf m) as [ok m1] eqn:E. cbn [snd] in Hto.
  apply do_io_spec in E as [_ _ _ _ I5 _ _]; [|done|lia|done|done].
  rewrite Hto. cbn [negb]. destruct ok; cbn [snd]; auto.
Qed.
End disk.

(** ** The block device *)

(** The driver and its device, at rest; [buf] is the block of the caller. *)
Record vdisk (V : Type) `{VirtioLaws V} {L : Layout} := VDisk {
  machine : blk V;
  machine_ready : ready machine
}.
Arguments VDisk {V _ _ _ _}.
Arguments machine {V _ _ _ _}.
Arguments machine_ready {V _ _ _ _}.

Section instance.
Context {V : Type} `{VirtioLaws V} {L : Layout} `{!Prompt V} (buf : Z) (Hbuf : buffers buf).

Lemma init_ready (m m' : blk V) : virtio_init m = Some m' → ready m'.
Proof. intros Hi. by apply (init_spec m m' (proj1 (proj2 Hbuf))). Qed.

Lemma read_ready i (d : vdisk V) : ready (virtio_read (Z.max 0 i) buf (machine d)).2.
Proof. apply transfer_ready; [by left|lia|done|apply machine_ready]. Qed.

Lemma store_ready b (m : blk V) :
  length b = 512%nat → ready m → ready (with_ram m (store_block buf b (ram m))).
Proof.
  intros Hl [[Rb Rd Ra Ru] R2 R3 R4 R5 R6]. destruct Hbuf as [[] _]. pose proof R2 as (_&_&Qa&Qu&_).
  unfold VQ_BYTES, VQ_ALIGN in *.
  split; cbn [dev ram vq_last_used_idx with_ram]; try done.
  - rewrite <-R4. unfold offered. rewrite Qa. apply load_le_ext. intros x Hx. unfold avail_idx in Hx.
    apply store_block_other. lia.
  - rewrite <-R5. unfold given_back. rewrite Qu. apply load_le_ext. intros x Hx. unfold used_idx in Hx.
    apply store_block_other. lia.
Qed.

Lemma write_ready i b (d : vdisk V) :
  ready (virtio_write (Z.max 0 i) buf (with_ram (machine d) (store_block buf (fit_block b) (ram (machine d))))).2.
Proof.
  apply transfer_ready; [by right|lia|done|]. apply store_ready; [apply fit_block_length|apply machine_ready].
Qed.

(** The interface of [BlockDev.v], by the functions of the driver.  An index is unsigned,
    and a block has 512 bytes. *)
Definition vdisk_init (d : vdisk V) : option (vdisk V) :=
  match virtio_init (machine d) as r return virtio_init (machine d) = r → option (vdisk V) with
  | Some m => λ E, Some (VDisk m (init_ready _ _ E))
  | None => λ _, None
  end eq_refl.

Definition vdisk_read (i : Z) (d : vdisk V) : option (list Z) * vdisk V :=
  if i <? 0 then (None, d)
  else
    let d' := VDisk (virtio_read (Z.max 0 i) buf (machine d)).2 (read_ready i d) in
    (if (virtio_read (Z.max 0 i) buf (machine d)).1 then Some (load_block buf (ram (machine d'))) else None, d').

Definition vdisk_write (i : Z) (b : list Z) (d : vdisk V) : bool * vdisk V :=
  if i <? 0 then (false, d)
  else
    let m := with_ram (machine d) (store_block buf (fit_block b) (ram (machine d))) in
    ((virtio_write (Z.max 0 i) buf m).1, VDisk (virtio_write (Z.max 0 i) buf m).2 (write_ready i b d)).

#[export] Instance vdisk_dev : BlockDev (vdisk V) := {
  blockdev_init := vdisk_init;
  blockdev_read := vdisk_read;
  blockdev_write := vdisk_write
}.

Lemma vdisk_init_machine d d' : vdisk_init d = Some d' → virtio_init (machine d) = Some (machine d').
Proof.
  unfold vdisk_init. generalize (init_ready (machine d)).
  destruct (virtio_init (machine d)) as [m|]; intros Hr; [|done]. by intros [= <-].
Qed.

(** C2. The driver above a device that answers in time is a block device as the file
    system wants it: every law of [BlockDevLaws] holds of its reads, its writes and its
    start, the sectors of the device being what is stored, whatever errors the device
    reports. *)
Theorem virtio_block_device :
  @BlockDevLaws (vdisk V) vdisk_dev (λ d i, sectors (dev (machine d)) i).
Proof.
  assert (Hx := λ type i m Ht Hi, prompt_transfer type i buf m Ht Hi Hbuf).
  split; cbn [blockdev_init blockdev_read blockdev_write vdisk_dev].
  - intros d d' j Hi. apply vdisk_init_machine, init_spec in Hi as (_&_&Hs); [done|apply Hbuf].
  - intros d i. apply sector_length.
  - intros i d b d'. unfold vdisk_read. case_if; [done|].
    destruct (Hx VIRTIO_BLK_T_IN i (machine d) (or_introl eq_refl) ltac:(lia) (machine_ready d)) as [_ Hc].
    cbv zeta. cbn [machine]. intros [= E _]. revert E. rewrite Z.max_r by lia. unfold virtio_read.
    case_if; [|done]. intros [= <-]. by apply Hc.
  - intros i d r d' j. unfold vdisk_read. case_if; [by intros [= <- <-]|].
    intros [= _ <-]. cbn [machine]. rewrite Z.max_r by lia.
    apply (Hx VIRTIO_BLK_T_IN i (machine d) (or_introl eq_refl) ltac:(lia) (machine_ready d)). by left.
  - intros i b d d' Hb. unfold vdisk_write. case_if; [done|]. cbv zeta. intros [= E <-]. cbn [machine].
    revert E. rewrite Z.max_r by lia. intros E. rewrite fit_block_id in * by done.
    unfold virtio_write in *.
    assert (ready (with_ram (machine d) (store_block buf b (ram (machine d))))) as Hr
      by (apply store_ready; [done|apply machine_ready]).
    destruct (Hx VIRTIO_BLK_T_OUT i _ (or_intror eq_refl) ltac:(lia) Hr) as [_ Hc].
    rewrite (Hc E). by apply load_store_block.
  - intros i b d r d' j Hj. unfold vdisk_write. case_if; [by intros [= <- <-]|]. cbv zeta.
    intros [= _ <-]. cbn [machine]. rewrite Z.max_r by lia.
    assert (ready (with_ram (machine d) (store_block buf (fit_block b) (ram (machine d))))) as Hr
      by (apply store_ready; [apply fit_block_length|apply machine_ready]).
    destruct (Hx VIRTIO_BLK_T_OUT i _ (or_intror eq_refl) ltac:(lia) Hr) as [Hs _].
    unfold virtio_write. rewrite (Hs j) by (by right). done.
Qed.
End instance.
