(* ===== verification/VirtioTests.v ===== *)
(** * The virtio driver on a concrete device

    A device in the manner of the emulator that the system runs on: it takes a round to
    start on a request, answers in the next, and has sectors that cannot be read or
    written.  It keeps the laws of [VirtioSpec.v]. *)
From Stdlib Require Import ZArith Lia ZifyBool String.
From stdpp Require Import base tactics list numbers option.
From S2P Require Import Prelude CString BlockDev Virtio VirtioSpec VirtioOps VirtioDisk.
#[local] Open Scope Z_scope.

Record emu := Emu {
  e_reg : Z → Z; e_taken : Z; e_busy : bool; e_sectors : Z → list Z; e_bad : Z → bool
}.

Definition e_base : Z := 268439552.

Definition emu_load (a : Z) (d : emu) : Z * emu :=
  let off := a - e_base in
  (if off =? VIRTIO_MMIO_MAGIC_VALUE then VIRTIO_MAGIC
   else if off =? VIRTIO_MMIO_VERSION then 2
   else if off =? VIRTIO_MMIO_DEVICE_ID then VIRTIO_DEV_BLOCK
   else if off =? VIRTIO_MMIO_VENDOR_ID then VIRTIO_VENDOR
   else if off =? VIRTIO_MMIO_DEVICE_FEATURES then 1
   else if off =? VIRTIO_MMIO_QUEUE_NUM_MAX then 1024
   else if off =? VIRTIO_MMIO_CONFIG then 256
   else if off =? VIRTIO_MMIO_STATUS then e_reg d VIRTIO_MMIO_STATUS
   else 0, d).

Definition emu_store (a v : Z) (d : emu) : emu :=
  let off := a - e_base in
  if (off =? VIRTIO_MMIO_STATUS) && (v =? 0) then Emu (λ _, 0) 0 false (e_sectors d) (e_bad d)
  else Emu (upd (e_reg d) off v) (e_taken d) (e_busy d) (e_sectors d) (e_bad d).

#[export] Instance emu_block : VirtioBlock emu := {
  blk_base := e_base; reg := e_reg; taken := e_taken; sectors d j := fit_block (e_sectors d j)
}.

(** The request is carried out: the data, the status, the entry of the used ring, its
    index. *)
Definition emu_serve (q : request) (r : memory) (d : emu) : memory * emu :=
  let bad := e_bad d (rq_sector q) in
  let used := load_le 2 (used_idx (q_used d)) r in
  let data := load_block (rq_data q) r in
  let r := if rq_in q && negb bad then store_block (rq_data q) (fit_block (e_sectors d (rq_sector q))) r else r in
  let r := store_le 1 (rq_status q) (if bad then 1 else 0) r in
  let r := store_le 4 (q_used d + 4 + 8 * (used mod 8)) 0 r in
  let r := store_le 2 (used_idx (q_used d)) (u16 (used + 1)) r in
  (r, Emu (e_reg d) (u16 (e_taken d + 1)) false
        (if negb (rq_in q) && negb bad then λ j, if j =? rq_sector q then data else e_sectors d j
         else e_sectors d) (e_bad d)).

Definition emu_dma (r : memory) (d : emu) : memory * emu :=
  if live d && negb (offered d r =? taken d) then
    if negb (e_busy d) then (r, Emu (e_reg d) (e_taken d) true (e_sectors d) (e_bad d))
    else
      match request_at (q_desc d) (q_avail d) (taken d) r with
      | Some q => emu_serve q r d
      | None => (r, d)
      end
  else (r, d).

#[export] Instance emu_mmio : VirtioMmio emu := {
  mmio_load := emu_load; mmio_store := emu_store; dma := emu_dma
}.

Lemma emu_serves q r (d : emu) : well_apart q d → serves q r d (emu_serve q r d).1 (emu_serve q r d).2.
Proof.
  intros (A1&A2&A3). unfold emu_serve. cbv zeta. cbn [fst snd].
  set (used := load_le 2 (used_idx (q_used d)) r).
  assert (0 ≤ used mod 8 < 8) as Hu by (apply Z.mod_pos_bound; lia).
  unfold used_idx in *.
  split; cbn [reg taken sectors emu_block e_reg e_taken e_sectors].
  - done.
  - intros x Hx. unfold writable in Hx. rewrite !store_le_other by lia.
    case_if; [|done]. apply store_block_other. rewrite fit_block_length. lia.
  - intros j Hj. case_if; [|done]. case_if; [lia|done].
  - right. unfold given_back, used_idx. fold used. split; [done|]. split.
    + rewrite load_store_eq. apply Z.mod_mod. lia.
    + rewrite 2!load_store_ne by lia. rewrite load_store_eq. intros Hz.
      destruct (e_bad d (rq_sector q)); [by vm_compute in Hz|]. rewrite !andb_true_r.
      destruct (rq_in q); cbn [negb].
      * rewrite (load_block_ext _ (store_block (rq_data q) (fit_block (e_sectors d (rq_sector q))) r))
          by (intros x Hx; rewrite !store_le_other by lia; done).
        apply load_store_block, fit_block_length.
      * rewrite Z.eqb_refl. by rewrite fit_block_id.
Qed.

#[export] Instance emu_laws : VirtioLaws emu.
Proof.
  split; cbn [blk_base reg taken sectors emu_block mmio_load mmio_store dma emu_mmio].
  - by split.
  - intros i d version d' Hi E _.
    assert (i = 0 ∨ i = 1 ∨ i = 2 ∨ i = 3 ∨ i = 4 ∨ i = 5 ∨ i = 6 ∨ i = 7) as Hc by (unfold VIRTIO_MMIO_MAX_DEVS in Hi; lia).
    repeat (destruct Hc as [->|Hc]; [try done; by vm_compute in E|]). subst i. by vm_compute in E.
  - intros a d. done.
  - intros d. done.
  - intros off v d Hin Hs C1 C2 C3 Hv. unfold emu_store. cbn [reg taken sectors emu_block].
    replace (e_base + off - e_base) with off by lia.
    case_if; [exfalso; apply C2; lia|]. done.
  - intros r d Hq. unfold emu_dma. cbn [live taken emu_block] in *.
    destruct (live d && negb (offered d r =? e_taken d)) eqn:E; [|done]. destruct Hq; [by rewrite H in E|lia].
  - intros r d q Hl Ho Hr Hw. unfold emu_dma. rewrite Hl. cbn [taken emu_block andb] in *.
    rewrite Ho. rewrite (proj2 (Z.eqb_neq _ _)) by (unfold u16; zdiv). cbn [negb].
    destruct (e_busy d); cbn [negb]; [rewrite Hr; by apply emu_serves|].
    split; cbn; try done. by left.
  - intros d j. apply fit_block_length.
Qed.

#[export] Instance emu_prompt : Prompt emu.
Proof.
  intros r d0 q d. generalize d. clear d d0. intros d Hl Ho Hr Hw.
  assert (∀ d1, q_desc d1 = q_desc d → q_avail d1 = q_avail d → live d1 = true → taken d1 = taken d → e_busy d1 = true →
    taken (dma r d1).2 ≠ taken d) as Hserve.
  { intros d1 E1 E2 E3 E4 E5. cbn [dma emu_mmio]. unfold emu_dma, offered. rewrite E1, E2, E3, E4.
    change (load_le 2 (avail_idx (q_avail d)) r) with (offered d r). rewrite Ho.
    rewrite (proj2 (Z.eqb_neq _ _)) by (unfold u16; zdiv). rewrite E5, Hr. cbn [negb andb].
    change (u16 (taken d1 + 1) ≠ taken d). rewrite E4. unfold u16. zdiv. }
  destruct (e_busy d) eqn:Eb.
  - exists 1%nat. split; [done|]. by apply Hserve.
  - exists 2%nat. split; [done|]. cbn [Nat.iter nat_rect fst snd].
    assert (dma r d = (r, Emu (e_reg d) (e_taken d) true (e_sectors d) (e_bad d))) as ->.
    { cbn [dma emu_mmio]. unfold emu_dma. rewrite Hl, Ho.
      rewrite (proj2 (Z.eqb_neq _ _)) by (unfold u16; zdiv). by rewrite Eb. }
    by apply Hserve.
Qed.

(** It finds no request in a cleared queue. *)
Lemma cleared_no_request desc n r :
  (∀ x, desc ≤ x < desc + VQ_BYTES → r x = 0) → request_at desc (desc + 128) n r = None.
Proof.
  intros Hz. unfold request_at, avail_ring, VQ_NUM. unfold VQ_BYTES, VQ_ALIGN in Hz.
  assert (0 ≤ n mod 8 < 8) as Hn by (apply Z.mod_pos_bound; lia).
  rewrite (load_zero 2 (desc + 128 + 4 + 2 * (n mod 8))) by (intros; apply Hz; lia).
  unfold descriptor at 1. cbv zeta. unfold desc_at, desc_len, desc_addr.
  rewrite (load_zero 4 (desc + 16 * 0 + 8)) by (intros; apply Hz; lia).
  destruct (descriptor _ _ r) as [[[? ?] ?] ?], (descriptor _ _ r) as [[[? ?] ?] ?].
  replace (0 =? 16) with false by done. by rewrite !andb_false_r.
Qed.

Lemma emu_leaves_cleared : leaves_cleared emu.
Proof.
  intros r d Hl Ha Hu Hz. cbn [dma emu_mmio]. unfold emu_dma. case_if; [|done]. case_if; [done|].
  by rewrite Ha, cleared_no_request.
Qed.

(** ** The driver starts *)

#[export] Instance kernel_layout : Layout := {
  vq_mem := 2149670912; req_hdr := 2149679104; req_status := 2149679120; probe := 2149700000
}.

Definition caller_block : Z := 2149690000.

Lemma kernel_buffers : buffers caller_block.
Proof.
  unfold buffers, VQ_BYTES. split; [|split];
    [split; unfold VQ_BYTES, VQ_ALIGN, caller_block; cbn; lia..|unfold caller_block; cbn; lia].
Qed.

(** The kernel at its start; the sector 9 is bad, and the others hold their number. *)
Definition cold : blk emu :=
  Blk 0 0 0 0 0 0 false false false (λ _, 0)
    (Emu (λ _, 0) 0 false (λ j, repeat (u8 j) 512) (λ j, j =? 9)) [].

Definition started_blk : blk emu := default cold (virtio_init cold).

Lemma started_init : virtio_init cold = Some started_blk.
Proof.
  unfold started_blk. destruct (virtio_init cold) as [m|] eqn:E; [done|].
  assert (match virtio_init cold with Some _ => true | None => false end = true) as Hs by (vm_compute; reflexivity).
  by rewrite E in Hs.
Qed.

Lemma started_ready : ready started_blk.
Proof. apply (init_spec cold); [apply kernel_buffers|apply started_init]. Qed.

Definition read_3 : bool * blk emu := virtio_transfer VIRTIO_BLK_T_IN 3 caller_block started_blk.

Lemma read_3_eq : virtio_transfer VIRTIO_BLK_T_IN 3 caller_block started_blk = (read_3.1, read_3.2).
Proof. unfold read_3. apply surjective_pairing. Qed.


(** The disk of the kernel. *)
Definition kernel_disk : vdisk emu := VDisk started_blk started_ready.

Lemma virtio_block_device_witness :
  (vdisk_read caller_block kernel_buffers 3 kernel_disk).1 = Some (repeat 3 512) ∧
  @BlockDevLaws (vdisk emu) (vdisk_dev caller_block kernel_buffers) (λ d i, sectors (dev (machine d)) i).
Proof.
  split; [vm_compute; reflexivity|]. exact (virtio_block_device caller_block kernel_buffers).
Defined.

(** A block is written and read back, past a failed write to the bad sector, of which one
    line is printed. *)
Definition tried : blk emu :=
  let m := with_ram started_blk (store_block caller_block (repeat 7 512) (ram started_blk)) in
  let m := (virtio_write 5 caller_block m).2 in
  let m := (virtio_write 9 caller_block m).2 in
  let m := (virtio_write 9 caller_block m).2 in
  (virtio_read 5 caller_block m).2.

Example written_and_read :
  load_block caller_block (ram tried) = repeat 7 512 ∧ sectors (dev tried) 9 = repeat 9 512 ∧
  printed tried = bytes "[blk] io err type=1 blk=9 status=00000001" ++ [10].
Proof. split_and!; vm_compute; reflexivity. Qed.
