(* ===== verification/NodeFs.v ===== *)
(** * The node file system ([src/kernel/fs/fs.c], [nodefs_*] and [pfs_*])

    A file system is an array of 128 nodes, each with its parent's index, its
    name and up to 512 bytes of data; the persistent one writes the whole array to
    the block device after each change.  Routines that return 0 or -1 return a
    [bool] (true for 0), routines that return an index or -1 an [option]; the file
    system and the device are passed along explicitly. *)
From Stdlib Require Import ZArith Lia ZifyBool.
From stdpp Require Import base tactics list numbers option strings.
From S2P Require Import Prelude CString BlockDev.

Definition FS_PATH_MAX : Z := 64.
Definition FS_NAME_MAX : Z := 16.
Definition FS_FD_MAX : Z := 16.
Definition FS_MAX_NODES : Z := 128.
Definition FS_FILE_MAX_SIZE : Z := 512.
Definition FS_TYPE_FILE : Z := 1.
Definition FS_TYPE_DIR : Z := 2.
Definition O_RDONLY : Z := 1.
Definition O_WRONLY : Z := 2.
Definition O_CREAT : Z := 16.
Definition O_TRUNC : Z := 32.
Definition PROCS_MAX : Z := 64.
Definition PFS_MAGIC : Z := 1346786097.

Record vfs_fd := Fd {
  fd_used : Z; fd_mount : Z; fd_node : Z; fd_offset : Z; fd_flags : Z
}.

Record fs_node := Node {
  used : Z; ntype : Z; parent : Z; name : list Z; size : Z; data : list Z
}.

Record nodefs := NodeFS { mount_idx : Z; persistent : Z; nodes : list fs_node }.

Record fs_dirent := Dirent { d_name : list Z; d_type : Z; d_size : Z }.

Definition zeros (n : nat) : list Z := repeat 0 n.

(** The node of all-zero bytes. *)
Definition zero_node : fs_node := Node 0 0 0 (zeros 16) 0 (zeros 512).

Definition is_used (n : fs_node) : bool := negb (used n =? 0).

Definition node_at (fs : nodefs) (i : nat) : fs_node := nth i (nodes fs) zero_node.

Definition set_nodes (fs : nodefs) (ns : list fs_node) : nodefs :=
  NodeFS (mount_idx fs) (persistent fs) ns.

Definition set_node (fs : nodefs) (i : nat) (n : fs_node) : nodefs :=
  set_nodes fs (<[i := n]> (nodes fs)).

(** ** Names and paths *)

(** [for (; i < left && src[i] != '\0'; i++) dst[i] = src[i]; dst[i] = '\0';
    return src[i] == '\0';] *)
Fixpoint copy_name_loop (left : nat) (src dst : list Z) : bool * list Z :=
  match left, dst with
  | S left', _ :: dst' =>
      if ch src 0 =? 0 then (true, 0 :: dst')
      else let '(r, d) := copy_name_loop left' (tail src) dst' in (r, ch src 0 :: d)
  | O, _ :: dst' => (ch src 0 =? 0, 0 :: dst')
  | _, [] => (ch src 0 =? 0, [])
  end.

Definition copy_name (dst src : list Z) : bool * list Z :=
  copy_name_loop (Z.to_nat (FS_NAME_MAX - 1)) src dst.

Fixpoint str_len (s : list Z) : Z :=
  match s with
  | [] => 0
  | c :: r => if c =? 0 then 0 else 1 + str_len r
  end.

(** What [next_component] returns: 0, 1 with the name and the path left, or -1.
    The pair of [path] and [pos] is the path from [pos] on. *)
Inductive component := CEnd | CName (nm rest : list Z) | CTooLong.

Fixpoint skip_slashes (p : list Z) : list Z :=
  match p with
  | c :: r => if c =? 47 then skip_slashes r else p
  | [] => []
  end.

(** The loop that copies a name, with [room] characters left in [out_name]. *)
Fixpoint scan_name (room : nat) (p : list Z) {struct p} : option (list Z * list Z) :=
  match p with
  | [] => Some ([], [])
  | c :: r =>
      if (c =? 0) || (c =? 47) then Some ([], p)
      else
        match room with
        | O => None
        | S room' => let! (n, q) := scan_name room' r in Some (c :: n, q)
        end
  end.

Definition next_component (p : list Z) : component :=
  let p := skip_slashes p in
  if ch p 0 =? 0 then CEnd
  else
    match scan_name (Z.to_nat (FS_NAME_MAX - 1)) p with
    | Some (n, q) => CName n q
    | None => CTooLong
    end.

Definition nodefs_find_child (fs : nodefs) (parent_idx : Z) (nm : list Z) : option nat :=
  first_idx (λ n, is_used n && (parent n =? parent_idx) && (strcmp (name n) nm =? 0))
            (nodes fs).

(** A node as [nodefs_alloc_node] leaves it: it assigns every field. *)
Definition fresh_node : fs_node := Node 1 0 (-1) (zeros 16) 0 (zeros 512).

Definition nodefs_alloc_node (fs : nodefs) : option (nat * nodefs) :=
  let! i := first_idx (λ n, negb (is_used n)) (tail (nodes fs)) in
  Some (S i, set_node fs (S i) fresh_node).

(** The loop of [nodefs_resolve_path]; a path of [n] characters takes at most
    [n + 1] iterations. *)
Fixpoint resolve_loop (fuel : nat) (fs : nodefs) (cur : nat) (p : list Z) : option nat :=
  match fuel with
  | O => None
  | S f =>
      match next_component p with
      | CTooLong => None
      | CEnd => Some cur
      | CName nm rest =>
          let! child := nodefs_find_child fs (Z.of_nat cur) nm in
          resolve_loop f fs child rest
      end
  end.

Definition nodefs_resolve_path (fs : nodefs) (path : list Z) : option nat :=
  if negb (ch path 0 =? 47) then None
  else resolve_loop (S (length path)) fs 0 path.

(** The loop of [nodefs_resolve_parent_and_leaf]: [comp] is the component the
    path [p] follows. *)
Fixpoint parent_loop (fuel : nat) (fs : nodefs) (cur : nat) (comp p : list Z)
  : option (nat * list Z) :=
  match fuel with
  | O => None
  | S f =>
      match next_component p with
      | CTooLong => None
      | CEnd =>
          let '(ok, leaf) := copy_name (zeros 16) comp in
          if ok then Some (cur, leaf) else None
      | CName peek rest =>
          let! child := nodefs_find_child fs (Z.of_nat cur) comp in
          if negb (ntype (node_at fs child) =? FS_TYPE_DIR) then None
          else
            let '(ok, comp) := copy_name (zeros 16) peek in
            if ok then parent_loop f fs child comp rest else None
      end
  end.

Definition nodefs_resolve_parent_and_leaf (fs : nodefs) (path : list Z)
  : option (nat * list Z) :=
  if negb (ch path 0 =? 47) || (ch path 1 =? 0) then None
  else
    match next_component path with
    | CName comp rest => parent_loop (S (length path)) fs 0 comp rest
    | _ => None
    end.

(** [fd_table] is the table of the virtual file system: a row per process. *)
Definition nodefs_is_node_open (fd_table : list (list vfs_fd)) (fs : nodefs)
    (node_index : Z) : bool :=
  if mount_idx fs <? 0 then false
  else
    existsb (existsb (λ f, negb (fd_used f =? 0) && (fd_mount f =? mount_idx fs) &&
                           (fd_node f =? node_index))) fd_table.

Definition nodefs_is_dir_empty (fs : nodefs) (node_index : Z) : bool :=
  negb (existsb (λ n, is_used n && (parent n =? node_index)) (nodes fs)).

(** ** The persistent image *)

Definition le32 (z : Z) : list Z :=
  [u8 z; u8 (Z.shiftr z 8); u8 (Z.shiftr z 16); u8 (Z.shiftr z 24)].

Definition load32 (b : list Z) (off : nat) : Z :=
  ch b off + Z.shiftl (ch b (off + 1)) 8 + Z.shiftl (ch b (off + 2)) 16 +
  Z.shiftl (ch b (off + 3)) 24.

(** The bytes of a [struct fs_node]. *)
Definition node_bytes (n : fs_node) : list Z :=
  le32 (used n) ++ le32 (ntype n) ++ le32 (parent n) ++ name n ++ le32 (size n) ++ data n.

Definition sizeof_node : nat := 544.
Definition sizeof_image : Z := 4 + FS_MAX_NODES * Z.of_nat sizeof_node.

(** The bytes of a [struct pfs_image]. *)
Definition image_bytes (magic : Z) (ns : list fs_node) : list Z :=
  le32 magic ++ concat (map node_bytes ns).

Definition node_of_bytes (b : list Z) : fs_node :=
  Node (i32 (load32 b 0)) (i32 (load32 b 4)) (i32 (load32 b 8)) (take 16 (drop 12 b))
       (load32 b 28) (take 512 (drop 32 b)).

(** The [n] nodes from a byte on. *)
Fixpoint nodes_of_bytes (n : nat) (b : list Z) : list fs_node :=
  match n with
  | O => []
  | S n' => node_of_bytes (take sizeof_node b) :: nodes_of_bytes n' (drop sizeof_node b)
  end.

Definition pfs_block_count : Z :=
  (sizeof_image + BLOCKDEV_BLOCK_SIZE - 1) / BLOCKDEV_BLOCK_SIZE.

(** How many bytes of the image are in block [i]. *)
Definition block_len (i : Z) : Z :=
  let off := i * BLOCKDEV_BLOCK_SIZE in
  let remain := sizeof_image - off in
  if BLOCKDEV_BLOCK_SIZE <? remain then BLOCKDEV_BLOCK_SIZE else remain.

(** [block] in iteration [i] of [pfs_sync]. *)
Definition sync_block (src : list Z) (i : Z) : list Z :=
  let off := i * BLOCKDEV_BLOCK_SIZE in
  let block := zeros (Z.to_nat BLOCKDEV_BLOCK_SIZE) in
  if 0 <? block_len i then memcpy (Z.to_nat (block_len i)) (drop (Z.to_nat off) src) block
  else block.

Definition nodefs_format (fs : nodefs) : nodefs :=
  set_nodes fs
    (Node 1 FS_TYPE_DIR (-1) (<[0%nat := 47]> (zeros 16)) 0 (zeros 512) ::
     repeat zero_node (Z.to_nat FS_MAX_NODES - 1)).

(** ** The operations *)

Section operations.
Context {D : Type} `{BlockDev D}.

(** Iterations [i], ..., [i + n - 1] of the loop of [pfs_sync]. *)
Fixpoint sync_loop (n : nat) (i : Z) (src : list Z) (d : D) : bool * D :=
  match n with
  | O => (true, d)
  | S n' =>
      let '(ok, d) := blockdev_write i (sync_block src i) d in
      if ok then sync_loop n' (i + 1) src d else (false, d)
  end.

Definition pfs_sync (fs : nodefs) (d : D) : bool * D :=
  if persistent fs =? 0 then (true, d) else
  let src := image_bytes PFS_MAGIC (nodes fs) in
  if BLOCKDEV_BLOCK_COUNT <? pfs_block_count then (false, d)
  else sync_loop (Z.to_nat pfs_block_count) 0 src d.

(** The block reads of [nodefs_init_instance]; [None] where it panics. *)
Fixpoint load_loop (n : nat) (i : Z) (dst : list Z) (d : D) : option (list Z * D) :=
  match n with
  | O => Some (dst, d)
  | S n' =>
      let '(r, d) := blockdev_read i d in
      let! block := r in
      let off := Z.to_nat (i * BLOCKDEV_BLOCK_SIZE) in
      let dst :=
        if 0 <? block_len i
        then take off dst ++ memcpy (Z.to_nat (block_len i)) block (drop off dst)
        else dst in
      load_loop n' (i + 1) dst d
  end.

Definition format_and_sync (fs : nodefs) (d : D) : option (nodefs * D) :=
  let fs := nodefs_format fs in
  let '(ok, d) := pfs_sync fs d in
  if ok then Some (fs, d) else None.

(** [img] is what the static [pfs_work_img] holds before the call: the reads
    overwrite all of it. *)
Definition nodefs_init_instance (persistent : Z) (img : list Z) (d : D)
  : option (nodefs * D) :=
  let fs := NodeFS (-1) persistent (repeat zero_node (Z.to_nat FS_MAX_NODES)) in
  if persistent =? 0 then Some (nodefs_format fs, d) else
  if BLOCKDEV_BLOCK_COUNT <? pfs_block_count then None else
  let! (img, d) := load_loop (Z.to_nat pfs_block_count) 0 img d in
  if negb (load32 img 0 =? PFS_MAGIC) then format_and_sync fs d else
  let fs := set_nodes fs (nodes_of_bytes (Z.to_nat FS_MAX_NODES) (drop 4 img)) in
  if negb (is_used (node_at fs 0)) || negb (ntype (node_at fs 0) =? FS_TYPE_DIR)
  then format_and_sync fs d
  else Some (fs, d).

(** A node allocated, given its type, parent and name, and synced: the part
    [nodefs_open] and [nodefs_mkdir] share.  The index is the new node's. *)
Definition create_node (ty : Z) (par : nat) (leaf : list Z) (fs : nodefs) (d : D)
  : option nat * nodefs * D :=
  match nodefs_alloc_node fs with
  | None => (None, fs, d)
  | Some (idx, fs) =>
      let n := node_at fs idx in
      let '(ok, nm) := copy_name (name n) leaf in
      let used' := if ok then used n else 0 in
      let fs := set_node fs idx (Node used' ty (Z.of_nat par) nm (size n) (data n)) in
      if negb ok then (None, fs, d)
      else
        let '(ok, d) := pfs_sync fs d in
        (if ok then Some idx else None, fs, d)
  end.

Definition nodefs_mkdir (path : list Z) (fs : nodefs) (d : D) : bool * nodefs * D :=
  match nodefs_resolve_parent_and_leaf fs path with
  | None => (false, fs, d)
  | Some (par, leaf) =>
      match nodefs_find_child fs (Z.of_nat par) leaf with
      | Some _ => (false, fs, d)
      | None =>
          let '(r, fs, d) := create_node FS_TYPE_DIR par leaf fs d in
          (match r with Some _ => true | None => false end, fs, d)
      end
  end.

(** The end of [nodefs_open], the node being known: [*offset_out] is 0. *)
Definition open_node (node : nat) (flags : Z) (fs : nodefs) (d : D)
  : option nat * nodefs * D :=
  if negb (ntype (node_at fs node) =? FS_TYPE_FILE) then (None, fs, d)
  else if negb (Z.land flags O_TRUNC =? 0) && negb (Z.land flags O_WRONLY =? 0) then
    let n := node_at fs node in
    let fs := set_node fs node
                (Node (used n) (ntype n) (parent n) (name n) 0 (zeros 512)) in
    let '(ok, d) := pfs_sync fs d in
    (if ok then Some node else None, fs, d)
  else (Some node, fs, d).

Definition nodefs_open (path : list Z) (flags : Z) (fs : nodefs) (d : D)
  : option nat * nodefs * D :=
  let flags :=
    if Z.land flags (Z.lor O_RDONLY O_WRONLY) =? 0 then Z.lor flags O_RDONLY else flags in
  match nodefs_resolve_path fs path with
  | Some node => open_node node flags fs d
  | None =>
      if Z.land flags O_CREAT =? 0 then (None, fs, d)
      else
        match nodefs_resolve_parent_and_leaf fs path with
        | None => (None, fs, d)
        | Some (par, leaf) =>
            match nodefs_find_child fs (Z.of_nat par) leaf with
            | Some _ => (None, fs, d)
            | None =>
                let '(r, fs, d) := create_node FS_TYPE_FILE par leaf fs d in
                match r with
                | Some idx => open_node idx flags fs d
                | None => (None, fs, d)
                end
            end
        end
  end.

Definition valid_node (fs : nodefs) (node : Z) : bool :=
  (0 <? node) && (node <? FS_MAX_NODES) && is_used (node_at fs (Z.to_nat node)) &&
  (ntype (node_at fs (Z.to_nat node)) =? FS_TYPE_FILE).

(** The return value, [*offset], and the bytes copied to [buf]. *)
Definition nodefs_read (node offset sz : Z) (fs : nodefs) : Z * Z * list Z :=
  if negb (valid_node fs node) then (-1, offset, []) else
  let n := node_at fs (Z.to_nat node) in
  if size n <=? offset then (0, offset, []) else
  let remain := u32 (size n - offset) in
  let to_read := if remain <? sz then remain else sz in
  (i32 to_read, u32 (offset + to_read),
   take (Z.to_nat to_read) (drop (Z.to_nat offset) (data n))).

Definition nodefs_write (node offset : Z) (buf : list Z) (sz : Z) (fs : nodefs) (d : D)
  : Z * Z * nodefs * D :=
  if negb (valid_node fs node) then (-1, offset, fs, d) else
  let n := node_at fs (Z.to_nat node) in
  if FS_FILE_MAX_SIZE <=? offset then (0, offset, fs, d) else
  let writable := u32 (FS_FILE_MAX_SIZE - offset) in
  let to_write := if writable <? sz then writable else sz in
  let off := Z.to_nat offset in
  let data' := take off (data n) ++ memcpy (Z.to_nat to_write) buf (drop off (data n)) in
  let offset := u32 (offset + to_write) in
  let size' := if size n <? offset then offset else size n in
  let fs := set_node fs (Z.to_nat node)
              (Node (used n) (ntype n) (parent n) (name n) size' data') in
  let '(ok, d) := pfs_sync fs d in
  (if ok then i32 to_write else -1, offset, fs, d).

(** The loop of [nodefs_readdir], [seen] entries met so far. *)
Fixpoint readdir_loop (ns : list fs_node) (dir index seen : Z) : option fs_dirent :=
  match ns with
  | [] => None
  | n :: r =>
      if negb (is_used n) || negb (parent n =? dir) then readdir_loop r dir index seen
      else if seen =? index then
        Some (Dirent (snd (copy_name (zeros 16) (name n))) (ntype n) (size n))
      else readdir_loop r dir index (seen + 1)
  end.

Definition nodefs_readdir (path : list Z) (index : Z) (fs : nodefs) : option fs_dirent :=
  if index <? 0 then None else
  let! dir := nodefs_resolve_path fs path in
  if negb (ntype (node_at fs dir) =? FS_TYPE_DIR) then None
  else readdir_loop (nodes fs) (Z.of_nat dir) index 0.

(** [memset(&fs->nodes[node], 0, ...)] and the sync that follows it. *)
Definition clear_node (node : nat) (fs : nodefs) (d : D) : bool * nodefs * D :=
  let fs := set_node fs node zero_node in
  let '(ok, d) := pfs_sync fs d in (ok, fs, d).

Definition nodefs_unlink (fd_table : list (list vfs_fd)) (path : list Z)
    (fs : nodefs) (d : D) : bool * nodefs * D :=
  match nodefs_resolve_path fs path with
  | None => (false, fs, d)
  | Some node =>
      if Z.of_nat node <=? 0 then (false, fs, d)
      else if negb (ntype (node_at fs node) =? FS_TYPE_FILE) then (false, fs, d)
      else if nodefs_is_node_open fd_table fs (Z.of_nat node) then (false, fs, d)
      else clear_node node fs d
  end.

Definition nodefs_rmdir (path : list Z) (fs : nodefs) (d : D) : bool * nodefs * D :=
  match nodefs_resolve_path fs path with
  | None => (false, fs, d)
  | Some node =>
      if Z.of_nat node <=? 0 then (false, fs, d)
      else if negb (ntype (node_at fs node) =? FS_TYPE_DIR) then (false, fs, d)
      else if negb (nodefs_is_dir_empty fs (Z.of_nat node)) then (false, fs, d)
      else clear_node node fs d
  end.
End operations.

(** A file created, written, read and removed on a fresh volatile instance. *)
Definition demo_fs : nodefs := nodefs_format (NodeFS 0 0 []).

Example nodefs_session :
  let d := blank_disk 0 in
  let '(ok1, fs, d) := nodefs_mkdir (bytes "/etc") demo_fs d in
  let '(r, fs, d) := nodefs_open (bytes "/etc//motd") (O_CREAT + O_WRONLY) fs d in
  let '(w, off, fs, d) := nodefs_write 2 0 (bytes "hello") 5 fs d in
  let '(n, _, b) := nodefs_read 2 1 100 fs in
  let '(ok2, fs, d) := nodefs_rmdir (bytes "/etc") fs d in
  let '(ok3, fs, d) := nodefs_unlink [] (bytes "/etc/motd") fs d in
  let '(ok4, fs, d) := nodefs_rmdir (bytes "/etc") fs d in
  (ok1, r, w, n, b, [ok2; ok3; ok4], nodefs_resolve_path fs (bytes "/etc"))
  = (true, Some 2%nat, 5, 4, bytes "ello", [false; true; true], None).
Proof. vm_compute. reflexivity. Qed.
