(* ===== verification/NodeFsSpec.v ===== *)
(** * The node file system as a tree

    The specification of [NodeFs]: the well-formedness invariant of the node
    array, the tree of named entries it denotes ([view]: a partial function from
    lists of names to directories and file contents), and what each operation does
    to that tree. *)
From Stdlib Require Import ZArith Lia ZifyBool String.
From stdpp Require Import base tactics list numbers option strings.
From S2P Require Import Prelude CString BlockDev NodeFs.
#[local] Open Scope Z_scope.

(** ** Names *)

Lemma copy_name_loop_spec left src dst :
  (left < length dst)%nat →
  copy_name_loop left src dst =
  ((length (cstr src) <=? left)%nat, copy_bounded left src dst).
Proof.
  revert src dst. induction left as [|left IH]; intros src [|x dst] Hl; simpl in *; try (exfalso; lia).
  - destruct (Z.eqb_spec (ch src 0) 0) as [H0|H0].
    + by rewrite cstr_ch0.
    + by rewrite (cstr_step src H0).
  - destruct (Z.eqb_spec (ch src 0) 0) as [H0|H0].
    + by rewrite cstr_ch0.
    + rewrite IH by lia. by rewrite (cstr_step src H0).
Qed.

Lemma copy_name_spec dst src :
  length dst = 16%nat → (length (cstr src) ≤ 15)%nat →
  ∃ nm, copy_name dst src = (true, nm) ∧ cstr nm = cstr src ∧ length nm = 16%nat ∧
    ∀ P : Z → Prop, P 0 → Forall P dst → Forall P (cstr src) → Forall P nm.
Proof.
  intros Hd Hs. unfold copy_name. change (Z.to_nat (FS_NAME_MAX - 1)) with 15%nat.
  rewrite copy_name_loop_spec by lia.
  replace (length (cstr src) <=? 15)%nat with true by (symmetry; by apply Nat.leb_le).
  eexists. split; [done|].
  rewrite copy_bounded_spec by lia. rewrite take_ge by lia. split_and!.
  - apply cstr_app_nul. auto with cint.
  - rewrite length_app. simpl. rewrite length_drop. lia.
  - intros P H0 Hd' Hs'. apply Forall_app. split; [done|]. constructor; [done|].
    by apply Forall_drop.
Qed.

(** ** Paths *)

Fixpoint split_slash (p : list Z) : list (list Z) :=
  match p with
  | [] => [[]]
  | c :: r =>
      if c =? 47 then [] :: split_slash r
      else match split_slash r with
           | h :: t => (c :: h) :: t
           | [] => [[c]]
           end
  end.

Definition nonempty (c : list Z) : bool := match c with [] => false | _ => true end.

(** The names in a path: what slashes separate, empty pieces dropped. *)
Definition path_names (p : list Z) : list (list Z) :=
  List.filter nonempty (split_slash (cstr p)).

(** A name a node can have. *)
Definition good_name (c : list Z) : Prop :=
  c ≠ [] ∧ (length c ≤ 15)%nat ∧ no_nul c ∧ Forall (λ x, x ≠ 47) c.

Lemma split_slash_cons p : ∃ h t, split_slash p = h :: t.
Proof.
  induction p as [|c p (h&t&IH)]; simpl; [eauto|]. rewrite IH. case_if; eauto.
Qed.

Lemma cstr_skip_slashes p : path_names (skip_slashes p) = path_names p.
Proof.
  induction p as [|c p IH]; [done|]. simpl. destruct (Z.eqb_spec c 47) as [->|Hc]; [|done].
  rewrite IH. unfold path_names. done.
Qed.

Lemma skip_slashes_head p : ch (skip_slashes p) 0 ≠ 47.
Proof.
  induction p as [|c p IH]; [done|]. simpl. case_if; [done|].
  unfold ch. simpl. lia.
Qed.

Lemma skip_slashes_length p : (length (skip_slashes p) ≤ length p)%nat.
Proof. induction p; simpl; [lia|]. case_if; simpl; lia. Qed.

Lemma path_names_end p : ch p 0 = 0 → path_names p = [].
Proof. intros H. unfold path_names. by rewrite cstr_ch0. Qed.

(** A name scanned off a path: the rest of the path starts at a slash or at the
    end of the string. *)
Lemma scan_name_spec room p :
  match scan_name room p with
  | Some (n, q) => ∃ t, split_slash (cstr p) = n :: t ∧ (length n ≤ room)%nat ∧
      no_nul n ∧ Forall (λ x, x ≠ 47) n ∧ path_names q = List.filter nonempty t ∧
      (length n + length q = length p)%nat ∧ (ch p 0 ≠ 0 → ch p 0 ≠ 47 → n ≠ [])
  | None => ∃ n t, split_slash (cstr p) = n :: t ∧ (room < length n)%nat
  end.
Proof.
  revert room. induction p as [|c p IH]; intros room; simpl.
  - exists []. split_and!; try done; try constructor; lia.
  - destruct (Z.eqb_spec c 0) as [->|Hc0]; simpl.
    { exists []. split_and!; try done; try constructor; lia. }
    destruct (Z.eqb_spec c 47) as [->|Hc]; simpl.
    { exists (split_slash (cstr p)).
      split_and!; try done; try constructor; try lia. }
    destruct room as [|room].
    { destruct (split_slash_cons (cstr p)) as (h&t&Ht). rewrite Ht.
      exists (c :: h), t. split; [done|simpl; lia]. }
    specialize (IH room). destruct (scan_name room p) as [[n q]|].
    + destruct IH as (t&->&Hlen&Hn&Hs&Hq&Hl&_). exists t.
      split_and!; try done; try (by constructor); simpl; lia.
    + destruct IH as (n&t&->&Hlen). exists (c :: n), t. split; [done|simpl; lia].
Qed.

Lemma next_component_spec p :
  match next_component p with
  | CEnd => path_names p = []
  | CName n q => path_names p = n :: path_names q ∧ good_name n ∧ (length q < length p)%nat
  | CTooLong => ∃ c r, path_names p = c :: r ∧ (15 < length c)%nat
  end.
Proof.
  unfold next_component. rewrite <-(cstr_skip_slashes p).
  pose proof (skip_slashes_head p) as Hh. pose proof (skip_slashes_length p) as Hl.
  destruct (Z.eqb_spec (ch (skip_slashes p) 0) 0) as [H0|H0]; [by apply path_names_end|].
  change (Z.to_nat (FS_NAME_MAX - 1)) with 15%nat.
  pose proof (scan_name_spec 15 (skip_slashes p)) as Hs.
  destruct (scan_name 15 (skip_slashes p)) as [[n q]|].
  - destruct Hs as (t&Ht&Hlen&Hn&Hsl&Hq&Hlq&Hne). specialize (Hne H0 Hh).
    unfold path_names at 1. rewrite Ht, Hq. destruct n as [|c n]; [done|].
    split_and!; try done. simpl in Hlq. lia.
  - destruct Hs as (n&t&Ht&Hlen). unfold path_names. rewrite Ht.
    destruct n as [|c n]; [simpl in Hlen; lia|]. exists (c :: n), (List.filter nonempty t). done.
Qed.

(** ** The invariant *)

(** Node [i] is the child of directory [d] named [c]. *)
Definition is_child (fs : nodefs) (d : Z) (c : list Z) (i : nat) : Prop :=
  ∃ n, nodes fs !! i = Some n ∧ used n ≠ 0 ∧ parent n = d ∧ cstr (name n) = cstr c.

Definition is_dir (fs : nodefs) (i : nat) : Prop :=
  ∃ n, nodes fs !! i = Some n ∧ used n ≠ 0 ∧ ntype n = FS_TYPE_DIR.

(** The nodes met following names from node [cur]. *)
Fixpoint walk (fs : nodefs) (cur : nat) (cs : list (list Z)) : option nat :=
  match cs with
  | [] => Some cur
  | c :: r => let! k := nodefs_find_child fs (Z.of_nat cur) c in walk fs k r
  end.

(** A used node other than the root. *)
Record node_ok (n : fs_node) : Prop := {
  nok_type : ntype n = FS_TYPE_FILE ∨ ntype n = FS_TYPE_DIR;
  nok_name : good_name (cstr (name n));
  nok_size : 0 ≤ size n ≤ FS_FILE_MAX_SIZE;
  nok_tail : ∀ k, size n ≤ Z.of_nat k → ch (data n) k = 0
}.

(** A node the C types can hold. *)
Definition is_int (z : Z) : Prop := -2147483648 ≤ z < 2147483648.

Record node_wf (n : fs_node) : Prop := {
  wf_name : length (name n) = 16%nat ∧ Forall is_byte (name n);
  wf_data : length (data n) = 512%nat ∧ Forall is_byte (data n);
  wf_ints : is_int (used n) ∧ is_int (ntype n) ∧ is_int (parent n);
  wf_size : 0 ≤ size n < 4294967296
}.

(** No directory has two children of one name. *)
Definition names_unique (fs : nodefs) : Prop :=
  ∀ d c i j, 0 ≤ d → is_child fs d c i → is_child fs d c j → i = j.

Record nodefs_ok (fs : nodefs) : Prop := {
  fok_len : length (nodes fs) = Z.to_nat FS_MAX_NODES;
  fok_wf : Forall node_wf (nodes fs);
  fok_root : is_dir fs 0 ∧ parent (node_at fs 0) = -1;
  fok_node : ∀ i n, nodes fs !! i = Some n → used n ≠ 0 → (0 < i)%nat →
    node_ok n ∧ ∃ p, parent n = Z.of_nat p ∧ is_dir fs p;
  fok_unique : names_unique fs;
  fok_reach : ∀ i n, nodes fs !! i = Some n → used n ≠ 0 → ∃ cs, walk fs 0 cs = Some i
}.

(** An entry of the tree, and the tree. *)
Inductive entry := EDir | EFile (contents : list Z).

Definition contents (n : fs_node) : list Z := take (Z.to_nat (size n)) (data n).

Definition entry_of (n : fs_node) : entry :=
  if ntype n =? FS_TYPE_DIR then EDir else EFile (contents n).

Definition view (fs : nodefs) (cs : list (list Z)) : option entry :=
  let! i := walk fs 0 cs in Some (entry_of (node_at fs i)).

Lemma node_at_lookup fs i n : nodes fs !! i = Some n → node_at fs i = n.
Proof. intros. unfold node_at. by apply nth_lookup_Some. Qed.

Lemma lookup_node_at fs i : (i < length (nodes fs))%nat → nodes fs !! i = Some (node_at fs i).
Proof.
  intros Hi. destruct (lookup_lt_is_Some_2 _ _ Hi) as [n Hn].
  by rewrite (node_at_lookup fs i n).
Qed.

Lemma is_used_true n : is_used n = true ↔ used n ≠ 0.
Proof. unfold is_used. destruct (Z.eqb_spec (used n) 0); simpl; split; done. Qed.

Section find_child.
Context (fs : nodefs).

Lemma child_test d c i n :
  nodes fs !! i = Some n →
  is_used n && (parent n =? d) && (strcmp (name n) c =? 0) = true ↔ is_child fs d c i.
Proof.
  intros Hn. rewrite !andb_true_iff, is_used_true, !Z.eqb_eq, strcmp_zero. split.
  - intros [[? ?] ?]. by exists n.
  - intros (m&Hm&?&?&?). simplify_eq. done.
Qed.

Lemma find_child_sound d c i :
  nodefs_find_child fs d c = Some i → is_child fs d c i.
Proof.
  intros H. apply first_idx_Some in H as [(n&Hn&Ht) _]. by apply (child_test _ _ _ n).
Qed.

Lemma find_child_none d c :
  nodefs_find_child fs d c = None ↔ ∀ i, ¬ is_child fs d c i.
Proof.
  unfold nodefs_find_child. rewrite first_idx_None. split.
  - intros H i Hi. pose proof Hi as (n&Hn&_). apply (child_test d c i n Hn) in Hi.
    by rewrite (H i n Hn) in Hi.
  - intros H i n Hn. destruct (is_used n && _ && _) eqn:E; [|done].
    apply (child_test d c i n Hn) in E. by apply H in E.
Qed.

Lemma find_child_iff d c i :
  names_unique fs → 0 ≤ d → nodefs_find_child fs d c = Some i ↔ is_child fs d c i.
Proof.
  intros Hu Hd. split; [apply find_child_sound|]. intros Hi.
  destruct (nodefs_find_child fs d c) as [j|] eqn:E.
  - f_equal. eapply Hu; eauto. by apply find_child_sound.
  - rewrite find_child_none in E. by apply E in Hi.
Qed.
End find_child.

(** ** Walking *)

Lemma walk_app fs cur cs ds :
  walk fs cur (cs ++ ds) = let! k := walk fs cur cs in walk fs k ds.
Proof.
  revert cur. induction cs as [|c cs IH]; intros cur; simpl; [done|].
  by destruct (nodefs_find_child fs (Z.of_nat cur) c).
Qed.

Lemma walk_snoc fs cur cs c :
  walk fs cur (cs ++ [c]) =
  let! k := walk fs cur cs in nodefs_find_child fs (Z.of_nat k) c.
Proof.
  rewrite walk_app. destruct (walk fs cur cs) as [k|]; [|done]. simpl.
  by destruct (nodefs_find_child fs (Z.of_nat k) c).
Qed.

Lemma is_child_parent fs d c i :
  nodefs_ok fs → 0 ≤ d → is_child fs d c i → (0 < i)%nat ∧ is_dir fs (Z.to_nat d).
Proof.
  intros Hok Hd (n&Hn&Hu&Hp&_). destruct i as [|i].
  - destruct (fok_root fs Hok) as [_ Hr]. rewrite (node_at_lookup fs 0 n Hn) in Hr. lia.
  - destruct (fok_node fs Hok (S i) n Hn Hu) as (_&p&Hpp&Hdir); [lia|].
    split; [lia|]. by replace (Z.to_nat d) with p by lia.
Qed.

Lemma is_child_name fs d c i :
  nodefs_ok fs → 0 ≤ d → is_child fs d c i → good_name (cstr c).
Proof.
  intros Hok Hd Hc. pose proof (is_child_parent fs d c i Hok Hd Hc) as [Hi _].
  destruct Hc as (n&Hn&Hu&_&Hnm). destruct (fok_node fs Hok i n Hn Hu Hi) as [[] _].
  by rewrite <-Hnm.
Qed.

Lemma walk_used fs cs i :
  nodefs_ok fs → walk fs 0 cs = Some i → ∃ n, nodes fs !! i = Some n ∧ used n ≠ 0.
Proof.
  intros Hok. revert i. induction cs as [|c cs IH] using rev_ind; intros i Hw.
  - injection Hw as <-. destruct (fok_root fs Hok) as [(n&?&?&_) _]. eauto.
  - rewrite walk_snoc in Hw. destruct (walk fs 0 cs) as [k|]; [|done].
    apply find_child_sound in Hw as (n&?&?&_). eauto.
Qed.

Lemma walk_lt fs cs i : nodefs_ok fs → walk fs 0 cs = Some i → (i < 128)%nat.
Proof.
  intros Hok Hw. destruct (walk_used fs cs i Hok Hw) as (n&Hn&_).
  apply lookup_lt_Some in Hn. by rewrite (fok_len fs Hok) in Hn.
Qed.

(** Every name on a path that leads somewhere is one a node can have. *)
Lemma walk_names fs cur cs i :
  nodefs_ok fs → walk fs cur cs = Some i → Forall (λ c, good_name (cstr c)) cs.
Proof.
  intros Hok. revert cur. induction cs as [|c cs IH]; intros cur Hw; [constructor|].
  simpl in Hw. destruct (nodefs_find_child fs (Z.of_nat cur) c) as [k|] eqn:E; [|done].
  constructor; [|by eapply IH]. apply find_child_sound in E. eapply is_child_name; eauto. lia.
Qed.

(** A node has one path. *)
Lemma walk_inj fs cs ds i :
  nodefs_ok fs → walk fs 0 cs = Some i → walk fs 0 ds = Some i →
  map cstr cs = map cstr ds.
Proof.
  intros Hok. revert ds i. induction cs as [|c cs IH] using rev_ind; intros ds i Hc Hd.
  - injection Hc as <-. destruct ds as [|d ds _] using rev_ind; [done|].
    rewrite walk_snoc in Hd. destruct (walk fs 0 ds) as [k|]; [|done].
    apply find_child_sound in Hd. apply (is_child_parent fs) in Hd as [Hd _]; [lia|done|lia].
  - rewrite walk_snoc in Hc. destruct (walk fs 0 cs) as [k|] eqn:Ek; [|done].
    apply find_child_sound in Hc. destruct ds as [|d ds _] using rev_ind.
    + injection Hd as <-. apply (is_child_parent fs) in Hc as [Hc _]; [lia|done|lia].
    + rewrite walk_snoc in Hd. destruct (walk fs 0 ds) as [l|] eqn:El; [|done].
      apply find_child_sound in Hd.
      destruct Hc as (n&Hn&_&Hp&Hnm), Hd as (m&Hm&_&Hp'&Hnm'). simplify_eq.
      assert (k = l) as -> by lia. rewrite !map_app. simpl.
      rewrite (IH ds l) by done. congruence.
Qed.

Lemma path_names_nul p : Forall (λ c, cstr c = c) (path_names p).
Proof.
  unfold path_names. pose proof (cstr_no_nul p) as Hp. induction Hp as [|c s Hc Hs IH]; [done|].
  simpl. destruct (split_slash_cons s) as (h&t&Ht). rewrite Ht in *.
  case_if; simpl in *; [done|]. constructor.
  - simpl. rewrite (proj2 (Z.eqb_neq c 0)) by done. f_equal.
    destruct h; [done|]. simpl in IH. by apply Forall_cons in IH as [? _].
  - destruct h; simpl in IH; [done|]. by apply Forall_cons in IH as [_ ?].
Qed.

Lemma path_names_bytes (P : Z → Prop) p : Forall P p → Forall (Forall P) (path_names p).
Proof.
  intros Hp. unfold path_names. induction Hp as [|c s Hc Hs IH]; [repeat constructor|].
  simpl. case_if; [repeat constructor|]. simpl.
  destruct (split_slash_cons (cstr s)) as (h&t&Ht). rewrite Ht in *.
  case_if; simpl in *; [done|]. destruct h; simpl in IH.
  - constructor; [by apply Forall_singleton|done].
  - apply Forall_cons in IH as [? ?]. constructor; [by apply Forall_cons|done].
Qed.

Lemma walk_inj_path fs p q i :
  nodefs_ok fs → walk fs 0 (path_names p) = Some i → walk fs 0 (path_names q) = Some i →
  path_names p = path_names q.
Proof.
  intros Hok Hp Hq. pose proof (walk_inj fs _ _ i Hok Hp Hq) as H.
  assert (Hid : ∀ p, map cstr (path_names p) = path_names p).
  { intros r. pose proof (path_names_nul r) as Hr. induction Hr; simpl; congruence. }
  by rewrite !Hid in H.
Qed.

(** ** Path resolution *)

Lemma resolve_loop_walk fuel fs cur p :
  nodefs_ok fs → (length p < fuel)%nat →
  resolve_loop fuel fs cur p = walk fs cur (path_names p).
Proof.
  intros Hok. revert cur p. induction fuel as [|f IH]; intros cur p Hf; [lia|]. simpl.
  pose proof (next_component_spec p) as Hn. destruct (next_component p) as [|nm q|].
  - by rewrite Hn.
  - destruct Hn as (->&_&Hq). simpl.
    destruct (nodefs_find_child fs (Z.of_nat cur) nm) as [k|]; [|done]. apply IH. lia.
  - destruct Hn as (c&r&Hp&Hlen). rewrite Hp. simpl.
    destruct (nodefs_find_child fs (Z.of_nat cur) c) as [k|] eqn:E; [|done].
    apply find_child_sound in E. apply (is_child_name fs) in E as (_&Hl&_); [|done|lia].
    pose proof (path_names_nul p) as Hp'. rewrite Hp in Hp'.
    apply Forall_cons in Hp' as [Hc _]. rewrite Hc in Hl. lia.
Qed.

Lemma nodefs_resolve_path_spec fs path :
  nodefs_ok fs →
  nodefs_resolve_path fs path =
  if ch path 0 =? 47 then walk fs 0 (path_names path) else None.
Proof.
  intros Hok. unfold nodefs_resolve_path. destruct (ch path 0 =? 47); cbn [negb]; [|done].
  apply resolve_loop_walk; [done|lia].
Qed.

(** The parent and the last name of a path. *)
Definition parent_of (fs : nodefs) (cur : nat) (cs : list (list Z)) (par : nat)
    (c : list Z) : Prop :=
  ∃ l, cs = l ++ [c] ∧ walk fs cur l = Some par ∧ Forall good_name cs ∧ is_dir fs par.

Lemma find_child_dir fs cur c k :
  nodefs_ok fs → nodefs_find_child fs (Z.of_nat cur) c = Some k →
  ntype (node_at fs k) = FS_TYPE_DIR ↔ is_dir fs k.
Proof.
  intros Hok H. apply find_child_sound in H as (n&Hn&Hu&_). rewrite (node_at_lookup fs k n Hn).
  split; [intros; by exists n|]. intros (m&Hm&_&Ht). by simplify_eq.
Qed.

Lemma good_name_cstr c : good_name c → cstr c = c.
Proof. intros (_&_&H&_). by apply cstr_id. Qed.

Lemma walk_dir fs cur c l k :
  nodefs_ok fs → walk fs cur (c :: l) = Some k → is_dir fs k →
  ∃ j, nodefs_find_child fs (Z.of_nat cur) c = Some j ∧ is_dir fs j ∧ walk fs j l = Some k.
Proof.
  intros Hok Hw Hk. simpl in Hw.
  destruct (nodefs_find_child fs (Z.of_nat cur) c) as [j|]; [|done].
  exists j. split; [done|split; [|done]]. destruct l as [|d l].
  - injection Hw as <-. done.
  - simpl in Hw. destruct (nodefs_find_child fs (Z.of_nat j) d) as [i|] eqn:E; [|done].
    apply find_child_sound in E. apply (is_child_parent fs) in E as [_ Hd]; [|done|lia].
    by rewrite Nat2Z.id in Hd.
Qed.

Lemma find_child_cstr fs d c e :
  cstr c = cstr e → nodefs_find_child fs d c = nodefs_find_child fs d e.
Proof.
  intros He. unfold nodefs_find_child. apply first_idx_ext. intros i n Hn. f_equal.
  apply Bool.eq_true_iff_eq. rewrite !Z.eqb_eq, !strcmp_zero. by rewrite He.
Qed.

Lemma parent_loop_spec fuel fs cur comp p c :
  nodefs_ok fs → (length p < fuel)%nat → cstr comp = c → good_name c → is_dir fs cur →
  match parent_loop fuel fs cur comp p with
  | Some (par, leaf) => parent_of fs cur (c :: path_names p) par (cstr leaf) ∧
      length leaf = 16%nat
  | None => ∀ par e, ¬ parent_of fs cur (c :: path_names p) par e
  end.
Proof.
  intros Hok. revert cur comp p c. induction fuel as [|f IH]; intros cur comp p c Hf Hc Hg Hdir;
    [lia|]. simpl.
  pose proof (next_component_spec p) as Hn. destruct (next_component p) as [|nm q|].
  - destruct (copy_name_spec (zeros 16) comp) as (leaf&->&Hl&Hll&_);
      [done|rewrite Hc; by destruct Hg as (_&?&_)|].
    rewrite Hn. split; [|done]. exists []. rewrite Hl, Hc. split_and!; try done.
    by constructor.
  - destruct Hn as (Hp&Hgn&Hq). rewrite Hp.
    rewrite (find_child_cstr fs _ comp c) by (rewrite Hc, good_name_cstr by done; done).
    destruct (nodefs_find_child fs (Z.of_nat cur) c) as [k|] eqn:Ek.
    + destruct (Z.eqb_spec (ntype (node_at fs k)) FS_TYPE_DIR) as [Ht|Ht]; simpl.
      * destruct (copy_name_spec (zeros 16) nm) as (comp'&->&Hcomp&Hlc&_);
          [done|rewrite good_name_cstr by done; by destruct Hgn as (_&?&_)|].
        rewrite (good_name_cstr nm) in Hcomp by done.
        specialize (IH k comp' q nm ltac:(lia) Hcomp Hgn).
        rewrite (find_child_dir fs cur c k Hok Ek) in Ht. specialize (IH Ht).
        destruct (parent_loop f fs k comp' q) as [[par leaf]|].
        -- destruct IH as [(l&Hl&Hw&Hg'&Hd) Hll]. split; [|done]. exists (c :: l).
           split_and!; [by rewrite Hl|simpl; by rewrite Ek|by constructor|done].
        -- intros par e (l&Hl&Hw&Hg'&Hd). destruct l as [|c' l]; [discriminate|].
           injection Hl as <- Hl. simpl in Hw. rewrite Ek in Hw.
           apply (IH par e). exists l. split_and!; try done. by inversion Hg'.
      * intros par e (l&Hl&Hw&_&Hd). destruct l as [|c' l]; [discriminate|].
        injection Hl as <- Hl. destruct (walk_dir fs cur c l par Hok Hw Hd) as (j&Hj&Hjd&_).
        rewrite Ek in Hj. injection Hj as <-.
        by apply (find_child_dir fs cur c k Hok Ek) in Hjd.
    + intros par e (l&Hl&Hw&_). destruct l as [|c' l]; [discriminate|].
      injection Hl as <- Hl. simpl in Hw. by rewrite Ek in Hw.
  - intros par e (l&Hl&_&Hg'&_). destruct Hn as (d&r&Hp&Hlen). rewrite Hp in Hg'.
    apply Forall_cons in Hg' as [_ Hg']. apply Forall_cons in Hg' as [(_&?&_) _]. lia.
Qed.

Lemma nodefs_resolve_parent_spec fs path :
  nodefs_ok fs → ch path 0 = 47 →
  match nodefs_resolve_parent_and_leaf fs path with
  | Some (par, leaf) => parent_of fs 0 (path_names path) par (cstr leaf) ∧
      length leaf = 16%nat
  | None => ∀ par e, ¬ parent_of fs 0 (path_names path) par e
  end.
Proof.
  intros Hok H0. unfold nodefs_resolve_parent_and_leaf. rewrite H0.
  change (negb (47 =? 47)) with false. cbn [orb].
  pose proof (next_component_spec path) as Hn.
  destruct (Z.eqb_spec (ch path 1) 0) as [H1|H1].
  - intros par e (l&Hl&_). destruct path as [|x [|y r]]; [done|..]; unfold ch in *; simpl in *;
      subst; unfold path_names in Hl; simpl in Hl; by destruct l.
  - destruct (next_component path) as [|nm q|].
    + rewrite Hn. intros par e (l&Hl&_). by destruct l.
    + destruct Hn as (->&Hg&Hq).
      apply (parent_loop_spec (S (length path)) fs 0 nm q nm); try done; [lia| |].
      * by apply good_name_cstr.
      * by destruct (fok_root fs Hok).
    + destruct Hn as (d&r&->&Hlen). intros par e (l&Hl&_&Hg&_).
      apply Forall_cons in Hg as [(_&?&_) _]. lia.
Qed.
