(* ===== verification/NodeFsUpdate.v ===== *)
(** * Updates of the node array and of the tree it denotes

    The three ways an operation of [NodeFs] changes the array (a node added, a
    node removed, the contents of a file replaced): what each does to the tree, and
    that each preserves the invariant. *)
From Stdlib Require Import ZArith Lia ZifyBool.
From stdpp Require Import base tactics list numbers option strings.
From S2P Require Import Prelude CString BlockDev NodeFs NodeFsSpec.

(** The tree of [fs'] is that of [fs] with the entry of [cs] set to [e]. *)
Definition view_update (fs fs' : nodefs) (cs : list (list Z)) (e : option entry) : Prop :=
  ∀ ds, Forall no_nul ds →
    view fs' ds = if decide (ds = cs) then e else view fs ds.

Lemma nodes_set_node fs i n j :
  (i < length (nodes fs))%nat →
  nodes (set_node fs i n) !! j = if decide (j = i) then Some n else nodes fs !! j.
Proof.
  intros Hi. simpl. destruct (decide (j = i)) as [->|Hne].
  - by apply list_lookup_insert_eq.
  - by rewrite list_lookup_insert_ne.
Qed.

Lemma node_at_set_node fs i n j :
  (i < length (nodes fs))%nat →
  node_at (set_node fs i n) j = if decide (j = i) then n else node_at fs j.
Proof.
  intros Hi. unfold node_at. rewrite !nth_lookup, nodes_set_node by done.
  by destruct (decide (j = i)).
Qed.

Lemma no_nul_cstr_eq (ds cs : list (list Z)) :
  Forall no_nul ds → Forall no_nul cs → map cstr ds = map cstr cs → ds = cs.
Proof.
  intros Hd. revert cs. induction Hd as [|d ds Hd _ IH]; intros cs Hc H;
    destruct Hc as [|c cs Hc Hcs]; simplify_eq/=; [done|].
  rewrite !cstr_id in * by done. f_equal; [done|by apply IH].
Qed.

Lemma good_name_no_nul c : good_name c → no_nul c.
Proof. by intros (_&_&?&_). Qed.

Lemma good_names_no_nul cs : Forall good_name cs → Forall no_nul cs.
Proof. intros H. eapply Forall_impl; [exact H|apply good_name_no_nul]. Qed.

Lemma is_dir_used fs i : is_dir fs i → ∃ n, nodes fs !! i = Some n ∧ used n ≠ 0.
Proof. intros (n&?&?&_). eauto. Qed.

Lemma is_dir_set_node fs i n p :
  (i < length (nodes fs))%nat → p ≠ i → is_dir fs p → is_dir (set_node fs i n) p.
Proof.
  intros Hi Hne (m&Hm&?&?). exists m. split; [|done].
  by rewrite nodes_set_node, decide_False.
Qed.

Lemma wf_set_node fs i n :
  Forall node_wf (nodes fs) → node_wf n → Forall node_wf (nodes (set_node fs i n)).
Proof. intros. by apply Forall_insert. Qed.

(** ** A node added *)

Section add.
Context (fs : nodefs) (idx par : nat) (n old : fs_node).
Context (Hok : nodefs_ok fs) (Hidx : (0 < idx)%nat).
Context (Hold : nodes fs !! idx = Some old) (Hfree : used old = 0).
Context (Hpar : is_dir fs par) (Hnp : parent n = Z.of_nat par) (Hnu : used n ≠ 0).
Context (Hnok : node_ok n) (Hwf : node_wf n).
Context (Hnew : ∀ i, ¬ is_child fs (Z.of_nat par) (name n) i).

Let fs' := set_node fs idx n.

Lemma add_lt : (idx < length (nodes fs))%nat.
Proof. by eapply lookup_lt_Some. Qed.

Lemma add_used_ne i m : nodes fs !! i = Some m → used m ≠ 0 → i ≠ idx.
Proof. intros Hm Hu ->. simplify_eq. Qed.

Lemma add_is_child d e i :
  is_child fs' d e i ↔
  is_child fs d e i ∨ i = idx ∧ d = Z.of_nat par ∧ cstr e = cstr (name n).
Proof.
  unfold is_child. split.
  - intros (m&Hm&Hu&Hp&Hc). unfold fs' in Hm. rewrite nodes_set_node in Hm by apply add_lt.
    destruct (decide (i = idx)); simplify_eq; [right; split_and!; congruence|].
    left. by exists m.
  - intros [(m&Hm&Hu&Hp&Hc)|(->&->&He)].
    + exists m. unfold fs'. rewrite nodes_set_node by apply add_lt.
      rewrite decide_False by (by eapply add_used_ne). done.
    + exists n. unfold fs'. rewrite nodes_set_node, decide_True by (done || apply add_lt). done.
Qed.

(** No node has the new one for its parent. *)
Lemma add_no_child e i : ¬ is_child fs (Z.of_nat idx) e i.
Proof.
  intros Hc. apply is_child_parent in Hc as [_ Hd]; [|done|lia]. rewrite Nat2Z.id in Hd.
  destruct (is_dir_used _ _ Hd) as (m&Hm&Hu). by destruct (add_used_ne idx m Hm Hu).
Qed.

Lemma add_par_ne : par ≠ idx.
Proof. destruct (is_dir_used _ _ Hpar) as (m&Hm&Hu). by apply (add_used_ne par m). Qed.

Lemma add_unique : names_unique fs'.
Proof.
  intros d c i j Hd. rewrite !add_is_child.
  intros [Hi|(->&->&Hi)] [Hj|(->&Hj'&Hj)]; [by eapply fok_unique|..|done].
  - subst d. destruct (Hnew i). destruct Hi as (m&?&?&?&?). exists m. split_and!; congruence.
  - destruct (Hnew j). destruct Hj as (m&?&?&?&?). exists m. split_and!; congruence.
Qed.

Lemma add_find_child d e i :
  0 ≤ d →
  nodefs_find_child fs' d e = Some i ↔
  nodefs_find_child fs d e = Some i ∨ i = idx ∧ d = Z.of_nat par ∧ cstr e = cstr (name n).
Proof.
  intros Hd. rewrite !find_child_iff by (done || apply add_unique || by apply fok_unique).
  apply add_is_child.
Qed.

Lemma add_walk_keep cur cs i : walk fs cur cs = Some i → walk fs' cur cs = Some i.
Proof.
  revert cur. induction cs as [|c cs IH]; intros cur; simpl; [done|].
  destruct (nodefs_find_child fs (Z.of_nat cur) c) as [k|] eqn:E; [|done].
  intros Hw. rewrite (proj2 (add_find_child (Z.of_nat cur) c k ltac:(lia))) by (by left).
  by apply IH.
Qed.

(** The new node is reached by the parent's path and the new name, the others as
    before. *)
Lemma add_walk cs i :
  walk fs' 0 cs = Some i ↔
  walk fs 0 cs = Some i ∨
  i = idx ∧ ∃ l e, cs = l ++ [e] ∧ cstr e = cstr (name n) ∧ walk fs 0 l = Some par.
Proof.
  split.
  - revert i. induction cs as [|c cs IH] using rev_ind; intros i; [by left|].
    rewrite walk_snoc. destruct (walk fs' 0 cs) as [k|] eqn:Ek; [|done].
    rewrite add_find_child by lia. rewrite walk_snoc.
    destruct (IH k eq_refl) as [Hk|(->&_)].
    + rewrite Hk. intros [H|(->&Hkp&Hc)]; [by left|right].
      split; [done|]. exists cs, c. assert (k = par) as -> by lia. done.
    + intros [H|(_&Hp&_)]; [|destruct add_par_ne; lia].
      apply find_child_sound in H. by apply add_no_child in H.
  - intros [H|(->&l&e&->&He&Hl)]; [by apply add_walk_keep|].
    rewrite walk_snoc, (add_walk_keep 0 l par Hl).
    apply add_find_child; [lia|by right].
Qed.

Lemma add_ok : nodefs_ok fs'.
Proof.
  destruct Hok as [Hlen Hwfs Hroot Hnode Huniq Hreach]. constructor.
  - unfold fs'. simpl. by rewrite length_insert.
  - by apply wf_set_node.
  - destruct Hroot as [Hd Hp]. unfold fs'. split.
    + apply is_dir_set_node; [apply add_lt|lia|done].
    + rewrite node_at_set_node, decide_False by (lia || apply add_lt). done.
  - intros i m Hm Hu Hi. unfold fs' in *. rewrite nodes_set_node in Hm by apply add_lt.
    destruct (decide (i = idx)) as [->|Hne]; simplify_eq.
    + split; [done|]. exists par. split; [done|].
      apply is_dir_set_node; [apply add_lt|apply add_par_ne|done].
    + destruct (Hnode i m Hm Hu Hi) as [? (p&?&Hd)]. split; [done|]. exists p. split; [done|].
      apply is_dir_set_node; [apply add_lt| |done].
      destruct (is_dir_used _ _ Hd) as (m'&Hm'&Hu'). by eapply add_used_ne.
  - apply add_unique.
  - intros i m Hm Hu. unfold fs' in Hm. rewrite nodes_set_node in Hm by apply add_lt.
    destruct (decide (i = idx)) as [->|Hne].
    + destruct (is_dir_used _ _ Hpar) as (q&Hq&Hqu).
      destruct (Hreach par q Hq Hqu) as [l Hl].
      exists (l ++ [name n]). apply add_walk. right. eauto 7.
    + destruct (Hreach i m Hm Hu) as [cs Hcs]. exists cs. apply add_walk. by left.
Qed.

Lemma add_view l c :
  walk fs 0 l = Some par → Forall good_name (l ++ [c]) → c = cstr (name n) →
  view_update fs fs' (l ++ [c]) (Some (entry_of n)).
Proof.
  intros Hl Hg Hc ds Hds. unfold view.
  assert (Hcn : cstr c = c) by (subst c; apply cstr_idemp).
  destruct (decide (ds = l ++ [c])) as [->|Hne].
  - rewrite (proj2 (add_walk (l ++ [c]) idx)).
    + unfold fs'. by rewrite node_at_set_node, decide_True by (done || apply add_lt).
    + right. split; [done|]. exists l, c. by rewrite <-Hc.
  - destruct (walk fs 0 ds) as [i|] eqn:Ew.
    + rewrite (proj2 (add_walk ds i)) by (by left).
      destruct (walk_used fs ds i Hok Ew) as (m&Hm&Hu).
      unfold fs'. rewrite node_at_set_node by apply add_lt.
      by rewrite decide_False by (by eapply add_used_ne).
    + destruct (walk fs' 0 ds) as [i|] eqn:Ew'; [|done]. exfalso.
      apply add_walk in Ew' as [H|(->&l'&e&->&He&Hl')]; [by rewrite Ew in H|]. apply Hne.
      apply no_nul_cstr_eq; [done|by apply good_names_no_nul|].
      rewrite !map_app. simpl. rewrite (walk_inj fs l' l par) by done. congruence.
Qed.
End add.

(** ** A node without children removed *)

Lemma zero_node_wf : node_wf zero_node.
Proof.
  constructor; simpl; [split; [done|]..| |lia].
  1-2: repeat (constructor; [unfold is_byte; lia|]); constructor.
  unfold is_int. lia.
Qed.

Section remove.
Context (fs : nodefs) (idx : nat).
Context (Hok : nodefs_ok fs) (Hidx : (0 < idx)%nat) (Hlt : (idx < length (nodes fs))%nat).
Context (Hleaf : ∀ e i, ¬ is_child fs (Z.of_nat idx) e i).

Let fs' := set_node fs idx zero_node.

Lemma remove_is_child d e i : is_child fs' d e i ↔ is_child fs d e i ∧ i ≠ idx.
Proof.
  unfold is_child, fs'. split.
  - intros (m&Hm&Hu&?). rewrite nodes_set_node in Hm by done.
    destruct (decide (i = idx)); simplify_eq. eauto.
  - intros [(m&Hm&?) Hne]. exists m. by rewrite nodes_set_node, decide_False.
Qed.

Lemma remove_unique : names_unique fs'.
Proof.
  intros d c i j Hd. rewrite !remove_is_child. intros [Hi _] [Hj _]. by eapply fok_unique.
Qed.

Lemma remove_find_child d e i :
  0 ≤ d →
  nodefs_find_child fs' d e = Some i ↔ nodefs_find_child fs d e = Some i ∧ i ≠ idx.
Proof.
  intros Hd. rewrite !find_child_iff by (done || apply remove_unique || by apply fok_unique).
  apply remove_is_child.
Qed.

Lemma remove_walk cs i : walk fs' 0 cs = Some i ↔ walk fs 0 cs = Some i ∧ i ≠ idx.
Proof.
  revert i. induction cs as [|c cs IH] using rev_ind; intros i.
  - simpl. split; [|by intros [? _]]. intros [= <-]. split; [done|lia].
  - rewrite !walk_snoc. destruct (walk fs' 0 cs) as [k|] eqn:Ek.
    + destruct (proj1 (IH k) eq_refl) as [-> Hk]. apply remove_find_child. lia.
    + split; [done|]. intros [H Hi]. destruct (walk fs 0 cs) as [k|] eqn:Ek'; [|done].
      destruct (decide (k = idx)) as [->|Hk].
      * apply find_child_sound in H. by apply Hleaf in H.
      * pose proof (proj2 (IH k)). intuition congruence.
Qed.

(** A directory in use that is not the node removed stays one. *)
Lemma remove_is_dir p : is_dir fs p → p ≠ idx → is_dir fs' p.
Proof. intros. by apply is_dir_set_node. Qed.

Lemma remove_ok : nodefs_ok fs'.
Proof.
  destruct Hok as [Hlen Hwfs Hroot Hnode Huniq Hreach]. constructor.
  - unfold fs'. simpl. by rewrite length_insert.
  - apply wf_set_node; [done|apply zero_node_wf].
  - destruct Hroot as [Hd Hp]. split; [apply remove_is_dir; [done|lia]|].
    unfold fs'. rewrite node_at_set_node, decide_False by (done || lia). done.
  - intros i m Hm Hu Hi. unfold fs' in Hm. rewrite nodes_set_node in Hm by done.
    destruct (decide (i = idx)) as [->|Hne]; simplify_eq.
    destruct (Hnode i m Hm Hu Hi) as [? (p&Hp&Hd)]. split; [done|]. exists p. split; [done|].
    apply remove_is_dir; [done|]. intros ->. apply (Hleaf (name m) i). by exists m.
  - apply remove_unique.
  - intros i m Hm Hu. unfold fs' in Hm. rewrite nodes_set_node in Hm by done.
    destruct (decide (i = idx)) as [->|Hne]; simplify_eq.
    destruct (Hreach i m Hm Hu) as [cs Hcs]. exists cs. by apply remove_walk.
Qed.

Lemma remove_view cs :
  walk fs 0 cs = Some idx → Forall no_nul cs → view_update fs fs' cs None.
Proof.
  intros Hw Hcs ds Hds. unfold view. destruct (decide (ds = cs)) as [->|Hne].
  - destruct (walk fs' 0 cs) as [i|] eqn:E; [|done].
    apply remove_walk in E as [E Hi]. congruence.
  - destruct (walk fs 0 ds) as [i|] eqn:E.
    + assert (i ≠ idx) as Hi.
      { intros ->. apply Hne, no_nul_cstr_eq; [done..|by apply (walk_inj fs _ _ idx)]. }
      rewrite (proj2 (remove_walk ds i)) by done.
      unfold fs'. by rewrite node_at_set_node, decide_False.
    + destruct (walk fs' 0 ds) as [i|] eqn:E'; [|done].
      apply remove_walk in E' as [E' _]. congruence.
Qed.
End remove.

(** ** The contents of a file replaced *)

Section rewrite_contents.
Context (fs : nodefs) (idx : nat) (n n' : fs_node).
Context (Hok : nodefs_ok fs) (Hn : nodes fs !! idx = Some n).
Context (Hused : used n' = used n) (Htype : ntype n' = ntype n).
Context (Hparent : parent n' = parent n) (Hname : name n' = name n).

Let fs' := set_node fs idx n'.

Lemma upd_lt : (idx < length (nodes fs))%nat.
Proof. by eapply lookup_lt_Some. Qed.

Lemma upd_is_child d e i : is_child fs' d e i ↔ is_child fs d e i.
Proof.
  unfold is_child, fs'. destruct (decide (i = idx)) as [->|Hne]; split; intros (m&Hm&?&?&?).
  - rewrite nodes_set_node, decide_True in Hm by (done || apply upd_lt). simplify_eq.
    exists n. split_and!; congruence.
  - simplify_eq. exists n'. rewrite nodes_set_node, decide_True by (done || apply upd_lt).
    split_and!; congruence.
  - rewrite nodes_set_node, decide_False in Hm by (done || apply upd_lt). by exists m.
  - exists m. by rewrite nodes_set_node, decide_False by (done || apply upd_lt).
Qed.

Lemma upd_unique : names_unique fs'.
Proof. intros d c i j Hd. rewrite !upd_is_child. by apply fok_unique. Qed.

Lemma upd_find_child d e : 0 ≤ d → nodefs_find_child fs' d e = nodefs_find_child fs d e.
Proof.
  intros Hd. apply option_eq. intros i.
  rewrite !find_child_iff by (done || apply upd_unique || by apply fok_unique).
  apply upd_is_child.
Qed.

Lemma upd_walk cur cs : walk fs' cur cs = walk fs cur cs.
Proof.
  revert cur. induction cs as [|c cs IH]; intros cur; simpl; [done|].
  rewrite upd_find_child by lia. by destruct (nodefs_find_child fs (Z.of_nat cur) c).
Qed.

Lemma upd_is_dir p : is_dir fs p → is_dir fs' p.
Proof.
  intros (m&Hm&?&?). unfold is_dir, fs'. rewrite nodes_set_node by apply upd_lt.
  destruct (decide (p = idx)) as [->|]; [|by exists m]. simplify_eq.
  exists n'. split_and!; congruence.
Qed.

Lemma upd_ok : node_wf n' → ((0 < idx)%nat → used n ≠ 0 → node_ok n') → nodefs_ok fs'.
Proof.
  intros Hwf Hnok. destruct Hok as [Hlen Hwfs Hroot Hnode Huniq Hreach]. constructor.
  - unfold fs'. simpl. by rewrite length_insert.
  - by apply wf_set_node.
  - destruct Hroot as [Hd Hp]. split; [by apply upd_is_dir|].
    unfold fs'. rewrite node_at_set_node by apply upd_lt. case_decide; [|done].
    subst. rewrite (node_at_lookup fs 0 n Hn) in Hp. congruence.
  - intros i m Hm Hu Hi. unfold fs' in Hm. rewrite nodes_set_node in Hm by apply upd_lt.
    destruct (decide (i = idx)) as [->|Hne]; [injection Hm as <-|].
    + rewrite Hused in Hu. destruct (Hnode idx n Hn Hu Hi) as [_ (p&Hp&Hd)].
      split; [by apply Hnok|]. exists p. split; [congruence|by apply upd_is_dir].
    + destruct (Hnode i m Hm Hu Hi) as [? (p&Hp&Hd)]. split; [done|].
      exists p. split; [done|by apply upd_is_dir].
  - apply upd_unique.
  - intros i m Hm Hu. unfold fs' in Hm. rewrite nodes_set_node in Hm by apply upd_lt.
    setoid_rewrite upd_walk.
    destruct (decide (i = idx)) as [->|]; [injection Hm as <-|]; eapply Hreach; eauto. congruence.
Qed.

Lemma upd_view cs :
  walk fs 0 cs = Some idx → Forall no_nul cs →
  view_update fs fs' cs (Some (entry_of n')).
Proof.
  intros Hw Hcs ds Hds. unfold view. rewrite upd_walk.
  destruct (decide (ds = cs)) as [->|Hne].
  - rewrite Hw. unfold fs'. by rewrite node_at_set_node, decide_True by (done || apply upd_lt).
  - destruct (walk fs 0 ds) as [i|] eqn:E; [|done].
    unfold fs'. rewrite node_at_set_node by apply upd_lt. rewrite decide_False; [done|].
    intros ->. apply Hne, no_nul_cstr_eq; [done..|by apply (walk_inj fs _ _ idx)].
Qed.
End rewrite_contents.
