(* ===== verification/NodeFsOps.v ===== *)
(** * The operations of the node file system on the tree

    What [nodefs_mkdir], [nodefs_open], [nodefs_read], [nodefs_write],
    [nodefs_readdir], [nodefs_unlink] and [nodefs_rmdir] do to the tree, on every
    branch, over any block device, and that they preserve the invariant. *)
From Stdlib Require Import ZArith Lia ZifyBool.
From stdpp Require Import base tactics list numbers option strings.
From S2P Require Import Prelude CString BlockDev NodeFs NodeFsSpec NodeFsUpdate.

(** ** Looking paths up *)

(** The entry a path names. *)
Definition lookup_path (fs : nodefs) (path : list Z) : option entry :=
  if ch path 0 =? 47 then view fs (path_names path) else None.

Definition free_slot (fs : nodefs) : Prop :=
  ∃ i n, (0 < i)%nat ∧ nodes fs !! i = Some n ∧ used n = 0.

(** A new entry can be made at a path: it is absent, its parent is a directory,
    its names fit, and a node is free. *)
Definition can_create (fs : nodefs) (path : list Z) : Prop :=
  ch path 0 = 47 ∧ free_slot fs ∧ Forall good_name (path_names path) ∧
  view fs (path_names path) = None ∧
  ∃ l c, path_names path = l ++ [c] ∧ view fs l = Some EDir.

Lemma view_walk fs cs e :
  view fs cs = Some e ↔ ∃ i, walk fs 0 cs = Some i ∧ entry_of (node_at fs i) = e.
Proof.
  unfold view. destruct (walk fs 0 cs) as [i|]; split.
  - intros [= <-]. eauto.
  - intros (j&[= <-]&<-). done.
  - done.
  - by intros (j&?&_).
Qed.

Lemma view_dir fs cs :
  nodefs_ok fs →
  view fs cs = Some EDir ↔ ∃ i, walk fs 0 cs = Some i ∧ is_dir fs i.
Proof.
  intros Hok. rewrite view_walk. split; intros (i&Hw&H); exists i; (split; [done|]).
  - destruct (walk_used fs cs i Hok Hw) as (n&Hn&Hu). exists n.
    rewrite (node_at_lookup fs i n Hn) in H. unfold entry_of in H.
    destruct (Z.eqb_spec (ntype n) FS_TYPE_DIR); done.
  - destruct H as (n&Hn&_&Ht). rewrite (node_at_lookup fs i n Hn). unfold entry_of.
    by rewrite Ht.
Qed.

Lemma view_snoc_none fs l c par :
  walk fs 0 l = Some par →
  view fs (l ++ [c]) = None ↔ nodefs_find_child fs (Z.of_nat par) c = None.
Proof.
  intros Hl. unfold view. rewrite walk_snoc, Hl.
  by destruct (nodefs_find_child fs (Z.of_nat par) c).
Qed.

(** The node a path leads to is well formed: a file's type is the file type. *)
Lemma walk_node_ok fs cs i :
  nodefs_ok fs → walk fs 0 cs = Some i → (0 < i)%nat → node_ok (node_at fs i).
Proof.
  intros Hok Hw Hi. destruct (walk_used fs cs i Hok Hw) as (n&Hn&Hu).
  rewrite (node_at_lookup fs i n Hn). by destruct (fok_node fs Hok i n Hn Hu Hi).
Qed.

Lemma walk_file fs cs i c :
  nodefs_ok fs → walk fs 0 cs = Some i → entry_of (node_at fs i) = EFile c →
  (0 < i)%nat ∧ ntype (node_at fs i) = FS_TYPE_FILE ∧ c = contents (node_at fs i).
Proof.
  intros Hok Hw He. assert (Hi : (0 < i)%nat).
  { destruct i; [|lia]. destruct (fok_root fs Hok) as [(n&Hn&_&Ht) _].
    rewrite (node_at_lookup fs 0 n Hn) in He. unfold entry_of in He. by rewrite Ht in He. }
  split; [done|]. destruct (walk_node_ok fs cs i Hok Hw Hi) as [Ht _ _ _].
  unfold entry_of in He. destruct (Z.eqb_spec (ntype (node_at fs i)) FS_TYPE_DIR); [done|].
  split; [by destruct Ht|]. by injection He as <-.
Qed.

Lemma lookup_resolve fs path :
  nodefs_ok fs →
  lookup_path fs path = let! i := nodefs_resolve_path fs path in Some (entry_of (node_at fs i)).
Proof.
  intros Hok. unfold lookup_path, view. rewrite nodefs_resolve_path_spec by done.
  by destruct (ch path 0 =? 47).
Qed.

Lemma resolve_walk fs path i :
  nodefs_ok fs → nodefs_resolve_path fs path = Some i →
  ch path 0 = 47 ∧ walk fs 0 (path_names path) = Some i.
Proof.
  intros Hok. rewrite nodefs_resolve_path_spec by done.
  destruct (Z.eqb_spec (ch path 0) 47); done.
Qed.

Lemma path_names_no_nul p : Forall no_nul (path_names p).
Proof.
  eapply Forall_impl; [apply path_names_nul|]. simpl. intros c <-. apply cstr_no_nul.
Qed.

(** ** Creating *)

Lemma alloc_none fs :
  nodes fs ≠ [] →
  first_idx (λ n, negb (is_used n)) (tail (nodes fs)) = None ↔ ¬ free_slot fs.
Proof.
  intros Hne. rewrite first_idx_None. destruct (nodes fs) as [|r ns] eqn:Hns; [done|]. simpl.
  unfold free_slot. rewrite Hns. split.
  - intros H ([|i]&n&Hi&Hn&Hu); [lia|]. specialize (H i n Hn). unfold is_used in H.
    by rewrite Hu in H.
  - intros H i n Hn. unfold is_used. destruct (Z.eqb_spec (used n) 0) as [Hu|]; [|done].
    destruct H. exists (S i), n. split_and!; [lia|done|done].
Qed.

(** The node [create_node] makes. *)
Record created (ty : Z) (par : nat) (leaf : list Z) (n : fs_node) : Prop := {
  cr_used : used n = 1; cr_type : ntype n = ty; cr_parent : parent n = Z.of_nat par;
  cr_name : cstr (name n) = cstr leaf; cr_size : size n = 0; cr_data : data n = zeros 512;
  cr_ok : node_ok n; cr_wf : node_wf n
}.

Lemma zeros_bytes n : Forall is_byte (zeros n).
Proof. apply Forall_forall. intros z Hz%list_elem_of_In%repeat_spec. unfold is_byte. lia. Qed.

Lemma zeros_replicate n : zeros n = replicate n 0.
Proof. induction n as [|n IH]; [done|]. unfold zeros in *. simpl. by rewrite IH. Qed.

Lemma ch_zeros n k : ch (zeros n) k = 0.
Proof.
  unfold ch, zeros. destruct (decide (k < n)%nat).
  - by rewrite nth_repeat.
  - apply nth_overflow. rewrite repeat_length. lia.
Qed.

Lemma created_node ty par leaf nm :
  ty = FS_TYPE_FILE ∨ ty = FS_TYPE_DIR → (par < 128)%nat →
  cstr nm = cstr leaf → length nm = 16%nat → Forall is_byte nm → good_name (cstr leaf) →
  created ty par leaf (Node 1 ty (Z.of_nat par) nm 0 (zeros 512)).
Proof.
  intros Hty Hp Hc Hl Hb Hg. constructor; try done; constructor; simpl; rewrite ?Hc; try done.
  - intros. apply ch_zeros.
  - split; [done|apply zeros_bytes].
  - unfold is_int. destruct Hty as [->| ->]; unfold FS_TYPE_FILE, FS_TYPE_DIR; lia.
Qed.

Section ops.
Context {D : Type} `{BlockDev D}.

Lemma create_node_spec ty par leaf fs (d : D) :
  nodefs_ok fs → (par < 128)%nat → good_name (cstr leaf) → Forall is_byte (cstr leaf) →
  ty = FS_TYPE_FILE ∨ ty = FS_TYPE_DIR →
  ¬ free_slot fs ∧ create_node ty par leaf fs d = (None, fs, d) ∨
  ∃ idx n old, (0 < idx)%nat ∧ nodes fs !! idx = Some old ∧ used old = 0 ∧
    created ty par leaf n ∧
    create_node ty par leaf fs d =
    let '(ok, d') := pfs_sync (set_node fs idx n) d in
    (if ok then Some idx else None, set_node fs idx n, d').
Proof.
  intros Hok Hpar Hg Hb Hty.
  assert (Hne : nodes fs ≠ []) by (intros E; pose proof (fok_len fs Hok) as L; by rewrite E in L).
  unfold create_node, nodefs_alloc_node.
  destruct (first_idx (λ n, negb (is_used n)) (tail (nodes fs))) as [i|] eqn:Ei.
  2: { left. split; [by apply alloc_none|done]. }
  right. apply first_idx_Some in Ei as [(old&Hold&Hfree) _]. rewrite lookup_tail in Hold.
  pose proof (lookup_lt_Some _ _ _ Hold) as Hlt.
  destruct (copy_name_spec (zeros 16) leaf) as (nm&Hnm&Hcn&Hln&Hbn);
    [done|by destruct Hg as (_&?&_)|].
  exists (S i), (Node 1 ty (Z.of_nat par) nm 0 (zeros 512)), old. split_and!; [lia|done| | |].
  - unfold is_used in Hfree. destruct (Z.eqb_spec (used old) 0); [done|]. done.
  - apply created_node; try done. apply Hbn; [unfold is_byte; lia|apply zeros_bytes|done].
  - rewrite node_at_set_node, decide_True by done. cbn [name fresh_node]. rewrite Hnm.
    cbn [negb used data size]. unfold set_node, set_nodes. cbn [nodes mount_idx persistent].
    by rewrite list_insert_insert_eq.
Qed.

(** The parent a creation finds, and what it means for the tree. *)
Lemma parent_lookup fs path :
  nodefs_ok fs → Forall is_byte path →
  match nodefs_resolve_parent_and_leaf fs path with
  | Some (par, leaf) =>
      ch path 0 = 47 ∧ is_dir fs par ∧ (par < 128)%nat ∧ good_name (cstr leaf) ∧
      Forall is_byte (cstr leaf) ∧ Forall good_name (path_names path) ∧
      ∃ l, path_names path = l ++ [cstr leaf] ∧ walk fs 0 l = Some par ∧ view fs l = Some EDir
  | None => ¬ can_create fs path
  end.
Proof.
  intros Hok Hb. destruct (Z.eqb_spec (ch path 0) 47) as [H0|H0].
  - pose proof (nodefs_resolve_parent_spec fs path Hok H0) as Hp.
    destruct (nodefs_resolve_parent_and_leaf fs path) as [[par leaf]|].
    + destruct Hp as [(l&Hl&Hw&Hg&Hd) Hlen].
      pose proof (path_names_bytes is_byte path Hb) as Hbs. rewrite Hl in Hg, Hbs.
      split; [done|]. split; [done|]. split; [by apply (walk_lt fs l)|].
      split; [by apply Forall_app in Hg as [_ ?%Forall_inv]|].
      split; [by apply Forall_app in Hbs as [_ ?%Forall_inv]|].
      split; [by rewrite Hl|]. exists l. split_and!; try done. apply view_dir; eauto.
    + intros (_&_&Hg&_&l&c&Hl&Hv). apply view_dir in Hv as (par&Hw&Hd); [|done].
      apply (Hp par c). exists l. done.
  - unfold nodefs_resolve_parent_and_leaf. rewrite (proj2 (Z.eqb_neq _ _) H0). simpl.
    by intros [? _].
Qed.

(** Creating an entry where one can be created, the parent being known. *)
Lemma create_view ty par leaf fs path (d : D) :
  nodefs_ok fs → Forall is_byte path →
  nodefs_resolve_parent_and_leaf fs path = Some (par, leaf) →
  nodefs_find_child fs (Z.of_nat par) leaf = None →
  ty = FS_TYPE_FILE ∨ ty = FS_TYPE_DIR →
  let '(r, fs', d') := create_node ty par leaf fs d in
  can_create fs path ∧ nodefs_ok fs' ∧
    (∃ idx n, created ty par leaf n ∧ nodes fs' !! idx = Some n ∧ (0 < idx)%nat ∧
      walk fs' 0 (path_names path) = Some idx ∧
      view_update fs fs' (path_names path) (Some (entry_of n)) ∧
      persistent fs' = persistent fs ∧ mount_idx fs' = mount_idx fs ∧
      (match r with Some _ => true | None => false end, d') = pfs_sync fs' d ∧ (r = None ∨ r = Some idx)) ∨
  ¬ can_create fs path ∧ r = None ∧ fs' = fs ∧ d' = d.
Proof.
  intros Hok Hb Hp Hf Hty. pose proof (parent_lookup fs path Hok Hb) as Hpl. rewrite Hp in Hpl.
  destruct Hpl as (H0&Hd&Hlt&Hg&Hbl&Hgs&l&Hl&Hw&Hv).
  assert (Hf' : nodefs_find_child fs (Z.of_nat par) (cstr leaf) = None).
  { by rewrite <-(find_child_cstr fs _ leaf) by (by rewrite cstr_idemp). }
  destruct (create_node_spec ty par leaf fs d Hok Hlt Hg Hbl Hty)
    as [[Hfs ->]|(idx&n&old&Hi&Ho&Hou&Hn&->)].
  - right. split; [|done]. by intros (_&?&_).
  - destruct (pfs_sync (set_node fs idx n) d) as [ok d'] eqn:Es. left.
    assert (Hi' : (idx < length (nodes fs))%nat) by by eapply lookup_lt_Some.
    assert (Hnc : ∀ i, ¬ is_child fs (Z.of_nat par) (name n) i).
    { apply find_child_none. rewrite <-Hf. by apply find_child_cstr, cr_name with ty par. }
    assert (Hu : used n ≠ 0) by (by rewrite (cr_used _ _ _ _ Hn)).
    split; [|split].
    + split; [done|]. split; [by exists idx, old|]. split; [done|].
      split; [rewrite Hl; by apply (view_snoc_none fs l _ par Hw)|].
      by exists l, (cstr leaf).
    + eapply add_ok; try done; by destruct Hn.
    + exists idx, n. rewrite nodes_set_node, decide_True by done.
      split; [done|split; [done|split; [done|]]]. rewrite Hl in *. split; [|split].
      * destruct Hn. eapply add_walk; try done. right. split; [done|].
        exists l, (cstr leaf). rewrite cstr_idemp. done.
      * eapply add_view; try done; by destruct Hn.
      * rewrite Es. destruct ok; split_and!; auto.
Qed.

(** What a creation or a removal at [path] leads to: the tree changed there and
    the node array synced, the result being that of the sync; or nothing at all. *)
Definition updates (fs fs' : nodefs) (path : list Z) (e : option entry) (ok : bool) (d d' : D)
  : Prop :=
  nodefs_ok fs' ∧ view_update fs fs' (path_names path) e ∧ (ok, d') = pfs_sync fs' d.

(** [nodefs_mkdir] makes a directory exactly when one can be made there: the
    tree gains an empty directory at the path and is otherwise the same, the
    invariant is kept and 0 is returned unless the sync to the disk fails; in every
    other case it returns -1 and changes nothing. *)
Theorem nodefs_mkdir_spec path fs (d : D) :
  nodefs_ok fs → Forall is_byte path →
  let '(ok, fs', d') := nodefs_mkdir path fs d in
  can_create fs path ∧ updates fs fs' path (Some EDir) ok d d' ∨
  ¬ can_create fs path ∧ ok = false ∧ fs' = fs ∧ d' = d.
Proof.
  intros Hok Hb. unfold nodefs_mkdir. pose proof (parent_lookup fs path Hok Hb) as Hpl.
  destruct (nodefs_resolve_parent_and_leaf fs path) as [[par leaf]|] eqn:Ep; [|by right].
  destruct (nodefs_find_child fs (Z.of_nat par) leaf) as [k|] eqn:Ef.
  - right. split; [|done]. destruct Hpl as (_&_&_&_&_&_&l&Hl&Hw&_).
    intros (_&_&_&Hv&_). rewrite Hl, (view_snoc_none _ _ _ par), <-(find_child_cstr fs _ leaf)
      in Hv by (done || by rewrite cstr_idemp). congruence.
  - pose proof (create_view FS_TYPE_DIR par leaf fs path d Hok Hb Ep Ef (or_intror eq_refl)) as Hc.
    destruct (create_node FS_TYPE_DIR par leaf fs d) as [[r fs'] d'].
    destruct Hc as [(Hcan&Hok'&idx&n&Hn&_&_&_&Hv&_&_&Hs&_)|(Hcan&->&->&->)]; [left|by right].
    split; [done|split; [done|split; [|done]]].
    replace EDir with (entry_of n); [done|]. unfold entry_of. by rewrite (cr_type _ _ _ _ Hn).
Qed.

Definition wants_trunc (flags : Z) : bool :=
  negb (Z.land flags O_TRUNC =? 0) && negb (Z.land flags O_WRONLY =? 0).

(** Truncating a file, on the tree. *)
Lemma truncate_view fs path idx :
  nodefs_ok fs → walk fs 0 (path_names path) = Some idx → (0 < idx)%nat →
  ntype (node_at fs idx) = FS_TYPE_FILE →
  let n := node_at fs idx in
  let fs' := set_node fs idx (Node (used n) (ntype n) (parent n) (name n) 0 (zeros 512)) in
  nodefs_ok fs' ∧ view_update fs fs' (path_names path) (Some (EFile [])) ∧
  walk fs' 0 (path_names path) = Some idx.
Proof.
  intros Hok Hw Hi Ht n fs'. destruct (walk_used fs _ idx Hok Hw) as (m&Hm&Hu).
  assert (n = m) as Hnm by (by apply node_at_lookup).
  pose proof (fok_wf fs Hok) as Hwf. rewrite Forall_lookup in Hwf. specialize (Hwf _ _ Hm).
  split; [|split].
  - apply (upd_ok fs idx m); rewrite ?Hnm; try done.
    + destruct Hwf. constructor; simpl; try done. split; [done|apply zeros_bytes].
    + intros _ _. destruct (fok_node fs Hok idx m Hm Hu Hi) as [[] _]. constructor; simpl; try done.
      intros. apply ch_zeros.
  - replace (EFile []) with (entry_of (Node (used n) (ntype n) (parent n) (name n) 0 (zeros 512))).
    2: { unfold entry_of, n. simpl. by rewrite Ht. }
    apply (upd_view fs idx m); rewrite ?Hnm; try done. apply path_names_no_nul.
  - unfold fs'. rewrite (upd_walk fs idx m); rewrite ?Hnm; done.
Qed.

(** The access mode [nodefs_open] adds changes neither test. *)
Lemma open_flags_creat flags :
  Z.land (if Z.land flags (Z.lor O_RDONLY O_WRONLY) =? 0 then Z.lor flags O_RDONLY else flags)
    O_CREAT = Z.land flags O_CREAT.
Proof. case_if; [|done]. by rewrite Z.land_lor_distr_l, Z.lor_0_r. Qed.

Lemma open_flags_trunc flags :
  wants_trunc (if Z.land flags (Z.lor O_RDONLY O_WRONLY) =? 0 then Z.lor flags O_RDONLY
               else flags) = wants_trunc flags.
Proof. case_if; [|done]. unfold wants_trunc. by rewrite !Z.land_lor_distr_l, !Z.lor_0_r. Qed.

(** What [nodefs_open] returns: a node index only for a file the path names, and
    -1 after a change only if a sync to the disk failed. *)
Definition opened (fs' : nodefs) (path : list Z) (r : option nat) : Prop :=
  match r with
  | Some i => walk fs' 0 (path_names path) = Some i ∧ valid_node fs' (Z.of_nat i) = true
  | None => ∃ d1 d2 : D, pfs_sync fs' d1 = (false, d2)
  end.

Lemma valid_node_walk fs cs i c :
  nodefs_ok fs → walk fs 0 cs = Some i → entry_of (node_at fs i) = EFile c →
  valid_node fs (Z.of_nat i) = true.
Proof.
  intros Hok Hw He. destruct (walk_file fs cs i c Hok Hw He) as (Hi&Ht&_).
  pose proof (walk_lt fs cs i Hok Hw) as Hlt. destruct (walk_used fs cs i Hok Hw) as (n&Hn&Hu).
  unfold valid_node, FS_MAX_NODES. rewrite Nat2Z.id, Ht, (node_at_lookup fs i n Hn).
  rewrite (proj2 (is_used_true n)) by done. simpl. lia.
Qed.

Lemma open_node_spec node flags fs path (d : D) c :
  nodefs_ok fs → walk fs 0 (path_names path) = Some node →
  entry_of (node_at fs node) = EFile c →
  let '(r, fs', d') := open_node node flags fs d in
  nodefs_ok fs' ∧ opened fs' path r ∧
  (if wants_trunc flags then view_update fs fs' (path_names path) (Some (EFile []))
   else r = Some node ∧ fs' = fs ∧ d' = d).
Proof.
  intros Hok Hw He. destruct (walk_file fs _ node c Hok Hw He) as (Hi&Ht&_).
  unfold open_node. rewrite Ht. simpl. fold (wants_trunc flags).
  destruct (wants_trunc flags).
  - rewrite <-Ht. destruct (truncate_view fs path node Hok Hw Hi Ht) as (Hok'&Hv&Hw').
    cbv zeta in *. set (fs' := set_node fs node _) in *.
    destruct (pfs_sync fs' d) as [ok d'] eqn:Es. split_and!; try done.
    destruct ok; [|by eexists d, d']. split; [done|].
    pose proof (Hv (path_names path) (path_names_no_nul path)) as Hp.
    rewrite decide_True in Hp by done. apply view_walk in Hp as (j&Hj&Hej).
    rewrite Hw' in Hj. injection Hj as <-. by eapply valid_node_walk.
  - split; [done|split; [|done]]. split; [done|]. by eapply valid_node_walk.
Qed.

Ltac refused := split; [done|right; split; [tauto|done]].

(** What holds after [nodefs_open] returned [r] with [fs'] and [d']. *)
Definition open_post (path : list Z) (flags : Z) (fs : nodefs) (d : D)
    (r : option nat) (fs' : nodefs) (d' : D) : Prop :=
  let unchanged := fs' = fs ∧ d' = d in
  let becomes e := opened fs' path r ∧ view_update fs fs' (path_names path) (Some e) in
  nodefs_ok fs' ∧
  match lookup_path fs path with
  | Some EDir => r = None ∧ unchanged
  | Some (EFile _) =>
      if wants_trunc flags then becomes (EFile []) else opened fs' path r ∧ unchanged
  | None =>
      Z.land flags O_CREAT ≠ 0 ∧ can_create fs path ∧ becomes (EFile []) ∨
      ¬ (Z.land flags O_CREAT ≠ 0 ∧ can_create fs path) ∧ r = None ∧ unchanged
  end.

Lemma nodefs_open_post path flags fs (d : D) :
  nodefs_ok fs → Forall is_byte path →
  let '(r, fs', d') := nodefs_open path flags fs d in open_post path flags fs d r fs' d'.
Proof.
  intros Hok Hb. unfold open_post, nodefs_open. set (fl := if _ =? 0 then _ else _).
  assert (Hcr : Z.land fl O_CREAT = Z.land flags O_CREAT) by apply open_flags_creat.
  assert (Htr : wants_trunc fl = wants_trunc flags) by apply open_flags_trunc.
  rewrite Hcr. clearbody fl. rewrite lookup_resolve by done.
  destruct (nodefs_resolve_path fs path) as [node|] eqn:Er.
  - destruct (resolve_walk fs path node Hok Er) as [H0 Hw].
    destruct (entry_of (node_at fs node)) as [|c] eqn:He.
    + unfold open_node. unfold entry_of in He.
      destruct (Z.eqb_spec (ntype (node_at fs node)) FS_TYPE_DIR) as [Ht|]; [|done].
      by rewrite Ht.
    + pose proof (open_node_spec node fl fs path d c Hok Hw He) as Ho. rewrite Htr in Ho.
      destruct (open_node node fl fs d) as [[r fs'] d']. destruct Ho as (Hok'&Ho&Hv).
      split; [done|]. destruct (wants_trunc flags); [done|]. by destruct Hv as (->&->&->).
  - destruct (Z.eqb_spec (Z.land flags O_CREAT) 0) as [Hc|Hc]; [refused|].
    pose proof (parent_lookup fs path Hok Hb) as Hpl.
    destruct (nodefs_resolve_parent_and_leaf fs path) as [[par leaf]|] eqn:Ep; [|refused].
    destruct (nodefs_find_child fs (Z.of_nat par) leaf) as [k|] eqn:Ef.
    + exfalso. destruct Hpl as (H0&_&_&_&_&_&l&Hl&Hw&_).
      rewrite nodefs_resolve_path_spec, H0, Hl in Er by done. simpl in Er.
      rewrite walk_snoc, Hw, <-(find_child_cstr fs _ leaf), Ef in Er by by rewrite cstr_idemp.
      done.
    + pose proof (create_view FS_TYPE_FILE par leaf fs path d Hok Hb Ep Ef (or_introl eq_refl)) as H1.
      destruct (create_node FS_TYPE_FILE par leaf fs d) as [[r fs'] d'].
      destruct H1 as [(Hcan&Hok'&idx&n&Hn&Hnth&Hi&Hw&Hv&_&_&Hs&Hr)|(?&->&->&->)]; [|refused].
      assert (He : entry_of n = EFile []).
      { destruct Hn as [_ Ht _ _ Hz _ _ _]. unfold entry_of, contents. by rewrite Ht, Hz. }
      rewrite He in Hv. destruct r as [i|].
      * destruct Hr as [?|[= ->]]; [done|].
        rewrite <-(node_at_lookup fs' idx n Hnth) in He.
        pose proof (open_node_spec idx fl fs' path d' [] Hok' Hw He) as Ho.
        destruct (open_node idx fl fs' d') as [[r' fs''] d''].
        destruct Ho as (Hok''&Ho&Hv'). split; [done|left]. split; [done|split; [done|]].
        split; [done|]. destruct (wants_trunc fl); [|by destruct Hv' as (_&->&_)].
        intros ds Hds. rewrite (Hv' ds Hds). case_decide; [done|]. by rewrite Hv, decide_False.
      * split; [done|left]. split; [done|split; [done|]]. split; [|done].
        simpl. by exists d, d'.
Qed.

(** [nodefs_open] on every case: a directory is refused; a file is opened, and
    emptied when the flags ask for truncation and writing; an absent path is
    created as an empty file when [O_CREAT] is given and it can be; otherwise -1 and
    no change.  The index returned is that of a file the path names, and -1 after a
    change means that a sync to the disk failed. *)
Theorem nodefs_open_spec path flags fs (d : D) :
  nodefs_ok fs → Forall is_byte path →
  let '(r, fs', d') := nodefs_open path flags fs d in open_post path flags fs d r fs' d'.
Proof.
  intros Hok Hb. pose proof (nodefs_open_post path flags fs d Hok Hb) as Hpost.
  by destruct (nodefs_open path flags fs d) as [[r fs'] d'].
Qed.

(** ** Reading and writing *)

(** The bytes of a file with [b] written at [off]: a gap is filled with zeros. *)
Definition overlay (c : list Z) (off : nat) (b : list Z) : list Z :=
  take off (c ++ zeros (off - length c)) ++ b ++ drop (off + length b) c.

(** Data that is zero from some position on. *)
Lemma zero_tail dt k :
  (k ≤ length dt)%nat → (∀ j, (k ≤ j)%nat → ch dt j = 0) →
  dt = take k dt ++ zeros (length dt - k).
Proof.
  intros Hk Hz. rewrite <-(take_drop k dt) at 1. f_equal. apply list_eq. intros j.
  rewrite lookup_drop, zeros_replicate. destruct (decide (j < length dt - k)%nat) as [Hj|Hj].
  - specialize (Hz (k + j)%nat ltac:(lia)). unfold ch in Hz. rewrite nth_lookup in Hz.
    destruct (dt !! (k + j)%nat) as [v|] eqn:E; [|apply lookup_ge_None in E; lia].
    simpl in Hz. subst. symmetry. by apply lookup_replicate.
  - rewrite lookup_ge_None_2 by lia. symmetry. apply lookup_ge_None_2.
    rewrite length_replicate. lia.
Qed.

(** [nodefs_write]'s copy, on the contents. *)
Lemma overlay_data dt k off b m :
  (k ≤ length dt)%nat → (∀ j, (k ≤ j)%nat → ch dt j = 0) →
  (m ≤ length b)%nat → (off + m ≤ length dt)%nat →
  let dt' := take off dt ++ memcpy m b (drop off dt) in
  take (Nat.max k (off + m)) dt' = overlay (take k dt) off (take m b) ∧
  length dt' = length dt ∧ (∀ j, (Nat.max k (off + m) ≤ j)%nat → ch dt' j = 0).
Proof.
  intros Hk Hz Hm Ho dt'.
  assert (Hdt' : dt' = take off dt ++ take m b ++ drop (off + m) dt).
  { unfold dt'. rewrite memcpy_spec by (rewrite ?length_drop; lia).
    by rewrite drop_drop. }
  assert (Hl1 : length (take off dt) = off) by (rewrite length_take; lia).
  assert (Hl2 : length (take m b) = m) by (rewrite length_take; lia).
  split; [|split].
  - rewrite Hdt'. unfold overlay. rewrite Hl2.
    rewrite take_app_ge by lia. rewrite take_app_ge by (rewrite ?Hl1, ?Hl2; lia).
    rewrite Hl1, Hl2. f_equal; [|f_equal].
    + rewrite length_take, Nat.min_l by lia.
      rewrite (zero_tail dt k Hk Hz) at 1. rewrite !take_app, !length_take, !Nat.min_l by lia.
      f_equal. rewrite !zeros_replicate, !take_replicate. f_equal. lia.
    + destruct (decide (off + m ≤ k)%nat).
      * rewrite firstn_skipn_comm. do 2 f_equal. lia.
      * rewrite (drop_ge (take k dt)) by (rewrite length_take; lia).
        by replace (Nat.max k (off + m) - off - m)%nat with O by lia.
  - rewrite Hdt', !length_app, length_drop. lia.
  - intros j Hj. rewrite Hdt'. unfold ch. rewrite !app_nth2 by (rewrite ?Hl1, ?Hl2; lia).
    rewrite Hl1, Hl2. rewrite nth_skipn. apply (Hz _). lia.
Qed.

(** The file at a path: its node is valid and holds its contents. *)
Lemma file_node fs cs i c :
  nodefs_ok fs → walk fs 0 cs = Some i → view fs cs = Some (EFile c) →
  ∃ n, nodes fs !! i = Some n ∧ node_at fs i = n ∧ valid_node fs (Z.of_nat i) = true ∧
    node_ok n ∧ node_wf n ∧ ntype n = FS_TYPE_FILE ∧ (0 < i)%nat ∧
    c = contents n ∧ Z.of_nat (length c) = size n.
Proof.
  intros Hok Hw Hv. apply view_walk in Hv as (j&Hj&He). rewrite Hw in Hj. injection Hj as <-.
  destruct (walk_file fs cs i c Hok Hw He) as (Hi&Ht&->).
  destruct (walk_used fs cs i Hok Hw) as (n&Hn&Hu). exists n.
  pose proof (walk_node_ok fs cs i Hok Hw Hi) as Hnok.
  pose proof (valid_node_walk fs cs i _ Hok Hw He) as Hval.
  rewrite (node_at_lookup fs i n Hn) in *.
  pose proof (fok_wf fs Hok) as Hwf. rewrite Forall_lookup in Hwf. specialize (Hwf i n Hn).
  split; [done|split; [done|split; [done|split; [done|split; [done|split; [done|split; [done|]]]]]]].
  split; [done|]. destruct Hnok as [_ _ Hsz _], Hwf as [_ [Hl _] _ _].
  unfold contents. rewrite length_take, Hl. unfold FS_FILE_MAX_SIZE in Hsz. lia.
Qed.

(** At most [n] bytes of [c] from [off] on. *)
Definition slice (c : list Z) (off n : Z) : list Z :=
  take (Z.to_nat n) (drop (Z.to_nat off) c).

Lemma nodefs_read_slice fs cs i c offset sz :
  nodefs_ok fs → walk fs 0 cs = Some i → view fs cs = Some (EFile c) →
  0 ≤ offset < 4294967296 → 0 ≤ sz < 4294967296 →
  let b := slice c offset sz in
  nodefs_read (Z.of_nat i) offset sz fs
  = (Z.of_nat (length b), offset + Z.of_nat (length b), b).
Proof.
  intros Hok Hw Hv Ho Hsz b.
  destruct (file_node fs cs i c Hok Hw Hv) as (n&Hn&Hat&Hval&Hnok&Hwf&_&_&Hc&Hl).
  destruct Hnok as [_ _ Hs _]. unfold FS_FILE_MAX_SIZE in Hs.
  assert (Hb : b = take (Z.to_nat (Z.min sz (size n - offset))) (drop (Z.to_nat offset) (data n))).
  { unfold b, slice. rewrite Hc. unfold contents. rewrite skipn_firstn_comm, take_take. f_equal. lia. }
  assert (Hbl : Z.of_nat (length b) = Z.max 0 (Z.min sz (size n - offset))).
  { unfold b, slice. rewrite length_take, length_drop. lia. }
  unfold nodefs_read. rewrite Hval, Nat2Z.id, Hat. cbn [negb].
  destruct (Z.leb_spec (size n) offset) as [Hend|Hin].
  - replace b with (@nil Z) by (symmetry; apply nil_length_inv; lia). simpl. by rewrite Z.add_0_r.
  - rewrite (u32_small (size n - offset)) by lia. rewrite Hbl, Hb.
    replace (if size n - offset <? sz then size n - offset else sz)
      with (Z.min sz (size n - offset)) by (case_if; lia).
    rewrite i32_small, u32_small by lia. do 2 f_equal; lia.
Qed.

(** [nodefs_read] returns the bytes of the file from the offset on, as many as
    are asked for and there are, and moves the offset past them; at or past the end
    it returns 0 and moves nothing. *)
Theorem nodefs_read_spec fs cs i c offset sz :
  nodefs_ok fs → walk fs 0 cs = Some i → view fs cs = Some (EFile c) →
  0 ≤ offset < 4294967296 → 0 ≤ sz < 4294967296 →
  let b := slice c offset sz in
  nodefs_read (Z.of_nat i) offset sz fs
  = (Z.of_nat (length b), offset + Z.of_nat (length b), b).
Proof.
  intros Hok Hw Hv Ho Hsz b. unfold b.
  by rewrite (nodefs_read_slice fs cs i c offset sz Hok Hw Hv Ho Hsz).
Qed.

(** The node after [m] bytes of [buf] are written at [off]. *)
Definition written (n : fs_node) (off : Z) (buf : list Z) (m : Z) : fs_node :=
  Node (used n) (ntype n) (parent n) (name n) (Z.max (size n) (off + m))
    (take (Z.to_nat off) (data n) ++ memcpy (Z.to_nat m) buf (drop (Z.to_nat off) (data n))).

Lemma nodefs_write_eq fs (d : D) i n offset buf sz :
  valid_node fs (Z.of_nat i) = true → node_at fs i = n →
  0 ≤ offset < 4294967296 → 0 ≤ sz < 4294967296 →
  nodefs_write (Z.of_nat i) offset buf sz fs d =
  if 512 <=? offset then (0, offset, fs, d)
  else
    let m := Z.min sz (512 - offset) in
    let fs' := set_node fs i (written n offset buf m) in
    let '(ok, d') := pfs_sync fs' d in (if ok then m else -1, offset + m, fs', d').
Proof.
  intros Hval Hat Ho Hsz. unfold nodefs_write. rewrite Hval, Nat2Z.id, Hat. cbn [negb].
  change FS_FILE_MAX_SIZE with 512.
  destruct (Z.leb_spec 512 offset) as [Hend|Hin]; [done|]. cbv zeta.
  rewrite (u32_small (512 - offset)) by lia.
  replace (if 512 - offset <? sz then 512 - offset else sz)
    with (Z.min sz (512 - offset)) by (case_if; lia).
  rewrite (u32_small (offset + _)) by lia. rewrite (i32_small (Z.min _ _)) by lia.
  replace (if size n <? offset + Z.min sz (512 - offset) then _ else size n)
    with (Z.max (size n) (offset + Z.min sz (512 - offset))) by (case_if; lia).
  done.
Qed.

Lemma written_spec fs i n offset buf m :
  nodefs_ok fs → nodes fs !! i = Some n → node_ok n → node_wf n →
  ntype n = FS_TYPE_FILE → Forall is_byte buf →
  0 ≤ offset → 0 ≤ m ≤ Z.of_nat (length buf) → offset + m ≤ 512 →
  nodefs_ok (set_node fs i (written n offset buf m)) ∧
  entry_of (written n offset buf m)
  = EFile (overlay (contents n) (Z.to_nat offset) (take (Z.to_nat m) buf)).
Proof.
  intros Hok Hn [Hty Hnm Hs Hz] [Hnw [Hdl Hdb] Hints Hszw] Ht Hbuf Ho Hm Hom.
  change FS_FILE_MAX_SIZE with 512 in Hs.
  destruct (overlay_data (data n) (Z.to_nat (size n)) (Z.to_nat offset) buf (Z.to_nat m))
    as (Hov&Hlen&Hz'); [lia|intros; apply Hz; lia|lia..|].
  assert (Hb : Forall is_byte (take (Z.to_nat offset) (data n) ++
                memcpy (Z.to_nat m) buf (drop (Z.to_nat offset) (data n)))).
  { apply Forall_app. split; [by apply Forall_take|]. apply memcpy_forall; [done|].
    by apply Forall_drop. }
  unfold written. set (data' := take _ (data n) ++ _) in *. split.
  - apply (upd_ok fs i n); try done.
    + constructor; cbn [name data used ntype parent size]; try done; [by rewrite Hlen|lia].
    + intros _ _. constructor; cbn [name data used ntype parent size]; try done.
      * unfold FS_FILE_MAX_SIZE. lia.
      * intros k Hk. apply Hz'. lia.
  - unfold entry_of, contents. cbn [ntype size data]. rewrite Ht. simpl. f_equal.
    rewrite <-Hov. f_equal. lia.
Qed.

(** What holds after [nodefs_write] on the file [cs] of contents [c]. *)
Definition write_post (fs : nodefs) (d : D) (cs : list (list Z)) (c : list Z)
    (offset : Z) (buf : list Z) (sz r offset' : Z) (fs' : nodefs) (d' : D) : Prop :=
  if 512 <=? offset then r = 0 ∧ offset' = offset ∧ fs' = fs ∧ d' = d
  else
    let n := Z.min sz (512 - offset) in
    offset' = offset + n ∧ nodefs_ok fs' ∧
    view_update fs fs' cs (Some (EFile (overlay c (Z.to_nat offset) (take (Z.to_nat n) buf)))) ∧
    let '(ok, d'') := pfs_sync fs' d in d' = d'' ∧ r = if ok then n else -1.

Lemma nodefs_write_post fs (d : D) cs i c offset buf sz :
  nodefs_ok fs → walk fs 0 cs = Some i → view fs cs = Some (EFile c) → Forall no_nul cs →
  0 ≤ offset < 4294967296 → 0 ≤ sz ≤ Z.of_nat (length buf) → sz < 4294967296 →
  Forall is_byte buf →
  let '(r, offset', fs', d') := nodefs_write (Z.of_nat i) offset buf sz fs d in
  write_post fs d cs c offset buf sz r offset' fs' d'.
Proof.
  intros Hok Hw Hv Hcs Ho Hsz Hsz' Hbuf. unfold write_post.
  destruct (file_node fs cs i c Hok Hw Hv) as (n&Hn&Hat&Hval&Hnok&Hwf&Ht&_&->&_).
  rewrite (nodefs_write_eq fs d i n) by (done || lia).
  destruct (Z.leb_spec 512 offset) as [Hend|Hin]; [done|]. cbv zeta.
  set (m := Z.min sz (512 - offset)).
  destruct (written_spec fs i n offset buf m) as [Hok' He]; try done; try lia.
  destruct (pfs_sync (set_node fs i (written n offset buf m)) d) as [ok d'] eqn:Es.
  split; [done|split; [done|split; [|by rewrite Es]]]. rewrite <-He. by apply (upd_view fs i n).
Qed.

(** [nodefs_write] overlays the file with the bytes given from the offset on,
    as many as fit in 512, filling a gap with zeros, moves the offset past them and
    returns their number (-1 if the sync fails); past 512 it returns 0 and changes
    nothing. *)
Theorem nodefs_write_spec fs (d : D) cs i c offset buf sz :
  nodefs_ok fs → walk fs 0 cs = Some i → view fs cs = Some (EFile c) → Forall no_nul cs →
  0 ≤ offset < 4294967296 → 0 ≤ sz ≤ Z.of_nat (length buf) → sz < 4294967296 →
  Forall is_byte buf →
  let '(r, offset', fs', d') := nodefs_write (Z.of_nat i) offset buf sz fs d in
  write_post fs d cs c offset buf sz r offset' fs' d'.
Proof.
  intros Hok Hw Hv Hcs Ho Hsz Hsz' Hb.
  pose proof (nodefs_write_post fs d cs i c offset buf sz Hok Hw Hv Hcs Ho Hsz Hsz' Hb) as Hpost.
  by destruct (nodefs_write _ offset buf sz fs d) as [[[r offset'] fs'] d'].
Qed.

(** ** Removing *)

Lemma dir_empty_spec fs i :
  nodefs_is_dir_empty fs (Z.of_nat i) = true ↔ ∀ c k, ¬ is_child fs (Z.of_nat i) c k.
Proof.
  unfold nodefs_is_dir_empty. rewrite negb_true_iff, <-not_true_iff_false, existsb_exists. split.
  - intros Hno c k (n&Hn&Hu&Hp&_). apply Hno. exists n.
    split; [by apply list_elem_of_In, list_elem_of_lookup_2 with k|].
    by rewrite (proj2 (is_used_true n) Hu), Hp, Z.eqb_refl.
  - intros Hno (n&Hn&Ht). apply list_elem_of_In, list_elem_of_lookup in Hn as [k Hk].
    apply andb_true_iff in Ht as [Hu%is_used_true Hp%Z.eqb_eq].
    apply (Hno (name n) k). by exists n.
Qed.

(** [memset] of a node no other has for parent, and the sync. *)
Lemma clear_node_spec fs path i (d : D) :
  nodefs_ok fs → walk fs 0 (path_names path) = Some i → (0 < i)%nat →
  (∀ c k, ¬ is_child fs (Z.of_nat i) c k) →
  let '(ok, fs', d') := clear_node i fs d in updates fs fs' path None ok d d'.
Proof.
  intros Hok Hw Hi Hleaf. unfold clear_node.
  destruct (walk_used fs _ i Hok Hw) as (n&Hn&_). pose proof (lookup_lt_Some _ _ _ Hn) as Hlt.
  destruct (pfs_sync (set_node fs i zero_node) d) as [ok d'] eqn:Es.
  split; [by apply remove_ok|split; [|done]].
  apply remove_view; try done. apply path_names_no_nul.
Qed.

(** A file has no children. *)
Lemma file_no_child fs i n c k :
  nodefs_ok fs → nodes fs !! i = Some n → ntype n = FS_TYPE_FILE →
  ¬ is_child fs (Z.of_nat i) c k.
Proof.
  intros Hok Hn Ht Hc. apply is_child_parent in Hc as [_ (m&Hm&_&Hd)]; [|done|lia].
  rewrite Nat2Z.id in Hm. simplify_eq. rewrite Ht in Hd. done.
Qed.

(** [nodefs_unlink] removes exactly the file the path names, provided that no
    file descriptor of any process is open on it; a directory, an absent path and an
    open file are refused and nothing changes. *)
Theorem nodefs_unlink_spec fdt path fs (d : D) :
  nodefs_ok fs →
  let '(ok, fs', d') := nodefs_unlink fdt path fs d in
  let refused := ok = false ∧ fs' = fs ∧ d' = d in
  match lookup_path fs path with
  | Some (EFile _) =>
      ∃ i, walk fs 0 (path_names path) = Some i ∧
        if nodefs_is_node_open fdt fs (Z.of_nat i) then refused
        else updates fs fs' path None ok d d'
  | _ => refused
  end.
Proof.
  intros Hok. unfold nodefs_unlink. rewrite lookup_resolve by done.
  destruct (nodefs_resolve_path fs path) as [i|] eqn:Er; [|done].
  destruct (resolve_walk fs path i Hok Er) as [_ Hw].
  destruct (walk_used fs _ i Hok Hw) as (n&Hn&Hu).
  destruct (entry_of (node_at fs i)) as [|c] eqn:He.
  - unfold entry_of in He. destruct (Z.eqb_spec (ntype (node_at fs i)) FS_TYPE_DIR) as [Ht|]; [|done].
    rewrite Ht. by destruct (Z.of_nat i <=? 0).
  - destruct (walk_file fs _ i c Hok Hw He) as (Hi&Ht&_).
    replace (Z.of_nat i <=? 0) with false by ztest. rewrite Ht. cbn [negb Z.eqb Pos.eqb FS_TYPE_FILE].
    assert (Hleaf : ∀ c k, ¬ is_child fs (Z.of_nat i) c k).
    { rewrite (node_at_lookup fs i n Hn) in Ht. intros e k. by eapply file_no_child. }
    pose proof (clear_node_spec fs path i d Hok Hw Hi Hleaf) as Hc.
    destruct (nodefs_is_node_open fdt fs (Z.of_nat i)) eqn:Eo; [by exists i; rewrite Eo|].
    destruct (clear_node i fs d) as [[ok fs'] d']. exists i. by rewrite Eo.
Qed.

(** [nodefs_rmdir] removes the directory the path names exactly when it is not
    the root and has no entries; in every other case it returns -1 and nothing
    changes. *)
Theorem nodefs_rmdir_spec path fs (d : D) :
  nodefs_ok fs →
  let '(ok, fs', d') := nodefs_rmdir path fs d in
  let cs := path_names path in
  let removable := lookup_path fs path = Some EDir ∧ cs ≠ [] ∧ ∀ c, view fs (cs ++ [c]) = None in
  removable ∧ updates fs fs' path None ok d d' ∨
  ¬ removable ∧ ok = false ∧ fs' = fs ∧ d' = d.
Proof.
  intros Hok. unfold nodefs_rmdir. rewrite lookup_resolve by done.
  destruct (nodefs_resolve_path fs path) as [i|] eqn:Er; [|right; split; [by intros (?&_)|done]].
  destruct (resolve_walk fs path i Hok Er) as [_ Hw]. cbv zeta.
  destruct (Z.leb_spec (Z.of_nat i) 0) as [Hi|Hi].
  { right. split; [|done]. intros (_&Hne&_). destruct (path_names path) as [|c cs _] using rev_ind;
      [done|]. rewrite walk_snoc in Hw. destruct (walk fs 0 cs) as [k|]; [|done].
    apply find_child_sound, is_child_parent in Hw as [? _]; [lia|done|lia]. }
  unfold entry_of. destruct (Z.eqb_spec (ntype (node_at fs i)) FS_TYPE_DIR) as [Ht|Ht];
    [|right; split; [by intros (?&_)|done]].
  assert (Hempty : nodefs_is_dir_empty fs (Z.of_nat i) = true ↔
                   ∀ c, view fs (path_names path ++ [c]) = None).
  { rewrite dir_empty_spec. setoid_rewrite (view_snoc_none fs _ _ i Hw).
    setoid_rewrite find_child_none. done. }
  destruct (nodefs_is_dir_empty fs (Z.of_nat i)) eqn:Ee; cbn [negb].
  - pose proof (proj1 (dir_empty_spec fs i) Ee) as Hleaf.
    pose proof (clear_node_spec fs path i d Hok Hw ltac:(lia) Hleaf) as Hc.
    destruct (clear_node i fs d) as [[ok fs'] d']. left. split; [|done]. split; [done|].
    split; [|by apply Hempty]. intros E. rewrite E in Hw. injection Hw as <-. lia.
  - right. split; [|done]. intros (_&_&Hn). by apply Hempty in Hn.
Qed.

(** ** Listing *)

Definition dirent_of (n : fs_node) : fs_dirent :=
  Dirent (snd (copy_name (zeros 16) (name n))) (ntype n) (size n).

(** The children of a directory in the order of the node array. *)
Definition listing (ns : list fs_node) (dir : Z) : list fs_node :=
  List.filter (λ n, is_used n && (parent n =? dir)) ns.

Lemma readdir_loop_spec ns dir index seen :
  seen ≤ index →
  readdir_loop ns dir index seen
  = dirent_of <$> listing ns dir !! Z.to_nat (index - seen).
Proof.
  revert seen. induction ns as [|n ns IH]; intros seen Hs; [done|]. simpl.
  rewrite <-negb_andb. destruct (is_used n && (parent n =? dir)); simpl; [|by apply IH].
  destruct (Z.eqb_spec seen index) as [->|Hne].
  - by rewrite Z.sub_diag.
  - rewrite IH by lia. by replace (Z.to_nat (index - seen)) with (S (Z.to_nat (index - (seen + 1)))) by lia.
Qed.

Lemma listing_spec fs dir n :
  n ∈ listing (nodes fs) dir ↔ ∃ k, nodes fs !! k = Some n ∧ used n ≠ 0 ∧ parent n = dir.
Proof.
  unfold listing. rewrite list_elem_of_In, filter_In, <-list_elem_of_In, list_elem_of_lookup.
  rewrite andb_true_iff, is_used_true, Z.eqb_eq.
  split; [intros [[k ?] [? ?]]; by exists k|intros (k&?&?&?); eauto].
Qed.

Lemma dirent_name n : node_ok n → cstr (d_name (dirent_of n)) = cstr (name n).
Proof.
  intros [_ (_&Hl&_) _ _]. unfold dirent_of. simpl.
  by destruct (copy_name_spec (zeros 16) (name n)) as (nm&->&Hc&_).
Qed.

Lemma listing_child fs i n :
  nodefs_ok fs → n ∈ listing (nodes fs) (Z.of_nat i) →
  ∃ k, nodes fs !! k = Some n ∧ is_child fs (Z.of_nat i) (name n) k ∧ node_ok n.
Proof.
  intros Hok (k&Hk&Hu&Hp)%listing_spec. exists k.
  assert (Hc : is_child fs (Z.of_nat i) (name n) k) by by exists n.
  split; [done|split; [done|]]. apply (is_child_parent fs) in Hc as [Hk0 _]; [|done|lia].
  by destruct (fok_node fs Hok k n Hk Hu Hk0).
Qed.

(** A directory entry describes an entry of the tree. *)
Definition describes (de : fs_dirent) (e : option entry) : Prop :=
  match e with
  | Some EDir => d_type de = FS_TYPE_DIR
  | Some (EFile c) => d_type de = FS_TYPE_FILE ∧ d_size de = Z.of_nat (length c)
  | None => False
  end.

Lemma dirent_describes fs cs i n :
  nodefs_ok fs → walk fs 0 cs = Some i → n ∈ listing (nodes fs) (Z.of_nat i) →
  describes (dirent_of n) (view fs (cs ++ [cstr (name n)])).
Proof.
  intros Hok Hw Hn. destruct (listing_child fs i n Hok Hn) as (k&Hk&Hc&Hnok).
  assert (Hwk : walk fs 0 (cs ++ [cstr (name n)]) = Some k).
  { rewrite walk_snoc, Hw, (find_child_cstr fs _ _ (name n)) by apply cstr_idemp.
    apply find_child_iff; [by apply fok_unique|lia|done]. }
  destruct (view fs (cs ++ [cstr (name n)])) as [[|c]|] eqn:Hv; cbn [describes].
  - apply view_dir in Hv as (j&Hj&m&Hm&_&Ht); [|done]. simplify_eq. done.
  - destruct (file_node fs _ k c Hok Hwk Hv) as (m&Hm&_&_&_&_&Ht&_&_&Hl). simplify_eq. done.
  - unfold view in Hv. by rewrite Hwk in Hv.
Qed.

(** [nodefs_readdir] with the indices 0, 1, 2, ... lists the entries of a
    directory, each name once, with its type and size, and fails from their number
    on; on a path that names no directory, and for a negative index, it fails. *)
Theorem nodefs_readdir_spec fs path :
  nodefs_ok fs →
  ∃ es, (∀ index, nodefs_readdir path index fs =
           if index <? 0 then None else es !! Z.to_nat index) ∧
    match lookup_path fs path with
    | Some EDir =>
        NoDup (map (λ de, cstr (d_name de)) es) ∧
        (∀ c, view fs (path_names path ++ [c]) ≠ None ↔ cstr c ∈ map (λ de, cstr (d_name de)) es) ∧
        ∀ de, de ∈ es → describes de (view fs (path_names path ++ [cstr (d_name de)]))
    | _ => es = []
    end.
Proof.
  intros Hok. unfold nodefs_readdir. rewrite lookup_resolve by done.
  destruct (nodefs_resolve_path fs path) as [i|] eqn:Er;
    [|exists []; split; [intros; by case_if|done]].
  destruct (resolve_walk fs path i Hok Er) as [_ Hw]. unfold entry_of.
  destruct (Z.eqb_spec (ntype (node_at fs i)) FS_TYPE_DIR) as [Ht|Ht]; cbn [negb];
    [|exists []; split; [intros; by case_if|done]].
  set (l := listing (nodes fs) (Z.of_nat i)).
  assert (Hnames : map (λ de, cstr (d_name de)) (map dirent_of l) = map (λ n, cstr (name n)) l).
  { rewrite map_map. apply map_ext_in. intros n Hn%list_elem_of_In.
    destruct (listing_child fs i n Hok Hn) as (k&_&_&Hnok). by apply dirent_name. }
  exists (map dirent_of l). rewrite Hnames. split; [|split; [|split]].
  - intros index. case_if; [done|]. rewrite readdir_loop_spec, Z.sub_0_r by lia.
    symmetry. apply list_lookup_fmap.
  - apply NoDup_filter_map. intros j k n m Hj Hk Hp Hq Hnm.
    apply andb_true_iff in Hp as [Hp%is_used_true Hpp%Z.eqb_eq].
    apply andb_true_iff in Hq as [Hq%is_used_true Hqq%Z.eqb_eq].
    eapply (fok_unique fs Hok (Z.of_nat i) (name n)); [lia|by exists n|by exists m].
  - intros c. rewrite list_elem_of_In, in_map_iff. split.
    + intros Hv. destruct (nodefs_find_child fs (Z.of_nat i) c) as [k|] eqn:E.
      * apply find_child_sound in E as (n&Hn&Hu&Hp&Hc). exists n. split; [done|].
        apply list_elem_of_In, listing_spec. eauto.
      * by apply (view_snoc_none fs _ c i Hw) in E.
    + intros (n&Hc&Hn%list_elem_of_In). destruct (listing_child fs i n Hok Hn) as (k&_&Hch&_).
      rewrite (view_snoc_none fs _ c i Hw), find_child_none. intros Hno. apply (Hno k).
      destruct Hch as (m&?&?&?&?). exists m. split_and!; congruence.
  - intros de (n&<-&Hn)%list_elem_of_In%in_map_iff. apply list_elem_of_In in Hn.
    destruct (listing_child fs i n Hok Hn) as (k&_&_&Hnok). rewrite dirent_name by done.
    by eapply dirent_describes.
Qed.
End ops.
