(* ===== verification/NodeFsDisk.v ===== *)
(** * The persistent image of the root file system

    Writing the node array to the block device with [pfs_sync] and loading it back
    with [nodefs_init_instance], over any device that keeps the laws of
    [BlockDevLaws]; and the invariant of the node file system over every sequence
    of operations. *)
From Stdlib Require Import ZArith Lia ZifyBool.
From stdpp Require Import base tactics list numbers option strings relations.
From S2P Require Import Prelude CString BlockDev NodeFs NodeFsSpec NodeFsUpdate NodeFsOps.

(** ** The bytes of a node *)

Lemma load_le32 z r : load32 (le32 z ++ r) 0 = u32 z.
Proof.
  unfold load32, le32, ch, u8, u32. simpl. rewrite !Z.shiftr_div_pow2, !Z.shiftl_mul_pow2 by lia.
  change 4294967296 with (256 * (256 * (256 * 256))). change (2 ^ 8) with 256.
  change (2 ^ 16) with (256 * 256). change (2 ^ 24) with (256 * (256 * 256)).
  rewrite !Z.rem_mul_r by lia. rewrite <-!Z.div_div by lia. ring.
Qed.

Lemma load32_drop b off : load32 b off = load32 (drop off b) 0.
Proof.
  unfold load32, ch. rewrite !nth_skipn. repeat f_equal; lia.
Qed.

Lemma le32_length z : length (le32 z) = 4%nat.
Proof. done. Qed.

Lemma node_bytes_length n : node_wf n → length (node_bytes n) = sizeof_node.
Proof.
  intros [[Hn _] [Hd _] _ _]. unfold node_bytes. rewrite !length_app, !le32_length, Hn, Hd. done.
Qed.

Lemma i32_u32 z : is_int z → i32 (u32 z) = z.
Proof.
  intros Hz. rewrite <-(i32_small z Hz) at 2. unfold i32. f_equal.
  unfold u32. by rewrite Z.mod_mod.
Qed.

Lemma drop_app_exact {A} (l k : list A) n : length l = n → drop n (l ++ k) = k.
Proof. intros <-. apply drop_app_length. Qed.

Lemma take_app_exact {A} (l k : list A) n : length l = n → take n (l ++ k) = l.
Proof. intros <-. apply take_app_length. Qed.

Lemma node_of_node_bytes n r : node_wf n → node_of_bytes (node_bytes n ++ r) = n.
Proof.
  intros [[Hn _] [Hd _] (Hu&Ht&Hp) Hs]. unfold node_of_bytes.
  set (b := node_bytes n ++ r).
  assert (H4 : drop 4 b = le32 (ntype n) ++ le32 (parent n) ++ name n ++ le32 (size n) ++ data n ++ r).
  { unfold b, node_bytes. by rewrite <-!app_assoc, drop_app_exact. }
  assert (H8 : drop 8 b = le32 (parent n) ++ name n ++ le32 (size n) ++ data n ++ r).
  { change (drop 8 b) with (drop (4 + 4) b). by rewrite <-drop_drop, H4, drop_app_exact. }
  assert (H12 : drop 12 b = name n ++ le32 (size n) ++ data n ++ r).
  { change (drop 12 b) with (drop (8 + 4) b). by rewrite <-drop_drop, H8, drop_app_exact. }
  assert (H28 : drop 28 b = le32 (size n) ++ data n ++ r).
  { change (drop 28 b) with (drop (12 + 16) b). by rewrite <-drop_drop, H12, drop_app_exact. }
  assert (H32 : drop 32 b = data n ++ r).
  { change (drop 32 b) with (drop (28 + 4) b). by rewrite <-drop_drop, H28, drop_app_exact. }
  rewrite (load32_drop b 4), (load32_drop b 8), (load32_drop b 28), H4, H8, H12, H28, H32.
  unfold b, node_bytes. rewrite <-!app_assoc, !load_le32, !i32_u32, u32_small by done.
  rewrite !take_app_exact by done. by destruct n.
Qed.

Lemma nodes_of_nodes_bytes ns r :
  Forall node_wf ns → nodes_of_bytes (length ns) (concat (map node_bytes ns) ++ r) = ns.
Proof.
  intros Hns. induction Hns as [|n ns Hn _ IH]; [done|]. cbn [length nodes_of_bytes map concat].
  rewrite <-app_assoc, (take_app_exact (node_bytes n)), (drop_app_exact (node_bytes n))
    by (by apply node_bytes_length).
  rewrite IH. f_equal. rewrite <-(app_nil_r (node_bytes n)). by apply node_of_node_bytes.
Qed.

Lemma nodes_bytes_length ns :
  Forall node_wf ns → length (concat (map node_bytes ns)) = (length ns * sizeof_node)%nat.
Proof.
  induction 1 as [|n ns Hn _ IH]; [done|]. cbn [map concat length].
  rewrite length_app, IH, node_bytes_length by done. lia.
Qed.

Lemma image_length magic fs :
  nodefs_ok fs → Z.of_nat (length (image_bytes magic (nodes fs))) = sizeof_image.
Proof.
  intros Hok. unfold image_bytes. rewrite length_app, le32_length.
  rewrite nodes_bytes_length by apply (fok_wf fs Hok). rewrite (fok_len fs Hok).
  unfold sizeof_image, FS_MAX_NODES, sizeof_node. lia.
Qed.

(** ** Blocks *)

(** The image takes 136 blocks and 4 bytes of the next. *)
Lemma image_size : sizeof_image = 69636.
Proof. reflexivity. Qed.
Lemma pfs_blocks : pfs_block_count = 137.
Proof. reflexivity. Qed.

Lemma sync_block_length src i : length (sync_block src i) = Z.to_nat BLOCKDEV_BLOCK_SIZE.
Proof.
  unfold sync_block. case_if; [rewrite memcpy_length|]; apply repeat_length.
Qed.

(** The bytes of the image that block [i] holds. *)
Lemma sync_block_take src i :
  0 ≤ i → Z.of_nat (length src) = sizeof_image → 0 < block_len i →
  take (Z.to_nat (block_len i)) (sync_block src i)
  = take (Z.to_nat (block_len i)) (drop (Z.to_nat (i * BLOCKDEV_BLOCK_SIZE)) src).
Proof.
  intros Hi Hs Hl. unfold sync_block. rewrite (proj2 (Z.ltb_lt _ _) Hl).
  assert (Hb : block_len i ≤ BLOCKDEV_BLOCK_SIZE ∧
               block_len i ≤ sizeof_image - i * BLOCKDEV_BLOCK_SIZE).
  { unfold block_len. case_if; lia. }
  unfold BLOCKDEV_BLOCK_SIZE in *.
  rewrite memcpy_spec; [|rewrite length_drop; lia|unfold zeros; rewrite repeat_length; lia].
  apply take_app_exact. rewrite length_take, length_drop. lia.
Qed.

Section disk.
Context {D : Type} `{BlockDev D} (stored : D → Z → list Z) {laws : BlockDevLaws D stored}.

Lemma sync_loop_stored n i src (d d' : D) :
  sync_loop n i src d = (true, d') →
  ∀ j, stored d' j = if (i <=? j) && (j <? i + Z.of_nat n) then sync_block src j else stored d j.
Proof.
  revert i d. induction n as [|n IH]; intros i d Hs j; cbn [sync_loop] in Hs.
  - injection Hs as <-. case_if; [lia|done].
  - destruct (blockdev_write i (sync_block src i) d) as [ok d1] eqn:Ew.
    destruct ok; [|done]. rewrite (IH (i + 1) d1 Hs j).
    destruct (decide (j = i)) as [->|Hne].
    + rewrite (write_stored (stored:=stored) i _ d d1 (sync_block_length src i) Ew). by do 2 case_if; try lia.
    + rewrite (write_other (stored:=stored) i _ d true d1 j Hne Ew). by do 2 case_if; try lia.
Qed.

(** The blocks hold the first [k] bytes of [img]; the loop rebuilds it. *)
Lemma load_loop_image n i img dst (d d' : D) dst' :
  0 ≤ i → Z.of_nat (length img) = sizeof_image → length dst = length img →
  (∀ j, i ≤ j < i + Z.of_nat n → stored d j = sync_block img j) →
  (i + Z.of_nat n - 1) * BLOCKDEV_BLOCK_SIZE < sizeof_image →
  take (Z.to_nat (i * BLOCKDEV_BLOCK_SIZE)) dst = take (Z.to_nat (i * BLOCKDEV_BLOCK_SIZE)) img →
  load_loop n i dst d = Some (dst', d') →
  length dst' = length img ∧
  take (Z.to_nat ((i + Z.of_nat n) * BLOCKDEV_BLOCK_SIZE)) dst'
  = take (Z.to_nat ((i + Z.of_nat n) * BLOCKDEV_BLOCK_SIZE)) img.
Proof.
  intros Hi Himg. revert i dst d Hi. induction n as [|n IH]; intros i dst d Hi Hl Hst Hlast Hpre Hload.
  - injection Hload as <- <-. by rewrite Z.add_0_r.
  - cbn [load_loop] in Hload. destruct (blockdev_read i d) as [[b|] d1] eqn:Er; [|done].
    replace (i + Z.of_nat (S n)) with (i + 1 + Z.of_nat n) in * by lia.
    assert (Hblen : 0 < block_len i) by (unfold block_len, BLOCKDEV_BLOCK_SIZE in *; case_if; lia).
    rewrite (proj2 (Z.ltb_lt _ _) Hblen) in Hload.
    assert (Hb : b = sync_block img i) by (rewrite (read_stored (stored:=stored) i d b d1 Er); apply Hst; lia).
    assert (Hcopy : take (Z.to_nat (i * BLOCKDEV_BLOCK_SIZE)) dst ++
        memcpy (Z.to_nat (block_len i)) b (drop (Z.to_nat (i * BLOCKDEV_BLOCK_SIZE)) dst)
      = take (Z.to_nat (i * BLOCKDEV_BLOCK_SIZE + block_len i)) img ++
        drop (Z.to_nat (i * BLOCKDEV_BLOCK_SIZE + block_len i)) dst).
    { subst b. pose proof (sync_block_take img i Hi Himg Hblen) as Ht.
      pose proof (sync_block_length img i) as Hbl.
      unfold block_len, BLOCKDEV_BLOCK_SIZE in *. case_if; rewrite memcpy_spec, Ht, Hpre
        by (rewrite ?Hbl, ?length_drop; lia);
      by rewrite Z2Nat.inj_add, app_assoc, take_take_drop, drop_drop by lia. }
    rewrite Hcopy in Hload.
    apply (IH (i + 1)) in Hload; [done|lia| | |done|].
    + rewrite length_app, length_take, length_drop.
      unfold block_len, BLOCKDEV_BLOCK_SIZE in *. case_if; lia.
    + intros j Hj. rewrite (read_preserves (stored:=stored) i d (Some b) d1 j Er). apply Hst. lia.
    + unfold block_len, BLOCKDEV_BLOCK_SIZE in *. case_if.
      * rewrite take_app_exact; [|rewrite length_take; lia]. f_equal. lia.
      * rewrite !take_ge; rewrite ?length_app, ?length_take, ?length_drop; try lia.
        rewrite drop_ge by lia. by rewrite app_nil_r.
Qed.

(** The reads succeed. *)
Definition readable : Prop := ∀ i (d1 : D), ∃ b d2, blockdev_read i d1 = (Some b, d2).

Lemma load_loop_total n i dst (d : D) :
  readable →
  ∃ r, load_loop n i dst d = Some r.
Proof.
  intros Hr. revert i dst d. induction n as [|n IH]; intros i dst d; [by eexists|].
  cbn [load_loop]. destruct (Hr i d) as (b&d2&->). apply IH.
Qed.

(** C28. A root file system written to the disk by [pfs_sync] comes back from
    [nodefs_init_instance], at the next boot, node for node, whatever the work
    buffer held: the image survives the trip through the device's blocks, the last
    of which it fills only in part. *)
Theorem pfs_roundtrip fs (d d' : D) work :
  nodefs_ok fs → persistent fs ≠ 0 → pfs_sync fs d = (true, d') →
  Z.of_nat (length work) = sizeof_image →
  readable →
  ∃ d'', nodefs_init_instance (persistent fs) work d'
         = Some (NodeFS (-1) (persistent fs) (nodes fs), d'').
Proof.
  intros Hok Hp Hs Hwork Hread. unfold pfs_sync in Hs.
  rewrite (proj2 (Z.eqb_neq _ _) Hp) in Hs.
  destruct (BLOCKDEV_BLOCK_COUNT <? pfs_block_count) eqn:Ec; [done|].
  set (img := image_bytes PFS_MAGIC (nodes fs)) in *.
  pose proof (image_length PFS_MAGIC fs Hok) as Hlen. fold img in Hlen.
  unfold nodefs_init_instance. rewrite (proj2 (Z.eqb_neq _ _) Hp), Ec.
  destruct (load_loop_total (Z.to_nat pfs_block_count) 0 work d' Hread) as [[img' d''] Hload].
  rewrite Hload.
  destruct (load_loop_image (Z.to_nat pfs_block_count) 0 img work d' d'' img')
    as [Hl' Himg]; [done|done|lia| | |done|done|].
  { intros j Hj. rewrite (sync_loop_stored _ 0 img d d' Hs j). case_if; [done|lia]. }
  { rewrite pfs_blocks, image_size. unfold BLOCKDEV_BLOCK_SIZE. lia. }
  assert (Heq : img' = img).
  { rewrite pfs_blocks in Himg. rewrite image_size in *. unfold BLOCKDEV_BLOCK_SIZE in Himg.
    rewrite !take_ge in Himg by lia. done. }
  rewrite Heq. unfold img at 1, image_bytes. rewrite load_le32.
  replace (u32 PFS_MAGIC =? PFS_MAGIC) with true by done. cbn [negb].
  assert (Hnodes : nodes_of_bytes (Z.to_nat FS_MAX_NODES) (drop 4 img) = nodes fs).
  { unfold img, image_bytes. rewrite drop_app_exact, <-(fok_len fs Hok) by done.
    rewrite <-(app_nil_r (concat _)). apply nodes_of_nodes_bytes, Hok. }
  rewrite Hnodes. unfold set_nodes. cbn [mount_idx persistent].
  destruct (fok_root fs Hok) as [(n&Hn&Hu&Ht) _]. exists d''.
  unfold node_at. cbn [nodes]. rewrite (nth_lookup_Some _ _ _ _ Hn), Ht.
  by rewrite (proj2 (is_used_true n) Hu).
Qed.
End disk.

(** ** The invariant over every session *)

Section sessions.
Context {D : Type} `{BlockDev D}.

(** The invariant after each operation. *)
Lemma nodefs_mkdir_step path fs (d : D) :
  nodefs_ok fs → Forall is_byte path → nodefs_ok (nodefs_mkdir path fs d).1.2.
Proof.
  intros Hok Hb. unfold nodefs_mkdir.
  destruct (nodefs_resolve_parent_and_leaf fs path) as [[par leaf]|] eqn:Ep; [|done].
  destruct (nodefs_find_child fs (Z.of_nat par) leaf) as [k|] eqn:Ef; [done|].
  pose proof (create_view FS_TYPE_DIR par leaf fs path d Hok Hb Ep Ef (or_intror eq_refl)) as Hc.
  destruct (create_node FS_TYPE_DIR par leaf fs d) as [[r fs'] d'].
  by destruct Hc as [(_&?&_)|(_&_&->&_)].
Qed.

Lemma open_node_step path node flags fs (d : D) :
  nodefs_ok fs → walk fs 0 (path_names path) = Some node →
  nodefs_ok (open_node node flags fs d).1.2.
Proof.
  intros Hok Hw. destruct (entry_of (node_at fs node)) as [|c] eqn:He.
  - unfold open_node. unfold entry_of in He.
    destruct (Z.eqb_spec (ntype (node_at fs node)) FS_TYPE_DIR) as [Ht|]; [|done]. by rewrite Ht.
  - pose proof (open_node_spec node flags fs path d c Hok Hw He) as Ho.
    destruct (open_node node flags fs d) as [[r fs'] d']. by destruct Ho as [? _].
Qed.

Lemma nodefs_open_step path flags fs (d : D) :
  nodefs_ok fs → Forall is_byte path → nodefs_ok (nodefs_open path flags fs d).1.2.
Proof.
  intros Hok Hb. unfold nodefs_open. set (fl := if _ =? 0 then _ else _).
  destruct (nodefs_resolve_path fs path) as [node|] eqn:Er.
  { apply (open_node_step path); [done|]. by apply (resolve_walk fs path node) in Er as [_ ?]. }
  destruct (Z.land fl O_CREAT =? 0); [done|].
  destruct (nodefs_resolve_parent_and_leaf fs path) as [[par leaf]|] eqn:Ep; [|done].
  destruct (nodefs_find_child fs (Z.of_nat par) leaf) as [k|] eqn:Ef; [done|].
  pose proof (create_view FS_TYPE_FILE par leaf fs path d Hok Hb Ep Ef (or_introl eq_refl)) as Hc.
  destruct (create_node FS_TYPE_FILE par leaf fs d) as [[r fs'] d'].
  destruct Hc as [(_&Hok'&idx&n&_&_&_&Hw&_&_&_&_&Hr)|(_&->&->&_)]; [|done].
  destruct r as [i|]; [|done]. destruct Hr as [?|[= ->]]; [done|]. by apply (open_node_step path).
Qed.

Lemma walk_cstr fs cur cs : walk fs cur (map cstr cs) = walk fs cur cs.
Proof.
  revert cur. induction cs as [|c cs IH]; intros cur; simpl; [done|].
  rewrite (find_child_cstr fs _ (cstr c) c) by apply cstr_idemp.
  by destruct (nodefs_find_child fs (Z.of_nat cur) c).
Qed.

(** A valid node is a file of the tree. *)
Lemma valid_node_file fs node :
  nodefs_ok fs → valid_node fs node = true →
  ∃ i cs c, node = Z.of_nat i ∧ walk fs 0 cs = Some i ∧ view fs cs = Some (EFile c) ∧
    Forall no_nul cs.
Proof.
  intros Hok Hv. unfold valid_node in Hv. rewrite !andb_true_iff, is_used_true in Hv.
  destruct Hv as [[[Hlo Hhi] Hu] Ht]. exists (Z.to_nat node).
  assert (Hl : (Z.to_nat node < length (nodes fs))%nat).
  { rewrite (fok_len fs Hok). unfold FS_MAX_NODES in *. lia. }
  destruct (fok_reach fs Hok _ _ (lookup_node_at fs _ Hl) Hu) as [cs Hcs].
  exists (map cstr cs), (contents (node_at fs (Z.to_nat node))).
  unfold view. rewrite walk_cstr, Hcs. unfold entry_of. rewrite (proj1 (Z.eqb_eq _ _) Ht).
  split; [lia|split; [done|split; [done|]]]. apply Forall_map, Forall_true. apply cstr_no_nul.
Qed.

Lemma nodefs_write_step node offset buf sz fs (d : D) :
  nodefs_ok fs → Forall is_byte buf → 0 ≤ offset < 4294967296 →
  0 ≤ sz ≤ Z.of_nat (length buf) → sz < 4294967296 →
  nodefs_ok (nodefs_write node offset buf sz fs d).1.2.
Proof.
  intros Hok Hb Ho Hsz Hs. destruct (valid_node fs node) eqn:Hv.
  - destruct (valid_node_file fs node Hok Hv) as (i&cs&c&->&Hw&Hc&_).
    destruct (file_node fs cs i c Hok Hw Hc) as (n&Hn&Hat&Hval&Hnok&Hwf&Ht&_).
    rewrite (nodefs_write_eq fs d i n) by (done || lia). case_if; [done|]. cbv zeta.
    destruct (written_spec fs i n offset buf (Z.min sz (512 - offset))) as [Hok' _];
      try done; try lia.
    by destruct (pfs_sync _ d).
  - unfold nodefs_write. by rewrite Hv.
Qed.

Lemma nodefs_unlink_step fdt path fs (d : D) :
  nodefs_ok fs → nodefs_ok (nodefs_unlink fdt path fs d).1.2.
Proof.
  intros Hok. unfold nodefs_unlink.
  destruct (nodefs_resolve_path fs path) as [i|] eqn:Er; [|done].
  destruct (resolve_walk fs path i Hok Er) as [_ Hw].
  destruct (Z.leb_spec (Z.of_nat i) 0); [done|].
  destruct (Z.eqb_spec (ntype (node_at fs i)) FS_TYPE_FILE) as [Ht|]; [|done]. cbn [negb].
  destruct (nodefs_is_node_open fdt fs (Z.of_nat i)); [done|].
  destruct (walk_used fs _ i Hok Hw) as (n&Hn&_). rewrite (node_at_lookup fs i n Hn) in Ht.
  pose proof (clear_node_spec fs path i d Hok Hw ltac:(lia)
    (λ c k, file_no_child fs i n c k Hok Hn Ht)) as Hc.
  destruct (clear_node i fs d) as [[r fs'] d']. by destruct Hc as [? _].
Qed.

Lemma nodefs_rmdir_step path fs (d : D) :
  nodefs_ok fs → nodefs_ok (nodefs_rmdir path fs d).1.2.
Proof.
  intros Hok. unfold nodefs_rmdir.
  destruct (nodefs_resolve_path fs path) as [i|] eqn:Er; [|done].
  destruct (resolve_walk fs path i Hok Er) as [_ Hw].
  destruct (Z.leb_spec (Z.of_nat i) 0); [done|].
  destruct (negb (ntype (node_at fs i) =? FS_TYPE_DIR)); [done|].
  destruct (nodefs_is_dir_empty fs (Z.of_nat i)) eqn:Ee; [|done]. cbn [negb].
  pose proof (clear_node_spec fs path i d Hok Hw ltac:(lia) (proj1 (dir_empty_spec fs i) Ee)) as Hc.
  destruct (clear_node i fs d) as [[r fs'] d']. by destruct Hc as [? _].
Qed.

(** A formatted file system holds the root only. *)
Lemma format_nodes fs0 i n :
  nodes (nodefs_format fs0) !! i = Some n → used n ≠ 0 →
  i = O ∧ n = Node 1 FS_TYPE_DIR (-1) (<[0%nat := 47]> (zeros 16)) 0 (zeros 512).
Proof.
  intros Hn Hu. destruct i as [|i]; [by injection Hn as <-|].
  cbn [nodes nodefs_format set_nodes] in Hn. rewrite lookup_cons_ne_0 in Hn by done.
  apply list_elem_of_lookup_2, list_elem_of_In, repeat_spec in Hn. by subst.
Qed.

Lemma nodefs_format_ok fs0 : nodefs_ok (nodefs_format fs0).
Proof.
  constructor.
  - done.
  - constructor; [|apply Forall_forall; intros n ->%list_elem_of_In%repeat_spec; apply zero_node_wf].
    constructor; cbn [name data used ntype parent size].
    + split; [done|]. apply Forall_insert; [apply zeros_bytes|unfold is_byte; lia].
    + split; [done|apply zeros_bytes].
    + unfold is_int, FS_TYPE_DIR. lia.
    + lia.
  - split; [by eexists|done].
  - intros i n Hn Hu Hi. apply format_nodes in Hn as [-> _]; [lia|done].
  - intros d c i j Hd (n&Hn&Hu&Hp&_) _. apply format_nodes in Hn as [-> ->]; [|done].
    simpl in Hp. lia.
  - intros i n Hn Hu. exists []. by apply format_nodes in Hn as [-> _].
Qed.

(** A change of the file system by one operation, with any arguments. *)
Inductive fs_step : nodefs * D → nodefs * D → Prop :=
| step_mkdir path fs d r fs' d' :
    Forall is_byte path → nodefs_mkdir path fs d = (r, fs', d') → fs_step (fs, d) (fs', d')
| step_open path flags fs d r fs' d' :
    Forall is_byte path → nodefs_open path flags fs d = (r, fs', d') →
    fs_step (fs, d) (fs', d')
| step_write node offset buf sz fs d r offset' fs' d' :
    Forall is_byte buf → 0 ≤ offset < 4294967296 → 0 ≤ sz ≤ Z.of_nat (length buf) →
    sz < 4294967296 → nodefs_write node offset buf sz fs d = (r, offset', fs', d') →
    fs_step (fs, d) (fs', d')
| step_unlink fdt path fs d r fs' d' :
    nodefs_unlink fdt path fs d = (r, fs', d') → fs_step (fs, d) (fs', d')
| step_rmdir path fs d r fs' d' :
    nodefs_rmdir path fs d = (r, fs', d') → fs_step (fs, d) (fs', d').

(** The same step taken by [e] on a well-formed file system leaves one. *)
Lemma fs_step_ok s s' : fs_step s s' → nodefs_ok s.1 → nodefs_ok s'.1.
Proof.
  intros Hstep Hok. destruct Hstep as [path fs d r fs' d' Hb He|path flags fs d r fs' d' Hb He|
    node offset buf sz fs d r offset' fs' d' Hb Ho Hsz Hs He|fdt path fs d r fs' d' He|
    path fs d r fs' d' He]; simpl in *.
  - pose proof (nodefs_mkdir_step path fs d Hok Hb) as H1. by rewrite He in H1.
  - pose proof (nodefs_open_step path flags fs d Hok Hb) as H1. by rewrite He in H1.
  - pose proof (nodefs_write_step node offset buf sz fs d Hok Hb Ho Hsz Hs) as H1.
    by rewrite He in H1.
  - pose proof (nodefs_unlink_step fdt path fs d Hok) as H1. by rewrite He in H1.
  - pose proof (nodefs_rmdir_step path fs d Hok) as H1. by rewrite He in H1.
Qed.

Lemma rtc_fs_step_ok s s' : rtc fs_step s s' → nodefs_ok s.1 → nodefs_ok s'.1.
Proof. induction 1; eauto using fs_step_ok. Qed.

(** C27. Whatever operations run on a freshly formatted file system, with whatever
    arguments and whatever failures of the disk, the node array stays well formed:
    every node in use is a file or a directory with a proper name of its own in an
    existing parent directory, all of them hang off the root, and files are at most
    512 bytes, zero beyond their size. *)
Theorem nodefs_session_ok fs0 (d0 : D) fs d :
  rtc fs_step (nodefs_format fs0, d0) (fs, d) → nodefs_ok fs.
Proof.
  intros Hrun. apply (rtc_fs_step_ok _ _ Hrun). apply nodefs_format_ok.
Qed.
End sessions.
