(* ===== verification/NodeFsTests.v ===== *)
(** * The theorems on the node file system at concrete inputs

    A volatile file system holding [/etc] and [/etc/motd], and a persistent one on
    a disk in memory, on which the hypotheses of the theorems of [NodeFsOps] and
    [NodeFsDisk] hold. *)
From Stdlib Require Import ZArith Lia ZifyBool String.
From stdpp Require Import base tactics list numbers option strings relations.
From S2P Require Import Prelude CString BlockDev NodeFs NodeFsSpec NodeFsUpdate NodeFsOps NodeFsDisk.
#[local] Open Scope Z_scope.

Definition fs1 : nodefs := (nodefs_mkdir (bytes "/etc") demo_fs (blank_disk 0)).1.2.
Definition fs2 : nodefs := (nodefs_open (bytes "/etc//motd") 18 fs1 (blank_disk 0)).1.2.
Definition sample_fs : nodefs := (nodefs_write 2 0 (bytes "hello") 5 fs2 (blank_disk 0)).1.2.

Lemma sample_ok : nodefs_ok sample_fs.
Proof.
  apply nodefs_write_step; [|apply is_bytes_bytes|lia|simpl; lia|lia].
  apply nodefs_open_step; [|apply is_bytes_bytes].
  apply nodefs_mkdir_step; [apply nodefs_format_ok|apply is_bytes_bytes].
Qed.

Definition motd : list (list Z) := [bytes "etc"; bytes "motd"].

Lemma motd_walk : walk sample_fs 0 motd = Some 2%nat.
Proof. vm_compute. reflexivity. Qed.

Lemma motd_view : view sample_fs motd = Some (EFile (bytes "hello")).
Proof. vm_compute. reflexivity. Qed.

Lemma motd_no_nul : Forall no_nul motd.
Proof. repeat constructor; done. Qed.

(** ** Witnesses *)

Lemma nodefs_mkdir_spec_witness :
  let '(ok, fs', d') := nodefs_mkdir (bytes "/etc/rc.d") sample_fs (blank_disk 0) in
  can_create sample_fs (bytes "/etc/rc.d") ∧
    updates sample_fs fs' (bytes "/etc/rc.d") (Some EDir) ok (blank_disk 0) d' ∨
  ¬ can_create sample_fs (bytes "/etc/rc.d") ∧ ok = false ∧ fs' = sample_fs ∧ d' = blank_disk 0.
Proof. exact (nodefs_mkdir_spec (bytes "/etc/rc.d") sample_fs (blank_disk 0) sample_ok (is_bytes_bytes _)). Defined.

Lemma nodefs_open_spec_witness :
  nodefs_ok (nodefs_open (bytes "/etc/motd") (O_WRONLY + O_TRUNC) sample_fs (blank_disk 0)).1.2.
Proof.
  pose proof (nodefs_open_spec (bytes "/etc/motd") (O_WRONLY + O_TRUNC) _ (blank_disk 0)
    sample_ok (is_bytes_bytes _)) as H.
  destruct (nodefs_open _ _ _ _) as [[r fs'] d']. exact (proj1 H).
Defined.

Lemma nodefs_read_spec_witness :
  nodefs_read 2 1 100 sample_fs = (4, 5, bytes "ello").
Proof.
  exact (nodefs_read_spec sample_fs motd 2 (bytes "hello") 1 100 sample_ok motd_walk motd_view
    ltac:(lia) ltac:(lia)).
Defined.

Lemma nodefs_write_spec_witness :
  nodefs_ok (nodefs_write 2 7 (bytes "world") 5 sample_fs (blank_disk 0)).1.2.
Proof.
  pose proof (nodefs_write_spec sample_fs (blank_disk 0) motd 2 (bytes "hello") 7 (bytes "world") 5
    sample_ok motd_walk motd_view motd_no_nul ltac:(lia) ltac:(simpl; lia) ltac:(lia)
    (is_bytes_bytes _)) as H.
  change (Z.of_nat 2) with 2 in H.
  destruct (nodefs_write _ _ _ _ _ _) as [[[r o] fs'] d']. exact (proj1 (proj2 H)).
Defined.

(** A descriptor on [/etc/motd] keeps it from being unlinked. *)
Lemma nodefs_unlink_spec_witness :
  (nodefs_unlink [[Fd 1 0 2 0 1]] (bytes "/etc/motd")
     (NodeFS 0 0 (nodes sample_fs)) (blank_disk 0)).1.1 = false ∧
  let '(ok, fs', d') := nodefs_unlink [] (bytes "/etc/motd") sample_fs (blank_disk 0) in
  match lookup_path sample_fs (bytes "/etc/motd") with
  | Some (EFile _) =>
      ∃ i, walk sample_fs 0 (path_names (bytes "/etc/motd")) = Some i ∧
        if nodefs_is_node_open [] sample_fs (Z.of_nat i)
        then ok = false ∧ fs' = sample_fs ∧ d' = blank_disk 0
        else updates sample_fs fs' (bytes "/etc/motd") None ok (blank_disk 0) d'
  | _ => ok = false ∧ fs' = sample_fs ∧ d' = blank_disk 0
  end.
Proof.
  split; [vm_compute; reflexivity|].
  exact (nodefs_unlink_spec [] (bytes "/etc/motd") sample_fs (blank_disk 0) sample_ok).
Defined.

Lemma nodefs_rmdir_spec_witness :
  let '(ok, fs', d') := nodefs_rmdir (bytes "/etc") sample_fs (blank_disk 0) in
  let cs := path_names (bytes "/etc") in
  let removable := lookup_path sample_fs (bytes "/etc") = Some EDir ∧ cs ≠ [] ∧
                   ∀ c, view sample_fs (cs ++ [c]) = None in
  removable ∧ updates sample_fs fs' (bytes "/etc") None ok (blank_disk 0) d' ∨
  ¬ removable ∧ ok = false ∧ fs' = sample_fs ∧ d' = blank_disk 0.
Proof. exact (nodefs_rmdir_spec (bytes "/etc") sample_fs (blank_disk 0) sample_ok). Defined.

Lemma nodefs_readdir_spec_witness :
  nodefs_readdir (bytes "/etc") 0 sample_fs ≠ None ∧
  ∃ es : list fs_dirent, ∀ index, nodefs_readdir (bytes "/etc") index sample_fs =
                 if index <? 0 then None else es !! Z.to_nat index.
Proof.
  split; [vm_compute; discriminate|].
  destruct (nodefs_readdir_spec sample_fs (bytes "/etc") sample_ok) as (es&H&_). exact (ex_intro _ es H).
Defined.

Definition disk0 : ramdisk := blank_disk 1000.
Definition pfs1 : nodefs := (nodefs_mkdir (bytes "/tmp") (nodefs_format (NodeFS 0 1 [])) disk0).1.2.

Lemma pfs_roundtrip_witness :
  ∃ d'', nodefs_init_instance 1 (zeros (Z.to_nat sizeof_image)) (pfs_sync pfs1 disk0).2
         = Some (NodeFS (-1) 1 (nodes pfs1), d'').
Proof.
  apply (pfs_roundtrip (λ d i, fit_block (blocks d i)) pfs1 disk0).
  - apply nodefs_mkdir_step; [apply nodefs_format_ok|apply is_bytes_bytes].
  - discriminate.
  - assert (H : (pfs_sync pfs1 disk0).1 = true) by (vm_compute; reflexivity).
    destruct (pfs_sync pfs1 disk0) as [ok d']. simpl in H. by rewrite H.
  - unfold zeros. rewrite repeat_length, image_size. lia.
  - intros i d. exact (ex_intro _ _ (ex_intro _ _ eq_refl)).
Defined.

Lemma nodefs_session_ok_witness : nodefs_ok fs2.
Proof.
  assert (H1 : nodefs_mkdir (bytes "/etc") demo_fs (blank_disk 0) = (true, fs1, blank_disk 0))
    by (vm_compute; reflexivity).
  assert (H2 : nodefs_open (bytes "/etc//motd") 18 fs1 (blank_disk 0)
               = (Some 2%nat, fs2, blank_disk 0)) by (vm_compute; reflexivity).
  apply (nodefs_session_ok (NodeFS 0 0 []) (blank_disk 0) fs2 (blank_disk 0)).
  eapply rtc_l; [|apply rtc_once].
  - exact (step_mkdir _ _ _ _ _ _ (is_bytes_bytes _) H1).
  - exact (step_open _ _ _ _ _ _ _ (is_bytes_bytes _) H2).
Defined.
