(* ===== verification/Vfs.v ===== *)
(** * The virtual file system ([src/kernel/fs/fs.c], [vfs_*] and [fs_*])

    The descriptor table, the mount table and the three file systems mounted on
    [/], [/tmp] and [/proc].  Every mount uses the table of operations [nodefs_ops],
    so a mount is the file system it points to.  A path argument is [None] for a NULL
    pointer; a result is the [int] the function returns, with the bytes it stores
    through its pointer arguments. *)
From Stdlib Require Import ZArith Lia ZifyBool String.
From stdpp Require Import base tactics list numbers option.
From S2P Require Import Prelude CString BlockDev NodeFs.
#[local] Open Scope Z_scope.

Definition VFS_MOUNT_MAX : Z := 4.

(** What [mount.ctx] points to. *)
Inductive fs_id := Rootfs | Tmpfs | Procfs.

#[export] Instance fs_id_eq_dec : EqDecision fs_id.
Proof. solve_decision. Defined.

(** [m_ctx] is [None] for NULL, which only a mount that is not in use holds. *)
Record vfs_mount_t := Mount {
  m_used : Z; m_path : list Z; m_path_len : Z; m_ctx : option fs_id
}.

Definition no_mount : vfs_mount_t := Mount 0 (zeros 64) 0 None.

Definition no_fd : vfs_fd := Fd 0 0 0 0 0.

(** What [fs_close] and [fs_on_process_recycle] leave. *)
Definition closed_fd : vfs_fd := Fd 0 (-1) (-1) 0 0.

(** The outcome of [fs_read]: a return value with the bytes stored, or a read of the
    console, which blocks and is carried out by the caller of this model; of
    [fs_write]: a return value and the characters put on the console. *)
Inductive read_result := ReadRet (ret : Z) (b : list Z) | ReadConsole (size : Z).

(** ** Mounts *)

(** [for (i = 0; i < m->path_len; i++) if (path[i] != m->path[i]) return 0;], from
    the two pointers on. *)
Fixpoint match_loop (n : nat) (path mpath : list Z) : bool :=
  match n with
  | O => true
  | S n' => if negb (ch path 0 =? ch mpath 0) then false else match_loop n' (tail path) (tail mpath)
  end.

Definition vfs_match_mount (m : vfs_mount_t) (path : list Z) : bool :=
  if (m_path_len m =? 1) && (ch (m_path m) 0 =? 47) then true
  else if negb (match_loop (Z.to_nat (m_path_len m)) path (m_path m)) then false
  else
    let next := ch path (Z.to_nat (m_path_len m)) in
    (next =? 0) || (next =? 47).

(** The loop of [vfs_resolve_mount] over the mounts from index [i] on. *)
Fixpoint best_mount (ms : list vfs_mount_t) (i : nat) (path : list Z)
    (best : option nat) (best_len : Z) : option nat * Z :=
  match ms with
  | [] => (best, best_len)
  | m :: ms' =>
      if m_used m =? 0 then best_mount ms' (S i) path best best_len
      else if negb (vfs_match_mount m path) then best_mount ms' (S i) path best best_len
      else if best_len <? m_path_len m
      then best_mount ms' (S i) path (Some i) (m_path_len m)
      else best_mount ms' (S i) path best best_len
  end.

Definition vfs_resolve_mount (ms : list vfs_mount_t) (path : option (list Z))
  : option (nat * list Z) :=
  let! path := path in
  if negb (ch path 0 =? 47) then None
  else
    let '(best, best_len) := best_mount ms 0 path None (-1) in
    let! m := best in
    let subpath :=
      if best_len =? 1 then path
      else
        let subpath := drop (Z.to_nat best_len) path in
        if ch subpath 0 =? 0 then [47] else subpath in
    if negb (ch subpath 0 =? 47) then None else Some (m, subpath).

Section vfs.
Context {D : Type} `{BlockDev D}.

Record vfs := Vfs {
  fd_table : list (list vfs_fd);
  mounts : list vfs_mount_t;
  rootfs : nodefs;
  tmpfs : nodefs;
  procfs : nodefs;
  disk : D
}.

Definition get_fs (v : vfs) (c : fs_id) : nodefs :=
  match c with Rootfs => rootfs v | Tmpfs => tmpfs v | Procfs => procfs v end.

(** The file system and the device after an operation on [c]. *)
Definition set_fs (v : vfs) (c : fs_id) (fs : nodefs) (d : D) : vfs :=
  match c with
  | Rootfs => Vfs (fd_table v) (mounts v) fs (tmpfs v) (procfs v) d
  | Tmpfs => Vfs (fd_table v) (mounts v) (rootfs v) fs (procfs v) d
  | Procfs => Vfs (fd_table v) (mounts v) (rootfs v) (tmpfs v) fs d
  end.

Definition set_fds (v : vfs) (t : list (list vfs_fd)) : vfs :=
  Vfs t (mounts v) (rootfs v) (tmpfs v) (procfs v) (disk v).

Definition mount_at (v : vfs) (i : nat) : vfs_mount_t := nth i (mounts v) no_mount.

(** The file system of mount [i]; the default is that of no mount in use. *)
Definition mount_ctx (v : vfs) (i : nat) : fs_id :=
  match m_ctx (mount_at v i) with Some c => c | None => Rootfs end.

Definition fds_of (v : vfs) (pid : Z) : list vfs_fd := nth (Z.to_nat pid) (fd_table v) [].

Definition fd_at (v : vfs) (pid fd : Z) : vfs_fd := nth (Z.to_nat fd) (fds_of v pid) no_fd.

Definition set_row (v : vfs) (pid : Z) (row : list vfs_fd) : vfs :=
  set_fds v (<[Z.to_nat pid := row]> (fd_table v)).

Definition set_fd (v : vfs) (pid fd : Z) (f : vfs_fd) : vfs :=
  set_row v pid (<[Z.to_nat fd := f]> (fds_of v pid)).

Definition bad_pid (pid : Z) : bool := (pid <? 0) || (PROCS_MAX <=? pid).
Definition bad_fd (fd : Z) : bool := (fd <? 0) || (FS_FD_MAX <=? fd).

Definition vfs_mount (path : list Z) (ctx : fs_id) (v : vfs) : bool * vfs :=
  let path_len := str_len path in
  if (path_len <=? 0) || (FS_PATH_MAX <=? path_len) || negb (ch path 0 =? 47) then (false, v)
  else
    match first_idx (λ m, m_used m =? 0) (mounts v) with
    | None => (false, v)
    | Some i =>
        let m := Mount 1 (memcpy (Z.to_nat path_len) path (zeros 64)) path_len (Some ctx) in
        let fs := get_fs v ctx in
        let v := Vfs (fd_table v) (<[i := m]> (mounts v)) (rootfs v) (tmpfs v) (procfs v) (disk v) in
        (true, set_fs v ctx (NodeFS (Z.of_nat i) (persistent fs) (nodes fs)) (disk v))
    end.

Definition vfs_alloc_fd (pid mount_idx node_index offset flags : Z) (v : vfs) : Z * vfs :=
  if bad_pid pid then (-1, v)
  else
    match first_idx (λ f, fd_used f =? 0) (fds_of v pid) with
    | None => (-1, v)
    | Some fd =>
        (Z.of_nat fd, set_fd v pid (Z.of_nat fd) (Fd 1 mount_idx node_index offset flags))
    end.

(** [if (nodefs_resolve_path(&rootfs, path) < 0) nodefs_mkdir(&rootfs, path);] *)
Definition ensure_mountpoint (path : list Z) (v : vfs) : vfs :=
  match nodefs_resolve_path (rootfs v) path with
  | Some _ => v
  | None =>
      let '(_, fs, d) := nodefs_mkdir path (rootfs v) (disk v) in set_fs v Rootfs fs d
  end.

(** [None] where [fs_init] panics; [img] is the static work buffer. *)
Definition fs_init (img : list Z) (d : D) : option vfs :=
  let fds := repeat (repeat no_fd 16) 64 in
  let! d := blockdev_init d in
  let! (root, d) := nodefs_init_instance 1 img d in
  let! (tmp, d) := nodefs_init_instance 0 img d in
  let! (proc, d) := nodefs_init_instance 0 img d in
  let v := Vfs fds (repeat no_mount 4) root tmp proc d in
  let '(ok, v) := vfs_mount (bytes "/") Rootfs v in
  if negb ok then None else
  let v := ensure_mountpoint (bytes "/tmp") v in
  let '(ok, v) := vfs_mount (bytes "/tmp") Tmpfs v in
  if negb ok then None else
  let v := ensure_mountpoint (bytes "/proc") v in
  let '(ok, v) := vfs_mount (bytes "/proc") Procfs v in
  if negb ok then None else Some v.

(** ** The operations *)

Definition fs_fork_copy_fds (parent_pid child_pid : Z) (v : vfs) : Z * vfs :=
  if bad_pid parent_pid then (-1, v)
  else if bad_pid child_pid then (-1, v)
  else (0, set_row v child_pid (fds_of v parent_pid)).

Definition fs_open (pid : Z) (path : option (list Z)) (flags : Z) (v : vfs) : Z * vfs :=
  if bad_pid pid then (-1, v)
  else
    match vfs_resolve_mount (mounts v) path with
    | None => (-1, v)
    | Some (m, subpath) =>
        let c := mount_ctx v m in
        let '(r, fs, d) := nodefs_open subpath flags (get_fs v c) (disk v) in
        let v := set_fs v c fs d in
        match r with
        | None => (-1, v)
        | Some node => vfs_alloc_fd pid (Z.of_nat m) (Z.of_nat node) 0 flags v
        end
    end.

Definition fs_close (pid fd : Z) (v : vfs) : Z * vfs :=
  if bad_pid pid then (-1, v)
  else if bad_fd fd || (fd_used (fd_at v pid fd) =? 0) then (-1, v)
  else (0, set_fd v pid fd closed_fd).

(** The test of a descriptor's mount that [fs_read] and [fs_write] share. *)
Definition bad_mount (v : vfs) (i : Z) : bool :=
  (i <? 0) || (VFS_MOUNT_MAX <=? i) || (m_used (mount_at v (Z.to_nat i)) =? 0).

Definition with_offset (f : vfs_fd) (offset : Z) : vfs_fd :=
  Fd (fd_used f) (fd_mount f) (fd_node f) offset (fd_flags f).

(** [has_buf] is [buf != NULL]. *)
Definition fs_read (pid fd : Z) (has_buf : bool) (sz : Z) (v : vfs) : read_result * vfs :=
  if bad_pid pid || negb has_buf then (ReadRet (-1) [], v)
  else if bad_fd fd then (ReadRet (-1) [], v)
  else
    let f := fd_at v pid fd in
    if fd_used f =? 0 then
      ((if fd =? 0 then if sz =? 0 then ReadRet 0 [] else ReadConsole sz
        else ReadRet (-1) []), v)
    else if Z.land (fd_flags f) O_RDONLY =? 0 then (ReadRet (-1) [], v)
    else if bad_mount v (fd_mount f) then (ReadRet (-1) [], v)
    else
      let fs := get_fs v (mount_ctx v (Z.to_nat (fd_mount f))) in
      let '(r, offset, b) := nodefs_read (fd_node f) (fd_offset f) sz fs in
      (ReadRet r b, set_fd v pid fd (with_offset f offset)).

(** The return value and what goes to the console. *)
Definition fs_write (pid fd : Z) (buf : option (list Z)) (sz : Z) (v : vfs)
  : Z * list Z * vfs :=
  match buf with
  | None => (-1, [], v)
  | Some buf =>
      if bad_pid pid then (-1, [], v)
      else if bad_fd fd then (-1, [], v)
      else
        let f := fd_at v pid fd in
        if fd_used f =? 0 then
          (if fd =? 1 then (i32 sz, take (Z.to_nat sz) buf, v) else (-1, [], v))
        else if Z.land (fd_flags f) O_WRONLY =? 0 then (-1, [], v)
        else if bad_mount v (fd_mount f) then (-1, [], v)
        else
          let c := mount_ctx v (Z.to_nat (fd_mount f)) in
          let '(r, offset, fs, d) :=
            nodefs_write (fd_node f) (fd_offset f) buf sz (get_fs v c) (disk v) in
          (r, [], set_fd (set_fs v c fs d) pid fd (with_offset f offset))
  end.

(** An operation that only takes a path, on the file system the path is in. *)
Definition on_mount (path : option (list Z)) (v : vfs)
    (op : list Z → nodefs → D → bool * nodefs * D) : Z * vfs :=
  match vfs_resolve_mount (mounts v) path with
  | None => (-1, v)
  | Some (m, subpath) =>
      let c := mount_ctx v m in
      let '(ok, fs, d) := op subpath (get_fs v c) (disk v) in
      (if ok then 0 else -1, set_fs v c fs d)
  end.

Definition fs_mkdir (path : option (list Z)) (v : vfs) : Z * vfs :=
  on_mount path v nodefs_mkdir.

Definition fs_unlink (path : option (list Z)) (v : vfs) : Z * vfs :=
  on_mount path v (nodefs_unlink (fd_table v)).

Definition fs_rmdir (path : option (list Z)) (v : vfs) : Z * vfs :=
  on_mount path v nodefs_rmdir.

(** [has_out] is [out != NULL]. *)
Definition fs_readdir (path : option (list Z)) (index : Z) (has_out : bool) (v : vfs)
  : Z * option fs_dirent :=
  if negb has_out || (index <? 0) then (-1, None)
  else
    match vfs_resolve_mount (mounts v) path with
    | None => (-1, None)
    | Some (m, subpath) =>
        match nodefs_readdir subpath index (get_fs v (mount_ctx v m)) with
        | None => (-1, None)
        | Some e => (0, Some e)
        end
    end.

Definition fs_dup2 (pid old_fd new_fd : Z) (v : vfs) : Z * vfs :=
  if bad_pid pid then (-1, v)
  else if bad_fd old_fd || (fd_used (fd_at v pid old_fd) =? 0) then (-1, v)
  else if bad_fd new_fd then (-1, v)
  else if old_fd =? new_fd then (new_fd, v)
  else
    let '(r, v) :=
      if negb (fd_used (fd_at v pid new_fd) =? 0) then fs_close pid new_fd v else (0, v) in
    if r <? 0 then (-1, v)
    else
      let f := fd_at v pid old_fd in
      (new_fd, set_fd v pid new_fd (Fd 1 (fd_mount f) (fd_node f) (fd_offset f) (fd_flags f))).

Definition fs_on_process_recycle (pid : Z) (v : vfs) : vfs :=
  if bad_pid pid then v else set_row v pid (map (λ _, closed_fd) (fds_of v pid)).

Definition fs_get_pfs_image_blocks : Z := u32 pfs_block_count.

(** The mount and the node of a directory. *)
Definition fs_get_path_entry (path : option (list Z)) (v : vfs) : option (Z * Z) :=
  match vfs_resolve_mount (mounts v) path with
  | None => None
  | Some (m, subpath) =>
      let fs := get_fs v (mount_ctx v m) in
      let! node := nodefs_resolve_path fs subpath in
      if negb (ntype (node_at fs node) =? FS_TYPE_DIR) then None
      else Some (mount_idx fs, Z.of_nat node)
  end.

Definition fs_get_root_entry (v : vfs) : option (Z * Z) :=
  match vfs_resolve_mount (mounts v) (Some (bytes "/")) with
  | None => None
  | Some (m, _) =>
      let fs := get_fs v (mount_ctx v m) in
      let! node := nodefs_resolve_path fs (bytes "/") in
      if negb (ntype (node_at fs node) =? FS_TYPE_DIR) then None
      else Some (mount_idx fs, Z.of_nat node)
  end.
End vfs.
Arguments vfs : clear implicits.

(** Two processes, a file on each of two file systems. *)
Example vfs_session :
  (let! v := fs_init (zeros (Z.to_nat sizeof_image)) (blank_disk 2000) in
   let '(r1, v) := fs_mkdir (Some (bytes "/tmp/a")) v in
   let '(fd1, v) := fs_open 3 (Some (bytes "/tmp/a/f")) 18 v in
   let '(w1, _, v) := fs_write 3 fd1 (Some (bytes "one")) 3 v in
   let '(fd2, v) := fs_open 4 (Some (bytes "/tmp2")) 18 v in
   let '(fd3, v) := fs_open 3 (Some (bytes "/tmp/a/f")) 1 v in
   let '(r2, v) := fs_dup2 3 fd3 7 v in
   let '(rd, v) := fs_read 3 7 true 100 v in
   let '(u1, v) := fs_unlink (Some (bytes "/tmp/a/f")) v in
   let v := fs_on_process_recycle 3 v in
   let '(u2, v) := fs_unlink (Some (bytes "/tmp/a/f")) v in
   Some (r1, fd1, w1, fd2, fd3, r2, rd, (u1, u2), fs_get_path_entry (Some (bytes "/tmp/a")) v))
  = Some (0, 0, 3, 0, 1, 7, ReadRet 3 (bytes "one"), (-1, 0), Some (1, 1)).
Proof. vm_compute. reflexivity. Qed.
