(* ===== verification/VfsSpec.v ===== *)
(** * The virtual file system: invariant and theorems

    Which mount a path is resolved to; that no descriptor ever dangles, whatever
    sequence of operations the processes perform; which descriptors an operation
    touches. *)
From Stdlib Require Import ZArith Lia ZifyBool String.
From stdpp Require Import base tactics list numbers option strings relations.
From S2P Require Import Prelude CString BlockDev NodeFs NodeFsSpec NodeFsUpdate NodeFsOps NodeFsDisk Vfs.
#[local] Open Scope Z_scope.

(** ** What the operations on nodes keep

    [keeps fs fs']: the mount is the same and every file with an index still is
    one; [keeps_but P fs fs']: except perhaps those in [P]. *)
Definition keeps_but (P : Z → Prop) (fs fs' : nodefs) : Prop :=
  mount_idx fs' = mount_idx fs ∧
  ∀ j, ¬ P j → valid_node fs j = true → valid_node fs' j = true.

Definition keeps (fs fs' : nodefs) : Prop := keeps_but (λ _, False) fs fs'.

#[export] Instance keeps_preorder : PreOrder keeps.
Proof.
  split; [done|]. intros f g h [H1 H2] [H3 H4]. split; [congruence|]. eauto.
Qed.

Lemma keeps_valid fs fs' j : keeps fs fs' → valid_node fs j = true → valid_node fs' j = true.
Proof. intros [_ Hk] Hj. by apply Hk; [intros []|]. Qed.

Lemma node_at_set_node_ne fs i n j : j ≠ i → node_at (set_node fs i n) j = node_at fs j.
Proof. intros Hne. unfold node_at. simpl. by rewrite !nth_lookup, list_lookup_insert_ne. Qed.

Lemma valid_set_node_ne fs i n j :
  j ≠ Z.of_nat i → valid_node fs j = true → valid_node (set_node fs i n) j = true.
Proof.
  intros Hne Hv. unfold valid_node in *. rewrite node_at_set_node_ne; [done|]. lia.
Qed.

Lemma valid_set_node_same fs i n j :
  used n = used (node_at fs i) → ntype n = ntype (node_at fs i) →
  valid_node (set_node fs i n) j = valid_node fs j.
Proof.
  intros Hu Ht. unfold valid_node. destruct (decide (Z.to_nat j = i)) as [<-|Hne].
  - destruct (decide (Z.to_nat j < length (nodes fs))%nat) as [Hl|Hl].
    + rewrite node_at_set_node, decide_True by done. unfold is_used. by rewrite Hu, Ht.
    + unfold node_at. simpl. by rewrite list_insert_ge by lia.
  - by rewrite node_at_set_node_ne.
Qed.

Lemma unused_not_valid fs i :
  is_used (node_at fs i) = false → valid_node fs (Z.of_nat i) = false.
Proof. intros Hu. unfold valid_node. rewrite Nat2Z.id, Hu. by rewrite andb_false_r. Qed.

Section ops.
Context {D : Type} `{BlockDev D}.

Lemma create_node_keeps ty par leaf fs (d : D) : keeps fs (create_node ty par leaf fs d).1.2.
Proof.
  unfold create_node, nodefs_alloc_node.
  destruct (first_idx (λ n, negb (is_used n)) (tail (nodes fs))) as [i|] eqn:Ei; [|done].
  apply first_idx_Some in Ei as [(old&Hold&Hfree) _]. rewrite lookup_tail in Hold.
  apply negb_true_iff in Hfree. rewrite <-(node_at_lookup fs (S i) old Hold) in Hfree.
  destruct (copy_name _ leaf) as [ok nm]. cbv zeta.
  assert (Hk : ∀ n n', keeps fs (set_node (set_node fs (S i) n) (S i) n')).
  { intros n n'. split; [done|]. intros j _ Hj.
    assert (j ≠ Z.of_nat (S i)).
    { intros ->. by rewrite unused_not_valid in Hj. }
    by repeat apply valid_set_node_ne. }
  destruct ok; cbn [negb]; [|apply Hk].
  match goal with |- context [pfs_sync ?f d] => destruct (pfs_sync f d) as [ok d'] end. apply Hk.
Qed.

Lemma mkdir_keeps path fs (d : D) : keeps fs (nodefs_mkdir path fs d).1.2.
Proof.
  unfold nodefs_mkdir. destruct (nodefs_resolve_parent_and_leaf fs path) as [[par leaf]|]; [|done].
  destruct (nodefs_find_child _ _ _); [done|].
  pose proof (create_node_keeps FS_TYPE_DIR par leaf fs d) as Hk.
  by destruct (create_node FS_TYPE_DIR par leaf fs d) as [[r fs'] d'].
Qed.

Lemma open_node_keeps node flags fs (d : D) : keeps fs (open_node node flags fs d).1.2.
Proof.
  unfold open_node. case_if; [done|]. case_if; [|done]. cbv zeta.
  match goal with |- context [pfs_sync ?f d] => destruct (pfs_sync f d) as [ok d'] end.
  split; [done|]. intros j _ Hj. simpl. by rewrite valid_set_node_same.
Qed.

Lemma open_keeps path flags fs (d : D) : keeps fs (nodefs_open path flags fs d).1.2.
Proof.
  unfold nodefs_open. set (fl := if _ =? 0 then _ else _).
  destruct (nodefs_resolve_path fs path); [apply open_node_keeps|]. case_if; [done|].
  destruct (nodefs_resolve_parent_and_leaf fs path) as [[par leaf]|]; [|done].
  destruct (nodefs_find_child _ _ _); [done|].
  pose proof (create_node_keeps FS_TYPE_FILE par leaf fs d) as Hk.
  destruct (create_node FS_TYPE_FILE par leaf fs d) as [[[i|] fs'] d']; [|done].
  etrans; [exact Hk|apply open_node_keeps].
Qed.

Lemma write_keeps node offset buf sz fs (d : D) :
  keeps fs (nodefs_write node offset buf sz fs d).1.2.
Proof.
  unfold nodefs_write. case_if; [done|]. case_if; [done|]. cbv zeta.
  match goal with |- context [pfs_sync ?f d] => destruct (pfs_sync f d) as [ok d'] end.
  split; [done|]. intros j _ Hj. simpl. by rewrite valid_set_node_same.
Qed.

Lemma clear_node_keeps i fs (d : D) :
  keeps_but (λ j, j = Z.of_nat i) fs (clear_node i fs d).1.2.
Proof.
  unfold clear_node. destruct (pfs_sync _ d) as [ok d']. split; [done|].
  intros j Hj Hv. by apply valid_set_node_ne.
Qed.

(** An unlinked node is not open. *)
Lemma unlink_keeps fdt path fs (d : D) :
  keeps_but (λ j, nodefs_is_node_open fdt fs j = false) fs (nodefs_unlink fdt path fs d).1.2.
Proof.
  unfold nodefs_unlink. destruct (nodefs_resolve_path fs path) as [i|]; [|done].
  do 2 (case_if; [done|]). destruct (nodefs_is_node_open fdt fs (Z.of_nat i)) eqn:Ho; [done|].
  destruct (clear_node_keeps i fs d) as [Hm Hk]. split; [done|].
  intros j Hj. apply Hk. intros ->. done.
Qed.

Lemma rmdir_keeps path fs (d : D) : keeps fs (nodefs_rmdir path fs d).1.2.
Proof.
  unfold nodefs_rmdir. destruct (nodefs_resolve_path fs path) as [i|]; [|done].
  case_if; [done|].
  destruct (Z.eqb_spec (ntype (node_at fs i)) FS_TYPE_DIR) as [Ht|]; [cbn [negb]|done].
  case_if; [done|]. destruct (clear_node_keeps i fs d) as [Hm Hk]. split; [done|].
  intros j _ Hj. apply Hk; [|done]. intros ->. unfold valid_node in Hj.
  rewrite Nat2Z.id, Ht, andb_false_r in Hj. done.
Qed.

Lemma open_node_valid path node flags fs (d : D) i :
  nodefs_ok fs → walk fs 0 (path_names path) = Some node →
  (open_node node flags fs d).1.1 = Some i →
  valid_node (open_node node flags fs d).1.2 (Z.of_nat i) = true.
Proof.
  intros Hok Hw. destruct (entry_of (node_at fs node)) as [|c] eqn:He.
  - unfold open_node. unfold entry_of in He.
    destruct (Z.eqb_spec (ntype (node_at fs node)) FS_TYPE_DIR) as [Ht|]; [|done]. by rewrite Ht.
  - pose proof (open_node_spec node flags fs path d c Hok Hw He) as Ho.
    destruct (open_node node flags fs d) as [[r fs'] d']. simpl. intros ->.
    by destruct Ho as (_&[_ ?]&_).
Qed.

(** The node [nodefs_open] returns is a file. *)
Lemma open_valid path flags fs (d : D) i :
  nodefs_ok fs → Forall is_byte path →
  (nodefs_open path flags fs d).1.1 = Some i →
  valid_node (nodefs_open path flags fs d).1.2 (Z.of_nat i) = true.
Proof.
  intros Hok Hb. unfold nodefs_open. set (fl := if _ =? 0 then _ else _).
  destruct (nodefs_resolve_path fs path) as [node|] eqn:Er.
  { apply (resolve_walk fs path node) in Er as [_ Hw]; [|done]. by eapply open_node_valid. }
  case_if; [done|].
  destruct (nodefs_resolve_parent_and_leaf fs path) as [[par leaf]|] eqn:Ep; [|done].
  destruct (nodefs_find_child fs (Z.of_nat par) leaf) as [k|] eqn:Ef; [done|].
  pose proof (create_view FS_TYPE_FILE par leaf fs path d Hok Hb Ep Ef (or_introl eq_refl)) as Hc.
  destruct (create_node FS_TYPE_FILE par leaf fs d) as [[[j|] fs'] d']; [|done].
  destruct Hc as [(_&Hok'&idx&n&_&_&_&Hw&_&_&_&_&[?|[= ->]])|(_&?&_)]; [done| |done].
  by eapply open_node_valid.
Qed.
End ops.

(** ** Mount resolution *)

(** The path of a mount, and the paths in it: those that continue it at a
    component boundary. *)
Definition mount_path (m : vfs_mount_t) : list Z := take (Z.to_nat (m_path_len m)) (m_path m).

Definition covers (m : vfs_mount_t) (path : list Z) : Prop :=
  mount_path m = [47] ∨
  ∃ r, cstr path = mount_path m ++ r ∧ (r = [] ∨ ∃ t, r = 47 :: t).

(** What [vfs_mount] makes. *)
Record mount_ok (m : vfs_mount_t) : Prop := {
  mok_len : 0 < m_path_len m ≤ Z.of_nat (length (m_path m));
  mok_path : no_nul (mount_path m)
}.

Definition in_use (ms : list vfs_mount_t) (i : nat) (m : vfs_mount_t) : Prop :=
  ms !! i = Some m ∧ m_used m ≠ 0.

Lemma ch_tail p i : ch (tail p) i = ch p (S i).
Proof. destruct p; [by rewrite !ch_nil|done]. Qed.

Lemma match_loop_spec n p q :
  match_loop n p q = true ↔ ∀ i, (i < n)%nat → ch p i = ch q i.
Proof.
  revert p q. induction n as [|n IH]; intros p q; simpl; [split; [lia|done]|].
  destruct (Z.eqb_spec (ch p 0) (ch q 0)) as [H0|H0]; simpl.
  - rewrite IH. split.
    + intros Ht [|i] Hi; [done|]. rewrite <-!ch_tail. apply Ht. lia.
    + intros Ht i Hi. rewrite !ch_tail. apply Ht. lia.
  - split; [done|]. intros Ht. by rewrite Ht in H0 by lia.
Qed.

(** The characters of a string prefix a path. *)
Lemma prefix_chars mp p :
  no_nul mp → (∀ i, (i < length mp)%nat → ch p i = ch mp i) →
  cstr p = mp ++ cstr (drop (length mp) p).
Proof.
  intros Hmp. revert p. induction Hmp as [|c mp Hc Hmp IH]; intros p Hch; [done|].
  pose proof (Hch O ltac:(simpl; lia)) as H0. unfold ch at 2 in H0. simpl in H0.
  destruct p as [|x p]; [by rewrite ch_nil in H0|]. unfold ch in H0. simpl in H0. subst x.
  simpl. rewrite (proj2 (Z.eqb_neq c 0)) by done. f_equal. apply IH.
  intros i Hi. apply (Hch (S i)). simpl. lia.
Qed.

Lemma cstr_ch p i : (i < length (cstr p))%nat → ch (cstr p) i = ch p i.
Proof.
  intros Hi. rewrite <-(cstr_prefix p) at 1. unfold ch.
  rewrite !nth_lookup, lookup_take_lt by lia. done.
Qed.

Lemma cstr_drop p n : (n ≤ length (cstr p))%nat → cstr (drop n p) = drop n (cstr p).
Proof.
  revert p. induction n as [|n IH]; intros p Hn; [done|].
  destruct p as [|c p]; [done|]. simpl in *. case_if; [simpl in Hn; lia|]. apply IH. simpl in Hn. lia.
Qed.

Lemma ch0_cases p : (ch p 0 = 0 ↔ cstr p = []) ∧ (ch p 0 = 47 ↔ ∃ t, cstr p = 47 :: t).
Proof.
  destruct p as [|c p]; unfold ch; simpl.
  - split; [done|]. split; [done|]. by intros [].
  - destruct (Z.eqb_spec c 0) as [->|Hc].
    + split; [done|]. split; [done|]. by intros [].
    + split; [done|]. split; [intros ->; eauto|]. by intros [t [= -> _]].
Qed.

Lemma match_covers m path :
  mount_ok m → ch path 0 = 47 → vfs_match_mount m path = true ↔ covers m path.
Proof.
  intros [Hl Hn] H0. unfold vfs_match_mount, covers.
  assert (Hlen : length (mount_path m) = Z.to_nat (m_path_len m)).
  { unfold mount_path. rewrite length_take. lia. }
  assert (Hch : ∀ i, (i < length (mount_path m))%nat → ch (mount_path m) i = ch (m_path m) i).
  { intros i Hi. unfold ch, mount_path. rewrite !nth_lookup, lookup_take_lt by lia. done. }
  destruct ((m_path_len m =? 1) && (ch (m_path m) 0 =? 47)) eqn:Hroot.
  { split; [intros _; left|done]. destruct (mount_path m) as [|c [|]] eqn:E; simpl in Hlen; try lia.
    specialize (Hch O ltac:(simpl; lia)). unfold ch in Hch at 1. simpl in Hch. f_equal. lia. }
  assert (Hnr : mount_path m ≠ [47]).
  { intros E. rewrite E in Hlen, Hch. specialize (Hch O ltac:(simpl; lia)).
    unfold ch in Hch at 1. simpl in Hch, Hlen. lia. }
  destruct (match_loop (Z.to_nat (m_path_len m)) path (m_path m)) eqn:Em; cbn [negb].
  - rewrite match_loop_spec, <-Hlen in Em.
    pose proof (prefix_chars (mount_path m) path Hn ltac:(intros; rewrite Hch by done; by apply Em))
      as Hpre.
    set (q := drop (length (mount_path m)) path) in *.
    assert (Hq : ch path (Z.to_nat (m_path_len m)) = ch q 0).
    { unfold ch, q. by rewrite nth_skipn, Nat.add_0_r, Hlen. }
    rewrite Hq, orb_true_iff, !Z.eqb_eq. destruct (ch0_cases q) as [-> ->]. split.
    + intros Hr. right. by exists (cstr q).
    + intros [?|(r&Hr&Hcase)]; [done|]. rewrite Hpre in Hr. apply app_inv_head in Hr. by rewrite Hr.
  - split; [done|]. intros [?|(r&Hr&_)]; [done|]. exfalso.
    apply not_true_iff_false in Em. apply Em, match_loop_spec. intros i Hi.
    rewrite <-Hch, <-(cstr_ch path i) by (rewrite ?Hr, ?length_app; lia). rewrite Hr. unfold ch.
    by rewrite app_nth1 by lia.
Qed.

(** A mount the loop of [vfs_resolve_mount] prefers to a best length so far. *)
Definition better (ms : list vfs_mount_t) (path : list Z) (blen : Z) (j : nat) (m : vfs_mount_t)
  : Prop :=
  in_use ms j m ∧ vfs_match_mount m path = true ∧ blen < m_path_len m.

Lemma better_cons_S m0 ms path blen j m :
  better (m0 :: ms) path blen (S j) m ↔ better ms path blen j m.
Proof. done. Qed.

Lemma best_mount_skip m ms i path best blen :
  ¬ better (m :: ms) path blen 0 m →
  best_mount (m :: ms) i path best blen = best_mount ms (S i) path best blen.
Proof.
  intros Hno. cbn [best_mount]. destruct (Z.eqb_spec (m_used m) 0); [done|].
  destruct (vfs_match_mount m path) eqn:Hm; [|done]. cbn [negb].
  destruct (Z.ltb_spec blen (m_path_len m)); [|done]. by destruct Hno.
Qed.

Lemma best_mount_take m ms i path best blen :
  better (m :: ms) path blen 0 m →
  best_mount (m :: ms) i path best blen = best_mount ms (S i) path (Some i) (m_path_len m).
Proof.
  intros ([_ Hu]&Hm&Hl). cbn [best_mount].
  by rewrite (proj2 (Z.eqb_neq _ _) Hu), Hm, (proj2 (Z.ltb_lt _ _) Hl).
Qed.

Lemma best_mount_spec ms i path best blen :
  (best_mount ms i path best blen = (best, blen) ∧ ∀ j m, ¬ better ms path blen j m) ∨
  ∃ k m, best_mount ms i path best blen = (Some (i + k)%nat, m_path_len m) ∧
    better ms path blen k m ∧
    ∀ j m', better ms path blen j m' →
      m_path_len m' ≤ m_path_len m ∧ ((j < k)%nat → m_path_len m' < m_path_len m).
Proof.
  revert i best blen. induction ms as [|m ms IH]; intros i best blen.
  { left. split; [done|]. intros j m ((Hj&_)&_). done. }
  assert (Hdec : better (m :: ms) path blen 0 m ∨ ¬ better (m :: ms) path blen 0 m).
  { unfold better, in_use. simpl.
    destruct (decide (m_used m ≠ 0 ∧ vfs_match_mount m path = true ∧ blen < m_path_len m)); tauto. }
  destruct Hdec as [Hb|Hno].
  - rewrite best_mount_take by done. right.
    destruct (IH (S i) (Some i) (m_path_len m)) as [[-> Hnone]|(k&m1&->&Hc&Hmax)].
    + exists O, m. rewrite Nat.add_0_r. split; [done|split; [done|]].
      intros [|j] m' Hj; [destruct Hj as ((Hj&_)&_); simplify_eq/=; lia|]. split; [|lia].
      apply Z.nlt_ge. intros Hlt. apply (Hnone j m'). by destruct Hj as (?&?&_).
    + exists (S k), m1. rewrite Nat.add_succ_r. pose proof Hc as (_&_&Hkl).
      pose proof Hb as (_&_&Hbl). split; [done|]. split.
      { apply better_cons_S. destruct Hc as (?&?&_). split; [done|split; [done|lia]]. }
      intros [|j] m' Hj; [destruct Hj as ((Hj&_)&_); simplify_eq/=; lia|].
      destruct (decide (m_path_len m < m_path_len m')) as [Hlt|]; [|lia].
      destruct (Hmax j m') as [? ?]; [by destruct Hj as (?&?&_)|]. split; [done|]. intros. lia.
  - rewrite best_mount_skip by done.
    destruct (IH (S i) best blen) as [[-> Hnone]|(k&m1&->&Hc&Hmax)]; [left|right].
    + split; [done|]. intros [|j] m' Hj; [|by apply (Hnone j m')].
      destruct Hj as ((Hj&?)&?). simplify_eq/=. by apply Hno.
    + exists (S k), m1. rewrite Nat.add_succ_r. split; [done|split; [done|]].
      intros [|j] m' Hj.
      * destruct Hj as ((Hj&?)&?). simplify_eq/=. by destruct Hno.
      * destruct (Hmax j m' Hj) as [? ?]. split; [done|]. intros. lia.
Qed.

(** The part of the path below a mount. *)
Lemma subpath_spec m path :
  mount_ok m → covers m path → ch path 0 = 47 →
  let sub := if m_path_len m =? 1 then path
             else let subpath := drop (Z.to_nat (m_path_len m)) path in
                  if ch subpath 0 =? 0 then [47] else subpath in
  ch sub 0 = 47 ∧ cstr sub = if m_path_len m =? 1 then cstr path
    else match drop (length (mount_path m)) (cstr path) with [] => [47] | r => r end.
Proof.
  intros [Hl Hn] Hc H0. cbv zeta. destruct (Z.eqb_spec (m_path_len m) 1) as [|Hne]; [done|].
  assert (Hlen : length (mount_path m) = Z.to_nat (m_path_len m)).
  { unfold mount_path. rewrite length_take. lia. }
  destruct Hc as [Hr|(r&Hr&Hcase)]; [rewrite Hr in Hlen; simpl in Hlen; lia|].
  assert (Hd : cstr (drop (Z.to_nat (m_path_len m)) path) = r).
  { rewrite cstr_drop by (rewrite Hr, length_app; lia). by rewrite Hr, <-Hlen, drop_app_length. }
  rewrite Hr, drop_app_length. destruct (ch0_cases (drop (Z.to_nat (m_path_len m)) path)) as [E0 E47].
  rewrite Hd in E0, E47. destruct Hcase as [->|[t ->]].
  - by rewrite (proj2 E0 eq_refl).
  - rewrite (proj2 E47) by eauto. split; [apply E47; eauto|done].
Qed.

(** C37. [vfs_resolve_mount] gives an absolute path to the mount in use with the
    longest path that covers it, comparing whole components ([/tmp2] is not in
    [/tmp]), the first one if there are several, and returns the rest of the path,
    which is [/] when nothing is left; it fails exactly when no mount covers the
    path. *)
Theorem vfs_resolve_mount_longest ms path :
  (∀ i m, in_use ms i m → mount_ok m) → ch path 0 = 47 →
  match vfs_resolve_mount ms (Some path) with
  | Some (i, sub) => ∃ m, in_use ms i m ∧ covers m path ∧
      (∀ j m', in_use ms j m' → covers m' path →
         m_path_len m' ≤ m_path_len m ∧ ((j < i)%nat → m_path_len m' < m_path_len m)) ∧
      cstr sub = if m_path_len m =? 1 then cstr path
                 else match drop (length (mount_path m)) (cstr path) with
                      | [] => [47] | r => r end
  | None => ∀ j m, in_use ms j m → ¬ covers m path
  end.
Proof.
  intros Hms H0. unfold vfs_resolve_mount. rewrite H0, Z.eqb_refl. cbn [negb].
  assert (Hcov : ∀ j m, in_use ms j m → vfs_match_mount m path = true ↔ covers m path).
  { intros j m Hm. apply match_covers; [by eapply Hms|done]. }
  destruct (best_mount_spec ms 0 path None (-1)) as [[-> Hnone]|(k&m&->&(Hk&Hkm&_)&Hmax)].
  { intros j m Hj Hc. apply (Hnone j m). split; [done|]. destruct (Hms j m Hj).
    split; [by apply (Hcov j m Hj)|lia]. }
  cbn [Nat.add]. destruct (Hms k m Hk) as [Hl Hn]. pose proof (proj1 (Hcov k m Hk) Hkm) as Hc.
  destruct (subpath_spec m path (Hms k m Hk) Hc H0) as [Hs0 Hs]. cbv zeta in Hs0, Hs.
  rewrite Hs0. cbn [Z.eqb Pos.eqb negb].
  exists m. split; [done|split; [done|split; [|done]]]. intros j m' Hj Hcj.
  apply (Hmax j m'). split; [done|]. destruct (Hms j m' Hj).
  split; [by apply (Hcov j m' Hj)|lia].
Qed.

(** ** The invariant *)

(** The mount table that [fs_init] leaves. *)
Definition std_mounts : list vfs_mount_t :=
  [Mount 1 (memcpy 1 (bytes "/") (zeros 64)) 1 (Some Rootfs);
   Mount 1 (memcpy 4 (bytes "/tmp") (zeros 64)) 4 (Some Tmpfs);
   Mount 1 (memcpy 5 (bytes "/proc") (zeros 64)) 5 (Some Procfs);
   no_mount].

Definition mount_number (c : fs_id) : nat :=
  match c with Rootfs => 0 | Tmpfs => 1 | Procfs => 2 end.

Section vfs.
Context {D : Type} `{BlockDev D}.
Implicit Types v : vfs D.

(** A descriptor in use is on a file that exists, of a file system that is
    mounted. *)
Definition fd_live v (f : vfs_fd) : Prop :=
  ∃ c, fd_mount f = Z.of_nat (mount_number c) ∧ valid_node (get_fs v c) (fd_node f) = true ∧
    0 ≤ fd_offset f < 4294967296.

Definition fds_live v (t : list (list vfs_fd)) : Prop :=
  Forall (Forall (λ f, fd_used f ≠ 0 → fd_live v f)) t.

(** A row of 16 descriptors for each of the 64 processes. *)
Definition table_ok v : Prop :=
  length (fd_table v) = 64%nat ∧ Forall (λ row, length row = 16%nat) (fd_table v).

Record vfs_ok v : Prop := {
  vok_fds : table_ok v;
  vok_mounts : mounts v = std_mounts;
  vok_fs : ∀ c, nodefs_ok (get_fs v c) ∧ mount_idx (get_fs v c) = Z.of_nat (mount_number c);
  vok_live : fds_live v (fd_table v)
}.

Lemma get_set_fs v c fs d c' : get_fs (set_fs v c fs d) c' = if decide (c' = c) then fs else get_fs v c'.
Proof. by destruct c, c'. Qed.

Lemma fd_table_set_fs v c fs d : fd_table (set_fs v c fs d) = fd_table v.
Proof. by destruct c. Qed.

Lemma mounts_set_fs v c fs d : mounts (set_fs v c fs d) = mounts v.
Proof. by destruct c. Qed.

Lemma fd_live_ext v v' f : (∀ c, get_fs v' c = get_fs v c) → fd_live v f → fd_live v' f.
Proof. intros He (c&?&?&?). exists c. by rewrite He. Qed.

(** A node of an open descriptor is one [nodefs_is_node_open] sees. *)
Lemma live_node_open v c f :
  vfs_ok v → f ∈ concat (fd_table v) → fd_used f ≠ 0 → fd_mount f = Z.of_nat (mount_number c) →
  nodefs_is_node_open (fd_table v) (get_fs v c) (fd_node f) = true.
Proof.
  intros Hok Hf Hu Hm. destruct (vok_fs v Hok c) as [_ Hc].
  unfold nodefs_is_node_open. rewrite Hc. case_if; [lia|].
  apply list_elem_of_In, in_concat in Hf as (row&Hrow&Hf).
  apply existsb_exists. exists row. split; [done|]. apply existsb_exists. exists f.
  split; [done|]. rewrite Hm, !Z.eqb_refl, !andb_true_r. by rewrite (proj2 (Z.eqb_neq _ _) Hu).
Qed.

(** The file systems changed by an operation that keeps what the open descriptors
    are on. *)
Lemma set_fs_ok v c fs d (P : Z → Prop) :
  vfs_ok v → nodefs_ok fs → keeps_but P (get_fs v c) fs →
  (∀ j, P j → nodefs_is_node_open (fd_table v) (get_fs v c) j = false) →
  vfs_ok (set_fs v c fs d).
Proof.
  intros Hok Hfs [Hm Hk] HP. pose proof Hok as [Hfds Hmo Hf Hl]. constructor.
  - unfold table_ok. by rewrite fd_table_set_fs.
  - by rewrite mounts_set_fs.
  - intros c'. rewrite get_set_fs. case_decide as Hc; [|apply Hf].
    subst. split; [done|]. rewrite Hm. apply Hf.
  - unfold fds_live. rewrite fd_table_set_fs. apply Forall_forall. intros row Hrow.
    apply Forall_forall. intros f Hfrow Hu.
    unfold fds_live in Hl. rewrite Forall_forall in Hl. specialize (Hl row Hrow).
    rewrite Forall_forall in Hl. destruct (Hl f Hfrow Hu) as (c'&Hc'&Hv&Ho).
    exists c'. split; [done|]. split; [|done]. rewrite get_set_fs. case_decide as Hc; [|done].
    subst c'. apply Hk; [|done]. intros HPf.
    enough (nodefs_is_node_open (fd_table v) (get_fs v c) (fd_node f) = true)
      by (by rewrite (HP _ HPf) in *).
    apply live_node_open; try done. apply list_elem_of_In, in_concat. exists row.
    split; by apply list_elem_of_In.
Qed.

Lemma set_fs_ok_keeps v c fs d :
  vfs_ok v → nodefs_ok fs → keeps (get_fs v c) fs → vfs_ok (set_fs v c fs d).
Proof. intros Hok Hfs Hk. by eapply set_fs_ok. Qed.

(** A row of the descriptor table changed. *)
Lemma set_row_ok v pid row :
  vfs_ok v → length row = 16%nat → Forall (λ f, fd_used f ≠ 0 → fd_live v f) row →
  vfs_ok (set_row v pid row).
Proof.
  intros [[Hl Hr] Hmo Hf Hlive] Hlen Hrow. constructor.
  - unfold table_ok. simpl. rewrite length_insert. split; [done|]. by apply Forall_insert.
  - done.
  - done.
  - unfold fds_live. simpl. by apply Forall_insert.
Qed.

Lemma bad_pid_false pid : bad_pid pid = false → 0 ≤ pid < 64.
Proof. unfold bad_pid, PROCS_MAX. lia. Qed.

Lemma bad_fd_false fd : bad_fd fd = false → 0 ≤ fd < 16.
Proof. unfold bad_fd, FS_FD_MAX. lia. Qed.

Lemma fds_of_lookup v pid :
  vfs_ok v → 0 ≤ pid < 64 → fd_table v !! Z.to_nat pid = Some (fds_of v pid).
Proof.
  intros [[Hl _] _ _ _] Hp. unfold fds_of.
  destruct (lookup_lt_is_Some_2 (fd_table v) (Z.to_nat pid) ltac:(lia)) as [row Hrow].
  by rewrite (nth_lookup_Some _ _ _ _ Hrow).
Qed.

Lemma fds_of_ok v pid :
  vfs_ok v → 0 ≤ pid < 64 →
  length (fds_of v pid) = 16%nat ∧ Forall (λ f, fd_used f ≠ 0 → fd_live v f) (fds_of v pid).
Proof.
  intros Hok Hp. pose proof (fds_of_lookup v pid Hok Hp) as Hrow.
  destruct Hok as [[_ Hr] _ _ Hl]. unfold fds_live in Hl. rewrite Forall_lookup in Hr, Hl. eauto.
Qed.

Lemma fd_at_lookup v pid fd :
  vfs_ok v → 0 ≤ pid < 64 → 0 ≤ fd < 16 →
  fds_of v pid !! Z.to_nat fd = Some (fd_at v pid fd).
Proof.
  intros Hok Hp Hf. destruct (fds_of_ok v pid Hok Hp) as [Hl _]. unfold fd_at.
  destruct (lookup_lt_is_Some_2 (fds_of v pid) (Z.to_nat fd) ltac:(lia)) as [f Hfd].
  by rewrite (nth_lookup_Some _ _ _ _ Hfd).
Qed.

Lemma fd_at_live v pid fd :
  vfs_ok v → 0 ≤ pid < 64 → 0 ≤ fd < 16 → fd_used (fd_at v pid fd) ≠ 0 →
  fd_live v (fd_at v pid fd).
Proof.
  intros Hok Hp Hf Hu. destruct (fds_of_ok v pid Hok Hp) as [_ Hl]. rewrite Forall_lookup in Hl.
  eapply Hl; [|done]. by apply fd_at_lookup.
Qed.

Lemma set_fd_ok v pid fd f :
  vfs_ok v → 0 ≤ pid < 64 → (fd_used f ≠ 0 → fd_live v f) → vfs_ok (set_fd v pid fd f).
Proof.
  intros Hok Hp Hf. destruct (fds_of_ok v pid Hok Hp) as [Hl Hr]. unfold set_fd.
  apply set_row_ok; [done| |].
  - by rewrite length_insert.
  - by apply Forall_insert.
Qed.

(** The mounts in use have the file systems they number. *)
Lemma std_mount_ctx v i sub path :
  vfs_ok v → vfs_resolve_mount (mounts v) path = Some (i, sub) →
  Z.of_nat (mount_number (mount_ctx v i)) = Z.of_nat i ∧
  (∀ p, path = Some p → Forall is_byte p → Forall is_byte sub).
Proof.
  intros [_ Hmo _ _]. destruct path as [path|]; [|done]. unfold vfs_resolve_mount, mount_ctx, mount_at.
  rewrite Hmo. case_if; [done|].
  destruct (best_mount_spec std_mounts 0 path None (-1)) as [[-> _]|(k&m&->&((Hk&Hu)&_)&_)]; [done|].
  cbn [Nat.add]. case_if; [done|]. intros [= <- <-]. split.
  - rewrite (nth_lookup_Some _ _ _ _ Hk).
    destruct k as [|[|[|[|[|]]]]]; simpl in Hk; simplify_eq/=; done.
  - intros p [= <-] Hb. repeat case_if; try done; [|by apply Forall_drop].
    apply Forall_singleton. unfold is_byte. lia.
Qed.

(** ** The operations keep the invariant *)

Lemma closed_fd_live v : fd_used closed_fd ≠ 0 → fd_live v closed_fd.
Proof. done. Qed.

Lemma vfs_alloc_fd_ok v pid m node flags :
  vfs_ok v → fd_live v (Fd 1 m node 0 flags) → vfs_ok (vfs_alloc_fd pid m node 0 flags v).2.
Proof.
  intros Hok Hl. unfold vfs_alloc_fd. destruct (bad_pid pid) eqn:Hp; [done|].
  apply bad_pid_false in Hp. destruct (first_idx _ _); [|done]. by apply set_fd_ok.
Qed.

Lemma fs_open_ok v pid path flags :
  vfs_ok v → (∀ p, path = Some p → Forall is_byte p) → vfs_ok (fs_open pid path flags v).2.
Proof.
  intros Hok Hb. unfold fs_open. case_if; [done|].
  destruct (vfs_resolve_mount (mounts v) path) as [[i sub]|] eqn:Er; [|done].
  destruct (std_mount_ctx v i sub path Hok Er) as [Hi Hsub]. cbv zeta.
  set (c := mount_ctx v i) in *.
  assert (Hsb : Forall is_byte sub) 
    by (destruct path as [p|]; [eapply Hsub; [done|by apply Hb]|done]).
  destruct (vok_fs v Hok c) as [Hfs _].
  pose proof (nodefs_open_step sub flags _ (disk v) Hfs Hsb) as Hstep.
  pose proof (open_keeps sub flags (get_fs v c) (disk v)) as Hk.
  pose proof (open_valid sub flags (get_fs v c) (disk v)) as Hv.
  destruct (nodefs_open sub flags (get_fs v c) (disk v)) as [[r fs] d]. cbn [fst snd] in *.
  assert (Hok' : vfs_ok (set_fs v c fs d)) by by apply set_fs_ok_keeps.
  destruct r as [node|]; [|done]. apply vfs_alloc_fd_ok; [done|]. exists c. cbn [fd_mount fd_node fd_offset].
  split; [done|]. split; [|lia]. rewrite get_set_fs, decide_True by done. by apply Hv.
Qed.

Lemma fs_close_ok v pid fd : vfs_ok v → vfs_ok (fs_close pid fd v).2.
Proof.
  intros Hok. unfold fs_close. destruct (bad_pid pid) eqn:Hp; [done|]. case_if; [done|].
  apply set_fd_ok; [done| |done]. by apply bad_pid_false.
Qed.

Lemma nodefs_read_offset node off sz fs :
  0 ≤ off < 4294967296 → 0 ≤ (nodefs_read node off sz fs).1.2 < 4294967296.
Proof.
  intros Ho. unfold nodefs_read. case_if; [done|]. case_if; [done|]. apply u32_range.
Qed.

Lemma nodefs_write_offset node off buf sz fs (d : D) :
  0 ≤ off < 4294967296 → 0 ≤ (nodefs_write node off buf sz fs d).1.1.2 < 4294967296.
Proof.
  intros Ho. unfold nodefs_write. case_if; [done|]. case_if; [done|]. cbv zeta.
  match goal with |- context [pfs_sync ?f d] => destruct (pfs_sync f d) as [ok d'] end.
  apply u32_range.
Qed.

(** Moving the offset of a live descriptor. *)
Lemma with_offset_live v v' f off :
  (∀ c, keeps (get_fs v c) (get_fs v' c)) → fd_live v f → 0 ≤ off < 4294967296 →
  fd_live v' (with_offset f off).
Proof.
  intros Hk (c&Hm&Hv&_) Ho. exists c. split; [done|]. split; [|done].
  by apply (keeps_valid _ _ _ (Hk c)).
Qed.

Lemma fs_read_ok v pid fd has_buf sz : vfs_ok v → vfs_ok (fs_read pid fd has_buf sz v).2.
Proof.
  intros Hok. unfold fs_read. destruct (bad_pid pid) eqn:Hp; [done|]. apply bad_pid_false in Hp.
  case_if; [done|]. destruct (bad_fd fd) eqn:Hf; [done|]. apply bad_fd_false in Hf. cbv zeta.
  destruct (Z.eqb_spec (fd_used (fd_at v pid fd)) 0) as [|Hu]; [done|]. do 2 (case_if; [done|]).
  pose proof (fd_at_live v pid fd Hok Hp Hf Hu) as Hl.
  destruct Hl as (c&Hm&Hv&Ho) eqn:E. clear E.
  match goal with |- context [nodefs_read ?n ?o ?s ?f] =>
    pose proof (nodefs_read_offset n o s f Ho); destruct (nodefs_read n o s f) as [[r off] b] end.
  apply set_fd_ok; [done|done|]. intros _. apply (with_offset_live v); [done| |done]. by exists c.
Qed.

Lemma set_fs_keeps v c fs d :
  keeps (get_fs v c) fs → ∀ c', keeps (get_fs v c') (get_fs (set_fs v c fs d) c').
Proof. intros Hk c'. rewrite get_set_fs. case_decide; [by subst|done]. Qed.

Lemma fs_write_ok v pid fd buf sz :
  vfs_ok v → (∀ b, buf = Some b → Forall is_byte b ∧ 0 ≤ sz ≤ Z.of_nat (length b)) →
  sz < 4294967296 → vfs_ok (fs_write pid fd buf sz v).2.
Proof.
  intros Hok Hb Hsz. unfold fs_write. destruct buf as [buf|]; [|done].
  destruct (bad_pid pid) eqn:Hp; [done|]. apply bad_pid_false in Hp.
  destruct (bad_fd fd) eqn:Hf; [done|]. apply bad_fd_false in Hf. cbv zeta.
  destruct (Z.eqb_spec (fd_used (fd_at v pid fd)) 0) as [|Hu]; [by case_if|]. do 2 (case_if; [done|]).
  pose proof (fd_at_live v pid fd Hok Hp Hf Hu) as Hl. pose proof Hl as (_&_&_&Ho).
  destruct (Hb buf eq_refl) as [Hbb Hbl].
  set (c := mount_ctx _ _). destruct (vok_fs v Hok c) as [Hfs _].
  pose proof (nodefs_write_step (fd_node (fd_at v pid fd)) (fd_offset (fd_at v pid fd)) buf sz
    (get_fs v c) (disk v) Hfs Hbb Ho Hbl Hsz) as Hstep.
  pose proof (write_keeps (fd_node (fd_at v pid fd)) (fd_offset (fd_at v pid fd)) buf sz
    (get_fs v c) (disk v)) as Hk.
  pose proof (nodefs_write_offset (fd_node (fd_at v pid fd)) (fd_offset (fd_at v pid fd)) buf sz
    (get_fs v c) (disk v) Ho) as Ho'.
  destruct (nodefs_write _ _ buf sz (get_fs v c) (disk v)) as [[[r off] fs] d]. cbn [fst snd] in *.
  apply set_fd_ok; [by apply set_fs_ok_keeps|done|]. intros _.
  apply (with_offset_live v); [by apply set_fs_keeps|done|done].
Qed.

Lemma on_mount_ok v path op :
  vfs_ok v → (∀ p, path = Some p → Forall is_byte p) →
  (∀ sub c, Forall is_byte sub →
     nodefs_ok (op sub (get_fs v c) (disk v)).1.2 ∧
     keeps_but (λ j, nodefs_is_node_open (fd_table v) (get_fs v c) j = false)
       (get_fs v c) (op sub (get_fs v c) (disk v)).1.2) →
  vfs_ok (on_mount path v op).2.
Proof.
  intros Hok Hb Hop. unfold on_mount.
  destruct (vfs_resolve_mount (mounts v) path) as [[i sub]|] eqn:Er; [|done].
  destruct (std_mount_ctx v i sub path Hok Er) as [Hi Hsub]. cbv zeta.
  set (c := mount_ctx v i) in *.
  assert (Hsb : Forall is_byte sub) 
    by (destruct path as [p|]; [eapply Hsub; [done|by apply Hb]|done]).
  destruct (Hop sub c Hsb) as [Hn Hk].
  destruct (op sub (get_fs v c) (disk v)) as [[ok fs] d]. cbn [fst snd] in *.
  by apply (set_fs_ok v c fs d _ Hok Hn Hk).
Qed.

Lemma keeps_weaken P fs fs' : keeps fs fs' → keeps_but P fs fs'.
Proof. intros Hk. split; [apply Hk|]. intros j _. by apply keeps_valid. Qed.

Lemma fs_mkdir_ok v path :
  vfs_ok v → (∀ p, path = Some p → Forall is_byte p) → vfs_ok (fs_mkdir path v).2.
Proof.
  intros Hok Hb. apply on_mount_ok; [done|done|]. intros sub c Hs.
  split; [apply nodefs_mkdir_step; [apply vok_fs, Hok|done]|apply keeps_weaken, mkdir_keeps].
Qed.

Lemma fs_unlink_ok v path :
  vfs_ok v → (∀ p, path = Some p → Forall is_byte p) → vfs_ok (fs_unlink path v).2.
Proof.
  intros Hok Hb. apply on_mount_ok; [done|done|]. intros sub c _.
  split; [apply nodefs_unlink_step, vok_fs, Hok|apply unlink_keeps].
Qed.

Lemma fs_rmdir_ok v path :
  vfs_ok v → (∀ p, path = Some p → Forall is_byte p) → vfs_ok (fs_rmdir path v).2.
Proof.
  intros Hok Hb. apply on_mount_ok; [done|done|]. intros sub c _.
  split; [apply nodefs_rmdir_step, vok_fs, Hok|apply keeps_weaken, rmdir_keeps].
Qed.

(** Reading the descriptor table after a change. *)
Lemma fds_of_set_row v pid row pid' :
  table_ok v → 0 ≤ pid < 64 → 0 ≤ pid' →
  fds_of (set_row v pid row) pid' = if decide (pid' = pid) then row else fds_of v pid'.
Proof.
  intros [Hl _] Hp Hp'. unfold fds_of. simpl. rewrite !nth_lookup.
  destruct (decide (pid' = pid)) as [->|Hne].
  - by rewrite list_lookup_insert_eq by lia.
  - by rewrite list_lookup_insert_ne by lia.
Qed.

Lemma fds_of_length v pid : table_ok v → 0 ≤ pid < 64 → length (fds_of v pid) = 16%nat.
Proof.
  intros [Hl Hr] Hp. unfold fds_of. rewrite Forall_lookup in Hr.
  destruct (lookup_lt_is_Some_2 (fd_table v) (Z.to_nat pid) ltac:(lia)) as [row Hrow].
  rewrite (nth_lookup_Some _ _ _ _ Hrow). eauto.
Qed.

Lemma fd_at_set_fd v pid fd f pid' fd' :
  table_ok v → 0 ≤ pid < 64 → 0 ≤ fd < 16 → 0 ≤ pid' → 0 ≤ fd' →
  fd_at (set_fd v pid fd f) pid' fd'
  = if decide (pid' = pid ∧ fd' = fd) then f else fd_at v pid' fd'.
Proof.
  intros Hok Hp Hf Hp' Hf'. pose proof (fds_of_length v pid Hok Hp) as Hlen.
  unfold fd_at, set_fd. rewrite fds_of_set_row by done.
  destruct (decide (pid' = pid)) as [->|Hne]; [|by rewrite decide_False by tauto].
  rewrite !nth_lookup. destruct (decide (fd' = fd)) as [->|Hne].
  - rewrite decide_True by done. by rewrite list_lookup_insert_eq by lia.
  - rewrite decide_False by tauto. by rewrite list_lookup_insert_ne by lia.
Qed.

Lemma table_ok_set_fs v c fs d : table_ok v → table_ok (set_fs v c fs d).
Proof. unfold table_ok. by rewrite fd_table_set_fs. Qed.

(** [fs_dup2] on two distinct descriptors in range, the old one in use. *)
Lemma fs_dup2_eq v pid old new :
  vfs_ok v → 0 ≤ pid < 64 → 0 ≤ old < 16 → 0 ≤ new < 16 → old ≠ new →
  fd_used (fd_at v pid old) ≠ 0 →
  ∃ v', vfs_ok v' ∧ (v' = v ∨ v' = set_fd v pid new closed_fd) ∧
    fs_dup2 pid old new v =
    (new, set_fd v' pid new (Fd 1 (fd_mount (fd_at v pid old)) (fd_node (fd_at v pid old))
                               (fd_offset (fd_at v pid old)) (fd_flags (fd_at v pid old)))).
Proof.
  intros Hok Hp Ho Hn Hne Hu. unfold fs_dup2.
  replace (bad_pid pid) with false by (unfold bad_pid, PROCS_MAX; ztest).
  assert (bad_fd old = false) as -> by (unfold bad_fd, FS_FD_MAX; ztest).
  assert (bad_fd new = false) as Hbn by (unfold bad_fd, FS_FD_MAX; ztest).
  rewrite Hbn, (proj2 (Z.eqb_neq _ _) Hu), (proj2 (Z.eqb_neq _ _) Hne). cbn [orb].
  destruct (Z.eqb_spec (fd_used (fd_at v pid new)) 0) as [Hz|Hz]; cbn [negb].
  - exists v. split; [done|]. split; [by left|done].
  - unfold fs_close. replace (bad_pid pid) with false by (unfold bad_pid, PROCS_MAX; ztest).
    rewrite Hbn, (proj2 (Z.eqb_neq _ _) Hz). cbn [orb Z.ltb Z.compare].
    exists (set_fd v pid new closed_fd). split; [by apply set_fd_ok|]. split; [by right|].
    rewrite fd_at_set_fd, decide_False by (done || lia || apply Hok). done.
Qed.

Lemma fd_live_set_row v pid row f : fd_live v f → fd_live (set_row v pid row) f.
Proof. by apply fd_live_ext. Qed.

Lemma fs_dup2_ok v pid old new : vfs_ok v → vfs_ok (fs_dup2 pid old new v).2.
Proof.
  intros Hok.
  destruct (bad_pid pid) eqn:Hp; [unfold fs_dup2; by rewrite Hp|].
  destruct (bad_fd old || (fd_used (fd_at v pid old) =? 0)) eqn:Ho;
    [unfold fs_dup2; by rewrite Hp, Ho|].
  destruct (bad_fd new) eqn:Hn; [unfold fs_dup2; by rewrite Hp, Ho, Hn|].
  destruct (Z.eqb_spec old new) as [->|Hne];
    [unfold fs_dup2; by rewrite Hp, Ho, Hn, Z.eqb_refl|].
  apply bad_pid_false in Hp. apply bad_fd_false in Hn.
  apply orb_false_iff in Ho as [Ho%bad_fd_false Hu%Z.eqb_neq].
  destruct (fs_dup2_eq v pid old new Hok Hp Ho Hn Hne Hu) as (v'&Hok'&Hv'&->).
  apply set_fd_ok; [done|done|]. intros _.
  pose proof (fd_at_live v pid old Hok Hp Ho Hu) as Hl.
  by destruct Hv' as [->| ->]; [|apply fd_live_set_row].
Qed.

Lemma fs_fork_ok v parent child : vfs_ok v → vfs_ok (fs_fork_copy_fds parent child v).2.
Proof.
  intros Hok. unfold fs_fork_copy_fds. destruct (bad_pid parent) eqn:Hp; [done|].
  case_if; [done|]. destruct (fds_of_ok v parent Hok (bad_pid_false _ Hp)).
  by apply set_row_ok.
Qed.

Lemma fs_recycle_ok v pid : vfs_ok v → vfs_ok (fs_on_process_recycle pid v).
Proof.
  intros Hok. unfold fs_on_process_recycle. destruct (bad_pid pid) eqn:Hp; [done|].
  destruct (fds_of_ok v pid Hok (bad_pid_false _ Hp)) as [Hl _].
  apply set_row_ok; [done|by rewrite length_map|]. apply Forall_map, Forall_true. done.
Qed.

(** ** Every session *)

(** One call made for process [pid] (the child of a fork), with any arguments that
    the C types allow. *)
Inductive vfs_step : Z → vfs D → vfs D → Prop :=
| vs_open v pid path flags :
    (∀ p, path = Some p → Forall is_byte p) → vfs_step pid v (fs_open pid path flags v).2
| vs_close v pid fd : vfs_step pid v (fs_close pid fd v).2
| vs_read v pid fd has_buf sz : vfs_step pid v (fs_read pid fd has_buf sz v).2
| vs_write v pid fd buf sz :
    (∀ b, buf = Some b → Forall is_byte b ∧ 0 ≤ sz ≤ Z.of_nat (length b)) → sz < 4294967296 →
    vfs_step pid v (fs_write pid fd buf sz v).2
| vs_mkdir v pid path : (∀ p, path = Some p → Forall is_byte p) → vfs_step pid v (fs_mkdir path v).2
| vs_unlink v pid path : (∀ p, path = Some p → Forall is_byte p) → vfs_step pid v (fs_unlink path v).2
| vs_rmdir v pid path : (∀ p, path = Some p → Forall is_byte p) → vfs_step pid v (fs_rmdir path v).2
| vs_dup2 v pid old new : vfs_step pid v (fs_dup2 pid old new v).2
| vs_fork v parent child : vfs_step child v (fs_fork_copy_fds parent child v).2
| vs_recycle v pid : vfs_step pid v (fs_on_process_recycle pid v).

Lemma vfs_step_ok pid v v' : vfs_step pid v v' → vfs_ok v → vfs_ok v'.
Proof.
  destruct 1; intros Hok.
  - by apply fs_open_ok.
  - by apply fs_close_ok.
  - by apply fs_read_ok.
  - by apply fs_write_ok.
  - by apply fs_mkdir_ok.
  - by apply fs_unlink_ok.
  - by apply fs_rmdir_ok.
  - by apply fs_dup2_ok.
  - by apply fs_fork_ok.
  - by apply fs_recycle_ok.
Qed.

Definition vfs_run : vfs D → vfs D → Prop := rtc (λ v v', ∃ pid, vfs_step pid v v').

Lemma vfs_run_ok v v' : vfs_run v v' → vfs_ok v → vfs_ok v'.
Proof. induction 1 as [|v1 v2 v3 [pid Hs] _ IH]; eauto using vfs_step_ok. Qed.

(** ** Start-up *)

(** Mounting in the first free entry [i]. *)
Lemma vfs_mount_eq path c v i :
  (str_len path <=? 0) || (FS_PATH_MAX <=? str_len path) || negb (ch path 0 =? 47) = false →
  first_idx (λ m, m_used m =? 0) (mounts v) = Some i →
  vfs_mount path c v =
  (true, set_fs
     (Vfs (fd_table v)
        (<[i := Mount 1 (memcpy (Z.to_nat (str_len path)) path (zeros 64)) (str_len path) (Some c)]>
           (mounts v)) (rootfs v) (tmpfs v) (procfs v) (disk v))
     c (NodeFS (Z.of_nat i) (persistent (get_fs v c)) (nodes (get_fs v c))) (disk v)).
Proof. intros Hp Hi. unfold vfs_mount. by rewrite Hp, Hi. Qed.

(** The mount index takes no part in the well-formedness of the nodes. *)
Lemma nodefs_ok_mount fs i p : nodefs_ok fs → nodefs_ok (NodeFS i p (nodes fs)).
Proof.
  assert (Hw : ∀ cur cs, walk (NodeFS i p (nodes fs)) cur cs = walk fs cur cs).
  { intros cur cs. revert cur. induction cs as [|c cs IH]; intros cur; simpl; [done|].
    change (nodefs_find_child (NodeFS i p (nodes fs)) (Z.of_nat cur) c)
      with (nodefs_find_child fs (Z.of_nat cur) c).
    by destruct (nodefs_find_child fs (Z.of_nat cur) c). }
  intros [Hlen Hwf Hroot Hnode Huniq Hreach]. constructor; try done.
  intros j n Hn Hu. setoid_rewrite Hw. by eapply Hreach.
Qed.

Definition root_ok (root : nodefs) : Prop := nodefs_ok root ∧ mount_idx root = 0.

Lemma ensure_mountpoint_ok path v :
  root_ok (rootfs v) → Forall is_byte path →
  let v' := ensure_mountpoint path v in
  root_ok (rootfs v') ∧ fd_table v' = fd_table v ∧ mounts v' = mounts v ∧
  tmpfs v' = tmpfs v ∧ procfs v' = procfs v.
Proof.
  intros [Hok Hm] Hb. unfold ensure_mountpoint.
  destruct (nodefs_resolve_path (rootfs v) path); [done|].
  pose proof (nodefs_mkdir_step path (rootfs v) (disk v) Hok Hb) as Hstep.
  destruct (mkdir_keeps path (rootfs v) (disk v)) as [Hk _].
  destruct (nodefs_mkdir path (rootfs v) (disk v)) as [[r fs] d]. simpl in *.
  split; [split; [done|congruence]|done].
Qed.

(** The root file system that [fs_init] loads or formats is well formed. *)
Definition root_loads (img : list Z) (d0 : D) : Prop :=
  ∀ d fs d', blockdev_init d0 = Some d → nodefs_init_instance 1 img d = Some (fs, d') →
    nodefs_ok fs.

Lemma fs_init_ok img d0 v : root_loads img d0 → fs_init img d0 = Some v → vfs_ok v.
Proof.
  unfold root_loads, fs_init. intros Hroot Hi.
  destruct (blockdev_init d0) as [d|]; [|done].
  destruct (nodefs_init_instance 1 img d) as [[root d1]|] eqn:Er; [|done].
  pose proof (Hroot _ _ _ eq_refl Er) as Hok. clear Hroot Er.
  do 2 (change (nodefs_init_instance 0 img d1)
    with (Some (nodefs_format (NodeFS (-1) 0 (repeat zero_node (Z.to_nat FS_MAX_NODES))), d1)) in Hi;
    cbv iota beta in Hi).
  set (empty := nodefs_format _) in Hi.
  assert (Hempty : nodefs_ok empty) by apply nodefs_format_ok. clearbody empty.
  rewrite (vfs_mount_eq (bytes "/") Rootfs _ 0) in Hi by done. cbn [negb set_fs get_fs] in Hi.
  match type of Hi with context [ensure_mountpoint (bytes "/tmp") ?v] => set (v1 := v) in Hi end.
  destruct (ensure_mountpoint_ok (bytes "/tmp") v1) as (Hr2&Ht2&Hm2&Htmp2&Hp2).
  { split; [by apply nodefs_ok_mount|done]. }
  { apply is_bytes_bytes. }
  set (v2 := ensure_mountpoint (bytes "/tmp") v1) in *. clearbody v2.
  rewrite (vfs_mount_eq (bytes "/tmp") Tmpfs _ 1) in Hi by (done || by rewrite Hm2).
  cbn [negb set_fs get_fs] in Hi.
  match type of Hi with context [ensure_mountpoint (bytes "/proc") ?v] => set (v3 := v) in Hi end.
  destruct (ensure_mountpoint_ok (bytes "/proc") v3) as (Hr4&Ht4&Hm4&Htmp4&Hp4); [done|apply is_bytes_bytes|].
  set (v4 := ensure_mountpoint (bytes "/proc") v3) in *. clearbody v4.
  rewrite (vfs_mount_eq (bytes "/proc") Procfs _ 2) in Hi by (done || by rewrite Hm4; simpl; rewrite Hm2).
  cbn [negb set_fs get_fs] in Hi. injection Hi as <-. constructor; cbn [fd_table mounts].
  - unfold table_ok. cbn [fd_table]. rewrite Ht4. cbn [v3 fd_table]. rewrite Ht2. split; [done|].
    apply Forall_forall. intros row ->%list_elem_of_In%repeat_spec. done.
  - rewrite Hm4. cbn [v3 mounts]. by rewrite Hm2.
  - destruct Hr4 as [Hr4 Hi4].
    intros [| |]; cbn [get_fs rootfs tmpfs procfs mount_idx].
    + done.
    + rewrite Htmp4. unfold v3. cbn [tmpfs]. split; [|done]. rewrite Htmp2. by apply nodefs_ok_mount.
    + split; [|done]. rewrite Hp4. unfold v3. cbn [procfs]. rewrite Hp2. by apply nodefs_ok_mount.
  - unfold fds_live. cbn [fd_table]. rewrite Ht4. cbn [v3 fd_table]. rewrite Ht2.
    apply Forall_forall. intros row ->%list_elem_of_In%repeat_spec.
    apply Forall_forall. intros f ->%list_elem_of_In%repeat_spec. done.
Qed.

(** C8. From start-up on, whatever calls the processes make, no descriptor in use
    ever dangles: it is on a file that exists in one of the three mounted file
    systems, so that reading and writing through it never fail for want of a file,
    although other processes unlink files and remove directories meanwhile. *)
Theorem fs_no_dangling img d0 v0 v pid fd :
  root_loads img d0 → fs_init img d0 = Some v0 → vfs_run v0 v →
  0 ≤ pid < 64 → 0 ≤ fd < 16 → fd_used (fd_at v pid fd) ≠ 0 →
  vfs_ok v ∧ fd_live v (fd_at v pid fd).
Proof.
  intros Hroot Hi Hrun Hp Hf Hu.
  assert (Hok : vfs_ok v) by (eapply vfs_run_ok; [done|]; by eapply fs_init_ok).
  split; [done|]. by apply fd_at_live.
Qed.

(** ** Descriptors *)

Lemma fds_of_set_fs v c fs d pid : fds_of (set_fs v c fs d) pid = fds_of v pid.
Proof. unfold fds_of. by rewrite fd_table_set_fs. Qed.

Lemma set_row_isolated v pid row q : 0 ≤ pid → 0 ≤ q → q ≠ pid →
  fds_of (set_row v pid row) q = fds_of v q.
Proof.
  intros Hp Hq Hne. unfold fds_of. simpl. by rewrite !nth_lookup, list_lookup_insert_ne by lia.
Qed.

Lemma bad_pid_nonneg pid : bad_pid pid = false → 0 ≤ pid.
Proof. intros H1%bad_pid_false. lia. Qed.

Lemma on_mount_fds path v op q : fds_of (on_mount path v op).2 q = fds_of v q.
Proof.
  unfold on_mount. destruct (vfs_resolve_mount (mounts v) path) as [[i sub]|]; [|done]. cbv zeta.
  destruct (op _ _ _) as [[ok fs] d]. apply fds_of_set_fs.
Qed.

Lemma fs_close_isolated v pid fd q : 0 ≤ q → q ≠ pid → fds_of (fs_close pid fd v).2 q = fds_of v q.
Proof.
  intros Hq Hne. unfold fs_close. destruct (bad_pid pid) eqn:Hp; [done|]. case_if; [done|].
  apply set_row_isolated; [by apply bad_pid_nonneg|done|done].
Qed.

(** A call made for one process leaves the descriptors of every other process
    as they were. *)
Theorem fs_isolation pid v v' q :
  vfs_step pid v v' → 0 ≤ q → q ≠ pid → fds_of v' q = fds_of v q.
Proof.
  intros Hs Hq Hne. destruct Hs; try apply on_mount_fds.
  - unfold fs_open. destruct (bad_pid pid) eqn:Hp; [done|].
    destruct (vfs_resolve_mount (mounts v) path) as [[i sub]|]; [|done]. cbv zeta.
    destruct (nodefs_open _ _ _ _) as [[[node|] fs] d]; [|apply fds_of_set_fs].
    unfold vfs_alloc_fd. rewrite Hp. destruct (first_idx _ _); [|apply fds_of_set_fs].
    simpl. unfold set_fd. rewrite set_row_isolated by (done || by apply bad_pid_nonneg).
    apply fds_of_set_fs.
  - by apply fs_close_isolated.
  - unfold fs_read. destruct (bad_pid pid) eqn:Hp; [done|]. case_if; [done|]. case_if; [done|].
    cbv zeta. do 3 (case_if; [done|]). destruct (nodefs_read _ _ _ _) as [[r off] b].
    apply set_row_isolated; [by apply bad_pid_nonneg|done|done].
  - unfold fs_write. destruct buf as [buf|]; [|done]. destruct (bad_pid pid) eqn:Hp; [done|].
    case_if; [done|]. cbv zeta. case_if; [by case_if|]. do 2 (case_if; [done|]).
    destruct (nodefs_write _ _ _ _ _ _) as [[[r off] fs] d]. simpl. unfold set_fd.
    rewrite set_row_isolated by (done || by apply bad_pid_nonneg). apply fds_of_set_fs.
  - unfold fs_dup2. destruct (bad_pid pid) eqn:Hp; [done|]. do 2 (case_if; [done|]).
    case_if; [done|]. destruct (negb (fd_used (fd_at v pid new) =? 0)).
    + pose proof (fs_close_isolated v pid new q Hq Hne) as Hc.
      destruct (fs_close pid new v) as [r v']. case_if; [done|].
      unfold set_fd. cbn [snd] in *. by rewrite set_row_isolated by (done || by apply bad_pid_nonneg).
    + case_if; [done|]. apply set_row_isolated; [by apply bad_pid_nonneg|done|done].
  - unfold fs_fork_copy_fds. case_if; [done|]. destruct (bad_pid child) eqn:Hp; [done|].
    apply set_row_isolated; [by apply bad_pid_nonneg|done|done].
  - unfold fs_on_process_recycle. destruct (bad_pid pid) eqn:Hp; [done|].
    apply set_row_isolated; [by apply bad_pid_nonneg|done|done].
Qed.

(** What [nodefs_open] returning a node tells. *)
Lemma open_post_walk sub flags fs (d : D) node fs' d' :
  open_post sub flags fs d (Some node) fs' d' → walk fs' 0 (path_names sub) = Some node.
Proof.
  intros [_ Hp]. destruct (lookup_path fs sub) as [[|c]|].
  - by destruct Hp as [? _].
  - destruct (wants_trunc flags); by destruct Hp as [[? _] _].
  - destruct Hp as [(_&_&[? _]&_)|(_&?&_)]; done.
Qed.

Lemma fds_first_free v pid :
  vfs_ok v → 0 ≤ pid < 64 → ∀ i, first_idx (λ f, fd_used f =? 0) (fds_of v pid) = Some i →
  (i < 16)%nat ∧ fd_used (fd_at v pid (Z.of_nat i)) = 0 ∧
  ∀ k, 0 ≤ k < Z.of_nat i → fd_used (fd_at v pid k) ≠ 0.
Proof.
  intros Hok Hp i Hi. destruct (fds_of_ok v pid Hok Hp) as [Hl _].
  pose proof (first_idx_lt _ _ _ Hi) as Hlt.
  apply first_idx_Some in Hi as [(f&Hf&Hu) Hmin]. split; [lia|]. split.
  - unfold fd_at. rewrite Nat2Z.id, (nth_lookup_Some _ _ _ _ Hf). lia.
  - intros k Hk. pose proof (fd_at_lookup v pid k Hok Hp ltac:(lia)) as Hkl.
    specialize (Hmin (Z.to_nat k) _ ltac:(lia) Hkl). lia.
Qed.

(** How [fs_open] on a path ends. *)
Lemma fs_open_cases v pid path flags r v' :
  vfs_ok v → 0 ≤ pid < 64 → Forall is_byte path →
  fs_open pid (Some path) flags v = (r, v') →
  r = -1 ∧ fd_table v' = fd_table v ∨
  ∃ m sub node fs d, let c := mount_ctx v m in
    vfs_resolve_mount (mounts v) (Some path) = Some (m, sub) ∧
    open_post sub flags (get_fs v c) (disk v) (Some node) fs d ∧
    0 ≤ r < 16 ∧ fd_used (fd_at v pid r) = 0 ∧
    (∀ k, 0 ≤ k < r → fd_used (fd_at v pid k) ≠ 0) ∧
    v' = set_fd (set_fs v c fs d) pid r (Fd 1 (Z.of_nat m) (Z.of_nat node) 0 flags).
Proof.
  intros Hok Hp Hb. unfold fs_open.
  assert (Hbp : bad_pid pid = false) by (unfold bad_pid, PROCS_MAX; ztest). rewrite Hbp.
  destruct (vfs_resolve_mount (mounts v) (Some path)) as [[m sub]|] eqn:Er; [|intros [= <- <-]; by left].
  destruct (std_mount_ctx v m sub _ Hok Er) as [_ Hsub]. cbv zeta.
  destruct (vok_fs v Hok (mount_ctx v m)) as [Hfs _].
  pose proof (nodefs_open_post sub flags _ (disk v) Hfs (Hsub path eq_refl Hb)) as Hpost.
  destruct (nodefs_open sub flags _ (disk v)) as [[[node|] fs] d];
    [|intros [= <- <-]; left; by rewrite fd_table_set_fs].
  unfold vfs_alloc_fd. rewrite Hbp, fds_of_set_fs.
  destruct (first_idx _ (fds_of v pid)) as [i|] eqn:Ei;
    [|intros [= <- <-]; left; by rewrite fd_table_set_fs].
  intros [= <- <-]. right. exists m, sub, node, fs, d.
  destruct (fds_first_free v pid Hok Hp i Ei) as (?&?&?).
  split; [done|split; [done|split; [lia|done]]].
Qed.

(** [fs_open] returns the lowest descriptor the process has free, on the file
    the path leads to in the file system it is resolved to, at offset 0 and with the
    flags given, and changes no other descriptor; otherwise it returns -1 and changes
    none. *)
Theorem fs_open_lowest v pid path flags :
  vfs_ok v → 0 ≤ pid < 64 → Forall is_byte path →
  let '(r, v') := fs_open pid (Some path) flags v in
  r = -1 ∧ fd_table v' = fd_table v ∨
  0 ≤ r < 16 ∧ fd_used (fd_at v pid r) = 0 ∧ (∀ k, 0 ≤ k < r → fd_used (fd_at v pid k) ≠ 0) ∧
  ∃ m sub node, vfs_resolve_mount (mounts v) (Some path) = Some (m, sub) ∧
    walk (get_fs v' (mount_ctx v m)) 0 (path_names sub) = Some node ∧
    ∀ p k, 0 ≤ p → 0 ≤ k → fd_at v' p k =
      if decide (p = pid ∧ k = r) then Fd 1 (Z.of_nat m) (Z.of_nat node) 0 flags
      else fd_at v p k.
Proof.
  intros Hok Hp Hb.
  destruct (fs_open pid (Some path) flags v) as [r v'] eqn:Eo.
  destruct (fs_open_cases v pid path flags r v' Hok Hp Hb Eo)
    as [?|(m&sub&node&fs&d&Hr&(Hfs&Hpost)&Hrange&Hfree&Hlow&Hv')]; [by left|right].
  split; [done|split; [done|split; [done|]]]. exists m, sub, node. split; [done|].
  assert (Ht : table_ok (set_fs v (mount_ctx v m) fs d)) by (apply table_ok_set_fs, Hok).
  rewrite Hv'. split.
  - change (get_fs (set_fd ?v' _ _ _) ?c) with (get_fs v' c). rewrite get_set_fs, decide_True by done.
    by eapply open_post_walk.
  - intros p k Hpp Hk. rewrite fd_at_set_fd by done.
    destruct (decide (p = pid ∧ k = r)); [done|]. unfold fd_at. by rewrite fds_of_set_fs.
Qed.

(** ** Writing a file and reading it back *)

Lemma resolve_abs ms path m sub : vfs_resolve_mount ms path = Some (m, sub) → ch sub 0 = 47.
Proof.
  unfold vfs_resolve_mount. destruct path as [p|]; [|done]. case_if; [done|].
  destruct (best_mount _ _ _ _ _) as [[k|] l]; [|done]. cbv zeta. case_if; [done|].
  intros [= <- <-]. lia.
Qed.

Lemma bad_mount_false v m sub path :
  vfs_ok v → vfs_resolve_mount (mounts v) path = Some (m, sub) → bad_mount v (Z.of_nat m) = false.
Proof.
  intros [_ Hmo _ _]. unfold vfs_resolve_mount, bad_mount, mount_at. rewrite Hmo.
  destruct path as [p|]; [|done]. case_if; [done|].
  destruct (best_mount_spec std_mounts 0 p None (-1)) as [[-> _]|(k&m1&->&((Hk&Hu)&_)&_)]; [done|].
  cbn [Nat.add]. case_if; [done|]. intros [= <- <-]. rewrite Nat2Z.id, (nth_lookup_Some _ _ _ _ Hk).
  apply lookup_lt_Some in Hk. simpl in Hk. unfold VFS_MOUNT_MAX. lia.
Qed.

(** A file opened for writing with creation and truncation is empty. *)
Definition O_REWRITE : Z := O_CREAT + O_WRONLY + O_TRUNC.

Lemma open_post_empty sub fs (d : D) node fs' d' :
  open_post sub O_REWRITE fs d (Some node) fs' d' → view fs' (path_names sub) = Some (EFile []).
Proof.
  intros [_ Hp]. pose proof (path_names_no_nul sub) as Hn.
  assert (Hu : view_update fs fs' (path_names sub) (Some (EFile []))).
  { destruct (lookup_path fs sub) as [[|c]|].
    - by destruct Hp as [? _].
    - by destruct Hp as [_ ?].
    - by destruct Hp as [(_&_&_&?)|(_&?&_)]. }
  by rewrite (Hu _ Hn), decide_True.
Qed.

(** Opening an existing file for reading changes nothing. *)
Lemma open_post_read sub fs (d : D) node fs' d' b :
  lookup_path fs sub = Some (EFile b) →
  open_post sub O_RDONLY fs d (Some node) fs' d' → fs' = fs ∧ d' = d.
Proof. intros Hl [_ Hp]. rewrite Hl in Hp. by destruct Hp as [_ ?]. Qed.

Lemma bad_pid_in pid : 0 ≤ pid < 64 → bad_pid pid = false.
Proof. intros. unfold bad_pid, PROCS_MAX. ztest. Qed.

Lemma bad_fd_in fd : 0 ≤ fd < 16 → bad_fd fd = false.
Proof. intros. unfold bad_fd, FS_FD_MAX. ztest. Qed.

Lemma mount_ctx_same v v' m : mounts v' = mounts v → mount_ctx v' m = mount_ctx v m.
Proof. intros Hm. unfold mount_ctx, mount_at. by rewrite Hm. Qed.

(** The state [fs_open] leaves when it returns a descriptor. *)
Lemma fs_open_state v pid path flags fd v1 :
  vfs_ok v → 0 ≤ pid < 64 → Forall is_byte path →
  fs_open pid (Some path) flags v = (fd, v1) → 0 ≤ fd →
  ∃ m sub node d, let c := mount_ctx v m in
    vfs_resolve_mount (mounts v) (Some path) = Some (m, sub) ∧
    open_post sub flags (get_fs v c) (disk v) (Some node) (get_fs v1 c) d ∧
    0 ≤ fd < 16 ∧ mounts v1 = mounts v ∧ vfs_ok v1 ∧
    fd_at v1 pid fd = Fd 1 (Z.of_nat m) (Z.of_nat node) 0 flags.
Proof.
  intros Hok Hp Hpath Ho Hfd.
  assert (Hok1 : vfs_ok v1).
  { pose proof (fs_open_ok v pid (Some path) flags Hok) as H1. rewrite Ho in H1.
    apply H1. by intros p [= <-]. }
  destruct (fs_open_cases v pid path flags fd v1 Hok Hp Hpath Ho)
    as [[? _]|(m&sub&node&fs&d&Hr&Hpost&Hrange&_&_&Hv1)]; [lia|].
  exists m, sub, node, d. cbv zeta. rewrite Hv1 in *.
  change (get_fs (set_fd ?v' _ _ _) ?c) with (get_fs v' c).
  rewrite get_set_fs, decide_True by done.
  change (mounts (set_fd ?v' _ _ _)) with (mounts v'). rewrite mounts_set_fs.
  rewrite fd_at_set_fd, decide_True by (done || lia || apply table_ok_set_fs, Hok). done.
Qed.

(** [fs_write] and [fs_read] through a descriptor on a file. *)
Lemma fs_write_fd v pid fd m node off flags b sz :
  0 ≤ pid < 64 → 0 ≤ fd < 16 → fd_at v pid fd = Fd 1 (Z.of_nat m) (Z.of_nat node) off flags →
  Z.land flags O_WRONLY ≠ 0 → bad_mount v (Z.of_nat m) = false →
  let c := mount_ctx v m in
  fs_write pid fd (Some b) sz v =
  let '(r, off', fs, d) := nodefs_write (Z.of_nat node) off b sz (get_fs v c) (disk v) in
  (r, [], set_fd (set_fs v c fs d) pid fd (Fd 1 (Z.of_nat m) (Z.of_nat node) off' flags)).
Proof.
  intros Hp Hfd Hat Hfl Hb. unfold fs_write. rewrite (bad_pid_in pid Hp), (bad_fd_in fd Hfd), Hat.
  cbn [fd_used fd_flags fd_mount fd_node fd_offset Z.eqb].
  by rewrite (proj2 (Z.eqb_neq _ _) Hfl), Hb, Nat2Z.id.
Qed.

Lemma fs_read_fd v pid fd m node off flags sz :
  0 ≤ pid < 64 → 0 ≤ fd < 16 → fd_at v pid fd = Fd 1 (Z.of_nat m) (Z.of_nat node) off flags →
  Z.land flags O_RDONLY ≠ 0 → bad_mount v (Z.of_nat m) = false →
  fs_read pid fd true sz v =
  let '(r, off', b) := nodefs_read (Z.of_nat node) off sz (get_fs v (mount_ctx v m)) in
  (ReadRet r b, set_fd v pid fd (Fd 1 (Z.of_nat m) (Z.of_nat node) off' flags)).
Proof.
  intros Hp Hfd Hat Hfl Hb. unfold fs_read. rewrite (bad_pid_in pid Hp), (bad_fd_in fd Hfd), Hat.
  cbn [fd_used fd_flags fd_mount fd_node fd_offset Z.eqb orb negb].
  by rewrite (proj2 (Z.eqb_neq _ _) Hfl), Hb, Nat2Z.id.
Qed.

(** [fs_write] of a whole file just opened for rewriting. *)
Lemma fs_write_file v pid path fd v1 b n v2 :
  vfs_ok v → 0 ≤ pid < 64 → Forall is_byte path → Forall is_byte b → Z.of_nat (length b) ≤ 512 →
  fs_open pid (Some path) O_REWRITE v = (fd, v1) → 0 ≤ fd →
  fs_write pid fd (Some b) (Z.of_nat (length b)) v1 = (n, [], v2) → n ≠ -1 →
  ∃ m sub, vfs_resolve_mount (mounts v2) (Some path) = Some (m, sub) ∧ n = Z.of_nat (length b) ∧
    view (get_fs v2 (mount_ctx v2 m)) (path_names sub) = Some (EFile b) ∧ vfs_ok v2.
Proof.
  intros Hok Hp Hpath Hb Hlen Ho Hfd Hw Hn.
  destruct (fs_open_state v pid path _ fd v1 Hok Hp Hpath Ho Hfd)
    as (m&sub&node&d&Hr&Hpost&Hrange&Hmo&Hok1&Hat).
  assert (Hok2 : vfs_ok v2).
  { pose proof (fs_write_ok v1 pid fd (Some b) (Z.of_nat (length b)) Hok1) as H2. rewrite Hw in H2.
    apply H2; [|lia]. intros b' [= <-]. split; [done|lia]. }
  pose proof (open_post_walk _ _ _ _ _ _ _ Hpost) as Hwalk.
  pose proof (open_post_empty _ _ _ _ _ _ Hpost) as Hview.
  pose proof (path_names_no_nul sub) as Hnn.
  rewrite (fs_write_fd v1 pid fd m node 0 _ b _ Hp Hrange Hat) in Hw;
    [|done|by apply (bad_mount_false v1 m sub (Some path)); [|rewrite Hmo]].
  cbv zeta in Hw. rewrite (mount_ctx_same v v1 m Hmo) in Hw.
  set (c := mount_ctx v m) in *.
  pose proof (nodefs_write_post _ (disk v1) (path_names sub) node [] 0 b (Z.of_nat (length b))
    (proj1 Hpost) Hwalk Hview Hnn ltac:(lia) ltac:(lia) ltac:(lia) Hb) as Hwp.
  destruct (nodefs_write (Z.of_nat node) 0 b _ (get_fs v1 c) (disk v1)) as [[[r off] fs2] d2].
  destruct Hwp as (_&_&Hu&Hsync).
  injection Hw as <- <-. destruct (pfs_sync fs2 (disk v1)) as [ok d'']. destruct Hsync as [_ Hret].
  exists m, sub. set (v2 := set_fd _ _ _ _) in *.
  assert (Hmo2 : mounts v2 = mounts v) by (rewrite <-Hmo; apply mounts_set_fs).
  rewrite (mount_ctx_same v v2 m Hmo2), Hmo2. fold c.
  split; [done|]. split; [destruct ok; lia|]. split; [|done]. unfold v2.
  change (get_fs (set_fd ?v' _ _ _) ?c) with (get_fs v' c).
  rewrite get_set_fs, decide_True, (Hu _ Hnn), decide_True by done.
  do 2 f_equal. unfold overlay. rewrite drop_nil, app_nil_r, Z.min_l by lia.
  by rewrite take_nil, app_nil_r, Nat2Z.id, take_ge.
Qed.

(** What a process writes to a file of at most 512 bytes, opened for rewriting,
    is what any process reads from it afterwards, provided that the calls succeed:
    through the descriptors, the mount the path resolves to and the node array. *)
Theorem fs_write_then_read v pid q path b n fd fd' v1 v2 v3 sz :
  vfs_ok v → 0 ≤ pid < 64 → 0 ≤ q < 64 → Forall is_byte path → Forall is_byte b →
  Z.of_nat (length b) ≤ 512 → 0 ≤ sz < 4294967296 →
  fs_open pid (Some path) O_REWRITE v = (fd, v1) → 0 ≤ fd →
  fs_write pid fd (Some b) (Z.of_nat (length b)) v1 = (n, [], v2) → n ≠ -1 →
  fs_open q (Some path) O_RDONLY v2 = (fd', v3) → 0 ≤ fd' →
  n = Z.of_nat (length b) ∧
  (fs_read q fd' true sz v3).1 = ReadRet (Z.min sz (Z.of_nat (length b))) (take (Z.to_nat sz) b).
Proof.
  intros Hok Hp Hq Hpath Hb Hlen Hsz Ho Hfd Hw Hn Ho' Hfd'.
  destruct (fs_write_file v pid path fd v1 b n v2 Hok Hp Hpath Hb Hlen Ho Hfd Hw Hn)
    as (m&sub&Hr&Hret&Hview&Hok2). split; [done|].
  destruct (fs_open_state v2 q path _ fd' v3 Hok2 Hq Hpath Ho' Hfd')
    as (m'&sub'&node&d&Hr'&Hpost&Hrange&Hmo&Hok3&Hat).
  rewrite Hr in Hr'. injection Hr' as <- <-.
  assert (Hl : lookup_path (get_fs v2 (mount_ctx v2 m)) sub = Some (EFile b)).
  { unfold lookup_path. by rewrite (resolve_abs _ _ _ _ Hr). }
  pose proof (open_post_walk _ _ _ _ _ _ _ Hpost) as Hwalk.
  destruct (open_post_read _ _ _ _ _ _ b Hl Hpost) as [Hfs _].
  rewrite (fs_read_fd v3 q fd' m node 0 O_RDONLY sz Hq Hrange Hat);
    [|done|by apply (bad_mount_false v3 m sub (Some path)); [|rewrite Hmo]].
  rewrite (mount_ctx_same v2 v3 m Hmo), Hfs in *.
  rewrite (nodefs_read_slice _ _ _ _ 0 sz (proj1 Hpost) Hwalk Hview) by lia.
  cbn [fst]. unfold slice. rewrite drop_0. f_equal. rewrite length_take. lia.
Qed.
End vfs.
