(* ===== verification/VfsTests.v ===== *)
(** * The theorems on the virtual file system at concrete inputs

    A system booted on a blank disk, and sessions of two processes on it. *)
From Stdlib Require Import ZArith Lia ZifyBool String.
From stdpp Require Import base tactics list numbers option strings relations.
From S2P Require Import Prelude CString BlockDev NodeFs NodeFsSpec NodeFsUpdate NodeFsOps NodeFsDisk Vfs VfsSpec.
#[local] Open Scope Z_scope.

Definition work0 : list Z := zeros (Z.to_nat sizeof_image).
Definition boot_disk : ramdisk := blank_disk 2000.

(** The system after start-up; the second branch is never taken. *)
Definition boot_vfs : vfs ramdisk :=
  match fs_init work0 boot_disk with
  | Some v => v
  | None => Vfs [] [] demo_fs demo_fs demo_fs boot_disk
  end.

Lemma boot_runs : fs_init work0 boot_disk = Some boot_vfs.
Proof.
  assert (Hs : is_Some (fst <$> (let! v := fs_init work0 boot_disk in Some (0, v)))).
  { assert (H : (let! v := fs_init work0 boot_disk in Some (length (fd_table v))) = Some 64%nat)
      by (vm_compute; reflexivity).
    destruct (fs_init work0 boot_disk); [by eexists|done]. }
  unfold boot_vfs. destruct (fs_init work0 boot_disk); [done|]. by destruct Hs.
Qed.

Lemma boot_root_loads : root_loads work0 boot_disk.
Proof.
  intros d fs d' [= <-] Hi.
  assert (H : fst <$> nodefs_init_instance 1 work0 boot_disk
              = Some (nodefs_format (NodeFS (-1) 1 []))) by (vm_compute; reflexivity).
  rewrite Hi in H. injection H as ->. apply nodefs_format_ok.
Qed.

Lemma boot_ok : vfs_ok boot_vfs.
Proof. exact (fs_init_ok _ _ _ boot_root_loads boot_runs). Qed.

Lemma std_mount_ok i m : in_use std_mounts i m → mount_ok m.
Proof.
  intros [Hm Hu]. destruct i as [|[|[|[|[|]]]]]; simpl in Hm; simplify_eq/=;
    (constructor; [simpl; lia|repeat constructor; done]).
Qed.

(** ** Witnesses *)

Lemma vfs_resolve_mount_longest_witness :
  vfs_resolve_mount std_mounts (Some (bytes "/tmp2/x")) = Some (0%nat, bytes "/tmp2/x") ∧
  vfs_resolve_mount std_mounts (Some (bytes "/tmp")) = Some (1%nat, bytes "/") ∧
  match vfs_resolve_mount std_mounts (Some (bytes "/tmp/x")) with
  | Some (i, sub) => ∃ m, in_use std_mounts i m ∧ covers m (bytes "/tmp/x")
  | None => False
  end.
Proof.
  split; [reflexivity|split; [reflexivity|]].
  pose proof (vfs_resolve_mount_longest std_mounts (bytes "/tmp/x") std_mount_ok eq_refl) as H.
  change (vfs_resolve_mount std_mounts (Some (bytes "/tmp/x"))) with (Some (1%nat, bytes "/x")) in *.
  destruct H as (m&Hm&Hc&_). exists m. split; assumption.
Defined.

(** Process 3 creates [/tmp/f]. *)
Definition v1 : vfs ramdisk := (fs_open 3 (Some (bytes "/tmp/f")) O_REWRITE boot_vfs).2.

Lemma path_bytes s p : Some (bytes s) = Some p → Forall is_byte p.
Proof. intros [= <-]. apply is_bytes_bytes. Qed.

Lemma step1 : vfs_step 3 boot_vfs v1.
Proof. exact (vs_open boot_vfs 3 (Some (bytes "/tmp/f")) O_REWRITE (path_bytes _)). Qed.

Lemma fs_no_dangling_witness : vfs_ok v1 ∧ fd_live v1 (fd_at v1 3 0).
Proof.
  apply (fs_no_dangling work0 boot_disk boot_vfs v1 3 0 boot_root_loads boot_runs).
  - exact (rtc_once _ _ (ex_intro _ 3 step1)).
  - lia.
  - lia.
  - assert (H : fd_used (fd_at v1 3 0) = 1) by (vm_compute; reflexivity). rewrite H. discriminate.
Defined.

Lemma fs_isolation_witness : fds_of v1 4 = fds_of boot_vfs 4.
Proof. apply (fs_isolation 3 boot_vfs v1 4 step1); lia. Defined.

Definition g_path : list Z := bytes "/tmp/g".

Lemma fs_open_lowest_witness :
  ∃ r v', fs_open 3 (Some g_path) O_REWRITE v1 = (r, v') ∧
    (r = -1 ∨ fd_used (fd_at v1 3 r) = 0 ∧ ∀ k, 0 ≤ k < r → fd_used (fd_at v1 3 k) ≠ 0).
Proof.
  assert (Hb : Forall is_byte g_path) by apply is_bytes_bytes.
  pose proof (fs_open_lowest v1 3 g_path O_REWRITE (vfs_step_ok _ _ _ step1 boot_ok)
    ltac:(lia) Hb) as H.
  destruct (fs_open 3 (Some g_path) O_REWRITE v1) as [r v']. exists r, v'. split; [reflexivity|].
  destruct H as [[Hr _]|(_&Hfree&Hlow&_)]; [left; exact Hr|right; exact (conj Hfree Hlow)].
Defined.

(** Process 3 writes [/tmp/f] and process 5 reads it. *)
Definition v2 : vfs ramdisk := (fs_write 3 0 (Some (bytes "hello")) 5 v1).2.
Definition v3 : vfs ramdisk := (fs_open 5 (Some (bytes "/tmp/f")) O_RDONLY v2).2.

Lemma call_result {A B} (c : A * B) a : c.1 = a → c = (a, c.2).
Proof. intros <-. apply surjective_pairing. Qed.

Lemma fs_write_then_read_witness :
  (5 = 5 ∧ (fs_read 5 0 true 3 v3).1 = ReadRet 3 (bytes "hel")).
Proof.
  assert (H1 : (fs_open 3 (Some (bytes "/tmp/f")) O_REWRITE boot_vfs).1 = 0) by (vm_compute; reflexivity).
  assert (H2 : (fs_write 3 0 (Some (bytes "hello")) 5 v1).1 = (5, [])) by (vm_compute; reflexivity).
  assert (H3 : (fs_open 5 (Some (bytes "/tmp/f")) O_RDONLY v2).1 = 0) by (vm_compute; reflexivity).
  pose proof (call_result _ _ H1) as E1. pose proof (call_result _ _ H2) as E2.
  pose proof (call_result _ _ H3) as E3. fold v1 in E1. fold v2 in E2. fold v3 in E3.
  assert (Hlen : Z.of_nat (length (bytes "hello")) = 5) by reflexivity.
  rewrite <-Hlen in E2 at 1.
  pose proof (fs_write_then_read boot_vfs 3 5 (bytes "/tmp/f") (bytes "hello") 5 0 0 v1 v2 v3 3
    boot_ok ltac:(lia) ltac:(lia) (is_bytes_bytes _) (is_bytes_bytes _) ltac:(rewrite Hlen; lia)
    ltac:(lia) E1 ltac:(lia) E2 ltac:(lia) E3 ltac:(lia)) as [Hn Hr].
  split; [reflexivity|exact Hr].
Defined.

(** [nodefs_open] adds read access when the flags ask for neither access, but
    [fs_open] stores the flags it was given: a descriptor opened with [O_CREAT] alone
    can be neither read nor written. *)
Example fs_open_default_mode_lost :
  let '(fd, v) := fs_open 3 (Some (bytes "/tmp/f")) O_CREAT boot_vfs in
  (fd, (fs_read 3 fd true 1 v).1, (fs_write 3 fd (Some (bytes "x")) 1 v).1.1)
  = (0, ReadRet (-1) [], -1).
Proof. vm_compute. reflexivity. Qed.

(** A file is created although no descriptor is left for it: the call returns -1 and
    the file stays. *)
Example fs_open_full_table_creates :
  let fill := fold_left (λ v _, (fs_open 3 (Some (bytes "/tmp/f")) O_REWRITE v).2) (seq 0 16) in
  let v := fill boot_vfs in
  let '(r, v') := fs_open 3 (Some (bytes "/tmp/g")) O_REWRITE v in
  (r, lookup_path (tmpfs v) (bytes "/g"), lookup_path (tmpfs v') (bytes "/g"))
  = (-1, None, Some (EFile [])).
Proof. vm_compute. reflexivity. Qed.
