(* ===== verification/Process.v ===== *)
(** * Processes and the scheduler ([src/kernel/proc/process.c])

    The process table, its operations and the scheduler.  What they need of the
    file system and of the address spaces is the interface [ProcEnv]: the table is
    defined and verified over any implementation of it.

    A pointer to a process is the index of its slot in [procs].  A routine that can
    panic returns an [option]; a routine that can call [yield] returns an [outcome]
    that says whether it is done or where it waits, the rest of it being what runs
    when the process is scheduled again. *)
From Stdlib Require Import ZArith Lia ZifyBool String.
From stdpp Require Import base tactics list numbers option.
From S2P Require Import Prelude CString.
#[local] Open Scope Z_scope.

Definition PROCS_MAX : Z := 64.
Definition PROC_NAME_MAX : Z := 16.
Definition PROC_EXEC_ARGV_MAX : Z := 8.
Definition PROC_EXEC_ARG_LEN : Z := 32.
Definition PROC_UNUSED : Z := 0.
Definition PROC_RUNNABLE : Z := 1.
Definition PROC_WAITTING : Z := 2.
Definition PROC_EXITED : Z := 3.
Definition PROC_WAIT_NONE : Z := 0.
Definition PROC_WAIT_CONSOLE_INPUT : Z := 1.
Definition PROC_WAIT_CHILD_EXIT : Z := 2.
Definition PROC_WAIT_IPC_RECV : Z := 3.
Definition SCHED_TIME_SLICE_TICKS : Z := 3.
Definition PATH_MAX : Z := 64.

(** ** [struct process]

    The kernel stack and the saved stack pointer are not modelled: what a
    process does when it is resumed is the continuation kept by [Kernel]. *)
Record process := Proc {
  pid : Z; state : Z; pname : list Z; wait_reason : Z; wait_pid : Z; parent_pid : Z;
  user_pages : Z; page_table : Z;
  time_slice : Z; run_ticks : Z; schedule_count : Z;
  ipc_has_message : Z; ipc_from_pid : Z; ipc_message : Z;
  exec_argc : Z; exec_argv : list (list Z);
  root_mount_idx : Z; root_node_idx : Z; root_path : list Z;
  cwd_mount_idx : Z; cwd_node_idx : Z; cwd_path : list Z
}.

Definition set_pid (x : Z) (p : process) : process :=
  Proc x (state p) (pname p) (wait_reason p) (wait_pid p) (parent_pid p) (user_pages p)
    (page_table p) (time_slice p) (run_ticks p) (schedule_count p) (ipc_has_message p)
    (ipc_from_pid p) (ipc_message p) (exec_argc p) (exec_argv p) (root_mount_idx p)
    (root_node_idx p) (root_path p) (cwd_mount_idx p) (cwd_node_idx p) (cwd_path p).

(** [state], [wait_reason] and [wait_pid]. *)
Definition set_wait (st reason target : Z) (p : process) : process :=
  Proc (pid p) st (pname p) reason target (parent_pid p) (user_pages p)
    (page_table p) (time_slice p) (run_ticks p) (schedule_count p) (ipc_has_message p)
    (ipc_from_pid p) (ipc_message p) (exec_argc p) (exec_argv p) (root_mount_idx p)
    (root_node_idx p) (root_path p) (cwd_mount_idx p) (cwd_node_idx p) (cwd_path p).

Definition set_state (st : Z) (p : process) : process :=
  set_wait st (wait_reason p) (wait_pid p) p.

Definition set_parent (x : Z) (p : process) : process :=
  Proc (pid p) (state p) (pname p) (wait_reason p) (wait_pid p) x (user_pages p)
    (page_table p) (time_slice p) (run_ticks p) (schedule_count p) (ipc_has_message p)
    (ipc_from_pid p) (ipc_message p) (exec_argc p) (exec_argv p) (root_mount_idx p)
    (root_node_idx p) (root_path p) (cwd_mount_idx p) (cwd_node_idx p) (cwd_path p).

Definition set_name (x : list Z) (p : process) : process :=
  Proc (pid p) (state p) x (wait_reason p) (wait_pid p) (parent_pid p) (user_pages p)
    (page_table p) (time_slice p) (run_ticks p) (schedule_count p) (ipc_has_message p)
    (ipc_from_pid p) (ipc_message p) (exec_argc p) (exec_argv p) (root_mount_idx p)
    (root_node_idx p) (root_path p) (cwd_mount_idx p) (cwd_node_idx p) (cwd_path p).

Definition set_space (pages table : Z) (p : process) : process :=
  Proc (pid p) (state p) (pname p) (wait_reason p) (wait_pid p) (parent_pid p) pages
    table (time_slice p) (run_ticks p) (schedule_count p) (ipc_has_message p)
    (ipc_from_pid p) (ipc_message p) (exec_argc p) (exec_argv p) (root_mount_idx p)
    (root_node_idx p) (root_path p) (cwd_mount_idx p) (cwd_node_idx p) (cwd_path p).

Definition set_sched (slice ticks count : Z) (p : process) : process :=
  Proc (pid p) (state p) (pname p) (wait_reason p) (wait_pid p) (parent_pid p) (user_pages p)
    (page_table p) slice ticks count (ipc_has_message p)
    (ipc_from_pid p) (ipc_message p) (exec_argc p) (exec_argv p) (root_mount_idx p)
    (root_node_idx p) (root_path p) (cwd_mount_idx p) (cwd_node_idx p) (cwd_path p).

Definition set_mailbox (has from msg : Z) (p : process) : process :=
  Proc (pid p) (state p) (pname p) (wait_reason p) (wait_pid p) (parent_pid p) (user_pages p)
    (page_table p) (time_slice p) (run_ticks p) (schedule_count p) has
    from msg (exec_argc p) (exec_argv p) (root_mount_idx p)
    (root_node_idx p) (root_path p) (cwd_mount_idx p) (cwd_node_idx p) (cwd_path p).

Definition set_args (argc : Z) (argv : list (list Z)) (p : process) : process :=
  Proc (pid p) (state p) (pname p) (wait_reason p) (wait_pid p) (parent_pid p) (user_pages p)
    (page_table p) (time_slice p) (run_ticks p) (schedule_count p) (ipc_has_message p)
    (ipc_from_pid p) (ipc_message p) argc argv (root_mount_idx p)
    (root_node_idx p) (root_path p) (cwd_mount_idx p) (cwd_node_idx p) (cwd_path p).

Definition set_root (m n : Z) (path : list Z) (p : process) : process :=
  Proc (pid p) (state p) (pname p) (wait_reason p) (wait_pid p) (parent_pid p) (user_pages p)
    (page_table p) (time_slice p) (run_ticks p) (schedule_count p) (ipc_has_message p)
    (ipc_from_pid p) (ipc_message p) (exec_argc p) (exec_argv p) m n path
    (cwd_mount_idx p) (cwd_node_idx p) (cwd_path p).

Definition set_cwd (m n : Z) (path : list Z) (p : process) : process :=
  Proc (pid p) (state p) (pname p) (wait_reason p) (wait_pid p) (parent_pid p) (user_pages p)
    (page_table p) (time_slice p) (run_ticks p) (schedule_count p) (ipc_has_message p)
    (ipc_from_pid p) (ipc_message p) (exec_argc p) (exec_argv p) (root_mount_idx p)
    (root_node_idx p) (root_path p) m n path.

Definition zero_bytes (n : Z) : list Z := repeat 0 (Z.to_nat n).

Definition no_args : list (list Z) := repeat (zero_bytes PROC_EXEC_ARG_LEN) 8.

(** A slot of the zeroed table. *)
Definition zero_proc : process :=
  Proc 0 0 (zero_bytes PROC_NAME_MAX) 0 0 0 0 0 0 0 0 0 0 0 0 no_args 0 0 (zero_bytes PATH_MAX)
    0 0 (zero_bytes PATH_MAX).

(** ** Names and arguments *)

(** [for (i = 0; i < n && name[i] != '\0'; i++) dst[i] = name[i];] *)
Fixpoint copy_chars (n : nat) (src dst : list Z) : list Z :=
  match n, dst with
  | S n', _ :: dst' => if ch src 0 =? 0 then dst else ch src 0 :: copy_chars n' (tail src) dst'
  | _, _ => dst
  end.

(** [name] is [None] for NULL. *)
Definition set_process_name (name : option (list Z)) (p : process) : process :=
  let cleared := zero_bytes PROC_NAME_MAX in
  match name with
  | None => set_name cleared p
  | Some name => set_name (copy_chars (Z.to_nat (PROC_NAME_MAX - 1)) name cleared) p
  end.

Definition clear_exec_args (p : process) : process := set_args 0 no_args p.

(** [for (j = 0; j < n; j++) { dst[j] = src[j]; if (src[j] == '\0') break; }] *)
Fixpoint copy_arg (n : nat) (src dst : list Z) : list Z :=
  match n, dst with
  | S n', _ :: dst' =>
      if ch src 0 =? 0 then 0 :: dst' else ch src 0 :: copy_arg n' (tail src) dst'
  | _, _ => dst
  end.

(** A copied argument with its last byte cleared. *)
Definition exec_arg (src : list Z) : list Z :=
  <[Z.to_nat (PROC_EXEC_ARG_LEN - 1) := 0]>
    (copy_arg (Z.to_nat (PROC_EXEC_ARG_LEN - 1)) src (zero_bytes PROC_EXEC_ARG_LEN)).

(** [argv] is [None] for NULL. *)
Definition set_exec_args (argc : Z) (argv : option (list (list Z))) (p : process) : process :=
  let p := clear_exec_args p in
  match argv with
  | None => p
  | Some argv =>
      if argc <=? 0 then p
      else
        let n := if PROC_EXEC_ARGV_MAX <? argc then PROC_EXEC_ARGV_MAX else argc in
        set_args n
          (zfor (Z.to_nat n) 0 (λ i l, <[Z.to_nat i := exec_arg (nth (Z.to_nat i) argv [])]> l)
             no_args) p
  end.

(** ** What the table needs of the rest of the kernel *)
Class ProcEnv (E : Type) := {
  (** The images linked into the kernel, each with the name of its application. *)
  app : list Z → list Z → Prop;
  procfs_sync_process : process → E → bool * E;
  procfs_cleanup : process → E → bool * E;
  fs_on_process_recycle : Z → E → E;
  fs_fork_copy_fds : Z → Z → E → Z * E;
  fs_get_root_entry : E → option (Z * Z);
  (** Frees the address space of a process, whose [page_table] is not NULL. *)
  free_space : process → E → option E;
  (** A page table with the kernel mapped, and the image loaded at [USER_BASE]:
      the address of the table. *)
  create_space : list Z → E → option (Z * E);
  (** The same with copies of the pages of a process: the table ([0] when it could
      not be made) and whether every page was there to copy. *)
  copy_space : process → E → option (bool * Z * E);
  (** Frees the user pages of a process and loads an image in their place. *)
  replace_image : process → list Z → E → option (bool * E)
}.

Section process.
Context {E : Type} `{ProcEnv E}.

Record kstate := KState {
  procs : list process;
  current_proc : option nat;
  init_proc : option nat;
  need_resched : bool;
  env : E
}.

Definition set_env (k : kstate) (e : E) : kstate :=
  KState (procs k) (current_proc k) (init_proc k) (need_resched k) e.
Definition set_procs (k : kstate) (ps : list process) : kstate :=
  KState ps (current_proc k) (init_proc k) (need_resched k) (env k).
Definition set_current (k : kstate) (c : option nat) : kstate :=
  KState (procs k) c (init_proc k) (need_resched k) (env k).
Definition set_resched (k : kstate) (b : bool) : kstate :=
  KState (procs k) (current_proc k) (init_proc k) b (env k).

Definition proc_at (k : kstate) (i : nat) : process := nth i (procs k) zero_proc.
Definition set_proc (k : kstate) (i : nat) (p : process) : kstate :=
  set_procs k (<[i := p]> (procs k)).
Definition upd_proc (k : kstate) (i : nat) (f : process → process) : kstate :=
  set_proc k i (f (proc_at k i)).

Definition procfs_sync_best_effort (i : nat) (k : kstate) : kstate :=
  if pid (proc_at k i) <=? 0 then k
  else let '(_, e) := procfs_sync_process (proc_at k i) (env k) in set_env k e.

Definition find_process_by_pid (target : Z) (k : kstate) : option nat :=
  if target <=? 0 then None
  else first_idx (λ p, (pid p =? target) && negb (state p =? PROC_UNUSED)) (procs k).

Definition free_process_memory (p : process) (e : E) : option (process * E) :=
  if page_table p =? 0 then Some (p, e)
  else let! e := free_space p e in Some (set_space 0 0 p, e).

(** The fields [recycle_process_slot] resets. *)
Definition recycled (p : process) : process :=
  clear_exec_args
    (set_mailbox 0 0 0
       (set_sched SCHED_TIME_SLICE_TICKS 0 0
          (set_pid 0
             (set_parent 0
                (set_wait PROC_UNUSED PROC_WAIT_NONE (-1) (set_process_name None p)))))).

Definition recycle_process_slot (i : nat) (k : kstate) : option kstate :=
  let '(_, e) := procfs_cleanup (proc_at k i) (env k) in
  let e := fs_on_process_recycle (pid (proc_at k i)) e in
  let! (p, e) := free_process_memory (proc_at k i) e in
  Some (set_proc (set_env k e) i (recycled p)).

Definition reap_exited_processes (k : kstate) : option kstate :=
  zfor_opt (Z.to_nat PROCS_MAX) 0
    (λ i k, let p := proc_at k (Z.to_nat i) in
            if negb (state p =? PROC_EXITED) then Some k
            else if parent_pid p =? 0 then recycle_process_slot (Z.to_nat i) k else Some k) k.

Definition find_unused (k : kstate) : option nat :=
  first_idx (λ p, state p =? PROC_UNUSED) (procs k).

(** ** Creation *)

(** The fields [create_process] sets in slot [i]. *)
Definition created_proc (i : Z) (name : option (list Z)) (pages table rm rn : Z) (p : process)
  : process :=
  let p := set_process_name name (set_state PROC_RUNNABLE (set_pid i p)) in
  let p := set_parent 0 (set_wait (state p) PROC_WAIT_NONE (-1) p) in
  let p := set_mailbox 0 0 0 (set_sched SCHED_TIME_SLICE_TICKS 0 0 (set_space pages table p)) in
  let p := clear_exec_args p in
  let p := set_root rm rn (strcpy_s (root_path p) PATH_MAX (bytes "/")) p in
  set_cwd rm rn (strcpy_s (cwd_path p) PATH_MAX (bytes "/")) p.

(** The slot of the new process, if there is one. *)
Definition create_process (image : list Z) (name : option (list Z)) (k : kstate)
  : option (option nat * kstate) :=
  let! k := reap_exited_processes k in
  match find_unused k with
  | None => Some (None, k)
  | Some i =>
      let! (table, e) := create_space image (env k) in
      let k := set_env k e in
      match fs_get_root_entry (env k) with
      | None => let! k := recycle_process_slot i k in Some (None, k)
      | Some (rm, rn) =>
          let pages := u32 (Z.of_nat (length image) + 4096 - 1) / 4096 in
          let k := upd_proc k i (created_proc (Z.of_nat i) name pages table rm rn) in
          Some (Some i, procfs_sync_best_effort i k)
      end
  end.

Definition alloc_proc_slot (k : kstate) : option (option nat * kstate) :=
  let! k := reap_exited_processes k in
  match find_unused k with
  | None => Some (None, k)
  | Some i =>
      Some (Some i,
            upd_proc k i (λ p, clear_exec_args
              (set_parent 0 (set_wait PROC_UNUSED PROC_WAIT_NONE (-1) (set_pid (Z.of_nat i) p)))))
  end.

(** The fields a child takes from its parent. *)
Definition inherit (parent p : process) : process :=
  let p := set_parent (pid parent) p in
  let p := set_name (strcpy_s (pname p) PROC_NAME_MAX (pname parent)) p in
  let p := set_mailbox 0 0 0 p in
  let p := set_args (exec_argc parent) (exec_argv parent) p in
  let p := set_root (root_mount_idx parent) (root_node_idx parent)
             (strcpy_s (root_path p) PATH_MAX (root_path parent)) p in
  set_cwd (cwd_mount_idx parent) (cwd_node_idx parent)
    (strcpy_s (cwd_path p) PATH_MAX (cwd_path parent)) p.

(** [fail:] of [process_fork]. *)
Definition fork_fail (child : nat) (k : kstate) : option (option nat * kstate) :=
  let! k := recycle_process_slot child k in Some (None, k).

(** The slot of the child; [None] for -1.  The child's kernel stack, which returns to
    user mode with 0 in [a0], is its continuation in [Kernel]. *)
Definition process_fork (k : kstate) : option (option nat * kstate) :=
  let! (child, k) := alloc_proc_slot k in
  match child with
  | None => Some (None, k)
  | Some child =>
      match current_proc k with
      | None => fork_fail child k
      | Some cur =>
          let parent := proc_at k cur in
          if negb (state parent =? PROC_RUNNABLE) && negb (state parent =? PROC_WAITTING)
          then fork_fail child k
          else
            let k := upd_proc k child (inherit parent) in
            let! (ok, table, e) := copy_space (proc_at k cur) (env k) in
            let k := set_env k e in
            if table =? 0 then fork_fail child k
            else
              let k := upd_proc k child (set_space (user_pages (proc_at k cur)) table) in
              if negb ok then fork_fail child k
              else
                let '(r, e) := fs_fork_copy_fds (pid (proc_at k cur)) (pid (proc_at k child)) (env k) in
                let k := set_env k e in
                if r <? 0 then fork_fail child k
                else
                  let k := upd_proc k child (λ p,
                    set_sched SCHED_TIME_SLICE_TICKS 0 0 (set_state PROC_RUNNABLE p)) in
                  Some (Some child, procfs_sync_best_effort child k)
      end
  end.

(** [image] is [None] for NULL; the result is whether 0 was returned. *)
Definition process_exec (image : option (list Z)) (name : option (list Z)) (argc : Z)
    (argv : option (list (list Z))) (k : kstate) : option (bool * kstate) :=
  match current_proc k, image with
  | Some cur, Some image =>
      if Z.of_nat (length image) =? 0 then Some (false, k)
      else
        let p := proc_at k cur in
        let! (ok, e) := replace_image p image (env k) in
        let k := set_env k e in
        let k := if page_table p =? 0 then k else upd_proc k cur (λ p, set_space 0 (page_table p) p) in
        if negb ok then Some (false, k)
        else
          let pages := u32 (Z.of_nat (length image) + 4096 - 1) / 4096 in
          let k := upd_proc k cur (λ p,
            set_exec_args argc argv
              (set_sched SCHED_TIME_SLICE_TICKS 0 (schedule_count p)
                 (set_wait (state p) PROC_WAIT_NONE (-1)
                    (set_process_name name (set_space pages (page_table p) p))))) in
          Some (true, procfs_sync_best_effort cur k)
  | _, _ => Some (false, k)
  end.

(** ** Scheduling *)

Definition scheduler_on_timer_tick (k : kstate) : kstate :=
  match current_proc k with
  | None => k
  | Some cur =>
      let p := proc_at k cur in
      if negb (state p =? PROC_RUNNABLE) || (pid p <=? 0) then k
      else
        let slice := if 0 <? time_slice p then time_slice p - 1 else time_slice p in
        let k := set_proc k cur (set_sched slice (u32 (run_ticks p + 1)) (schedule_count p) p) in
        if slice =? 0 then set_resched k true else k
  end.

Definition scheduler_should_yield (k : kstate) : bool := need_resched k.

(** The slots in the order [yield] looks at them from pid [c] on. *)
Definition scan_order (c : Z) : list nat :=
  map (λ i, Z.to_nat ((c + Z.of_nat i) mod PROCS_MAX)) (seq 0 64).

Definition pick_next (k : kstate) (c : Z) : option nat :=
  let! j := first_idx (λ i, (state (proc_at k i) =? PROC_RUNNABLE) && (0 <? pid (proc_at k i)))
              (scan_order c) in
  Some (nth j (scan_order c) O).

(** One iteration of the loop of [yield]: it returns to the process, it switches to
    another (whose own call of [yield] or first entry returns), or it waits for an
    interrupt. *)
Inductive yielded := YReturn (k : kstate) | YSwitch (next : nat) (k : kstate) | YWait (k : kstate).

Definition yield_loop (cur : nat) (k : kstate) : yielded :=
  match pick_next k (pid (proc_at k cur)) with
  | None => YWait k
  | Some next =>
      if (next =? cur)%nat then
        let k := if time_slice (proc_at k cur) =? 0
                 then upd_proc k cur (λ p, set_sched SCHED_TIME_SLICE_TICKS (run_ticks p)
                                             (schedule_count p) p)
                 else k in
        YReturn (set_resched k false)
      else
        let k := upd_proc k next (λ p, set_sched SCHED_TIME_SLICE_TICKS (run_ticks p)
                                         (u32 (schedule_count p + 1)) p) in
        YSwitch next (set_current (set_resched k false) (Some next))
  end.

(** [yield] up to its first iteration; [current_proc] is not NULL. *)
Definition yield (cur : nat) (k : kstate) : option yielded :=
  let! k := reap_exited_processes k in Some (yield_loop cur k).

(** ** Waking up *)

Definition wake (i : nat) (k : kstate) : kstate :=
  procfs_sync_best_effort i (upd_proc k i (set_wait PROC_RUNNABLE PROC_WAIT_NONE (-1))).

Definition wakeup_input_waiters (k : kstate) : kstate :=
  zfor (Z.to_nat PROCS_MAX) 0
    (λ i k, let p := proc_at k (Z.to_nat i) in
            if (state p =? PROC_WAITTING) && (wait_reason p =? PROC_WAIT_CONSOLE_INPUT)
            then wake (Z.to_nat i) k else k) k.

Definition notify_child_exit (child : nat) (k : kstate) : kstate :=
  let parent := parent_pid (proc_at k child) in
  if parent <=? 0 then k
  else
    zfor (Z.to_nat PROCS_MAX) 0
      (λ i k, let p := proc_at k (Z.to_nat i) in
              if negb (pid p =? parent) || negb (state p =? PROC_WAITTING) then k
              else if negb (wait_reason p =? PROC_WAIT_CHILD_EXIT) then k
              else if (wait_pid p =? -1) || (wait_pid p =? pid (proc_at k child))
              then wake (Z.to_nat i) k else k) k.

Definition orphan_children (parent : Z) (k : kstate) : kstate :=
  if parent <=? 0 then k
  else set_procs k (map (λ p, if parent_pid p =? parent then set_parent 0 p else p) (procs k)).

(** ** Blocking calls

    Where a process waits: in [wait_for_child_exit], in [process_ipc_recv] on its
    slot, in [syscall_handle_getchar], or in a [yield] that must not return. *)
Inductive wait_point :=
| WaitChild (parent target : Z) | WaitRecv (self : nat) | WaitInput | WaitForever.

(** A call that is done, with what it returns, or that calls [yield]. *)
Inductive outcome (A : Type) := Done (ret : A) (k : kstate) | Blocked (w : wait_point) (k : kstate).
Arguments Done {A}. Arguments Blocked {A}.

(** The scan of [wait_for_child_exit] from slot [i] on: the exited child, or whether
    there is a child. *)
Fixpoint wait_scan (ps : list process) (i : nat) (parent target : Z) (has_child : bool)
  : option nat * bool :=
  match ps with
  | [] => (None, has_child)
  | p :: ps' =>
      if (state p =? PROC_UNUSED) || negb (parent_pid p =? parent)
      then wait_scan ps' (S i) parent target has_child
      else if negb (target =? -1) && negb (pid p =? target)
      then wait_scan ps' (S i) parent target has_child
      else if state p =? PROC_EXITED then (Some i, true)
      else wait_scan ps' (S i) parent target true
  end.

Definition wait_for_child_exit (cur : nat) (parent target : Z) (k : kstate)
  : option (outcome Z) :=
  if parent <=? 0 then Some (Done (-1) k)
  else
    match wait_scan (procs k) 0 parent target false with
    | (Some i, _) =>
        let exited := pid (proc_at k i) in
        let! k := recycle_process_slot i k in Some (Done exited k)
    | (None, false) => Some (Done (-1) k)
    | (None, true) =>
        let k := upd_proc k cur (set_wait PROC_WAITTING PROC_WAIT_CHILD_EXIT target) in
        Some (Blocked (WaitChild parent target) (procfs_sync_best_effort cur k))
    end.

Definition process_ipc_send (src dst msg : Z) (k : kstate) : Z * kstate :=
  match find_process_by_pid dst k with
  | None => (-1, k)
  | Some i =>
      let p := proc_at k i in
      if state p =? PROC_EXITED then (-1, k)
      else if negb (ipc_has_message p =? 0) then (-2, k)
      else
        let k := upd_proc k i (set_mailbox 1 src msg) in
        let p := proc_at k i in
        let k := if (state p =? PROC_WAITTING) && (wait_reason p =? PROC_WAIT_IPC_RECV)
                 then wake i k else k in
        (0, k)
  end.

(** [process_ipc_recv] from the test of its loop on: the sender and the message. *)
Definition ipc_recv_loop (self : nat) (k : kstate) : outcome (Z * Z) :=
  if ipc_has_message (proc_at k self) =? 0 then
    let k := upd_proc k self (set_wait PROC_WAITTING PROC_WAIT_IPC_RECV (-1)) in
    Blocked (WaitRecv self) (procfs_sync_best_effort self k)
  else
    let p := proc_at k self in
    Done (ipc_from_pid p, ipc_message p) (upd_proc k self (set_mailbox 0 0 0)).

(** [None] in the result is the return value -1. *)
Definition process_ipc_recv (self_pid : Z) (k : kstate) : outcome (option (Z * Z)) :=
  match find_process_by_pid self_pid k with
  | None => Done None k
  | Some self =>
      match ipc_recv_loop self k with
      | Done r k => Done (Some r) k
      | Blocked w k => Blocked w k
      end
  end.

(** The result codes: -1 for no such pid, -2 for no such process, -3 for [init]. *)
Definition process_kill (target : Z) (k : kstate) : option (outcome Z) :=
  if target <=? 0 then Some (Done (-1) k)
  else
    match find_process_by_pid target k with
    | None => Some (Done (-2) k)
    | Some t =>
        if state (proc_at k t) =? PROC_EXITED then Some (Done (-2) k)
        else if bool_decide (init_proc k = Some t) then Some (Done (-3) k)
        else
          let killed := pid (proc_at k t) in
          let k := orphan_children (pid (proc_at k t)) k in
          let k := upd_proc k t (set_wait PROC_EXITED PROC_WAIT_NONE (-1)) in
          let k := notify_child_exit t (procfs_sync_best_effort t k) in
          let k := upd_proc k t (set_parent 0) in
          if bool_decide (current_proc k = Some t) then Some (Blocked WaitForever k)
          else
            let! k := recycle_process_slot t k in Some (Done killed k)
    end.

(** [syscall_handle_exit] ([src/kernel/trap/syscall_process.c]) of a process other
    than [init], up to its [yield]. *)
Definition exit_current (cur : nat) (k : kstate) : kstate :=
  let k := orphan_children (pid (proc_at k cur)) k in
  let k := upd_proc k cur (set_wait PROC_EXITED PROC_WAIT_NONE (-1)) in
  let '(_, e) := procfs_sync_process (proc_at k cur) (env k) in
  notify_child_exit cur (set_env k e).

(** [syscall_handle_clone] once the image is found: the child's pid or -1. *)
Definition clone_process (image : list Z) (name : option (list Z)) (k : kstate)
  : option (Z * kstate) :=
  let! (r, k) := create_process image name k in
  match r with
  | None => Some (-1, k)
  | Some i =>
      let parent := match current_proc k with None => 0 | Some c => pid (proc_at k c) end in
      let k := upd_proc k i (set_parent parent) in
      Some (pid (proc_at k i), k)
  end.

(** The state [syscall_handle_getchar] waits in ([src/kernel/trap/syscall_console.c]). *)
Definition wait_input (cur : nat) (k : kstate) : kstate :=
  upd_proc k cur (λ p, set_wait PROC_WAITTING PROC_WAIT_CONSOLE_INPUT (wait_pid p) p).

(** The state it leaves when it has a character. *)
Definition got_input (cur : nat) (k : kstate) : kstate :=
  upd_proc k cur (λ p, set_wait (state p) PROC_WAIT_NONE (wait_pid p) p).

(** The end of [syscall_handle_chdir] ([src/kernel/trap/syscall_fs.c]). *)
Definition enter_dir (cur : nat) (m n : Z) (path : list Z) (k : kstate) : kstate :=
  let k := upd_proc k cur (λ p, set_cwd m n (strcpy_s (cwd_path p) PATH_MAX path) p) in
  let '(_, e) := procfs_sync_process (proc_at k cur) (env k) in set_env k e.

(** The processes [kernel_bootstrap] and [kernel_main] ([src/kernel/kernel.c]) make:
    [idle], which runs first, and the shell as [init]. *)
Definition boot_processes (shell : list Z) (k : kstate) : option kstate :=
  let! (idle, k) := create_process [] (Some (bytes "idle")) k in
  let! idle := idle in
  let k := set_current (upd_proc k idle (set_pid 0)) (Some idle) in
  let! (init, k) := create_process shell (Some (bytes "shell")) k in
  Some (KState (procs k) (current_proc k) init (need_resched k) (env k)).
End process.
Arguments kstate : clear implicits.
Arguments outcome : clear implicits.
Arguments Done {E A}.
Arguments Blocked {E A}.
