(* ===== verification/ProcessSpec.v ===== *)
(** * The process table: invariant and theorems

    The invariant of the table (a process is in the slot of its pid, its parent is
    another live process, nobody waits for what has already happened), that every operation of
    [Process] preserves it, and what the scheduler, the mailboxes and the exit
    protocol do; over any implementation of [ProcEnv]. *)
From Stdlib Require Import ZArith Lia ZifyBool String.
From stdpp Require Import base tactics list numbers option relations.
From S2P Require Import Prelude CString Process.
#[local] Open Scope Z_scope.

(** ** The invariant *)

Definition alive (p : process) : Prop := state p = PROC_RUNNABLE ∨ state p = PROC_WAITTING.

Definition waits (reason : Z) (p : process) : Prop :=
  state p = PROC_WAITTING ∧ wait_reason p = reason.

(** [q] is a child that [waitpid] of [p] is about. *)
Definition awaited (p q : process) : Prop :=
  parent_pid q = pid p ∧ (wait_pid p = -1 ∨ wait_pid p = pid q).

Definition alive_at (ps : list process) (j : nat) : Prop := ∃ q, ps !! j = Some q ∧ alive q.

Record procs_ok (ps : list process) : Prop := {
  pk_len : length ps = 64%nat;
  pk_state i p : ps !! i = Some p → 0 ≤ state p ≤ 3;
  pk_slot i p : ps !! i = Some p → state p ≠ PROC_UNUSED → pid p = Z.of_nat i;
  pk_parent i p : ps !! i = Some p → state p ≠ PROC_UNUSED →
    parent_pid p = 0 ∨ ∃ j, (0 < j ∧ j ≠ i)%nat ∧ parent_pid p = Z.of_nat j ∧ alive_at ps j;
  pk_recv i p : ps !! i = Some p → waits PROC_WAIT_IPC_RECV p → ipc_has_message p = 0;
  pk_child i p : ps !! i = Some p → waits PROC_WAIT_CHILD_EXIT p →
    (0 < i)%nat ∧ (∃ j q, ps !! j = Some q ∧ alive q ∧ awaited p q) ∧
    (∀ j q, ps !! j = Some q → state q = PROC_EXITED → ¬ awaited p q)
}.

(** What the invariant reads of a process. *)
Definition same_status (p q : process) : Prop :=
  pid q = pid p ∧ state q = state p ∧ parent_pid q = parent_pid p ∧
  wait_reason q = wait_reason p ∧ wait_pid q = wait_pid p ∧
  ipc_has_message q = ipc_has_message p.

Lemma status_lookup ps ps' i p :
  Forall2 same_status ps ps' → ps' !! i = Some p → ∃ q, ps !! i = Some q ∧ same_status q p.
Proof. intros H Hi. by eapply Forall2_lookup_r. Qed.

Lemma status_lookup_l ps ps' i p :
  Forall2 same_status ps ps' → ps !! i = Some p → ∃ q, ps' !! i = Some q ∧ same_status p q.
Proof. intros H Hi. by eapply Forall2_lookup_l. Qed.

(** The invariant depends on those fields only. *)
Lemma procs_ok_status ps ps' : Forall2 same_status ps ps' → procs_ok ps → procs_ok ps'.
Proof.
  intros Hf [Hlen Hst Hslot Hpar Hrecv Hchild]. constructor.
  - by rewrite <-(Forall2_length _ _ _ Hf).
  - intros i p Hp. destruct (status_lookup _ _ _ _ Hf Hp) as (q&Hq&_&->&_). eauto.
  - intros i p Hp Hs. destruct (status_lookup _ _ _ _ Hf Hp) as (q&Hq&->&E&_). rewrite E in Hs. eauto.
  - intros i p Hp Hs. destruct (status_lookup _ _ _ _ Hf Hp) as (q&Hq&_&E&->&_). rewrite E in Hs.
    destruct (Hpar i q Hq Hs) as [?|(j&?&?&r&Hr&Ha)]; [by left|right]. exists j.
    destruct (status_lookup_l _ _ _ _ Hf Hr) as (r'&Hr'&_&Er&_).
    split; [done|split; [done|]]. exists r'. split; [done|]. unfold alive. by rewrite Er.
  - intros i p Hp [Hs Hw]. destruct (status_lookup _ _ _ _ Hf Hp) as (q&Hq&_&E&_&Ew&_&->).
    apply (Hrecv i q Hq). split; congruence.
  - intros i p Hp [Hs Hw]. destruct (status_lookup _ _ _ _ Hf Hp) as (q&Hq&E1&E2&_&Ew&Ewp&_).
    destruct (Hchild i q Hq) as (Hi0&(j&r&Hr&Ha&Haw)&Hno); [split; congruence|].
    split; [done|]. split.
    + destruct (status_lookup_l _ _ _ _ Hf Hr) as (r'&Hr'&F1&F2&F3&_). exists j, r'.
      split; [done|]. unfold alive, awaited in *. by rewrite F2, F3, E1, Ewp, F1.
    + intros l s Hl Hex Haws. destruct (status_lookup _ _ _ _ Hf Hl) as (s'&Hs'&F1&F2&F3&_).
      apply (Hno l s' Hs'); [congruence|]. unfold awaited in *. by rewrite <-F3, <-F1, <-E1, <-Ewp.
Qed.

Lemma status_refl p : same_status p p.
Proof. done. Qed.

Lemma status_insert ps i p q :
  ps !! i = Some p → same_status p q → Forall2 same_status ps (<[i := q]> ps).
Proof.
  intros Hp Hs. rewrite <-(list_insert_id ps i p Hp) at 1.
  apply Forall2_insert; [|done]. apply Forall_Forall2_diag, Forall_true, status_refl.
Qed.

Lemma procs_ok_same ps i p q :
  procs_ok ps → ps !! i = Some p → same_status p q → procs_ok (<[i := q]> ps).
Proof. intros Hok Hp Hs. eapply procs_ok_status; [by eapply status_insert|done]. Qed.

(** ** Changes of one slot *)

Section change.
Context (ps : list process) (i : nat) (p q : process).
Context (Hok : procs_ok ps) (Hp : ps !! i = Some p).

Lemma lookup_change j r :
  <[i := q]> ps !! j = Some r → j = i ∧ r = q ∨ j ≠ i ∧ ps !! j = Some r.
Proof.
  destruct (decide (j = i)) as [->|Hne].
  - rewrite list_lookup_insert_eq by (by eapply lookup_lt_Some). intros [= <-]. by left.
  - rewrite list_lookup_insert_ne by done. by right.
Qed.

Lemma lookup_change_eq : <[i := q]> ps !! i = Some q.
Proof. apply list_lookup_insert_eq. by eapply lookup_lt_Some. Qed.

Lemma lookup_change_ne j r : j ≠ i → ps !! j = Some r → <[i := q]> ps !! j = Some r.
Proof. intros. by rewrite list_lookup_insert_ne. Qed.

Lemma alive_at_change j : (j = i → alive q) → alive_at ps j → alive_at (<[i := q]> ps) j.
Proof.
  intros Hq (r&Hr&Ha). destruct (decide (j = i)) as [->|Hne].
  - exists q. split; [apply lookup_change_eq|by apply Hq].
  - exists r. split; [by apply lookup_change_ne|done].
Qed.

(** A new process in a free slot: nobody's parent, nobody waits for it. *)
Lemma procs_ok_add :
  state p = PROC_UNUSED → state q = PROC_RUNNABLE → pid q = Z.of_nat i →
  (parent_pid q = 0 ∨ ∃ j, (0 < j ∧ j ≠ i)%nat ∧ parent_pid q = Z.of_nat j ∧ alive_at ps j) →
  procs_ok (<[i := q]> ps).
Proof.
  intros Hu Hr Hpid Hpar. destruct Hok as [Hlen Hst Hslot Hparent Hrecv Hchild]. constructor.
  - by rewrite length_insert.
  - intros j r [(->&->)|(?&Hj)]%lookup_change; [rewrite Hr; unfold PROC_RUNNABLE; lia|eauto].
  - intros j r [(->&->)|(?&Hj)]%lookup_change; [done|eauto].
  - intros j r Hj Hs.
    assert (Hc : parent_pid r = 0 ∨ ∃ l, (0 < l ∧ l ≠ j)%nat ∧ parent_pid r = Z.of_nat l ∧ alive_at ps l)
      by (apply lookup_change in Hj as [(->&->)|(?&Hj)]; eauto).
    destruct Hc as [?|(l&?&?&?)]; [by left|right]. exists l. split; [done|split; [done|]].
    apply alive_at_change; [|done]. by left.
  - intros j r [(->&->)|(?&Hj)]%lookup_change [Hs Hw]; [by rewrite Hr in Hs|].
    eapply Hrecv; [done|by split].
  - intros j r [(->&->)|(?&Hj)]%lookup_change [Hs Hw]; [by rewrite Hr in Hs|].
    destruct (Hchild j r Hj) as (Hj0&(l&s&Hl&Ha&Haw)&Hno); [by split|]. split; [done|]. split.
    + exists l, s. split; [|done]. apply lookup_change_ne; [|done]. intros ->. simplify_eq.
      destruct Ha as [Ha|Ha]; by rewrite Hu in Ha.
    + intros l' s' [(->&->)|(?&Hl')]%lookup_change Hex; [by rewrite Hr in Hex|eauto].
Qed.

(** A process that has exited, or that is not alive yet, gives its slot back. *)
Lemma procs_ok_remove :
  ¬ alive p → state q = PROC_UNUSED → procs_ok (<[i := q]> ps).
Proof.
  intros Hna Hu. destruct Hok as [Hlen Hst Hslot Hparent Hrecv Hchild]. constructor.
  - by rewrite length_insert.
  - intros j r [(->&->)|(?&Hj)]%lookup_change; [rewrite Hu; unfold PROC_UNUSED; lia|eauto].
  - intros j r [(->&->)|(?&Hj)]%lookup_change Hs; [done|eauto].
  - intros j r [(->&->)|(?&Hj)]%lookup_change Hs; [done|].
    destruct (Hparent j r Hj Hs) as [?|(l&?&?&s&Hl&Ha)]; [by left|right].
    exists l. split; [done|split; [done|]]. exists s. split; [|done].
    apply lookup_change_ne; [|done]. intros ->. simplify_eq.
  - intros j r [(->&->)|(?&Hj)]%lookup_change [Hs Hw]; [by rewrite Hu in Hs|].
    eapply Hrecv; [done|by split].
  - intros j r [(->&->)|(?&Hj)]%lookup_change [Hs Hw]; [by rewrite Hu in Hs|].
    destruct (Hchild j r Hj) as (Hj0&(l&s&Hl&Ha&Haw)&Hno); [by split|]. split; [done|]. split.
    + exists l, s. split; [|done]. apply lookup_change_ne; [|done]. intros ->. by simplify_eq.
    + intros l' s' [(->&->)|(?&Hl')]%lookup_change Hex; [by rewrite Hu in Hex|eauto].
Qed.

(** A live process waits or is woken: what it waits for must not be there. *)
Lemma procs_ok_wait st reason target :
  alive p → st = PROC_RUNNABLE ∨ st = PROC_WAITTING → q = set_wait st reason target p →
  (waits PROC_WAIT_IPC_RECV q → ipc_has_message p = 0) →
  (waits PROC_WAIT_CHILD_EXIT q →
    (0 < i)%nat ∧ (∃ j r, ps !! j = Some r ∧ alive r ∧ awaited q r) ∧
    (∀ j r, ps !! j = Some r → state r = PROC_EXITED → ¬ awaited q r)) →
  procs_ok (<[i := q]> ps).
Proof.
  intros Hal Hst' Hq Hmail Hch. destruct Hok as [Hlen Hst Hslot Hparent Hrecv Hchild].
  assert (Hqa : alive q) by (subst q; done).
  assert (Hnu : state p ≠ PROC_UNUSED) by (destruct Hal as [-> | ->]; done).
  assert (Hpidq : pid q = pid p) by (by subst q). assert (Hparq : parent_pid q = parent_pid p) by (by subst q).
  constructor.
  - by rewrite length_insert.
  - intros j r [(->&->)|(?&Hj)]%lookup_change; [|eauto].
    destruct Hqa as [-> | ->]; unfold PROC_RUNNABLE, PROC_WAITTING; lia.
  - intros j r [(->&->)|(?&Hj)]%lookup_change Hs; [rewrite Hpidq; eauto|eauto].
  - intros j r Hj Hs.
    assert (Hc : parent_pid r = 0 ∨ ∃ l, (0 < l ∧ l ≠ j)%nat ∧ parent_pid r = Z.of_nat l ∧ alive_at ps l).
    { apply lookup_change in Hj as [(->&->)|(?&Hj)]; [rewrite Hparq; eauto|eauto]. }
    destruct Hc as [?|(l&?&?&?)]; [by left|right]. exists l. split; [done|split; [done|]].
    by apply alive_at_change.
  - intros j r [(->&->)|(?&Hj)]%lookup_change Hw; [|eauto]. subst q. by apply Hmail.
  - assert (Hexq : state q ≠ PROC_EXITED) by (destruct Hqa as [-> | ->]; done).
    intros j r [(->&->)|(Hne&Hj)]%lookup_change Hw.
    + destruct (Hch Hw) as (Hi0&(l&s&Hl&Ha&Haw)&Hno). split; [done|]. split.
      * destruct (decide (l = i)) as [->|Hli].
        -- exists i, q. split; [apply lookup_change_eq|]. split; [done|].
           simplify_eq. unfold awaited in *. rewrite Hparq, Hpidq in *. done.
        -- exists l, s. split; [by apply lookup_change_ne|done].
      * intros l' s' [(->&->)|(?&Hl')]%lookup_change Hex; [done|eauto].
    + destruct (Hchild j r Hj Hw) as (Hj0&(l&s&Hl&Ha&Haw)&Hno). split; [done|]. split.
      * destruct (decide (l = i)) as [->|Hli].
        -- exists i, q. split; [apply lookup_change_eq|]. split; [done|].
           simplify_eq. unfold awaited in *. by rewrite Hparq, Hpidq.
        -- exists l, s. split; [by apply lookup_change_ne|done].
      * intros l' s' [(->&->)|(?&Hl')]%lookup_change Hex; [done|eauto].
Qed.
End change.

(** ** The end of a process *)

Definition orphaned (c : Z) (p : process) : process :=
  if parent_pid p =? c then set_parent 0 p else p.

Definition woken (p : process) : process := set_wait PROC_RUNNABLE PROC_WAIT_NONE (-1) p.

(** [notify_child_exit] wakes [p] when the child [c] of [parent] has exited. *)
Definition wakes (parent c : Z) (p : process) : bool :=
  (0 <? parent) && (pid p =? parent) && (state p =? PROC_WAITTING) &&
  (wait_reason p =? PROC_WAIT_CHILD_EXIT) && ((wait_pid p =? -1) || (wait_pid p =? c)).

(** What the end of the process of pid [c] in slot [i] makes of slot [j]: its
    children are orphaned, it is marked, its parent is woken. *)
Definition after_exit (i : nat) (c parent : Z) (j : nat) (r : process) : process :=
  let r := orphaned c r in
  let r := if decide (j = i) then set_wait PROC_EXITED PROC_WAIT_NONE (-1) r else r in
  if wakes parent c r then woken r else r.

Section exit.
Context (ps : list process) (i : nat) (p : process).
Context (Hok : procs_ok ps) (Hp : ps !! i = Some p) (Hal : alive p) (Hi : (0 < i)%nat).

Let c := pid p.
Let parent := parent_pid (orphaned c p).

Lemma exit_pid : c = Z.of_nat i.
Proof. apply (pk_slot ps Hok i p Hp). destruct Hal as [-> | ->]; done. Qed.

Lemma after_exit_fields j r :
  let r' := after_exit i c parent j r in
  pid r' = pid r ∧ ipc_has_message r' = ipc_has_message r ∧
  parent_pid r' = (if parent_pid r =? c then 0 else parent_pid r).
Proof.
  cbv zeta. unfold after_exit, orphaned. destruct (parent_pid r =? c), (decide (j = i)); simpl;
    match goal with |- context [if wakes ?a ?b ?d then _ else _] => destruct (wakes a b d) end;
    done.
Qed.

(** The state of the other slots: unchanged, or woken. *)
Lemma after_exit_other j r :
  j ≠ i → let r' := after_exit i c parent j r in
  if wakes parent c r then r' = woken (orphaned c r)
  else r' = orphaned c r.
Proof.
  intros Hne. cbv zeta. unfold after_exit. rewrite decide_False by done.
  assert (Hw : wakes parent c (orphaned c r) = wakes parent c r)
    by (unfold orphaned; destruct (parent_pid r =? c); done).
  rewrite Hw. by destruct (wakes parent c r).
Qed.

Lemma orphaned_status r :
  state (orphaned c r) = state r ∧ wait_reason (orphaned c r) = wait_reason r ∧
  wait_pid (orphaned c r) = wait_pid r.
Proof. unfold orphaned. by destruct (parent_pid r =? c). Qed.

Lemma after_exit_self r : state (after_exit i c parent i r) = PROC_EXITED.
Proof.
  unfold after_exit. rewrite decide_True by done.
  replace (wakes parent c _) with false; [done|].
  unfold wakes. simpl. by rewrite !andb_false_r.
Qed.

(** A process that still waits was not woken, and is not the one that exits. *)
Lemma after_exit_waits j r reason :
  waits reason (after_exit i c parent j r) →
  j ≠ i ∧ waits reason r ∧ wakes parent c r = false ∧ after_exit i c parent j r = orphaned c r.
Proof.
  intros [Hs Hw]. assert (j ≠ i) as Hne by (intros ->; by rewrite after_exit_self in Hs).
  pose proof (after_exit_other j r Hne) as Ho. cbv zeta in Ho.
  destruct (wakes parent c r); rewrite Ho in Hs, Hw; [done|].
  destruct (orphaned_status r) as (E1&E2&_). split; [done|]. split; [split; congruence|done].
Qed.

Lemma after_exit_alive j r : j ≠ i → alive r → alive (after_exit i c parent j r).
Proof.
  intros Hne Ha. pose proof (after_exit_other j r Hne) as Ho. cbv zeta in Ho.
  destruct (wakes parent c r); rewrite Ho; [by left|].
  unfold alive. by destruct (orphaned_status r) as (-> & _).
Qed.

Lemma after_exit_state j r :
  state (after_exit i c parent j r) = state r ∨
  j = i ∧ state (after_exit i c parent j r) = PROC_EXITED ∨
  state r = PROC_WAITTING ∧ state (after_exit i c parent j r) = PROC_RUNNABLE.
Proof.
  destruct (decide (j = i)) as [->|Hne]; [right; left; split; [done|apply after_exit_self]|].
  pose proof (after_exit_other j r Hne) as Ho. cbv zeta in Ho.
  destruct (wakes parent c r) eqn:Ew; rewrite Ho.
  - right; right. split; [|done]. unfold wakes in Ew. unfold PROC_WAITTING in *. lia.
  - left. by destruct (orphaned_status r) as (-> & _).
Qed.

Lemma procs_ok_exit : procs_ok (imap (after_exit i c parent) ps).
Proof.
  pose proof exit_pid as Hc.
  assert (Hlk : ∀ j r, imap (after_exit i c parent) ps !! j = Some r →
                ∃ r0, ps !! j = Some r0 ∧ r = after_exit i c parent j r0).
  { intros j r Hr. rewrite list_lookup_imap in Hr. destruct (ps !! j) as [r0|]; [|done].
    simpl in Hr. exists r0. split; congruence. }
  assert (Hlk' : ∀ j r0, ps !! j = Some r0 →
                 imap (after_exit i c parent) ps !! j = Some (after_exit i c parent j r0)).
  { intros j r0 Hr. by rewrite list_lookup_imap, Hr. }
  destruct Hok as [Hlen Hst Hslot Hparent Hrecv Hchild]. constructor.
  - by rewrite length_imap.
  - intros j r Hj. apply Hlk in Hj as (r0&Hr0&->). specialize (Hst j r0 Hr0).
    destruct (after_exit_state j r0) as [->|[[_ ->]|[_ ->]]]; unfold PROC_EXITED, PROC_RUNNABLE; lia.
  - intros j r Hj Hs. apply Hlk in Hj as (r0&Hr0&->).
    destruct (after_exit_fields j r0) as (-> & _). apply (Hslot j r0 Hr0). intros E.
    destruct (after_exit_state j r0) as [F|[[-> _]|[F _]]]; [congruence| |by rewrite E in F].
    rewrite Hp in Hr0. simplify_eq. destruct Hal as [F|F]; by rewrite E in F.
  - intros j r Hj Hs. apply Hlk in Hj as (r0&Hr0&->).
    destruct (after_exit_fields j r0) as (_ & _ & ->).
    destruct (Z.eqb_spec (parent_pid r0) c) as [|Hnc]; [by left|].
    assert (Hs0 : state r0 ≠ PROC_UNUSED).
    { intros E. destruct (after_exit_state j r0) as [F|[[-> _]|[F _]]]; [congruence| |by rewrite E in F].
      rewrite Hp in Hr0. simplify_eq. destruct Hal as [F|F]; by rewrite E in F. }
    destruct (Hparent j r0 Hr0 Hs0) as [?|(l&Hl&Hpl&s&Hs'&Ha)]; [by left|right].
    exists l. split; [done|split; [done|]]. exists (after_exit i c parent l s).
    split; [by apply Hlk'|]. apply after_exit_alive; [|done]. intros ->. lia.
  - intros j r Hj Hw. apply Hlk in Hj as (r0&Hr0&->).
    destruct (after_exit_fields j r0) as (_ & -> & _).
    apply after_exit_waits in Hw as (_&Hw&_). by eapply Hrecv.
  - intros j r Hj Hw. apply Hlk in Hj as (r0&Hr0&->).
    apply after_exit_waits in Hw as (Hne&Hw&Hnw&Ho).
    destruct (Hchild j r0 Hr0 Hw) as (Hj0&(l&s&Hl&Ha&Haw)&Hno). split; [done|].
    assert (Hpj : pid r0 = Z.of_nat j).
    { apply (Hslot j r0 Hr0). destruct Hw as [-> _]. done. }
    assert (Haw' : ∀ l' s0, awaited (after_exit i c parent j r0) (after_exit i c parent l' s0)
                            ↔ awaited r0 s0).
    { intros l' s0. unfold awaited. destruct (after_exit_fields l' s0) as (->&_&->).
      destruct (after_exit_fields j r0) as (->&_). rewrite Ho.
      destruct (orphaned_status r0) as (_&_&->).
      destruct (Z.eqb_spec (parent_pid s0) c); [|done]. split; intros [? ?]; lia. }
    assert (Hpi : ¬ awaited r0 p).
    { intros [Hpp Hwp]. unfold wakes in Hnw. destruct Hw as [Hw1 Hw2].
      assert (parent = pid r0).
      { unfold parent, orphaned. destruct (Z.eqb_spec (parent_pid p) c); [lia|done]. }
      rewrite Hw1, Hw2 in Hnw. unfold c in *. lia. }
    split.
    + exists l, (after_exit i c parent l s). split; [by apply Hlk'|]. rewrite Haw'.
      split; [|done]. apply after_exit_alive; [|done]. intros ->. simplify_eq.
    + intros l' s' Hl' Hex Haws. apply Hlk in Hl' as (s0&Hs0&->). rewrite Haw' in Haws.
      destruct (after_exit_state l' s0) as [F|[[-> _]|[_ F]]]; [|by simplify_eq|by rewrite F in Hex].
      apply (Hno l' s0 Hs0); [congruence|done].
Qed.
End exit.

(** ** The operations keep the invariant *)

Section operations.
Context {E : Type} `{ProcEnv E}.
Implicit Types k : kstate E.

(** Only the table and the environment differ. *)
Definition same_globals k k' : Prop :=
  current_proc k' = current_proc k ∧ init_proc k' = init_proc k ∧ need_resched k' = need_resched k.

Lemma procs_sync i k : procs (procfs_sync_best_effort i k) = procs k.
Proof.
  unfold procfs_sync_best_effort. case_if; [done|]. by destruct (procfs_sync_process _ _).
Qed.

Lemma globals_sync i k : same_globals k (procfs_sync_best_effort i k).
Proof.
  unfold procfs_sync_best_effort. case_if; [done|]. by destruct (procfs_sync_process _ _).
Qed.

Lemma proc_at_lookup k i p : procs k !! i = Some p → proc_at k i = p.
Proof. intros. by apply nth_lookup_Some. Qed.

Lemma lookup_proc_at k i : (i < length (procs k))%nat → procs k !! i = Some (proc_at k i).
Proof.
  intros Hi. destruct (lookup_lt_is_Some_2 _ _ Hi) as [p Hp]. by rewrite (proc_at_lookup k i p).
Qed.

Lemma procs_upd k i f p :
  procs k !! i = Some p → procs (upd_proc k i f) = <[i := f p]> (procs k).
Proof. intros Hp. unfold upd_proc. by rewrite (proc_at_lookup k i p). Qed.

Lemma recycle_spec i k k' p :
  procs k !! i = Some p → recycle_process_slot i k = Some k' →
  same_globals k k' ∧ ∃ q, procs k' = <[i := q]> (procs k) ∧ state q = PROC_UNUSED ∧
    pid q = 0 ∧ parent_pid q = 0.
Proof.
  intros Hp. unfold recycle_process_slot. destruct (procfs_cleanup _ _) as [r e].
  unfold free_process_memory. destruct (page_table (proc_at k i) =? 0).
  - intros [= <-]. split; [done|]. by eexists.
  - destruct (free_space _ _); [|done]. intros [= <-]. split; [done|]. by eexists.
Qed.

(** Reaping frees slots of exited processes and touches nothing else. *)
Definition reaped k k' : Prop :=
  same_globals k k' ∧ procs_ok (procs k') ∧
  ∀ j p, procs k !! j = Some p → state p ≠ PROC_EXITED → procs k' !! j = Some p.

Lemma reap_spec k k' :
  procs_ok (procs k) → reap_exited_processes k = Some k' → reaped k k'.
Proof.
  intros Hok Hr. unfold reap_exited_processes in Hr.
  apply (zfor_opt_inv (λ _ k', reaped k k')) in Hr; [done|done|].
  intros j k1 k2 Hj (Hg&Hok1&Hkeep) Hb. cbv zeta in Hb.
  destruct (Z.eqb_spec (state (proc_at k1 (Z.to_nat j))) PROC_EXITED) as [Hex|]; cbn [negb] in Hb;
    [|by simplify_eq]. destruct (parent_pid (proc_at k1 (Z.to_nat j)) =? 0); [|by simplify_eq].
  assert (Hl : (Z.to_nat j < length (procs k1))%nat).
  { rewrite (pk_len _ Hok1). unfold PROCS_MAX in Hj. lia. }
  pose proof (lookup_proc_at k1 _ Hl) as Hp.
  destruct (recycle_spec _ _ _ _ Hp Hb) as (Hg2&q&Hq&Hu&_). split; [|split].
  - unfold same_globals in *. intuition congruence.
  - rewrite Hq. eapply procs_ok_remove; [done|done| |done]. intros [Ha|Ha]; by rewrite Hex in Ha.
  - intros i p Hi Hs. specialize (Hkeep i p Hi Hs). rewrite Hq. apply lookup_change_ne; [|done].
    intros ->. rewrite Hp in Hkeep. simplify_eq.
Qed.

Lemma find_unused_spec k i :
  find_unused k = Some i → ∃ p, procs k !! i = Some p ∧ state p = PROC_UNUSED ∧
    ∀ j q, (j < i)%nat → procs k !! j = Some q → state q ≠ PROC_UNUSED.
Proof.
  intros [(p&Hp&Hs) Hmin]%first_idx_Some. exists p. split; [done|]. split; [lia|].
  intros j q Hj Hq. specialize (Hmin j q Hj Hq). lia.
Qed.

Lemma created_proc_fields i name pages table rm rn p :
  let q := created_proc i name pages table rm rn p in
  pid q = i ∧ state q = PROC_RUNNABLE ∧ parent_pid q = 0 ∧ ipc_has_message q = 0 ∧
  wait_reason q = PROC_WAIT_NONE.
Proof. by destruct name. Qed.

(** [create_process]: the lowest free slot holds a new process without parent. *)
Lemma create_process_spec image name k r k' :
  procs_ok (procs k) → create_process image name k = Some (r, k') →
  procs_ok (procs k') ∧ current_proc k' = current_proc k ∧ init_proc k' = init_proc k ∧
  (∀ j p, procs k !! j = Some p → state p ≠ PROC_EXITED → state p ≠ PROC_UNUSED →
     procs k' !! j = Some p) ∧
  ∀ i, r = Some i → ∃ q, procs k' !! i = Some q ∧ pid q = Z.of_nat i ∧ state q = PROC_RUNNABLE ∧
    parent_pid q = 0 ∧ ipc_has_message q = 0 ∧ wait_reason q = PROC_WAIT_NONE ∧
    (∀ p, procs k !! i = Some p → state p = PROC_UNUSED ∨ state p = PROC_EXITED) ∧
    (∀ j p, (j < i)%nat → procs k !! j = Some p → state p ≠ PROC_UNUSED).
Proof.
  intros Hok. unfold create_process.
  destruct (reap_exited_processes k) as [k1|] eqn:Er; [|done].
  destruct (reap_spec k k1 Hok Er) as ((Hc&Hi&_)&Hok1&Hkeep).
  destruct (find_unused k1) as [i|] eqn:Ef; [|intros [= <- <-]; split_and!; try done; eauto].
  destruct (find_unused_spec k1 i Ef) as (p&Hp&Hu&Hmin).
  destruct (create_space image (env k1)) as [[table e]|]; [|done]. cbn [env set_env].
  destruct (fs_get_root_entry e) as [[rm rn]|].
  - intros [= <- <-]. destruct (globals_sync i (upd_proc (set_env k1 e) i
      (created_proc (Z.of_nat i) name (u32 (Z.of_nat (length image) + 4096 - 1) / 4096) table rm rn)))
      as (Hc'&Hi'&_).
    rewrite procs_sync, (procs_upd (set_env k1 e) i _ p) by done. cbn [procs set_env].
    match goal with |- context [created_proc ?a ?b ?c ?d ?e ?f p] =>
      pose proof (created_proc_fields a b c d e f p) as Hq; set (q := created_proc a b c d e f p) in * end.
    cbv zeta in Hq. clearbody q. destruct Hq as (Hq1&Hq2&Hq3&Hq4&Hq5).
    split; [|split; [|split; [|split]]].
    + eapply procs_ok_add; try done. by left.
    + by rewrite Hc'.
    + by rewrite Hi'.
    + intros j r Hj Hs1 Hs2. apply lookup_change_ne; [|by apply Hkeep].
      intros ->. rewrite (Hkeep i r) in Hp by done. simplify_eq.
    + intros j [= <-]. exists q. split; [by eapply lookup_change_eq|].
      do 5 (split; [done|]). split.
      * intros r Hr. destruct (Z.eq_dec (state r) PROC_EXITED) as [|Hne]; [by right|left].
        rewrite (Hkeep i r) in Hp by done. by simplify_eq.
      * intros j r Hj Hr Hur. apply (Hmin j r Hj); [|done]. apply Hkeep; [done|by rewrite Hur].
  - destruct (recycle_process_slot i (set_env k1 e)) as [k2|] eqn:E2; [|done]. intros [= <- <-].
    destruct (recycle_spec i (set_env k1 e) k2 p Hp E2) as ((Hc2&Hi2&_)&q&Hq&Hqu&_).
    rewrite Hq. cbn [procs set_env current_proc init_proc] in *. split_and!; [|congruence|congruence| |done].
    + eapply procs_ok_remove; [done|done| |done]. intros [Ha|Ha]; by rewrite Hu in Ha.
    + intros j r Hj Hs1 Hs2. apply lookup_change_ne; [|by apply Hkeep].
      intros ->. rewrite (Hkeep i r) in Hp by done. simplify_eq.
Qed.

(** ** Loops over the table *)

Lemma take_S_map {A} (f : A → A) l n x :
  l !! n = Some x →
  <[n := f x]> (map f (take n l) ++ drop n l) = map f (take (S n) l) ++ drop (S n) l.
Proof.
  intros Hx. rewrite (take_S_r _ _ _ Hx), (drop_S _ _ _ Hx), map_app. simpl.
  rewrite insert_app_r_alt by (rewrite length_map, length_take; lia).
  rewrite length_map, length_take, Nat.min_l by (apply lookup_lt_Some in Hx; lia).
  rewrite Nat.sub_diag. simpl. by rewrite <-app_assoc.
Qed.

(** A loop that changes each slot by itself maps its change over the table. *)
Lemma zfor_procs_map (P : kstate E → Prop) (f : process → process) body k :
  length (procs k) = 64%nat → P k →
  (∀ i k' p, procs k' !! i = Some p → P k' →
     procs (body (Z.of_nat i) k') = <[i := f p]> (procs k') ∧ P (body (Z.of_nat i) k')) →
  let k' := zfor (Z.to_nat PROCS_MAX) 0 body k in
  procs k' = map f (procs k) ∧ P k'.
Proof.
  intros Hlen HP Hbody. cbv zeta.
  pose proof (zfor_inv (λ j k', procs k' = map f (take (Z.to_nat j) (procs k)) ++
      drop (Z.to_nat j) (procs k) ∧ P k') (Z.to_nat PROCS_MAX) 0 body k) as Hinv.
  destruct Hinv as [Hres HP']; [by rewrite drop_0| |].
  - intros j k' Hj [Hk' HPk']. unfold PROCS_MAX in Hj.
    destruct (lookup_lt_is_Some_2 (procs k) (Z.to_nat j) ltac:(lia)) as [x Hx].
    assert (Hx' : procs k' !! Z.to_nat j = Some x).
    { rewrite Hk', lookup_app_r by (rewrite length_map, length_take; lia).
      rewrite length_map, length_take, Nat.min_l, Nat.sub_diag by lia.
      by rewrite lookup_drop, Nat.add_0_r. }
    destruct (Hbody (Z.to_nat j) k' x Hx' HPk') as [Hb HPb]. rewrite Z2Nat.id in Hb, HPb by lia.
    split; [|done]. rewrite Hb, Hk', (take_S_map f _ _ x Hx).
    by replace (Z.to_nat (j + 1)) with (S (Z.to_nat j)) by lia.
  - split; [|done]. rewrite Hres. change (Z.to_nat (0 + Z.of_nat (Z.to_nat PROCS_MAX))) with 64%nat.
    by rewrite take_ge, drop_ge, app_nil_r by lia.
Qed.

Lemma procs_wake i k p : procs k !! i = Some p → procs (wake i k) = <[i := woken p]> (procs k).
Proof. intros Hp. unfold wake. by rewrite procs_sync, (procs_upd k i _ p). Qed.

Lemma globals_trans k1 k2 k3 : same_globals k1 k2 → same_globals k2 k3 → same_globals k1 k3.
Proof. unfold same_globals. intuition congruence. Qed.

Lemma globals_wake i k : same_globals k (wake i k).
Proof. unfold wake. eapply globals_trans; [|apply globals_sync]. done. Qed.

Lemma orphan_spec c k :
  0 < c → procs (orphan_children c k) = map (orphaned c) (procs k) ∧
  same_globals k (orphan_children c k).
Proof. intros Hc. unfold orphan_children. case_if; [lia|done]. Qed.

(** [notify_child_exit] of a process that is not waiting. *)
Lemma notify_spec child k p :
  length (procs k) = 64%nat → procs k !! child = Some p →
  procs (notify_child_exit child k)
  = map (λ r, if wakes (parent_pid p) (pid p) r then woken r else r) (procs k) ∧
  same_globals k (notify_child_exit child k).
Proof.
  intros Hlen Hp. unfold notify_child_exit. rewrite (proc_at_lookup k child p Hp).
  destruct (Z.leb_spec (parent_pid p) 0) as [Hle|Hgt].
  { split; [|done]. rewrite <-(map_id (procs k)) at 1. apply map_ext. intros r.
    unfold wakes. replace (0 <? parent_pid p) with false by ztest. done. }
  match goal with |- procs (zfor _ _ ?b _) = map ?f _ ∧ _ =>
    destruct (zfor_procs_map (λ k', same_globals k k' ∧ pid (proc_at k' child) = pid p) f b k Hlen)
      as (Hm&Hg&_) end; [| |by split].
  - split; [done|]. by rewrite (proc_at_lookup k child p Hp).
  - intros i k' r Hr [Hg Hpc]. cbv zeta. rewrite Nat2Z.id, (proc_at_lookup k' i r Hr), Hpc.
    assert (Hkeep : procs k' = <[i:=r]> (procs k')) by (by rewrite list_insert_id).
    unfold wakes. replace (0 <? parent_pid p) with true by ztest. cbn [andb].
    destruct (pid r =? parent_pid p); cbn [negb orb andb]; [|done].
    destruct (state r =? PROC_WAITTING); cbn [negb andb]; [|done].
    destruct (wait_reason r =? PROC_WAIT_CHILD_EXIT); cbn [negb andb]; [|done].
    destruct ((wait_pid r =? -1) || (wait_pid r =? pid p)); [|done].
    rewrite (procs_wake i k' r Hr). split; [done|]. split.
    + eapply globals_trans; [done|apply globals_wake].
    + unfold proc_at. rewrite (procs_wake i k' r Hr), nth_lookup.
      destruct (decide (child = i)) as [->|Hne].
      * rewrite list_lookup_insert_eq by (by eapply lookup_lt_Some). simpl.
        by rewrite (proc_at_lookup k' i r Hr) in Hpc.
      * rewrite list_lookup_insert_ne by done. unfold proc_at in Hpc. by rewrite nth_lookup in Hpc.
Qed.

Lemma wakeup_input_spec k :
  length (procs k) = 64%nat →
  procs (wakeup_input_waiters k)
  = map (λ r, if (state r =? PROC_WAITTING) && (wait_reason r =? PROC_WAIT_CONSOLE_INPUT)
              then woken r else r) (procs k) ∧
  same_globals k (wakeup_input_waiters k).
Proof.
  intros Hlen. apply (zfor_procs_map (same_globals k)); [done|done|].
  intros i k' r Hr Hg. cbv zeta. rewrite Nat2Z.id, (proc_at_lookup k' i r Hr). case_if.
  - rewrite (procs_wake i k' r Hr). split; [done|]. eapply globals_trans; [done|apply globals_wake].
  - split; [|done]. by rewrite list_insert_id.
Qed.

(** The end of a process on the table, as [syscall_handle_exit] and [process_kill]
    carry it out. *)
Lemma ending_spec i k p :
  procs_ok (procs k) → procs k !! i = Some p → alive p → (0 < i)%nat →
  let k1 := upd_proc (orphan_children (pid p) k) i (set_wait PROC_EXITED PROC_WAIT_NONE (-1)) in
  ∀ e, let k2 := notify_child_exit i (set_env k1 e) in
  procs k2 = imap (after_exit i (pid p) (parent_pid (orphaned (pid p) p))) (procs k) ∧
  same_globals k k2.
Proof.
  intros Hok Hp Hal Hi k1 e k2.
  pose proof (exit_pid (procs k) i p Hok Hp Hal) as Hpid.
  destruct (orphan_spec (pid p) k ltac:(lia)) as [Ho Hg].
  assert (Hp1 : procs (orphan_children (pid p) k) !! i = Some (orphaned (pid p) p)).
  { rewrite Ho. by rewrite list_lookup_fmap, Hp. }
  assert (Hk1 : procs k1 = <[i := set_wait PROC_EXITED PROC_WAIT_NONE (-1) (orphaned (pid p) p)]>
                 (map (orphaned (pid p)) (procs k))).
  { unfold k1. by rewrite (procs_upd _ i _ _ Hp1), Ho. }
  destruct (notify_spec i (set_env k1 e) (set_wait PROC_EXITED PROC_WAIT_NONE (-1) (orphaned (pid p) p)))
    as [Hn Hg2].
  { cbn [procs set_env]. rewrite Hk1, length_insert, length_map. by apply pk_len. }
  { cbn [procs set_env]. rewrite Hk1. apply list_lookup_insert_eq. rewrite length_map.
    by eapply lookup_lt_Some. }
  unfold k2. split; [|by eapply globals_trans; [|exact Hg2]].
  rewrite Hn. cbn [procs set_env]. rewrite Hk1. apply list_eq. intros j.
  rewrite list_lookup_fmap, list_lookup_imap. unfold after_exit.
  assert (Hpp : pid (orphaned (pid p) p) = pid p) by (unfold orphaned; by case_if).
  destruct (decide (j = i)) as [->|Hne].
  - rewrite list_lookup_insert_eq by (rewrite length_map; by eapply lookup_lt_Some).
    rewrite Hp. simpl. by rewrite Hpp.
  - rewrite list_lookup_insert_ne, list_lookup_fmap by done.
    destruct (procs k !! j) as [r|]; [|done]. simpl. by rewrite Hpp.
Qed.
End operations.
