(* ===== verification/ProcessOps.v ===== *)
(** * The operations on the process table keep its invariant

    Each system call and interrupt handler that changes the table, as a step from a
    kernel state to the next: what it keeps, and what it does to the process it is
    about. *)
From Stdlib Require Import ZArith Lia ZifyBool String.
From stdpp Require Import base tactics list numbers option relations.
From S2P Require Import Prelude CString Process ProcessSpec.
#[local] Open Scope Z_scope.

Section operations.
Context {E : Type} `{ProcEnv E}.
Implicit Types k : kstate E.

(** [k'] has a good table, the same current and initial processes as [k], and every
    process alive in [k] but [x] is alive in it. *)
Definition kept (x : option nat) k k' : Prop :=
  procs_ok (procs k') ∧ current_proc k' = current_proc k ∧ init_proc k' = init_proc k ∧
  ∀ j, x ≠ Some j → alive_at (procs k) j → alive_at (procs k') j.

Lemma kept_trans x k k1 k2 : kept x k k1 → kept x k1 k2 → kept x k k2.
Proof.
  intros (_&C1&I1&A1) (O2&C2&I2&A2). split; [done|]. split; [congruence|]. split; [congruence|].
  intros j Hx Ha. by apply A2, A1.
Qed.

Lemma kept_weaken x k k' : kept None k k' → kept x k k'.
Proof. intros (?&?&?&Ha). split; [done|]. split; [done|]. split; [done|]. intros j _. by apply Ha. Qed.

Lemma kept_same x k k' :
  procs_ok (procs k) → procs k' = procs k → current_proc k' = current_proc k →
  init_proc k' = init_proc k → kept x k k'.
Proof. intros Hok Hp Hc Hi. unfold kept. rewrite Hp. done. Qed.

Lemma kept_sync x i k : procs_ok (procs k) → kept x k (procfs_sync_best_effort i k).
Proof.
  intros Hok. destruct (globals_sync i k) as (Hc&Hi&_). apply kept_same; [done| |done|done].
  apply procs_sync.
Qed.

(** A change of slot [i] that keeps a live process alive. *)
Lemma kept_upd x i k k' p q :
  procs k !! i = Some p → procs k' = <[i := q]> (procs k) → procs_ok (procs k') →
  current_proc k' = current_proc k → init_proc k' = init_proc k → (alive p → alive q) →
  kept x k k'.
Proof.
  intros Hp Hk' Hok Hc Hi Ha. split; [done|]. split; [done|]. split; [done|].
  intros j _ (r&Hr&Har). rewrite Hk'. apply (alive_at_change (procs k) i p q Hp j); [|by exists r].
  intros ->. simplify_eq. by apply Ha.
Qed.

Lemma kept_reap x k k' : reaped k k' → kept x k k'.
Proof.
  intros ((Hc&Hi&_)&Hok&Hkeep). split; [done|]. split; [done|]. split; [done|].
  intros j _ (p&Hp&Ha). exists p. split; [|done]. apply Hkeep; [done|].
  destruct Ha as [-> | ->]; done.
Qed.

Lemma kept_recycle x i k k' p :
  procs_ok (procs k) → procs k !! i = Some p → ¬ alive p → recycle_process_slot i k = Some k' →
  kept x k k'.
Proof.
  intros Hok Hp Hna Hr. destruct (recycle_spec i k k' p Hp Hr) as ((Hc&Hi&_)&q&Hq&Hu&_).
  eapply kept_upd; [done|done| |done|done|done]. rewrite Hq. by eapply procs_ok_remove.
Qed.

(** A slot that is free stays so. *)
Lemma kept_free x i k f p :
  procs_ok (procs k) → procs k !! i = Some p → ¬ alive p → state (f p) = PROC_UNUSED →
  kept x k (upd_proc k i f) ∧ procs (upd_proc k i f) !! i = Some (f p).
Proof.
  intros Hok Hp Hna Hu. pose proof (procs_upd k i f p Hp) as Hk'. split.
  - eapply kept_upd; [done|done| |done|done|done]. rewrite Hk'. by eapply procs_ok_remove.
  - rewrite Hk'. by eapply lookup_change_eq.
Qed.

(** ** Processes that run *)

(** [cur] is the process that runs: it, and not the idle process, makes system calls. *)
Definition running k (cur : nat) : Prop :=
  current_proc k = Some cur ∧ (0 < cur)%nat ∧
  ∃ p, procs k !! cur = Some p ∧ state p = PROC_RUNNABLE.

Lemma running_proc k cur : running k cur → procs k !! cur = Some (proc_at k cur) ∧
  state (proc_at k cur) = PROC_RUNNABLE.
Proof. intros (_&_&p&Hp&Hs). by rewrite (proc_at_lookup k cur p Hp). Qed.

Lemma running_alive k cur : running k cur → alive (proc_at k cur).
Proof. intros Hr. left. by apply running_proc. Qed.

Lemma running_pid k cur :
  procs_ok (procs k) → running k cur → pid (proc_at k cur) = Z.of_nat cur.
Proof.
  intros Hok Hr. destruct (running_proc k cur Hr) as [Hp Hs]. apply (pk_slot _ Hok cur); [done|].
  by rewrite Hs.
Qed.

Lemma unused_dead p : state p = PROC_UNUSED → ¬ alive p.
Proof. intros Hu [Ha|Ha]; by rewrite Hu in Ha. Qed.

Lemma exited_dead p : state p = PROC_EXITED → ¬ alive p.
Proof. intros Hu [Ha|Ha]; by rewrite Hu in Ha. Qed.

(** A running process that keeps its status. *)
Lemma kept_status x i k k' p q :
  procs_ok (procs k) → procs k !! i = Some p → same_status p q → procs k' = <[i := q]> (procs k) →
  current_proc k' = current_proc k → init_proc k' = init_proc k → kept x k k'.
Proof.
  intros Hok Hp Hs Hk' Hc Hi. eapply kept_upd; [done|done| |done|done|].
  - rewrite Hk'. by eapply procs_ok_same.
  - destruct Hs as (_&Hst&_). unfold alive. by rewrite Hst.
Qed.

(** ** Creation *)

Lemma kept_create x image name k r k' :
  procs_ok (procs k) → create_process image name k = Some (r, k') → kept x k k'.
Proof.
  intros Hok Hc. destruct (create_process_spec image name k r k' Hok Hc) as (?&?&?&Hkeep&_).
  split; [done|]. split; [done|]. split; [done|]. intros j _ (p&Hp&Ha). exists p.
  split; [|done]. apply Hkeep; [done| |]; destruct Ha as [-> | ->]; done.
Qed.

(** A new process gets its parent. *)
Lemma procs_ok_adopt ps i p j :
  procs_ok ps → ps !! i = Some p → state p = PROC_RUNNABLE → parent_pid p = 0 →
  (0 < j ∧ j ≠ i)%nat → alive_at ps j → procs_ok (<[i := set_parent (Z.of_nat j) p]> ps).
Proof.
  intros Hok Hp Hs Hpar Hj Hal. set (q := set_parent (Z.of_nat j) p).
  assert (Hq : ∀ l r, <[i := q]> ps !! l = Some r → l = i ∧ r = q ∨ l ≠ i ∧ ps !! l = Some r)
    by (intros; by eapply lookup_change).
  assert (Hqs : state q = PROC_RUNNABLE) by done.
  destruct Hok as [Hlen Hst Hslot Hparent Hrecv Hchild]. constructor.
  - by rewrite length_insert.
  - intros l r [(->&->)|(?&Hl)]%Hq; [|eauto]. rewrite Hqs. unfold PROC_RUNNABLE. lia.
  - intros l r [(->&->)|(?&Hl)]%Hq Hu; [|eauto]. apply (Hslot i p Hp). by rewrite Hs.
  - intros l r Hl Hu.
    assert (Hc : parent_pid r = 0 ∨ ∃ m, (0 < m ∧ m ≠ l)%nat ∧ parent_pid r = Z.of_nat m ∧ alive_at ps m).
    { apply Hq in Hl as [(->&->)|(?&Hl)]; [|eauto]. right. by exists j. }
    destruct Hc as [?|(m&?&?&?)]; [by left|right]. exists m. split; [done|split; [done|]].
    eapply alive_at_change; [done| |done]. by left.
  - intros l r [(->&->)|(?&Hl)]%Hq [Hw1 Hw2]; [by rewrite Hqs in Hw1|]. by apply (Hrecv l r Hl).
  - intros l r [(->&->)|(?&Hl)]%Hq Hw; [destruct Hw as [Hw _]; by rewrite Hqs in Hw|].
    destruct (Hchild l r Hl Hw) as (Hl0&(m&s&Hm&Ha&Haw)&Hno). split; [done|]. split.
    + exists m, s. split; [|done]. eapply lookup_change_ne; [|done]. intros ->. simplify_eq.
      destruct Haw as [Haw _]. rewrite Hpar, (Hslot l r Hl) in Haw; [lia|].
      destruct Hw as [-> _]. done.
    + intros l' s' [(->&->)|(?&Hl')]%Hq Hex; [by rewrite Hqs in Hex|eauto].
Qed.

Lemma kept_clone image name k cur r k' :
  procs_ok (procs k) → running k cur → clone_process image name k = Some (r, k') →
  kept None k k' ∧ (r ≠ -1 → ∃ i p, procs k' !! i = Some p ∧ r = Z.of_nat i ∧ pid p = r ∧
    state p = PROC_RUNNABLE ∧ parent_pid p = Z.of_nat cur ∧
    ∀ q, procs k !! i = Some q → state q = PROC_UNUSED ∨ state q = PROC_EXITED).
Proof.
  intros Hok Hrun. unfold clone_process.
  destruct (create_process image name k) as [[ri k1]|] eqn:Ec; [|done].
  pose proof (kept_create None _ _ _ _ _ Hok Ec) as Hk1.
  destruct (create_process_spec image name k ri k1 Hok Ec) as (Hok1&Hcur&Hinit&Hkeep&Hnew).
  destruct ri as [i|]; [|by intros [= <- <-]].
  destruct (Hnew i eq_refl) as (q&Hq&Hqp&Hqs&Hqpar&_&_&Hold&_).
  destruct Hrun as (Hc&Hcur0&p&Hp&Hps). rewrite Hcur, Hc. cbn [default].
  assert (Hp1 : procs k1 !! cur = Some p) by (apply Hkeep; [done| |]; by rewrite Hps).
  assert (Hci : cur ≠ i) by (intros ->; destruct (Hold p Hp) as [F|F]; by rewrite Hps in F).
  rewrite (proc_at_lookup k1 cur p Hp1).
  assert (Hpp : pid p = Z.of_nat cur) by (apply (pk_slot _ Hok cur p Hp); by rewrite Hps).
  intros [= <- <-]. rewrite Hpp.
  pose proof (procs_upd k1 i (set_parent (Z.of_nat cur)) q Hq) as Hu.
  assert (Hlk : procs (upd_proc k1 i (set_parent (Z.of_nat cur))) !! i = Some (set_parent (Z.of_nat cur) q))
    by (rewrite Hu; by eapply lookup_change_eq).
  split.
  - eapply kept_trans; [done|]. apply (kept_upd None i k1 _ q _ Hq Hu); [|done|done|done]. rewrite Hu.
    apply procs_ok_adopt; try done. exists p. split; [done|by left].
  - intros _. exists i, (set_parent (Z.of_nat cur) q). rewrite (proc_at_lookup _ _ _ Hlk).
    simpl. done.
Qed.

(** ** [fork] *)

Lemma alloc_slot_spec x k r k' :
  procs_ok (procs k) → alloc_proc_slot k = Some (r, k') →
  kept x k k' ∧ ∀ i, r = Some i → ∃ p, procs k' !! i = Some p ∧ state p = PROC_UNUSED ∧
    pid p = Z.of_nat i ∧ wait_reason p = PROC_WAIT_NONE ∧
    (∀ q, procs k !! i = Some q → state q = PROC_UNUSED ∨ state q = PROC_EXITED) ∧
    (∀ j q, procs k !! j = Some q → alive q → procs k' !! j = Some q).
Proof.
  intros Hok. unfold alloc_proc_slot.
  destruct (reap_exited_processes k) as [k1|] eqn:Er; [|done].
  pose proof (reap_spec k k1 Hok Er) as Hreap. pose proof (kept_reap x k k1 Hreap) as Hk1.
  destruct Hreap as (_&Hok1&Hkeep).
  destruct (find_unused k1) as [i|] eqn:Ef; [|by intros [= <- <-]].
  destruct (find_unused_spec k1 i Ef) as (p&Hp&Hu&_). intros [= <- <-].
  match goal with |- kept _ _ (upd_proc _ _ ?f) ∧ _ =>
    destruct (kept_free x i k1 f p Hok1 Hp (unused_dead p Hu) eq_refl) as [Hk2 Hp2];
    pose proof (procs_upd k1 i f p Hp) as Hupd end.
  split; [by eapply kept_trans|]. intros j [= <-]. eexists. split; [exact Hp2|].
  split; [done|]. split; [done|]. split; [done|]. split.
  - intros q Hq. destruct (Z.eq_dec (state q) PROC_EXITED) as [|Hne]; [by right|left].
    rewrite (Hkeep i q) in Hp by done. by simplify_eq.
  - intros j q Hq Ha. rewrite Hupd.
    assert (Hq1 : procs k1 !! j = Some q) by (apply Hkeep; [done|]; destruct Ha as [-> | ->]; done).
    apply lookup_change_ne; [|done]. intros ->. simplify_eq. by apply (unused_dead p).
Qed.

Lemma fork_fail_spec x i k r k' p :
  procs_ok (procs k) → procs k !! i = Some p → state p = PROC_UNUSED →
  fork_fail i k = Some (r, k') → kept x k k' ∧ r = None.
Proof.
  intros Hok Hp Hu. unfold fork_fail. destruct (recycle_process_slot i k) as [k1|] eqn:Er; [|done].
  intros [= <- <-]. split; [|done]. eapply kept_recycle; try done. by apply unused_dead.
Qed.

(** What a child has of its parent. *)
Definition forked (parent child : process) : Prop :=
  parent_pid child = pid parent ∧ state child = PROC_RUNNABLE ∧
  ipc_has_message child = 0 ∧ wait_reason child = PROC_WAIT_NONE ∧
  user_pages child = user_pages parent ∧
  exec_argc child = exec_argc parent ∧ exec_argv child = exec_argv parent ∧
  root_mount_idx child = root_mount_idx parent ∧ root_node_idx child = root_node_idx parent ∧
  cwd_mount_idx child = cwd_mount_idx parent ∧ cwd_node_idx child = cwd_node_idx parent ∧
  ipc_from_pid child = 0 ∧ ipc_message child = 0 ∧
  time_slice child = SCHED_TIME_SLICE_TICKS ∧ run_ticks child = 0 ∧ schedule_count child = 0.

(** The child starts to run. *)
Lemma kept_start i k child cur :
  procs_ok (procs k) → procs k !! i = Some child → state child = PROC_UNUSED →
  pid child = Z.of_nat i → parent_pid child = Z.of_nat cur → (0 < cur ∧ cur ≠ i)%nat →
  alive_at (procs k) cur →
  let f := λ p, set_sched SCHED_TIME_SLICE_TICKS 0 0 (set_state PROC_RUNNABLE p) in
  let k' := procfs_sync_best_effort i (upd_proc k i f) in
  kept None k k' ∧ procs k' !! i = Some (f child).
Proof.
  intros Hok Hp Hu Hpid Hpar Hcur Ha f k'. unfold k'.
  pose proof (procs_upd k i f child Hp) as Hupd. rewrite procs_sync, Hupd.
  split; [|by eapply lookup_change_eq].
  assert (Hk1 : kept None k (upd_proc k i f)).
  { apply (kept_upd None i _ _ child _ Hp Hupd); [|done|done|by left]. rewrite Hupd.
    apply (procs_ok_add _ i child _ Hok Hp); [done|done|done|]. right. by exists cur. }
  eapply kept_trans; [exact Hk1|]. apply kept_sync. by destruct Hk1.
Qed.

(** From the copy of the address space on. *)
Lemma fork_copy i k cur par p1 r k' :
  procs_ok (procs k) → procs k !! cur = Some par → procs k !! i = Some (inherit par p1) →
  state p1 = PROC_UNUSED → pid p1 = Z.of_nat i → wait_reason p1 = PROC_WAIT_NONE →
  alive par → pid par = Z.of_nat cur → (0 < cur ∧ cur ≠ i)%nat →
  (let! (ok, table, e) := copy_space (proc_at k cur) (env k) in
   let k := set_env k e in
   if table =? 0 then fork_fail i k
   else
     let k := upd_proc k i (set_space (user_pages (proc_at k cur)) table) in
     if negb ok then fork_fail i k
     else
       let '(r, e) := fs_fork_copy_fds (pid (proc_at k cur)) (pid (proc_at k i)) (env k) in
       let k := set_env k e in
       if r <? 0 then fork_fail i k
       else
         let k := upd_proc k i (λ p,
           set_sched SCHED_TIME_SLICE_TICKS 0 0 (set_state PROC_RUNNABLE p)) in
         Some (Some i, procfs_sync_best_effort i k)) = Some (r, k') →
  kept None k k' ∧
  (∀ j, r = Some j → j = i ∧ ∃ p, procs k' !! i = Some p ∧ pid p = Z.of_nat i ∧ forked par p).
Proof.
  intros Hok Hcur Hp Hu1 Hpid Hw Ha Hcp Hci. cbv zeta. rewrite (proc_at_lookup k cur _ Hcur).
  destruct (copy_space par (env k)) as [[[ok table] e]|]; [|done].
  destruct (table =? 0).
  { intros Hf. destruct (fork_fail_spec None i (set_env k e) r k' _ Hok Hp Hu1 Hf) as [Hk3 ->].
    split; [exact Hk3|done]. }
  destruct (kept_free None i (set_env k e) (set_space (user_pages (proc_at (set_env k e) cur)) table)
    _ Hok Hp (unused_dead _ Hu1) Hu1) as [Hk3 Hp3].
  pose proof (procs_upd (set_env k e) i (set_space (user_pages (proc_at (set_env k e) cur)) table)
    _ Hp) as Hupd3.
  change (proc_at (set_env k e) cur) with (proc_at k cur) in *.
  rewrite (proc_at_lookup k cur _ Hcur) in *.
  set (k3 := upd_proc (set_env k e) i _) in *. pose proof Hk3 as (Hok3&_&_&_).
  assert (Hcur3 : procs k3 !! cur = Some par) by (rewrite Hupd3; destruct Hci; by eapply lookup_change_ne).
  clearbody k3. destruct ok; cbn [negb].
  2:{ intros Hf. destruct (fork_fail_spec None i k3 r k' _ Hok3 Hp3 Hu1 Hf) as [Hk4 ->].
      split; [exact (kept_trans _ _ _ _ Hk3 Hk4)|done]. }
  destruct (fs_fork_copy_fds _ _ (env k3)) as [rc e3].
  destruct (rc <? 0).
  { intros Hf. destruct (fork_fail_spec None i (set_env k3 e3) r k' _ Hok3 Hp3 Hu1 Hf) as [Hk4 ->].
    split; [exact (kept_trans _ _ _ _ Hk3 Hk4)|done]. }
  intros [= <- <-].
  destruct (kept_start i (set_env k3 e3) _ cur Hok3 Hp3) as [Hk4 Hp4]; [done|done|done|done| |].
  { exists par. by split. }
  split; [exact (kept_trans _ _ _ _ Hk3 Hk4)|]. intros j [= <-]. split; [done|].
  eexists. split; [exact Hp4|]. by split.
Qed.

Lemma kept_fork k cur r k' :
  procs_ok (procs k) → running k cur → process_fork k = Some (r, k') →
  kept None k k' ∧ (∀ i, r = Some i → ∃ p, procs k' !! i = Some p ∧ pid p = Z.of_nat i ∧
    (∀ q, procs k !! i = Some q → state q = PROC_UNUSED ∨ state q = PROC_EXITED) ∧
    forked (proc_at k cur) p).
Proof.
  intros Hok Hrun. unfold process_fork.
  destruct (alloc_proc_slot k) as [[ri k1]|] eqn:Ea; [|done].
  destruct (alloc_slot_spec None k ri k1 Hok Ea) as [Hk1 Hslot].
  destruct ri as [i|]; [|by intros [= <- <-]].
  destruct (Hslot i eq_refl) as (p1&Hp1&Hu1&Hpid1&Hw1&Hold&Hkeep).
  destruct (running_proc k cur Hrun) as [Hcur Hcs].
  pose proof (running_pid k cur Hok Hrun) as Hcp.
  pose proof (Hkeep cur _ Hcur (running_alive k cur Hrun)) as Hcur1.
  destruct Hrun as (Hc&Hc0&_).
  assert (Hci : cur ≠ i) by (intros ->; simplify_eq; by rewrite Hu1 in Hcs).
  pose proof Hk1 as (Hok1&Hc1&_&_). rewrite Hc1, Hc.
  rewrite (proc_at_lookup k1 cur _ Hcur1). set (par := proc_at k cur) in *. rewrite Hcs.
  replace (PROC_RUNNABLE =? PROC_RUNNABLE) with true by done. cbn [negb andb].
  destruct (kept_free None i k1 (inherit par) p1 Hok1 Hp1 (unused_dead _ Hu1) Hu1) as [Hk2 Hp2].
  assert (Hcur2 : procs (upd_proc k1 i (inherit par)) !! cur = Some par).
  { rewrite (procs_upd k1 i _ p1 Hp1). by eapply lookup_change_ne. }
  set (k2 := upd_proc k1 i (inherit par)) in *. pose proof (kept_trans _ _ _ _ Hk1 Hk2) as Hk02.
  clearbody k2. intros Hf.
  destruct (fork_copy i k2 cur par p1 r k') as [Hk3 Hnew]; try done; [by destruct Hk2|by left|].
  split; [by eapply kept_trans|]. intros j Hr. destruct (Hnew j Hr) as (->&p&?&?&?). by exists p.
Qed.

(** ** [exec], the timer, the working directory *)

(** A change of the running process that keeps its status, up to its reason to wait. *)
Lemma kept_running x k cur f k' :
  procs_ok (procs k) → running k cur → procs k' = <[cur := f (proc_at k cur)]> (procs k) →
  current_proc k' = current_proc k → init_proc k' = init_proc k →
  (∃ st reason target, st = PROC_RUNNABLE ∧
     same_status (set_wait st reason target (proc_at k cur)) (f (proc_at k cur))) →
  kept x k k'.
Proof.
  intros Hok Hrun Hk' Hc Hi (st&reason&target&->&Hs).
  destruct (running_proc k cur Hrun) as [Hp Hps]. pose proof (running_alive k cur Hrun) as Ha.
  set (p := proc_at k cur) in *. set (q := set_wait PROC_RUNNABLE reason target p) in *.
  assert (Hq : procs_ok (<[cur := q]> (procs k))).
  { apply (procs_ok_wait _ cur p q Hok Hp PROC_RUNNABLE reason target Ha); [by left|done| |];
      intros [Hw _]; done. }
  apply (kept_upd x cur k k' p (f p) Hp Hk'); [|done|done|].
  - rewrite Hk'. replace (<[cur := f p]> (procs k)) with (<[cur := f p]> (<[cur := q]> (procs k)))
      by apply list_insert_insert_eq.
    eapply procs_ok_same; [done| |done]. by eapply lookup_change_eq.
  - intros _. left. by destruct Hs as (_&->&_).
Qed.

Lemma kept_exec k cur image name argc argv r k' :
  procs_ok (procs k) → running k cur → process_exec image name argc argv k = Some (r, k') →
  kept None k k' ∧ (r = true → procs k' !! cur = Some (set_exec_args argc argv
    (set_sched SCHED_TIME_SLICE_TICKS 0 (schedule_count (proc_at k cur))
      (set_wait PROC_RUNNABLE PROC_WAIT_NONE (-1) (set_process_name name
        (set_space (u32 (Z.of_nat (length (default [] image)) + 4096 - 1) / 4096)
          (page_table (proc_at k cur)) (proc_at k cur))))))).
Proof.
  intros Hok Hrun. pose proof Hrun as (Hc&_&_). unfold process_exec. rewrite Hc.
  pose proof (running_proc k cur Hrun) as [Hp Hps].
  destruct image as [image|]; [|intros [= <- <-]; split; [by apply kept_same|done]].
  case_if; [intros [= <- <-]; split; [by apply kept_same|done]|].
  destruct (replace_image _ _ _) as [[ok e]|]; [|done]. set (p := proc_at k cur) in *. cbv zeta.
  set (k2 := if page_table p =? 0 then _ else _).
  assert (Hk2 : ∃ n, procs k2 !! cur = Some (set_space n (page_table p) p) ∧
    procs k2 = <[cur := set_space n (page_table p) p]> (procs k) ∧
    current_proc k2 = current_proc k ∧ init_proc k2 = init_proc k).
  { unfold k2. destruct (page_table p =? 0).
    - exists (user_pages p). replace (set_space _ _ p) with p by (by destruct p).
      split; [done|]. split; [by rewrite list_insert_id|done].
    - exists 0. rewrite (procs_upd (set_env k e) cur _ p) by done.
      split; [by eapply lookup_change_eq|done]. }
  clearbody k2. destruct Hk2 as (n&Hp2&Hk2&Hc2&Hi2).
  destruct ok; cbn [negb]; intros [= <- <-].
  2:{ split; [|done]. by apply (kept_status None cur k k2 p (set_space n (page_table p) p) Hok Hp). }
  rewrite procs_sync, (procs_upd k2 cur _ _ Hp2), Hk2, list_insert_insert_eq.
  match goal with |- context [<[cur := ?q]> (procs k) !! cur] => set (q' := q) end.
  split; [|intros _; rewrite lookup_change_eq with (p := p) by done; f_equal; unfold q';
           destruct name; by rewrite <-Hps].
  match goal with |- kept None k (procfs_sync_best_effort cur ?k3) => 
    assert (H3 : kept None k k3) end; [|eapply kept_trans; [exact H3|apply kept_sync; by destruct H3]].
  apply (kept_running None k cur (λ _, q')); [done|done| |done|done|].
  - by rewrite (procs_upd k2 cur _ _ Hp2), Hk2, list_insert_insert_eq.
  - exists PROC_RUNNABLE, PROC_WAIT_NONE, (-1). split; [done|]. unfold q', p in *.
    destruct name, argv; unfold same_status, set_exec_args; simpl; repeat case_if; done.
Qed.

Lemma kept_tick k :
  procs_ok (procs k) → (∀ cur, current_proc k = Some cur → (cur < 64)%nat) →
  kept None k (scheduler_on_timer_tick k).
Proof.
  intros Hok Hc. unfold scheduler_on_timer_tick.
  destruct (current_proc k) as [cur|] eqn:Ec; [|by apply kept_same].
  assert (Hp : procs k !! cur = Some (proc_at k cur)).
  { apply lookup_proc_at. rewrite (pk_len _ Hok). by apply Hc. }
  set (p := proc_at k cur) in *. case_if; [by apply kept_same|].
  match goal with |- context [set_proc k cur ?q] => set (k1 := set_proc k cur q);
    assert (Hk1 : kept None k k1) by (by apply (kept_status None cur k k1 p q Hok Hp)) end.
  match goal with |- context [if ?b then _ else _] => destruct b end; [|done].
  eapply kept_trans; [exact Hk1|]. apply kept_same; try done. by destruct Hk1.
Qed.

Lemma kept_enter_dir k cur m n path :
  procs_ok (procs k) → running k cur → kept None k (enter_dir cur m n path k).
Proof.
  intros Hok Hrun. unfold enter_dir. destruct (running_proc k cur Hrun) as [Hp _].
  destruct (procfs_sync_process _ _) as [r e].
  by eapply (kept_status None cur k _ (proc_at k cur)); [| | |apply (procs_upd k cur _ _ Hp)|..].
Qed.

(** ** [yield] *)

Lemma scan_order_length c : length (scan_order c) = 64%nat.
Proof. done. Qed.

Lemma scan_order_lookup c i :
  (i < 64)%nat → scan_order c !! i = Some (Z.to_nat ((c + Z.of_nat i) mod PROCS_MAX)).
Proof.
  intros Hi. unfold scan_order. rewrite list_lookup_fmap, lookup_seq_lt by done. done.
Qed.

(** The scheduler picks the first runnable process from pid [c] on, in cyclic order. *)
Lemma pick_next_some k c next :
  pick_next k c = Some next ↔
  ∃ i, (i < 64)%nat ∧ next = Z.to_nat ((c + Z.of_nat i) mod PROCS_MAX) ∧
    state (proc_at k next) = PROC_RUNNABLE ∧ 0 < pid (proc_at k next) ∧
    ∀ j, (j < i)%nat → let q := proc_at k (Z.to_nat ((c + Z.of_nat j) mod PROCS_MAX)) in
      ¬ (state q = PROC_RUNNABLE ∧ 0 < pid q).
Proof.
  pose proof (scan_order_lookup c) as Hlk. pose proof (scan_order_length c) as Hlen.
  unfold pick_next. set (f := λ i : nat, _). revert Hlk Hlen. generalize (scan_order c) as l0.
  intros l0 Hlk Hlen. split.
  - destruct (first_idx f l0) as [i|] eqn:Ef; [|done]. intros [= <-].
    apply first_idx_Some in Ef as [(j&Hj&Hf) Hmin].
    assert (Hi : (i < 64)%nat) by (apply lookup_lt_Some in Hj; by rewrite <-Hlen).
    rewrite (nth_lookup_Some _ _ _ _ Hj). rewrite Hlk in Hj by done.
    injection Hj as <-. exists i. split; [done|]. split; [done|]. unfold f in Hf.
    split; [lia|]. split; [lia|]. intros l Hl. cbv zeta.
    specialize (Hmin l _ Hl (Hlk l ltac:(lia))). unfold f in Hmin. lia.
  - intros (i&Hi&->&Hs&Hp&Hmin). replace (first_idx f l0) with (Some i).
    { simpl. by rewrite (nth_lookup_Some _ _ _ _ (Hlk i Hi)). }
    symmetry. apply first_idx_Some. split.
    + eexists. split; [by apply Hlk|]. unfold f. lia.
    + intros j x Hj Hx. rewrite Hlk in Hx by lia. injection Hx as <-.
      specialize (Hmin j Hj). cbv zeta in Hmin. unfold f. lia.
Qed.

(** It picks none only when there is none. *)
Lemma pick_next_none k c :
  length (procs k) = 64%nat →
  pick_next k c = None ↔
  ∀ i p, procs k !! i = Some p → ¬ (state p = PROC_RUNNABLE ∧ 0 < pid p).
Proof.
  intros Hlen. split.
  - intros Hn i p Hp [Hs Hpid].
    assert (Hi : (i < 64)%nat) by (rewrite <-Hlen; by eapply lookup_lt_Some).
    unfold pick_next in Hn. set (f := λ i : nat, _) in Hn.
    destruct (first_idx f (scan_order c)) eqn:Ef; [done|].
    set (j := Z.to_nat ((Z.of_nat i - c) mod 64)).
    assert (Hj : (j < 64)%nat) by (unfold j; pose proof (Z.mod_pos_bound (Z.of_nat i - c) 64); lia).
    pose proof (scan_order_lookup c j Hj) as Hl.
    assert (Hij : Z.to_nat ((c + Z.of_nat j) mod PROCS_MAX) = i).
    { unfold j, PROCS_MAX. rewrite Z2Nat.id by (apply Z.mod_pos_bound; lia).
      rewrite Zplus_mod_idemp_r. replace (c + (Z.of_nat i - c)) with (Z.of_nat i) by lia.
      rewrite Z.mod_small; lia. }
    rewrite Hij in Hl. pose proof (proj1 (first_idx_None f (scan_order c)) Ef j i Hl) as Hf.
    unfold f in Hf. rewrite (proc_at_lookup k i p Hp) in Hf. lia.
  - intros Hno. destruct (pick_next k c) as [n|] eqn:Ep; [|done].
    apply pick_next_some in Ep as (i&Hi&->&Hs&Hpid&_). exfalso.
    eapply Hno; [|split; [exact Hs|exact Hpid]]. apply lookup_proc_at. rewrite Hlen.
    pose proof (Z.mod_pos_bound (c + Z.of_nat i) PROCS_MAX). unfold PROCS_MAX in *. lia.
Qed.

(** [yield]: the process that runs next is runnable, and is not the idle process. *)
Definition yield_ok k (y : yielded) : Prop :=
  match y with
  | YReturn k' => kept None k k' ∧ (∀ cur, current_proc k = Some cur → running k' cur)
  | YSwitch next k' => procs_ok (procs k') ∧ init_proc k' = init_proc k ∧ running k' next ∧
      ∀ j, alive_at (procs k) j → alive_at (procs k') j
  | YWait k' => kept None k k' ∧ ∀ i p, procs k' !! i = Some p → state p = PROC_RUNNABLE → i = 0%nat
  end.

Lemma picked k c next :
  procs_ok (procs k) → pick_next k c = Some next →
  (0 < next < 64)%nat ∧ procs k !! next = Some (proc_at k next) ∧
  state (proc_at k next) = PROC_RUNNABLE.
Proof.
  intros Hok (i&Hi&Hn&Hs&Hp&_)%pick_next_some.
  assert (Hl : (next < 64)%nat).
  { pose proof (Z.mod_pos_bound (c + Z.of_nat i) PROCS_MAX). unfold PROCS_MAX in *. lia. }
  assert (Hlk : procs k !! next = Some (proc_at k next)).
  { apply lookup_proc_at. by rewrite (pk_len _ Hok). }
  split; [|done]. pose proof (pk_slot _ Hok next _ Hlk) as Hsl. rewrite Hs in Hsl.
  specialize (Hsl ltac:(done)). lia.
Qed.

Lemma yield_loop_ok k cur :
  procs_ok (procs k) → current_proc k = Some cur → (cur < 64)%nat → yield_ok k (yield_loop cur k).
Proof.
  intros Hok Hc Hl. unfold yield_loop.
  pose proof (lookup_proc_at k cur ltac:(by rewrite (pk_len _ Hok))) as Hcur.
  destruct (pick_next k _) as [next|] eqn:Ep.
  - destruct (picked k _ next Hok Ep) as (Hn&Hp&Hs).
    destruct (Nat.eqb_spec next cur) as [->|Hne].
    + assert (Hr : ∀ k1, procs k1 = procs k ∨ (∃ q, procs k1 = <[cur:=q]> (procs k) ∧
        same_status (proc_at k cur) q) → current_proc k1 = current_proc k →
        init_proc k1 = init_proc k → yield_ok k (YReturn k1)).
      { intros k1 Hk1 Hc1 Hi1. split.
        - destruct Hk1 as [?|(q&Hq&Hsq)]; [by apply kept_same|by eapply kept_status].
        - intros c [= <-]%(eq_trans (eq_sym Hc)). split; [congruence|]. split; [lia|].
          destruct Hk1 as [->|(q&->&_&Hsq&_)]; [by eexists|]. exists q.
          split; [by eapply lookup_change_eq|congruence]. }
      case_if; apply Hr; try done; [right|by left].
      eexists. split; [exact (procs_upd k cur _ _ Hp)|done].
    + set (f := λ p, set_sched SCHED_TIME_SLICE_TICKS (run_ticks p) (u32 (schedule_count p + 1)) p).
      pose proof (procs_upd k next f _ Hp) as Hk1. set (k1 := upd_proc k next f) in *.
      assert (H1 : kept None k k1)
        by (by apply (kept_status None next k k1 _ (f (proc_at k next)) Hok Hp)).
      destruct H1 as (Hok1&_&Hi1&Ha1). split; [done|]. split; [done|]. split.
      * split; [done|]. split; [lia|]. exists (f (proc_at k next)). cbn [set_current set_resched procs].
        rewrite Hk1. split; [by eapply lookup_change_eq|done].
      * intros j Hj. by apply Ha1.
  - split; [by apply kept_same|]. intros i p Hp Hs. destruct i as [|i]; [done|exfalso].
    assert (Hpid : pid p = Z.of_nat (S i)) by (apply (pk_slot _ Hok _ p Hp); by rewrite Hs).
    apply (proj1 (pick_next_none k _ (pk_len _ Hok)) Ep _ p Hp). split; [done|lia].
Qed.

Lemma yield_result k cur y :
  procs_ok (procs k) → current_proc k = Some cur → (cur < 64)%nat → yield cur k = Some y →
  yield_ok k y.
Proof.
  intros Hok Hc Hl. unfold yield.
  destruct (reap_exited_processes k) as [k1|] eqn:Er; [|done]. intros [= <-].
  pose proof (reap_spec k k1 Hok Er) as Hreap. pose proof (kept_reap None k k1 Hreap) as Hk1.
  pose proof Hk1 as (Hok1&Hc1&Hi1&Ha1).
  pose proof (yield_loop_ok k1 cur Hok1 ltac:(congruence) Hl) as Hy.
  destruct (yield_loop cur k1) as [k2|next k2|k2]; simpl in *.
  - destruct Hy as [Hy1 Hy2]. split; [by eapply kept_trans|]. intros c Hcc. apply Hy2. congruence.
  - destruct Hy as (?&Hi2&?&Ha2). split; [done|]. split; [congruence|]. split; [done|].
    intros j Hj. by apply Ha2, Ha1.
  - destruct Hy as [Hy1 Hy2]. split; [by eapply kept_trans|done].
Qed.

(** ** Waking up and the end of a process *)

Lemma kept_wake i k p :
  procs_ok (procs k) → procs k !! i = Some p → alive p → kept None k (wake i k).
Proof.
  intros Hok Hp Ha. pose proof (procs_wake i k p Hp) as Hk.
  destruct (globals_wake i k) as (Hc&Hi&_).
  apply (kept_upd None i k _ p _ Hp Hk); [|done|done|by left]. rewrite Hk.
  apply (procs_ok_wait _ i p _ Hok Hp PROC_RUNNABLE PROC_WAIT_NONE (-1) Ha);
    [by left|done|by intros [_ ?]|by intros [_ ?]].
Qed.

Lemma kept_wakeup_input k : procs_ok (procs k) → kept None k (wakeup_input_waiters k).
Proof.
  intros Hok. apply (zfor_inv (λ _ k', kept None k k')); [by apply kept_same|].
  intros j k' Hj Hk'. cbv zeta. case_if; [|done].
  pose proof Hk' as (Hok'&_). unfold PROCS_MAX in Hj.
  eapply kept_trans; [exact Hk'|]. eapply kept_wake; [done| |].
  - apply lookup_proc_at. rewrite (pk_len _ Hok'). lia.
  - right. lia.
Qed.

Lemma sync_env i k : ∃ e, procfs_sync_best_effort i k = set_env k e.
Proof.
  unfold procfs_sync_best_effort. case_if.
  - exists (env k). by destruct k.
  - destruct (procfs_sync_process _ _) as [r e]. by exists e.
Qed.

(** The end of [p], up to the word to its parent. *)
Definition ended i p k e : kstate E :=
  notify_child_exit i
    (set_env (upd_proc (orphan_children (pid p) k) i (set_wait PROC_EXITED PROC_WAIT_NONE (-1))) e).

Lemma kept_ended i p k e :
  procs_ok (procs k) → procs k !! i = Some p → alive p → (0 < i)%nat →
  kept (Some i) k (ended i p k e) ∧
  ∃ q, procs (ended i p k e) !! i = Some q ∧ state q = PROC_EXITED ∧ pid q = pid p.
Proof.
  intros Hok Hp Ha Hi. destruct (ending_spec i k p Hok Hp Ha Hi e) as [Hk (Hc&Hin&_)].
  fold (ended i p k e) in Hk, Hc, Hin. split.
  - split; [rewrite Hk; by apply procs_ok_exit|]. split; [done|]. split; [done|].
    intros j Hj (r&Hr&Har). rewrite Hk. exists (after_exit i (pid p) (parent_pid (orphaned (pid p) p)) j r).
    split; [by rewrite list_lookup_imap, Hr|].
    apply (after_exit_alive i p j r); [congruence|done].
  - exists (after_exit i (pid p) (parent_pid (orphaned (pid p) p)) i p).
    rewrite Hk, list_lookup_imap, Hp. split; [done|]. split; [by apply (after_exit_self i p)|].
    by destruct (after_exit_fields i p i p) as (?&_).
Qed.

Lemma exit_ended k cur :
  ∃ e, exit_current cur k = ended cur (proc_at k cur) k e.
Proof.
  unfold exit_current. cbv zeta. destruct (procfs_sync_process _ _) as [r e]. by exists e.
Qed.

(** A process that has exited loses its parent. *)
Lemma procs_ok_disown ps i p :
  procs_ok ps → ps !! i = Some p → state p = PROC_EXITED → procs_ok (<[i := set_parent 0 p]> ps).
Proof.
  intros Hok Hp Hs. set (q := set_parent 0 p).
  assert (Hq : ∀ l r, <[i := q]> ps !! l = Some r → l = i ∧ r = q ∨ l ≠ i ∧ ps !! l = Some r)
    by (intros; by eapply lookup_change).
  assert (Hqs : state q = PROC_EXITED) by done.
  assert (Hal : ∀ l, alive_at ps l → alive_at (<[i := q]> ps) l).
  { intros l (r&Hr&Ha). exists r. split; [|done]. eapply lookup_change_ne; [|done].
    intros ->. simplify_eq. by apply (exited_dead p). }
  destruct Hok as [Hlen Hst Hslot Hparent Hrecv Hchild]. constructor.
  - by rewrite length_insert.
  - intros l r [(->&->)|(?&Hl)]%Hq; [|eauto]. rewrite Hqs. unfold PROC_EXITED. lia.
  - intros l r [(->&->)|(?&Hl)]%Hq Hu; [|eauto]. apply (Hslot i p Hp). by rewrite Hs.
  - intros l r [(->&->)|(?&Hl)]%Hq Hu; [by left|].
    destruct (Hparent l r Hl Hu) as [?|(j&?&?&?)]; [by left|right]. exists j. eauto.
  - intros l r [(->&->)|(?&Hl)]%Hq [Hw1 Hw2]; [by rewrite Hqs in Hw1|]. by apply (Hrecv l r Hl).
  - intros l r [(->&->)|(?&Hl)]%Hq Hw; [destruct Hw as [Hw _]; by rewrite Hqs in Hw|].
    destruct (Hchild l r Hl Hw) as (Hl0&(j&s&Hj&Ha&Haw)&Hno). split; [done|]. split.
    + exists j, s. split; [|done]. eapply lookup_change_ne; [|done]. intros ->. simplify_eq.
      by apply (exited_dead p).
    + intros l' s' [(->&->)|(?&Hl')]%Hq Hex; [|eauto]. intros [Hpar _]. cbn in Hpar.
      rewrite (Hslot l r Hl) in Hpar; [lia|]. destruct Hw as [-> _]. done.
Qed.

Lemma find_process_spec t k i :
  procs_ok (procs k) →
  find_process_by_pid t k = Some i ↔
  0 < t ∧ t = Z.of_nat i ∧ ∃ p, procs k !! i = Some p ∧ state p ≠ PROC_UNUSED.
Proof.
  intros Hok. unfold find_process_by_pid. destruct (Z.leb_spec t 0) as [|Ht].
  { split; [done|lia]. }
  rewrite first_idx_Some. split.
  - intros [(p&Hp&Hf) _]. assert (Hs : state p ≠ PROC_UNUSED) by lia.
    pose proof (pk_slot _ Hok i p Hp Hs). split; [done|]. split; [lia|]. by exists p.
  - intros (_&->&p&Hp&Hs). pose proof (pk_slot _ Hok i p Hp Hs) as Hpid. split.
    + exists p. split; [done|]. lia.
    + intros j q Hj Hq. destruct (Z.eqb_spec (state q) PROC_UNUSED) as [|Hu]; [by rewrite andb_false_r|].
      rewrite (pk_slot _ Hok j q Hq Hu). lia.
Qed.

Lemma find_process_proc t k i :
  procs_ok (procs k) → find_process_by_pid t k = Some i →
  (0 < i)%nat ∧ t = Z.of_nat i ∧ procs k !! i = Some (proc_at k i) ∧
  state (proc_at k i) ≠ PROC_UNUSED ∧ pid (proc_at k i) = t.
Proof.
  intros Hok (Ht&->&p&Hp&Hs)%find_process_spec; [|done]. rewrite (proc_at_lookup k i p Hp).
  pose proof (pk_slot _ Hok i p Hp Hs). split; [lia|done].
Qed.

Lemma not_exited_alive k i p :
  procs_ok (procs k) → procs k !! i = Some p → state p ≠ PROC_UNUSED → state p ≠ PROC_EXITED →
  alive p.
Proof.
  intros Hok Hp Hu He. pose proof (pk_state _ Hok i p Hp). unfold alive, PROC_UNUSED, PROC_EXITED,
    PROC_RUNNABLE, PROC_WAITTING in *. lia.
Qed.

(** ** [kill] *)

(** The cases of [process_kill]. *)
Lemma process_kill_cases t k o :
  procs_ok (procs k) → process_kill t k = Some o →
  match o with
  | Done r k' =>
      (r = -1 ∧ t <= 0 ∧ k' = k) ∨
      (r = -2 ∧ 0 < t ∧ k' = k ∧ ¬ alive_at (procs k) (Z.to_nat t)) ∨
      (r = -3 ∧ 0 < t ∧ k' = k ∧ init_proc k = Some (Z.to_nat t)) ∨
      (r = t ∧ 0 < t ∧ init_proc k ≠ Some (Z.to_nat t) ∧ current_proc k ≠ Some (Z.to_nat t) ∧
       kept (Some (Z.to_nat t)) k k' ∧ alive_at (procs k) (Z.to_nat t) ∧
       ∃ q, procs k' !! Z.to_nat t = Some q ∧ state q = PROC_UNUSED)
  | Blocked w k' =>
      w = WaitForever ∧ 0 < t ∧ current_proc k = Some (Z.to_nat t) ∧
      init_proc k ≠ Some (Z.to_nat t) ∧ kept (Some (Z.to_nat t)) k k' ∧
      ∃ q, procs k' !! Z.to_nat t = Some q ∧ state q = PROC_EXITED ∧ parent_pid q = 0
  end.
Proof.
  intros Hok. unfold process_kill. destruct (Z.leb_spec t 0) as [|Ht]; [intros [= <-]; by left|].
  destruct (find_process_by_pid t k) as [i|] eqn:Ef.
  2:{ intros [= <-]. right; left. split; [done|]. split; [done|]. split; [done|].
      intros (p&Hp&Ha). cut (find_process_by_pid t k = Some (Z.to_nat t)); [by rewrite Ef|].
      apply find_process_spec; [done|]. split; [done|]. split; [lia|]. exists p. split; [done|].
      destruct Ha as [-> | ->]; done. }
  destruct (find_process_proc t k i Hok Ef) as (Hi&->&Hp&Hu&Hpid). rewrite Nat2Z.id.
  destruct (Z.eqb_spec (state (proc_at k i)) PROC_EXITED) as [Hex|Hne].
  { intros [= <-]. right; left. split; [done|]. split; [done|]. split; [done|].
    intros (p&Hp'&Ha). simplify_eq. by apply (exited_dead _ Hex). }
  pose proof (not_exited_alive k i _ Hok Hp Hu Hne) as Ha.
  destruct (bool_decide_reflect (init_proc k = Some i)) as [Hin|Hin].
  { intros [= <-]. by right; right; left. }
  cbv zeta. destruct (sync_env i (upd_proc (orphan_children (pid (proc_at k i)) k) i
    (set_wait PROC_EXITED PROC_WAIT_NONE (-1)))) as [e ->].
  fold (ended i (proc_at k i) k e).
  destruct (kept_ended i _ k e Hok Hp Ha Hi) as [Hk1 (q&Hq&Hqs&Hqp)].
  set (k1 := ended i (proc_at k i) k e) in *. clearbody k1. pose proof Hk1 as (Hok1&Hc1&_&_).
  pose proof (procs_upd k1 i (set_parent 0) q Hq) as Hk2'.
  assert (Hk2 : kept (Some i) k1 (upd_proc k1 i (set_parent 0))).
  { apply (kept_upd _ i k1 _ q _ Hq Hk2'); [|done|done|done]. rewrite Hk2'. by apply procs_ok_disown. }
  assert (Hq2 : procs (upd_proc k1 i (set_parent 0)) !! i = Some (set_parent 0 q))
    by (rewrite Hk2'; by eapply lookup_change_eq).
  set (k2 := upd_proc k1 i (set_parent 0)) in *.
  assert (Hc2 : current_proc k2 = current_proc k) by (by rewrite <-Hc1). clearbody k2.
  pose proof (kept_trans _ _ _ _ Hk1 Hk2) as Hk02. rewrite Hc2.
  destruct (bool_decide_reflect (current_proc k = Some i)) as [Hc|Hc].
  { intros [= <-]. split_and!; try done. by exists (set_parent 0 q). }
  destruct (recycle_process_slot i k2) as [k3|] eqn:Er; [|done]. intros [= <-].
  right; right; right. pose proof Hk2 as (Hok2&_).
  pose proof (kept_recycle (Some i) i k2 k3 _ Hok2 Hq2 (exited_dead (set_parent 0 q) Hqs) Er) as Hk3.
  destruct (recycle_spec i k2 k3 _ Hq2 Er) as (_&q3&Hq3&Hu3&_).
  split_and!; [done|done|done|done|by eapply kept_trans|by eexists|].
  exists q3. split; [|done]. rewrite Hq3. by eapply lookup_change_eq.
Qed.

(** ** [waitpid] *)

(** [p] is a child [wait_for_child_exit] of [parent] is about. *)
Definition is_child (parent target : Z) (p : process) : Prop :=
  state p ≠ PROC_UNUSED ∧ parent_pid p = parent ∧ (target = -1 ∨ pid p = target).

Lemma wait_scan_child ps i parent target h r b :
  wait_scan ps i parent target h = (r, b) →
  match r with
  | Some n => ∃ j p, n = (i + j)%nat ∧ ps !! j = Some p ∧ is_child parent target p ∧
      state p = PROC_EXITED ∧
      ∀ l q, (l < j)%nat → ps !! l = Some q → is_child parent target q → state q ≠ PROC_EXITED
  | None => (∀ l q, ps !! l = Some q → is_child parent target q → state q ≠ PROC_EXITED) ∧
      (b = true ↔ h = true ∨ ∃ l q, ps !! l = Some q ∧ is_child parent target q)
  end.
Proof.
  revert i h. induction ps as [|p ps IH]; intros i h; simpl.
  { intros [= <- <-]. split; [done|]. split; [by left|]. intros [?|(l&q&?&_)]; done. }
  set (c := (state p =? PROC_UNUSED) || negb (parent_pid p =? parent)).
  destruct (c || (negb (target =? -1) && negb (pid p =? target))) eqn:Ec.
  - assert (Hn : ¬ is_child parent target p).
    { unfold is_child. intros (H1&H2&[->|H3]); unfold c in Ec; lia. }
    intros Hw. assert (Hw' : wait_scan ps (S i) parent target h = (r, b)).
    { destruct c; [done|]. simpl in Ec. by rewrite Ec in Hw. } specialize (IH _ _ Hw').
    destruct r as [n|].
    + destruct IH as (j&q&->&Hq&Hc&He&Hmin). exists (S j), q. split; [lia|]. split; [done|].
      split; [done|]. split; [done|]. intros [|l] q' Hl Hq' Hc'; [simpl in Hq'; congruence|].
      apply (Hmin l q'); [lia|done|done].
    + destruct IH as [Hno Hb]. split.
      * intros [|l] q Hq Hc; [simpl in Hq; congruence|by eapply Hno].
      * rewrite Hb. split; (intros [?|(l&q&Hq&Hc)]; [by left|right]); [by exists (S l), q|].
        destruct l; [simpl in Hq; congruence|by exists l, q].
  - apply orb_false_iff in Ec as [Ec1 Ec2]. rewrite Ec1, Ec2.
    assert (Hc : is_child parent target p) by (unfold is_child, c in *; lia).
    destruct (Z.eqb_spec (state p) PROC_EXITED) as [He|He].
    + intros [= <- <-]. exists 0%nat, p. split; [lia|]. do 3 (split; [done|]). intros l q Hl. lia.
    + intros Hw. specialize (IH _ _ Hw). destruct r as [n|].
      * destruct IH as (j&q&->&Hq&Hc'&He'&Hmin). exists (S j), q. split; [lia|].
        do 3 (split; [done|]). intros [|l] q' Hl Hq' Hc''; [simpl in Hq'; congruence|].
        apply (Hmin l q'); [lia|done|done].
      * destruct IH as [Hno Hb]. split.
        -- intros [|l] q Hq Hc'; [simpl in Hq; congruence|by eapply Hno].
        -- rewrite Hb. split; intros _; [right|by left]. by exists 0%nat, p.
Qed.

(** A live process waits for a reason that is not fulfilled. *)
Lemma kept_block k cur reason target k1 :
  procs_ok (procs k) → running k cur →
  (reason = PROC_WAIT_IPC_RECV → ipc_has_message (proc_at k cur) = 0) →
  (reason = PROC_WAIT_CHILD_EXIT →
    (∃ j q, procs k !! j = Some q ∧ is_child (pid (proc_at k cur)) target q) ∧
    ∀ j q, procs k !! j = Some q → is_child (pid (proc_at k cur)) target q → state q ≠ PROC_EXITED) →
  k1 = upd_proc k cur (set_wait PROC_WAITTING reason target) →
  kept None k k1 ∧ ∃ q, procs k1 !! cur = Some q ∧ waits reason q ∧ wait_pid q = target.
Proof.
  intros Hok Hrun Hmail Hch ->. destruct (running_proc k cur Hrun) as [Hp Hps].
  pose proof (running_alive k cur Hrun) as Ha. pose proof (running_pid k cur Hok Hrun) as Hpid.
  pose proof (procs_upd k cur (set_wait PROC_WAITTING reason target) _ Hp) as Hk1.
  set (q := set_wait PROC_WAITTING reason target (proc_at k cur)) in *. split.
  - apply (kept_upd None cur k _ _ q Hp Hk1); [|done|done|by right]. rewrite Hk1.
    apply (procs_ok_wait _ cur _ q Hok Hp PROC_WAITTING reason target Ha); [by right|done| |].
    + intros [_ Hr]. by apply Hmail.
    + intros [_ Hr]. destruct (Hch Hr) as [(j&c&Hj&Hc) Hno]. split; [by destruct Hrun as (_&?&_)|].
      assert (Haw : ∀ s, state s ≠ PROC_UNUSED → awaited q s → is_child (pid (proc_at k cur)) target s).
      { intros s Hs [Hw1 Hw2]. split; [done|]. split; [done|]. destruct Hw2 as [Hw2|Hw2]; [by left|right].
        cbn in Hw2. congruence. }
      split.
      * exists j, c. split; [done|]. split.
        -- apply (not_exited_alive k j c Hok Hj); [by destruct Hc|by eapply Hno].
        -- destruct Hc as (_&Hc1&Hc2). split; [done|]. destruct Hc2 as [->| <-]; [by left|by right].
      * intros l s Hl Hex Haws. apply (Hno l s Hl); [|done]. apply Haw; [by rewrite Hex|done].
  - exists q. split; [|done]. rewrite Hk1. by eapply lookup_change_eq.
Qed.

Lemma waitpid_cases k cur target o :
  procs_ok (procs k) → running k cur →
  wait_for_child_exit cur (pid (proc_at k cur)) target k = Some o →
  match o with
  | Done r k' => kept None k k' ∧
      ((r = -1 ∧ k' = k ∧ ∀ i q, procs k !! i = Some q → ¬ is_child (pid (proc_at k cur)) target q) ∨
       ∃ i p q, procs k !! i = Some p ∧ is_child (pid (proc_at k cur)) target p ∧
         state p = PROC_EXITED ∧ r = Z.of_nat i ∧ pid p = r ∧
         procs k' = <[i := q]> (procs k) ∧ state q = PROC_UNUSED)
  | Blocked w k' =>
      w = WaitChild (pid (proc_at k cur)) target ∧ kept None k k' ∧
      (∃ q, procs k' !! cur = Some q ∧ waits PROC_WAIT_CHILD_EXIT q ∧ wait_pid q = target) ∧
      (∃ i q, procs k !! i = Some q ∧ is_child (pid (proc_at k cur)) target q ∧ alive q)
  end.
Proof.
  intros Hok Hrun. pose proof (running_pid k cur Hok Hrun) as Hpid.
  pose proof Hrun as (_&Hc0&_). unfold wait_for_child_exit.
  destruct (Z.leb_spec (pid (proc_at k cur)) 0); [lia|].
  destruct (wait_scan (procs k) 0 _ target false) as [[n|] b] eqn:Ew;
    pose proof (wait_scan_child _ _ _ _ _ _ _ Ew) as Hsc; cbv beta iota in Hsc.
  - destruct Hsc as (i&p&->&Hp&Hc&He&_). rewrite Nat.add_0_l, (proc_at_lookup k i p Hp).
    destruct (recycle_process_slot i k) as [k1|] eqn:Er; [|done]. intros [= <-].
    destruct (recycle_spec i k k1 p Hp Er) as (_&q&Hq&Hu&_). split.
    + eapply kept_recycle; try done. by apply exited_dead.
    + right. exists i, p, q. pose proof (pk_slot _ Hok i p Hp ltac:(by destruct Hc)).
      split_and!; done.
  - destruct Hsc as [Hno Hb]. destruct b.
    + intros [= <-]. split; [done|]. destruct Hb as [Hb _]. destruct (Hb eq_refl) as [?|(i&q&Hq&Hc)]; [done|].
      destruct (kept_block k cur PROC_WAIT_CHILD_EXIT target _ Hok Hrun ltac:(done)
        (λ _, conj (ex_intro _ i (ex_intro _ q (conj Hq Hc))) Hno) eq_refl) as [Hk Hq''].
      split; [eapply kept_trans; [exact Hk|apply kept_sync; by destruct Hk]|].
      split; [by rewrite procs_sync|]. exists i, q. split; [done|]. split; [done|].
      apply (not_exited_alive k i q Hok Hq); [by destruct Hc|by eapply Hno].
    + intros [= <-]. split; [by apply kept_same|]. left. split; [done|]. split; [done|].
      intros i q Hq Hc. destruct Hb as [_ Hb]. cut (false = true); [done|]. apply Hb. right. by exists i, q.
Qed.

(** ** Messages *)

(** The mailbox of a process that does not wait for a message. *)
Lemma procs_ok_mailbox ps i p has from msg :
  procs_ok ps → ps !! i = Some p → ¬ waits PROC_WAIT_IPC_RECV p →
  procs_ok (<[i := set_mailbox has from msg p]> ps).
Proof.
  intros Hok Hp Hnw. set (q := set_mailbox has from msg p).
  assert (Hq : ∀ l r, <[i := q]> ps !! l = Some r →
    ∃ r0, ps !! l = Some r0 ∧ pid r = pid r0 ∧ state r = state r0 ∧ parent_pid r = parent_pid r0 ∧
      wait_reason r = wait_reason r0 ∧ wait_pid r = wait_pid r0 ∧
      (ipc_has_message r = ipc_has_message r0 ∨ ¬ waits PROC_WAIT_IPC_RECV r)).
  { intros l r [(->&->)|(?&Hl)]%(lookup_change ps i p q Hp); [exists p|exists r]; split_and!; try done;
      [by right|by left]. }
  assert (Hq' : ∀ l r0, ps !! l = Some r0 → ∃ r, <[i := q]> ps !! l = Some r ∧
      pid r = pid r0 ∧ state r = state r0 ∧ parent_pid r = parent_pid r0).
  { intros l r0 Hl. destruct (decide (l = i)) as [->|Hne].
    - simplify_eq. exists q. split; [by eapply lookup_change_eq|done].
    - exists r0. split; [by eapply lookup_change_ne|done]. }
  destruct Hok as [Hlen Hst Hslot Hparent Hrecv Hchild]. constructor.
  - by rewrite length_insert.
  - intros l r Hl. destruct (Hq l r Hl) as (r0&Hr0&_&->&_). eauto.
  - intros l r Hl Hu. destruct (Hq l r Hl) as (r0&Hr0&->&Hs&_). rewrite Hs in Hu. eauto.
  - intros l r Hl Hu. destruct (Hq l r Hl) as (r0&Hr0&_&Hs&->&_). rewrite Hs in Hu.
    destruct (Hparent l r0 Hr0 Hu) as [?|(j&?&?&s&Hs'&Ha)]; [by left|right]. exists j.
    destruct (Hq' j s Hs') as (s'&Hs''&_&E1&_). do 2 (split; [done|]). exists s'. split; [done|].
    unfold alive. by rewrite E1.
  - intros l r Hl Hw. destruct (Hq l r Hl) as (r0&Hr0&_&Hs&_&Hwr&_&[->|?]); [|done].
    apply (Hrecv l r0 Hr0). destruct Hw. split; congruence.
  - intros l r Hl [Hw1 Hw2]. destruct (Hq l r Hl) as (r0&Hr0&F1&F2&_&F3&F4&_).
    destruct (Hchild l r0 Hr0) as (Hl0&(j&s&Hj&Ha&Haw)&Hno); [split; congruence|]. split; [done|]. split.
    + destruct (Hq' j s Hj) as (s'&Hs'&E1&E2&E3). exists j, s'. split; [done|].
      unfold alive, awaited in *. by rewrite E2, E3, E1, F1, F4.
    + intros m t Hm Hex Haws. destruct (Hq m t Hm) as (s0&Hs0&E1&E2&E3&_).
      apply (Hno m s0 Hs0); [congruence|]. unfold awaited in *. by rewrite <-E3, <-E1, <-F1, <-F4.
Qed.

Lemma ipc_send_cases k src dst msg r k' :
  procs_ok (procs k) → process_ipc_send src dst msg k = (r, k') →
  (r = -1 ∧ k' = k ∧ (dst <= 0 ∨ ¬ alive_at (procs k) (Z.to_nat dst))) ∨
  (∃ p, procs k !! Z.to_nat dst = Some p ∧ alive p ∧ 0 < dst ∧
    ((r = -2 ∧ k' = k ∧ ipc_has_message p ≠ 0) ∨
     (r = 0 ∧ ipc_has_message p = 0 ∧ kept None k k' ∧
      ∃ q, procs k' = <[Z.to_nat dst := q]> (procs k) ∧
        ipc_has_message q = 1 ∧ ipc_from_pid q = src ∧ ipc_message q = msg ∧ alive q ∧
        ¬ waits PROC_WAIT_IPC_RECV q))).
Proof.
  intros Hok. unfold process_ipc_send.
  destruct (find_process_by_pid dst k) as [i|] eqn:Ef.
  2:{ intros [= <- <-]. left. split; [done|]. split; [done|].
      destruct (Z.leb_spec dst 0); [by left|right]. intros (p&Hp&Ha).
      cut (find_process_by_pid dst k = Some (Z.to_nat dst)); [by rewrite Ef|].
      apply find_process_spec; [done|]. split; [done|]. split; [lia|]. exists p. split; [done|].
      destruct Ha as [-> | ->]; done. }
  destruct (find_process_proc dst k i Hok Ef) as (Hi&->&Hp&Hu&Hpid). rewrite Nat2Z.id.
  destruct (Z.eqb_spec (state (proc_at k i)) PROC_EXITED) as [Hex|Hne].
  { intros [= <- <-]. left. split; [done|]. split; [done|]. right. intros (p&Hp'&Ha). simplify_eq.
    by apply (exited_dead _ Hex). }
  pose proof (not_exited_alive k i _ Hok Hp Hu Hne) as Ha. set (p := proc_at k i) in *.
  destruct (Z.eqb_spec (ipc_has_message p) 0) as [Hm|Hm]; cbn [negb]; intros Heq; right;
    exists p; (split; [done|]); (split; [done|]); (split; [lia|]).
  2:{ left. by simplify_eq. }
  right. split; [by simplify_eq|]. split; [done|].
  set (q := set_mailbox 1 src msg p). set (k1 := upd_proc k i (set_mailbox 1 src msg)) in *.
  assert (Hk1 : procs k1 = <[i := q]> (procs k)) by exact (procs_upd k i _ p Hp).
  assert (Hq1 : procs k1 !! i = Some q) by (rewrite Hk1; by eapply lookup_change_eq).
  rewrite (proc_at_lookup k1 i q Hq1) in Heq. cbv zeta in Heq.
  destruct ((state q =? PROC_WAITTING) && (wait_reason q =? PROC_WAIT_IPC_RECV)) eqn:Eb; cbn iota in Heq.
  - assert (k' = wake i k1) as -> by congruence.
    pose proof (procs_wake i k1 q Hq1) as Hk2. destruct (globals_wake i k1) as (Hc2&Hi2&_).
    rewrite Hk1, list_insert_insert_eq in Hk2. split.
    + apply (kept_upd None i k _ p _ Hp Hk2); [|done|done|by left]. rewrite Hk2.
      assert (Hw : procs_ok (<[i := woken p]> (procs k))).
      { apply (procs_ok_wait _ i p _ Hok Hp PROC_RUNNABLE PROC_WAIT_NONE (-1) Ha);
          [by left|done|by intros [_ ?]|by intros [_ ?]]. }
      replace (<[i := woken q]> (procs k)) with
        (<[i := set_mailbox 1 src msg (woken p)]> (<[i := woken p]> (procs k)))
        by (rewrite list_insert_insert_eq; done).
      apply procs_ok_mailbox; [done|by eapply lookup_change_eq|by intros [? _]].
    + exists (woken q). split_and!; try done; [by left|by intros [? _]].
  - assert (k' = k1) as -> by congruence.
    assert (Hnw : ¬ waits PROC_WAIT_IPC_RECV p).
    { intros [W1 W2]. revert Eb. unfold q. simpl. rewrite W1, W2. done. }
    split; [|by exists q]. apply (kept_upd None i k _ p q Hp Hk1); [|done|done|done].
    rewrite Hk1. by apply procs_ok_mailbox.
Qed.

Lemma ipc_recv_cases k cur o :
  procs_ok (procs k) → running k cur → ipc_recv_loop cur k = o →
  let p := proc_at k cur in
  match o with
  | Done r k' => kept None k k' ∧ ipc_has_message p ≠ 0 ∧ r = (ipc_from_pid p, ipc_message p) ∧
      procs k' = <[cur := set_mailbox 0 0 0 p]> (procs k)
  | Blocked w k' => w = WaitRecv cur ∧ ipc_has_message p = 0 ∧ kept None k k' ∧
      ∃ q, procs k' !! cur = Some q ∧ waits PROC_WAIT_IPC_RECV q
  end.
Proof.
  intros Hok Hrun <-. cbv zeta. unfold ipc_recv_loop. destruct (running_proc k cur Hrun) as [Hp Hps].
  destruct (Z.eqb_spec (ipc_has_message (proc_at k cur)) 0) as [Hm|Hm].
  - destruct (kept_block k cur PROC_WAIT_IPC_RECV (-1) _ Hok Hrun (λ _, Hm) ltac:(done) eq_refl)
      as [Hk (q&Hq&Hw&_)].
    split; [done|]. split; [done|]. split.
    + eapply kept_trans; [exact Hk|apply kept_sync; by destruct Hk].
    + exists q. by rewrite procs_sync.
  - pose proof (procs_upd k cur (set_mailbox 0 0 0) _ Hp) as Hk1. split; [|done].
    apply (kept_upd None cur k _ _ _ Hp Hk1); [|done|done|done]. rewrite Hk1.
    apply procs_ok_mailbox; [done|done|]. intros [Hw _]. by rewrite Hw in Hps.
Qed.
End operations.
