(* ===== verification/Scheduler.v ===== *)
(** * The process table over the life of the kernel

    The kernel as a transition system on its process table: from the boot, each
    system call of the running process, each timer and console interrupt and each
    [yield] is a step.  The invariant of [ProcessSpec] holds in every state that can
    be reached; from it: no wake-up is lost, [init] never ends, and what the
    scheduler, [fork], [waitpid], [kill], [exit] and the mailboxes do. *)
From Stdlib Require Import ZArith Lia ZifyBool String.
From stdpp Require Import base tactics list numbers option relations.
From S2P Require Import Prelude CString Process ProcessSpec ProcessOps.
#[local] Open Scope Z_scope.

Section scheduler.
Context {E : Type} `{ProcEnv E}.
Implicit Types k : kstate E.

Definition outcome_state {A} (o : outcome E A) : kstate E :=
  match o with Done _ k => k | Blocked _ k => k end.

Definition yielded_state (y : yielded) : kstate E :=
  match y with YReturn k => k | YSwitch _ k => k | YWait k => k end.

(** A call of the kernel by the process that runs, a timer interrupt, or [yield],
    which is also called for a process that has just blocked or ended.  A blocked call
    that is resumed is made again by the process. *)
Inductive kcall : kstate E → kstate E → Prop :=
| step_tick k : kcall k (scheduler_on_timer_tick k)
| step_yield k cur y : current_proc k = Some cur → yield cur k = Some y → kcall k (yielded_state y)
| step_clone k cur image name r k' :
    running k cur → app image name → clone_process image (Some name) k = Some (r, k') → kcall k k'
| step_fork k cur r k' : running k cur → process_fork k = Some (r, k') → kcall k k'
| step_exec k cur image name argc argv r k' :
    running k cur → app image name →
    process_exec (Some image) (Some name) argc argv k = Some (r, k') → kcall k k'
| step_exit k cur : running k cur → init_proc k ≠ Some cur → kcall k (exit_current cur k)
| step_waitpid k cur target o :
    running k cur → wait_for_child_exit cur (pid (proc_at k cur)) target k = Some o →
    kcall k (outcome_state o)
| step_kill k cur target o :
    running k cur → process_kill target k = Some o → kcall k (outcome_state o)
| step_send k cur dst msg r k' :
    running k cur → process_ipc_send (pid (proc_at k cur)) dst msg k = (r, k') → kcall k k'
| step_recv k cur :
    running k cur → kcall k (outcome_state (process_ipc_recv (pid (proc_at k cur)) k))
| step_chdir k cur m n path :
    running k cur → Forall is_byte path → kcall k (enter_dir cur m n path k).

(** A step of the kernel: also what the console does to the table ([Console] says when
    it does it). *)
Inductive kstep : kstate E → kstate E → Prop :=
| step_call k k' : kcall k k' → kstep k k'
| step_input k : kstep k (wakeup_input_waiters k)
| step_getchar k cur : running k cur → kstep k (wait_input cur k)
| step_got k cur : running k cur → kstep k (got_input cur k).

(** The kernel after [kernel_main] has made [idle] and the shell. *)
Definition booted k : Prop :=
  ∃ shell e, app shell (bytes "shell") ∧ boot_processes shell (KState (repeat zero_proc 64) None None false e) = Some k ∧
    init_proc k ≠ None.

Definition reachable k : Prop := ∃ k0, booted k0 ∧ rtc kstep k0 k.

Record kernel_ok k : Prop := {
  kk_table : procs_ok (procs k);
  kk_current : ∃ cur, current_proc k = Some cur ∧ (cur < 64)%nat;
  kk_init : ∃ i, init_proc k = Some i ∧ (0 < i)%nat ∧ alive_at (procs k) i
}.

Lemma kernel_ok_kept x k k' :
  kernel_ok k → kept x k k' → (∀ i, x = Some i → init_proc k ≠ Some i) → kernel_ok k'.
Proof.
  intros [_ Hc (i&Hi&Hi0&Ha)] (Hok&Hc'&Hi'&Hal) Hx. constructor; [done|by rewrite Hc'|].
  exists i. split; [congruence|]. split; [done|]. apply Hal; [|done]. intros ->. by eapply Hx.
Qed.

Lemma kernel_ok_kept' k k' : kernel_ok k → kept None k k' → kernel_ok k'.
Proof. intros Hk Hkept. by eapply kernel_ok_kept. Qed.

Lemma recv_find k cur :
  procs_ok (procs k) → running k cur → find_process_by_pid (pid (proc_at k cur)) k = Some cur.
Proof.
  intros Hok Hrun. apply find_process_spec; [done|]. rewrite (running_pid k cur Hok Hrun).
  pose proof (running_proc k cur Hrun) as [Hp Hs]. destruct Hrun as (_&Hc0&_). split; [lia|].
  split; [done|]. eexists. split; [done|]. by rewrite Hs.
Qed.

Lemma kept_recv k cur :
  procs_ok (procs k) → running k cur →
  kept None k (outcome_state (process_ipc_recv (pid (proc_at k cur)) k)).
Proof.
  intros Hok Hrun. unfold process_ipc_recv. rewrite recv_find by done.
  pose proof (ipc_recv_cases k cur _ Hok Hrun eq_refl) as Hc. cbv zeta in Hc.
  by destruct (ipc_recv_loop cur k); [destruct Hc|destruct Hc as (_&_&?&_)].
Qed.

Lemma kept_wait_input k cur :
  procs_ok (procs k) → running k cur → kept None k (wait_input cur k).
Proof.
  intros Hok Hrun. by destruct (kept_block k cur PROC_WAIT_CONSOLE_INPUT (wait_pid (proc_at k cur))
    (wait_input cur k) Hok Hrun ltac:(done) ltac:(done) eq_refl).
Qed.

Lemma kcall_ok k k' : kernel_ok k → kcall k k' → kernel_ok k'.
Proof.
  intros Hk Hs. pose proof Hk as [Hok (c&Hc&Hcl) Hinit].
  destruct Hs as [k|k cur y Hcur Hy|k cur image name r k' Hrun Happ Hs|k cur r k' Hrun Hs
    |k cur image name argc argv r k' Hrun Happ Hs|k cur Hrun Hni|k cur target o Hrun Ho
    |k cur target o Hrun Ho|k cur dst msg r k' Hrun Hs|k cur Hrun|k cur m n path Hrun Hpath].
  - eapply kernel_ok_kept'; [done|]. apply kept_tick; [done|]. intros cur Hcur. simplify_eq. done.
  - assert (c = cur) as -> by congruence. pose proof (yield_result k cur y Hok Hc Hcl Hy) as Hyo.
    destruct y as [k1|next k1|k1]; simpl in *.
    + by eapply kernel_ok_kept'; [|apply Hyo].
    + destruct Hyo as (Hok1&Hi1&(Hc1&Hn0&p&Hp&_)&Ha1). constructor; [done| |].
      * exists next. split; [done|]. rewrite <-(pk_len _ Hok1). by eapply lookup_lt_Some.
      * destruct Hinit as (i&?&?&?). exists i. split; [congruence|]. auto.
    + by eapply kernel_ok_kept'; [|apply Hyo].
  - eapply kernel_ok_kept'; [done|]. by eapply kept_clone.
  - eapply kernel_ok_kept'; [done|]. by eapply kept_fork.
  - eapply kernel_ok_kept'; [done|]. by eapply kept_exec.
  - destruct (exit_ended k cur) as [e ->]. destruct (running_proc k cur Hrun) as [Hp _].
    destruct (kept_ended cur _ k e Hok Hp (running_alive k cur Hrun)) as [Hke _];
      [by destruct Hrun as (_&?&_)|].
    eapply kernel_ok_kept; [done|done|]. by intros i [= <-].
  - pose proof (waitpid_cases k cur target o Hok Hrun Ho) as Hw.
    destruct o; (eapply kernel_ok_kept'; [done|]); [by destruct Hw|by destruct Hw as (_&?&_)].
  - pose proof (process_kill_cases target k o Hok Ho) as Hw. destruct o as [r k'|w k']; simpl.
    + destruct Hw as [(_&_&->)|[(_&_&->&_)|[(_&_&->&_)|(_&_&Hi&_&Hkept&_)]]]; try done.
      eapply kernel_ok_kept; [done|done|]. intros i [= <-]. done.
    + destruct Hw as (_&_&_&Hi&Hkept&_). eapply kernel_ok_kept; [done|done|]. intros i [= <-]. done.
  - destruct (ipc_send_cases k _ dst msg r k' Hok Hs) as [(_&->&_)|(p&_&_&_&[(_&->&_)|(_&_&Hkept&_)])];
      [done|done|by eapply kernel_ok_kept'].
  - by eapply kernel_ok_kept', kept_recv.
  - by eapply kernel_ok_kept', kept_enter_dir.
Qed.

Lemma kept_got_input k cur :
  procs_ok (procs k) → running k cur → kept None k (got_input cur k).
Proof.
  intros Hok Hrun. destruct (running_proc k cur Hrun) as [Hp Hs].
  pose proof (procs_upd k cur (λ p, set_wait (state p) PROC_WAIT_NONE (wait_pid p) p) _ Hp) as Hk'.
  eapply kept_upd; [exact Hp|exact Hk'| |done|done|done].
  unfold got_input. rewrite Hk', Hs.
  apply (procs_ok_wait _ cur _ _ Hok Hp PROC_RUNNABLE PROC_WAIT_NONE (wait_pid (proc_at k cur))
           (running_alive k cur Hrun)); [by left|done| |]; by intros [? _].
Qed.

Lemma kstep_ok k k' : kernel_ok k → kstep k k' → kernel_ok k'.
Proof.
  intros Hk Hs. destruct Hs as [k1 k2 Hc|k1|k1 cur Hrun|k1 cur Hrun]; [by eapply kcall_ok|..];
    pose proof Hk as [Hok _ _]; apply (kernel_ok_kept' _ _ Hk).
  - by apply kept_wakeup_input.
  - by apply kept_wait_input.
  - by apply kept_got_input.
Qed.

(** ** The boot *)

Lemma procs_ok_zero : procs_ok (repeat zero_proc 64).
Proof.
  assert (Hz : ∀ i p, repeat zero_proc 64 !! i = Some p → p = zero_proc).
  { intros i p Hp. by apply list_elem_of_lookup_2, list_elem_of_In, repeat_spec in Hp. }
  constructor; [done| | | | |]; intros i p Hp; rewrite (Hz i p Hp); try done; by intros [? _].
Qed.

(** The two processes the boot makes. *)
Lemma boot_cases shell (e : E) k :
  boot_processes shell (KState (repeat zero_proc 64) None None false e) = Some k → init_proc k ≠ None →
  ∃ k1 q1 i k3, create_process [] (Some (bytes "idle")) (KState (repeat zero_proc 64) None None false e)
      = Some (Some 0%nat, k1) ∧
    procs k1 !! 0%nat = Some q1 ∧ state q1 = PROC_RUNNABLE ∧
    let k2 := set_current (upd_proc k1 0 (set_pid 0)) (Some 0%nat) in
    procs k2 !! 0%nat = Some (set_pid 0 q1) ∧ procs_ok (procs k2) ∧
    create_process shell (Some (bytes "shell")) k2 = Some (Some i, k3) ∧
    k = KState (procs k3) (current_proc k3) (Some i) (need_resched k3) (env k3).
Proof.
  intros Hb Hinit. unfold boot_processes in Hb.
  destruct (create_process [] _ _) as [[ri k1]|] eqn:E1; [|done].
  destruct (create_process_spec _ _ (KState (repeat zero_proc 64) None None false e) _ _ procs_ok_zero E1) as (Hok1&_&_&_&Hnew1).
  destruct ri as [i1|]; [|done]. destruct (Hnew1 i1 eq_refl) as (q1&Hq1&Hp1&Hs1&_&_&_&_&Hlow).
  assert (i1 = 0%nat) as -> by (destruct i1 as [|j]; [done|exfalso; by apply (Hlow 0%nat zero_proc); [lia| |]]).
  cbn [mbind option_bind] in Hb.
  set (k2 := set_current (upd_proc k1 0 (set_pid 0)) (Some 0%nat)) in *.
  assert (Hk2 : procs k2 = <[0%nat := set_pid 0 q1]> (procs k1)) by exact (procs_upd k1 0 _ q1 Hq1).
  destruct (create_process shell _ _) as [[[i2|] k3]|] eqn:E2; [|injection Hb as <-; done|done].
  injection Hb as <-. exists k1, q1, i2, k3. cbv zeta. fold k2. split; [done|]. split; [done|].
  split; [done|]. split; [rewrite Hk2; by eapply lookup_change_eq|]. split; [|done].
  rewrite Hk2. by apply (procs_ok_same _ 0 q1).
Qed.

(** [idle] is in slot 0, the first process in another one. *)
Lemma booted_ok k : booted k → kernel_ok k ∧ current_proc k = Some 0%nat ∧
  ∃ i p, init_proc k = Some i ∧ procs k !! i = Some p ∧ state p = PROC_RUNNABLE ∧ parent_pid p = 0.
Proof.
  intros (shell&e&_&Hb&Hinit).
  destruct (boot_cases shell e k Hb Hinit) as (k1&q1&i2&k3&_&_&Hs1&Hq0&Hok2&E2&->).
  destruct (create_process_spec _ _ _ _ _ Hok2 E2) as (Hok3&Hc3&_&_&Hnew).
  destruct (Hnew i2 eq_refl) as (q2&Hq2&_&Hs2&Hpar2&_&_&Hold&_).
  assert (Hi2 : i2 ≠ 0%nat).
  { intros ->. destruct (Hold (set_pid 0 q1) Hq0) as [F|F]; cbn in F; by rewrite Hs1 in F. }
  cbn [procs current_proc init_proc]. split; [constructor; cbn [procs current_proc init_proc]|].
  - done.
  - exists 0%nat. rewrite Hc3. split; [done|lia].
  - exists i2. split; [done|]. split; [lia|]. exists q2. split; [done|by left].
  - split; [by rewrite Hc3|]. by exists i2, q2.
Qed.

Lemma reachable_ok k : reachable k → kernel_ok k.
Proof.
  intros (k0&Hb&Hs). apply booted_ok in Hb as [Hk _]. induction Hs; [done|].
  apply IHHs. by eapply kstep_ok.
Qed.

Lemma reachable_step k k' : reachable k → kstep k k' → reachable k'.
Proof. intros (k0&?&?) Hs. exists k0. split; [done|]. by eapply rtc_r. Qed.

(** ** Theorems *)

(** C10. In every state the kernel can reach, a used slot of the table holds the
    process of that pid, whose parent is either none or another live process, and
    [init] is alive. *)
Theorem process_table_invariant k :
  reachable k →
  length (procs k) = 64%nat ∧
  (∀ i p, procs k !! i = Some p → state p ≠ PROC_UNUSED →
     pid p = Z.of_nat i ∧
     (parent_pid p = 0 ∨
      ∃ j q, j ≠ i ∧ procs k !! j = Some q ∧ alive q ∧ 0 < pid q ∧ pid q = parent_pid p)) ∧
  (∃ i p, init_proc k = Some i ∧ (0 < i)%nat ∧ procs k !! i = Some p ∧ alive p).
Proof.
  intros [Hok _ (i&Hi&Hi0&p&Hp&Ha)]%reachable_ok. split; [by apply pk_len|]. split; [|by exists i, p].
  intros j q Hq Hu. split; [by apply (pk_slot _ Hok j)|].
  destruct (pk_parent _ Hok j q Hq Hu) as [?|(l&[Hl0 Hlj]&Hpar&r&Hr&Har)]; [by left|right].
  exists l, r. split; [done|]. split; [done|]. split; [done|].
  rewrite (pk_slot _ Hok l r Hr) by (destruct Har as [-> | ->]; done). lia.
Qed.

(** C11. No wake-up is lost: in every reachable state, a process that waits for a
    message has an empty mailbox, and a process that waits for a child to end has a
    live child it waits for and none that has already ended. *)
Theorem no_lost_wakeup k i p :
  reachable k → procs k !! i = Some p → state p = PROC_WAITTING →
  (wait_reason p = PROC_WAIT_IPC_RECV → ipc_has_message p = 0) ∧
  (wait_reason p = PROC_WAIT_CHILD_EXIT →
     (∃ j q, procs k !! j = Some q ∧ alive q ∧ awaited p q) ∧
     (∀ j q, procs k !! j = Some q → state q = PROC_EXITED → ¬ awaited p q)).
Proof.
  intros [Hok _ _]%reachable_ok Hp Hs. split; intros Hw.
  - by apply (pk_recv _ Hok i p Hp).
  - by destruct (pk_child _ Hok i p Hp (conj Hs Hw)) as (_&?&?).
Qed.

(** The reaper leaves a process with a parent to [waitpid]. *)
Lemma reap_zombie k k' i p :
  procs k !! i = Some p → parent_pid p ≠ 0 → reap_exited_processes k = Some k' →
  procs k' !! i = Some p.
Proof.
  intros Hp Hpar Hr. unfold reap_exited_processes in Hr.
  apply (zfor_opt_inv (λ _ k', procs k' !! i = Some p)) in Hr; [done|done|].
  intros j k1 k2 Hj Hk1 Hb. cbv zeta in Hb.
  destruct (negb _) eqn:Hex; [congruence|].
  destruct (Z.eqb_spec (parent_pid (proc_at k1 (Z.to_nat j))) 0) as [Hz|]; [|congruence].
  destruct (decide (Z.to_nat j < length (procs k1))%nat) as [Hl|Hl].
  - destruct (recycle_spec _ _ _ _ (lookup_proc_at k1 _ Hl) Hb) as (_&q&Hq&_). rewrite Hq.
    rewrite list_lookup_insert_ne; [done|]. intros <-. by rewrite (proc_at_lookup k1 _ p Hk1) in Hz.
  - assert (proc_at k1 (Z.to_nat j) = zero_proc) as F by (apply nth_overflow; lia).
    by rewrite F in Hex.
Qed.

(** C33. A process that calls [exit] wakes the parent that waits for it, and stays in the
    table, also when [yield] reaps, until the parent has collected its pid.  This is about
    [exit] only: a process that is ended by [process_kill] is taken out of the table at
    once, its parent is woken and its [waitpid] finds no child. *)
Theorem exit_wakes_parent k cur j p :
  reachable k → running k cur → procs k !! j = Some p → waits PROC_WAIT_CHILD_EXIT p →
  awaited p (proc_at k cur) →
  let k' := exit_current cur k in
  (∃ p', procs k' !! j = Some p' ∧ state p' = PROC_RUNNABLE ∧ pid p' = pid p) ∧
  ∃ q, procs k' !! cur = Some q ∧ state q = PROC_EXITED ∧ is_child (pid p) (wait_pid p) q ∧
    ∀ k'', reap_exited_processes k' = Some k'' → procs k'' !! cur = Some q.
Proof.
  intros [Hok _ _]%reachable_ok Hrun Hp Hw [Haw1 Haw2]. cbv zeta.
  destruct (exit_ended k cur) as [e ->]. destruct (running_proc k cur Hrun) as [Hc Hcs].
  pose proof (running_pid k cur Hok Hrun) as Hcp. pose proof Hrun as (_&Hc0&_).
  pose proof (running_alive k cur Hrun) as Ha. set (c := proc_at k cur) in *.
  destruct (pk_child _ Hok j p Hp Hw) as (Hj0&_&_). destruct Hw as [Hw1 Hw2].
  assert (Hpp : pid p = Z.of_nat j) by (apply (pk_slot _ Hok j p Hp); by rewrite Hw1).
  assert (Hjc : j ≠ cur) by (intros ->; simplify_eq; by rewrite Hw1 in Hcs).
  destruct (ending_spec cur k c Hok Hc Ha Hc0 e) as [Hk _]. fold (ended cur c k e) in Hk.
  assert (Hpar : parent_pid (orphaned (pid c) c) = pid p).
  { unfold orphaned. destruct (Z.eqb_spec (parent_pid c) (pid c)); [lia|done]. }
  rewrite Hpar in Hk. split.
  - exists (after_exit cur (pid c) (pid p) j p). rewrite Hk, list_lookup_imap, Hp. split; [done|].
    pose proof (after_exit_other cur c j p Hjc) as Ho. cbv zeta in Ho. rewrite Hpar in Ho.
    replace (wakes (pid p) (pid c) p) with true in Ho.
    2:{ symmetry. unfold wakes. rewrite Hw1, Hw2. unfold PROC_WAITTING, PROC_WAIT_CHILD_EXIT. lia. }
    rewrite Ho. split; [done|]. unfold woken, orphaned. by case_if.
  - exists (after_exit cur (pid c) (pid p) cur c).
    pose proof (after_exit_self cur c c) as Hs. pose proof (after_exit_fields cur c cur c) as Hf.
    cbv zeta in Hf. rewrite Hpar in Hs, Hf. destruct Hf as (Hf1&_&Hf2).
    destruct (Z.eqb_spec (parent_pid c) (pid c)) as [|_]; [lia|].
    assert (Hl : procs (ended cur c k e) !! cur = Some (after_exit cur (pid c) (pid p) cur c))
      by (by rewrite Hk, list_lookup_imap, Hc).
    split; [done|]. split; [done|]. split.
    + unfold is_child. rewrite Hs, Hf1, Hf2. split; [done|]. split; [done|].
      destruct Haw2 as [?| ->]; [by left|by right].
    + intros k'' Hr. eapply reap_zombie; [done|lia|done].
Qed.

(** [waitpid] of the running process: -1 when it has no such child; the pid of a
    child that has ended, whose slot alone is freed; otherwise it waits, which it
    does only while such a child lives. *)
Theorem waitpid_spec k cur target o :
  reachable k → running k cur →
  wait_for_child_exit cur (pid (proc_at k cur)) target k = Some o →
  let mine := is_child (pid (proc_at k cur)) target in
  match o with
  | Done r k' =>
      (r = -1 ∧ k' = k ∧ ∀ i q, procs k !! i = Some q → ¬ mine q) ∨
      ∃ i p q, procs k !! i = Some p ∧ mine p ∧ state p = PROC_EXITED ∧ r = pid p ∧
        procs k' = <[i := q]> (procs k) ∧ state q = PROC_UNUSED
  | Blocked w k' =>
      w = WaitChild (pid (proc_at k cur)) target ∧
      (∃ q, procs k' !! cur = Some q ∧ waits PROC_WAIT_CHILD_EXIT q ∧ wait_pid q = target) ∧
      ∃ i q, procs k !! i = Some q ∧ mine q ∧ alive q
  end.
Proof.
  intros [Hok _ _]%reachable_ok Hrun Ho. pose proof (waitpid_cases k cur target o Hok Hrun Ho) as Hc.
  destruct o as [r k'|w k']; cbv zeta.
  - destruct Hc as [_ [Hc|(i&p&q&?&?&?&?&?&?&?)]]; [by left|right]. by exists i, p, q.
  - destruct Hc as (?&_&?&?). done.
Qed.

(** The mailbox holds one message: a message sent to a live process with an empty
    mailbox is accepted and leaves it awake or not waiting for one; until it is
    received a second one is refused with -2; and the receiver gets it with the pid
    of its sender, and has an empty mailbox again. *)
Theorem ipc_delivery k s d p msg k1 r :
  reachable k → running k s → procs k !! d = Some p → alive p → (0 < d)%nat →
  ipc_has_message p = 0 →
  process_ipc_send (pid (proc_at k s)) (Z.of_nat d) msg k = (r, k1) →
  r = 0 ∧
  (∃ q, procs k1 !! d = Some q ∧ alive q ∧ ¬ waits PROC_WAIT_IPC_RECV q) ∧
  (∀ s2 m2, process_ipc_send s2 (Z.of_nat d) m2 k1 = (-2, k1)) ∧
  (running k1 d → ∃ k2, process_ipc_recv (pid (proc_at k1 d)) k1 = Done (Some (Z.of_nat s, msg)) k2 ∧
     ipc_has_message (proc_at k2 d) = 0).
Proof.
  intros [Hok _ _]%reachable_ok Hrun Hp Ha Hd Hm Hsend.
  rewrite (running_pid k s Hok Hrun) in Hsend.
  destruct (ipc_send_cases k _ _ _ _ _ Hok Hsend) as [(_&_&[?|Hno])|(p'&Hp'&_&_&Hc)]; [lia| |].
  { rewrite Nat2Z.id in Hno. destruct Hno. by exists p. }
  rewrite Nat2Z.id in Hp', Hc. simplify_eq.
  destruct Hc as [(_&_&?)|(->&_&(Hok1&_)&q&Hk1&Hq1&Hq2&Hq3&Hqa&Hqw)]; [done|].
  assert (Hlq : procs k1 !! d = Some q) by (rewrite Hk1; by eapply lookup_change_eq).
  split; [done|]. split; [by exists q|]. split.
  - intros s2 m2. destruct (process_ipc_send s2 _ m2 k1) as [r2 k2] eqn:E2.
    destruct (ipc_send_cases k1 _ _ _ _ _ Hok1 E2) as [(_&_&[?|Hno])|(p2&Hp2&_&_&Hc)]; [lia| |].
    { rewrite Nat2Z.id in Hno. destruct Hno. by exists q. }
    rewrite Nat2Z.id in Hp2, Hc. simplify_eq. destruct Hc as [(->&->&_)|(_&?&_)]; [done|lia].
  - intros Hrun1. unfold process_ipc_recv. rewrite recv_find by done.
    pose proof (ipc_recv_cases k1 d _ Hok1 Hrun1 eq_refl) as Hr. cbv zeta in Hr.
    rewrite (proc_at_lookup k1 d q Hlq) in Hr.
    destruct (ipc_recv_loop d k1) as [r2 k2|w k2]; [|destruct Hr as (_&?&_); lia].
    destruct Hr as (_&_&->&Hk2). exists k2. rewrite Hq2, Hq3. split; [done|].
    unfold proc_at. rewrite Hk2. erewrite nth_lookup_Some; [|by eapply lookup_change_eq]. done.
Qed.

(** The scheduler: [yield] looks for the first runnable process other than [idle]
    in the cyclic order that starts at the current one, and waits only when there is
    none. *)
Theorem pick_next_spec k c :
  reachable k →
  match pick_next k c with
  | Some next => ∃ d, (d < 64)%nat ∧ next = Z.to_nat ((c + Z.of_nat d) mod PROCS_MAX) ∧
      (0 < next)%nat ∧ (∃ p, procs k !! next = Some p ∧ state p = PROC_RUNNABLE) ∧
      ∀ j p, (j < d)%nat → let n := Z.to_nat ((c + Z.of_nat j) mod PROCS_MAX) in
        n ≠ 0%nat → procs k !! n = Some p → state p ≠ PROC_RUNNABLE
  | None => ∀ i p, procs k !! i = Some p → state p = PROC_RUNNABLE → i = 0%nat
  end.
Proof.
  intros [Hok _ _]%reachable_ok.
  assert (Hpos : ∀ n p, procs k !! n = Some p → state p = PROC_RUNNABLE → n ≠ 0%nat → 0 < pid p).
  { intros n p Hp Hs Hn. rewrite (pk_slot _ Hok n p Hp) by (by rewrite Hs). lia. }
  destruct (pick_next k c) as [next|] eqn:Ep.
  - destruct (picked k c next Hok Ep) as (Hn&Hp&Hs).
    apply pick_next_some in Ep as (d&Hd&Hnext&_&_&Hmin). exists d.
    split; [done|]. split; [done|]. split; [lia|]. split; [by eexists|].
    intros j p Hj. cbv zeta. intros Hn0 Hpj Hsj. apply (Hmin j Hj). cbv zeta.
    rewrite (proc_at_lookup k _ p Hpj). split; [done|by eapply Hpos].
  - intros i p Hp Hs. destruct (decide (i = 0%nat)) as [|Hi]; [done|exfalso].
    apply (proj1 (pick_next_none k c (pk_len _ Hok)) Ep i p Hp). split; [done|by eapply Hpos].
Qed.

(** A runnable process that yields keeps the processor: its own slot is the first
    that [yield] looks at.  Its time slice is full again when it had run out. *)
Theorem yield_keeps_running k cur y :
  reachable k → running k cur → yield cur k = Some y →
  ∃ k', y = YReturn k' ∧ running k' cur ∧ need_resched k' = false ∧
    procs k' !! cur = Some (set_sched
      (if time_slice (proc_at k cur) =? 0 then SCHED_TIME_SLICE_TICKS else time_slice (proc_at k cur))
      (run_ticks (proc_at k cur)) (schedule_count (proc_at k cur)) (proc_at k cur)).
Proof.
  intros [Hok _ _]%reachable_ok Hrun. unfold yield.
  destruct (reap_exited_processes k) as [k1|] eqn:Er; [|done]. intros [= <-].
  destruct (reap_spec k k1 Hok Er) as ((Hc1&_&_)&Hok1&Hkeep).
  destruct (running_proc k cur Hrun) as [Hp Hs]. pose proof Hrun as (Hc&Hc0&_).
  pose proof (running_pid k cur Hok Hrun) as Hpid. set (p := proc_at k cur) in *.
  assert (Hp1 : procs k1 !! cur = Some p) by (apply Hkeep; [done|by rewrite Hs]).
  assert (Hl : (cur < 64)%nat) by (rewrite <-(pk_len _ Hok); by eapply lookup_lt_Some).
  unfold yield_loop. rewrite (proc_at_lookup k1 cur p Hp1).
  assert (Hpick : pick_next k1 (pid p) = Some cur).
  { apply pick_next_some. exists 0%nat. split; [lia|]. split.
    - rewrite Hpid. unfold PROCS_MAX. rewrite Z.mod_small; lia.
    - rewrite (proc_at_lookup k1 cur p Hp1). split; [done|]. split; [lia|]. intros j Hj. lia. }
  rewrite Hpick, Nat.eqb_refl. eexists. split; [done|].
  set (q := set_sched _ _ _ p).
  match goal with |- running (set_resched ?k2 false) _ ∧ _ =>
    assert (Hk2 : procs k2 !! cur = Some q ∧ current_proc k2 = Some cur) end.
  { unfold q. case_if.
    - rewrite (procs_upd k1 cur _ p Hp1). split; [by eapply lookup_change_eq|]. by rewrite <-Hc, <-Hc1.
    - split; [by replace (set_sched _ _ _ p) with p by (by destruct p)|congruence]. }
  destruct Hk2 as [Hq Hcq]. split; [|by split]. split; [done|]. split; [done|]. by exists q.
Qed.

(** [fork] of the running process: -1, or a child in a free slot of the table that
    has its parent's pid, arguments, root and working directory, its number of user
    pages, an empty mailbox and a full time slice, and is runnable; every process
    that was alive still is. *)
Theorem process_fork_spec k cur r k' :
  reachable k → running k cur → process_fork k = Some (r, k') →
  current_proc k' = Some cur ∧ (∀ j, alive_at (procs k) j → alive_at (procs k') j) ∧
  match r with
  | None => True
  | Some i => ∃ child, procs k' !! i = Some child ∧ pid child = Z.of_nat i ∧
      forked (proc_at k cur) child ∧
      ∀ q, procs k !! i = Some q → state q = PROC_UNUSED ∨ state q = PROC_EXITED
  end.
Proof.
  intros [Hok _ _]%reachable_ok Hrun Hf. destruct (kept_fork k cur r k' Hok Hrun Hf) as [Hk Hnew].
  destruct Hk as (_&Hc&_&Ha). pose proof Hrun as (Hcur&_). split; [congruence|].
  split; [intros j Hj; by apply Ha|]. destruct r as [i|]; [|done].
  destruct (Hnew i eq_refl) as (child&?&?&?&?). by exists child.
Qed.

(** [kill]: -1 for a pid that is not positive, -2 when no such process is alive, -3
    for [init], which cannot be killed; otherwise the process ends: the slot of
    another process is free at once, the one of the caller when it yields, which
    must not return.  Nobody else ends. *)
Theorem process_kill_spec k cur t o :
  reachable k → running k cur → process_kill t k = Some o →
  (∀ j, j ≠ Z.to_nat t → alive_at (procs k) j → alive_at (procs (outcome_state o)) j) ∧
  match o with
  | Done r k' =>
      (r = -1 ∧ t <= 0 ∧ k' = k) ∨
      (r = -2 ∧ 0 < t ∧ k' = k ∧ ¬ alive_at (procs k) (Z.to_nat t)) ∨
      (r = -3 ∧ 0 < t ∧ k' = k ∧ init_proc k = Some (Z.to_nat t)) ∨
      (r = t ∧ 0 < t ∧ Z.to_nat t ≠ cur ∧ alive_at (procs k) (Z.to_nat t) ∧
       ∃ q, procs k' !! Z.to_nat t = Some q ∧ state q = PROC_UNUSED)
  | Blocked w k' => w = WaitForever ∧ t = Z.of_nat cur ∧ init_proc k ≠ Some cur ∧
      ∃ q, procs k' !! cur = Some q ∧ state q = PROC_EXITED
  end.
Proof.
  intros [Hok _ _]%reachable_ok Hrun Ho. pose proof (process_kill_cases t k o Hok Ho) as Hc.
  pose proof Hrun as (Hcur&Hc0&_). destruct o as [r k'|w k']; simpl.
  - destruct Hc as [(?&?&->)|[(?&?&->&?)|[(?&?&->&?)|(->&?&?&Hne&(_&_&_&Ha)&?&?)]]];
      [split; [done|tauto]..|].
    split; [intros j Hj; apply Ha; congruence|]. do 3 right. do 2 (split; [done|]).
    split; [congruence|done].
  - destruct Hc as (->&?&Hct&?&(_&_&_&Ha)&q&?&?&_).
    assert (cur = Z.to_nat t) as -> by congruence.
    split; [intros j Hj; apply Ha; congruence|]. split; [done|]. split; [lia|]. split; [done|].
    by exists q.
Qed.

(** ** Totality *)

Context (Hfree : ∀ p (e : E), is_Some (free_space p e)).

Lemma recycle_total i k : is_Some (recycle_process_slot i k).
Proof using Hfree.
  unfold recycle_process_slot. destruct (procfs_cleanup _ _) as [r e]. unfold free_process_memory.
  case_if; [by eexists|].
  destruct (Hfree (proc_at k i) (fs_on_process_recycle (pid (proc_at k i)) e)) as [e' ->].
  by eexists.
Qed.

Lemma reap_total k : is_Some (reap_exited_processes k).
Proof using Hfree.
  unfold reap_exited_processes.
  destruct (zfor_opt_total (λ _ _, True) (Z.to_nat PROCS_MAX) 0
    (λ i k, let p := proc_at k (Z.to_nat i) in
       if negb (state p =? PROC_EXITED) then Some k
       else if parent_pid p =? 0 then recycle_process_slot (Z.to_nat i) k else Some k) k)
    as (k'&Hk'&_); [done| |by exists k'].
  intros j k1 _ _. cbv zeta. case_if; [by eexists|]. case_if; [|by eexists].
  destruct (recycle_total (Z.to_nat j) k1) as [k2 ->]. by eexists.
Qed.

Lemma yield_total cur k : is_Some (yield cur k).
Proof using Hfree. unfold yield. destruct (reap_total k) as [k1 ->]. by eexists. Qed.

Lemma waitpid_total cur parent target k : is_Some (wait_for_child_exit cur parent target k).
Proof using Hfree.
  unfold wait_for_child_exit. case_if; [by eexists|].
  destruct (wait_scan _ _ _ _ _) as [[i|] []]; try by eexists.
  all: destruct (recycle_total i k) as [k1 ->]; by eexists.
Qed.

Lemma kill_total target k : is_Some (process_kill target k).
Proof using Hfree.
  unfold process_kill. case_if; [by eexists|].
  destruct (find_process_by_pid target k) as [t|]; [|by eexists].
  do 2 (case_if; [by eexists|]). cbv zeta. case_if; [by eexists|].
  match goal with |- context [recycle_process_slot ?i ?k] =>
    destruct (recycle_total i k) as [k1 ->] end. by eexists.
Qed.

Lemma fork_total k : (∀ p (e : E), is_Some (copy_space p e)) → is_Some (process_fork k).
Proof using Hfree.
  intros Hcopy. unfold process_fork, alloc_proc_slot, fork_fail. destruct (reap_total k) as [k1 ->].
  destruct (find_unused k1) as [i|]; [|by eexists]. cbv zeta. cbn [mbind option_bind].
  repeat (match goal with
    | |- context [recycle_process_slot ?i ?k] => destruct (recycle_total i k) as [? ->]
    | |- context [copy_space ?p ?e] => destruct (Hcopy p e) as [[[? ?] ?] ->]
    | _ => case_match end; simpl); by eexists.
Qed.

Lemma clone_total image name k :
  (∀ e, is_Some (create_space image e)) → is_Some (clone_process image name k).
Proof using Hfree.
  intros Hcreate. unfold clone_process, create_process. destruct (reap_total k) as [k1 ->].
  destruct (find_unused k1) as [i|]; [|by eexists].
  destruct (Hcreate (env k1)) as [[table e] ->].
  destruct (fs_get_root_entry _) as [[rm rn]|]; [by eexists|].
  destruct (recycle_total i (set_env k1 e)) as [k2 ->]. by eexists.
Qed.

(** When address spaces can be freed, made and copied without a panic, no call of
    the running process gets stuck: [yield] makes its choice, [waitpid] answers or
    waits, [kill] answers or ends the caller, [fork] and [clone] answer, and each is a
    step of the kernel. *)
Theorem process_calls_total k cur target image name
  (Hcreate : ∀ e, is_Some (create_space image e)) (Hcopy : ∀ p (e : E), is_Some (copy_space p e))
  (Happ : app image name) :
  running k cur →
  (∃ y, yield cur k = Some y ∧ kstep k (yielded_state y)) ∧
  (∃ o, wait_for_child_exit cur (pid (proc_at k cur)) target k = Some o ∧ kstep k (outcome_state o)) ∧
  (∃ o, process_kill target k = Some o ∧ kstep k (outcome_state o)) ∧
  (∃ r k', process_fork k = Some (r, k') ∧ kstep k k') ∧
  (∃ r k', clone_process image (Some name) k = Some (r, k') ∧ kstep k k').
Proof using Hfree.
  intros Hrun. split; [|split; [|split; [|split]]].
  - destruct (yield_total cur k) as [y Hy]. exists y. split; [done|]. eapply step_call, step_yield; [|done].
    by destruct Hrun.
  - destruct (waitpid_total cur (pid (proc_at k cur)) target k) as [o Ho]. exists o.
    split; [done|]. by eapply step_call, step_waitpid.
  - destruct (kill_total target k) as [o Ho]. exists o. split; [done|]. by eapply step_call, step_kill.
  - destruct (fork_total k Hcopy) as [[r k'] Hr]. exists r, k'. split; [done|]. by eapply step_call, step_fork.
  - destruct (clone_total image (Some name) k Hcreate) as [[r k'] Hr]. exists r, k'. split; [done|].
    by eapply step_call, step_clone.
Qed.
End scheduler.
