(* ===== verification/ProcessTests.v ===== *)
(** * The theorems on the process table at concrete inputs

    A kernel over a small environment (its file system does nothing, its address
    spaces are numbers, and it logs the page tables it frees), from the boot on. *)
From Stdlib Require Import ZArith Lia ZifyBool String.
From stdpp Require Import base tactics list numbers option relations.
From S2P Require Import Prelude CString Process ProcessSpec ProcessOps Scheduler.
#[local] Open Scope Z_scope.

(** The next page table and the tables that were freed. *)
Record log_env := LogEnv { next_table : Z; freed : list Z }.

#[global] Instance log_proc_env : ProcEnv log_env := {
  app _ _ := True;
  procfs_sync_process _ e := (true, e);
  procfs_cleanup _ e := (true, e);
  fs_on_process_recycle _ e := e;
  fs_fork_copy_fds _ _ e := (0, e);
  fs_get_root_entry _ := Some (0, 0);
  free_space p e := Some (LogEnv (next_table e) (page_table p :: freed e));
  create_space _ e := Some (next_table e, LogEnv (next_table e + 4096) (freed e));
  copy_space _ e := Some (true, next_table e, LogEnv (next_table e + 4096) (freed e));
  replace_image _ _ e := Some (true, e)
}.

Definition start : kstate log_env :=
  KState (repeat zero_proc 64) None None false (LogEnv 4096 []).

(** [k0] is the kernel after the boot; the shell (pid 1) runs in [k1] and forks; pid 1
    waits for its child in [k3], which runs in [k4] and has ended in [k5]; pid 1 runs
    again in [k6]. *)
Definition k0 : kstate log_env := default start (boot_processes [19] start).
Definition after_yield (k : kstate log_env) : kstate log_env :=
  match current_proc k with
  | Some c => default k (yielded_state <$> yield c k)
  | None => k
  end.
Definition k1 : kstate log_env := after_yield k0.
Definition k2 : kstate log_env := default k1 (snd <$> process_fork k1).
Definition k3 : kstate log_env :=
  default k2 (outcome_state <$> wait_for_child_exit 1 (pid (proc_at k2 1)) (-1) k2).
Definition k4 : kstate log_env := after_yield k3.
Definition k5 : kstate log_env := exit_current 2 k4.
Definition k6 : kstate log_env := after_yield k5.

Definition is_some {A} (o : option A) : bool := match o with Some _ => true | None => false end.

(** ** Reading a state by computation *)

Definition runs (k : kstate log_env) (cur : nat) : bool :=
  bool_decide (current_proc k = Some cur) && bool_decide (0 < cur < length (procs k))%nat &&
  (state (proc_at k cur) =? PROC_RUNNABLE).

Lemma runs_ok k cur : runs k cur = true → running k cur.
Proof.
  unfold runs. intros [[Hc Hl]%andb_true_iff Hs]%andb_true_iff.
  apply bool_decide_eq_true in Hc, Hl. split; [done|]. split; [lia|]. exists (proc_at k cur).
  split; [apply lookup_proc_at; lia|lia].
Qed.

Lemma some_default {A} (o : option A) a : is_some o = true → o = Some (default a o).
Proof. by destruct o. Qed.

Lemma some_snd {A B} (o : option (A * B)) b :
  is_some o = true → ∃ a, o = Some (a, default b (snd <$> o)).
Proof. destruct o as [[a b']|]; [|done]. by exists a. Qed.

Lemma some_outcome {A} (o : option (outcome log_env A)) k :
  is_some o = true →
  ∃ x, o = Some x ∧ outcome_state x = default k (outcome_state <$> o).
Proof. destruct o as [x|]; [|done]. by exists x. Qed.

Lemma call_after_yield k c :
  current_proc k = Some c → is_some (yield c k) = true → kcall k (after_yield k).
Proof.
  intros Hc Hy. unfold after_yield. rewrite Hc. destruct (yield c k) as [y|] eqn:E; [|done].
  by apply (step_yield k c y).
Qed.

Lemma step_after_yield k c :
  current_proc k = Some c → is_some (yield c k) = true → kstep k (after_yield k).
Proof. intros. by eapply step_call, call_after_yield. Qed.

Lemma booted0 : booted k0.
Proof.
  exists [19], (LogEnv 4096 []). split; [exact I|]. split.
  - apply some_default. vm_compute. reflexivity.
  - assert (H : init_proc k0 = Some 1%nat) by (vm_compute; reflexivity). rewrite H. done.
Qed.

Lemma reach0 : reachable k0.
Proof. exists k0. split; [exact booted0|done]. Qed.

Lemma run1 : runs k1 1 = true. Proof. vm_compute. reflexivity. Qed.
Lemma run2 : runs k2 1 = true. Proof. vm_compute. reflexivity. Qed.
Lemma run4 : runs k4 2 = true. Proof. vm_compute. reflexivity. Qed.
Lemma run6 : runs k6 1 = true. Proof. vm_compute. reflexivity. Qed.

Lemma reach1 : reachable k1.
Proof.
  apply (reachable_step k0 _ reach0), (step_after_yield k0 0); vm_compute; reflexivity.
Qed.

Lemma fork1 : ∃ r, process_fork k1 = Some (r, k2).
Proof. apply some_snd. vm_compute. reflexivity. Qed.

Lemma reach2 : reachable k2.
Proof.
  apply (reachable_step k1 _ reach1). destruct fork1 as [r Hr].
  exact (step_call _ _ (step_fork k1 1 r k2 (runs_ok _ _ run1) Hr)).
Qed.

Lemma wait2 : ∃ x, wait_for_child_exit 1 (pid (proc_at k2 1)) (-1) k2 = Some x ∧ outcome_state x = k3.
Proof. apply some_outcome. vm_compute. reflexivity. Qed.

Lemma reach3 : reachable k3.
Proof.
  apply (reachable_step k2 _ reach2). destruct wait2 as (x&Hx&<-).
  exact (step_call _ _ (step_waitpid k2 1 (-1) x (runs_ok _ _ run2) Hx)).
Qed.

Lemma reach4 : reachable k4.
Proof.
  apply (reachable_step k3 _ reach3), (step_after_yield k3 1); vm_compute; reflexivity.
Qed.

Lemma init4 : init_proc k4 ≠ Some 2%nat.
Proof.
  assert (H : init_proc k4 = Some 1%nat) by (vm_compute; reflexivity). rewrite H. done.
Qed.

Lemma reach5 : reachable k5.
Proof. exact (reachable_step k4 _ reach4 (step_call _ _ (step_exit k4 2 (runs_ok _ _ run4) init4))). Qed.

Lemma reach6 : reachable k6.
Proof.
  apply (reachable_step k5 _ reach5), (step_after_yield k5 2); vm_compute; reflexivity.
Qed.

Lemma proc_is (k : kstate log_env) i : (i <? length (procs k))%nat = true → procs k !! i = Some (proc_at k i).
Proof. intros Hi. apply lookup_proc_at. by apply Nat.ltb_lt. Qed.

(** ** Witnesses *)

(** The shell waits for its child while it runs. *)
Lemma process_table_invariant_witness :
  pid (proc_at k3 2) = 2 ∧ (parent_pid (proc_at k3 2) = 0 ∨
    ∃ j q, j ≠ 2%nat ∧ procs k3 !! j = Some q ∧ alive q ∧ 0 < pid q ∧ pid q = parent_pid (proc_at k3 2)).
Proof.
  assert (H2 : procs k3 !! 2%nat = Some (proc_at k3 2)) by (apply proc_is; vm_compute; reflexivity).
  assert (Hs : state (proc_at k3 2) = PROC_RUNNABLE) by (vm_compute; reflexivity).
  destruct (process_table_invariant k3 reach3) as (_&Hi&_).
  apply (Hi 2%nat (proc_at k3 2) H2). rewrite Hs. discriminate.
Defined.

Lemma no_lost_wakeup_witness :
  wait_reason (proc_at k3 1) = PROC_WAIT_CHILD_EXIT ∧
  ∃ j q, procs k3 !! j = Some q ∧ alive q ∧ awaited (proc_at k3 1) q.
Proof.
  assert (H1 : procs k3 !! 1%nat = Some (proc_at k3 1)) by (apply proc_is; vm_compute; reflexivity).
  assert (Hs : state (proc_at k3 1) = PROC_WAITTING) by (vm_compute; reflexivity).
  assert (Hw : wait_reason (proc_at k3 1) = PROC_WAIT_CHILD_EXIT) by (vm_compute; reflexivity).
  split; [exact Hw|].
  destruct (no_lost_wakeup k3 1 (proc_at k3 1) reach3 H1 Hs) as [_ H].
  destruct (H Hw) as [Hc _]. exact Hc.
Defined.

Lemma exit_wakes_parent_witness :
  ∃ p', procs k5 !! 1%nat = Some p' ∧ state p' = PROC_RUNNABLE ∧ pid p' = 1.
Proof.
  assert (H1 : procs k4 !! 1%nat = Some (proc_at k4 1)) by (apply proc_is; vm_compute; reflexivity).
  assert (Hp : pid (proc_at k4 1) = 1) by (vm_compute; reflexivity).
  assert (Hw : waits PROC_WAIT_CHILD_EXIT (proc_at k4 1)) by (split; vm_compute; reflexivity).
  assert (Ha : awaited (proc_at k4 1) (proc_at k4 2)) by (split; [|left]; vm_compute; reflexivity).
  destruct (exit_wakes_parent k4 2 1 (proc_at k4 1) reach4 (runs_ok _ _ run4) H1 Hw Ha)
    as [(p'&?&?&Hpp) _].
  exists p'. rewrite <-Hp. auto.
Defined.

Lemma waitpid_spec_witness :
  ∃ r k', wait_for_child_exit 1 (pid (proc_at k6 1)) (-1) k6 = Some (Done r k') ∧ r = 2 ∧
    ∃ i p q, procs k6 !! i = Some p ∧ is_child (pid (proc_at k6 1)) (-1) p ∧
      state p = PROC_EXITED ∧ r = pid p ∧ procs k' = <[i := q]> (procs k6) ∧ state q = PROC_UNUSED.
Proof.
  pose (f := λ o : option (outcome log_env Z), match o with Some (Done r _) => r | _ => 0 end).
  assert (H : f (wait_for_child_exit 1 (pid (proc_at k6 1)) (-1) k6) = 2) by (vm_compute; reflexivity).
  destruct (wait_for_child_exit 1 (pid (proc_at k6 1)) (-1) k6) as [o|] eqn:Ho; [|discriminate].
  pose proof (waitpid_spec k6 1 (-1) o reach6 (runs_ok _ _ run6) Ho) as Hs.
  destruct o as [r k'|w k']; [|discriminate]. exists r, k'. simpl in H.
  split; [reflexivity|]. split; [exact H|]. destruct Hs as [(Hr&_)|Hs]; [lia|exact Hs].
Defined.

Lemma ipc_delivery_witness :
  (process_ipc_send (pid (proc_at k2 1)) (Z.of_nat 2) 77 k2).1 = 0 ∧
  ∀ s m, process_ipc_send s 2 m (process_ipc_send (pid (proc_at k2 1)) (Z.of_nat 2) 77 k2).2
         = (-2, (process_ipc_send (pid (proc_at k2 1)) (Z.of_nat 2) 77 k2).2).
Proof.
  assert (H2 : procs k2 !! 2%nat = Some (proc_at k2 2)) by (apply proc_is; vm_compute; reflexivity).
  assert (Ha : alive (proc_at k2 2)) by (left; vm_compute; reflexivity).
  assert (Hm : ipc_has_message (proc_at k2 2) = 0) by (vm_compute; reflexivity).
  destruct (ipc_delivery k2 1 2 (proc_at k2 2) 77
    (process_ipc_send (pid (proc_at k2 1)) (Z.of_nat 2) 77 k2).2
    (process_ipc_send (pid (proc_at k2 1)) (Z.of_nat 2) 77 k2).1
    reach2 (runs_ok _ _ run2) H2 Ha ltac:(lia) Hm (surjective_pairing _)) as (Hr&_&Hfull&_).
  exact (conj Hr Hfull).
Defined.

Lemma pick_next_spec_witness :
  pick_next k2 1 = Some 1%nat ∧
  match pick_next k2 1 with
  | Some n => ∃ p, procs k2 !! n = Some p ∧ state p = PROC_RUNNABLE
  | None => True
  end.
Proof.
  split; [vm_compute; reflexivity|].
  pose proof (pick_next_spec k2 1 reach2) as H. destruct (pick_next k2 1) as [n|]; [|exact I].
  destruct H as (d&_&_&_&Hp&_). exact Hp.
Defined.

(** The shell forks and yields: it keeps the processor although its child is
    runnable. *)
Lemma yield_keeps_running_witness :
  state (proc_at k2 2) = PROC_RUNNABLE ∧
  ∃ k', yield 1 k2 = Some (YReturn k') ∧ running k' 1.
Proof.
  split; [vm_compute; reflexivity|].
  assert (Hy : is_some (yield 1 k2) = true) by (vm_compute; reflexivity).
  destruct (yield 1 k2) as [y|] eqn:E; [|discriminate].
  destruct (yield_keeps_running k2 1 y reach2 (runs_ok _ _ run2) E) as (k'&->&Hr&_).
  exists k'. split; [reflexivity|exact Hr].
Defined.

Lemma process_fork_spec_witness :
  ∃ i child, procs k2 !! i = Some child ∧ pid child = Z.of_nat i ∧ forked (proc_at k1 1) child.
Proof.
  assert (Hr : ∃ r, process_fork k1 = Some (Some r, k2)).
  { destruct fork1 as [r Hr].
    assert (H : is_some (let! (r, _) := process_fork k1 in r) = true)
      by (vm_compute; reflexivity).
    rewrite Hr in H. destruct r as [i|]; [exists i; exact Hr|discriminate]. }
  destruct Hr as [i Hr].
  destruct (process_fork_spec k1 1 (Some i) k2 reach1 (runs_ok _ _ run1) Hr) as (_&_&child&H1&H2&H3&_).
  exists i, child. auto.
Defined.

Lemma process_kill_spec_witness :
  ∃ k', process_kill 2 k2 = Some (Done 2 k') ∧ ∃ q, procs k' !! 2%nat = Some q ∧ state q = PROC_UNUSED.
Proof.
  pose (f := λ o : option (outcome log_env Z), match o with Some (Done r _) => r | _ => 0 end).
  assert (H : f (process_kill 2 k2) = 2) by (vm_compute; reflexivity).
  destruct (process_kill 2 k2) as [o|] eqn:Ho; [|discriminate].
  destruct (process_kill_spec k2 1 2 o reach2 (runs_ok _ _ run2) Ho) as [_ Hs].
  destruct o as [r k'|w k']; [|discriminate]. simpl in H. subst r. exists k'. split; [reflexivity|].
  destruct Hs as [[? _]|[[? _]|[[? _]|(_&_&_&_&Hq)]]]; [lia|lia|lia|exact Hq].
Defined.

Lemma process_calls_total_witness :
  (∃ y, yield 1 k2 = Some y ∧ kstep k2 (yielded_state y)) ∧
  ∃ o, process_kill 2 k2 = Some o ∧ kstep k2 (outcome_state o).
Proof.
  destruct (process_calls_total (E := log_env) ltac:(intros; eexists; reflexivity) k2 1 2 [19] (bytes "sh")
    ltac:(intros; eexists; reflexivity) ltac:(intros; eexists; reflexivity) I (runs_ok _ _ run2))
    as (Hy&_&Hk&_).
  exact (conj Hy Hk).
Defined.

(** ** What the code does that it may not mean to do *)

(** A process that kills itself: [yield] recycles its slot, so the page table and the
    slot of the process whose kernel stack is in use are free, before the switch to
    another process. *)
Example self_kill_frees_running :
  match process_kill 2 k4 with
  | Some (Blocked WaitForever k) =>
      match reap_exited_processes k with
      | Some k' => (current_proc k', state (proc_at k' 2), freed (env k'), page_table (proc_at k4 2))
                   = (Some 2%nat, PROC_UNUSED, [page_table (proc_at k4 2)], page_table (proc_at k4 2))
      | None => False
      end
  | _ => False
  end.
Proof. vm_compute. reflexivity. Qed.

(** [waitpid] for a child that another process kills: the parent is woken and finds
    no child, so the call returns -1. *)
Definition killed_by_another : option Z :=
  let k := upd_proc k3 3 (λ p, set_state PROC_RUNNABLE (set_pid 3 p)) in
  let k := set_current k (Some 3%nat) in
  match process_kill 2 k with
  | Some (Done _ k) =>
      match wait_for_child_exit 1 1 (-1) (set_current k (Some 1%nat)) with
      | Some (Done r _) => Some r
      | _ => None
      end
  | _ => None
  end.

Example waitpid_of_killed_child : killed_by_another = Some (-1).
Proof. vm_compute. reflexivity. Qed.
