(* ===== verification/PageTable.v ===== *)
(** * Address spaces: Sv32 page tables ([map_page] of [src/kernel/mm/memory.c] and the
    address-space parts of [src/kernel/proc/process.c])

    A page table is a page of 1024 words of the physical memory [ram], so that the
    allocator and the tables act on one memory.  An address space has a top-level
    table, the second-level tables its entries point to, and the user pages. *)
From Stdlib Require Import ZArith Lia ZifyBool.
From stdpp Require Import base tactics list numbers option.
From S2P Require Import Prelude Memory.
#[local] Open Scope Z_scope.

Definition PAGE_V : Z := 1.
Definition PAGE_R : Z := 2.
Definition PAGE_W : Z := 4.
Definition PAGE_X : Z := 8.
Definition PAGE_U : Z := 16.
Definition USER_BASE : Z := 0x1000000.
Definition MMIO_BASE : Z := 0x10000000.
Definition MMIO_END : Z := 0x10010000.
Definition RTC_MMIO_BASE : Z := 0x101000.
Definition RTC_MMIO_END : Z := 0x102000.

(** ** Words of the memory (little-endian) *)

Definition load_word (r : memory) (a : Z) : Z :=
  r a + 256 * r (a + 1) + 65536 * r (a + 2) + 16777216 * r (a + 3).

Definition store_word (r : memory) (a v : Z) : memory :=
  mset (mset (mset (mset r a (u8 v)) (a + 1) (u8 (v / 256))) (a + 2) (u8 (v / 65536)))
    (a + 3) (u8 (v / 16777216)).

(** [table[i]] of a [uint32_t *table]. *)
Definition pte (m : mem) (table i : Z) : Z := load_word (ram m) (table + 4 * i).

Definition set_pte (m : mem) (table i v : Z) : mem :=
  set_ram m (store_word (ram m) (table + 4 * i) v).

Definition vpn1 (vaddr : Z) : Z := Z.land (Z.shiftr vaddr 22) 0x3ff.
Definition vpn0 (vaddr : Z) : Z := Z.land (Z.shiftr vaddr 12) 0x3ff.

(** [table[i] & PAGE_V] is not 0. *)
Definition is_valid (e : Z) : bool := negb (Z.land e PAGE_V =? 0).

(** [(e >> 10) * PAGE_SIZE] *)
Definition pte_addr (e : Z) : Z := u32 (Z.shiftr e 10 * PAGE_SIZE).

(** [((paddr / PAGE_SIZE) << 10) | flags | PAGE_V] *)
Definition pte_of (paddr flags : Z) : Z :=
  Z.lor (Z.lor (u32 (Z.shiftl (paddr / PAGE_SIZE) 10)) flags) PAGE_V.

Definition map_page (table1 vaddr paddr flags : Z) (m : mem) : option mem :=
  if negb (vaddr mod PAGE_SIZE =? 0) then None
  else if negb (paddr mod PAGE_SIZE =? 0) then None
  else
    let! m :=
      if is_valid (pte m table1 (vpn1 vaddr)) then Some m
      else
        let! (pt_paddr, m) := alloc_pages 1 m in
        Some (set_pte m table1 (vpn1 vaddr) (pte_of pt_paddr 0)) in
    let table0 := pte_addr (pte m table1 (vpn1 vaddr)) in
    Some (set_pte m table0 (vpn0 vaddr) (pte_of paddr flags)).

(** [for (p = lo; p < hi; p += PAGE_SIZE) map_page(table, p, p, flags);] *)
Definition map_range (table lo hi flags : Z) (m : mem) : option mem :=
  zfor_opt (Z.to_nat ((hi - lo + PAGE_SIZE - 1) / PAGE_SIZE)) 0
    (λ i m, map_page table (lo + i * PAGE_SIZE) (lo + i * PAGE_SIZE) flags m) m.

(** ** The parts of [process.c] that handle address spaces *)

Section kernel_range.
(** The linker symbols [__kernel_base] and [__free_ram_end]. *)
Context (kernel_base free_ram_end : Z).

(** A new top-level table that maps the kernel and the devices. *)
Definition new_table (m : mem) : option (Z * mem) :=
  let! (table, m) := alloc_pages 1 m in
  let! m := map_range table kernel_base free_ram_end (Z.lor (Z.lor PAGE_R PAGE_W) PAGE_X) m in
  let! m := map_range table MMIO_BASE MMIO_END (Z.lor PAGE_R PAGE_W) m in
  let! m := map_range table RTC_MMIO_BASE RTC_MMIO_END (Z.lor PAGE_R PAGE_W) m in
  Some (table, m).
End kernel_range.

(** [memcpy] of bytes into the memory. *)
Fixpoint store_bytes (r : memory) (a : Z) (l : list Z) : memory :=
  match l with
  | [] => r
  | b :: l' => store_bytes (mset r a b) (a + 1) l'
  end.

Definition USER_FLAGS : Z := Z.lor (Z.lor (Z.lor PAGE_U PAGE_R) PAGE_W) PAGE_X.

(** Page [i] of an image: a fresh page with the bytes of the image, mapped. *)
Definition load_page (table : Z) (image : list Z) (i : Z) (m : mem) : option mem :=
  let off := i * PAGE_SIZE in
  let! (page, m) := alloc_pages 1 m in
  let m := set_ram m (store_bytes (ram m) page
    (take (Z.to_nat PAGE_SIZE) (drop (Z.to_nat off) image))) in
  map_page table (u32 (USER_BASE + off)) page USER_FLAGS m.

(** [for (off = 0; off < image_size; off += PAGE_SIZE) ...] *)
Definition load_image (table : Z) (image : list Z) (m : mem) : option mem :=
  zfor_opt (Z.to_nat ((Z.of_nat (length image) + PAGE_SIZE - 1) / PAGE_SIZE)) 0
    (load_page table image) m.

(** One user page of [free_process_memory] and [free_user_pages_only]. *)
Definition free_user_page (table1 i : Z) (m : mem) : option mem :=
  let vaddr := u32 (USER_BASE + u32 (i * PAGE_SIZE)) in
  if negb (is_valid (pte m table1 (vpn1 vaddr))) then Some m
  else
    let table0 := pte_addr (pte m table1 (vpn1 vaddr)) in
    if negb (is_valid (pte m table0 (vpn0 vaddr))) then Some m
    else
      let! m' := free_pages (pte_addr (pte m table0 (vpn0 vaddr))) 1 m in
      Some (set_pte m' table0 (vpn0 vaddr) 0).

Definition free_user_pages (table1 n : Z) (m : mem) : option mem :=
  zfor_opt (Z.to_nat n) 0 (free_user_page table1) m.

(** One second-level table. *)
Definition free_table0 (table1 i : Z) (m : mem) : option mem :=
  if negb (is_valid (pte m table1 i)) then Some m
  else
    let! m := free_pages (pte_addr (pte m table1 i)) 1 m in
    Some (set_pte m table1 i 0).

(** The body of [free_process_memory] for a table that is not NULL. *)
Definition free_address_space (table1 n : Z) (m : mem) : option mem :=
  let! m := free_user_pages table1 n m in
  let! m := zfor_opt 1024 0 (free_table0 table1) m in
  free_pages table1 1 m.

(** One user page of [process_fork]: [None] in the result when the parent's page is
    not mapped, and the copy fails. *)
Definition copy_page (parent child i : Z) (m : mem) : option (bool * mem) :=
  let vaddr := u32 (USER_BASE + u32 (i * PAGE_SIZE)) in
  if negb (is_valid (pte m parent (vpn1 vaddr))) then Some (false, m)
  else
    let pt0 := pte_addr (pte m parent (vpn1 vaddr)) in
    if negb (is_valid (pte m pt0 (vpn0 vaddr))) then Some (false, m)
    else
      let parent_page := pte_addr (pte m pt0 (vpn0 vaddr)) in
      let! (child_page, m) := alloc_pages 1 m in
      if child_page =? 0 then Some (false, m)
      else
        let r := ram m in
        let m := set_ram m (λ x, if (child_page <=? x) && (x <? child_page + PAGE_SIZE)
                                 then r (parent_page + (x - child_page)) else r x) in
        let flags := Z.land (Z.land (pte m pt0 (vpn0 vaddr)) 0x3ff) (Z.lnot PAGE_V) in
        let! m := map_page child vaddr child_page flags m in
        Some (true, m).

(** A loop over pages that stops at the first failure. *)
Fixpoint while_ok (body : Z → mem → option (bool * mem)) (n : nat) (i : Z) (m : mem)
  : option (bool * mem) :=
  match n with
  | O => Some (true, m)
  | S n' =>
      let! (ok, m) := body i m in
      if ok then while_ok body n' (i + 1) m else Some (false, m)
  end.

Definition copy_pages (parent child n : Z) : mem → option (bool * mem) :=
  while_ok (copy_page parent child) (Z.to_nat n) 0.

(** The loop of [process_exec], which stops when there is no page. *)
Definition exec_page (table : Z) (image : list Z) (i : Z) (m : mem) : option (bool * mem) :=
  let off := i * PAGE_SIZE in
  let! (page, m) := alloc_pages 1 m in
  if page =? 0 then Some (false, m)
  else
    let m := set_ram m (store_bytes (ram m) page
      (take (Z.to_nat PAGE_SIZE) (drop (Z.to_nat off) image))) in
    let! m := map_page table (u32 (USER_BASE + off)) page USER_FLAGS m in
    Some (true, m).

Definition exec_image (table : Z) (image : list Z) : mem → option (bool * mem) :=
  while_ok (exec_page table image)
    (Z.to_nat ((Z.of_nat (length image) + PAGE_SIZE - 1) / PAGE_SIZE)) 0.

(** The address spaces [create_process] and [process_fork] make.  In [process_fork] the
    result also says whether every page of the parent was there to copy. *)
Definition create_address_space (kernel_base free_ram_end : Z) (image : list Z) (m : mem)
  : option (Z * mem) :=
  let! (table, m) := new_table kernel_base free_ram_end m in
  let! m := load_image table image m in
  Some (table, m).

Definition copy_address_space (kernel_base free_ram_end parent n : Z) (m : mem)
  : option (bool * Z * mem) :=
  let! (table, m) := new_table kernel_base free_ram_end m in
  if table =? 0 then Some (false, 0, m)
  else
    let! (ok, m) := copy_pages parent table n m in
    Some (ok, table, m).
