(* ===== verification/PageTableSpec.v ===== *)
(** * Address spaces: what the page tables promise

    The walk of the hardware through a table, the well-formedness of a table (its
    pages are managed pages in use, all distinct), that [map_page] adds one
    translation and changes no other, and that freeing an address space frees exactly
    its pages. *)
From Stdlib Require Import ZArith Lia ZifyBool.
From stdpp Require Import base tactics list numbers option.
From S2P Require Import Prelude Memory PageTable.
#[local] Open Scope Z_scope.

(** ** Words *)

Lemma store_word_other r a v x : ¬ (a ≤ x < a + 4) → store_word r a v x = r x.
Proof. intros Hx. unfold store_word. by rewrite !mset_ne by lia. Qed.

Lemma load_word_same r r' a : (∀ x, a ≤ x < a + 4 → r' x = r x) → load_word r' a = load_word r a.
Proof. intros Hr. unfold load_word. by rewrite !Hr by lia. Qed.

Lemma load_store_word r a v : load_word (store_word r a v) a = u32 v.
Proof.
  unfold load_word, store_word. rewrite (mset_ne _ (a + 3) _ a), (mset_ne _ (a + 2) _ a),
    (mset_ne _ (a + 1) _ a), mset_eq by lia.
  rewrite (mset_ne _ (a + 3) _ (a + 1)), (mset_ne _ (a + 2) _ (a + 1)), mset_eq by lia.
  rewrite (mset_ne _ (a + 3) _ (a + 2)), !mset_eq by lia. unfold u8, u32. zdiv.
Qed.

Lemma load_store_word_ne r a b v :
  b + 4 <= a ∨ a + 4 <= b → load_word (store_word r a v) b = load_word r b.
Proof. intros Hab. apply load_word_same. intros x Hx. apply store_word_other. lia. Qed.

(** ** Page numbers and entries *)

Lemma vpn1_eq va : 0 ≤ va → vpn1 va = va / 4194304 mod 1024.
Proof.
  intros. unfold vpn1. change 0x3ff with (Z.ones 10). rewrite Z.land_ones by lia.
  by rewrite Z.shiftr_div_pow2 by lia.
Qed.

Lemma vpn0_eq va : 0 ≤ va → vpn0 va = va / 4096 mod 1024.
Proof.
  intros. unfold vpn0. change 0x3ff with (Z.ones 10). rewrite Z.land_ones by lia.
  by rewrite Z.shiftr_div_pow2 by lia.
Qed.

Lemma vpn1_range va : 0 ≤ va → 0 ≤ vpn1 va < 1024.
Proof. intros. rewrite vpn1_eq by done. apply Z.mod_pos_bound. lia. Qed.

Lemma vpn0_range va : 0 ≤ va → 0 ≤ vpn0 va < 1024.
Proof. intros. rewrite vpn0_eq by done. apply Z.mod_pos_bound. lia. Qed.

Lemma vpn_page a b :
  0 ≤ a < 4294967296 → 0 ≤ b < 4294967296 → vpn1 a = vpn1 b → vpn0 a = vpn0 b →
  a / 4096 = b / 4096.
Proof. intros Ha Hb. rewrite !vpn1_eq, !vpn0_eq by lia. intros. zdiv. Qed.

Lemma vpn_same a b :
  0 ≤ a → 0 ≤ b → a / 4096 = b / 4096 → vpn1 a = vpn1 b ∧ vpn0 a = vpn0 b.
Proof.
  intros Ha Hb Hab. rewrite !vpn1_eq, !vpn0_eq by lia. rewrite Hab. split; [|done].
  replace (a / 4194304) with (a / 4096 / 1024) by zdiv.
  replace (b / 4194304) with (b / 4096 / 1024) by zdiv. by rewrite Hab.
Qed.

Lemma lor_low a b n : 0 ≤ n → 0 ≤ b < 2 ^ n → a mod 2 ^ n = 0 → Z.lor a b = a + b.
Proof.
  intros Hn Hb Ha. assert (Hd : Z.land a b = 0).
  { apply Z.bits_inj'. intros j Hj. rewrite Z.land_spec, Z.bits_0.
    destruct (Z.ltb_spec j n).
    - rewrite <-(Z.mod_pow2_bits_low a n j), Ha, Z.bits_0 by lia. done.
    - replace (Z.testbit b j) with false; [by rewrite andb_false_r|]. symmetry.
      destruct (decide (b = 0)) as [->|]; [apply Z.bits_0|].
      apply Z.bits_above_log2; [lia|]. apply Z.log2_lt_pow2; [lia|].
      apply Z.lt_le_trans with (2 ^ n); [lia|]. apply Z.pow_le_mono_r; lia. }
  pose proof (Z.add_lor_land a b). lia.
Qed.

(** An entry for a page: its number above its flags. *)
Definition flag_bits (f : Z) : Z := Z.lor f PAGE_V.

Lemma flag_bits_range f : 0 ≤ f < 1024 → 0 ≤ flag_bits f < 1024.
Proof.
  intros Hf. unfold flag_bits. assert (0 ≤ Z.lor f PAGE_V) by (apply Z.lor_nonneg; unfold PAGE_V; lia).
  split; [done|]. destruct (decide (f = 0)) as [->|]; [done|].
  apply (Z.log2_lt_cancel _ 1024). rewrite Z.log2_lor by (unfold PAGE_V; lia).
  apply Z.max_lub_lt; [|done]. apply (Z.log2_lt_pow2 f 10); lia.
Qed.

Lemma pte_of_eq p f :
  0 ≤ p < 4294967296 → 0 ≤ f < 1024 → pte_of p f = p / 4096 * 1024 + flag_bits f.
Proof.
  intros Hp Hf. unfold pte_of, flag_bits, PAGE_SIZE. rewrite Z.shiftl_mul_pow2 by lia.
  change (2 ^ 10) with 1024. rewrite u32_small by zdiv. rewrite <-Z.lor_assoc.
  fold (flag_bits f). pose proof (flag_bits_range f Hf).
  rewrite (lor_low _ (flag_bits f) 10); [done|lia|lia|apply Z_mod_mult].
Qed.

Lemma pte_of_range p f :
  0 ≤ p < 4294967296 → 0 ≤ f < 1024 → 0 ≤ pte_of p f < 4294967296.
Proof. intros Hp Hf. rewrite pte_of_eq by done. pose proof (flag_bits_range f Hf). zdiv. Qed.

Lemma pte_addr_of p f :
  0 ≤ p < 4294967296 → p mod 4096 = 0 → 0 ≤ f < 1024 → pte_addr (pte_of p f) = p.
Proof.
  intros Hp Ha Hf. rewrite pte_of_eq by done. pose proof (flag_bits_range f Hf).
  unfold pte_addr, PAGE_SIZE. rewrite Z.shiftr_div_pow2 by lia. change (2 ^ 10) with 1024.
  replace ((p / 4096 * 1024 + flag_bits f) / 1024) with (p / 4096) by zdiv.
  rewrite u32_small; zdiv.
Qed.

Lemma is_valid_odd e : is_valid e = Z.odd e.
Proof.
  unfold is_valid, PAGE_V. rewrite (Z.land_ones _ 1) by lia. change (2 ^ 1) with 2.
  rewrite Zmod_odd. by destruct (Z.odd e).
Qed.

Lemma flag_bits_odd f : Z.odd (flag_bits f) = true.
Proof. unfold flag_bits. rewrite <-Z.bit0_odd, Z.lor_spec. by rewrite orb_true_r. Qed.

Lemma pte_of_valid p f :
  0 ≤ p < 4294967296 → 0 ≤ f < 1024 → is_valid (pte_of p f) = true.
Proof.
  intros Hp Hf. rewrite is_valid_odd, pte_of_eq by done.
  rewrite Z.odd_add, flag_bits_odd. replace (p / 4096 * 1024) with (2 * (p / 4096 * 512)) by lia.
  by rewrite Z.odd_mul.
Qed.

Lemma pte_of_flags p f :
  0 ≤ p < 4294967296 → 0 ≤ f < 1024 → Z.land (pte_of p f) 0x3ff = flag_bits f.
Proof.
  intros Hp Hf. rewrite pte_of_eq by done. change 0x3ff with (Z.ones 10). rewrite Z.land_ones by lia.
  pose proof (flag_bits_range f Hf). change (2 ^ 10) with 1024.
  rewrite Z.add_comm, Z_mod_plus_full. by apply Z.mod_small.
Qed.

(** ** The walk of the hardware

    The frame and the flags a virtual address is translated to, for a table of
    4 KiB leaves. *)
Definition walk (m : mem) (table1 vaddr : Z) : option (Z * Z) :=
  let e1 := pte m table1 (vpn1 vaddr) in
  if is_valid e1 then
    let e0 := pte m (pte_addr e1) (vpn0 vaddr) in
    if is_valid e0 then Some (pte_addr e0, Z.land e0 0x3ff) else None
  else None.

(** ** Well-formed tables *)

(** [p] is the address of a managed page that is in use. *)
Definition page_used (m : mem) (p : Z) : Prop :=
  ∃ j, p = managed_base m + j * PAGE_SIZE ∧ 0 ≤ j < managed_pages m ∧ bitmap_test m j = true.

(** The second-level table of entry [v]. *)
Definition child (m : mem) (t v : Z) : Z := pte_addr (pte m t v).
Definition has_child (m : mem) (t v : Z) : Prop := 0 ≤ v < 1024 ∧ is_valid (pte m t v) = true.

Record table_ok (m : mem) (t : Z) : Prop := {
  to_top : page_used m t;
  to_child v : has_child m t v → page_used m (child m t v) ∧ child m t v ≠ t;
  to_inj v w : has_child m t v → has_child m t w → child m t v = child m t w → v = w
}.

Lemma page_used_range m p :
  mem_ok m → page_used m p →
  4096 ≤ p ∧ p + 4096 ≤ 4294967296 ∧ p mod 4096 = 0 ∧
  (∀ x, p ≤ x < p + 4096 → ¬ in_bitmap m x) ∧ 1 ≤ managed_pages m.
Proof.
  intros [] (j&->&Hj&_). unfold PAGE_SIZE, in_bitmap in *.
  assert (managed_base m mod 4096 = 0) as Hb by done.
  assert (1 ≤ (managed_pages m + 7) / 8) by zdiv.
  split; [zdiv|]. split; [zdiv|]. split; [|split; [intros x Hx; lia|lia]].
  rewrite Z_mod_plus_full. done.
Qed.

Lemma pages_apart p q : p mod 4096 = 0 → q mod 4096 = 0 → p ≠ q → p + 4096 ≤ q ∨ q + 4096 ≤ p.
Proof. intros. zdiv. Qed.

(** ** Writing an entry *)

Section entry.
Context (m : mem) (t v x : Z).
Context (Hok : mem_ok m) (Ht : page_used m t) (Hv : 0 ≤ v < 1024) (Hx : 0 ≤ x < 4294967296).

Lemma set_pte_ram y : ¬ (t ≤ y < t + 4096) → ram (set_pte m t v x) y = ram m y.
Proof. intros Hy. unfold set_pte. cbn. apply store_word_other. lia. Qed.

Lemma set_pte_geometry : same_geometry m (set_pte m t v x).
Proof. done. Qed.

Lemma set_pte_bit j : 0 ≤ j < managed_pages m → bitmap_test (set_pte m t v x) j = bitmap_test m j.
Proof.
  intros Hj. apply bitmap_test_set_ram; [done|]. intros y Hy. apply store_word_other.
  destruct (page_used_range m t Hok Ht) as (_&_&_&Hb&_). intros Hin. apply (Hb y); [lia|done].
Qed.

Lemma set_pte_pte t' v' :
  t' mod 4096 = 0 → 0 ≤ v' < 1024 →
  pte (set_pte m t v x) t' v' = if (t' =? t) && (v' =? v) then x else pte m t' v'.
Proof.
  intros Ht' Hv'. destruct (page_used_range m t Hok Ht) as (_&_&Hal&_&_).
  unfold pte, set_pte. cbn [ram set_ram]. destruct (Z.eqb_spec t' t) as [->|Hne]; cbn [andb].
  - destruct (Z.eqb_spec v' v) as [->|].
    + rewrite load_store_word. by apply u32_small.
    + apply load_store_word_ne. lia.
  - apply load_store_word_ne. destruct (pages_apart t' t); [done|done|done|lia|lia].
Qed.
End entry.

(** ** One fresh page *)

(** [p] is the lowest free page of [m], zeroed and in use in [m1]. *)
Record fresh (m : mem) (p : Z) (m1 : mem) : Prop := {
  fr_geometry : same_geometry m m1;
  fr_free : ¬ page_used m p;
  fr_used q : page_used m1 q ↔ q = p ∨ page_used m q;
  fr_zero x : p ≤ x < p + 4096 → ram m1 x = 0;
  fr_other x : ¬ in_bitmap m x → ¬ (p ≤ x < p + 4096) → ram m1 x = ram m x
}.

Lemma page_index m p j :
  p = managed_base m + j * PAGE_SIZE → 0 ≤ j < managed_pages m →
  page_used m p ↔ bitmap_test m j = true.
Proof.
  intros -> Hj. split; [|by exists j].
  intros (i&Hi&?&Hb). unfold PAGE_SIZE in *. assert (i = j) as -> by lia. done.
Qed.

Lemma alloc_one m :
  mem_ok m → 1 ≤ managed_pages m →
  match alloc_pages 1 m with
  | Some (p, m1) => fresh m p m1 ∧ mem_ok m1 ∧ page_used m1 p
  | None => ∀ j, 0 ≤ j < managed_pages m → bitmap_test m j = true
  end.
Proof.
  intros Hok Hm. pose proof (alloc_pages_outcome m 1 Hok ltac:(lia)) as H.
  destruct (alloc_pages 1 m) as [[p m1]|].
  - pose proof (first_fit_ok _ _ _ _ Hok H) as Hok1.
    destruct H as (s&Hp&(Hs0&Hs1&Hfree)&_&(Hg&Hbits&Hram)&Hzero).
    pose proof Hg as (G1&G2&G3&_).
    assert (Hps : page_used m1 p).
    { exists s. rewrite G2, G3, Hbits by lia. split; [done|]. split; [lia|]. case_if; [done|lia]. }
    split; [constructor|by split]; [done| | |intros x Hx; apply Hzero; unfold PAGE_SIZE; lia|].
    + rewrite (page_index m p s Hp) by lia. rewrite Hfree by lia. done.
    + intros q. split.
      * intros (j&Hq&Hj&Hb). rewrite G3 in Hj. rewrite Hbits in Hb by done.
        destruct (decide (j = s)) as [->|Hne]; [left; by rewrite Hq, Hp, G2|right].
        exists j. rewrite <-G2. split; [done|]. split; [done|]. revert Hb. case_if; [lia|done].
      * intros [->|(j&Hq&Hj&Hb)]; [done|]. exists j. rewrite G2, G3, Hbits by done.
        split; [done|]. split; [done|]. by case_if.
    + intros x Hb Hx. apply Hram; [done|]. unfold PAGE_SIZE. lia.
  - intros j Hj. destruct (bitmap_test m j) eqn:Eb; [done|exfalso]. apply (H j).
    split; [lia|]. split; [lia|]. intros i Hi. by replace i with j by lia.
Qed.

Lemma pte_same m m1 t v :
  (∀ x, t ≤ x < t + 4096 → ram m1 x = ram m x) → 0 ≤ v < 1024 → pte m1 t v = pte m t v.
Proof. intros Hr Hv. apply load_word_same. intros x Hx. apply Hr. lia. Qed.

Lemma pte_zero m t v : (∀ x, t ≤ x < t + 4096 → ram m x = 0) → 0 ≤ v < 1024 → pte m t v = 0.
Proof. intros Hr Hv. unfold pte, load_word. rewrite !Hr by lia. done. Qed.

Lemma fresh_pte m p m1 t v :
  mem_ok m → fresh m p m1 → mem_ok m1 → page_used m t → 0 ≤ v < 1024 → pte m1 t v = pte m t v.
Proof.
  intros Hok Hf Hok1 Ht Hv. apply pte_same; [|done]. intros x Hx.
  destruct (page_used_range m t Hok Ht) as (_&_&Hat&Hb&_). apply (fr_other _ _ _ Hf); [by apply Hb|].
  assert (Hp : page_used m1 p) by (apply (fr_used _ _ _ Hf); by left).
  destruct (page_used_range m1 p Hok1 Hp) as (_&_&Hap&_).
  assert (p ≠ t) by (intros ->; by apply (fr_free _ _ _ Hf)).
  destruct (pages_apart p t Hap Hat); [done|lia|lia].
Qed.

(** ** [map_page] *)

Lemma page_used_geometry m m' p :
  same_geometry m m' → (∀ j, 0 ≤ j < managed_pages m → bitmap_test m' j = bitmap_test m j) →
  page_used m' p ↔ page_used m p.
Proof.
  intros (_&G2&G3&_) Hb. unfold page_used. rewrite G2, G3.
  by split; intros (j&?&Hj&Hbj); exists j; [rewrite <-Hb by done|rewrite Hb by done].
Qed.

Section set_leaf.
(** The write of entry [v0] of the second-level table of entry [v]. *)
Context (m : mem) (t v v0 x : Z).
Context (Hok : mem_ok m) (Ht : table_ok m t) (Hv : has_child m t v) (Hv0 : 0 ≤ v0 < 1024).
Context (Hx : 0 ≤ x < 4294967296).

Let m' := set_pte m (child m t v) v0 x.

Lemma leaf_used p : page_used m' p ↔ page_used m p.
Proof using Hok Ht Hv Hv0.
  destruct (to_child m t Ht v Hv) as [Hc _]. apply page_used_geometry; [done|].
  intros j Hj. by apply set_pte_bit.
Qed.

Lemma leaf_top w : 0 ≤ w < 1024 → pte m' t w = pte m t w.
Proof using Hok Ht Hv Hv0 Hx.
  intros Hw. destruct (to_child m t Ht v Hv) as [Hc Hne].
  destruct (page_used_range m t Hok (to_top m t Ht)) as (_&_&Ha&_).
  unfold m'. rewrite set_pte_pte by done. by replace (t =? child m t v) with false by ztest.
Qed.

Lemma leaf_child w : 0 ≤ w < 1024 → child m' t w = child m t w ∧ (has_child m' t w ↔ has_child m t w).
Proof using Hok Ht Hv Hv0 Hx. intros Hw. unfold child, has_child. by rewrite leaf_top. Qed.

Lemma leaf_table_ok : table_ok m' t.
Proof using Hok Ht Hv Hv0 Hx.
  constructor.
  - apply leaf_used, Ht.
  - intros w Hw. pose proof Hw as [Hwr _]. destruct (leaf_child w Hwr) as [-> Hc]. apply Hc in Hw.
    rewrite leaf_used. by apply to_child.
  - intros w w' Hw Hw' He. pose proof Hw as [Hwr _]. pose proof Hw' as [Hwr' _].
    destruct (leaf_child w Hwr) as [E1 C1], (leaf_child w' Hwr') as [E2 C2]. rewrite E1, E2 in He.
    apply (to_inj m t Ht); [by apply C1|by apply C2|done].
Qed.

Lemma leaf_walk va :
  0 ≤ va < 4294967296 →
  walk m' t va = if (vpn1 va =? v) && (vpn0 va =? v0)
                 then (if is_valid x then Some (pte_addr x, Z.land x 0x3ff) else None)
                 else walk m t va.
Proof using Hok Ht Hv Hv0 Hx.
  intros Hva. pose proof (vpn1_range va ltac:(lia)) as H1. pose proof (vpn0_range va ltac:(lia)) as H0.
  unfold walk. rewrite leaf_top by done.
  destruct (is_valid (pte m t (vpn1 va))) eqn:Ev.
  2:{ destruct (Z.eqb_spec (vpn1 va) v) as [Hv1|]; [|done]. destruct Hv as [_ Hv']. congruence. }
  destruct (to_child m t Ht v Hv) as [Hc Hne].
  destruct (to_child m t Ht (vpn1 va)) as [Hc' _]; [by split|]. fold (child m t (vpn1 va)).
  destruct (page_used_range m _ Hok Hc') as (_&_&Ha&_).
  unfold m'. rewrite set_pte_pte by done.
  destruct (Z.eqb_spec (vpn1 va) v) as [Hv1|Hv1].
  - rewrite Hv1, Z.eqb_refl. by destruct (vpn0 va =? v0).
  - destruct (Z.eqb_spec (child m t (vpn1 va)) (child m t v)) as [He|]; [|done].
    destruct Hv1. apply (to_inj m t Ht); [by split|done|done].
Qed.
End set_leaf.

Section new_child.
(** A fresh page becomes the second-level table of entry [v], which was not valid. *)
Context (m : mem) (t v p : Z) (m1 : mem).
Context (Hok : mem_ok m) (Ht : table_ok m t) (Hv : 0 ≤ v < 1024).
Context (Hnv : is_valid (pte m t v) = false).
Context (Hf : fresh m p m1) (Hok1 : mem_ok m1).

Let m2 := set_pte m1 t v (pte_of p 0).

Lemma new_p : page_used m1 p ∧ 0 ≤ p < 4294967296 ∧ p mod 4096 = 0.
Proof using All.
  assert (Hp : page_used m1 p) by (apply (fr_used _ _ _ Hf); by left).
  destruct (page_used_range m1 p Hok1 Hp) as (?&?&?&_). split; [done|]. split; [lia|done].
Qed.

Lemma new_t : page_used m1 t ∧ t ≠ p ∧ t mod 4096 = 0.
Proof using All.
  pose proof (to_top m t Ht) as Hu. destruct (page_used_range m t Hok Hu) as (_&_&?&_).
  split; [apply (fr_used _ _ _ Hf); by right|]. split; [|done]. intros ->. by apply (fr_free _ _ _ Hf).
Qed.

Lemma new_used q : page_used m2 q ↔ q = p ∨ page_used m q.
Proof using All.
  rewrite <-(fr_used _ _ _ Hf q). apply page_used_geometry; [done|]. intros j Hj.
  apply set_pte_bit; [done|apply new_t|done|done].
Qed.

Lemma new_pte t' w :
  page_used m t' → 0 ≤ w < 1024 →
  pte m2 t' w = if (t' =? t) && (w =? v) then pte_of p 0 else pte m t' w.
Proof using All.
  intros Ht' Hw. destruct new_p as (_&Hp&_). destruct new_t as (Hu&_&_).
  destruct (page_used_range m t' Hok Ht') as (_&_&?&_).
  pose proof (pte_of_range p 0 Hp ltac:(lia)).
  unfold m2. rewrite set_pte_pte by done. case_if; [done|]. by apply (fresh_pte m p m1).
Qed.

Lemma new_child_table w : 0 ≤ w < 1024 →
  (has_child m2 t w ↔ w = v ∨ has_child m t w) ∧
  child m2 t w = if w =? v then p else child m t w.
Proof using All.
  intros Hw. destruct new_p as (_&Hp&Ha). unfold has_child, child.
  rewrite new_pte, Z.eqb_refl by (done || apply Ht). cbn [andb].
  destruct (Z.eqb_spec w v) as [->|Hne].
  - rewrite pte_of_valid, pte_addr_of by (done || lia). split; [|done]. tauto.
  - split; [|done]. tauto.
Qed.

Lemma new_child_ok : table_ok m2 t.
Proof using All.
  destruct new_t as (_&Htp&_). constructor.
  - apply new_used. right. apply Ht.
  - intros w Hw. pose proof Hw as [Hwr _]. destruct (new_child_table w Hwr) as [Hc ->].
    rewrite new_used. apply Hc in Hw. destruct (Z.eqb_spec w v) as [->|Hne]; [split; [by left|done]|].
    destruct Hw as [?|Hw]; [done|]. destruct (to_child m t Ht w Hw). split; [by right|done].
  - intros w w' Hw Hw'. pose proof Hw as [Hwr _]. pose proof Hw' as [Hwr' _].
    destruct (new_child_table w Hwr) as [Hc ->], (new_child_table w' Hwr') as [Hc' ->].
    apply Hc in Hw. apply Hc' in Hw'.
    assert (Hnp : ∀ u, has_child m t u → child m t u ≠ p).
    { intros u Hu He. apply (fr_free _ _ _ Hf). rewrite <-He. by apply to_child. }
    destruct (Z.eqb_spec w v) as [->|Hne], (Z.eqb_spec w' v) as [->|Hne']; [done| | |].
    + destruct Hw' as [?|Hw']; [done|]. intros He. by destruct (Hnp w' Hw').
    + destruct Hw as [?|Hw]; [done|]. intros He. by destruct (Hnp w Hw).
    + destruct Hw as [?|Hw]; [done|]. destruct Hw' as [?|Hw']; [done|]. by apply (to_inj m t Ht).
Qed.

Lemma new_walk va : 0 ≤ va < 4294967296 → walk m2 t va = walk m t va.
Proof using All.
  intros Hva. pose proof (vpn1_range va ltac:(lia)) as H1. pose proof (vpn0_range va ltac:(lia)) as H0.
  destruct new_p as (Hpu&Hp&Ha). destruct new_t as (Hu&Htp&Hta). unfold walk.
  rewrite new_pte, Z.eqb_refl by (done || apply Ht). cbn [andb].
  destruct (Z.eqb_spec (vpn1 va) v) as [E|Hne].
  - rewrite E, Hnv, pte_of_valid, pte_addr_of by (done || lia).
    replace (pte m2 p (vpn0 va)) with 0; [done|]. unfold m2.
    rewrite set_pte_pte by (done || by apply pte_of_range; lia).
    replace (p =? t) with false by ztest. cbn [andb]. symmetry. apply pte_zero; [|done].
    apply (fr_zero _ _ _ Hf).
  - destruct (is_valid (pte m t (vpn1 va))) eqn:Ev; [|done].
    destruct (to_child m t Ht (vpn1 va)) as [Hc Hct]; [by split|].
    fold (child m t (vpn1 va)). rewrite new_pte by done.
    by replace (child m t (vpn1 va) =? t) with false by ztest.
Qed.

Lemma new_ram x :
  ¬ in_bitmap m x → ¬ (p ≤ x < p + 4096) → ¬ (t ≤ x < t + 4096) → ram m2 x = ram m x.
Proof using All.
  intros Hb Hx Hxt. unfold m2. rewrite set_pte_ram by lia. by apply (fr_other _ _ _ Hf).
Qed.
End new_child.

(** [va] is mapped to the page [pa] with flags [f]: the translation of this page
    changes, and no other; the tables stay well formed; at most one page, the new
    second-level table, is taken from the allocator; only tables are written. *)
Record mapped (t va pa f : Z) (m m' : mem) : Prop := {
  mp_ok : mem_ok m';
  mp_geometry : same_geometry m m';
  mp_table : table_ok m' t;
  mp_walk va' : 0 ≤ va' < 4294967296 →
    walk m' t va' = if va' / 4096 =? va / 4096 then Some (pa, flag_bits f) else walk m t va';
  mp_child w : 0 ≤ w < 1024 → has_child m' t w ↔ w = vpn1 va ∨ has_child m t w;
  mp_old w : has_child m t w → child m' t w = child m t w;
  mp_new : ¬ has_child m t (vpn1 va) → ¬ page_used m (child m' t (vpn1 va));
  mp_used p : page_used m' p ↔
    page_used m p ∨ ¬ has_child m t (vpn1 va) ∧ p = child m' t (vpn1 va);
  mp_ram x : ¬ in_bitmap m x → ¬ (t ≤ x < t + 4096) →
    ¬ (child m' t (vpn1 va) ≤ x < child m' t (vpn1 va) + 4096) → ram m' x = ram m x
}.

Lemma same_geometry_in_bitmap m m' x : same_geometry m m' → in_bitmap m' x ↔ in_bitmap m x.
Proof. intros (G1&_&G3&_). unfold in_bitmap. by rewrite G1, G3. Qed.

(** The last write of [map_page], into a second-level table that is there. *)
Lemma map_leaf m t va pa f :
  mem_ok m → table_ok m t → 0 ≤ va < 4294967296 → va mod 4096 = 0 →
  0 ≤ pa < 4294967296 → pa mod 4096 = 0 → 0 ≤ f < 1024 → has_child m t (vpn1 va) →
  mapped t va pa f m (set_pte m (child m t (vpn1 va)) (vpn0 va) (pte_of pa f)).
Proof.
  intros Hok Ht Hva Hav Hpa Hap Hf Hv.
  pose proof (vpn1_range va ltac:(lia)) as H1. pose proof (vpn0_range va ltac:(lia)) as H0.
  pose proof (pte_of_range pa f Hpa Hf) as Hx. destruct (to_child m t Ht _ Hv) as [Hc Hct].
  constructor.
  - by rewrite <-set_pte_geometry.
  - done.
  - by apply leaf_table_ok.
  - intros va' Hva'. rewrite leaf_walk by done. rewrite pte_of_valid, pte_addr_of, pte_of_flags by done.
    destruct (Z.eqb_spec (va' / 4096) (va / 4096)) as [E|Hne].
    + destruct (vpn_same va' va) as [-> ->]; [lia|lia|done|]. by rewrite !Z.eqb_refl.
    + case_if; [|done]. destruct Hne. apply vpn_page; lia.
  - intros w Hw. destruct (leaf_child m t (vpn1 va) (vpn0 va) (pte_of pa f) Hok Ht Hv H0 Hx w Hw) as [_ ->].
    split; [by right|]. intros [->|?]; done.
  - intros w [Hw _]. by destruct (leaf_child m t (vpn1 va) (vpn0 va) (pte_of pa f) Hok Ht Hv H0 Hx w Hw).
  - done.
  - intros p. rewrite leaf_used by done. tauto.
  - intros x Hb Hxt. destruct (leaf_child m t (vpn1 va) (vpn0 va) (pte_of pa f) Hok Ht Hv H0 Hx _ H1)
      as [-> _]. intros Hxc. by apply set_pte_ram.
Qed.

Lemma map_page_mapped t va pa f m :
  mem_ok m → table_ok m t → 0 ≤ va < 4294967296 → va mod 4096 = 0 →
  0 ≤ pa < 4294967296 → pa mod 4096 = 0 → 0 ≤ f < 1024 →
  match map_page t va pa f m with
  | Some m' => mapped t va pa f m m'
  | None => ¬ has_child m t (vpn1 va) ∧ ∀ j, 0 ≤ j < managed_pages m → bitmap_test m j = true
  end.
Proof.
  intros Hok Ht Hva Hav Hpa Hap Hf. pose proof (vpn1_range va ltac:(lia)) as H1.
  pose proof (vpn0_range va ltac:(lia)) as H0.
  unfold map_page. unfold PAGE_SIZE. rewrite Hav, Hap. cbn [negb Z.eqb].
  destruct (is_valid (pte m t (vpn1 va))) eqn:Ev; [by apply map_leaf|].
  assert (Hnv : ¬ has_child m t (vpn1 va)) by (intros [_ ?]; congruence).
  destruct (page_used_range m t Hok (to_top m t Ht)) as (_&_&Hta&_&Hpages).
  pose proof (alloc_one m Hok Hpages) as Ha.
  destruct (alloc_pages 1 m) as [[p m1]|]; [|by split]. destruct Ha as (Hfr&Hok1&Hp1).
  set (m2 := set_pte m1 t (vpn1 va) (pte_of p 0)).
  pose proof (new_child_table m t (vpn1 va) p m1 Hok Ht H1 Ev Hfr Hok1) as Hct. fold m2 in Hct.
  pose proof (new_used m t (vpn1 va) p m1 Hok Ht H1 Ev Hfr Hok1) as Hu2. fold m2 in Hu2.
  assert (Hg : same_geometry m m2) by exact (fr_geometry _ _ _ Hfr).
  assert (Hv2 : has_child m2 t (vpn1 va)) by (apply Hct; [done|by left]).
  assert (Hok2 : mem_ok m2) by exact (proj1 (mem_ok_proper m1 m2 (set_pte_geometry m1 t _ _)) Hok1).
  assert (Hm : mapped t va pa f m2 (set_pte m2 (child m2 t (vpn1 va)) (vpn0 va) (pte_of pa f))).
  { apply map_leaf; try done. by apply (new_child_ok m t (vpn1 va) p m1). }
  change (pte_addr (pte m2 t (vpn1 va))) with (child m2 t (vpn1 va)).
  set (m3 := set_pte m2 (child m2 t (vpn1 va)) (vpn0 va) (pte_of pa f)) in *. clearbody m3.
  assert (Hc2 : child m2 t (vpn1 va) = p) by (rewrite (proj2 (Hct _ H1)); by rewrite Z.eqb_refl).
  assert (Hc3 : child m3 t (vpn1 va) = p) by (by rewrite (mp_old _ _ _ _ _ _ Hm)).
  constructor.
  - apply Hm.
  - etrans; [exact Hg|apply Hm].
  - apply Hm.
  - intros va' Hva'. rewrite (mp_walk _ _ _ _ _ _ Hm) by done. case_if; [done|].
    by apply (new_walk m t (vpn1 va) p m1).
  - intros w Hw. rewrite (mp_child _ _ _ _ _ _ Hm) by done. destruct (Hct w Hw) as [-> _]. tauto.
  - intros w Hw. pose proof Hw as [Hwr Hwv]. rewrite (mp_old _ _ _ _ _ _ Hm); [|apply Hct; [done|by right]].
    destruct (Hct w Hwr) as [_ ->]. case_if; [|done]. exfalso. assert (w = vpn1 va) as -> by lia. done.
  - intros _. rewrite Hc3. apply (fr_free _ _ _ Hfr).
  - intros q. rewrite (mp_used _ _ _ _ _ _ Hm), Hu2, Hc3. tauto.
  - intros x Hb Hxt. rewrite Hc3. intros Hxp. rewrite (mp_ram _ _ _ _ _ _ Hm).
    + by apply (new_ram m t (vpn1 va) p m1).
    + by rewrite same_geometry_in_bitmap.
    + done.
    + by rewrite Hc3.
Qed.

(** [map_page] on a well-formed table panics only when it needs a second-level table
    and no page is free; otherwise the virtual page, and no other, is translated to
    the given page with the given flags, the table stays well formed, one page at
    most is taken from the allocator, and besides the allocator's bitmap only the
    pages of tables are written. *)
Theorem map_page_translates t va pa f m :
  mem_ok m → table_ok m t → 0 ≤ va < 4294967296 → va mod 4096 = 0 →
  0 ≤ pa < 4294967296 → pa mod 4096 = 0 → 0 ≤ f < 1024 →
  match map_page t va pa f m with
  | Some m' =>
      table_ok m' t ∧ mem_ok m' ∧
      (∀ va', 0 ≤ va' < 4294967296 →
         walk m' t va' = if va' / 4096 =? va / 4096 then Some (pa, Z.lor f PAGE_V) else walk m t va') ∧
      (∀ p, page_used m p → page_used m' p) ∧
      (∀ p q, page_used m' p → ¬ page_used m p → page_used m' q → ¬ page_used m q → p = q) ∧
      (∀ x, ¬ in_bitmap m x → ¬ (t ≤ x < t + 4096) →
         (∀ w, has_child m' t w → ¬ (child m' t w ≤ x < child m' t w + 4096)) → ram m' x = ram m x)
  | None => is_valid (pte m t (vpn1 va)) = false ∧
      ∀ j, 0 ≤ j < managed_pages m → bitmap_test m j = true
  end.
Proof.
  intros Hok Ht Hva Hav Hpa Hap Hf.
  pose proof (map_page_mapped t va pa f m Hok Ht Hva Hav Hpa Hap Hf) as Hm.
  pose proof (vpn1_range va ltac:(lia)) as H1.
  destruct (map_page t va pa f m) as [m'|].
  - destruct Hm as [Hok' Hg Ht' Hw Hc Ho Hn Hu Hr]. split; [done|]. split; [done|]. split; [done|].
    split; [intros p; rewrite Hu; by left|]. split.
    + intros p q Hp Hnp Hq Hnq. apply Hu in Hp as [?|[_ ->]]; [done|]. apply Hu in Hq as [?|[_ ->]]; done.
    + intros x Hb Hxt Hch. apply Hr; [done|done|]. apply Hch, Hc; [done|by left].
  - destruct Hm as [Hnv Hall]. split; [|done]. destruct (is_valid _) eqn:Ev; [|done]. by destruct Hnv.
Qed.

(** ** Freeing *)

Lemma free_one m p :
  mem_ok m → page_used m p →
  ∃ m1, free_pages p 1 m = Some m1 ∧ mem_ok m1 ∧ same_geometry m m1 ∧
    (∀ q, page_used m1 q ↔ page_used m q ∧ q ≠ p) ∧
    (∀ x, ¬ in_bitmap m x → ram m1 x = ram m x).
Proof.
  intros Hok (s&->&Hs&Hb).
  destruct (free_pages_outcome m s 1 Hok) as (m1&Hf&(Hg&Hbits&Hram)); [lia|lia|lia| |].
  { intros j Hj. by replace j with s by lia. }
  exists m1. split; [done|]. split; [by rewrite <-Hg|]. split; [done|]. split.
  - intros q. pose proof Hg as (_&G2&G3&_). split.
    + intros (j&->&Hj&Hbj). rewrite G3 in Hj. rewrite Hbits in Hbj by done. rewrite G2. revert Hbj.
      case_if; [done|]. intros Hbj. split; [by exists j|]. unfold PAGE_SIZE. lia.
    + intros [(j&->&Hj&Hbj) Hne]. exists j. rewrite G2, G3, Hbits by done. split; [done|].
      split; [done|]. case_if; [|done]. destruct Hne. by replace j with s by lia.
  - intros x Hx. apply Hram; [done|lia].
Qed.

(** The address of user page [i]. *)
Definition uva (i : Z) : Z := USER_BASE + i * PAGE_SIZE.

(** An address space of [n] user pages: the tables and the pages are all distinct. *)
Record space_ok (m : mem) (t n : Z) : Prop := {
  so_size : 0 ≤ n ∧ uva n ≤ 4294967296;
  so_table : table_ok m t;
  so_page i : 0 ≤ i < n → ∃ p f, walk m t (uva i) = Some (p, f) ∧ page_used m p ∧ p ≠ t ∧
    ∀ w, has_child m t w → child m t w ≠ p;
  so_inj i j p f g : 0 ≤ i < n → 0 ≤ j < n →
    walk m t (uva i) = Some (p, f) → walk m t (uva j) = Some (p, g) → i = j
}.

(** The bit of a mapping that lets user mode use it. *)
Definition user_bit (f : Z) : bool := Z.testbit f 4.

(** The page at [q] belongs to the address space. *)
Definition owns (m : mem) (t n q : Z) : Prop :=
  q = t ∨ (∃ w, has_child m t w ∧ q = child m t w) ∨
  ∃ i f, 0 ≤ i < n ∧ walk m t (uva i) = Some (q, f).

(** The tables of two memories are the same. *)
Definition same_tables (m m' : mem) (t : Z) : Prop :=
  ∀ w, 0 ≤ w < 1024 → pte m' t w = pte m t w.

Lemma uva_range m t n i : space_ok m t n → 0 ≤ i < n → 0 ≤ uva i < 4294967296.
Proof. intros [[? Hn] _ _ _] Hi. unfold uva, USER_BASE, PAGE_SIZE in *. lia. Qed.

Lemma uva_u32 m t n i :
  space_ok m t n → 0 ≤ i < n → u32 (USER_BASE + u32 (i * PAGE_SIZE)) = uva i.
Proof.
  intros Hs Hi. pose proof (uva_range m t n i Hs Hi). unfold uva, USER_BASE, PAGE_SIZE in *.
  rewrite (u32_small (i * 4096)) by lia. rewrite u32_small; lia.
Qed.

Lemma walk_some m t va p f :
  walk m t va = Some (p, f) →
  is_valid (pte m t (vpn1 va)) = true ∧ is_valid (pte m (child m t (vpn1 va)) (vpn0 va)) = true ∧
  p = pte_addr (pte m (child m t (vpn1 va)) (vpn0 va)).
Proof.
  unfold walk, child. destruct (is_valid (pte m t (vpn1 va))); [|done].
  destruct (is_valid (pte m (pte_addr (pte m t (vpn1 va))) (vpn0 va))); [|done]. by intros [= <- <-].
Qed.

(** The state in the loop over the user pages. *)
Record freed_pages (m : mem) (t n i : Z) (m' : mem) : Prop := {
  fp_ok : mem_ok m';
  fp_geometry : same_geometry m m';
  fp_table : table_ok m' t;
  fp_top : same_tables m m' t;
  fp_walk va : 0 ≤ va < 4294967296 → ¬ (uva 0 ≤ va < uva i) → walk m' t va = walk m t va;
  fp_none va : uva 0 ≤ va < uva i → walk m' t va = None;
  fp_ram x : ¬ in_bitmap m x →
    (∀ w, has_child m t w → ¬ (child m t w ≤ x < child m t w + 4096)) → ram m' x = ram m x;
  fp_used q : page_used m' q ↔
    page_used m q ∧ ¬ ∃ j f, 0 ≤ j < i ∧ walk m t (uva j) = Some (q, f)
}.

Lemma same_tables_child m m' t w :
  same_tables m m' t → 0 ≤ w < 1024 →
  child m' t w = child m t w ∧ (has_child m' t w ↔ has_child m t w).
Proof. intros Hs Hw. unfold child, has_child. by rewrite Hs. Qed.

Lemma table_ok_same m m' t :
  same_tables m m' t → (∀ p, p = t ∨ (∃ w, has_child m t w ∧ p = child m t w) → page_used m' p) →
  table_ok m t → table_ok m' t.
Proof.
  intros Hs Hu Ht. constructor.
  - apply Hu. by left.
  - intros w Hw. pose proof Hw as [Hwr _]. destruct (same_tables_child m m' t w Hs Hwr) as [-> Hc].
    apply Hc in Hw. split; [apply Hu; right; by exists w|]. by apply (to_child m t Ht).
  - intros w v Hw Hv. pose proof Hw as [Hwr _]. pose proof Hv as [Hvr _].
    destruct (same_tables_child m m' t w Hs Hwr) as [-> Hc], (same_tables_child m m' t v Hs Hvr) as [-> Hc'].
    apply (to_inj m t Ht); [by apply Hc|by apply Hc'].
Qed.

Lemma free_user_step m t n i mi :
  space_ok m t n → 0 ≤ i < n → freed_pages m t n i mi →
  ∃ m', free_user_page t i mi = Some m' ∧ freed_pages m t n (i + 1) m'.
Proof.
  intros Hs Hi [Hok Hg Ht Htop Hwalk Hnone Hram Hused]. pose proof (uva_range m t n i Hs Hi) as Hva.
  pose proof (vpn1_range (uva i) ltac:(lia)) as H1. pose proof (vpn0_range (uva i) ltac:(lia)) as H0.
  destruct (so_page m t n Hs i Hi) as (p&f&Hw&Hpu&Hpt&Hpc).
  rewrite <-(Hwalk (uva i)) in Hw by lia. destruct (walk_some _ _ _ _ _ Hw) as (Hv1&Hv0&Hp).
  unfold free_user_page. rewrite (uva_u32 m t n i Hs Hi). cbv zeta. rewrite Hv1. cbn [negb].
  change (pte_addr (pte mi t (vpn1 (uva i)))) with (child mi t (vpn1 (uva i))). rewrite Hv0. cbn [negb].
  rewrite <-Hp.
  assert (Hpi : page_used mi p).
  { apply Hused. split; [done|]. intros (j&g&Hj&Hwj). rewrite Hwalk in Hw by lia.
    assert (i = j) by (by eapply (so_inj m t n Hs); [|lia|..]). lia. }
  destruct (free_one mi p Hok Hpi) as (m1&->&Hok1&Hg1&Hu1&Hr1).
  eexists. split; [done|].
  assert (Hkeep : ∀ q w, page_used mi q → 0 ≤ w < 1024 → pte m1 q w = pte mi q w).
  { intros q w Hq Hwr. apply pte_same; [|done]. intros x Hx. apply Hr1.
    destruct (page_used_range mi q Hok Hq) as (_&_&_&Hb&_). by apply Hb. }
  assert (Ht1s : same_tables mi m1 t) by (intros w Hwr; apply Hkeep; [apply Ht|done]).
  assert (Ht1 : table_ok m1 t).
  { apply (table_ok_same mi m1 t Ht1s); [|done]. intros q Hq. apply Hu1.
    destruct Hq as [->|(w&Hwc&->)].
    - split; [apply Ht|by apply not_eq_sym].
    - split; [by apply (to_child mi t Ht)|]. pose proof Hwc as [Hwr _].
      destruct (same_tables_child m mi t w Htop Hwr) as [-> Hc]. apply Hpc. by apply Hc. }
  destruct (same_tables_child mi m1 t (vpn1 (uva i)) Ht1s H1) as [<- Hc1].
  assert (Hv : has_child m1 t (vpn1 (uva i))) by (apply Hc1; by split).
  assert (Hwalk1 : ∀ va, 0 ≤ va < 4294967296 → walk m1 t va = walk mi t va).
  { intros va Hva'. pose proof (vpn1_range va ltac:(lia)). pose proof (vpn0_range va ltac:(lia)).
    unfold walk. cbv zeta. rewrite !Ht1s by done.
    destruct (is_valid (pte mi t (vpn1 va))) eqn:Ev; [|done].
    rewrite Hkeep; [done| |done]. by apply (to_child mi t Ht). }
  constructor.
  - by rewrite <-set_pte_geometry.
  - etrans; [exact Hg|]. exact Hg1.
  - apply leaf_table_ok; done || lia.
  - intros w Hwr. rewrite leaf_top by (done || lia). rewrite Ht1s by done. by apply Htop.
  - intros va Hva' Hout. rewrite leaf_walk by (done || lia). rewrite Hwalk1 by done.
    rewrite Hwalk by (unfold uva, PAGE_SIZE in *; lia).
    case_if; [|done]. exfalso. assert (va / 4096 = uva i / 4096) as E by (apply vpn_page; lia).
    unfold uva, USER_BASE, PAGE_SIZE in *. zdiv.
  - intros va Hin. assert (0 ≤ va < 4294967296).
    { destruct (so_size m t n Hs) as [_ ?]. unfold uva, USER_BASE, PAGE_SIZE in *. lia. }
    rewrite leaf_walk by (done || lia). rewrite Hwalk1 by done.
    case_if; [done|]. apply Hnone. assert (va / 4096 ≠ uva i / 4096) as E.
    { intros E. assert (vpn1 va = vpn1 (uva i) ∧ vpn0 va = vpn0 (uva i)); [|lia].
      rewrite !vpn1_eq, !vpn0_eq by lia. split; [zdiv|by rewrite E]. }
    unfold uva, USER_BASE, PAGE_SIZE in *. zdiv.
  - intros x Hb Hx.
    assert (Hxc : ¬ (child m1 t (vpn1 (uva i)) ≤ x < child m1 t (vpn1 (uva i)) + 4096)).
    { destruct (same_tables_child m mi t (vpn1 (uva i)) Htop H1) as [E Hc].
      destruct (same_tables_child mi m1 t (vpn1 (uva i)) Ht1s H1) as [E1 _]. rewrite E1, E.
      apply Hx, Hc. by split. }
    rewrite set_pte_ram by (done || lia).
    rewrite Hr1 by by rewrite same_geometry_in_bitmap. by apply Hram.
  - intros q. rewrite leaf_used by (done || lia). rewrite Hu1, Hused. rewrite Hwalk in Hw by lia. split.
    + intros [[Hq Hno] Hqp]. split; [done|]. intros (j&g&Hj&Hwj).
      destruct (decide (j = i)) as [->|]; [congruence|]. apply Hno. exists j, g. split; [lia|done].
    + intros [Hq Hno]. split; [split; [done|]|].
      * intros (j&g&Hj&Hwj). apply Hno. exists j, g. split; [lia|done].
      * intros ->. apply Hno. exists i, f. split; [lia|done].
Qed.

Lemma free_user_pages_ok m t n :
  mem_ok m → space_ok m t n →
  ∃ m', free_user_pages t n m = Some m' ∧ freed_pages m t n n m'.
Proof.
  intros Hok Hs. pose proof (so_size m t n Hs) as [Hn _]. unfold free_user_pages.
  destruct (zfor_opt_total (freed_pages m t n) (Z.to_nat n) 0 (free_user_page t) m) as (m'&Hm'&HP).
  - constructor; [done|done|by apply Hs|done|done|intros va ?; unfold uva in *; lia|done|].
    intros q. split; [|by intros [? _]].
    intros Hq. split; [done|]. intros (j&f&Hj&_). lia.
  - intros j mj Hj HPj. apply free_user_step; [done|lia|done].
  - exists m'. split; [done|]. by replace (0 + Z.of_nat (Z.to_nat n)) with n in HP by lia.
Qed.

(** The state in the loop over the second-level tables. *)
Record freed_tables (m : mem) (t i : Z) (m' : mem) : Prop := {
  ft_ok : mem_ok m';
  ft_geometry : same_geometry m m';
  ft_pte w : i ≤ w < 1024 → pte m' t w = pte m t w;
  ft_ram x : ¬ in_bitmap m x → ¬ (t ≤ x < t + 4096) → ram m' x = ram m x;
  ft_used q : page_used m' q ↔ page_used m q ∧ ¬ ∃ w, w < i ∧ has_child m t w ∧ q = child m t w
}.

Lemma free_table0_step m t i mi :
  table_ok m t → 0 ≤ i < 1024 → freed_tables m t i mi →
  ∃ m', free_table0 t i mi = Some m' ∧ freed_tables m t (i + 1) m'.
Proof.
  intros Ht Hi [Hok Hg Hpte Hram Hused]. unfold free_table0. rewrite Hpte by lia.
  destruct (is_valid (pte m t i)) eqn:Ev; cbn [negb].
  2:{ exists mi. split; [done|]. constructor; [done|done|intros w Hw; apply Hpte; lia|done|].
      intros q. rewrite Hused. split; intros [Hq Hno]; (split; [done|]); intros (w&Hw&Hc&->);
        apply Hno; exists w; (split; [|done]); [|lia].
      destruct (decide (w = i)) as [->|]; [destruct Hc as [_ Hc]; congruence|lia]. }
  fold (child m t i). assert (Hc : has_child m t i) by done.
  destruct (to_child m t Ht i Hc) as [Hcu Hct].
  assert (Hci : page_used mi (child m t i)).
  { apply Hused. split; [done|]. intros (w&Hw&Hcw&E). assert (i = w) by (by apply (to_inj m t Ht)). lia. }
  assert (Hti : page_used mi t).
  { apply Hused. split; [apply Ht|]. intros (w&Hw&Hcw&E). by destruct (to_child m t Ht w Hcw). }
  destruct (free_one mi _ Hok Hci) as (m1&->&Hok1&Hg1&Hu1&Hr1). eexists. split; [done|].
  assert (Ht1 : page_used m1 t) by (apply Hu1; split; [done|by apply not_eq_sym]).
  destruct (page_used_range mi t Hok Hti) as (_&_&Hta&Hb&_).
  constructor.
  - by rewrite <-set_pte_geometry.
  - etrans; [exact Hg|]. exact Hg1.
  - intros w Hw. rewrite set_pte_pte by (done || lia). replace (w =? i) with false by ztest.
    rewrite andb_false_r. rewrite <-Hpte by lia. apply pte_same; [|lia]. intros x Hx. apply Hr1. by apply Hb.
  - intros x Hxb Hxt. rewrite set_pte_ram by done. rewrite Hr1 by by rewrite same_geometry_in_bitmap.
    by apply Hram.
  - intros q. rewrite (page_used_geometry m1 (set_pte m1 t i 0)).
    2:{ done. } 2:{ intros j Hj. apply set_pte_bit; done || lia. }
    rewrite Hu1, Hused. split.
    + intros [[Hq Hno] Hne]. split; [done|]. intros (w&Hw&Hcw&->).
      destruct (decide (w = i)) as [->|]; [done|]. apply Hno. exists w. split; [lia|done].
    + intros [Hq Hno]. split; [split; [done|]|].
      * intros (w&Hw&Hcw&->). apply Hno. exists w. split; [lia|done].
      * intros ->. apply Hno. exists i. split; [lia|done].
Qed.

(** Freeing a well-formed address space does not panic, keeps the allocator well
    formed, frees exactly the pages of the address space (its user pages, its
    second-level tables and its top-level table) and leaves the bytes of the pages
    that stay in use. *)
Lemma free_address_space_ok m t n :
  mem_ok m → space_ok m t n →
  ∃ m', free_address_space t n m = Some m' ∧ mem_ok m' ∧ same_geometry m m' ∧
    (∀ q, page_used m' q ↔ page_used m q ∧ ¬ owns m t n q) ∧
    (∀ q x, page_used m' q → q ≤ x < q + 4096 → ram m' x = ram m x).
Proof.
  intros Hok Hs. unfold free_address_space.
  destruct (free_user_pages_ok m t n Hok Hs) as (m1&->&[Hok1 Hg1 Ht1 Htop1 _ _ Hr1 Hu1]).
  destruct (zfor_opt_total (freed_tables m1 t) 1024 0 (free_table0 t) m1) as (m2&Hm2&HP).
  { constructor; [done|done|done|done|]. intros q. split; [|by intros [? _]]. intros Hq. split; [done|].
    intros (w&Hw&[? _]&_). lia. }
  { intros j mj Hj HPj. apply free_table0_step; [done|lia|done]. }
  rewrite Hm2. destruct HP as [Hok2 Hg2 _ Hr2 Hu2].
  assert (Ht2 : page_used m2 t).
  { apply Hu2. split; [apply Ht1|]. intros (w&_&Hw&E). by destruct (to_child m1 t Ht1 w Hw). }
  destruct (free_one m2 t Hok2 Ht2) as (m3&Hf&Hok3&Hg3&Hu3&Hr3). exists m3.
  assert (Hg : same_geometry m m3) by (by do 2 (etrans; [done|])).
  split; [exact Hf|]. split; [done|]. split; [done|].
  assert (Hu : ∀ q, page_used m3 q ↔ page_used m q ∧ ¬ owns m t n q).
  { intros q. rewrite Hu3, Hu2, Hu1. unfold owns.
    assert (Hch : (∃ w, w < 0 + Z.of_nat 1024 ∧ has_child m1 t w ∧ q = child m1 t w) ↔
                  ∃ w, has_child m t w ∧ q = child m t w).
    { split.
      - intros (w&_&Hw&->). exists w. pose proof Hw as [Hwr _].
        destruct (same_tables_child m m1 t w Htop1 Hwr) as [-> Hc]. by rewrite <-Hc.
      - intros (w&Hw&->). exists w. pose proof Hw as [Hwr _].
        destruct (same_tables_child m m1 t w Htop1 Hwr) as [-> Hc]. split; [lia|]. by rewrite Hc. }
    rewrite Hch. tauto. }
  split; [exact Hu|]. intros q x [Hq Hno]%Hu Hx.
  destruct (page_used_range m q Hok Hq) as (_&_&Hqa&Hqb&_). specialize (Hqb x Hx).
  assert (Hout : ∀ r, owns m t n r → page_used m r → ¬ (r ≤ x < r + 4096)).
  { intros r Hr Hru Hxr. destruct (page_used_range m r Hok Hru) as (_&_&Hra&_).
    apply Hno. by replace q with r by zdiv. }
  assert (Hb1 : ¬ in_bitmap m1 x) by (by rewrite (same_geometry_in_bitmap m m1)).
  assert (Hb2 : ¬ in_bitmap m2 x) by (by rewrite (same_geometry_in_bitmap m1 m2)).
  rewrite (Hr3 x Hb2), Hr2, Hr1; try done.
  - intros w Hw. apply Hout; [by right; left; exists w|]. by apply (to_child m t (so_table _ _ _ Hs)).
  - apply Hout; [by left|]. apply (so_table _ _ _ Hs).
Qed.
