(* ===== verification/AddressSpace.v ===== *)
(** * Address spaces: making and copying them

    A new address space ([create_process], [process_fork]): its tables and pages are
    fresh, its user pages hold the image or the parent's pages, every other page in
    use keeps its contents; it is made whenever there are enough free pages; and
    freeing it gives the allocator back what it had. *)
From Stdlib Require Import ZArith Lia ZifyBool.
From stdpp Require Import base tactics list numbers option.
From S2P Require Import Prelude Memory PageTable PageTableSpec.
#[local] Open Scope Z_scope.

(** ** Frames *)

(** [q] is a table of [t]. *)
Definition is_table (m : mem) (t q : Z) : Prop := q = t ∨ ∃ w, has_child m t w ∧ q = child m t w.

Lemma table_used m t q : table_ok m t → is_table m t q → page_used m q.
Proof. intros Ht [->|(w&Hw&->)]; [apply Ht|by apply to_child]. Qed.

(** Memories that agree on the tables of [t]. *)
Definition tables_kept (m m' : mem) (t : Z) : Prop :=
  ∀ q w, is_table m t q → 0 ≤ w < 1024 → pte m' q w = pte m q w.

Lemma kept_top m m' t : tables_kept m m' t → same_tables m m' t.
Proof. intros Hk w Hw. apply Hk; [by left|done]. Qed.

Lemma kept_walk m m' t va :
  tables_kept m m' t → 0 ≤ va < 4294967296 → walk m' t va = walk m t va.
Proof.
  intros Hk Hva. pose proof (vpn1_range va ltac:(lia)). pose proof (vpn0_range va ltac:(lia)).
  unfold walk. cbv zeta. rewrite !(kept_top _ _ _ Hk) by done.
  destruct (is_valid (pte m t (vpn1 va))) eqn:Ev; [|done].
  rewrite (Hk (pte_addr (pte m t (vpn1 va))) (vpn0 va)); [done| |done].
  right. by exists (vpn1 va).
Qed.

Lemma kept_is_table m m' t q : tables_kept m m' t → is_table m' t q ↔ is_table m t q.
Proof.
  intros Hk. unfold is_table.
  split; (intros [->|(w&Hw&->)]; [by left|right]); exists w; pose proof Hw as [Hwr _];
    destruct (same_tables_child m m' t w (kept_top _ _ _ Hk) Hwr) as [-> Hc]; by rewrite Hc in *.
Qed.

Lemma kept_owns m m' t n q :
  tables_kept m m' t → uva n ≤ 4294967296 → owns m' t n q ↔ owns m t n q.
Proof.
  intros Hk Hn.
  assert (Hw : ∀ i, 0 ≤ i < n → walk m' t (uva i) = walk m t (uva i)).
  { intros i Hi. apply kept_walk; [done|]. unfold uva, USER_BASE, PAGE_SIZE in *. lia. }
  pose proof (kept_is_table m m' t q Hk) as Hi. unfold is_table in Hi. unfold owns.
  assert ((∃ i f, 0 ≤ i < n ∧ walk m' t (uva i) = Some (q, f)) ↔
          ∃ i f, 0 ≤ i < n ∧ walk m t (uva i) = Some (q, f)).
  { split; intros (i&f&Hin&Hwi); exists i, f; [rewrite <-Hw by done|rewrite Hw by done]; done. }
  tauto.
Qed.

(** The space is the same in a memory that keeps its tables and its pages in use. *)
Lemma kept_space_owned m m' t n :
  tables_kept m m' t → (∀ q, owns m t n q → page_used m' q) → space_ok m t n → space_ok m' t n.
Proof.
  intros Hk Hu [Hsz Ht Hp Hi].
  assert (Hw : ∀ i, 0 ≤ i < n → walk m' t (uva i) = walk m t (uva i)).
  { intros i Hin. apply kept_walk; [done|]. unfold uva, USER_BASE, PAGE_SIZE in *. lia. }
  constructor; [done| | |].
  - apply (table_ok_same m m' t (kept_top _ _ _ Hk)); [|done]. intros q Hq. apply Hu.
    destruct Hq as [?|?]; [by left|by right; left].
  - intros i Hin. rewrite Hw by done. destruct (Hp i Hin) as (p&f&Hwi&?&?&Hc). exists p, f.
    split; [done|]. split; [apply Hu; right; right; by exists i, f|]. split; [done|].
    intros w Hwc. pose proof Hwc as [Hwr _].
    destruct (same_tables_child m m' t w (kept_top _ _ _ Hk) Hwr) as [-> Hcc]. apply Hc. by apply Hcc.
  - intros i j p f g Hin Hjn. rewrite !Hw by done. by apply Hi.
Qed.

Lemma owns_used m t n q : space_ok m t n → owns m t n q → page_used m q.
Proof.
  intros Hs [->|[(w&Hw&->)|(i&f&Hi&Hw)]].
  - apply (so_table _ _ _ Hs).
  - by apply (to_child _ _ (so_table _ _ _ Hs)).
  - destruct (so_page _ _ _ Hs i Hi) as (p&g&Hw'&Hp&_). by simplify_eq.
Qed.

Lemma kept_space m m' t n :
  tables_kept m m' t → (∀ q, page_used m q → page_used m' q) → space_ok m t n → space_ok m' t n.
Proof.
  intros Hk Hu Hs. apply (kept_space_owned m); [done| |done]. intros q Hq. by eapply Hu, owns_used.
Qed.

(** Pages that are in use are not those the change is about. *)
Lemma ram_tables_kept m m' t :
  mem_ok m → table_ok m t →
  (∀ q x, page_used m q → q ≤ x < q + 4096 → ram m' x = ram m x) → tables_kept m m' t.
Proof.
  intros Hok Ht Hr q w Hq Hw. apply pte_same; [|done]. intros x Hx. apply (Hr q); [|done].
  by apply (table_used m t).
Qed.

(** ** One mapping *)

Section mapping.
Context (t va pa f : Z) (m m' : mem).
Context (Hok : mem_ok m) (Ht : table_ok m t) (Hva : 0 ≤ va < 4294967296).
Context (Hm : mapped t va pa f m m').

Lemma map_is_table q :
  is_table m' t q ↔ is_table m t q ∨ ¬ has_child m t (vpn1 va) ∧ q = child m' t (vpn1 va).
Proof using All.
  pose proof (vpn1_range va ltac:(lia)) as H1. unfold is_table. split.
  - intros [?|(w&Hw&->)]; [by left; left|]. pose proof Hw as [Hwr _].
    destruct (decide (is_valid (pte m t w) = true)) as [Hv|Hv].
    + left; right. exists w. assert (has_child m t w) by done. split; [done|]. by apply (mp_old _ _ _ _ _ _ Hm).
    + right. apply (mp_child _ _ _ _ _ _ Hm w Hwr) in Hw as [->|[_ ?]]; [|done].
      split; [|done]. by intros [_ ?].
  - intros [[?|(w&Hw&->)]|[_ ->]]; [by left| |].
    + right. exists w. pose proof Hw as [Hwr _]. rewrite (mp_old _ _ _ _ _ _ Hm) by done.
      split; [|done]. apply (mp_child _ _ _ _ _ _ Hm w Hwr). by right.
    + right. exists (vpn1 va). split; [|done]. apply (mp_child _ _ _ _ _ _ Hm _ H1). by left.
Qed.

(** A page in use that is no table stays no table, and keeps its bytes. *)
Lemma map_page_kept q :
  page_used m q → ¬ is_table m t q →
  ¬ is_table m' t q ∧ ∀ x, q ≤ x < q + 4096 → ram m' x = ram m x.
Proof using All.
  intros Hq Hnt. assert (Hnt' : ¬ is_table m' t q).
  { rewrite map_is_table. intros [?|[Hnc ->]]; [done|]. by apply (mp_new _ _ _ _ _ _ Hm Hnc). }
  split; [done|]. intros x Hx. destruct (page_used_range m q Hok Hq) as (_&_&Hqa&Hb&_).
  pose proof (vpn1_range va ltac:(lia)) as H1.
  assert (Hch : has_child m' t (vpn1 va)) by (apply (mp_child _ _ _ _ _ _ Hm _ H1); by left).
  destruct (page_used_range m t Hok (to_top m t Ht)) as (_&_&Hta&_).
  destruct (to_child _ _ (mp_table _ _ _ _ _ _ Hm) _ Hch) as [Hcu _].
  destruct (page_used_range m' _ (mp_ok _ _ _ _ _ _ Hm) Hcu) as (_&_&Hca&_).
  apply (mp_ram _ _ _ _ _ _ Hm); [by apply Hb| |].
  - intros Hxt. apply Hnt. left. zdiv.
  - intros Hxc. apply Hnt'. right. exists (vpn1 va). split; [done|]. zdiv.
Qed.

Lemma map_owns n q :
  uva n ≤ 4294967296 → (∀ i, 0 ≤ i < n → uva i / 4096 ≠ va / 4096) →
  owns m' t n q ↔ owns m t n q ∨ ¬ has_child m t (vpn1 va) ∧ q = child m' t (vpn1 va).
Proof using All.
  intros Hn Hne. pose proof (map_is_table q) as Hi. unfold is_table in Hi.
  assert (Hw : ∀ i, 0 ≤ i < n → walk m' t (uva i) = walk m t (uva i)).
  { intros i Hi'. rewrite (mp_walk _ _ _ _ _ _ Hm)
      by (unfold uva, USER_BASE, PAGE_SIZE in *; lia).
    specialize (Hne i Hi'). by replace (uva i / 4096 =? va / 4096) with false by ztest. }
  assert ((∃ i f, 0 ≤ i < n ∧ walk m' t (uva i) = Some (q, f)) ↔
          ∃ i f, 0 ≤ i < n ∧ walk m t (uva i) = Some (q, f)).
  { split; intros (i&g&Hin&Hwi); exists i, g; [rewrite <-Hw by done|rewrite Hw by done]; done. }
  unfold owns. tauto.
Qed.

(** The space [t], when the mapping is not one of its user pages. *)
Lemma map_space n :
  space_ok m t n → (∀ i, 0 ≤ i < n → uva i / 4096 ≠ va / 4096) → space_ok m' t n.
Proof using All.
  intros [Hsz Ht' Hp Hi] Hne.
  assert (Hw : ∀ i, 0 ≤ i < n → walk m' t (uva i) = walk m t (uva i)).
  { intros i Hi'. rewrite (mp_walk _ _ _ _ _ _ Hm)
      by (unfold uva, USER_BASE, PAGE_SIZE in *; lia).
    specialize (Hne i Hi'). by replace (uva i / 4096 =? va / 4096) with false by ztest. }
  constructor; [done|apply (mp_table _ _ _ _ _ _ Hm)| |].
  - intros i Hin. rewrite Hw by done. destruct (Hp i Hin) as (p&g&?&Hu&Hpt&Hpc). exists p, g.
    split; [done|]. split; [apply (mp_used _ _ _ _ _ _ Hm); by left|]. split; [done|].
    destruct (map_page_kept p Hu) as [Hnt _].
    { intros [?|(w&Hwc&->)]; [done|]. by apply (Hpc w). }
    intros w Hwc E. apply Hnt. right. by exists w.
  - intros i j p g g' Hin Hjn. rewrite !Hw by done. by apply Hi.
Qed.
End mapping.

(** ** A space under construction

    From [m], the space [t] with [n] user pages in [m']: page [i] has flags [flags i]
    and holds the bytes [data i].  [pending] is a page that is allocated and not yet
    mapped. *)
(** What user mode can use lies within the [n] user pages. *)
Definition user_confined (m : mem) (t n : Z) : Prop :=
  ∀ va p f, 0 ≤ va < 4294967296 → walk m t va = Some (p, f) → user_bit f = true →
    uva 0 ≤ va < uva n.

(** Mappings for the kernel only, outside the user pages, and mappings of user pages. *)
Lemma confined_map t va pa f m m' n n' :
  user_confined m t n → n ≤ n' → mapped t va pa f m m' →
  user_bit (flag_bits f) = false ∨ (∀ va', va' / 4096 = va / 4096 → uva 0 ≤ va' < uva n') →
  user_confined m' t n'.
Proof.
  intros Hc Hn Hm Hf va' p g Hva' Hw Hu. rewrite (mp_walk _ _ _ _ _ _ Hm) in Hw by done.
  destruct (Z.eqb_spec (va' / 4096) (va / 4096)) as [E|].
  - simplify_eq. destruct Hf as [?|Hf]; [congruence|by apply Hf].
  - pose proof (Hc va' p g Hva' Hw Hu). unfold uva, PAGE_SIZE in *. lia.
Qed.

Lemma confined_kept m m' t n : tables_kept m m' t → user_confined m t n → user_confined m' t n.
Proof. intros Hk Hc va p f Hva Hw. rewrite (kept_walk _ _ _ _ Hk) in Hw by done. by apply (Hc va p f). Qed.

Section building.
Context (data : Z → Z → Z) (flags : Z → Z).

Record building (m : mem) (t n : Z) (pending : option Z) (m' : mem) : Prop := {
  bd_ok : mem_ok m';
  bd_geometry : same_geometry m m';
  bd_space : space_ok m' t n;
  bd_size : uva n ≤ MMIO_BASE;
  bd_used q : page_used m' q ↔ page_used m q ∨ owns m' t n q ∨ pending = Some q;
  bd_fresh q : owns m' t n q ∨ pending = Some q → ¬ page_used m q;
  bd_pending q : pending = Some q → ¬ owns m' t n q;
  bd_ram q x : page_used m q → q ≤ x < q + 4096 → ram m' x = ram m x;
  bd_data i p f : 0 ≤ i < n → walk m' t (uva i) = Some (p, f) →
    f = flags i ∧ ∀ k, 0 ≤ k < 4096 → ram m' (p + k) = data i k;
  bd_none i : n ≤ i → uva i < MMIO_BASE → walk m' t (uva i) = None;
  bd_user : user_confined m' t n
}.

(** The top-level table is allocated. *)
Lemma building_start m t m1 :
  mem_ok m → fresh m t m1 → mem_ok m1 → page_used m1 t → building m t 0 None m1.
Proof.
  intros Hok Hf Hok1 Ht.
  destruct (page_used_range m1 t Hok1 Ht) as (_&_&Hta&_).
  assert (Hz : ∀ w, 0 ≤ w < 1024 → pte m1 t w = 0).
  { intros w Hw. apply pte_zero; [|done]. intros x Hx. by apply (fr_zero _ _ _ Hf). }
  assert (Hnc : ∀ w, ¬ has_child m1 t w) by (intros w [Hw Hv]; by rewrite Hz in Hv).
  assert (Ho : ∀ q, owns m1 t 0 q ↔ q = t).
  { intros q. split; [|by left]. intros [?|[(w&Hw&_)|(i&f&?&_)]]; [done|by destruct (Hnc w)|lia]. }
  constructor; try done.
  - apply (fr_geometry _ _ _ Hf).
  - constructor; [done| |lia|lia]. constructor; [done| |]; intros w; intros; by destruct (Hnc w).
  - intros q. rewrite (fr_used _ _ _ Hf q), Ho. split; [tauto|]. intros [?|[?|?]]; [tauto|tauto|done].
  - intros q [Hq|?]; [|done]. apply Ho in Hq as ->. apply (fr_free _ _ _ Hf).
  - intros q x Hq Hx. destruct (page_used_range m q Hok Hq) as (_&_&Hqa&Hb&_).
    apply (fr_other _ _ _ Hf); [by apply Hb|]. intros Hxt.
    assert (q = t) as -> by zdiv. by apply (fr_free _ _ _ Hf).
  - lia.
  - intros i Hi0 Hi. assert (0 ≤ uva i) by (unfold uva, USER_BASE, PAGE_SIZE; lia).
    pose proof (vpn1_range (uva i) ltac:(lia)). unfold walk. by rewrite Hz by done.
  - intros va p f Hva. pose proof (vpn1_range va ltac:(lia)). unfold walk. by rewrite Hz by done.
Qed.

(** A mapping outside the user pages. *)
Lemma building_map m t n pending va pa f m1 m2 :
  building m t n pending m1 → 0 ≤ va < 4294967296 → va mod 4096 = 0 →
  va < USER_BASE ∨ MMIO_BASE ≤ va → user_bit (flag_bits f) = false → mapped t va pa f m1 m2 →
  building m t n pending m2.
Proof.
  intros [Hok Hg Hs Hsz Hu Hf Hp Hr Hd Hn Hus] Hva Hal Hout Hub Hm. pose proof (so_table _ _ _ Hs) as Ht.
  assert (Hne : ∀ i, 0 ≤ i → uva i < MMIO_BASE → uva i / 4096 ≠ va / 4096).
  { intros i Hi0 Hi. unfold uva, USER_BASE, MMIO_BASE, PAGE_SIZE in *. zdiv. }
  assert (Hne' : ∀ i, 0 ≤ i < n → uva i / 4096 ≠ va / 4096).
  { intros i Hi. apply Hne; [lia|]. unfold uva, USER_BASE, MMIO_BASE, PAGE_SIZE in *. lia. }
  assert (Hn4 : uva n ≤ 4294967296) by (unfold MMIO_BASE in *; lia).
  pose proof (map_owns t va pa f m1 m2 Hok Ht Hva Hm n) as Ho.
  assert (Hnew : ∀ q, ¬ has_child m1 t (vpn1 va) ∧ q = child m2 t (vpn1 va) → ¬ page_used m1 q).
  { intros q [Hnc ->]. by apply (mp_new _ _ _ _ _ _ Hm). }
  constructor.
  - apply Hm.
  - etrans; [done|apply Hm].
  - by apply (map_space t va pa f m1 m2).
  - done.
  - intros q. rewrite (mp_used _ _ _ _ _ _ Hm), Hu, Ho by done. tauto.
  - intros q [Hq|Hq]; [|by apply Hf; right]. apply Ho in Hq as [Hq|Hq]; [by apply Hf; left| |done|done].
    intros Hqm. apply (Hnew q Hq). apply Hu. by left.
  - intros q Hq. rewrite Ho by done. intros [?|Hc]; [by apply (Hp q)|].
    apply (Hnew q Hc). apply Hu. by right; right.
  - intros q x Hq Hx. rewrite <-(Hr q x Hq Hx).
    assert (Hq1 : page_used m1 q) by (apply Hu; by left).
    apply (map_page_kept t va pa f m1 m2 Hok Ht Hva Hm q Hq1); [|done].
    intros Hnt. apply (Hf q); [left|done]. destruct Hnt as [?|?]; [by left|by right; left].
  - intros i p g Hi. rewrite (mp_walk _ _ _ _ _ _ Hm)
      by (unfold uva, USER_BASE, PAGE_SIZE in *; lia).
    specialize (Hne' i Hi). replace (uva i / 4096 =? va / 4096) with false by ztest. intros Hw.
    destruct (Hd i p g Hi Hw) as [-> Hb]. split; [done|]. intros k Hk. rewrite <-(Hb k Hk).
    destruct (so_page _ _ _ Hs i Hi) as (p'&g'&Hw'&Hpu&Hpt&Hpc). simplify_eq.
    apply (map_page_kept t va pa f m1 m2 Hok Ht Hva Hm p Hpu); [|lia].
    intros [?|(w&Hwc&->)]; [done|]. by apply (Hpc w).
  - intros i Hi Him. pose proof (so_size _ _ _ Hs) as [Hn0 _].
    rewrite (mp_walk _ _ _ _ _ _ Hm) by (unfold uva, USER_BASE, PAGE_SIZE, MMIO_BASE in *; lia).
    specialize (Hne i ltac:(lia) Him).
    replace (uva i / 4096 =? va / 4096) with false by ztest. by apply Hn.
  - eapply confined_map; [exact Hus|done|exact Hm|by left].
Qed.

(** A fresh page, filled. *)
Lemma building_alloc m t n p m1 m2 r :
  building m t n None m1 → fresh m1 p m2 → mem_ok m2 → page_used m2 p →
  (∀ x, ¬ (p ≤ x < p + 4096) → r x = ram m2 x) → building m t n (Some p) (set_ram m2 r).
Proof.
  intros [Hok Hg Hs Hsz Hu Hf Hp Hr Hd Hn Hus] Hfr Hok2 Hpu Hrr. pose proof (so_table _ _ _ Hs) as Ht.
  assert (Hn4 : uva n ≤ 4294967296) by (unfold MMIO_BASE in *; lia).
  destruct (page_used_range m2 p Hok2 Hpu) as (_&_&Hpa&Hpb&_).
  assert (Hu3 : ∀ q, page_used (set_ram m2 r) q ↔ q = p ∨ page_used m1 q).
  { intros q. rewrite <-(fr_used _ _ _ Hfr q). apply page_used_geometry; [done|]. intros j Hj.
    apply bitmap_test_set_ram; [done|]. intros x Hx. apply Hrr. intros Hxp. by apply (Hpb x). }
  assert (Hram : ∀ q x, page_used m1 q → q ≤ x < q + 4096 → ram (set_ram m2 r) x = ram m1 x).
  { intros q x Hq Hx. destruct (page_used_range m1 q Hok Hq) as (_&_&Hqa&Hqb&_).
    assert (Hxp : ¬ (p ≤ x < p + 4096)).
    { intros Hxp. assert (q = p) as -> by zdiv. by apply (fr_free _ _ _ Hfr). }
    cbn [ram set_ram]. rewrite Hrr by done. apply (fr_other _ _ _ Hfr); [by apply Hqb|done]. }
  pose proof (ram_tables_kept m1 (set_ram m2 r) t Hok Ht Hram) as Hk.
  assert (Ho : ∀ q, owns (set_ram m2 r) t n q ↔ owns m1 t n q) by (intros; by apply kept_owns).
  assert (Hwk : ∀ i, 0 ≤ i → uva i < MMIO_BASE → walk (set_ram m2 r) t (uva i) = walk m1 t (uva i)).
  { intros i Hi0 Hi. apply kept_walk; [done|]. unfold uva, USER_BASE, PAGE_SIZE, MMIO_BASE in *. lia. }
  assert (Hin : ∀ i, 0 ≤ i < n → uva i < MMIO_BASE)
    by (intros i Hi; unfold uva, PAGE_SIZE in *; lia).
  constructor.
  - by destruct Hok2; constructor.
  - etrans; [exact Hg|]. exact (fr_geometry _ _ _ Hfr).
  - apply (kept_space m1); [done| |done]. intros q Hq. apply Hu3. by right.
  - done.
  - intros q. rewrite Hu3, Hu, Ho. split; [intros [->|[?|[?|?]]]; auto; done|].
    intros [?|[?|[= ->]]]; auto.
  - intros q [Hq|[= <-]].
    + apply Ho in Hq. apply Hf. by left.
    + intros Hq. apply (fr_free _ _ _ Hfr). apply Hu. by left.
  - intros q [= <-]. rewrite Ho. intros Hq. apply (fr_free _ _ _ Hfr). apply Hu. by right; left.
  - intros q x Hq Hx. rewrite <-(Hr q x Hq Hx). apply (Hram q x); [apply Hu; by left|done].
  - intros i q g Hi. rewrite Hwk by (lia || by apply Hin). intros Hw.
    destruct (Hd i q g Hi Hw) as [-> Hb]. split; [done|]. intros k Hk'. rewrite <-(Hb k Hk').
    destruct (so_page _ _ _ Hs i Hi) as (q'&g'&Hw'&Hqu&_). simplify_eq. apply (Hram q); [done|lia].
  - intros i Hi Hm. destruct (so_size _ _ _ Hs) as [Hn0 _]. rewrite Hwk by (lia || done). by apply Hn.
  - by apply (confined_kept m1).
Qed.

(** The page becomes user page [n]. *)
Lemma building_add m t n p f m1 m2 :
  building m t n (Some p) m1 → uva (n + 1) ≤ MMIO_BASE → flags n = flag_bits f →
  (∀ k, 0 ≤ k < 4096 → ram m1 (p + k) = data n k) → mapped t (uva n) p f m1 m2 →
  building m t (n + 1) None m2.
Proof.
  intros [Hok Hg Hs Hsz Hu Hf Hp Hr Hd Hn Hus] Hsz' Hfl Hdat Hm. pose proof (so_table _ _ _ Hs) as Ht.
  destruct (so_size _ _ _ Hs) as [Hn0 _].
  assert (Hva : 0 ≤ uva n < 4294967296) by (unfold uva, USER_BASE, PAGE_SIZE, MMIO_BASE in *; lia).
  assert (Hne : ∀ i, 0 ≤ i → i ≠ n → uva i / 4096 ≠ uva n / 4096).
  { intros i Hi0 Hi. unfold uva, USER_BASE, PAGE_SIZE in *. zdiv. }
  assert (Hn4 : uva n ≤ 4294967296) by lia.
  assert (Hne' : ∀ i, 0 ≤ i < n → uva i / 4096 ≠ uva n / 4096) by (intros; apply Hne; lia).
  pose proof (map_owns t (uva n) p f m1 m2 Hok Ht Hva Hm n) as Ho.
  pose proof (map_space t (uva n) p f m1 m2 Hok Ht Hva Hm n Hs Hne') as Hs2.
  assert (Hpu : page_used m1 p) by (apply Hu; by right; right).
  assert (Hpt : ¬ is_table m1 t p).
  { intros Hq. apply (Hp p); [done|]. destruct Hq as [?|?]; [by left|by right; left]. }
  destruct (map_page_kept t (uva n) p f m1 m2 Hok Ht Hva Hm p Hpu Hpt) as [Hpt2 Hpr].
  assert (Hnew : ∀ q, ¬ has_child m1 t (vpn1 (uva n)) ∧ q = child m2 t (vpn1 (uva n)) → ¬ page_used m1 q).
  { intros q [Hnc ->]. by apply (mp_new _ _ _ _ _ _ Hm). }
  assert (Hwn : walk m2 t (uva n) = Some (p, flag_bits f)).
  { rewrite (mp_walk _ _ _ _ _ _ Hm) by done. by rewrite Z.eqb_refl. }
  assert (Hw : ∀ i, 0 ≤ i → uva i < MMIO_BASE → i ≠ n → walk m2 t (uva i) = walk m1 t (uva i)).
  { intros i Hi0 Him Hi. rewrite (mp_walk _ _ _ _ _ _ Hm)
      by (unfold uva, USER_BASE, PAGE_SIZE, MMIO_BASE in *; lia).
    specialize (Hne i Hi0 Hi). by replace (uva i / 4096 =? uva n / 4096) with false by ztest. }
  assert (Hin : ∀ i, 0 ≤ i < n + 1 → uva i < MMIO_BASE)
    by (intros i Hi; unfold uva, PAGE_SIZE in *; lia).
  assert (Ho1 : ∀ q, owns m2 t (n + 1) q ↔ owns m2 t n q ∨ q = p).
  { intros q. unfold owns. split.
    - intros [?|[?|(i&g&Hi&Hwi)]]; [by left; left|by left; right; left|].
      destruct (decide (i = n)) as [->|]; [right; congruence|]. left; right; right. exists i, g.
      split; [lia|done].
    - intros [[?|[?|(i&g&Hi&Hwi)]]| ->]; [by left|by right; left| |]; right; right.
      + exists i, g. split; [lia|done].
      + exists n, (flag_bits f). split; [lia|done]. }
  assert (Hnop : ¬ owns m2 t n p).
  { rewrite Ho by done. intros [?|Hc]; [by apply (Hp p)|by apply (Hnew p Hc)]. }
  constructor.
  - apply Hm.
  - etrans; [done|apply Hm].
  - constructor; [unfold MMIO_BASE in *; lia|apply Hm| |].
    + intros i Hi. destruct (decide (i = n)) as [->|].
      * exists p, (flag_bits f). split; [done|]. split; [apply (mp_used _ _ _ _ _ _ Hm); by left|].
        split; [intros ->; apply Hpt2; by left|]. intros w Hwc E. apply Hpt2. right. by exists w.
      * apply (so_page _ _ _ Hs2). lia.
    + intros i j q g g' Hi Hj Hwi Hwj.
      assert (Hx : ∀ l h, 0 ≤ l < n → walk m2 t (uva l) ≠ Some (p, h)).
      { intros l h Hl Hwl. apply Hnop. right; right. by exists l, h. }
      destruct (decide (i = n)) as [->|], (decide (j = n)) as [->|]; [done| | |].
      * rewrite Hwn in Hwi. simplify_eq. by destruct (Hx j g'); [lia|].
      * rewrite Hwn in Hwj. simplify_eq. by destruct (Hx i g); [lia|].
      * eapply (so_inj _ _ _ Hs2); [lia|lia|done|done].
  - done.
  - intros q. rewrite (mp_used _ _ _ _ _ _ Hm), Hu, Ho1, Ho by done. split.
    + intros [[?|[?|[= ->]]]|?]; tauto.
    + intros [?|[[[?|?]| ->]|?]]; tauto || auto. done.
  - intros q [Hq|?]; [|done]. apply Ho1 in Hq as [Hq| ->]; [|apply Hf; by right].
    apply Ho in Hq as [Hq|Hq]; [apply Hf; by left| |done|done].
    intros Hqm. apply (Hnew q Hq). apply Hu. by left.
  - done.
  - intros q x Hq Hx. rewrite <-(Hr q x Hq Hx).
    assert (Hq1 : page_used m1 q) by (apply Hu; by left).
    apply (map_page_kept t (uva n) p f m1 m2 Hok Ht Hva Hm q Hq1); [|done].
    intros Hnt. apply (Hf q); [left|done]. destruct Hnt as [?|?]; [by left|by right; left].
  - intros i q g Hi Hwi. destruct (decide (i = n)) as [->|Hi'].
    + rewrite Hwn in Hwi. simplify_eq. split; [done|]. intros k Hk. rewrite <-Hdat by done.
      apply Hpr. lia.
    + rewrite Hw in Hwi by (lia || by apply Hin). destruct (Hd i q g ltac:(lia) Hwi) as [-> Hb].
      split; [done|]. intros k Hk. rewrite <-(Hb k Hk).
      destruct (so_page _ _ _ Hs i ltac:(lia)) as (q'&g'&Hw'&Hqu&Hqt&Hqc). simplify_eq.
      apply (map_page_kept t (uva n) p f m1 m2 Hok Ht Hva Hm q Hqu); [|lia].
      intros [?|(w&Hwc&->)]; [done|]. by apply (Hqc w).
  - intros i Hi Him. rewrite Hw by (lia || done). apply Hn; [lia|done].
  - eapply (confined_map t (uva n) p f m1 m2 n (n + 1)); [done|lia|done|right].
    intros va' E. unfold uva, USER_BASE, PAGE_SIZE in *. zdiv.
Qed.
End building.

(** ** Counting pages *)

Lemma filter_flip {A} `{EqDecision A} (P Q : A → bool) l x :
  NoDup l → x ∈ l → P x = true → Q x = false → (∀ y, y ∈ l → y ≠ x → Q y = P y) →
  length (List.filter P l) = S (length (List.filter Q l)).
Proof.
  intros Hnd Hx HP HQ Heq. induction Hnd as [|y l Hy Hnd IH]; [by apply not_elem_of_nil in Hx|].
  simpl. destruct (decide (x = y)) as [->|Hne].
  - rewrite HP, HQ. simpl. f_equal. f_equal. apply List.filter_ext_in. intros z Hz%list_elem_of_In.
    symmetry. apply Heq; [by right|]. by intros ->.
  - rewrite (Heq y) by (done || by left).
    assert (Hl : length (List.filter P l) = S (length (List.filter Q l))).
    { apply IH; [by apply elem_of_cons in Hx as [?|?]|]. intros z Hz. apply Heq. by right. }
    destruct (P y); simpl; by rewrite Hl.
Qed.

Definition free_count (m : mem) : Z :=
  Z.of_nat (length (List.filter (λ j, negb (bitmap_test m j)) (seqZ 0 (managed_pages m)))).

Definition child_count (m : mem) (t : Z) : Z :=
  Z.of_nat (length (List.filter (λ w, is_valid (pte m t w)) (seqZ 0 1024))).

(** One more page in use. *)
Lemma free_count_less m p m1 :
  mem_ok m → mem_ok m1 → same_geometry m m1 → ¬ page_used m p →
  (∀ q, page_used m1 q ↔ q = p ∨ page_used m q) → free_count m = free_count m1 + 1.
Proof.
  intros Hok Hok1 Hg Hnp Hu. pose proof Hg as (_&G2&G3&_).
  assert (Hp : page_used m1 p) by (apply Hu; by left). destruct Hp as (j&Hp&Hj&Hb).
  rewrite G2 in Hp. rewrite G3 in Hj. unfold free_count. rewrite G3.
  rewrite (filter_flip (λ j, negb (bitmap_test m j)) (λ j, negb (bitmap_test m1 j)) _ j); [lia| | | | |].
  - apply NoDup_seqZ.
  - apply elem_of_seqZ. lia.
  - rewrite (page_index m p j Hp Hj) in Hnp. by destruct (bitmap_test m j).
  - by rewrite Hb.
  - intros i Hi%elem_of_seqZ Hne. f_equal. apply eq_true_iff_eq.
    rewrite <-(page_index m (managed_base m + i * PAGE_SIZE) i) by (done || lia).
    rewrite <-(page_index m1 (managed_base m + i * PAGE_SIZE) i) by (rewrite ?G2; done || lia).
    rewrite Hu. split; [intros [Hq|?]; [|done]|by right]. unfold PAGE_SIZE in *. lia.
Qed.

Lemma free_count_same m m1 :
  same_geometry m m1 → (∀ q, page_used m1 q ↔ page_used m q) → free_count m1 = free_count m.
Proof.
  intros Hg Hu. pose proof Hg as (_&G2&G3&_). unfold free_count. rewrite G3. do 2 f_equal.
  apply List.filter_ext_in. intros i Hi%list_elem_of_In%elem_of_seqZ. f_equal. apply eq_true_iff_eq.
  rewrite <-(page_index m (managed_base m + i * PAGE_SIZE) i) by (done || lia).
  rewrite <-(page_index m1 (managed_base m + i * PAGE_SIZE) i) by (rewrite ?G2; done || lia).
  apply Hu.
Qed.

Lemma child_count_bound m t : 0 ≤ child_count m t ≤ 1024.
Proof.
  unfold child_count. split; [lia|].
  pose proof (List.filter_length_le (λ w, is_valid (pte m t w)) (seqZ 0 1024)) as H.
  rewrite length_seqZ in H. lia.
Qed.

Lemma child_count_room m t v : 0 ≤ v < 1024 → is_valid (pte m t v) = false → child_count m t < 1024.
Proof.
  intros Hv Hn. unfold child_count.
  pose proof (filter_flip (λ w, (w =? v) || is_valid (pte m t w)) (λ w, is_valid (pte m t w))
    (seqZ 0 1024) v (NoDup_seqZ _ _)) as H.
  rewrite elem_of_seqZ in H. specialize (H ltac:(lia) ltac:(by rewrite Z.eqb_refl) Hn).
  pose proof (List.filter_length_le (λ w, (w =? v) || is_valid (pte m t w)) (seqZ 0 1024)) as Hl.
  rewrite length_seqZ, H in Hl; [lia|]. intros y _ Hy. by replace (y =? v) with false by ztest.
Qed.

Lemma free_page_exists m :
  free_count m > 0 → 1 ≤ managed_pages m ∧ ¬ ∀ j, 0 ≤ j < managed_pages m → bitmap_test m j = true.
Proof.
  intros Hf. unfold free_count in Hf.
  destruct (List.filter _ (seqZ 0 (managed_pages m))) as [|j l] eqn:E; [done|].
  assert (Hj : In j (List.filter (λ j, negb (bitmap_test m j)) (seqZ 0 (managed_pages m))))
    by (rewrite E; by left).
  apply List.filter_In in Hj as [Hj%list_elem_of_In%elem_of_seqZ Hb].
  split; [lia|]. intros Hall. rewrite Hall in Hb by lia. done.
Qed.

(** What [map_page] takes, in pages: as many as it adds tables. *)
Lemma map_page_count t va pa f m m' :
  mem_ok m → 0 ≤ va < 4294967296 → mapped t va pa f m m' →
  free_count m + child_count m t = free_count m' + child_count m' t.
Proof.
  intros Hok Hva Hm. pose proof (vpn1_range va ltac:(lia)) as H1.
  assert (Hpte : ∀ w, 0 ≤ w < 1024 → is_valid (pte m' t w) = (w =? vpn1 va) || is_valid (pte m t w)).
  { intros w Hw. apply eq_true_iff_eq. rewrite orb_true_iff, Z.eqb_eq.
    pose proof (mp_child _ _ _ _ _ _ Hm w Hw) as Hc. unfold has_child in Hc. tauto. }
  destruct (is_valid (pte m t (vpn1 va))) eqn:Ev.
  - assert (Hc : has_child m t (vpn1 va)) by done.
    rewrite (free_count_same m m'); [|apply Hm|intros q; rewrite (mp_used _ _ _ _ _ _ Hm); tauto].
    f_equal. unfold child_count. do 2 f_equal. apply List.filter_ext_in.
    intros w Hw%list_elem_of_In%elem_of_seqZ. rewrite Hpte by lia.
    destruct (Z.eqb_spec w (vpn1 va)) as [->|]; [by rewrite Ev|done].
  - assert (Hnc : ¬ has_child m t (vpn1 va)) by (intros [_ ?]; congruence).
    rewrite (free_count_less m (child m' t (vpn1 va)) m' Hok).
    2, 3: apply Hm. 2: by apply (mp_new _ _ _ _ _ _ Hm).
    2: { intros q. rewrite (mp_used _ _ _ _ _ _ Hm). tauto. }
    unfold child_count.
    rewrite (filter_flip (λ w, is_valid (pte m' t w)) (λ w, is_valid (pte m t w)) _ (vpn1 va));
      [lia|apply NoDup_seqZ|apply elem_of_seqZ; lia|by rewrite Hpte, Z.eqb_refl|done|].
    intros w Hw%elem_of_seqZ Hne. rewrite Hpte by lia. by replace (w =? vpn1 va) with false by ztest.
Qed.

(** ** Making an address space *)

Lemma alloc_or m :
  mem_ok m → 1 ≤ managed_pages m →
  match alloc_pages 1 m with
  | Some (p, m1) => fresh m p m1 ∧ mem_ok m1 ∧ page_used m1 p ∧ free_count m = free_count m1 + 1
  | None => free_count m < 1
  end.
Proof.
  intros Hok Hpages. pose proof (alloc_one m Hok Hpages) as Ha.
  destruct (alloc_pages 1 m) as [[p m1]|].
  - destruct Ha as (Hfr&Hok1&Hp). split; [done|]. split; [done|]. split; [done|].
    apply (free_count_less m p m1 Hok Hok1); apply Hfr.
  - destruct (decide (free_count m < 1)) as [|Hf]; [done|].
    destruct (free_page_exists m) as [_ Hno]; [lia|done].
Qed.

Lemma map_or t va pa f m :
  mem_ok m → table_ok m t → 0 ≤ va < 4294967296 → va mod 4096 = 0 →
  0 ≤ pa < 4294967296 → pa mod 4096 = 0 → 0 ≤ f < 1024 →
  match map_page t va pa f m with
  | Some m' => mapped t va pa f m m' ∧
      free_count m' + child_count m' t = free_count m + child_count m t
  | None => free_count m + child_count m t < 1024
  end.
Proof.
  intros Hok Ht Hva Hav Hpa Hap Hf.
  pose proof (map_page_mapped t va pa f m Hok Ht Hva Hav Hpa Hap Hf) as Hm.
  pose proof (vpn1_range va ltac:(lia)) as H1.
  destruct (map_page t va pa f m) as [m'|].
  - split; [done|]. symmetry. exact (map_page_count t va pa f m m' Hok Hva Hm).
  - destruct Hm as [Hnc Hall].
    assert (Hn : is_valid (pte m t (vpn1 va)) = false).
    { destruct (is_valid _) eqn:Ev; [|done]. by destruct Hnc. }
    pose proof (child_count_room m t _ H1 Hn).
    destruct (decide (free_count m > 0)) as [Hf0|]; [|lia].
    by destruct (free_page_exists m Hf0) as [_ Hno].
Qed.

(** The number of pages left, counted with the room in the table. *)
Definition room (m : mem) (t : Z) : Z := free_count m + child_count m t.

Lemma building_pages data flags m t n o m1 : building data flags m t n o m1 → 1 ≤ managed_pages m1.
Proof.
  intros Hb. pose proof (to_top _ _ (so_table _ _ _ (bd_space _ _ _ _ _ _ _ Hb))) as Ht.
  by destruct (page_used_range m1 t (bd_ok _ _ _ _ _ _ _ Hb) Ht) as (_&_&_&_&?).
Qed.

(** Nothing has changed outside the user pages. *)
Definition outside_same (t : Z) (m1 m2 : mem) : Prop :=
  ∀ va, 0 ≤ va < 4294967296 → va < USER_BASE ∨ MMIO_BASE ≤ va → walk m2 t va = walk m1 t va.

(** The pages from [lo] to [hi] are mapped to themselves, and nothing else has changed. *)
Definition identity_added (t lo hi f : Z) (m1 m2 : mem) : Prop :=
  ∀ va, 0 ≤ va < 4294967296 →
    walk m2 t va = if (lo <=? va) && (va <? hi) then Some (va - va mod 4096, flag_bits f) else walk m1 t va.

Lemma identity_added_more t lo i f m1 m2 m3 :
  lo mod 4096 = 0 → identity_added t lo (lo + i * 4096) f m1 m2 →
  mapped t (lo + i * 4096) (lo + i * 4096) f m2 m3 → 0 ≤ i → identity_added t lo (lo + (i + 1) * 4096) f m1 m3.
Proof.
  intros Hal Hi Hm Hi0 va Hva. rewrite (mp_walk _ _ _ _ _ _ Hm) by done.
  destruct (Z.eqb_spec (va / 4096) ((lo + i * 4096) / 4096)) as [E|E].
  - assert (lo + i * 4096 ≤ va < lo + (i + 1) * 4096) as Hin by zdiv.
    replace ((lo <=? va) && (va <? lo + (i + 1) * 4096)) with true by ztest. do 2 f_equal. zdiv.
  - assert (¬ (lo + i * 4096 ≤ va < lo + (i + 1) * 4096)) as Hin by zdiv. rewrite Hi by done.
    by replace ((lo <=? va) && (va <? lo + (i + 1) * 4096)) with ((lo <=? va) && (va <? lo + i * 4096)) by lia.
Qed.

Definition round_up (lo hi : Z) : Z := lo + Z.of_nat (Z.to_nat ((hi - lo + PAGE_SIZE - 1) / PAGE_SIZE)) * 4096.

Lemma map_range_or data flags m t n lo hi f m1 :
  building data flags m t n None m1 → lo mod 4096 = 0 → 0 ≤ lo → hi ≤ 4294967296 →
  hi ≤ USER_BASE ∨ MMIO_BASE ≤ lo → 0 ≤ f < 1024 → user_bit (flag_bits f) = false →
  match map_range t lo hi f m1 with
  | Some m2 => building data flags m t n None m2 ∧ room m2 t = room m1 t ∧
      identity_added t lo (round_up lo hi) f m1 m2
  | None => room m1 t < 1024
  end.
Proof.
  intros Hb Hal Hlo Hhi Hout Hf Hub. unfold map_range.
  apply (zfor_opt_or (room m1 t < 1024)
    (λ i m', building data flags m t n None m' ∧ room m' t = room m1 t ∧
      identity_added t lo (lo + i * 4096) f m1 m')).
  { split; [done|]. split; [done|]. intros va Hva. case_if; [lia|done]. }
  intros i m' Hi (Hb'&Hr'&Hid). unfold PAGE_SIZE in *.
  assert (Hva : 0 ≤ lo + i * 4096 < 4294967296 ∧ lo + i * 4096 < hi) by zdiv.
  assert (Ha : (lo + i * 4096) mod 4096 = 0) by (by rewrite Z_mod_plus_full).
  pose proof (map_or t (lo + i * 4096) (lo + i * 4096) f m' (bd_ok _ _ _ _ _ _ _ Hb')
    (so_table _ _ _ (bd_space _ _ _ _ _ _ _ Hb')) ltac:(lia) Ha ltac:(lia) Ha Hf) as Hm.
  destruct (map_page _ _ _ _ _) as [m''|]; [|unfold room in *; lia].
  destruct Hm as [Hm Hc]. split; [|split; [unfold room in *; lia|]].
  - eapply (building_map data flags m t n None (lo + i * 4096)); [done|lia|done|lia|done|done].
  - eapply identity_added_more; [done..|lia].
Qed.

Section create.
Context (kernel_base free_ram_end : Z).
Context (Hkernel : kernel_base mod 4096 = 0 ∧ MMIO_BASE ≤ kernel_base ∧ free_ram_end ≤ 4294967296).

(** The kernel and the devices are mapped to themselves, and not for the process: the
    memory of the kernel to read, write and execute, the devices to read and write. *)
Record kernel_mapped (m : mem) (t : Z) : Prop := {
  km_kernel va : kernel_base ≤ va < free_ram_end → MMIO_END ≤ va →
    walk m t va = Some (va - va mod PAGE_SIZE, Z.lor (Z.lor (Z.lor PAGE_R PAGE_W) PAGE_X) PAGE_V);
  km_devices va : MMIO_BASE ≤ va < MMIO_END →
    walk m t va = Some (va - va mod PAGE_SIZE, Z.lor (Z.lor PAGE_R PAGE_W) PAGE_V);
  km_clock va : RTC_MMIO_BASE ≤ va < RTC_MMIO_END →
    walk m t va = Some (va - va mod PAGE_SIZE, Z.lor (Z.lor PAGE_R PAGE_W) PAGE_V)
}.

Lemma round_up_le lo hi : hi ≤ round_up lo hi.
Proof. unfold round_up, PAGE_SIZE. zdiv. Qed.

Lemma kernel_mapped_added t m1 m2 m3 m4 :
  identity_added t kernel_base (round_up kernel_base free_ram_end) (Z.lor (Z.lor PAGE_R PAGE_W) PAGE_X) m1 m2 →
  identity_added t MMIO_BASE (round_up MMIO_BASE MMIO_END) (Z.lor PAGE_R PAGE_W) m2 m3 →
  identity_added t RTC_MMIO_BASE (round_up RTC_MMIO_BASE RTC_MMIO_END) (Z.lor PAGE_R PAGE_W) m3 m4 →
  kernel_mapped m4 t.
Proof using Hkernel.
  intros H2 H3 H4. pose proof (round_up_le kernel_base free_ram_end) as Hr. destruct Hkernel as (Hka&Hk0&Hk1).
  change (round_up MMIO_BASE MMIO_END) with MMIO_END in H3.
  change (round_up RTC_MMIO_BASE RTC_MMIO_END) with RTC_MMIO_END in H4.
  assert (0 < RTC_MMIO_BASE ∧ RTC_MMIO_BASE < RTC_MMIO_END ∧ RTC_MMIO_END < MMIO_BASE ∧ MMIO_BASE < MMIO_END ∧ MMIO_END < 4294967296) by done.
  split; intros va Hva; intros; rewrite H4 by lia.
  - replace ((RTC_MMIO_BASE <=? va) && (va <? RTC_MMIO_END)) with false by ztest. rewrite H3 by lia.
    replace ((MMIO_BASE <=? va) && (va <? MMIO_END)) with false by ztest. rewrite H2 by lia.
    by replace ((kernel_base <=? va) && (va <? round_up kernel_base free_ram_end)) with true by ztest.
  - replace ((RTC_MMIO_BASE <=? va) && (va <? RTC_MMIO_END)) with false by ztest. rewrite H3 by lia.
    by replace ((MMIO_BASE <=? va) && (va <? MMIO_END)) with true by ztest.
  - by replace ((RTC_MMIO_BASE <=? va) && (va <? RTC_MMIO_END)) with true by ztest.
Qed.

Lemma kernel_mapped_outside t m1 m2 :
  0 ≤ kernel_base → outside_same t m1 m2 → kernel_mapped m1 t → kernel_mapped m2 t.
Proof using Hkernel.
  intros _ Ho [H1 H2 H3]. destruct Hkernel as (Hka&Hk0&Hk1).
  assert (0 < RTC_MMIO_BASE ∧ RTC_MMIO_END < USER_BASE ∧ USER_BASE < MMIO_BASE ∧ 0 < MMIO_BASE ∧ MMIO_BASE < MMIO_END ∧
    MMIO_END < 4294967296) by done.
  split; intros va Hva; intros; (rewrite Ho; [auto|lia|lia]).
Qed.

Lemma new_table_or data flags m :
  mem_ok m → 1 ≤ managed_pages m →
  match new_table kernel_base free_ram_end m with
  | Some (t, m') => building data flags m t 0 None m' ∧ free_count m - 1 ≤ room m' t ∧ kernel_mapped m' t
  | None => free_count m < 1025
  end.
Proof using Hkernel.
  intros Hok Hpages. destruct Hkernel as (Hka&Hk0&Hk1). unfold new_table.
  pose proof (alloc_or m Hok Hpages) as Ha.
  destruct (alloc_pages 1 m) as [[t m1]|]; [|lia]. destruct Ha as (Hfr&Hok1&Ht&Hc).
  pose proof (building_start data flags m t m1 Hok Hfr Hok1 Ht) as Hb1.
  pose proof (child_count_bound m1 t) as Hcc.
  assert (Hr1 : room m1 t < 1024 → free_count m < 1025) by (unfold room; lia).
  pose proof (map_range_or data flags m t 0 kernel_base free_ram_end (Z.lor (Z.lor PAGE_R PAGE_W) PAGE_X)
    m1 Hb1 Hka ltac:(unfold MMIO_BASE in *; lia) Hk1 ltac:(by right) ltac:(done) ltac:(done)) as Hm2.
  destruct (map_range t kernel_base free_ram_end _ m1) as [m2|]; [|auto]. destruct Hm2 as (Hb2&Hr2&Hi2).
  pose proof (map_range_or data flags m t 0 MMIO_BASE MMIO_END (Z.lor PAGE_R PAGE_W)
    m2 Hb2 ltac:(done) ltac:(done) ltac:(done) ltac:(by right) ltac:(done) ltac:(done)) as Hm3.
  destruct (map_range t MMIO_BASE MMIO_END _ m2) as [m3|]; [|apply Hr1; lia]. destruct Hm3 as (Hb3&Hr3&Hi3).
  pose proof (map_range_or data flags m t 0 RTC_MMIO_BASE RTC_MMIO_END (Z.lor PAGE_R PAGE_W)
    m3 Hb3 ltac:(done) ltac:(done) ltac:(done) ltac:(by left) ltac:(done) ltac:(done)) as Hm4.
  destruct (map_range t RTC_MMIO_BASE RTC_MMIO_END _ m3) as [m4|]; [|apply Hr1; lia].
  destruct Hm4 as (Hb4&Hr4&Hi4). split; [done|]. split; [unfold room in *; lia|].
  by apply (kernel_mapped_added t m1 m2 m3).
Qed.
End create.

Lemma store_bytes_spec r a l x :
  store_bytes r a l x = if (a <=? x) && (x <? a + Z.of_nat (length l))
                        then nth (Z.to_nat (x - a)) l 0 else r x.
Proof.
  revert r a. induction l as [|b l IH]; intros r a; simpl.
  { case_if; [lia|done]. }
  rewrite IH. destruct (decide (x = a)) as [->|Hne].
  - replace ((a + 1 <=? a) && (a <? a + 1 + Z.of_nat (length l))) with false by ztest.
    rewrite mset_eq. case_if; [|lia]. by rewrite Z.sub_diag.
  - rewrite mset_ne by done. repeat case_if; try lia.
    replace (Z.to_nat (x - a)) with (S (Z.to_nat (x - (a + 1)))) by lia. done.
Qed.

(** Byte [k] of page [i] of an image, padded with zeros. *)
Definition image_byte (image : list Z) (i k : Z) : Z := nth (Z.to_nat (i * PAGE_SIZE + k)) image 0.

(** The fresh page that holds page [i] of the image. *)
Lemma image_page m p m1 image i k :
  fresh m p m1 → 0 ≤ i → 0 ≤ k < 4096 →
  store_bytes (ram m1) p (take (Z.to_nat PAGE_SIZE) (drop (Z.to_nat (i * PAGE_SIZE)) image)) (p + k)
  = image_byte image i k.
Proof.
  intros Hf Hi Hk. rewrite store_bytes_spec, length_take, length_drop. unfold image_byte, PAGE_SIZE.
  case_if.
  - replace (p + k - p) with k by lia. rewrite !nth_lookup. f_equal.
    rewrite lookup_take_lt, lookup_drop by lia. f_equal. lia.
  - rewrite (fr_zero _ _ _ Hf) by lia. symmetry. apply nth_overflow. lia.
Qed.

(** What filling a fresh page leaves alone. *)
Lemma fill_fresh m1 p m2 r t :
  mem_ok m1 → table_ok m1 t → fresh m1 p m2 → mem_ok m2 → page_used m2 p →
  (∀ x, ¬ (p ≤ x < p + 4096) → r x = ram m2 x) →
  (∀ q x, page_used m1 q → q ≤ x < q + 4096 → ram (set_ram m2 r) x = ram m1 x) ∧
  room (set_ram m2 r) t = room m1 t - 1.
Proof.
  intros Hok Ht Hfr Hok2 Hp Hrr. destruct (page_used_range m2 p Hok2 Hp) as (_&_&Hpa&Hpb&_).
  assert (Hram : ∀ q x, page_used m1 q → q ≤ x < q + 4096 → ram (set_ram m2 r) x = ram m1 x).
  { intros q x Hq Hx. destruct (page_used_range m1 q Hok Hq) as (_&_&Hqa&Hqb&_).
    assert (Hxp : ¬ (p ≤ x < p + 4096)).
    { intros Hxp. assert (q = p) as -> by zdiv. by apply (fr_free _ _ _ Hfr). }
    cbn [ram set_ram]. rewrite Hrr by done. apply (fr_other _ _ _ Hfr); [by apply Hqb|done]. }
  split; [done|]. pose proof (ram_tables_kept m1 (set_ram m2 r) t Hok Ht Hram) as Hk.
  unfold room, child_count.
  rewrite (List.filter_ext_in (λ w, is_valid (pte (set_ram m2 r) t w)) (λ w, is_valid (pte m1 t w))).
  2:{ intros w Hw%list_elem_of_In%elem_of_seqZ. by rewrite (kept_top _ _ _ Hk) by lia. }
  rewrite (free_count_same m2 (set_ram m2 r)); [|done|].
  - rewrite (free_count_less m1 p m2 Hok Hok2); [lia|apply Hfr..].
  - intros q. apply page_used_geometry; [done|]. intros j Hj. apply bitmap_test_set_ram; [done|].
    intros x Hx. apply Hrr. intros Hxp. by apply (Hpb x).
Qed.

(** A filled fresh page is mapped as user page [n]. *)
Lemma building_page data flags m t n m1 p m2 r f :
  building data flags m t n None m1 → fresh m1 p m2 → mem_ok m2 → page_used m2 p →
  (∀ x, ¬ (p ≤ x < p + 4096) → r x = ram m2 x) → (∀ k, 0 ≤ k < 4096 → r (p + k) = data n k) →
  0 ≤ f < 1024 → flags n = flag_bits f → uva (n + 1) ≤ MMIO_BASE →
  match map_page t (uva n) p f (set_ram m2 r) with
  | Some m4 => building data flags m t (n + 1) None m4 ∧ room m4 t = room m1 t - 1 ∧ outside_same t m1 m4
  | None => room m1 t < 1025
  end.
Proof.
  intros Hb Hfr Hok2 Hp Hrr Hdat Hf Hfl Hsz.
  pose proof (building_alloc _ _ m t n p m1 m2 r Hb Hfr Hok2 Hp Hrr) as Hb3.
  pose proof (so_size _ _ _ (bd_space _ _ _ _ _ _ _ Hb)) as [Hn0 _].
  destruct (page_used_range m2 p Hok2 Hp) as (?&?&Hpa&Hpb&_).
  assert (Hva : 0 ≤ uva n < 4294967296) by (unfold uva, USER_BASE, PAGE_SIZE, MMIO_BASE in *; lia).
  destruct (fill_fresh m1 p m2 r t (bd_ok _ _ _ _ _ _ _ Hb) (so_table _ _ _ (bd_space _ _ _ _ _ _ _ Hb))
    Hfr Hok2 Hp Hrr) as [Hkeep Hroom].
  pose proof (map_or t (uva n) p f (set_ram m2 r) (bd_ok _ _ _ _ _ _ _ Hb3)
    (so_table _ _ _ (bd_space _ _ _ _ _ _ _ Hb3)) Hva ltac:(unfold uva, USER_BASE, PAGE_SIZE; zdiv)
    ltac:(lia) Hpa Hf) as Hm.
  destruct (map_page _ _ _ _ _) as [m4|]; [|unfold room in *; lia]. destruct Hm as [Hmap Hr4].
  split; [by apply (building_add _ _ m t n p f (set_ram m2 r))|]. split; [unfold room in *; lia|].
  intros va Hva' Hout. rewrite (mp_walk _ _ _ _ _ _ Hmap) by done.
  assert (va / 4096 ≠ uva n / 4096) by (unfold uva, USER_BASE, PAGE_SIZE, MMIO_BASE in *; zdiv).
  replace (va / 4096 =? uva n / 4096) with false by ztest. apply kept_walk; [|done].
  apply (ram_tables_kept m1); [apply Hb|apply (bd_space _ _ _ _ _ _ _ Hb)|done].
Qed.

(** Page [n] of an image, into a page that was just taken. *)
Lemma fill_image_page m t n image m1 p m2 :
  building (image_byte image) (λ _, flag_bits USER_FLAGS) m t n None m1 →
  fresh m1 p m2 → mem_ok m2 → page_used m2 p → uva (n + 1) ≤ MMIO_BASE →
  match map_page t (u32 (USER_BASE + n * PAGE_SIZE)) p USER_FLAGS
    (set_ram m2 (store_bytes (ram m2) p
      (take (Z.to_nat PAGE_SIZE) (drop (Z.to_nat (n * PAGE_SIZE)) image)))) with
  | Some m4 => building (image_byte image) (λ _, flag_bits USER_FLAGS) m t (n + 1) None m4 ∧
      room m4 t = room m1 t - 1 ∧ outside_same t m1 m4
  | None => room m1 t < 1025
  end.
Proof.
  intros Hb Hfr Hok2 Hp Hsz. pose proof (so_size _ _ _ (bd_space _ _ _ _ _ _ _ Hb)) as [Hn0 _].
  replace (u32 (USER_BASE + n * PAGE_SIZE)) with (uva n)
    by (unfold uva, USER_BASE, PAGE_SIZE, MMIO_BASE in *; rewrite u32_small; lia).
  apply (building_page _ _ m t n m1); try done.
  - intros x Hx. rewrite store_bytes_spec, length_take. unfold PAGE_SIZE. case_if; [lia|done].
  - intros k Hk'. by apply (image_page m1 p m2).
Qed.

Lemma load_page_or m t n image m1 :
  building (image_byte image) (λ _, flag_bits USER_FLAGS) m t n None m1 → uva (n + 1) ≤ MMIO_BASE →
  match load_page t image n m1 with
  | Some m2 => building (image_byte image) (λ _, flag_bits USER_FLAGS) m t (n + 1) None m2 ∧
      room m2 t = room m1 t - 1 ∧ outside_same t m1 m2
  | None => room m1 t < 1025
  end.
Proof.
  intros Hb Hsz. pose proof (child_count_bound m1 t) as Hcc. unfold load_page.
  pose proof (alloc_or m1 (bd_ok _ _ _ _ _ _ _ Hb) (building_pages _ _ _ _ _ _ _ Hb)) as Ha.
  destruct (alloc_pages 1 m1) as [[p m2]|]; [|unfold room; lia]. destruct Ha as (Hfr&Hok2&Hp&_).
  by apply fill_image_page.
Qed.

(** [process_exec] loads the pages in the same way: its test for a page is never true. *)
Lemma exec_page_load m t n image m1 :
  building (image_byte image) (λ _, flag_bits USER_FLAGS) m t n None m1 →
  exec_page t image n m1 = m2 ← load_page t image n m1; Some (true, m2).
Proof.
  intros Hb. unfold exec_page, load_page.
  pose proof (alloc_or m1 (bd_ok _ _ _ _ _ _ _ Hb) (building_pages _ _ _ _ _ _ _ Hb)) as Ha.
  destruct (alloc_pages 1 m1) as [[p m2]|]; [|done]. destruct Ha as (_&Hok2&Hp&_).
  destruct (page_used_range m2 p Hok2 Hp) as (?&_). by replace (p =? 0) with false by ztest.
Qed.

Definition image_pages (image : list Z) : Z := (Z.of_nat (length image) + PAGE_SIZE - 1) / PAGE_SIZE.

(** [t] is a new address space of [n] user pages: its pages are distinct and were free,
    they are all that was taken, the pages in use before keep their bytes, user
    page [i] has the flags [flags i] and the bytes [data i], and nothing is mapped
    between the user pages and the devices. *)
Record new_space (data : Z → Z → Z) (flags : Z → Z) (m : mem) (t n : Z) (m' : mem) : Prop := {
  ns_ok : mem_ok m' ∧ same_geometry m m';
  ns_space : space_ok m' t n;
  ns_used q : page_used m' q ↔ page_used m q ∨ owns m' t n q;
  ns_fresh q : owns m' t n q → ¬ page_used m q;
  ns_ram q x : page_used m q → q ≤ x < q + PAGE_SIZE → ram m' x = ram m x;
  ns_data i : 0 ≤ i < n → ∃ p, walk m' t (uva i) = Some (p, flags i) ∧
    ∀ k, 0 ≤ k < PAGE_SIZE → ram m' (p + k) = data i k;
  ns_size : uva n ≤ MMIO_BASE;
  ns_tail i : n ≤ i → uva i < MMIO_BASE → walk m' t (uva i) = None;
  ns_user : user_confined m' t n
}.

Lemma building_done data flags m t n m' :
  building data flags m t n None m' → new_space data flags m t n m'.
Proof.
  intros [Hok Hg Hs Hsz Hu Hf Hp Hr Hd Hn Hus].
  constructor; [done|done| |intros q Hq; apply Hf; by left|done| |done|done|done].
  - intros q. rewrite Hu. split; [intros [?|[?|?]]; [by left|by right|done]|]. intros [?|?]; auto.
  - intros i Hi. destruct (so_page _ _ _ Hs i Hi) as (p&f&Hw&_). exists p.
    destruct (Hd i p f Hi Hw) as [-> Hb]. done.
Qed.

(** A new space that is freed leaves the pages in use as they were. *)
Lemma new_space_freed data flags m t n m' :
  new_space data flags m t n m' →
  ∃ m'', free_address_space t n m' = Some m'' ∧ mem_ok m'' ∧ ∀ q, page_used m'' q ↔ page_used m q.
Proof.
  intros [[Hok Hg] Hs Hu Hf _ _ _ _].
  destruct (free_address_space_ok m' t n Hok Hs) as (m''&Hm''&Hok''&_&Hu''&_).
  exists m''. split; [done|]. split; [done|]. intros q. rewrite Hu'', Hu.
  pose proof (Hf q). split; [intros [[?|?] ?]; done|]. intros Hq. split; [by left|]. intros ?. by apply (Hf q).
Qed.

Lemma load_image_or image m t m1 :
  building (image_byte image) (λ _, flag_bits USER_FLAGS) m t 0 None m1 →
  uva (image_pages image) ≤ MMIO_BASE →
  match load_image t image m1 with
  | Some m2 => building (image_byte image) (λ _, flag_bits USER_FLAGS) m t (image_pages image) None m2 ∧
      outside_same t m1 m2
  | None => room m1 t < 1024 + image_pages image
  end.
Proof.
  intros Hb Hsz. assert (Hn0 : 0 ≤ image_pages image) by (unfold image_pages, PAGE_SIZE; zdiv).
  unfold load_image. fold (image_pages image).
  pose proof (zfor_opt_or (room m1 t < 1024 + image_pages image)
    (λ i m', building (image_byte image) (λ _, flag_bits USER_FLAGS) m t i None m' ∧
      room m' t = room m1 t - i ∧ outside_same t m1 m') (Z.to_nat (image_pages image)) 0 (load_page t image) m1
    ltac:(cbv beta; split; [exact Hb|split; [lia|done]])) as Hl.
  replace (0 + Z.of_nat (Z.to_nat (image_pages image))) with (image_pages image) in Hl by lia.
  assert (∀ i m', 0 ≤ i < image_pages image →
    building (image_byte image) (λ _, flag_bits USER_FLAGS) m t i None m' ∧
      room m' t = room m1 t - i ∧ outside_same t m1 m' →
    match load_page t image i m' with
    | Some m'' => building (image_byte image) (λ _, flag_bits USER_FLAGS) m t (i + 1) None m'' ∧
        room m'' t = room m1 t - (i + 1) ∧ outside_same t m1 m''
    | None => room m1 t < 1024 + image_pages image
    end) as Hstep.
  { intros i m' Hi (Hb'&Hr'&Ho').
    pose proof (load_page_or m t i image m' Hb' ltac:(unfold uva, PAGE_SIZE in *; lia)) as Hp.
    destruct (load_page t image i m') as [m2|]; [|lia]. destruct Hp as (Hb2&Hr2&Ho2).
    split; [done|]. split; [lia|]. intros va Hva Hout. by rewrite Ho2, Ho'. }
  specialize (Hl Hstep). destruct (zfor_opt _ _ _ _) as [m2|]; [|done]. by destruct Hl as (?&_&?).
Qed.

Lemma exec_image_load image m t m1 :
  building (image_byte image) (λ _, flag_bits USER_FLAGS) m t 0 None m1 →
  uva (image_pages image) ≤ MMIO_BASE →
  exec_image t image m1 = m2 ← load_image t image m1; Some (true, m2).
Proof.
  intros Hb Hsz. assert (Hn0 : 0 ≤ image_pages image) by (unfold image_pages, PAGE_SIZE; zdiv).
  unfold exec_image, load_image. fold (image_pages image).
  assert (Hgen : ∀ n i m', i + Z.of_nat n = image_pages image →
    building (image_byte image) (λ _, flag_bits USER_FLAGS) m t i None m' →
    while_ok (exec_page t image) n i m' = m2 ← zfor_opt n i (load_page t image) m'; Some (true, m2)).
  { induction n as [|n IH]; intros i m' Hi Hb'; [done|]. cbn [while_ok zfor_opt].
    rewrite (exec_page_load m t i image m' Hb').
    pose proof (load_page_or m t i image m' Hb' ltac:(unfold uva, PAGE_SIZE in *; lia)) as Hp.
    destruct (load_page t image i m') as [m2|]; [|done]. destruct Hp as [Hb2 _]. simpl.
    rewrite IH by (done || lia). done. }
  apply Hgen; [lia|done].
Qed.

Section spaces.
Context (kernel_base free_ram_end : Z).
Context (Hkernel : kernel_base mod 4096 = 0 ∧ MMIO_BASE ≤ kernel_base ∧ free_ram_end ≤ 4294967296).

Lemma create_address_space_or image m :
  mem_ok m → uva (image_pages image) ≤ MMIO_BASE → 1 ≤ managed_pages m →
  match create_address_space kernel_base free_ram_end image m with
  | Some (t, m') =>
      new_space (image_byte image) (λ _, Z.lor USER_FLAGS PAGE_V) m t (image_pages image) m' ∧
      kernel_mapped kernel_base free_ram_end m' t
  | None => free_count m < 1025 + image_pages image
  end.
Proof using Hkernel.
  intros Hok Hsz Hpages. assert (Hn0 : 0 ≤ image_pages image) by (unfold image_pages, PAGE_SIZE; zdiv).
  unfold create_address_space.
  pose proof (new_table_or kernel_base free_ram_end Hkernel (image_byte image)
    (λ _, flag_bits USER_FLAGS) m Hok Hpages) as Ht.
  destruct (new_table kernel_base free_ram_end m) as [[t m1]|]; [|lia]. destruct Ht as (Hb1&Hr1&Hk1).
  pose proof (load_image_or image m t m1 Hb1 Hsz) as Hl.
  destruct (load_image t image m1) as [m2|]; [|lia]. destruct Hl as [Hb2 Ho2].
  split; [by apply building_done|]. eapply kernel_mapped_outside; [done|unfold MMIO_BASE in *; lia|done|done].
Qed.

(** C31. A new process gets a new address space: with as many free pages as the image
    has, one for the top-level table and at most 1024 for the others, it is made
    without a panic, of fresh pages only; its user pages hold the image, padded with
    zeros, readable, writable, executable and accessible to the process; the memory of
    the kernel and the devices are mapped to themselves, with the flags that they need and
    not for user mode, and user mode can use nothing but the user pages; no page in use
    changes; and freeing it leaves the pages in use as they were. *)
Theorem create_address_space_spec image m :
  mem_ok m → uva (image_pages image) ≤ MMIO_BASE → 1025 + image_pages image ≤ free_count m →
  ∃ t m', create_address_space kernel_base free_ram_end image m = Some (t, m') ∧
    new_space (image_byte image) (λ _, Z.lor USER_FLAGS PAGE_V) m t (image_pages image) m' ∧
    kernel_mapped kernel_base free_ram_end m' t ∧
    ∃ m'', free_address_space t (image_pages image) m' = Some m'' ∧
      ∀ q, page_used m'' q ↔ page_used m q.
Proof using Hkernel.
  intros Hok Hsz Hfc. assert (Hn0 : 0 ≤ image_pages image) by (unfold image_pages, PAGE_SIZE; zdiv).
  destruct (free_page_exists m ltac:(lia)) as [Hpages _].
  pose proof (create_address_space_or image m Hok Hsz Hpages) as Hc.
  destruct (create_address_space _ _ _ _) as [[t m2]|]; [|lia]. exists t, m2.
  destruct Hc as [Hns Hk]. split; [done|]. split; [done|]. split; [done|].
  destruct (new_space_freed _ _ _ _ _ _ Hns) as (m3&?&_&?). by exists m3.
Qed.
End spaces.

(** ** Copying an address space *)

Lemma copied_flags e :
  is_valid e = true →
  let f := Z.land (Z.land e 0x3ff) (Z.lnot PAGE_V) in
  0 ≤ f < 1024 ∧ flag_bits f = Z.land e 0x3ff.
Proof.
  intros Hv f. rewrite is_valid_odd in Hv. unfold f. change 0x3ff with (Z.ones 10).
  rewrite Z.land_ones by lia. change (2 ^ 10) with 1024. set (a := e mod 1024).
  assert (Ha : 0 ≤ a < 1024) by (apply Z.mod_pos_bound; lia).
  assert (Hodd : a mod 2 = 1).
  { assert (e mod 2 = 1) by (by rewrite Zmod_odd, Hv). unfold a. zdiv. }
  rewrite <-Z.ldiff_land. change PAGE_V with (Z.ones 1). rewrite Z.ldiff_ones_r by lia.
  rewrite Z.shiftl_mul_pow2, Z.shiftr_div_pow2 by lia. change (2 ^ 1) with 2.
  split; [zdiv|]. unfold flag_bits. rewrite (lor_low _ PAGE_V 1); unfold PAGE_V; zdiv.
Qed.

(** The page of the parent at page [i], and its flags. *)
Definition page_of (m : mem) (t i : Z) : Z := match walk m t (uva i) with Some (p, _) => p | None => 0 end.
Definition flags_of (m : mem) (t i : Z) : Z := match walk m t (uva i) with Some (_, f) => f | None => 0 end.
Definition byte_of (m : mem) (t i k : Z) : Z := ram m (page_of m t i + k).


(** The parent's tables are where they were while the child is made. *)
Lemma parent_kept data flags m t n pending m1 tp np :
  mem_ok m → space_ok m tp np → building data flags m t n pending m1 → tables_kept m m1 tp.
Proof. intros Hok Hs Hb. apply ram_tables_kept; [done|apply Hs|apply Hb]. Qed.

Lemma copy_page_step m tp np t i m1 :
  mem_ok m → space_ok m tp np → 0 ≤ i < np → uva (i + 1) ≤ MMIO_BASE →
  building (byte_of m tp) (flags_of m tp) m t i None m1 →
  match copy_page tp t i m1 with
  | Some (ok, m2) => ok = true ∧
      building (byte_of m tp) (flags_of m tp) m t (i + 1) None m2 ∧ room m2 t = room m1 t - 1
  | None => room m1 t < 1025
  end.
Proof.
  intros Hok Hs Hi Hsz Hb. pose proof (child_count_bound m1 t) as Hcc.
  pose proof (uva_range m tp np i Hs Hi) as Hva.
  pose proof (vpn1_range (uva i) ltac:(lia)) as H1. pose proof (vpn0_range (uva i) ltac:(lia)) as H0.
  destruct (so_page _ _ _ Hs i Hi) as (pp&g&Hw&Hpu&_). pose proof Hw as Hw'.
  destruct (walk_some _ _ _ _ _ Hw) as (Hv1&Hv0&Hpp).
  set (pt0 := child m tp (vpn1 (uva i))) in *.
  assert (Hpt0 : is_table m tp pt0) by (right; by exists (vpn1 (uva i))).
  assert (Hkept : ∀ m', (∀ q x, page_used m q → q ≤ x < q + 4096 → ram m' x = ram m x) →
    pte m' tp (vpn1 (uva i)) = pte m tp (vpn1 (uva i)) ∧ pte m' pt0 (vpn0 (uva i)) = pte m pt0 (vpn0 (uva i))).
  { intros m' Hr'. pose proof (ram_tables_kept m m' tp Hok (so_table _ _ _ Hs) Hr') as Hk.
    split; apply Hk; try done. by left. }
  unfold copy_page. rewrite (uva_u32 m tp np i Hs Hi). cbv zeta.
  destruct (Hkept m1 (bd_ram _ _ _ _ _ _ _ Hb)) as [-> Hp0]. rewrite Hv1. cbn [negb].
  fold (child m tp (vpn1 (uva i))). fold pt0. rewrite Hp0, Hv0. cbn [negb]. rewrite <-Hpp.
  pose proof (alloc_or m1 (bd_ok _ _ _ _ _ _ _ Hb) (building_pages _ _ _ _ _ _ _ Hb)) as Ha.
  destruct (alloc_pages 1 m1) as [[p m2]|]; [|unfold room; lia]. destruct Ha as (Hfr&Hok2&Hp&_).
  destruct (page_used_range m2 p Hok2 Hp) as (?&_). replace (p =? 0) with false by ztest.
  set (r := λ x, if (p <=? x) && (x <? p + PAGE_SIZE) then ram m2 (pp + (x - p)) else ram m2 x).
  assert (Hrr : ∀ x, ¬ (p ≤ x < p + 4096) → r x = ram m2 x).
  { intros x Hx. unfold r, PAGE_SIZE. case_if; [lia|done]. }
  assert (Hu1 : ∀ q, page_used m q → page_used m1 q) by (intros q Hq; apply (bd_used _ _ _ _ _ _ _ Hb); by left).
  destruct (fill_fresh m1 p m2 r t (bd_ok _ _ _ _ _ _ _ Hb) (so_table _ _ _ (bd_space _ _ _ _ _ _ _ Hb))
    Hfr Hok2 Hp Hrr) as [Hram3 _].
  destruct (fill_fresh m1 p m2 (ram m2) t (bd_ok _ _ _ _ _ _ _ Hb)
    (so_table _ _ _ (bd_space _ _ _ _ _ _ _ Hb)) Hfr Hok2 Hp ltac:(done)) as [Hram2 _].
  assert (Hr3 : ∀ q x, page_used m q → q ≤ x < q + 4096 → ram (set_ram m2 r) x = ram m x).
  { intros q x Hq Hx. rewrite (Hram3 q x (Hu1 q Hq) Hx). by apply (bd_ram _ _ _ _ _ _ _ Hb q). }
  destruct (Hkept (set_ram m2 r) Hr3) as [_ ->].
  destruct (copied_flags (pte m pt0 (vpn0 (uva i))) Hv0) as [Hfr1 Hfr2].
  assert (Hg : g = Z.land (pte m pt0 (vpn0 (uva i))) 0x3ff).
  { unfold walk in Hw'. cbv zeta in Hw'. fold (child m tp (vpn1 (uva i))) in Hw'. fold pt0 in Hw'.
    rewrite Hv1, Hv0 in Hw'. congruence. }
  assert (Hdat : ∀ k, 0 ≤ k < 4096 → r (p + k) = byte_of m tp i k).
  { intros k Hk. unfold r, byte_of, page_of, PAGE_SIZE. rewrite Hw. case_if; [|lia].
    replace (pp + (p + k - p)) with (pp + k) by lia.
    change (ram m2 (pp + k)) with (ram (set_ram m2 (ram m2)) (pp + k)).
    rewrite (Hram2 pp (pp + k)) by (lia || by apply Hu1). apply (bd_ram _ _ _ _ _ _ _ Hb pp); [done|lia]. }
  assert (Hfl : flags_of m tp i =
    flag_bits (Z.land (Z.land (pte m pt0 (vpn0 (uva i))) 0x3ff) (Z.lnot PAGE_V)))
    by (unfold flags_of; by rewrite Hw, Hfr2).
  pose proof (building_page (byte_of m tp) (flags_of m tp) m t i m1 p m2 r
    (Z.land (Z.land (pte m pt0 (vpn0 (uva i))) 0x3ff) (Z.lnot PAGE_V)) Hb Hfr Hok2 Hp Hrr Hdat
    Hfr1 Hfl Hsz) as Hm4.
  destruct (map_page t (uva i) p _ _) as [m4|]; [by destruct Hm4 as (?&?&_)|done].
Qed.

Lemma copy_pages_ok m tp np t m1 :
  mem_ok m → space_ok m tp np → uva np ≤ MMIO_BASE →
  building (byte_of m tp) (flags_of m tp) m t 0 None m1 →
  match copy_pages tp t np m1 with
  | Some (ok, m2) => ok = true ∧ building (byte_of m tp) (flags_of m tp) m t np None m2
  | None => room m1 t < 1024 + np
  end.
Proof.
  intros Hok Hs Hsz Hb. destruct (so_size _ _ _ Hs) as [Hn0 _]. unfold copy_pages.
  assert (Hgen : ∀ n i m', i + Z.of_nat n = np → 0 ≤ i →
    building (byte_of m tp) (flags_of m tp) m t i None m' →
    match while_ok (copy_page tp t) n i m' with
    | Some (ok, m2) => ok = true ∧ building (byte_of m tp) (flags_of m tp) m t np None m2
    | None => room m' t < 1024 + Z.of_nat n
    end).
  { induction n as [|n IH]; intros i m' Hi Hi0 Hb'; simpl.
    - split; [done|]. by replace np with i by lia.
    - pose proof (copy_page_step m tp np t i m' Hok Hs ltac:(lia)
        ltac:(unfold uva, PAGE_SIZE in *; lia) Hb') as Hc.
      destruct (copy_page tp t i m') as [[ok m2]|]; [|lia]. destruct Hc as (->&Hb2&Hr2).
      specialize (IH (i + 1) m2 ltac:(lia) ltac:(lia) Hb2).
      destruct (while_ok _ n _ _) as [[ok m3]|]; [done|lia]. }
  specialize (Hgen (Z.to_nat np) 0 m1 ltac:(lia) ltac:(lia) Hb).
  destruct (while_ok _ _ _ _) as [[ok m2]|]; [done|lia].
Qed.

Section fork.
Context (kernel_base free_ram_end : Z).
Context (Hkernel : kernel_base mod 4096 = 0 ∧ MMIO_BASE ≤ kernel_base ∧ free_ram_end ≤ 4294967296).

Lemma copy_address_space_or m tp np :
  mem_ok m → space_ok m tp np → uva np ≤ MMIO_BASE →
  match copy_address_space kernel_base free_ram_end tp np m with
  | Some (ok, t, m') => ok = true ∧ t ≠ 0 ∧ new_space (byte_of m tp) (flags_of m tp) m t np m' ∧
      tables_kept m m' tp
  | None => free_count m < 1025 + np
  end.
Proof using Hkernel.
  intros Hok Hs Hsz. destruct (so_size _ _ _ Hs) as [Hn0 _]. unfold copy_address_space.
  destruct (page_used_range m tp Hok (to_top _ _ (so_table _ _ _ Hs))) as (_&_&_&_&Hpages).
  pose proof (new_table_or kernel_base free_ram_end Hkernel (byte_of m tp) (flags_of m tp) m Hok Hpages) as Ht.
  destruct (new_table kernel_base free_ram_end m) as [[t m1]|]; [|lia]. destruct Ht as (Hb1&Hr1&_).
  pose proof (to_top _ _ (so_table _ _ _ (bd_space _ _ _ _ _ _ _ Hb1))) as Htu.
  destruct (page_used_range m1 t (bd_ok _ _ _ _ _ _ _ Hb1) Htu) as (Ht0&_).
  replace (t =? 0) with false by ztest.
  pose proof (copy_pages_ok m tp np t m1 Hok Hs Hsz Hb1) as Hc.
  destruct (copy_pages tp t np m1) as [[ok m2]|]; [|lia]. destruct Hc as [-> Hb2].
  split; [done|]. split; [lia|]. pose proof (parent_kept _ _ _ _ _ _ _ _ _ Hok Hs Hb2) as Hk.
  split; [by apply building_done|done].
Qed.

(** C32. [fork] copies the address space: with enough free pages, a new address space of
    fresh pages is made in which every user page has the bytes and the flags of the
    parent's; the pages in use, the parent's among them, keep their bytes; and freeing
    it leaves the pages in use as they were. *)
Theorem copy_address_space_spec m tp np :
  mem_ok m → space_ok m tp np → uva np ≤ MMIO_BASE → 1025 + np ≤ free_count m →
  ∃ t m', copy_address_space kernel_base free_ram_end tp np m = Some (true, t, m') ∧ t ≠ 0 ∧
    new_space (byte_of m tp) (flags_of m tp) m t np m' ∧
    (∀ i, 0 ≤ i < np → walk m' tp (uva i) = Some (page_of m tp i, flags_of m tp i)) ∧
    ∃ m'', free_address_space t np m' = Some m'' ∧ ∀ q, page_used m'' q ↔ page_used m q.
Proof using Hkernel.
  intros Hok Hs Hsz Hfc. destruct (so_size _ _ _ Hs) as [Hn0 _].
  pose proof (copy_address_space_or m tp np Hok Hs Hsz) as Hc.
  destruct (copy_address_space _ _ _ _ _) as [[[ok t] m2]|]; [|lia]. destruct Hc as (->&Ht&Hns&Hk).
  exists t, m2. split; [done|]. split; [done|]. split; [done|]. split.
  - intros i Hi. rewrite (kept_walk _ _ _ _ Hk) by by apply (uva_range m tp np).
    destruct (so_page _ _ _ Hs i Hi) as (p&f&Hw&_). unfold page_of, flags_of. by rewrite Hw.
  - destruct (new_space_freed _ _ _ _ _ _ Hns) as (m3&?&_&?). by exists m3.
Qed.
End fork.
