(* ===== verification/Spaces.v ===== *)
(** * The address spaces of all processes

    The kernel holds one address space per process: each owns its pages alone, and
    every page in use belongs to one of them.  Replacing the space of one process
    (making one, freeing it, loading a new image into it) keeps that, and keeps every
    byte of the others. *)
From Stdlib Require Import ZArith Lia ZifyBool.
From stdpp Require Import base tactics list numbers option.
From S2P Require Import Prelude Memory PageTable PageTableSpec AddressSpace.
#[local] Open Scope Z_scope.

(** What user mode may do with the pages of its process: everything. *)
Definition user_rwx (f : Z) : bool :=
  user_bit f && Z.testbit f 1 && Z.testbit f 2 && Z.testbit f 3.

(** A space of [n] user pages with nothing mapped behind them, below the devices. *)
Record space (m : mem) (t n : Z) : Prop := {
  sp_ok : space_ok m t n;
  sp_size : uva n ≤ MMIO_BASE;
  sp_tail i : n ≤ i → uva i < MMIO_BASE → walk m t (uva i) = None;
  sp_user : user_confined m t n;
  sp_flags i p f : 0 ≤ i < n → walk m t (uva i) = Some (p, f) → user_rwx f = true
}.

(** The spaces of the slots, each the top-level table (0 for none) and the number of
    user pages. *)
Record spaces_ok (m : mem) (ss : list (Z * Z)) : Prop := {
  ss_mem : mem_ok m;
  ss_pages : 1 ≤ managed_pages m;
  ss_space i t n : ss !! i = Some (t, n) → t ≠ 0 → space m t n;
  ss_apart i j t n t' n' q :
    ss !! i = Some (t, n) → ss !! j = Some (t', n') → t ≠ 0 → t' ≠ 0 → i ≠ j →
    owns m t n q → ¬ owns m t' n' q;
  ss_used q : page_used m q → ∃ i t n, ss !! i = Some (t, n) ∧ t ≠ 0 ∧ owns m t n q
}.

(** The pages in use but those of the space [t]. *)
Definition others (m : mem) (t n q : Z) : Prop := page_used m q ∧ ¬ (t ≠ 0 ∧ owns m t n q).

(** The space [t] of [m] has been replaced by [t'] in [m'], out of pages nobody else
    has. *)
Record swapped (m : mem) (t n : Z) (m' : mem) (t' n' : Z) : Prop := {
  sw_ok : mem_ok m';
  sw_pages : 1 ≤ managed_pages m';
  sw_space : t' ≠ 0 → space m' t' n';
  sw_used q : page_used m' q ↔ others m t n q ∨ t' ≠ 0 ∧ owns m' t' n' q;
  sw_fresh q : t' ≠ 0 → owns m' t' n' q → ¬ others m t n q;
  sw_ram q x : others m t n q → q ≤ x < q + 4096 → ram m' x = ram m x
}.

(** The space [t] is in [m'] what it was in [m]: the same pages, the same bytes. *)
Record unchanged (m m' : mem) (t n : Z) : Prop := {
  un_owns q : owns m' t n q ↔ owns m t n q;
  un_walk va : 0 ≤ va < 4294967296 → walk m' t va = walk m t va;
  un_ram q x : owns m t n q → q ≤ x < q + 4096 → ram m' x = ram m x
}.

Lemma unchanged_refl m t n : unchanged m m t n.
Proof. done. Qed.

Lemma unchanged_trans m1 m2 m3 t n : unchanged m1 m2 t n → unchanged m2 m3 t n → unchanged m1 m3 t n.
Proof.
  intros [O1 W1 R1] [O2 W2 R2]. constructor.
  - intros q. by rewrite O2.
  - intros va Hva. by rewrite W2, W1.
  - intros q x Hq Hx. rewrite (R2 q x), (R1 q x); [done|done|done|by apply O1|done].
Qed.

Lemma owned_unchanged m m' t n :
  mem_ok m → space m t n → (∀ q, owns m t n q → page_used m' q) →
  (∀ q x, owns m t n q → q ≤ x < q + 4096 → ram m' x = ram m x) →
  unchanged m m' t n ∧ space m' t n.
Proof.
  intros Hok [Hs Hsz Htl Hus Hfl] Hu Hr.
  assert (Hk : tables_kept m m' t).
  { intros q w Hq Hw. apply pte_same; [|done]. intros x Hx. apply (Hr q); [|done].
    destruct Hq as [?|?]; [by left|by right; left]. }
  assert (Hn : uva n ≤ 4294967296) by (unfold MMIO_BASE in *; lia).
  split; [constructor|constructor]; [intros q; by apply kept_owns|intros va; by apply kept_walk|done| |done| | |].
  - by apply (kept_space_owned m).
  - intros i Hi Him. destruct (so_size _ _ _ Hs). rewrite kept_walk with (m := m); [by apply Htl|done|].
    unfold uva, USER_BASE, PAGE_SIZE, MMIO_BASE in *. lia.
  - by apply (confined_kept m).
  - intros i p f Hi. destruct (so_size _ _ _ Hs). rewrite kept_walk with (m := m); [by apply Hfl|done|].
    unfold uva, USER_BASE, PAGE_SIZE, MMIO_BASE in *. lia.
Qed.

(** ** Replacing one space *)

Lemma spaces_swap m ss i t n m' t' n' :
  spaces_ok m ss → ss !! i = Some (t, n) → swapped m t n m' t' n' →
  spaces_ok m' (<[i := (t', n')]> ss) ∧
  ∀ j u k, j ≠ i → ss !! j = Some (u, k) → u ≠ 0 → unchanged m m' u k.
Proof.
  intros [Hok _ Hsp Hap Hus] Hi [Hok' Hpg' Hsp' Hus' Hfr' Hr'].
  assert (Hoth : ∀ j u k q, j ≠ i → ss !! j = Some (u, k) → u ≠ 0 → owns m u k q → others m t n q).
  { intros j u k q Hj Hu Hu0 Hq. split; [apply (owns_used m u k q (sp_ok _ _ _ (Hsp j u k Hu Hu0)) Hq)|].
    intros [Ht0 Hqt]. by apply (Hap j i u k t n q). }
  assert (Hun : ∀ j u k, j ≠ i → ss !! j = Some (u, k) → u ≠ 0 → unchanged m m' u k ∧ space m' u k).
  { intros j u k Hj Hu Hu0. apply owned_unchanged; [done|by eapply Hsp| |].
    - intros q Hq. apply Hus'. left. by apply (Hoth j u k).
    - intros q x Hq. apply Hr'. by apply (Hoth j u k). }
  split; [|intros j u k Hj Hu Hu0; by apply (Hun j u k)].
  pose proof (lookup_lt_Some _ _ _ Hi) as Hl.
  assert (Hlk : ∀ j p, <[i := (t', n')]> ss !! j = Some p → j = i ∧ p = (t', n') ∨ j ≠ i ∧ ss !! j = Some p).
  { intros j p. destruct (decide (j = i)) as [->|Hj].
    - rewrite list_lookup_insert_eq by done. intros [= <-]. by left.
    - rewrite list_lookup_insert_ne by done. by right. }
  constructor; [done|done| | |].
  - intros j u k [(->&[= -> ->])|(Hj&Hu)]%Hlk Hu0; [by apply Hsp'|by apply (Hun j u k)].
  - intros j l u k u' k' q [(->&[= -> ->])|(Hj&Hu)]%Hlk [(->&[= -> ->])|(Hl'&Hu')]%Hlk Hu0 Hu0' Hjl Hq Hq'.
    + done.
    + apply (Hfr' q Hu0 Hq). apply (Hoth l u' k'); [done..|]. by apply (Hun l u' k').
    + apply (Hfr' q Hu0' Hq'). apply (Hoth j u k); [done..|]. by apply (Hun j u k).
    + apply (Hap j l u k u' k' q); try done; [by apply (Hun j u k)|by apply (Hun l u' k')].
  - intros q [[Hq Hno]|[Ht0 Hq]]%Hus'.
    + destruct (Hus q Hq) as (j&u&k&Hj&Hu0&Ho). destruct (decide (j = i)) as [->|Hne].
      { exfalso. apply Hno. by simplify_eq. }
      exists j, u, k. rewrite list_lookup_insert_ne by done. split; [done|]. split; [done|].
      by apply (Hun j u k).
    + exists i, t', n'. by rewrite list_lookup_insert_eq.
Qed.

(** ** What the kernel does to a space *)

Lemma swap_release m t n :
  mem_ok m → t ≠ 0 → space m t n →
  ∃ m', free_address_space t n m = Some m' ∧ swapped m t n m' 0 0.
Proof.
  intros Hok Ht0 [Hs _ _ _ _]. destruct (free_address_space_ok m t n Hok Hs) as (m'&Hm'&Hok'&Hg&Hu&Hr).
  exists m'. split; [done|].
  assert (Ho : ∀ q, others m t n q ↔ page_used m' q) by (intros q; rewrite Hu; unfold others; tauto).
  destruct (page_used_range m t Hok (to_top _ _ (so_table _ _ _ Hs))) as (_&_&_&_&Hpg).
  pose proof Hg as (_&_&G3&_). constructor; [done|lia|done| |done|].
  - intros q. rewrite Ho. split; [by left|]. by intros [?|[? _]].
  - intros q x Hq Hx. apply (Hr q); [by apply Ho|done].
Qed.

Lemma new_space_space data flags m t n m' :
  new_space data flags m t n m' → (∀ i, 0 ≤ i < n → user_rwx (flags i) = true) → space m' t n.
Proof.
  intros [_ Hs _ _ _ Hd Hsz Htl Hus] Hfl. constructor; try done. intros i p f Hi Hw.
  destruct (Hd i Hi) as (p'&Hw'&_). simplify_eq. by apply Hfl.
Qed.

Lemma space_flags m t n i : space m t n → 0 ≤ i < n → user_rwx (flags_of m t i) = true.
Proof.
  intros [Hs _ _ _ Hfl] Hi. destruct (so_page _ _ _ Hs i Hi) as (p&f&Hw&_).
  unfold flags_of. rewrite Hw. by apply (Hfl i p f).
Qed.

Lemma new_space_pages data flags m t n m' :
  new_space data flags m t n m' → 1 ≤ managed_pages m'.
Proof.
  intros Hn. pose proof (ns_space _ _ _ _ _ _ Hn) as Hs. destruct (ns_ok _ _ _ _ _ _ Hn) as [Hok _].
  by destruct (page_used_range m' t Hok (to_top _ _ (so_table _ _ _ Hs))) as (_&_&_&_&?).
Qed.

Lemma swap_new data flags m n0 t n m' :
  new_space data flags m t n m' → (∀ i, 0 ≤ i < n → user_rwx (flags i) = true) → swapped m 0 n0 m' t n.
Proof.
  intros Hn Hfl. pose proof Hn as [[Hok Hg] Hs Hu Hf Hr Hd Hsz Htl _].
  assert (Ho : ∀ q, others m 0 n0 q ↔ page_used m q) by (intros q; unfold others; tauto).
  pose proof (to_top _ _ (so_table _ _ _ Hs)) as Htu.
  assert (Ht0 : t ≠ 0) by (destruct (page_used_range m' t Hok Htu); lia).
  constructor; [done|by eapply new_space_pages|intros _; by eapply new_space_space| | |].
  - intros q. rewrite Ho, Hu. split; [intros [?|?]; auto|]. intros [?|[_ ?]]; auto.
  - intros q _ Hq. rewrite Ho. by apply Hf.
  - intros q x Hq%Ho Hx. by apply (Hr q).
Qed.

Definition is_table_b (m : mem) (t q : Z) : bool :=
  (q =? t) || existsb (λ w, is_valid (pte m t w) && (q =? child m t w)) (seqZ 0 1024).

Lemma is_table_spec m t q : is_table_b m t q = true ↔ is_table m t q.
Proof.
  unfold is_table_b, is_table, has_child. rewrite orb_true_iff, existsb_exists, Z.eqb_eq.
  split; (intros [?|(w&Hw)]; [by left|right]); exists w.
  - destruct Hw as [Hw%list_elem_of_In%elem_of_seqZ [? ?%Z.eqb_eq]%andb_true_iff]. split; [|done]. lia.
  - destruct Hw as [[Hw Hv] ->]. rewrite Hv, Z.eqb_refl. split; [|done].
    apply list_elem_of_In, elem_of_seqZ. lia.
Qed.

Lemma owns_table m t q : owns m t 0 q ↔ is_table m t q.
Proof.
  unfold owns, is_table. split; [intros [?|[?|(i&f&?&_)]]; [by left|by right|lia]|].
  intros [?|?]; [by left|by right; left].
Qed.

(** A space whose user pages have been freed is one that is being built, on top of the
    memory without it. *)
Lemma building_restart data flags m t n m1 mb :
  mem_ok m → space m t n → free_user_pages t n m = Some m1 → free_address_space t n m = Some mb →
  building data flags mb t 0 None m1.
Proof.
  intros Hok [Hs Hsz Htl Hus _] Hm1 Hmb.
  destruct (free_user_pages_ok m t n Hok Hs) as (m1'&E&[Hok1 Hg1 Ht1 Htop Hwk Hnone Hr1 Hu1]).
  rewrite Hm1 in E. injection E as <-.
  destruct (free_address_space_ok m t n Hok Hs) as (mb'&E&Hokb&Hgb&Hub&Hrb).
  rewrite Hmb in E. injection E as <-.
  assert (Htab : ∀ q, is_table m1 t q ↔ is_table m t q).
  { intros q. unfold is_table. split; (intros [?|(w&Hw&->)]; [by left|right]); exists w;
      pose proof Hw as [Hwr _]; destruct (same_tables_child m m1 t w Htop Hwr) as [-> Hc]; by rewrite Hc in *. }
  assert (Howt : ∀ q, is_table m t q → owns m t n q) by (intros q [?|?]; [by left|by right; left]).
  assert (Hnop : ∀ q, is_table m t q → ¬ ∃ j f, 0 ≤ j < n ∧ walk m t (uva j) = Some (q, f)).
  { intros q Hq (j&f&Hj&Hw). destruct (so_page _ _ _ Hs j Hj) as (p&g&Hw'&_&Hpt&Hpc). simplify_eq.
    destruct Hq as [->|(w&Hwc&->)]; [done|by apply (Hpc w)]. }
  constructor; try done.
  - etrans; [symmetry; exact Hgb|exact Hg1].
  - constructor; [done|done|lia|lia].
  - intros q. rewrite owns_table, Htab, Hub, Hu1. split.
    + intros [Hq Hno]. destruct (is_table_b m t q) eqn:Et; [right; left; by apply is_table_spec|left].
      split; [done|]. intros Hown. assert (Hx : ¬ is_table m t q) by (rewrite <-is_table_spec; congruence).
      destruct Hown as [?|[?|Hp]]; [apply Hx; by left|apply Hx; by right|done].
    + intros [[Hq Hno]|[Hq|?]]; [| |done].
      * split; [done|]. intros Hp. apply Hno. by right; right.
      * split; [by apply (owns_used m t n q Hs), Howt|by apply Hnop].
  - intros q [Hq|?]; [|done]. rewrite owns_table, Htab in Hq. rewrite Hub. intros [_ Hno]. by apply Hno, Howt.
  - intros q x Hq Hx. rewrite (Hrb q x Hq Hx). apply Hub in Hq as [Hq Hno].
    destruct (page_used_range m q Hok Hq) as (_&_&Hqa&Hqb&_). apply Hr1; [by apply Hqb|].
    intros w Hw Hxw. destruct (to_child _ _ (so_table _ _ _ Hs) w Hw) as [Hcu _].
    destruct (page_used_range m _ Hok Hcu) as (_&_&Hca&_).
    apply Hno. right; left. exists w. split; [done|]. zdiv.
  - lia.
  - intros i Hi Him. destruct (decide (i < n)); [apply Hnone; unfold uva, PAGE_SIZE; lia|].
    destruct (so_size _ _ _ Hs). rewrite Hwk; [by apply Htl; lia| |];
      unfold uva, USER_BASE, PAGE_SIZE, MMIO_BASE in *; lia.
  - intros va p f Hva Hw Hbit. exfalso. destruct (decide (uva 0 ≤ va < uva n)) as [Hin|Hin].
    + by rewrite (Hnone va Hin) in Hw.
    + rewrite (Hwk va Hva Hin) in Hw. by apply Hin, (Hus va p f).
Qed.

(** [process_exec]: the user pages are freed and the image is loaded. *)
Lemma swap_exec m t n image m1 :
  mem_ok m → t ≠ 0 → space m t n → uva (image_pages image) ≤ MMIO_BASE →
  free_user_pages t n m = Some m1 →
  match exec_image t image m1 with
  | Some (ok, m') => ok = true ∧ swapped m t n m' t (image_pages image) ∧
      ∃ mb, new_space (image_byte image) (λ _, Z.lor USER_FLAGS PAGE_V) mb t (image_pages image) m'
  | None => room m1 t < 1024 + image_pages image
  end.
Proof.
  intros Hok Ht0 Hs Hsz Hm1. pose proof Hs as [Hso _ _ _ _].
  destruct (free_address_space_ok m t n Hok Hso) as (mb&Hmb&Hokb&Hgb&Hub&Hrb).
  pose proof (building_restart (image_byte image) (λ _, flag_bits USER_FLAGS) m t n m1 mb Hok Hs Hm1 Hmb) as Hb.
  rewrite (exec_image_load image mb t m1 Hb Hsz).
  pose proof (load_image_or image mb t m1 Hb Hsz) as Hl.
  destruct (load_image t image m1) as [m2|]; simpl; [|done].
  destruct Hl as [Hl _]. apply building_done in Hl. split; [done|]. split; [|by exists mb].
  assert (Ho : ∀ q, others m t n q ↔ page_used mb q) by (intros q; rewrite Hub; unfold others; tauto).
  constructor; [apply (ns_ok _ _ _ _ _ _ Hl)|by eapply new_space_pages|intros _; by eapply new_space_space| | |].
  - intros q. rewrite Ho, (ns_used _ _ _ _ _ _ Hl). split; [intros [?|?]; auto|]. intros [?|[_ ?]]; auto.
  - intros q _ Hq. rewrite Ho. by apply (ns_fresh _ _ _ _ _ _ Hl).
  - intros q x Hq Hx. apply Ho in Hq. rewrite (ns_ram _ _ _ _ _ _ Hl q x Hq Hx). by apply (Hrb q).
Qed.

(** ** What user mode does to a space *)

Lemma walk_page m t va va' :
  0 ≤ va → 0 ≤ va' → va / 4096 = va' / 4096 → walk m t va = walk m t va'.
Proof.
  intros H H' E. unfold walk. rewrite !vpn1_eq, !vpn0_eq, E by done.
  replace (va / 4194304) with (va' / 4194304) by zdiv. done.
Qed.

(** The physical address user mode reaches with an access of the kind [bit] ([PAGE_R],
    [PAGE_W] or [PAGE_X] as a bit number): the translation of Sv32. *)
Definition user_address (m : mem) (t va bit : Z) : option Z :=
  match walk m t va with
  | Some (p, f) => if user_bit f && Z.testbit f bit then Some (p + va mod PAGE_SIZE) else None
  | None => None
  end.

(** The byte a process has at an address of its user pages. *)
Definition user_byte (m : mem) (t va : Z) : option Z :=
  match walk m t va with
  | Some (p, f) => if user_bit f then Some (ram m (p + va mod PAGE_SIZE)) else None
  | None => None
  end.

Lemma unchanged_byte m m' t n va :
  space m t n → unchanged m m' t n → uva 0 ≤ va < uva n → user_byte m' t va = user_byte m t va.
Proof.
  intros [Hs Hsz _ _ _] [_ Hw Hr] Hin.
  assert (Hva : 0 ≤ va < 4294967296) by (unfold uva, USER_BASE, PAGE_SIZE, MMIO_BASE in *; lia).
  unfold user_byte. rewrite (Hw va Hva). destruct (walk m t va) as [[p f]|] eqn:E; [|done].
  case_if; [|done]. f_equal. apply (Hr p); [|unfold PAGE_SIZE; zdiv]. right; right.
  exists ((va - USER_BASE) / 4096), f. unfold uva, USER_BASE, PAGE_SIZE in *. split; [zdiv|].
  rewrite <-E. apply walk_page; zdiv.
Qed.

Lemma new_space_byte data flags m t n m' va :
  new_space data flags m t n m' → uva 0 ≤ va < uva n →
  let i := (va - USER_BASE) / PAGE_SIZE in
  user_byte m' t va = if user_bit (flags i) then Some (data i (va mod PAGE_SIZE)) else None.
Proof.
  intros Hn Hin i.
  assert (Hi : 0 ≤ i < n ∧ uva i / 4096 = va / 4096)
    by (unfold i, uva, USER_BASE, PAGE_SIZE in *; split; zdiv).
  destruct Hi as [Hi E]. destruct (ns_data _ _ _ _ _ _ Hn i Hi) as (p&Hw&Hd).
  unfold user_byte. rewrite (walk_page m' t va (uva i)) by (unfold uva, USER_BASE, PAGE_SIZE in *; lia).
  rewrite Hw. case_if; [|done]. by rewrite Hd by (unfold PAGE_SIZE; zdiv).
Qed.

(** A copy of a space has its bytes. *)
Lemma copied_byte m t n t' m' va :
  space m t n → new_space (byte_of m t) (flags_of m t) m t' n m' → uva 0 ≤ va < uva n →
  user_byte m' t' va = user_byte m t va.
Proof.
  intros [Hs _ _ _ _] Hn Hin. rewrite (new_space_byte _ _ _ _ _ _ va Hn Hin). cbv zeta.
  set (i := (va - USER_BASE) / PAGE_SIZE).
  assert (Hi : 0 ≤ i < n ∧ uva i / 4096 = va / 4096)
    by (unfold i, uva, USER_BASE, PAGE_SIZE in *; split; zdiv).
  destruct Hi as [Hi E]. destruct (so_page _ _ _ Hs i Hi) as (p&f&Hw&_).
  unfold flags_of, byte_of, page_of, user_byte. rewrite Hw.
  by rewrite (walk_page m t va (uva i)), Hw by (unfold uva, USER_BASE, PAGE_SIZE in *; lia).
Qed.

(** A byte stored by user mode; [None] for a page fault. *)
Definition user_store (t va b : Z) (m : mem) : option mem :=
  let! pa := user_address m t va 2 in
  Some (set_ram m (mset (ram m) pa b)).

(** Whatever user mode reaches through its page table lies in a user page of its own
    space, which is neither a page table nor anybody else's page. *)
Lemma user_address_own m t n va bit pa :
  space m t n → 0 ≤ va < 4294967296 → user_address m t va bit = Some pa →
  ∃ i p f, 0 ≤ i < n ∧ uva i ≤ va < uva (i + 1) ∧ walk m t (uva i) = Some (p, f) ∧
    p ≤ pa < p + 4096.
Proof.
  intros [Hs Hsz _ Hus _] Hva. unfold user_address, PAGE_SIZE.
  destruct (walk m t va) as [[p f]|] eqn:Hw; [|done]. case_if; [|done]. intros [= <-].
  assert (Hin : uva 0 ≤ va < uva n) by (apply (Hus va p f Hva Hw); lia).
  exists ((va - USER_BASE) / 4096), p, f.
  unfold uva, USER_BASE, PAGE_SIZE in *. split; [zdiv|]. split; [zdiv|]. split; [|zdiv].
  rewrite <-Hw. apply walk_page; zdiv.
Qed.

Definition owns_b (m : mem) (t n q : Z) : bool :=
  is_table_b m t q ||
  existsb (λ i, match walk m t (uva i) with Some (p, _) => p =? q | None => false end) (seqZ 0 n).

Lemma owns_spec m t n q : owns_b m t n q = true ↔ owns m t n q.
Proof.
  unfold owns_b, owns. rewrite orb_true_iff, is_table_spec, existsb_exists. unfold is_table.
  assert (Hp : (∃ i, In i (seqZ 0 n) ∧
      match walk m t (uva i) with Some (p, _) => p =? q | None => false end = true) ↔
    ∃ i f, 0 ≤ i < n ∧ walk m t (uva i) = Some (q, f)); [|tauto].
  split.
  - intros (i&Hi%list_elem_of_In%elem_of_seqZ&Hw). exists i.
    destruct (walk m t (uva i)) as [[p f]|]; [|done]. exists f. split; [lia|]. by rewrite (proj1 (Z.eqb_eq p q) Hw).
  - intros (i&f&Hi&Hw). exists i. rewrite Hw, Z.eqb_refl. split; [|done].
    apply list_elem_of_In, elem_of_seqZ. lia.
Qed.

#[export] Instance owns_dec m t n q : Decision (owns m t n q).
Proof.
  destruct (owns_b m t n q) eqn:E; [left; by apply owns_spec|right].
  intros Ho%owns_spec. congruence.
Defined.

(** What a store leaves: every byte outside the page it is to, every page table, and
    who has which page. *)
Lemma store_kept m t n va b m' :
  mem_ok m → space m t n → 0 ≤ va < 4294967296 → user_store t va b m = Some m' →
  tables_kept m m' t ∧ (∀ q, page_used m' q ↔ page_used m q) ∧
  ∃ i p f, 0 ≤ i < n ∧ walk m t (uva i) = Some (p, f) ∧
    ∀ q x, page_used m q → q ≠ p → q ≤ x < q + 4096 → ram m' x = ram m x.
Proof.
  intros Hok Hsp Hva. unfold user_store.
  destruct (user_address m t va 2) as [pa|] eqn:Ea; [|done]. intros [= <-].
  destruct (user_address_own m t n va 2 pa Hsp Hva Ea) as (i&p&f&Hi&_&Hw&Hpa).
  pose proof Hsp as [Hs _ _ _ _]. destruct (so_page _ _ _ Hs i Hi) as (p'&f'&Hw'&Hpu&Hpt&Hpc).
  simplify_eq. destruct (page_used_range m p Hok Hpu) as (_&_&Hpal&Hpb&Hpg).
  set (m' := set_ram m (mset (ram m) pa b)).
  assert (Hram : ∀ x, ¬ (p ≤ x < p + 4096) → ram m' x = ram m x).
  { intros x Hx. cbn. apply mset_ne. intros ->. done. }
  assert (Hq : ∀ q x, page_used m q → q ≠ p → q ≤ x < q + 4096 → ram m' x = ram m x).
  { intros q x Hq Hne Hx. destruct (page_used_range m q Hok Hq) as (_&_&Hqa&_).
    apply Hram. intros Hxp. apply Hne. zdiv. }
  split; [|split; [|by exists i, p, f]].
  - intros q w Hqt Hwr. apply pte_same; [|done]. intros x Hx.
    apply (Hq q); [|by intros ->; destruct Hqt as [?|(v&Hv&?)]; [|by apply (Hpc v)]|done].
    by apply (table_used m t q (so_table _ _ _ Hs)).
  - intros q. apply page_used_geometry; [done|]. intros j Hj. apply bitmap_test_set_ram; [done|].
    intros x Hx. apply Hram. intros Hxp. by apply (Hpb x).
Qed.

Lemma store_mem_ok t va b m m' : mem_ok m → user_store t va b m = Some m' → mem_ok m'.
Proof.
  unfold user_store. intros Hok. destruct (user_address m t va 2); [|done]. intros [= <-].
  by destruct Hok; constructor.
Qed.

Lemma swap_store m t n va b m' :
  mem_ok m → t ≠ 0 → space m t n → 0 ≤ va < 4294967296 → user_store t va b m = Some m' →
  swapped m t n m' t n.
Proof.
  intros Hok Ht0 Hsp Hva Hst. destruct (store_kept m t n va b m' Hok Hsp Hva Hst) as (Hk&Hu&i&p&f&Hi&Hw&Hq).
  pose proof (store_mem_ok _ _ _ _ _ Hok Hst) as Hok'.
  pose proof Hsp as [Hs Hsz Htl Hus Hfl]. destruct (so_size _ _ _ Hs) as [Hn0 _].
  assert (Hn : uva n ≤ 4294967296) by (unfold MMIO_BASE in *; lia).
  assert (Ho : ∀ q, owns m' t n q ↔ owns m t n q) by (intros q; by apply kept_owns).
  assert (Hop : owns m t n p) by (right; right; by exists i, f).
  assert (Hkw : ∀ j, 0 ≤ j → uva j < MMIO_BASE → walk m' t (uva j) = walk m t (uva j)).
  { intros j Hj Hjm. apply kept_walk; [done|]. unfold uva, USER_BASE, PAGE_SIZE, MMIO_BASE in *. lia. }
  constructor; [done| |intros _; constructor| | |].
  - destruct (page_used_range m' t Hok') as (_&_&_&_&?); [|lia].
    apply Hu, (to_top _ _ (so_table _ _ _ Hs)).
  - apply (kept_space_owned m); [done| |done]. intros q Hqo. apply Hu.
    by apply (owns_used m t n q Hs).
  - done.
  - intros j Hj Hjm. rewrite Hkw by lia. by apply Htl.
  - by apply (confined_kept m).
  - intros j q g Hj. rewrite Hkw by (unfold uva, PAGE_SIZE in *; lia). by apply Hfl.
  - intros q. rewrite Hu, Ho. unfold others.
    pose proof (owns_used m t n q Hs). split; [|tauto]. intros Hqu.
    destruct (decide (owns m t n q)); tauto.
  - intros q _ Hqo [_ Hno]. apply Hno. split; [done|]. by apply Ho.
  - intros q x [Hqu Hno] Hx. apply (Hq q); [done|intros ->; tauto|done].
Qed.
