(* ===== verification/UserMemory.v ===== *)
(** * The memory of the calling process, as the system calls use it

    The kernel runs a system call on the page table of the process that made it, with
    [SSTATUS_SUM] set where it follows a pointer of the process: it reads and writes the
    user pages that the process itself can.  A string, an array or a structure is read
    or written one byte after the other, from its address on.

    [None] is an address that user mode could not use: the handlers do not check for
    one, and read or write what the kernel can there, or panic on a page fault. *)
From Stdlib Require Import ZArith Lia ZifyBool.
From stdpp Require Import base tactics list numbers option.
From S2P Require Import Prelude Memory PageTable PageTableSpec AddressSpace Spaces.
#[local] Open Scope Z_scope.

Definition load_byte (m : mem) (t va : Z) : option Z :=
  let! pa := user_address m t va 1 in Some (u8 (ram m pa)).

Fixpoint load_bytes (n : nat) (m : mem) (t va : Z) : option (list Z) :=
  match n with
  | O => Some []
  | S n' =>
      let! b := load_byte m t va in
      let! l := load_bytes n' m t (u32 (va + 1)) in
      Some (b :: l)
  end.

(** At most [n] characters, up to a NUL. *)
Fixpoint load_chars (n : nat) (m : mem) (t va : Z) : option (list Z) :=
  match n with
  | O => Some []
  | S n' =>
      let! b := load_byte m t va in
      if b =? 0 then Some []
      else let! l := load_chars n' m t (u32 (va + 1)) in Some (b :: l)
  end.

(** A string with its NUL within the [n] bytes looked at. *)
Definition load_string (n : nat) (m : mem) (t va : Z) : option (list Z) :=
  let! s := load_chars n m t va in
  if (length s =? n)%nat then None else Some s.

Definition word_of (b : list Z) : Z :=
  nth 0 b 0 + 256 * nth 1 b 0 + 65536 * nth 2 b 0 + 16777216 * nth 3 b 0.

Definition load_word (m : mem) (t va : Z) : option Z :=
  let! b := load_bytes 4 m t va in Some (word_of b).

Fixpoint store_user (t va : Z) (l : list Z) (m : mem) : option mem :=
  match l with
  | [] => Some m
  | b :: l' =>
      let! m := user_store t va b m in
      store_user t (u32 (va + 1)) l' m
  end.

(** ** One byte *)

Lemma user_rwx_bits f :
  user_rwx f = true → user_bit f = true ∧ Z.testbit f 1 = true ∧ Z.testbit f 2 = true.
Proof. unfold user_rwx. rewrite !andb_true_iff. tauto. Qed.

(** Every address of the image of the process can be read and written. *)
Lemma user_address_in m t n va :
  space m t n → uva 0 ≤ va < uva n →
  ∃ pa, user_address m t va 1 = Some pa ∧ user_address m t va 2 = Some pa.
Proof.
  intros [Hs Hsz _ _ Hfl] Hin. set (i := (va - USER_BASE) / 4096).
  assert (Hi : 0 ≤ i < n ∧ uva i / 4096 = va / 4096)
    by (unfold i, uva, USER_BASE, PAGE_SIZE in *; split; zdiv).
  destruct Hi as [Hi E]. destruct (so_page _ _ _ Hs i Hi) as (p&f&Hw&_).
  destruct (user_rwx_bits f (Hfl i p f Hi Hw)) as (Hu&Hr&Hwr). unfold user_address.
  rewrite (walk_page m t va (uva i)) by (unfold uva, USER_BASE, PAGE_SIZE in *; lia).
  rewrite Hw, Hu, Hr, Hwr. by eexists.
Qed.

(** Distinct addresses are distinct bytes. *)
Lemma user_address_inj m t n va va' bit bit' pa :
  mem_ok m → space m t n → 0 ≤ va < 4294967296 → 0 ≤ va' < 4294967296 →
  user_address m t va bit = Some pa → user_address m t va' bit' = Some pa → va = va'.
Proof.
  intros Hm Hsp Hva Hva' Ha Ha'. pose proof Hsp as [Hs _ _ _ _].
  destruct (user_address_own m t n va bit pa Hsp Hva Ha) as (i&p&f&Hi&Hin&Hw&Hpa).
  destruct (user_address_own m t n va' bit' pa Hsp Hva' Ha') as (j&q&g&Hj&Hjn&Hw'&Hqa).
  assert (Hp : page_used m p) by (destruct (so_page _ _ _ Hs i Hi) as (?&?&?&?&_); by simplify_eq).
  assert (Hq : page_used m q) by (destruct (so_page _ _ _ Hs j Hj) as (?&?&?&?&_); by simplify_eq).
  destruct (page_used_range m p Hm Hp) as (_&_&Hpal&_). destruct (page_used_range m q Hm Hq) as (_&_&Hqal&_).
  assert (p = q) as -> by zdiv.
  pose proof (so_inj _ _ _ Hs i j q f g Hi Hj Hw Hw') as ->.
  unfold user_address in Ha, Ha'.
  assert (walk m t va = walk m t (uva j) ∧ walk m t va' = walk m t (uva j)) as [E E']
    by (split; apply walk_page; unfold uva, USER_BASE, PAGE_SIZE in *; zdiv).
  rewrite E, Hw' in Ha. rewrite E', Hw' in Ha'.
  case_match; [|done]. case_match; [|done]. simplify_eq.
  unfold uva, USER_BASE, PAGE_SIZE in *. zdiv.
Qed.

Lemma store_space m t n va b m' :
  mem_ok m → t ≠ 0 → space m t n → 0 ≤ va < 4294967296 → user_store t va b m = Some m' →
  mem_ok m' ∧ space m' t n.
Proof. intros Hm Ht Hsp Hva Hst. destruct (swap_store m t n va b m') as [? _ Hs _ _ _]; auto. Qed.

Lemma store_byte m t n va b m' x :
  mem_ok m → space m t n → 0 ≤ va < 4294967296 → 0 ≤ x < 4294967296 →
  user_store t va b m = Some m' →
  load_byte m' t x = if decide (x = va) then (λ _, u8 b) <$> load_byte m t x else load_byte m t x.
Proof.
  intros Hm Hsp Hva Hx Hst. destruct (store_kept m t n va b m' Hm Hsp Hva Hst) as [Hk _].
  assert (Ea : ∀ bit, user_address m' t x bit = user_address m t x bit)
    by (intros bit; unfold user_address; by rewrite (kept_walk m)).
  unfold load_byte. rewrite Ea. destruct (user_address m t x 1) as [pa|] eqn:E; [|by case_decide].
  unfold user_store in Hst. destruct (user_address m t va 2) as [pb|] eqn:Eb; [|done].
  injection Hst as <-. cbn. case_decide as Hd.
  - subst x. assert (pa = pb) as ->; [|by rewrite mset_eq].
    unfold user_address in E, Eb. destruct (walk m t va) as [[p f]|]; [|done].
    case_match; [|done]. case_match; [|done]. congruence.
  - rewrite mset_ne; [done|]. intros ->. by apply Hd, (user_address_inj m t n x va 1 2 pb).
Qed.

(** ** Ranges *)

Lemma store_user_keeps t n va l m m' :
  mem_ok m → t ≠ 0 → space m t n → 0 ≤ va < 4294967296 → store_user t va l m = Some m' →
  mem_ok m' ∧ space m' t n.
Proof.
  intros Hm Ht Hsp. revert va m Hm Hsp. induction l as [|b l IH]; intros va m Hm Hsp Hva; simpl.
  { by intros [= <-]. }
  destruct (user_store t va b m) as [m1|] eqn:E; [|done]. simpl.
  destruct (store_space m t n va b m1 Hm Ht Hsp Hva E) as [Hm1 Hsp1].
  apply IH; [done|done|apply u32_range].
Qed.

(** What is at each address after bytes have been stored from [va] on. *)
Lemma store_user_byte m t n va l m' x :
  mem_ok m → t ≠ 0 → space m t n → 0 ≤ va → va + Z.of_nat (length l) ≤ 4294967296 →
  0 ≤ x < 4294967296 → store_user t va l m = Some m' →
  load_byte m' t x = if decide (va ≤ x < va + Z.of_nat (length l))
                     then (λ _, u8 (nth (Z.to_nat (x - va)) l 0)) <$> load_byte m t x
                     else load_byte m t x.
Proof.
  intros Hm Ht Hsp. revert va m Hm Hsp.
  induction l as [|b l IH]; intros va m Hm Hsp Hva Hend Hx; cbn [store_user length] in *.
  { intros [= <-]. rewrite decide_False by lia. done. }
  destruct (user_store t va b m) as [m1|] eqn:E; [|done]. cbn [mbind option_bind].
  destruct (store_space m t n va b m1 Hm Ht Hsp ltac:(lia) E) as [Hm1 Hsp1].
  pose proof (store_byte m t n va b m1 x Hm Hsp ltac:(lia) Hx E) as Hb.
  destruct l as [|b' l'].
  { intros [= <-]. rewrite Hb. cbn [length] in *. case_decide as Hd.
    - subst x. rewrite decide_True by lia. by rewrite Z.sub_diag.
    - rewrite decide_False by lia. done. }
  remember (b' :: l') as l eqn:El. assert (Hl : (0 < length l)%nat) by (subst l; simpl; lia).
  rewrite (u32_small (va + 1)) by lia. intros Hst.
  rewrite (IH (va + 1) m1 Hm1 Hsp1 ltac:(lia) ltac:(lia) Hx Hst), Hb.
  destruct (decide (x = va)) as [->|Hne].
  - rewrite decide_False, decide_True by lia. by rewrite Z.sub_diag.
  - destruct (decide (va + 1 ≤ x < va + 1 + Z.of_nat (length l))).
    + rewrite decide_True by lia.
      replace (Z.to_nat (x - va)) with (S (Z.to_nat (x - (va + 1)))) by lia. done.
    + by rewrite decide_False by lia.
Qed.

Lemma load_bytes_lookup m t va l :
  0 ≤ va → va + Z.of_nat (length l) ≤ 4294967296 →
  (∀ i b, l !! i = Some b → load_byte m t (va + Z.of_nat i) = Some b) →
  load_bytes (length l) m t va = Some l.
Proof.
  revert va. induction l as [|b l IH]; intros va Hva Hend Hl; [done|]. cbn [load_bytes length] in *.
  pose proof (Hl O b eq_refl) as Hb. rewrite Z.add_0_r in Hb. rewrite Hb. cbn [mbind option_bind].
  destruct l as [|b' l']; [done|]. remember (b' :: l') as l eqn:El.
  assert (0 < length l)%nat by (subst l; simpl; lia).
  rewrite (u32_small (va + 1)), IH; [done|lia|lia| |lia].
  intros i c Hi. rewrite <-(Hl (S i) c Hi). f_equal. lia.
Qed.

Lemma load_bytes_length n m t va l : load_bytes n m t va = Some l → length l = n ∧ Forall is_byte l.
Proof.
  revert va l. induction n as [|n IH]; intros va l; simpl; [by intros [= <-]|].
  unfold load_byte. destruct (user_address m t va 1) as [pa|]; [|done]. simpl.
  destruct (load_bytes n m t (u32 (va + 1))) as [r|] eqn:E; [|done]. intros [= <-].
  destruct (IH _ _ E). simpl. split; [congruence|]. constructor; [apply u8_range|done].
Qed.

Lemma load_chars_bytes n m t va l :
  load_chars n m t va = Some l → (length l ≤ n)%nat ∧ Forall is_byte l ∧ Forall (λ c, c ≠ 0) l.
Proof.
  revert va l. induction n as [|n IH]; intros va l; simpl; [intros [= <-]; by split|].
  destruct (load_byte m t va) as [b|] eqn:Eb; [|done]. simpl.
  assert (Hb : is_byte b).
  { unfold load_byte in Eb. destruct (user_address m t va 1); [|done]. injection Eb as <-. apply u8_range. }
  destruct (Z.eqb_spec b 0); [intros [= <-]; split; [simpl; lia|by split]|].
  destruct (load_chars n m t (u32 (va + 1))) as [r|] eqn:E; [|done]. intros [= <-].
  destruct (IH _ _ E) as (?&?&?). simpl. split; [lia|]. by split; constructor.
Qed.

(** A store into the image of the process never fails, what was stored is read back,
    and every other byte is what it was. *)
Lemma store_user_total t n va l m :
  mem_ok m → t ≠ 0 → space m t n → uva 0 ≤ va → va + Z.of_nat (length l) ≤ uva n →
  ∃ m', store_user t va l m = Some m'.
Proof.
  intros Hm Ht Hsp. revert va m Hm Hsp. induction l as [|b l IH]; intros va m Hm Hsp Hva Hend; simpl; [by eexists|].
  assert (Hn : uva n ≤ MMIO_BASE) by apply Hsp. cbn [length] in Hend.
  destruct (user_address_in m t n va Hsp ltac:(lia)) as (pa&_&Ha).
  destruct (user_store t va b m) as [m1|] eqn:E; [|unfold user_store in E; by rewrite Ha in E].
  simpl. unfold uva, USER_BASE, PAGE_SIZE, MMIO_BASE in *.
  destruct (store_space m t n va b m1 Hm Ht Hsp ltac:(lia) E) as [Hm1 Hsp1].
  rewrite u32_small by lia. apply IH; [done|done|lia|lia].
Qed.

Lemma load_bytes_total m t n va len :
  space m t n → uva 0 ≤ va → va + Z.of_nat len ≤ uva n → ∃ l, load_bytes len m t va = Some l.
Proof.
  intros Hsp. assert (Hn : uva n ≤ MMIO_BASE) by apply Hsp.
  revert va. induction len as [|len IH]; intros va Hva Hend; simpl; [by eexists|].
  destruct (user_address_in m t n va Hsp ltac:(lia)) as (pa&Ha&_). unfold load_byte. rewrite Ha. simpl.
  unfold uva, USER_BASE, PAGE_SIZE, MMIO_BASE in *. rewrite u32_small by lia.
  destruct (IH (va + 1)) as [l ->]; [lia..|]. by eexists.
Qed.

Lemma store_user_load m t n va l m' :
  mem_ok m → t ≠ 0 → space m t n → uva 0 ≤ va → va + Z.of_nat (length l) ≤ uva n →
  store_user t va l m = Some m' → load_bytes (length l) m' t va = Some (map u8 l).
Proof.
  intros Hm Ht Hsp Hva Hend Hst. assert (Hn : uva n ≤ MMIO_BASE) by apply Hsp.
  assert (Hlo : 0 ≤ va ∧ va + Z.of_nat (length l) ≤ 4294967296)
    by (unfold uva, USER_BASE, PAGE_SIZE, MMIO_BASE in *; lia).
  rewrite <-(length_map u8 l). apply load_bytes_lookup; [lia|rewrite length_map; lia|].
  intros i b Hi. rewrite list_lookup_fmap in Hi. destruct (l !! i) as [c|] eqn:Ec; [|done].
  injection Hi as <-. pose proof (lookup_lt_Some _ _ _ Ec).
  rewrite (store_user_byte m t n va l m'); [|done..|lia|lia|lia|done]. rewrite decide_True by lia.
  destruct (user_address_in m t n (va + Z.of_nat i) Hsp ltac:(lia)) as (pa&Ha&_).
  unfold load_byte. rewrite Ha. simpl. replace (Z.to_nat (va + Z.of_nat i - va)) with i by lia.
  by rewrite (nth_lookup_Some _ _ _ _ Ec).
Qed.
