(* ===== verification/PageTableTests.v ===== *)
(** * The theorems on address spaces at concrete inputs

    A memory of 2047 managed pages whose first three are the tables and the page of an
    address space of one user page. *)
From Stdlib Require Import ZArith Lia ZifyBool.
From stdpp Require Import base tactics list numbers option.
From S2P Require Import Prelude Memory PageTable PageTableSpec AddressSpace.
#[local] Open Scope Z_scope.

Definition top_page : Z := 2151682048.
Definition child_page : Z := 2151686144.
Definition user_page : Z := 2151690240.

(** The three pages are in use and zero. *)
Definition zero_mem : mem :=
  Mem 2151677952 2151682048 2047 true (λ x, if x =? 2151677952 then 7 else 0).
Definition top_mem : mem := set_pte zero_mem top_page 4 (pte_of child_page 0).
Definition one_mem : mem := set_pte top_mem child_page 0 (pte_of user_page 30).

Lemma zero_mem_ok : mem_ok zero_mem.
Proof. constructor; vm_compute; done. Qed.

Lemma zero_pte t v : 2151682048 ≤ t → 0 ≤ v → pte zero_mem t v = 0.
Proof. intros Ht Hv. unfold pte, load_word. cbn. by repeat case_if; try lia. Qed.

Lemma page_in_use j : 0 ≤ j < 3 → page_used zero_mem (2151682048 + j * PAGE_SIZE).
Proof.
  intros Hj. exists j. split; [done|]. split; [cbn; lia|].
  assert (j = 0 ∨ j = 1 ∨ j = 2) as [->|[->| ->]] by lia; reflexivity.
Qed.

Lemma zero_table_ok : table_ok zero_mem top_page.
Proof.
  assert (Hn : ∀ v, ¬ has_child zero_mem top_page v).
  { intros v [Hv Hval]. rewrite zero_pte in Hval by (done || lia). done. }
  constructor; [exact (page_in_use 0 ltac:(lia))| |]; intros v; intros; by destruct (Hn v).
Qed.

(** An image is mapped at the first user page. *)
Lemma map_page_translates_witness :
  ∃ m', map_page top_page USER_BASE user_page 30 zero_mem = Some m' ∧
    walk m' top_page USER_BASE = Some (user_page, 31).
Proof.
  assert (Hu : is_valid (pte zero_mem top_page (vpn1 USER_BASE)) = false) by (vm_compute; reflexivity).
  pose proof (map_page_translates top_page USER_BASE user_page 30 zero_mem zero_mem_ok zero_table_ok
    ltac:(unfold USER_BASE; lia) eq_refl ltac:(unfold user_page; lia) eq_refl ltac:(lia)) as H.
  destruct (map_page top_page USER_BASE user_page 30 zero_mem) as [m'|].
  - destruct H as (_&_&Hw&_). exists m'. split; [reflexivity|].
    rewrite (Hw USER_BASE ltac:(unfold USER_BASE; lia)). reflexivity.
  - destruct H as [_ H]. specialize (H 5 ltac:(cbn; lia)). discriminate.
Defined.

Definition kernel_start : Z := 0x80200000.
Definition ram_end : Z := 0x80C00000.

Lemma layout_ok : kernel_start mod 4096 = 0 ∧ MMIO_BASE ≤ kernel_start ∧ ram_end ≤ 4294967296.
Proof. split; [reflexivity|]. split; vm_compute; discriminate. Qed.

Lemma create_address_space_spec_witness :
  ∃ t m', create_address_space kernel_start ram_end [1; 2; 3] zero_mem = Some (t, m') ∧
    space_ok m' t 1.
Proof.
  destruct (create_address_space_spec kernel_start ram_end layout_ok [1; 2; 3] zero_mem zero_mem_ok)
    as (t&m'&He&Hn&_).
  - vm_compute. discriminate.
  - assert (Hf : free_count zero_mem = 2044) by (vm_compute; reflexivity). rewrite Hf.
    vm_compute. discriminate.
  - exists t, m'. split; [exact He|]. exact (ns_space _ _ _ _ _ _ Hn).
Defined.

(** ** The address space of [one_mem] *)

Lemma top_used j : 0 ≤ j < 3 → page_used top_mem (2151682048 + j * PAGE_SIZE).
Proof.
  intros Hj. apply (page_used_geometry zero_mem); [done| |by apply page_in_use].
  intros i Hi. apply set_pte_bit; [apply zero_mem_ok|exact (page_in_use 0 ltac:(lia))|lia|done].
Qed.

Lemma top_mem_ok : mem_ok top_mem.
Proof. constructor; vm_compute; done. Qed.

Lemma one_mem_ok : mem_ok one_mem.
Proof. constructor; vm_compute; done. Qed.

Lemma one_used j : 0 ≤ j < 3 → page_used one_mem (2151682048 + j * PAGE_SIZE).
Proof.
  intros Hj. apply (page_used_geometry top_mem); [done| |by apply top_used].
  intros i Hi. apply set_pte_bit; [apply top_mem_ok|exact (top_used 1 ltac:(lia))|lia|done].
Qed.

Lemma one_pte v : 0 ≤ v < 1024 → pte one_mem top_page v = if v =? 4 then pte_of child_page 0 else 0.
Proof.
  intros Hv. unfold one_mem.
  assert (H1 : 0 ≤ pte_of user_page 30 < 4294967296) by (vm_compute; split; done).
  assert (H2 : 0 ≤ pte_of child_page 0 < 4294967296) by (vm_compute; split; done).
  pose proof (top_used 1 ltac:(lia)) as Hc. pose proof (page_in_use 0 ltac:(lia)) as Ht.
  change (2151682048 + 1 * PAGE_SIZE) with child_page in Hc.
  change (2151682048 + 0 * PAGE_SIZE) with top_page in Ht.
  rewrite (set_pte_pte top_mem child_page 0 _ top_mem_ok Hc ltac:(lia) H1 top_page v eq_refl Hv).
  change (top_page =? child_page) with false. cbn [andb]. unfold top_mem.
  rewrite (set_pte_pte zero_mem top_page 4 _ zero_mem_ok Ht ltac:(lia) H2 top_page v eq_refl Hv).
  rewrite Z.eqb_refl. cbn [andb]. case_if; [done|]. apply zero_pte; [done|lia].
Qed.

Lemma one_child v : has_child one_mem top_page v → v = 4.
Proof.
  intros [Hv Hval]. rewrite one_pte in Hval by done. destruct (Z.eqb_spec v 4); [done|discriminate].
Qed.

Lemma one_walk : walk one_mem top_page USER_BASE = Some (user_page, 31).
Proof. vm_compute. reflexivity. Qed.

Lemma one_space : space_ok one_mem top_page 1.
Proof.
  assert (Hc : child one_mem top_page 4 = child_page) by (vm_compute; reflexivity).
  constructor.
  - vm_compute. split; discriminate.
  - constructor; [exact (one_used 0 ltac:(lia))| |].
    + intros v Hv. rewrite (one_child v Hv), Hc. split; [exact (one_used 1 ltac:(lia))|discriminate].
    + intros v w Hv Hw _. by rewrite (one_child v Hv), (one_child w Hw).
  - intros i Hi. assert (i = 0) as -> by lia. exists user_page, 31. split; [exact one_walk|].
    split; [exact (one_used 2 ltac:(lia))|]. split; [discriminate|].
    intros w Hw. rewrite (one_child w Hw), Hc. discriminate.
  - intros i j p f g Hi Hj _ _. lia.
Qed.

Lemma copy_address_space_spec_witness :
  ∃ t m', copy_address_space kernel_start ram_end top_page 1 one_mem = Some (true, t, m') ∧
    space_ok m' t 1 ∧ walk m' top_page USER_BASE = Some (user_page, 31).
Proof.
  destruct (copy_address_space_spec kernel_start ram_end layout_ok one_mem top_page 1 one_mem_ok one_space)
    as (t&m'&He&_&Hn&Hp&_).
  - vm_compute. discriminate.
  - assert (Hf : free_count one_mem = 2044) by (vm_compute; reflexivity). rewrite Hf. lia.
  - exists t, m'. split; [exact He|]. split; [exact (ns_space _ _ _ _ _ _ Hn)|].
    specialize (Hp 0 ltac:(lia)). change (uva 0) with USER_BASE in Hp. rewrite Hp.
    unfold page_of, flags_of. change (uva 0) with USER_BASE. rewrite one_walk. reflexivity.
Defined.
