(* ===== verification/Procfs.v ===== *)
(** * [/proc/<pid>/status] (the end of [src/kernel/proc/process.c])

    The text of the status file of a process and the operations of the virtual file
    system that keep it up to date.  A local array of the C code is a list of zeros
    here: what it holds before the code writes it is not read. *)
From Stdlib Require Import ZArith Lia ZifyBool String.
From stdpp Require Import base tactics list numbers option.
From S2P Require Import Prelude CString BlockDev NodeFs Vfs Process.
#[local] Open Scope Z_scope.

Definition proc_state_str (state : Z) : list Z :=
  if state =? PROC_UNUSED then bytes "UNUSED"
  else if state =? PROC_RUNNABLE then bytes "RUN"
  else if state =? PROC_WAITTING then bytes "WAIT"
  else if state =? PROC_EXITED then bytes "EXIT"
  else bytes "UNKNOWN".

Definition proc_wait_reason_str (wait_reason : Z) : list Z :=
  if wait_reason =? PROC_WAIT_NONE then bytes "NONE"
  else if wait_reason =? PROC_WAIT_CONSOLE_INPUT then bytes "CONSOLE_INPUT"
  else if wait_reason =? PROC_WAIT_CHILD_EXIT then bytes "CHILD_EXIT"
  else if wait_reason =? PROC_WAIT_IPC_RECV then bytes "IPC_RECV"
  else bytes "UNKNOWN".

Definition str_len_k (s : list Z) : Z := Z.of_nat (length (cstr s)).

(** The three functions are those of the C library again, but for the result codes. *)
Definition append_char_k : Z → abuf → Z → bool * abuf := append_char.
Definition append_str_k (out_size : Z) (b : abuf) (s : option (list Z)) : bool * abuf :=
  append_str out_size b (default (bytes "(null)") s).
Definition append_u32_k : Z → abuf → Z → bool * abuf := append_u32.

Definition append_key_val_u32 (out_size : Z) (b : abuf) (key : list Z) (value : Z) : bool * abuf :=
  append! b := append_str_k out_size b (Some key) in
  append! b := append_str_k out_size b (Some (bytes ":" ++ [9])) in
  append! b := append_u32_k out_size b value in
  append_char_k out_size b 10.

Definition append_key_val_str (out_size : Z) (b : abuf) (key value : list Z) : bool * abuf :=
  append! b := append_str_k out_size b (Some key) in
  append! b := append_str_k out_size b (Some (bytes ":" ++ [9])) in
  append! b := append_str_k out_size b (Some value) in
  append_char_k out_size b 10.

(** [dir_path], from ["/proc/"] and the pid; the flag is whether it fits. *)
Definition dir_path (pid : Z) : bool * abuf :=
  let path := strcat_s (<[0%nat := 0]> (zeros 64)) FS_PATH_MAX (bytes "/proc/") in
  append_u32_k FS_PATH_MAX (ABuf path (str_len_k path)) (u32 pid).

Definition status_path (dir : list Z) : list Z :=
  strcat_s (strcpy_s (zeros 64) FS_PATH_MAX dir) FS_PATH_MAX (bytes "/status").

(** The eight lines of the status file. *)
Definition status_content (p : process) : bool * abuf :=
  let b := ABuf (<[0%nat := 0]> (zeros 256)) 0 in
  append! b := append_key_val_u32 256 b (bytes "pid") (u32 (pid p)) in
  append! b := append_key_val_u32 256 b (bytes "ppid") (u32 (parent_pid p)) in
  append! b := append_key_val_str 256 b (bytes "name") (pname p) in
  append! b := append_key_val_u32 256 b (bytes "state_id") (u32 (state p)) in
  append! b := append_key_val_str 256 b (bytes "state") (proc_state_str (state p)) in
  append! b := append_key_val_u32 256 b (bytes "wait_reason_id") (u32 (wait_reason p)) in
  append! b := append_key_val_str 256 b (bytes "wait_reason") (proc_wait_reason_str (wait_reason p)) in
  append_key_val_str 256 b (bytes "cwd") (cwd_path p).

Section procfs.
Context {D : Type} `{BlockDev D}.
Implicit Types v : vfs D.

(** The result is whether 0 was returned. *)
Definition procfs_sync_process (p : process) (v : vfs D) : bool * vfs D :=
  if (pid p <=? 0) || (PROCS_MAX <=? pid p) then (false, v)
  else
    let '(ok, dir) := dir_path (pid p) in
    if negb ok then (false, v)
    else
      let '(_, v) := fs_mkdir (Some (out dir)) v in
      let path := status_path (out dir) in
      let '(ok, content) := status_content p in
      if negb ok then (false, v)
      else
        let '(fd, v) := fs_open (pid p) (Some path) (Z.lor (Z.lor O_CREAT O_WRONLY) O_TRUNC) v in
        if fd <? 0 then (false, v)
        else
          let len := str_len_k (out content) in
          let '(written, _, v) :=
            fs_write (pid p) fd (Some (take (Z.to_nat len) (out content))) len v in
          let '(_, v) := fs_close (pid p) fd v in
          (written =? len, v).

Definition procfs_cleanup (p : process) (v : vfs D) : bool * vfs D :=
  if (pid p <=? 0) || (PROCS_MAX <=? pid p) then (false, v)
  else
    let '(ok, dir) := dir_path (pid p) in
    if negb ok then (false, v)
    else
      let '(_, v) := fs_unlink (Some (status_path (out dir))) v in
      let '(_, v) := fs_rmdir (Some (out dir)) v in
      (true, v).
End procfs.
