(* ===== verification/ProcfsSpec.v ===== *)
(** * [/proc/<pid>/status]: what the file says

    The status text is built within its buffer, and after a synchronisation that
    succeeds the file of the process holds it. *)
From Stdlib Require Import ZArith Lia ZifyBool String.
From stdpp Require Import base tactics list numbers option relations.
From S2P Require Import Prelude CString TimeFmt BlockDev NodeFs NodeFsSpec NodeFsOps Vfs VfsSpec Process Procfs.
#[local] Open Scope Z_scope.

(** ** The text *)

Definition status_line (key value : list Z) : list Z := key ++ (bytes ":" ++ [9]) ++ value ++ [10].

Definition status_text (p : process) : list Z :=
  status_line (bytes "pid") (u32_text (u32 (pid p))) ++
  status_line (bytes "ppid") (u32_text (u32 (parent_pid p))) ++
  status_line (bytes "name") (cstr (pname p)) ++
  status_line (bytes "state_id") (u32_text (u32 (state p))) ++
  status_line (bytes "state") (proc_state_str (state p)) ++
  status_line (bytes "wait_reason_id") (u32_text (u32 (wait_reason p))) ++
  status_line (bytes "wait_reason") (proc_wait_reason_str (wait_reason p)) ++
  status_line (bytes "cwd") (cstr (cwd_path p)).

Lemma append_str_cstr size b s : append_str_k size b (Some s) = append_chars size b (cstr s).
Proof. apply append_str_chars. Qed.

Lemma append_u32_text size b v : append_u32_k size b v = append_chars size b (u32_text v).
Proof.
  unfold append_u32_k, append_u32, u32_text. destruct (v =? 0); [|done].
  simpl. by destruct (append_char size b 48) as [[] ?].
Qed.

Lemma key_val_u32_chars size b key v :
  no_nul key → append_key_val_u32 size b key v = append_chars size b (status_line key (u32_text v)).
Proof.
  intros Hk. unfold append_key_val_u32, status_line.
  apply append_seq; [by rewrite append_str_cstr, cstr_id|intros b1].
  apply append_seq; [by rewrite append_str_cstr|intros b2].
  apply append_seq; [apply append_u32_text|intros b3]. apply append_char_chars.
Qed.

Lemma key_val_str_chars size b key v :
  no_nul key → append_key_val_str size b key v = append_chars size b (status_line key (cstr v)).
Proof.
  intros Hk. unfold append_key_val_str, status_line.
  apply append_seq; [by rewrite append_str_cstr, cstr_id|intros b1].
  apply append_seq; [by rewrite append_str_cstr|intros b2].
  apply append_seq; [by rewrite append_str_cstr|intros b3]. apply append_char_chars.
Qed.

Lemma state_str_bounds st :
  cstr (proc_state_str st) = proc_state_str st ∧ (length (proc_state_str st) ≤ 7)%nat ∧
  no_nul (proc_state_str st).
Proof.
  unfold proc_state_str. repeat case_if; (split; [done|]); (split; [simpl; lia|]);
    repeat constructor; done.
Qed.

Lemma reason_str_bounds r :
  cstr (proc_wait_reason_str r) = proc_wait_reason_str r ∧ (length (proc_wait_reason_str r) ≤ 13)%nat ∧
  no_nul (proc_wait_reason_str r).
Proof.
  unfold proc_wait_reason_str. repeat case_if; (split; [done|]); (split; [simpl; lia|]);
    repeat constructor; done.
Qed.

Lemma u32_text_bounds v : (length (u32_text (u32 v)) ≤ 10)%nat ∧ no_nul (u32_text (u32 v)).
Proof.
  pose proof (u32_range v) as Hv. pose proof (u32_text_decimal (u32 v) Hv) as Hd.
  split; [|by eapply decimal_no_nul].
  apply (decimal_length _ (u32 v) 10 Hd); [simpl; lia|lia].
Qed.

Lemma line_length key v : length (status_line key v) = (length key + length v + 3)%nat.
Proof. unfold status_line. rewrite !length_app. simpl. lia. Qed.

Lemma line_no_nul key v : no_nul key → no_nul v → no_nul (status_line key v).
Proof.
  intros Hk Hv. unfold status_line, no_nul in *. rewrite !Forall_app. split; [done|].
  split; [by repeat constructor|]. split; [done|by repeat constructor].
Qed.

(** A process whose name and path are strings of their buffers. *)
Definition texts_ok (p : process) : Prop :=
  (length (cstr (pname p)) ≤ 15)%nat ∧ (length (cstr (cwd_path p)) ≤ 63)%nat ∧
  Forall is_byte (pname p) ∧ Forall is_byte (cwd_path p).

Lemma status_text_bounds p :
  texts_ok p → (length (status_text p) ≤ 214)%nat ∧ no_nul (status_text p).
Proof.
  intros (Hn&Hc&_). unfold status_text. rewrite !length_app, !line_length.
  pose proof (u32_text_bounds (pid p)) as [? ?]. pose proof (u32_text_bounds (parent_pid p)) as [? ?].
  pose proof (u32_text_bounds (state p)) as [? ?]. pose proof (u32_text_bounds (wait_reason p)) as [? ?].
  pose proof (state_str_bounds (state p)) as (_&?&?).
  pose proof (reason_str_bounds (wait_reason p)) as (_&?&?).
  split.
  - repeat match goal with |- context [length (bytes ?s)] =>
      let n := eval vm_compute in (length (bytes s)) in change (length (bytes s)) with n end. lia.
  - rewrite !no_nul_app.
    split_and!; apply line_no_nul; try done; try apply cstr_no_nul; by repeat constructor.
Qed.

Lemma status_content_text p :
  texts_ok p → ∃ b, status_content p = (true, b) ∧ holds 256 b (status_text p).
Proof.
  intros Hp. destruct (status_text_bounds p Hp) as [Hl Hnn].
  pose proof (state_str_bounds (state p)) as (Hs&_). pose proof (reason_str_bounds (wait_reason p)) as (Hr&_).
  assert (Hb0 : holds 256 (ABuf (<[0%nat := 0]> (zeros 256)) 0) []).
  { split; cbn [pos out length]; try done. constructor. }
  destruct (append_chars_spec 256 _ [] (status_text p) Hb0 Hnn) as (b&Hb&Hh).
  exists b. change (length (@nil Z) + length (status_text p))%nat with (length (status_text p)) in Hb.
  change ([] ++ status_text p) with (status_text p) in Hh. rewrite take_ge in Hh by lia.
  replace (Z.of_nat (length (status_text p)) <? 256) with true in Hb by ztest.
  split; [|exact Hh].
  rewrite <-Hb. unfold status_content, status_text.
  assert (Hk : ∀ s, no_nul (bytes s) → no_nul (bytes s)) by done.
  repeat (apply append_seq;
    [first [apply key_val_u32_chars; by repeat constructor
           |rewrite key_val_str_chars by (by repeat constructor); by rewrite ?Hs, ?Hr]|intros]).
  apply key_val_str_chars. by repeat constructor.
Qed.

(** ** The paths *)

(** What the paths of the 63 pids are, by computation. *)
Definition path_check (pid : Z) : bool :=
  let '(ok, dir) := dir_path pid in
  ok && bool_decide (cstr (out dir) = bytes "/proc/" ++ u32_text pid) &&
  bool_decide (cstr (status_path (out dir)) = bytes "/proc/" ++ u32_text pid ++ bytes "/status") &&
  forallb (λ b, (0 <=? b) && (b <? 256)) (out dir) &&
  forallb (λ b, (0 <=? b) && (b <? 256)) (status_path (out dir)) &&
  match vfs_resolve_mount std_mounts (Some (status_path (out dir))) with
  | Some (m, sub) => (m =? 2)%nat && bool_decide (path_names sub = [u32_text pid; bytes "status"])
  | None => false
  end.

Lemma path_checks : forallb path_check (seqZ 1 63) = true.
Proof. vm_compute. reflexivity. Qed.

Lemma bytes_check l : forallb (λ b, (0 <=? b) && (b <? 256)) l = true → Forall is_byte l.
Proof.
  intros H. rewrite forallb_forall in H. apply List.Forall_forall. intros b Hb.
  specialize (H b Hb). unfold is_byte. lia.
Qed.

Lemma pid_paths pid :
  0 < pid < 64 → ∃ dir m sub, dir_path pid = (true, dir) ∧
    cstr (status_path (out dir)) = bytes "/proc/" ++ u32_text pid ++ bytes "/status" ∧
    Forall is_byte (out dir) ∧ Forall is_byte (status_path (out dir)) ∧
    vfs_resolve_mount std_mounts (Some (status_path (out dir))) = Some (m, sub) ∧ m = 2%nat ∧
    path_names sub = [u32_text pid; bytes "status"].
Proof.
  intros Hp. pose proof path_checks as H. rewrite forallb_forall in H.
  specialize (H pid ltac:(apply list_elem_of_In, elem_of_seqZ; lia)). unfold path_check in H.
  destruct (dir_path pid) as [ok dir].
  destruct (vfs_resolve_mount std_mounts (Some (status_path (out dir)))) as [[m sub]|] eqn:Er;
    rewrite !andb_true_iff in H; [|by destruct H].
  destruct H as (((((->&_)&H2%bool_decide_eq_true)&H3)&H4)&H5&H6%bool_decide_eq_true).
  exists dir, m, sub. split; [done|]. split; [done|]. split; [by apply bytes_check|].
  split; [by apply bytes_check|]. split; [exact Er|]. split; [by apply Nat.eqb_eq|done].
Qed.

Section procfs.
Context {D : Type} `{BlockDev D}.
Implicit Types v : vfs D.

Lemma proc_str_bytes s : (∃ t, s = bytes t) → Forall is_byte s.
Proof. intros [t ->]. apply is_bytes_bytes. Qed.

Lemma content_bytes b : holds 256 b (cstr (out b)) → Forall is_byte (cstr (out b)) → 
  take (Z.to_nat (str_len_k (out b))) (out b) = cstr (out b) ∧ str_len_k (out b) = Z.of_nat (length (cstr (out b))).
Proof.
  intros Hh Hb. unfold str_len_k. rewrite Nat2Z.id. split; [|done]. by destruct Hh.
Qed.

Lemma u32_text_bytes (x : Z) : Forall is_byte (u32_text (u32 x)).
Proof.
  pose proof (u32_text_decimal (u32 x) (u32_range x)) as [Hd _ _].
  refine (List.Forall_impl _ _ Hd). intros c Hc. unfold is_digit, is_byte in *. lia.
Qed.

Lemma cstr_bytes s : Forall is_byte s → Forall is_byte (cstr s).
Proof. intros Hs. rewrite <-cstr_prefix. by apply Forall_take. Qed.

Lemma line_bytes key (x : list Z) :
  Forall is_byte key → Forall is_byte x → Forall is_byte (status_line key x).
Proof.
  intros Hk Hv. unfold status_line. rewrite !Forall_app. split; [done|].
  split; [split; [apply is_bytes_bytes|by repeat constructor]|]. split; [done|by repeat constructor].
Qed.

Lemma status_text_bytes p : texts_ok p → Forall is_byte (status_text p).
Proof.
  intros (_&_&Hn&Hc). unfold status_text. rewrite !Forall_app.
  assert (Hs : Forall is_byte (proc_state_str (state p))).
  { unfold proc_state_str. repeat case_if; apply is_bytes_bytes. }
  assert (Hr : Forall is_byte (proc_wait_reason_str (wait_reason p))).
  { unfold proc_wait_reason_str. repeat case_if; apply is_bytes_bytes. }
  split_and!; apply line_bytes; try apply is_bytes_bytes; try apply u32_text_bytes;
    try apply cstr_bytes; done.
Qed.

(** A write to a descriptor in use puts nothing on the console. *)
Lemma fs_write_quiet v pid fd buf sz :
  fd_used (fd_at v pid fd) ≠ 0 → (fs_write pid fd buf sz v).1.2 = [].
Proof.
  intros Hu. unfold fs_write. destruct buf as [buf|]; [|done]. do 2 (case_if; [done|]). cbv zeta.
  rewrite (proj2 (Z.eqb_neq _ _) Hu). do 2 (case_if; [done|]).
  by destruct (nodefs_write _ _ _ _ _ _) as [[[r off] fs] d].
Qed.

Lemma fs_close_procfs v pid fd r v' : fs_close pid fd v = (r, v') → procfs v' = procfs v.
Proof. unfold fs_close. do 2 (case_if; [by intros [= _ <-]|]). by intros [= _ <-]. Qed.

(** After a synchronisation that succeeds, the file [/proc/<pid>/status] holds the
    status of the process, line by line: its pid, its parent's, its name, its state
    and reason to wait by number and by name, and its working directory; and the file
    systems stay well formed. *)
Theorem procfs_status_file p v v' :
  vfs_ok v → texts_ok p → procfs_sync_process p v = (true, v') →
  vfs_ok v' ∧ 0 < pid p < 64 ∧
  view (procfs v') [u32_text (pid p); bytes "status"] = Some (EFile (status_text p)).
Proof.
  intros Hok Hp. unfold procfs_sync_process. case_if; [done|]. unfold PROCS_MAX in *.
  assert (Hpid : 0 < pid p < 64) by lia.
  destruct (pid_paths (pid p) Hpid) as (dir&m&sub&->&_&Hdb&Hsb&Hrm&->&Hnames). cbn [negb].
  destruct (fs_mkdir (Some (out dir)) v) as [r0 v0] eqn:E0.
  assert (Hok0 : vfs_ok v0).
  { pose proof (fs_mkdir_ok v (Some (out dir)) Hok) as Hm. rewrite E0 in Hm. apply Hm.
    by intros ? [= <-]. }
  destruct (status_content_text p Hp) as (b&->&Hh). cbn [negb].
  pose proof (holds_cstr _ _ _ Hh) as Hcs. pose proof (status_text_bounds p Hp) as [Hlen _].
  destruct (content_bytes b) as [-> ->]; [by rewrite Hcs| |].
  { rewrite Hcs. by apply status_text_bytes. }
  rewrite Hcs. change (Z.lor (Z.lor O_CREAT O_WRONLY) O_TRUNC) with O_REWRITE.
  destruct (fs_open _ _ O_REWRITE v0) as [fd v1] eqn:E1.
  destruct (Z.ltb_spec fd 0) as [|Hfd]; [done|].
  destruct (fs_write _ fd _ _ v1) as [[n cons] v2] eqn:E2.
  destruct (fs_close (pid p) fd v2) as [r3 v3] eqn:E3. intros Heq.
  assert (n = Z.of_nat (length (status_text p))) as -> by (apply Z.eqb_eq; congruence).
  assert (v' = v3) as -> by congruence. clear Heq.
  assert (cons = []) as ->.
  { pose proof (fs_write_quiet v1 (pid p) fd (Some (status_text p)) (Z.of_nat (length (status_text p)))) as Hq.
    rewrite E2 in Hq. apply Hq.
    destruct (fs_open_state v0 (pid p) _ _ fd v1 Hok0 ltac:(lia) Hsb E1 Hfd) as (?&?&?&?&_&_&_&_&_&->).
    done. }
  destruct (fs_write_file v0 (pid p) _ fd v1 (status_text p) (Z.of_nat (length (status_text p))) v2
    Hok0 ltac:(lia) Hsb (status_text_bytes p Hp) ltac:(lia) E1 Hfd E2 ltac:(lia))
    as (m'&sub'&Hrm'&_&Hview&Hok2).
  rewrite (vok_mounts _ Hok2), Hrm in Hrm'. injection Hrm' as <- <-.
  unfold mount_ctx, mount_at in Hview. rewrite (vok_mounts _ Hok2), Hnames in Hview. cbn in Hview.
  pose proof (fs_close_ok v2 (pid p) fd Hok2) as Hok3. rewrite E3 in Hok3.
  split; [exact Hok3|]. split; [done|]. by rewrite (fs_close_procfs _ _ _ _ _ E3).
Qed.
(** ** As runs of the file system *)

Lemma vfs_run_one pid v v' : vfs_step pid v v' → vfs_run v v'.
Proof. intros Hs. apply rtc_once. by exists pid. Qed.

Lemma sync_run p v : texts_ok p → vfs_run v (procfs_sync_process p v).2.
Proof.
  intros Hp. unfold procfs_sync_process. case_if; [constructor|]. unfold PROCS_MAX in *.
  destruct (pid_paths (pid p) ltac:(lia)) as (dir&m&sub&->&_&Hdb&Hsb&_). cbn [negb].
  pose proof (vs_mkdir v (pid p) (Some (out dir)) ltac:(by intros ? [= <-])) as H0.
  destruct (fs_mkdir (Some (out dir)) v) as [r0 v0]. etrans; [apply (vfs_run_one _ _ _ H0)|].
  destruct (status_content_text p Hp) as (b&->&Hh). cbn [negb snd].
  pose proof (holds_cstr _ _ _ Hh) as Hcs. pose proof (status_text_bounds p Hp) as [Hlen _].
  destruct (content_bytes b) as [-> ->]; [by rewrite Hcs|by rewrite Hcs; apply status_text_bytes|].
  rewrite Hcs.
  pose proof (vs_open v0 (pid p) (Some (status_path (out dir))) (Z.lor (Z.lor O_CREAT O_WRONLY) O_TRUNC)
    ltac:(by intros ? [= <-])) as H1.
  destruct (fs_open _ _ _ v0) as [fd v1]. etrans; [apply (vfs_run_one _ _ _ H1)|].
  case_if; [constructor|].
  pose proof (vs_write v1 (pid p) fd (Some (status_text p)) (Z.of_nat (length (status_text p)))
    ltac:(intros ? [= <-]; split; [by apply status_text_bytes|lia]) ltac:(lia)) as H2.
  destruct (fs_write _ _ _ _ v1) as [[w c] v2]. etrans; [apply (vfs_run_one _ _ _ H2)|].
  pose proof (vs_close v2 (pid p) fd) as H3. destruct (fs_close _ _ v2) as [r3 v3].
  apply (vfs_run_one _ _ _ H3).
Qed.

Lemma cleanup_run p v : vfs_run v (procfs_cleanup p v).2.
Proof.
  unfold procfs_cleanup. case_if; [constructor|]. unfold PROCS_MAX in *.
  destruct (pid_paths (pid p) ltac:(lia)) as (dir&m&sub&->&_&Hdb&Hsb&_). cbn [negb].
  pose proof (vs_unlink v (pid p) (Some (status_path (out dir))) ltac:(by intros ? [= <-])) as H0.
  destruct (fs_unlink _ v) as [r0 v0]. etrans; [apply (vfs_run_one _ _ _ H0)|].
  pose proof (vs_rmdir v0 (pid p) (Some (out dir)) ltac:(by intros ? [= <-])) as H1.
  destruct (fs_rmdir _ v0) as [r1 v1]. apply (vfs_run_one _ _ _ H1).
Qed.
End procfs.
