(* ===== verification/Console.v ===== *)
(** * The console ([src/kernel/trap/syscall_console.c] and [console_read_fallback] of
    [src/kernel/fs/fs.c])

    Characters typed wait in the device, then in a ring of 64, then go to the process
    that reads them.  The device is the list of the characters that the firmware has
    and that [getchar] ([src/kernel/platform/sbi.c]) will return, before its -1. *)
From Stdlib Require Import ZArith Lia ZifyBool.
From stdpp Require Import base tactics list numbers option relations.
From S2P Require Import Prelude Process ProcessSpec ProcessOps Scheduler.
#[local] Open Scope Z_scope.

Definition INPUT_BUF_SIZE : Z := 64.

Record console := Console {
  input_buf : list Z; input_head : Z; input_tail : Z; input_count : Z
}.

Definition empty_console : console := Console (repeat 0 64) 0 0 0.

(** The result is [None] for false, the character otherwise. *)
Definition input_pop (c : console) : option (Z * console) :=
  if input_count c =? 0 then None
  else Some (nth (Z.to_nat (input_head c)) (input_buf c) 0,
             Console (input_buf c) (u32 (input_head c + 1) mod INPUT_BUF_SIZE) (input_tail c)
               (u32 (input_count c - 1))).

Definition getchar (dev : list Z) : Z * list Z :=
  match dev with [] => (-1, []) | ch :: dev' => (ch, dev') end.

Definition input_push (ch : Z) (c : console) : console :=
  Console (<[Z.to_nat (input_tail c) := u8 ch]> (input_buf c)) (input_head c)
    (u32 (input_tail c + 1) mod INPUT_BUF_SIZE) (u32 (input_count c + 1)).

(** The loop of [poll_console_input]; it ends within 64 iterations. *)
Fixpoint poll_loop (fuel : nat) (dev : list Z) (c : console) : list Z * console :=
  match fuel with
  | O => (dev, c)
  | S fuel' =>
      if INPUT_BUF_SIZE <=? input_count c then (dev, c)
      else
        let '(ch, dev) := getchar dev in
        if ch <? 0 then (dev, c) else poll_loop fuel' dev (input_push ch c)
  end.

(** The kernel with its console. *)
Record io (E : Type) := Io { kern : kstate E; ring : console; dev : list Z }.
Arguments Io {E}. Arguments kern {E}. Arguments ring {E}. Arguments dev {E}.

Section console.
Context {E : Type} `{ProcEnv E}.
Implicit Types k : kstate E.

Definition poll_console_input (dev : list Z) (c : console) k : list Z * console * kstate E :=
  let '(dev, c) := poll_loop 64 dev c in
  (dev, c, if 0 <? input_count c then wakeup_input_waiters k else k).

(** One iteration of the loop of [syscall_handle_getchar], which the process makes
    again when it is woken: the character it returns, or [None] when it calls
    [yield]. *)
Definition syscall_handle_getchar (cur : nat) (dev : list Z) (c : console) k
  : option Z * list Z * console * kstate E :=
  match input_pop c with
  | Some (ch, c) => (Some (u8 ch), dev, c, got_input cur k)
  | None =>
      let '(dev, c, k) := poll_console_input dev c k in
      match input_pop c with
      | Some (ch, c) => (Some (u8 ch), dev, c, got_input cur k)
      | None => (None, dev, c, wait_input cur k)
      end
  end.

(** The loop of [console_read_fallback]: the characters read, and how many the process
    has still to read when it is woken. *)
Fixpoint console_read (n cur : nat) (dev : list Z) (c : console) k
  : list Z * nat * list Z * console * kstate E :=
  match n with
  | O => ([], O, dev, c, k)
  | S n' =>
      match syscall_handle_getchar cur dev c k with
      | (None, dev, c, k) => ([], n, dev, c, k)
      | (Some ch, dev, c, k) =>
          let '(chs, rest, dev, c, k) := console_read n' cur dev c k in
          (ch :: chs, rest, dev, c, k)
      end
  end.
End console.
