(* ===== verification/ConsoleSpec.v ===== *)
(** * The console: a queue from the keyboard to the readers

    The ring is a bounded queue; over the life of the kernel every character typed is
    delivered once and in order; no process sleeps while there is a character to
    read. *)
From Stdlib Require Import ZArith Lia ZifyBool.
From stdpp Require Import base tactics list numbers option relations.
From S2P Require Import Prelude Process ProcessSpec ProcessOps Scheduler Console.
#[local] Open Scope Z_scope.

(** ** The ring *)

Definition ring_slot (c : console) (i : nat) : nat :=
  Z.to_nat ((input_head c + Z.of_nat i) mod INPUT_BUF_SIZE).

(** The characters in the ring, the oldest first. *)
Definition queue (c : console) : list Z :=
  map (λ i, nth (ring_slot c i) (input_buf c) 0) (seq 0 (Z.to_nat (input_count c))).

Record ring_ok (c : console) : Prop := {
  rk_len : length (input_buf c) = 64%nat;
  rk_head : 0 ≤ input_head c < 64;
  rk_count : 0 ≤ input_count c ≤ 64;
  rk_tail : input_tail c = (input_head c + input_count c) mod 64
}.

(** What the firmware gives: characters. *)
Definition is_chars (l : list Z) : Prop := Forall (λ ch, 0 ≤ ch < 256) l.

(** A process that waits for a character. *)
Definition typing (p : process) : Prop := waits PROC_WAIT_CONSOLE_INPUT p.

(** ** The kernel with its console *)

Section io.
Context {E : Type} `{ProcEnv E}.
Implicit Types k : kstate E.

Implicit Types s : io E.

(** A step, with the characters that are typed and those that are delivered to a
    process in it: the user types, the process that runs calls the kernel or reads the
    console, the files or the memory change, an interrupt polls the console. *)
Inductive io_step : io E → list Z → list Z → io E → Prop :=
| io_type s chs : is_chars chs → io_step s chs [] (Io (kern s) (ring s) (dev s ++ chs))
| io_call s k' : kcall (kern s) k' → io_step s [] [] (Io k' (ring s) (dev s))
| io_env s e : io_step s [] [] (Io (set_env (kern s) e) (ring s) (dev s))
| io_poll s : io_step s [] []
    (let '(dev', c, k) := poll_console_input (dev s) (ring s) (kern s) in Io k c dev')
| io_getchar s cur ch dev' c k :
    running (kern s) cur →
    syscall_handle_getchar cur (dev s) (ring s) (kern s) = (ch, dev', c, k) →
    io_step s [] (match ch with Some ch => [ch] | None => [] end) (Io k c dev').

(** From the start of the kernel, all that was typed and all that was delivered. *)
Inductive io_run : list Z → list Z → io E → Prop :=
| run_start k : booted k → io_run [] [] (Io k empty_console [])
| run_step typed delivered s t d s' :
    io_run typed delivered s → io_step s t d s' → io_run (typed ++ t) (delivered ++ d) s'.

(** No process of [k'] has begun to wait for input. *)
Definition quiet k k' : Prop :=
  ∀ i, typing (proc_at k' i) → typing (proc_at k i).

Record io_ok (s : io E) : Prop := {
  io_kernel : kernel_ok (kern s);
  io_ring : ring_ok (ring s);
  io_chars : is_chars (dev s) ∧ is_chars (queue (ring s));
  io_waiters : input_count (ring s) ≠ 0 →
    ∀ i, ¬ typing (proc_at (kern s) i)
}.
End io.

Lemma queue_length c : ring_ok c → length (queue c) = Z.to_nat (input_count c).
Proof. intros _. unfold queue. by rewrite length_map, length_seq. Qed.

Lemma queue_nil c : ring_ok c → queue c = [] ↔ input_count c = 0.
Proof.
  intros Hc. pose proof (rk_count c Hc). rewrite <-length_zero_iff_nil, queue_length by done. lia.
Qed.

Lemma pop_queue c :
  ring_ok c →
  match input_pop c with
  | None => queue c = []
  | Some (ch, c') => ring_ok c' ∧ queue c = ch :: queue c'
  end.
Proof.
  intros Hc. pose proof Hc as [Hlen Hh Hn Ht]. unfold input_pop.
  destruct (Z.eqb_spec (input_count c) 0) as [Hz|Hz]; [by apply queue_nil|].
  rewrite !u32_small by lia. unfold INPUT_BUF_SIZE. split.
  - constructor; simpl; [done|zdiv|lia|rewrite Ht; zdiv].
  - unfold queue at 1. replace (Z.to_nat (input_count c)) with (S (Z.to_nat (input_count c - 1))) by lia.
    simpl. f_equal.
    + f_equal. unfold ring_slot, INPUT_BUF_SIZE. f_equal. zdiv.
    + unfold queue. simpl. rewrite <-seq_shift, map_map. apply map_ext. intros i. f_equal.
      unfold ring_slot, INPUT_BUF_SIZE. simpl. f_equal. zdiv.
Qed.

Lemma push_queue ch c :
  ring_ok c → input_count c < 64 → 0 ≤ ch < 256 →
  ring_ok (input_push ch c) ∧ queue (input_push ch c) = queue c ++ [ch] ∧
  input_count (input_push ch c) = input_count c + 1.
Proof.
  intros Hc Hlt Hch. pose proof Hc as [Hlen Hh Hn Ht]. unfold input_push.
  assert (Htl : 0 ≤ input_tail c < 64) by (rewrite Ht; apply Z.mod_pos_bound; lia).
  rewrite (u8_small ch), !u32_small by lia. unfold INPUT_BUF_SIZE. split; [|split; [|done]].
  - constructor; simpl; [by rewrite length_insert|done|lia|]. rewrite Ht. zdiv.
  - unfold queue. simpl. replace (Z.to_nat (input_count c + 1)) with (Z.to_nat (input_count c) + 1)%nat by lia.
    rewrite seq_app, map_app. simpl. f_equal.
    + apply map_ext_in. intros i Hi%in_seq. unfold ring_slot, INPUT_BUF_SIZE. simpl.
      rewrite !nth_lookup. rewrite list_lookup_insert_ne; [done|]. zdiv.
    + f_equal. unfold ring_slot, INPUT_BUF_SIZE. simpl. rewrite nth_lookup.
      replace (Z.to_nat ((input_head c + Z.of_nat (Z.to_nat (input_count c))) mod 64))
        with (Z.to_nat (input_tail c)) by (rewrite Ht; f_equal; zdiv).
      rewrite list_lookup_insert_eq by lia. done.
Qed.

(** Polling moves characters from the device to the ring, in order, as long as there
    are some and there is room. *)
Lemma poll_loop_spec fuel d c :
  ring_ok c → is_chars d → 64 - input_count c ≤ Z.of_nat fuel →
  let '(d', c') := poll_loop fuel d c in
  ring_ok c' ∧ is_chars d' ∧ queue c' ++ d' = queue c ++ d ∧
  (d' = [] ∨ input_count c' = 64) ∧ (∃ t, d = t ++ d' ∧ queue c' = queue c ++ t).
Proof.
  revert d c. induction fuel as [|fuel IH]; intros d c Hc Hd Hf; pose proof (rk_count c Hc) as Hn; simpl.
  - split; [done|]. split; [done|]. split; [done|]. split; [right; lia|]. exists []. by rewrite app_nil_r.
  - unfold INPUT_BUF_SIZE. destruct (Z.leb_spec 64 (input_count c)).
    { split; [done|]. split; [done|]. split; [done|]. split; [right; lia|].
      exists []. by rewrite app_nil_r. }
    destruct d as [|ch d]; simpl.
    { split; [done|]. split; [done|]. split; [done|]. split; [by left|]. exists []. by rewrite (app_nil_r (queue c)). }
    apply Forall_cons in Hd as [Hch Hd]. destruct (Z.ltb_spec ch 0); [lia|].
    destruct (push_queue ch c Hc) as (Hc'&Hq&Hcount); [lia|done|].
    specialize (IH d (input_push ch c) Hc' Hd ltac:(lia)).
    destruct (poll_loop fuel d _) as [d' c']. destruct IH as (?&?&Hqq&?&t&->&Ht).
    split; [done|]. split; [done|]. rewrite Hqq, Hq, <-app_assoc. split; [done|]. split; [done|].
    exists (ch :: t). split; [done|]. by rewrite Ht, Hq, <-app_assoc.
Qed.

Lemma is_chars_app l1 l2 : is_chars (l1 ++ l2) ↔ is_chars l1 ∧ is_chars l2.
Proof. apply Forall_app. Qed.

(** ** Who waits for input *)

Section waiters.
Context {E : Type} `{ProcEnv E}.
Implicit Types k : kstate E.

Lemma quiet_refl k : quiet k k.
Proof. by intros i. Qed.

Lemma quiet_trans k1 k2 k3 : quiet k1 k2 → quiet k2 k3 → quiet k1 k3.
Proof. intros H1 H2 i Hw. by apply H1, H2. Qed.

Lemma quiet_procs k k' : procs k' = procs k → quiet k k'.
Proof. intros Hp i. unfold proc_at. by rewrite Hp. Qed.

Lemma quiet_sync i k : quiet k (procfs_sync_best_effort i k).
Proof. apply quiet_procs, procs_sync. Qed.

Lemma quiet_insert k k' i p :
  procs k' = <[i := p]> (procs k) → (typing p → typing (proc_at k i)) → quiet k k'.
Proof.
  intros Hk' Hp j. unfold proc_at. rewrite Hk', !nth_lookup.
  destruct (decide (j = i)) as [->|]; [|by rewrite list_lookup_insert_ne].
  destruct (decide (i < length (procs k))%nat) as [Hi|Hi].
  - rewrite list_lookup_insert_eq by done. simpl. intros Hw%Hp. unfold proc_at in Hw.
    by rewrite nth_lookup in Hw.
  - by rewrite list_insert_ge by lia.
Qed.

Lemma quiet_upd k i f : (typing (f (proc_at k i)) → typing (proc_at k i)) → quiet k (upd_proc k i f).
Proof. apply quiet_insert. done. Qed.

Lemma quiet_wake k i : quiet k (wake i k).
Proof. eapply quiet_trans; [|apply quiet_sync]. apply quiet_upd. by intros [? _]. Qed.

Lemma quiet_zfor n i (body : Z → kstate E → kstate E) k :
  (∀ j k, quiet k (body j k)) → quiet k (zfor n i body k).
Proof.
  intros Hb. apply (zfor_inv (λ _ k', quiet k k')); [apply quiet_refl|].
  intros j k1 _ Hq. eapply quiet_trans; [exact Hq|apply Hb].
Qed.

Lemma quiet_wakeup k : quiet k (wakeup_input_waiters k).
Proof. apply quiet_zfor. intros j k1. cbv zeta. case_if; [apply quiet_wake|apply quiet_refl]. Qed.

Lemma quiet_notify i k : quiet k (notify_child_exit i k).
Proof.
  unfold notify_child_exit. case_if; [apply quiet_refl|]. apply quiet_zfor. intros j k1.
  repeat case_if; auto using quiet_refl, quiet_wake.
Qed.

Lemma quiet_orphan c k : quiet k (orphan_children c k).
Proof.
  unfold orphan_children. case_if; [apply quiet_refl|]. intros i. unfold proc_at. simpl.
  rewrite !nth_lookup, list_lookup_fmap. destruct (procs k !! i) as [p|]; simpl; [|done].
  by destruct (parent_pid p =? c).
Qed.

Lemma quiet_recycle i k k' : recycle_process_slot i k = Some k' → quiet k k'.
Proof.
  unfold recycle_process_slot. destruct (procfs_cleanup _ _) as [r e].
  destruct (free_process_memory _ _) as [[p e']|]; [|done]. intros [= <-].
  eapply quiet_insert; [reflexivity|]. by intros [? _].
Qed.

Lemma quiet_reap k k' : reap_exited_processes k = Some k' → quiet k k'.
Proof.
  intros Hr. apply (zfor_opt_inv (λ _ k', quiet k k')) in Hr; [done|apply quiet_refl|].
  intros j k1 k2 _ Hq Hb. cbv zeta in Hb. repeat case_if_in Hb; simplify_eq; try done.
  eapply quiet_trans; [exact Hq|by eapply quiet_recycle].
Qed.

Lemma quiet_env k e : quiet k (set_env k e).
Proof. by apply quiet_procs. Qed.

Lemma quiet_tick k : quiet k (scheduler_on_timer_tick k).
Proof.
  unfold scheduler_on_timer_tick. destruct (current_proc k) as [cur|]; [|apply quiet_refl].
  cbv zeta. case_if; [apply quiet_refl|].
  destruct (_ =? 0); (eapply quiet_insert; [reflexivity|intros Hw; exact Hw]).
Qed.

Lemma quiet_yield_loop cur k : quiet k (yielded_state (yield_loop cur k)).
Proof.
  unfold yield_loop. destruct (pick_next _ _) as [next|]; [|apply quiet_refl].
  case_if; simpl; [case_if|]; try (eapply quiet_insert; [reflexivity|intros Hw; exact Hw]). by apply quiet_procs.
Qed.

Lemma quiet_create image name k r k' : create_process image name k = Some (r, k') → quiet k k'.
Proof.
  unfold create_process. destruct (reap_exited_processes k) as [k1|] eqn:Hr; [|done].
  intros Hc. eapply quiet_trans; [by eapply quiet_reap|].
  destruct (find_unused k1) as [i|]; [|simplify_eq; apply quiet_refl].
  destruct (create_space _ _) as [[table e]|]; [|done]. cbv zeta in Hc.
  eapply quiet_trans; [apply (quiet_env _ e)|].
  destruct (fs_get_root_entry _) as [[rm rn]|].
  - simplify_eq. eapply quiet_trans; [|apply quiet_sync]. apply quiet_upd. intros [_ Hs]; by destruct name.
  - destruct (recycle_process_slot _ _) as [k2|] eqn:Hk2; simplify_eq. by eapply quiet_recycle.
Qed.

Lemma quiet_fork_fail i k r k' : fork_fail i k = Some (r, k') → quiet k k'.
Proof.
  unfold fork_fail. destruct (recycle_process_slot i k) eqn:Hr; [|done]. intros [= _ <-].
  by eapply quiet_recycle.
Qed.

Lemma quiet_fork k r k' : process_fork k = Some (r, k') → quiet k k'.
Proof.
  unfold process_fork, alloc_proc_slot.
  destruct (reap_exited_processes k) as [k1|] eqn:Hr; [|done]. apply quiet_reap in Hr.
  destruct (find_unused k1) as [i|]; [|intros [= _ <-]; exact Hr].
  intros Hf. eapply quiet_trans; [exact Hr|]. clear Hr. cbn zeta in Hf.
  match type of Hf with context [upd_proc k1 i ?f] =>
    eapply quiet_trans; [apply (quiet_upd k1 i f); by intros [? _]|] end.
  match type of Hf with context [current_proc ?k2] => set (k2' := k2) in * end.
  destruct (current_proc k2') as [cur|]; [|by eapply quiet_fork_fail].
  destruct (negb _ && negb _); [by eapply quiet_fork_fail|].
  assert (Hi : quiet k2' (upd_proc k2' i (inherit (proc_at k2' cur)))) by (apply quiet_upd; intros Hw; exact Hw).
  eapply quiet_trans; [exact Hi|]. clear Hi.
  destruct (copy_space _ _) as [[[ok table] e]|]; [|done].
  eapply quiet_trans; [apply (quiet_env _ e)|].
  destruct (table =? 0); [by eapply quiet_fork_fail|].
  match type of Hf with context [upd_proc ?k3 i ?f] =>
    eapply quiet_trans; [apply (quiet_upd k3 i f); intros Hw; exact Hw|] end.
  destruct ok; simpl in Hf; [|by eapply quiet_fork_fail].
  destruct (fs_fork_copy_fds _ _ _) as [r1 e1]. eapply quiet_trans; [apply (quiet_env _ e1)|].
  destruct (r1 <? 0); [by eapply quiet_fork_fail|]. simplify_eq.
  eapply quiet_trans; [|apply quiet_sync]. apply quiet_upd. by intros [? _].
Qed.

Lemma quiet_exec image name argc argv k r k' :
  process_exec image name argc argv k = Some (r, k') → quiet k k'.
Proof.
  unfold process_exec. destruct (current_proc k) as [cur|]; [|intros [= _ <-]; apply quiet_refl].
  destruct image as [image|]; [|intros [= _ <-]; apply quiet_refl].
  destruct (_ =? 0); [intros [= _ <-]; apply quiet_refl|]. cbv zeta.
  destruct (replace_image _ _ _) as [[ok e]|]; [|done]. intros He.
  eapply quiet_trans; [apply (quiet_env _ e)|].
  match type of He with context [if page_table ?p =? 0 then ?a else ?b] =>
    set (k1 := if page_table p =? 0 then a else b) in * end.
  assert (Hk1 : quiet (set_env k e) k1).
  { unfold k1. destruct (_ =? 0); [apply quiet_refl|]. apply quiet_upd. intros Hw; exact Hw. }
  eapply quiet_trans; [exact Hk1|]. destruct ok; simpl in He; simplify_eq; [|apply quiet_refl].
  eapply quiet_trans; [|apply quiet_sync]. apply quiet_upd. intros [_ Hs]. unfold set_exec_args in Hs.
  destruct argv, name; simpl in Hs; try discriminate; by destruct (argc <=? 0).
Qed.

Lemma quiet_exit cur k : quiet k (exit_current cur k).
Proof.
  unfold exit_current. eapply quiet_trans; [apply (quiet_orphan (pid (proc_at k cur)))|].
  destruct (procfs_sync_process _ _) as [r e]. eapply quiet_trans; [|apply quiet_notify].
  eapply quiet_trans; [|apply quiet_env]. apply quiet_upd. by intros [? _].
Qed.

Lemma quiet_waitpid cur parent target k o :
  wait_for_child_exit cur parent target k = Some o → quiet k (outcome_state o).
Proof.
  unfold wait_for_child_exit. destruct (parent <=? 0); [intros [= <-]; apply quiet_refl|].
  destruct (wait_scan _ _ _ _ _) as [[i|] [|]].
  1,2: destruct (recycle_process_slot i k) eqn:Hr; [|done]; intros [= <-]; by eapply quiet_recycle.
  - intros [= <-]. eapply quiet_trans; [|apply quiet_sync]. apply quiet_upd. by intros [_ ?].
  - intros [= <-]. apply quiet_refl.
Qed.

Lemma quiet_kill target k o : process_kill target k = Some o → quiet k (outcome_state o).
Proof.
  unfold process_kill. destruct (target <=? 0); [intros [= <-]; apply quiet_refl|].
  destruct (find_process_by_pid target k) as [t|]; [|intros [= <-]; apply quiet_refl].
  destruct (_ =? PROC_EXITED); [intros [= <-]; apply quiet_refl|].
  destruct (bool_decide (init_proc k = Some t)); [intros [= <-]; apply quiet_refl|]. cbv zeta.
  match goal with |- context [upd_proc (notify_child_exit t ?k2) t (set_parent 0)] =>
    set (k1 := upd_proc (notify_child_exit t k2) t (set_parent 0)) end.
  assert (Hk1 : quiet k k1).
  { eapply quiet_trans; [apply quiet_orphan|]. eapply quiet_trans; [|apply quiet_upd; intros Hw; exact Hw].
    eapply quiet_trans; [|apply quiet_notify]. eapply quiet_trans; [|apply quiet_sync].
    apply quiet_upd. by intros [? _]. }
  case_if; [by intros [= <-]|]. destruct (recycle_process_slot t k1) eqn:Hr; [|done].
  intros [= <-]. eapply quiet_trans; [exact Hk1|by eapply quiet_recycle].
Qed.

Lemma quiet_send src dst msg k r k' : process_ipc_send src dst msg k = (r, k') → quiet k k'.
Proof.
  unfold process_ipc_send. destruct (find_process_by_pid dst k) as [i|]; [|intros [= _ <-]; apply quiet_refl].
  destruct (_ =? PROC_EXITED); [intros [= _ <-]; apply quiet_refl|].
  destruct (negb _); [intros [= _ <-]; apply quiet_refl|]. cbv zeta. intros [= _ <-].
  eapply quiet_trans; [apply (quiet_upd k i (set_mailbox 1 src msg)); intros Hw; exact Hw|].
  case_if; [apply quiet_wake|apply quiet_refl].
Qed.

Lemma quiet_recv target k : quiet k (outcome_state (process_ipc_recv target k)).
Proof.
  unfold process_ipc_recv. destruct (find_process_by_pid target k) as [i|]; [|apply quiet_refl].
  unfold ipc_recv_loop. destruct (_ =? 0); simpl.
  - eapply quiet_trans; [|apply quiet_sync]. apply quiet_upd. by intros [_ ?].
  - apply quiet_upd. intros Hw; exact Hw.
Qed.

Lemma quiet_kcall k k' : kcall k k' → quiet k k'.
Proof.
  intros Hc. destruct Hc.
  - apply quiet_tick.
  - unfold yield in *. destruct (reap_exited_processes k) as [k1|] eqn:Hr; simplify_eq.
    eapply quiet_trans; [by eapply quiet_reap|]. apply quiet_yield_loop.
  - unfold clone_process in *. destruct (create_process _ _ _) as [[[i|] k1]|] eqn:Hcr; simplify_eq.
    + eapply quiet_trans; [by eapply quiet_create|]. apply quiet_upd. intros Hw; exact Hw.
    + by eapply quiet_create.
  - by eapply quiet_fork.
  - by eapply quiet_exec.
  - apply quiet_exit.
  - by eapply quiet_waitpid.
  - by eapply quiet_kill.
  - by eapply quiet_send.
  - apply quiet_recv.
  - unfold enter_dir. destruct (procfs_sync_process _ _). eapply quiet_trans; [|apply quiet_env].
    apply quiet_upd. intros Hw; exact Hw.
Qed.
End waiters.

(** ** Waking the readers *)

Section theorems.
Context {E : Type} `{ProcEnv E}.
Implicit Types (k : kstate E) (s : io E).

Lemma proc_at_set k i q j :
  (i < length (procs k))%nat → proc_at (set_proc k i q) j = if decide (j = i) then q else proc_at k j.
Proof.
  intros Hi. unfold proc_at, set_proc. simpl. rewrite !nth_lookup. destruct (decide _) as [->|].
  - by rewrite list_lookup_insert_eq by done.
  - by rewrite list_lookup_insert_ne by done.
Qed.

Lemma proc_at_wake k i j :
  (i < length (procs k))%nat →
  proc_at (wake i k) j = if decide (j = i) then woken (proc_at k i) else proc_at k j.
Proof. intros Hi. rewrite <-(proc_at_set k) by done. unfold wake, proc_at at 1. by rewrite procs_sync. Qed.

Definition is_typing (p : process) : bool :=
  (state p =? PROC_WAITTING) && (wait_reason p =? PROC_WAIT_CONSOLE_INPUT).

Lemma is_typing_spec p : is_typing p = true ↔ typing p.
Proof. unfold is_typing, typing, waits. rewrite andb_true_iff, !Z.eqb_eq. done. Qed.

(** [wakeup_input_waiters] wakes every process that waits for input, and does nothing
    to the others. *)
Lemma wakeup_at k i :
  length (procs k) = 64%nat → (i < 64)%nat →
  proc_at (wakeup_input_waiters k) i =
  if is_typing (proc_at k i) then woken (proc_at k i) else proc_at k i.
Proof.
  intros Hlen Hi. unfold wakeup_input_waiters.
  match goal with |- context [zfor ?n 0 ?b k] =>
    pose proof (zfor_inv (λ j k', length (procs k') = 64%nat ∧ ∀ i, proc_at k' i =
      if (Z.of_nat i <? j) && is_typing (proc_at k i) then woken (proc_at k i) else proc_at k i)
      n 0 b k) as Hz end.
  destruct Hz as (_&Hz).
  - split; [done|]. intros l. by destruct (Z.ltb_spec (Z.of_nat l) 0); [lia|].
  - intros j k' Hj [Hl Hk']. unfold PROCS_MAX in Hj. cbv zeta.
    assert (Hj' : proc_at k' (Z.to_nat j) = proc_at k (Z.to_nat j)).
    { rewrite Hk'. by destruct (Z.ltb_spec (Z.of_nat (Z.to_nat j)) j); [lia|]. }
    change ((state ?p =? PROC_WAITTING) && _) with (is_typing p). rewrite Hj'.
    assert (Hother : ∀ l, l ≠ Z.to_nat j → (Z.of_nat l <? j) = (Z.of_nat l <? j + 1)) by lia.
    destruct (is_typing (proc_at k (Z.to_nat j))) eqn:Ht; split.
    + unfold wake. rewrite procs_sync. simpl. by rewrite length_insert.
    + intros l. rewrite proc_at_wake by lia. destruct (decide _) as [->|Hne].
      * rewrite Ht, Hj'. by destruct (Z.ltb_spec (Z.of_nat (Z.to_nat j)) (j + 1)); [|lia].
      * by rewrite Hk', Hother.
    + done.
    + intros l. rewrite Hk'. destruct (decide (l = Z.to_nat j)) as [->|Hne].
      * by rewrite Ht, !andb_false_r.
      * by rewrite Hother.
  - rewrite Hz. change (0 + Z.of_nat (Z.to_nat PROCS_MAX)) with 64.
    by destruct (Z.ltb_spec (Z.of_nat i) 64); [|lia].
Qed.

Lemma proc_at_out k i : length (procs k) = 64%nat → (64 ≤ i)%nat → proc_at k i = zero_proc.
Proof. intros Hlen Hi. apply nth_overflow. lia. Qed.

Lemma length_wakeup k : length (procs k) = 64%nat → length (procs (wakeup_input_waiters k)) = 64%nat.
Proof.
  intros Hlen. apply (zfor_inv (λ _ k', length (procs k') = 64%nat)); [done|].
  intros j k' _ Hl. cbv zeta. case_if; [|done]. unfold wake. rewrite procs_sync. simpl.
  by rewrite length_insert.
Qed.

Lemma wakeup_none k i : length (procs k) = 64%nat → ¬ typing (proc_at (wakeup_input_waiters k) i).
Proof.
  intros Hlen. destruct (decide (i < 64)%nat) as [Hi|Hi].
  - rewrite wakeup_at by done. destruct (is_typing _) eqn:Ht; [by intros [? _]|].
    rewrite <-is_typing_spec, Ht. done.
  - rewrite proc_at_out by (try apply length_wakeup; try done; lia). by intros [? _].
Qed.

Lemma running_wakeup k cur :
  kernel_ok k → running k cur → running (wakeup_input_waiters k) cur.
Proof.
  intros [Hok _ _] Hrun. destruct (kept_wakeup_input k Hok) as (Hok'&Hc&_).
  destruct (running_proc k cur Hrun) as [Hp Hs]. destruct Hrun as (Hcur&H0&_).
  pose proof (lookup_lt_Some _ _ _ Hp) as Hl. rewrite (pk_len _ Hok) in Hl.
  split; [by rewrite Hc|]. split; [done|]. exists (proc_at (wakeup_input_waiters k) cur).
  split; [apply lookup_proc_at; by rewrite (pk_len _ Hok')|].
  rewrite wakeup_at by (try apply (pk_len _ Hok); done). by case_if.
Qed.

Lemma poll_spec d c k :
  ring_ok c → is_chars d → kernel_ok k →
  (input_count c ≠ 0 → ∀ i, ¬ typing (proc_at k i)) →
  let '(d', c', k') := poll_console_input d c k in
  kernel_ok k' ∧ ring_ok c' ∧ is_chars d' ∧ quiet k k' ∧
  (input_count c' ≠ 0 → ∀ i, ¬ typing (proc_at k' i)) ∧
  queue c' ++ d' = queue c ++ d ∧ (d' = [] ∨ input_count c' = 64) ∧
  k' = (if decide (queue c ++ d = []) then k else wakeup_input_waiters k) ∧
  (∀ cur, running k cur → running k' cur).
Proof.
  intros Hc Hd Hk Hw. unfold poll_console_input.
  pose proof (poll_loop_spec 64 d c Hc Hd) as Hp. destruct (poll_loop 64 d c) as [d' c'].
  destruct Hp as (Hc'&Hd'&Hq&Hend&_); [pose proof (rk_count c Hc); lia|].
  pose proof (rk_count c' Hc'). pose proof (queue_nil c' Hc') as Hnil.
  pose proof (pk_len _ (kk_table _ Hk)) as Hlen. rewrite <-Hq.
  destruct (Z.ltb_spec 0 (input_count c')).
  - rewrite decide_False by (intros [Hn _]%app_eq_nil; apply Hnil in Hn; lia).
    split; [apply (kernel_ok_kept' _ _ Hk), kept_wakeup_input, Hk|]. split; [done|]. split; [done|].
    split; [apply quiet_wakeup|]. split; [intros _ i; by apply wakeup_none|]. split; [done|].
    split; [done|]. split; [done|]. intros cur. by apply running_wakeup.
  - assert (Hn : queue c' = []) by (apply Hnil; lia).
    destruct Hend as [->|?]; [|lia]. rewrite decide_True by (by rewrite Hn).
    split; [done|]. split; [done|]. split; [done|]. split; [apply quiet_refl|]. split; [lia|].
    split; [done|]. split; [by left|]. split; [done|]. done.
Qed.

(** What [syscall_handle_getchar] does. *)
Lemma getchar_spec cur d c k r d' c' k' :
  ring_ok c → is_chars (queue c ++ d) → kernel_ok k → running k cur →
  (input_count c ≠ 0 → ∀ i, ¬ typing (proc_at k i)) →
  syscall_handle_getchar cur d c k = (r, d', c', k') →
  kernel_ok k' ∧ ring_ok c' ∧ (input_count c' ≠ 0 → ∀ i, ¬ typing (proc_at k' i)) ∧
  match r with
  | Some ch => queue c ++ d = ch :: queue c' ++ d' ∧ running k' cur
  | None => queue c ++ d = [] ∧ queue c' ++ d' = [] ∧ typing (proc_at k' cur)
  end.
Proof.
  intros Hc Hcd Hk Hrun Hw Hg. unfold syscall_handle_getchar in Hg.
  assert (Hgot : ∀ k, kernel_ok k → running k cur →
    kernel_ok (got_input cur k) ∧ running (got_input cur k) cur ∧ quiet k (got_input cur k)).
  { clear. intros k Hk Hrun. pose proof (kept_got_input k cur (kk_table _ Hk) Hrun) as Hkept.
    destruct (running_proc k cur Hrun) as [Hp Hs].
    split; [by apply (kernel_ok_kept' _ _ Hk)|]. split.
    - destruct Hrun as (?&?&_). split; [done|]. split; [done|]. unfold got_input.
      rewrite (procs_upd k cur _ _ Hp). eexists. split; [by eapply lookup_change_eq|done].
    - apply quiet_upd. by intros [_ ?]. }
  apply is_chars_app in Hcd as [Hqc Hd].
  pose proof (pop_queue c Hc) as Hpop. destruct (input_pop c) as [[ch c1]|].
  - destruct Hpop as [Hc1 Hq]. rewrite Hq in Hqc. apply Forall_cons in Hqc as [Hch _].
    rewrite u8_small in Hg by done. simplify_eq. destruct (Hgot k Hk Hrun) as (?&?&Hqu).
    split; [done|]. split; [done|]. split; [|by rewrite Hq].
    assert (input_count c ≠ 0) as Hn by (intros F%(queue_nil c Hc); by rewrite Hq in F).
    intros _ i Hi. by apply (Hw Hn i), Hqu.
  - pose proof (poll_spec d c k Hc Hd Hk Hw) as Hp. rewrite Hpop in *. simpl in *.
    destruct (poll_console_input d c k) as [[d1 c1] k1].
    destruct Hp as (Hk1&Hc1&Hd1&Hqu1&Hw1&Hq1&Hend&_&Hrun1).
    pose proof (pop_queue c1 Hc1) as Hpop1. destruct (input_pop c1) as [[ch c2]|].
    + destruct Hpop1 as [Hc2 Hq2]. rewrite Hq2 in Hq1.
      assert (Hch : 0 ≤ ch < 256) by (rewrite <-Hq1 in Hd; by apply Forall_cons in Hd as [? _]).
      rewrite u8_small in Hg by done. simplify_eq.
      destruct (Hgot k1 Hk1 (Hrun1 cur Hrun)) as (?&?&Hqu2).
      split; [done|]. split; [done|]. split; [|done].
      assert (input_count c1 ≠ 0) as Hn by (intros F%(queue_nil c1 Hc1); by rewrite Hq2 in F).
      intros _ i Hi. by apply (Hw1 Hn i), Hqu2.
    + assert (Hz : input_count c1 = 0) by (by apply queue_nil).
      destruct Hend as [->|?]; [|lia]. rewrite Hpop1 in Hq1. injection Hg as <- <- <- <-.
      rewrite Hpop1, <-Hq1.
      split; [|split; [done|split; [lia|split; [done|split; [done|]]]]].
      * apply (kernel_ok_kept' _ _ Hk1), kept_wait_input; [apply Hk1|by apply Hrun1].
      * destruct (running_proc k1 cur (Hrun1 cur Hrun)) as [Hp1 _].
        unfold wait_input, upd_proc. rewrite proc_at_set by (by eapply lookup_lt_Some).
        rewrite decide_True by done. done.
Qed.

Lemma ring_ok_empty : ring_ok empty_console.
Proof. by constructor. Qed.

Lemma io_step_ok s t d s' :
  io_step s t d s' → io_ok s →
  io_ok s' ∧ is_chars t ∧ queue (ring s) ++ dev s ++ t = d ++ queue (ring s') ++ dev s'.
Proof.
  intros Hs [Hk Hr [Hd Hq] Hw].
  destruct Hs as [s chs Hchs|s k' Hc|s e|s|s cur r d' c' k' Hrun Hg]; simpl in *.
  - split; [constructor; simpl; try done|done]. by rewrite is_chars_app.
  - split; [|split; [by constructor|by rewrite app_nil_r]]. constructor; simpl; [by eapply kcall_ok|done|done|].
    intros Hn i Hi. by apply (Hw Hn i), (quiet_kcall _ _ Hc).
  - split; [constructor; simpl; [by destruct Hk|done|done|done]|]. split; [by constructor|by rewrite app_nil_r].
  - pose proof (poll_spec (dev s) (ring s) (kern s) Hr Hd Hk Hw) as Hp.
    destruct (poll_console_input _ _ _) as [[d1 c1] k1]. destruct Hp as (?&?&?&_&?&Hqq&_).
    split; [|split; [by constructor|rewrite app_nil_r; by symmetry]]. constructor; simpl; try done.
    apply and_comm. rewrite <-is_chars_app, Hqq. by apply is_chars_app.
  - destruct (getchar_spec cur (dev s) (ring s) (kern s) r d' c' k') as (Hk'&Hr'&Hw'&Hres); try done.
    { by apply is_chars_app. }
    assert (Hqq : queue (ring s) ++ dev s = match r with Some ch => [ch] | None => [] end ++ queue c' ++ d').
    { destruct r; [by destruct Hres|]. by destruct Hres as (->&->&_). }
    split; [|split; [by constructor|by rewrite app_nil_r]]. constructor; simpl; try done.
    apply and_comm. rewrite <-is_chars_app.
    assert (Hall : is_chars (queue (ring s) ++ dev s)) by (by apply is_chars_app).
    rewrite Hqq in Hall. by apply is_chars_app in Hall as [_ ?].
Qed.

Lemma io_run_ok typed delivered s :
  io_run typed delivered s → io_ok s ∧ typed = delivered ++ queue (ring s) ++ dev s.
Proof.
  induction 1 as [k Hb|typed delivered s t d s' _ [Hok IH] Hs].
  - split; [|done]. constructor; simpl; [by apply booted_ok|apply ring_ok_empty|by split; constructor|done].
  - destruct (io_step_ok s t d s' Hs Hok) as (Hok'&_&Hq). split; [done|].
    rewrite IH, <-!app_assoc. f_equal. exact Hq.
Qed.

(** C12. The console is a queue: at any time, whatever the processes and the user have
    done since the start of the kernel, the characters typed are those that were
    delivered to processes, in order and each once, then those in the ring, at most
    64, then those the device still holds. *)
Theorem console_fifo typed delivered s :
  io_run typed delivered s →
  typed = delivered ++ queue (ring s) ++ dev s ∧ (length (queue (ring s)) ≤ 64)%nat.
Proof.
  intros [Hok Htyped]%io_run_ok. split; [exact Htyped|].
  pose proof (io_ring s Hok) as Hr. pose proof (rk_count _ Hr).
  rewrite (queue_length _ Hr). lia.
Qed.

(** C13. No process sleeps on input that is there: while a process waits for a
    character the ring is empty, and the next poll, if the device has characters,
    takes the first 64 of them and makes the process runnable. *)
Theorem no_lost_input typed delivered s i p :
  io_run typed delivered s → procs (kern s) !! i = Some p →
  state p = PROC_WAITTING → wait_reason p = PROC_WAIT_CONSOLE_INPUT →
  queue (ring s) = [] ∧
  (dev s ≠ [] →
   let '(dev', c, k) := poll_console_input (dev s) (ring s) (kern s) in
   queue c = take 64 (dev s) ∧ dev' = drop 64 (dev s) ∧
   ∃ p', procs k !! i = Some p' ∧ pid p' = pid p ∧ state p' = PROC_RUNNABLE).
Proof.
  intros [Hok _]%io_run_ok Hp Hs Hreason. pose proof Hok as [Hk Hr [Hd _] Hw].
  pose proof (proc_at_lookup _ _ _ Hp) as Hat.
  assert (Ht : typing (proc_at (kern s) i)) by (rewrite Hat; by split).
  assert (Hz : input_count (ring s) = 0).
  { destruct (decide (input_count (ring s) = 0)); [done|]. by destruct (Hw ltac:(done) i). }
  assert (Hq : queue (ring s) = []) by (by apply queue_nil). split; [done|]. intros Hdev.
  pose proof (poll_spec (dev s) (ring s) (kern s) Hr Hd Hk Hw) as Hpoll. rewrite Hq in Hpoll.
  destruct (poll_console_input _ _ _) as [[d' c'] k'].
  destruct Hpoll as (Hk'&Hr'&_&_&_&Hqq&Hend&->&_). simpl in Hqq. rewrite decide_False in * by done.
  pose proof (queue_length c' Hr') as Hlen. pose proof (rk_count c' Hr') as Hn.
  rewrite <-Hqq. split; [|split].
  - destruct Hend as [->|Hfull]; [rewrite app_nil_r, take_ge; [done|lia]|].
    by rewrite take_app_length' by lia.
  - destruct Hend as [->|Hfull]; [rewrite app_nil_r, drop_ge; [done|lia]|].
    by rewrite drop_app_length' by lia.
  - pose proof (pk_len _ (kk_table _ Hk)) as Hl. pose proof (lookup_lt_Some _ _ _ Hp) as Hi.
    exists (woken p). split; [|done]. rewrite lookup_proc_at by (rewrite length_wakeup; lia).
    rewrite wakeup_at by lia. apply is_typing_spec in Ht. by rewrite Ht, Hat.
Qed.

Lemma console_read_from n cur d c k :
  ring_ok c → is_chars (queue c ++ d) → kernel_ok k → running k cur →
  (input_count c ≠ 0 → ∀ i, ¬ typing (proc_at k i)) →
  let '(chs, rest, d', c', k') := console_read n cur d c k in
  chs = take n (queue c ++ d) ∧ rest = (n - length (queue c ++ d))%nat ∧
  queue c' ++ d' = drop n (queue c ++ d) ∧ (rest ≠ O → typing (proc_at k' cur)).
Proof.
  revert d c k. induction n as [|n IH]; intros d c k Hc Hch Hk Hrun Hw; cbn [console_read].
  { split; [done|]. split; [lia|]. by split. }
  destruct (syscall_handle_getchar cur d c k) as [[[r d1] c1] k1] eqn:Hg.
  destruct (getchar_spec cur d c k r d1 c1 k1 Hc Hch Hk Hrun Hw Hg) as (Hk1&Hc1&Hw1&Hr).
  destruct r as [ch|].
  - destruct Hr as [Hq Hrun1]. rewrite Hq in *. apply Forall_cons in Hch as [_ Hch].
    specialize (IH d1 c1 k1 Hc1 Hch Hk1 Hrun1 Hw1).
    destruct (console_read n cur d1 c1 k1) as [[[[chs rest] d2] c2] k2].
    destruct IH as (->&->&Hq2&Ht). simpl. auto.
  - destruct Hr as (Hq&Hq1&Ht). rewrite Hq, Hq1. split; [done|]. simpl. split; [lia|]. done.
Qed.

(** A read of [n] characters from the console returns the next [n] typed, in
    order, when there are so many; otherwise it has taken all there are and the process
    waits for the rest. *)
Theorem console_read_spec typed delivered s cur n :
  io_run typed delivered s → running (kern s) cur →
  let '(chs, rest, dev', c, k) := console_read n cur (dev s) (ring s) (kern s) in
  let pending := drop (length delivered) typed in
  chs = take n pending ∧ rest = (n - length pending)%nat ∧
  queue c ++ dev' = drop n pending ∧
  (rest ≠ O → state (proc_at k cur) = PROC_WAITTING ∧
              wait_reason (proc_at k cur) = PROC_WAIT_CONSOLE_INPUT).
Proof.
  intros [Hok Htyped]%io_run_ok Hrun. pose proof Hok as [Hk Hr [Hd Hq] Hw].
  assert (Hch : is_chars (queue (ring s) ++ dev s)) by (by apply is_chars_app).
  pose proof (console_read_from n cur (dev s) (ring s) (kern s) Hr Hch Hk Hrun Hw) as Hread.
  rewrite Htyped, drop_app_length.
  destruct (console_read n cur (dev s) (ring s) (kern s)) as [[[[chs rest] d'] c'] k'].
  exact Hread.
Qed.
End theorems.
