(* ===== verification/ConsoleTests.v ===== *)
(** * The theorems on the console at concrete inputs

    The shell of [ProcessTests] waits for a character while the user types. *)
From Stdlib Require Import ZArith Lia ZifyBool String.
From stdpp Require Import base tactics list numbers option relations.
From S2P Require Import Prelude CString Process ProcessSpec ProcessOps Scheduler ProcessTests.
From S2P Require Import Console ConsoleSpec.
#[local] Open Scope Z_scope.

(** The shell has been scheduled, has asked for a character and waits; the user
    types ["hi"]. *)
Definition typed_text : list Z := bytes "hi".
Definition asked := syscall_handle_getchar 1 [] empty_console k1.
Definition io_ready : io log_env := Io k1 empty_console [].
Definition io_typed : io log_env := Io k1 empty_console ([] ++ typed_text).
Definition io_asked : io log_env := Io asked.2 asked.1.2 asked.1.1.2.
Definition io_waits : io log_env := Io (kern io_asked) (ring io_asked) (dev io_asked ++ typed_text).

Lemma typed_text_chars : is_chars typed_text.
Proof. repeat constructor; vm_compute; congruence. Qed.

Lemma run_ready : io_run [] [] io_ready.
Proof.
  apply (run_step [] [] (Io k0 empty_console []) [] [] io_ready); [exact (run_start k0 booted0)|].
  apply (io_call (Io k0 empty_console []) k1), (call_after_yield k0 0); vm_compute; reflexivity.
Qed.

Lemma run_typed : io_run typed_text [] io_typed.
Proof. exact (run_step [] [] io_ready typed_text [] io_typed run_ready (io_type io_ready typed_text typed_text_chars)). Qed.

Lemma run_waits : io_run typed_text [] io_waits.
Proof.
  assert (Ha : io_run [] [] io_asked).
  { apply (run_step [] [] io_ready [] [] io_asked run_ready).
    assert (Hn : asked.1.1.1 = None) by (vm_compute; reflexivity).
    pose proof (io_getchar io_ready 1 asked.1.1.1 asked.1.1.2 asked.1.2 asked.2 (runs_ok _ _ run1)) as Hs.
    rewrite Hn in Hs at 2. apply Hs. unfold asked. by destruct (syscall_handle_getchar _ _ _ _) as [[[? ?] ?] ?]. }
  exact (run_step [] [] io_asked typed_text [] io_waits Ha (io_type io_asked typed_text typed_text_chars)).
Qed.

Lemma console_fifo_witness : typed_text = [] ++ queue (ring io_typed) ++ dev io_typed.
Proof. exact (proj1 (console_fifo typed_text [] io_typed run_typed)). Defined.

Lemma no_lost_input_witness :
  queue (ring io_waits) = [] ∧
  let '(_, c, k) := poll_console_input (dev io_waits) (ring io_waits) (kern io_waits) in
  queue c = typed_text ∧ ∃ p', procs k !! 1%nat = Some p' ∧ pid p' = 1 ∧ state p' = PROC_RUNNABLE.
Proof.
  assert (H1 : procs (kern io_waits) !! 1%nat = Some (proc_at (kern io_waits) 1))
    by (apply proc_is; vm_compute; reflexivity).
  assert (Hs : state (proc_at (kern io_waits) 1) = PROC_WAITTING) by (vm_compute; reflexivity).
  assert (Hw : wait_reason (proc_at (kern io_waits) 1) = PROC_WAIT_CONSOLE_INPUT) by (vm_compute; reflexivity).
  assert (Hp : pid (proc_at (kern io_waits) 1) = 1) by (vm_compute; reflexivity).
  assert (Hd : dev io_waits = typed_text) by (vm_compute; reflexivity).
  destruct (no_lost_input typed_text [] io_waits 1 (proc_at (kern io_waits) 1) run_waits H1 Hs Hw)
    as [Hq Hpoll].
  split; [exact Hq|]. rewrite Hp, Hd in Hpoll. specialize (Hpoll ltac:(discriminate)).
  rewrite Hd. destruct (poll_console_input typed_text _ _) as [[d c] k].
  destruct Hpoll as (Hqq&_&Hx). exact (conj Hqq Hx).
Defined.

Lemma console_read_spec_witness :
  let '(chs, rest, _, _, _) := console_read 2 1 (dev io_typed) (ring io_typed) (kern io_typed) in
  chs = typed_text ∧ rest = 0%nat.
Proof.
  pose proof (console_read_spec typed_text [] io_typed 1 2 run_typed (runs_ok _ _ run1)) as H.
  destruct (console_read 2 1 _ _ _) as [[[[chs rest] d] c] k].
  destruct H as (Hc&Hr&_). exact (conj Hc Hr).
Defined.
