(* ===== verification/Kernel.v ===== *)
(** * The kernel put together ([src/kernel/kernel.c])

    The virtual file system and the physical memory are what the process table needs
    of the rest of the kernel: the instance of [ProcEnv] over them, and the start-up. *)
From Stdlib Require Import ZArith Lia ZifyBool String.
From stdpp Require Import base tactics list numbers option.
From S2P Require Import Prelude Memory CString BlockDev NodeFs Vfs Process PageTable Procfs.
#[local] Open Scope Z_scope.

Definition APP_ID_SHELL : Z := 1.
Definition APP_ID_IPC_RX : Z := 2.
Definition APP_ID_PS : Z := 3.
Definition APP_ID_DATE : Z := 4.
Definition APP_ID_LS : Z := 5.
Definition APP_ID_MKDIR : Z := 6.
Definition APP_ID_RMDIR : Z := 7.
Definition APP_ID_TOUCH : Z := 8.
Definition APP_ID_RM : Z := 9.
Definition APP_ID_WRITE : Z := 10.
Definition APP_ID_CAT : Z := 11.
Definition APP_ID_KILL : Z := 12.
Definition APP_ID_KERNEL_INFO : Z := 14.
Definition APP_ID_BITMAP : Z := 15.

(** The [APP_NAME_*] of [include/user_apps.h] by the cases of [resolve_app_image]. *)
Definition app_names : list (Z * string) :=
  [(APP_ID_SHELL, "shell"); (APP_ID_IPC_RX, "ipc_rx"); (APP_ID_PS, "ps"); (APP_ID_DATE, "date");
   (APP_ID_LS, "ls"); (APP_ID_MKDIR, "mkdir"); (APP_ID_RMDIR, "rmdir"); (APP_ID_TOUCH, "touch");
   (APP_ID_RM, "rm"); (APP_ID_WRITE, "write"); (APP_ID_CAT, "cat"); (APP_ID_KILL, "kill");
   (APP_ID_KERNEL_INFO, "kernel_info"); (APP_ID_BITMAP, "bitmap")]%string.

Section kernel.
Context {D : Type} `{BlockDev D}.
(** The linker symbols [__kernel_base], [__free_ram] and [__free_ram_end]. *)
Context (kernel_base free_ram free_ram_end : Z).
(** The binary the build links into the kernel for an application
    ([_binary___bin_*_bin_start] and [_size]), by the number of the application. *)
Context (app_image : Z → list Z).

(** [resolve_app_image] ([src/kernel/trap/syscall_process.c]): the image and the name. *)
Definition resolve_app_image (app_id : Z) : option (list Z * list Z) :=
  let! a := find (λ a, a.1 =? app_id) app_names in
  Some (app_image a.1, bytes a.2).

(** The state outside the process table. *)
Record machine := Machine { files : vfs D; memory_of : mem }.

Definition with_files (e : machine) (v : vfs D) : machine := Machine v (memory_of e).
Definition with_memory (e : machine) (m : mem) : machine := Machine (files e) m.

Definition sync_files (p : process) (e : machine) : bool * machine :=
  let '(ok, v) := Procfs.procfs_sync_process p (files e) in (ok, with_files e v).

Definition cleanup_files (p : process) (e : machine) : bool * machine :=
  let '(ok, v) := Procfs.procfs_cleanup p (files e) in (ok, with_files e v).

Definition fork_files (parent child : Z) (e : machine) : Z * machine :=
  let '(r, v) := Vfs.fs_fork_copy_fds parent child (files e) in (r, with_files e v).

(** [free_process_memory] of a process with a page table. *)
Definition release_space (p : process) (e : machine) : option machine :=
  let! m := free_address_space (page_table p) (user_pages p) (memory_of e) in
  Some (with_memory e m).

Definition make_space (image : list Z) (e : machine) : option (Z * machine) :=
  let! (table, m) := create_address_space kernel_base free_ram_end image (memory_of e) in
  Some (table, with_memory e m).

Definition duplicate_space (p : process) (e : machine) : option (bool * Z * machine) :=
  let! (ok, table, m) :=
    copy_address_space kernel_base free_ram_end (page_table p) (user_pages p) (memory_of e) in
  Some (ok, table, with_memory e m).

(** [free_user_pages_only] and the loop over the new image of [process_exec]. *)
Definition exec_space (p : process) (image : list Z) (e : machine) : option (bool * machine) :=
  let! m := if page_table p =? 0 then Some (memory_of e)
            else free_user_pages (page_table p) (user_pages p) (memory_of e) in
  let! (ok, m) := exec_image (page_table p) image m in
  Some (ok, with_memory e m).

#[global] Instance kernel_env : ProcEnv machine := {
  app image name := ∃ app_id, resolve_app_image app_id = Some (image, name);
  Process.procfs_sync_process := sync_files;
  Process.procfs_cleanup := cleanup_files;
  Process.fs_on_process_recycle pid e := with_files e (Vfs.fs_on_process_recycle pid (files e));
  Process.fs_fork_copy_fds := fork_files;
  Process.fs_get_root_entry e := Vfs.fs_get_root_entry (files e);
  free_space := release_space;
  create_space := make_space;
  copy_space := duplicate_space;
  replace_image := exec_space
}.

(** [kernel_main] up to its [yield]: the memory, the file systems ([img] is the work
    buffer of [pfs_init]), [idle] and the shell. *)
Definition kernel_main (img : list Z) (m : mem) (d : D) : option (kstate machine) :=
  let! (_, m) := memory_init free_ram free_ram_end m in
  let! v := fs_init img d in
  boot_processes (app_image APP_ID_SHELL) (KState (repeat zero_proc 64) None None false (Machine v m)).
End kernel.
