(* ===== verification/KernelTests.v ===== *)
(** * The kernel at concrete inputs

    A kernel started on a small memory and a blank disk, and the theorem on [/proc]
    applied in it. *)
From Stdlib Require Import ZArith Lia ZifyBool String.
From stdpp Require Import base tactics list numbers option.
From S2P Require Import Prelude Memory CString TimeFmt BlockDev NodeFs NodeFsSpec NodeFsOps NodeFsDisk.
From S2P Require Import Vfs VfsSpec Process PageTable Procfs ProcfsSpec Kernel VfsTests.
#[local] Open Scope Z_scope.

(** A process with its name and its working directory. *)
Definition cat_proc : process :=
  set_cwd 0 0 (strcpy_s (zeros 64) 64 (bytes "/etc"))
    (set_process_name (Some (bytes "cat")) (set_parent 1 (set_state PROC_RUNNABLE (set_pid 2 zero_proc)))).

Lemma cat_texts : texts_ok cat_proc.
Proof.
  assert (Hn : (length (cstr (pname cat_proc)) <=? 15)%nat = true) by (vm_compute; reflexivity).
  assert (Hc : (length (cstr (cwd_path cat_proc)) <=? 63)%nat = true) by (vm_compute; reflexivity).
  split; [by apply Nat.leb_le|]. split; [by apply Nat.leb_le|].
  split; apply bytes_check; vm_compute; reflexivity.
Qed.

Lemma procfs_status_file_witness :
  view (procfs (procfs_sync_process cat_proc boot_vfs).2) [bytes "2"; bytes "status"]
  = Some (EFile (status_text cat_proc)).
Proof.
  assert (Hr : (procfs_sync_process cat_proc boot_vfs).1 = true) by (vm_compute; reflexivity).
  pose proof (procfs_status_file cat_proc boot_vfs (procfs_sync_process cat_proc boot_vfs).2
    boot_ok cat_texts (call_result _ _ Hr)) as (_&_&H).
  change (u32_text (pid cat_proc)) with (bytes "2") in H. exact H.
Defined.

(** What a reader of [/proc/2/status] sees. *)
Example cat_status :
  status_text cat_proc =
  concat (map (λ l, l ++ [10])
    (map (λ kv, bytes kv.1 ++ [58; 9] ++ bytes kv.2)
       [("pid", "2"); ("ppid", "1"); ("name", "cat"); ("state_id", "1"); ("state", "RUN");
        ("wait_reason_id", "0"); ("wait_reason", "NONE"); ("cwd", "/etc")]%string)).
Proof. vm_compute. reflexivity. Qed.

(** ** The start of the whole kernel *)

Definition ram_start : Z := 0x80400000.
(** Every application is 5000 bytes. *)
Definition shell_image (app_id : Z) : list Z := repeat 19 5000.

Definition ram_stop : Z := 0x80440000.

(** 64 pages of memory, a kernel of two pages, and a shell of 5000 bytes. *)
Definition started : option (kstate (machine (D := ramdisk))) :=
  kernel_main (ram_start - 8192) ram_start ram_stop shell_image work0
    (Mem 0 0 0 false (λ _, 0)) boot_disk.

(** [idle] is in slot 0 with pid 0, the shell in slot 1 as [init], with two user pages
    that hold its image, and [/proc/1/status] is there. *)
Example kernel_starts :
  match started with
  | Some k =>
      let shell := nth 1 (procs k) zero_proc in
      (map pid (take 3 (procs k)), map state (take 3 (procs k)), init_proc k, current_proc k,
       user_pages shell, PageTable.pte (memory_of (env k)) (page_table shell) 4 =? 0,
       view (procfs (files (env k))) [bytes "1"; bytes "status"])
      = ([0; 1; 0], [PROC_RUNNABLE; PROC_RUNNABLE; PROC_UNUSED], Some 1%nat, Some 0%nat, 2, false,
         Some (EFile (status_text shell)))
  | None => False
  end.
Proof. vm_compute. reflexivity. Qed.

(** The first [yield] switches from [idle] to the shell, which forks: the child is pid
    2, with its own page table. *)
Example shell_forks :
  match started with
  | Some k =>
      match yield_loop 0 k with
      | YSwitch next k =>
          match process_fork (H := kernel_env (ram_start - 8192) ram_stop shell_image) k with
          | Some (Some child, k) =>
              (next, child, map parent_pid (take 3 (procs k)),
               page_table (nth 1 (procs k) zero_proc) =? page_table (nth 2 (procs k) zero_proc))
              = (1%nat, 2%nat, [0; 0; 1], false)
          | _ => False
          end
      | _ => False
      end
  | None => False
  end.
Proof. vm_compute. reflexivity. Qed.
