(* ===== verification/KernelSpec.v ===== *)
(** * The invariant of the whole kernel

    Every kernel call, interrupt and switch keeps the address spaces of the processes
    apart and whole, and the file systems well formed; it leaves the memory of every
    process but the running one and those that have ended as it was. *)
From Stdlib Require Import ZArith Lia ZifyBool String.
From stdpp Require Import base tactics list numbers option relations.
From S2P Require Import Prelude Memory CString BlockDev NodeFs NodeFsSpec NodeFsOps Vfs VfsSpec.
From S2P Require Import Process ProcessSpec ProcessOps Scheduler PageTable PageTableSpec AddressSpace.
From S2P Require Import Spaces Procfs ProcfsSpec Kernel.
#[local] Open Scope Z_scope.

(** ** Names and paths of a process *)

Lemma copy_bounded_text n src d :
  Forall is_byte src → Forall is_byte d →
  (length (cstr (copy_bounded n src d)) ≤ n)%nat ∧ Forall is_byte (copy_bounded n src d).
Proof.
  intros Hs Hd. revert src d Hs Hd. induction n as [|n IH]; intros src [|c d] Hs Hd; simpl;
    inversion_clear Hd; try (split; [simpl; lia|by repeat constructor]).
  case_if; simpl; [split; [lia|by repeat constructor]|].
  destruct src as [|b src]; [done|]. inversion_clear Hs. simpl.
  destruct (IH src d) as [Hl Hb]; [done|done|].
  unfold ch in *. cbn [nth] in *. case_if; simpl; [split; [lia|by constructor]|].
  split; [lia|by constructor].
Qed.

Lemma strcpy_s_text d n src :
  Forall is_byte src → Forall is_byte d → 0 < n →
  Z.of_nat (length (cstr (strcpy_s d n src))) < n ∧ Forall is_byte (strcpy_s d n src).
Proof.
  intros Hs Hd Hn. unfold strcpy_s. replace (n =? 0) with false by lia.
  destruct (copy_bounded_text (Z.to_nat (n - 1)) src d Hs Hd). split; [lia|done].
Qed.

Lemma copy_chars_text n src m :
  Forall is_byte src → (length (cstr (copy_chars n src (zeros m))) ≤ n)%nat ∧
  Forall is_byte (copy_chars n src (zeros m)).
Proof.
  intros Hs. revert src m Hs. induction n as [|n IH]; intros src [|m] Hs;
    try (split; [simpl; lia|apply zeros_bytes]).
  change (zeros (S m)) with (0 :: zeros m). simpl.
  case_if; [split; [simpl; lia|apply (zeros_bytes (S m))]|]. destruct src as [|b src]; [done|].
  inversion_clear Hs. destruct (IH src m) as [Hl Hb]; [done|]. unfold ch in *. cbn [nth tail] in *.
  simpl. case_if; simpl; (split; [lia|by constructor]).
Qed.

(** The buffers of a process have the sizes of their declarations. *)
Definition shape_ok (p : process) : Prop :=
  length (pname p) = 16%nat ∧ length (cwd_path p) = 64%nat ∧
  length (exec_argv p) = 8%nat ∧ Forall (λ a, length a = 32%nat) (exec_argv p).

Definition proc_ok (p : process) : Prop := texts_ok p ∧ shape_ok p.

Lemma copy_bounded_length n src d : length (copy_bounded n src d) = length d.
Proof.
  revert src d. induction n as [|n IH]; intros src [|c d]; simpl; try done. case_if; simpl; [done|by rewrite IH].
Qed.

Lemma strcpy_s_length d n src : length (strcpy_s d n src) = length d.
Proof. unfold strcpy_s. case_if; [done|]. apply copy_bounded_length. Qed.

Lemma copy_chars_length n src d : length (copy_chars n src d) = length d.
Proof.
  revert src d. induction n as [|n IH]; intros src [|c d]; simpl; try done. case_if; simpl; [done|by rewrite IH].
Qed.

Lemma copy_arg_length n src d : length (copy_arg n src d) = length d.
Proof.
  revert src d. induction n as [|n IH]; intros src [|c d]; simpl; try done. case_if; simpl; [done|by rewrite IH].
Qed.

Lemma exec_arg_length src : length (exec_arg src) = 32%nat.
Proof. unfold exec_arg. by rewrite length_insert, copy_arg_length. Qed.

Lemma set_name_texts name p :
  Forall is_byte name → proc_ok p → proc_ok (set_process_name (Some name) p).
Proof.
  intros Hn [(_&Hc&_&Hcb) (_&Hs)]. destruct (copy_chars_text 15 name 16 Hn) as [Hl Hb].
  split; [split; [exact Hl|by split; [|split]]|]. split; [apply copy_chars_length|exact Hs].
Qed.

Lemma set_cwd_texts m n path p :
  Forall is_byte path → proc_ok p → proc_ok (set_cwd m n (strcpy_s (cwd_path p) PATH_MAX path) p).
Proof.
  intros Hb [(Hn&_&Hnb&Hcb) (Hs1&Hs2&Hs3)].
  destruct (strcpy_s_text (cwd_path p) PATH_MAX path Hb Hcb) as [Hl Hb'];
    [done|]. unfold PATH_MAX in *. split; [split; [done|]; split; [simpl; lia|by split]|].
  split; [done|]. split; [|done]. exact (eq_trans (strcpy_s_length _ _ _) Hs2).
Qed.

Lemma no_args_shape : length no_args = 8%nat ∧ Forall (λ a : list Z, length a = 32%nat) no_args.
Proof. split; [done|]. unfold no_args. by repeat constructor. Qed.

Lemma recycled_texts p : proc_ok p → proc_ok (recycled p).
Proof.
  intros [(_&Hc&_&Hcb) (_&Hs&_)].
  split; [split; [simpl; lia|]; split; [done|]; split; [|done]; apply (zeros_bytes 16)|].
  split; [done|]. split; [done|]. apply no_args_shape.
Qed.

Lemma zero_texts : proc_ok zero_proc.
Proof.
  split; [split; [simpl; lia|]; split; [simpl; lia|]; split; [apply (zeros_bytes 16)|apply (zeros_bytes 64)]|].
  split; [done|]. split; [done|]. apply no_args_shape.
Qed.

Lemma inherit_texts parent p : proc_ok parent → proc_ok p → proc_ok (inherit parent p).
Proof.
  intros [(_&_&Hpn&Hpc) (_&_&Hpa)] [(_&_&Hn&Hc) (Hs1&Hs2&_)]. unfold inherit.
  destruct (strcpy_s_text (pname p) PROC_NAME_MAX (pname parent)) as [Hl1 Hb1]; [done..|].
  destruct (strcpy_s_text (cwd_path p) PATH_MAX (cwd_path parent)) as [Hl2 Hb2]; [done..|].
  unfold PROC_NAME_MAX, PATH_MAX in *. split; [split; [simpl; lia|]; split; [simpl; lia|by split]|].
  split; [exact (eq_trans (strcpy_s_length _ _ _) Hs1)|]. split; [|exact Hpa].
  exact (eq_trans (strcpy_s_length _ _ _) Hs2).
Qed.

Lemma created_texts i name pages table rm rn p :
  Forall is_byte name → proc_ok p → proc_ok (created_proc i (Some name) pages table rm rn p).
Proof.
  intros Hn Hp. unfold created_proc. cbv zeta. apply set_cwd_texts; [apply is_bytes_bytes|].
  destruct (set_name_texts name p Hn Hp) as [Ht (Hs1&Hs2&_)].
  split; [exact Ht|]. split; [exact Hs1|]. split; [exact Hs2|]. apply no_args_shape.
Qed.

Lemma set_args_ok argc argv p : proc_ok p → proc_ok (set_exec_args argc argv p).
Proof.
  intros [Ht (Hs1&Hs2&_)].
  assert (Hargs : ∀ n l, length l = 8%nat → Forall (λ a : list Z, length a = 32%nat) l → proc_ok (set_args n l p))
    by (intros n l Hl Hf; split; [exact Ht|by split]).
  unfold set_exec_args. destruct argv as [argv|]; [|by apply Hargs; apply no_args_shape].
  case_if; [by apply Hargs; apply no_args_shape|]. cbv zeta.
  set (body := λ (i : Z) l, _). set (n := if PROC_EXEC_ARGV_MAX <? argc then _ else _).
  assert (Hz : ∀ m i (l : list (list Z)), length l = 8%nat → Forall (λ a, length a = 32%nat) l →
    length (zfor m i body l) = 8%nat ∧ Forall (λ a, length a = 32%nat) (zfor m i body l)).
  { induction m as [|m IH]; intros i l Hl Hf; [done|]. cbn [zfor]. apply IH; unfold body.
    - by rewrite length_insert.
    - apply Forall_insert; [done|apply exec_arg_length]. }
  destruct (Hz (Z.to_nat n) 0 no_args) as [? ?]; [apply no_args_shape..|]. by apply Hargs.
Qed.

(** ** The invariant *)

(** Where the memory of a process is. *)
Definition space_of (p : process) : Z * Z := (page_table p, user_pages p).

(** A process and what it may become while its memory stays where it is. *)
Definition same_place (p q : process) : Prop :=
  space_of q = space_of p ∧ (state q = PROC_UNUSED ↔ state p = PROC_UNUSED) ∧
  (proc_ok p → proc_ok q).

#[export] Instance same_place_preorder : PreOrder same_place.
Proof.
  split; [done|]. intros p q r (E1&S1&T1) (E2&S2&T2). split; [congruence|]. split; [tauto|auto].
Qed.

Section kernel_spec.
Context {D : Type} `{BlockDev D}.
Context (kernel_base free_ram_end : Z) (app_image : Z → list Z).
Context (Hkernel : kernel_base mod 4096 = 0 ∧ MMIO_BASE ≤ kernel_base ∧ free_ram_end ≤ 4294967296).
(** Every application fits below the device registers. *)
Context (Happs : ∀ app_id, uva (image_pages (app_image app_id)) ≤ MMIO_BASE).

Let this_env : ProcEnv (machine (D := D)) := kernel_env kernel_base free_ram_end app_image.
#[local] Existing Instance this_env.
Implicit Types k : kstate (machine (D := D)).

Definition mem_of k : mem := memory_of (env k).

Record system_ok k : Prop := {
  sy_len : length (procs k) = 64%nat;
  sy_files : vfs_ok (files (env k));
  sy_spaces : spaces_ok (mem_of k) (map space_of (procs k));
  sy_procs i p : procs k !! i = Some p → proc_ok p ∧ (page_table p = 0 ↔ state p = PROC_UNUSED)
}.

(** [k'] is a state of the kernel in which the memory of every process, but those in
    the slots [P], is where and what it was. *)
Definition keeps_spaces (P : nat → Prop) k k' : Prop :=
  system_ok k' ∧
  ∀ i p, ¬ P i → procs k !! i = Some p →
    ∃ q, procs k' !! i = Some q ∧ space_of q = space_of p ∧
      (page_table p ≠ 0 → unchanged (mem_of k) (mem_of k') (page_table p) (user_pages p)).

Lemma keeps_spaces_refl P k : system_ok k → keeps_spaces P k k.
Proof. intros Hk. split; [done|]. intros i p _ Hp. by exists p. Qed.

Lemma keeps_spaces_trans P k1 k2 k3 :
  keeps_spaces P k1 k2 → keeps_spaces P k2 k3 → keeps_spaces P k1 k3.
Proof.
  intros [_ H1] [Hk3 H2]. split; [done|]. intros i p Hi Hp.
  destruct (H1 i p Hi Hp) as (q&Hq&Eq&Uq). destruct (H2 i q Hi Hq) as (r&Hr&Er&Ur).
  exists r. split; [done|]. split; [congruence|]. intros Ht. injection Eq as E1 E2.
  rewrite E1, E2 in *. by eapply unchanged_trans; [apply Uq|apply Ur].
Qed.

Lemma keeps_spaces_weaken (P Q : nat → Prop) k k' :
  (∀ i, P i → Q i) → keeps_spaces P k k' → keeps_spaces Q k k'.
Proof. intros Hpq [Hk Hs]. split; [done|]. intros i p Hi. apply Hs. auto. Qed.

Lemma proc_at_texts k i : system_ok k → proc_ok (proc_at k i).
Proof.
  intros Hk. destruct (decide (i < length (procs k))%nat) as [Hl|Hl].
  - by apply (sy_procs k Hk i), lookup_proc_at.
  - unfold proc_at. rewrite nth_overflow by lia. apply zero_texts.
Qed.

(** The table changes, and the memory of nobody. *)
Lemma keeps_procs P k k' :
  system_ok k → env k' = env k → Forall2 same_place (procs k) (procs k') → keeps_spaces P k k'.
Proof.
  intros [Hl Hf Hs Hp] He H2.
  assert (Hsp : map space_of (procs k') = map space_of (procs k)).
  { clear -H2. induction H2 as [|p q ps qs (E&_) _ IH]; [done|]. simpl. by rewrite E, IH. }
  split; [constructor|].
  - by rewrite <-(Forall2_length _ _ _ H2).
  - by rewrite He.
  - unfold mem_of. by rewrite He, Hsp.
  - intros i q Hq. destruct (Forall2_lookup_r _ _ _ _ _ H2 Hq) as (p&Hip&E&S&T).
    destruct (Hp i p Hip) as [Hpt Hps]. injection E as -> _. split; [by apply T|]. by rewrite S.
  - intros i p _ Hip. destruct (Forall2_lookup_l _ _ _ _ _ H2 Hip) as (q&Hq&E&_).
    exists q. split; [done|]. split; [done|]. intros _. unfold mem_of. by rewrite He.
Qed.

Lemma same_place_upd k i f :
  same_place (proc_at k i) (f (proc_at k i)) →
  Forall2 same_place (procs k) (procs (upd_proc k i f)).
Proof.
  intros Hs. unfold upd_proc, set_proc. cbn [procs set_procs].
  destruct (decide (i < length (procs k))%nat) as [Hl|Hl].
  - rewrite <-(list_insert_id (procs k) i (proc_at k i) (lookup_proc_at k i Hl)) at 1.
    apply Forall2_insert; [|done]. by apply Forall_Forall2_diag, Forall_true.
  - rewrite list_insert_ge by lia. by apply Forall_Forall2_diag, Forall_true.
Qed.

Lemma keeps_upd P k i f :
  system_ok k → same_place (proc_at k i) (f (proc_at k i)) → keeps_spaces P k (upd_proc k i f).
Proof. intros Hk Hs. apply keeps_procs; [done|done|]. by apply same_place_upd. Qed.

(** The files change. *)
Lemma keeps_files P k v :
  system_ok k → vfs_run (files (env k)) v → keeps_spaces P k (set_env k (with_files (env k) v)).
Proof.
  intros [Hl Hf Hs Hp] Hr. split; [|intros i p _ Hip; by exists p].
  constructor; [done| |done|done]. by apply (vfs_run_ok _ _ Hr).
Qed.

Lemma keeps_sync P k i : system_ok k → keeps_spaces P k (procfs_sync_best_effort i k).
Proof.
  intros Hk. unfold procfs_sync_best_effort. case_if; [by apply keeps_spaces_refl|].
  pose proof (sync_run (proc_at k i) (files (env k)) (proj1 (proc_at_texts k i Hk))) as Hr.
  cbn. unfold sync_files. destruct (Procfs.procfs_sync_process _ _) as [ok v]. by apply keeps_files.
Qed.

(** The memory of one process is replaced. *)
Lemma keeps_swap (P : nat → Prop) k i p q m :
  system_ok k → procs k !! i = Some p → P i →
  swapped (mem_of k) (page_table p) (user_pages p) m (page_table q) (user_pages q) →
  (page_table q = 0 ↔ state q = PROC_UNUSED) → proc_ok q →
  keeps_spaces P k (set_env (set_proc k i q) (with_memory (env k) m)).
Proof.
  intros [Hl Hf Hs Hp] Hi HP Hsw Hq Ht.
  assert (Hsi : map space_of (procs k) !! i = Some (page_table p, user_pages p)).
  { by rewrite list_lookup_fmap, Hi. }
  destruct (spaces_swap _ _ i _ _ _ _ _ Hs Hsi Hsw) as [Hs' Hun].
  split; [constructor|].
  - cbn. by rewrite length_insert.
  - done.
  - change (spaces_ok m (map space_of (<[i := q]> (procs k)))).
    replace (map space_of (<[i := q]> (procs k))) with (<[i := space_of q]> (map space_of (procs k)));
      [done|]. symmetry. apply (list_fmap_insert space_of).
  - intros j r [(->&->)|(Hj&Hr)]%(lookup_change (procs k) i p q Hi j r); [done|by eapply Hp].
  - intros j r Hj Hr. assert (j ≠ i) by (intros ->; done). exists r. split.
    + by apply lookup_change_ne.
    + split; [done|]. intros Ht0. apply (Hun j); [done|by rewrite list_lookup_fmap, Hr|done].
Qed.

Lemma space_at k i p :
  system_ok k → procs k !! i = Some p → page_table p ≠ 0 →
  mem_ok (mem_of k) ∧ space (mem_of k) (page_table p) (user_pages p).
Proof.
  intros [_ _ [Hm _ Hsp _ _] _] Hp Ht. split; [done|]. apply (Hsp i); [|done].
  by rewrite list_lookup_fmap, Hp.
Qed.

(** A slot can always be recycled. *)
Lemma recycle_keeps (P : nat → Prop) k i :
  system_ok k → (i < length (procs k))%nat → P i →
  ∃ k', recycle_process_slot i k = Some k' ∧ keeps_spaces P k k'.
Proof.
  intros Hk Hi HP. unfold recycle_process_slot. cbn -[cleanup_files Vfs.fs_on_process_recycle release_space].
  unfold cleanup_files. pose proof (cleanup_run (proc_at k i) (files (env k))) as Hr.
  destruct (Procfs.procfs_cleanup _ _) as [ok v]. cbn [snd] in Hr.
  set (v2 := Vfs.fs_on_process_recycle (pid (proc_at k i)) v).
  change (with_files (with_files (env k) v) (Vfs.fs_on_process_recycle (pid (proc_at k i)) (files (with_files (env k) v))))
    with (with_files (env k) v2).
  assert (Hk1 : keeps_spaces P k (set_env k (with_files (env k) v2))).
  { apply keeps_files; [done|]. etrans; [exact Hr|]. apply (vfs_run_one (pid (proc_at k i))), vs_recycle. }
  pose proof (lookup_proc_at k i Hi) as Hp. set (p := proc_at k i) in *.
  unfold free_process_memory. destruct (Z.eqb_spec (page_table p) 0) as [Ht|Ht].
  - eexists. split; [done|]. eapply keeps_spaces_trans; [exact Hk1|].
    destruct Hk1 as [Hk1 _]. destruct (sy_procs _ Hk i p Hp) as [Htx Hst].
    apply (keeps_upd P (set_env k (with_files (env k) v2)) i (λ p, recycled p) Hk1).
    split; [done|]. split; [|intros _; by apply recycled_texts].
    change (proc_at (set_env k (with_files (env k) v2)) i) with p. by rewrite <-Hst.
  - destruct (space_at k i p Hk Hp Ht) as [Hm Hsp].
    destruct (swap_release _ _ _ Hm Ht Hsp) as (m'&Hfree&Hsw).
    cbn -[release_space]. unfold release_space. cbn [memory_of with_files].
    change (memory_of (env k)) with (mem_of k). rewrite Hfree. cbn [mbind option_bind].
    eexists. split; [done|]. eapply keeps_spaces_trans; [exact Hk1|].
    destruct Hk1 as [Hk1 _].
    apply (keeps_swap P (set_env k (with_files (env k) v2)) i p (recycled (set_space 0 0 p)) m' Hk1 Hp HP);
      [exact Hsw|done|]. apply recycled_texts. destruct (sy_procs _ Hk i p Hp) as [Htx _]. exact Htx.
Qed.

(** Reaping frees slots of processes that have ended. *)
Lemma reap_keeps (P : nat → Prop) k :
  system_ok k → (∀ i p, procs k !! i = Some p → state p = PROC_EXITED → P i) →
  ∃ k', reap_exited_processes k = Some k' ∧ keeps_spaces P k k'.
Proof.
  intros Hk HP. unfold reap_exited_processes. pose proof (sy_len k Hk) as Hlen.
  destruct (zfor_opt_total (λ _ k', keeps_spaces P k k' ∧
    ∀ i p, procs k' !! i = Some p → state p = PROC_EXITED → P i) (Z.to_nat PROCS_MAX) 0
    (λ i k, let p := proc_at k (Z.to_nat i) in
       if negb (state p =? PROC_EXITED) then Some k
       else if parent_pid p =? 0 then recycle_process_slot (Z.to_nat i) k else Some k) k)
    as (k'&Hr&Hk'&_); [by split; [apply keeps_spaces_refl|]| |by exists k'].
  intros j k1 Hj [Hk1 HP1]. cbv zeta.
  destruct (Z.eqb_spec (state (proc_at k1 (Z.to_nat j))) PROC_EXITED) as [Hex|]; cbn [negb]; [|by exists k1].
  case_if; [|by exists k1]. pose proof Hk1 as [Hok1 _].
  assert (Hl : (Z.to_nat j < length (procs k1))%nat).
  { rewrite (sy_len k1 Hok1). unfold PROCS_MAX in Hj. lia. }
  pose proof (lookup_proc_at k1 _ Hl) as Hp.
  destruct (recycle_keeps P k1 (Z.to_nat j) Hok1 Hl ltac:(by eapply HP1)) as (k2&Hr&Hk2).
  exists k2. split; [done|]. split; [by eapply keeps_spaces_trans|].
  destruct (recycle_spec _ _ _ _ Hp Hr) as (_&q&Hq&Hu&_). rewrite Hq.
  intros i p [(->&->)|(_&Hi)]%(lookup_change _ _ _ _ Hp) Hx; [by rewrite Hu in Hx|by eapply HP1].
Qed.

Lemma root_entry (v : vfs D) : vfs_ok v → Vfs.fs_get_root_entry v = Some (0, 0).
Proof.
  intros Hok. unfold Vfs.fs_get_root_entry, mount_ctx, mount_at. rewrite (vok_mounts v Hok).
  destruct (vok_fs v Hok Rootfs) as [Hfs Hm]. change (get_fs v Rootfs) with (rootfs v) in *.
  destruct (fok_root _ Hfs) as [(n&Hn&_&Hd) _]. apply node_at_lookup in Hn.
  change (vfs_resolve_mount std_mounts (Some (bytes "/"))) with (Some (0%nat, bytes "/")).
  cbv iota zeta beta.
  change (match m_ctx (nth 0 std_mounts no_mount) with Some c => c | None => Rootfs end) with Rootfs.
  change (get_fs v Rootfs) with (rootfs v).
  change (nodefs_resolve_path (rootfs v) (bytes "/")) with (Some 0%nat).
  cbn [mbind option_bind]. by rewrite Hn, Hd, Hm.
Qed.

Lemma mem_sync i k : mem_of (procfs_sync_best_effort i k) = mem_of k.
Proof.
  unfold procfs_sync_best_effort. case_if; [done|]. cbn. unfold sync_files.
  by destruct (Procfs.procfs_sync_process _ _).
Qed.

(** ** Making processes *)

Definition dead_in (k : kstate (machine (D := D))) (P : nat → Prop) : Prop :=
  ∀ i p, procs k !! i = Some p → ¬ alive p → P i.

(** After a reap, the slots that are not in use are in [P]. *)
Lemma reap_dead (P : nat → Prop) k :
  procs_ok (procs k) → system_ok k → dead_in k P →
  ∃ k', reap_exited_processes k = Some k' ∧ keeps_spaces P k k' ∧ dead_in k' P ∧ reaped k k'.
Proof.
  intros Hok Hk HP.
  destruct (reap_keeps P k Hk) as (k1&Hr&Hk1); [intros i p Hp Hs; apply (HP i p Hp), exited_dead, Hs|].
  pose proof (reap_spec k k1 Hok Hr) as Hre. exists k1. split; [done|]. split; [done|]. split; [|done].
  destruct Hre as (_&Hok1&Hkeep). intros i q Hq Ha.
  destruct (lookup_lt_is_Some_2 (procs k) i) as [p Hp].
  { rewrite (pk_len _ Hok), <-(pk_len _ Hok1). by eapply lookup_lt_Some. }
  destruct (decide (state p = PROC_EXITED)) as [Hs|Hs]; [apply (HP i p Hp), exited_dead, Hs|].
  assert (q = p) as -> by (pose proof (Hkeep i p Hp Hs); congruence). by apply (HP i p).
Qed.

Lemma new_space_table data flags m t n m' : new_space data flags m t n m' → t ≠ 0.
Proof.
  intros Hn. pose proof (ns_space _ _ _ _ _ _ Hn) as Hs. destruct (ns_ok _ _ _ _ _ _ Hn) as [Hok _].
  destruct (page_used_range m' t Hok (to_top _ _ (so_table _ _ _ Hs))). lia.
Qed.

Lemma pages_of image :
  uva (image_pages image) ≤ MMIO_BASE →
  u32 (Z.of_nat (length image) + 4096 - 1) / 4096 = image_pages image.
Proof.
  unfold image_pages, uva, USER_BASE, MMIO_BASE, PAGE_SIZE. intros Hi.
  rewrite u32_small; [done|]. zdiv.
Qed.

Lemma create_keeps (P : nat → Prop) k image name r k' :
  procs_ok (procs k) → system_ok k → dead_in k P →
  uva (image_pages image) ≤ MMIO_BASE → Forall is_byte name →
  create_process image (Some name) k = Some (r, k') → keeps_spaces P k k'.
Proof using Hkernel.
  intros Hok Hk HP Himg Hname. unfold create_process.
  destruct (reap_dead P k Hok Hk HP) as (k1&->&Hk1&HP1&_). cbn [mbind option_bind].
  destruct (find_unused k1) as [i|] eqn:Ei; [|by intros [= <- <-]].
  apply find_unused_spec in Ei as (p&Hp&Hs&_). pose proof Hk1 as [Hok1 _].
  assert (Ht : page_table p = 0) by by apply (sy_procs _ Hok1 i p Hp).
  cbn -[make_space Vfs.fs_get_root_entry created_proc]. unfold make_space.
  pose proof (sy_spaces _ Hok1) as Hss.
  pose proof (create_address_space_or kernel_base free_ram_end Hkernel image (mem_of k1)
    (ss_mem _ _ Hss) Himg (ss_pages _ _ Hss)) as Hc. unfold mem_of in Hc.
  destruct (create_address_space _ _ _ _) as [[t m]|]; [|done]. destruct Hc as [Hc _].
  cbn [mbind option_bind files with_memory].
  rewrite root_entry by apply Hok1. intros [= <- <-].
  pose proof (swap_new _ _ _ (user_pages p) _ _ _ Hc (λ _ _, eq_refl)) as Hsw. rewrite <-Ht in Hsw.
  apply (keeps_spaces_trans P _ k1); [done|]. rewrite (pages_of image Himg).
  destruct (keeps_swap P k1 i p
    (created_proc (Z.of_nat i) (Some name) (image_pages image) t 0 0 p) m Hok1 Hp) as [Hok2 Hun2].
  - apply (HP1 i p Hp), unused_dead, Hs.
  - exact Hsw.
  - pose proof (new_space_table _ _ _ _ _ _ Hc) as Ht0. split; [intros F; by destruct Ht0|done].
  - apply created_texts; [done|]. by apply (sy_procs _ Hok1 i p Hp).
  - rewrite <-(proc_at_lookup k1 i p Hp) in Hok2, Hun2.
    apply (keeps_spaces_trans P _ (upd_proc (set_env k1 (with_memory (env k1) m)) i
      (created_proc (Z.of_nat i) (Some name) (image_pages image) t 0 0))); [by split|].
    by apply keeps_sync.
Qed.

Lemma upd_upd k i f g e :
  (i < length (procs k))%nat →
  upd_proc (set_env (upd_proc k i f) e) i g = set_env (upd_proc k i (λ p, g (f p))) e.
Proof.
  intros Hi. unfold upd_proc, set_proc, set_procs, set_env, proc_at. cbn. f_equal.
  rewrite nth_lookup, list_lookup_insert_eq, list_insert_insert_eq by done. done.
Qed.

Lemma upd_twice k i f g :
  (i < length (procs k))%nat → upd_proc (upd_proc k i f) i g = upd_proc k i (λ p, g (f p)).
Proof. intros Hi. by apply (upd_upd k i f g (env k)). Qed.

(** In [k'] the process in slot [i] has as many user pages as the process [par] of [k],
    with the same bytes. *)
Definition has_memory_of k (par : process) k' (i : nat) : Prop :=
  ∃ q, procs k' !! i = Some q ∧ user_pages q = user_pages par ∧
    ∀ va, uva 0 ≤ va < uva (user_pages par) →
      user_byte (mem_of k') (page_table q) va = user_byte (mem_of k) (page_table par) va.

(** The space of the parent is copied and the child starts. *)
Lemma fork_copy_keeps (P : nat → Prop) k cur i par p r k' :
  system_ok k → procs k !! cur = Some par → procs k !! i = Some p → P i →
  state p = PROC_UNUSED → page_table p = 0 → pid p = Z.of_nat i →
  state par ≠ PROC_UNUSED → pid par = Z.of_nat cur → cur ≠ i →
  (let! (ok, table, e) := copy_space (proc_at k cur) (env k) in
   let k := set_env k e in
   if table =? 0 then fork_fail i k
   else
     let k := upd_proc k i (set_space (user_pages (proc_at k cur)) table) in
     if negb ok then fork_fail i k
     else
       let '(r, e) := fs_fork_copy_fds (pid (proc_at k cur)) (pid (proc_at k i)) (env k) in
       let k := set_env k e in
       if r <? 0 then fork_fail i k
       else
         let k := upd_proc k i (λ p,
           set_sched SCHED_TIME_SLICE_TICKS 0 0 (set_state PROC_RUNNABLE p)) in
         Some (Some i, procfs_sync_best_effort i k)) = Some (r, k') →
  keeps_spaces P k k' ∧ r = Some i ∧ has_memory_of k par k' i.
Proof using Hkernel.
  intros Hk Hcur Hp HP Hu Ht Hpid Hcs Hcp Hci. rewrite (proc_at_lookup k cur _ Hcur). cbv zeta.
  pose proof (sy_len k Hk) as Hlen. pose proof (lookup_lt_Some _ _ _ Hcur) as Hcl.
  pose proof (lookup_lt_Some _ _ _ Hp) as Hil.
  assert (Htp : page_table par ≠ 0) by (rewrite (proj2 (sy_procs k Hk cur par Hcur)); done).
  destruct (space_at k cur par Hk Hcur Htp) as [Hm Hsp]. pose proof Hsp as [Hs Hsz _ _ _].
  pose proof (copy_address_space_or kernel_base free_ram_end Hkernel _ _ _ Hm Hs Hsz) as Hc.
  cbn [copy_space this_env kernel_env]. unfold duplicate_space, mem_of in *.
  destruct (copy_address_space _ _ _ _ _) as [[[ok t] m]|]; [|done]. destruct Hc as (->&Ht0&Hns&_).
  cbn [mbind option_bind negb]. replace (t =? 0) with false by lia.
  set (e := with_memory (env k) m). change (proc_at (set_env k e) cur) with (proc_at k cur).
  rewrite (proc_at_lookup k cur _ Hcur).
  set (k1 := upd_proc (set_env k e) i (set_space (user_pages par) t)).
  assert (Hpr1 : procs k1 = <[i := set_space (user_pages par) t p]> (procs k))
    by exact (procs_upd (set_env k e) i _ p Hp).
  assert (Hat : pid (proc_at k1 cur) = Z.of_nat cur ∧ pid (proc_at k1 i) = Z.of_nat i).
  { split.
    - rewrite (proc_at_lookup k1 cur par); [done|]. rewrite Hpr1. by apply lookup_change_ne.
    - rewrite (proc_at_lookup k1 i (set_space (user_pages par) t p)); [done|]. rewrite Hpr1.
      by eapply lookup_change_eq. }
  destruct Hat as [-> ->]. cbn [fs_fork_copy_fds this_env kernel_env]. unfold fork_files.
  pose proof (vs_fork (files (env k)) (Z.of_nat cur) (Z.of_nat i)) as Hv.
  change (files (env k1)) with (files (env k)).
  assert (Hr : (Vfs.fs_fork_copy_fds (Z.of_nat cur) (Z.of_nat i) (files (env k))).1 = 0).
  { unfold Vfs.fs_fork_copy_fds. rewrite !bad_pid_in by lia. done. }
  destruct (Vfs.fs_fork_copy_fds _ _ _) as [rc v]. cbn in Hr. subst rc. cbn [Z.ltb].
  replace (0 <? 0) with false by done. intros [= <- <-].
  unfold k1. rewrite (upd_upd (set_env k e)) by done.
  pose proof (swap_new _ _ _ (user_pages p) _ _ _ Hns (λ j, space_flags _ _ _ j Hsp)) as Hsw.
  rewrite <-Ht in Hsw at 1.
  set (f := λ p, set_sched SCHED_TIME_SLICE_TICKS 0 0 (set_state PROC_RUNNABLE (set_space (user_pages par) t p))).
  assert (Hk2 : keeps_spaces P k (upd_proc (set_env k e) i f)).
  { change (upd_proc (set_env k e) i f) with (set_env (set_proc k i (f (proc_at k i))) (with_memory (env k) m)).
    rewrite (proc_at_lookup k i p Hp). apply (keeps_swap P k i p (f p) m Hk Hp HP); [exact Hsw|done|].
    by apply (sy_procs k Hk i p Hp). }
  pose proof Hk2 as [Hok2 _].
  assert (Hk3 : keeps_spaces P (upd_proc (set_env k e) i f)
    (set_env (upd_proc (set_env k e) i f) (with_files (with_memory (env k) m) v))).
  { apply (keeps_files P (upd_proc (set_env k e) i f) v); [done|]. by eapply vfs_run_one. }
  split.
  { eapply keeps_spaces_trans; [exact Hk2|]. eapply keeps_spaces_trans; [exact Hk3|].
    apply keeps_sync, Hk3. }
  split; [done|]. exists (f p). split; [|split; [done|]].
  - rewrite procs_sync. change (procs (set_env ?k ?e)) with (procs k).
    rewrite (procs_upd (set_env k e) i f p Hp). by eapply lookup_change_eq.
  - intros va Hva. rewrite mem_sync. by eapply copied_byte.
Qed.

Lemma fork_keeps (P : nat → Prop) k cur r k' :
  procs_ok (procs k) → system_ok k → dead_in k P → running k cur →
  process_fork k = Some (r, k') → keeps_spaces P k k' ∧
  ∀ i, r = Some i → ¬ P cur → has_memory_of k (proc_at k cur) k' i.
Proof using Hkernel.
  intros Hok Hk HP Hrun. unfold process_fork, alloc_proc_slot.
  destruct (running_proc k cur Hrun) as [Hcur Hcs]. pose proof (running_pid k cur Hok Hrun) as Hcp.
  pose proof Hrun as (Hc&_). set (par := proc_at k cur) in *.
  destruct (reap_dead P k Hok Hk HP) as (k1&->&Hk1&HP1&(Hc1&_)&_&Hkeep). cbn [mbind option_bind].
  destruct (find_unused k1) as [i|] eqn:Ei; [|by intros [= <- <-]].
  apply find_unused_spec in Ei as (p&Hp&Hs&_). pose proof Hk1 as [Hok1 Hun1].
  destruct (sy_procs _ Hok1 i p Hp) as [Htx Ht]. apply Ht in Hs as Ht0.
  assert (Hcur1 : procs k1 !! cur = Some par) by (apply Hkeep; [done|by rewrite Hcs]).
  assert (Hci : cur ≠ i) by (intros ->; simplify_eq; by rewrite Hs in Hcs).
  set (f := λ p, clear_exec_args (set_parent 0 (set_wait PROC_UNUSED PROC_WAIT_NONE (-1) (set_pid (Z.of_nat i) p)))).
  cbv iota zeta beta. change (current_proc (upd_proc k1 i f)) with (current_proc k1).
  rewrite Hc1, Hc. pose proof (lookup_lt_Some _ _ _ Hp) as Hil.
  assert (Hcur2 : procs (upd_proc k1 i f) !! cur = Some par).
  { rewrite (procs_upd k1 i f p Hp). by apply lookup_change_ne. }
  rewrite (proc_at_lookup (upd_proc k1 i f) cur par Hcur2), Hcs. cbn [negb andb Z.eqb].
  replace (PROC_RUNNABLE =? PROC_RUNNABLE) with true by done. cbn [negb andb].
  assert (Hk2 : keeps_spaces P k1 (upd_proc k1 i f)).
  { apply (keeps_upd P k1 i f Hok1). rewrite (proc_at_lookup k1 i p Hp).
    split; [done|]. split; [by rewrite Hs|]. intros Hpo. by apply (set_args_ok 0 None). }
  pose proof Hk2 as [Hok2 _].
  assert (Hp2 : procs (upd_proc k1 i f) !! i = Some (f p)).
  { rewrite (procs_upd k1 i f p Hp). by eapply lookup_change_eq. }
  assert (Hk3 : keeps_spaces P (upd_proc k1 i f) (upd_proc (upd_proc k1 i f) i (inherit par))).
  { apply (keeps_upd P (upd_proc k1 i f) i (inherit par) Hok2). split; [done|]. split; [done|].
    apply inherit_texts. by apply (proc_at_texts k cur). }
  pose proof Hk3 as [Hok3 _]. intros Hf.
  destruct (fork_copy_keeps P (upd_proc (upd_proc k1 i f) i (inherit par)) cur i par (inherit par (f p)) r k')
    as (Hk4&->&q&Hq&Hqn&Hqb); try done.
  - rewrite (procs_upd _ i _ (f p) Hp2). by apply lookup_change_ne.
  - rewrite (procs_upd _ i _ (f p) Hp2). by eapply lookup_change_eq.
  - by apply (HP1 i p Hp), unused_dead.
  - by rewrite Hcs.
  - split.
    { eapply keeps_spaces_trans; [exact Hk1|]. eapply keeps_spaces_trans; [exact Hk2|].
      by eapply keeps_spaces_trans. }
    intros j [= <-] HPc. exists q. split; [done|]. split; [done|]. intros va Hva. rewrite (Hqb va Hva).
    destruct (Hun1 cur par HPc Hcur) as (par'&Hp1&_&Hun). simplify_eq.
    assert (Htp : page_table par ≠ 0) by (rewrite (proj2 (sy_procs k Hk cur par Hcur)), Hcs; done).
    apply (unchanged_byte (mem_of k) (mem_of k1) _ (user_pages par)); [|by apply Hun|done].
    by apply (space_at k cur par).
Qed.

Lemma clone_keeps (P : nat → Prop) k image name r k' :
  procs_ok (procs k) → system_ok k → dead_in k P →
  uva (image_pages image) ≤ MMIO_BASE → Forall is_byte name →
  clone_process image (Some name) k = Some (r, k') → keeps_spaces P k k'.
Proof using Hkernel.
  intros Hok Hk HP Himg Hname. unfold clone_process.
  destruct (create_process image (Some name) k) as [[ri k1]|] eqn:Ec; [|done].
  pose proof (create_keeps P k image name ri k1 Hok Hk HP Himg Hname Ec) as Hk1.
  cbn [mbind option_bind]. destruct ri as [i|]; intros [= <- <-]; [|done].
  eapply keeps_spaces_trans; [exact Hk1|]. destruct Hk1 as [Hok1 _]. by apply keeps_upd.
Qed.

Lemma exec_args_of argc argv p : ∃ n l, set_exec_args argc argv p = set_args n l p.
Proof. unfold set_exec_args. destruct argv; [|by eexists _, _]. case_if; by eexists _, _. Qed.

(** [exec]: the memory of the running process is replaced. *)
Lemma exec_keeps (P : nat → Prop) k cur image name argc argv r k' :
  system_ok k → running k cur → P cur →
  uva (image_pages image) ≤ MMIO_BASE → Forall is_byte name →
  process_exec (Some image) (Some name) argc argv k = Some (r, k') → keeps_spaces P k k' ∧
  (r = true → ∃ q, procs k' !! cur = Some q ∧ user_pages q = image_pages image ∧
     ∀ va, uva 0 ≤ va < uva (image_pages image) →
       user_byte (mem_of k') (page_table q) va = Some (nth (Z.to_nat (va - USER_BASE)) image 0)).
Proof using Hkernel.
  intros Hk Hrun HP Himg Hname. unfold process_exec.
  destruct (running_proc k cur Hrun) as [Hp Hs]. destruct Hrun as (->&_).
  case_if; [intros [= <- <-]; by split; [apply keeps_spaces_refl|]|]. cbv zeta. set (p := proc_at k cur) in *.
  destruct (sy_procs k Hk cur p Hp) as [Htx Hst].
  assert (Ht : page_table p ≠ 0) by (rewrite Hst, Hs; done).
  destruct (space_at k cur p Hk Hp Ht) as [Hm Hsp].
  cbn [replace_image this_env kernel_env]. unfold exec_space. replace (page_table p =? 0) with false by lia.
  change (memory_of (env k)) with (mem_of k).
  destruct (free_user_pages (page_table p) (user_pages p) (mem_of k)) as [m1|] eqn:Ef; [|done].
  pose proof (swap_exec _ _ _ image m1 Hm Ht Hsp Himg Ef) as Hx. cbn [mbind option_bind].
  destruct (exec_image (page_table p) image m1) as [[ok m]|]; [|done]. destruct Hx as (->&Hsw&mb&Hns).
  cbn [mbind option_bind negb]. rewrite (pages_of image Himg).
  intros [= <- <-]. pose proof (lookup_lt_Some _ _ _ Hp) as Hl.
  set (e := with_memory (env k) m). rewrite (upd_twice (set_env k e)) by done.
  match goal with |- context [upd_proc _ cur ?f] => set (h := f) end.
  destruct (exec_args_of argc argv (set_sched SCHED_TIME_SLICE_TICKS 0 (schedule_count p)
    (set_wait (state p) PROC_WAIT_NONE (-1) (set_process_name (Some name)
      (set_space (image_pages image) (page_table p) p))))) as (a&l&Ha).
  change (set_exec_args argc argv _) with (h p) in Ha.
  assert (Hk1 : keeps_spaces P k (upd_proc (set_env k e) cur h)).
  { apply (keeps_swap P k cur p (h p) m Hk Hp HP).
    - by rewrite Ha.
    - by rewrite Ha.
    - unfold h. apply set_args_ok, (set_name_texts name p Hname Htx). }
  split; [eapply keeps_spaces_trans; [exact Hk1|]; by apply keeps_sync, Hk1|]. intros _.
  exists (h p). rewrite procs_sync, (procs_upd (set_env k e) cur h p Hp). split; [by eapply lookup_change_eq|].
  rewrite Ha. split; [done|]. intros va Hva. rewrite mem_sync.
  change (mem_of (upd_proc (set_env k e) cur h)) with m. cbn [page_table set_args].
  etrans; [exact (new_space_byte _ _ _ _ _ _ va Hns Hva)|]. clear. cbv zeta beta.
  change (user_bit (Z.lor USER_FLAGS PAGE_V)) with true. cbv iota. unfold image_byte, USER_BASE, PAGE_SIZE.
  do 2 f_equal. f_equal. zdiv.
Qed.

(** ** The calls that leave every space where it is *)

(** Steps one after the other. *)
Ltac then_keeps :=
  match goal with
  | H : keeps_spaces ?P ?k ?k1 |- keeps_spaces ?P ?k _ =>
      apply (keeps_spaces_trans P k k1); [exact H|apply proj1 in H]
  end.

Lemma keeps_status P k i f :
  system_ok k → (∀ p, pname (f p) = pname p ∧ cwd_path (f p) = cwd_path p ∧ exec_argv (f p) = exec_argv p ∧ space_of (f p) = space_of p) →
  (state (f (proc_at k i)) = PROC_UNUSED ↔ state (proc_at k i) = PROC_UNUSED) →
  keeps_spaces P k (upd_proc k i f).
Proof.
  intros Hk Hf Hs. apply keeps_upd; [done|]. destruct (Hf (proc_at k i)) as (Hn&Hc&Ha&Hsp).
  split; [done|]. split; [done|]. unfold proc_ok, texts_ok, shape_ok. by rewrite Hn, Hc, Ha.
Qed.

Lemma keeps_globals P k c i b :
  system_ok k → keeps_spaces P k (KState (procs k) c i b (env k)).
Proof. intros Hk. apply keeps_procs; [done|done|]. by apply Forall_Forall2_diag, Forall_true. Qed.

Lemma keeps_tick P k : system_ok k → keeps_spaces P k (scheduler_on_timer_tick k).
Proof.
  intros Hk. unfold scheduler_on_timer_tick.
  destruct (current_proc k) as [cur|]; [|by apply keeps_spaces_refl]. cbv zeta.
  case_if; [by apply keeps_spaces_refl|].
  match goal with |- context [set_proc k cur (set_sched ?s ?t ?c _)] =>
    assert (Hk1 : keeps_spaces P k (upd_proc k cur (set_sched s t c))) by (by apply keeps_status) end.
  case_if; [|exact Hk1]. then_keeps. by apply keeps_globals.
Qed.

Lemma keeps_wake P k i :
  system_ok k → state (proc_at k i) = PROC_WAITTING → keeps_spaces P k (wake i k).
Proof.
  intros Hk Hs. assert (Hk1 : keeps_spaces P k (upd_proc k i (set_wait PROC_RUNNABLE PROC_WAIT_NONE (-1))))
    by (apply keeps_status; [done|done|by rewrite Hs]).
  then_keeps. by apply keeps_sync.
Qed.

Lemma keeps_loop P n (body : Z → kstate (machine (D := D)) → kstate machine) k :
  (∀ j k, system_ok k → keeps_spaces P k (body j k)) → system_ok k →
  keeps_spaces P k (zfor n 0 body k).
Proof.
  intros Hb Hk. apply (zfor_inv (λ _ k', keeps_spaces P k k')); [by apply keeps_spaces_refl|].
  intros j k1 _ Hk1. eapply keeps_spaces_trans; [exact Hk1|]. apply Hb, Hk1.
Qed.

Lemma keeps_wakeup_input P k : system_ok k → keeps_spaces P k (wakeup_input_waiters k).
Proof.
  apply keeps_loop. intros j k1 Hk1. cbv zeta. case_if; [|by apply keeps_spaces_refl].
  apply keeps_wake; [done|lia].
Qed.

Lemma keeps_notify P c k : system_ok k → keeps_spaces P k (notify_child_exit c k).
Proof.
  intros Hk. unfold notify_child_exit. cbv zeta. case_if; [by apply keeps_spaces_refl|].
  apply keeps_loop; [|done]. intros j k1 Hk1.
  do 3 (case_if; [by apply keeps_spaces_refl || (apply keeps_wake; [done|lia])|]).
  by apply keeps_spaces_refl.
Qed.

Lemma keeps_orphan P c k : system_ok k → keeps_spaces P k (orphan_children c k).
Proof.
  intros Hk. unfold orphan_children. case_if; [by apply keeps_spaces_refl|].
  apply keeps_procs; [done|done|]. cbn [procs set_procs].
  clear Hk. induction (procs k) as [|p ps IH]; [done|]. constructor; [by case_if|exact IH].
Qed.

Lemma keeps_sync_of P k i :
  system_ok k → keeps_spaces P k (set_env k (Process.procfs_sync_process (proc_at k i) (env k)).2).
Proof.
  intros Hk. pose proof (sync_run (proc_at k i) (files (env k)) (proj1 (proc_at_texts k i Hk))) as Hr.
  cbn [Process.procfs_sync_process this_env kernel_env]. unfold sync_files. destruct (Procfs.procfs_sync_process _ _) as [ok v]. by apply keeps_files.
Qed.

Lemma orphan_state c k i :
  procs k !! i = Some (proc_at k i) → state (proc_at (orphan_children c k) i) = state (proc_at k i).
Proof.
  intros Hp. unfold orphan_children. case_if; [done|]. unfold proc_at at 1. cbn [procs set_procs].
  rewrite nth_lookup, list_lookup_fmap, Hp. simpl. by case_if.
Qed.

(** The process in slot [i] ends. *)
Lemma keeps_end P k i :
  system_ok k → (i < length (procs k))%nat → state (proc_at k i) ≠ PROC_UNUSED →
  keeps_spaces P k (upd_proc (orphan_children (pid (proc_at k i)) k) i
    (set_wait PROC_EXITED PROC_WAIT_NONE (-1))).
Proof.
  intros Hk Hi Hs. pose proof (keeps_orphan P (pid (proc_at k i)) k Hk) as Hk1. then_keeps.
  apply keeps_status; [done|done|]. rewrite orphan_state by by apply lookup_proc_at. done.
Qed.

Lemma keeps_exit P k cur : system_ok k → running k cur → keeps_spaces P k (exit_current cur k).
Proof.
  intros Hk Hrun. destruct (running_proc k cur Hrun) as [Hp Hs]. unfold exit_current.
  pose proof (keeps_end P k cur Hk ltac:(by eapply lookup_lt_Some) ltac:(by rewrite Hs)) as Hk1.
  cbv zeta. then_keeps. set (k1 := upd_proc _ _ _) in *.
  pose proof (keeps_sync_of P k1 cur Hk1) as Hk2.
  destruct (Process.procfs_sync_process _ _) as [ok e]. then_keeps. by apply keeps_notify.
Qed.

Lemma keeps_enter_dir P k cur m n path :
  system_ok k → Forall is_byte path → keeps_spaces P k (enter_dir cur m n path k).
Proof.
  intros Hk Hb. unfold enter_dir. cbv zeta.
  assert (Hk1 : keeps_spaces P k (upd_proc k cur (λ p, set_cwd m n (strcpy_s (cwd_path p) PATH_MAX path) p))).
  { apply keeps_upd; [done|]. split; [done|]. split; [done|]. by apply set_cwd_texts. }
  then_keeps. set (k1 := upd_proc _ _ _) in *.
  pose proof (keeps_sync_of P k1 cur Hk1) as Hk2.
  by destruct (Process.procfs_sync_process _ _) as [ok e].
Qed.

Lemma keeps_recv P k cur :
  procs_ok (procs k) → system_ok k → running k cur →
  keeps_spaces P k (outcome_state (process_ipc_recv (pid (proc_at k cur)) k)).
Proof.
  intros Hok Hk Hrun. unfold process_ipc_recv. rewrite recv_find by done. unfold ipc_recv_loop.
  destruct (running_proc k cur Hrun) as [Hp Hs].
  case_if; cbn [outcome_state]; [|by apply keeps_status].
  pose proof (keeps_status P k cur (set_wait PROC_WAITTING PROC_WAIT_IPC_RECV (-1)) Hk
    ltac:(done) ltac:(by rewrite Hs)) as Hk1.
  then_keeps. by apply keeps_sync.
Qed.

Lemma keeps_send P k src dst msg r k' :
  system_ok k → process_ipc_send src dst msg k = (r, k') → keeps_spaces P k k'.
Proof.
  intros Hk. unfold process_ipc_send.
  destruct (find_process_by_pid dst k) as [i|]; [|intros [= _ <-]; by apply keeps_spaces_refl].
  cbv zeta. do 2 (case_if; [intros [= _ <-]; by apply keeps_spaces_refl|]). intros [= _ <-].
  pose proof (keeps_status P k i (set_mailbox 1 src msg) Hk ltac:(done) ltac:(done)) as Hk1.
  case_if; [|exact Hk1]. then_keeps. apply keeps_wake; [done|lia].
Qed.

(** ** The calls that free spaces *)

Lemma waitpid_keeps (P : nat → Prop) k cur target :
  procs_ok (procs k) → system_ok k → running k cur → dead_in k P →
  ∃ o, wait_for_child_exit cur (pid (proc_at k cur)) target k = Some o ∧
    keeps_spaces P k (outcome_state o).
Proof.
  intros Hok Hk Hrun HP. unfold wait_for_child_exit.
  case_if; [eexists; split; [done|]; by apply keeps_spaces_refl|].
  destruct (wait_scan (procs k) 0 (pid (proc_at k cur)) target false) as [[n|] b] eqn:Ew;
    pose proof (wait_scan_child _ _ _ _ _ _ _ Ew) as Hsc; cbv beta iota in Hsc.
  - destruct Hsc as (i&p&->&Hp&Hc&He&_). rewrite Nat.add_0_l.
    destruct (recycle_keeps P k i Hk) as (k1&->&Hk1);
      [by eapply lookup_lt_Some|by apply (HP i p), exited_dead|].
    eexists. by split.
  - destruct b; (eexists; split; [done|]); cbn [outcome_state]; [|by apply keeps_spaces_refl].
    destruct (running_proc k cur Hrun) as [Hp Hs].
    pose proof (keeps_status P k cur (set_wait PROC_WAITTING PROC_WAIT_CHILD_EXIT target) Hk
      ltac:(done) ltac:(by rewrite Hs)) as Hk1.
    then_keeps. by apply keeps_sync.
Qed.

(** [kill]: the space of the process is freed, the running one's by the next [yield]. *)
Lemma kill_keeps (P : nat → Prop) k target :
  procs_ok (procs k) → system_ok k →
  (∀ t, find_process_by_pid target k = Some t → P t) →
  ∃ o, process_kill target k = Some o ∧ keeps_spaces P k (outcome_state o).
Proof.
  intros Hok Hk HP. unfold process_kill.
  case_if; [eexists; split; [done|]; by apply keeps_spaces_refl|].
  destruct (find_process_by_pid target k) as [t|] eqn:Ef;
    [|eexists; split; [done|]; by apply keeps_spaces_refl].
  do 2 (case_if; [eexists; split; [done|]; by apply keeps_spaces_refl|]). cbv zeta.
  destruct (find_process_proc target k t Hok Ef) as (_&_&Hp&Hu&_).
  pose proof (lookup_lt_Some _ _ _ Hp) as Hl.
  pose proof (keeps_end P k t Hk Hl Hu) as Hk1. set (k1 := upd_proc _ _ _) in *.
  assert (Hk2 : keeps_spaces P k (procfs_sync_best_effort t k1)) by (then_keeps; by apply keeps_sync).
  assert (Hk3 : keeps_spaces P k (notify_child_exit t (procfs_sync_best_effort t k1)))
    by (then_keeps; by apply keeps_notify).
  set (k3 := notify_child_exit _ _) in *.
  assert (Hk4 : keeps_spaces P k (upd_proc k3 t (set_parent 0))) by (then_keeps; by apply keeps_status).
  set (k4 := upd_proc k3 t (set_parent 0)) in *.
  case_if; [by eexists|]. destruct (recycle_keeps P k4 t) as (k5&->&Hk5).
  - apply Hk4.
  - rewrite (sy_len k4) by apply Hk4. by rewrite <-(sy_len k Hk).
  - by apply HP.
  - eexists. split; [done|]. cbn [outcome_state]. then_keeps. exact Hk5.
Qed.

Lemma yield_keeps (P : nat → Prop) k cur :
  procs_ok (procs k) → system_ok k → dead_in k P →
  ∃ y, yield cur k = Some y ∧ keeps_spaces P k (yielded_state y).
Proof.
  intros Hok Hk HP. unfold yield. destruct (reap_dead P k Hok Hk HP) as (k1&->&Hk1&_&_).
  eexists. split; [done|]. then_keeps. unfold yield_loop.
  destruct (pick_next k1 _) as [next|]; [|by apply keeps_spaces_refl]. cbv zeta.
  case_if; cbn [yielded_state].
  - assert (Hk2 : keeps_spaces P k1 (if time_slice (proc_at k1 cur) =? 0
      then upd_proc k1 cur (λ p, set_sched SCHED_TIME_SLICE_TICKS (run_ticks p) (schedule_count p) p)
      else k1)) by (case_if; [by apply keeps_status|by apply keeps_spaces_refl]).
    then_keeps. by apply keeps_globals.
  - match goal with |- context [upd_proc k1 next ?f] =>
      assert (Hk2 : keeps_spaces P k1 (upd_proc k1 next f)) by (by apply keeps_status);
      set (k2 := upd_proc k1 next f) in * end.
    then_keeps. by apply (keeps_globals P k2 (Some next) (init_proc k2) false).
Qed.

(** ** Every step of the kernel *)

(** The slots whose memory a step may change: the running process and the processes
    that are not alive before and after it. *)
Definition touched k k' (i : nat) : Prop :=
  current_proc k = Some i ∨ ¬ alive_at (procs k) i ∨ ¬ alive_at (procs k') i.

Lemma touched_dead k k' : dead_in k (touched k k').
Proof. intros i p Hp Ha. right; left. intros (q&Hq&Hqa). by simplify_eq. Qed.

Lemma app_fits image name :
  app (E := machine) image name → uva (image_pages image) ≤ MMIO_BASE ∧ Forall is_byte name.
Proof using Happs.
  intros [app_id Hr]. cbn in Hr. unfold resolve_app_image in Hr.
  destruct (find _ app_names) as [[i name']|]; [|done]. injection Hr as <- <-.
  split; [apply Happs|apply is_bytes_bytes].
Qed.

Lemma kcall_keeps k k' :
  kernel_ok k → system_ok k → kcall k k' → keeps_spaces (touched k k') k k'.
Proof using Hkernel Happs.
  intros [Hok (c&Hc&Hcl) _] Hk Hs. pose proof (touched_dead k k') as Hd.
  destruct Hs as [k|k cur y Hcur Hy|k cur image name r k' Hrun Happ Hs|k cur r k' Hrun Hs
    |k cur image name argc argv r k' Hrun Happ Hs|k cur Hrun Hni|k cur target o Hrun Ho
    |k cur target o Hrun Ho|k cur dst msg r k' Hrun Hs|k cur Hrun|k cur m n path Hrun Hpath].
  - by apply keeps_tick.
  - destruct (yield_keeps _ k cur Hok Hk Hd) as (y'&Hy'&Hk'). by simplify_eq.
  - destruct (app_fits _ _ Happ). by eapply clone_keeps.
  - by apply (fork_keeps _ k cur r k').
  - destruct (app_fits _ _ Happ). eapply exec_keeps; try done. left. by destruct Hrun.
  - by apply keeps_exit.
  - destruct (waitpid_keeps _ k cur target Hok Hk Hrun Hd) as (o'&Ho'&Hk'). by simplify_eq.
  - pose proof (process_kill_cases target k o Hok Ho) as Hcs.
    assert (Hsame : outcome_state o = k ∨ touched k (outcome_state o) (Z.to_nat target)).
    { destruct o as [r k'|w k']; cbn [outcome_state] in *.
      - destruct Hcs as [(_&_&->)|[(_&_&->&_)|[(_&_&->&_)|(_&_&_&_&_&_&q&Hq&Hu)]]];
          [by left|by left|by left|right]. right; right. intros (q'&Hq'&Ha). simplify_eq.
        by apply (unused_dead q).
      - right; left. by destruct Hcs as (_&_&?&_). }
    destruct Hsame as [->|Ht]; [by apply keeps_spaces_refl|].
    destruct (kill_keeps (touched k (outcome_state o)) k target Hok Hk) as (o'&Ho'&Hk'); [|by simplify_eq].
    intros t Hf. destruct (find_process_proc target k t Hok Hf) as (_&->&_). by rewrite Nat2Z.id in Ht.
  - by eapply keeps_send.
  - by apply keeps_recv.
  - by apply keeps_enter_dir.
Qed.

Lemma kstep_keeps k k' :
  kernel_ok k → system_ok k → kstep k k' → keeps_spaces (touched k k') k k'.
Proof using Hkernel Happs.
  intros Hok Hk Hs. destruct Hs as [k k' Hc|k|k cur Hrun|k cur Hrun].
  - by apply kcall_keeps.
  - by apply keeps_wakeup_input.
  - destruct (running_proc k cur Hrun) as [_ Hs]. apply keeps_status; [done|done|by rewrite Hs].
  - by apply keeps_status.
Qed.
End kernel_spec.
