(* ===== verification/System.v ===== *)
(** * The whole system

    The kernel as it runs: calls, interrupts and switches ([Scheduler]), calls of the
    file system by the running process ([VfsSpec]) and stores of user mode through the
    page table ([Spaces]).  In every state that the system reaches from its start-up,
    each page in use belongs to one process, user mode reaches nothing but the pages
    of its own process, and nothing a process or the kernel does on its behalf
    changes the memory of another. *)
From Stdlib Require Import ZArith Lia ZifyBool String.
From stdpp Require Import base tactics list numbers option relations.
From S2P Require Import Prelude Memory CString BlockDev NodeFs NodeFsSpec NodeFsOps Vfs VfsSpec.
From S2P Require Import Process ProcessSpec ProcessOps Scheduler PageTable PageTableSpec AddressSpace.
From S2P Require Import Spaces Procfs ProcfsSpec Kernel KernelSpec.
#[local] Open Scope Z_scope.

Section system.
Context {D : Type} `{BlockDev D}.
Context (kernel_base free_ram free_ram_end : Z) (app_image : Z → list Z).
(** What the linker script sees to: the kernel is above the devices, and the memory it
    leaves is at least two pages. *)
Context (Hkernel : kernel_base mod 4096 = 0 ∧ MMIO_BASE ≤ kernel_base ∧ free_ram_end ≤ 4294967296).
Context (Hram : free_ram mod PAGE_SIZE = 0 ∧ 0 ≤ free_ram ∧
  free_ram + 2 * PAGE_SIZE ≤ free_ram_end < 4294967296).
Context (Happs : ∀ app_id, uva (image_pages (app_image app_id)) ≤ MMIO_BASE).

Let this_env : ProcEnv (machine (D := D)) := kernel_env kernel_base free_ram_end app_image.
#[local] Existing Instance this_env.
Implicit Types k : kstate (machine (D := D)).

Inductive system_step : kstate machine → kstate machine → Prop :=
| sys_kernel k k' : kstep k k' → system_step k k'
| sys_file k cur v :
    running k cur → vfs_step (pid (proc_at k cur)) (files (env k)) v →
    system_step k (set_env k (with_files (env k) v))
| sys_store k cur va b m :
    running k cur → 0 ≤ va < 4294967296 →
    user_store (page_table (proc_at k cur)) va b (mem_of k) = Some m →
    system_step k (set_env k (with_memory (env k) m)).

Definition system_reachable k : Prop :=
  ∃ img m d k0, root_loads img d ∧
    kernel_main kernel_base free_ram free_ram_end app_image img m d = Some k0 ∧
    init_proc k0 ≠ None ∧ rtc system_step k0 k.

(** ** The invariant *)

Lemma kernel_ok_env k e : kernel_ok k → kernel_ok (set_env k e).
Proof. by intros []. Qed.

Lemma store_keeps (P : nat → Prop) k cur va b m :
  system_ok k → running k cur → P cur → 0 ≤ va < 4294967296 →
  user_store (page_table (proc_at k cur)) va b (mem_of k) = Some m →
  keeps_spaces P k (set_env k (with_memory (env k) m)).
Proof.
  intros Hk Hrun HP Hva Hst. destruct (running_proc k cur Hrun) as [Hp Hs].
  set (p := proc_at k cur) in *. destruct (sy_procs k Hk cur p Hp) as [Htx Htst].
  assert (Ht : page_table p ≠ 0) by (rewrite Htst, Hs; done).
  destruct (space_at k cur p Hk Hp Ht) as [Hm Hsp].
  pose proof (swap_store _ _ _ va b m Hm Ht Hsp Hva Hst) as Hsw.
  replace (set_env k (with_memory (env k) m))
    with (set_env (set_proc k cur p) (with_memory (env k) m)).
  - by apply (keeps_swap P k cur p p m).
  - unfold set_env, set_proc, set_procs. cbn. by rewrite list_insert_id.
Qed.

Lemma system_step_keeps k k' :
  kernel_ok k → system_ok k → system_step k k' →
  kernel_ok k' ∧ keeps_spaces (touched k k') k k'.
Proof using Hkernel Happs.
  intros Hok Hk Hs. destruct Hs as [k k' Hs|k cur v Hrun Hv|k cur va b m Hrun Hva Hst].
  - split; [by eapply kstep_ok|]. by eapply kstep_keeps.
  - split; [by apply kernel_ok_env|]. apply keeps_files; [done|]. by eapply vfs_run_one.
  - split; [by apply kernel_ok_env|]. eapply store_keeps; try done. left. by destruct Hrun.
Qed.

(** Before any process is made, no page is in use. *)
Lemma start_ok (v : vfs D) m :
  vfs_ok v → mem_ok m → 1 ≤ managed_pages m →
  (∀ j, 0 ≤ j < managed_pages m → bitmap_test m j = false) →
  system_ok (KState (repeat zero_proc 64) None None false (Machine v m)).
Proof.
  intros Hv Hm Hpg Hfree.
  assert (Hz : ∀ i p, repeat zero_proc 64 !! i = Some p → p = zero_proc).
  { intros i p Hp. by apply list_elem_of_lookup_2, list_elem_of_In, repeat_spec in Hp. }
  assert (Hs : ∀ i t n, map space_of (repeat zero_proc 64) !! i = Some (t, n) → t = 0).
  { intros i t n Hi. change (map space_of (repeat zero_proc 64)) with (repeat (0, 0) 64) in Hi.
    apply list_elem_of_lookup_2, list_elem_of_In, repeat_spec in Hi. congruence. }
  constructor; [done|done| |].
  - constructor; [done|done| | |].
    + intros i t n Hi Ht. by apply Hs in Hi.
    + intros i j t n t' n' q Hi _ Ht. by apply Hs in Hi.
    + intros q (j&_&Hj&Hb). by rewrite Hfree in Hb.
  - intros i p ->%Hz. split; [apply zero_texts|done].
Qed.

Lemma boot_system_ok (e : machine) k :
  system_ok (KState (repeat zero_proc 64) None None false e) →
  boot_processes (app_image APP_ID_SHELL) (KState (repeat zero_proc 64) None None false e) = Some k →
  init_proc k ≠ None → kernel_ok k ∧ system_ok k.
Proof using Hkernel Happs.
  intros Hk Hb Hinit. split.
  { apply booted_ok. exists (app_image APP_ID_SHELL), e. split; [|done]. by exists APP_ID_SHELL. }
  destruct (boot_cases _ e k Hb Hinit) as (k1&q1&i2&k3&E1&Hq1&Hs1&_&Hok2&E2&->).
  destruct (create_keeps kernel_base free_ram_end app_image Hkernel (λ _, True)
    (KState (repeat zero_proc 64) None None false e) [] (bytes "idle") _ k1
    procs_ok_zero Hk ltac:(done) ltac:(done) ltac:(apply is_bytes_bytes) E1) as [Hk1 _].
  set (k2 := upd_proc k1 0 (set_pid 0)) in *.
  assert (Hk2 : keeps_spaces (λ _, True) k1 (set_current k2 (Some 0%nat))).
  { assert (Hk2 : keeps_spaces (λ _, True) k1 k2) by (by apply keeps_status).
    eapply keeps_spaces_trans; [exact Hk2|]. destruct Hk2 as [Hk2 _].
    by apply (keeps_globals (λ _, True) k2 (Some 0%nat) (init_proc k2) (need_resched k2)). }
  destruct Hk2 as [Hk2 _].
  destruct (create_keeps kernel_base free_ram_end app_image Hkernel (λ _, True) _
    (app_image APP_ID_SHELL) (bytes "shell") _ k3 Hok2 Hk2 ltac:(done) (Happs _) ltac:(apply is_bytes_bytes) E2)
    as [Hk3 _].
  by apply (keeps_globals (λ _, True) k3 (current_proc k3) (Some i2) (need_resched k3) Hk3).
Qed.

Lemma system_reachable_ok k : system_reachable k → kernel_ok k ∧ system_ok k.
Proof using Hkernel Hram Happs.
  intros (img&m&d&k0&Hroot&Hb&Hinit&Hs). assert (H0 : kernel_ok k0 ∧ system_ok k0).
  { unfold kernel_main in Hb. destruct Hram as (Ha&Hlo&Hhi).
    destruct (memory_init_ok free_ram free_ram_end m Ha Hlo Hhi) as (m1&Hm1&Hmok&Hpg&_&Hfree).
    rewrite Hm1 in Hb. cbn [mbind option_bind] in Hb.
    destruct (fs_init img d) as [v|] eqn:Ev; [|done]. cbn [mbind option_bind] in Hb.
    eapply boot_system_ok; [|exact Hb|done]. apply start_ok; try done. by eapply fs_init_ok. }
  clear Hb Hinit. induction Hs as [|k1 k2 k3 Hs _ IH]; [done|]. apply IH.
  destruct H0 as [Hok Hk]. destruct (system_step_keeps k1 k2 Hok Hk Hs) as [? [? _]]. done.
Qed.

Lemma system_reachable_step k k' : system_reachable k → system_step k k' → system_reachable k'.
Proof.
  intros (img&m&d&k0&Hroot&Hb&Hinit&Hs) Hk. exists img, m, d, k0. do 3 (split; [done|]).
  by eapply rtc_r.
Qed.

(** ** Theorems *)

(** C5. Memory isolation.  The steps are those of [system_step]: what the kernel does to the
    process table and to the address spaces in a call, an interrupt or a switch, a call on
    files, and a store to the running process's own user pages, by itself or by the kernel
    that copies an answer there.  Whatever step comes next, a process that is alive and
    does not run either is no longer alive, because it was killed, or has the same page
    table, and its address space has not changed: the same pages, the same translation of
    every virtual address, and the same byte in every byte of every page, page tables
    included.  A copy of the kernel through a pointer that is not to the caller's own pages
    is no step: the code does not check for one, and nothing isolates a process from it. *)
Theorem memory_isolation k k' j p :
  system_reachable k → system_step k k' →
  procs k !! j = Some p → alive p → current_proc k ≠ Some j →
  ∃ q, procs k' !! j = Some q ∧
    (¬ alive q ∨
     space_of q = space_of p ∧ unchanged (mem_of k) (mem_of k') (page_table p) (user_pages p)).
Proof using Hkernel Hram Happs.
  intros [Hok Hk]%system_reachable_ok Hs Hp Ha Hc.
  destruct (system_step_keeps k k' Hok Hk Hs) as [Hok' [Hk' Hun]].
  destruct (lookup_lt_is_Some_2 (procs k') j) as [q Hq].
  { rewrite (sy_len k' Hk'), <-(sy_len k Hk). by eapply lookup_lt_Some. }
  exists q. split; [done|].
  destruct (decide (state q = PROC_RUNNABLE ∨ state q = PROC_WAITTING)) as [Hqa|]; [right|by left].
  assert (Ht : page_table p ≠ 0).
  { rewrite (proj2 (sy_procs k Hk j p Hp)). destruct Ha as [-> | ->]; done. }
  destruct (Hun j p) as (q'&Hq'&Hsp&Hu); [|done|].
  - intros [?|[Hd|Hd]]; [done|apply Hd; by exists p|apply Hd; by exists q].
  - assert (q' = q) as -> by congruence. split; [done|by apply Hu].
Qed.

(** C6. Every page in use belongs to exactly one process: it is the page table, a
    second-level table or a user page of the process in one slot of the table, and
    what such a process owns is in use. *)
Theorem page_ownership k q :
  system_reachable k →
  (page_used (mem_of k) q ↔
   ∃ i p, procs k !! i = Some p ∧ state p ≠ PROC_UNUSED ∧ owns (mem_of k) (page_table p) (user_pages p) q) ∧
  (∀ i j p p', procs k !! i = Some p → procs k !! j = Some p' →
     state p ≠ PROC_UNUSED → state p' ≠ PROC_UNUSED →
     owns (mem_of k) (page_table p) (user_pages p) q →
     owns (mem_of k) (page_table p') (user_pages p') q → i = j).
Proof using Hkernel Hram Happs.
  intros [_ Hk]%system_reachable_ok. pose proof (sy_spaces k Hk) as Hss.
  assert (Hsl : ∀ i p, procs k !! i = Some p → map space_of (procs k) !! i = Some (page_table p, user_pages p)).
  { intros i p Hp. by rewrite list_lookup_fmap, Hp. }
  assert (Htab : ∀ i p, procs k !! i = Some p → state p ≠ PROC_UNUSED → page_table p ≠ 0).
  { intros i p Hp Hs. by rewrite (proj2 (sy_procs k Hk i p Hp)). }
  split; [split|].
  - intros Hq. destruct (ss_used _ _ Hss q Hq) as (i&t&n&Hi&Ht&Ho).
    rewrite list_lookup_fmap in Hi. destruct (procs k !! i) as [p|] eqn:Hp; [|done].
    injection Hi as <- <-. exists i, p. split; [done|]. split; [|done].
    by rewrite <-(proj2 (sy_procs k Hk i p Hp)).
  - intros (i&p&Hp&Hs&Ho). destruct (space_at k i p Hk Hp (Htab i p Hp Hs)) as [_ [Hso _ _ _ _]].
    by apply (owns_used (mem_of k) (page_table p) (user_pages p)).
  - intros i j p p' Hp Hp' Hs Hs' Ho Ho'. destruct (decide (i = j)) as [|Hij]; [done|].
    exfalso.
    exact (ss_apart _ _ Hss i j _ _ _ _ q (Hsl i p Hp) (Hsl j p' Hp') (Htab i p Hp Hs) (Htab j p' Hp' Hs') Hij Ho Ho').
Qed.

(** C7. The MMU confines user mode: an access of a process that does not fault is to a
    virtual address of its own image, and reaches a page that is a user page of the
    process, and belongs to nobody else. *)
Theorem user_mode_confined k i p va bit pa :
  system_reachable k → procs k !! i = Some p → state p ≠ PROC_UNUSED → 0 ≤ va < 4294967296 →
  user_address (mem_of k) (page_table p) va bit = Some pa →
  USER_BASE ≤ va < USER_BASE + user_pages p * PAGE_SIZE ∧
  ∃ q, q ≤ pa < q + PAGE_SIZE ∧ owns (mem_of k) (page_table p) (user_pages p) q ∧
    ¬ is_table (mem_of k) (page_table p) q ∧
    ∀ j p', j ≠ i → procs k !! j = Some p' → state p' ≠ PROC_UNUSED →
      ¬ owns (mem_of k) (page_table p') (user_pages p') q.
Proof using Hkernel Hram Happs.
  intros [_ Hk]%system_reachable_ok Hp Hs Hva Ha. pose proof (sy_spaces k Hk) as Hss.
  assert (Ht : page_table p ≠ 0) by (by rewrite (proj2 (sy_procs k Hk i p Hp))).
  destruct (space_at k i p Hk Hp Ht) as [Hm Hsp].
  destruct (user_address_own _ _ _ va bit pa Hsp Hva Ha) as (l&q&f&Hl&Hin&Hw&Hpa).
  pose proof Hsp as [Hso _ _ _ _]. destruct (so_page _ _ _ Hso l Hl) as (q'&f'&Hw'&_&Hqt&Hqc).
  simplify_eq. assert (Ho : owns (mem_of k) (page_table p) (user_pages p) q) by (right; right; by exists l, f).
  split; [unfold uva, PAGE_SIZE in *; lia|]. exists q. split; [done|]. split; [done|]. split.
  - intros [?|(w&Hc&?)]; [done|by apply (Hqc w)].
  - intros j p' Hj Hp' Hs'. assert (Ht' : page_table p' ≠ 0) by (by rewrite (proj2 (sy_procs k Hk j p' Hp'))).
    assert (Hsl : ∀ l r, procs k !! l = Some r → map space_of (procs k) !! l = Some (page_table r, user_pages r)).
    { intros l' r Hr. by rewrite list_lookup_fmap, Hr. }
    refine (ss_apart _ _ Hss i j _ _ _ _ q (Hsl i p Hp) (Hsl j p' Hp') Ht Ht' (not_eq_sym Hj) Ho).
Qed.
(** C14. [fork] duplicates the memory: the child has as many user pages as its parent, in
    pages of its own, and at every address of them the byte the parent had when it
    called; and so has the parent still. *)
Theorem fork_duplicates_memory k cur i k' :
  system_reachable k → running k cur → process_fork k = Some (Some i, k') →
  i ≠ cur ∧ has_memory_of k (proc_at k cur) k' i ∧ has_memory_of k (proc_at k cur) k' cur ∧
  ∀ q, owns (mem_of k') (page_table (proc_at k' i)) (user_pages (proc_at k' i)) q →
    ¬ owns (mem_of k') (page_table (proc_at k' cur)) (user_pages (proc_at k' cur)) q.
Proof using Hkernel Hram Happs.
  intros [Hok Hk]%system_reachable_ok Hrun Hf. set (P := λ j, ¬ alive_at (procs k) j).
  destruct (running_proc k cur Hrun) as [Hp Hs].
  assert (Hca : alive_at (procs k) cur) by (exists (proc_at k cur); split; [done|by left]).
  destruct (fork_keeps kernel_base free_ram_end app_image Hkernel P k cur (Some i) k' (kk_table k Hok) Hk)
    as [[Hk' Hun] Hmem]; [intros j p Hj Ha [q [Hq Hqa]]; by simplify_eq|done|done|].
  specialize (Hmem i eq_refl ltac:(unfold P; tauto)). destruct Hmem as (q&Hq&Hqn&Hqb).
  destruct (kept_fork k cur _ k' (kk_table k Hok) Hrun Hf) as [_ Hnew].
  destruct (Hnew i eq_refl) as (q'&Hq'&_&Hold&_&Hst&_).
  assert (Hic : i ≠ cur).
  { intros ->. destruct (Hold _ Hp) as [F|F]; by rewrite Hs in F. }
  destruct (Hun cur _ ltac:(unfold P; tauto) Hp) as (p'&Hp'&Hsp&Hu).
  assert (Ht : page_table (proc_at k cur) ≠ 0) by (rewrite (proj2 (sy_procs k Hk _ _ Hp)), Hs; done).
  specialize (Hu Ht). injection Hsp as Hpt Hpn. assert (q' = q) as -> by congruence.
  split; [done|]. split; [by exists q|]. split.
  - exists p'. split; [done|]. split; [done|]. intros va Hva. rewrite Hpt.
    eapply unchanged_byte; [|exact Hu|done]. by apply (space_at k cur).
  - rewrite (proc_at_lookup k' i q Hq), (proc_at_lookup k' cur p' Hp').
    intros r. apply (ss_apart _ _ (sy_spaces k' Hk') i cur); [by rewrite list_lookup_fmap, Hq|
      by rewrite list_lookup_fmap, Hp'| |congruence|done].
    rewrite (proj2 (sy_procs k' Hk' i q Hq)), Hst. done.
Qed.

(** C17. [exec] of an application that succeeds leaves the process with exactly the image
    in memory: as many user pages as the image takes, which hold its bytes, padded
    with zeros. *)
Theorem exec_loads_image k cur app_id image name argc argv k' :
  system_reachable k → running k cur → resolve_app_image app_image app_id = Some (image, name) →
  process_exec (Some image) (Some name) argc argv k = Some (true, k') →
  ∃ p, procs k' !! cur = Some p ∧ user_pages p = (Z.of_nat (length image) + PAGE_SIZE - 1) / PAGE_SIZE ∧
    ∀ i, 0 ≤ i < user_pages p * PAGE_SIZE →
      user_byte (mem_of k') (page_table p) (USER_BASE + i) = Some (nth (Z.to_nat i) image 0).
Proof using Hkernel Hram Happs.
  intros [Hok Hk]%system_reachable_ok Hrun Hr Hx.
  destruct (app_fits kernel_base free_ram_end app_image Happs image name (ex_intro _ app_id Hr)) as [Hi Hn].
  destruct (exec_keeps kernel_base free_ram_end app_image Hkernel (λ _, True) k cur image name argc argv
    true k' Hk Hrun I Hi Hn Hx) as [_ Hmem].
  destruct (Hmem eq_refl) as (p&Hp&Hpn&Hpb). exists p. split; [done|]. split; [done|]. intros i Hi'.
  rewrite Hpb by (unfold uva; rewrite Hpn in Hi'; lia). do 2 f_equal. lia.
Qed.

(** C26. Freeing memory never goes wrong: in every reachable state, [yield] makes its
    choice, and [waitpid] and [kill] of the running process answer or wait, without a
    panic, and what they do is a step of the system. *)
Theorem kernel_calls_complete k cur target :
  system_reachable k → current_proc k = Some cur →
  (∃ y, yield cur k = Some y ∧ system_step k (yielded_state y)) ∧
  (running k cur →
    (∃ o, wait_for_child_exit cur (pid (proc_at k cur)) target k = Some o ∧ system_step k (outcome_state o)) ∧
    (∃ o, process_kill target k = Some o ∧ system_step k (outcome_state o))).
Proof using Hkernel Hram Happs.
  intros [Hok Hk]%system_reachable_ok Hc. pose proof (kk_table k Hok) as Hpok.
  assert (Hd : dead_in k (λ _, True)) by done. split; [|intros Hrun; split].
  - destruct (yield_keeps kernel_base free_ram_end app_image _ k cur Hpok Hk Hd) as (y&Hy&_).
    exists y. split; [done|]. by eapply sys_kernel, step_call, step_yield.
  - destruct (waitpid_keeps kernel_base free_ram_end app_image _ k cur target Hpok Hk Hrun Hd) as (o&Ho&_).
    exists o. split; [done|]. by eapply sys_kernel, step_call, step_waitpid.
  - destruct (kill_keeps kernel_base free_ram_end app_image (λ _, True) k target Hpok Hk ltac:(done)) as (o&Ho&_).
    exists o. split; [done|]. by eapply sys_kernel, step_call, step_kill.
Qed.
End system.
