(* ===== verification/SystemTests.v ===== *)
(** * The system at concrete inputs

    The kernel of [KernelTests] from its start-up on: the shell runs, forks a child,
    stores a byte in its own memory, loads an image. *)
From Stdlib Require Import ZArith Lia ZifyBool String.
From stdpp Require Import base tactics list numbers option relations.
From S2P Require Import Prelude Memory CString BlockDev NodeFs NodeFsSpec NodeFsOps Vfs VfsSpec VfsTests.
From S2P Require Import Process ProcessSpec ProcessOps Scheduler PageTable PageTableSpec AddressSpace.
From S2P Require Import Spaces Procfs ProcfsSpec Kernel KernelTests KernelSpec System.
#[local] Open Scope Z_scope.

#[local] Instance test_env : ProcEnv (machine (D := ramdisk)) :=
  kernel_env (ram_start - 8192) ram_stop shell_image.

Definition kernel : Type := kstate (machine (D := ramdisk)).

Definition is_some {A} (o : option A) : bool := match o with Some _ => true | None => false end.

Lemma k_some_default {A} (o : option A) a : is_some o = true → o = Some (default a o).
Proof. by destruct o. Qed.

Definition no_kernel : kernel :=
  KState [] None None false (Machine boot_vfs (Mem 0 0 0 false (λ _, 0))).

(** [s0] is the kernel after its start-up; the shell runs in [s1], has forked in [s2],
    has stored a byte in [s3]. *)
Definition blank : mem := Mem 0 0 0 false (λ _, 0).
Definition s0 : kernel :=
  default no_kernel (kernel_main (ram_start - 8192) ram_start ram_stop shell_image work0 blank boot_disk).
Definition after_yield (c : nat) (k : kernel) : kernel :=
  default no_kernel (yielded_state <$> yield c k).
Definition after_fork (k : kernel) : kernel := default no_kernel (snd <$> process_fork k).
Definition after_store (c : nat) (va b : Z) (k : kernel) : kernel :=
  match user_store (page_table (proc_at k c)) va b (mem_of k) with
  | Some m => set_env k (with_memory (env k) m)
  | None => no_kernel
  end.
Definition s1 : kernel := after_yield 0 s0.
Definition s2 : kernel := after_fork s1.
Definition s3 : kernel := after_store 1 0x1000004 7 s2.

Definition k_runs (k : kernel) (cur : nat) : bool :=
  bool_decide (current_proc k = Some cur) && bool_decide (0 < cur < length (procs k))%nat &&
  (state (proc_at k cur) =? PROC_RUNNABLE).

Lemma k_runs_ok k cur : k_runs k cur = true → running k cur.
Proof.
  unfold k_runs. intros [[Hc Hl]%andb_true_iff Hs]%andb_true_iff.
  apply bool_decide_eq_true in Hc, Hl. split; [done|]. split; [lia|]. exists (proc_at k cur).
  split; [apply lookup_proc_at; lia|lia].
Qed.

Lemma proc_in (k : kernel) i : bool_decide (i < length (procs k))%nat = true → procs k !! i = Some (proc_at k i).
Proof. intros Hi%bool_decide_eq_true. by apply lookup_proc_at. Qed.

(** ** What the theorems assume *)

Lemma test_kernel : (ram_start - 8192) mod 4096 = 0 ∧ MMIO_BASE ≤ ram_start - 8192 ∧ ram_stop ≤ 4294967296.
Proof. by vm_compute. Qed.

Lemma test_ram : ram_start mod PAGE_SIZE = 0 ∧ 0 ≤ ram_start ∧
  ram_start + 2 * PAGE_SIZE ≤ ram_stop < 4294967296.
Proof. by vm_compute. Qed.

Lemma test_apps app_id : uva (image_pages (shell_image app_id)) ≤ MMIO_BASE.
Proof. change (shell_image app_id) with (shell_image 0). by vm_compute. Qed.

(** ** The states *)

Definition reach : kernel → Prop := system_reachable (ram_start - 8192) ram_start ram_stop shell_image.
Definition sys : kernel → kernel → Prop := system_step (ram_start - 8192) ram_stop shell_image.

Lemma sys_started0 :
  kernel_main (ram_start - 8192) ram_start ram_stop shell_image work0 blank boot_disk = Some s0.
Proof.
  assert (Hs : is_some (kernel_main (ram_start - 8192) ram_start ram_stop shell_image work0 blank boot_disk)
    = true) by (vm_compute; reflexivity).
  unfold s0. destruct (kernel_main _ _ _ _ _ _ _); [reflexivity|discriminate].
Qed.

Lemma sys_reach0 : reach s0.
Proof.
  assert (Hi : init_proc s0 = Some 1%nat) by (vm_compute; reflexivity).
  exists work0, blank, boot_disk, s0. split; [exact boot_root_loads|]. split; [exact sys_started0|].
  split; [by rewrite Hi|constructor].
Qed.

Lemma reach_step (k k' : kernel) : reach k → sys k k' → reach k'.
Proof. apply system_reachable_step. Qed.

Lemma sys_yield (k : kernel) c :
  current_proc k = Some c → is_some (yield c k) = true → sys k (after_yield c k).
Proof.
  intros Hc Hy. apply sys_kernel, step_call. unfold after_yield.
  destruct (yield c k) as [y|] eqn:E; [|done]. by apply (step_yield k c y).
Qed.

Lemma fork_some (k : kernel) i :
  fst <$> process_fork k = Some (Some i) → process_fork k = Some (Some i, after_fork k).
Proof. unfold after_fork. destruct (process_fork k) as [[r k']|]; [|done]. intros [= ->]. done. Qed.

Lemma sys_fork (k : kernel) c i :
  running k c → process_fork k = Some (Some i, after_fork k) → sys k (after_fork k).
Proof. intros Hr Hf. by eapply sys_kernel, step_call, step_fork. Qed.

Lemma sys_store_byte (k : kernel) c va b :
  running k c → 0 ≤ va < 4294967296 →
  is_some (user_store (page_table (proc_at k c)) va b (mem_of k)) = true → sys k (after_store c va b k).
Proof.
  intros Hr Hva Hs. unfold after_store.
  destruct (user_store _ _ _ _) as [m|] eqn:E; [|done]. by eapply sys_store.
Qed.

Lemma sys_current0 : current_proc s0 = Some 0%nat.
Proof. vm_compute. reflexivity. Qed.

Lemma sys_yields0 : is_some (yield 0 s0) = true.
Proof. vm_compute. reflexivity. Qed.

Lemma sys_reach1 : reach s1.
Proof. exact (reach_step s0 s1 sys_reach0 (sys_yield s0 0 sys_current0 sys_yields0)). Qed.

Lemma sys_run1 : running s1 1.
Proof. apply k_runs_ok. vm_compute. reflexivity. Qed.

Lemma sys_fork1 : process_fork s1 = Some (Some 2%nat, after_fork s1).
Proof. apply (fork_some s1). vm_compute. reflexivity. Qed.

Lemma sys_reach2 : reach s2.
Proof. exact (reach_step s1 s2 sys_reach1 (sys_fork s1 1 2 sys_run1 sys_fork1)). Qed.

Lemma sys_run2 : running s2 1.
Proof. apply k_runs_ok. vm_compute. reflexivity. Qed.

Lemma sys_stores2 : is_some (user_store (page_table (proc_at s2 1)) 0x1000004 7 (mem_of s2)) = true.
Proof. vm_compute. reflexivity. Qed.

Lemma sys_store3 : sys s2 s3.
Proof. exact (sys_store_byte s2 1 0x1000004 7 sys_run2 ltac:(lia) sys_stores2). Qed.

Lemma sys_child2 : procs s2 !! 2%nat = Some (proc_at s2 2).
Proof. apply proc_in. vm_compute. reflexivity. Qed.

Lemma child2_alive : state (proc_at s2 2) = PROC_RUNNABLE.
Proof. vm_compute. reflexivity. Qed.

(** The shell stores a byte: its child, which has the same image, is not affected. *)
Lemma memory_isolation_witness :
  ∃ q, procs s3 !! 2%nat = Some q ∧
    (¬ alive q ∨ space_of q = space_of (proc_at s2 2) ∧
      unchanged (mem_of s2) (mem_of s3) (page_table (proc_at s2 2)) (user_pages (proc_at s2 2))).
Proof.
  apply (memory_isolation _ _ _ _ test_kernel test_ram test_apps s2 s3 2 (proc_at s2 2) sys_reach2 sys_store3 sys_child2).
  - left. exact child2_alive.
  - assert (Hc : current_proc s2 = Some 1%nat) by (vm_compute; reflexivity). by rewrite Hc.
Defined.

(** Before and after: the byte of the shell has changed, that of the child has not. *)
Example store_bytes_seen :
  (user_byte (mem_of s2) (page_table (proc_at s2 1)) 0x1000004,
   user_byte (mem_of s3) (page_table (proc_at s3 1)) 0x1000004,
   user_byte (mem_of s3) (page_table (proc_at s3 2)) 0x1000004) = (Some 19, Some 7, Some 19).
Proof. vm_compute. reflexivity. Qed.

Lemma page_ownership_witness :
  ∃ i p, procs s2 !! i = Some p ∧ state p ≠ PROC_UNUSED ∧
    owns (mem_of s2) (page_table p) (user_pages p) (page_table (proc_at s2 2)).
Proof.
  assert (Hu : page_used (mem_of s2) (page_table (proc_at s2 2))).
  { exists ((page_table (proc_at s2 2) - managed_base (mem_of s2)) / PAGE_SIZE).
    split; [vm_compute; reflexivity|]. split; [vm_compute; split; [discriminate|reflexivity]|].
    vm_compute. reflexivity. }
  exact (proj1 (proj1 (page_ownership _ _ _ _ test_kernel test_ram test_apps s2 _ sys_reach2)) Hu).
Defined.

Lemma user_mode_confined_witness :
  USER_BASE ≤ 0x1001000 < USER_BASE + user_pages (proc_at s2 2) * PAGE_SIZE ∧
  ∃ q, owns (mem_of s2) (page_table (proc_at s2 2)) (user_pages (proc_at s2 2)) q ∧
    ∀ j p', j ≠ 2%nat → procs s2 !! j = Some p' → state p' ≠ PROC_UNUSED →
      ¬ owns (mem_of s2) (page_table p') (user_pages p') q.
Proof.
  set (pa := default 0 (user_address (mem_of s2) (page_table (proc_at s2 2)) 0x1001000 1)).
  assert (Ha : user_address (mem_of s2) (page_table (proc_at s2 2)) 0x1001000 1 = Some pa)
    by (vm_compute; reflexivity).
  destruct (user_mode_confined _ _ _ _ test_kernel test_ram test_apps s2 2 (proc_at s2 2) 0x1001000 1 pa
    sys_reach2 sys_child2) as (Hr&q&_&Ho&_&Hq); [by rewrite child2_alive|lia|exact Ha|].
  split; [exact Hr|]. exists q. exact (conj Ho Hq).
Defined.

Lemma fork_duplicates_memory_witness :
  has_memory_of s1 (proc_at s1 1) s2 2 ∧ has_memory_of s1 (proc_at s1 1) s2 1.
Proof.
  destruct (fork_duplicates_memory _ _ _ _ test_kernel test_ram test_apps s1 1 2 s2 sys_reach1 sys_run1 sys_fork1)
    as (_&Hc&Hp&_). exact (conj Hc Hp).
Defined.

(** The shell loads an application: 5000 bytes. *)
Definition after_exec (image : list Z) (k : kernel) : kernel :=
  default no_kernel (snd <$> process_exec (Some image) (Some (bytes "ls")) 0 None k).
Definition s4 : kernel := after_exec (shell_image 5) s2.

Lemma exec_some image (k : kernel) :
  fst <$> process_exec (Some image) (Some (bytes "ls")) 0 None k = Some true →
  process_exec (Some image) (Some (bytes "ls")) 0 None k = Some (true, after_exec image k).
Proof.
  unfold after_exec. destruct (process_exec _ _ _ _ k) as [[r k']|]; [|done]. intros [= ->]. done.
Qed.

Lemma sys_exec2 : process_exec (Some (shell_image 5)) (Some (bytes "ls")) 0 None s2
  = Some (true, after_exec (shell_image 5) s2).
Proof. apply exec_some. vm_compute. reflexivity. Qed.

Lemma exec_loads_image_witness :
  ∃ p, procs s4 !! 1%nat = Some p ∧ user_byte (mem_of s4) (page_table p) (USER_BASE + 4999) = Some 19 ∧
    user_byte (mem_of s4) (page_table p) (USER_BASE + 5000) = Some 0.
Proof.
  destruct (exec_loads_image _ _ _ _ test_kernel test_ram test_apps s2 1 APP_ID_LS (shell_image 5)
    (bytes "ls") 0 None s4 sys_reach2 sys_run2 eq_refl sys_exec2) as (p&Hp&Hn&Hb).
  assert (Hn2 : user_pages p = 2) by (rewrite Hn; vm_compute; reflexivity).
  exists p. split; [exact Hp|]. unfold PAGE_SIZE in Hb.
  rewrite (Hb 4999), (Hb 5000) by lia. split; vm_compute; reflexivity.
Defined.

Lemma kernel_calls_complete_witness :
  (∃ y, yield 1 s2 = Some y ∧ sys s2 (yielded_state y)) ∧
  ∃ o, process_kill 2 s2 = Some o ∧ sys s2 (outcome_state o).
Proof.
  destruct (kernel_calls_complete _ _ _ _ test_kernel test_ram test_apps s2 1 2 sys_reach2) as [Hy Hk];
    [exact (proj1 sys_run2)|]. split; [exact Hy|]. exact (proj2 (Hk sys_run2)).
Defined.
