(* ===== verification/Syscall.v ===== *)
(** * System calls ([src/kernel/trap/])

    What a trap does: the decoding of its cause, the dispatch of the system calls and
    every handler, with its copies from and to the memory of the calling process
    ([trap_handler.c], [syscall_handler.c], [syscall_process.c], [syscall_fs.c],
    [syscall_ipc.c], [syscall_debug.c], [syscall_time.c], [syscall_console.c]).

    A handler returns [None] where the code panics.  No handler checks the pointers it
    is given: one that leads out of the caller's own pages makes the kernel read or write
    whatever is mapped there for it (its own memory, or that of any process), or panic on
    a page fault.  What follows then depends on where the compiler put what, and is not
    modelled: the handler ends with [Stray], in the state in which it makes the access. *)
From Stdlib Require Import ZArith Lia ZifyBool String.
From stdpp Require Import base tactics list numbers option.
From S2P Require Import Prelude Memory CString TimeFmt BlockDev NodeFs Vfs Process Scheduler PageTable.
From S2P Require Import PageTableSpec AddressSpace Spaces UserMemory Console Kernel.
#[local] Open Scope Z_scope.

Definition SYSCALL_PUTCHAR : Z := 1.
Definition SYSCALL_GETCHAR : Z := 2.
Definition SYSCALL_EXIT : Z := 3.
Definition SYSCALL_PS : Z := 4.
Definition SYSCALL_CLONE : Z := 5.
Definition SYSCALL_BITMAP : Z := 6.
Definition SYSCALL_WAITPID : Z := 7.
Definition SYSCALL_IPC_SEND : Z := 8.
Definition SYSCALL_IPC_RECV : Z := 9.
Definition SYSCALL_KILL : Z := 10.
Definition SYSCALL_KERNEL_INFO : Z := 11.
Definition SYSCALL_OPEN : Z := 12.
Definition SYSCALL_CLOSE : Z := 13.
Definition SYSCALL_READ : Z := 14.
Definition SYSCALL_WRITE : Z := 15.
Definition SYSCALL_MKDIR : Z := 16.
Definition SYSCALL_READDIR : Z := 17.
Definition SYSCALL_UNLINK : Z := 18.
Definition SYSCALL_RMDIR : Z := 19.
Definition SYSCALL_GETTIME : Z := 20.
Definition SYSCALL_FORK : Z := 21.
Definition SYSCALL_EXEC : Z := 22.
Definition SYSCALL_DUP2 : Z := 23.
Definition SYSCALL_EXECV : Z := 24.
Definition SYSCALL_GETARGS : Z := 25.
Definition SYSCALL_GETCWD : Z := 27.
Definition SYSCALL_CHDIR : Z := 28.

Definition SCAUSE_ENVIRONMENT_CALL_FROM_U_MODE : Z := 8.
Definition SCAUSE_SUPERVISOR_TIMER : Z := 0x80000005.
Definition KERNEL_BASE : Z := 0x80200000.
Definition KERNEL_VERSION : list Z := bytes "v0.1.0".
Definition KERNEL_VERSION_MAX : Z := 16.
Definition KERNEL_STACK_BYTES : Z := 8192.
Definition TIMER_INTERVAL : Z := 200000.

(** The registers of [struct trap_frame] that the handlers use; the others are saved
    and restored as they are. *)
Record trap_frame := Frame { a0 : Z; a1 : Z; a2 : Z; a3 : Z }.

Definition set_a0 (f : trap_frame) (x : Z) : trap_frame := Frame (u32 x) (a1 f) (a2 f) (a3 f).

(** ** The state and the results *)

Section syscall.
Context {D : Type} `{BlockDev D}.
Context (kernel_base free_ram_end : Z) (app_image : Z → list Z).
(** What [memory_init] returned at start-up; the value of the clock when the trap is
    taken; and what is on the kernel stack where [syscall_handle_kernel_info] has its
    variables. *)
Context (kernel_total_pages now : Z) (stack_garbage : list Z).

Let this_env : ProcEnv (machine (D := D)) := kernel_env kernel_base free_ram_end app_image.
#[local] Existing Instance this_env.
Implicit Types k : kstate (machine (D := D)).

(** The kernel with its console, and what has been printed. *)
Record sys := Sys { sys_io : io (machine (D := D)); printed : list Z }.

Definition kernel_of (s : sys) : kstate machine := kern (sys_io s).
Definition with_kernel (s : sys) k : sys := Sys (Io k (ring (sys_io s)) (dev (sys_io s))) (printed s).
Definition files_of (s : sys) : vfs D := files (env (kernel_of s)).
Definition user_mem (s : sys) : mem := memory_of (env (kernel_of s)).
Definition put_files (s : sys) (v : vfs D) : sys :=
  with_kernel s (set_env (kernel_of s) (with_files (env (kernel_of s)) v)).
Definition put_mem (s : sys) (m : mem) : sys :=
  with_kernel s (set_env (kernel_of s) (with_memory (env (kernel_of s)) m)).
Definition print (s : sys) (l : list Z) : sys := Sys (sys_io s) (printed s ++ l).

(** The page table in use is that of the calling process. *)
Definition table_of (s : sys) (cur : nat) : Z := page_table (proc_at (kernel_of s) cur).
Definition user_size (s : sys) (cur : nat) : nat :=
  S (Z.to_nat (user_pages (proc_at (kernel_of s) cur) * PAGE_SIZE)).

Definition get_string (s : sys) (cur : nat) (va : Z) : option (list Z) :=
  load_string (user_size s cur) (user_mem s) (table_of s cur) va.

Definition put_bytes (s : sys) (cur : nat) (va : Z) (l : list Z) : option sys :=
  let! m := store_user (table_of s cur) va l (user_mem s) in Some (put_mem s m).

(** Where a call that has called [yield] goes on. *)
Inductive waiting :=
| ForChild (target : Z) | ForMessage (from_ptr : Z) | ForChar
| ForRead (n : nat) (buf size : Z) | Forever.

(** A handler is done, with the value of [a0]; or it waits; or the machine is off; or the
    code goes on with memory that is not the caller's. *)
Inductive result :=
| Ret (a0 : Z) (s : sys) | Wait (w : waiting) (s : sys) | Halt (s : sys) | Stray (s : sys).

(** An access to the memory of the caller, in the state [s]. *)
#[local] Notation "'let?[' s ] p ':=' e 'in' k" :=
  (match e with Some p => k | None => Some (Stray s) end)
  (at level 10, s at level 99, p pattern, e at level 100, k at level 200).

(** ** Console *)

Definition syscall_handle_putchar (f : trap_frame) (s : sys) : result :=
  Ret (a0 f) (print s [u8 (a0 f)]).

Definition getchar_call (cur : nat) (s : sys) : result :=
  let '(ch, d, c, k) := Console.syscall_handle_getchar cur (dev (sys_io s)) (ring (sys_io s)) (kernel_of s) in
  let s := Sys (Io k c d) (printed s) in
  match ch with Some ch => Ret ch s | None => Wait ForChar s end.

(** ** Processes *)

Definition syscall_handle_exit (cur : nat) (s : sys) : result :=
  let k := kernel_of s in
  if bool_decide (init_proc k = Some cur) then
    let k := upd_proc k cur (set_wait PROC_EXITED PROC_WAIT_NONE (-1)) in
    let '(_, e) := procfs_sync_process (proc_at k cur) (env k) in
    Halt (with_kernel s (set_env k e))
  else Wait Forever (with_kernel s (exit_current cur k)).

Definition ps_info_bytes (p : process) : list Z :=
  le32 (pid p) ++ le32 (parent_pid p) ++ le32 (state p) ++ le32 (wait_reason p) ++
  take (Z.to_nat PROC_NAME_MAX) (pname p).

Definition syscall_handle_ps (cur : nat) (f : trap_frame) (s : sys) : option result :=
  let index := i32 (a0 f) in
  if (index <? 0) || (PROCS_MAX <=? index) then Some (Ret (-1) s)
  else if a1 f =? 0 then Some (Ret 0 s)
  else
    let?[s] s := put_bytes s cur (a1 f) (ps_info_bytes (proc_at (kernel_of s) (Z.to_nat index))) in
    Some (Ret 0 s).

Definition syscall_handle_clone (f : trap_frame) (s : sys) : option result :=
  match resolve_app_image app_image (i32 (a0 f)) with
  | None => Some (Ret (-1) s)
  | Some (image, name) =>
      let! (r, k) := clone_process image (Some name) (kernel_of s) in
      Some (Ret r (with_kernel s k))
  end.

(** The call and its loop in [wait_for_child_exit], which a process that is woken makes
    again. *)
Definition wait_child (cur : nat) (target : Z) (s : sys) : option result :=
  let! o := wait_for_child_exit cur (pid (proc_at (kernel_of s) cur)) target (kernel_of s) in
  Some (match o with
        | Done r k => Ret r (with_kernel s k)
        | Blocked _ k => Wait (ForChild target) (with_kernel s k)
        end).

Definition syscall_handle_waitpid (cur : nat) (f : trap_frame) (s : sys) : option result :=
  let target_pid := i32 (a0 f) in
  if (target_pid <=? 0) && negb (target_pid =? -1) then Some (Ret (-1) s)
  else wait_child cur target_pid s.

Definition syscall_handle_kill (f : trap_frame) (s : sys) : option result :=
  let! o := process_kill (i32 (a0 f)) (kernel_of s) in
  Some (match o with
        | Done r k => Ret r (with_kernel s k)
        | Blocked _ k => Wait Forever (with_kernel s k)
        end).

Definition syscall_handle_fork (s : sys) : option result :=
  let! (r, k) := process_fork (kernel_of s) in
  Some (match r with
        | Some child => Ret (pid (proc_at k child)) (with_kernel s k)
        | None => Ret (-1) (with_kernel s k)
        end).

(** [process_exec] of an application, and the result of the call. *)
Definition exec_call (app_id argc : Z) (argv : option (list (list Z))) (s : sys) : option result :=
  match resolve_app_image app_image app_id with
  | None => Some (Ret (-1) s)
  | Some (image, name) =>
      let! (ok, k) := process_exec (Some image) (Some name) argc argv (kernel_of s) in
      Some (Ret (if ok then 0 else -1) (with_kernel s k))
  end.

Definition syscall_handle_exec (f : trap_frame) (s : sys) : option result :=
  exec_call (i32 (a0 f)) 0 None s.

(** The loop of [copy_user_argv]: the arguments from pointer [i] on. *)
Fixpoint copy_argv_loop (n : nat) (m : mem) (t va : Z) : option (list (list Z)) :=
  match n with
  | O => Some []
  | S n' =>
      let! p := load_word m t va in
      if p =? 0 then Some []
      else
        let! chars := load_chars (Z.to_nat (PROC_EXEC_ARG_LEN - 1)) m t p in
        let! rest := copy_argv_loop n' m t (u32 (va + 4)) in
        Some (exec_arg chars :: rest)
  end.

(** The number of arguments and the array, whose other rows are zero. *)
Definition copy_user_argv (m : mem) (t uargv : Z) : option (Z * list (list Z)) :=
  if uargv =? 0 then Some (0, no_args)
  else
    let! argv := copy_argv_loop (Z.to_nat PROC_EXEC_ARGV_MAX) m t uargv in
    Some (Z.of_nat (length argv), argv ++ drop (length argv) no_args).

Definition syscall_handle_execv (cur : nat) (f : trap_frame) (s : sys) : option result :=
  match resolve_app_image app_image (i32 (a0 f)) with
  | None => Some (Ret (-1) s)
  | Some _ =>
      let?[s] (argc, argv) := copy_user_argv (user_mem s) (table_of s cur) (a1 f) in
      exec_call (i32 (a0 f)) argc (Some argv) s
  end.

Definition syscall_handle_getargs (cur : nat) (f : trap_frame) (s : sys) : option result :=
  if a0 f =? 0 then Some (Ret (-1) s)
  else
    let p := proc_at (kernel_of s) cur in
    let?[s] s := put_bytes s cur (a0 f) (le32 (exec_argc p) ++ concat (exec_argv p)) in
    Some (Ret 0 s).

(** ** Files *)

(** A handler that takes a path at [a0]. *)
Definition with_path (cur : nat) (f : trap_frame) (s : sys)
    (op : list Z → option result) : option result :=
  if a0 f =? 0 then Some (Ret (-1) s)
  else let?[s] path := get_string s cur (a0 f) in op path.

Definition syscall_handle_open (cur : nat) (f : trap_frame) (s : sys) : option result :=
  with_path cur f s (λ path,
    let '(r, v) := fs_open (pid (proc_at (kernel_of s) cur)) (Some path) (i32 (a1 f)) (files_of s) in
    Some (Ret r (put_files s v))).

Definition syscall_handle_close (cur : nat) (f : trap_frame) (s : sys) : option result :=
  let '(r, v) := fs_close (pid (proc_at (kernel_of s) cur)) (i32 (a0 f)) (files_of s) in
  Some (Ret r (put_files s v)).

(** The loop of [console_read_fallback], with [n] characters of [size] still to read. *)
Fixpoint read_console (n cur : nat) (buf size : Z) (s : sys) : option result :=
  match n with
  | O => Some (Ret (i32 size) s)
  | S n' =>
      let '(ch, d, c, k) :=
        Console.syscall_handle_getchar cur (dev (sys_io s)) (ring (sys_io s)) (kernel_of s) in
      let s := Sys (Io k c d) (printed s) in
      match ch with
      | None => Some (Wait (ForRead n buf size) s)
      | Some ch =>
          let?[s] s := put_bytes s cur (u32 (buf + (size - Z.of_nat n))) [ch] in
          read_console n' cur buf size s
      end
  end.

Definition syscall_handle_read (cur : nat) (f : trap_frame) (s : sys) : option result :=
  if (a1 f =? 0) && (0 <? a2 f) then Some (Ret (-1) s)
  else
    match fs_read (pid (proc_at (kernel_of s) cur)) (i32 (a0 f)) (negb (a1 f =? 0)) (a2 f) (files_of s) with
    | (ReadRet r b, v) =>
        let?[put_files s v] s := put_bytes (put_files s v) cur (a1 f) b in Some (Ret r s)
    | (ReadConsole size, v) => read_console (Z.to_nat size) cur (a1 f) size (put_files s v)
    end.

(** The bytes of its buffer that [fs_write] looks at. *)
Definition write_extent (pid fd sz : Z) (v : vfs D) : Z :=
  let f := fd_at v pid fd in
  if bad_pid pid || bad_fd fd then 0
  else if fd_used f =? 0 then (if fd =? 1 then sz else 0)
  else if (Z.land (fd_flags f) O_WRONLY =? 0) || bad_mount v (fd_mount f) then 0
  else if negb (valid_node (get_fs v (mount_ctx v (Z.to_nat (fd_mount f)))) (fd_node f)) then 0
  else Z.max 0 (Z.min sz (FS_FILE_MAX_SIZE - fd_offset f)).

Definition syscall_handle_write (cur : nat) (f : trap_frame) (s : sys) : option result :=
  if (a1 f =? 0) && (0 <? a2 f) then Some (Ret (-1) s)
  else
    let p := pid (proc_at (kernel_of s) cur) in
    let?[s] buf := if a1 f =? 0 then Some None
                else let! b := load_bytes (Z.to_nat (write_extent p (i32 (a0 f)) (a2 f) (files_of s)))
                                 (user_mem s) (table_of s cur) (a1 f) in Some (Some b) in
    let '(r, out, v) := fs_write p (i32 (a0 f)) buf (a2 f) (files_of s) in
    Some (Ret r (print (put_files s v) out)).

Definition syscall_handle_mkdir (cur : nat) (f : trap_frame) (s : sys) : option result :=
  with_path cur f s (λ path,
    let '(r, v) := fs_mkdir (Some path) (files_of s) in Some (Ret r (put_files s v))).

Definition dirent_bytes (d : fs_dirent) : list Z := d_name d ++ le32 (d_type d) ++ le32 (d_size d).

Definition syscall_handle_readdir (cur : nat) (f : trap_frame) (s : sys) : option result :=
  if (a0 f =? 0) || (a2 f =? 0) then Some (Ret (-1) s)
  else
    let?[s] path := get_string s cur (a0 f) in
    match fs_readdir (Some path) (i32 (a1 f)) true (files_of s) with
    | (r, Some d) => let?[s] s := put_bytes s cur (a2 f) (dirent_bytes d) in Some (Ret r s)
    | (r, None) => Some (Ret r s)
    end.

Definition syscall_handle_unlink (cur : nat) (f : trap_frame) (s : sys) : option result :=
  with_path cur f s (λ path,
    let '(r, v) := fs_unlink (Some path) (files_of s) in Some (Ret r (put_files s v))).

Definition syscall_handle_rmdir (cur : nat) (f : trap_frame) (s : sys) : option result :=
  with_path cur f s (λ path,
    let '(r, v) := fs_rmdir (Some path) (files_of s) in Some (Ret r (put_files s v))).

Definition syscall_handle_dup2 (cur : nat) (f : trap_frame) (s : sys) : option result :=
  let '(r, v) := fs_dup2 (pid (proc_at (kernel_of s) cur)) (i32 (a0 f)) (i32 (a1 f)) (files_of s) in
  Some (Ret (if r <? 0 then -1 else r) (put_files s v)).

Definition syscall_handle_getcwd (cur : nat) (f : trap_frame) (s : sys) : option result :=
  if a0 f =? 0 then Some (Ret (-1) s)
  else
    let cwd := cstr (cwd_path (proc_at (kernel_of s) cur)) in
    let?[s] s := put_bytes s cur (a0 f) (take (Z.to_nat (FS_PATH_MAX - 1)) cwd ++ [0]) in
    Some (Ret 0 s).

Definition syscall_handle_chdir (cur : nat) (f : trap_frame) (s : sys) : option result :=
  if a0 f =? 0 then Some (Ret (-1) s)
  else
    let?[s] path := load_chars (Z.to_nat (FS_PATH_MAX - 1)) (user_mem s) (table_of s cur) (a0 f) in
    match fs_get_path_entry (Some path) (files_of s) with
    | None => Some (Ret (-1) s)
    | Some (m, n) => Some (Ret 0 (with_kernel s (enter_dir cur m n path (kernel_of s))))
    end.

(** ** Messages *)

Definition syscall_handle_ipc_send (cur : nat) (f : trap_frame) (s : sys) : result :=
  let src := pid (proc_at (kernel_of s) cur) in
  if src <=? 0 then Ret (-1) s
  else let '(r, k) := process_ipc_send src (i32 (a0 f)) (a1 f) (kernel_of s) in Ret r (with_kernel s k).

(** The call of [process_ipc_recv] and what follows it. *)
Definition receive (cur : nat) (from_ptr : Z) (s : sys) : option result :=
  match process_ipc_recv (pid (proc_at (kernel_of s) cur)) (kernel_of s) with
  | Done None k => Some (Ret (-1) (with_kernel s k))
  | Done (Some (from, msg)) k =>
      let s := with_kernel s k in
      let?[s] s := if from_ptr =? 0 then Some s else put_bytes s cur from_ptr (le32 from) in
      Some (Ret (i32 msg) s)
  | Blocked _ k => Some (Wait (ForMessage from_ptr) (with_kernel s k))
  end.

Definition syscall_handle_ipc_recv (cur : nat) (f : trap_frame) (s : sys) : option result :=
  if pid (proc_at (kernel_of s) cur) <=? 0 then Some (Ret (-1) s) else receive cur (a0 f) s.

(** ** Memory, clock and constants *)

Definition syscall_handle_bitmap (f : trap_frame) (s : sys) : option result :=
  let! r := bitmap_page_state (i32 (a0 f)) (user_mem s) in Some (Ret r s).

Definition syscall_handle_gettime (cur : nat) (f : trap_frame) (s : sys) : option result :=
  let '(sec_lo, sec_hi, nsec) := gettime_fields now in
  if a0 f =? 0 then Some (Ret 0 s)
  else
    let?[s] s := put_bytes s cur (a0 f) (le32 sec_lo ++ le32 sec_hi ++ le32 nsec) in
    Some (Ret 0 s).

(** The bytes of the [struct kernel_info] that [kernel_get_info] fills: the end of
    [time] is what was on the stack. *)
Definition kernel_info_bytes : option (list Z) :=
  let! (_, ts) := unix_time_to_utc_str (rtc_now_sec now) (take 40 stack_garbage) 40 in
  Some (copy_chars (Z.to_nat (KERNEL_VERSION_MAX - 1)) KERNEL_VERSION (zero_bytes KERNEL_VERSION_MAX) ++
        strcpy_s (take 40 (drop 40 stack_garbage)) 40 ts ++
        concat (map le32
          [kernel_total_pages; PAGE_SIZE; KERNEL_BASE; USER_BASE; PROCS_MAX; KERNEL_STACK_BYTES;
           SCHED_TIME_SLICE_TICKS; TIMER_INTERVAL / 10000; FS_MAX_NODES; FS_FILE_MAX_SIZE;
           BLOCKDEV_BLOCK_SIZE; BLOCKDEV_BLOCK_COUNT; fs_get_pfs_image_blocks;
           fs_get_pfs_image_blocks * BLOCKDEV_BLOCK_SIZE])).

Definition syscall_handle_kernel_info (cur : nat) (f : trap_frame) (s : sys) : option result :=
  if a0 f =? 0 then Some (Ret (-1) s)
  else
    let! info := kernel_info_bytes in
    let?[s] s := put_bytes s cur (a0 f) info in
    Some (Ret 0 s).

(** ** Dispatch *)

Definition handle_syscall (cur : nat) (f : trap_frame) (s : sys) : option result :=
  let sysno := a3 f in
  if sysno =? SYSCALL_PUTCHAR then Some (syscall_handle_putchar f s)
  else if sysno =? SYSCALL_GETCHAR then Some (getchar_call cur s)
  else if sysno =? SYSCALL_EXIT then Some (syscall_handle_exit cur s)
  else if sysno =? SYSCALL_PS then syscall_handle_ps cur f s
  else if sysno =? SYSCALL_CLONE then syscall_handle_clone f s
  else if sysno =? SYSCALL_WAITPID then syscall_handle_waitpid cur f s
  else if sysno =? SYSCALL_IPC_SEND then Some (syscall_handle_ipc_send cur f s)
  else if sysno =? SYSCALL_IPC_RECV then syscall_handle_ipc_recv cur f s
  else if sysno =? SYSCALL_BITMAP then syscall_handle_bitmap f s
  else if sysno =? SYSCALL_KILL then syscall_handle_kill f s
  else if sysno =? SYSCALL_KERNEL_INFO then syscall_handle_kernel_info cur f s
  else if sysno =? SYSCALL_OPEN then syscall_handle_open cur f s
  else if sysno =? SYSCALL_CLOSE then syscall_handle_close cur f s
  else if sysno =? SYSCALL_READ then syscall_handle_read cur f s
  else if sysno =? SYSCALL_WRITE then syscall_handle_write cur f s
  else if sysno =? SYSCALL_MKDIR then syscall_handle_mkdir cur f s
  else if sysno =? SYSCALL_READDIR then syscall_handle_readdir cur f s
  else if sysno =? SYSCALL_UNLINK then syscall_handle_unlink cur f s
  else if sysno =? SYSCALL_RMDIR then syscall_handle_rmdir cur f s
  else if sysno =? SYSCALL_GETTIME then syscall_handle_gettime cur f s
  else if sysno =? SYSCALL_FORK then syscall_handle_fork s
  else if sysno =? SYSCALL_EXEC then syscall_handle_exec f s
  else if sysno =? SYSCALL_DUP2 then syscall_handle_dup2 cur f s
  else if sysno =? SYSCALL_EXECV then syscall_handle_execv cur f s
  else if sysno =? SYSCALL_GETARGS then syscall_handle_getargs cur f s
  else if sysno =? SYSCALL_GETCWD then syscall_handle_getcwd cur f s
  else if sysno =? SYSCALL_CHDIR then syscall_handle_chdir cur f s
  else None.

(** What the process does when the scheduler comes back to it: it makes the turn of the
    loop that it was in again.  [exit] and [kill] of the process itself do not expect
    to come back. *)
Definition resume (cur : nat) (w : waiting) (s : sys) : option result :=
  match w with
  | ForChild target => wait_child cur target s
  | ForMessage from_ptr => receive cur from_ptr s
  | ForChar => Some (getchar_call cur s)
  | ForRead n buf size => read_console n cur buf size s
  | Forever => None
  end.

(** ** Traps *)

Inductive trap_result :=
| Return (f : trap_frame) (pc : Z) (s : sys)
| Waits (w : option waiting) (f : trap_frame) (pc : Z) (s : sys)
| Off (s : sys)
| Strays (s : sys).

(** The case of the environment call, once the handler is done. *)
Definition finish_syscall (f : trap_frame) (pc : Z) (r : result) : trap_result :=
  match r with
  | Ret x s =>
      let f' := set_a0 f x in
      if ((a3 f =? SYSCALL_EXEC) || (a3 f =? SYSCALL_EXECV)) && (a0 f' =? 0)
      then Return f' USER_BASE s else Return f' (u32 (pc + 4)) s
  | Wait w s => Waits (Some w) f pc s
  | Halt s => Off s
  | Stray s => Strays s
  end.

(** [stack_base i] is the address of the kernel stack of the [i]-th process. *)
Definition process_from_trap_frame (stack_base : nat → Z) (addr : Z) : option nat :=
  first_idx (λ i, (stack_base i <=? addr) && (addr <? u32 (stack_base i + KERNEL_STACK_BYTES))) (seq 0 64).

Definition set_owner (stack_base : nat → Z) (addr : Z) (from_user : bool) (s : sys) : sys :=
  if from_user then
    match process_from_trap_frame stack_base addr with
    | Some owner => with_kernel s (set_current (kernel_of s) (Some owner))
    | None => s
    end
  else s.

(** The case of the timer: with [None], the process goes on when [yield] returns. *)
Definition timer_trap (f : trap_frame) (pc : Z) (s : sys) : trap_result :=
  let '(d, c, k) := poll_console_input (dev (sys_io s)) (ring (sys_io s)) (kernel_of s) in
  let s := Sys (Io (scheduler_on_timer_tick k) c d) (printed s) in
  if scheduler_should_yield (kernel_of s) then Waits None f pc s else Return f pc s.

(** [addr] is the address of the frame [f].  Only an environment call of user mode and
    the timer do not panic; every fault of a process stops the machine. *)
Definition handle_trap (stack_base : nat → Z) (scause addr : Z) (f : trap_frame) (pc : Z)
    (from_user : bool) (s : sys) : option trap_result :=
  let s := set_owner stack_base addr from_user s in
  if scause =? SCAUSE_ENVIRONMENT_CALL_FROM_U_MODE then
    let! cur := current_proc (kernel_of s) in
    let! r := handle_syscall cur f s in
    Some (finish_syscall f pc r)
  else if scause =? SCAUSE_SUPERVISOR_TIMER then Some (timer_trap f pc s)
  else None.

(** A process that waits in a trap goes on; [sepc] is what is then in the register, which
    a system call sets again before it returns and the timer does not. *)
Definition resume_trap (cur : nat) (w : option waiting) (f : trap_frame) (pc sepc : Z) (s : sys)
  : option trap_result :=
  match w with
  | None => Some (Return f sepc s)
  | Some w => let! r := resume cur w s in Some (finish_syscall f pc r)
  end.
End syscall.

Notation "'let?[' s ] p ':=' e 'in' k" :=
  (match e with Some p => k | None => Some (Stray s) end)
  (at level 10, s at level 99, p pattern, e at level 100, k at level 200) : c_scope.
