(* ===== verification/SyscallSpec.v ===== *)
(** * What the system calls do to the system

    Every trap is a sequence of steps of the system of [System], and of the console of
    [ConsoleSpec]: what holds of those holds of the kernel as its processes drive it. *)
From Stdlib Require Import ZArith Lia ZifyBool String.
From stdpp Require Import base tactics list numbers option relations.
From S2P Require Import Prelude Memory CString TimeFmt BlockDev NodeFs NodeFsSpec NodeFsOps Vfs VfsSpec.
From S2P Require Import Process ProcessSpec ProcessOps Scheduler PageTable PageTableSpec AddressSpace.
From S2P Require Import Spaces UserMemory Procfs ProcfsSpec Console ConsoleSpec Kernel KernelSpec System Syscall.
#[local] Open Scope Z_scope.

(** The registers of a frame hold 32 bits. *)
Definition frame_ok (f : trap_frame) : Prop :=
  0 ≤ a0 f < 4294967296 ∧ 0 ≤ a1 f < 4294967296 ∧ 0 ≤ a2 f < 4294967296 ∧ 0 ≤ a3 f < 4294967296.

(** The pointer that a process that waits has given is one. *)
Definition waiting_ok (w : waiting) : Prop :=
  match w with
  | ForMessage from_ptr => 0 ≤ from_ptr < 4294967296
  | _ => True
  end.

Section syscalls.
Context {D : Type} `{BlockDev D}.
Context (kernel_base free_ram_end : Z) (app_image : Z → list Z).
Context (kernel_total_pages now : Z) (stack_garbage : list Z).
Context (Hkernel : kernel_base mod 4096 = 0 ∧ MMIO_BASE ≤ kernel_base ∧ free_ram_end ≤ 4294967296).
Context (Happs : ∀ app_id, uva (image_pages (app_image app_id)) ≤ MMIO_BASE).

Let this_env : ProcEnv (machine (D := D)) := kernel_env kernel_base free_ram_end app_image.
#[local] Existing Instance this_env.
Implicit Types k : kstate (machine (D := D)).
Implicit Types s : sys (D := D).

Definition moves : kstate machine → kstate machine → Prop := system_step kernel_base free_ram_end app_image.

(** From [s] to [s'] the kernel makes steps of the system, and the console delivers the
    characters [d]. *)
Definition carried s (d : list Z) s' : Prop :=
  rtc moves (kernel_of s) (kernel_of s') ∧
  ∀ typed delivered, io_run typed delivered (sys_io s) → io_run typed (delivered ++ d) (sys_io s').

(** A system in which [cur] runs, with what holds of every system. *)
Record runs s (cur : nat) : Prop := {
  rn_kernel : kernel_ok (kernel_of s);
  rn_system : system_ok (kernel_of s);
  rn_running : running (kernel_of s) cur
}.

Lemma moves_ok k k' : rtc moves k k' → kernel_ok k → system_ok k → kernel_ok k' ∧ system_ok k'.
Proof using Hkernel Happs.
  induction 1 as [k|k1 k2 k3 Hs _ IH]; [done|]. intros Hok Hk.
  destruct (system_step_keeps kernel_base free_ram_end app_image Hkernel Happs k1 k2 Hok Hk Hs)
    as [? [? _]]. by apply IH.
Qed.

Lemma carried_runs s d s' cur : carried s d s' → runs s cur → running (kernel_of s') cur → runs s' cur.
Proof using Hkernel Happs. intros [Hm _] [Hok Hk _] Hrun. by destruct (moves_ok _ _ Hm Hok Hk). Qed.

Lemma carried_same s s' : sys_io s' = sys_io s → carried s [] s'.
Proof. intros E. unfold carried, kernel_of. rewrite E. split; [done|]. intros ??. by rewrite app_nil_r. Qed.

Lemma carried_trans s1 d1 s2 d2 s3 : carried s1 d1 s2 → carried s2 d2 s3 → carried s1 (d1 ++ d2) s3.
Proof.
  intros [M1 R1] [M2 R2]. split; [by etrans|]. intros typed delivered Hr. rewrite app_assoc. auto.
Qed.

Lemma carried_step s d s' :
  moves (kernel_of s) (kernel_of s') → io_step (sys_io s) [] d (sys_io s') → carried s d s'.
Proof.
  intros Hm Hi. split; [by apply rtc_once|]. intros typed delivered Hr.
  rewrite <-(app_nil_r typed). by eapply run_step.
Qed.

Lemma carried_call s k' : kcall (kernel_of s) k' → carried s [] (with_kernel s k').
Proof. intros Hc. apply carried_step; [by apply sys_kernel, step_call|by apply io_call]. Qed.

Lemma carried_file s cur v :
  running (kernel_of s) cur → vfs_step (pid (proc_at (kernel_of s) cur)) (files_of s) v →
  carried s [] (put_files s v).
Proof. intros Hrun Hv. apply carried_step; [by eapply sys_file|apply io_env]. Qed.

Lemma put_mem_same s : put_mem s (user_mem s) = s.
Proof. by destruct s as [[[? ? ? ? []] ? ?] ?]. Qed.

Lemma carried_put s cur va l s' :
  runs s cur → 0 ≤ va < 4294967296 → put_bytes s cur va l = Some s' →
  carried s [] s' ∧ runs s' cur.
Proof using Hkernel Happs.
  intros Hrn Hva Hput. pose proof (rn_running _ _ Hrn) as Hrun.
  assert (Hc : carried s [] s' ∧ running (kernel_of s') cur).
  { unfold put_bytes in Hput. destruct (store_user (table_of s cur) va l (user_mem s)) as [m'|] eqn:E; [|done].
    injection Hput as <-. split; [|done]. rewrite <-(put_mem_same s) at 1.
    clear Hrn. generalize dependent (user_mem s). revert va Hva.
    induction l as [|b l IH]; intros va Hva m; cbn [store_user].
    { intros [= <-]. by apply carried_same. }
    destruct (user_store (table_of s cur) va b m) as [m1|] eqn:E1; [|done]. cbn [mbind option_bind].
    intros E. change [] with ([] ++ [] : list Z).
    eapply carried_trans; [|by apply (IH (u32 (va + 1))); [apply u32_range|]].
    apply carried_step; [|apply (io_env (sys_io (put_mem s m)))].
    by apply (sys_store _ _ _ (kernel_of (put_mem s m)) cur va b m1). }
  destruct Hc as [Hc Hrun']. split; [done|]. by eapply carried_runs.
Qed.

Lemma running_got k cur : running k cur → running (got_input cur k) cur.
Proof.
  intros Hrun. destruct (running_proc k cur Hrun) as [Hp Hs].
  destruct Hrun as (?&?&_). split; [done|]. split; [done|]. unfold got_input.
  rewrite (procs_upd k cur _ _ Hp). eexists. split; [by eapply lookup_change_eq|done].
Qed.

Lemma carried_poll s :
  let '(d, c, k) := poll_console_input (dev (sys_io s)) (ring (sys_io s)) (kernel_of s) in
  carried s [] (Sys (Io k c d) (printed s)) ∧ rtc moves (kernel_of s) k ∧
  ∀ cur, runs s cur → running k cur.
Proof.
  pose proof (io_poll (sys_io s)) as Hi. change (kern (sys_io s)) with (kernel_of s) in Hi.
  unfold poll_console_input in *.
  destruct (poll_loop 64 (dev (sys_io s)) (ring (sys_io s))) as [d1 c1].
  set (k1 := if 0 <? input_count c1 then wakeup_input_waiters (kernel_of s) else kernel_of s) in *.
  assert (Hm : rtc moves (kernel_of s) k1).
  { unfold k1. case_if; [|done]. by apply rtc_once, sys_kernel, step_input. }
  split; [|split; [done|]].
  - split; [exact Hm|]. intros typed delivered Hr. rewrite <-(app_nil_r typed). by eapply run_step.
  - intros cur [Hk _ Hrun]. unfold k1. case_if; [|done]. by apply running_wakeup.
Qed.

Lemma carried_getchar s cur r d c k :
  runs s cur →
  syscall_handle_getchar cur (dev (sys_io s)) (ring (sys_io s)) (kernel_of s) = (r, d, c, k) →
  carried s (match r with Some ch => [ch] | None => [] end) (Sys (Io k c d) (printed s)) ∧
  (r ≠ None → runs (Sys (Io k c d) (printed s)) cur).
Proof using Hkernel Happs.
  intros Hrn Hg. pose proof (rn_running _ _ Hrn) as Hrun.
  assert (Hm : rtc moves (kernel_of s) k ∧ (r ≠ None → running k cur)).
  { pose proof (carried_poll s) as Hp. unfold syscall_handle_getchar in Hg.
    destruct (input_pop (ring (sys_io s))) as [[ch c1]|].
    { injection Hg as <- _ _ <-. split; [by apply rtc_once, sys_kernel, step_got|].
      intros _. by apply running_got. }
    destruct (poll_console_input _ _ _) as [[d1 c1] k1]. destruct Hp as (_&Hk1&Hrun1).
    specialize (Hrun1 cur Hrn). destruct (input_pop c1) as [[ch c2]|]; injection Hg as <- _ _ <-.
    - split; [|intros _; by apply running_got]. eapply rtc_r; [exact Hk1|]. by apply sys_kernel, step_got.
    - split; [|done]. eapply rtc_r; [exact Hk1|]. by apply sys_kernel, step_getchar. }
  assert (Hc : carried s (match r with Some ch => [ch] | None => [] end) (Sys (Io k c d) (printed s))).
  { split; [apply Hm|]. intros typed delivered Hr. rewrite <-(app_nil_r typed).
    eapply run_step; [exact Hr|]. by eapply io_getchar. }
  split; [exact Hc|]. intros Hr. eapply carried_runs; [exact Hc|exact Hrn|by apply Hm].
Qed.

(** What a handler, or the loop that a process resumes, does when it does not switch
    the machine off. *)
Definition handled s (r : result (D := D)) : Prop :=
  match r with
  | Ret _ s' => ∃ d, carried s d s'
  | Wait w s' => waiting_ok w ∧ ∃ d, carried s d s'
  | Halt _ => False
  | Stray _ => True
  end.

Lemma handled_after s d s1 r : carried s d s1 → handled s1 r → handled s r.
Proof.
  intros Hc. destruct r as [x s2|w s2|s2|s2]; simpl; [intros [d2 Hd]|intros [Hw [d2 Hd]]; split; [done|]|done|done];
    eexists; by eapply carried_trans.
Qed.

Lemma handled_same s x : handled s (Ret x s).
Proof. exists []. by apply carried_same. Qed.

Lemma handled_call s x k' : kcall (kernel_of s) k' → handled s (Ret x (with_kernel s k')).
Proof. intros Hc. exists []. by apply carried_call. Qed.

Lemma handled_wait s w k' :
  waiting_ok w → kcall (kernel_of s) k' → handled s (Wait w (with_kernel s k')).
Proof. intros Hw Hc. split; [done|]. exists []. by apply carried_call. Qed.

Lemma handled_file s cur x v :
  runs s cur → vfs_step (pid (proc_at (kernel_of s) cur)) (files_of s) v →
  handled s (Ret x (put_files s v)).
Proof. intros [_ _ Hrun] Hv. exists []. by eapply carried_file. Qed.

Lemma handled_put s cur x va l r :
  runs s cur → 0 ≤ va < 4294967296 →
  (let?[s] t := put_bytes s cur va l in Some (Ret x t)) = Some r → handled s r.
Proof using Hkernel Happs.
  intros Hrun Hva. destruct (put_bytes s cur va l) as [s'|] eqn:E; [|by intros [= <-]]. intros [= <-].
  exists []. by eapply carried_put.
Qed.

(** ** The handlers *)

Lemma getchar_call_handled s cur : runs s cur → handled s (getchar_call kernel_base free_ram_end app_image cur s).
Proof using Hkernel Happs.
  intros Hrun. unfold getchar_call.
  destruct (Console.syscall_handle_getchar _ _ _ _) as [[[r d] c] k] eqn:Hg.
  destruct (carried_getchar s cur r d c k Hrun Hg) as [Hc _].
  destruct r; simpl; [by eexists|]. split; [done|]. by eexists.
Qed.

Lemma read_console_handled n s cur buf size r :
  runs s cur → read_console kernel_base free_ram_end app_image n cur buf size s = Some r → handled s r.
Proof using Hkernel Happs.
  revert s. induction n as [|n IH]; intros s Hrun; cbn [read_console].
  { intros [= <-]. apply handled_same. }
  destruct (Console.syscall_handle_getchar _ _ _ _) as [[[o d] c] k] eqn:Hg.
  destruct (carried_getchar s cur o d c k Hrun Hg) as [Hc Hrun'].
  destruct o as [ch|]; [|intros [= <-]; split; [done|by eexists]].
  destruct (put_bytes _ _ _ _) as [s'|] eqn:Hp; [|by intros [= <-]]. cbn [mbind option_bind]. intros Hr.
  destruct (carried_put _ cur _ [ch] s' (Hrun' ltac:(done)) (u32_range _) Hp) as [Hc2 Hrun2].
  eapply handled_after; [exact Hc|]. eapply handled_after; [exact Hc2|]. by apply IH.
Qed.

(** A write of the bytes that it looks at is a write of the whole buffer. *)
Lemma memcpy_pad n src pad dst : length src = n → memcpy n (src ++ pad) dst = memcpy n src dst.
Proof.
  intros <-. revert dst. induction src as [|c src IH]; intros dst; [by destruct pad, dst|].
  destruct dst as [|x dst]; [done|]. simpl. by rewrite IH.
Qed.

Lemma fs_write_pad p fd b sz pad v :
  vfs_ok v → 0 ≤ sz < 4294967296 → length b = Z.to_nat (write_extent p fd sz v) →
  fs_write p fd (Some b) sz v = fs_write p fd (Some (b ++ pad)) sz v.
Proof.
  intros Hok Hsz. unfold fs_write, write_extent.
  destruct (bad_pid p) eqn:Hp; [done|]. destruct (bad_fd fd) eqn:Hf; [done|].
  cbn [orb]. cbv zeta. apply bad_pid_false in Hp. apply bad_fd_false in Hf.
  destruct (Z.eqb_spec (fd_used (fd_at v p fd)) 0) as [|Hu].
  { case_if; [|done]. intros Hl. rewrite <-Hl, take_app_length, firstn_all. done. }
  destruct (fd_at_live v p fd Hok Hp Hf Hu) as (_&_&_&Ho).
  destruct (Z.land (fd_flags (fd_at v p fd)) O_WRONLY =? 0); [done|]. cbn [orb].
  case_if; [done|]. unfold nodefs_write. case_if; [done|]. unfold FS_FILE_MAX_SIZE.
  destruct (Z.leb_spec 512 (fd_offset (fd_at v p fd))); [done|]. cbv zeta. rewrite (u32_small (512 - _)) by lia.
  intros Hl. rewrite memcpy_pad; [done|]. rewrite Hl. case_if; lia.
Qed.

Lemma write_handled s cur f r :
  runs s cur → frame_ok f → syscall_handle_write cur f s = Some r → handled s r.
Proof.
  intros Hrun (_&_&Hsz&_). unfold syscall_handle_write. set (p := pid _). set (fd := i32 (a0 f)).
  case_if; [intros [= <-]; apply handled_same|].
  assert (Hfile : ∀ buf, (∀ b, buf = Some b → Forall is_byte b ∧
      length b = Z.to_nat (write_extent p fd (a2 f) (files_of s))) →
    (let '(x, out, v) := fs_write p fd buf (a2 f) (files_of s) in
     Some (Ret x (print (put_files s v) out))) = Some r → handled s r).
  { intros buf Hb. destruct (fs_write p fd buf (a2 f) (files_of s)) as [[x out] v] eqn:E. intros [= <-].
    assert (Hv : vfs_step p (files_of s) v).
    { destruct buf as [b|].
      - destruct (Hb b eq_refl) as [Hbb Hbl]. assert (Hok : vfs_ok (files_of s)) by apply (rn_system _ _ Hrun).
        rewrite (fs_write_pad p fd b (a2 f) (repeat 0 (Z.to_nat (a2 f))) _ Hok Hsz Hbl) in E.
        replace v with (fs_write p fd (Some (b ++ repeat 0 (Z.to_nat (a2 f)))) (a2 f) (files_of s)).2
          by (by rewrite E). apply vs_write; [|lia]. intros b' [= <-].
        rewrite length_app, repeat_length. split; [|lia]. apply Forall_app_2; [done|].
        apply Forall_forall. intros c Hc. apply list_elem_of_In, repeat_spec in Hc. by subst c.
      - replace v with (fs_write p fd None (a2 f) (files_of s)).2 by (by rewrite E).
        apply vs_write; [done|lia]. }
    eapply handled_after; [eapply carried_file; [apply Hrun|exact Hv]|]. exists []. by apply carried_same. }
  case_if; cbn [mbind option_bind]; [by apply Hfile|].
  destruct (load_bytes _ _ _ _) as [b|] eqn:Eb; [|by intros [= <-]]. cbn [mbind option_bind]. apply Hfile.
  intros b' [= <-]. by destruct (load_bytes_length _ _ _ _ _ Eb).
Qed.

Lemma get_string_bytes s cur va path : get_string s cur va = Some path → Forall is_byte path.
Proof.
  unfold get_string, load_string. destruct (load_chars _ _ _ _) as [l|] eqn:E; [|done]. simpl.
  case_if; [done|]. intros [= <-]. by destruct (load_chars_bytes _ _ _ _ _ E) as (_&?&_).
Qed.

(** A handler that changes the files of one path. *)
Lemma path_handled s cur f op r :
  runs s cur →
  (∀ path, Forall is_byte path → vfs_step (pid (proc_at (kernel_of s) cur)) (files_of s) (op path).2) →
  with_path cur f s (λ path, let '(x, v) := op path in Some (Ret x (put_files s v))) = Some r →
  handled s r.
Proof.
  intros Hrun Hop. unfold with_path. case_if; [intros [= <-]; apply handled_same|].
  destruct (get_string s cur (a0 f)) as [path|] eqn:E; [|by intros [= <-]]. cbn [mbind option_bind].
  specialize (Hop path (get_string_bytes _ _ _ _ E)). destruct (op path) as [x v]. intros [= <-].
  by eapply handled_file.
Qed.

(** One that changes them without a path. *)
Lemma files_handled s cur (x : Z → Z) op r :
  runs s cur → vfs_step (pid (proc_at (kernel_of s) cur)) (files_of s) op.2 →
  (let '(y, v) := op in Some (Ret (x y) (put_files s v))) = Some r → handled s r.
Proof. intros Hrun Hop. destruct op as [y v]. intros [= <-]. by eapply handled_file. Qed.

Lemma read_handled s cur f r :
  runs s cur → frame_ok f →
  syscall_handle_read kernel_base free_ram_end app_image cur f s = Some r → handled s r.
Proof using Hkernel Happs.
  intros Hrun (_&Hbuf&_&_). unfold syscall_handle_read.
  case_if; [intros [= <-]; apply handled_same|].
  pose proof (vs_read (files_of s) (pid (proc_at (kernel_of s) cur)) (i32 (a0 f)) (negb (a1 f =? 0)) (a2 f)) as Hv.
  destruct (fs_read _ _ _ _ _) as [o v]. cbn [snd] in Hv.
  pose proof (carried_file s cur v (rn_running _ _ Hrun) Hv) as Hc.
  assert (Hrun' : runs (put_files s v) cur) by (eapply carried_runs; [exact Hc|done|by destruct Hrun]).
  destruct o as [x b|n]; intros Hr; (eapply handled_after; [exact Hc|]).
  - by apply (handled_put _ cur x (a1 f) b).
  - by eapply read_console_handled.
Qed.

Lemma readdir_handled s cur f r :
  runs s cur → frame_ok f → syscall_handle_readdir cur f s = Some r → handled s r.
Proof using Hkernel Happs.
  intros Hrun (_&_&Hout&_). unfold syscall_handle_readdir. case_if; [intros [= <-]; apply handled_same|].
  destruct (get_string s cur (a0 f)) as [path|]; [|by intros [= <-]]. cbn [mbind option_bind].
  destruct (fs_readdir _ _ _ _) as [x [d|]]; [|intros [= <-]; apply handled_same].
  by apply handled_put.
Qed.

Lemma chdir_handled s cur f r :
  runs s cur → syscall_handle_chdir kernel_base free_ram_end app_image cur f s = Some r → handled s r.
Proof.
  intros Hrun. unfold syscall_handle_chdir. case_if; [intros [= <-]; apply handled_same|].
  destruct (load_chars _ _ _ _) as [path|] eqn:E; [|by intros [= <-]]. cbn [mbind option_bind].
  destruct (load_chars_bytes _ _ _ _ _ E) as (_&Hb&_).
  destruct (fs_get_path_entry _ _) as [[m n]|]; intros [= <-]; [|apply handled_same].
  apply handled_call. by apply step_chdir; [apply Hrun|].
Qed.

(** ** Processes *)

Lemma exit_handled s cur :
  runs s cur →
  match syscall_handle_exit kernel_base free_ram_end app_image cur s with
  | Halt _ => init_proc (kernel_of s) = Some cur
  | r => handled s r
  end.
Proof.
  intros Hrun. unfold syscall_handle_exit. case_bool_decide as Hi.
  - by destruct (Process.procfs_sync_process _ _).
  - apply handled_wait; [done|]. apply step_exit; [apply Hrun|done].
Qed.

Lemma exec_call_handled s cur app_id argc argv r :
  runs s cur → exec_call kernel_base free_ram_end app_image app_id argc argv s = Some r → handled s r.
Proof.
  intros Hrun. unfold exec_call.
  destruct (resolve_app_image app_image app_id) as [[image name]|] eqn:E;
    [|intros [= <-]; apply handled_same].
  destruct (process_exec _ _ _ _ _) as [[ok k]|] eqn:Ek; [|done]. intros [= <-].
  apply handled_call. eapply step_exec; [apply Hrun| |exact Ek]. by exists app_id.
Qed.

Lemma execv_handled s cur f r :
  runs s cur → syscall_handle_execv kernel_base free_ram_end app_image cur f s = Some r → handled s r.
Proof.
  intros Hrun. unfold syscall_handle_execv.
  destruct (resolve_app_image _ _) as [_|]; [|intros [= <-]; apply handled_same].
  destruct (copy_user_argv _ _ _) as [[argc argv]|]; [|by intros [= <-]]. cbn [mbind option_bind].
  by eapply exec_call_handled.
Qed.

Lemma clone_handled s cur f r :
  runs s cur → syscall_handle_clone kernel_base free_ram_end app_image f s = Some r → handled s r.
Proof.
  intros Hrun. unfold syscall_handle_clone.
  destruct (resolve_app_image app_image (i32 (a0 f))) as [[image name]|] eqn:E;
    [|intros [= <-]; apply handled_same].
  destruct (clone_process _ _ _) as [[x k]|] eqn:Ek; [|done]. intros [= <-].
  apply handled_call. eapply step_clone; [apply Hrun| |exact Ek]. by eexists.
Qed.

Lemma fork_handled s cur r :
  runs s cur → syscall_handle_fork kernel_base free_ram_end app_image s = Some r → handled s r.
Proof.
  intros Hrun. unfold syscall_handle_fork.
  destruct (process_fork (kernel_of s)) as [[x k]|] eqn:Ek; [|done]. cbn [mbind option_bind]. intros [= <-].
  destruct x; apply handled_call; (eapply step_fork; [apply Hrun|exact Ek]).
Qed.

Lemma wait_child_handled s cur target r :
  runs s cur → wait_child kernel_base free_ram_end app_image cur target s = Some r → handled s r.
Proof.
  intros Hrun. unfold wait_child.
  destruct (wait_for_child_exit _ _ _ _) as [o|] eqn:Eo; [|done]. cbn [mbind option_bind]. intros [= <-].
  pose proof (step_waitpid _ _ _ _ (rn_running _ _ Hrun) Eo) as Hc.
  destruct o; [by apply handled_call|by apply handled_wait].
Qed.

Lemma kill_handled s cur f r :
  runs s cur → syscall_handle_kill kernel_base free_ram_end app_image f s = Some r → handled s r.
Proof.
  intros Hrun. unfold syscall_handle_kill.
  destruct (process_kill _ _) as [o|] eqn:Eo; [|done]. cbn [mbind option_bind]. intros [= <-].
  pose proof (step_kill _ _ _ _ (rn_running _ _ Hrun) Eo) as Hc.
  destruct o; [by apply handled_call|by apply handled_wait].
Qed.

Lemma receive_handled s cur from_ptr r :
  runs s cur → 0 ≤ from_ptr < 4294967296 →
  receive kernel_base free_ram_end app_image cur from_ptr s = Some r → handled s r.
Proof using Hkernel Happs.
  intros Hrun Hp. unfold receive. pose proof (step_recv _ _ (rn_running _ _ Hrun)) as Hc.
  pose proof (kk_table _ (rn_kernel _ _ Hrun)) as Hok.
  destruct (process_ipc_recv _ _) as [[[from msg]|] k|w k] eqn:E; simpl in Hc; intros [= <-] || intros Hr.
  - set (s1 := with_kernel s k) in *. assert (Hc1 : carried s [] s1) by by apply carried_call.
    assert (Hrun1 : runs s1 cur).
    { eapply carried_runs; [exact Hc1|done|]. change (kernel_of s1) with k. unfold process_ipc_recv in E.
      rewrite (recv_find _ cur Hok (rn_running _ _ Hrun)) in E. unfold ipc_recv_loop in E.
      destruct (ipc_has_message _ =? 0); [done|]. injection E as _ _ <-. destruct (running_proc _ _ (rn_running _ _ Hrun)) as [Hpr Hs].
      destruct (rn_running _ _ Hrun) as (?&?&_). split; [done|]. split; [done|].
      rewrite (procs_upd _ cur _ _ Hpr).
      eexists. split; [by eapply lookup_change_eq|done]. }
    eapply handled_after; [exact Hc1|]. revert Hr. case_if; cbn [mbind option_bind].
    + intros [= <-]. apply handled_same.
    + by apply handled_put.
  - by apply handled_call.
  - by apply handled_wait.
Qed.

Lemma send_handled s cur f :
  runs s cur → handled s (syscall_handle_ipc_send kernel_base free_ram_end app_image cur f s).
Proof.
  intros Hrun. unfold syscall_handle_ipc_send. cbv zeta. case_if; [apply handled_same|].
  destruct (process_ipc_send _ _ _ _) as [x k] eqn:E. apply handled_call.
  eapply step_send; [apply Hrun|exact E].
Qed.

Lemma put_handled s cur x va l c r :
  runs s cur → 0 ≤ va < 4294967296 →
  (if c : bool then Some (Ret x s) else let?[s] t := put_bytes s cur va l in Some (Ret 0 t)) = Some r →
  handled s r.
Proof using Hkernel Happs.
  intros Hrun Hva. destruct c; [intros [= <-]; apply handled_same|]. by apply handled_put.
Qed.

Lemma ps_handled s cur f r :
  runs s cur → frame_ok f → syscall_handle_ps cur f s = Some r → handled s r.
Proof using Hkernel Happs.
  intros Hrun (_&H1&_&_). unfold syscall_handle_ps. cbv zeta.
  case_if; [intros [= <-]; apply handled_same|]. by apply put_handled.
Qed.

Lemma kernel_info_handled s cur f r :
  runs s cur → frame_ok f →
  syscall_handle_kernel_info kernel_total_pages now stack_garbage cur f s = Some r → handled s r.
Proof using Hkernel Happs.
  intros Hrun (H0&_&_&_). unfold syscall_handle_kernel_info.
  case_if; [intros [= <-]; apply handled_same|]. destruct (kernel_info_bytes _ _ _) as [info|]; [|done].
  by apply handled_put.
Qed.

Lemma waitpid_handled s cur f r :
  runs s cur → syscall_handle_waitpid kernel_base free_ram_end app_image cur f s = Some r → handled s r.
Proof.
  intros Hrun. unfold syscall_handle_waitpid. cbv zeta.
  case_if; [intros [= <-]; apply handled_same|]. by apply wait_child_handled.
Qed.

Lemma ipc_recv_handled s cur f r :
  runs s cur → frame_ok f →
  syscall_handle_ipc_recv kernel_base free_ram_end app_image cur f s = Some r → handled s r.
Proof using Hkernel Happs.
  intros Hrun (H0&_&_&_). unfold syscall_handle_ipc_recv.
  case_if; [intros [= <-]; apply handled_same|]. by apply receive_handled.
Qed.

Lemma putchar_handled s f : handled s (syscall_handle_putchar f s).
Proof. exists []. by apply carried_same. Qed.

Lemma bitmap_handled s f r : syscall_handle_bitmap f s = Some r → handled s r.
Proof.
  unfold syscall_handle_bitmap. destruct (bitmap_page_state _ _); [|done]. intros [= <-]. apply handled_same.
Qed.

Lemma open_handled s cur f r : runs s cur → syscall_handle_open cur f s = Some r → handled s r.
Proof.
  intros Hrun Hr. unfold syscall_handle_open in Hr. eapply path_handled; [done| |exact Hr].
  intros path Hp. apply vs_open. by intros ? [= <-].
Qed.

Lemma mkdir_handled s cur f r : runs s cur → syscall_handle_mkdir cur f s = Some r → handled s r.
Proof.
  intros Hrun Hr. unfold syscall_handle_mkdir in Hr. eapply path_handled; [done| |exact Hr].
  intros path Hp. apply vs_mkdir. by intros ? [= <-].
Qed.

Lemma unlink_handled s cur f r : runs s cur → syscall_handle_unlink cur f s = Some r → handled s r.
Proof.
  intros Hrun Hr. unfold syscall_handle_unlink in Hr. eapply path_handled; [done| |exact Hr].
  intros path Hp. apply vs_unlink. by intros ? [= <-].
Qed.

Lemma rmdir_handled s cur f r : runs s cur → syscall_handle_rmdir cur f s = Some r → handled s r.
Proof.
  intros Hrun Hr. unfold syscall_handle_rmdir in Hr. eapply path_handled; [done| |exact Hr].
  intros path Hp. apply vs_rmdir. by intros ? [= <-].
Qed.

Lemma close_handled s cur f r : runs s cur → syscall_handle_close cur f s = Some r → handled s r.
Proof.
  intros Hrun Hr. unfold syscall_handle_close in Hr.
  apply (files_handled s cur (λ x, x) _ _ Hrun (vs_close _ _ _) Hr).
Qed.

Lemma dup2_handled s cur f r : runs s cur → syscall_handle_dup2 cur f s = Some r → handled s r.
Proof.
  intros Hrun Hr. unfold syscall_handle_dup2 in Hr.
  apply (files_handled s cur (λ x, if x <? 0 then -1 else x) _ _ Hrun (vs_dup2 _ _ _ _) Hr).
Qed.

Lemma gettime_handled s cur f r :
  runs s cur → frame_ok f → syscall_handle_gettime now cur f s = Some r → handled s r.
Proof using Hkernel Happs.
  intros Hrun (H0&_&_&_). unfold syscall_handle_gettime. destruct (gettime_fields now) as [[? ?] ?].
  by apply put_handled.
Qed.

Lemma getargs_handled s cur f r :
  runs s cur → frame_ok f → syscall_handle_getargs cur f s = Some r → handled s r.
Proof using Hkernel Happs.
  intros Hrun (H0&_&_&_). unfold syscall_handle_getargs. cbv zeta. by apply put_handled.
Qed.

Lemma getcwd_handled s cur f r :
  runs s cur → frame_ok f → syscall_handle_getcwd cur f s = Some r → handled s r.
Proof using Hkernel Happs.
  intros Hrun (H0&_&_&_). unfold syscall_handle_getcwd. cbv zeta. by apply put_handled.
Qed.

Lemma exec_handled s cur f r :
  runs s cur → syscall_handle_exec kernel_base free_ram_end app_image f s = Some r → handled s r.
Proof. unfold syscall_handle_exec. apply exec_call_handled. Qed.

(** A handler of a defined call: what it does is made of steps of the system; only the
    exit of [init] switches the machine off. *)
Lemma syscall_handled s cur f r :
  runs s cur → frame_ok f →
  handle_syscall kernel_base free_ram_end app_image kernel_total_pages now stack_garbage cur f s = Some r →
  match r with
  | Halt _ => a3 f = SYSCALL_EXIT ∧ init_proc (kernel_of s) = Some cur
  | _ => handled s r
  end.
Proof using Hkernel Happs.
  intros Hrun Hf. unfold handle_syscall. cbv zeta.
  assert (Hno : ∀ r, handled s r → match r with
    | Halt _ => a3 f = SYSCALL_EXIT ∧ init_proc (kernel_of s) = Some cur | _ => handled s r end)
    by (intros []; done).
  repeat (case_if; [|]);
    lazymatch goal with
    | |- context [syscall_handle_exit] => intros [= <-]; pose proof (exit_handled s cur Hrun) as He;
        destruct (syscall_handle_exit _ _ _ _ _); [done|done|split; [lia|done]|done]
    | _ => idtac
    end; intros Hr; try discriminate Hr; apply Hno; clear Hno.
  - injection Hr as <-. apply putchar_handled.
  - injection Hr as <-. by apply getchar_call_handled.
  - by eapply ps_handled.
  - by eapply clone_handled.
  - by eapply waitpid_handled.
  - injection Hr as <-. by apply send_handled.
  - by eapply ipc_recv_handled.
  - by eapply bitmap_handled.
  - by eapply kill_handled.
  - by eapply kernel_info_handled.
  - by eapply open_handled.
  - by eapply close_handled.
  - by eapply read_handled.
  - by eapply write_handled.
  - by eapply mkdir_handled.
  - by eapply readdir_handled.
  - by eapply unlink_handled.
  - by eapply rmdir_handled.
  - by eapply gettime_handled.
  - by eapply fork_handled.
  - by eapply exec_handled.
  - by eapply dup2_handled.
  - by eapply execv_handled.
  - by eapply getargs_handled.
  - by eapply getcwd_handled.
  - by eapply chdir_handled.
Qed.

Lemma resume_handled s cur w r :
  runs s cur → waiting_ok w → resume kernel_base free_ram_end app_image cur w s = Some r → handled s r.
Proof using Hkernel Happs.
  intros Hrun Hw. destruct w as [target|from_ptr| |n buf size|]; simpl; intros Hr.
  - by eapply wait_child_handled.
  - by eapply receive_handled.
  - injection Hr as <-. by apply getchar_call_handled.
  - by eapply read_console_handled.
  - done.
Qed.

(** ** Traps *)

Definition trap_state (r : trap_result (D := D)) : sys :=
  match r with Return _ _ s => s | Waits _ _ _ s => s | Off s => s | Strays s => s end.

(** The machine goes on, and the trap has used no memory but the kernel's and the
    caller's. *)
Definition goes_on (r : trap_result (D := D)) : Prop :=
  match r with
  | Return _ _ _ => True
  | Waits w _ _ _ => ∀ w', w = Some w' → waiting_ok w'
  | Off _ => False
  | Strays _ => False
  end.

(** What a trap does that does not switch the machine off: it strays, or it makes steps
    of the system. *)
Definition trap_carried s (r : trap_result (D := D)) : Prop :=
  match r with
  | Strays _ => True
  | _ => goes_on r ∧ ∃ d, carried s d (trap_state r)
  end.

Lemma finish_handled s f pc r :
  handled s r → trap_carried s (finish_syscall f pc r).
Proof.
  destruct r as [x s'|w s'|s'|s']; simpl; [|intros [Hw Hc]; split; [by intros ? [= <-]|done]|done|done].
  intros Hc. by case_if.
Qed.

Lemma timer_handled s f pc :
  goes_on (timer_trap kernel_base free_ram_end app_image f pc s) ∧
  ∃ d, carried s d (trap_state (timer_trap kernel_base free_ram_end app_image f pc s)).
Proof.
  unfold timer_trap. pose proof (carried_poll s) as Hp.
  destruct (Console.poll_console_input _ _ _) as [[d c] k]. destruct Hp as [Hc _].
  pose proof (carried_trans _ _ _ _ _ Hc (carried_call (Sys (Io k c d) (printed s)) _ (step_tick k))) as Ht.
  case_if; (split; [done|]; eexists; exact Ht).
Qed.

Context (stack_base : nat → Z).

Lemma set_owner_current s cur addr :
  current_proc (kernel_of s) = Some cur → process_from_trap_frame stack_base addr = Some cur →
  set_owner stack_base addr true s = s.
Proof.
  intros Hc Ho. unfold set_owner. rewrite Ho. destruct s as [[[ps c i n e] r d] pr].
  cbn in Hc. by subst c.
Qed.

Lemma trap_handled s cur scause addr f pc r :
  runs s cur → frame_ok f → process_from_trap_frame stack_base addr = Some cur →
  handle_trap kernel_base free_ram_end app_image kernel_total_pages now stack_garbage stack_base
    scause addr f pc true s = Some r →
  match r with
  | Off _ => a3 f = SYSCALL_EXIT ∧ init_proc (kernel_of s) = Some cur
  | _ => trap_carried s r
  end.
Proof using Hkernel Happs.
  intros Hrun Hf Ho. unfold handle_trap.
  assert (Hc : current_proc (kernel_of s) = Some cur) by apply Hrun.
  rewrite (set_owner_current s cur addr Hc Ho). cbv zeta. case_if; [|case_if; [|done]].
  - rewrite Hc. cbn [mbind option_bind].
    destruct (handle_syscall _ _ _ _ _ _ _ _ _) as [o|] eqn:E; [|done]. cbn [mbind option_bind].
    intros [= <-]. pose proof (syscall_handled s cur f o Hrun Hf E) as Ho'.
    destruct o as [x s'|w s'|s'|s']; [|by apply (finish_handled s f pc (Wait w s'))|done|done].
    pose proof (finish_handled s f pc (Ret x s') Ho') as Hr. revert Hr. simpl. by case_if.
  - intros [= <-]. pose proof (timer_handled s f pc) as Hr. revert Hr. unfold timer_trap.
    destruct (Console.poll_console_input _ _ _) as [[d c] k]. by case_if.
Qed.

Lemma resume_trap_handled s cur w f pc sepc r :
  runs s cur → (∀ w', w = Some w' → waiting_ok w') →
  resume_trap kernel_base free_ram_end app_image cur w f pc sepc s = Some r → trap_carried s r.
Proof using Hkernel Happs.
  intros Hrun Hw. destruct w as [w|]; simpl.
  - destruct (resume _ _ _ _ _ _) as [o|] eqn:E; [|done]. cbn [mbind option_bind]. intros [= <-].
    eapply finish_handled, resume_handled; [done|by apply Hw|exact E].
  - intros [= <-]. split; [done|]. exists []. by apply carried_same.
Qed.
End syscalls.
