(* ===== verification/Traps.v ===== *)
(** * The kernel as its processes drive it

    From the start-up: the user types, the process that runs stores into its memory or
    traps, a process that waits in a system call goes on, [yield] switches.  Every such
    run is a run of the system of [System] and of the console of [ConsoleSpec], so that
    whatever has been proved of those holds of it. *)
From Stdlib Require Import ZArith Lia ZifyBool String.
From stdpp Require Import base tactics list numbers option relations.
From S2P Require Import Prelude Memory CString TimeFmt BlockDev NodeFs NodeFsSpec NodeFsOps Vfs VfsSpec.
From S2P Require Import Process ProcessSpec ProcessOps Scheduler PageTable PageTableSpec AddressSpace.
From S2P Require Import Spaces UserMemory Procfs ProcfsSpec Console ConsoleSpec Kernel KernelSpec System.
From S2P Require Import Syscall SyscallSpec.
#[local] Open Scope Z_scope.

Section traps.
Context {D : Type} `{BlockDev D}.
Context (kernel_base free_ram free_ram_end : Z) (app_image : Z → list Z).
Context (kernel_total_pages : Z) (stack_base : nat → Z).
Context (Hkernel : kernel_base mod 4096 = 0 ∧ MMIO_BASE ≤ kernel_base ∧ free_ram_end ≤ 4294967296).
Context (Hram : free_ram mod PAGE_SIZE = 0 ∧ 0 ≤ free_ram ∧
  free_ram + 2 * PAGE_SIZE ≤ free_ram_end < 4294967296).
Context (Happs : ∀ app_id, uva (image_pages (app_image app_id)) ≤ MMIO_BASE).

Let this_env : ProcEnv (machine (D := D)) := kernel_env kernel_base free_ram_end app_image.
#[local] Existing Instance this_env.
Implicit Types k : kstate (machine (D := D)).
Implicit Types s : sys (D := D).

(** A step, with the characters typed in it.  The clock, what is on the kernel stack and
    the values of the registers can be any; a trap of the timer can also interrupt the
    kernel's own idle loop.  A trap is a step when it [goes_on]: the machine is not off, no
    panic has stopped it, and no call has used a pointer to memory that is not the
    caller's ([Strays]), with which the code goes on in a way that is not modelled. *)
Inductive os_step : sys → list Z → sys → Prop :=
| os_type k c d out chs :
    is_chars chs → os_step (Sys (Io k c d) out) chs (Sys (Io k c (d ++ chs)) out)
| os_store s cur va b m :
    running (kernel_of s) cur → 0 ≤ va < 4294967296 →
    user_store (table_of s cur) va b (user_mem s) = Some m → os_step s [] (put_mem s m)
| os_trap s cur now garbage scause addr f pc r :
    running (kernel_of s) cur → frame_ok f → process_from_trap_frame stack_base addr = Some cur →
    handle_trap kernel_base free_ram_end app_image kernel_total_pages now garbage stack_base
      scause addr f pc true s = Some r →
    goes_on r → os_step s [] (trap_state r)
| os_idle s f pc :
    os_step s [] (trap_state (timer_trap kernel_base free_ram_end app_image f pc s))
| os_resume s cur w f pc sepc r :
    running (kernel_of s) cur → (∀ w', w = Some w' → waiting_ok w') →
    resume_trap kernel_base free_ram_end app_image cur w f pc sepc s = Some r →
    goes_on r → os_step s [] (trap_state r)
| os_switch s cur y :
    current_proc (kernel_of s) = Some cur → yield cur (kernel_of s) = Some y →
    os_step s [] (with_kernel s (yielded_state y)).

Inductive os_run : list Z → sys → Prop :=
| os_start img m d k :
    root_loads img d → kernel_main kernel_base free_ram free_ram_end app_image img m d = Some k →
    init_proc k ≠ None → os_run [] (Sys (Io k empty_console []) [])
| os_next typed s chs s' : os_run typed s → os_step s chs s' → os_run (typed ++ chs) s'.

Lemma os_step_carried s chs s' :
  kernel_ok (kernel_of s) → system_ok (kernel_of s) → os_step s chs s' →
  rtc (moves kernel_base free_ram_end app_image) (kernel_of s) (kernel_of s') ∧
  ∀ typed delivered, io_run typed delivered (sys_io s) →
    ∃ d, io_run (typed ++ chs) (delivered ++ d) (sys_io s').
Proof using Hkernel Happs.
  intros Hok Hk Hs.
  assert (Hcar : ∀ s s' d, carried kernel_base free_ram_end app_image s d s' →
    rtc (moves kernel_base free_ram_end app_image) (kernel_of s) (kernel_of s') ∧
    ∀ typed delivered, io_run typed delivered (sys_io s) →
      ∃ d, io_run (typed ++ []) (delivered ++ d) (sys_io s')).
  { intros s1 s2 d [Hm Hi]. split; [done|]. intros typed delivered Hr. exists d.
    rewrite app_nil_r. by apply Hi. }
  destruct Hs as [k c d out chs Hch|s cur va b m Hrun Hva Hst|s cur now g scause addr f pc r Hrun Hf Ho Ht Hg
    |s f pc|s cur w f pc sepc r Hrun Hw Hr Hg|s cur y Hc Hy].
  - split; [done|]. intros typed delivered Hr. exists []. eapply run_step; [exact Hr|].
    by apply (io_type (Io k c d)).
  - apply (Hcar _ _ []), carried_step; [by eapply sys_store|apply io_env].
  - pose proof (trap_handled _ _ _ _ now g Hkernel Happs stack_base s cur scause addr f pc r
      (Build_runs _ _ Hok Hk Hrun) Hf Ho Ht) as Hh.
    destruct r; [destruct Hh as [_ [d Hd]]; by apply (Hcar _ _ d)..|done|done].
  - destruct (timer_handled kernel_base free_ram_end app_image s f pc) as [_ [d Hd]]. by apply (Hcar _ _ d).
  - pose proof (resume_trap_handled _ _ _ Hkernel Happs s cur w f pc sepc r (Build_runs _ _ Hok Hk Hrun) Hw Hr)
      as Hh. destruct r; [destruct Hh as [_ [d Hd]]; by apply (Hcar _ _ d)..|done|done].
  - apply (Hcar _ _ []), carried_call. by eapply step_yield.
Qed.

Lemma os_started img m d k :
  kernel_main kernel_base free_ram free_ram_end app_image img m d = Some k → init_proc k ≠ None → booted k.
Proof.
  unfold kernel_main. intros Hb Hi. destruct (memory_init _ _ _) as [[np m1]|]; [|done]. cbn [mbind option_bind] in Hb.
  destruct (fs_init img d) as [v|]; [|done]. cbn [mbind option_bind] in Hb.
  exists (app_image APP_ID_SHELL), (Machine v m1). split; [exists APP_ID_SHELL; reflexivity|]. split; [exact Hb|done].
Qed.

Lemma os_run_refines typed s :
  os_run typed s →
  system_reachable kernel_base free_ram free_ram_end app_image (kernel_of s) ∧
  ∃ delivered, io_run typed delivered (sys_io s).
Proof using Hkernel Hram Happs.
  induction 1 as [img m d k Hr Hb Hi|typed s chs s' _ [Hk (delivered&Hio)] Hs].
  - split; [by exists img, m, d, k|]. exists []. by eapply run_start, os_started.
  - destruct (system_reachable_ok _ _ _ _ Hkernel Hram Happs _ Hk) as [Hok Hsok].
    destruct (os_step_carried s chs s' Hok Hsok Hs) as [Hm Hd]. split.
    + destruct Hk as (img&m&d&k0&Hr&Hb&Hi&Hrt). exists img, m, d, k0.
      do 3 (split; [done|]). etrans; [exact Hrt|exact Hm].
    + destruct (Hd _ _ Hio) as [d Hd']. by eexists.
Qed.

(** C1. Refinement, as long as no call is given a pointer out of its caller's memory.  The
    handlers do not check the pointers that they are given, and what the code does with one
    that is not to the caller's own pages is not modelled: such a trap ends in [Strays], and
    no step is made of it ([goes_on]).  In every run without one, and up to the first one
    in any other, the kernel as it is driven by traps, with the handlers of all its system
    calls, their copies from and to the memory of the caller and the loops that waiting
    processes resume, does nothing but what the system of [System] and the console of
    [ConsoleSpec] do: every state it reaches is one they reach, with the same characters
    typed.  So its pages have one owner each, its files are well formed, its process
    table keeps its invariant, and no character typed is lost or delivered twice. *)
Theorem os_refines typed s :
  os_run typed s →
  system_reachable kernel_base free_ram free_ram_end app_image (kernel_of s) ∧
  (kernel_ok (kernel_of s) ∧ system_ok (kernel_of s)) ∧
  ∃ delivered, io_run typed delivered (sys_io s) ∧
    typed = delivered ++ queue (ring (sys_io s)) ++ dev (sys_io s).
Proof using Hkernel Hram Happs.
  intros [Hk (delivered&Hio)]%os_run_refines. split; [done|].
  split; [by eapply system_reachable_ok|]. exists delivered. split; [done|].
  by destruct (io_run_ok _ _ _ Hio).
Qed.

Lemma os_runs typed s cur :
  os_run typed s → running (kernel_of s) cur → runs s cur.
Proof using Hkernel Hram Happs.
  intros [Hk _]%os_run_refines Hrun. by destruct (system_reachable_ok _ _ _ _ Hkernel Hram Happs _ Hk).
Qed.
End traps.
