(* ===== verification/SyscallProps.v ===== *)
(** * What user programs can rely on

    The system calls end to end, from the memory of the caller to the memory of the
    caller: the working directory, the arguments of [execv], files, and which calls
    always answer. *)
From Stdlib Require Import ZArith Lia ZifyBool String.
From stdpp Require Import base tactics list numbers option relations.
From S2P Require Import Prelude Memory CString TimeFmt BlockDev NodeFs NodeFsSpec NodeFsOps NodeFsDisk Vfs VfsSpec.
From S2P Require Import Process ProcessSpec ProcessOps Scheduler PageTable PageTableSpec AddressSpace.
From S2P Require Import Spaces UserMemory Procfs ProcfsSpec Console ConsoleSpec Kernel KernelSpec System.
From S2P Require Import Syscall SyscallSpec Traps.
#[local] Open Scope Z_scope.

(** ** Strings in user memory *)

Lemma load_chars_lookup n m t va l :
  0 ≤ va → va + Z.of_nat (length l) < 4294967296 → Forall (λ c, c ≠ 0) l → (length l < n)%nat →
  (∀ i b, (l ++ [0]) !! i = Some b → load_byte m t (va + Z.of_nat i) = Some b) →
  load_chars n m t va = Some l.
Proof.
  revert n va. induction l as [|c l IH]; intros n va Hva Hend Hnz Hn Hl;
    (destruct n as [|n]; [simpl in Hn; lia|]); cbn [load_chars].
  - pose proof (Hl O 0 eq_refl) as Hb. rewrite Z.add_0_r in Hb. by rewrite Hb.
  - inversion_clear Hnz as [|? ? Hc Hr]. pose proof (Hl O c eq_refl) as Hb. rewrite Z.add_0_r in Hb.
    rewrite Hb. cbn [mbind option_bind]. replace (c =? 0) with false by lia. cbn [length] in *.
    rewrite (u32_small (va + 1)) by lia. rewrite (IH n (va + 1)); [done|lia|lia|done|lia|].
    intros i b Hi. rewrite <-(Hl (S i) b Hi). f_equal. lia.
Qed.

Lemma map_u8_bytes l : Forall is_byte l → map u8 l = l.
Proof. induction 1 as [|b l Hb _ IH]; [done|]. simpl. by rewrite IH, u8_small by done. Qed.

(** ** Arguments *)

(** What a C array of 32 characters holds of a string. *)
Definition arg_bytes (a : list Z) : list Z := a ++ zeros (32 - length a).

Lemma copy_arg_string n l k :
  Forall (λ c, c ≠ 0) l → (length l ≤ n < k)%nat → copy_arg n l (zeros k) = l ++ zeros (k - length l).
Proof.
  revert l k. induction n as [|n IH]; intros l k Hl Hk.
  - destruct l; [|simpl in Hk; lia]. simpl. by rewrite Nat.sub_0_r.
  - destruct k as [|k]; [lia|]. change (zeros (S k)) with (0 :: zeros k). destruct l as [|c l]; simpl; [done|].
    inversion_clear Hl. unfold ch. simpl. replace (c =? 0) with false by lia.
    simpl in Hk. by rewrite IH by (done || lia).
Qed.

Lemma copy_arg_cstr n l d : copy_arg n l d = copy_arg n (cstr l) d.
Proof.
  revert l d. induction n as [|n IH]; intros [|c l] [|x d]; simpl; try done. unfold ch.
  destruct (Z.eqb_spec c 0) as [->|Hc]; cbn [nth tail cstr]; [done|].
  rewrite (proj2 (Z.eqb_neq c 0) Hc). by rewrite IH.
Qed.

Lemma exec_arg_string l : Forall (λ c, c ≠ 0) l → (length l ≤ 31)%nat → exec_arg l = arg_bytes l.
Proof.
  intros Hl Hn. unfold exec_arg. change (zero_bytes PROC_EXEC_ARG_LEN) with (zeros 32).
  change (Z.to_nat (PROC_EXEC_ARG_LEN - 1)) with 31%nat. rewrite copy_arg_string by (done || lia).
  unfold arg_bytes. apply list_insert_id. rewrite lookup_app_r by lia.
  rewrite zeros_replicate. apply lookup_replicate_2. lia.
Qed.

Lemma exec_arg_again l : Forall (λ c, c ≠ 0) l → (length l ≤ 31)%nat → exec_arg (arg_bytes l) = arg_bytes l.
Proof.
  intros Hl Hn. rewrite <-(exec_arg_string l) at 2 by done. unfold exec_arg. f_equal.
  rewrite copy_arg_cstr. f_equal. unfold arg_bytes.
  replace (32 - length l)%nat with (S (31 - length l)) by lia. by apply cstr_app_nul.
Qed.

(** The strings of the array at [va], up to a null pointer and cut to 31 characters. *)
Fixpoint argv_strings (n : nat) (m : mem) (t va : Z) : option (list (list Z)) :=
  match n with
  | O => Some []
  | S n' =>
      let! p := load_word m t va in
      if p =? 0 then Some []
      else let! a := load_chars 31 m t p in let! r := argv_strings n' m t (u32 (va + 4)) in Some (a :: r)
  end.

Lemma copy_argv_strings n m t va :
  copy_argv_loop n m t va = (λ l, map arg_bytes l) <$> argv_strings n m t va.
Proof.
  revert va. induction n as [|n IH]; intros va; [done|]. cbn [copy_argv_loop argv_strings].
  destruct (load_word m t va) as [p|]; [|done]. cbn [mbind option_bind]. case_if; [done|].
  change (Z.to_nat (PROC_EXEC_ARG_LEN - 1)) with 31%nat.
  destruct (load_chars 31 m t p) as [a|] eqn:Ea; [|done]. cbn [mbind option_bind]. rewrite IH.
  destruct (load_chars_bytes _ _ _ _ _ Ea) as (Hl&_&Hnz).
  destruct (argv_strings n m t (u32 (va + 4))) as [r|]; [|done]. simpl. by rewrite exec_arg_string.
Qed.

Lemma argv_strings_ok n m t va l :
  argv_strings n m t va = Some l →
  (length l ≤ n)%nat ∧ Forall (λ a, Forall is_byte a ∧ Forall (λ c, c ≠ 0) a ∧ (length a ≤ 31)%nat) l.
Proof.
  revert va l. induction n as [|n IH]; intros va l; cbn [argv_strings]; [intros [= <-]; by split|].
  destruct (load_word m t va) as [p|]; [|done]. cbn [mbind option_bind].
  case_if; [intros [= <-]; split; [simpl; lia|done]|].
  destruct (load_chars 31 m t p) as [a|] eqn:Ea; [|done]. cbn [mbind option_bind].
  destruct (argv_strings n m t (u32 (va + 4))) as [r|] eqn:Er; [|done]. intros [= <-].
  destruct (IH _ _ Er) as [Hr Hf]. destruct (load_chars_bytes _ _ _ _ _ Ea) as (?&?&?).
  split; [simpl; lia|]. by constructor.
Qed.

(** The arguments as [set_exec_args] leaves them. *)
Lemma set_exec_args_strings l p :
  (length l ≤ 8)%nat → Forall (λ a, Forall is_byte a ∧ Forall (λ c, c ≠ 0) a ∧ (length a ≤ 31)%nat) l →
  let args := map arg_bytes l ++ drop (length l) no_args in
  set_exec_args (Z.of_nat (length l)) (Some args) p = set_args (Z.of_nat (length l)) args p.
Proof.
  intros Hn Hl args. unfold set_exec_args. destruct l as [|a l]; [done|].
  set (ls := a :: l) in *. assert (Hp : (0 < length ls)%nat) by (simpl; lia). clearbody ls.
  replace (Z.of_nat (length ls) <=? 0) with false by lia.
  replace (PROC_EXEC_ARGV_MAX <? Z.of_nat (length ls)) with false by (unfold PROC_EXEC_ARGV_MAX; lia).
  cbv zeta. rewrite Nat2Z.id.
  match goal with |- set_args ?n ?r _ = _ => change (set_args n r p = set_args n args p) end. f_equal.
  set (body := λ (i : Z) (r : list (list Z)), <[Z.to_nat i := exec_arg (nth (Z.to_nat i) args [])]> r).
  assert (Hz : zfor (length ls) 0 body no_args = map arg_bytes (take (Z.to_nat (0 + Z.of_nat (length ls))) ls) ++
    drop (Z.to_nat (0 + Z.of_nat (length ls))) no_args).
  { apply (zfor_inv (λ j r, r = map arg_bytes (take (Z.to_nat j) ls) ++ drop (Z.to_nat j) no_args)); [done|].
    intros j r Hj ->. unfold body. set (i := Z.to_nat j). replace (Z.to_nat (j + 1)) with (S i) by lia.
    destruct (lookup_lt_is_Some_2 ls i ltac:(lia)) as [b Hb].
    pose proof (Forall_lookup_1 _ _ _ _ Hl Hb) as (_&Hbz&Hbl).
    assert (Hla : length (map arg_bytes (take i ls)) = i) by (rewrite length_map, length_take; lia).
    assert (Hrow : nth i args [] = arg_bytes b).
    { apply nth_lookup_Some. unfold args. rewrite lookup_app_l by (rewrite length_map; lia).
      by rewrite list_lookup_fmap, Hb. }
    rewrite Hrow, exec_arg_again by done. rewrite (take_S_r _ _ _ Hb), map_app, <-app_assoc.
    destruct (lookup_lt_is_Some_2 no_args i) as [z Hz0]; [change (length no_args) with 8%nat; lia|].
    rewrite (drop_S _ _ _ Hz0). rewrite insert_app_r_alt by lia. by rewrite Hla, Nat.sub_diag. }
  rewrite Hz. replace (Z.to_nat (0 + Z.of_nat (length ls))) with (length ls) by lia. by rewrite firstn_all.
Qed.

Section props.
Context {D : Type} `{BlockDev D}.
Context (kernel_base free_ram free_ram_end : Z) (app_image : Z → list Z).
Context (kernel_total_pages now : Z) (stack_base : nat → Z) (stack_garbage : list Z).
Context (Hkernel : kernel_base mod 4096 = 0 ∧ MMIO_BASE ≤ kernel_base ∧ free_ram_end ≤ 4294967296).
Context (Hram : free_ram mod PAGE_SIZE = 0 ∧ 0 ≤ free_ram ∧
  free_ram + 2 * PAGE_SIZE ≤ free_ram_end < 4294967296).
Context (Happs : ∀ app_id, uva (image_pages (app_image app_id)) ≤ MMIO_BASE).

Let this_env : ProcEnv (machine (D := D)) := kernel_env kernel_base free_ram_end app_image.
#[local] Existing Instance this_env.
Implicit Types k : kstate (machine (D := D)).
Implicit Types s : sys (D := D).

(** The machine has run from its start-up to [s], and the process [cur] runs. *)
Definition at_work s (cur : nat) : Prop :=
  running (kernel_of s) cur ∧
  ∃ typed, os_run kernel_base free_ram free_ram_end app_image kernel_total_pages stack_base typed s.

(** The system call of the frame [f]. *)
Definition call (cur : nat) (f : trap_frame) s : option result :=
  handle_syscall kernel_base free_ram_end app_image kernel_total_pages now stack_garbage cur f s.

(** The [len] bytes at [va] are in the image of the process. *)
Definition in_image s (cur : nat) (va len : Z) : Prop :=
  USER_BASE ≤ va ∧ va + len ≤ USER_BASE + user_pages (proc_at (kernel_of s) cur) * PAGE_SIZE.

Lemma at_work_runs s cur : at_work s cur → runs s cur.
Proof using Hkernel Hram Happs. intros [Hrun [typed Ho]]. by eapply os_runs. Qed.

Lemma runs_space s cur :
  runs s cur → mem_ok (user_mem s) ∧ table_of s cur ≠ 0 ∧
    space (user_mem s) (table_of s cur) (user_pages (proc_at (kernel_of s) cur)).
Proof.
  intros [Hok Hk Hrun]. destruct (running_proc _ _ Hrun) as [Hp Hs].
  assert (Ht : table_of s cur ≠ 0).
  { unfold table_of. rewrite (proj2 (sy_procs _ Hk cur _ Hp)), Hs. done. }
  destruct (space_at _ cur _ Hk Hp Ht). done.
Qed.

(** A buffer of the image can be written, and then holds what was written. *)
Lemma put_in_image s cur va l :
  runs s cur → in_image s cur va (Z.of_nat (length l)) →
  ∃ s', put_bytes s cur va l = Some s' ∧
    load_bytes (length l) (user_mem s') (table_of s' cur) va = Some (map u8 l) ∧
    ∀ i b, map u8 l !! i = Some b →
      load_byte (user_mem s') (table_of s' cur) (va + Z.of_nat i) = Some b.
Proof.
  intros Hrun [Hlo Hhi]. destruct (runs_space s cur Hrun) as (Hm&Ht&Hsp).
  assert (Hlo' : uva 0 ≤ va) by (unfold uva; lia). fold (uva (user_pages (proc_at (kernel_of s) cur))) in Hhi.
  destruct (store_user_total _ _ va l _ Hm Ht Hsp Hlo' Hhi) as [m' Hst].
  unfold put_bytes. rewrite Hst. eexists. split; [done|].
  change (table_of (put_mem s m') cur) with (table_of s cur).
  change (user_mem (put_mem s m')) with m'.
  split; [by eapply store_user_load|]. intros i b Hi.
  rewrite list_lookup_fmap in Hi. destruct (l !! i) as [c|] eqn:Ec; [|done]. injection Hi as <-.
  pose proof (lookup_lt_Some _ _ _ Ec). assert (Hn : uva (user_pages (proc_at (kernel_of s) cur)) ≤ MMIO_BASE) by apply Hsp.
  assert (Hb : 0 ≤ va ∧ va + Z.of_nat (length l) ≤ 4294967296)
    by (unfold uva, USER_BASE, PAGE_SIZE, MMIO_BASE in *; lia).
  rewrite (store_user_byte _ _ _ va l m' _ Hm Ht Hsp); [|lia|lia|lia|done]. rewrite decide_True by lia.
  destruct (user_address_in _ _ _ (va + Z.of_nat i) Hsp ltac:(lia)) as (pa&Ha&_).
  unfold load_byte. rewrite Ha. simpl. replace (Z.to_nat (va + Z.of_nat i - va)) with i by lia.
  by rewrite (nth_lookup_Some _ _ _ _ Ec).
Qed.

(** ** The working directory *)

(** What [chdir] leaves: the path, cut to its buffer, and the memory as it was. *)
Lemma chdir_state s cur f s1 :
  runs s cur → syscall_handle_chdir kernel_base free_ram_end app_image cur f s = Some (Ret 0 s1) →
  ∃ path, load_chars 63 (user_mem s) (table_of s cur) (a0 f) = Some path ∧
    runs s1 cur ∧ user_pages (proc_at (kernel_of s1) cur) = user_pages (proc_at (kernel_of s) cur) ∧
    cstr (cwd_path (proc_at (kernel_of s1) cur)) = path.
Proof using Hkernel Happs.
  intros Hrun. unfold syscall_handle_chdir. case_if; [done|].
  change (Z.to_nat (FS_PATH_MAX - 1)) with 63%nat.
  destruct (load_chars 63 (user_mem s) (table_of s cur) (a0 f)) as [path|] eqn:El; [|done].
  destruct (load_chars_bytes _ _ _ _ _ El) as (Hlen&Hb&Hnz). cbn [mbind option_bind].
  destruct (fs_get_path_entry _ _) as [[m n]|]; [|done]. intros [= <-]. exists path. split; [done|].
  set (k := kernel_of s). destruct (running_proc k cur (rn_running _ _ Hrun)) as [Hp Hs].
  change (enter_dir cur m n path (kernel_of s)) with (enter_dir cur m n path k).
  set (s1 := with_kernel s (enter_dir cur m n path k)).
  assert (Hp1 : procs (kernel_of s1) !! cur =
    Some (set_cwd m n (strcpy_s (cwd_path (proc_at k cur)) PATH_MAX path) (proc_at k cur))).
  { change (procs (kernel_of s1)) with (procs (enter_dir cur m n path k)).
    unfold enter_dir. destruct (Process.procfs_sync_process _ _) as [ok e].
    change (procs (set_env ?k' e)) with (procs k'). rewrite (procs_upd k cur _ _ Hp). by eapply lookup_change_eq. }
  split; [|split].
  - eapply (carried_runs _ _ _ Hkernel Happs s [] _ cur); [|done|].
    + apply carried_call, step_chdir; [apply Hrun|done].
    + destruct (rn_running _ _ Hrun) as (Hc&Hc0&_). split; [|split; [done|]].
      * change (current_proc (enter_dir cur m n path k) = Some cur). unfold enter_dir.
        by destruct (Process.procfs_sync_process _ _).
      * eexists. split; [exact Hp1|done].
  - by rewrite (proc_at_lookup _ _ _ Hp1).
  - rewrite (proc_at_lookup _ _ _ Hp1). cbn [cwd_path set_cwd].
    destruct (sy_procs _ (rn_system _ _ Hrun) cur _ Hp) as [[_ (_&Hcl&_)] _]. change (proc_at (kernel_of s) cur) with (proc_at k cur) in Hcl.
    destruct (strcpy_s_spec (cwd_path (proc_at k cur)) PATH_MAX path) as [-> _]; [unfold PATH_MAX; lia|].
    rewrite cstr_id by done. apply take_ge. unfold PATH_MAX. lia.
Qed.

Lemma call_chdir cur f s : a3 f = SYSCALL_CHDIR →
  call cur f s = syscall_handle_chdir kernel_base free_ram_end app_image cur f s.
Proof. intros E. unfold call, handle_syscall. by rewrite E. Qed.

Lemma call_getcwd cur f s : a3 f = SYSCALL_GETCWD → call cur f s = syscall_handle_getcwd cur f s.
Proof. intros E. unfold call, handle_syscall. by rewrite E. Qed.

(** [chdir] and [getcwd]: after a [chdir] that succeeds, [getcwd] into a buffer of 64
    bytes succeeds, and leaves there the string that was at the pointer [chdir] was
    given, cut to 63 characters. *)
Theorem chdir_then_getcwd s cur f f' s1 :
  at_work s cur → a3 f = SYSCALL_CHDIR → call cur f s = Some (Ret 0 s1) →
  a3 f' = SYSCALL_GETCWD → in_image s cur (a0 f') 64 →
  ∃ path s2,
    load_chars 63 (user_mem s) (table_of s cur) (a0 f) = Some path ∧
    call cur f' s1 = Some (Ret 0 s2) ∧ get_string s2 cur (a0 f') = Some path.
Proof using Hkernel Hram Happs.
  intros Hrun%at_work_runs Ef Hc Ef' Him. rewrite (call_chdir _ _ _ Ef) in Hc.
  destruct (chdir_state s cur f s1 Hrun Hc) as (path&Hl&Hrun1&Hup&Hcwd).
  destruct (load_chars_bytes _ _ _ _ _ Hl) as (Hlen&Hb&Hnz).
  destruct (put_in_image s1 cur (a0 f') (path ++ [0]) Hrun1) as (s2&Hput&_&Hbytes).
  { unfold in_image in *. rewrite Hup. rewrite length_app. simpl. lia. }
  exists path, s2. split; [done|]. rewrite (call_getcwd _ _ _ Ef'). unfold syscall_handle_getcwd.
  destruct Him as [Hlo Hhi]. replace (a0 f' =? 0) with false by (unfold USER_BASE in *; lia). cbv zeta.
  rewrite Hcwd, (take_ge path) by (unfold FS_PATH_MAX; lia). rewrite Hput. split; [done|].
  assert (Hpg : user_pages (proc_at (kernel_of s2) cur) = user_pages (proc_at (kernel_of s) cur)).
  { rewrite <-Hup. unfold put_bytes in Hput. destruct (store_user _ _ _ _) as [m|]; [|done].
    by injection Hput as <-. }
  assert (Hnn : 64 ≤ user_pages (proc_at (kernel_of s) cur) * PAGE_SIZE) by lia.
  destruct (runs_space s cur Hrun) as (_&_&Hsp). assert (Hn : uva (user_pages (proc_at (kernel_of s) cur)) ≤ MMIO_BASE) by apply Hsp.
  unfold get_string, load_string, user_size. rewrite Hpg.
  rewrite (load_chars_lookup _ _ _ (a0 f') path); [| | |done| |].
  - cbn [mbind option_bind]. rewrite (proj2 (Nat.eqb_neq _ _)); [done|]. lia.
  - unfold USER_BASE in *. lia.
  - unfold uva, USER_BASE, PAGE_SIZE, MMIO_BASE in *. lia.
  - lia.
  - intros i b Hi. apply Hbytes. rewrite map_u8_bytes; [done|].
    apply Forall_app_2; [done|]. by repeat constructor.
Qed.

(** ** Arguments of a program *)

(** The strings that the array at [uargv] points to. *)
Definition argv_of s (cur : nat) (uargv : Z) : option (list (list Z)) :=
  if uargv =? 0 then Some [] else argv_strings 8 (user_mem s) (table_of s cur) uargv.

Lemma copy_user_argv_strings s cur uargv :
  copy_user_argv (user_mem s) (table_of s cur) uargv =
  (λ l, (Z.of_nat (length l), map arg_bytes l ++ drop (length l) no_args)) <$> argv_of s cur uargv.
Proof.
  unfold copy_user_argv, argv_of. case_if; [done|]. rewrite copy_argv_strings.
  change (Z.to_nat PROC_EXEC_ARGV_MAX) with 8%nat.
  destruct (argv_strings _ _ _ _) as [l|]; [|done]. simpl. by rewrite length_map.
Qed.

Lemma argv_of_ok s cur uargv l :
  argv_of s cur uargv = Some l →
  (length l ≤ 8)%nat ∧ Forall (λ a, Forall is_byte a ∧ Forall (λ c, c ≠ 0) a ∧ (length a ≤ 31)%nat) l.
Proof.
  unfold argv_of. case_if; [intros [= <-]; split; [simpl; lia|done]|]. apply argv_strings_ok.
Qed.

(** What [execv] leaves: the arguments in the table. *)
Lemma execv_state s cur f s1 :
  runs s cur → syscall_handle_execv kernel_base free_ram_end app_image cur f s = Some (Ret 0 s1) →
  ∃ l, argv_of s cur (a1 f) = Some l ∧ runs s1 cur ∧
    let p := proc_at (kernel_of s1) cur in
    exec_argc p = Z.of_nat (length l) ∧ exec_argv p = map arg_bytes l ++ drop (length l) no_args.
Proof using Hkernel Happs.
  intros Hrun Hx. pose proof (execv_handled _ _ _ s cur f _ Hrun Hx) as [d Hd]. revert Hx.
  unfold syscall_handle_execv. destruct (resolve_app_image _ _) as [[image name]|] eqn:Er; [|done].
  rewrite copy_user_argv_strings. destruct (argv_of s cur (a1 f)) as [l|] eqn:El; [|done].
  destruct (argv_of_ok _ _ _ _ El) as [Hln Hl].
  cbn [mbind option_bind fmap option_map option_fmap]. unfold exec_call. rewrite Er.
  destruct (process_exec _ _ _ _ _) as [[ok k]|] eqn:Ex; [|done]. cbn [mbind option_bind].
  destruct ok; [|done]. intros [= <-].
  destruct (kept_exec _ cur _ _ _ _ _ _ (kk_table _ (rn_kernel _ _ Hrun)) (rn_running _ _ Hrun) Ex)
    as [(_&Hc&_) Hp]. specialize (Hp eq_refl).
  rewrite (set_exec_args_strings l _ Hln Hl) in Hp.
  assert (Hrun1 : running k cur).
  { destruct (rn_running _ _ Hrun) as (Hc0&Hi&_). split; [by rewrite Hc|]. split; [done|]. by eexists. }
  exists l. split; [done|]. split; [by eapply (carried_runs _ _ _ Hkernel Happs)|].
  cbv zeta. change (kernel_of (with_kernel s k)) with k. by rewrite (proc_at_lookup _ _ _ Hp).
Qed.

Lemma call_execv cur f s : a3 f = SYSCALL_EXECV →
  call cur f s = syscall_handle_execv kernel_base free_ram_end app_image cur f s.
Proof. intros E. unfold call, handle_syscall. by rewrite E. Qed.

Lemma call_getargs cur f s : a3 f = SYSCALL_GETARGS → call cur f s = syscall_handle_getargs cur f s.
Proof. intros E. unfold call, handle_syscall. by rewrite E. Qed.

Lemma args_size l : (length l ≤ 8)%nat → Forall (λ a : list Z, (length a ≤ 31)%nat) l →
  length (concat (map arg_bytes l ++ drop (length l) no_args)) = 256%nat.
Proof.
  intros Hn Hl. set (rows := map arg_bytes l ++ drop (length l) no_args).
  assert (Hr : Forall (λ a : list Z, length a = 32%nat) rows).
  { apply Forall_app_2; [|apply Forall_drop, no_args_shape].
    apply Forall_map. eapply Forall_impl; [exact Hl|]. intros a Ha. unfold arg_bytes.
    rewrite length_app. unfold zeros. rewrite repeat_length. simpl in Ha. lia. }
  assert (Hl8 : length rows = 8%nat).
  { unfold rows. rewrite length_app, length_map, length_drop. change (length no_args) with 8%nat. lia. }
  clearbody rows. assert (E : length (concat rows) = (32 * length rows)%nat); [|by rewrite E, Hl8].
  clear Hl8. induction Hr as [|a r Ha _ IH]; [done|]. simpl. rewrite length_app, IH, Ha. lia.
Qed.

(** C25. [execv] and [getargs]: when [execv] succeeds, the new program gets from [getargs]
    exactly the strings of the array that its predecessor passed, up to the null pointer
    and at most eight, each cut to 31 characters and padded with zeros, with their
    number in front. *)
Theorem execv_then_getargs s cur f f' s1 :
  at_work s cur → a3 f = SYSCALL_EXECV → call cur f s = Some (Ret 0 s1) →
  a3 f' = SYSCALL_GETARGS → in_image s1 cur (a0 f') 260 →
  ∃ args s2,
    argv_of s cur (a1 f) = Some args ∧ call cur f' s1 = Some (Ret 0 s2) ∧
    load_bytes 260 (user_mem s2) (table_of s2 cur) (a0 f') =
      Some (le32 (Z.of_nat (length args)) ++ concat (map arg_bytes args ++ drop (length args) no_args)).
Proof using Hkernel Hram Happs.
  intros Hrun%at_work_runs Ef Hc Ef' Him. rewrite (call_execv _ _ _ Ef) in Hc.
  destruct (execv_state s cur f s1 Hrun Hc) as (l&Hl&Hrun1&Hargc&Hargv). cbv zeta in *.
  destruct (argv_of_ok _ _ _ _ Hl) as [Hn Hlf].
  set (out := le32 (Z.of_nat (length l)) ++ concat (map arg_bytes l ++ drop (length l) no_args)).
  assert (Hout : length out = 260%nat).
  { unfold out. rewrite length_app, le32_length, args_size; [done|done|].
    eapply Forall_impl; [exact Hlf|]. by intros a (_&_&?). }
  destruct (put_in_image s1 cur (a0 f') out Hrun1) as (s2&Hput&Hload&_); [by rewrite Hout|].
  exists l, s2. split; [done|]. rewrite (call_getargs _ _ _ Ef'). unfold syscall_handle_getargs.
  destruct Him as [Hlo _]. replace (a0 f' =? 0) with false by (unfold USER_BASE in *; lia). cbv zeta.
  rewrite Hargc, Hargv. fold out. rewrite Hput. split; [done|].
  rewrite Hout in Hload. rewrite Hload. f_equal. apply map_u8_bytes. apply Forall_app_2.
  - unfold le32. repeat (constructor; [apply u8_range|]). constructor.
  - apply Forall_concat. apply Forall_app_2; [|apply Forall_drop; by repeat constructor].
    apply Forall_map. eapply Forall_impl; [exact Hlf|]. intros a (Ha&_&_). unfold arg_bytes.
    apply Forall_app_2; [done|]. apply zeros_bytes.
Qed.

(** ** Files *)

Lemma call_open cur f s : a3 f = SYSCALL_OPEN → call cur f s = syscall_handle_open cur f s.
Proof. intros E. unfold call, handle_syscall. by rewrite E. Qed.

Lemma call_read cur f s : a3 f = SYSCALL_READ →
  call cur f s = syscall_handle_read kernel_base free_ram_end app_image cur f s.
Proof. intros E. unfold call, handle_syscall. by rewrite E. Qed.

Lemma call_write cur f s : a3 f = SYSCALL_WRITE → call cur f s = syscall_handle_write cur f s.
Proof. intros E. unfold call, handle_syscall. by rewrite E. Qed.

Definition pid_of s (cur : nat) : Z := pid (proc_at (kernel_of s) cur).

Lemma pid_of_range s cur : runs s cur → 0 ≤ pid_of s cur < 64.
Proof.
  intros [Hok _ Hrun]. unfold pid_of. pose proof (kk_table _ Hok) as Hpk.
  rewrite (running_pid _ cur Hpk Hrun). destruct (running_proc _ _ Hrun) as [Hp _].
  apply lookup_lt_Some in Hp. rewrite (pk_len _ Hpk) in Hp. lia.
Qed.

Lemma files_ok s cur : runs s cur → vfs_ok (files_of s).
Proof. intros Hrun. apply (rn_system _ _ Hrun). Qed.

(** A successful [open] is one of the file system, and leaves the memory alone. *)
Lemma open_state s cur f path fd s1 :
  runs s cur → a3 f = SYSCALL_OPEN → get_string s cur (a0 f) = Some path →
  call cur f s = Some (Ret fd s1) → 0 ≤ fd →
  fs_open (pid_of s cur) (Some path) (i32 (a1 f)) (files_of s) = (fd, files_of s1) ∧
  Forall is_byte path ∧ runs s1 cur ∧ s1 = put_files s (files_of s1).
Proof using Hkernel Happs.
  intros Hrun Ef Hs Hc Hfd. rewrite (call_open _ _ _ Ef) in Hc.
  pose proof (open_handled kernel_base free_ram_end app_image s cur f _ Hrun Hc) as [d Hd].
  revert Hc. unfold syscall_handle_open, with_path. case_if; [intros [= <- <-]; lia|].
  rewrite Hs. cbn [mbind option_bind].
  fold (pid_of s cur). destruct (fs_open _ _ _ _) as [r v]. intros [= <- <-]. split; [done|].
  split; [by eapply get_string_bytes|]. split; [|done].
  eapply (carried_runs _ _ _ Hkernel Happs); [exact Hd|done|]. by destruct Hrun.
Qed.

(** A file just opened for rewriting takes a whole buffer of at most 512 bytes. *)
Lemma extent_opened (v : vfs D) p fd m node sz sub path :
  vfs_ok v → 0 ≤ p < 64 → 0 ≤ fd < 16 → fd_at v p fd = Fd 1 (Z.of_nat m) node 0 O_REWRITE →
  vfs_resolve_mount (mounts v) (Some path) = Some (m, sub) → 0 ≤ sz ≤ 512 → write_extent p fd sz v = sz.
Proof.
  intros Hok Hp Hfd Hat Hm Hsz. pose proof (fd_at_live v p fd Hok Hp Hfd) as Hl. rewrite Hat in Hl.
  destruct Hl as (c&Hmc&Hv&_); [done|]. cbn [fd_mount fd_node] in *. apply Nat2Z.inj in Hmc as ->.
  unfold write_extent. rewrite (bad_pid_in p Hp), (bad_fd_in fd Hfd), Hat. cbn [orb].
  cbn [fd_used fd_flags fd_mount fd_node fd_offset Z.eqb].
  rewrite (bad_mount_false v _ sub (Some path) Hok Hm). change (Z.land O_REWRITE O_WRONLY =? 0) with false.
  cbn [orb]. rewrite Nat2Z.id.
  replace (mount_ctx v (mount_number c)) with c; [rewrite Hv; cbn [negb]; unfold FS_FILE_MAX_SIZE; lia|].
  unfold mount_ctx, mount_at. destruct Hok as [_ -> _ _]. by destruct c.
Qed.

(** What a [write] to a file just opened for rewriting does. *)
Lemma write_state s1 s2 s3 cur fo fw path b fd n :
  runs s1 cur → a3 fo = SYSCALL_OPEN → i32 (a1 fo) = O_REWRITE →
  get_string s1 cur (a0 fo) = Some path → call cur fo s1 = Some (Ret fd s2) → 0 ≤ fd →
  a3 fw = SYSCALL_WRITE → i32 (a0 fw) = fd → 0 ≤ a2 fw ≤ 512 →
  load_bytes (Z.to_nat (a2 fw)) (user_mem s2) (table_of s2 cur) (a1 fw) = Some b →
  call cur fw s2 = Some (Ret n s3) → n ≠ -1 →
  fs_open (pid_of s1 cur) (Some path) O_REWRITE (files_of s1) = (fd, files_of s2) ∧
  fs_write (pid_of s1 cur) fd (Some b) (a2 fw) (files_of s2) = (n, [], files_of s3).
Proof using Hkernel Happs.
  intros Hrun Eo Efl Hs Hco Hfd Ew Efd Hsz Hb Hcw Hn.
  destruct (open_state s1 cur fo path fd s2 Hrun Eo Hs Hco Hfd) as (Ho&Hpath&Hrun2&E2). rewrite Efl in Ho.
  split; [done|]. pose proof (pid_of_range s1 cur Hrun) as Hp.
  destruct (fs_open_state _ _ _ _ _ _ (files_ok s1 cur Hrun) Hp Hpath Ho Hfd)
    as (m&sub&node&d&Hm&_&Hrange&Hmo&Hok2&Hat).
  rewrite (call_write _ _ _ Ew) in Hcw. unfold syscall_handle_write in Hcw.
  change (pid (proc_at (kernel_of s2) cur)) with (pid_of s2 cur) in Hcw.
  assert (Epid : pid_of s2 cur = pid_of s1 cur) by (by rewrite E2). rewrite Epid, Efd in Hcw.
  rewrite (extent_opened (files_of s2) (pid_of s1 cur) fd m (Z.of_nat node) (a2 fw) sub path) in Hcw;
    try done.
  2:{ by rewrite Hmo. }
  destruct (Z.eqb_spec (a1 fw) 0) as [E0|E0].
  { exfalso. cbn [andb] in Hcw. destruct (0 <? a2 fw); [congruence|]. cbn [mbind option_bind] in Hcw.
    unfold fs_write in Hcw. congruence. }
  cbn [andb mbind option_bind] in Hcw. rewrite Hb in Hcw. cbn [mbind option_bind] in Hcw.
  pose proof (fs_write_quiet (files_of s2) (pid_of s1 cur) fd (Some b) (a2 fw)) as Hq. rewrite Hat in Hq.
  destruct (fs_write _ _ _ _ _) as [[r out] v]. injection Hcw as <- <-. cbn in Hq. by rewrite Hq.
Qed.

(** C19. Files carry data between processes: what a process writes from its memory to a
    file that it has opened for rewriting, at most 512 bytes, is what any process that
    opens the same path afterwards reads from it into its own memory.  The reader may
    run after any other calls that leave the files as they are; the calls are those of
    the trap handler, the bytes those at the addresses the two processes pass. *)
Theorem user_write_then_read s1 s2 s3 s4 s5 p q fo fw fo' fr path b fd fd' n :
  at_work s1 p → a3 fo = SYSCALL_OPEN → i32 (a1 fo) = O_REWRITE →
  get_string s1 p (a0 fo) = Some path → call p fo s1 = Some (Ret fd s2) → 0 ≤ fd →
  a3 fw = SYSCALL_WRITE → i32 (a0 fw) = fd → 0 ≤ a2 fw ≤ 512 →
  load_bytes (Z.to_nat (a2 fw)) (user_mem s2) (table_of s2 p) (a1 fw) = Some b →
  call p fw s2 = Some (Ret n s3) → n ≠ -1 →
  at_work s4 q → files_of s4 = files_of s3 → a3 fo' = SYSCALL_OPEN → i32 (a1 fo') = O_RDONLY →
  get_string s4 q (a0 fo') = Some path → call q fo' s4 = Some (Ret fd' s5) → 0 ≤ fd' →
  a3 fr = SYSCALL_READ → i32 (a0 fr) = fd' → 0 ≤ a2 fr < 4294967296 → in_image s5 q (a1 fr) (a2 fr) →
  let len := Z.min (a2 fr) (a2 fw) in
  n = a2 fw ∧
  ∃ s6, call q fr s5 = Some (Ret len s6) ∧
    load_bytes (Z.to_nat len) (user_mem s6) (table_of s6 q) (a1 fr) = Some (take (Z.to_nat len) b).
Proof using Hkernel Hram Happs.
  intros Hrun%at_work_runs Eo Efl Hs Hco Hfd Ew Efd Hsz Hb Hcw Hn.
  intros Hrun4%at_work_runs E43 Eo' Efl' Hs' Hco' Hfd' Er Efd' Hsz' Him len.
  destruct (load_bytes_length _ _ _ _ _ Hb) as [Hbl Hbb].
  destruct (write_state s1 s2 s3 p fo fw path b fd n) as [Ho Hw]; try done.
  destruct (open_state s4 q fo' path fd' s5 Hrun4 Eo' Hs' Hco' Hfd') as (Ho'&Hpath&Hrun5&E5).
  rewrite E43, Efl' in Ho'. replace (a2 fw) with (Z.of_nat (length b)) in Hw by lia.
  destruct (fs_write_then_read (files_of s1) (pid_of s1 p) (pid_of s4 q) path b n fd fd' _ _ _ (a2 fr)
    (files_ok s1 p Hrun) (pid_of_range s1 p Hrun) (pid_of_range s4 q Hrun4) Hpath Hbb ltac:(lia) Hsz'
    Ho Hfd Hw Hn Ho' Hfd') as [-> Hr].
  split; [lia|]. rewrite (call_read _ _ _ Er). unfold syscall_handle_read.
  change (pid (proc_at (kernel_of s5) q)) with (pid_of s5 q).
  replace (pid_of s5 q) with (pid_of s4 q) by (by rewrite E5). rewrite Efd'.
  assert (H0 : (a1 fr =? 0) = false) by (destruct Him; unfold USER_BASE in *; lia). rewrite H0. cbn [andb negb].
  destruct (fs_read (pid_of s4 q) fd' true (a2 fr) (files_of s5)) as [o v] eqn:Ev. cbn [fst] in Hr. subst o.
  pose proof (vs_read (files_of s5) (pid_of s5 q) fd' true (a2 fr)) as Hv.
  replace (pid_of s5 q) with (pid_of s4 q) in Hv by (by rewrite E5). rewrite Ev in Hv.
  assert (Hrun6 : runs (put_files s5 v) q).
  { eapply (carried_runs _ _ _ Hkernel Happs s5 []); [|done|by destruct Hrun5].
    apply (carried_file _ _ _ s5 q); [apply Hrun5|].
    change (pid (proc_at (kernel_of s5) q)) with (pid_of s5 q).
    by replace (pid_of s5 q) with (pid_of s4 q) by (by rewrite E5). }
  set (out := take (Z.to_nat (a2 fr)) b).
  assert (Hol : Z.of_nat (length out) = len) by (unfold out, len; rewrite length_take; lia).
  destruct (put_in_image (put_files s5 v) q (a1 fr) out Hrun6) as (s6&Hput&Hload&_).
  { destruct Him. split; [done|]. change (kernel_of (put_files s5 v)) with (set_env (kernel_of s5) (with_files (env (kernel_of s5)) v)).
    change (proc_at (set_env ?k _) q) with (proc_at k q). lia. }
  exists s6. rewrite Hput. cbn [mbind option_bind]. split.
  - do 2 f_equal. lia.
  - replace (Z.to_nat len) with (length out) by lia. rewrite Hload, map_u8_bytes by (by apply Forall_take).
    f_equal. unfold out at 2. rewrite length_take. unfold out. destruct (decide (length b ≤ Z.to_nat (a2 fr))%nat).
    + by rewrite !take_ge by lia.
    + by rewrite Nat.min_l by lia.
Qed.
End props.
