(* ===== verification/SyscallSafe.v ===== *)
(** * The calls that always answer

    The handlers trust the pointers they are given, and [alloc_pages] panics when there
    is no memory.  Apart from that, a system call of the running process always ends,
    with an answer or by making the process wait: the kernel does not panic, and stays
    within the memory of the caller. *)
From Stdlib Require Import ZArith Lia ZifyBool String.
From stdpp Require Import base tactics list numbers option relations.
From S2P Require Import Prelude Memory CString TimeFmt BlockDev NodeFs NodeFsSpec NodeFsOps NodeFsDisk Vfs VfsSpec.
From S2P Require Import Process ProcessSpec ProcessOps Scheduler PageTable PageTableSpec AddressSpace.
From S2P Require Import Spaces UserMemory Procfs ProcfsSpec Console ConsoleSpec Kernel KernelSpec System.
From S2P Require Import Syscall SyscallSpec Traps SyscallProps.
#[local] Open Scope Z_scope.

Lemma copy_name_loop_length n src dst : length (copy_name_loop n src dst).2 = length dst.
Proof.
  revert src dst. induction n as [|n IH]; intros src [|c d]; simpl; try done. case_if; [done|].
  specialize (IH (tail src) d). by destruct (copy_name_loop n (tail src) d) as [r d']; simpl in *; rewrite IH.
Qed.

Lemma readdir_loop_length ns dir index seen d :
  readdir_loop ns dir index seen = Some d → length (d_name d) = 16%nat.
Proof.
  revert seen. induction ns as [|n ns IH]; intros seen; simpl; [done|]. case_if; [apply IH|].
  case_if; [|apply IH]. intros [= <-]. cbn [d_name]. unfold copy_name. apply copy_name_loop_length.
Qed.

(** A string that ends within the bytes that can be read. *)
Lemma load_chars_total n m t va j :
  (∀ i, (i ≤ j)%nat → ∃ b, load_byte m t (va + Z.of_nat i) = Some b) →
  load_byte m t (va + Z.of_nat j) = Some 0 → 0 ≤ va → va + Z.of_nat j < 4294967296 →
  ∃ l, load_chars n m t va = Some l ∧ (length l ≤ j)%nat.
Proof.
  revert n va. induction j as [|j IH]; intros n va Hb H0 Hva Hend; (destruct n as [|n]; [exists []; split; [done|simpl; lia]|]);
    cbn [load_chars].
  - rewrite Z.add_0_r in H0. rewrite H0. by exists [].
  - destruct (Hb O ltac:(lia)) as [b Hb0]. rewrite Z.add_0_r in Hb0. rewrite Hb0. cbn [mbind option_bind].
    case_if; [exists []; split; [done|simpl; lia]|]. rewrite u32_small by lia.
    destruct (IH n (va + 1)) as (l&Hl&Hn); [|rewrite <-H0; f_equal; lia|lia|lia|].
    + intros i Hi. destruct (Hb (S i) ltac:(lia)) as [c Hc]. exists c. rewrite <-Hc. f_equal. lia.
    + rewrite Hl. eexists. split; [done|]. simpl. lia.
Qed.

Section safe.
Context {D : Type} `{BlockDev D}.
Context (kernel_base free_ram free_ram_end : Z) (app_image : Z → list Z).
Context (kernel_total_pages now : Z) (stack_base : nat → Z) (stack_garbage : list Z).
Context (Hkernel : kernel_base mod 4096 = 0 ∧ MMIO_BASE ≤ kernel_base ∧ free_ram_end ≤ 4294967296).
Context (Hram : free_ram mod PAGE_SIZE = 0 ∧ 0 ≤ free_ram ∧
  free_ram + 2 * PAGE_SIZE ≤ free_ram_end < 4294967296).
Context (Happs : ∀ app_id, uva (image_pages (app_image app_id)) ≤ MMIO_BASE).

Let this_env : ProcEnv (machine (D := D)) := kernel_env kernel_base free_ram_end app_image.
#[local] Existing Instance this_env.
Implicit Types k : kstate (machine (D := D)).
Implicit Types s : sys (D := D).

(** An answer, or the process waits, or the machine is off: no panic ([None]), and the
    code has not gone on with memory that is not the caller's ([Stray]). *)
Definition answers (o : option (result (D := D))) : Prop :=
  match o with None | Some (Stray _) => False | Some _ => True end.

(** There is a string in the image at [va]. *)
Definition text_at s (cur : nat) (va : Z) : Prop :=
  ∃ j : nat, in_image s cur va (Z.of_nat j + 1) ∧
    load_byte (user_mem s) (table_of s cur) (va + Z.of_nat j) = Some 0.

(** The pointers that the call follows are to bytes of the image of the caller.  Every
    defined call is here but the four that need memory: [fork], [clone], [exec], [execv]. *)
Inductive args_ok s (cur : nat) (f : trap_frame) : Prop :=
| args_none : a3 f ∈ [SYSCALL_PUTCHAR; SYSCALL_GETCHAR; SYSCALL_EXIT; SYSCALL_WAITPID; SYSCALL_IPC_SEND;
    SYSCALL_BITMAP; SYSCALL_KILL; SYSCALL_CLOSE; SYSCALL_DUP2] → args_ok s cur f
| args_ps : a3 f = SYSCALL_PS → a1 f = 0 ∨ in_image s cur (a1 f) 32 → args_ok s cur f
| args_recv : a3 f = SYSCALL_IPC_RECV → a0 f = 0 ∨ in_image s cur (a0 f) 4 → args_ok s cur f
| args_path : a3 f ∈ [SYSCALL_OPEN; SYSCALL_MKDIR; SYSCALL_UNLINK; SYSCALL_RMDIR; SYSCALL_CHDIR] →
    a0 f = 0 ∨ text_at s cur (a0 f) → args_ok s cur f
| args_readdir : a3 f = SYSCALL_READDIR → text_at s cur (a0 f) → in_image s cur (a2 f) 24 → args_ok s cur f
| args_data : a3 f = SYSCALL_READ ∨ a3 f = SYSCALL_WRITE → in_image s cur (a1 f) (a2 f) → args_ok s cur f
| args_time : a3 f = SYSCALL_GETTIME → a0 f = 0 ∨ in_image s cur (a0 f) 12 → args_ok s cur f
| args_args : a3 f = SYSCALL_GETARGS → in_image s cur (a0 f) 260 → args_ok s cur f
| args_cwd : a3 f = SYSCALL_GETCWD → in_image s cur (a0 f) 64 → args_ok s cur f
| args_info : a3 f = SYSCALL_KERNEL_INFO → a0 f = 0 ∨ in_image s cur (a0 f) 112 → args_ok s cur f.

Lemma in_image_less s cur va len len' : in_image s cur va len → len' ≤ len → in_image s cur va len'.
Proof. unfold in_image. lia. Qed.

Lemma put_ok s cur va l len :
  runs s cur → in_image s cur va len → Z.of_nat (length l) ≤ len →
  ∃ s', put_bytes s cur va l = Some s' ∧ runs s' cur ∧
    ∀ va' len', in_image s cur va' len' → in_image s' cur va' len'.
Proof using H Hkernel Happs.
  intros Hrun Him Hlen. pose proof (in_image_less _ _ _ _ _ Him Hlen) as Him'.
  destruct (put_in_image s cur va l Hrun Him') as (s'&Hput&_).
  exists s'. split; [done|]. split.
  - destruct (runs_space s cur Hrun) as (_&_&Hsp).
    assert (Hn : uva (user_pages (proc_at (kernel_of s) cur)) ≤ MMIO_BASE) by apply Hsp.
    assert (Hva : 0 ≤ va ∧ (l = [] ∨ va < 4294967296)).
    { destruct Him'. unfold uva, USER_BASE, PAGE_SIZE, MMIO_BASE in *. destruct l; [split; [lia|by left]|].
      simpl in *. split; [lia|]. right. lia. }
    destruct Hva as [Hva [->|Hva']].
    + unfold put_bytes in Hput. injection Hput as <-. by rewrite put_mem_same.
    + by destruct (carried_put kernel_base free_ram_end app_image Hkernel Happs s cur va l s' Hrun ltac:(lia) Hput).
  - unfold put_bytes in Hput. destruct (store_user _ _ _ _) as [m|]; [|done]. by injection Hput as <-.
Qed.

Lemma put_is_some s cur va l len x :
  runs s cur → in_image s cur va len → Z.of_nat (length l) ≤ len →
  answers (match put_bytes s cur va l with Some t => Some (Ret x t) | None => Some (Stray s) end).
Proof using H Hkernel Happs.
  intros Hrun Him Hlen. by destruct (put_ok s cur va l len Hrun Him Hlen) as (s'&->&_).
Qed.

Lemma text_chars s cur va n :
  runs s cur → text_at s cur va →
  ∃ l, load_chars n (user_mem s) (table_of s cur) va = Some l ∧
    Z.of_nat (length l) < user_pages (proc_at (kernel_of s) cur) * PAGE_SIZE.
Proof.
  intros Hrun (j&[Hlo Hhi]&H0). destruct (runs_space s cur Hrun) as (_&_&Hsp).
  assert (Hn : uva (user_pages (proc_at (kernel_of s) cur)) ≤ MMIO_BASE) by apply Hsp.
  destruct (load_chars_total n (user_mem s) (table_of s cur) va j) as (l&Hl&Hlen); [|done| | |].
  - intros i Hi. destruct (user_address_in _ _ _ (va + Z.of_nat i) Hsp) as (pa&Ha&_).
    + unfold uva. split; [lia|]. lia.
    + unfold load_byte. rewrite Ha. by eexists.
  - unfold USER_BASE in *. lia.
  - unfold uva, USER_BASE, PAGE_SIZE, MMIO_BASE in *. lia.
  - exists l. split; [done|]. unfold PAGE_SIZE in *. lia.
Qed.

Lemma text_string s cur va : runs s cur → text_at s cur va → is_Some (get_string s cur va).
Proof.
  intros Hrun Ht. unfold get_string, load_string.
  destruct (text_chars s cur va (user_size s cur) Hrun Ht) as (l&->&Hl). cbn [mbind option_bind].
  unfold user_size. rewrite (proj2 (Nat.eqb_neq _ _)); [by eexists|]. lia.
Qed.

Lemma path_is_some s cur f op :
  runs s cur → a0 f = 0 ∨ text_at s cur (a0 f) → answers (with_path cur f s (λ path,
    let '(x, v) := op path in Some (Ret x (put_files s v)))).
Proof.
  intros Hrun Ha. unfold with_path. case_if; [done|]. destruct Ha as [?|Ha]; [lia|].
  destruct (text_string s cur (a0 f) Hrun Ha) as [path ->]. cbn [mbind option_bind].
  by destruct (op path).
Qed.

(** ** Reading the console *)

Lemma got_input_pages k cur :
  running k cur → user_pages (proc_at (got_input cur k) cur) = user_pages (proc_at k cur).
Proof.
  intros Hrun. destruct (running_proc k cur Hrun) as [Hp _]. unfold got_input, upd_proc.
  rewrite proc_at_set by (by eapply lookup_lt_Some). by rewrite decide_True.
Qed.

Lemma getchar_pages s cur ch d c k :
  runs s cur →
  syscall_handle_getchar cur (dev (sys_io s)) (ring (sys_io s)) (kernel_of s) = (Some ch, d, c, k) →
  user_pages (proc_at k cur) = user_pages (proc_at (kernel_of s) cur).
Proof.
  intros Hrn. pose proof (carried_poll kernel_base free_ram_end app_image s) as Hp.
  pose proof (rn_running _ _ Hrn) as Hrun. unfold syscall_handle_getchar.
  destruct (input_pop (ring (sys_io s))) as [[ch1 c1]|]; [intros [= _ _ _ <-]; by apply got_input_pages|].
  unfold poll_console_input in *. destruct (poll_loop 64 (dev (sys_io s)) (ring (sys_io s))) as [d1 c1].
  destruct Hp as (_&_&Hr). specialize (Hr cur Hrn).
  destruct (input_pop c1) as [[ch2 c2]|]; [|done]. intros [= _ _ _ <-]. rewrite got_input_pages by done.
  case_if; [|done]. pose proof (kk_table _ (rn_kernel _ _ Hrn)) as Hok.
  pose proof (lookup_lt_Some _ _ _ (proj1 (running_proc _ _ Hrun))) as Hl. rewrite (pk_len _ Hok) in Hl.
  rewrite wakeup_at by (done || apply Hok). by case_if.
Qed.

Lemma read_console_total n s cur buf size :
  runs s cur → in_image s cur buf size → Z.of_nat n ≤ size →
  answers (read_console kernel_base free_ram_end app_image n cur buf size s).
Proof using H Hkernel Happs.
  revert s. induction n as [|n IH]; intros s Hrun Him Hn; cbn [read_console]; [done|].
  destruct (Console.syscall_handle_getchar _ _ _ _) as [[[o d] c] k] eqn:Hg.
  destruct o as [ch|]; [|done].
  destruct (carried_getchar kernel_base free_ram_end app_image Hkernel Happs s cur _ d c k Hrun Hg) as [_ Hrun1].
  specialize (Hrun1 ltac:(done)). pose proof (getchar_pages s cur ch d c k Hrun Hg) as Hpg.
  set (s1 := Sys (Io k c d) (printed s)) in *.
  assert (Him1 : in_image s1 cur buf size) by (unfold in_image in *; change (kernel_of s1) with k; by rewrite Hpg).
  destruct (runs_space s1 cur Hrun1) as (_&_&Hsp).
  assert (Hmm : uva (user_pages (proc_at (kernel_of s1) cur)) ≤ MMIO_BASE) by apply Hsp.
  pose proof Him1 as [Hlo Hhi]. rewrite u32_small by (unfold uva, USER_BASE, PAGE_SIZE, MMIO_BASE in *; lia).
  destruct (put_ok s1 cur (buf + (size - Z.of_nat (S n))) [ch] 1 Hrun1) as (s2&->&Hrun2&Hin); [|done|].
  - unfold in_image in *. lia.
  - cbn [mbind option_bind]. apply IH; [done|by apply Hin|lia].
Qed.

(** ** All of them *)

Lemma args_bytes_size s cur : runs s cur → length (concat (exec_argv (proc_at (kernel_of s) cur))) = 256%nat.
Proof.
  intros Hrun. destruct (running_proc _ _ (rn_running _ _ Hrun)) as [Hp _].
  destruct (sy_procs _ (rn_system _ _ Hrun) cur _ Hp) as [[_ (_&_&Hl&Hf)] _].
  revert Hl Hf. generalize (exec_argv (proc_at (kernel_of s) cur)). intros l Hl Hf.
  assert (E : length (concat l) = (32 * length l)%nat); [|by rewrite E, Hl].
  clear Hl. induction Hf as [|a r Ha _ IH]; [done|]. simpl. rewrite length_app, IH, Ha. lia.
Qed.

(** What a read returns is no longer than the buffer. *)
Lemma fs_read_size (v : vfs D) p fd has sz :
  match (fs_read p fd has sz v).1 with
  | ReadRet _ b => 0 ≤ sz → Z.of_nat (length b) ≤ sz
  | ReadConsole n => n = sz
  end.
Proof.
  unfold fs_read. do 2 (case_if; [simpl; lia|]). cbv zeta.
  case_if; [repeat case_if; simpl; lia|]. do 2 (case_if; [simpl; lia|]).
  destruct (nodefs_read _ _ _ _) as [[r off] b] eqn:En. cbn [fst]. revert En. unfold nodefs_read.
  do 2 (case_if; [intros [= _ _ <-]; simpl; lia|]). intros [= _ _ <-] Hsz. rewrite length_take. case_if; lia.
Qed.

Lemma read_total s cur f :
  runs s cur → frame_ok f → in_image s cur (a1 f) (a2 f) →
  answers (syscall_handle_read kernel_base free_ram_end app_image cur f s).
Proof using H Hkernel Happs.
  intros Hrun (_&_&Hsz&_) Him. unfold syscall_handle_read. case_if; [done|].
  pose proof (vs_read (files_of s) (pid (proc_at (kernel_of s) cur)) (i32 (a0 f)) (negb (a1 f =? 0)) (a2 f)) as Hv.
  destruct (fs_read _ _ _ _ _) as [o v] eqn:Er. cbn [snd] in Hv.
  assert (Hrun' : runs (put_files s v) cur).
  { eapply (carried_runs _ _ _ Hkernel Happs s []); [|done|by destruct Hrun].
    by apply (carried_file _ _ _ s cur); [apply Hrun|]. }
  assert (Him' : in_image (put_files s v) cur (a1 f) (a2 f)) by exact Him.
  pose proof (fs_read_size (files_of s) (pid (proc_at (kernel_of s) cur)) (i32 (a0 f)) (negb (a1 f =? 0)) (a2 f))
    as Hs. rewrite Er in Hs. cbn [fst] in Hs. destruct o as [x b|n].
  - eapply put_is_some; [done|exact Him'|]. apply Hs. lia.
  - subst n. apply read_console_total; [done|done|lia].
Qed.

Lemma write_total s cur f :
  runs s cur → frame_ok f → in_image s cur (a1 f) (a2 f) → answers (syscall_handle_write cur f s).
Proof.
  intros Hrun (_&_&Hsz&_) [Hlo Hhi]. unfold syscall_handle_write.
  destruct (runs_space s cur Hrun) as (_&_&Hsp). case_if; [done|].
  set (p := pid _). set (v := files_of s).
  assert (Hx : 0 ≤ write_extent p (i32 (a0 f)) (a2 f) v ≤ a2 f).
  { unfold write_extent. repeat case_if; lia. }
  assert (Hb : ∀ buf, answers (let '(r, out, v) := fs_write p (i32 (a0 f)) buf (a2 f) v in
    Some (Ret r (print (put_files s v) out)))).
  { intros buf. destruct (fs_write _ _ _ _ _) as [[r out] v']. done. }
  case_if; cbn [mbind option_bind]; [apply Hb|].
  destruct (load_bytes_total (user_mem s) (table_of s cur) (user_pages (proc_at (kernel_of s) cur)) (a1 f)
    (Z.to_nat (write_extent p (i32 (a0 f)) (a2 f) v)) Hsp) as [b Hl]; [unfold uva; lia|unfold uva; lia|].
  rewrite Hl. apply Hb.
Qed.

Lemma chdir_total s cur f :
  runs s cur → a0 f = 0 ∨ text_at s cur (a0 f) →
  answers (syscall_handle_chdir kernel_base free_ram_end app_image cur f s).
Proof.
  intros Hrun Ha. unfold syscall_handle_chdir. case_if; [done|]. destruct Ha as [?|Ha]; [lia|].
  destruct (text_chars s cur (a0 f) (Z.to_nat (FS_PATH_MAX - 1)) Hrun Ha) as (l&->&_). cbn [mbind option_bind].
  destruct (fs_get_path_entry _ _) as [[m n]|]; done.
Qed.

Lemma readdir_total s cur f :
  runs s cur → text_at s cur (a0 f) → in_image s cur (a2 f) 24 → answers (syscall_handle_readdir cur f s).
Proof using H Hkernel Happs.
  intros Hrun Ha Him. unfold syscall_handle_readdir. case_if; [done|].
  destruct (text_string s cur (a0 f) Hrun Ha) as [path ->]. cbn [mbind option_bind].
  destruct (fs_readdir _ _ _ _) as [x [d|]] eqn:Er; [|done].
  eapply put_is_some; [done|exact Him|]. unfold dirent_bytes. rewrite !length_app, !le32_length.
  assert (Hd : length (d_name d) = 16%nat); [|lia]. revert Er. unfold fs_readdir. case_if; [done|].
  destruct (vfs_resolve_mount _ _) as [[m sub]|]; [|done].
  destruct (nodefs_readdir _ _ _) as [e|] eqn:En; [|done]. intros [= _ <-]. revert En. unfold nodefs_readdir.
  case_if; [done|]. destruct (nodefs_resolve_path _ _) as [dir|]; [|done]. cbn [mbind option_bind].
  case_if; [done|]. apply readdir_loop_length.
Qed.

Lemma receive_total s cur from_ptr :
  runs s cur → from_ptr = 0 ∨ in_image s cur from_ptr 4 →
  answers (receive kernel_base free_ram_end app_image cur from_ptr s).
Proof using H Hkernel Happs.
  intros Hrun Hp. unfold receive. pose proof (step_recv _ _ (rn_running _ _ Hrun)) as Hc.
  pose proof (kk_table _ (rn_kernel _ _ Hrun)) as Hok.
  destruct (process_ipc_recv _ _) as [[[from msg]|] k|w k] eqn:E; [|done|done].
  case_if; [done|]. destruct Hp as [?|Hp]; [lia|]. simpl in Hc.
  destruct (running_proc _ _ (rn_running _ _ Hrun)) as [Hpr Hs].
  assert (Hk : procs k !! cur = Some (set_mailbox 0 0 0 (proc_at (kernel_of s) cur)) ∧
    current_proc k = current_proc (kernel_of s)).
  { unfold process_ipc_recv in E. rewrite (recv_find _ cur Hok (rn_running _ _ Hrun)) in E.
    unfold ipc_recv_loop in E. destruct (ipc_has_message _ =? 0); [done|]. injection E as _ _ <-.
    rewrite (procs_upd _ cur _ _ Hpr). split; [by eapply lookup_change_eq|done]. }
  destruct Hk as [Hk Hcur].
  assert (Hrun1 : runs (with_kernel s k) cur).
  { eapply (carried_runs _ _ _ Hkernel Happs s []); [by apply carried_call|done|].
    destruct (rn_running _ _ Hrun) as (?&?&_). split; [by etrans|]. split; [done|]. by eexists. }
  eapply put_is_some; [done| |].
  - unfold in_image in *. change (kernel_of (with_kernel s k)) with k.
    rewrite (proc_at_lookup _ _ _ Hk). exact Hp.
  - done.
Qed.

Lemma waitpid_call_total s cur f :
  runs s cur → answers (syscall_handle_waitpid kernel_base free_ram_end app_image cur f s).
Proof using H Hkernel.
  intros [Hok Hk Hrun]. unfold syscall_handle_waitpid. cbv zeta. case_if; [done|]. unfold wait_child.
  destruct (waitpid_keeps kernel_base free_ram_end app_image (λ _, True) (kernel_of s) cur (i32 (a0 f))
    (kk_table _ Hok) Hk Hrun ltac:(done)) as (o&->&_). by destruct o.
Qed.

Lemma kill_call_total s cur f :
  runs s cur → answers (syscall_handle_kill kernel_base free_ram_end app_image f s).
Proof using H Hkernel.
  intros [Hok Hk Hrun]. unfold syscall_handle_kill.
  destruct (kill_keeps kernel_base free_ram_end app_image (λ _, True) (kernel_of s) (i32 (a0 f))
    (kk_table _ Hok) Hk ltac:(done)) as (o&->&_). by destruct o.
Qed.

Lemma bitmap_total s cur f : runs s cur → answers (syscall_handle_bitmap f s).
Proof.
  intros Hrun. unfold syscall_handle_bitmap, bitmap_page_state.
  destruct (runs_space s cur Hrun) as ([-> _ _ _ _ _]&_&_). cbn [negb]. case_if; done.
Qed.

Lemma getchar_total s cur : answers (Some (getchar_call kernel_base free_ram_end app_image cur s)).
Proof. unfold getchar_call. destruct (Console.syscall_handle_getchar _ _ _ _) as [[[[ch|] d] c] k]; done. Qed.

Lemma exit_total s cur : answers (Some (syscall_handle_exit kernel_base free_ram_end app_image cur s)).
Proof. unfold syscall_handle_exit. cbv zeta. by repeat case_match. Qed.

Lemma send_total s cur f : answers (Some (syscall_handle_ipc_send kernel_base free_ram_end app_image cur f s)).
Proof. unfold syscall_handle_ipc_send. cbv zeta. by repeat case_match. Qed.

(** The numbers that [handle_syscall] knows; 26, [SYSCALL_GETROOTFS], is not one. *)
Definition defined_call (n : Z) : Prop := 1 ≤ n ≤ 25 ∨ n = 27 ∨ n = 28.

Lemma one_of (n : Z) (l : list Z) (P : Z → Prop) : n ∈ l → Forall P l → P n.
Proof. intros Hn Hf. rewrite Forall_forall in Hf. auto. Qed.

Lemma ps_total s cur f : runs s cur → a1 f = 0 ∨ in_image s cur (a1 f) 32 → answers (syscall_handle_ps cur f s).
Proof using H Hkernel Happs.
  intros Hrun Ha. unfold syscall_handle_ps. cbv zeta. case_if; [done|]. case_if; [done|].
  destruct Ha as [?|Ha]; [lia|]. eapply put_is_some; [done|exact Ha|].
  unfold ps_info_bytes. rewrite !length_app, !le32_length, length_take. unfold PROC_NAME_MAX. lia.
Qed.

Lemma recv_total s cur f :
  runs s cur → a0 f = 0 ∨ in_image s cur (a0 f) 4 →
  answers (syscall_handle_ipc_recv kernel_base free_ram_end app_image cur f s).
Proof using H Hkernel Happs.
  intros Hrun Ha. unfold syscall_handle_ipc_recv. case_if; [done|]. by apply receive_total.
Qed.

Lemma time_total s cur f :
  runs s cur → a0 f = 0 ∨ in_image s cur (a0 f) 12 → answers (syscall_handle_gettime now cur f s).
Proof using H Hkernel Happs.
  intros Hrun Ha. unfold syscall_handle_gettime. destruct (gettime_fields now) as [[lo hi] ns].
  case_if; [done|]. destruct Ha as [?|Ha]; [lia|]. eapply put_is_some; [done|exact Ha|].
  by rewrite !length_app, !le32_length.
Qed.

Lemma getargs_total s cur f :
  runs s cur → in_image s cur (a0 f) 260 → answers (syscall_handle_getargs cur f s).
Proof using H Hkernel Happs.
  intros Hrun Ha. unfold syscall_handle_getargs. case_if; [done|]. cbv zeta.
  eapply put_is_some; [done|exact Ha|]. by rewrite length_app, le32_length, args_bytes_size.
Qed.

Lemma getcwd_total s cur f :
  runs s cur → in_image s cur (a0 f) 64 → answers (syscall_handle_getcwd cur f s).
Proof using H Hkernel Happs.
  intros Hrun Ha. unfold syscall_handle_getcwd. case_if; [done|]. cbv zeta.
  eapply put_is_some; [done|exact Ha|]. rewrite length_app, length_take. unfold FS_PATH_MAX. change (length [0]) with 1%nat. lia.
Qed.

(** The information on the kernel fits in its structure, whatever the time is. *)
Lemma info_bytes : ∃ l, kernel_info_bytes kernel_total_pages now stack_garbage = Some l ∧ Z.of_nat (length l) ≤ 112.
Proof.
  clear Hkernel Hram Happs. unfold kernel_info_bytes, unix_time_to_utc_str. replace (40 =? 0) with false by done.
  assert (0 ≤ rtc_now_sec now < 4294967296) as Ht by apply u32_range.
  rewrite udiv64_32_full_spec by lia.
  destruct (date_loops (rtc_now_sec now / 86400)) as (y&d&m&mday&name&Hy&Hm&_);
    [unfold max_days; pose proof (Z.div_le_upper_bound (rtc_now_sec now) 86400 4294967296); zdiv|].
  destruct (udiv64_32_full _ 7) as [q wd]. rewrite Hy. cbn [mbind option_bind]. rewrite Hm.
  cbn [mbind option_bind]. eexists. split; [done|].
  rewrite !length_app, copy_chars_length, strcpy_s_length, length_take.
  assert (E : length (zero_bytes KERNEL_VERSION_MAX) = 16%nat) by done. rewrite E.
  match goal with |- context [length (concat (map le32 ?l))] =>
    assert (Ec : length (concat (map le32 l)) = 56%nat) by done; rewrite Ec end. lia.
Qed.

Lemma info_total s cur f :
  runs s cur → a0 f = 0 ∨ in_image s cur (a0 f) 112 →
  answers (syscall_handle_kernel_info kernel_total_pages now stack_garbage cur f s).
Proof using H Hkernel Happs.
  intros Hrun Ha. unfold syscall_handle_kernel_info. case_if; [done|]. destruct Ha as [?|Ha]; [lia|].
  destruct info_bytes as (l&->&Hl). cbn [mbind option_bind]. eapply put_is_some; [done|exact Ha|done].
Qed.

(** C9. System calls answer.  Of a running process whose pointers are to bytes of its own
    image, every defined call but [fork], [clone], [exec] and [execv], which allocate
    memory, ends with an answer or makes the process wait (or, the [exit] of the first
    process, switches the machine off): the kernel does not panic, and does not go on with
    memory that is not the caller's.  A number that is none of the defined ones always
    panics. *)
Theorem calls_answer s cur f :
  at_work kernel_base free_ram free_ram_end app_image kernel_total_pages stack_base s cur → frame_ok f →
  (args_ok s cur f →
   answers (call kernel_base free_ram_end app_image kernel_total_pages now stack_garbage cur f s)) ∧
  (¬ defined_call (a3 f) →
   call kernel_base free_ram_end app_image kernel_total_pages now stack_garbage cur f s = None).
Proof using H Hkernel Hram Happs.
  intros Hw Hf. assert (Hrun : runs s cur) by (by eapply at_work_runs). unfold call, handle_syscall. cbv zeta.
  split.
  - intros [Hn|E Ha|E Ha|Hn Ha|E Ht Ha|[E|E] Ha|E Ha|E Ha|E Ha|E Ha]; try (rewrite E; clear E).
    + revert Hn. generalize (a3 f). intros n Hn. revert n Hn. apply Forall_forall.
      repeat (apply Forall_cons; split); [done|apply getchar_total|apply exit_total|by apply waitpid_call_total|
        apply send_total|by eapply bitmap_total|by eapply kill_call_total| | |by constructor].
      * cbn. unfold syscall_handle_close. by destruct (fs_close _ _ _).
      * cbn. unfold syscall_handle_dup2. by destruct (fs_dup2 _ _ _ _).
    + by apply ps_total.
    + by apply recv_total.
    + revert Hn. generalize (a3 f). intros n Hn. revert n Hn. apply Forall_forall.
      repeat (apply Forall_cons; split); [by apply path_is_some..|by apply chdir_total|by constructor].
    + by apply readdir_total.
    + by apply read_total.
    + by apply write_total.
    + by apply time_total.
    + by apply getargs_total.
    + by apply getcwd_total.
    + by apply info_total.
  - intros Hd. assert (Hne : ∀ c, defined_call c → (a3 f =? c) = false).
    { intros c Hc. apply Z.eqb_neq. intros E. apply Hd. by rewrite E. }
    clear -Hne. rewrite !Hne; [done|..]; first [left; split; vm_compute; discriminate|right; left; reflexivity|right; right; reflexivity].
Qed.
End safe.
