(* ===== verification/SyscallTests.v ===== *)
(** * System calls at concrete inputs

    A kernel of 64 pages whose applications hold strings and an array of arguments; the
    shell runs and calls the kernel. *)
From Stdlib Require Import ZArith Lia ZifyBool String.
From stdpp Require Import base tactics list numbers option relations.
From S2P Require Import Prelude Memory CString BlockDev NodeFs NodeFsSpec NodeFsOps Vfs VfsSpec VfsTests.
From S2P Require Import Process ProcessSpec ProcessOps Scheduler PageTable PageTableSpec AddressSpace.
From S2P Require Import Spaces UserMemory Console ConsoleSpec Kernel KernelTests KernelSpec System SystemTests.
From S2P Require Import Syscall SyscallSpec Traps SyscallProps SyscallSafe.
#[local] Open Scope Z_scope.

(** [s] at the start of [n] bytes. *)
Definition field (n : nat) (s : list Z) : list Z := s ++ repeat 0 (n - length s).

(** An application of 2048 bytes: at 0 a directory, at 8 a file, at 32 an array of two
    strings, at 48 and 56, at 64 some data. *)
Definition app (app_id : Z) : list Z :=
  field 2048 (field 8 (bytes "/tmp") ++ field 24 (bytes "/tmp/f") ++
    field 16 (le32 0x1000030 ++ le32 0x1000038) ++ field 8 (bytes "one") ++ field 8 (bytes "two") ++
    field 16 (bytes "hello")).

#[local] Instance call_env : ProcEnv (machine (D := ramdisk)) :=
  kernel_env (ram_start - 8192) ram_stop app.

Definition machine_state : Type := Syscall.sys (D := ramdisk).
Definition stacks (i : nat) : Z := 0x80300000 + 8192 * Z.of_nat i.
Definition clock : Z := 0.

Lemma app_fits_below app_id : uva (image_pages (app app_id)) ≤ MMIO_BASE.
Proof. change (app app_id) with (app 0). by vm_compute. Qed.

Definition boot_kernel : kernel :=
  default no_kernel (kernel_main (ram_start - 8192) ram_start ram_stop app work0 blank boot_disk).
Definition t0 : machine_state := Sys (Io boot_kernel empty_console []) [].
Definition after_switch (c : nat) (s : machine_state) : machine_state :=
  with_kernel s (default no_kernel (yielded_state <$> yield c (kernel_of s))).
Definition t1 : machine_state := after_switch 0 t0.

Definition the_call (c : nat) (f : trap_frame) (s : machine_state) : option (result (D := ramdisk)) :=
  call (ram_start - 8192) ram_stop app 64 clock [] c f s.

#[local] Strategy expand [the_call].

Definition value_of (o : option (result (D := ramdisk))) : option Z :=
  match o with Some (Ret x _) => Some x | _ => None end.
Definition after_call (c : nat) (f : trap_frame) (s : machine_state) : machine_state :=
  match the_call c f s with Some (Ret _ s') => s' | _ => s end.

Lemma call_some c f s x : value_of (the_call c f s) = Some x → the_call c f s = Some (Ret x (after_call c f s)).
Proof. unfold after_call. destruct (the_call c f s) as [[y s'|w s'|s'|s']|]; [|done..]. by intros [= ->]. Qed.

(** ** The runs *)

Definition run : list Z → machine_state → Prop := os_run (ram_start - 8192) ram_start ram_stop app 64 stacks.
Definition works : machine_state → nat → Prop :=
  SyscallProps.at_work (ram_start - 8192) ram_start ram_stop app 64 stacks.

Lemma boots : kernel_main (ram_start - 8192) ram_start ram_stop app work0 blank boot_disk = Some boot_kernel.
Proof. apply k_some_default. vm_compute. reflexivity. Qed.

Lemma boot_init : init_proc boot_kernel ≠ None.
Proof.
  assert (Hi : init_proc boot_kernel = Some 1%nat) by (vm_compute; reflexivity). by rewrite Hi.
Qed.

Lemma call_run0 : run [] t0.
Proof. exact (os_start _ _ _ _ _ _ work0 blank boot_disk boot_kernel boot_root_loads boots boot_init). Qed.

Lemma run_switch c s :
  run [] s → current_proc (kernel_of s) = Some c → is_some (yield c (kernel_of s)) = true → run [] (after_switch c s).
Proof.
  intros Hr Hc Hy. unfold after_switch. destruct (yield c (kernel_of s)) as [y|] eqn:E; [|done].
  apply (os_next _ _ _ _ _ _ [] s []); [exact Hr|]. by eapply os_switch.
Qed.

Lemma current0 : current_proc (kernel_of t0) = Some 0%nat.
Proof. vm_compute. reflexivity. Qed.

Lemma yields0 : is_some (yield 0 (kernel_of t0)) = true.
Proof. vm_compute. reflexivity. Qed.

Lemma call_run1 : run [] t1.
Proof. exact (run_switch 0 t0 call_run0 current0 yields0). Qed.

Lemma running1 : running (kernel_of t1) 1.
Proof. apply k_runs_ok. vm_compute. reflexivity. Qed.

Lemma works1 : works t1 1.
Proof. split; [exact running1|]. exists []. exact call_run1. Qed.

(** A process that has called the kernel, and still runs. *)
Lemma works_call f s x s' :
  works s 1 → frame_ok f → the_call 1 f s = Some (Ret x s') →
  k_runs (kernel_of s') 1 = true → works s' 1.
Proof.
  intros [Hrun [typed Hr]] Hf Hc Hk. split; [by apply k_runs_ok|]. exists (typed ++ []).
  assert (Ho : process_from_trap_frame stacks (stacks 1) = Some 1%nat) by (vm_compute; reflexivity).
  eapply os_next; [exact Hr|].
  pose proof (os_trap (ram_start - 8192) ram_stop app 64 stacks s 1 clock [] SCAUSE_ENVIRONMENT_CALL_FROM_U_MODE
    (stacks 1) f 0 (finish_syscall f 0 (Ret x s')) Hrun Hf Ho) as Ht.
  assert (Hh : handle_trap (ram_start - 8192) ram_stop app 64 clock [] stacks SCAUSE_ENVIRONMENT_CALL_FROM_U_MODE
    (stacks 1) f 0 true s = Some (finish_syscall f 0 (Ret x s'))).
  { unfold handle_trap. rewrite (set_owner_current stacks s 1 (stacks 1) (proj1 Hrun) Ho). cbv zeta.
    change (SCAUSE_ENVIRONMENT_CALL_FROM_U_MODE =? SCAUSE_ENVIRONMENT_CALL_FROM_U_MODE) with true. cbv iota.
    rewrite (proj1 Hrun). cbn [mbind option_bind]. unfold the_call, call in Hc. by rewrite Hc. }
  specialize (Ht Hh). cbn [finish_syscall] in Ht.
  destruct ((_ || _) && _); by apply Ht.
Qed.

Lemma os_refines_witness :
  system_reachable (ram_start - 8192) ram_start ram_stop app (kernel_of t1) ∧
  ∃ delivered, io_run [] delivered (sys_io t1).
Proof.
  destruct (os_refines _ _ _ _ _ _ test_kernel test_ram app_fits_below [] t1 call_run1) as (Hs&_&d&Hd&_).
  split; [exact Hs|]. by exists d.
Defined.

(** ** Working directory *)

Definition chdir_frame : trap_frame := Frame 0x1000000 0 0 SYSCALL_CHDIR.
Definition getcwd_frame : trap_frame := Frame 0x1000400 0 0 SYSCALL_GETCWD.

(** In the image: an address and a length. *)
Definition image_check (s : machine_state) (cur : nat) (va len : Z) : bool :=
  (USER_BASE <=? va) && (va + len <=? USER_BASE + user_pages (proc_at (kernel_of s) cur) * PAGE_SIZE).

Lemma image_checked s cur va len : image_check s cur va len = true → in_image s cur va len.
Proof. unfold image_check, in_image. lia. Qed.

Lemma chdir1 : the_call 1 chdir_frame t1 = Some (Ret 0 (after_call 1 chdir_frame t1)).
Proof. apply call_some. vm_compute. reflexivity. Qed.

Lemma path_at1 : load_chars 63 (user_mem t1) (table_of t1 1) (a0 chdir_frame) = Some (bytes "/tmp").
Proof. vm_compute. reflexivity. Qed.

Lemma chdir_then_getcwd_witness :
  ∃ s2, the_call 1 getcwd_frame (after_call 1 chdir_frame t1) = Some (Ret 0 s2) ∧
    get_string s2 1 0x1000400 = Some (bytes "/tmp").
Proof.
  assert (Him : in_image t1 1 (a0 getcwd_frame) 64) by (apply image_checked; vm_compute; reflexivity).
  destruct (chdir_then_getcwd _ _ _ _ 64 clock stacks [] test_kernel test_ram app_fits_below t1 1
    chdir_frame getcwd_frame _ works1 eq_refl chdir1 eq_refl Him) as (path&s2&Hp&Hc&Hs).
  rewrite path_at1 in Hp. injection Hp as <-. exists s2. exact (conj Hc Hs).
Defined.

(** ** Arguments *)

Definition execv_frame : trap_frame := Frame APP_ID_LS 0x1000020 0 SYSCALL_EXECV.
Definition getargs_frame : trap_frame := Frame 0x1000400 0 0 SYSCALL_GETARGS.

Lemma execv1 : the_call 1 execv_frame t1 = Some (Ret 0 (after_call 1 execv_frame t1)).
Proof. apply call_some. vm_compute. reflexivity. Qed.

Lemma argv_at1 : argv_of t1 1 (a1 execv_frame) = Some [bytes "one"; bytes "two"].
Proof. vm_compute. reflexivity. Qed.

Lemma execv_then_getargs_witness :
  ∃ s2, the_call 1 getargs_frame (after_call 1 execv_frame t1) = Some (Ret 0 s2) ∧
    load_bytes 260 (user_mem s2) (table_of s2 1) 0x1000400 =
      Some (le32 2 ++ arg_bytes (bytes "one") ++ arg_bytes (bytes "two") ++ repeat 0 192).
Proof.
  assert (Him : in_image (after_call 1 execv_frame t1) 1 (a0 getargs_frame) 260)
    by (apply image_checked; vm_compute; reflexivity).
  destruct (execv_then_getargs _ _ _ _ 64 clock stacks [] test_kernel test_ram app_fits_below t1 1
    execv_frame getargs_frame _ works1 eq_refl execv1 eq_refl Him) as (args&s2&Ha&Hc&Hs).
  rewrite argv_at1 in Ha. injection Ha as <-. exists s2. split; [exact Hc|]. exact Hs.
Defined.

(** ** Files *)

Definition create_frame : trap_frame := Frame 0x1000008 O_REWRITE 0 SYSCALL_OPEN.
Definition write_frame : trap_frame := Frame 0 0x1000040 5 SYSCALL_WRITE.
Definition open_frame : trap_frame := Frame 0x1000008 O_RDONLY 0 SYSCALL_OPEN.
Definition read_frame : trap_frame := Frame 1 0x1000400 16 SYSCALL_READ.

Definition t2 : machine_state := after_call 1 create_frame t1.
Definition t3 : machine_state := after_call 1 write_frame t2.
Definition t4 : machine_state := after_call 1 open_frame t3.

Lemma create1 : the_call 1 create_frame t1 = Some (Ret 0 t2).
Proof. apply call_some. vm_compute. reflexivity. Qed.

Lemma write2 : the_call 1 write_frame t2 = Some (Ret 5 t3).
Proof. apply call_some. vm_compute. reflexivity. Qed.

Lemma open3 : the_call 1 open_frame t3 = Some (Ret 1 t4).
Proof. apply call_some. vm_compute. reflexivity. Qed.

Lemma frame_check f :
  (0 <=? a0 f) && (a0 f <? 4294967296) && (0 <=? a1 f) && (a1 f <? 4294967296) &&
  (0 <=? a2 f) && (a2 f <? 4294967296) && (0 <=? a3 f) && (a3 f <? 4294967296) = true → frame_ok f.
Proof. unfold frame_ok. lia. Qed.

Lemma works2 : works t2 1.
Proof.
  assert (Hk : k_runs (kernel_of t2) 1 = true) by (vm_compute; reflexivity).
  exact (works_call create_frame t1 0 t2 works1 (frame_check create_frame eq_refl) create1 Hk).
Qed.

Lemma works3 : works t3 1.
Proof.
  assert (Hk : k_runs (kernel_of t3) 1 = true) by (vm_compute; reflexivity).
  exact (works_call write_frame t2 5 t3 works2 (frame_check write_frame eq_refl) write2 Hk).
Qed.

Lemma path1 : get_string t1 1 0x1000008 = Some (bytes "/tmp/f").
Proof. vm_compute. reflexivity. Qed.

Lemma path3 : get_string t3 1 0x1000008 = Some (bytes "/tmp/f").
Proof. vm_compute. reflexivity. Qed.

Lemma data2 : load_bytes 5 (user_mem t2) (table_of t2 1) 0x1000040 = Some (bytes "hello").
Proof. vm_compute. reflexivity. Qed.

Lemma user_write_then_read_witness :
  ∃ s6, the_call 1 read_frame t4 = Some (Ret 5 s6) ∧
    load_bytes 5 (user_mem s6) (table_of s6 1) 0x1000400 = Some (bytes "hello").
Proof.
  assert (Him : in_image t4 1 (a1 read_frame) (a2 read_frame)) by (apply image_checked; vm_compute; reflexivity).
  assert (Hle : 0 ≤ a2 write_frame ≤ 512) by (simpl; lia).
  assert (Hsz : 0 ≤ a2 read_frame < 4294967296) by (simpl; lia).
  destruct (user_write_then_read _ _ _ _ 64 clock stacks [] test_kernel test_ram app_fits_below
    t1 t2 t3 t3 t4 1 1 create_frame write_frame open_frame read_frame (bytes "/tmp/f") (bytes "hello") 0 1 5
    works1 eq_refl eq_refl path1 create1 ltac:(lia) eq_refl eq_refl Hle data2 write2 ltac:(lia)
    works3 eq_refl eq_refl eq_refl path3 open3 ltac:(lia) eq_refl eq_refl Hsz Him) as (_&s6&Hc&Hr).
  exists s6. exact (conj Hc Hr).
Defined.

(** ** Calls that answer *)

Definition ps_frame : trap_frame := Frame 1 0x1000400 0 SYSCALL_PS.
Definition info_frame : trap_frame := Frame 0x1000400 0 0 SYSCALL_KERNEL_INFO.
Definition rootfs_frame : trap_frame := Frame 0 0 0 26.

Lemma calls_answer_witness :
  answers (the_call 1 ps_frame t1) ∧ answers (the_call 1 info_frame t1) ∧ the_call 1 rootfs_frame t1 = None.
Proof.
  assert (Him : in_image t1 1 (a1 ps_frame) 32) by (apply image_checked; vm_compute; reflexivity).
  assert (Hii : in_image t1 1 (a0 info_frame) 112) by (apply image_checked; vm_compute; reflexivity).
  split; [|split].
  - apply (calls_answer _ _ _ _ 64 clock stacks [] test_kernel test_ram app_fits_below t1 1 ps_frame works1);
      [by apply frame_check|]. apply args_ps; [reflexivity|by right].
  - apply (calls_answer _ _ _ _ 64 clock stacks [] test_kernel test_ram app_fits_below t1 1 info_frame works1);
      [by apply frame_check|]. apply args_info; [reflexivity|by right].
  - apply (calls_answer _ _ _ _ 64 clock stacks [] test_kernel test_ram app_fits_below t1 1 rootfs_frame works1);
      [by apply frame_check|]. unfold defined_call. simpl. lia.
Defined.
