(* ===== verification/Asm.v ===== *)
(** * Boot, trap entry and context switch

    The assembly of [kernel/kernel.c] ([boot], [kernel_entry], [user_entry]) and of
    [kernel/proc/process.c] ([switch_context], [fork_child_trap_return]), instruction
    by instruction, over the registers, the words of memory and the control registers
    it uses; and the stacks that [create_process] and [process_fork] prepare for it.
    What an instruction does, and what the hardware does at a trap, is the RISC-V
    specification (RV32I and the supervisor privileged architecture). *)
From Stdlib Require Import ZArith Lia.
From stdpp Require Import base tactics list numbers option functions fin.
From S2P Require Import Prelude Memory PageTable.
#[local] Open Scope Z_scope.

(** ** The machine *)

Inductive reg :=
  | RA | SP | GP | TP | T0 | T1 | T2 | T3 | T4 | T5 | T6
  | A0 | A1 | A2 | A3 | A4 | A5 | A6 | A7
  | S0 | S1 | S2 | S3 | S4 | S5 | S6 | S7 | S8 | S9 | S10 | S11.

#[export] Instance reg_eq_dec : EqDecision reg.
Proof. solve_decision. Defined.

Inductive csr := Sstatus | Sscratch | Sepc | Satp | Stvec.

#[export] Instance csr_eq_dec : EqDecision csr.
Proof. solve_decision. Defined.

(** The privilege a hart runs at. *)
Inductive mode := User | Supervisor.

Record machine := Machine {
  regs : reg → Z;
  csrs : csr → Z;
  priv : mode;
  pc : Z;
  words : memory
}.

Definition set_reg (r : reg) (v : Z) (m : machine) : machine :=
  Machine (<[r := v]> (regs m)) (csrs m) (priv m) (pc m) (words m).
Definition set_csr (c : csr) (v : Z) (m : machine) : machine :=
  Machine (regs m) (<[c := v]> (csrs m)) (priv m) (pc m) (words m).
Definition set_pc (a : Z) (m : machine) : machine :=
  Machine (regs m) (csrs m) (priv m) a (words m).
Definition set_words (w : memory) (m : machine) : machine :=
  Machine (regs m) (csrs m) (priv m) (pc m) w.

(** The bits of [sstatus] that a trap and its return move: the interrupt enable, the
    one before the trap, and the privilege before the trap. *)
Definition SIE : Z := 1.
Definition SPIE : Z := 5.
Definition SPP : Z := 8.

Definition put_bit (n : Z) (b : bool) (s : Z) : Z :=
  if b then Z.setbit s n else Z.clearbit s n.

(** What the hardware does at a trap: [stvec] is the address of the handler. *)
Definition take_trap (stvec : Z) (m : machine) : machine :=
  let s := csrs m Sstatus in
  let s := put_bit SPIE (Z.testbit s SIE) s in
  let s := put_bit SIE false s in
  let s := put_bit SPP (match priv m with User => false | Supervisor => true end) s in
  Machine (regs m) (<[Sstatus := s]> (<[Sepc := pc m]> (csrs m))) Supervisor stvec (words m).

(** The instruction [sret]. *)
Definition sret (m : machine) : machine :=
  let s := csrs m Sstatus in
  let p := if Z.testbit s SPP then Supervisor else User in
  let s := put_bit SIE (Z.testbit s SPIE) s in
  let s := put_bit SPIE true s in
  let s := put_bit SPP false s in
  Machine (regs m) (<[Sstatus := s]> (csrs m)) p (csrs m Sepc) (words m).

(** ** Instructions

    The ones the kernel's assembly uses.  [Lbl] is a local label, which the branches
    name and which stands ahead of them; [Call] is the call of [handle_trap], and
    [JumpTo] a jump out of the routine. *)
Inductive instr :=
  | Lw (rd : reg) (off : Z) (base : reg)
  | Sw (rs : reg) (off : Z) (base : reg)
  | Addi (rd rs : reg) (imm : Z)
  | Andi (rd rs : reg) (imm : Z)
  | Mv (rd rs : reg)
  | Li (rd : reg) (imm : Z)
  | Csrr (rd : reg) (c : csr)
  | Csrw (c : csr) (rs : reg)
  | Csrc (c : csr) (imm : Z)
  | Csrrw (rd : reg) (c : csr) (rs : reg)
  | Sfence
  | Bnez (rs : reg) (l : nat)
  | J (l : nat)
  | Lbl (l : nat)
  | Call
  | JumpTo (a : Z)
  | Ret
  | Sret.

(** The instructions that go on to the next.  [sfence.vma] orders the table walks of the
    hardware, and changes no register and no word. *)
Definition exec (i : instr) (m : machine) : machine :=
  match i with
  | Lw rd off b => set_reg rd (load_word (words m) (u32 (regs m b + off))) m
  | Sw rs off b => set_words (store_word (words m) (u32 (regs m b + off)) (regs m rs)) m
  | Addi rd rs imm => set_reg rd (u32 (regs m rs + imm)) m
  | Andi rd rs imm => set_reg rd (Z.land (regs m rs) imm) m
  | Mv rd rs => set_reg rd (regs m rs) m
  | Li rd imm => set_reg rd (u32 imm) m
  | Csrr rd c => set_reg rd (csrs m c) m
  | Csrw c rs => set_csr c (regs m rs) m
  | Csrc c imm => set_csr c (Z.ldiff (csrs m c) imm) m
  | Csrrw rd c rs => set_reg rd (csrs m c) (set_csr c (regs m rs) m)
  | _ => m
  end.

(** Runs a routine up to the jump that leaves it; [skip] is the label a branch that was
    taken looks for.  [None]: the call did not return, or the routine has no end. *)
Section run.
Context (handle_trap : machine → option machine).

Fixpoint run (skip : option nat) (p : list instr) (m : machine) : option machine :=
  match p with
  | [] => None
  | i :: p =>
      match skip with
      | Some l =>
          match i with
          | Lbl l' => if (l =? l')%nat then run None p m else run skip p m
          | _ => run skip p m
          end
      | None =>
          match i with
          | Bnez rs l => if regs m rs =? 0 then run None p m else run (Some l) p m
          | J l => run (Some l) p m
          | Call => let! m' := handle_trap m in run None p m'
          | JumpTo a => Some (set_pc a m)
          | Ret => Some (set_pc (regs m RA) m)
          | Sret => Some (sret m)
          | _ => run None p (exec i m)
          end
      end
  end.
End run.

(** ** The trap frame *)

(** The offset of the field of a register in [struct trap_frame]: a word each. *)
Definition frame_off (r : reg) : Z :=
  4 * match r with
      | RA => 0 | GP => 1 | TP => 2
      | T0 => 3 | T1 => 4 | T2 => 5 | T3 => 6 | T4 => 7 | T5 => 8 | T6 => 9
      | A0 => 10 | A1 => 11 | A2 => 12 | A3 => 13 | A4 => 14 | A5 => 15 | A6 => 16 | A7 => 17
      | S0 => 18 | S1 => 19 | S2 => 20 | S3 => 21 | S4 => 22 | S5 => 23 | S6 => 24
      | S7 => 25 | S8 => 26 | S9 => 27 | S10 => 28 | S11 => 29 | SP => 30
      end.

Definition FRAME_BYTES : Z := 4 * 31.

Definition kernel_entry : list instr :=
  [Csrr T0 Sstatus;
   Andi T0 T0 0x100;
   Bnez T0 1;
   Csrrw SP Sscratch SP;
   J 2;
   Lbl 1;
   Csrw Sscratch SP;
   Lbl 2;
   Csrc Sstatus 2;
   Addi SP SP (-4 * 31);
   Sw RA (4 * 0) SP;
   Sw GP (4 * 1) SP;
   Sw TP (4 * 2) SP;
   Sw T0 (4 * 3) SP;
   Sw T1 (4 * 4) SP;
   Sw T2 (4 * 5) SP;
   Sw T3 (4 * 6) SP;
   Sw T4 (4 * 7) SP;
   Sw T5 (4 * 8) SP;
   Sw T6 (4 * 9) SP;
   Sw A0 (4 * 10) SP;
   Sw A1 (4 * 11) SP;
   Sw A2 (4 * 12) SP;
   Sw A3 (4 * 13) SP;
   Sw A4 (4 * 14) SP;
   Sw A5 (4 * 15) SP;
   Sw A6 (4 * 16) SP;
   Sw A7 (4 * 17) SP;
   Sw S0 (4 * 18) SP;
   Sw S1 (4 * 19) SP;
   Sw S2 (4 * 20) SP;
   Sw S3 (4 * 21) SP;
   Sw S4 (4 * 22) SP;
   Sw S5 (4 * 23) SP;
   Sw S6 (4 * 24) SP;
   Sw S7 (4 * 25) SP;
   Sw S8 (4 * 26) SP;
   Sw S9 (4 * 27) SP;
   Sw S10 (4 * 28) SP;
   Sw S11 (4 * 29) SP;
   Csrr A0 Sscratch;
   Sw A0 (4 * 30) SP;
   Addi A0 SP (4 * 31);
   Csrw Sscratch A0;
   Mv A0 SP;
   Call;
   Lw RA (4 * 0) SP;
   Lw GP (4 * 1) SP;
   Lw TP (4 * 2) SP;
   Lw T0 (4 * 3) SP;
   Lw T1 (4 * 4) SP;
   Lw T2 (4 * 5) SP;
   Lw T3 (4 * 6) SP;
   Lw T4 (4 * 7) SP;
   Lw T5 (4 * 8) SP;
   Lw T6 (4 * 9) SP;
   Lw A0 (4 * 10) SP;
   Lw A1 (4 * 11) SP;
   Lw A2 (4 * 12) SP;
   Lw A3 (4 * 13) SP;
   Lw A4 (4 * 14) SP;
   Lw A5 (4 * 15) SP;
   Lw A6 (4 * 16) SP;
   Lw A7 (4 * 17) SP;
   Lw S0 (4 * 18) SP;
   Lw S1 (4 * 19) SP;
   Lw S2 (4 * 20) SP;
   Lw S3 (4 * 21) SP;
   Lw S4 (4 * 22) SP;
   Lw S5 (4 * 23) SP;
   Lw S6 (4 * 24) SP;
   Lw S7 (4 * 25) SP;
   Lw S8 (4 * 26) SP;
   Lw S9 (4 * 27) SP;
   Lw S10 (4 * 28) SP;
   Lw S11 (4 * 29) SP;
   Lw SP (4 * 30) SP;
   Sret].

(** The compiler chooses the registers of the operands of [user_entry] and [boot]. *)
Definition user_entry (r1 r2 : reg) : list instr :=
  [Li r1 USER_BASE;
   Li r2 (Z.shiftl 1 5);
   Csrw Sepc r1;
   Csrw Sstatus r2;
   Sret].

Definition boot (r1 : reg) (stack_top kernel_main : Z) : list instr :=
  [Li r1 stack_top;
   Mv SP r1;
   Csrw Sscratch SP;
   JumpTo kernel_main].

(** The part of [kernel_bootstrap] that makes the first trap possible. *)
Definition trap_init (r1 : reg) (kernel_entry_addr : Z) : list instr :=
  [Li r1 kernel_entry_addr;
   Csrw Stvec r1;
   Mv r1 SP;
   Csrw Sscratch r1].

(** ** The switch *)

Definition switch_context : list instr :=
  [Addi SP SP (-13 * 4);
   Sw RA (0 * 4) SP;
   Sw S0 (1 * 4) SP;
   Sw S1 (2 * 4) SP;
   Sw S2 (3 * 4) SP;
   Sw S3 (4 * 4) SP;
   Sw S4 (5 * 4) SP;
   Sw S5 (6 * 4) SP;
   Sw S6 (7 * 4) SP;
   Sw S7 (8 * 4) SP;
   Sw S8 (9 * 4) SP;
   Sw S9 (10 * 4) SP;
   Sw S10 (11 * 4) SP;
   Sw S11 (12 * 4) SP;
   Csrr T0 Sstatus;
   Addi SP SP (-4);
   Sw T0 0 SP;
   Sw SP 0 A0;
   Lw SP 0 A1;
   Lw T0 0 SP;
   Addi SP SP 4;
   Csrw Sstatus T0;
   Lw RA (0 * 4) SP;
   Lw S0 (1 * 4) SP;
   Lw S1 (2 * 4) SP;
   Lw S2 (3 * 4) SP;
   Lw S3 (4 * 4) SP;
   Lw S4 (5 * 4) SP;
   Lw S5 (6 * 4) SP;
   Lw S6 (7 * 4) SP;
   Lw S7 (8 * 4) SP;
   Lw S8 (9 * 4) SP;
   Lw S9 (10 * 4) SP;
   Lw S10 (11 * 4) SP;
   Lw S11 (12 * 4) SP;
   Addi SP SP (13 * 4);
   Ret].

(** The assembly of [yield] before the switch: the address space of the next process
    and the top of its kernel stack, in registers that the compiler chooses. *)
Definition yield_asm (r1 r2 : reg) : list instr :=
  [Sfence; Csrw Satp r1; Sfence; Csrw Sscratch r2].

(** [SATP_SV32 | page_table / PAGE_SIZE]. *)
Definition SATP_SV32 : Z := Z.shiftl 1 31.
Definition satp_of (page_table : Z) : Z := Z.lor SATP_SV32 (page_table / PAGE_SIZE).

Definition fork_child_trap_return : list instr :=
  [Csrw Sepc S11;
   Mv GP S0;
   Lw RA (4 * 0) GP;
   Lw TP (4 * 2) GP;
   Lw T0 (4 * 3) GP;
   Lw T1 (4 * 4) GP;
   Lw T2 (4 * 5) GP;
   Lw T3 (4 * 6) GP;
   Lw T4 (4 * 7) GP;
   Lw T5 (4 * 8) GP;
   Lw T6 (4 * 9) GP;
   Lw A0 (4 * 10) GP;
   Lw A1 (4 * 11) GP;
   Lw A2 (4 * 12) GP;
   Lw A3 (4 * 13) GP;
   Lw A4 (4 * 14) GP;
   Lw A5 (4 * 15) GP;
   Lw A6 (4 * 16) GP;
   Lw A7 (4 * 17) GP;
   Lw S0 (4 * 18) GP;
   Lw S1 (4 * 19) GP;
   Lw S2 (4 * 20) GP;
   Lw S3 (4 * 21) GP;
   Lw S4 (4 * 22) GP;
   Lw S5 (4 * 23) GP;
   Lw S6 (4 * 24) GP;
   Lw S7 (4 * 25) GP;
   Lw S8 (4 * 26) GP;
   Lw S9 (4 * 27) GP;
   Lw S10 (4 * 28) GP;
   Lw S11 (4 * 29) GP;
   Lw SP (4 * 30) GP;
   Lw GP (4 * 1) GP;
   Sret].

(** ** The first stacks *)

(** Where the fields [sp] and [stack] of [struct process] are, and its size; [procs] is
    the address of the table. *)
Definition PROC_SP_OFF : Z := 40.
Definition PROC_STACK_OFF : Z := 476.
Definition PROC_BYTES : Z := PROC_STACK_OFF + 8192.

Definition proc_sp (procs : Z) (i : fin 64) : Z := procs + PROC_BYTES * Z.of_nat i + PROC_SP_OFF.
Definition proc_stack (procs : Z) (i : fin 64) : Z :=
  procs + PROC_BYTES * Z.of_nat i + PROC_STACK_OFF.

(** [*--sp = v] for the values of the list, in turn. *)
Fixpoint push_words (l : list Z) (sp : Z) (w : memory) : Z * memory :=
  match l with
  | [] => (sp, w)
  | v :: l => push_words l (u32 (sp - 4)) (store_word w (u32 (sp - 4)) v)
  end.

(** The first stack of [create_process], below the top [top] of the kernel stack: what
    goes to [proc->sp], and the words. *)
Definition create_stack (user_entry_addr top : Z) (w : memory) : Z * memory :=
  push_words [0; 0; 0; 0; 0; 0; 0; 0; 0; 0; 0; 0; user_entry_addr; 0] top w.

(** [*p = *q] for structures of [n] words. *)
Fixpoint copy_words (n : nat) (p q : Z) (w : memory) : memory :=
  match n with
  | O => w
  | S n => copy_words n (p + 4) (q + 4) (store_word w p (load_word w q))
  end.

(** The words [l] from the address [p] on. *)
Fixpoint store_words (p : Z) (l : list Z) (w : memory) : memory :=
  match l with
  | [] => w
  | v :: l => store_words (p + 4) l (store_word w p v)
  end.

(** The first stack of [process_fork]: a copy of the frame of the parent, at
    [parent_tf], with 0 in [a0], and under it what [switch_context] loads. *)
Definition fork_stack (fork_child_trap_return_addr top parent_tf sstatus sepc : Z) (w : memory)
  : Z * memory :=
  let child_tf := top - FRAME_BYTES in
  let w := copy_words 31 child_tf parent_tf w in
  let w := store_word w (child_tf + frame_off A0) 0 in
  let ksp := child_tf - 14 * 4 in
  (ksp, store_words ksp
          [sstatus; fork_child_trap_return_addr; child_tf; 0; 0; 0; 0; 0; 0; 0; 0; 0; 0;
           u32 (sepc + 4)] w).

(** The routines a first stack returns to. *)
Definition code_at (user_entry_addr fork_child_trap_return_addr : Z) (r1 r2 : reg) (a : Z)
  : option (list instr) :=
  if a =? user_entry_addr then Some (user_entry r1 r2)
  else if a =? fork_child_trap_return_addr then Some fork_child_trap_return
  else None.
