(* ===== verification/AsmSpec.v ===== *)
(** * Traps, switches and first runs

    What the assembly of [Asm] does to a process: a trap comes back with the registers
    of the frame, a switch resumes a process with what it had when it was switched
    away from, and a new process first runs where [create_process] or [process_fork]
    put it.  A routine that stores or loads a list of registers is run by two lemmas,
    [run_stores] and [run_loads]. *)
From Stdlib Require Import ZArith Lia ZifyBool.
From stdpp Require Import base tactics list numbers option functions gmap.
From S2P Require Import Prelude PageTable PageTableSpec Asm.
#[local] Open Scope Z_scope.

(** A value of 32 bits. *)
Definition word (z : Z) : Prop := 0 ≤ z < 4294967296.

Record machine_ok (m : machine) : Prop := {
  mo_regs r : word (regs m r);
  mo_csrs c : word (csrs m c);
  mo_pc : word (pc m)
}.

(** ** Runs of stores and of loads *)

Definition stores (b : reg) (off : reg → Z) (l : list reg) : list instr :=
  map (λ r, Sw r (off r) b) l.
Definition loads (b : reg) (off : reg → Z) (l : list reg) : list instr :=
  map (λ r, Lw r (off r) b) l.
Definition set_regs (f : reg → Z) (m : machine) : machine :=
  Machine f (csrs m) (priv m) (pc m) (words m).

(** The words at [p + off r] hold [f r], for the registers of the list. *)
Definition held_at (w : memory) (p : Z) (off : reg → Z) (f : reg → Z) (l : list reg) : Prop :=
  ∀ r, r ∈ l → load_word w (p + off r) = f r.

(** Offsets of different registers are different words between [0] and [n]. *)
Record layout (off : reg → Z) (l : list reg) (n : Z) : Prop := {
  lay_range r : r ∈ l → 0 ≤ off r ∧ off r + 4 ≤ n;
  lay_apart r r' : r ∈ l → r' ∈ l → r ≠ r' → off r + 4 ≤ off r' ∨ off r' + 4 ≤ off r
}.

Lemma held_at_ext w w' p off f l n :
  layout off l n → (∀ x, p ≤ x < p + n → w' x = w x) →
  held_at w p off f l → held_at w' p off f l.
Proof.
  intros Hl Hx Hw r Hr. rewrite <-(Hw r Hr). apply load_word_same.
  intros x ?. apply Hx. destruct (lay_range _ _ _ Hl r Hr). lia.
Qed.

Section runs.
Context (h : machine → option machine).

Lemma run_stores_gen b off l n rest m :
  layout off l n → 0 ≤ regs m b → regs m b + n ≤ 4294967296 → ∀ l', l' ⊆ l →
  ∃ w, run h None (stores b off l' ++ rest) m = run h None rest (set_words w m) ∧
    (∀ r, r ∈ l → (r ∈ l' ∨ load_word (words m) (regs m b + off r) = u32 (regs m r)) →
       load_word w (regs m b + off r) = u32 (regs m r)) ∧
    (∀ x, ¬ (regs m b ≤ x < regs m b + n) → w x = words m x).
Proof.
  intros Hl H0 Hn l'. revert m H0 Hn. induction l' as [|r l' IH]; intros m H0 Hn Hsub.
  - exists (words m). split; [by destruct m|]. split; [|done].
    intros r _ [Hr|?]; [by apply elem_of_nil in Hr|done].
  - assert (r ∈ l) as Hr by (apply Hsub, list_elem_of_here).
    destruct (lay_range _ _ _ Hl r Hr) as [??].
    set (m1 := set_words (store_word (words m) (regs m b + off r) (regs m r)) m).
    destruct (IH m1) as (w & Hrun & Hin & Hout); [done..| |].
    { intros r' ?. apply Hsub. by apply list_elem_of_further. }
    exists w. split; [|split].
    + etransitivity; [|exact Hrun]. subst m1. simpl. rewrite u32_small by lia. done.
    + intros r' Hr' Hor. apply (Hin r' Hr').
      destruct (decide (r' ∈ l')); [by left|right].
      destruct (decide (r' = r)) as [->|Hne]; [apply load_store_word|].
      destruct Hor as [Hor|Hor]; [by apply elem_of_cons in Hor as [|]|].
      subst m1. cbn [words regs set_words]. rewrite load_store_word_ne; [done|].
      destruct (lay_apart _ _ _ Hl r' r Hr' Hr Hne); lia.
    + intros x Hx. rewrite (Hout x Hx). subst m1. simpl. apply store_word_other. lia.
Qed.

(** Storing a list of registers leaves them in the words. *)
Lemma run_stores b off l n rest m :
  layout off l n → 0 ≤ regs m b → regs m b + n ≤ 4294967296 → (∀ r, word (regs m r)) →
  ∃ w, run h None (stores b off l ++ rest) m = run h None rest (set_words w m) ∧
    held_at w (regs m b) off (regs m) l ∧
    (∀ x, ¬ (regs m b ≤ x < regs m b + n) → w x = words m x).
Proof.
  intros Hl H0 Hn Hm. destruct (run_stores_gen b off l n rest m Hl H0 Hn l)
    as (w & Hrun & Hin & Hout); [done|].
  exists w. split; [done|split; [|done]]. intros r Hr.
  rewrite (Hin r Hr) by by left. apply u32_small, Hm.
Qed.

Lemma run_loads_gen b off l n rest m :
  layout off l n → 0 ≤ regs m b → regs m b + n ≤ 4294967296 → ∀ l', l' ⊆ l → b ∉ l' →
  ∃ f, run h None (loads b off l' ++ rest) m = run h None rest (set_regs f m) ∧
    ∀ r, f r = if decide (r ∈ l') then load_word (words m) (regs m b + off r) else regs m r.
Proof.
  intros Hl H0 Hn l'. revert m H0 Hn. induction l' as [|r l' IH]; intros m H0 Hn Hsub Hb.
  - exists (regs m). split; [by destruct m|]. intros r. case_decide as Hr; [|done].
    by apply elem_of_nil in Hr.
  - apply not_elem_of_cons in Hb as [Hbr Hb].
    assert (r ∈ l) as Hr by (apply Hsub, list_elem_of_here).
    destruct (lay_range _ _ _ Hl r Hr) as [??].
    set (m1 := set_reg r (load_word (words m) (regs m b + off r)) m).
    assert (Hm1 : regs m1 b = regs m b) by (subst m1; simpl; by apply fn_lookup_insert_ne).
    destruct (IH m1) as (f & Hrun & Hf); [by rewrite Hm1..| |done|].
    { intros r' ?. apply Hsub. by apply list_elem_of_further. }
    exists f. split.
    + etransitivity; [|exact Hrun]. subst m1. simpl. rewrite u32_small by lia. done.
    + intros r'. rewrite (Hf r'), Hm1. subst m1. cbn [words regs set_reg].
      destruct (decide (r' ∈ l')) as [Hin|Hin].
      * rewrite decide_True; [done|]. by apply list_elem_of_further.
      * destruct (decide (r' = r)) as [->|Hne].
        -- rewrite fn_lookup_insert, decide_True; [done|]. apply list_elem_of_here.
        -- rewrite fn_lookup_insert_ne, decide_False; [done| |done].
           intros [|]%elem_of_cons; done.
Qed.

(** Loading a list of registers takes them from the words. *)
Lemma run_loads b off l n rest m :
  layout off l n → b ∉ l → 0 ≤ regs m b → regs m b + n ≤ 4294967296 →
  ∃ f, run h None (loads b off l ++ rest) m = run h None rest (set_regs f m) ∧
    ∀ r, f r = if decide (r ∈ l) then load_word (words m) (regs m b + off r) else regs m r.
Proof. intros Hl Hb H0 Hn. by apply (run_loads_gen b off l n). Qed.
End runs.

(** ** The trap frame *)

(** The registers of the frame but [sp], which is stored on its own. *)
Definition frame_regs : list reg :=
  [RA; GP; TP; T0; T1; T2; T3; T4; T5; T6; A0; A1; A2; A3; A4; A5; A6; A7;
   S0; S1; S2; S3; S4; S5; S6; S7; S8; S9; S10; S11].
Definition all_regs : list reg := SP :: frame_regs.

Lemma all_regs_full r : r ∈ all_regs.
Proof. apply (bool_decide_unpack (r ∈ all_regs)). by destruct r; vm_compute. Qed.

Lemma sp_not_in_frame : SP ∉ frame_regs.
Proof. apply (bool_decide_unpack (SP ∉ frame_regs)). by vm_compute. Qed.

Lemma frame_regs_full r : r ≠ SP → r ∈ frame_regs.
Proof. pose proof (all_regs_full r) as Hr. by apply elem_of_cons in Hr as [->|Hr]. Qed.

Lemma frame_off_range r : 0 ≤ frame_off r ≤ 120.
Proof. destruct r; cbv; split; discriminate. Qed.

Lemma frame_off_apart r r' : r ≠ r' → frame_off r + 4 ≤ frame_off r' ∨ frame_off r' + 4 ≤ frame_off r.
Proof.
  intros Hne. assert (frame_off r ≠ frame_off r').
  { intros He. apply Hne. clear Hne. by destruct r, r'. }
  assert (frame_off r mod 4 = 0 ∧ frame_off r' mod 4 = 0) by (by destruct r, r').
  zdiv.
Qed.

Lemma frame_layout l : layout frame_off l 124.
Proof.
  split; [intros r _; pose proof (frame_off_range r); lia|]. intros. by apply frame_off_apart.
Qed.

(** The frame at [p] holds the registers [f]. *)
Definition framed (w : memory) (p : Z) (f : reg → Z) : Prop :=
  ∀ r, load_word w (p + frame_off r) = f r.

(** ** The bits of [sstatus] *)

Lemma put_bit_eq n b s : 0 ≤ n → Z.testbit (put_bit n b s) n = b.
Proof.
  intros. unfold put_bit. destruct b; [by rewrite Z.setbit_eq|by rewrite Z.clearbit_eq].
Qed.

Lemma put_bit_ne n k b s : 0 ≤ n → 0 ≤ k → n ≠ k → Z.testbit (put_bit n b s) k = Z.testbit s k.
Proof.
  intros. unfold put_bit. destruct b; [by rewrite Z.setbit_neq|by rewrite Z.clearbit_neq].
Qed.

Lemma land_bit s n : 0 ≤ n → Z.land s (2 ^ n) = if Z.testbit s n then 2 ^ n else 0.
Proof.
  intros Hn. apply Z.bits_inj'. intros k Hk. rewrite Z.land_spec, Z.pow2_bits_eqb by done.
  destruct (Z.eqb_spec n k) as [->|Hne].
  - destruct (Z.testbit s k); [by rewrite Z.pow2_bits_true|by rewrite Z.bits_0].
  - rewrite andb_false_r. destruct (Z.testbit s n); [by rewrite Z.pow2_bits_false|by rewrite Z.bits_0].
Qed.

(** A value whose bits from 32 on are those of none. *)
Lemma word_bits z : (∀ n, 32 ≤ n → Z.testbit z n = false) → word z.
Proof.
  intros Hz. assert (He : z = z mod 2 ^ 32).
  { apply Z.bits_inj'. intros n Hn. destruct (decide (n < 32)).
    - by rewrite Z.mod_pow2_bits_low by lia.
    - rewrite Z.mod_pow2_bits_high, Hz by lia. done. }
  rewrite He. unfold word. apply Z.mod_pos_bound. lia.
Qed.

Lemma bits_word z n : word z → 32 ≤ n → Z.testbit z n = false.
Proof.
  intros Hz Hn. rewrite <-(Z.mod_small z (2 ^ 32)) by exact Hz. apply Z.mod_pow2_bits_high. lia.
Qed.

Lemma put_bit_word n b s : 0 ≤ n < 32 → word s → word (put_bit n b s).
Proof.
  intros Hn Hs. apply word_bits. intros k Hk. rewrite put_bit_ne by lia. by apply bits_word.
Qed.

Lemma ldiff_word a b : word a → word (Z.ldiff a b).
Proof.
  intros Ha. apply word_bits. intros n Hn. by rewrite Z.ldiff_spec, (bits_word a n) by done.
Qed.

(** What a trap leaves in [sstatus]: the privilege and the interrupt enable of before. *)
Definition trapped_status (m : machine) (s : Z) : Prop :=
  (machine_ok m → word s) ∧
  Z.testbit s SPP = (match priv m with User => false | Supervisor => true end) ∧
  Z.testbit s SPIE = Z.testbit (csrs m Sstatus) SIE ∧
  Z.testbit s SIE = false.

Lemma take_trap_status stvec m : trapped_status m (csrs (take_trap stvec m) Sstatus).
Proof.
  unfold trapped_status, take_trap. cbn [csrs]. rewrite fn_lookup_insert.
  unfold SPP, SPIE, SIE. split; [|split; [|split]].
  - intros Hm. do 3 (apply put_bit_word; [done|]). apply (mo_csrs _ Hm).
  - rewrite put_bit_eq by done. by destruct (priv m).
  - rewrite !put_bit_ne by done. by rewrite put_bit_eq.
  - rewrite put_bit_ne by done. by rewrite put_bit_eq.
Qed.

(** ** Into the kernel *)

(** Looks the registers up after a run of updates. *)
Ltac machine_simpl :=
  cbn [set_reg set_csr set_pc set_words set_regs regs csrs priv pc words];
  repeat first [rewrite fn_lookup_insert | rewrite fn_lookup_insert_ne by done].

(** The stack pointer the handler starts from: the top of the kernel stack for a trap
    of user mode, the stack in use for one of the kernel. *)
Definition kernel_sp (m : machine) : Z :=
  match priv m with User => csrs m Sscratch | Supervisor => regs m SP end.

(** [kernel_entry] has looked at [sstatus] in [t0] before it stores the registers. *)
Definition trap_regs (m : machine) : reg → Z :=
  <[T0 := match priv m with User => 0 | Supervisor => 256 end]> (regs m).

Definition entry_mid : list instr :=
  [Csrr A0 Sscratch; Sw A0 (4 * 30) SP; Addi A0 SP (4 * 31); Csrw Sscratch A0; Mv A0 SP; Call].
Definition exit_tail : list instr :=
  loads SP frame_off frame_regs ++ [Lw SP (4 * 30) SP; Sret].

Record at_stores (m mh : machine) : Prop := {
  as_sp : regs mh SP = kernel_sp m - 124;
  as_regs r : r ≠ SP → regs mh r = trap_regs m r;
  as_scratch : csrs mh Sscratch = regs m SP;
  as_sepc : csrs mh Sepc = pc m;
  as_status : trapped_status m (csrs mh Sstatus);
  as_priv : priv mh = Supervisor;
  as_words : words mh = words m
}.

Section traps.
Context (h : machine → option machine).

Lemma run_exec i p m :
  match i with Bnez _ _ | J _ | Call | JumpTo _ | Ret | Sret => False | _ => True end →
  run h None (i :: p) m = run h None p (exec i m).
Proof. by destruct i. Qed.

Lemma run_bnez_0 r l p m : regs m r = 0 → run h None (Bnez r l :: p) m = run h None p m.
Proof. intros Hr. simpl. by rewrite Hr. Qed.

Lemma run_bnez r l p m : regs m r ≠ 0 → run h None (Bnez r l :: p) m = run h (Some l) p m.
Proof. intros Hr. simpl. by rewrite (proj2 (Z.eqb_neq _ _) Hr). Qed.

Lemma kernel_entry_split :
  kernel_entry =
    [Csrr T0 Sstatus; Andi T0 T0 0x100; Bnez T0 1; Csrrw SP Sscratch SP; J 2; Lbl 1;
     Csrw Sscratch SP; Lbl 2; Csrc Sstatus 2; Addi SP SP (-4 * 31)] ++
    stores SP frame_off frame_regs ++ entry_mid ++ exit_tail.
Proof. reflexivity. Qed.

(** Both ways to the stores: the stack of the process, or the one in use. *)
Lemma entry_head stvec m :
  124 ≤ kernel_sp m < 4294967296 →
  ∃ mh, run h None kernel_entry (take_trap stvec m) =
        run h None (stores SP frame_off frame_regs ++ entry_mid ++ exit_tail) mh ∧
    at_stores m mh.
Proof.
  intros HK. pose proof (take_trap_status stvec m) as Hst.
  set (mt := take_trap stvec m) in *.
  assert (Hw : words mt = words m) by done. assert (Hr : regs mt = regs m) by done.
  assert (Hc : csrs mt Sepc = pc m) by (subst mt; unfold take_trap; cbn [csrs]; by machine_simpl).
  assert (Hs : csrs mt Sscratch = csrs m Sscratch) by done.
  assert (Hp : priv mt = Supervisor) by done. clearbody mt.
  assert (Hcl : trapped_status m (Z.ldiff (csrs mt Sstatus) 2)).
  { destruct Hst as (Hwd&?&?&?). unfold trapped_status, SPP, SPIE, SIE in *. rewrite !Z.ldiff_spec.
    split; [intros Hok; by apply ldiff_word, Hwd|].
    by repeat split; simpl; rewrite ?andb_true_r, ?andb_false_r. }
  destruct Hst as (_&Hspp&_&_). rewrite kernel_entry_split. generalize (stores SP frame_off frame_regs ++ entry_mid ++ exit_tail) as rest.
  intros rest. cbn [app]. rewrite !run_exec by done.
  assert (Hland : Z.land (csrs mt Sstatus) 256 = trap_regs m T0).
  { change 256 with (2 ^ 8). rewrite land_bit by done. unfold SPP, trap_regs in *.
    rewrite Hspp, fn_lookup_insert. by destruct (priv m). }
  assert (Hreg : ∀ r v, r ≠ SP → <[T0 := trap_regs m T0]> (<[T0 := v]> (regs mt)) r = trap_regs m r).
  { intros r v ?. unfold trap_regs. destruct (decide (r = T0)) as [->|]; machine_simpl; [done|by rewrite Hr]. }
  assert (HT0 : regs (exec (Andi T0 T0 256) (exec (Csrr T0 Sstatus) mt)) T0 = trap_regs m T0)
    by (cbn [exec]; by machine_simpl).
  unfold kernel_sp in HK. destruct (priv m) eqn:Hm.
  - rewrite run_bnez_0 by (rewrite HT0; unfold trap_regs; by rewrite Hm, fn_lookup_insert).
    rewrite run_exec by done. cbn [run Nat.eqb].
    eexists. split; [reflexivity|]. split; unfold kernel_sp; rewrite ?Hm; cbn [exec]; machine_simpl;
      [rewrite Hs; apply u32_small; lia| |by rewrite ?Hr..].
    intros r ?. machine_simpl. rewrite Hland. by apply Hreg.
  - rewrite run_bnez by (rewrite HT0; unfold trap_regs; by rewrite Hm, fn_lookup_insert).
    cbn [run Nat.eqb].
    eexists. split; [reflexivity|]. split; unfold kernel_sp; rewrite ?Hm; cbn [exec]; machine_simpl;
      [rewrite Hr; apply u32_small; lia| |by rewrite ?Hr..].
    intros r ?. machine_simpl. rewrite Hland. by apply Hreg.
Qed.

(** What the handler finds: a frame that holds the registers, at [a0], and [sscratch]
    ready for the next trap. *)
Record entered (m m1 : machine) : Prop := {
  en_sp : regs m1 SP = kernel_sp m - 124;
  en_a0 : regs m1 A0 = kernel_sp m - 124;
  en_scratch : csrs m1 Sscratch = kernel_sp m;
  en_sepc : csrs m1 Sepc = pc m;
  en_status : trapped_status m (csrs m1 Sstatus);
  en_priv : priv m1 = Supervisor;
  en_frame : framed (words m1) (kernel_sp m - 124) (trap_regs m);
  en_words x : ¬ (kernel_sp m - 124 ≤ x < kernel_sp m) → words m1 x = words m x
}.

Lemma trap_regs_word m r : machine_ok m → word (trap_regs m r).
Proof.
  intros Hm. unfold trap_regs. destruct (decide (r = T0)) as [->|]; machine_simpl.
  - by destruct (priv m).
  - apply (mo_regs _ Hm).
Qed.

Lemma trap_enters stvec m :
  machine_ok m → 124 ≤ kernel_sp m < 4294967296 →
  ∃ m1, run h None kernel_entry (take_trap stvec m) = (let! m2 := h m1 in run h None exit_tail m2) ∧
    entered m m1.
Proof.
  intros Hm HK. destruct (entry_head stvec m HK) as (mh & -> & [Hsp Hr Hsc Hse Hst Hp Hw]).
  destruct (run_stores h SP frame_off frame_regs 124 (entry_mid ++ exit_tail) mh)
    as (w & -> & Hheld & Hout); [apply frame_layout|lia|lia| |].
  { intros r. destruct (decide (r = SP)) as [->|]; [unfold word; lia|]. rewrite Hr by done.
    by apply trap_regs_word. }
  unfold entry_mid. cbn [app]. rewrite !run_exec by done. cbn [run].
  eexists. split; [reflexivity|]. cbn [exec].
  rewrite Hsp in Hheld, Hout.
  split; machine_simpl; try done.
  - rewrite Hsp, u32_small by lia. lia.
  - rewrite Hsp, Hsc, (u32_small (_ + 4 * 30)) by lia. intros r. destruct (decide (r = SP)) as [->|].
    + change (frame_off SP) with (4 * 30). rewrite load_store_word. unfold trap_regs. machine_simpl.
      apply u32_small, (mo_regs _ Hm).
    + rewrite load_store_word_ne, (Hheld r), Hr; [done..| |].
      * by apply frame_regs_full.
      * destruct (frame_off_apart SP r) as [Hap|Hap]; [done|..]; change (frame_off SP) with (4 * 30) in Hap; lia.
  - intros x Hx. rewrite Hsp, u32_small by lia. rewrite store_word_other by lia.
    rewrite Hout by lia. by rewrite Hw.
Qed.

(** ** Back from the kernel *)

Lemma trap_exits m2 :
  0 ≤ regs m2 SP → regs m2 SP + 124 ≤ 4294967296 →
  ∃ f, run h None exit_tail m2 = Some (sret (set_regs f m2)) ∧
    framed (words m2) (regs m2 SP) f.
Proof.
  intros H0 Hn. unfold exit_tail.
  destruct (run_loads h SP frame_off frame_regs 124 [Lw SP (4 * 30) SP; Sret] m2)
    as (f & -> & Hf); [apply frame_layout|apply sp_not_in_frame|done..|].
  rewrite run_exec by done. cbn [run exec]. eexists. split; [reflexivity|].
  assert (HfSP : f SP = regs m2 SP).
  { rewrite (Hf SP), decide_False; [done|apply sp_not_in_frame]. }
  intros r. destruct (decide (r = SP)) as [->|]; machine_simpl.
  - by rewrite HfSP, u32_small by lia.
  - rewrite (Hf r), decide_True; [done|]. by apply frame_regs_full.
Qed.
End traps.

(** ** A trap and its return *)

(** What [kernel_entry] relies on in [handle_trap]: the stack pointer is a callee-saved
    register, and of the frame the C code writes [a0] only. *)
Record handled (m1 m2 : machine) : Prop := {
  hd_sp : regs m2 SP = regs m1 SP;
  hd_frame r : r ≠ A0 → load_word (words m2) (regs m1 A0 + frame_off r) =
                        load_word (words m1) (regs m1 A0 + frame_off r);
  hd_status n : n = SPP ∨ n = SPIE → Z.testbit (csrs m2 Sstatus) n = Z.testbit (csrs m1 Sstatus) n
}.

Class TrapHandler (h : machine → option machine) :=
  handler_handled m1 m2 : h m1 = Some m2 → handled m1 m2.

(** The code that was interrupted goes on where the handler says, with its registers
    but [t0], and with what the handler left in [a0]. *)
Record returned (m m2 m3 : machine) : Prop := {
  rt_priv : priv m3 = priv m;
  rt_pc : pc m3 = csrs m2 Sepc;
  rt_regs r : r ≠ T0 → r ≠ A0 → regs m3 r = regs m r;
  rt_t0 : regs m3 T0 = match priv m with User => 0 | Supervisor => 256 end;
  rt_a0 : regs m3 A0 = load_word (words m2) (kernel_sp m - 124 + frame_off A0);
  rt_sie : Z.testbit (csrs m3 Sstatus) SIE = Z.testbit (csrs m Sstatus) SIE;
  rt_scratch : csrs m3 Sscratch = csrs m2 Sscratch;
  rt_words : words m3 = words m2
}.

Lemma sret_priv m : priv (sret m) = if Z.testbit (csrs m Sstatus) SPP then Supervisor else User.
Proof. done. Qed.

Lemma sret_sie m : Z.testbit (csrs (sret m) Sstatus) SIE = Z.testbit (csrs m Sstatus) SPIE.
Proof.
  unfold sret. machine_simpl. unfold SIE, SPIE, SPP. rewrite !put_bit_ne by done. by apply put_bit_eq.
Qed.

Lemma handled_returned (h : machine → option machine) m m1 m2 :
  124 ≤ kernel_sp m < 4294967296 → entered m m1 → handled m1 m2 →
  ∃ m3, run h None exit_tail m2 = Some m3 ∧ returned m m2 m3.
Proof.
  intros HK He [Hsp Hfr Hst]. pose proof (en_sp _ _ He) as Hsp1. pose proof (en_a0 _ _ He) as Ha1.
  destruct (trap_exits h m2) as (f & -> & Hf); [lia..|].
  exists (sret (set_regs f m2)). split; [done|].
  destruct (en_status _ _ He) as (_ & Hspp & Hspie & _).
  assert (Hreg : ∀ r, r ≠ A0 → f r = trap_regs m r).
  { intros r Hr. rewrite <-(Hf r), Hsp, Hsp1, <-Ha1, (Hfr r Hr), Ha1. apply (en_frame _ _ He). }
  split.
  - rewrite sret_priv. cbn [set_regs csrs]. rewrite (Hst SPP), Hspp by by left. by destruct (priv m).
  - done.
  - intros r ??. change (f r = regs m r). rewrite Hreg by done. unfold trap_regs. by machine_simpl.
  - change (f T0 = match priv m with User => 0 | Supervisor => 256 end). rewrite Hreg by done.
    unfold trap_regs. by machine_simpl.
  - change (f A0 = load_word (words m2) (kernel_sp m - 124 + frame_off A0)).
    by rewrite <-(Hf A0), Hsp, Hsp1.
  - rewrite sret_sie. cbn [set_regs csrs]. by rewrite (Hst SPIE), Hspie by by right.
  - unfold sret. by machine_simpl.
  - done.
Qed.

(** C16. A trap from user mode or from the kernel finds the registers in a frame on the
    kernel stack, runs the handler with interrupts off and a stack pointer under the
    frame, and goes back to the privilege, the interrupt enable and the registers of
    before, at the address the handler left in [sepc] and with the result it stored in
    the frame in [a0].  The register [t0] alone does not come back: the code has
    overwritten it before it stores it. *)
Theorem trap_returns (h : machine → option machine) `{!TrapHandler h} (stvec : Z) (m : machine) :
  machine_ok m → 124 ≤ kernel_sp m < 4294967296 →
  ∃ m1, entered m m1 ∧
    match h m1 with
    | None => run h None kernel_entry (take_trap stvec m) = None
    | Some m2 => ∃ m3, run h None kernel_entry (take_trap stvec m) = Some m3 ∧ returned m m2 m3
    end.
Proof.
  intros Hm HK. destruct (trap_enters h stvec m Hm HK) as (m1 & Hrun & He).
  exists m1. split; [done|]. rewrite Hrun. destruct (h m1) as [m2|] eqn:Hh; [|done].
  apply (handled_returned h m m1 m2 HK He). by apply handler_handled.
Qed.

(** ** The first instructions

    From [boot] to the trap registers of [kernel_bootstrap]: a trap of the kernel, and
    one of user mode if there were one, has the start-up stack. *)
Lemma boot_ready (h : machine → option machine) (r1 r2 : reg) (stack_top kernel_main kernel_entry_addr : Z)
    (m : machine) :
  r2 ≠ SP → word stack_top → word kernel_entry_addr →
  ∃ m1, run h None (boot r1 stack_top kernel_main) m = Some m1 ∧ pc m1 = kernel_main ∧
    let m2 := foldl (λ m i, exec i m) m1 (trap_init r2 kernel_entry_addr) in
    regs m2 SP = stack_top ∧ csrs m2 Sscratch = stack_top ∧ csrs m2 Stvec = kernel_entry_addr.
Proof.
  intros Hr Hs Hk. unfold boot. do 3 rewrite run_exec by done. cbn [run].
  eexists. split; [reflexivity|]. split; [done|]. cbn [trap_init foldl exec]. machine_simpl.
  by rewrite !u32_small.
Qed.
