(* ===== verification/Switch.v ===== *)
(** * The context switch and the first run of a process

    [switch_context] of [kernel/proc/process.c] as the switch of coroutines: the stack
    of every process that does not run holds a context, and a switch exchanges the
    context of the hart with one of them.  The stacks [create_process] and
    [process_fork] prepare hold the contexts their first run starts from. *)
From Stdlib Require Import ZArith Lia ZifyBool.
From stdpp Require Import base tactics list numbers option functions fin finite gmap relations.
From S2P Require Import Prelude PageTable PageTableSpec Asm AsmSpec.
#[local] Open Scope Z_scope.

(** ** Contexts *)

Definition saved_regs : list reg := [RA; S0; S1; S2; S3; S4; S5; S6; S7; S8; S9; S10; S11].

Definition saved_off (r : reg) : Z :=
  4 * match r with
      | S0 => 1 | S1 => 2 | S2 => 3 | S3 => 4 | S4 => 5 | S5 => 6 | S6 => 7 | S7 => 8
      | S8 => 9 | S9 => 10 | S10 => 11 | S11 => 12 | _ => 0
      end.

Lemma saved_regs_iff r :
  r ∈ saved_regs ↔ match r with RA | S0 | S1 | S2 | S3 | S4 | S5 | S6 | S7 | S8 | S9 | S10 | S11 => True
                   | _ => False end.
Proof.
  destruct r; split; try done; intros;
    first [apply (bool_decide_unpack (_ ∈ saved_regs)); by vm_compute
          |exfalso; revert H; apply (bool_decide_unpack (_ ∉ saved_regs)); by vm_compute].
Qed.

Lemma saved_layout : layout saved_off saved_regs 52.
Proof.
  split.
  - intros r _. destruct r; cbv; split; discriminate.
  - intros r r' Hr%saved_regs_iff Hr'%saved_regs_iff Hne.
    assert (saved_off r ≠ saved_off r') by (intros He; apply Hne; clear Hne; by destruct r, r').
    assert (saved_off r mod 4 = 0 ∧ saved_off r' mod 4 = 0) by (clear; by destruct r, r').
    zdiv.
Qed.

(** What a switch keeps of the hart: contexts are the same when they agree on the
    stack pointer, [sstatus] and the callee-saved registers. *)
Record context := Ctx { c_sp : Z; c_status : Z; c_regs : reg → Z }.

#[export] Instance context_equiv : Equiv context := λ c d,
  c_sp c = c_sp d ∧ c_status c = c_status d ∧ ∀ r, r ∈ saved_regs → c_regs c r = c_regs d r.

#[export] Instance context_equivalence : Equivalence (≡@{context}).
Proof.
  split.
  - done.
  - intros c d (?&?&Hr). split; [done|split; [done|]]. intros. symmetry. by apply Hr.
  - intros c d e (?&?&Hr) (?&?&Hs). split; [congruence|split; [congruence|]].
    intros r ?. by rewrite Hr, Hs.
Qed.

Definition ctx_of (m : machine) : context := Ctx (regs m SP) (csrs m Sstatus) (regs m).

(** ** The stacks of the processes

    [sp_of i] is the address of [procs[i].sp], [base i] that of [procs[i].stack]. *)
Definition STACK_BYTES : Z := 8192.

Class Stacks (sp_of base : fin 64 → Z) := {
  st_base i : 0 ≤ base i ∧ base i + STACK_BYTES < 4294967296;
  st_sp i : 0 ≤ sp_of i ∧ sp_of i + 4 ≤ 4294967296;
  st_apart i j : i ≠ j → base i + STACK_BYTES ≤ base j ∨ base j + STACK_BYTES ≤ base i;
  st_sp_base i j : sp_of i + 4 ≤ base j ∨ base j + STACK_BYTES ≤ sp_of i;
  st_sp_apart i j : i ≠ j → sp_of i + 4 ≤ sp_of j ∨ sp_of j + 4 ≤ sp_of i
}.

#[export] Instance procs_stacks (procs : Z) :
  TCEq (bool_decide (0 ≤ procs ∧ procs + 64 * PROC_BYTES < 4294967296)) true →
  Stacks (proc_sp procs) (proc_stack procs).
Proof.
  intros Hp%TCEq_eq%bool_decide_eq_true_1.
  assert (Hi : ∀ i : fin 64, (i < 64)%nat) by (intros i; apply fin_to_nat_lt).
  assert (Hne : ∀ i j : fin 64, i ≠ j → fin_to_nat i ≠ fin_to_nat j) by (intros i j ? ?%(inj _); done).
  unfold proc_sp, proc_stack, PROC_BYTES, PROC_STACK_OFF, PROC_SP_OFF in *.
  split; unfold STACK_BYTES.
  - intros i. specialize (Hi i). lia.
  - intros i. specialize (Hi i). lia.
  - intros i j ?%Hne. lia.
  - intros i j. pose proof (Hi i). pose proof (Hi j). lia.
  - intros i j ?%Hne. lia.
Qed.

Section switch.
Context (sp_of base : fin 64 → Z) `{!Stacks sp_of base}.

(** The memory of a process that is switched away from. *)
Definition own (i : fin 64) (x : Z) : Prop :=
  base i ≤ x < base i + STACK_BYTES ∨ sp_of i ≤ x < sp_of i + 4.

Lemma own_apart i j x : i ≠ j → own i x → ¬ own j x.
Proof.
  intros Hij. pose proof (st_apart i j Hij). pose proof (st_sp_base i j).
  pose proof (st_sp_base j i). pose proof (st_sp_apart i j Hij). unfold own. lia.
Qed.

(** The process [i] does not run, and its stack holds the context [c]. *)
Definition suspended (i : fin 64) (c : context) (w : memory) : Prop :=
  let p := load_word w (sp_of i) in
  base i ≤ p ∧ p + 56 ≤ base i + STACK_BYTES ∧ c_sp c = p + 56 ∧
  load_word w p = c_status c ∧ held_at w (p + 4) saved_off (c_regs c) saved_regs.

Lemma suspended_equiv i c d w : c ≡ d → suspended i c w → suspended i d w.
Proof.
  intros (Hsp & Hst & Hr) (?&?&?&?&Hh).
  split; [done|]. split; [done|]. split; [congruence|]. split; [congruence|].
  intros r ?. rewrite <-Hr by done. by apply Hh.
Qed.

#[export] Instance suspended_proper i : Proper ((≡) ==> (=) ==> iff) (suspended i).
Proof. intros c d Hcd w w' <-. split; apply suspended_equiv; [done|by symmetry]. Qed.

Lemma suspended_ext i c w w' :
  (∀ x, own i x → w' x = w x) → suspended i c w → suspended i c w'.
Proof.
  intros Hx (Hlo & Hhi & Hsp & Hst & Hh).
  assert (Hp : load_word w' (sp_of i) = load_word w (sp_of i)).
  { apply load_word_same. intros x ?. apply Hx. by right. }
  unfold suspended. rewrite Hp. split; [done|]. split; [done|]. split; [done|]. split.
  - rewrite <-Hst. apply load_word_same. intros x ?. apply Hx. left. lia.
  - eapply (held_at_ext w); [apply saved_layout| |done]. intros x ?. apply Hx. left. lia.
Qed.

(** ** One switch *)

(** The hart has the context [c]; the registers that a call may change are as the
    code left them. *)
Record resumed (c : context) (m m' : machine) : Prop := {
  rs_ctx : ctx_of m' ≡ c;
  rs_pc : pc m' = c_regs c RA;
  rs_priv : priv m' = priv m;
  rs_csrs k : k ≠ Sstatus → csrs m' k = csrs m k
}.

(** The call of [switch_context] by the process [a], for the process [b]. *)
Record call_switch (a b : fin 64) (m : machine) : Prop := {
  cs_ok : machine_ok m;
  cs_a0 : regs m A0 = sp_of a;
  cs_a1 : regs m A1 = sp_of b;
  cs_ne : a ≠ b;
  cs_sp : base a + 56 ≤ regs m SP ≤ base a + STACK_BYTES
}.

Lemma switch_split :
  switch_context =
    [Addi SP SP (-13 * 4)] ++ stores SP saved_off saved_regs ++
    [Csrr T0 Sstatus; Addi SP SP (-4); Sw T0 0 SP; Sw SP 0 A0; Lw SP 0 A1; Lw T0 0 SP;
     Addi SP SP 4; Csrw Sstatus T0] ++
    loads SP saved_off saved_regs ++ [Addi SP SP (13 * 4); Ret].
Proof. reflexivity. Qed.

Context (h : machine → option machine).

(** The first half: the context of the caller goes to its stack. *)
Record parked (a : fin 64) (m m1 : machine) : Prop := {
  pk_words : suspended a (ctx_of m) (words m1);
  pk_out x : ¬ own a x → words m1 x = words m x;
  pk_regs r : r ≠ SP → r ≠ T0 → regs m1 r = regs m r;
  pk_csrs : csrs m1 = csrs m;
  pk_priv : priv m1 = priv m
}.

Definition restore : list instr :=
  [Lw SP 0 A1; Lw T0 0 SP; Addi SP SP 4; Csrw Sstatus T0] ++
  loads SP saved_off saved_regs ++ [Addi SP SP (13 * 4); Ret].

Lemma saved_regs_ne r : r ∈ saved_regs → r ≠ SP ∧ r ≠ T0 ∧ r ≠ A0 ∧ r ≠ A1.
Proof. intros Hr%saved_regs_iff. by destruct r. Qed.

Lemma switch_parks a b m :
  call_switch a b m →
  ∃ m1, run h None switch_context m = run h None restore m1 ∧ parked a m m1.
Proof.
  intros [Hok Ha0 Ha1 Hab Hsp]. pose proof (st_base a). pose proof (st_sp a) as Hspa.
  pose proof (st_sp_base a a) as Hsb. unfold STACK_BYTES in *.
  rewrite switch_split. cbn [app]. rewrite run_exec by done.
  set (m0 := exec (Addi SP SP (-13 * 4)) m).
  assert (Hsp0 : regs m0 SP = regs m SP - 52).
  { subst m0. cbn [exec]. machine_simpl. rewrite u32_small; lia. }
  assert (Hr0 : ∀ r, r ≠ SP → regs m0 r = regs m r) by (intros r ?; subst m0; cbn [exec]; by machine_simpl).
  destruct (run_stores h SP saved_off saved_regs 52
    ([Csrr T0 Sstatus; Addi SP SP (-4); Sw T0 0 SP; Sw SP 0 A0] ++ restore) m0)
    as (w & Hrun & Hheld & Hout); [apply saved_layout|lia|lia| |].
  { intros r. destruct (decide (r = SP)) as [->|]; [unfold word; lia|].
    rewrite Hr0 by done. apply (mo_regs _ Hok). }
  eexists. split.
  { etransitivity; [exact Hrun|]. cbn [app]. do 4 rewrite run_exec by done. reflexivity. }
  assert (Hc0 : csrs m0 = csrs m) by done. assert (Hp0 : priv m0 = priv m) by done.
  assert (Hw0 : words m0 = words m) by done. clearbody m0.
  assert (Hq : u32 (regs m0 SP + -4) = regs m SP - 56) by (rewrite Hsp0, u32_small; lia).
  assert (Hq0 : u32 (regs m SP - 56 + 0) = regs m SP - 56) by (rewrite u32_small; lia).
  assert (Hqa : u32 (regs m0 A0 + 0) = sp_of a) by (rewrite Hr0, Ha0, u32_small by done || lia; lia).
  pose proof (mo_csrs _ Hok Sstatus) as Hcs. unfold word in Hcs.
  cbn [exec]. split; machine_simpl; [| | |done|done].
  - rewrite Hqa, Hq, Hq0, Hc0. unfold suspended. cbn [ctx_of c_sp c_status c_regs].
    rewrite load_store_word, u32_small by lia. unfold STACK_BYTES.
    split; [lia|]. split; [lia|]. split; [lia|]. split.
    + rewrite load_store_word_ne, load_store_word by lia. by apply u32_small.
    + intros r Hr. destruct (lay_range _ _ _ saved_layout r Hr), (saved_regs_ne r Hr) as (?&_).
      rewrite !load_store_word_ne by lia. rewrite <-(Hr0 r), <-(Hheld r Hr) by done. f_equal. lia.
  - intros x Hx. unfold own, STACK_BYTES in Hx. rewrite Hqa, Hq, Hq0, !store_word_other by lia.
    rewrite Hout by lia. by rewrite Hw0.
  - intros r ??. machine_simpl. by apply Hr0.
Qed.

(** The second half: the hart takes the context of the other process. *)
Lemma switch_restores b c m1 :
  regs m1 A1 = sp_of b → suspended b c (words m1) →
  ∃ m', run h None restore m1 = Some m' ∧ resumed c m1 m' ∧ words m' = words m1.
Proof.
  intros Ha1 (Hlo & Hhi & Hsp & Hst & Hh). pose proof (st_base b). pose proof (st_sp b).
  unfold STACK_BYTES in *. set (p := load_word (words m1) (sp_of b)) in *.
  unfold restore. cbn [app]. do 4 rewrite run_exec by done.
  assert (Hp : load_word (words m1) (u32 (regs m1 A1 + 0)) = p).
  { subst p. f_equal. rewrite Ha1, u32_small; lia. }
  assert (Hp0 : u32 (p + 0) = p) by (rewrite u32_small; lia).
  assert (Hp4 : u32 (p + 4) = p + 4) by (rewrite u32_small; lia).
  set (m2 := exec (Csrw Sstatus T0) _).
  assert (Hsp2 : regs m2 SP = p + 4).
  { subst m2. cbn [exec]. machine_simpl. by rewrite Hp. }
  assert (Hc2 : csrs m2 Sstatus = c_status c).
  { subst m2. cbn [exec]. machine_simpl. by rewrite Hp, Hp0. }
  assert (Hk2 : ∀ k, k ≠ Sstatus → csrs m2 k = csrs m1 k).
  { intros k ?. subst m2. cbn [exec]. by machine_simpl. }
  assert (Hw2 : words m2 = words m1) by done. assert (Hpr2 : priv m2 = priv m1) by done.
  clearbody m2.
  destruct (run_loads h SP saved_off saved_regs 52 [Addi SP SP (13 * 4); Ret] m2)
    as (f & -> & Hf); [apply saved_layout| |lia|lia|].
  { by intros []%saved_regs_iff. }
  assert (Hfs : ∀ r, r ∈ saved_regs → f r = c_regs c r).
  { intros r Hr. rewrite (Hf r), decide_True by done. rewrite Hw2, Hsp2. by apply Hh. }
  rewrite run_exec by done. cbn [run]. eexists. split; [reflexivity|].
  assert (HRA : RA ∈ saved_regs) by by apply saved_regs_iff.
  split; [|done]. split; cbn [exec]; machine_simpl.
  - split; [|split]; cbn [ctx_of c_sp c_status c_regs]; machine_simpl; [|done|].
    + rewrite (Hf SP), decide_False by by intros []%saved_regs_iff.
      rewrite Hsp2, u32_small; lia.
    + intros r Hr. destruct (saved_regs_ne r Hr) as (?&_). machine_simpl. by apply Hfs.
  - by apply Hfs.
  - done.
  - done.
Qed.

(** A switch parks the caller and resumes the other process. *)
Lemma switch_runs a b c m :
  call_switch a b m → suspended b c (words m) →
  ∃ m', run h None switch_context m = Some m' ∧ resumed c m m' ∧
    suspended a (ctx_of m) (words m') ∧ (∀ x, ¬ own a x → words m' x = words m x).
Proof.
  intros Hcall Hb. destruct (switch_parks a b m Hcall) as (m1 & -> & [Hw Hout Hr Hc Hp]).
  pose proof (cs_ne _ _ _ Hcall) as Hne.
  destruct (switch_restores b c m1) as (m' & -> & [Hctx Hpc Hpr Hk] & Hw').
  - rewrite Hr by done. apply (cs_a1 _ _ _ Hcall).
  - eapply suspended_ext; [|exact Hb]. intros x Hx. apply Hout. by apply (own_apart b a).
  - exists m'. rewrite Hw'. split; [done|]. split; [|done].
    split; [done|done|congruence|]. intros k ?. by rewrite Hk, Hc.
Qed.
End switch.
