(* ===== verification/FirstRun.v ===== *)
(** * The first run of a process

    The stacks that [create_process] and [process_fork] of [kernel/proc/process.c]
    prepare hold contexts, a switch to which leads to user mode: at the start of the
    program, or where the parent called [fork]. *)
From Stdlib Require Import ZArith Lia ZifyBool.
From stdpp Require Import base tactics list numbers option functions fin finite gmap relations.
From S2P Require Import Prelude PageTable PageTableSpec Asm AsmSpec Switch.
#[local] Open Scope Z_scope.

(** ** Words stored in a row *)

Lemma store_words_out p l w x :
  ¬ (p ≤ x < p + 4 * Z.of_nat (length l)) → store_words p l w x = w x.
Proof.
  revert p w. induction l as [|v l IH]; intros p w Hx; [done|]. cbn [store_words length] in *.
  rewrite IH by lia. apply store_word_other. lia.
Qed.

Lemma store_words_load p l w a :
  a + 4 ≤ p ∨ p + 4 * Z.of_nat (length l) ≤ a → load_word (store_words p l w) a = load_word w a.
Proof. intros Ha. apply load_word_same. intros x ?. apply store_words_out. lia. Qed.

Lemma store_words_at p l w i v :
  l !! i = Some v → load_word (store_words p l w) (p + 4 * Z.of_nat i) = u32 v.
Proof.
  revert p w i. induction l as [|u l IH]; intros p w i Hi; [done|]. destruct i as [|i].
  - simplify_eq/=. replace (p + 4 * Z.of_nat 0) with p by lia. rewrite <-(load_store_word w p).
    apply load_word_same. intros x ?. apply store_words_out. lia.
  - cbn [store_words]. replace (p + 4 * Z.of_nat (S i)) with (p + 4 + 4 * Z.of_nat i) by lia.
    by apply IH.
Qed.

Lemma push_words_spec l sp w :
  4 * Z.of_nat (length l) ≤ sp < 4294967296 →
  let '(p, w') := push_words l sp w in
  p = sp - 4 * Z.of_nat (length l) ∧
  (∀ i v, l !! i = Some v → load_word w' (sp - 4 * (Z.of_nat i + 1)) = u32 v) ∧
  (∀ x, ¬ (p ≤ x < sp) → w' x = w x).
Proof.
  revert sp w. induction l as [|v l IH]; intros sp w Hsp; cbn [push_words length] in *.
  { split; [lia|done]. }
  rewrite u32_small by lia. specialize (IH (sp - 4) (store_word w (sp - 4) v) ltac:(lia)).
  destruct (push_words l (sp - 4) (store_word w (sp - 4) v)) as [p w'].
  destruct IH as (-> & Hat & Hout). split; [lia|]. split.
  - intros [|i] u Hi; cbn [lookup list_lookup] in Hi.
    + simplify_eq. replace (sp - 4 * (Z.of_nat 0 + 1)) with (sp - 4) by lia.
      rewrite <-(load_store_word w (sp - 4)). apply load_word_same. intros x ?. apply Hout. lia.
    + replace (sp - 4 * (Z.of_nat (S i) + 1)) with (sp - 4 - 4 * (Z.of_nat i + 1)) by lia. by apply Hat.
  - intros x Hx. rewrite Hout by lia. apply store_word_other. lia.
Qed.

Lemma copy_words_out n p q w x : ¬ (p ≤ x < p + 4 * Z.of_nat n) → copy_words n p q w x = w x.
Proof.
  revert p q w. induction n as [|n IH]; intros p q w Hx; [done|]. cbn [copy_words].
  rewrite IH by lia. apply store_word_other. lia.
Qed.

(** A copy between two areas that do not overlap. *)
Lemma copy_words_at n p q w i :
  (p + 4 * Z.of_nat n ≤ q ∨ q + 4 * Z.of_nat n ≤ p) → (i < n)%nat →
  load_word (copy_words n p q w) (p + 4 * Z.of_nat i) = u32 (load_word w (q + 4 * Z.of_nat i)).
Proof.
  revert p q w i. induction n as [|n IH]; intros p q w i Hd Hi; [lia|]. cbn [copy_words].
  destruct i as [|i].
  - replace (p + 4 * Z.of_nat 0) with p by lia. replace (q + 4 * Z.of_nat 0) with q by lia.
    rewrite <-(load_store_word w p). apply load_word_same. intros x ?. apply copy_words_out. lia.
  - replace (p + 4 * Z.of_nat (S i)) with (p + 4 + 4 * Z.of_nat i) by lia.
    replace (q + 4 * Z.of_nat (S i)) with (q + 4 + 4 * Z.of_nat i) by lia.
    rewrite IH by lia. f_equal. apply load_store_word_ne. lia.
Qed.

Lemma saved_index r :
  saved_off r = 4 * (saved_off r / 4) ∧ 0 ≤ saved_off r / 4 ≤ 12.
Proof. by destruct r. Qed.

Lemma frame_index r :
  frame_off r = 4 * (frame_off r / 4) ∧ 0 ≤ frame_off r / 4 ≤ 30.
Proof. by destruct r. Qed.

Lemma framed_ext w w' p f : (∀ x, p ≤ x < p + 124 → w' x = w x) → framed w p f → framed w' p f.
Proof.
  intros Hx Hw r. rewrite <-(Hw r). pose proof (frame_off_range r). apply load_word_same.
  intros x ?. apply Hx. lia.
Qed.

Section first.
Context (sp_of base : fin 64 → Z) `{!Stacks sp_of base}.

(** ** [create_process] *)

Definition create_ctx (user_entry_addr : Z) (i : fin 64) : context :=
  Ctx (base i + STACK_BYTES) 0 (<[RA := user_entry_addr]> (λ _, 0)).

(** The memory once [proc->sp] is set. *)
Definition create_words (user_entry_addr : Z) (i : fin 64) (w : memory) : memory :=
  let '(sp, w) := create_stack user_entry_addr (base i + STACK_BYTES) w in store_word w (sp_of i) sp.

Lemma create_suspended ue i w : word ue → suspended sp_of base i (create_ctx ue i) (create_words ue i w).
Proof.
  intros Hue. pose proof (st_base i) as Hb. pose proof (st_sp i). pose proof (st_sp_base i i) as Hsb.
  unfold STACK_BYTES in *. unfold create_words, create_stack.
  pose proof (push_words_spec [0; 0; 0; 0; 0; 0; 0; 0; 0; 0; 0; 0; ue; 0] (base i + 8192) w) as Hspec.
  unfold STACK_BYTES. destruct (push_words _ (base i + 8192) w) as [p w'].
  destruct Hspec as (Hp & Hat & _); [cbn [length]; lia|]. cbn [length] in Hp.
  unfold suspended. cbn [create_ctx c_sp c_status c_regs]. rewrite load_store_word, u32_small by lia.
  unfold STACK_BYTES. split; [lia|]. split; [lia|]. split; [lia|]. split.
  - rewrite load_store_word_ne by lia. specialize (Hat 13%nat 0 eq_refl).
    replace p with (base i + 8192 - 4 * (Z.of_nat 13 + 1)) by lia. by rewrite Hat.
  - intros r Hr. destruct (lay_range _ _ _ saved_layout r Hr).
    rewrite load_store_word_ne by lia.
    replace (p + 4 + saved_off r) with (base i + 8192 - 4 * (Z.of_nat (Z.to_nat (12 - saved_off r / 4)) + 1)).
    + apply saved_regs_iff in Hr. rewrite (Hat _ (if decide (r = RA) then ue else 0)) by (by destruct r).
      destruct (decide (r = RA)) as [->|]; [by rewrite fn_lookup_insert, u32_small|].
      by rewrite fn_lookup_insert_ne.
    + pose proof (saved_index r) as [Hi Hq]. rewrite Z2Nat.id by lia. lia.
Qed.

Lemma create_out ue i w x : ¬ own sp_of base i x → create_words ue i w x = w x.
Proof.
  intros Hx. pose proof (st_base i) as Hb. unfold own, STACK_BYTES in *.
  unfold create_words, create_stack, STACK_BYTES.
  pose proof (push_words_spec [0; 0; 0; 0; 0; 0; 0; 0; 0; 0; 0; 0; ue; 0] (base i + 8192) w) as Hspec.
  destruct (push_words _ (base i + 8192) w) as [p w'].
  destruct Hspec as (Hp & _ & Hout); [cbn [length]; lia|]. cbn [length] in Hp.
  rewrite store_word_other by lia. apply Hout. lia.
Qed.

(** ** [process_fork] *)

Definition child_tf (i : fin 64) : Z := base i + STACK_BYTES - FRAME_BYTES.

Definition fork_ctx (fork_child_addr : Z) (i : fin 64) (sstatus sepc : Z) : context :=
  Ctx (child_tf i) sstatus
    (<[RA := fork_child_addr]> (<[S0 := child_tf i]> (<[S11 := u32 (sepc + 4)]> (λ _, 0)))).

(** The memory once [child->sp] is set. *)
Definition fork_words (fork_child_addr : Z) (i : fin 64) (parent_tf sstatus sepc : Z) (w : memory)
  : memory :=
  let '(ksp, w) := fork_stack fork_child_addr (base i + STACK_BYTES) parent_tf sstatus sepc w in
  store_word w (sp_of i) ksp.

Lemma fork_suspended fc i tf s e w :
  word fc → word s → suspended sp_of base i (fork_ctx fc i s e) (fork_words fc i tf s e w).
Proof.
  intros Hfc Hs. pose proof (st_base i) as Hb. pose proof (st_sp i). pose proof (st_sp_base i i) as Hsb.
  unfold fork_words, fork_stack, suspended, fork_ctx, child_tf, STACK_BYTES, FRAME_BYTES in *.
  cbn [c_sp c_status c_regs]. rewrite load_store_word, u32_small by lia.
  set (tfc := base i + 8192 - 4 * 31). set (p := tfc - 14 * 4).
  set (l := [s; fc; tfc; 0; 0; 0; 0; 0; 0; 0; 0; 0; 0; u32 (e + 4)]).
  set (w1 := store_word _ (tfc + frame_off A0) 0). clearbody w1.
  split; [lia|]. split; [lia|]. split; [lia|]. split.
  - rewrite load_store_word_ne by lia. replace p with (p + 4 * Z.of_nat 0) at 2 by lia.
    rewrite (store_words_at _ _ _ 0 s) by done. by apply u32_small.
  - intros r Hr. destruct (lay_range _ _ _ saved_layout r Hr).
    rewrite load_store_word_ne by lia. pose proof (saved_index r) as [Hi Hq].
    replace (p + 4 + saved_off r) with (p + 4 * Z.of_nat (Z.to_nat (1 + saved_off r / 4)))
      by (rewrite Z2Nat.id by lia; lia).
    assert (word tfc) by (unfold word; lia). pose proof (u32_range (e + 4)).
    erewrite store_words_at; [apply u32_small|]; cycle 1.
    + apply saved_regs_iff in Hr. clear -Hr. by destruct r.
    + apply saved_regs_iff in Hr. clear Hi Hq. unfold word in *. destruct r; try done; cbn; lia.
Qed.

(** The frame of the child is the frame of the parent with 0 in [a0]. *)
Lemma fork_framed fc i tf s e w f :
  tf + FRAME_BYTES ≤ child_tf i ∨ child_tf i + FRAME_BYTES ≤ tf →
  (∀ r, word (f r)) → framed w tf f →
  framed (fork_words fc i tf s e w) (child_tf i) (<[A0 := 0]> f).
Proof.
  intros Hd Hf Hw r. pose proof (st_base i) as Hb. pose proof (st_sp_base i i) as Hsb.
  pose proof (frame_off_range r). unfold fork_words, fork_stack, child_tf, STACK_BYTES, FRAME_BYTES in *.
  rewrite load_store_word_ne by lia.
  rewrite store_words_load by (cbn [length]; lia).
  destruct (decide (r = A0)) as [->|Hne].
  - by rewrite load_store_word, fn_lookup_insert.
  - destruct (frame_index r) as [Hq ?].
    assert (Hfo : frame_off r = 4 * Z.of_nat (Z.to_nat (frame_off r / 4))) by (rewrite Z2Nat.id; lia).
    set (k := Z.to_nat (frame_off r / 4)) in *. assert ((k < 31)%nat) by (subst k; lia). clearbody k.
    rewrite fn_lookup_insert_ne by done. destruct (frame_off_apart A0 r); [done|..];
      (rewrite load_store_word_ne by lia; rewrite Hfo, copy_words_at by lia; rewrite <-Hfo, (Hw r);
       by apply u32_small, Hf).
Qed.

Lemma fork_out fc i tf s e w x : ¬ own sp_of base i x → fork_words fc i tf s e w x = w x.
Proof.
  intros Hx. pose proof (st_base i) as Hb.
  unfold own, fork_words, fork_stack, STACK_BYTES, FRAME_BYTES in *. change (frame_off A0) with 40.
  rewrite store_word_other, store_words_out, store_word_other by (cbn [length]; lia).
  apply copy_words_out. lia.
Qed.

(** ** To user mode *)

Context (h : machine → option machine).

(** [fork_child_trap_return] goes to user mode with the registers of the frame. *)
Lemma child_trap_returns m f :
  0 ≤ regs m S0 → regs m S0 + 124 ≤ 4294967296 → framed (words m) (regs m S0) f →
  Z.testbit (csrs m Sstatus) SPP = false →
  ∃ m', run h None fork_child_trap_return m = Some m' ∧ priv m' = User ∧
    pc m' = regs m S11 ∧ (∀ r, regs m' r = f r) ∧ words m' = words m ∧
    csrs m' Sscratch = csrs m Sscratch ∧
    Z.testbit (csrs m' Sstatus) SIE = Z.testbit (csrs m Sstatus) SPIE.
Proof.
  intros H0 Hn Hf Hspp.
  set (l := [RA; TP; T0; T1; T2; T3; T4; T5; T6; A0; A1; A2; A3; A4; A5; A6; A7;
   S0; S1; S2; S3; S4; S5; S6; S7; S8; S9; S10; S11; SP]).
  assert (Hin : ∀ r, r ∈ l ↔ r ≠ GP).
  { intros r. split; [intros Hr ->; revert Hr; apply (bool_decide_unpack (GP ∉ l)); by vm_compute|].
    intros ?. apply (bool_decide_unpack (r ∈ l)). by destruct r; vm_compute. }
  change fork_child_trap_return with
    ([Csrw Sepc S11; Mv GP S0] ++ loads GP frame_off l ++ [Lw GP (4 * 1) GP; Sret]).
  cbn [app]. do 2 rewrite run_exec by done.
  set (m0 := exec (Mv GP S0) _). assert (Hgp : regs m0 GP = regs m S0) by done.
  assert (Hw0 : words m0 = words m) by done.
  assert (Hst : csrs m0 Sstatus = csrs m Sstatus) by (subst m0; cbn [exec]; by machine_simpl).
  assert (Hse : csrs m0 Sepc = regs m S11) by (subst m0; cbn [exec]; by machine_simpl).
  assert (Hsc : csrs m0 Sscratch = csrs m Sscratch) by (subst m0; cbn [exec]; by machine_simpl).
  clearbody m0.
  destruct (run_loads h GP frame_off l 124 [Lw GP (4 * 1) GP; Sret] m0) as (g & -> & Hg);
    [apply frame_layout|by intros []%Hin|lia|lia|].
  rewrite run_exec by done. cbn [run]. eexists. split; [reflexivity|].
  assert (Hgg : g GP = regs m S0) by (rewrite (Hg GP), decide_False; [done|by intros []%Hin]).
  split; [|split; [|split; [|split; [|split]]]].
  - rewrite sret_priv. cbn [exec set_regs set_reg csrs]. by rewrite Hst, Hspp.
  - done.
  - intros r. change (regs (exec (Lw GP (4 * 1) GP) (set_regs g m0)) r = f r). cbn [exec]. machine_simpl.
    destruct (decide (r = GP)) as [->|]; machine_simpl.
    + rewrite Hgg, u32_small, Hw0 by lia. apply (Hf GP).
    + rewrite (Hg r), decide_True, Hgp, Hw0 by by apply Hin. apply Hf.
  - done.
  - unfold sret. cbn [exec]. by machine_simpl.
  - rewrite sret_sie. cbn [exec set_regs set_reg csrs]. by rewrite Hst.
Qed.

(** [user_entry] goes to user mode at the start of the program, interrupts on. *)
Lemma user_entry_runs r1 r2 m :
  r1 ≠ r2 →
  ∃ m', run h None (user_entry r1 r2) m = Some m' ∧ priv m' = User ∧ pc m' = USER_BASE ∧
    Z.testbit (csrs m' Sstatus) SIE = true ∧ csrs m' Sscratch = csrs m Sscratch ∧ words m' = words m.
Proof.
  intros Hr. unfold user_entry. do 4 rewrite run_exec by done. cbn [run].
  eexists. split; [reflexivity|]. split; [|split; [|split; [|split]]].
  - rewrite sret_priv. cbn [exec]. by machine_simpl.
  - unfold sret. cbn [exec]. by machine_simpl.
  - rewrite sret_sie. cbn [exec]. by machine_simpl.
  - unfold sret. cbn [exec]. by machine_simpl.
  - done.
Qed.

(** The linker places the two routines at addresses of their own. *)
Context (user_entry_addr fork_child_addr : Z) (r1 r2 : reg).
Context (Hue : word user_entry_addr) (Hfc : word fork_child_addr)
  (Hdiff : user_entry_addr ≠ fork_child_addr) (Hr : r1 ≠ r2).

(** The first switch to a process runs the routine its stack returns to. *)
Definition first_run (m m'' : machine) : Prop :=
  ∃ m' p, run h None switch_context m = Some m' ∧
    code_at user_entry_addr fork_child_addr r1 r2 (pc m') = Some p ∧
    run h None p m' = Some m''.

(** The first switch to a process that [create_process] made, whatever the other
    processes did since, goes to user mode at the start of its program, with interrupts
    on. *)
Theorem new_process_starts (d i : fin 64) (w : memory) (m : machine) :
  call_switch sp_of base d i m →
  (∀ x, own sp_of base i x → words m x = create_words user_entry_addr i w x) →
  ∃ m'', first_run m m'' ∧ priv m'' = User ∧ pc m'' = USER_BASE ∧
    Z.testbit (csrs m'' Sstatus) SIE = true ∧ csrs m'' Sscratch = csrs m Sscratch.
Proof.
  intros Hcall Hw. pose proof (create_suspended user_entry_addr i w Hue) as Hs.
  apply (suspended_ext sp_of base i _ _ (words m)) in Hs; [|done].
  destruct (switch_runs sp_of base h d i _ m Hcall Hs) as (m' & Hrun & [_ Hpc _ Hk] & _ & _).
  destruct (user_entry_runs r1 r2 m' Hr) as (m'' & Hrun' & Hp & Hpc' & Hie & Hsc & _).
  exists m''. split; [|split; [done|split; [done|split; [done|by rewrite Hsc, Hk]]]].
  exists m', (user_entry r1 r2). split; [done|]. split; [|done].
  rewrite Hpc. unfold create_ctx, code_at. cbn [c_regs]. by rewrite fn_lookup_insert, Z.eqb_refl.
Qed.

(** The frame of the trap of [a] is, but for [a0], in the stack made for [i]. *)
Lemma fork_child_frame (a i : fin 64) (m m1 : machine) (ws w : memory) :
  machine_ok m → priv m = User → csrs m Sscratch = base a + STACK_BYTES → entered m m1 → a ≠ i →
  (∀ x, child_tf a ≤ x < base a + STACK_BYTES → w x = words m1 x) →
  (∀ x, own sp_of base i x →
     ws x = fork_words fork_child_addr i (child_tf a) (csrs m1 Sstatus) (csrs m1 Sepc) w x) →
  framed ws (child_tf i) (<[A0 := 0]> (trap_regs m)).
Proof.
  intros Hm Hu Hsp He Hai Hw Hws.
  pose proof (st_base a) as Hba. pose proof (st_base i) as Hbi. pose proof (st_apart a i Hai).
  assert (HK : kernel_sp m - 124 = child_tf a)
    by (unfold kernel_sp, child_tf, FRAME_BYTES; rewrite Hu, Hsp; lia).
  apply (framed_ext (fork_words fork_child_addr i (child_tf a) (csrs m1 Sstatus) (csrs m1 Sepc) w)).
  { intros x ?. apply Hws. left. unfold child_tf, FRAME_BYTES, STACK_BYTES in *. lia. }
  apply fork_framed; [unfold child_tf, FRAME_BYTES, STACK_BYTES in *; lia| |].
  - intros r. by apply trap_regs_word.
  - apply (framed_ext (words m1)); [|rewrite <-HK; apply (en_frame _ _ He)].
    intros x ?. apply Hw. unfold child_tf, FRAME_BYTES in *. lia.
Qed.

(** C15. [fork] in the child: the process [a] traps in user mode, [process_fork] builds the
    stack of [i] from the frame of the trap, and the first switch to [i], whatever ran
    in between, goes to user mode behind the [ecall] of the parent, with the registers
    the parent had in its frame and 0 in [a0]. *)
Theorem fork_child_returns (a d i : fin 64) (m m1 ms : machine) (w : memory) :
  machine_ok m → priv m = User → csrs m Sscratch = base a + STACK_BYTES → entered m m1 →
  a ≠ i →
  (∀ x, child_tf a ≤ x < base a + STACK_BYTES → w x = words m1 x) →
  call_switch sp_of base d i ms →
  (∀ x, own sp_of base i x →
     words ms x = fork_words fork_child_addr i (child_tf a) (csrs m1 Sstatus) (csrs m1 Sepc) w x) →
  ∃ m'', first_run ms m'' ∧ priv m'' = User ∧ pc m'' = u32 (pc m + 4) ∧
    regs m'' A0 = 0 ∧ (∀ r, r ≠ A0 → regs m'' r = trap_regs m r) ∧
    Z.testbit (csrs m'' Sstatus) SIE = Z.testbit (csrs m Sstatus) SIE.
Proof.
  intros Hm Hu Hsp He Hai Hw Hcall Hws.
  pose proof (st_base i) as Hbi.
  destruct (en_status _ _ He) as (Hst & Hspp & Hspie & _). specialize (Hst Hm). rewrite Hu in Hspp.
  pose proof (fork_child_frame a i m m1 (words ms) w Hm Hu Hsp He Hai Hw Hws) as Hf.
  pose proof (fork_suspended fork_child_addr i (child_tf a) _ (csrs m1 Sepc) w Hfc Hst) as Hs.
  apply (suspended_ext sp_of base i _ _ (words ms)) in Hs; [|done].
  destruct (switch_runs sp_of base h d i _ ms Hcall Hs) as (m' & Hrun & [Hctx Hpc _ _] & _ & Hout).
  destruct Hctx as (_ & Hst' & Hr'). cbn [ctx_of fork_ctx c_regs c_status] in *.
  assert (HS0 : regs m' S0 = child_tf i) by (rewrite Hr' by (by apply saved_regs_iff); by machine_simpl).
  assert (HS11 : regs m' S11 = u32 (csrs m1 Sepc + 4))
    by (rewrite Hr' by (by apply saved_regs_iff); by machine_simpl).
  pose proof (cs_ne _ _ _ _ _ Hcall) as Hdi.
  destruct (child_trap_returns m' (<[A0 := 0]> (trap_regs m)))
    as (m'' & Hrun' & Hp & Hpc' & Hreg & _ & _ & Hie).
  - rewrite HS0. unfold child_tf, FRAME_BYTES, STACK_BYTES in *. lia.
  - rewrite HS0. unfold child_tf, FRAME_BYTES, STACK_BYTES in *. lia.
  - rewrite HS0. eapply framed_ext; [|exact Hf]. intros x ?. apply Hout.
    apply (own_apart sp_of base i d); [done|]. left. unfold child_tf, FRAME_BYTES, STACK_BYTES in *. lia.
  - by rewrite Hst', Hspp.
  - exists m''. split; [|split; [done|]].
    + exists m', fork_child_trap_return. split; [done|]. split; [|done].
      rewrite Hpc. machine_simpl. unfold code_at.
      rewrite (proj2 (Z.eqb_neq _ _)) by congruence. by rewrite Z.eqb_refl.
    + rewrite Hpc', HS11, (en_sepc _ _ He), Hie, Hst', Hspie, !Hreg.
      split; [done|]. split; [by machine_simpl|]. split; [|done]. intros r ?. rewrite Hreg. by machine_simpl.
Qed.
End first.
