(* ===== verification/Coroutines.v ===== *)
(** * The processes as coroutines

    The hart runs one process and the kernel stacks of the others hold their contexts.
    What the assembly does to the memory, switch after switch, is what happens to a
    finite map from processes to contexts: a process that is switched away from finds
    its stack pointer, its callee-saved registers and [sstatus] again, whatever ran in
    between, and a new process starts from the context that was made for it. *)
From Stdlib Require Import ZArith Lia ZifyBool.
From stdpp Require Import base tactics list numbers option functions fin finite gmap relations.
From S2P Require Import Prelude PageTable PageTableSpec Asm AsmSpec Switch FirstRun.
#[local] Open Scope Z_scope.

(** ** Contexts in a map *)

Record coroutines := Co { now : fin 64; contexts : gmap (fin 64) context; current : context }.

Section coroutines.
Context (sp_of base : fin 64 → Z) `{!Stacks sp_of base}.
Context (user_entry_addr fork_child_addr : Z).

Inductive cstep : coroutines → coroutines → Prop :=
  | c_work i C c c' : cstep (Co i C c) (Co i C c')
  | c_create i C c k :
      k ≠ i → cstep (Co i C c) (Co i (<[k := create_ctx base user_entry_addr k]> C) c)
  | c_fork i C c k s e :
      k ≠ i → cstep (Co i C c) (Co i (<[k := fork_ctx base fork_child_addr k s e]> C) c)
  | c_exit i C c k : cstep (Co i C c) (Co i (delete k C) c)
  | c_switch i j C c d :
      C !! j = Some d → cstep (Co i C c) (Co j (<[i := c]> (delete j C)) d).

(** ** The hart and the kernel stacks

    [asleep] is the set of the processes that do not run and were not recycled.  The
    code that runs may change everything but their stacks and their [sp]; [yield] has
    the stack of the next process in [r2] and its address space in [r1]. *)
Record hart := Hart { running : fin 64; asleep : gset (fin 64); cpu : machine }.

Context (h : machine → option machine) (r1 r2 : reg).

Inductive hstep : hart → hart → Prop :=
  | h_work i S m m' :
      (∀ j x, j ∈ S → own sp_of base j x → words m' x = words m x) →
      csrs m' Sscratch = csrs m Sscratch →
      hstep (Hart i S m) (Hart i S m')
  | h_create i S m k :
      k ∉ S → k ≠ i →
      hstep (Hart i S m)
        (Hart i ({[k]} ∪ S) (set_words (create_words sp_of base user_entry_addr k (words m)) m))
  | h_fork i S m k tf s e :
      k ∉ S → k ≠ i → word s →
      hstep (Hart i S m)
        (Hart i ({[k]} ∪ S) (set_words (fork_words sp_of base fork_child_addr k tf s e (words m)) m))
  | h_exit i S m k : hstep (Hart i S m) (Hart i (S ∖ {[k]}) m)
  | h_switch i j S m m' :
      j ∈ S → call_switch sp_of base i j m → regs m r2 = base j + STACK_BYTES →
      run h None (yield_asm r1 r2 ++ switch_context) m = Some m' →
      hstep (Hart i S m) (Hart j ({[i]} ∪ S ∖ {[j]}) m').

(** The stacks hold the contexts of the map, and the next trap of the process that runs
    goes to the top of its own stack. *)
Record refines (s : hart) (a : coroutines) : Prop := {
  rf_now : running s = now a;
  rf_dom : dom (contexts a) = asleep s;
  rf_running : running s ∉ asleep s;
  rf_current : current a ≡ ctx_of (cpu s);
  rf_contexts k c : contexts a !! k = Some c → suspended sp_of base k c (words (cpu s));
  rf_scratch : csrs (cpu s) Sscratch = base (running s) + STACK_BYTES
}.

(** Reduces the projections of the states, and nothing else. *)
Ltac proj := cbn [now contexts current running asleep cpu words csrs set_words] in *.

(** The switch of [yield], its assembly included. *)
Lemma yield_switches i j c m :
  call_switch sp_of base i j m → regs m r2 = base j + STACK_BYTES →
  suspended sp_of base j c (words m) →
  ∃ m', run h None (yield_asm r1 r2 ++ switch_context) m = Some m' ∧
    ctx_of m' ≡ c ∧ pc m' = c_regs c RA ∧
    csrs m' Sscratch = base j + STACK_BYTES ∧ csrs m' Satp = regs m r1 ∧ priv m' = priv m ∧
    suspended sp_of base i (ctx_of m) (words m') ∧
    (∀ x, ¬ own sp_of base i x → words m' x = words m x).
Proof.
  intros Hcall Hr2 Hj. unfold yield_asm. cbn [app]. do 4 rewrite run_exec by done.
  set (m0 := exec (Csrw Sscratch r2) _).
  assert (Hcall0 : call_switch sp_of base i j m0).
  { destruct Hcall as [[Hr Hc Hp] ????]. split; [|done..]. split; [done| |done].
    intros k. subst m0. cbn [exec]. destruct (decide (k = Sscratch)) as [->|]; machine_simpl; [apply Hr|].
    destruct (decide (k = Satp)) as [->|]; machine_simpl; [apply Hr|apply Hc]. }
  destruct (switch_runs sp_of base h i j c m0 Hcall0 Hj) as (m' & Hrun & [Hctx Hpc Hpr Hk] & Hi & Hout).
  exists m'. split; [done|]. split; [done|]. split; [done|]. split; [|split; [|split; [done|split; [|done]]]].
  - rewrite Hk by done. subst m0. cbn [exec]. by machine_simpl.
  - rewrite Hk by done. subst m0. cbn [exec]. by machine_simpl.
  - assert (ctx_of m ≡ ctx_of m0) as Hm; [|by rewrite Hm].
    subst m0. split; [done|split; [|done]]. cbn [exec ctx_of c_status]. by machine_simpl.
Qed.

Lemma refines_step (s s' : hart) (a : coroutines) :
  word user_entry_addr → word fork_child_addr →
  hstep s s' → refines s a → ∃ a', cstep a a' ∧ refines s' a'.
Proof.
  intros Hue Hfc Hst. destruct a as [i0 C c0].
  destruct Hst as [i S m m' Hw Hsc|i S m k Hk Hki|i S m k tf s e Hk Hki Hws|i S m k|i j S m m' Hj Hcall Hr2 Hrun];
    intros [Hn Hd Hi Hc Hs Hx]; proj; subst i0.
  - exists (Co i C (ctx_of m')). split; [apply c_work|]. split; proj; [done..| |congruence].
    intros k c Hkc. eapply suspended_ext; [|by apply Hs]. intros x Hox. apply (Hw k); [|done].
    rewrite <-Hd. by apply elem_of_dom_2 in Hkc.
  - eexists. split; [by apply (c_create i C c0 k)|]. split; proj;
      [done|by rewrite dom_insert_L, Hd|clear -Hi Hki; set_solver|done| |done].
    intros k' c [[<- <-]|[Hne Hc']]%lookup_insert_Some; [by apply create_suspended|].
    apply (suspended_ext sp_of base k' c (words m)); [|by apply Hs]. intros x Hox.
    apply (create_out sp_of base). by apply (own_apart sp_of base k' k).
  - eexists. split; [by apply (c_fork i C c0 k s e)|]. split; proj;
      [done|by rewrite dom_insert_L, Hd|clear -Hi Hki; set_solver|done| |done].
    intros k' c [[<- <-]|[Hne Hc']]%lookup_insert_Some; [by apply fork_suspended|].
    apply (suspended_ext sp_of base k' c (words m)); [|by apply Hs]. intros x Hox.
    apply (fork_out sp_of base). by apply (own_apart sp_of base k' k).
  - exists (Co i (delete k C) c0). split; [apply c_exit|]. split; proj; [done|by rewrite dom_delete_L, Hd|clear -Hi; set_solver|done| |done].
    intros k' c [_ Hc']%lookup_delete_Some. by apply Hs.
  - rewrite <-Hd in Hj. apply elem_of_dom in Hj as [d Hjd].
    destruct (yield_switches i j d m Hcall Hr2 (Hs j d Hjd))
      as (m2 & Hrun2 & Hctx & _ & Hsc & _ & _ & Hpark & Hout).
    rewrite Hrun in Hrun2. injection Hrun2 as <-. pose proof (cs_ne _ _ _ _ _ Hcall) as Hne.
    eexists. split; [by apply (c_switch i j C c0 d)|]. split; proj.
    + done.
    + rewrite dom_insert_L, dom_delete_L. by rewrite Hd.
    + clear -Hne. set_solver.
    + by symmetry.
    + intros k c [[<- <-]|[Hki [Hkj Hk]%lookup_delete_Some]]%lookup_insert_Some.
      * apply (suspended_equiv _ _ _ (ctx_of m)); [by symmetry|exact Hpark].
      * eapply suspended_ext; [|by apply Hs]. intros x Hox. apply Hout. by apply (own_apart sp_of base k i).
    + done.
Qed.

Lemma refines_steps (s s' : hart) (a : coroutines) :
  word user_entry_addr → word fork_child_addr →
  rtc hstep s s' → refines s a → ∃ a', rtc cstep a a' ∧ refines s' a'.
Proof.
  intros Hue Hfc Hst. revert a. induction Hst as [s|s s1 s2 H1 _ IH]; intros a Ha.
  - exists a. split; [apply rtc_refl|done].
  - destruct (refines_step s s1 a Hue Hfc H1 Ha) as (a1 & ? & Ha1).
    destruct (IH a1 Ha1) as (a2 & ? & ?). exists a2. split; [by apply rtc_l with a1|done].
Qed.

(** C4. The switches of the processes are those of coroutines: every run of the kernel
    (code of one process that leaves the stacks of the others alone, [create_process],
    [process_fork], the recycling of a process, [yield]) is a run of the map of
    contexts.  In the state reached, a switch to a process that does not run returns, and
    the hart then has the context that process was switched away with, or was made
    with: it goes on at its return address with its callee-saved registers, its stack
    pointer and its [sstatus], in its address space, and its next trap will use its
    own kernel stack. *)
Theorem switches_refine (s s' : hart) (a : coroutines) :
  word user_entry_addr → word fork_child_addr → rtc hstep s s' → refines s a →
  ∃ a', rtc cstep a a' ∧ refines s' a' ∧
    ∀ j, j ∈ asleep s' → call_switch sp_of base (running s') j (cpu s') →
      regs (cpu s') r2 = base j + STACK_BYTES →
      ∃ c m', contexts a' !! j = Some c ∧
        run h None (yield_asm r1 r2 ++ switch_context) (cpu s') = Some m' ∧
        ctx_of m' ≡ c ∧ pc m' = c_regs c RA ∧
        csrs m' Sscratch = base j + STACK_BYTES ∧ csrs m' Satp = regs (cpu s') r1.
Proof.
  intros Hue Hfc Hst Ha. destruct (refines_steps s s' a Hue Hfc Hst Ha) as (a' & ? & Ha').
  exists a'. split; [done|split; [done|]]. intros j Hj Hcall Hr2.
  rewrite <-(rf_dom _ _ Ha') in Hj. apply elem_of_dom in Hj as [c Hc].
  destruct (yield_switches (running s') j c (cpu s') Hcall Hr2 (rf_contexts _ _ Ha' j c Hc))
    as (m' & ? & ? & ? & ? & ? & _).
  by exists c, m'.
Qed.
End coroutines.
