(* ===== verification/AsmKernel.v ===== *)
(** * The trap handler under the assembly

    [handle_trap] of [kernel/trap/trap_handler.c], as [Syscall] models it, in the place
    of the call of [kernel_entry]: it takes its frame from the words of memory and
    leaves its result there, in [sepc] and in [sscratch].  With it a system call is
    followed from the [ecall] of the program to the instruction behind it. *)
From Stdlib Require Import ZArith Lia ZifyBool.
From stdpp Require Import base tactics list numbers option functions.
From S2P Require Import Prelude Memory BlockDev Process PageTable PageTableSpec Console Kernel.
From S2P Require Import Syscall Asm AsmSpec.
#[local] Open Scope Z_scope.

(** The fields of the frame at an address that the handlers use. *)
Definition frame_at (w : memory) (p : Z) : trap_frame :=
  Frame (load_word w (p + frame_off A0)) (load_word w (p + frame_off A1))
        (load_word w (p + frame_off A2)) (load_word w (p + frame_off A3)).

(** The registers a C function hands back as it found them. *)
Definition callee_saved (r : reg) : bool :=
  match r with
  | SP | S0 | S1 | S2 | S3 | S4 | S5 | S6 | S7 | S8 | S9 | S10 | S11 => true
  | _ => false
  end.

Section kernel.
Context {D : Type} `{BlockDev D}.
Context (kernel_base free_ram_end : Z) (app_image : Z → list Z).
Context (kernel_total_pages now : Z) (stack_base : nat → Z) (stack_garbage : list Z).

(** [handle_trap] for the cause [scause], in the state [s] of the kernel. *)
Definition c_handle_trap (scause addr : Z) (f : trap_frame) (pc : Z) (from_user : bool) (s : sys)
  : option (trap_result (D := D)) :=
  handle_trap kernel_base free_ram_end app_image kernel_total_pages now stack_garbage stack_base
    scause addr f pc from_user s.

(** What it writes to [sscratch]: the top of the stack of the process that runs, or of
    the owner of the frame. *)
Definition scratch_after (addr : Z) (from_user : bool) (s : sys (D := D)) (old : Z) : Z :=
  let owner := if from_user then process_from_trap_frame stack_base addr else None in
  let top i := u32 (stack_base i + KERNEL_STACK_BYTES) in
  match current_proc (kernel_of s) with
  | Some i => if 0 <? pid (proc_at (kernel_of s) i) then top i
              else match owner with Some o => top o | None => old end
  | None => match owner with Some o => top o | None => old end
  end.

(** The call as [kernel_entry] sees it; a process that has to wait comes back through
    the switch, which is not part of this call.  [clobber] is what the code leaves in
    the registers it need not keep. *)
Definition handle_trap_call (scause : Z) (s : sys) (clobber : reg → Z) (m : Asm.machine)
  : option Asm.machine :=
  let p := regs m A0 in
  let from_user := negb (Z.testbit (csrs m Sstatus) SPP) in
  match c_handle_trap scause p (frame_at (words m) p) (csrs m Sepc) from_user s with
  | Some (Return f pc' s') =>
      Some (Machine (λ r, if callee_saved r then regs m r else clobber r)
        (<[Sepc := pc']> (<[Sscratch := scratch_after p from_user s' (csrs m Sscratch)]> (csrs m)))
        (priv m) (pc m) (store_word (words m) (p + frame_off A0) (a0 f)))
  | _ => None
  end.

#[export] Instance handle_trap_lawful scause s clobber :
  TrapHandler (handle_trap_call scause s clobber).
Proof.
  intros m1 m2 Hm. unfold handle_trap_call in Hm. destruct c_handle_trap as [[f pc' s'| | |]|]; try done.
  injection Hm as <-. split; cbn [regs words csrs].
  - done.
  - intros r Hr. apply load_store_word_ne. destruct (frame_off_apart r A0 Hr); lia.
  - intros n _. by machine_simpl.
Qed.

(** The handler that [kernel_entry] calls finds the arguments of the program. *)
Lemma call_entered (s s' : sys) (clobber : reg → Z) (m m1 : Asm.machine) (f : trap_frame) (pc' : Z) :
  priv m = User → entered m m1 →
  c_handle_trap SCAUSE_ENVIRONMENT_CALL_FROM_U_MODE (csrs m Sscratch - FRAME_BYTES)
    (Frame (regs m A0) (regs m A1) (regs m A2) (regs m A3)) (pc m) true s = Some (Return f pc' s') →
  ∃ m2, handle_trap_call SCAUSE_ENVIRONMENT_CALL_FROM_U_MODE s clobber m1 = Some m2 ∧
    csrs m2 Sepc = pc' ∧
    csrs m2 Sscratch = scratch_after (csrs m Sscratch - FRAME_BYTES) true s' (csrs m Sscratch) ∧
    load_word (words m2) (kernel_sp m - 124 + frame_off A0) = u32 (a0 f).
Proof.
  intros Hu [_ Ha1 Hsc Hse (_ & Hspp & _ & _) _ Hfr _] Hh.
  assert (HK : kernel_sp m = csrs m Sscratch) by (unfold kernel_sp; by rewrite Hu).
  rewrite Hu in Hspp. rewrite HK in *. change 124 with FRAME_BYTES in *.
  assert (Hframe : frame_at (words m1) (regs m1 A0) = Frame (regs m A0) (regs m A1) (regs m A2) (regs m A3)).
  { unfold frame_at. rewrite Ha1, !Hfr. unfold trap_regs. by machine_simpl. }
  unfold handle_trap_call. rewrite Hframe, Hse, Hspp, Ha1. cbn [negb]. rewrite Hh.
  eexists. split; [reflexivity|]. cbn [csrs words]. machine_simpl. rewrite Hsc.
  split; [done|]. split; [done|]. apply load_store_word.
Qed.

(** C3. A system call, from the [ecall] to the instruction behind it: the handlers get
    the arguments the program has in [a0] to [a3], and the program goes on in user mode
    where the handler says, with the result in [a0], with 0 in [t0] and with every other
    register and the interrupt enable as they were; the next trap will use the stack
    of the process that runs. *)
Theorem system_call_returns (s s' : sys) (clobber : reg → Z) (stvec : Z) (m : Asm.machine)
    (f : trap_frame) (pc' : Z) :
  machine_ok m → priv m = User → 124 ≤ csrs m Sscratch →
  c_handle_trap SCAUSE_ENVIRONMENT_CALL_FROM_U_MODE (csrs m Sscratch - FRAME_BYTES)
    (Frame (regs m A0) (regs m A1) (regs m A2) (regs m A3)) (pc m) true s = Some (Return f pc' s') →
  ∃ m', run (handle_trap_call SCAUSE_ENVIRONMENT_CALL_FROM_U_MODE s clobber) None kernel_entry
          (take_trap stvec m) = Some m' ∧
    priv m' = User ∧ pc m' = pc' ∧ regs m' A0 = u32 (a0 f) ∧ regs m' T0 = 0 ∧
    (∀ r, r ≠ A0 → r ≠ T0 → regs m' r = regs m r) ∧
    Z.testbit (csrs m' Sstatus) SIE = Z.testbit (csrs m Sstatus) SIE ∧
    csrs m' Sscratch = scratch_after (csrs m Sscratch - FRAME_BYTES) true s' (csrs m Sscratch).
Proof.
  intros Hm Hu Hsp Hh. pose proof (mo_csrs _ Hm Sscratch) as Hw. unfold word in Hw.
  assert (HK : 124 ≤ kernel_sp m < 4294967296) by (unfold kernel_sp; rewrite Hu; lia).
  set (hd := handle_trap_call SCAUSE_ENVIRONMENT_CALL_FROM_U_MODE s clobber).
  destruct (trap_enters hd stvec m Hm HK) as (m1 & Hrun & He).
  destruct (call_entered s s' clobber m m1 f pc' Hu He Hh) as (m2 & Hcall & Hse & Hsc & Hw2).
  fold hd in Hcall. rewrite Hcall in Hrun.
  pose proof (handle_trap_lawful _ s clobber _ _ Hcall) as Hd.
  destruct (handled_returned hd m m1 m2 HK He Hd) as (m' & Hrun' & [Hp Hpc Hreg Ht0 Ha0 Hie Hsc' _]).
  exists m'. split; [by rewrite Hrun, Hrun'|]. rewrite Hu in Hp, Ht0.
  split; [done|]. split; [by rewrite Hpc|]. split; [by rewrite Ha0|]. split; [done|].
  split; [intros r ??; by apply Hreg|]. split; [done|]. by rewrite Hsc'.
Qed.
End kernel.
