(* ===== verification/AsmTests.v ===== *)
(** * Traps, switches and first runs at concrete inputs

    A table of processes at an address of the kernel's data, a process in user mode
    whose registers all differ, the shell's kernel of [SyscallTests] behind the trap. *)
From Stdlib Require Import ZArith Lia ZifyBool.
From stdpp Require Import base tactics list numbers option functions fin finite gmap relations.
From S2P Require Import Prelude Memory BlockDev Process PageTable PageTableSpec Kernel KernelTests Syscall SyscallTests.
From S2P Require Import Asm AsmSpec Switch FirstRun Coroutines AsmKernel.
#[local] Open Scope Z_scope.

Definition table : Z := 0x80280000.
Definition sps : fin 64 → Z := proc_sp table.
Definition bases : fin 64 → Z := proc_stack table.

#[local] Instance table_stacks : Stacks sps bases.
Proof. apply procs_stacks. constructor. Defined.

(** A program that calls the kernel with the arguments [f] at address 0x1000100; [top] is
    the top of its kernel stack. *)
Definition program (top : Z) (f : trap_frame) : Asm.machine :=
  Machine (λ r, match r with
                | A0 => a0 f | A1 => a1 f | A2 => a2 f | A3 => a3 f
                | _ => 0x1000000 + frame_off r
                end)
    (λ k, match k with Sscratch => top | _ => 0 end) User 0x1000100 (λ _, 0).

Definition frame_words (f : trap_frame) : Prop := word (a0 f) ∧ word (a1 f) ∧ word (a2 f) ∧ word (a3 f).

Lemma program_ok top f : word top → frame_words f → machine_ok (program top f).
Proof.
  intros Ht (?&?&?&?). split.
  - intros r. pose proof (frame_off_range r). assert (word (0x1000000 + frame_off r)) by (unfold word; lia).
    by destruct r.
  - by intros [].
  - done.
Qed.

(** A handler that leaves 7 in the frame and goes on behind the call. *)
Definition seven (m : Asm.machine) : option Asm.machine :=
  Some (set_csr Sepc (u32 (csrs m Sepc + 4)) (set_words (store_word (words m) (regs m A0 + frame_off A0) 7) m)).

#[local] Instance seven_lawful : TrapHandler seven.
Proof.
  intros m1 m2 [= <-]. split; cbn [set_csr set_words regs csrs words].
  - done.
  - intros r Hr. apply load_store_word_ne. destruct (frame_off_apart r A0 Hr); lia.
  - intros n _. by machine_simpl.
Qed.

Definition top1 : Z := bases 1%fin + STACK_BYTES.
Definition caller : Asm.machine := program top1 (Frame 1 2 3 4).

Lemma caller_ok : machine_ok caller.
Proof. by apply program_ok. Qed.

Lemma trap_returns_witness :
  ∃ m3, run seven None kernel_entry (take_trap 0x80200000 caller) = Some m3 ∧
    priv m3 = User ∧ pc m3 = 0x1000104 ∧ regs m3 A0 = 7 ∧ regs m3 T0 = 0 ∧ regs m3 A1 = 2.
Proof.
  destruct (trap_returns seven 0x80200000 caller caller_ok) as (m1 & He & Hrun); [done|].
  pose proof (en_sepc _ _ He) as Hse. pose proof (en_a0 _ _ He) as Ha. cbn [seven] in Hrun.
  destruct Hrun as (m3 & Hrun & [Hp Hpc Hreg Ht0 Ha0 _ _ _]). exists m3. split; [done|]. split; [done|].
  split; [|split; [|split; [done|by rewrite Hreg]]].
  - rewrite Hpc. cbn [set_csr csrs]. machine_simpl. by rewrite Hse.
  - rewrite Ha0. cbn [set_csr set_words words]. rewrite Ha. apply load_store_word.
Defined.

(** ** A system call of the shell *)

Definition shell_program : Asm.machine := program (stacks 1 + 8192) chdir_frame.

Lemma shell_traps :
  ∃ f s', c_handle_trap (ram_start - 8192) ram_stop app 64 clock stacks [] SCAUSE_ENVIRONMENT_CALL_FROM_U_MODE
      (csrs shell_program Sscratch - FRAME_BYTES)
      (Frame (regs shell_program A0) (regs shell_program A1) (regs shell_program A2) (regs shell_program A3))
      (pc shell_program) true t1 = Some (Return f 0x1000104 s') ∧ a0 f = 0.
Proof.
  set (o := c_handle_trap _ _ _ _ _ _ _ _ _ _ _ _ _).
  assert (Hv : match o with Some (Return f p _) => Some (a0 f, p) | _ => None end = Some (0, 0x1000104))
    by (vm_compute; reflexivity).
  clearbody o. destruct o as [[f p s'| | |]|]; [|done..]. injection Hv as H0 ->. by exists f, s'.
Qed.

Lemma system_call_returns_witness :
  ∃ m', run (handle_trap_call (ram_start - 8192) ram_stop app 64 clock stacks []
               SCAUSE_ENVIRONMENT_CALL_FROM_U_MODE t1 (λ _, 0)) None kernel_entry
          (take_trap 0x80200000 shell_program) = Some m' ∧
    priv m' = User ∧ pc m' = 0x1000104 ∧ regs m' A0 = 0 ∧ regs m' S11 = 0x1000000 + 116.
Proof.
  assert (Hok : machine_ok shell_program) by by apply program_ok.
  assert (Hsp : 124 ≤ csrs shell_program Sscratch) by done.
  destruct shell_traps as (f & s' & Htrap & Ha).
  destruct (system_call_returns (ram_start - 8192) ram_stop app 64 clock stacks [] t1 s' (λ _, 0)
    0x80200000 shell_program f 0x1000104 Hok eq_refl Hsp Htrap)
    as (m' & Hrun & Hp & Hpc & Hr & _ & Hreg & _ & _).
  clear Htrap. exists m'. rewrite Ha in Hr. split; [exact Hrun|]. split; [exact Hp|]. split; [exact Hpc|].
  split; [exact Hr|]. exact (Hreg S11 ltac:(discriminate) ltac:(discriminate)).
Defined.

(** ** The first process after [create_process], and its switch *)

Definition user_entry_at : Z := 0x80200200.
Definition fork_child_at : Z := 0x80200300.

(** The process [i] in [yield], for the process [j]. *)
Definition yielding (i j : fin 64) (w : memory) : Asm.machine :=
  Machine (λ r, match r with
                | SP => bases i + 8000 | A0 => sps i | A1 => sps j
                | T1 => satp_of 0x80400000 | T2 => bases j + STACK_BYTES
                | _ => frame_off r
                end)
    (λ k, match k with Sscratch => bases i + STACK_BYTES | _ => 0 end) Supervisor 0x80200400 w.

Lemma yielding_ok i j w : machine_ok (yielding i j w).
Proof.
  assert (word (sps i) ∧ word (sps j) ∧ word (bases i + 8000) ∧ word (bases i + STACK_BYTES) ∧
    word (bases j + STACK_BYTES)) as (?&?&?&?&?).
  { pose proof (st_base (sp_of := sps) (base := bases) i). pose proof (st_base (sp_of := sps) (base := bases) j).
    pose proof (st_sp (sp_of := sps) (base := bases) i). pose proof (st_sp (sp_of := sps) (base := bases) j).
    unfold word, STACK_BYTES in *. lia. }
  split.
  - intros r. pose proof (frame_off_range r). assert (word (frame_off r)) by (unfold word; lia). by destruct r.
  - by intros [].
  - done.
Qed.

Lemma yielding_calls i j w : i ≠ j → call_switch sps bases i j (yielding i j w).
Proof.
  intros Hij. split; [apply yielding_ok|done|done|done|]. cbn [yielding regs]. unfold STACK_BYTES. lia.
Qed.

Definition before : hart := Hart 0%fin ∅ (yielding 0%fin 1%fin (λ _, 0)).
Definition after : hart :=
  Hart 0%fin ({[1%fin]} ∪ ∅)
    (set_words (create_words sps bases user_entry_at 1%fin (words (cpu before))) (cpu before)).

Lemma before_refines : refines sps bases before (Co 0%fin ∅ (ctx_of (cpu before))).
Proof. split; cbn [before running asleep cpu now contexts current]; done. Qed.

Lemma switches_refine_witness :
  ∃ m', run seven None (yield_asm T1 T2 ++ switch_context) (cpu after) = Some m' ∧
    csrs m' Sscratch = bases 1%fin + STACK_BYTES ∧ csrs m' Satp = satp_of 0x80400000.
Proof.
  assert (Hsteps : rtc (hstep sps bases user_entry_at fork_child_at seven T1 T2) before after).
  { apply rtc_once. apply h_create; [set_solver|done]. }
  assert (Hue : word user_entry_at) by done. assert (Hfc : word fork_child_at) by done.
  destruct (switches_refine sps bases user_entry_at fork_child_at seven T1 T2 before after _ Hue Hfc Hsteps before_refines)
    as (a' & _ & _ & Hsw).
  destruct (Hsw 1%fin) as (c & m' & _ & Hrun & _ & _ & Hsc & Hsatp); [set_solver| |done|].
  { exact (yielding_calls 0%fin 1%fin _ ltac:(done)). }
  exists m'. split; [exact Hrun|]. split; [exact Hsc|exact Hsatp].
Defined.

(** ** A fork *)

Lemma fork_child_returns_witness :
  ∃ m1 m'', entered caller m1 ∧
    first_run seven user_entry_at fork_child_at T0 T1
      (yielding 1%fin 2%fin (fork_words sps bases fork_child_at 2%fin (child_tf bases 1%fin)
         (csrs m1 Sstatus) (csrs m1 Sepc) (words m1))) m'' ∧
    priv m'' = User ∧ pc m'' = 0x1000104 ∧ regs m'' A0 = 0 ∧ regs m'' A1 = 2.
Proof.
  destruct (trap_enters seven 0x80200000 caller caller_ok) as (m1 & _ & He); [done|]. exists m1.
  assert (Hue : word user_entry_at) by done. assert (Hfc : word fork_child_at) by done.
  destruct (fork_child_returns sps bases seven user_entry_at fork_child_at T0 T1 Hfc ltac:(done)
    1%fin 1%fin 2%fin caller m1
    (yielding 1%fin 2%fin (fork_words sps bases fork_child_at 2%fin (child_tf bases 1%fin)
         (csrs m1 Sstatus) (csrs m1 Sepc) (words m1))) (words m1))
    as (m'' & Hrun & Hp & Hpc & Ha & Hreg & _).
  - exact caller_ok.
  - done.
  - done.
  - exact He.
  - done.
  - done.
  - by apply yielding_calls.
  - done.
  - exists m''. split; [exact He|]. split; [exact Hrun|]. split; [done|]. split; [done|]. split; [done|].
    by rewrite Hreg.
Defined.
