(* ===== verification/Firmware.v ===== *)
(** * The firmware ([src/kernel/platform/sbi.c])

    A call of the SBI firmware is an [ecall] with eight registers; the firmware is a
    parameter, and the documented behaviour of its legacy console is the class
    [LegacyConsole].  With it the kernel's [putchar] and [getchar] are the lists of
    characters that the other files work with. *)
From Stdlib Require Import ZArith Lia String.
From stdpp Require Import base tactics list numbers option.
From S2P Require Import Prelude CString Console.
#[local] Open Scope Z_scope.

Record sbiret := Sbiret { error : Z; value : Z }.

(** The registers [a0] to [a7] at the [ecall]. *)
Record ecall_regs := EcallRegs {
  ea0 : Z; ea1 : Z; ea2 : Z; ea3 : Z; ea4 : Z; ea5 : Z; ea6 : Z; ea7 : Z
}.

Class Firmware (F : Type) := { ecall : ecall_regs → F → sbiret * F }.

Section firmware.
Context {F : Type} `{Firmware F}.
Implicit Types f : F.

Definition sbi_call (arg0 arg1 arg2 arg3 arg4 arg5 fid eid : Z) f : sbiret * F :=
  ecall (EcallRegs arg0 arg1 arg2 arg3 arg4 arg5 fid eid) f.

Definition putchar (ch : Z) f : F := snd (sbi_call ch 0 0 0 0 0 0 1 f).

Definition getchar f : Z * F :=
  let '(ret, f) := sbi_call 0 0 0 0 0 0 0 2 f in (error ret, f).

(** What follows the call is an endless wait for interrupts. *)
Definition sbi_shutdown f : F := snd (sbi_call 0 0 0 0 0 0 0 8 f).

(** The loops that print character by character. *)
Definition put_all (l : list Z) f : F := foldl (λ f ch, putchar ch f) f l.

(** [printf], down to the firmware. *)
Definition printf_out (fmt : string) (args : list arg) f : option F :=
  let! l := printf (bytes fmt) args in Some (put_all l f).

(** [buf] is [None] for NULL. *)
Definition console_write_fallback (buf : option (list Z)) (size : Z) f : Z * F :=
  match buf with
  | None => (-1, f)
  | Some src =>
      if size =? 0 then (0, f)
      else (i32 size, put_all (map u8 (take (Z.to_nat size) src)) f)
  end.

Definition kernel_shutdown f : option F :=
  let! g := printf_out "[*] kernel shutdown requested.
" [] f in Some (sbi_shutdown g).

(** ** The legacy console

    [typed] are the characters the firmware holds for the kernel, [printed] those it
    was given. *)
Class LegacyConsole (typed printed : F → list Z) : Prop := {
  console_putchar ch f :
    let f' := snd (ecall (EcallRegs ch 0 0 0 0 0 0 1) f) in
    typed f' = typed f ∧ printed f' = printed f ++ [u8 ch];
  console_getchar f :
    let '(ret, f') := ecall (EcallRegs 0 0 0 0 0 0 0 2) f in
    printed f' = printed f ∧
    match typed f with
    | [] => error ret = -1 ∧ typed f' = []
    | ch :: l => error ret = ch ∧ typed f' = l
    end
}.

Context (typed printed : F → list Z) `{!LegacyConsole typed printed}.

(** [getchar] is that of [Console] on the characters the firmware holds. *)
Lemma getchar_console f :
  let '(ch, f') := getchar f in
  (ch, typed f') = Console.getchar (typed f) ∧ printed f' = printed f.
Proof.
  unfold getchar, sbi_call. pose proof (console_getchar f) as Hg. destruct (ecall _ f) as [ret f'].
  destruct Hg as [Hp Hg]. split; [|done]. destruct (typed f); by destruct Hg as [-> ->].
Qed.

Lemma put_all_console l f :
  typed (put_all l f) = typed f ∧ printed (put_all l f) = printed f ++ map u8 l.
Proof.
  revert f. induction l as [|ch l IH]; intros f; simpl; [by rewrite app_nil_r|].
  destruct (IH (putchar ch f)) as [-> ->]. pose proof (console_putchar ch f) as [Ht Hp].
  unfold putchar, sbi_call. rewrite Ht, Hp. by rewrite <-app_assoc.
Qed.

(** [printf] prints its text, and reads nothing. *)
Lemma printf_console fmt args f l :
  printf (bytes fmt) args = Some l →
  ∃ f', printf_out fmt args f = Some f' ∧ typed f' = typed f ∧ printed f' = printed f ++ map u8 l.
Proof.
  intros Hl. unfold printf_out. rewrite Hl. eexists. split; [done|]. apply put_all_console.
Qed.

(** A write to the console prints the buffer, whole. *)
Lemma console_write_console src size f :
  0 ≤ size < 2147483648 → Forall is_byte src →
  let '(r, f') := console_write_fallback (Some src) size f in
  r = size ∧ typed f' = typed f ∧ printed f' = printed f ++ take (Z.to_nat size) src.
Proof.
  intros Hs Hb. unfold console_write_fallback. destruct (Z.eqb_spec size 0) as [->|].
  - by rewrite app_nil_r.
  - rewrite i32_small by lia.
    assert (Hu : map u8 (take (Z.to_nat size) src) = take (Z.to_nat size) src).
    { assert (Ht : Forall is_byte (take (Z.to_nat size) src)) by by apply Forall_take.
      induction Ht as [|b l Hbl ? IH]; simpl; [done|]. by rewrite IH, u8_small. }
    destruct (put_all_console (map u8 (take (Z.to_nat size) src)) f) as [Ht Hp].
    split; [done|]. split; [done|]. by rewrite Hp, Hu, Hu.
Qed.
End firmware.

(** ** An emulated firmware *)

Record emulator := Emulator { keys : list Z; screen : list Z; powered : bool }.

#[export] Instance emulator_firmware : Firmware emulator := {
  ecall r e :=
    if ea7 r =? 1 then (Sbiret 0 0, Emulator (keys e) (screen e ++ [u8 (ea0 r)]) (powered e))
    else if ea7 r =? 2 then
      match keys e with
      | [] => (Sbiret (-1) 0, e)
      | k :: l => (Sbiret k 0, Emulator l (screen e) (powered e))
      end
    else if ea7 r =? 8 then (Sbiret 0 0, Emulator (keys e) (screen e) false)
    else (Sbiret (-2) 0, e)
}.

#[export] Instance emulator_console : LegacyConsole keys screen.
Proof.
  split.
  - done.
  - intros e. cbn. destruct (keys e) as [|k l] eqn:Hk; cbn; [|done]. by rewrite Hk.
Qed.

(** The shutdown says so and switches the machine off. *)
Example shuts_down :
  kernel_shutdown (Emulator [] [] true) =
  Some (Emulator [] (bytes "[*] kernel shutdown requested." ++ [10]) false).
Proof. vm_compute. reflexivity. Qed.
