(* ===== verification/Startup.v ===== *)
(** * What the kernel prints as it starts ([src/kernel/kernel.c])

    The texts of [kernel_bootstrap], of the initialisations it calls, and of [banner],
    when nothing panics; what the initialisations do is in [Kernel]. *)
From Stdlib Require Import ZArith Lia String.
From stdpp Require Import base tactics list numbers option.
From S2P Require Import Prelude Memory CString BlockDev NodeFs Vfs Process PageTable Console Kernel Syscall Firmware.
#[local] Open Scope Z_scope.

(** A call of [printf], and what a run of calls prints. *)
Definition call : Type := list Z * list arg.

Fixpoint text (l : list call) : option (list Z) :=
  match l with
  | [] => Some []
  | c :: l => let! t := printf c.1 c.2 in let! u := text l in Some (t ++ u)
  end.

Definition newline : list Z := [10].
Definition say (s : string) : call := (bytes s, []).
Definition say_line (s : string) : call := (bytes s ++ newline, []).
Definition say_with (s : string) (args : list arg) : call := (bytes s ++ newline, args).
Definition ok : call := say_line "OK".

(** [memory_init] ([kernel/mm/memory.c]). *)
Definition memory_init_text : list call :=
  [say "     [mem] check free ram range..."; ok;
   say "     [mem] calculate page size..."; ok;
   say "     [mem] create bitmap..."; ok].

(** [fs_init] ([kernel/fs/fs.c]); the flags say whether the root file system had no
    directory for the mount yet. *)
Definition fs_init_text (tmp_missing proc_missing : bool) : list call :=
  [(newline, []);
   say "     [fs] reset fd/mount tables..."; ok;
   say "     [fs] init block device (virtio-blk)..."; ok;
   say "     [fs] init rootfs (persistent pfs)..."; ok;
   say "     [fs] init tmpfs (volatile ramfs)..."; ok;
   say "     [fs] init procfs (volatile ramfs)..."; ok;
   say "     [fs] mount: rootfs -> / ..."; ok] ++
  (if tmp_missing then [say "     [fs] create mountpoint: /tmp ..."; ok] else []) ++
  [say "     [fs] mount: tmpfs -> /tmp ..."; ok] ++
  (if proc_missing then [say "      [fs] create mountpoint: /proc ..."; ok] else []) ++
  [say "     [fs] mount: procfs -> /proc ..."; ok].

(** [ts] is the boot time, [total] what [memory_init] returned. *)
Definition bootstrap_text (tmp_missing proc_missing : bool) (ts : list Z) (total : Z) : list call :=
  [say_line "[*] kernel bootstrap started.";
   say_line "[*] initialize memory...";
   say "     [mem] bss zero clear..."; ok] ++
  memory_init_text ++
  [say "[*] initialize trapvector..."; ok;
   say_line "[*] initialize timer interrupt...";
   say "     [timer] enable timer interrupt..."; ok;
   say "     [timer] set next timer..."; ok;
   say "[*] initialize filesystem..."] ++
  fs_init_text tmp_missing proc_missing ++
  [say "[*] initialize real-time clock..."; ok;
   say "[*] initialize process..."; ok;
   say_line "[*] kernel information:";
   say_with "     version         : %s" [AStr KERNEL_VERSION];
   say_with "     kenel boot time : %s" [AStr ts];
   say_with "     total pages     : %d" [AInt total];
   say_with "     page size       : %d bytes" [AInt PAGE_SIZE];
   say_with "     kernel base     : 0x%x" [AInt KERNEL_BASE];
   say_with "     user base       : 0x%x" [AInt USER_BASE];
   say_with "     proc max        : %d" [AInt PROCS_MAX];
   say_with "     kernel stack    : %d bytes/proc" [AInt KERNEL_STACK_BYTES];
   say_with "     time slice      : %d ticks" [AInt SCHED_TIME_SLICE_TICKS];
   say_with "     timer interval  : %d ms" [AInt (TIMER_INTERVAL / 10000)];
   say_with "     ramfs node max  : %d" [AInt FS_MAX_NODES];
   say_with "     ramfs size max  : %d bytes" [AInt FS_FILE_MAX_SIZE];
   say_with "     pfs blk count   : %d" [AInt BLOCKDEV_BLOCK_COUNT];
   say_with "     pfs blk size    : %d bytes" [AInt BLOCKDEV_BLOCK_SIZE];
   say_with "     pfs img blks    : %d" [AInt fs_get_pfs_image_blocks];
   say_with "     pfs img bytes   : %d" [AInt (fs_get_pfs_image_blocks * BLOCKDEV_BLOCK_SIZE)];
   say_line "[*] kernel bootstrap completed."].

Definition CONSOLE_BLUE : list Z := 27 :: bytes "[34m".
Definition CONSOLE_RESET : list Z := 27 :: bytes "[0m".

Definition banner : list call :=
  let blue := AStr CONSOLE_BLUE in
  let reset := AStr CONSOLE_RESET in
  [(newline ++ newline, []);
   (CONSOLE_BLUE, []);
   say_line "              /\";
   say_line "             /  \";
   say_with "            / %s__ %s\" [reset; blue];
   say_with "           / %s/  \ %s\" [reset; blue];
   (bytes "           \_%s\__/%s_/" ++ newline ++ newline, [reset; blue]);
   (CONSOLE_RESET, []);
   (bytes "    Welcome to %sAquaCore%s %s" ++ newline ++ newline, [blue; reset; AStr KERNEL_VERSION])].

(** [kernel_main] up to its [yield]. *)
Definition kernel_main_text (tmp_missing proc_missing : bool) (ts : list Z) (total : Z) : list call :=
  bootstrap_text tmp_missing proc_missing ts total ++ banner.

(** ** The texts reach the console *)

Lemma text_total l : Forall (λ c, is_Some (printf c.1 c.2)) l → is_Some (text l).
Proof.
  induction 1 as [|c l [t Ht] _ [u Hu]]; cbn [text]; [by eexists|]. rewrite Ht, Hu. by eexists.
Qed.

Lemma print_decimal_total v : is_Some (print_decimal v).
Proof.
  unfold print_decimal. set (m := if v <? 0 then u32 (- u32 v) else u32 v).
  assert (Hm : 0 ≤ m < 4294967296) by (subst m; case_if; apply u32_range).
  destruct (print_magnitude m Hm) as (ds & Hp & _). destruct (top_divisor print_fuel m 1); [|done].
  rewrite Hp. by eexists.
Qed.

(** [printf] ends and prints something for every format, whatever its arguments. *)
Lemma printf_total fmt args : is_Some (printf fmt args).
Proof.
  remember (length fmt) as n eqn:Hn. revert fmt args Hn.
  induction (lt_wf n) as [n _ IH]. intros [|c fmt] args ->; [by eexists|]. simpl.
  assert (Hnext : ∀ g as', (length g < S (length fmt))%nat → is_Some (printf g as'))
    by (intros g as' ?; by apply (IH (length g))).
  destruct (c =? 0); [by eexists|]. destruct (c =? 37); [|apply fmap_is_Some, Hnext; lia].
  destruct fmt as [|d fmt]; [by eexists|]. cbn [length] in Hnext.
  assert (H2 : ∀ as', is_Some (printf fmt as')) by (intros; apply Hnext; lia).
  destruct (d =? 0); [by eexists|]. destruct (d =? 37); [apply fmap_is_Some, H2|].
  destruct (d =? 115); [|destruct (d =? 100); [|destruct (d =? 120); [|apply H2]]];
    destruct args as [|[s|v] args']; try apply H2; try apply fmap_is_Some, H2.
  destruct (print_decimal_total v) as [ds ->]. apply fmap_is_Some, H2.
Qed.

Lemma text_is_some l : is_Some (text l).
Proof. apply text_total, Forall_true. intros c. apply printf_total. Qed.

Section console.
Context {F : Type} `{Firmware F} (typed printed : F → list Z) `{!LegacyConsole typed printed}.

(** The calls in turn. *)
Definition print_all (l : list call) (f : F) : option F :=
  foldl (λ o c, let! g := o in let! t := printf c.1 c.2 in Some (put_all t g)) (Some f) l.

Lemma print_all_text l t f :
  text l = Some t →
  ∃ f', print_all l f = Some f' ∧ typed f' = typed f ∧ printed f' = printed f ++ map u8 t.
Proof.
  unfold print_all. revert t f. induction l as [|c l IH]; intros t f; cbn [text foldl].
  - intros [= <-]. exists f. by rewrite app_nil_r.
  - destruct (printf c.1 c.2) as [t1|]; [|done]. destruct (text l) as [u|]; [|done]. intros [= <-].
    destruct (put_all_console typed printed t1 f) as [Ht Hp].
    destruct (IH u (put_all t1 f) eq_refl) as (f' & -> & Ht' & Hp').
    exists f'. split; [done|]. rewrite Ht', Ht, Hp', Hp, map_app. by rewrite app_assoc.
Qed.

(** The start-up prints all of its text, whatever the time and the memory, and reads
    nothing that was typed. *)
Lemma start_up_prints (tmp_missing proc_missing : bool) (ts : list Z) (total : Z) (f : F) :
  ∃ t f', text (kernel_main_text tmp_missing proc_missing ts total) = Some t ∧
    print_all (kernel_main_text tmp_missing proc_missing ts total) f = Some f' ∧
    typed f' = typed f ∧ printed f' = printed f ++ map u8 t.
Proof.
  destruct (text_is_some (kernel_main_text tmp_missing proc_missing ts total)) as [t Ht].
  destruct (print_all_text _ t f Ht) as (f' & ? & ? & ?). by exists t, f'.
Qed.
End console.

(** A machine with 64 MB and a fresh disk: the text has 1567 characters. *)
Example first_start :
  (λ t, Z.of_nat (length t)) <$> text (kernel_main_text true true (bytes "2026-01-01 00:00:00 UTC") 16384) =
  Some 1567.
Proof. vm_compute. reflexivity. Qed.
