(* ===== verification/UserPath.v ===== *)
(** * Paths of the user programs ([src/user/runtime/user_path.c])

    The commands and the shell resolve the paths they are given to absolute paths
    without [.], [..] and repeated slashes, before they call the kernel.  The code works
    on character buffers; it is proved equal to a normalisation of lists of names, and
    the paths it makes mean what they say to the file system. *)
From Stdlib Require Import ZArith Lia ZifyBool String.
From stdpp Require Import base tactics list numbers option.
From S2P Require Import Prelude CString NodeFs NodeFsSpec NodeFsOps Vfs.
#[local] Open Scope Z_scope.

(** ** The code *)

(** A buffer with the length of the string in it. *)
Definition sbuf : Type := list Z * Z.

(** [while (i > 0 && path[i] != '/') i--;] *)
Fixpoint last_slash (i : nat) (path : list Z) : nat :=
  match i with
  | O => O
  | S i' => if ch path i =? 47 then i else last_slash i' path
  end.

Definition pop_component (b : sbuf) : sbuf :=
  let '(path, len) := b in
  if len <=? 1 then (<[1%nat := 0]> path, 1)
  else
    let i := last_slash (Z.to_nat (len - 1)) path in
    if (i =? 0)%nat then (<[1%nat := 0]> path, 1) else (<[i := 0]> path, Z.of_nat i).

(** [if (norm_len + 1 >= FS_PATH_MAX) return -1; norm[norm_len++] = c;] *)
Definition put_char (c : Z) (b : sbuf) : option sbuf :=
  let '(norm, len) := b in
  if FS_PATH_MAX <=? len + 1 then None else Some (<[Z.to_nat len := c]> norm, len + 1).

Fixpoint put_chars (token : list Z) (b : sbuf) : option sbuf :=
  match token with
  | [] => Some b
  | c :: token' => let! b := put_char c b in put_chars token' b
  end.

Definition push_component (token : list Z) (b : sbuf) : option sbuf :=
  let! b := if 1 <? b.2 then put_char 47 b else Some b in
  let! (norm, len) := put_chars token b in
  Some (<[Z.to_nat len := 0]> norm, len).

(** The loop that reads a token, of which it keeps the first 15 characters; the rest of
    the string. *)
Fixpoint read_token (src token : list Z) : list Z * list Z :=
  match src with
  | [] => (token, [])
  | c :: src' =>
      if (c =? 0) || (c =? 47) then (token, src)
      else read_token src' (if Z.of_nat (length token) <? FS_NAME_MAX - 1 then token ++ [c] else token)
  end.

Definition put_component (token : list Z) (b : sbuf) : option sbuf :=
  if Z.of_nat (length token) <=? 0 then Some b
  else if strcmp token (bytes ".") =? 0 then Some b
  else if strcmp token (bytes "..") =? 0 then Some (pop_component b)
  else push_component token b.

(** The loop over the components, of which there are fewer than characters. *)
Fixpoint path_loop (fuel : nat) (src : list Z) (b : sbuf) : option sbuf :=
  match fuel with
  | O => None
  | S fuel' =>
      let '(token, src) := read_token src [] in
      let! b := put_component token b in
      if ch src 0 =? 0 then Some b else path_loop fuel' (skip_slashes src) b
  end.

(** The path that is normalised; [cwd] is what [getcwd] gives, [None] when it fails, and
    [abs] the array before it is written. *)
Definition absolute (input : list Z) (cwd : option (list Z)) (abs : list Z) : option (list Z) :=
  let abs := <[0%nat := 0]> abs in
  if ch input 0 =? 47 then Some (strcpy_s abs FS_PATH_MAX input)
  else
    let! cwd := cwd in
    let abs := strcpy_s abs FS_PATH_MAX cwd in
    let abs := if negb (strcmp abs (bytes "/") =? 0) then strcat_s abs FS_PATH_MAX (bytes "/") else abs in
    Some (strcat_s abs FS_PATH_MAX input).

(** The return value, and the buffer [out].  [abs] and [norm] are the arrays on the
    stack. *)
Definition user_path_resolve (input : option (list Z)) (cwd : option (list Z)) (abs norm : list Z)
    (out : list Z) (out_size : Z) : Z * list Z :=
  match input with
  | None => (-1, out)
  | Some input =>
      if out_size =? 0 then (-1, out)
      else
        let out := <[0%nat := 0]> out in
        match absolute input cwd abs with
        | None => (-1, out)
        | Some abs =>
            match path_loop (S (length abs)) (skip_slashes abs) (<[1%nat := 0]> (<[0%nat := 47]> norm), 1) with
            | None => (-1, out)
            | Some (norm, _) => (0, strcpy_s out out_size norm)
            end
        end
  end.

Example resolve_dots :
  user_path_resolve (Some (bytes "../b//./c")) (Some (bytes "/tmp/a")) (zeros 64) (zeros 64) (repeat 7 64) 64
  = (0, bytes "/tmp/b/c" ++ [0] ++ repeat 7 55).
Proof. vm_compute. reflexivity. Qed.

(** ** What it means: a normalisation of lists of names *)

Definition slashed (names : list (list Z)) : list Z := concat (map (λ n, 47 :: n) names).

(** The path of a list of names. *)
Definition render (names : list (list Z)) : list Z :=
  match names with [] => [47] | _ => slashed names end.

(** A name after the names of a path: [.] stays, [..] goes up, and the root is its own
    parent. *)
Definition visit (acc : list (list Z)) (n : list Z) : list (list Z) :=
  if decide (n = bytes ".") then acc
  else if decide (n = bytes "..") then removelast acc
  else acc ++ [n].

Definition normalize (names : list (list Z)) : list (list Z) := fold_left visit names [].

(** The path a command means by its argument: 63 characters of it, below the working
    directory [cwd] unless it starts with a slash. *)
Definition absolute_path (input : list Z) (cwd : option (list Z)) : option (list Z) :=
  if ch input 0 =? 47 then Some (take 63 (cstr input))
  else
    let! cwd := cwd in
    let dir := cstr cwd in
    Some (take 63 (dir ++ (if decide (dir = [47]) then [] else [47]) ++ cstr input)).

(** The names the path of a command means; a name is cut to 15 characters. *)
Definition resolved (path : list Z) : list (list Z) := normalize (map (take 15) (path_names path)).

(** ** The buffer as a list of names *)

Definition clean (n : list Z) : Prop := n ≠ [] ∧ Forall (λ c, c ≠ 0 ∧ c ≠ 47) n.

Definition holds_path (b : sbuf) (names : list (list Z)) : Prop :=
  ∃ r, b = (render names ++ 0 :: r, Z.of_nat (length (render names))) ∧
       length b.1 = 64%nat ∧ Forall clean names.

Lemma slashed_app a b : slashed (a ++ b) = slashed a ++ slashed b.
Proof. unfold slashed. by rewrite map_app, concat_app. Qed.

Lemma slashed_snoc a n : slashed (a ++ [n]) = slashed a ++ 47 :: n.
Proof. rewrite slashed_app. unfold slashed. simpl. by rewrite app_nil_r. Qed.

Lemma render_snoc a n : render (a ++ [n]) = slashed a ++ 47 :: n.
Proof. rewrite <-slashed_snoc. by destruct a. Qed.

Lemma render_length a : length (render a) = Nat.max 1 (length (slashed a)).
Proof. destruct a; [done|]. simpl. lia. Qed.

Lemma clean_no_nul names : Forall clean names → no_nul (render names).
Proof.
  assert (Forall clean names → no_nul (slashed names)) as H.
  { induction 1 as [|n names [_ Hn] _ IH]; [constructor|].
    constructor; [done|]. apply Forall_app. split; [|exact IH].
    eapply Forall_impl; [|exact Hn]. simpl. tauto. }
  intros Hc. destruct names; [by repeat constructor|]. by apply H.
Qed.

Lemma holds_path_cstr b names : holds_path b names → cstr b.1 = render names.
Proof. intros (r&->&_&Hc). by apply cstr_app_nul, clean_no_nul. Qed.

Lemma insert_end {A} (l : list A) x y r : <[length l := x]> (l ++ y :: r) = l ++ x :: r.
Proof. rewrite insert_app_r_alt, Nat.sub_diag by lia. done. Qed.

Lemma ch_app_r (a q : list Z) k : ch (a ++ q) (length a + k) = ch q k.
Proof. unfold ch. rewrite app_nth2 by lia. f_equal. lia. Qed.

Lemma last_slash_spec a n q k :
  Forall (λ c, c ≠ 0 ∧ c ≠ 47) n → (k ≤ length n)%nat →
  last_slash (length a + k) (a ++ 47 :: n ++ q) = length a.
Proof.
  intros Hn. induction k as [|k IH]; intros Hk.
  - rewrite Nat.add_0_r. destruct (length a) as [|i] eqn:Ha; [done|]. cbn [last_slash].
    rewrite <-Ha. replace (ch _ _) with 47; [done|].
    rewrite <-(Nat.add_0_r (length a)), ch_app_r. done.
  - replace (length a + S k)%nat with (S (length a + k)) by lia. cbn [last_slash].
    replace (S (length a + k)) with (length a + S k)%nat at 1 by lia. rewrite ch_app_r.
    unfold ch. cbn [nth]. rewrite app_nth1 by lia.
    pose proof (proj1 (List.Forall_nth _ n) Hn k 0 ltac:(lia)) as [_ H].
    destruct (Z.eqb_spec (nth k n 0) 47); [done|]. apply IH. lia.
Qed.

Lemma pop_component_spec b names :
  holds_path b names → holds_path (pop_component b) (removelast names).
Proof.
  intros (r&->&Hl&Hc). simpl in Hl. destruct names as [|n names _] using rev_ind.
  { exists r. done. }
  rewrite removelast_last. apply Forall_app in Hc as [Hc [[Hn0 Hn] _]%Forall_cons_iff].
  rewrite !render_snoc in *. rewrite <-app_assoc, <-app_comm_cons in *. unfold pop_component.
  rewrite length_app in *. cbn [length] in *.
  assert (n = [] ∨ (1 ≤ length n)%nat) as [|Hn1] by (destruct n; [by left|right; simpl; lia]); [done|].
  case_if; [lia|].
  replace (Z.to_nat _) with (length (slashed names) + length n)%nat by lia.
  rewrite last_slash_spec by done.
  destruct names as [|n' names].
  - destruct n as [|c n]; [done|]. simpl. exists (n ++ 0 :: r).
    split_and!; [done| |constructor]. simpl in *. rewrite length_app in *. simpl in *. lia.
  - rewrite (proj2 (Nat.eqb_neq _ 0)) by done.
    exists (n ++ 0 :: r). rewrite insert_end. split_and!; [done| |done].
    cbn [fst] in *. rewrite !length_app in *. simpl in *. rewrite !length_app in *. simpl in *. lia.
Qed.

(** Characters put behind a string, when they fit. *)
Lemma put_chars_spec token s r :
  length (s ++ r) = 64%nat → (length (s ++ token) ≤ 63)%nat →
  ∃ r', put_chars token (s ++ r, Z.of_nat (length s)) =
          Some ((s ++ token) ++ r', Z.of_nat (length (s ++ token))) ∧
        length ((s ++ token) ++ r') = 64%nat.
Proof.
  revert s r. induction token as [|c token IH]; intros s r Hl Ht.
  - exists r. by rewrite app_nil_r.
  - rewrite length_app in Hl, Ht. cbn [length] in Ht. destruct r as [|x r]; [simpl in *; lia|].
    cbn [put_chars put_char]. unfold FS_PATH_MAX. case_if; [lia|]. simpl.
    rewrite Nat2Z.id, insert_end.
    destruct (IH (s ++ [c]) r) as (r'&H1&H2).
    { rewrite <-app_assoc. rewrite length_app. simpl in *. lia. }
    { rewrite !length_app. simpl. lia. }
    exists r'. rewrite <-!app_assoc in *. cbn in *. rewrite <-H1. split; [|done].
    do 2 f_equal. rewrite length_app. simpl. lia.
Qed.

Lemma put_slash_spec (b : sbuf) names :
  holds_path b names → (length (slashed names) ≤ 62)%nat →
  ∃ r, (if 1 <? b.2 then put_char 47 b else Some b) =
         Some ((slashed names ++ [47]) ++ r, Z.of_nat (length (slashed names ++ [47]))) ∧
       length ((slashed names ++ [47]) ++ r) = 64%nat.
Proof.
  intros (r&->&Hl&Hc) Hfit. cbn [fst] in Hl. destruct names as [|n names].
  - exists (0 :: r). done.
  - apply Forall_cons_iff in Hc as [[Hn _] _]. destruct n as [|c n]; [done|].
    cbn [snd]. rewrite (proj2 (Z.ltb_lt 1 _)) by (simpl; lia).
    destruct (put_chars_spec [47] (slashed ((c :: n) :: names)) (0 :: r)) as (r'&H1&H2);
      [exact Hl|rewrite length_app; simpl; simpl in Hfit; lia|].
    exists r'. split; [|exact H2]. cbn [put_chars] in H1.
    destruct (put_char 47 _); [exact H1|done].
Qed.

Lemma push_component_spec b names token :
  holds_path b names → clean token → (length (slashed names) + length token ≤ 62)%nat →
  ∃ b', push_component token b = Some b' ∧ holds_path b' (names ++ [token]).
Proof.
  intros Hb Ht Hfit. destruct (put_slash_spec b names Hb) as (r'&Hs&Hl'); [lia|].
  unfold push_component. rewrite Hs. cbn [mbind option_bind].
  destruct (put_chars_spec token (slashed names ++ [47]) r' Hl') as (r''&H1&H2);
    [rewrite !length_app; simpl; lia|].
  assert ((slashed names ++ [47]) ++ token = render (names ++ [token])) as He
    by (by rewrite render_snoc, <-app_assoc).
  rewrite He in *. rewrite H1. cbn [mbind option_bind]. rewrite Nat2Z.id.
  destruct r'' as [|x r''].
  { rewrite app_nil_r, render_snoc, length_app in H2. simpl in H2. lia. }
  rewrite insert_end. eexists. split; [done|]. exists r''. split_and!; [done| |].
  - cbn [fst]. rewrite length_app in *. done.
  - destruct Hb as (_&_&_&Hc). apply Forall_app. split; [done|by constructor].
Qed.

(** One token of the string: the first of its pieces, and the rest of the string. *)
Lemma read_token_spec src token :
  ∃ h t, split_slash (cstr src) = h :: t ∧ Forall (λ c, c ≠ 0 ∧ c ≠ 47) h ∧
    (read_token src token).1 = token ++ take (15 - length token) h ∧
    let rest := (read_token src token).2 in
    path_names rest = List.filter nonempty t ∧
    (length (cstr src) = length h + length (cstr rest))%nat ∧
    (length rest ≤ length src)%nat ∧ (ch rest 0 = 0 ∨ ch rest 0 = 47).
Proof.
  revert token. induction src as [|c src IH]; intros token.
  - exists [], []. simpl. rewrite take_nil, app_nil_r. split_and!; try done. by left.
  - cbn [read_token cstr]. destruct (Z.eqb_spec c 0) as [->|Hc0]; cbn [orb].
    { exists [], []. simpl. rewrite take_nil, app_nil_r. split_and!; try done. by left. }
    destruct (Z.eqb_spec c 47) as [->|Hc].
    { exists [], (split_slash (cstr src)). simpl. rewrite take_nil, app_nil_r.
      split_and!; try done. by right. }
    destruct (IH (if Z.of_nat (length token) <? FS_NAME_MAX - 1 then token ++ [c] else token))
      as (h&t&Hs&Hh&Ht&Hp&Hl&Hlen&Hr).
    exists (c :: h), t. simpl. rewrite Hs, (proj2 (Z.eqb_neq c 47) Hc). split_and!; try done.
    + by constructor.
    + rewrite Ht. unfold FS_NAME_MAX. destruct (Z.ltb_spec (Z.of_nat (length token)) (16 - 1)).
      * rewrite length_app, <-app_assoc. cbn [length]. f_equal.
        replace (15 - length token)%nat with (S (15 - (length token + 1))) by lia. done.
      * replace (15 - length token)%nat with 0%nat by lia. done.
    + simpl. lia.
    + lia.
Qed.

Lemma clean_take n k : clean n → clean (take (S k) n).
Proof. intros [H0 Hn]. split; [by destruct n|by apply Forall_take]. Qed.

Lemma strcmp_clean n s : clean n → no_nul s → strcmp n s = 0 ↔ n = s.
Proof.
  intros [_ Hn] Hs. rewrite strcmp_zero, !cstr_id; [done|done|].
  eapply Forall_impl; [|exact Hn]. simpl. tauto.
Qed.

Lemma removelast_slashed names : (length (slashed (removelast names)) ≤ length (slashed names))%nat.
Proof.
  destruct names as [|n names _] using rev_ind; [done|].
  rewrite removelast_last, slashed_snoc, length_app. lia.
Qed.

Lemma put_component_spec b names n :
  holds_path b names → clean n → (length (slashed names) + length n ≤ 62)%nat →
  ∃ b', put_component n b = Some b' ∧ holds_path b' (visit names n) ∧
        (length (slashed (visit names n)) ≤ length (slashed names) + 1 + length n)%nat.
Proof.
  intros Hb Hn Hfit. unfold put_component, visit.
  assert (n = bytes "." ∨ n ≠ bytes ".") as Hdot by (destruct (decide (n = bytes ".")); auto).
  rewrite (proj2 (Z.leb_gt _ 0)) by (destruct Hn; destruct n; simpl; [done|lia]).
  pose proof (strcmp_clean n (bytes ".") Hn ltac:(by repeat constructor)) as H1.
  pose proof (strcmp_clean n (bytes "..") Hn ltac:(by repeat constructor)) as H2.
  destruct (decide (n = bytes ".")) as [He|He].
  { rewrite (proj2 (Z.eqb_eq _ _) (proj2 H1 He)). exists b. split_and!; [done..|lia]. }
  rewrite (proj2 (Z.eqb_neq _ _)) by tauto.
  destruct (decide (n = bytes "..")) as [He'|He'].
  { rewrite (proj2 (Z.eqb_eq _ _) (proj2 H2 He')). eexists. split; [done|].
    split; [by apply pop_component_spec|]. pose proof (removelast_slashed names). lia. }
  rewrite (proj2 (Z.eqb_neq _ _)) by tauto.
  destruct (push_component_spec b names n Hb Hn Hfit) as (b'&Hp&Hb'). exists b'.
  split_and!; [done..|]. rewrite slashed_snoc, length_app. simpl. lia.
Qed.

Lemma put_component_empty b : put_component [] b = Some b.
Proof. done. Qed.

Lemma path_names_split src h t :
  split_slash (cstr src) = h :: t →
  path_names src = (if decide (h = []) then [] else [h]) ++ List.filter nonempty t.
Proof. intros H. unfold path_names. rewrite H. by destruct h. Qed.

(** The loop is the normalisation, and the string it makes is no longer than the one it
    reads: the checks of the length never refuse. *)
Lemma path_loop_spec fuel src b names :
  holds_path b names → (length (slashed names) + length (cstr src) ≤ 62)%nat →
  (length src < fuel)%nat →
  ∃ b', path_loop fuel src b = Some b' ∧
        holds_path b' (fold_left visit (map (take 15) (path_names src)) names).
Proof.
  revert src b names. induction fuel as [|fuel IH]; intros src b names Hb Hfit Hf; [lia|].
  destruct (read_token_spec src []) as (h&t&Hsp&Hh&Htok&Hp&Hl&Hlen&Hr).
  cbn [path_loop]. destruct (read_token src []) as [token rest]. cbn [fst snd] in *.
  cbn [app length] in Htok. rewrite Nat.sub_0_r in Htok. subst token. rewrite (path_names_split _ _ _ Hsp), <-Hp.
  assert (∃ b' names', put_component (take 15 h) b = Some b' ∧ holds_path b' names' ∧
      fold_left visit (map (take 15) ((if decide (h = []) then [] else [h]) ++ path_names rest)) names =
      fold_left visit (map (take 15) (path_names rest)) names' ∧
      (length (slashed names') + length (cstr rest) ≤ 63)%nat) as (b'&names'&Hc&Hb'&->&Hfit').
  { destruct (decide (h = [])) as [->|Hne].
    - exists b, names. split_and!; try done. lia.
    - destruct (put_component_spec b names (take 15 h)) as (b'&H1&H2&H3); [done| | |].
      + apply clean_take. done.
      + rewrite length_take. lia.
      + exists b', (visit names (take 15 h)). split_and!; try done. rewrite length_take in H3. lia. }
  rewrite Hc. cbn [mbind option_bind app]. destruct Hr as [Hr|Hr]; rewrite Hr; simpl.
  - rewrite path_names_end by done. by exists b'.
  - rewrite <-(cstr_skip_slashes rest).
    assert (ch rest 0 ≠ 0) as Hr0 by lia. pose proof (cstr_step rest Hr0) as Hs.
    destruct rest as [|c rest]; [done|]. unfold ch in Hr. simpl in Hr. subst c.
    cbn [skip_slashes] in *. rewrite Z.eqb_refl. pose proof (skip_slashes_length rest) as Hk.
    assert (length (cstr (skip_slashes rest)) ≤ length (cstr rest))%nat as Hk'.
    { clear. induction rest as [|c rest IH]; [done|]. simpl. destruct (Z.eqb_spec c 47) as [->|].
      - simpl. lia.
      - done. }
    apply IH; [done| |]; simpl in *; lia.
Qed.

(** ** The path that is normalised *)

Lemma take_take_app {A} n (l k : list A) : take n (take n l ++ k) = take n (l ++ k).
Proof.
  destruct (Nat.le_ge_cases (length l) n).
  - by rewrite (take_ge l) by lia.
  - rewrite (take_app_le _ k) by (rewrite length_take; lia).
    by rewrite take_take, Nat.min_id, take_app_le by lia.
Qed.

Lemma strcat_s_spec dst n src :
  n = Z.of_nat (length dst) → 1 ≤ n →
  cstr (strcat_s dst n src) = take (Z.to_nat (n - 1)) (cstr dst ++ cstr src) ∧
  length (strcat_s dst n src) = length dst.
Proof.
  intros -> Hn. destruct (bounded_copies dst (Z.of_nat (length dst)) src) as (_&H&Hl&_); [lia|].
  rewrite Nat2Z.id, firstn_all in H. done.
Qed.

Lemma absolute_spec input cwd abs :
  length abs = 64%nat →
  match absolute input cwd abs with
  | Some a => absolute_path input cwd = Some (cstr a) ∧ length a = 64%nat
  | None => absolute_path input cwd = None
  end.
Proof.
  intros Hl. assert (length (<[0%nat := 0]> abs) = 64%nat) as Hl' by (by rewrite length_insert).
  unfold absolute, absolute_path. revert Hl'. generalize (<[0%nat := 0]> abs). intros a Ha.
  case_if.
  { destruct (strcpy_s_spec a FS_PATH_MAX input) as (H1&H2&_); [unfold FS_PATH_MAX; lia|].
    by rewrite H1, H2. }
  destruct cwd as [d|]; [|done]. cbn [mbind option_bind].
  destruct (strcpy_s_spec a FS_PATH_MAX d) as (H1&H2&_); [unfold FS_PATH_MAX; lia|].
  revert H1 H2. generalize (strcpy_s a FS_PATH_MAX d). intros b Hb Hbl.
  assert (strcmp b (bytes "/") = 0 ↔ cstr d = [47]) as Hroot.
  { rewrite strcmp_zero, Hb. change (cstr (bytes "/")) with [47].
    destruct (cstr d) as [|c1 [|c2 l]]; simpl; split; intros Hx; by simplify_eq. }
  assert (∃ b', (if negb (strcmp b (bytes "/") =? 0) then strcat_s b FS_PATH_MAX (bytes "/") else b) = b' ∧
      length b' = 64%nat ∧
      cstr b' = take 63 (cstr d ++ (if decide (cstr d = [47]) then [] else [47]))) as (b'&->&Hl2&Hs).
  { destruct (decide (cstr d = [47])) as [He|He].
    - rewrite (proj2 (Z.eqb_eq _ _) (proj2 Hroot He)). exists b.
      rewrite app_nil_r. split_and!; [done|congruence|exact Hb].
    - rewrite (proj2 (Z.eqb_neq _ _)) by tauto. exists (strcat_s b FS_PATH_MAX (bytes "/")). split; [done|].
      destruct (strcat_s_spec b FS_PATH_MAX (bytes "/")) as (H1&H2);
        [unfold FS_PATH_MAX; lia|done|].
      split; [congruence|]. rewrite H1, Hb. apply take_take_app. }
  destruct (strcat_s_spec b' FS_PATH_MAX input) as (H1&H2); [unfold FS_PATH_MAX; lia|done|].
  split; [|congruence]. rewrite H1, Hs. change (Z.to_nat (FS_PATH_MAX - 1)) with 63%nat.
  by rewrite take_take_app, app_assoc.
Qed.

Lemma absolute_path_slash input cwd a :
  (∀ d, cwd = Some d → ch d 0 = 47) → absolute_path input cwd = Some (cstr a) →
  ch a 0 = 47 ∧ (length (cstr a) ≤ 63)%nat.
Proof.
  intros Hd Ha.
  assert (∃ s t, cstr a = take 63 (cstr s ++ t) ∧ ch s 0 = 47) as (s&t&He&Hs).
  { unfold absolute_path in Ha. destruct (Z.eqb_spec (ch input 0) 47) as [Hi|Hi].
    - exists input, []. rewrite app_nil_r. by injection Ha as <-.
    - destruct cwd as [d|]; [|done]. injection Ha as Ha. exists d. eexists. rewrite <-Ha. eauto. }
  split; [|rewrite He, length_take; lia].
  rewrite (cstr_step s) in He by lia. rewrite Hs in He. simpl in He.
  destruct a as [|c a]; [done|]. simpl in He. unfold ch. simpl.
  destruct (c =? 0); congruence.
Qed.

(** ** The names of a normalised path *)

Lemma path_names_render names : Forall clean names → path_names (render names) = names.
Proof.
  intros Hc. assert (∀ n q, Forall (λ c, c ≠ 47) n →
      split_slash (n ++ 47 :: q) = n :: split_slash q) as Hsplit.
  { intros n q. induction 1 as [|c n H _ IH]; [done|]. simpl. rewrite IH.
    by rewrite (proj2 (Z.eqb_neq _ _)). }
  assert (∀ n, Forall (λ c, c ≠ 47) n → split_slash n = [n]) as Hlast.
  { induction 1 as [|c n H _ IH]; [done|]. simpl. rewrite IH.
    by rewrite (proj2 (Z.eqb_neq _ _)). }
  destruct names as [|n names]; [done|]. unfold path_names.
  rewrite cstr_id by (by apply clean_no_nul).
  change (List.filter nonempty (split_slash (n ++ slashed names)) = n :: names). revert n Hc.
  induction names as [|m names IH]; intros n [[H0 Hn] Hc]%Forall_cons_iff;
    (assert (Forall (λ c, c ≠ 47) n) as Hn' by (eapply Forall_impl; [|exact Hn]; simpl; tauto)).
  - unfold slashed. simpl. rewrite app_nil_r, Hlast by done. by destruct n.
  - change (slashed (m :: names)) with (47 :: m ++ slashed names). rewrite Hsplit by done.
    destruct n as [|c n]; [done|]. cbn [List.filter nonempty]. f_equal. by apply IH.
Qed.

Lemma path_names_clean p : Forall clean (path_names p).
Proof.
  unfold path_names. pose proof (cstr_no_nul p) as Hp. induction Hp as [|c s Hc _ IH]; [done|].
  simpl. destruct (Z.eqb_spec c 47) as [->|Hs]; [done|].
  destruct (split_slash_cons s) as (h&t&Ht). rewrite Ht in *. simpl in *. destruct h as [|d h].
  - simpl in IH. constructor; [|done]. split; [done|]. by repeat constructor.
  - apply Forall_cons_iff in IH as [[_ Hh] IH]. constructor; [|done]. split; [done|]. by constructor.
Qed.

(** A name that is neither [.] nor [..]. *)
Definition plain (n : list Z) : Prop := n ≠ bytes "." ∧ n ≠ bytes "..".

(** A list of names that every directory of the tree could have. *)
Definition canonical (names : list (list Z)) : Prop := Forall (λ n, good_name n ∧ plain n) names.

Lemma visit_canonical acc n :
  canonical acc → clean n → (length n ≤ 15)%nat → canonical (visit acc n).
Proof.
  intros Ha [H0 Hn] Hl. unfold visit, canonical in *. repeat case_decide; [done| |].
  - destruct acc as [|m acc _] using rev_ind; [done|]. rewrite removelast_last.
    by apply Forall_app in Ha as [? _].
  - apply Forall_app. split; [done|]. constructor; [|constructor]. split; [|done].
    split_and!; [done..| |]; (eapply Forall_impl; [|exact Hn]); simpl; tauto.
Qed.

Lemma resolved_canonical p : canonical (resolved p).
Proof.
  unfold resolved, normalize. assert (∀ names acc, Forall clean names → canonical acc →
      canonical (fold_left visit (map (take 15) names) acc)) as H.
  { induction names as [|n names IH]; intros acc Hc Ha; [done|].
    apply Forall_cons_iff in Hc as [Hn Hc]. simpl. apply IH; [done|].
    apply visit_canonical; [done|by apply clean_take|rewrite length_take; lia]. }
  apply H; [apply path_names_clean|by constructor].
Qed.

Lemma canonical_clean names : canonical names → Forall clean names.
Proof.
  intros H. eapply Forall_impl; [|exact H]. simpl. intros n ((H0&_&H1&H2)&_). split; [done|].
  unfold no_nul in H1. rewrite Forall_forall in *. auto.
Qed.

Lemma canonical_normalize names : canonical names → normalize (map (take 15) names) = names.
Proof.
  intros H. unfold normalize. change names with ([] ++ names) at 2. generalize (@nil (list Z)).
  induction H as [|n names [(_&Hl&_) [H1 H2]] _ IH]; intros acc; simpl; [by rewrite app_nil_r|].
  rewrite take_ge by lia. unfold visit at 2. rewrite !decide_False by done.
  by rewrite IH, <-app_assoc.
Qed.

Lemma resolved_render p : canonical (path_names p) → resolved p = path_names p.
Proof. apply canonical_normalize. Qed.

(** The string of [absolute_path] after normalisation, and its length. *)
Lemma resolve_run a fuel norm :
  length norm = 64%nat → ch a 0 = 47 → (length (cstr a) ≤ 63)%nat → (length a < fuel)%nat →
  ∃ b, path_loop fuel (skip_slashes a) (<[1%nat := 0]> (<[0%nat := 47]> norm), 1) = Some b ∧
       cstr b.1 = render (resolved a) ∧ (length (render (resolved a)) ≤ 63)%nat.
Proof.
  intros Hn Ha Hl Hf.
  assert (holds_path (<[1%nat := 0]> (<[0%nat := 47]> norm), 1) []) as H0.
  { destruct norm as [|x [|y norm]]; [done..|]. exists norm. by split_and!; [| |constructor]. }
  assert (length (cstr (skip_slashes a)) ≤ 62)%nat as Hs.
  { rewrite cstr_step in Hl by lia. destruct a as [|c a]; [done|]. unfold ch in Ha. simpl in Ha.
    subst c. simpl in *. clear -Hl. assert (length (cstr a) ≤ 62)%nat as H by lia. clear Hl.
    induction a as [|c a IH]; [done|]. simpl in *. destruct (Z.eqb_spec c 47) as [->|].
    - apply IH. simpl in H. lia.
    - done. }
  pose proof (skip_slashes_length a) as Hk.
  destruct (path_loop_spec fuel (skip_slashes a) _ [] H0) as (b&Hb&Hh); [simpl; lia..|].
  exists b. rewrite cstr_skip_slashes in Hh. split; [done|].
  split; [by apply holds_path_cstr|]. destruct Hh as (r&->&Hbl&_). cbn [fst] in Hbl.
  rewrite length_app in Hbl. unfold resolved, normalize. simpl in Hbl. lia.
Qed.

Lemma user_path_resolve_run input cwd abs norm out out_size path :
  length abs = 64%nat → length norm = 64%nat → 1 ≤ out_size ≤ Z.of_nat (length out) →
  (∀ d, cwd = Some d → ch d 0 = 47) → absolute_path input cwd = Some path →
  ∃ out', user_path_resolve (Some input) cwd abs norm out out_size = (0, out') ∧
    length out' = length out ∧ drop (Z.to_nat out_size) out' = drop (Z.to_nat out_size) out ∧
    cstr out' = take (Z.to_nat (out_size - 1)) (render (resolved path)) ∧
    (length (render (resolved path)) ≤ 63)%nat.
Proof.
  intros Hl Hn Ho Hcwd Hp. unfold user_path_resolve. rewrite (proj2 (Z.eqb_neq out_size 0)) by lia.
  assert (drop (Z.to_nat out_size) (<[0%nat := 0]> out) = drop (Z.to_nat out_size) out) as Hd
    by (by rewrite drop_insert_lt by lia).
  pose proof (length_insert out 0 0) as Hil.
  pose proof (absolute_spec input cwd abs Hl) as Ha.
  destruct (absolute input cwd abs) as [a|]; [destruct Ha as (Ha&Hal)|congruence].
  destruct (absolute_path_slash input cwd a Hcwd Ha) as (Hs&Hl63).
  destruct (resolve_run a (S (length a)) norm Hn Hs Hl63 ltac:(lia)) as (b&->&Hb&Hb63).
  destruct b as [b len]. cbn [fst] in Hb. eexists. split; [done|].
  destruct (strcpy_s_spec (<[0%nat := 0]> out) out_size b) as (H1&H2&H3); [lia|].
  assert (resolved path = resolved a) as ->.
  { rewrite Ha in Hp. injection Hp as <-. unfold resolved, path_names. by rewrite cstr_idemp. }
  split_and!; [congruence..| |done]. by rewrite H1, Hb.
Qed.

(** ** What [user_path_resolve] does *)

(** C18. [user_path_resolve] computes the reference normalisation: the argument, below the
    working directory unless it is absolute and cut to 63 characters; of its names
    [.] dropped, [..] taken as the parent (the root its own), each other name cut to 15
    characters; written with one slash before each name.  The result is cut to the
    buffer, NUL-terminated, and nothing beyond it is touched.  Only a failing [getcwd]
    gives -1: the length checks of the loop never do. *)
Theorem user_path_resolve_correct input cwd abs norm out out_size :
  length abs = 64%nat → length norm = 64%nat → 1 ≤ out_size ≤ Z.of_nat (length out) →
  (∀ d, cwd = Some d → ch d 0 = 47) →
  let '(r, out') := user_path_resolve (Some input) cwd abs norm out out_size in
  length out' = length out ∧ drop (Z.to_nat out_size) out' = drop (Z.to_nat out_size) out ∧
  match absolute_path input cwd with
  | None => r = -1 ∧ ch out' 0 = 0
  | Some path => r = 0 ∧ cstr out' = take (Z.to_nat (out_size - 1)) (render (resolved path))
  end.
Proof.
  intros Hl Hn Ho Hcwd. destruct (absolute_path input cwd) as [path|] eqn:Hp.
  - by destruct (user_path_resolve_run _ _ _ _ _ _ _ Hl Hn Ho Hcwd Hp) as (out'&->&?&?&?&_).
  - unfold user_path_resolve. rewrite (proj2 (Z.eqb_neq out_size 0)) by lia.
    pose proof (absolute_spec input cwd abs Hl) as Ha.
    destruct (absolute input cwd abs) as [a|]; [destruct Ha; congruence|].
    rewrite length_insert, drop_insert_lt by lia. split_and!; try done.
    destruct out; [simpl in Ho; lia|done].
Qed.

(** A path that [user_path_resolve] gives back is absolute and canonical: the file
    system can take each of its names (one to 15 characters), and none is [.] or [..].
    Resolving it again, below any working directory, gives the same string, and a path
    that was canonical keeps its names. *)
Theorem resolve_idempotent input cwd abs norm out path :
  length abs = 64%nat → length norm = 64%nat → (64 ≤ length out)%nat →
  (∀ d, cwd = Some d → ch d 0 = 47) → absolute_path input cwd = Some path →
  let out' := (user_path_resolve (Some input) cwd abs norm out 64).2 in
  ch out' 0 = 47 ∧ canonical (path_names out') ∧
  (canonical (path_names path) → path_names out' = path_names path) ∧
  ∀ cwd' abs' norm' out2, length abs' = 64%nat → length norm' = 64%nat → (64 ≤ length out2)%nat →
    (∀ d, cwd' = Some d → ch d 0 = 47) →
    let '(r, out2') := user_path_resolve (Some out') cwd' abs' norm' out2 64 in
    r = 0 ∧ cstr out2' = cstr out'.
Proof.
  intros Hl Hn Ho Hcwd Hp.
  destruct (user_path_resolve_run input cwd abs norm out 64 path Hl Hn ltac:(lia) Hcwd Hp)
    as (out'&->&_&_&Hc&Hlen). cbn [snd]. cbv zeta.
  rewrite take_ge in Hc by done. pose proof (resolved_canonical path) as Hcan.
  pose proof (canonical_clean _ Hcan) as Hcl.
  assert (path_names out' = resolved path) as Hnames.
  { rewrite <-path_names_render, <-Hc by done. unfold path_names. by rewrite cstr_idemp. }
  assert (ch out' 0 = 47) as H47.
  { assert (∃ l, cstr out' = 47 :: l) as (l&Hl47) by (rewrite Hc; destruct (resolved path); simpl; eauto).
    destruct out' as [|c out']; [done|]. simpl in Hl47. unfold ch. simpl. destruct (c =? 0); congruence. }
  rewrite Hnames. split_and!; [done..| |].
  - by intros ?%resolved_render.
  - intros cwd' abs' norm' out2 Hl' Hn' Ho2 Hcwd'.
    destruct (user_path_resolve_run out' cwd' abs' norm' out2 64 (take 63 (cstr out')) Hl' Hn'
                ltac:(lia) Hcwd') as (out2'&->&_&_&H2&_).
    { unfold absolute_path. by rewrite H47. }
    split; [done|]. rewrite H2, (take_ge (cstr out')) by (rewrite Hc; done).
    rewrite resolved_render; unfold path_names; rewrite cstr_idemp; fold (path_names out');
      rewrite Hnames; [|done]. rewrite take_ge by done. done.
Qed.

(** ** Concrete paths *)

Lemma user_path_resolve_correct_witness :
  let '(r, out') := user_path_resolve (Some (bytes "../b//./c")) (Some (bytes "/tmp/a")) (zeros 64)
                      (zeros 64) (repeat 7 80) 6 in
  length out' = 80%nat ∧ drop 6 out' = repeat 7 74 ∧
  r = 0 ∧ cstr out' = take 5 (render (resolved (bytes "/tmp/a/../b//./c"))).
Proof.
  exact (user_path_resolve_correct (bytes "../b//./c") (Some (bytes "/tmp/a")) (zeros 64)
    (zeros 64) (repeat 7 80) 6 eq_refl eq_refl
    ltac:(split; vm_compute; discriminate) ltac:(by intros d [= <-])).
Defined.

Lemma resolve_idempotent_witness :
  let out' := (user_path_resolve (Some (bytes "docs/../a.txt")) (Some (bytes "/")) (zeros 64)
                 (zeros 64) (repeat 7 64) 64).2 in
  cstr out' = bytes "/a.txt" ∧ canonical (path_names out').
Proof.
  cbv zeta. split; [by vm_compute|].
  exact (proj1 (proj2 (resolve_idempotent (bytes "docs/../a.txt") (Some (bytes "/")) (zeros 64)
    (zeros 64) (repeat 7 64) _ eq_refl eq_refl ltac:(apply Nat.leb_le; reflexivity)
    ltac:(by intros d [= <-]) eq_refl))).
Defined.

(** A name of more than 15 characters is cut: two names that differ later are the same
    to the commands. *)
Example long_names_meet :
  user_path_resolve (Some (bytes "/0123456789abcdeX")) None (zeros 64) (zeros 64) (zeros 64) 64
  = user_path_resolve (Some (bytes "/0123456789abcdeY")) None (zeros 64) (zeros 64) (zeros 64) 64.
Proof. vm_compute. reflexivity. Qed.
