(* ===== verification/UserProg.v ===== *)
(** * User programs ([src/user/runtime/])

    A user program is a computation that makes system calls: an interaction tree whose
    events are the [ecall]s, loops and endless programs included.  This file has the
    stubs of [user_syscall.c], the entry of [user.c], what it means to run a program
    above a kernel ([step], [wp]) and the kernel as the program of one process sees it
    through the file and console calls ([world]), made of the functions of [Vfs.v]. *)
From Stdlib Require Import ZArith Lia ZifyBool String.
From stdpp Require Import base tactics list numbers option.
From S2P Require Import Prelude CString TimeFmt BlockDev NodeFs Vfs Process UserMemory Syscall.
From ITree Require Import Core.ITreeDefinition.
#[local] Open Scope Z_scope.

(** ** Programs *)

(** An argument of a system call: a number, what a pointer points to, or a pointer to
    room for an answer. *)
Inductive uarg := UInt (z : Z) | UStr (s : list Z) | UArgs (argv : list (list Z)) | UBuf.

(** The answer: the register [a0], and what the kernel stored at the pointer. *)
Variant sysE : Type → Type :=
| Ecall (no : Z) (arg0 arg1 arg2 : uarg) : sysE (Z * list Z).

Definition prog (A : Type) : Type := itree sysE A.

Notation "'let*' x ':=' t 'in' k" := (ITree.bind t (λ x, k))
  (at level 10, x name, t at level 100, k at level 200) : c_scope.

(** [while (1) body], with the state the body goes round with. *)
Definition forever {S A : Type} (body : S → prog (S + A)) (s : S) : prog A := ITree.iter body s.

(** ** The system calls *)

Definition syscall (sysno : Z) (arg0 arg1 arg2 : uarg) : prog (Z * list Z) :=
  ITree.trigger (Ecall sysno arg0 arg1 arg2).

(** A call of which only the register counts. *)
Definition syscall_int (sysno : Z) (arg0 arg1 arg2 : uarg) : prog Z :=
  let* r := syscall sysno arg0 arg1 arg2 in Ret (fst r).

Definition putchar (c : Z) : prog unit :=
  let* _r := syscall SYSCALL_WRITE (UInt 1) (UStr [c]) (UInt 1) in Ret tt.

Definition getchar : prog Z :=
  let* r := syscall SYSCALL_READ (UInt 0) UBuf (UInt 1) in
  Ret (if fst r <=? 0 then -1 else u8 (ch (snd r) 0)).

Definition ps (index : Z) : prog (Z * list Z) := syscall SYSCALL_PS (UInt index) UBuf (UInt 0).
Definition clone (app_id : Z) : prog Z := syscall_int SYSCALL_CLONE (UInt app_id) (UInt 0) (UInt 0).
Definition spawn (app_id : Z) : prog Z := clone app_id.
Definition waitpid (pid : Z) : prog Z := syscall_int SYSCALL_WAITPID (UInt pid) (UInt 0) (UInt 0).
Definition ipc_send (pid message : Z) : prog Z :=
  syscall_int SYSCALL_IPC_SEND (UInt pid) (UInt message) (UInt 0).
Definition ipc_recv : prog (Z * list Z) := syscall SYSCALL_IPC_RECV UBuf (UInt 0) (UInt 0).
Definition bitmap (index : Z) : prog Z := syscall_int SYSCALL_BITMAP (UInt index) (UInt 0) (UInt 0).
Definition kill (pid : Z) : prog Z := syscall_int SYSCALL_KILL (UInt pid) (UInt 0) (UInt 0).
Definition kernel_info : prog (Z * list Z) := syscall SYSCALL_KERNEL_INFO UBuf (UInt 0) (UInt 0).

(** [exit] does not return: what the code does after it is not run. *)
Definition exit {A : Type} (unreachable : A) : prog A :=
  let* _r := syscall SYSCALL_EXIT (UInt 0) (UInt 0) (UInt 0) in Ret unreachable.

Definition u_open (path : list Z) (flags : Z) : prog Z :=
  syscall_int SYSCALL_OPEN (UStr path) (UInt flags) (UInt 0).
Definition u_close (fd : Z) : prog Z := syscall_int SYSCALL_CLOSE (UInt fd) (UInt 0) (UInt 0).
Definition u_read (fd size : Z) : prog (Z * list Z) :=
  syscall SYSCALL_READ (UInt fd) UBuf (UInt size).
Definition u_write (fd : Z) (buf : list Z) (size : Z) : prog Z :=
  syscall_int SYSCALL_WRITE (UInt fd) (UStr buf) (UInt size).
Definition u_mkdir (path : list Z) : prog Z := syscall_int SYSCALL_MKDIR (UStr path) (UInt 0) (UInt 0).
Definition u_readdir (path : list Z) (index : Z) : prog (Z * list Z) :=
  syscall SYSCALL_READDIR (UStr path) (UInt index) UBuf.
Definition u_unlink (path : list Z) : prog Z := syscall_int SYSCALL_UNLINK (UStr path) (UInt 0) (UInt 0).
Definition u_rmdir (path : list Z) : prog Z := syscall_int SYSCALL_RMDIR (UStr path) (UInt 0) (UInt 0).
Definition u_gettime : prog (Z * list Z) := syscall SYSCALL_GETTIME UBuf (UInt 0) (UInt 0).
Definition fork : prog Z := syscall_int SYSCALL_FORK (UInt 0) (UInt 0) (UInt 0).
Definition exec (app_id : Z) : prog Z := syscall_int SYSCALL_EXEC (UInt app_id) (UInt 0) (UInt 0).
Definition execv (app_id : Z) (argv : list (list Z)) : prog Z :=
  syscall_int SYSCALL_EXECV (UInt app_id) (UArgs argv) (UInt 0).
Definition dup2 (old_fd new_fd : Z) : prog Z :=
  syscall_int SYSCALL_DUP2 (UInt old_fd) (UInt new_fd) (UInt 0).
Definition getargs : prog (Z * list Z) := syscall SYSCALL_GETARGS UBuf (UInt 0) (UInt 0).
Definition getcwd : prog (Z * list Z) := syscall SYSCALL_GETCWD UBuf (UInt 0) (UInt 0).
Definition chdir (path : list Z) : prog Z := syscall_int SYSCALL_CHDIR (UStr path) (UInt 0) (UInt 0).

(** [printf] of the C library, which puts every character with a call. *)
Fixpoint put_all (put : Z → prog unit) (l : list Z) : prog unit :=
  match l with
  | [] => Ret tt
  | c :: l' => let* _u := put c in put_all put l'
  end.

Definition u_printf (fmt : list Z) (args : list arg) : prog unit :=
  put_all putchar (default [] (printf fmt args)).

(** ** The entry of a program *)

(** [args.argc] and the rows of [args.argv]; then [main], and [exit]. *)
Definition user_main_entry (main : list (list Z) → prog Z) : prog Z :=
  let* r := getargs in
  if fst r =? 0 then
    let argc := Z.min PROC_EXEC_ARGV_MAX (Z.max 0 (i32 (word_of (snd r)))) in
    main (map (λ i, take (Z.to_nat PROC_EXEC_ARG_LEN) (drop (4 + i * Z.to_nat PROC_EXEC_ARG_LEN) (snd r)))
              (seq 0 (Z.to_nat argc)))
  else main [].

Definition start_program (main : list (list Z) → prog Z) : prog Z :=
  let* r := user_main_entry main in exit r.

(** ** Running a program

    [kernel_call] is what a kernel in state [s] answers, and its state after; [None]
    when the process does not go on: it has exited, or it waits. *)
Class Kernel (K : Type) :=
  kernel_call : Z → uarg → uarg → uarg → K → option (Z * list Z) * K.

Inductive stepped (A K : Type) := Finished (a : A) | Goes (t : prog A) (s : K) | Gone (s : K).
Arguments Finished {A K}.
Arguments Goes {A K}.
Arguments Gone {A K}.

Definition answer {A K X} `{Kernel K} (e : sysE X) (s : K) : (X → prog A) → stepped A K :=
  match e in sysE X return (X → prog A) → stepped A K with
  | Ecall no x y z => λ k,
      match kernel_call no x y z s with
      | (Some r, s') => Goes (k r) s'
      | (None, s') => Gone s'
      end
  end.

Definition step {A K} `{Kernel K} (t : prog A) (s : K) : stepped A K :=
  match observe t with
  | RetF a => Finished a
  | TauF t' => Goes t' s
  | VisF e k => answer e s k
  end.

(** The program ends, in finitely many steps, with its result or without one. *)
Inductive runs_to {A K} `{Kernel K} : prog A → K → option A → K → Prop :=
| runs_done t s a : step t s = Finished a → runs_to t s (Some a) s
| runs_gone t s s' : step t s = Gone s' → runs_to t s None s'
| runs_step t s t' s' o s'' : step t s = Goes t' s' → runs_to t' s' o s'' → runs_to t s o s''.

(** It does, and [Q] holds then. *)
Definition wp {A K} `{Kernel K} (t : prog A) (s : K) (Q : option A → K → Prop) : Prop :=
  ∃ o s', runs_to t s o s' ∧ Q o s'.

(** [Q] for a program that goes on with its result. *)
Definition then_ {A K} (P : A → K → Prop) (Q : K → Prop) (o : option A) (s : K) : Prop :=
  match o with Some a => P a s | None => Q s end.

Section run.
Context {K : Type} `{Kernel K}.
Implicit Types s : K.

(** A program is deterministic above a kernel. *)
Lemma runs_to_det {A} (t : prog A) s o1 s1 o2 s2 :
  runs_to t s o1 s1 → runs_to t s o2 s2 → o1 = o2 ∧ s1 = s2.
Proof.
  intros H1. revert o2 s2. induction H1 as [t s a E|t s s' E|t s t' s' o s'' E _ IH];
    intros o2 s2 H2; inversion H2 as [? ? ? E2|? ? ? E2|? ? ? ? ? ? E2 H2']; subst;
    rewrite E in E2; simplify_eq; auto.
Qed.

Lemma step_bind {A B} (t : prog A) (k : A → prog B) s :
  step (ITree.bind t k) s =
  match step t s with
  | Finished a => step (k a) s
  | Goes t' s' => Goes (ITree.bind t' k) s'
  | Gone s' => Gone s'
  end.
Proof.
  unfold step. unfold observe at 1. cbn. unfold observe.
  destruct (_observe t) as [a|t'|X e h]; [done..|]. destruct e. cbn.
  by destruct (kernel_call _ _ _ _ _) as [[r|] s'].
Qed.

Lemma runs_same_step {A} (t u : prog A) s o s' :
  step u s = step t s → runs_to t s o s' → runs_to u s o s'.
Proof.
  intros E Hr. destruct Hr; [eapply runs_done|eapply runs_gone|eapply runs_step]; eauto; by rewrite E.
Qed.

Lemma runs_bind {A B} (t : prog A) (k : A → prog B) s a s' o s'' :
  runs_to t s (Some a) s' → runs_to (k a) s' o s'' → runs_to (ITree.bind t k) s o s''.
Proof.
  intros Ht Hk. remember (Some a) as r eqn:Hr. revert Hk.
  induction Ht as [t s b E|t s s1 E|t s t' s1 r s2 E _ IH]; intros Hk; simplify_eq.
  - apply (runs_same_step (k a)); [|done]. by rewrite step_bind, E.
  - eapply runs_step; [by rewrite step_bind, E|]. by apply IH.
Qed.

Lemma runs_bind_gone {A B} (t : prog A) (k : A → prog B) s s' :
  runs_to t s None s' → runs_to (ITree.bind t k) s None s'.
Proof.
  intros Ht. remember None as r eqn:Hr. induction Ht as [|t s s1 E|t s t' s1 r s2 E _ IH]; simplify_eq.
  - eapply runs_gone. by rewrite step_bind, E.
  - eapply runs_step; [by rewrite step_bind, E|]. by apply IH.
Qed.

(** Running a program for some number of steps. *)
Fixpoint run {A} (fuel : nat) (t : prog A) (s : K) : option (option A * K) :=
  match fuel with
  | O => None
  | S n =>
      match step t s with
      | Finished a => Some (Some a, s)
      | Gone s' => Some (None, s')
      | Goes t' s' => run n t' s'
      end
  end.

Lemma run_runs_to {A} fuel (t : prog A) s o s' : run fuel t s = Some (o, s') → runs_to t s o s'.
Proof.
  revert t s. induction fuel as [|n IH]; intros t s; simpl; [done|].
  destruct (step t s) as [a|t1 s1|s1] eqn:E.
  - intros [= <- <-]. by apply runs_done.
  - intros Hr. by eapply runs_step, IH.
  - intros [= <- <-]. by apply runs_gone.
Qed.

(** *** The rules *)

Lemma wp_ret {A} (a : A) s Q : Q (Some a) s → wp (Ret a) s Q.
Proof. intros HQ. exists (Some a), s. split; [by apply runs_done|done]. Qed.

Lemma wp_tau {A} (t : prog A) s Q : wp t s Q → wp (Tau t) s Q.
Proof. intros (o&s'&Hr&HQ). exists o, s'. split; [|done]. by eapply runs_step. Qed.

Lemma wp_bind {A B} (t : prog A) (k : A → prog B) s Q :
  wp t s (then_ (λ a s', wp (k a) s' Q) (Q None)) → wp (ITree.bind t k) s Q.
Proof.
  intros ([a|]&s'&Hr&HQ); simpl in HQ.
  - destruct HQ as (o&s''&Hk&HQ). exists o, s''. split; [|done]. by eapply runs_bind.
  - exists None, s'. split; [|done]. by apply runs_bind_gone.
Qed.

Lemma wp_mono {A} (t : prog A) s (P Q : option A → K → Prop) :
  wp t s P → (∀ o s', P o s' → Q o s') → wp t s Q.
Proof. intros (o&s'&Hr&HP) HQ. exists o, s'. auto. Qed.

Lemma wp_same_step {A} (t u : prog A) s Q : step u s = step t s → wp t s Q → wp u s Q.
Proof.
  intros E (o&s'&Hr&HQ). exists o, s'. split; [by eapply runs_same_step|done].
Qed.

Lemma wp_syscall no x y z s Q :
  Q (kernel_call no x y z s).1 (kernel_call no x y z s).2 → wp (syscall no x y z) s Q.
Proof.
  intros HQ. eexists _, _. split; [|exact HQ].
  destruct (kernel_call no x y z s) as [[r|] s'] eqn:E; simpl.
  - eapply runs_step; [unfold step; simpl; by rewrite E|]. by apply runs_done.
  - apply runs_gone. unfold step. simpl. by rewrite E.
Qed.

Lemma wp_syscall_int no x y z s Q :
  (let '(r, s') := kernel_call no x y z s in Q (fst <$> r) s') → wp (syscall_int no x y z) s Q.
Proof.
  intros HQ. apply wp_bind, wp_syscall. destruct (kernel_call no x y z s) as [[r|] s']; simpl in *.
  - by apply wp_ret.
  - done.
Qed.

(** One round of a loop. *)
Lemma wp_forever {S A} (body : S → prog (S + A)) i s Q :
  wp (body i) s (then_ (λ r s', match r with
                                | inl j => wp (forever body j) s' Q
                                | inr a => Q (Some a) s'
                                end) (Q None)) →
  wp (forever body i) s Q.
Proof.
  intros Hb. apply (wp_same_step (ITree.bind (body i) (λ r, match r with
      | inl j => Tau (forever body j)
      | inr a => Ret a
      end))); [done|]. apply wp_bind. eapply wp_mono; [exact Hb|].
  intros [[j|a]|] s'; simpl; [apply wp_tau|apply wp_ret|done].
Qed.
End run.

(** ** The kernel as the program of a process sees it *)

Section world.
Context {D : Type} `{BlockDev D}.

(** The files, what is typed and not yet read, what has been printed, and the working
    directory of the process. *)
Record world := World {
  files_in : vfs D; typed : list Z; shown : list Z; cwd_in : list Z
}.

Definition with_files (w : world) (v : vfs D) : world := World v (typed w) (shown w) (cwd_in w).
Definition show (w : world) (l : list Z) : world :=
  World (files_in w) (typed w) (shown w ++ l) (cwd_in w).
Definition unread (w : world) (l : list Z) : world :=
  World (files_in w) l (shown w) (cwd_in w).
Definition enter (w : world) (path : list Z) : world :=
  World (files_in w) (typed w) (shown w) path.

Context (pid : Z).
Implicit Types w : world.

(** A read, from a file or from the console, where it takes as many characters as it is
    asked for and waits for them. *)
Definition read_call (fd size : Z) w : option (Z * list Z) * world :=
  match fs_read pid fd true (u32 size) (files_in w) with
  | (ReadRet r b, v) => (Some (r, b), with_files w v)
  | (ReadConsole n, v) =>
      let n := Z.to_nat n in
      if (length (typed w) <? n)%nat then (None, unread (with_files w v) [])
      else (Some (i32 (Z.of_nat n), take n (typed w)), unread (with_files w v) (drop n (typed w)))
  end.

Definition write_call (fd : Z) (buf : list Z) (size : Z) w : option (Z * list Z) * world :=
  let '(r, out, v) := fs_write pid fd (Some buf) (u32 size) (files_in w) in
  (Some (r, []), show (with_files w v) out).

(** A call on the files that answers with a number. *)
Definition file_call (op : vfs D → Z * vfs D) w : option (Z * list Z) * world :=
  let '(r, v) := op (files_in w) in (Some (r, []), with_files w v).

Definition readdir_call (path : list Z) (index : Z) w : option (Z * list Z) * world :=
  match fs_readdir (Some (cstr path)) index true (files_in w) with
  | (r, Some d) => (Some (r, dirent_bytes d), w)
  | (r, None) => (Some (r, []), w)
  end.

Definition chdir_call (path : list Z) w : option (Z * list Z) * world :=
  let path := take 63 (cstr path) in
  match fs_get_path_entry (Some path) (files_in w) with
  | None => (Some (-1, []), w)
  | Some _ => (Some (0, []), enter w path)
  end.

(** The calls on files, the console and the working directory, as the handlers of
    [Syscall.v] carry them out; the program does not go on after any other. *)
#[export] Instance world_kernel : Kernel world := λ no x y z w,
  match x, y, z with
  | UStr path, UInt n, UInt _ =>
      if no =? SYSCALL_OPEN then file_call (fs_open pid (Some (cstr path)) n) w
      else if no =? SYSCALL_MKDIR then file_call (fs_mkdir (Some (cstr path))) w
      else if no =? SYSCALL_UNLINK then file_call (fs_unlink (Some (cstr path))) w
      else if no =? SYSCALL_RMDIR then file_call (fs_rmdir (Some (cstr path))) w
      else if no =? SYSCALL_CHDIR then chdir_call path w
      else (None, w)
  | UStr path, UInt n, UBuf => if no =? SYSCALL_READDIR then readdir_call path n w else (None, w)
  | UInt fd, UBuf, UInt size => if no =? SYSCALL_READ then read_call fd size w else (None, w)
  | UInt fd, UStr buf, UInt size => if no =? SYSCALL_WRITE then write_call fd buf size w else (None, w)
  | UInt fd, UInt n, UInt _ =>
      if no =? SYSCALL_CLOSE then file_call (fs_close pid fd) w
      else if no =? SYSCALL_DUP2 then file_call (λ v, let '(r, v) := fs_dup2 pid fd n v in
                                                      (if r <? 0 then -1 else r, v)) w
      else (None, w)
  | UBuf, UInt _, UInt _ =>
      if no =? SYSCALL_GETCWD then (Some (0, take 63 (cstr (cwd_in w)) ++ [0]), w) else (None, w)
  | _, _, _ => (None, w)
  end.

(** The process reads and writes the console. *)
Definition at_console w : Prop :=
  0 ≤ pid < 64 ∧ fd_used (fd_at (files_in w) pid 0) = 0 ∧ fd_used (fd_at (files_in w) pid 1) = 0.

Lemma at_console_show w l : at_console w → at_console (show w l).
Proof. done. Qed.
Lemma at_console_unread w l : at_console w → at_console (unread w l).
Proof. done. Qed.

Lemma show_show w l k : show (show w l) k = show w (l ++ k).
Proof. unfold show. simpl. by rewrite app_assoc. Qed.
Lemma show_nil w : show w [] = w.
Proof. destruct w. unfold show. simpl. by rewrite app_nil_r. Qed.
Lemma with_files_id w : with_files w (files_in w) = w.
Proof. by destruct w. Qed.

Lemma pid_in_range : 0 ≤ pid < 64 → bad_pid pid = false.
Proof. unfold bad_pid, NodeFs.PROCS_MAX. lia. Qed.

(** Its output goes to the console. *)
Definition prints w : Prop := 0 ≤ pid < 64 ∧ fd_used (fd_at (files_in w) pid 1) = 0.

Lemma at_console_prints w : at_console w → prints w.
Proof. by intros (Hp&_&H1). Qed.

Lemma write_call_console buf size w :
  prints w → 0 ≤ size < 2147483648 →
  write_call 1 buf size w = (Some (size, []), show w (take (Z.to_nat size) buf)).
Proof.
  intros (Hp&H1) Hs. unfold write_call, fs_write. rewrite pid_in_range, H1 by done. simpl.
  rewrite (u32_small size) by lia. rewrite i32_small by lia. by rewrite with_files_id.
Qed.

Lemma prints_putchar c w Q : prints w → Q (Some tt) (show w [c]) → wp (putchar c) w Q.
Proof.
  intros Hc HQ. apply wp_bind, wp_syscall. cbn -[write_call].
  rewrite write_call_console by done. cbn. by apply wp_ret.
Qed.

Lemma prints_all l w Q : prints w → Q (Some tt) (show w l) → wp (put_all putchar l) w Q.
Proof.
  revert w. induction l as [|c l IH]; intros w Hc HQ; simpl.
  - apply wp_ret. by rewrite show_nil in HQ.
  - apply wp_bind, prints_putchar; [done|]. apply IH; [done|]. by rewrite show_show.
Qed.

Lemma prints_printf fmt args w Q :
  prints w → Q (Some tt) (show w (default [] (printf fmt args))) →
  wp (u_printf fmt args) w Q.
Proof. intros Hc HQ. by apply prints_all. Qed.

Lemma wp_putchar c w Q : at_console w → Q (Some tt) (show w [c]) → wp (putchar c) w Q.
Proof. intros Hc. by apply prints_putchar, at_console_prints. Qed.

Lemma wp_getchar c l w Q :
  at_console w → typed w = c :: l → is_byte c → Q (Some c) (unread w l) → wp getchar w Q.
Proof.
  intros (Hp&H0&_) Ht Hc HQ. apply wp_bind, wp_syscall. cbn -[read_call].
  unfold read_call, fs_read. rewrite pid_in_range, H0 by done. cbn. rewrite Ht. cbn.
  rewrite with_files_id. apply wp_ret. unfold ch. cbn. rewrite u8_small by done. done.
Qed.

Lemma wp_put_all l w Q : at_console w → Q (Some tt) (show w l) → wp (put_all putchar l) w Q.
Proof. intros Hc. by apply prints_all, at_console_prints. Qed.

Lemma wp_printf fmt args w Q :
  at_console w → Q (Some tt) (show w (default [] (printf fmt args))) →
  wp (u_printf fmt args) w Q.
Proof. intros Hc. by apply prints_printf, at_console_prints. Qed.
End world.
Arguments world : clear implicits.
