(* ===== verification/ShellUtils.v ===== *)
(** * The shell's library ([src/user/apps/shell/utils.c], [commands_sys.c])

    The splitting of a command line into words, numbers, redirections, the ring of the
    history with its file, and the running of other programs. *)
From Stdlib Require Import ZArith Lia ZifyBool String.
From stdpp Require Import base tactics list numbers option.
From S2P Require Import Prelude CString NodeFs Vfs Process UserPath UserProg.
From ITree Require Import Core.ITreeDefinition.
#[local] Open Scope Z_scope.

Definition CMDLINE_MAX : Z := 64.
Definition HISTORY_MAX : Z := 64.
Definition CONSOLE_BLUE : list Z := 27 :: bytes "[34m".
Definition CONSOLE_WHITE : list Z := 27 :: bytes "[0m".

(** ** Words, numbers and redirections *)

Definition str_len (s : list Z) : Z := Z.of_nat (length (cstr s)).

(** [split_args] from position [i] of the line: the line it leaves, and where the words
    start. *)
Fixpoint split_loop (line : list Z) (i : nat) (in_token : bool) (argv : list nat) (argv_max : Z)
  : list Z * list nat :=
  match line with
  | [] => ([], argv)
  | c :: line' =>
      if c =? 0 then (line, argv)
      else if (c =? 32) || (c =? 9) then
        let '(l, argv) := split_loop line' (S i) false argv argv_max in (0 :: l, argv)
      else
        let argv :=
          if negb in_token && (Z.of_nat (length argv) <? argv_max) then argv ++ [i] else argv in
        let '(l, argv) := split_loop line' (S i) true argv argv_max in (c :: l, argv)
  end.

Definition split_args (line : list Z) (argv_max : Z) : list Z * list nat :=
  split_loop line 0 false [] argv_max.

(** The strings [argv] points to. *)
Definition args_of (line : list Z) (argv : list nat) : list (list Z) := map (λ i, drop i line) argv.

(** Overflow of the [int], undefined in C, is taken to wrap around. *)
Fixpoint parse_digits (s : list Z) (value : Z) : option Z :=
  match s with
  | [] => Some value
  | c :: s' =>
      if c =? 0 then Some value
      else if (c <? 48) || (57 <? c) then None
      else parse_digits s' (i32 (value * 10 + (c - 48)))
  end.

(** [None] for -1. *)
Definition parse_int (s : option (list Z)) : option Z :=
  let! s := s in if ch s 0 =? 0 then None else parse_digits s 0.

Record redirection := Redir {
  exec_args : list (list Z); in_path : option (list Z); out_path : option (list Z)
}.

(** The loop of [parse_redirection]; [None] for -1. *)
Fixpoint redirect_loop (argv : list (list Z)) (r : redirection) : option redirection :=
  match argv with
  | [] => Some r
  | a :: argv' =>
      if (strcmp a (bytes "<") =? 0) || (strcmp a (bytes ">") =? 0) then
        match argv' with
        | [] => None
        | path :: argv'' =>
            redirect_loop argv''
              (if ch a 0 =? 60 then Redir (exec_args r) (Some path) (out_path r)
               else Redir (exec_args r) (in_path r) (Some path))
        end
      else redirect_loop argv' (Redir (exec_args r ++ [a]) (in_path r) (out_path r))
  end.

Definition parse_redirection (argv : list (list Z)) : option redirection :=
  redirect_loop argv (Redir [] None None).

(** Without an argument the code reads [argv[-1]]: the shell does not call it then. *)
Definition is_background (argv : list (list Z)) : bool :=
  strcmp (List.last argv []) (bytes "&") =? 0.

(** ** The history *)

Record history := Hist { rows : list (list Z); head : Z; count : Z }.

Definition no_history : history := Hist (repeat (zeros 64) 64) 0 0.

Definition row_idx (h : history) (pos : Z) : Z := (head h + pos) mod HISTORY_MAX.
Definition row_at (h : history) (pos : Z) : list Z := nth (Z.to_nat (row_idx h pos)) (rows h) [].

Definition history_push (line : list Z) (h : history) : history :=
  if ch line 0 =? 0 then h
  else
    let '(write_idx, head, count) :=
      if count h <? HISTORY_MAX then (row_idx h (count h), head h, count h + 1)
      else (head h, (head h + 1) mod HISTORY_MAX, count h) in
    let row := nth (Z.to_nat write_idx) (rows h) [] in
    Hist (<[Z.to_nat write_idx := copy_bounded (Z.to_nat (CMDLINE_MAX - 1)) line row]> (rows h)) head count.

Definition history_size (h : history) : Z := count h.

(** The buffer [out], when the return value is 0. *)
Definition history_get (h : history) (pos : Z) (out : list Z) (out_max : Z) : option (list Z) :=
  if out_max <=? 0 then None
  else if (pos <? 0) || (count h <=? pos) then None
  else Some (copy_bounded (Z.to_nat (out_max - 1)) (row_at h pos) out).

Fixpoint history_encoded_line_len (s : list Z) : Z :=
  match s with
  | [] => 1
  | c :: s' =>
      if c =? 0 then 1
      else (if (c =? 10) || (c =? 92) then 2 else 1) + history_encoded_line_len s'
  end.

(** The first entry to keep: the loop back from the most recent entry. *)
Fixpoint history_start (h : history) (n : nat) (total start out_cap : Z) : Z :=
  match n with
  | O => start
  | S i =>
      let need := history_encoded_line_len (row_at h (Z.of_nat i)) in
      if out_cap <? total + need then start
      else history_start h i (total + need) (Z.of_nat i) out_cap
  end.

(** The characters of an entry put behind [out]; [false] when the code returns. *)
Fixpoint serialize_chars (s out : list Z) (out_cap : Z) : list Z * bool :=
  let pos := Z.of_nat (length out) in
  match s with
  | [] => (out, true)
  | c :: s' =>
      if (c =? 0) || (out_cap <=? pos) then (out, true)
      else if (c =? 10) || (c =? 92) then
        if out_cap <? pos + 2 then (out, false)
        else serialize_chars s' (out ++ [92; if c =? 10 then 110 else 92]) out_cap
      else if out_cap <? pos + 1 then (out, false)
      else serialize_chars s' (out ++ [c]) out_cap
  end.

Fixpoint serialize_rows (h : history) (n : nat) (i : Z) (out : list Z) (out_cap : Z) : list Z :=
  match n with
  | O => out
  | S n' =>
      let '(out, ok) := serialize_chars (row_at h i) out out_cap in
      if negb ok then out
      else if out_cap <? Z.of_nat (length out) + 1 then out
      else serialize_rows h n' (i + 1) (out ++ [10]) out_cap
  end.

(** What is written to the buffer, whose length is the return value. *)
Definition history_serialize (h : history) (out_cap : Z) : list Z :=
  if out_cap =? 0 then []
  else
    let start := history_start h (Z.to_nat (count h)) 0 (count h) out_cap in
    serialize_rows h (Z.to_nat (count h - start)) start [] out_cap.

(** The local variables of [history_load], and the ring: a character read. *)
Record loading := Loading { l_line : list Z; escaped : bool; l_hist : history }.

Definition keep_char (line : list Z) (c : Z) : list Z :=
  if Z.of_nat (length line) <? CMDLINE_MAX - 1 then line ++ [c] else line.

Definition load_char (l : loading) (c : Z) : loading :=
  if c =? 13 then l
  else if escaped l then
    Loading (keep_char (l_line l) (if c =? 110 then 10 else c)) false (l_hist l)
  else if c =? 92 then Loading (l_line l) true (l_hist l)
  else if c =? 10 then Loading [] false (history_push (l_line l) (l_hist l))
  else Loading (keep_char (l_line l) c) false (l_hist l).

Definition load_end (l : loading) : history :=
  let line := if escaped l then keep_char (l_line l) 92 else l_line l in
  if (0 <? length line)%nat then history_push line (l_hist l) else l_hist l.

Definition history_path : list Z := bytes "/.history".

Definition read_all (fd : Z) : loading → prog loading :=
  forever (λ l,
    let* r := u_read fd 256 in
    if fst r <=? 0 then Ret (inr l)
    else Ret (inl (fold_left load_char (take (Z.to_nat (fst r)) (snd r)) l))).

Definition history_load (h : history) : prog history :=
  let* fd := u_open history_path O_RDONLY in
  if fd <? 0 then Ret h
  else
    let* l := read_all fd (Loading [] false (Hist (rows h) 0 0)) in
    let h := load_end l in
    let* _r := u_close fd in
    Ret h.

Definition history_write (h : history) : prog unit :=
  let* fd := u_open history_path (Z.lor (Z.lor O_CREAT O_WRONLY) O_TRUNC) in
  if fd <? 0 then u_printf (bytes "open failed" ++ [10]) []
  else
    let buf := history_serialize h FS_FILE_MAX_SIZE in
    let n := Z.of_nat (length buf) in
    let* w := u_write fd buf n in
    let* _p := if (w <? 0) || negb (w =? n) then u_printf (bytes "write failed" ++ [10]) [] else Ret tt in
    let* _r := u_close fd in
    Ret tt.

(** ** Output *)

(** [shell_input_fd] and [shell_output_fd]. *)
Record shell_fds := Fds { shell_input_fd : Z; shell_output_fd : Z }.

Definition console_fds : shell_fds := Fds (-1) (-1).
Definition shell_set_input_fd (fd : Z) (f : shell_fds) : shell_fds := Fds fd (shell_output_fd f).
Definition shell_reset_input_fd (f : shell_fds) : shell_fds := Fds (-1) (shell_output_fd f).
Definition shell_set_output_fd (fd : Z) (f : shell_fds) : shell_fds := Fds (shell_input_fd f) fd.
Definition shell_reset_output_fd (f : shell_fds) : shell_fds := Fds (shell_input_fd f) (-1).

(** The return value, and what is put in the buffer. *)
Definition shell_read_input (f : shell_fds) (size : Z) : prog (Z * list Z) :=
  if size =? 0 then Ret (-1, [])
  else if 0 <=? shell_input_fd f then u_read (shell_input_fd f) size
  else
    let* c := getchar in
    Ret (if c <? 0 then (-1, []) else (1, [c])).

Definition shell_putc (f : shell_fds) (c : Z) : prog unit :=
  if 0 <=? shell_output_fd f then
    let* _r := u_write (shell_output_fd f) [c] 1 in Ret tt
  else putchar c.

(** What [shell_printf] puts: as [printf] does, but an unknown conversion is put as it
    is. *)
Fixpoint shell_format (fmt : list Z) (args : list arg) : option (list Z) :=
  match fmt with
  | [] => Some []
  | c :: fmt1 =>
      if c =? 0 then Some []
      else if c =? 37 then
        match fmt1 with
        | [] => Some [37]
        | d :: fmt2 =>
            if d =? 0 then Some [37]
            else if d =? 37 then ([37] ++.) <$> shell_format fmt2 args
            else if d =? 115 then
              match args with
              | AStr s :: args' => (cstr s ++.) <$> shell_format fmt2 args'
              | _ => shell_format fmt2 args
              end
            else if d =? 100 then
              match args with
              | AInt v :: args' => let! n := print_decimal v in (n ++.) <$> shell_format fmt2 args'
              | _ => shell_format fmt2 args
              end
            else if d =? 120 then
              match args with
              | AInt v :: args' => (print_hex (u32 v) ++.) <$> shell_format fmt2 args'
              | _ => shell_format fmt2 args
              end
            else ([37; d] ++.) <$> shell_format fmt2 args
        end
      else (c ::.) <$> shell_format fmt1 args
  end.

Definition shell_printf (f : shell_fds) (fmt : list Z) (args : list arg) : prog unit :=
  put_all (shell_putc f) (default [] (shell_format fmt args)).

Fixpoint print_rows (f : shell_fds) (h : history) (n : nat) (i : Z) : prog unit :=
  match n with
  | O => Ret tt
  | S n' =>
      let* _p := shell_printf f (bytes "%d: %s" ++ [10]) [AInt (i + 1); AStr (row_at h i)] in
      print_rows f h n' (i + 1)
  end.

Definition history_print (f : shell_fds) (h : history) : prog unit :=
  print_rows f h (Z.to_nat (count h)) 0.

Definition prompt_format : list Z := bytes "%saqua-core%s:%s%s%s$ ".

Definition redraw_cmdline (line : list Z) (cursor_pos : Z) (cwd_path : list Z) : prog unit :=
  let* _p := u_printf (13 :: prompt_format ++ 27 :: bytes "[K%s")
               [AStr CONSOLE_BLUE; AStr CONSOLE_WHITE; AStr CONSOLE_BLUE; AStr cwd_path;
                AStr CONSOLE_WHITE; AStr line] in
  let len := str_len line in
  let cursor_pos := Z.min len (Z.max 0 cursor_pos) in
  put_all putchar (repeat 8 (Z.to_nat (len - cursor_pos))).

(** ** Other programs *)

Definition app_map (name : list Z) : Z :=
  if strcmp name (bytes "shell") =? 0 then 1
  else if strcmp name (bytes "ipc_rx") =? 0 then 2
  else if strcmp name (bytes "ps") =? 0 then 3
  else if strcmp name (bytes "date") =? 0 then 4
  else if strcmp name (bytes "ls") =? 0 then 5
  else if strcmp name (bytes "mkdir") =? 0 then 6
  else if strcmp name (bytes "rmdir") =? 0 then 7
  else if strcmp name (bytes "touch") =? 0 then 8
  else if strcmp name (bytes "rm") =? 0 then 9
  else if strcmp name (bytes "write") =? 0 then 10
  else if strcmp name (bytes "cat") =? 0 then 11
  else if strcmp name (bytes "kill") =? 0 then 12
  else if strcmp name (bytes "kernel_info") =? 0 then 14
  else if strcmp name (bytes "bitmap") =? 0 then 15
  else -1.

Definition run_external (argv : list (list Z)) (background : bool) : prog Z :=
  if (length argv =? 0)%nat then Ret (-1)
  else
    let argv0 := List.hd [] argv in
    let argv := if background && is_background argv then removelast argv else argv in
    let exec_argv := take (Z.to_nat PROC_EXEC_ARGV_MAX) argv in
    let app_id := app_map argv0 in
    if app_id <? 0 then let* _p := u_printf (bytes "command not found" ++ [10]) [] in Ret (-1)
    else
      let* pid := fork in
      if pid <? 0 then let* _p := u_printf (bytes "fork failed" ++ [10]) [] in Ret (-1)
      else if pid =? 0 then
        let* ret := execv app_id exec_argv in
        let* _p := if ret <? 0 then u_printf (bytes "exec failed" ++ [10]) [] else Ret tt in
        exit (-1)
      else
        let* _p := if negb background then let* _w := waitpid pid in Ret tt
                   else u_printf (bytes "[bg] pid=%d" ++ [10]) [AInt pid] in
        Ret pid.

(** ** [commands_sys.c] *)

Definition shell_cmd_history (f : shell_fds) (h : history) : prog unit := history_print f h.

Definition shell_cmd_stdin_test (f : shell_fds) : prog unit :=
  let* total := forever (λ total,
      let* r := shell_read_input f 63 in
      if fst r <=? 0 then Ret (inr total)
      else
        let* _p := shell_printf f (bytes "%s") [AStr (snd r)] in
        Ret (inl (i32 (total + fst r)))) 0 in
  shell_printf f (10 :: bytes "[stdin_test] bytes=%d" ++ [10]) [AInt total].

Definition shell_cmd_write_file (f : shell_fds) (path text : list Z) : prog Z :=
  let* fd := u_open path (Z.lor (Z.lor O_CREAT O_WRONLY) O_TRUNC) in
  if fd <? 0 then let* _p := shell_printf f (bytes "open failed" ++ [10]) [] in Ret (-1)
  else
    let* w := u_write fd text (str_len text) in
    let* _c := u_close fd in
    if w <? 0 then let* _p := shell_printf f (bytes "write failed" ++ [10]) [] in Ret (-1)
    else Ret 0.

(** [user_path_resolve] with its call of [getcwd]. *)
Definition resolve_path (path abs norm out : list Z) : prog (Z * list Z) :=
  if ch path 0 =? 47 then Ret (user_path_resolve (Some path) None abs norm out 64)
  else
    let* r := getcwd in
    Ret (user_path_resolve (Some path) (if fst r <? 0 then None else Some (snd r)) abs norm out 64).

(** The arrays on the stack are not initialised: [stack] is what they hold. *)
Definition shell_cmd_cd (stack path : list Z) : prog Z :=
  let* r := resolve_path path stack stack stack in
  if fst r <? 0 then Ret (-1) else chdir (snd r).

Definition shell_cmd_pwd : prog Z :=
  let* r := getcwd in
  if fst r <? 0 then Ret (-1)
  else let* _p := u_printf (bytes "%s" ++ [10]) [AStr (snd r)] in Ret 0.

Definition shell_cmd_exit {A} (unreachable : A) : prog A := exit unreachable.
