(* ===== verification/ShellUtilsSpec.v ===== *)
(** * The shell's library is correct

    Words, numbers and redirections of a command line, against reference definitions;
    the ring of the history as the list of its last 64 entries, and its file. *)
From Stdlib Require Import ZArith Lia ZifyBool String.
From stdpp Require Import base tactics list numbers option.
From S2P Require Import Prelude CString NodeFs NodeFsSpec Vfs Process UserPath UserProg ShellUtils.
#[local] Open Scope Z_scope.

(** ** Words *)

Definition blank (c : Z) : bool := (c =? 32) || (c =? 9).

(** What blanks separate, and the pieces that are words. *)
Fixpoint pieces (s : list Z) : list (list Z) :=
  match s with
  | [] => [[]]
  | c :: s' =>
      if blank c then [] :: pieces s'
      else match pieces s' with h :: t => (c :: h) :: t | [] => [[c]] end
  end.

Definition words (s : list Z) : list (list Z) := List.filter nonempty (pieces s).

Lemma pieces_cons s : ∃ h t, pieces s = h :: t.
Proof. induction s as [|c s (h&t&IH)]; simpl; [eauto|]. rewrite IH. case_if; eauto. Qed.

Lemma drop_shift {A} (l : list A) x i k : (S i ≤ k)%nat → drop (k - i) (x :: l) = drop (k - S i) l.
Proof. intros. by replace (k - i)%nat with (S (k - S i)) by lia. Qed.

Lemma map_drop_shift (x i : nat) (c : Z) (l : list Z) new :
  x = S i → Forall (λ k, x ≤ k)%nat new →
  map (λ k, cstr (drop (k - i) (c :: l))) new = map (λ k, cstr (drop (k - x) l)) new.
Proof.
  intros -> Hn. apply map_ext_in. intros k Hk. rewrite drop_shift; [done|].
  by eapply (proj1 (List.Forall_forall _ new) Hn).
Qed.

Lemma from_S i new : Forall (λ k, S i ≤ k)%nat new → Forall (λ k, i ≤ k)%nat new.
Proof. apply Forall_impl. intros. lia. Qed.

(** The loop from a position on: the words that start there, and a word that the caller
    is in the middle of. *)
Lemma split_loop_spec s i tok argv m :
  0 ≤ m →
  let '(l, a) := split_loop s i tok argv m in
  length l = length s ∧ drop (length (cstr s)) l = drop (length (cstr s)) s ∧
  cstr l = hd [] (pieces (cstr s)) ∧
  ∃ new, a = argv ++ new ∧ Forall (λ k, i ≤ k)%nat new ∧
    map (λ k, cstr (drop (k - i) l)) new =
    take (Z.to_nat m - length argv)
      (List.filter nonempty (if tok : bool then tail (pieces (cstr s)) else pieces (cstr s))).
Proof.
  intros Hm. revert i tok argv. induction s as [|c s IH]; intros i tok argv.
  { simpl. split_and!; try done. exists []. rewrite app_nil_r. by destruct tok; simpl; rewrite take_nil. }
  cbn [split_loop cstr]. destruct (Z.eqb_spec c 0) as [->|Hc].
  { simpl. split_and!; try done. exists []. rewrite app_nil_r. by destruct tok; simpl; rewrite take_nil. }
  fold (blank c). cbn [pieces]. destruct (pieces_cons (cstr s)) as (h&t&Hp). destruct (blank c) eqn:Hb.
  - specialize (IH (S i) false argv). destruct (split_loop s (S i) false argv m) as [l a].
    destruct IH as (Hl&Hd&Hs&new&->&Hge&Hmap). simpl. split_and!; [by f_equal|exact Hd|done|].
    exists new. split_and!; [done|by apply from_S|].
    rewrite (map_drop_shift (S i) i) by done. rewrite Hmap. by destruct tok.
  - destruct tok; cbn [negb andb].
    + specialize (IH (S i) true argv). destruct (split_loop s (S i) true argv m) as [l a].
      destruct IH as (Hl&Hd&Hs&new&->&Hge&Hmap). simpl.
      rewrite (proj2 (Z.eqb_neq c 0)), Hs, Hp by done.
      split_and!; [by f_equal|exact Hd|done|].
      exists new. split_and!; [done|by apply from_S|].
      rewrite (map_drop_shift (S i) i) by done. rewrite Hmap, Hp. done.
    + destruct (Z.ltb_spec (Z.of_nat (length argv)) m) as [Hlt|Hge'].
      * specialize (IH (S i) true (argv ++ [i])).
        destruct (split_loop s (S i) true (argv ++ [i]) m) as [l a].
        destruct IH as (Hl&Hd&Hs&new&->&Hge&Hmap). simpl.
        rewrite (proj2 (Z.eqb_neq c 0)), Hs, Hp by done.
        split_and!; [by f_equal|exact Hd|done|]. exists (i :: new). rewrite <-app_assoc.
        split_and!; [done|constructor; [lia|by apply from_S]|].
        cbn [map]. rewrite Nat.sub_diag, (map_drop_shift (S i) i) by done.
        rewrite Hmap, Hp, length_app. cbn [length drop cstr tail List.filter nonempty].
        rewrite (proj2 (Z.eqb_neq c 0)), Hs, Hp by done.
        replace (Z.to_nat m - length argv)%nat with (S (Z.to_nat m - (length argv + 1))) by lia. done.
      * specialize (IH (S i) true argv). destruct (split_loop s (S i) true argv m) as [l a].
        destruct IH as (Hl&Hd&Hs&new&->&Hge&Hmap). simpl.
        rewrite (proj2 (Z.eqb_neq c 0)), Hs, Hp by done.
        split_and!; [by f_equal|exact Hd|done|].
        exists new. split_and!; [done|by apply from_S|].
        rewrite (map_drop_shift (S i) i) by done. rewrite Hmap.
        by replace (Z.to_nat m - length argv)%nat with 0%nat by lia.
Qed.

(** C34. [split_args] finds the words of the line, what blanks separate, and drops those
    that do not fit in [argv]; what [argv] points to are these words, each ended by the
    NUL it has put in the place of a blank; it writes nothing behind the line. *)
Theorem split_args_words line argv_max :
  0 ≤ argv_max →
  let '(line', argv) := split_args line argv_max in
  map cstr (args_of line' argv) = take (Z.to_nat argv_max) (words (cstr line)) ∧
  length line' = length line ∧
  drop (length (cstr line)) line' = drop (length (cstr line)) line.
Proof.
  intros Hm. pose proof (split_loop_spec line 0 false [] argv_max Hm) as Hs. unfold split_args.
  destruct (split_loop line 0 false [] argv_max) as [l a]. destruct Hs as (Hl&Hd&_&new&->&_&Hmap).
  split_and!; [|done..]. unfold args_of, words. rewrite map_map. simpl in *.
  rewrite Nat.sub_0_r in Hmap. rewrite <-Hmap. apply map_ext. intros k. by rewrite Nat.sub_0_r.
Qed.

Lemma split_args_words_witness :
  let '(line', argv) := split_args (bytes " cat  a.txt	>b " ++ [0; 7]) 2 in
  map cstr (args_of line' argv) = [bytes "cat"; bytes "a.txt"] ∧ length line' = 17%nat.
Proof.
  destruct (split_args_words (bytes " cat  a.txt	>b " ++ [0; 7]) 2 ltac:(lia)) as (H1&H2&_).
  split; [exact H1|exact H2].
Defined.

(** ** Numbers *)

Lemma i32_sum a b : i32 (i32 a + b) = i32 (a + b).
Proof. unfold i32, u32. repeat case_if; Z.to_euclidean_division_equations; lia. Qed.

Lemma i32_digit v c : i32 (i32 v * 10 + c) = i32 (v * 10 + c).
Proof. unfold i32, u32. repeat case_if; Z.to_euclidean_division_equations; lia. Qed.

Lemma parse_digits_spec s v :
  match parse_digits s (i32 v) with
  | Some r => Forall is_digit (cstr s) ∧ r = i32 (v * 10 ^ Z.of_nat (length (cstr s)) + dec_value (cstr s))
  | None => ¬ Forall is_digit (cstr s)
  end.
Proof.
  revert v. induction s as [|c s IH]; intros v; cbn [parse_digits cstr].
  { split; [constructor|]. simpl. f_equal. lia. }
  destruct (Z.eqb_spec c 0) as [->|Hc]; [split; [constructor|]; simpl; f_equal; lia|].
  destruct ((c <? 48) || (57 <? c)) eqn:E.
  { intros Hd. inversion Hd as [|? ? H1]. subst. unfold is_digit in H1. lia. }
  rewrite i32_digit. specialize (IH (v * 10 + (c - 48))).
  destruct (parse_digits s _) as [r|].
  - destruct IH as (Hd&->). split; [constructor; [unfold is_digit; lia|done]|].
    f_equal. cbn [dec_value length]. rewrite Nat2Z.inj_succ, Z.pow_succ_r by lia. lia.
  - intros Hd. by inversion Hd.
Qed.

(** The [int] that a string of decimal digits denotes. *)
Definition number_of (s : list Z) (v : Z) : Prop :=
  s ≠ [] ∧ Forall is_digit s ∧ v = i32 (dec_value s).

Lemma parse_int_number s :
  match parse_int (Some s) with
  | Some v => number_of (cstr s) v
  | None => ∀ v, ¬ number_of (cstr s) v
  end.
Proof.
  unfold parse_int. destruct (Z.eqb_spec (ch s 0) 0) as [H0|H0].
  { intros v (Hne&_). by apply Hne, cstr_ch0. }
  pose proof (parse_digits_spec s 0) as Hd. change (i32 0) with 0 in Hd.
  destruct (parse_digits s 0) as [r|].
  - destruct Hd as (Hd&->). split_and!; [by rewrite cstr_step|done|by rewrite Z.mul_0_l, Z.add_0_l].
  - by intros v (_&Hv&_).
Qed.

(** C40. [parse_int] accepts exactly the strings of one or more decimal digits, with the
    number they denote, wrapped to 32 bits: what is printed in decimal it reads back, from
    0 to 2^31 - 1. *)
Theorem parse_int_correct s :
  match parse_int (Some s) with
  | Some v => number_of (cstr s) v
  | None => ∀ v, ¬ number_of (cstr s) v
  end ∧
  (∀ v, decimal_of (cstr s) v → 0 ≤ v < 2147483648 → parse_int (Some s) = Some v).
Proof.
  pose proof (parse_int_number s) as Hn. split; [done|]. intros v [Hd Hv [Hne _]] Hr.
  assert (number_of (cstr s) v) as Hv' by (split_and!; [done..|]; by rewrite Hv, i32_small by lia).
  destruct (parse_int (Some s)) as [r|]; [|by destruct (Hn v)].
  destruct Hn as (_&_&->), Hv' as (_&_&Hv'). by rewrite <-Hv'.
Qed.

(** ** Redirections *)

Inductive item := Word (a : list Z) | Input (path : list Z) | Output (path : list Z).

(** The grammar of a command. *)
Inductive parses : list (list Z) → list item → Prop :=
| parses_end : parses [] []
| parses_word a argv its :
    cstr a ≠ bytes "<" → cstr a ≠ bytes ">" → parses argv its → parses (a :: argv) (Word a :: its)
| parses_input op path argv its :
    cstr op = bytes "<" → parses argv its → parses (op :: path :: argv) (Input path :: its)
| parses_output op path argv its :
    cstr op = bytes ">" → parses argv its → parses (op :: path :: argv) (Output path :: its).

Definition words_of (its : list item) : list (list Z) :=
  omap (λ it, match it with Word a => Some a | _ => None end) its.
Definition inputs_of (its : list item) : list (list Z) :=
  omap (λ it, match it with Input p => Some p | _ => None end) its.
Definition outputs_of (its : list item) : list (list Z) :=
  omap (λ it, match it with Output p => Some p | _ => None end) its.

(** The last of a list, or else what was there before. *)
Definition last_or {A} (l : list A) (x : option A) : option A :=
  match list.last l with Some y => Some y | None => x end.

Lemma last_or_cons {A} (y : A) l x : last_or (y :: l) x = last_or l (Some y).
Proof. unfold last_or. rewrite list.last_cons. by destruct (list.last l). Qed.

Lemma cstr_head a c l : cstr a = c :: l → ch a 0 = c.
Proof. destruct a as [|d a]; simpl; [done|]. case_if; [done|]. by intros [= -> _]. Qed.

Lemma redirect_loop_spec argv r :
  match redirect_loop argv r with
  | Some r' => ∃ its, parses argv its ∧ exec_args r' = exec_args r ++ words_of its ∧
      in_path r' = last_or (inputs_of its) (in_path r) ∧
      out_path r' = last_or (outputs_of its) (out_path r)
  | None => ∀ its, ¬ parses argv its
  end.
Proof.
  remember (length argv) as n eqn:Hn. revert argv r Hn.
  induction (lt_wf n) as [n _ IH]. intros argv r ->.
  destruct argv as [|a argv]; cbn [redirect_loop].
  { exists []. split_and!; [constructor|by rewrite app_nil_r|done..]. }
  pose proof (strcmp_zero a (bytes "<")) as H1. pose proof (strcmp_zero a (bytes ">")) as H2.
  assert (bytes "<" ≠ bytes ">") as Hne by done.
  change (cstr (bytes "<")) with (bytes "<") in H1. change (cstr (bytes ">")) with (bytes ">") in H2.
  destruct ((strcmp a (bytes "<") =? 0) || (strcmp a (bytes ">") =? 0)) eqn:Hop.
  - assert (cstr a = bytes "<" ∨ cstr a = bytes ">") as Hor by (rewrite <-H1, <-H2; lia).
    destruct argv as [|path argv].
    { intros its Hp. inversion Hp; subst; tauto. }
    assert ((ch a 0 =? 60) = true ∧ cstr a = bytes "<" ∨ (ch a 0 =? 60) = false ∧ cstr a = bytes ">")
      as [(->&Ha)|(->&Ha)].
    { destruct Hor as [E|E]; [left|right]; (split; [|done]);
        by rewrite (cstr_head a _ _ E). }
    + specialize (IH (length argv) ltac:(simpl; lia) argv (Redir (exec_args r) (Some path) (out_path r)) eq_refl).
      destruct (redirect_loop argv _) as [r'|].
      * destruct IH as (its&Hp&He&Hi&Ho). exists (Input path :: its).
        split_and!; [by apply (parses_input a)|done| |done]. rewrite Hi. symmetry. apply last_or_cons.
      * intros its Hp. inversion Hp; subst; [congruence| |congruence]. by eapply IH.
    + specialize (IH (length argv) ltac:(simpl; lia) argv (Redir (exec_args r) (in_path r) (Some path)) eq_refl).
      destruct (redirect_loop argv _) as [r'|].
      * destruct IH as (its&Hp&He&Hi&Ho). exists (Output path :: its).
        split_and!; [by apply (parses_output a)|done|done|]. rewrite Ho. symmetry. apply last_or_cons.
      * intros its Hp. inversion Hp; subst; [congruence..|]. by eapply IH.
  - assert (cstr a ≠ bytes "<" ∧ cstr a ≠ bytes ">") as (Ha1&Ha2) by (rewrite <-H1, <-H2; lia).
    specialize (IH (length argv) ltac:(simpl; lia) argv (Redir (exec_args r ++ [a]) (in_path r) (out_path r)) eq_refl).
    destruct (redirect_loop argv _) as [r'|].
    + destruct IH as (its&Hp&He&Hi&Ho). exists (Word a :: its).
      split_and!; [by apply parses_word| |done..]. rewrite He. symmetry. apply (app_assoc _ [a]).
    + intros its Hp. inversion Hp; subst; [|done..]. by eapply IH.
Qed.

(** C35. [parse_redirection] decides the grammar of commands: it fails exactly on the
    arguments that have no parse, those with an operator and no path behind it; otherwise
    it gives the words in their order and the path of the last redirection each way. *)
Theorem parse_redirection_parses argv :
  match parse_redirection argv with
  | Some r => ∃ its, parses argv its ∧ exec_args r = words_of its ∧
      in_path r = list.last (inputs_of its) ∧ out_path r = list.last (outputs_of its)
  | None => ∀ its, ¬ parses argv its
  end.
Proof.
  pose proof (redirect_loop_spec argv (Redir [] None None)) as H. unfold parse_redirection.
  destruct (redirect_loop _ _) as [r|]; [|done]. destruct H as (its&Hp&He&Hi&Ho). exists its.
  split_and!; [done..| |]; [rewrite Hi|rewrite Ho]; unfold last_or; simpl; by destruct (list.last _).
Qed.
