(* ===== verification/UserFiles.v ===== *)
(** * Files of the user programs

    The rules of the file calls for a program above the files of the kernel: opening,
    reading from an offset on, writing a file anew, and closing. *)
From Stdlib Require Import ZArith Lia ZifyBool String.
From stdpp Require Import base tactics list numbers option.
From S2P Require Import Prelude CString BlockDev NodeFs NodeFsSpec NodeFsUpdate NodeFsOps NodeFsDisk.
From S2P Require Import Vfs VfsSpec Process Syscall UserProg.
From ITree Require Import Core.ITreeDefinition.
#[local] Open Scope Z_scope.

Section files.
Context {D : Type} `{BlockDev D}.
Context (pid : Z).
#[local] Existing Instance world_kernel.
#[local] Instance this_kernel : Kernel (world D) := world_kernel pid.
Implicit Types w : world D.
Implicit Types v : vfs D.

(** The file [path] leads to, and its contents. *)
Definition file_at v (path c : list Z) : Prop :=
  ∃ m sub, vfs_resolve_mount (mounts v) (Some path) = Some (m, sub) ∧
    view (get_fs v (mount_ctx v m)) (path_names sub) = Some (EFile c).

(** A descriptor that reads the contents [c] from [off] on. *)
Definition reading v (fd : Z) (c : list Z) (off : Z) : Prop :=
  ∃ m node sub path, fd_at v pid fd = Fd 1 (Z.of_nat m) (Z.of_nat node) off O_RDONLY ∧
    vfs_resolve_mount (mounts v) (Some path) = Some (m, sub) ∧
    walk (get_fs v (mount_ctx v m)) 0 (path_names sub) = Some node ∧
    view (get_fs v (mount_ctx v m)) (path_names sub) = Some (EFile c).

(** Nothing but the descriptor [fd] of the process differs. *)
Definition only_fd (fd : Z) v v' : Prop :=
  vfs_ok v' ∧ mounts v' = mounts v ∧ (∀ c, get_fs v' c = get_fs v c) ∧
  ∀ k, 0 ≤ k → k ≠ fd → fd_at v' pid k = fd_at v pid k.

Lemma only_fd_trans fd v1 v2 v3 : only_fd fd v1 v2 → only_fd fd v2 v3 → only_fd fd v1 v3.
Proof.
  intros (_&H2&H3&H4) (K1&K2&K3&K4). split_and!; [done|congruence| |].
  - intros c. by rewrite K3, H3.
  - intros k H0 Hk. by rewrite K4, H4.
Qed.

Lemma file_at_only fd v v' path c : only_fd fd v v' → file_at v path c → file_at v' path c.
Proof.
  intros (_&Hm&Hg&_) (m&sub&Hr&Hv). exists m, sub. by rewrite (mount_ctx_same v v' m Hm), Hm, Hg.
Qed.

(** Closing leaves the files as they are. *)
Lemma fs_close_only v fd :
  vfs_ok v → 0 ≤ pid < 64 → 0 ≤ fd < 16 → fd_used (fd_at v pid fd) ≠ 0 →
  ∃ v', fs_close pid fd v = (0, v') ∧ only_fd fd v v' ∧ fd_used (fd_at v' pid fd) = 0.
Proof.
  intros Hok Hp Hfd Hu. pose proof (fs_close_ok v pid fd Hok) as Hok'. unfold fs_close in *.
  rewrite (bad_pid_in pid Hp), (bad_fd_in fd Hfd), (proj2 (Z.eqb_neq _ _) Hu) in *.
  eexists. split; [done|]. pose proof (vok_fds v Hok) as Ht. split; [split_and!; try done|].
  - intros k H0 Hk. rewrite fd_at_set_fd, decide_False by (try done; tauto). done.
  - rewrite fd_at_set_fd, decide_True by (done || lia). done.
Qed.

Lemma nodefs_open_existing fs sub c (d : D) :
  nodefs_ok fs → lookup_path fs sub = Some (EFile c) →
  ∃ node, nodefs_open sub O_RDONLY fs d = (Some node, fs, d) ∧
          walk fs 0 (path_names sub) = Some node.
Proof.
  intros Hok Hl. rewrite lookup_resolve in Hl by done. unfold nodefs_open.
  destruct (nodefs_resolve_path fs sub) as [node|] eqn:Er; [|done]. injection Hl as Hl.
  destruct (resolve_walk fs sub node Hok Er) as [_ Hw].
  exists node. split; [|done]. set (fl := if _ =? 0 then _ else _).
  pose proof (open_node_spec node fl fs sub d c Hok Hw Hl) as Ho.
  destruct (open_node node fl fs d) as [[r fs'] d']. by destruct Ho as (_&_&->&->&->).
Qed.

(** A file is opened for reading when the process has a descriptor left. *)
Lemma fs_open_read v path c k :
  vfs_ok v → 0 ≤ pid < 64 → Forall is_byte path → file_at v path c →
  0 ≤ k < 16 → fd_used (fd_at v pid k) = 0 →
  ∃ fd v', fs_open pid (Some path) O_RDONLY v = (fd, v') ∧ 0 ≤ fd < 16 ∧ fd ≤ k ∧
    fd_used (fd_at v pid fd) = 0 ∧ reading v' fd c 0 ∧ only_fd fd v v'.
Proof.
  intros Hok Hp Hb (m&sub&Hr&Hv) Hk Hu.
  destruct (std_mount_ctx v m sub _ Hok Hr) as [_ Hsub].
  destruct (vok_fs v Hok (mount_ctx v m)) as [Hfs _].
  pose proof (vok_fds v Hok) as Ht.
  pose proof (fs_open_ok v pid (Some path) O_RDONLY Hok ltac:(by intros p [= <-])) as Hok'.
  unfold fs_open in *. rewrite (bad_pid_in pid Hp), Hr in *.
  assert (Hl : lookup_path (get_fs v (mount_ctx v m)) sub = Some (EFile c)).
  { unfold lookup_path. by rewrite (resolve_abs _ _ _ _ Hr). }
  destruct (nodefs_open_existing _ sub c (disk v) Hfs Hl) as (node&Hn&Hw). rewrite Hn in *.
  assert (set_fs v (mount_ctx v m) (get_fs v (mount_ctx v m)) (disk v) = v) as Hid
    by (by destruct v, (mount_ctx _ m)).
  cbv zeta in *. rewrite Hid in *. unfold vfs_alloc_fd in *. rewrite (bad_pid_in pid Hp) in *.
  destruct (first_idx _ (fds_of v pid)) as [i|] eqn:Ei.
  - destruct (fds_first_free v pid Hok Hp i Ei) as (Hi&Hz&Hlow).
    eexists _, _. split; [done|]. split_and!; [lia|lia| |done| |].
    + destruct (Z.le_gt_cases (Z.of_nat i) k); [done|]. exfalso. by apply (Hlow k); [lia|].
    + exists m, node, sub, path. rewrite fd_at_set_fd, decide_True by (done || lia). done.
    + split_and!; try done. intros j Hj0 Hj.
      rewrite fd_at_set_fd, decide_False by (try done; lia || tauto). done.
  - exfalso. rewrite first_idx_None in Ei. pose proof (fds_of_length v pid Ht Hp) as Hlen.
    destruct (lookup_lt_is_Some_2 (fds_of v pid) (Z.to_nat k)) as [f Hf]; [lia|].
    pose proof (Ei _ _ Hf) as Hf0. unfold fd_at in Hu.
    rewrite (nth_lookup_Some _ _ _ _ Hf) in Hu. simpl in Hf0. lia.
Qed.

(** Reading gives the next characters, at most as many as asked for; at the end none. *)
Lemma fs_read_reading v fd c off size :
  vfs_ok v → 0 ≤ pid < 64 → 0 ≤ fd < 16 → reading v fd c off →
  0 ≤ off < 4294967296 → 0 ≤ size < 4294967296 →
  let b := slice c off size in
  ∃ v', fs_read pid fd true size v = (ReadRet (Z.of_nat (length b)) b, v') ∧
    only_fd fd v v' ∧ reading v' fd c (off + Z.of_nat (length b)).
Proof.
  intros Hok Hp Hfd (m&node&sub&path&Hat&Hr&Hw&Hv) Ho Hs b.
  pose proof (fs_read_ok v pid fd true size Hok) as Hok'.
  pose proof (bad_mount_false v m sub _ Hok Hr) as Hm.
  rewrite (fs_read_fd v pid fd m node off O_RDONLY size Hp Hfd Hat) in * by done.
  destruct (vok_fs v Hok (mount_ctx v m)) as [Hfs _].
  rewrite (nodefs_read_slice _ _ _ _ off size Hfs Hw Hv Ho Hs) in *. fold b in Hok' |- *.
  pose proof (vok_fds v Hok) as Ht. eexists. split; [done|]. split.
  - split_and!; try done. intros j Hj0 Hj.
    rewrite fd_at_set_fd, decide_False by (try done; lia || tauto). done.
  - exists m, node, sub, path. rewrite fd_at_set_fd, decide_True by (done || lia). done.
Qed.

Lemma slice_length c off size : 0 ≤ off → (length (slice c off size) ≤ length c - Z.to_nat off)%nat.
Proof. intros. unfold slice. rewrite length_take, length_drop. lia. Qed.

(** A file written anew, of at most 512 bytes, through a descriptor just opened. *)
Lemma fs_rewrite v path fd v1 b n out v2 :
  vfs_ok v → 0 ≤ pid < 64 → Forall is_byte path → Forall is_byte b → Z.of_nat (length b) ≤ 512 →
  fs_open pid (Some path) O_REWRITE v = (fd, v1) → 0 ≤ fd →
  fs_write pid fd (Some b) (Z.of_nat (length b)) v1 = (n, out, v2) → n ≠ -1 →
  out = [] ∧ n = Z.of_nat (length b) ∧ 0 ≤ fd < 16 ∧ vfs_ok v2 ∧ file_at v2 path b ∧
  fd_used (fd_at v pid fd) = 0 ∧ fd_used (fd_at v2 pid fd) ≠ 0 ∧
  ∀ k, 0 ≤ k → k ≠ fd → fd_at v2 pid k = fd_at v pid k.
Proof.
  intros Hok Hp Hpath Hb Hlen Ho Hfd Hw Hn.
  destruct (fs_open_state v pid path _ fd v1 Hok Hp Hpath Ho Hfd)
    as (m&sub&node&d&Hr&Hpost&Hrange&Hmo&Hok1&Hat).
  pose proof (fs_open_lowest v pid path O_REWRITE Hok Hp Hpath) as Hlow. rewrite Ho in Hlow.
  destruct Hlow as [[? _]|(_&Hfree&_&m0&sub0&node0&_&_&Hothers)]; [lia|].
  pose proof (fs_write_fd v1 pid fd m node 0 O_REWRITE b (Z.of_nat (length b)) Hp Hrange Hat
    ltac:(done) (bad_mount_false v1 m sub (Some path) Hok1 ltac:(by rewrite Hmo))) as Hfd1.
  cbv zeta in Hfd1. rewrite Hw in Hfd1.
  destruct (nodefs_write _ _ _ _ _ _) as [[[r off] fs'] d']. injection Hfd1 as <- -> ->.
  pose proof (fs_write_file v pid path fd v1 b n _ Hok Hp Hpath Hb Hlen Ho Hfd Hw Hn)
    as (m'&sub'&Hr'&Hlen'&Hview&Hok2).
  assert (table_ok (set_fs v1 (mount_ctx v1 m) fs' d')) as Ht.
  { apply table_ok_set_fs, Hok1. }
  split_and!; try done; try lia; [by exists m', sub'| |].
  - rewrite fd_at_set_fd, decide_True by (done || lia). done.
  - intros k Hk Hne. rewrite fd_at_set_fd, decide_False by (try done; lia || tauto).
    unfold fd_at, fds_of. rewrite fd_table_set_fs. fold (fds_of v1 pid). fold (fd_at v1 pid k).
    rewrite Hothers, decide_False by (lia || tauto). done.
Qed.

(** ** The rules *)

Lemma wp_u_open path flags w Q :
  Q (Some (fs_open pid (Some (cstr path)) flags (files_in w)).1)
    (with_files w (fs_open pid (Some (cstr path)) flags (files_in w)).2) →
  wp (u_open path flags) w Q.
Proof.
  intros HQ. apply wp_syscall_int. cbn -[fs_open]. unfold file_call.
  by destruct (fs_open pid (Some (cstr path)) flags (files_in w)).
Qed.

Lemma wp_open_read path c k w Q :
  vfs_ok (files_in w) → 0 ≤ pid < 64 → Forall is_byte path → no_nul path →
  file_at (files_in w) path c → 0 ≤ k < 16 → fd_used (fd_at (files_in w) pid k) = 0 →
  (∀ fd v', 0 ≤ fd < 16 → fd ≤ k → fd_used (fd_at (files_in w) pid fd) = 0 →
     reading v' fd c 0 → only_fd fd (files_in w) v' → Q (Some fd) (with_files w v')) →
  wp (u_open path O_RDONLY) w Q.
Proof.
  intros Hok Hp Hb Hn Hf Hk Hu HQ. apply wp_u_open. rewrite cstr_id by done.
  destruct (fs_open_read _ path c k Hok Hp Hb Hf Hk Hu) as (fd&v'&->&Hfd&Hle&Hu'&Hr&Ho). by apply HQ.
Qed.

Lemma wp_u_read fd c off size w Q :
  vfs_ok (files_in w) → 0 ≤ pid < 64 → 0 ≤ fd < 16 → reading (files_in w) fd c off →
  0 ≤ off < 4294967296 → 0 ≤ size < 4294967296 →
  (∀ v', let b := slice c off size in only_fd fd (files_in w) v' →
     reading v' fd c (off + Z.of_nat (length b)) →
     Q (Some (Z.of_nat (length b), b)) (with_files w v')) →
  wp (u_read fd size) w Q.
Proof.
  intros Hok Hp Hfd Hr Ho Hs HQ. apply wp_syscall. cbn -[read_call]. unfold read_call.
  rewrite u32_small by done.
  destruct (fs_read_reading _ fd c off size Hok Hp Hfd Hr Ho Hs) as (v'&->&H1&H2). by apply HQ.
Qed.

(** A write that goes to a file. *)
Lemma wp_u_write fd b n v' w Q :
  Z.of_nat (length b) < 4294967296 →
  fs_write pid fd (Some b) (Z.of_nat (length b)) (files_in w) = (n, [], v') →
  Q (Some n) (with_files w v') → wp (u_write fd b (Z.of_nat (length b))) w Q.
Proof.
  intros Hb Hw HQ. apply wp_syscall_int. cbn -[write_call]. unfold write_call.
  rewrite u32_small by lia. rewrite Hw. by rewrite show_nil.
Qed.

Lemma wp_u_close fd w Q :
  vfs_ok (files_in w) → 0 ≤ pid < 64 → 0 ≤ fd < 16 → fd_used (fd_at (files_in w) pid fd) ≠ 0 →
  (∀ v', only_fd fd (files_in w) v' → fd_used (fd_at v' pid fd) = 0 → Q (Some 0) (with_files w v')) →
  wp (u_close fd) w Q.
Proof.
  intros Hok Hp Hfd Hu HQ. apply wp_syscall_int. cbn -[fs_close]. unfold file_call.
  destruct (fs_close_only _ fd Hok Hp Hfd Hu) as (v'&->&H1&H2). by apply HQ.
Qed.

Lemma reading_used v fd c off : reading v fd c off → fd_used (fd_at v pid fd) ≠ 0.
Proof. by intros (m&node&sub&path&->&_). Qed.

(** A process at the console that opened a file and closed it is at the console again. *)
Lemma at_console_closed fd w v :
  at_console pid w → only_fd fd (files_in w) v → fd_used (fd_at v pid fd) = 0 →
  at_console pid (with_files w v).
Proof.
  intros (Hp&H0&H1) (_&_&_&Hk) Hu. split_and!; [lia..| |]; simpl.
  - destruct (decide (fd = 0)) as [->|]; [done|]. by rewrite Hk by lia.
  - destruct (decide (fd = 1)) as [->|]; [done|]. by rewrite Hk by lia.
Qed.
End files.
