(* ===== verification/HistorySpec.v ===== *)
(** * The history of the shell

    The ring of 64 rows holds the last 64 lines; written to its file and loaded again it
    holds the most recent of them that fit in the file. *)
From Stdlib Require Import ZArith Lia ZifyBool String.
From stdpp Require Import base tactics list numbers option.
From S2P Require Import Prelude CString BlockDev NodeFs Vfs VfsSpec Process Syscall UserProg UserFiles.
From S2P Require Import ShellUtils.
From ITree Require Import Core.ITreeDefinition.
#[local] Open Scope Z_scope.

(** ** The ring *)

(** A row of the ring: an array of 64 characters with a NUL among them. *)
Definition row_ok (r : list Z) : Prop := length r = 64%nat ∧ (length (cstr r) ≤ 63)%nat.

Record history_ok (h : history) : Prop := {
  hok_rows : length (rows h) = 64%nat;
  hok_row : Forall row_ok (rows h);
  hok_head : 0 ≤ head h < 64;
  hok_count : 0 ≤ count h ≤ 64
}.

(** The lines of the history, the oldest first. *)
Definition entries (h : history) : list (list Z) :=
  map (λ i, cstr (row_at h (Z.of_nat i))) (seq 0 (Z.to_nat (count h))).

(** The last [n] of a list. *)
Definition last_n {A} (n : nat) (l : list A) : list A := drop (length l - n) l.

Lemma last_n_all {A} n (l : list A) : (length l ≤ n)%nat → last_n n l = l.
Proof. intros. unfold last_n. by replace (length l - n)%nat with 0%nat by lia. Qed.

Lemma entries_length h : history_ok h → length (entries h) = Z.to_nat (count h).
Proof. intros _. unfold entries. by rewrite length_map, length_seq. Qed.

Lemma row_idx_range h i : 0 ≤ row_idx h i < 64.
Proof. unfold row_idx, HISTORY_MAX. apply Z.mod_pos_bound. lia. Qed.

Lemma row_at_ok h i : history_ok h → row_ok (row_at h i).
Proof.
  intros [Hl Hr _ _]. pose proof (row_idx_range h i). unfold row_at.
  by apply (proj1 (List.Forall_nth _ _) Hr); lia.
Qed.

Lemma entry_lookup h i :
  history_ok h → 0 ≤ i < count h → entries h !! Z.to_nat i = Some (cstr (row_at h i)).
Proof.
  intros Hok Hi. unfold entries. rewrite list_lookup_fmap, lookup_seq_lt by lia. simpl.
  by rewrite Z2Nat.id by lia.
Qed.

Lemma no_history_ok : history_ok no_history.
Proof.
  assert (row_ok (zeros 64)) as Hz by (by split; [|apply Nat.leb_le]).
  split; [done| |simpl; lia..]. by repeat constructor.
Qed.

(** The row of index [j] after a write of the row of index [i]. *)
Lemma nth_insert_row (l : list (list Z)) i j r :
  (i < length l)%nat → nth j (<[i := r]> l) [] = if decide (j = i) then r else nth j l [].
Proof.
  intros Hi. rewrite !nth_lookup. case_decide as Hj.
  - subst. by rewrite list_lookup_insert_eq.
  - by rewrite list_lookup_insert_ne.
Qed.

(** The line a push stores: 63 characters of it. *)
Definition stored (line : list Z) : list Z := take 63 (cstr line).

Lemma copy_row line r :
  row_ok r → cstr (copy_bounded (Z.to_nat (CMDLINE_MAX - 1)) line r) = stored line ∧
             row_ok (copy_bounded (Z.to_nat (CMDLINE_MAX - 1)) line r).
Proof.
  intros [Hl _]. change (Z.to_nat (CMDLINE_MAX - 1)) with 63%nat.
  destruct (copy_bounded_after [] r 63 line) as (H1&H2&_); [constructor|cbn [length]; lia|done|].
  assert (copy_bounded 63 line r = take (length (@nil Z)) r ++ copy_bounded 63 line (drop (length (@nil Z)) r))
    as Heq by (by rewrite drop_0, take_0).
  rewrite <-Heq in H1, H2. unfold row_ok, stored. rewrite H1, H2.
  split; [done|]. split; [done|]. rewrite app_nil_l, length_take. lia.
Qed.

Lemma rows_insert h i r :
  history_ok h → row_ok r → Forall row_ok (<[i := r]> (rows h)).
Proof. intros [_ Hr _ _] Hrow. by apply list.Forall_insert. Qed.

(** A push while there are rows left. *)
Lemma push_room line h :
  history_ok h → cstr line ≠ [] → count h < 64 →
  history_ok (history_push line h) ∧ entries (history_push line h) = entries h ++ [stored line].
Proof.
  intros Hok Hne Hlt. unfold history_push, HISTORY_MAX.
  rewrite (proj2 (Z.eqb_neq (ch line 0) 0)) by (intros H0; by apply Hne, cstr_ch0).
  rewrite (proj2 (Z.ltb_lt _ _) Hlt). pose proof (rows_insert h) as Hins.
  pose proof Hok as [Hl Hr Hh Hc]. pose proof (row_idx_range h (count h)) as Hidx.
  destruct (copy_row line (row_at h (count h)) (row_at_ok h _ Hok)) as [Hs Hrow].
  fold (row_at h (count h)). set (row := copy_bounded _ _ _) in *. clearbody row.
  split; [split; cbn [rows head count]; rewrite ?length_insert; auto; lia|].
  unfold entries. cbn [count]. replace (Z.to_nat (count h + 1)) with (S (Z.to_nat (count h))) by lia.
  rewrite seq_S, map_app. f_equal.
  + apply map_ext_in. intros i Hi%in_seq. f_equal. unfold row_at, row_idx. cbn [rows head].
    rewrite nth_insert_row, decide_False; [done| |unfold row_idx in *; lia].
    unfold row_idx, HISTORY_MAX. cbn [head]. Z.to_euclidean_division_equations. lia.
  + cbn [map]. f_equal. rewrite <-Hs at 1. f_equal. unfold row_at at 1. cbn [rows].
    rewrite nth_insert_row, decide_True; [done| |unfold row_idx in *; lia].
    unfold row_idx. cbn [head]. do 3 f_equal. lia.
Qed.

(** A push that overwrites the oldest line. *)
Lemma push_full line h :
  history_ok h → cstr line ≠ [] → count h = 64 →
  history_ok (history_push line h) ∧
  entries (history_push line h) = last_n 64 (entries h ++ [stored line]).
Proof.
  intros Hok Hne H64. pose proof (entries_length h Hok) as Hlen.
  unfold history_push, HISTORY_MAX.
  rewrite (proj2 (Z.eqb_neq (ch line 0) 0)) by (intros H0; by apply Hne, cstr_ch0).
  rewrite (proj2 (Z.ltb_ge _ _)) by lia. pose proof (rows_insert h) as Hins.
  pose proof Hok as [Hl Hr Hh Hc].
  assert (row_idx h 0 = head h) as H0 by (unfold row_idx, HISTORY_MAX; rewrite Z.add_0_r, Z.mod_small; lia).
  pose proof (row_at_ok h 0 Hok) as Hr0. unfold row_at in Hr0. rewrite H0 in Hr0.
  destruct (copy_row line _ Hr0) as [Hs Hrow]. set (row := copy_bounded _ _ _) in *. clearbody row.
  split; [split; cbn [rows head count]; rewrite ?length_insert; auto; try lia; apply Z.mod_pos_bound; lia|].
  unfold last_n. rewrite length_app, Hlen, H64. cbn [length].
  unfold entries. cbn [count]. rewrite H64. change (Z.to_nat 64) with 64%nat.
  rewrite (seq_S 63 0) at 1. rewrite map_app. change (seq 0 64) with (0%nat :: seq 1 63).
  cbn [map app]. change (64 + 1 - 64)%nat with 1%nat. cbn [skipn app].
  rewrite <-(seq_shift 63 0), map_map.
  match goal with |- _ = drop 1 ((_ :: ?l) ++ ?k) => change (drop 1 _) with (l ++ k) end. f_equal.
  + apply map_ext_in. intros i Hi%in_seq. f_equal. unfold row_at. cbn [rows].
    rewrite nth_insert_row, decide_False; [| |lia].
    * unfold row_idx, HISTORY_MAX. cbn [head]. do 2 f_equal. Z.to_euclidean_division_equations. lia.
    * unfold row_idx, HISTORY_MAX. cbn [head]. Z.to_euclidean_division_equations. lia.
  + cbn [map]. f_equal. rewrite <-Hs at 1. f_equal. unfold row_at at 1. cbn [rows].
    rewrite nth_insert_row, decide_True; [done| |lia]. unfold row_idx, HISTORY_MAX. cbn [head].
    Z.to_euclidean_division_equations. lia.
Qed.

(** A push, of a line that is not empty. *)
Lemma push_spec line h :
  history_ok h → cstr line ≠ [] →
  history_ok (history_push line h) ∧
  entries (history_push line h) = last_n 64 (entries h ++ [stored line]).
Proof.
  intros Hok Hne. pose proof (entries_length h Hok) as Hlen. pose proof (hok_count h Hok).
  destruct (Z.eq_dec (count h) 64); [by apply push_full|].
  rewrite last_n_all by (rewrite length_app; simpl; lia). apply push_room; [done..|lia].
Qed.

Lemma push_empty line h : cstr line = [] → history_push line h = h.
Proof.
  intros He. unfold history_push. destruct (Z.eqb_spec (ch line 0) 0) as [|H0]; [done|].
  by rewrite cstr_step in He.
Qed.

Lemma last_n_app {A} n (l k : list A) : last_n n (last_n n l ++ k) = last_n n (l ++ k).
Proof.
  unfold last_n. rewrite !length_app, length_drop.
  destruct (Nat.le_gt_cases (length l) n).
  - replace (length l - n)%nat with 0%nat by lia. rewrite drop_0, Nat.sub_0_r. done.
  - replace (length l - (length l - n) + length k - n)%nat with (length k) by lia.
    replace (length l + length k - n)%nat with (length l - n + length k)%nat by lia.
    rewrite <-drop_drop. f_equal. by rewrite drop_app_le by lia.
Qed.

(** The lines that a sequence of pushes stores. *)
Definition push_all (lines : list (list Z)) (h : history) : history :=
  fold_left (λ h line, history_push line h) lines h.
Definition kept_lines (lines : list (list Z)) : list (list Z) :=
  map stored (List.filter (λ l, NodeFsSpec.nonempty (cstr l)) lines).

Lemma push_all_spec lines h :
  history_ok h → history_ok (push_all lines h) ∧
  entries (push_all lines h) = last_n 64 (entries h ++ kept_lines lines).
Proof.
  revert h. induction lines as [|l lines IH]; intros h Hok.
  - split; [done|]. cbn. rewrite app_nil_r, last_n_all; [done|].
    rewrite entries_length by done. pose proof (hok_count h Hok). lia.
  - unfold push_all, kept_lines. cbn [fold_left List.filter].
    destruct (cstr l) as [|c s] eqn:Hl.
    + rewrite push_empty by done. by apply IH.
    + destruct (push_spec l h Hok) as [Hok' He]; [by rewrite Hl|].
      destruct (IH _ Hok') as [H1 H2]. split; [done|]. fold (push_all lines (history_push l h)).
      rewrite H2, He, last_n_app, <-app_assoc. cbn [NodeFsSpec.nonempty map]. done.
Qed.

(** C29. The ring is the list of the last lines: after any sequence of lines, pushed on a
    history or on an empty one, it holds the last 64 of those that were not empty, in
    their order, each cut to 63 characters; [history_get] copies the one asked for, cut
    to the buffer, and answers -1 exactly outside of them. *)
Theorem history_ring lines h :
  history_ok h →
  let h' := push_all lines h in
  history_ok h' ∧ entries h' = last_n 64 (entries h ++ kept_lines lines) ∧
  history_size h' = Z.of_nat (length (entries h')) ∧
  ∀ pos out out_max, 1 ≤ out_max ≤ Z.of_nat (length out) →
    match history_get h' pos out out_max with
    | Some out' => 0 ≤ pos ∧ length out' = length out ∧
        ∃ e, entries h' !! Z.to_nat pos = Some e ∧ cstr out' = take (Z.to_nat (out_max - 1)) e
    | None => pos < 0 ∨ entries h' !! Z.to_nat pos = None
    end.
Proof.
  intros Hok. cbv zeta. destruct (push_all_spec lines h Hok) as [Hok' He].
  set (h' := push_all lines h) in *. pose proof (entries_length h' Hok') as Hlen.
  pose proof (hok_count h' Hok') as Hc.
  split_and!; [done..|unfold history_size; lia|]. intros pos out out_max Ho.
  unfold history_get. rewrite (proj2 (Z.leb_gt _ _)) by lia.
  destruct ((pos <? 0) || (count h' <=? pos)) eqn:Hp.
  - destruct (Z.ltb_spec pos 0); [by left|]. right. apply lookup_ge_None_2. lia.
  - destruct (copy_bounded_after [] out (Z.to_nat (out_max - 1)) (row_at h' pos)) as (H1&H2&_);
      [constructor|cbn [length]; lia|done|].
    rewrite take_0, !drop_0 in *. rewrite entry_lookup by (done || lia).
    split_and!; [lia|exact H1|]. eexists. split; [done|]. exact H2.
Qed.

Lemma history_ring_witness :
  let h' := push_all [bytes "ls"; []; bytes "cat a"] no_history in
  entries h' = [bytes "ls"; bytes "cat a"] ∧ history_ok h'.
Proof.
  cbv zeta. split; [by vm_compute|].
  exact (proj1 (history_ring [bytes "ls"; []; bytes "cat a"] no_history no_history_ok)).
Defined.

(** ** The file of the history *)

(** A line in the file: newlines and backslashes escaped, and ended by a newline. *)
Definition esc (c : Z) : list Z := if c =? 10 then [92; 110] else if c =? 92 then [92; 92] else [c].
Definition escaped_line (s : list Z) : list Z := concat (map esc s).
Definition encode (s : list Z) : list Z := escaped_line s ++ [10].
Definition encode_all (ls : list (list Z)) : list Z := concat (map encode ls).

(** The most recent lines that fit in [cap] characters. *)
Fixpoint fitting (cap : nat) (ls : list (list Z)) : list (list Z) :=
  match ls with
  | [] => []
  | l :: r => if (length (encode_all ls) <=? cap)%nat then ls else fitting cap r
  end.

Lemma escaped_line_cons c s : escaped_line (c :: s) = esc c ++ escaped_line s.
Proof. done. Qed.
Lemma encode_all_cons l ls : encode_all (l :: ls) = encode l ++ encode_all ls.
Proof. done. Qed.

Lemma esc_special c :
  (c =? 10) || (c =? 92) = true → esc c = [92; if c =? 10 then 110 else 92].
Proof. unfold esc. destruct (c =? 10); [done|]. by destruct (c =? 92). Qed.
Lemma esc_plain c : (c =? 10) || (c =? 92) = false → esc c = [c].
Proof. unfold esc. destruct (c =? 10); [done|]. by destruct (c =? 92). Qed.

Lemma encoded_len s : history_encoded_line_len s = Z.of_nat (length (encode (cstr s))).
Proof.
  unfold encode. rewrite length_app. induction s as [|c s IH]; [done|]. cbn [history_encoded_line_len cstr].
  destruct (c =? 0); [done|]. rewrite escaped_line_cons, length_app, IH.
  destruct ((c =? 10) || (c =? 92)) eqn:E.
  - rewrite esc_special by done. cbn [length]. lia.
  - rewrite esc_plain by done. cbn [length]. lia.
Qed.

Lemma serialize_chars_spec s out cap :
  Z.of_nat (length (out ++ escaped_line (cstr s))) ≤ cap →
  serialize_chars s out cap = (out ++ escaped_line (cstr s), true).
Proof.
  revert out. induction s as [|c s IH]; intros out Hl; cbn [serialize_chars cstr] in *.
  { by rewrite app_nil_r. }
  destruct (Z.eqb_spec c 0) as [->|Hc]; cbn [orb]; [by rewrite app_nil_r|].
  rewrite escaped_line_cons in *. destruct ((c =? 10) || (c =? 92)) eqn:E.
  - rewrite (esc_special c E) in *. rewrite !length_app in Hl. cbn [length] in Hl.
    rewrite (proj2 (Z.leb_gt _ _)), (proj2 (Z.ltb_ge _ _)) by lia.
    rewrite IH; rewrite <-?app_assoc; [done|]. rewrite !length_app. cbn [length]. lia.
  - rewrite (esc_plain c E) in *. rewrite !length_app in Hl. cbn [length] in Hl.
    rewrite (proj2 (Z.leb_gt _ _)), (proj2 (Z.ltb_ge _ _)) by lia.
    rewrite IH; rewrite <-?app_assoc; [done|]. rewrite !length_app. cbn [length]. lia.
Qed.

Lemma drop_entries h i :
  history_ok h → 0 ≤ i < count h →
  drop (Z.to_nat i) (entries h) = cstr (row_at h i) :: drop (Z.to_nat (i + 1)) (entries h).
Proof.
  intros Hok Hi. rewrite (drop_S _ _ _ (entry_lookup h i Hok Hi)). do 2 f_equal. lia.
Qed.

Lemma serialize_rows_spec h n i out cap :
  history_ok h → 0 ≤ i → Z.of_nat n = count h - i →
  Z.of_nat (length (out ++ encode_all (drop (Z.to_nat i) (entries h)))) ≤ cap →
  serialize_rows h n i out cap = out ++ encode_all (drop (Z.to_nat i) (entries h)).
Proof.
  intros Hok. revert i out. induction n as [|n IH]; intros i out Hi Hn Hl; cbn [serialize_rows].
  { rewrite drop_ge by (rewrite entries_length by done; lia). cbn. by rewrite app_nil_r. }
  rewrite drop_entries, encode_all_cons in * by (done || lia). unfold encode in *.
  rewrite serialize_chars_spec.
  2:{ rewrite !length_app in *. lia. }
  cbn [negb]. rewrite (proj2 (Z.ltb_ge _ _)) by (rewrite !length_app in *; cbn [length] in *; lia).
  rewrite IH; [|lia|lia|].
  - by rewrite <-!app_assoc.
  - rewrite !length_app in *. cbn [length] in *. lia.
Qed.

Lemma fitting_app cap ls l rs :
  (length (encode_all rs) ≤ cap)%nat → (cap < length (encode_all (l :: rs)))%nat →
  fitting cap (ls ++ l :: rs) = rs.
Proof.
  intros Hr Hl. induction ls as [|k ls IH].
  - rewrite app_nil_l. cbn [fitting]. rewrite (proj2 (Nat.leb_gt _ _)) by done.
    destruct rs as [|r rs]; [done|]. cbn [fitting]. by rewrite (proj2 (Nat.leb_le _ _)).
  - rewrite <-app_comm_cons. cbn [fitting]. rewrite (proj2 (Nat.leb_gt _ _)); [done|].
    assert (∀ xs ys, (length (encode_all ys) ≤ length (encode_all (xs ++ ys)))%nat) as Hmono.
    { intros xs ys. unfold encode_all. rewrite map_app, concat_app, length_app. lia. }
    pose proof (Hmono (k :: ls) (l :: rs)) as Hm. rewrite <-app_comm_cons in Hm. lia.
Qed.

Lemma history_start_spec h n cap :
  history_ok h → Z.of_nat n ≤ count h →
  let total := Z.of_nat (length (encode_all (drop n (entries h)))) in
  total ≤ cap →
  let start := history_start h n total (Z.of_nat n) cap in
  0 ≤ start ≤ count h ∧ drop (Z.to_nat start) (entries h) = fitting (Z.to_nat cap) (entries h).
Proof.
  intros Hok. induction n as [|n IH]; intros Hn; cbv zeta; intros Hcap; cbn [history_start].
  - pose proof (hok_count h Hok). split; [lia|]. rewrite drop_0 in *.
    destruct (entries h) as [|e es]; [done|]. cbn [fitting]. by rewrite (proj2 (Nat.leb_le _ _)) by lia.
  - rewrite encoded_len.
    assert (drop n (entries h) = cstr (row_at h (Z.of_nat n)) :: drop (S n) (entries h)) as Hd.
    { pose proof (drop_entries h (Z.of_nat n) Hok ltac:(lia)) as Hd. rewrite Nat2Z.id in Hd.
      by replace (Z.to_nat (Z.of_nat n + 1)) with (S n) in Hd by lia. }
    assert (Z.of_nat (length (encode_all (drop n (entries h)))) =
            Z.of_nat (length (encode_all (drop (S n) (entries h)))) +
            Z.of_nat (length (encode (cstr (row_at h (Z.of_nat n)))))) as Ht.
    { rewrite Hd, encode_all_cons, length_app. lia. }
    rewrite <-Ht. destruct (Z.ltb_spec cap (Z.of_nat (length (encode_all (drop n (entries h)))))) as [Hlt|Hge].
    + split; [lia|]. rewrite Nat2Z.id. rewrite <-(take_drop n (entries h)) at 2. rewrite Hd.
      rewrite fitting_app; [done|lia|]. rewrite <-Hd. lia.
    + apply IH; [lia|done].
Qed.

(** What is written is the encoding of the most recent lines that fit. *)
Lemma history_serialize_spec h cap :
  history_ok h → 0 < cap →
  history_serialize h cap = encode_all (fitting (Z.to_nat cap) (entries h)) ∧
  Z.of_nat (length (history_serialize h cap)) ≤ cap.
Proof.
  intros Hok Hcap. unfold history_serialize. rewrite (proj2 (Z.eqb_neq _ _)) by lia.
  pose proof (hok_count h Hok) as Hc. pose proof (entries_length h Hok) as Hlen.
  pose proof (history_start_spec h (Z.to_nat (count h)) cap Hok ltac:(lia)) as Hs. cbv zeta in Hs.
  rewrite drop_ge in Hs by lia. change (Z.of_nat (length (encode_all []))) with 0 in Hs.
  rewrite Z2Nat.id in Hs by lia. destruct (Hs ltac:(lia)) as [Hr Hd].
  set (start := history_start _ _ _ _ _) in *.
  assert (Z.of_nat (length (encode_all (fitting (Z.to_nat cap) (entries h)))) ≤ cap) as Hfit.
  { assert (∀ ls, (length (encode_all (fitting (Z.to_nat cap) ls)) ≤ Z.to_nat cap)%nat) as H.
    { induction ls as [|l ls IH]; [simpl; lia|]. cbn [fitting]. by destruct (Nat.leb_spec (length (encode_all (l :: ls))) (Z.to_nat cap)). }
    specialize (H (entries h)). lia. }
  rewrite serialize_rows_spec; rewrite ?Hd, ?app_nil_l; [|done|lia|lia|done]. done.
Qed.

(** ** Loading *)

(** A line as the editor makes them: not empty, and without carriage returns. *)
Definition good_line (l : list Z) : Prop :=
  l ≠ [] ∧ (length l ≤ 63)%nat ∧ Forall (λ c, is_byte c ∧ c ≠ 0 ∧ c ≠ 13) l.

Lemma load_escaped l cur h :
  Forall (λ c, is_byte c ∧ c ≠ 0 ∧ c ≠ 13) l → (length (cur ++ l) ≤ 63)%nat →
  fold_left load_char (escaped_line l) (Loading cur false h) = Loading (cur ++ l) false h.
Proof.
  intros Hl. revert cur. induction Hl as [|c l (_&_&Hc) _ IH]; intros cur Hlen.
  { by rewrite app_nil_r. }
  rewrite escaped_line_cons, fold_left_app.
  assert (fold_left load_char (esc c) (Loading cur false h) = Loading (cur ++ [c]) false h) as ->.
  { assert (keep_char cur c = cur ++ [c]) as Hk.
    { unfold keep_char, CMDLINE_MAX. rewrite length_app in Hlen. cbn [length] in Hlen.
      by rewrite (proj2 (Z.ltb_lt _ _)) by lia. }
    unfold esc. destruct (Z.eqb_spec c 10) as [->|H10]; [cbn -[keep_char]; by rewrite Hk|].
    destruct (Z.eqb_spec c 92) as [->|H92]; [cbn -[keep_char]; by rewrite Hk|].
    cbn [fold_left]. unfold load_char. cbn [escaped l_line l_hist].
    rewrite !(proj2 (Z.eqb_neq c _)) by done. by rewrite Hk. }
  rewrite IH; rewrite <-app_assoc; done.
Qed.

Lemma load_encoded ls h :
  Forall good_line ls →
  fold_left load_char (encode_all ls) (Loading [] false h) = Loading [] false (push_all ls h).
Proof.
  intros Hl. revert h. induction Hl as [|l ls (Hne&Hlen&Hc) _ IH]; intros h; [done|].
  rewrite encode_all_cons. unfold encode. rewrite !fold_left_app, load_escaped by done.
  cbn [fold_left]. rewrite app_nil_l. unfold load_char at 1. cbn. apply IH.
Qed.

Lemma kept_good ls : Forall good_line ls → kept_lines ls = ls.
Proof.
  unfold kept_lines. induction 1 as [|l ls (Hne&Hlen&Hc) _ IH]; [done|]. cbn [List.filter].
  assert (cstr l = l) as Hl.
  { apply cstr_id. eapply Forall_impl; [|exact Hc]. simpl. tauto. }
  rewrite Hl. destruct l as [|c l]; [done|]. cbn [NodeFsSpec.nonempty map]. rewrite IH. f_equal.
  unfold stored. by rewrite Hl, take_ge.
Qed.

Lemma fitting_suffix cap ls : ∃ k, ls = k ++ fitting cap ls.
Proof.
  induction ls as [|l ls (k&IH)]; [by exists []|]. cbn [fitting]. case_if; [by exists []|].
  exists (l :: k). by rewrite <-app_comm_cons, <-IH.
Qed.

Lemma encode_all_bytes ls : Forall good_line ls → Forall is_byte (encode_all ls).
Proof.
  induction 1 as [|l ls (_&_&Hl) _ IH]; [constructor|]. rewrite encode_all_cons. unfold encode.
  apply Forall_app. split; [|done]. apply Forall_app. split; [|by repeat constructor].
  induction Hl as [|c l (Hc&_) _ IHl]; [constructor|]. rewrite escaped_line_cons.
  apply Forall_app. split; [|done]. unfold esc. repeat case_if; repeat (constructor; [done|]); constructor.
Qed.

Section files.
Context {D : Type} `{BlockDev D}.
Context (pid : Z).
#[local] Instance hist_kernel : Kernel (world D) := world_kernel pid.
Implicit Types w : world D.

(** The loop that reads a file, through a buffer of 256 characters. *)
Lemma wp_read_all fd c off l w (Q : option loading → world D → Prop) :
  vfs_ok (files_in w) → 0 ≤ pid < 64 → 0 ≤ fd < 16 →
  0 ≤ off ≤ Z.of_nat (length c) → Z.of_nat (length c) ≤ 512 →
  reading pid (files_in w) fd c off →
  (∀ v', only_fd pid fd (files_in w) v' → fd_used (fd_at v' pid fd) ≠ 0 →
     Q (Some (fold_left load_char (drop (Z.to_nat off) c) l)) (with_files w v')) →
  wp (read_all fd l) w Q.
Proof.
  intros Hok Hp Hfd Ho Hc. remember (length c - Z.to_nat off)%nat as n eqn:Hn.
  revert off l w Hok Ho Hn. induction (lt_wf n) as [n _ IH]. intros off l w Hok Ho -> Hr HQ.
  apply wp_forever, wp_bind. eapply wp_u_read; [done..|lia|lia|]. intros v' b Hof Hr'. cbn [then_ fst snd].
  assert (b = take 256 (drop (Z.to_nat off) c)) as Hb by done.
  assert (length b = Nat.min 256 (length c - Z.to_nat off)) as Hbl
    by (by rewrite Hb, length_take, length_drop).
  destruct (Z.leb_spec (Z.of_nat (length b)) 0) as [H0|H0].
  - apply wp_ret. cbn [then_]. specialize (HQ v' Hof (reading_used _ _ _ _ _ Hr')).
    rewrite drop_ge in HQ by lia. exact HQ.
  - apply wp_ret. cbn [then_]. rewrite Nat2Z.id, (take_ge b) by lia.
    apply (IH (length c - Z.to_nat (off + Z.of_nat (length b)))%nat ltac:(lia) (off + Z.of_nat (length b)));
      [apply Hof|lia|done|exact Hr'|].
    intros v'' Hof' Hu. cbn [files_in with_files] in *.
    rewrite <-fold_left_app. replace (b ++ drop (Z.to_nat (off + Z.of_nat (length b))) c)
      with (drop (Z.to_nat off) c).
    + apply HQ; [by eapply only_fd_trans|done].
    + rewrite <-(take_drop 256 (drop (Z.to_nat off) c)) at 1. rewrite <-Hb. f_equal.
      rewrite drop_drop. destruct (Nat.le_gt_cases (length c - Z.to_nat off) 256).
      * by rewrite !drop_ge by lia.
      * f_equal. lia.
Qed.

(** A descriptor is free, and the disk takes the writes. *)
Definition can_rewrite (path b : list Z) (v : vfs D) : Prop :=
  let '(fd, v1) := fs_open pid (Some path) O_REWRITE v in
  0 ≤ fd ∧ (fs_write pid fd (Some b) (Z.of_nat (length b)) v1).1.1 ≠ -1.

Lemma wp_history_write h w (Q : option unit → world D → Prop) :
  let b := history_serialize h FS_FILE_MAX_SIZE in
  vfs_ok (files_in w) → at_console pid w → history_ok h → Forall is_byte b →
  can_rewrite history_path b (files_in w) →
  (∀ v', vfs_ok v' → file_at v' history_path b → at_console pid (with_files w v') →
     Q (Some tt) (with_files w v')) →
  wp (history_write h) w Q.
Proof.
  intros b Hok Hcon Hh Hb Hcan HQ. destruct Hcon as (Hp&H0&H1).
  destruct (history_serialize_spec h FS_FILE_MAX_SIZE Hh ltac:(done)) as (_&Hlen).
  fold b in Hlen. unfold FS_FILE_MAX_SIZE in Hlen.
  unfold history_write. apply wp_bind, wp_u_open. cbn [then_].
  change (cstr history_path) with history_path.
  change (Z.lor (Z.lor O_CREAT O_WRONLY) O_TRUNC) with O_REWRITE.
  unfold can_rewrite in Hcan. destruct (fs_open _ _ _ _) as [fd v1] eqn:Eo. cbn [fst snd].
  destruct Hcan as [Hfd Hn]. rewrite (proj2 (Z.ltb_ge _ _)) by done. fold b.
  cbv zeta. clearbody b.
  destruct (fs_write pid fd (Some b) (Z.of_nat (length b)) v1) as [[n out] v2] eqn:Ew.
  destruct (fs_rewrite pid (files_in w) history_path fd v1 b n out v2) as
    (->&->&Hr&Hok2&Hfile&Hfree&Hused&Hsame); try done; [by repeat constructor|].
  apply wp_bind. eapply wp_u_write; [lia|exact Ew|]. cbn [then_]. apply wp_bind.
  rewrite (proj2 (Z.ltb_ge _ _)), Z.eqb_refl by lia. apply wp_ret. cbn [then_].
  apply wp_bind, wp_u_close; [done..|]. intros v3 Ho Hu3. cbn [then_]. apply wp_ret.
  apply HQ; [apply Ho|by eapply file_at_only|].
  destruct Ho as (_&_&_&Hk). cbn [files_in with_files] in Hk. split_and!; [lia..| |]; cbn.
  - destruct (decide (fd = 0)) as [->|]; [done|]. by rewrite Hk, Hsame by lia.
  - destruct (decide (fd = 1)) as [->|]; [done|]. by rewrite Hk, Hsame by lia.
Qed.

Lemma wp_history_load h b w (Q : option history → world D → Prop) :
  vfs_ok (files_in w) → at_console pid w → file_at (files_in w) history_path b →
  Z.of_nat (length b) ≤ 512 →
  (∀ v', vfs_ok v' → at_console pid (with_files w v') →
     Q (Some (load_end (fold_left load_char b (Loading [] false (Hist (rows h) 0 0)))))
       (with_files w v')) →
  wp (history_load h) w Q.
Proof.
  intros Hok Hcon Hf Hlen HQ. pose proof Hcon as (Hp&H0&H1).
  unfold history_load. apply wp_bind.
  eapply (wp_open_read pid history_path b 0); [done|done|by repeat constructor|by repeat constructor|done|lia|done|].
  intros fd v1 Hfd _ Hfree Hr Ho. cbn [then_]. rewrite (proj2 (Z.ltb_ge _ _)) by lia.
  apply wp_bind. eapply (wp_read_all fd b 0); [apply Ho|done|done|lia|done|exact Hr|].
  intros v2 Ho2 Hu2. cbn [then_]. apply wp_bind, wp_u_close; [apply Ho2|done..|].
  intros v3 Ho3 Hu3. cbn [then_]. apply wp_ret. cbn [files_in with_files] in *. apply HQ; [apply Ho3|].
  apply (at_console_closed pid fd w v3); [done|by eapply only_fd_trans, only_fd_trans|done].
Qed.

(** C20. The history survives: when the shell that leaves has written it and another one,
    with whatever in its arrays, loads it, through the files of the kernel, that one has
    the most recent lines of which the file of 512 characters has room, in their order
    and as they were, newlines and backslashes too.  Both end, with nothing on the
    console and no descriptor left open. *)
Theorem history_survives h h0 w :
  history_ok h → Forall good_line (entries h) → history_ok h0 →
  vfs_ok (files_in w) → at_console pid w →
  can_rewrite history_path (history_serialize h FS_FILE_MAX_SIZE) (files_in w) →
  wp (let* _u := history_write h in history_load h0) w (λ o w',
    ∃ h', o = Some h' ∧ history_ok h' ∧ entries h' = fitting 512 (entries h) ∧
      vfs_ok (files_in w') ∧ at_console pid w' ∧ shown w' = shown w ∧ typed w' = typed w).
Proof.
  intros Hh Hgood Hh0 Hok Hcon Hcan.
  destruct (history_serialize_spec h FS_FILE_MAX_SIZE Hh ltac:(done)) as (Hs&Hlen).
  change (Z.to_nat FS_FILE_MAX_SIZE) with 512%nat in Hs.
  destruct (fitting_suffix 512 (entries h)) as (k&Hk).
  set (ls := fitting 512 (entries h)) in *.
  assert (Forall good_line ls) as Hls by (rewrite Hk in Hgood; by apply Forall_app in Hgood as [_ ?]).
  apply wp_bind, wp_history_write; [done..|rewrite Hs; by apply encode_all_bytes|done|].
  intros v1 Hok1 Hf1 Hcon1. cbn [then_]. rewrite Hs in Hf1, Hlen.
  apply (wp_history_load h0 (encode_all ls)); [done..|].
  intros v2 Hok2 Hcon2. eexists. split; [done|]. rewrite load_encoded by done.
  cbn [load_end escaped l_line l_hist length Nat.ltb Nat.leb].
  assert (history_ok (Hist (rows h0) 0 0)) as Hempty by (destruct Hh0; split; simpl; auto; lia).
  destruct (push_all_spec ls _ Hempty) as [Hok' He]. split_and!; try done.
  rewrite He, kept_good by done. change (entries (Hist (rows h0) 0 0)) with (@nil (list Z)).
  rewrite app_nil_l. apply last_n_all. apply (f_equal length) in Hk. rewrite length_app in Hk.
  rewrite entries_length in Hk by done. pose proof (hok_count h Hh). lia.
Qed.
End files.
