(* ===== verification/ShellEdit.v ===== *)
(** * The command line and the main loop of the shell ([src/user/apps/shell/main.c])

    The editor of the command line, with its history and the completion of the names of
    programs; a command with its redirections; the loop of the shell. *)
From Stdlib Require Import ZArith Lia ZifyBool String.
From stdpp Require Import base tactics list numbers option.
From S2P Require Import Prelude CString NodeFs Vfs Process UserPath UserProg ShellUtils.
From ITree Require Import Core.ITreeDefinition.
#[local] Open Scope Z_scope.

(** ** Completion *)

Definition shell_app_names : list (list Z) :=
  map bytes ["shell"; "ipc_rx"; "ps"; "date"; "ls"; "mkdir"; "rmdir"; "touch"; "rm"; "write";
             "cat"; "cd"; "kill"; "kernel_info"; "bitmap"]%string.

Definition min_int (a b : Z) : Z := if a <? b then a else b.

(** [while (i < len && s[i] != ' ' && s[i] != '\t') i++;] *)
Fixpoint token_end_loop (left : nat) (s : list Z) (i : Z) : Z :=
  match left with
  | O => i
  | S left' =>
      let c := ch s (Z.to_nat i) in
      if negb (c =? 32) && negb (c =? 9) then token_end_loop left' s (i + 1) else i
  end.

Definition first_token_end (s : list Z) (len : Z) : Z := token_end_loop (Z.to_nat len) s 0.

Fixpoint common_prefix_len (a b : list Z) : Z :=
  match a with
  | [] => 0
  | c :: a' => if negb (c =? 0) && negb (ch b 0 =? 0) && (c =? ch b 0)
               then 1 + common_prefix_len a' (tail b) else 0
  end.

(** The command line, [*len] and [*cursor]. *)
Record line := Line { text : list Z; len : Z; cursor : Z }.

Definition put (l : list Z) (i c : Z) : list Z := <[Z.to_nat i := c]> l.
Definition get (l : list Z) (i : Z) : Z := ch l (Z.to_nat i).

(** [for (i = from; i >= to; i--) s[i + d] = s[i];] *)
Definition move_right (s : list Z) (from to d : Z) : list Z :=
  zfor (Z.to_nat (from - to + 1)) 0 (λ j s, put s (from - j + d) (get s (from - j))) s.

(** [for (i = from; i < to; i++) s[i - d] = s[i];] *)
Definition move_left (s : list Z) (from to d : Z) : list Z :=
  zfor (Z.to_nat (to - from)) from (λ i s, put s (i - d) (get s i)) s.

Definition replace_first_token (l : line) (old_token_len : Z) (new_token : list Z) (new_token_len : Z)
  : line :=
  let old_len := len l in
  let tail_len := old_len - old_token_len in
  let new_len := new_token_len + tail_len in
  if CMDLINE_MAX <=? new_len then l
  else
    let s := text l in
    let s :=
      if old_token_len <? new_token_len then
        move_right s old_len old_token_len (new_token_len - old_token_len)
      else if new_token_len <? old_token_len then
        move_left s old_token_len (old_len + 1) (old_token_len - new_token_len)
      else s in
    let s := zfor (Z.to_nat new_token_len) 0 (λ i s, put s i (get new_token i)) s in
    Line (put s new_len 0) new_len new_token_len.

(** The first [n] characters are those of the name. *)
Fixpoint same_prefix (n : nat) (name s : list Z) : bool :=
  match n with
  | O => true
  | S n' => (ch name 0 =? ch s 0) && same_prefix n' (tail name) (tail s)
  end.

(** The return value, and the line. *)
Definition complete_app_name (l : line) : bool * line :=
  let token_end := first_token_end (text l) (len l) in
  if (token_end <? cursor l) || (cursor l <=? 0) then (false, l)
  else
    let matches := List.filter (λ n, same_prefix (Z.to_nat (cursor l)) n (text l)) shell_app_names in
    match matches with
    | [] => (false, l)
    | [m] => (true, replace_first_token l token_end m (str_len m))
    | m :: others =>
        let lcp := fold_left (λ lcp o, min_int lcp (common_prefix_len m o)) others (str_len m) in
        if token_end <? lcp then (true, replace_first_token l token_end m lcp) else (false, l)
    end.

(** ** The editor *)

Record editor := Ed {
  cmd : line; draft : list Z; draft_len : Z; history_cursor : Z
}.

(** What ends the loop: the line is entered, or is dropped for a new prompt. *)
Inductive line_end := Entered (cmdline : list Z) | Too_long.

Definition with_cmd (e : editor) (l : line) : editor := Ed l (draft e) (draft_len e) (history_cursor e).
Definition redraw (l : line) (cwd : list Z) : prog unit := redraw_cmdline (text l) (cursor l) cwd.

(** The character at [i] is taken out. *)
Definition take_out (l : line) (i cursor : Z) : line :=
  let s := move_left (text l) (i + 1) (len l) 1 in
  Line (put s (len l - 1) 0) (len l - 1) cursor.

(** The character [c] is put in at the cursor. *)
Definition put_in (l : line) (c : Z) : line :=
  if cursor l =? len l then Line (put (text l) (len l) c) (len l + 1) (len l + 1)
  else
    let s := move_right (text l) (len l) (cursor l) 1 in
    Line (put s (cursor l) c) (len l + 1) (cursor l + 1).

(** The entry of the history at [pos] becomes the line. *)
Definition recall (h : history) (e : editor) (pos : Z) : editor :=
  let s := default (text (cmd e)) (history_get h pos (text (cmd e)) CMDLINE_MAX) in
  Ed (Line s (str_len s) (str_len s)) (draft e) (draft_len e) pos.

(** [for (i = 0; i < n; i++) to[i] = from[i]; to[n] = 0;] *)
Definition copy_line (from to : list Z) (n : Z) : list Z :=
  put (zfor (Z.to_nat n) 0 (λ i to, put to i (get from i)) to) n 0.

Definition key_up (h : history) (cwd : list Z) (e : editor) : prog editor :=
  let hsize := history_size h in
  let e :=
    if history_cursor e =? -1 then
      Ed (cmd e) (copy_line (text (cmd e)) (draft e) (len (cmd e))) (len (cmd e)) (hsize - 1)
    else if 0 <? history_cursor e then Ed (cmd e) (draft e) (draft_len e) (history_cursor e - 1)
    else e in
  if 0 <=? history_cursor e then
    let e := recall h e (history_cursor e) in
    let* _r := redraw (cmd e) cwd in Ret e
  else Ret e.

Definition key_down (h : history) (cwd : list Z) (e : editor) : prog editor :=
  let hsize := history_size h in
  if history_cursor e =? -1 then Ret e
  else if history_cursor e <? hsize - 1 then
    let e := Ed (cmd e) (draft e) (draft_len e) (history_cursor e + 1) in
    if 0 <=? history_cursor e then
      let e := recall h e (history_cursor e) in
      let* _r := redraw (cmd e) cwd in Ret e
    else Ret e
  else
    let s := copy_line (draft e) (text (cmd e)) (draft_len e) in
    let e := Ed (Line s (draft_len e) (draft_len e)) (draft e) (draft_len e) (-1) in
    let* _r := redraw (cmd e) cwd in Ret e.

(** The characters after an escape. *)
Definition escape (h : history) (cwd : list Z) (e : editor) : prog editor :=
  let l := cmd e in
  let* c1 := getchar in
  let* c2 := getchar in
  let '(c1, c2) := (u8 c1, u8 c2) in
  if (c1 =? 91) && ((c2 =? 65) || (c2 =? 66) || (c2 =? 67) || (c2 =? 68) || (c2 =? 51)) then
    if c2 =? 67 then
      if cursor l <? len l then
        let l := Line (text l) (len l) (cursor l + 1) in
        let* _r := redraw l cwd in Ret (with_cmd e l)
      else Ret e
    else if c2 =? 68 then
      if 0 <? cursor l then
        let l := Line (text l) (len l) (cursor l - 1) in
        let* _r := redraw l cwd in Ret (with_cmd e l)
      else Ret e
    else if c2 =? 51 then
      let* c3 := getchar in
      if (u8 c3 =? 126) && (cursor l <? len l) then
        let l := take_out l (cursor l) (cursor l) in
        let* _r := redraw l cwd in Ret (with_cmd e l)
      else Ret e
    else if history_size h <=? 0 then Ret e
    else if c2 =? 65 then key_up h cwd e
    else key_down h cwd e
  else Ret e.

(** One round of the loop. *)
Definition edit (h : history) (cwd : list Z) (e : editor) : prog (editor + line_end) :=
  let l := cmd e in
  let* c := getchar in
  let c := u8 c in
  if (c =? 13) || (c =? 10) then
    let* _p := u_printf [10] [] in
    Ret (inr (Entered (put (text l) (len l) 0)))
  else if c =? 27 then let* e := escape h cwd e in Ret (inl e)
  else if c =? 9 then
    let '(ok, l) := complete_app_name l in
    let* _r := if ok : bool then redraw l cwd else Ret tt in
    Ret (inl (with_cmd e l))
  else if (c =? 8) || (c =? 127) then
    if 0 <? cursor l then
      let l := take_out l (cursor l - 1) (cursor l - 1) in
      let* _r := redraw l cwd in Ret (inl (with_cmd e l))
    else Ret (inl e)
  else if len l =? CMDLINE_MAX - 1 then
    let* _p := u_printf (10 :: bytes "command too long" ++ [10]) [] in Ret (inr Too_long)
  else
    let l' := put_in l c in
    let* _r := if cursor l =? len l then putchar c else redraw l' cwd in
    Ret (inl (with_cmd e l')).

(** [cmdline] and [draft] are what the arrays hold before. *)
Definition read_line (h : history) (cwd cmdline draft : list Z) : prog line_end :=
  forever (edit h cwd) (Ed (Line cmdline 0 0) draft 0 (-1)).

(** ** A command *)

Definition say (s : string) : prog unit := u_printf (bytes s ++ [10]) [].

(** The standard input, or the output, becomes the file; [false] where the code goes back
    to the prompt. *)
Definition redirect_in (path : list Z) : prog bool :=
  let* fd := u_open path O_RDONLY in
  if fd <? 0 then let* _p := say "file open failed" in Ret false
  else if fd =? 0 then Ret true
  else
    let* r := dup2 fd 0 in
    if r <? 0 then
      let* _p := say "dup2 failed" in
      let* _c := u_close fd in
      Ret false
    else let* _c := u_close fd in Ret true.

Definition redirect_out (path : list Z) (stdin_redirected : bool) : prog bool :=
  let* fd := u_open path (Z.lor (Z.lor O_WRONLY O_CREAT) O_TRUNC) in
  if fd <? 0 then let* _p := say "file open failed" in Ret false
  else if fd =? 1 then Ret true
  else
    let* r := dup2 fd 1 in
    if r <? 0 then
      let* _p := say "dup2 failed" in
      let* _c := u_close fd in
      let* _d := if stdin_redirected then let* _c0 := u_close 0 in Ret tt else Ret tt in
      Ret false
    else let* _c := u_close fd in Ret true.

(** The command of [argv], which is not empty. *)
Definition run_command (f : shell_fds) (h : history) (stack : list Z) (argv : list (list Z)) : prog unit :=
  let argv0 := List.hd [] argv in
  let argc := length argv in
  if (strcmp argv0 (bytes "history") =? 0) && (argc =? 1)%nat then shell_cmd_history f h
  else if strcmp argv0 (bytes "cd") =? 0 then
    if is_background argv then say "cd: background execution is not supported"
    else if negb (argc =? 2)%nat then say "usage: cd <path>"
    else
      let* r := shell_cmd_cd stack (nth 1 argv []) in
      if r <? 0 then say "chdir failed" else Ret tt
  else if strcmp argv0 (bytes "pwd") =? 0 then
    let* r := shell_cmd_pwd in
    if r <? 0 then say "pwd failed" else Ret tt
  else if (strcmp argv0 (bytes "exit") =? 0) && (argc =? 1)%nat then
    let* _w := history_write h in shell_cmd_exit tt
  else
    let* _p := run_external argv (is_background argv) in Ret tt.

(** The optional redirections around it. *)
Definition run_redirected (f : shell_fds) (h : history) (stack : list Z) (r : redirection) : prog unit :=
  let* in_ok := match in_path r with Some p => redirect_in p | None => Ret true end in
  if negb in_ok then Ret tt
  else
    let stdin_redirected := match in_path r with Some _ => true | None => false end in
    let* out_ok := match out_path r with
                   | Some p => redirect_out p stdin_redirected
                   | None => Ret true
                   end in
    if negb out_ok then Ret tt
    else
      let* _r := run_command f h stack (exec_args r) in
      let* _o := match out_path r with Some _ => let* _c := u_close 1 in Ret tt | None => Ret tt end in
      match in_path r with Some _ => let* _c := u_close 0 in Ret tt | None => Ret tt end.

(** What the loop does with a line, which it has put in the history. *)
Definition execute (f : shell_fds) (h : history) (stack cmdline : list Z) : prog unit :=
  let '(cmdline, raw) := split_args cmdline 8 in
  let raw_argv := args_of cmdline raw in
  if (length raw_argv =? 0)%nat then Ret tt
  else
    match parse_redirection raw_argv with
    | None => say "redirection syntax error"
    | Some r =>
        if (length (exec_args r) =? 0)%nat then say "command not found."
        else run_redirected f h stack r
    end.

(** One round, from the prompt to the prompt.  [stack] stands for what the arrays of a
    round hold before they are written. *)
Definition round (f : shell_fds) (stack : list Z) (h : history) : prog history :=
  let* r := getcwd in
  let cwd := if fst r <? 0 then strcpy_s stack FS_PATH_MAX (bytes "unkown")
             else snd r ++ drop (length (snd r)) stack in
  let* _p := u_printf prompt_format
               [AStr CONSOLE_BLUE; AStr CONSOLE_WHITE; AStr CONSOLE_BLUE; AStr cwd; AStr CONSOLE_WHITE] in
  let* l := read_line h cwd stack stack in
  match l with
  | Too_long => Ret h
  | Entered cmdline =>
      let h := history_push cmdline h in
      let* _e := execute f h stack cmdline in
      Ret h
  end.

Definition main (f : shell_fds) (stack : list Z) (h : history) : prog Z :=
  let* h := history_load h in
  forever (λ h, let* h := round f stack h in Ret (inl h)) h.
