(* ===== verification/ShellEditSpec.v ===== *)
(** * The editor of the command line is correct

    The loops on the character buffer against operations of lists; the editor, reading
    the console, against an editor of a list of characters with a cursor. *)
From Stdlib Require Import ZArith Lia ZifyBool String.
From stdpp Require Import base tactics list numbers option.
From S2P Require Import Prelude CString BlockDev NodeFs Vfs Process UserProg UserFiles.
From S2P Require Import ShellUtils HistorySpec ShellEdit.
From ITree Require Import Core.ITreeDefinition.
#[local] Open Scope Z_scope.

(** ** Characters of a buffer *)

Lemma put_length l i c : length (put l i c) = length l.
Proof. apply length_insert. Qed.

Lemma get_put l i c k :
  0 ≤ i < Z.of_nat (length l) → 0 ≤ k → get (put l i c) k = if decide (k = i) then c else get l k.
Proof.
  intros Hi Hk. unfold get, put, ch. rewrite !nth_lookup. case_decide as He.
  - subst. by rewrite list_lookup_insert_eq by lia.
  - by rewrite list_lookup_insert_ne by lia.
Qed.

(** The first characters of a buffer. *)
Definition starts (l s : list Z) : Prop := take (length s) l = s.

Lemma starts_get l s :
  starts l s ↔ (length s ≤ length l)%nat ∧ ∀ k, 0 ≤ k < Z.of_nat (length s) → get l k = nth (Z.to_nat k) s 0.
Proof.
  unfold starts, get, ch. split.
  - intros Ht. split.
    + rewrite <-Ht, length_take. lia.
    + intros k Hk. rewrite <-Ht at 1. rewrite nth_firstn. by rewrite (proj2 (Nat.ltb_lt _ _)) by lia.
  - intros (Hl&Hk). apply (nth_ext _ _ 0 0); [rewrite length_take; lia|].
    intros n Hn. rewrite length_take in Hn. rewrite nth_firstn, (proj2 (Nat.ltb_lt _ _)) by lia.
    specialize (Hk (Z.of_nat n) ltac:(lia)). by rewrite Nat2Z.id in Hk.
Qed.

(** The characters up to the cursor in [for (i = from; i >= to; i--) s[i + d] = s[i];] *)
Lemma move_right_spec s from to d :
  0 ≤ to → to ≤ from + 1 → 0 < d → from + d < Z.of_nat (length s) →
  length (move_right s from to d) = length s ∧
  ∀ k, 0 ≤ k → get (move_right s from to d) k =
    if decide (to + d ≤ k ≤ from + d) then get s (k - d) else get s k.
Proof.
  intros Hto Hft Hd Hlen. unfold move_right.
  pose proof (zfor_inv (λ j r, length r = length s ∧ ∀ k, 0 ≤ k →
    get r k = if decide (from - j + d < k ≤ from + d) then get s (k - d) else get s k)
    (Z.to_nat (from - to + 1)) 0 (λ j r, put r (from - j + d) (get r (from - j))) s) as Hinv.
  assert (0 + Z.of_nat (Z.to_nat (from - to + 1)) = from - to + 1) as He by lia. rewrite He in Hinv.
  destruct Hinv as [Hl Hk].
  - split; [done|]. intros k Hk. rewrite decide_False by lia. done.
  - intros j r Hj [Hl Hk]. rewrite put_length. split; [done|]. intros k Hk0.
    rewrite get_put by lia. rewrite !Hk by lia. repeat case_decide; try lia; try done.
    f_equal. lia.
  - split; [done|]. intros k Hk0. rewrite Hk by done. repeat case_decide; try lia; done.
Qed.

Lemma move_left_spec s from to d :
  0 < d ≤ from → from ≤ to ≤ Z.of_nat (length s) →
  length (move_left s from to d) = length s ∧
  ∀ k, 0 ≤ k → get (move_left s from to d) k =
    if decide (from - d ≤ k < to - d) then get s (k + d) else get s k.
Proof.
  intros Hd Hft. unfold move_left.
  pose proof (zfor_inv (λ j r, length r = length s ∧ ∀ k, 0 ≤ k →
    get r k = if decide (from - d ≤ k < j - d) then get s (k + d) else get s k)
    (Z.to_nat (to - from)) from (λ i r, put r (i - d) (get r i)) s) as Hinv.
  assert (from + Z.of_nat (Z.to_nat (to - from)) = to) as He by lia. rewrite He in Hinv.
  destruct Hinv as [Hl Hk].
  - split; [done|]. intros k Hk. rewrite decide_False by lia. done.
  - intros j r Hj [Hl Hk]. rewrite put_length. split; [done|]. intros k Hk0.
    rewrite get_put by lia. rewrite !Hk by lia. repeat case_decide; try lia; try done.
    f_equal. lia.
  - split; [done|]. intros k Hk0. rewrite Hk by done. repeat case_decide; try lia; done.
Qed.

Lemma copy_chars_spec (from to : list Z) n :
  0 ≤ n → n ≤ Z.of_nat (length to) →
  let r := zfor (Z.to_nat n) 0 (λ i to, put to i (get from i)) to in
  length r = length to ∧ ∀ k, 0 ≤ k → get r k = if decide (k < n) then get from k else get to k.
Proof.
  intros Hn Hl. cbv zeta.
  pose proof (zfor_inv (λ j r, length r = length to ∧ ∀ k, 0 ≤ k →
    get r k = if decide (k < j) then get from k else get to k)
    (Z.to_nat n) 0 (λ i r, put r i (get from i)) to) as Hinv.
  assert (0 + Z.of_nat (Z.to_nat n) = n) as He by lia. rewrite He in Hinv. apply Hinv.
  - split; [done|]. intros k Hk. rewrite decide_False by lia. done.
  - intros j r Hj [Hl' Hk]. rewrite put_length. split; [done|]. intros k Hk0.
    rewrite get_put by lia. rewrite !Hk by lia. repeat case_decide; try lia; try done. by subst.
Qed.

(** ** A line as a list of characters with a cursor *)

Definition insert_at (k : nat) (c : Z) (s : list Z) : list Z := take k s ++ c :: drop k s.
Definition remove_at (k : nat) (s : list Z) : list Z := take k s ++ drop (S k) s.

Lemma insert_at_length k c s : (k ≤ length s)%nat → length (insert_at k c s) = S (length s).
Proof. intros. unfold insert_at. rewrite length_app. cbn [length]. rewrite length_take, length_drop. lia. Qed.

Lemma remove_at_length k s : (k < length s)%nat → length (remove_at k s) = (length s - 1)%nat.
Proof. intros. unfold remove_at. rewrite length_app, length_take, length_drop. lia. Qed.

Lemma nth_insert_at k c s n :
  (k ≤ length s)%nat →
  nth n (insert_at k c s) 0 = if decide (n < k)%nat then nth n s 0
                              else if decide (n = k) then c else nth (n - 1) s 0.
Proof.
  intros Hk. unfold insert_at. destruct (decide (n < k)%nat) as [Hn|Hn].
  - rewrite app_nth1 by (rewrite length_take; lia). rewrite nth_firstn.
    by rewrite (proj2 (Nat.ltb_lt _ _)).
  - rewrite app_nth2 by (rewrite length_take; lia). rewrite length_take, Nat.min_l by lia.
    case_decide as He; [by rewrite He, Nat.sub_diag|].
    replace (n - k)%nat with (S (n - 1 - k)) by lia. cbn [nth]. rewrite nth_skipn. f_equal. lia.
Qed.

Lemma nth_remove_at k s n :
  (k < length s)%nat →
  nth n (remove_at k s) 0 = if decide (n < k)%nat then nth n s 0 else nth (S n) s 0.
Proof.
  intros Hk. unfold remove_at. case_decide as Hn.
  - rewrite app_nth1 by (rewrite length_take; lia). rewrite nth_firstn.
    by rewrite (proj2 (Nat.ltb_lt _ _)).
  - rewrite app_nth2 by (rewrite length_take; lia). rewrite length_take, Nat.min_l by lia.
    rewrite nth_skipn. f_equal. lia.
Qed.

(** The buffer holds the characters [s], with the cursor behind [k] of them. *)
Record line_holds (l : line) (s : list Z) (k : nat) : Prop := {
  lh_size : length (text l) = 64%nat;
  lh_len : len l = Z.of_nat (length s);
  lh_cursor : cursor l = Z.of_nat k;
  lh_within : (k ≤ length s ∧ length s ≤ 63)%nat;
  lh_text : ∀ i, 0 ≤ i < Z.of_nat (length s) → get (text l) i = nth (Z.to_nat i) s 0
}.

Lemma line_holds_starts l s k : line_holds l s k → starts (text l) s.
Proof. intros [H1 H2 H3 H4 H5]. apply starts_get. split; [lia|done]. Qed.

Lemma move_cursor l s k k' :
  line_holds l s k → (k' ≤ length s)%nat → line_holds (Line (text l) (len l) (Z.of_nat k')) s k'.
Proof. intros [H1 H2 H3 H4 H5] Hk. split; cbn [text len cursor]; try done; lia. Qed.

Lemma put_in_spec l s k c :
  line_holds l s k → (length s ≤ 62)%nat → line_holds (put_in l c) (insert_at k c s) (S k).
Proof.
  intros [H1 H2 H3 [H4 _] H5] Hlen. unfold put_in.
  assert (length (insert_at k c s) = S (length s)) as Hil by (by apply insert_at_length).
  destruct (Z.eqb_spec (cursor l) (len l)) as [He|He].
  - split; cbn [text len cursor]; rewrite ?put_length; try lia. intros i Hi.
    rewrite get_put, nth_insert_at by lia. repeat case_decide; try lia; try done. apply H5. lia.
  - destruct (move_right_spec (text l) (len l) (cursor l) 1) as [Hl Hm]; [lia..|].
    split; cbn [text len cursor]; rewrite ?put_length, ?Hl; try lia. intros i Hi.
    rewrite get_put, Hm, nth_insert_at by lia. repeat case_decide; try lia; try done.
    + rewrite H5 by lia. f_equal. lia.
    + apply H5. lia.
Qed.

Lemma take_out_spec l s k i c :
  line_holds l s k → (i < length s)%nat → (c ≤ length s - 1)%nat →
  line_holds (take_out l (Z.of_nat i) (Z.of_nat c)) (remove_at i s) c.
Proof.
  intros [H1 H2 H3 H4 H5] Hi Hc. unfold take_out.
  destruct (move_left_spec (text l) (Z.of_nat i + 1) (len l) 1) as [Hl Hm]; [lia..|].
  pose proof (remove_at_length i s Hi) as Hrl.
  split; cbn [text len cursor]; rewrite ?put_length, ?Hl; try lia. intros j Hj.
  rewrite get_put, Hm, nth_remove_at by lia. repeat case_decide; try lia.
  - rewrite H5 by lia. f_equal. lia.
  - apply H5. lia.
Qed.

(** ** Completion *)

Fixpoint first_word (s : list Z) : list Z :=
  match s with
  | [] => []
  | c :: s' => if (c =? 32) || (c =? 9) then [] else c :: first_word s'
  end.

(** The longest common prefix. *)
Fixpoint common (a b : list Z) : list Z :=
  match a, b with
  | c :: a', d :: b' => if c =? d then c :: common a' b' else []
  | _, _ => []
  end.

(** The names that start with [p]. *)
Definition candidates (p : list Z) : list (list Z) :=
  List.filter (λ n, bool_decide (take (length p) n = p)) shell_app_names.

(** The first word becomes [w], with the cursor behind it, if there is room. *)
Definition replace_word (w s : list Z) (k : nat) : list Z * nat :=
  let s' := w ++ drop (length (first_word s)) s in
  if decide (length s' < 64)%nat then (s', length w) else (s, k).

(** A prefix of a name is completed as far as it determines the name. *)
Definition complete (s : list Z) (k : nat) : list Z * nat :=
  if decide (0 < k ≤ length (first_word s))%nat then
    match candidates (take k s) with
    | [] => (s, k)
    | [m] => replace_word m s k
    | m :: others =>
        let w := fold_left common others m in
        if decide (length (first_word s) < length w)%nat then replace_word w s k else (s, k)
    end
  else (s, k).

Lemma first_word_length s : (length (first_word s) ≤ length s)%nat.
Proof. induction s as [|c s IH]; simpl; [lia|]. case_if; simpl; lia. Qed.

Lemma token_end_loop_spec t s n i :
  (∀ j, 0 ≤ j < Z.of_nat (length s) → get t (i + j) = nth (Z.to_nat j) s 0) → n = length s → 0 ≤ i →
  token_end_loop n t i = i + Z.of_nat (length (first_word s)).
Proof.
  revert n i. induction s as [|c s IH]; intros n i Ht -> Hi; simpl; [lia|].
  assert (ch t (Z.to_nat i) = c) as ->.
  { specialize (Ht 0 ltac:(simpl; lia)). by rewrite Z.add_0_r in Ht. }
  destruct ((c =? 32) || (c =? 9)) eqn:Hb.
  - replace (negb (c =? 32) && negb (c =? 9)) with false by lia. simpl. lia.
  - replace (negb (c =? 32) && negb (c =? 9)) with true by lia.
    rewrite (IH (length s) (i + 1)); [simpl; lia| |done|lia]. intros j Hj.
    specialize (Ht (j + 1) ltac:(simpl; lia)). replace (i + 1 + j) with (i + (j + 1)) by lia.
    rewrite Ht. by replace (Z.to_nat (j + 1)) with (S (Z.to_nat j)) by lia.
Qed.

Lemma first_token_end_spec l s k :
  line_holds l s k → first_token_end (text l) (len l) = Z.of_nat (length (first_word s)).
Proof.
  intros [H1 H2 H3 H4 H5]. unfold first_token_end.
  rewrite (token_end_loop_spec (text l) s); [lia|done|lia|lia].
Qed.

Lemma ch_tail_S (s : list Z) n : ch (tail s) n = ch s (S n).
Proof. unfold ch. by destruct s as [|c [|d s]]; destruct n. Qed.

Lemma same_prefix_spec n (name t s : list Z) :
  no_nul name → no_nul s → (n ≤ length s)%nat → starts t s →
  same_prefix n name t = bool_decide (take n name = take n s).
Proof.
  revert name t s. induction n as [|n IH]; intros name t s Hn Hs Hl Ht; [done|].
  destruct s as [|c s]; [simpl in Hl; lia|]. destruct t as [|d t]; [done|].
  unfold starts in Ht. simpl in Ht. injection Ht as <- Ht. cbn [same_prefix tail].
  apply Forall_cons_iff in Hs as [Hd Hs]. destruct name as [|e name].
  - unfold ch. cbn [nth]. rewrite (proj2 (Z.eqb_neq 0 d)) by congruence. symmetry. by apply bool_decide_eq_false.
  - apply Forall_cons_iff in Hn as [He Hn]. unfold ch. cbn [nth take tail].
    rewrite (IH name t s) by (done || (simpl in Hl; lia)).
    destruct (Z.eqb_spec e d) as [->|Hne]; simpl.
    + apply bool_decide_ext. split; [by intros ->|by intros [=]].
    + symmetry. apply bool_decide_eq_false. by intros [=].
Qed.

Lemma names_no_nul : Forall (λ n, no_nul n ∧ (length n ≤ 15)%nat) shell_app_names.
Proof.
  unfold shell_app_names. cbn [map].
  repeat (constructor; [split; [by repeat constructor|by apply Nat.leb_le]|]). constructor.
Qed.

Lemma common_prefix_len_spec a b :
  no_nul a → no_nul b → common_prefix_len a b = Z.of_nat (length (common a b)).
Proof.
  intros Ha. revert b. induction Ha as [|c a Hc _ IH]; intros [|d b] Hb; simpl; [done..| |].
  - unfold ch. simpl. by rewrite andb_comm, andb_assoc, andb_false_r.
  - apply Forall_cons_iff in Hb as [Hd Hb]. unfold ch. cbn [nth].
    rewrite (proj2 (Z.eqb_neq c 0)), (proj2 (Z.eqb_neq d 0)) by done. simpl.
    destruct (c =? d); [|done]. rewrite IH by done. simpl. lia.
Qed.

Lemma common_take a b n :
  common (take n a) b = take (Nat.min n (length (common a b))) a.
Proof.
  revert n b. induction a as [|c a IH]; intros n b; [by rewrite !take_nil|].
  destruct n as [|n]; [done|]. destruct b as [|d b]; [simpl; done|]. simpl.
  destruct (c =? d); [|done]. simpl. by rewrite IH.
Qed.

Lemma common_length a b : (length (common a b) ≤ length a)%nat.
Proof. revert b. induction a as [|c a IH]; intros [|d b]; simpl; try lia. case_if; simpl; [|lia]. specialize (IH b). lia. Qed.

(** The length that the loop over the candidates computes. *)
Lemma shared_prefix_spec m os j :
  no_nul m → Forall no_nul os → (j ≤ length m)%nat →
  let lcp := fold_left (λ lcp o, min_int lcp (common_prefix_len m o)) os (Z.of_nat j) in
  let w := fold_left common os (take j m) in
  lcp = Z.of_nat (length w) ∧ w = take (length w) m.
Proof.
  intros Hm Hos. revert j. induction Hos as [|o os Ho _ IH]; intros j Hj; cbv zeta; simpl.
  - split; [rewrite length_take; lia|]. by rewrite length_take, Nat.min_l by lia.
  - rewrite common_prefix_len_spec, common_take by done. pose proof (common_length m o) as Hc.
    assert (min_int (Z.of_nat j) (Z.of_nat (length (common m o))) =
            Z.of_nat (Nat.min j (length (common m o)))) as ->.
    { unfold min_int. destruct (Z.ltb_spec (Z.of_nat j) (Z.of_nat (length (common m o)))); lia. }
    apply IH. lia.
Qed.

Lemma nth_replace w s old n :
  (old ≤ length s)%nat →
  nth n (w ++ drop old s) 0 = if decide (n < length w)%nat then nth n w 0 else nth (old + (n - length w)) s 0.
Proof.
  intros Ho. case_decide.
  - by rewrite app_nth1.
  - rewrite app_nth2 by lia. by rewrite nth_skipn.
Qed.

(** The tail of the buffer after the move, and the characters of the new word. *)
Lemma replace_first_token_spec l s k name n :
  line_holds l s k → (n ≤ length name)%nat →
  let w := take n name in let '(s', k') := replace_word w s k in
  line_holds (replace_first_token l (Z.of_nat (length (first_word s))) name (Z.of_nat n)) s' k'.
Proof.
  intros Hl Hn. pose proof Hl as [H1 H2 H3 H4 H5]. cbv zeta. unfold replace_word.
  set (old := length (first_word s)). pose proof (first_word_length s) as Hold. fold old in Hold.
  assert (length (take n name) = n) as Hw by (rewrite length_take; lia).
  assert (length (take n name ++ drop old s) = n + (length s - old))%nat as Hsl
    by (rewrite length_app, length_drop; lia).
  unfold replace_first_token, CMDLINE_MAX. case_decide as Hroom.
  2:{ rewrite (proj2 (Z.leb_le _ _)) by lia. done. }
  rewrite (proj2 (Z.leb_gt _ _)) by lia.
  set (t := if Z.of_nat old <? Z.of_nat n then _ else _).
  assert (length t = 64%nat ∧ ∀ i, Z.of_nat n ≤ i < Z.of_nat (n + (length s - old)) →
      get t i = get (text l) (i - Z.of_nat n + Z.of_nat old)) as [Ht Hg].
  { unfold t. destruct (Z.ltb_spec (Z.of_nat old) (Z.of_nat n)).
    - destruct (move_right_spec (text l) (len l) (Z.of_nat old) (Z.of_nat n - Z.of_nat old)) as [Hm Hk]; [lia..|].
      split; [lia|]. intros i Hi. rewrite Hk, decide_True by lia. f_equal. lia.
    - destruct (Z.ltb_spec (Z.of_nat n) (Z.of_nat old)).
      + destruct (move_left_spec (text l) (Z.of_nat old) (len l + 1) (Z.of_nat old - Z.of_nat n)) as [Hm Hk]; [lia..|].
        split; [lia|]. intros i Hi. rewrite Hk, decide_True by lia. f_equal. lia.
      + split; [done|]. intros i Hi. f_equal. lia. }
  destruct (copy_chars_spec name t (Z.of_nat n)) as [Hc Hk]; [lia..|].
  split; cbn [text len cursor]; rewrite ?put_length; try lia. intros i Hi.
  rewrite get_put, Hk, nth_replace by lia. rewrite Hw. repeat case_decide; try lia.
  - unfold get, ch. rewrite nth_firstn. by rewrite (proj2 (Nat.ltb_lt _ _)) by lia.
  - rewrite Hg, H5 by lia. f_equal. lia.
Qed.

Lemma filter_ext_Forall {A} (p q : A → bool) l :
  Forall (λ x, p x = q x) l → List.filter p l = List.filter q l.
Proof. induction 1 as [|x l Hx _ IH]; [done|]. simpl. by rewrite Hx, IH. Qed.

Lemma complete_app_name_spec l s k :
  line_holds l s k → no_nul s →
  let '(s', k') := complete s k in line_holds (complete_app_name l).2 s' k'.
Proof.
  intros Hl Hs. pose proof Hl as [H1 H2 H3 H4 H5]. unfold complete_app_name, complete.
  rewrite (first_token_end_spec l s k Hl). case_decide as Hk.
  2:{ replace ((_ <? cursor l) || (cursor l <=? 0)) with true by lia. done. }
  replace ((_ <? cursor l) || (cursor l <=? 0)) with false by lia.
  assert (List.filter (λ n, same_prefix (Z.to_nat (cursor l)) n (text l)) shell_app_names =
          candidates (take k s)) as ->.
  { unfold candidates. apply filter_ext_Forall. eapply Forall_impl; [|exact names_no_nul]. cbv beta.
    intros n [Hn _]. rewrite H3, Nat2Z.id, (same_prefix_spec k n (text l) s)
      by (done || lia || by eapply line_holds_starts).
    by rewrite length_take, Nat.min_l by lia. }
  assert (Forall (λ n, no_nul n ∧ (length n ≤ 15)%nat) (candidates (take k s))) as Hc.
  { unfold candidates. apply List.Forall_forall. intros n Hin. apply filter_In in Hin as [Hin _].
    by apply (proj1 (List.Forall_forall _ _) names_no_nul). }
  destruct (candidates (take k s)) as [|m others]; [done|].
  apply Forall_cons_iff in Hc as [[Hm Hml] Hos].
  assert (str_len m = Z.of_nat (length m)) as Hlen by (unfold str_len; by rewrite cstr_id).
  destruct others as [|o others].
  - cbn [snd]. rewrite Hlen. pose proof (replace_first_token_spec l s k m (length m) Hl ltac:(lia)) as Hr.
    cbv zeta in Hr. by rewrite take_ge in Hr by lia.
  - cbv zeta. rewrite Hlen.
    assert (Forall no_nul (o :: others)) as Hos' by (eapply Forall_impl; [|exact Hos]; by intros ? []).
    destruct (shared_prefix_spec m (o :: others) (length m) Hm Hos' ltac:(lia)) as [-> Hw].
    rewrite take_ge in * by lia. set (w := fold_left common (o :: others) m) in *.
    assert (length w ≤ length m)%nat as Hwm by (rewrite Hw, length_take; lia).
    case_decide as Hlong.
    + rewrite (proj2 (Z.ltb_lt _ _)) by lia. cbn [snd].
      pose proof (replace_first_token_spec l s k m (length w) Hl Hwm) as Hr. cbv zeta in Hr.
      by rewrite <-Hw in Hr.
    + by rewrite (proj2 (Z.ltb_ge _ _)) by lia.
Qed.

(** ** The editor of a list of characters *)

(** The line and the cursor in it, the line put aside, and the entry of the history that
    is shown. *)
Record sheet := Sheet { chars : list Z; place : nat; aside : list Z; seen : option nat }.

Inductive key := KChar (c : Z) | KLeft | KRight | KUp | KDown | KDelete | KErase | KTab | KOther.

(** The characters a key sends. *)
Inductive sends : key → list Z → Prop :=
| sends_char c :
    0 < c < 256 → c ≠ 8 → c ≠ 9 → c ≠ 10 → c ≠ 13 → c ≠ 27 → c ≠ 127 → sends (KChar c) [c]
| sends_erase c : c = 8 ∨ c = 127 → sends KErase [c]
| sends_tab : sends KTab [9]
| sends_up : sends KUp [27; 91; 65]
| sends_down : sends KDown [27; 91; 66]
| sends_right : sends KRight [27; 91; 67]
| sends_left : sends KLeft [27; 91; 68]
| sends_delete : sends KDelete [27; 91; 51; 126]
| sends_tilde c3 : is_byte c3 → c3 ≠ 126 → sends KOther [27; 91; 51; c3]
| sends_escape c1 c2 :
    is_byte c1 → is_byte c2 →
    ¬ (c1 = 91 ∧ (c2 = 65 ∨ c2 = 66 ∨ c2 = 67 ∨ c2 = 68 ∨ c2 = 51)) → sends KOther [27; c1; c2].

Section sheet.
Context (past : list (list Z)).

(** The entry [i] of the history becomes the line. *)
Definition show_entry (i : nat) (d : list Z) : sheet :=
  let s := nth i past [] in Sheet s (length s) d (Some i).

(** [None] when the line has no room for the character. *)
Definition press (k : key) (a : sheet) : option sheet :=
  let '(Sheet s n d b) := a in
  match k with
  | KChar c => if decide (length s = 63)%nat then None else Some (Sheet (insert_at n c s) (S n) d b)
  | KLeft => Some (Sheet s (n - 1) d b)
  | KRight => Some (Sheet s (Nat.min (S n) (length s)) d b)
  | KDelete => Some (if decide (n < length s)%nat then Sheet (remove_at n s) n d b else a)
  | KErase => Some (match n with O => a | S m => Sheet (remove_at m s) m d b end)
  | KTab => let '(s', n') := complete s n in Some (Sheet s' n' d b)
  | KUp =>
      Some (match past, b with
            | [], _ => a
            | _, None => show_entry (length past - 1) s
            | _, Some i => show_entry (i - 1) d
            end)
  | KDown =>
      Some (match b with
            | None => a
            | Some i => if decide (S i < length past)%nat then show_entry (S i) d
                        else Sheet d (length d) d None
            end)
  | KOther => Some a
  end.

Fixpoint press_all (ks : list key) (a : sheet) : option sheet :=
  match ks with
  | [] => Some a
  | k :: ks' => let! a := press k a in press_all ks' a
  end.
End sheet.

Definition blank_sheet : sheet := Sheet [] 0 [] None.

Example completed :
  press_all [] [KChar 99; KChar 97; KTab; KChar 32; KChar 97; KLeft; KErase] blank_sheet
  = Some (Sheet (bytes "cata") 3 [] None).
Proof. vm_compute. reflexivity. Qed.

(** ** The editor follows it *)

Record editor_holds (h : history) (e : editor) (a : sheet) : Prop := {
  eh_line : line_holds (cmd e) (chars a) (place a);
  eh_draft : length (draft e) = 64%nat;
  eh_draft_len : draft_len e = Z.of_nat (length (aside a)) ∧ (length (aside a) ≤ 63)%nat;
  eh_aside : ∀ i, 0 ≤ i < Z.of_nat (length (aside a)) → get (draft e) i = nth (Z.to_nat i) (aside a) 0;
  eh_seen : match seen a with
            | None => history_cursor e = -1
            | Some i => history_cursor e = Z.of_nat i ∧ (i < length (entries h))%nat
            end;
  eh_no_nul : no_nul (chars a) ∧ no_nul (aside a)
}.

Lemma entry_line h e : history_ok h → e ∈ entries h → no_nul e ∧ (length e ≤ 63)%nat.
Proof.
  intros Hok He. unfold entries in He. apply list_elem_of_fmap in He as (i&->&_).
  split; [apply cstr_no_nul|]. apply (row_at_ok h (Z.of_nat i) Hok).
Qed.

Lemma recall_spec h e a (i : nat) :
  history_ok h → editor_holds h e a → (i < length (entries h))%nat →
  editor_holds h (recall h e (Z.of_nat i)) (show_entry (entries h) i (aside a)).
Proof.
  intros Hok [[L1 L2 L3 L4 L5] E2 E3 E4 E5 E6] Hi. unfold recall, show_entry.
  pose proof (entries_length h Hok) as Hlen. pose proof (hok_count h Hok) as Hc.
  pose proof (entry_lookup h (Z.of_nat i) Hok ltac:(lia)) as Hget. rewrite Nat2Z.id in Hget.
  destruct (entry_line h _ Hok (list_elem_of_lookup_2 _ _ _ Hget)) as [Hnn H63].
  rewrite (nth_lookup_Some _ _ _ _ Hget).
  unfold history_get, CMDLINE_MAX. rewrite (proj2 (Z.leb_gt _ _)) by done.
  replace ((Z.of_nat i <? 0) || (count h <=? Z.of_nat i)) with false by lia. cbn [from_option id].
  change (Z.to_nat (64 - 1)) with 63%nat.
  rewrite copy_bounded_spec by (rewrite L1; lia).
  set (s := cstr (row_at h (Z.of_nat i))) in *. rewrite (take_ge s) by lia.
  assert (str_len (s ++ 0 :: drop (S (length s)) (text (cmd e))) = Z.of_nat (length s)) as Hsl.
  { unfold str_len. by rewrite cstr_app_nul. }
  rewrite Hsl. split; cbn; try done; try tauto.
  split; cbn [text len cursor chars place]; try done.
  - rewrite length_app. cbn [length]. rewrite length_drop. lia.
  - intros j Hj. unfold get, ch. by rewrite app_nth1 by lia.
Qed.

Lemma copy_line_spec from to s :
  (length s ≤ 63)%nat → length to = 64%nat →
  (∀ i, 0 ≤ i < Z.of_nat (length s) → get from i = nth (Z.to_nat i) s 0) →
  length (copy_line from to (Z.of_nat (length s))) = 64%nat ∧
  ∀ i, 0 ≤ i < Z.of_nat (length s) →
    get (copy_line from to (Z.of_nat (length s))) i = nth (Z.to_nat i) s 0.
Proof.
  intros Hs Ht Hf. unfold copy_line.
  destruct (copy_chars_spec from to (Z.of_nat (length s))) as [Hl Hk]; [lia..|].
  rewrite put_length. split; [congruence|]. intros i Hi.
  rewrite get_put, Hk by lia. repeat case_decide; try lia. by apply Hf.
Qed.

Section editor.
Context {D : Type} `{BlockDev D}.
Context (pid : Z) (h : history) (cwd : list Z).
#[local] Instance edit_kernel : Kernel (world D) := world_kernel pid.
Implicit Types w : world D.

(** What is typed has been read up to [rest], and nothing else has changed than what is
    shown. *)
Definition reached w (rest : list Z) w' : Prop :=
  files_in w' = files_in w ∧ cwd_in w' = cwd_in w ∧ typed w' = rest.

Lemma reached_show w l r w' : reached (show w l) r w' → reached w r w'.
Proof. done. Qed.
Lemma reached_unread w l r w' : reached (unread w l) r w' → reached w r w'.
Proof. done. Qed.
Lemma at_console_reached w r w' : at_console pid w → reached w r w' → at_console pid w'.
Proof. unfold at_console. by intros Hc (->&_). Qed.

Lemma wp_redraw l w (Q : option unit → world D → Prop) :
  at_console pid w → (∀ out, Q (Some tt) (show w out)) → wp (redraw l cwd) w Q.
Proof.
  intros Hc HQ. unfold redraw, redraw_cmdline. apply wp_bind, wp_printf; [done|]. cbn [then_].
  apply wp_put_all; [done|]. rewrite show_show. apply HQ.
Qed.

(** A redraw, and then the result. *)
Lemma wp_redraw_then {A} l (a : A) w (Q : option A → world D → Prop) :
  at_console pid w → (∀ out, Q (Some a) (show w out)) →
  wp (let* _r := redraw l cwd in Ret a) w Q.
Proof. intros Hc HQ. apply wp_bind, wp_redraw; [done|]. intros out. apply wp_ret, HQ. Qed.

(** The next character. *)
Lemma wp_key c l w (k : Z → prog (editor + line_end)) (Q : option (editor + line_end) → world D → Prop) :
  at_console pid w → typed w = c :: l → is_byte c → wp (k c) (unread w l) Q →
  wp (let* x := getchar in k x) w Q.
Proof. intros Hc Ht Hb HQ. by apply wp_bind, (wp_getchar pid c l). Qed.

Lemma wp_key_esc c l w (k : Z → prog editor) (Q : option editor → world D → Prop) :
  at_console pid w → typed w = c :: l → is_byte c → wp (k c) (unread w l) Q →
  wp (let* x := getchar in k x) w Q.
Proof. intros Hc Ht Hb HQ. by apply wp_bind, (wp_getchar pid c l). Qed.

Lemma up_spec e a w (Q : option editor → world D → Prop) :
  history_ok h → editor_holds h e a → at_console pid w → 0 < count h →
  (∀ e' out, (∃ a', press (entries h) KUp a = Some a' ∧ editor_holds h e' a') →
     Q (Some e') (show w out)) →
  wp (key_up h cwd e) w Q.
Proof.
  intros Hok He Hc Hn HQ. pose proof (entries_length h Hok) as Hlen.
  pose proof He as [L E2 [E3 E3'] E4 E5 E6]. destruct a as [s n d b]. cbn [chars place aside seen] in *.
  pose proof L as [L1 L2 L3 L4 L5].
  assert (∀ e1 i d', history_cursor e1 = Z.of_nat i → cmd e1 = cmd e →
    editor_holds h e1 (Sheet s n d' (Some i)) →
    (i < length (entries h))%nat → press (entries h) KUp (Sheet s n d b) = Some (show_entry (entries h) i d') →
    wp (if 0 <=? history_cursor e1 then
          let* _r := redraw (cmd (recall h e1 (history_cursor e1))) cwd in
          Ret (recall h e1 (history_cursor e1))
        else Ret e1) w Q) as Hgo.
  { intros e1 i d' Hi Hcmd He1 Hlt Hpress. rewrite (proj2 (Z.leb_le _ _)) by lia. rewrite Hi.
    apply wp_redraw_then; [done|]. intros out. apply HQ. eexists. split; [exact Hpress|].
    exact (recall_spec h e1 _ i Hok He1 Hlt). }
  unfold key_up, history_size. destruct (entries h) as [|p past] eqn:Hp; [simpl in Hlen; lia|].
  rewrite <-Hp in *. destruct b as [i|].
  - destruct E5 as [E5 Hi]. rewrite (proj2 (Z.eqb_neq _ _)) by lia.
    destruct (Z.ltb_spec 0 (history_cursor e)).
    + apply (Hgo _ (i - 1)%nat d); cbn [history_cursor cmd draft draft_len]; [lia|done| |lia|by rewrite Hp].
      split; cbn [cmd draft draft_len history_cursor chars place aside seen]; try done; lia.
    + apply (Hgo _ 0%nat d); [lia|done| |lia|rewrite Hp; cbn; do 2 f_equal; lia].
      split; try done. cbn. lia.
  - rewrite E5, Z.eqb_refl.
    destruct (copy_line_spec (text (cmd e)) (draft e) s) as [Hl Hs]; [lia|done|done|].
    apply (Hgo _ (length (entries h) - 1)%nat s); cbn [history_cursor cmd draft draft_len];
      [lia|done| |lia|by rewrite Hp].
    split; cbn [cmd draft draft_len history_cursor chars place aside seen]; rewrite ?L2;
      try done; [lia|lia|tauto].
Qed.

Lemma down_spec e a w (Q : option editor → world D → Prop) :
  history_ok h → editor_holds h e a → at_console pid w → 0 < count h →
  (∀ e' out, (∃ a', press (entries h) KDown a = Some a' ∧ editor_holds h e' a') →
     Q (Some e') (show w out)) →
  wp (key_down h cwd e) w Q.
Proof.
  intros Hok He Hc Hn HQ. pose proof (entries_length h Hok) as Hlen.
  pose proof He as [L E2 [E3 E3'] E4 E5 E6]. destruct a as [s n d b]. cbn [chars place aside seen] in *.
  pose proof L as [L1 L2 L3 L4 L5]. unfold key_down, history_size. destruct b as [i|].
  - destruct E5 as [E5 Hi]. rewrite (proj2 (Z.eqb_neq _ _)) by lia.
    destruct (Z.ltb_spec (history_cursor e) (count h - 1)).
    + cbn [history_cursor]. rewrite (proj2 (Z.leb_le _ _)) by lia. apply wp_redraw_then; [done|].
      intros out. apply HQ. eexists. cbn [press]. rewrite decide_True by lia. split; [done|].
      replace (history_cursor e + 1) with (Z.of_nat (S i)) by lia.
      apply (recall_spec h _ (Sheet s n d (Some (S i))) (S i) Hok); [|lia].
      split; cbn [cmd draft draft_len history_cursor chars place aside seen]; try done. lia.
    + apply wp_redraw_then; [done|]. intros out. apply HQ. eexists. cbn [press].
      rewrite decide_False by lia. split; [done|].
      destruct (copy_line_spec (draft e) (text (cmd e)) d) as [Hl Hs]; [lia|done|done|].
      rewrite E3. split; cbn [cmd draft draft_len history_cursor chars place aside seen]; try done; try tauto.
  - rewrite E5, Z.eqb_refl. apply wp_ret. rewrite <-(show_nil w). apply HQ.
    exists (Sheet s n d None). done.
Qed.

Lemma with_cmd_holds e s n d b l s' n' :
  editor_holds h e (Sheet s n d b) → line_holds l s' n' → no_nul s' →
  editor_holds h (with_cmd e l) (Sheet s' n' d b).
Proof. intros [E1 E2 E3 E4 E5 [E6 E7]] Hl Hs. by split. Qed.

Lemma remove_no_nul i s : no_nul s → no_nul (remove_at i s).
Proof. intros. apply Forall_app. split; [by apply Forall_take|by apply Forall_drop]. Qed.

Lemma insert_no_nul i c s : c ≠ 0 → no_nul s → no_nul (insert_at i c s).
Proof.
  intros. apply Forall_app. split; [by apply Forall_take|]. constructor; [done|by apply Forall_drop].
Qed.

Lemma complete_no_nul s n : no_nul s → no_nul (complete s n).1.
Proof.
  intros Hs. assert (∀ u : list Z, no_nul u → no_nul (replace_word u s n).1) as Hr.
  { intros u Hu. unfold replace_word. case_decide; [|done]. apply Forall_app.
    split; [done|by apply Forall_drop]. }
  assert (∀ os m, no_nul m → no_nul (fold_left common os m)) as Hf.
  { assert (∀ a b, no_nul a → no_nul (common a b)) as Hc.
    { intros a b Ha. revert b. induction Ha as [|c a Hca _ IH]; intros [|x b]; try constructor.
      cbn [common]. case_if; [|constructor]. constructor; [done|apply IH]. }
    induction os as [|o os IH]; intros m Hm; [done|]. apply IH. by apply Hc. }
  assert (Forall no_nul (candidates (take n s))) as Hc.
  { apply List.Forall_forall. intros m Hm. apply filter_In in Hm as [Hm _].
    by apply (proj1 (List.Forall_forall _ _) names_no_nul). }
  unfold complete. case_decide; [|done]. destruct (candidates (take n s)) as [|m [|o os]]; [done| |].
  - apply Hr. by apply Forall_cons_iff in Hc as [? _].
  - cbv zeta. apply Forall_cons_iff in Hc as [Hm _]. case_decide; [|done]. apply Hr. by apply Hf.
Qed.

(** What one key does. *)
Definition follows (k : key) (a : sheet) (rest : list Z) w (o : option (editor + line_end)) w' : Prop :=
  reached w rest w' ∧
  match press (entries h) k a with
  | Some a' => ∃ e', o = Some (inl e') ∧ editor_holds h e' a'
  | None => o = Some (inr Too_long)
  end.

Lemma escape_spec k c2 c3 a e rest w :
  history_ok h → editor_holds h e a → at_console pid w →
  sends k (27 :: c2 :: c3) → typed w = c2 :: c3 ++ rest →
  wp (escape h cwd e) w (λ o w', ∃ e' a', o = Some e' ∧ press (entries h) k a = Some a' ∧
    editor_holds h e' a' ∧ reached w rest w').
Proof.
  intros Hok He Hc Hk Ht. pose proof He as [L _ _ _ E5 E6]. destruct a as [s n d b].
  cbn [chars place aside seen] in *. pose proof L as [L1 L2 L3 L4 L5].
  pose proof (entries_length h Hok) as Hlen. pose proof (hok_count h Hok) as Hcount.
  assert (Hup : ∀ k e', k = KUp ∨ k = KDown → history_size h ≤ 0 → e' = e →
    press (entries h) k (Sheet s n d b) = Some (Sheet s n d b)).
  { intros k' e' Hk' Hs _. unfold history_size in Hs. destruct (entries h); [|simpl in Hlen; lia].
    destruct b; [destruct E5; simpl in *; lia|]. by destruct Hk' as [-> | ->]. }
  unfold escape. eapply wp_key_esc; [done|exact Ht| |].
  { inversion Hk; subst; done. }
  inversion Hk; subst; cbn [app] in Ht; cbv zeta beta.
  all: eapply wp_key_esc; [done|done|done|].
  all: rewrite ?u8_small by done; cbn [Z.eqb Pos.eqb andb orb].
  - destruct (Z.leb_spec (history_size h) 0) as [H0|H0].
    + apply wp_ret. exists e, (Sheet s n d b). split_and!; try done. apply (Hup KUp e); auto.
    + apply (up_spec e (Sheet s n d b)); [done..|exact H0|]. intros e' out (a'&Ha&He'). by exists e', a'.
  - destruct (Z.leb_spec (history_size h) 0) as [H0|H0].
    + apply wp_ret. exists e, (Sheet s n d b). split_and!; try done. apply (Hup KDown e); auto.
    + apply (down_spec e (Sheet s n d b)); [done..|exact H0|]. intros e' out (a'&Ha&He'). by exists e', a'.
  - destruct (Z.ltb_spec (cursor (cmd e)) (len (cmd e))).
    + apply wp_redraw_then; [done|]. intros out. eexists _, _. split_and!; [done|done| |done].
      apply (with_cmd_holds e s n d b); [done| |tauto].
      replace (cursor (cmd e) + 1) with (Z.of_nat (Nat.min (S n) (length s))) by lia.
      eapply move_cursor; [done|lia].
    + apply wp_ret. exists e, (Sheet s n d b). split_and!; try done. cbn [press]. do 2 f_equal. lia.
  - destruct (Z.ltb_spec 0 (cursor (cmd e))).
    + apply wp_redraw_then; [done|]. intros out. eexists _, _. split_and!; [done|done| |done].
      apply (with_cmd_holds e s n d b); [done| |tauto].
      replace (cursor (cmd e) - 1) with (Z.of_nat (n - 1)) by lia. eapply move_cursor; [done|lia].
    + apply wp_ret. exists e, (Sheet s n d b). split_and!; try done. cbn [press]. do 2 f_equal. lia.
  - eapply wp_key_esc; [done|done|done|]. rewrite u8_small by done. cbn [Z.eqb Pos.eqb andb].
    cbn [press]. destruct (Z.ltb_spec (cursor (cmd e)) (len (cmd e))).
    + rewrite decide_True by lia. apply wp_redraw_then; [done|]. intros out.
      eexists _, _. split_and!; [done|done| |done].
      apply (with_cmd_holds e s n d b); [done| |apply remove_no_nul; tauto].
      rewrite L3. apply (take_out_spec _ _ n); [done|lia|lia].
    + rewrite decide_False by lia. apply wp_ret. by exists e, (Sheet s n d b).
  - eapply wp_key_esc; [done|done|done|]. rewrite u8_small by done.
    rewrite (proj2 (Z.eqb_neq _ _)) by done. cbn [andb]. apply wp_ret. by exists e, (Sheet s n d b).
  - replace ((c2 =? 91) && ((c0 =? 65) || (c0 =? 66) || (c0 =? 67) || (c0 =? 68) || (c0 =? 51)))
      with false by lia.
    apply wp_ret. by exists e, (Sheet s n d b).
Qed.

Lemma sends_shape k seq :
  sends k seq → (∃ c2 c3, seq = 27 :: c2 :: c3) ∨
    ∃ c, seq = [c] ∧ 0 < c < 256 ∧ c ≠ 10 ∧ c ≠ 13 ∧ c ≠ 27 ∧
         (c = 9 ∧ k = KTab ∨ (c = 8 ∨ c = 127) ∧ k = KErase ∨ c ≠ 9 ∧ c ≠ 8 ∧ c ≠ 127 ∧ k = KChar c).
Proof.
  destruct 1 as [c|c Hc| | | | | | | |]; try (left; eauto; fail); right.
  - exists c. split_and!; try done; try lia. by right; right.
  - exists c. split_and!; try done; try lia. by right; left.
  - exists 9. split_and!; try done; try lia. by left.
Qed.

Lemma edit_spec k seq a e rest w :
  history_ok h → editor_holds h e a → at_console pid w → sends k seq → typed w = seq ++ rest →
  wp (edit h cwd e) w (follows k a rest w).
Proof.
  intros Hok He Hc Hk Ht. unfold follows, edit.
  destruct (sends_shape k seq Hk) as [(c2&c3&->)|(c&->&Hc0&H10&H13&H27&Hcase)].
  { eapply wp_key; [done|exact Ht|done|]. rewrite u8_small by done. cbn [Z.eqb Pos.eqb orb].
    apply wp_bind. eapply wp_mono.
    - by apply (escape_spec k c2 c3 a e rest).
    - intros o w' (e'&a'&->&->&He'&Hr). cbn [then_]. apply wp_ret. split; [exact Hr|]. by exists e'. }
  pose proof He as [L _ _ _ _ E6]. destruct a as [s n d b]. cbn [chars place aside seen] in *.
  pose proof L as [L1 L2 L3 L4 L5].
  eapply wp_key; [done|exact Ht|split; lia|]. rewrite u8_small by lia.
  rewrite (proj2 (Z.eqb_neq c 10)), (proj2 (Z.eqb_neq c 13)), (proj2 (Z.eqb_neq c 27)) by done.
  cbn [orb]. destruct Hcase as [[-> ->]|[[Hbs ->]|(H9&H8&H127&->)]].
  - cbn [Z.eqb Pos.eqb]. pose proof (complete_app_name_spec (cmd e) s n L (proj1 E6)) as Hcomp.
    pose proof (complete_no_nul s n (proj1 E6)) as Hnn. cbn [press].
    destruct (complete s n) as [s' n']. destruct (complete_app_name (cmd e)) as [ok l]. cbn [snd fst] in *.
    pose proof (with_cmd_holds e s n d b l s' n' He Hcomp Hnn) as He'.
    apply wp_bind. destruct ok.
    + apply wp_redraw; [done|]. intros out. apply wp_ret. split; [done|]. by eexists.
    + apply wp_ret. cbn [then_]. apply wp_ret. split; [done|]. by eexists.
  - rewrite (proj2 (Z.eqb_neq c 9)) by lia. replace ((c =? 8) || (c =? 127)) with true by lia.
    cbn [press]. destruct (Z.ltb_spec 0 (cursor (cmd e))).
    + destruct n as [|m]; [lia|]. apply wp_redraw_then; [done|]. intros out. split; [done|].
      eexists. split; [done|]. apply (with_cmd_holds e s (S m) d b); [done| |apply remove_no_nul; tauto].
      replace (cursor (cmd e) - 1) with (Z.of_nat m) by lia.
      apply (take_out_spec _ _ (S m)); [done|lia|lia].
    + destruct n as [|m]; [|lia]. apply wp_ret. split; [done|]. by exists e.
  - rewrite (proj2 (Z.eqb_neq c 9)), (proj2 (Z.eqb_neq c 8)), (proj2 (Z.eqb_neq c 127)) by done.
    cbn [orb press]. unfold CMDLINE_MAX. case_decide as Hfull.
    + rewrite (proj2 (Z.eqb_eq _ _)) by lia. apply wp_bind, wp_printf; [done|]. cbn [then_].
      apply wp_ret. by split.
    + rewrite (proj2 (Z.eqb_neq _ _)) by lia. apply wp_bind.
      assert (∀ w', reached w rest w' →
        wp (Ret (inl (with_cmd e (put_in (cmd e) c))) : prog (editor + line_end)) w' (λ o w', reached w rest w' ∧
          ∃ e', o = Some (inl e') ∧ editor_holds h e' (Sheet (insert_at n c s) (S n) d b))) as Hend.
      { intros w' Hr. apply wp_ret. split; [done|]. eexists. split; [done|].
        apply (with_cmd_holds e s n d b); [done| |apply insert_no_nul; [lia|tauto]].
        apply put_in_spec; [done|lia]. }
      destruct (cursor (cmd e) =? len (cmd e)).
      * apply (wp_putchar pid); [done|]. by apply Hend.
      * apply wp_redraw; [done|]. intros out. by apply Hend.
Qed.

Lemma blank_holds cmdline draft :
  length cmdline = 64%nat → length draft = 64%nat →
  editor_holds h (Ed (Line cmdline 0 0) draft 0 (-1)) blank_sheet.
Proof.
  intros Hc Hd. split; cbn; try done.
  - split; cbn; try done; [split; lia|intros; lia].
  - split; lia.
  - intros; lia.
  - by split; constructor.
Qed.

(** The characters of a sequence of keys. *)
Inductive sends_all : list key → list Z → Prop :=
| sends_none : sends_all [] []
| sends_more k seq ks l : sends k seq → sends_all ks l → sends_all (k :: ks) (seq ++ l).

(** C21. The editor of the command line, on its two buffers of 64 characters, does what
    an editor of a list of characters does: for every sequence of keys, characters, the
    arrows, delete, erase, tab, escapes it ignores, and then return, it ends with the
    line that the keys make, at most 63 characters, whatever the buffers held before.  If
    the line gets too long it is dropped for a new prompt.  It writes within the buffers,
    reads no character behind the return, and changes no file. *)
Theorem editor_refines ks input enter rest cmdline draft w :
  history_ok h → at_console pid w → length cmdline = 64%nat → length draft = 64%nat →
  sends_all ks input → typed w = input ++ enter :: rest → enter = 13 ∨ enter = 10 →
  wp (read_line h cwd cmdline draft) w (λ o w',
    files_in w' = files_in w ∧ cwd_in w' = cwd_in w ∧
    match press_all (entries h) ks blank_sheet with
    | Some a => typed w' = rest ∧ (length (chars a) ≤ 63)%nat ∧
        ∃ l, o = Some (Entered l) ∧ length l = 64%nat ∧ cstr l = chars a
    | None => o = Some Too_long
    end).
Proof.
  intros Hok Hc Hl Hd Hks Ht Henter. pose proof (blank_holds cmdline draft Hl Hd) as He.
  unfold read_line. revert He. generalize (Ed (Line cmdline 0 0) draft 0 (-1)) as e.
  revert w Hc Ht. generalize blank_sheet as a. clear cmdline draft Hl Hd.
  induction Hks as [|k seq ks l Hk _ IH]; intros a w Hc Ht e He.
  - apply wp_forever. cbn [press_all]. destruct He as [[L1 L2 L3 L4 L5] _ _ _ _ [Hnn _]].
    eapply wp_key; [done|exact Ht|by destruct Henter as [-> | ->]|].
    rewrite u8_small by (by destruct Henter as [-> | ->]). replace ((enter =? 13) || (enter =? 10)) with true by lia.
    apply wp_bind, wp_printf; [done|]. cbn [then_]. apply wp_ret. cbn [then_].
    split_and!; [done..|lia|]. eexists. split; [done|]. rewrite put_length. split; [done|].
    unfold put. rewrite L2, Nat2Z.id. rewrite insert_take_drop by lia.
    assert (take (length (chars a)) (text (cmd e)) = chars a) as ->.
    { apply (proj2 (starts_get _ _)). split; [lia|done]. }
    by rewrite cstr_app_nul.
  - apply wp_forever. rewrite <-app_assoc in Ht. eapply wp_mono; [by eapply edit_spec|].
    intros o w' [Hr Hp]. cbn [press_all]. destruct (press (entries h) k a) as [a'|].
    + destruct Hp as (e'&->&He'). cbn [then_]. destruct Hr as (Hf&Hcwd&Hty).
      eapply wp_mono; [apply (IH a' w'); [by eapply at_console_reached|done|done]|].
      cbv beta. by rewrite Hf, Hcwd.
    + subst o. cbn [then_]. destruct Hr as (Hf&Hcwd&_). done.
Qed.
End editor.
