(* ===== verification/ShellSafe.v ===== *)
(** * Commands leave the console to the shell

    Which descriptors of the shell are in use while it carries out a command line with
    its redirections, its own commands and other programs.  The kernel here has other
    processes: before every call of the shell any calls on files may have been made for
    them. *)
From Stdlib Require Import ZArith Lia ZifyBool String.
From stdpp Require Import base tactics list numbers option relations.
From S2P Require Import Prelude CString BlockDev NodeFs Vfs VfsSpec Process Syscall UserProg UserFiles.
From S2P Require Import UserPath ShellUtils ShellUtilsSpec ShellEdit.
From ITree Require Import Core.ITreeDefinition.
#[local] Open Scope Z_scope.

(** ** A kernel with other processes *)

(** What a [fork] comes to: it fails, or the program goes on as the parent of the child
    with this number, or as that child. *)
Inductive fork_end := No_fork | In_parent (child : Z) | In_child (child : Z).

(** The process that runs; what the program sees of the kernel; what the other processes
    do to the files before each of the next calls; what a [fork] comes to; whether an
    [execv] finds the program and the memory for it. *)
Record desk (D : Type) := Desk {
  me : Z; sees : world D; doings : list (vfs D → vfs D); forks : fork_end; loads : bool
}.
Arguments Desk {D}.
Arguments me {D}.
Arguments sees {D}.
Arguments doings {D}.
Arguments forks {D}.
Arguments loads {D}.

Section desk.
Context {D : Type} `{BlockDev D}.
Implicit Types s : desk D.

Definition meanwhile s : world D :=
  match doings s with
  | f :: _ => with_files (sees s) (f (files_in (sees s)))
  | [] => sees s
  end.

Definition goes s (w : world D) : desk D := Desk (me s) w (tail (doings s)) (forks s) (loads s).

(** The copy of the descriptors that [process_fork] makes. *)
Definition with_child s (child : Z) (w : world D) : world D :=
  with_files w (Vfs.fs_fork_copy_fds (me s) child (files_in w)).2.

(** [fork], [waitpid] and [execv] before the calls of [world_kernel].  What [waitpid]
    answers the shell does not look at; a program that has been loaded is another one. *)
#[export] Instance desk_kernel : Kernel (desk D) := λ no x y z s,
  let w := meanwhile s in
  if no =? SYSCALL_FORK then
    match forks s with
    | No_fork => (Some (-1, []), goes s w)
    | In_parent child => (Some (child, []), goes s (with_child s child w))
    | In_child child =>
        (Some (0, []), Desk child (with_child s child w) (tail (doings s)) (forks s) (loads s))
    end
  else if no =? SYSCALL_WAITPID then (Some (match x with UInt p => p | _ => -1 end, []), goes s w)
  else if no =? SYSCALL_EXECV then
    (if loads s then (None, goes s w) else (Some (-1, []), goes s w))
  else let '(r, w') := world_kernel (me s) no x y z w in (r, goes s w').
End desk.

Section safe.
Context {D : Type} `{BlockDev D}.
Context (pid : Z) (Hpid : 0 ≤ pid < 64).
Context (fe : fork_end) (Hfe : match fe with In_parent child => 0 < child ∧ child ≠ pid | _ => True end).
Implicit Types v : vfs D.

(** The descriptors in use. *)
Definition busy v (k : Z) : bool := negb (fd_used (fd_at v pid k) =? 0).

(** The table has its size, and the descriptors in use are [u]. *)
Definition files_hold (u : Z → bool) v : Prop := table_ok v ∧ ∀ k, 0 ≤ k < 16 → busy v k = u k.

(** Any calls made for processes other than the shell. *)
Definition for_others v v' : Prop := ∃ q, q ≠ pid ∧ vfs_step q v v'.

(** The shell runs, with these descriptors in use; the others make calls of their own. *)
Record fds_in (u : Z → bool) s : Prop := {
  fi_files : files_hold u (files_in (sees s));
  fi_me : me s = pid;
  fi_others : Forall (λ f, ∀ v, rtc for_others v (f v)) (doings s);
  fi_fork : forks s = fe
}.

Definition with_bit (u : Z → bool) (k : Z) (b : bool) (j : Z) : bool := if j =? k then b else u j.

Lemma table_ok_set_fd v fd f : table_ok v → 0 ≤ fd < 16 → table_ok (set_fd v pid fd f).
Proof.
  intros [Hl Hr] Hfd. unfold set_fd, set_row, table_ok. cbn [fd_table set_fds].
  split; [by rewrite length_insert|]. apply list.Forall_insert; [done|].
  rewrite length_insert. by apply fds_of_length.
Qed.

Lemma busy_set_fd v fd f k :
  table_ok v → 0 ≤ fd < 16 → 0 ≤ k < 16 →
  busy (set_fd v pid fd f) k = with_bit (busy v) fd (negb (fd_used f =? 0)) k.
Proof.
  intros Ht Hfd Hk. unfold busy, with_bit. rewrite fd_at_set_fd by (done || lia).
  destruct (Z.eqb_spec k fd) as [->|Hne]; [by rewrite decide_True|by rewrite decide_False by tauto].
Qed.

(** A write keeps the descriptors, with another offset. *)
Lemma fs_write_busy fd buf sz v :
  table_ok v → let v' := (fs_write pid fd buf sz v).2 in
  table_ok v' ∧ ∀ k, 0 ≤ k < 16 → busy v' k = busy v k.
Proof.
  intros Ht. unfold fs_write. destruct buf as [b|]; [|done].
  destruct (bad_pid pid); [done|]. destruct (bad_fd fd) eqn:Hfd; [done|].
  assert (0 ≤ fd < 16) as Hr by (unfold bad_fd, FS_FD_MAX in Hfd; lia).
  destruct (Z.eqb_spec (fd_used (fd_at v pid fd)) 0) as [|Hu]; [by case_if|].
  case_if; [done|]. case_if; [done|]. destruct (nodefs_write _ _ _ _ _ _) as [[[r o] fs] d]. cbn [snd].
  assert (table_ok (set_fs v (mount_ctx v (Z.to_nat (fd_mount (fd_at v pid fd)))) fs d)) as Ht'
    by by apply table_ok_set_fs.
  split; [by apply table_ok_set_fd|]. intros k Hk. rewrite busy_set_fd by done. unfold with_bit.
  assert (∀ c j, busy (set_fs v c fs d) j = busy v j) as Hb.
  { intros c j. unfold busy, fd_at. by rewrite fds_of_set_fs. }
  rewrite Hb. destruct (Z.eqb_spec k fd) as [->|]; [|done].
  unfold busy. simpl. done.
Qed.

(** *** The others *)

Lemma table_ok_set_row v p row : table_ok v → length row = 16%nat → table_ok (set_row v p row).
Proof.
  intros [Hl Hr] Hrow. unfold set_row, table_ok. cbn [fd_table set_fds].
  split; [by rewrite length_insert|]. by apply list.Forall_insert.
Qed.

Lemma row_length v p : table_ok v → bad_pid p = false → length (fds_of v p) = 16%nat.
Proof. intros Ht Hp. apply fds_of_length; [done|by apply bad_pid_false]. Qed.

Lemma vfs_step_table p v v' : vfs_step p v v' → table_ok v → table_ok v'.
Proof.
  assert (∀ v p fd f, bad_pid p = false → table_ok v → table_ok (set_fd v p fd f)) as Hset.
  { intros v1 q fd f Hq Ht. apply table_ok_set_row; [done|]. rewrite length_insert. by apply row_length. }
  assert (∀ path v op, table_ok v → table_ok (on_mount path v op).2) as Hon.
  { intros path v1 op Ht. unfold on_mount. destruct (vfs_resolve_mount _ _) as [[m sub]|]; [|done].
    cbv zeta. destruct (op _ _ _) as [[r fs] d]. by apply table_ok_set_fs. }
  intros Hs Ht. destruct Hs; try by apply Hon.
  - unfold fs_open. destruct (bad_pid pid0) eqn:Hp; [done|].
    destruct (vfs_resolve_mount _ _) as [[m sub]|]; [|done]. cbv zeta.
    destruct (nodefs_open _ _ _ _) as [[[node|] fs] d]; [|by apply table_ok_set_fs].
    unfold vfs_alloc_fd. rewrite Hp. destruct (first_idx _ _); [|by apply table_ok_set_fs].
    apply Hset; [done|]. by apply table_ok_set_fs.
  - unfold fs_close. destruct (bad_pid pid0) eqn:Hp; [done|]. case_if; [done|]. by apply Hset.
  - unfold fs_read. destruct (bad_pid pid0) eqn:Hp; [done|]. repeat (case_if; [done|]). cbv zeta.
    repeat (case_if; [done|]). destruct (nodefs_read _ _ _ _) as [[r off] b]. by apply Hset.
  - unfold fs_write. destruct buf as [buf|]; [|done]. destruct (bad_pid pid0) eqn:Hp; [done|].
    case_if; [done|]. cbv zeta. case_if; [by case_if|]. do 2 (case_if; [done|]).
    destruct (nodefs_write _ _ _ _ _ _) as [[[r off] fs] d]. apply Hset; [done|]. by apply table_ok_set_fs.
  - unfold fs_dup2, fs_close. destruct (bad_pid pid0) eqn:Hp; [done|]. repeat (case_if; [done|]). cbn [orb].
    case_if; [|case_if; [done|by apply Hset]]. case_if; [case_if; [done|by apply Hset]|].
    case_if; [done|]. apply Hset; [done|by apply Hset].
  - unfold Vfs.fs_fork_copy_fds. destruct (bad_pid parent) eqn:Hp; [done|]. case_if; [done|].
    apply table_ok_set_row; [done|]. rewrite ?length_map. by apply row_length.
  - unfold Vfs.fs_on_process_recycle. destruct (bad_pid pid0) eqn:Hp; [done|].
    apply table_ok_set_row; [done|]. rewrite ?length_map. by apply row_length.
Qed.

Lemma others_keep u v v' : rtc for_others v v' → files_hold u v → files_hold u v'.
Proof.
  induction 1 as [|v1 v2 v3 [q [Hq Hs]] _ IH]; [done|]. intros [Ht Hu]. apply IH.
  split; [by eapply vfs_step_table|]. intros k Hk. rewrite <-Hu by done. unfold busy, fd_at.
  by rewrite (fs_isolation q v1 v2 pid Hs) by lia.
Qed.

(** What holds when the kernel carries out the next call. *)
Lemma fds_meanwhile u s : fds_in u s → files_hold u (files_in (meanwhile s)).
Proof.
  intros [Hf _ Ho _]. unfold meanwhile. destruct (doings s) as [|f l]; [done|].
  apply Forall_cons in Ho as [Ho _]. exact (others_keep u _ _ (Ho _) Hf).
Qed.

Lemma fds_goes u u' s w : fds_in u s → files_hold u' (files_in w) → fds_in u' (goes s w).
Proof. intros [_ H1 H2 H3] Hw. split; try done. by apply list.Forall_tail. Qed.

(** A call that [world_kernel] answers. *)
Definition of_world (no : Z) : Prop := no ≠ SYSCALL_FORK ∧ no ≠ SYSCALL_WAITPID ∧ no ≠ SYSCALL_EXECV.

Lemma desk_call no x y z u s :
  fds_in u s → of_world no →
  kernel_call no x y z s =
    ((world_kernel pid no x y z (meanwhile s)).1, goes s (world_kernel pid no x y z (meanwhile s)).2).
Proof.
  intros Hu (H1&H2&H3). unfold kernel_call, desk_kernel. cbv zeta.
  rewrite !(proj2 (Z.eqb_neq _ _)) by done. rewrite (fi_me _ _ Hu). by destruct (world_kernel _ _ _ _ _ _).
Qed.

(** Whatever the files are. *)
Lemma wp_call no x y z s u (Q : option (Z * list Z) → desk D → Prop) :
  fds_in u s → of_world no →
  (∀ w, files_hold u (files_in w) →
     let '(r, w') := world_kernel pid no x y z w in Q r (goes s w')) →
  wp (syscall no x y z) s Q.
Proof.
  intros Hu Hno HQ. apply wp_syscall. rewrite (desk_call no x y z u s Hu Hno). cbn [fst snd].
  specialize (HQ _ (fds_meanwhile u s Hu)). by destruct (world_kernel _ _ _ _ _ _).
Qed.

Lemma wp_call_int no x y z s u (Q : option Z → desk D → Prop) :
  fds_in u s → of_world no →
  (∀ w, files_hold u (files_in w) →
     let '(r, w') := world_kernel pid no x y z w in Q (fst <$> r) (goes s w')) →
  wp (syscall_int no x y z) s Q.
Proof.
  intros Hu Hno HQ. apply wp_bind. eapply wp_call; [done..|]. intros w Hw. specialize (HQ w Hw).
  destruct (world_kernel _ _ _ _ _ _) as [[r|] w']; simpl in *; [by apply wp_ret|done].
Qed.

(** *** The calls *)

Lemma wp_write_call fd buf sz s u (Q : option (Z * list Z) → desk D → Prop) :
  fds_in u s → (∀ r s', fds_in u s' → Q (Some r) s') →
  wp (syscall SYSCALL_WRITE (UInt fd) (UStr buf) (UInt sz)) s Q.
Proof.
  intros Hu HQ. eapply wp_call; [done|done|]. intros w [Ht Hw]. cbn -[write_call fs_write]. unfold write_call.
  pose proof (fs_write_busy fd (Some buf) (u32 sz) (files_in w) Ht) as Hb. cbv zeta in Hb.
  destruct (fs_write pid fd (Some buf) (u32 sz) (files_in w)) as [[r out] v']. cbn [snd] in Hb.
  apply HQ, (fds_goes u); [done|]. split; [apply Hb|]. intros k Hk. rewrite <-Hw by done. by apply Hb.
Qed.

Lemma wp_write_any fd buf sz w u (Q : option Z → desk D → Prop) :
  fds_in u w → (∀ r w', fds_in u w' → Q (Some r) w') → wp (u_write fd buf sz) w Q.
Proof.
  intros Hu HQ. apply wp_bind. eapply wp_write_call; [done|]. intros r w' Hu'. apply wp_ret. by apply HQ.
Qed.

Lemma wp_putchar_any c w u (Q : option unit → desk D → Prop) :
  fds_in u w → (∀ w', fds_in u w' → Q (Some tt) w') → wp (putchar c) w Q.
Proof.
  intros Hu HQ. apply wp_bind. eapply wp_write_call; [done|]. intros r w' Hu'. apply wp_ret. by apply HQ.
Qed.

Lemma wp_put_any (put : Z → prog unit) l w u (Q : option unit → desk D → Prop) :
  (∀ c w1 (R : option unit → desk D → Prop),
     fds_in u w1 → (∀ w', fds_in u w' → R (Some tt) w') → wp (put c) w1 R) →
  fds_in u w → (∀ w', fds_in u w' → Q (Some tt) w') → wp (put_all put l) w Q.
Proof.
  intros Hput. revert w. induction l as [|c l IH]; intros w Hu HQ; cbn [put_all].
  - apply wp_ret. by apply HQ.
  - apply wp_bind, Hput; [done|]. intros w' Hu'. by apply IH.
Qed.

Lemma wp_say s w u (Q : option unit → desk D → Prop) :
  fds_in u w → (∀ w', fds_in u w' → Q (Some tt) w') → wp (say s) w Q.
Proof. intros Hu HQ. apply (wp_put_any _ _ _ u); [|done..]. intros. by eapply wp_putchar_any. Qed.

Lemma wp_printf_any fmt args w u (Q : option unit → desk D → Prop) :
  fds_in u w → (∀ w', fds_in u w' → Q (Some tt) w') → wp (u_printf fmt args) w Q.
Proof. intros Hu HQ. apply (wp_put_any _ _ _ u); [|done..]. intros. by eapply wp_putchar_any. Qed.

Lemma wp_shell_printf f fmt args w u (Q : option unit → desk D → Prop) :
  fds_in u w → (∀ w', fds_in u w' → Q (Some tt) w') → wp (shell_printf f fmt args) w Q.
Proof.
  intros Hu HQ. apply (wp_put_any _ _ _ u); [|done..]. intros c w1 R Hu1 HR. unfold shell_putc. case_if.
  - apply wp_bind. eapply wp_write_any; [done|]. intros r w' Hu'. apply wp_ret. by apply HR.
  - by eapply wp_putchar_any.
Qed.

(** Opening takes the lowest descriptor that is not in use. *)
Lemma wp_open_any path flags w u (Q : option Z → desk D → Prop) :
  fds_in u w →
  (∀ w', fds_in u w' → Q (Some (-1)) w') →
  (∀ fd w', 0 ≤ fd < 16 → u fd = false → (∀ k, 0 ≤ k < fd → u k = true) →
     fds_in (with_bit u fd true) w' → Q (Some fd) w') →
  wp (u_open path flags) w Q.
Proof.
  intros Hin Hno Hyes. eapply wp_call_int; [done|done|]. intros w0 [Ht Hu].
  cbn -[fs_open]. unfold file_call, fs_open. rewrite (bad_pid_in pid Hpid).
  destruct (vfs_resolve_mount _ _) as [[m sub]|]; [|by apply Hno, (fds_goes u)].
  cbv zeta. destruct (nodefs_open _ _ _ _) as [[[node|] fs] d].
  2:{ apply Hno, (fds_goes u); [done|]. split; [by apply table_ok_set_fs|]. intros k Hk. rewrite <-Hu by done.
      unfold busy, fd_at. cbn [files_in with_files snd]. by rewrite fds_of_set_fs. }
  set (v := set_fs _ _ fs d).
  assert (table_ok v) as Hv by by apply table_ok_set_fs.
  assert (∀ k, 0 ≤ k < 16 → busy v k = u k) as Hvu.
  { intros k Hk. rewrite <-Hu by done. unfold busy, fd_at, v. by rewrite fds_of_set_fs. }
  unfold vfs_alloc_fd. rewrite (bad_pid_in pid Hpid).
  destruct (first_idx _ (fds_of v pid)) as [i|] eqn:Ei; [|by apply Hno, (fds_goes u)].
  apply first_idx_Some in Ei as ((f&Hf&Hz)&Hlow). pose proof (lookup_lt_Some _ _ _ Hf) as Hi.
  rewrite (fds_of_length v pid Hv Hpid) in Hi.
  apply Hyes; cbn [fst snd files_in with_files].
  - lia.
  - rewrite <-Hvu by lia. unfold busy, fd_at. rewrite Nat2Z.id, (nth_lookup_Some _ _ _ _ Hf). lia.
  - intros k Hk. rewrite <-Hvu by lia. unfold busy, fd_at.
    destruct (lookup_lt_is_Some_2 (fds_of v pid) (Z.to_nat k)) as [g Hg];
      [rewrite (fds_of_length v pid Hv Hpid); lia|].
    rewrite (nth_lookup_Some _ _ _ _ Hg). specialize (Hlow (Z.to_nat k) g ltac:(lia) Hg). lia.
  - apply (fds_goes u); [done|].
    split; [apply table_ok_set_fd; [done|lia]|]. intros k Hk. cbn [files_in with_files].
    rewrite busy_set_fd by (done || lia). unfold with_bit. by rewrite Hvu.
Qed.

Lemma wp_close_any fd w u (Q : option Z → desk D → Prop) :
  fds_in u w → 0 ≤ fd < 16 →
  (∀ r w', fds_in (with_bit u fd false) w' → Q (Some r) w') → wp (u_close fd) w Q.
Proof.
  intros Hin Hfd HQ. eapply wp_call_int; [done|done|]. intros w0 [Ht Hu].
  cbn -[fs_close]. unfold file_call, fs_close.
  rewrite (bad_pid_in pid Hpid), (bad_fd_in fd Hfd). cbn [orb].
  destruct (Z.eqb_spec (fd_used (fd_at (files_in w0) pid fd)) 0) as [Hz|Hz]; apply HQ, (fds_goes u); try done.
  - split; [done|]. intros k Hk. cbn [files_in with_files]. rewrite Hu by done. unfold with_bit.
    destruct (Z.eqb_spec k fd) as [->|]; [|done]. rewrite <-Hu by done. unfold busy. lia.
  - split; [by apply table_ok_set_fd|]. intros k Hk. cbn [files_in with_files].
    rewrite busy_set_fd by done. unfold with_bit. cbn. by rewrite Hu.
Qed.

(** [dup2] of a descriptor in use, to one that is not. *)
Lemma wp_dup2_any old new w u (Q : option Z → desk D → Prop) :
  fds_in u w → 0 ≤ old < 16 → 0 ≤ new < 16 → u old = true → u new = false →
  (∀ w', fds_in (with_bit u new true) w' → Q (Some new) w') → wp (dup2 old new) w Q.
Proof.
  intros Hin Ho Hn Huo Hun HQ. eapply wp_call_int; [done|done|]. intros w0 [Ht Hu].
  cbn -[fs_dup2]. unfold file_call, fs_dup2.
  rewrite (bad_pid_in pid Hpid), (bad_fd_in old Ho), (bad_fd_in new Hn).
  rewrite <-Hu in Huo, Hun by done. unfold busy in Huo, Hun.
  rewrite (proj2 (Z.eqb_neq (fd_used (fd_at (files_in w0) pid old)) 0)) by lia.
  rewrite (proj2 (Z.eqb_eq (fd_used (fd_at (files_in w0) pid new)) 0)) by lia.
  cbn [orb negb]. rewrite (proj2 (Z.eqb_neq old new)) by (intros ->; lia).
  cbn [Z.ltb Z.compare]. rewrite (proj2 (Z.ltb_ge _ _)) by lia.
  apply HQ, (fds_goes u); [done|].
  split; [by apply table_ok_set_fd|]. intros k Hk. cbn [files_in with_files].
  rewrite busy_set_fd by done. unfold with_bit. cbn. by rewrite Hu.
Qed.

Lemma fds_in_ext u u' w : (∀ k, u k = u' k) → fds_in u w → fds_in u' w.
Proof. intros Hu [[Ht Hw] H1 H2 H3]. split; try done. split; [done|]. intros k Hk. by rewrite Hw, Hu. Qed.

Lemma with_bit_back u k b : u k = b → ∀ j, with_bit (with_bit u k (negb b)) k b j = u j.
Proof. intros Hk j. unfold with_bit. by destruct (Z.eqb_spec j k) as [->|]. Qed.

Lemma wp_getcwd_any w u (Q : option (Z * list Z) → desk D → Prop) :
  fds_in u w → (∀ p w', fds_in u w' → Q (Some (0, p)) w') → wp getcwd w Q.
Proof. intros Hu HQ. eapply wp_call; [done|done|]. intros w0 Hw. by apply HQ, (fds_goes u). Qed.

(** ** The commands of the shell itself *)

Lemma wp_print_rows f h n i w u (Q : option unit → desk D → Prop) :
  fds_in u w → (∀ w', fds_in u w' → Q (Some tt) w') → wp (print_rows f h n i) w Q.
Proof.
  revert i w. induction n as [|n IH]; intros i w Hu HQ; cbn [print_rows].
  - apply wp_ret. by apply HQ.
  - apply wp_bind. eapply wp_shell_printf; [done|]. intros w' Hu'. by apply IH.
Qed.

Lemma wp_cd_any stack path w u (Q : option Z → desk D → Prop) :
  fds_in u w → (∀ r w', fds_in u w' → Q (Some r) w') → wp (shell_cmd_cd stack path) w Q.
Proof.
  intros Hu HQ. unfold shell_cmd_cd, resolve_path.
  assert (∀ r w1, fds_in u w1 →
    wp (if fst r <? 0 then Ret (-1) else chdir (snd r)) w1 Q) as Hgo.
  { intros [r p] w1 Hu1. cbn [fst snd]. case_if; [apply wp_ret; by apply HQ|].
    eapply wp_call_int; [done|done|]. intros w0 Hw. cbn -[chdir_call]. unfold chdir_call.
    destruct (fs_get_path_entry _ _); by apply HQ, (fds_goes u). }
  apply wp_bind. case_if; [apply wp_ret; by apply Hgo|].
  apply wp_bind. eapply wp_getcwd_any; [done|]. intros p w' Hu'. apply wp_ret. by apply Hgo.
Qed.

Lemma wp_pwd_any w u (Q : option Z → desk D → Prop) :
  fds_in u w → (∀ r w', fds_in u w' → Q (Some r) w') → wp shell_cmd_pwd w Q.
Proof.
  intros Hu HQ. apply wp_bind. eapply wp_getcwd_any; [done|]. intros p w1 Hu1. cbn -[u_printf].
  apply wp_bind. eapply wp_printf_any; [done|]. intros w' Hu'. apply wp_ret. by apply HQ.
Qed.

(** [exit] does not return, whether the history could be saved or not. *)
Lemma wp_exit_now w (Q : option unit → desk D → Prop) : (∀ w', Q None w') → wp (shell_cmd_exit tt) w Q.
Proof. intros HQ. apply wp_bind, wp_syscall. apply HQ. Qed.

Lemma wp_exit_any h w u (Q : option unit → desk D → Prop) :
  fds_in u w → (∀ w', Q None w') → wp (let* _w := history_write h in shell_cmd_exit tt) w Q.
Proof.
  intros Hu HQ.
  assert (∀ w1, wp (shell_cmd_exit tt) w1 Q) as Hx by (intros w1; by apply wp_exit_now).
  apply wp_bind. unfold history_write. generalize (history_serialize h FS_FILE_MAX_SIZE). intros buf.
  apply wp_bind. eapply wp_open_any; [done| |].
  - intros w' Hu'. eapply wp_printf_any; [done|]. intros w2 _. apply Hx.
  - intros fd w' Hfd _ _ Hu'. cbv beta. cbn [then_]. rewrite (proj2 (Z.ltb_ge fd 0)) by lia.
    apply wp_bind. eapply wp_write_any; [done|]. intros r w2 Hu2. cbn [then_]. apply wp_bind.
    assert (∀ w3, fds_in (with_bit u fd true) w3 →
      wp (let* _r := u_close fd in Ret tt) w3 (then_ (λ _ s, wp (shell_cmd_exit tt) s Q) (Q None))) as Hc.
    { intros w3 Hu3. apply wp_bind. eapply wp_close_any; [done..|]. intros r3 w4 _. apply wp_ret, Hx. }
    case_if; [eapply wp_printf_any; [done|]; intros w3 Hu3; by apply Hc|apply wp_ret; by apply Hc].
Qed.

(** *** Other programs *)

(** What the child prints goes wherever its descriptors lead. *)
Lemma wp_printf_some fmt args s (Q : option unit → desk D → Prop) :
  (∀ s', Q (Some tt) s') → wp (u_printf fmt args) s Q.
Proof.
  intros HQ. unfold u_printf. generalize (default [] (printf fmt args)). intros l.
  revert s. induction l as [|c l IH]; intros s; cbn [put_all]; [by apply wp_ret|].
  apply wp_bind, wp_bind, wp_syscall. cbn -[write_call fs_write]. unfold write_call.
  destruct (fs_write _ _ _ _ _) as [[r out] v]. cbn [fst snd then_]. by apply wp_ret, IH.
Qed.

(** The child is replaced by the program, or says that it could not be, and exits. *)
Lemma wp_child app_id argv s (Q : option Z → desk D → Prop) :
  (∀ s', Q None s') →
  wp (let* ret := execv app_id argv in
      let* _p := if ret <? 0 then u_printf (bytes "exec failed" ++ [10]) [] else Ret tt in
      exit (-1)) s Q.
Proof.
  intros HQ. apply wp_bind, wp_syscall_int. cbn -[u_printf]. destruct (loads s); cbn [fst snd fmap option_fmap option_map]; [apply HQ|].
  cbn [then_]. apply wp_bind. change (-1 <? 0) with true. cbv iota. apply wp_printf_some. intros s'.
  cbn [then_]. apply wp_bind, wp_syscall. apply HQ.
Qed.

(** The parent, with the child made. *)
Lemma wp_parent child background s u (Q : option Z → desk D → Prop) :
  fds_in u s → (∀ s', fds_in u s' → Q (Some child) s') →
  wp (let* _p := if negb background then let* _w := waitpid child in Ret tt
                 else u_printf (bytes "[bg] pid=%d" ++ [10]) [AInt child] in
      Ret child) s Q.
Proof.
  intros Hu HQ. apply wp_bind. case_if.
  - apply wp_bind, wp_syscall_int. cbn. apply wp_ret. cbn. apply wp_ret, HQ.
    apply (fds_goes u); [done|]. by apply fds_meanwhile.
  - eapply wp_printf_any; [done|]. intros s' Hu'. apply wp_ret. by apply HQ.
Qed.

Lemma fds_forked u s child :
  fds_in u s → 0 < child ∧ child ≠ pid → fds_in u (goes s (with_child s child (meanwhile s))).
Proof.
  intros Hu [_ Hc]. apply (fds_goes u); [done|]. eapply others_keep; [|by apply fds_meanwhile].
  apply rtc_once. exists child. split; [done|]. constructor.
Qed.

Lemma wp_external argv background s u (Q : option Z → desk D → Prop) :
  fds_in u s → ((∃ c, fe = In_child c) → ∀ s', Q None s') → (∀ r s', fds_in u s' → Q (Some r) s') →
  wp (run_external argv background) s Q.
Proof.
  intros Hu Hno HQ. unfold run_external.
  assert (∀ l s1, fds_in u s1 → wp (let* _p := u_printf l [] in Ret (-1)) s1 Q) as Hp.
  { intros l s1 Hu1. apply wp_bind. eapply wp_printf_any; [done|]. intros s2 Hu2. apply wp_ret. by apply HQ. }
  case_if; [apply wp_ret; by apply HQ|]. cbv zeta. case_if; [by apply Hp|].
  apply wp_bind, wp_syscall_int. unfold kernel_call, desk_kernel. rewrite Z.eqb_refl, (fi_fork _ _ Hu).
  clear Hp. revert Hfe Hno. generalize fe. intros [|child|child] Hc Hno; cbn [fst snd fmap option_fmap option_map then_].
  - change (-1 <? 0) with true. cbv iota. apply wp_bind. eapply wp_printf_any.
    + apply (fds_goes u); [done|]. by apply fds_meanwhile.
    + intros s2 Hu2. apply wp_ret. by apply HQ.
  - rewrite (proj2 (Z.ltb_ge child 0)), (proj2 (Z.eqb_neq child 0)) by lia.
    eapply wp_parent; [by apply fds_forked|]. intros s' Hu'. by apply HQ.
  - change (0 <? 0) with false. change (0 =? 0) with true. cbv iota. apply wp_child, Hno. by exists child.
Qed.

(** The command is [exit]. *)
Definition exits (argv : list (list Z)) : Prop :=
  strcmp (List.hd [] argv) (bytes "exit") = 0 ∧ length argv = 1%nat.

Lemma wp_run_command f h stack argv w u (Q : option unit → desk D → Prop) :
  fds_in u w → (exits argv ∨ (∃ c, fe = In_child c) → ∀ w', Q None w') →
  (∀ w', fds_in u w' → Q (Some tt) w') →
  wp (run_command f h stack argv) w Q.
Proof.
  intros Hu Hno HQ. unfold run_command.
  assert (∀ s w1, fds_in u w1 → wp (say s) w1 Q) as Hsay by (intros; by eapply wp_say).
  case_if; [by eapply wp_print_rows|]. clear Heqb. case_if.
  { case_if; [by apply Hsay|]. case_if; [by apply Hsay|]. apply wp_bind. eapply wp_cd_any; [done|].
    intros r w' Hu'. cbn [then_]. case_if; [by apply Hsay|apply wp_ret; by apply HQ]. }
  case_if.
  { apply wp_bind. eapply wp_pwd_any; [done|]. intros r w' Hu'. cbn [then_].
    case_if; [by apply Hsay|apply wp_ret; by apply HQ]. }
  destruct ((strcmp (List.hd [] argv) (bytes "exit") =? 0) && _) eqn:Ex.
  - eapply wp_exit_any; [done|]. apply Hno. left. unfold exits. lia.
  - apply wp_bind. eapply wp_external; [done| |].
    + intros Hc w'. cbn [then_]. by apply Hno; [right|..].
    + intros r w' Hu'. cbn [then_]. apply wp_ret. by apply HQ.
Qed.

(** ** The redirections *)

(** The file of the standard input is opened as descriptor 0 itself. *)
Lemma wp_redirect_in path w u (Q : option bool → desk D → Prop) :
  fds_in u w → u 0 = false →
  (∀ w', fds_in u w' → Q (Some false) w') →
  (∀ w', fds_in (with_bit u 0 true) w' → Q (Some true) w') →
  wp (redirect_in path) w Q.
Proof.
  intros Hu H0 Hno Hyes. apply wp_bind. eapply wp_open_any; [done| |].
  - intros w' Hu'. apply wp_bind. eapply wp_say; [done|]. intros w2 Hu2. apply wp_ret. by apply Hno.
  - intros fd w' Hfd Hfree Hlow Hu'. cbn [then_]. rewrite (proj2 (Z.ltb_ge fd 0)) by lia.
    destruct (Z.eqb_spec fd 0) as [->|Hne]; [apply wp_ret; by apply Hyes|].
    rewrite (Hlow 0) in H0 by lia. done.
Qed.

(** The file of the standard output is opened as the lowest free descriptor, and moved to
    descriptor 1. *)
Lemma wp_redirect_out path b w u (Q : option bool → desk D → Prop) :
  fds_in u w → u 0 = b → u 1 = false →
  (∀ w', fds_in u w' → Q (Some false) w') →
  (∀ w', fds_in (with_bit u 1 true) w' → Q (Some true) w') →
  wp (redirect_out path b) w Q.
Proof.
  intros Hu H0 H1 Hno Hyes. apply wp_bind. eapply wp_open_any; [done| |].
  - intros w' Hu'. apply wp_bind. eapply wp_say; [done|]. intros w2 Hu2. apply wp_ret. by apply Hno.
  - intros fd w' Hfd Hfree Hlow Hu'. cbn [then_]. rewrite (proj2 (Z.ltb_ge fd 0)) by lia.
    destruct (Z.eqb_spec fd 1) as [->|Hne]; [apply wp_ret; by apply Hyes|].
    assert (fd = 0) as ->.
    { destruct (decide (fd = 0)); [done|]. rewrite (Hlow 1) in H1 by lia. done. }
    apply wp_bind. eapply wp_dup2_any; [done|lia|lia|done|done|]. intros w2 Hu2. cbn [then_].
    apply wp_bind. eapply wp_close_any; [done|lia|]. intros r w3 Hu3. apply wp_ret, Hyes.
    eapply fds_in_ext; [|exact Hu3]. intros k. unfold with_bit.
    destruct (Z.eqb_spec k 0) as [->|]; [done|]. done.
Qed.

(** The output could not be redirected, after the input was. *)
Definition input_kept (u : Z → bool) (r : redirection) w : Prop :=
  is_Some (in_path r) ∧ is_Some (out_path r) ∧ fds_in (with_bit u 0 true) w.

Lemma wp_close_back k w u (Q : option unit → desk D → Prop) :
  0 ≤ k < 16 → fds_in (with_bit u k true) w → u k = false →
  (∀ w', fds_in u w' → Q (Some tt) w') → wp (let* _c := u_close k in Ret tt) w Q.
Proof.
  intros Hk Hu Hf HQ. apply wp_bind. eapply wp_close_any; [done..|]. intros r w' Hu'.
  apply wp_ret, HQ. eapply fds_in_ext; [|exact Hu']. by apply (with_bit_back u k false).
Qed.

Lemma wp_run_redirected f h stack r w u :
  fds_in u w → u 0 = false → u 1 = false →
  wp (run_redirected f h stack r) w
     (then_ (λ _ w', fds_in u w' ∨ input_kept u r w') (λ _, exits (exec_args r) ∨ ∃ c, fe = In_child c)).
Proof.
  intros Hu H0 H1. unfold run_redirected. apply wp_bind.
  destruct (in_path r) as [pin|] eqn:Ein.
  - eapply wp_redirect_in; [done..| |].
    + intros w' Hu'. cbn. apply wp_ret. by left.
    + intros w1 Hu1. cbn. apply wp_bind. destruct (out_path r) as [pout|] eqn:Eout.
      * apply (wp_redirect_out _ _ _ (with_bit u 0 true)); [done..| |].
        { intros w2 Hu2. apply wp_ret. right. unfold input_kept. rewrite Ein, Eout. by eauto. }
        intros w2 Hu2. cbn. apply wp_bind. eapply wp_run_command; [done..|].
        intros w3 Hu3. apply wp_bind. eapply wp_close_back; [|done..|]; [lia|].
        intros w4 Hu4. eapply wp_close_back; [|done..|]; [lia|]. intros w5 Hu5. by left.
      * apply wp_ret. cbn. apply wp_bind. eapply wp_run_command; [done..|].
        intros w3 Hu3. apply wp_bind, wp_ret.
        eapply wp_close_back; [|done..|]; [lia|]. intros w5 Hu5. by left.
  - apply wp_ret. cbn. apply wp_bind. destruct (out_path r) as [pout|] eqn:Eout.
    + apply (wp_redirect_out _ _ _ u); [done..| |].
      { intros w2 Hu2. apply wp_ret. by left. }
      intros w2 Hu2. cbn. apply wp_bind. eapply wp_run_command; [done..|].
      intros w3 Hu3. apply wp_bind. eapply wp_close_back; [|done..|]; [lia|].
      intros w4 Hu4. apply wp_ret. by left.
    + apply wp_ret. cbn. apply wp_bind. eapply wp_run_command; [done..|].
      intros w3 Hu3. apply wp_bind, wp_ret, wp_ret. by left.
Qed.

(** The words of a line, and their redirections. *)
Definition redirection_of (cmdline : list Z) : option redirection :=
  let '(line, raw) := split_args cmdline 8 in parse_redirection (args_of line raw).

End safe.
