(* ===== verification/ShellTests.v ===== *)
(** * Concrete runs of the shell's library *)
From Stdlib Require Import ZArith Lia ZifyBool String.
From stdpp Require Import base tactics list numbers option relations.
From S2P Require Import Prelude CString BlockDev NodeFs Vfs VfsSpec VfsTests Process UserProg UserFiles.
From S2P Require Import ShellUtils ShellUtilsSpec HistorySpec ShellEdit ShellEditSpec ShellSafe.
From ITree Require Import Core.ITreeDefinition.
#[local] Open Scope Z_scope.

Lemma parse_int_correct_witness :
  parse_int (Some (bytes "2147483647")) = Some 2147483647 ∧ parse_int (Some (bytes "12a")) = None.
Proof.
  split; [|by vm_compute].
  apply (proj2 (parse_int_correct (bytes "2147483647")) 2147483647); [|lia].
  split; [by repeat (constructor; [split; by vm_compute|])|by vm_compute|by split].
Defined.

(** A system just started, its shell at the console. *)
Definition boot_world : world ramdisk := World boot_vfs [] [] (bytes "/").

Definition two_lines : history := push_all [bytes "cat \\" ; bytes "ls"] no_history.

Lemma two_lines_ok : history_ok two_lines ∧ entries two_lines = [bytes "cat \\" ; bytes "ls"].
Proof. split; [apply (push_all_spec _ _ no_history_ok)|by vm_compute]. Qed.

Lemma boot_console : at_console 3 boot_world.
Proof. split_and!; [lia..| |]; by vm_compute. Qed.

Lemma boot_rewrite : can_rewrite 3 history_path (history_serialize two_lines FS_FILE_MAX_SIZE) boot_vfs.
Proof. vm_compute. split; discriminate. Qed.

Lemma good_two_lines : Forall good_line (entries two_lines).
Proof.
  rewrite (proj2 two_lines_ok). repeat constructor; try done; try (apply Nat.leb_le; reflexivity).
Qed.

Lemma history_survives_witness :
  @wp _ _ (world_kernel 3) (let* _u := history_write two_lines in history_load no_history) boot_world
    (λ o w', ∃ h', o = Some h' ∧ history_ok h' ∧ entries h' = fitting 512 (entries two_lines) ∧
      vfs_ok (files_in w') ∧ at_console 3 w' ∧ shown w' = [] ∧ typed w' = []).
Proof.
  exact (history_survives 3 two_lines no_history boot_world (proj1 two_lines_ok) good_two_lines
    no_history_ok boot_ok boot_console boot_rewrite).
Defined.

(** ** The editor *)

(** The word is completed, the line is edited, and one of the history comes up and goes
    away again. *)
Definition keys_typed : list key :=
  [KChar 99; KChar 97; KTab; KChar 120; KUp; KDown; KErase; KLeft; KOther; KChar 32; KRight; KChar 47].

Definition sent : list Z :=
  [99; 97; 9; 120; 27; 91; 65; 27; 91; 66; 8; 27; 91; 68; 27; 91; 51; 10; 32; 27; 91; 67; 47].

Lemma keys_typed_sent : sends_all keys_typed sent.
Proof.
  change sent with
    ([99] ++ [97] ++ [9] ++ [120] ++ [27; 91; 65] ++ [27; 91; 66] ++ [8] ++ [27; 91; 68] ++
     [27; 91; 51; 10] ++ [32] ++ [27; 91; 67] ++ [47] ++ []).
  unfold keys_typed.
  repeat (apply sends_more; [constructor; (done || lia || (by left) || (unfold is_byte; lia))|]).
  apply sends_none.
Qed.

Definition typing : world ramdisk := unread boot_world (sent ++ [13]).

Lemma editor_refines_witness :
  press_all (entries two_lines) keys_typed blank_sheet = Some (Sheet (bytes "ca t/") 5 (bytes "catx") None) ∧
  @wp _ _ (world_kernel 3) (read_line two_lines (bytes "/") (zeros 64) (zeros 64))
    typing (λ o w',
    files_in w' = files_in typing ∧ cwd_in w' = cwd_in typing ∧
    match press_all (entries two_lines) keys_typed blank_sheet with
    | Some a => typed w' = [] ∧ (length (chars a) ≤ 63)%nat ∧
        ∃ l, o = Some (Entered l) ∧ length l = 64%nat ∧ cstr l = chars a
    | None => o = Some Too_long
    end).
Proof.
  split; [by vm_compute|].
  apply (editor_refines 3 two_lines (bytes "/") keys_typed sent 13 [] (zeros 64) (zeros 64) typing);
    [exact (proj1 two_lines_ok)|exact (at_console_unread 3 boot_world _ boot_console)|reflexivity|reflexivity|exact keys_typed_sent
    |reflexivity|by left].
Defined.

(** ** The redirections *)

(** A file [/a] is there, and no descriptor is in use. *)
Definition with_file : world ramdisk :=
  with_files boot_world (fs_close 3 0 (fs_open 3 (Some (bytes "/a")) O_REWRITE boot_vfs).2).2.

(** The shell, about to start a program that becomes process 4, which closes its copy of
    descriptor 0 while the shell waits for it. *)
Definition shell_desk : desk ramdisk :=
  Desk 3 with_file [λ v, v; λ v, v; λ v, (fs_close 4 0 v).2] (In_parent 4) true.

Lemma with_file_fds : fds_in 3 (In_parent 4) (λ _, false) shell_desk.
Proof.
  assert (table_ok (files_in with_file)) as Ht by (vm_compute; split; [done|by repeat constructor]).
  assert (Forall (λ k, busy 3 (files_in with_file) k = false) (seqZ 0 16)) as Hb
    by (vm_compute; by repeat constructor).
  split; [|done| |done].
  - split; [exact Ht|]. intros k Hk. apply (proj1 (list.Forall_forall _ _) Hb), elem_of_seqZ. lia.
  - repeat (constructor; [intros v|]); [done..| |constructor]. apply rtc_once. exists 4. split; [lia|constructor].
Qed.

Definition line_external : list Z := bytes "cat < /a".


(** The program is run with its input from the file, and the shell is back with none of its
    descriptors in use, while the child has its copy until it closes it. *)
Example external_run :
  match @run _ desk_kernel unit 1000 (execute console_fds no_history (zeros 64) line_external) shell_desk with
  | Some (Some _, s') => fds_of (files_in (sees s')) 3 = fds_of (files_in with_file) 3 ∧ doings s' = []
  | _ => False
  end.
Proof. vm_compute. done. Qed.

Definition line_failing : list Z := bytes "pwd < /a > /nodir/x".

(** The exception does happen: descriptor 0 is in use at the next prompt. *)
Example leaked_stdin :
  match @run _ (world_kernel 3) unit 1000 (execute console_fds no_history (zeros 64) line_failing) with_file with
  | Some (Some _, w') => fd_used (fd_at (files_in w') 3 0) = 1
  | _ => False
  end.
Proof. vm_compute. reflexivity. Qed.
