(* ===== verification/Commands.v ===== *)
(** * The commands ([src/user/apps/])

    The programs that the shell runs, but the shell itself: each is the [main] of its
    directory, with [argv] as the list of its arguments.  [stack] stands for what the
    arrays of a call hold before they are written. *)
From Stdlib Require Import ZArith Lia ZifyBool String.
From stdpp Require Import base tactics list numbers option.
From S2P Require Import Prelude CString TimeFmt NodeFs Vfs Process UserMemory Syscall UserPath UserProg ShellUtils ShellEdit.
From ITree Require Import Core.ITreeDefinition.
#[local] Open Scope Z_scope.

(** [printf(...); return -1;] *)
Definition fails (s : string) : prog Z := let* _p := say s in Ret (-1).

Definition arg_at (argv : list (list Z)) (i : nat) : list Z := nth i argv [].

(** The path an argument leads to. *)
Definition with_target (stack path : list Z) (k : list Z → prog Z) : prog Z :=
  let* r := resolve_path path stack stack stack in
  if fst r <? 0 then fails "resolve path failed" else k (snd r).

(** ** Files *)

Definition cat_loop (fd : Z) : prog unit :=
  forever (λ _,
    let* r := u_read fd 63 in
    if fst r <=? 0 then Ret (inr tt)
    else
      let* _p := u_printf (bytes "%s") [AStr (take (Z.to_nat (fst r)) (snd r))] in
      Ret (inl tt)) tt.

Definition cat_main (stack : list Z) (argv : list (list Z)) : prog Z :=
  if negb (length argv =? 2)%nat then fails "usage: cat <path>"
  else with_target stack (arg_at argv 1) (λ target,
    let* fd := u_open target O_RDONLY in
    if fd <? 0 then fails "cat failed"
    else
      let* _l := cat_loop fd in
      let* _p := u_printf [10] [] in
      let* _c := u_close fd in
      Ret 0).

Definition write_main (stack : list Z) (argv : list (list Z)) : prog Z :=
  if negb (length argv =? 3)%nat then fails "usage: write <path> <text>"
  else with_target stack (arg_at argv 1) (λ target,
    let* fd := u_open target (Z.lor (Z.lor O_CREAT O_WRONLY) O_TRUNC) in
    if fd <? 0 then fails "open failed"
    else
      let n := str_len (arg_at argv 2) in
      let* w := u_write fd (arg_at argv 2) n in
      let* _c := u_close fd in
      if w <? 0 then fails "write failed" else Ret 0).

Definition touch_main (stack : list Z) (argv : list (list Z)) : prog Z :=
  if negb (length argv =? 2)%nat then fails "usage: touch <path>"
  else with_target stack (arg_at argv 1) (λ target,
    let* fd := u_open target (Z.lor O_CREAT O_WRONLY) in
    if fd <? 0 then fails "touch failed" else let* _c := u_close fd in Ret 0).

Definition rm_main (stack : list Z) (argv : list (list Z)) : prog Z :=
  if negb (length argv =? 2)%nat then fails "usage: rm <path>"
  else with_target stack (arg_at argv 1) (λ target,
    let* r := u_unlink target in if r <? 0 then fails "rm failed" else Ret 0).

Definition mkdir_main (stack : list Z) (argv : list (list Z)) : prog Z :=
  if negb (length argv =? 2)%nat then fails "usage: mkdir <path>"
  else with_target stack (arg_at argv 1) (λ target,
    let* r := u_mkdir target in if r <? 0 then fails "mkdir failed" else Ret 0).

Definition rmdir_main (stack : list Z) (argv : list (list Z)) : prog Z :=
  if negb (length argv =? 2)%nat then fails "usage: rmdir <path>"
  else with_target stack (arg_at argv 1) (λ target,
    let* r := u_rmdir target in if r <? 0 then fails "rmdir failed" else Ret 0).

(** ** [ls] *)

(** The options: [detail] and [all_print]. *)
Fixpoint parse_options (s : list Z) (o : bool * bool) : bool * bool :=
  match s with
  | [] => o
  | c :: s' =>
      if c =? 0 then o
      else parse_options s' (if c =? 108 then (true, snd o) else if c =? 97 then (fst o, true) else o)
  end.

Definition ls_options (argv : list (list Z)) : bool * bool :=
  if (length argv =? 2)%nat || (length argv =? 3)%nat then
    if ch (arg_at argv 1) 0 =? 45 then parse_options (tail (arg_at argv 1)) (false, false) else (false, false)
  else (false, false).

Definition ls_path (argv : list (list Z)) (detail all_print : bool) : list Z :=
  if (length argv =? 1)%nat then bytes "."
  else if (length argv =? 2)%nat then if detail || all_print then bytes "." else arg_at argv 1
  else arg_at argv 2.

(** The fields of the [struct fs_dirent] in its bytes. *)
Definition ent_name (b : list Z) : list Z := take (Z.to_nat FS_NAME_MAX) b.
Definition ent_type (b : list Z) : Z := word_of (drop (Z.to_nat FS_NAME_MAX) b).
Definition ent_size (b : list Z) : Z := word_of (drop (Z.to_nat FS_NAME_MAX + 4) b).

(** An entry in the long form, and in the short form as the entry [i]. *)
Definition long_entry (ent : list Z) : prog unit :=
  let* _p := u_printf ([37; 115; 9; 37; 100; 9])
    [AStr (if ent_type ent =? FS_TYPE_DIR then bytes "d" else bytes "f"); AInt (i32 (ent_size ent))] in
  if ent_type ent =? FS_TYPE_DIR then u_printf (bytes "%s/" ++ [10]) [AStr (ent_name ent)]
  else u_printf (bytes "%s" ++ [10]) [AStr (ent_name ent)].

Definition short_entry (i : Z) (ent : list Z) : prog unit :=
  let* _p := if ent_type ent =? FS_TYPE_DIR then u_printf (bytes "%s/" ++ [9]) [AStr (ent_name ent)]
             else u_printf (bytes "%s" ++ [9]) [AStr (ent_name ent)] in
  if negb (i =? 0) && (Z.rem i 10 =? 0) then u_printf [10] [] else Ret tt.

(** [for (;; i++)] over the entries that are shown; its result is the last [i]. *)
Definition ls_loop (path : list Z) (all_print : bool) (entry : Z → list Z → prog unit) : prog Z :=
  forever (λ i,
    let* r := u_readdir path i in
    if fst r <? 0 then Ret (inr i)
    else if negb all_print && (ch (snd r) 0 =? 46) then Ret (inl (i32 (i + 1)))
    else let* _p := entry i (snd r) in Ret (inl (i32 (i + 1)))) 0.

Definition ls_main (stack : list Z) (argv : list (list Z)) : prog Z :=
  let '(detail, all_print) := ls_options argv in
  with_target stack (ls_path argv detail all_print) (λ path,
    let* _l :=
      if detail : bool then
        let* _h := u_printf (bytes "TYPE" ++ [9] ++ bytes "SIZE" ++ [9] ++ bytes "NAME" ++ [10]) [] in
        let* _i := ls_loop path all_print (λ _, long_entry) in
        Ret tt
      else
        let* i := ls_loop path all_print short_entry in
        if i <? 10 then u_printf [10] [] else Ret tt in
    Ret 0).

(** ** Processes *)

Definition proc_state_to_string (state : Z) : list Z :=
  if state =? PROC_RUNNABLE then bytes "RUN"
  else if state =? PROC_WAITTING then bytes "WAIT"
  else if state =? PROC_EXITED then bytes "EXIT"
  else bytes "UNUSED".

Definition proc_wait_reason_to_string (wait_reason : Z) : list Z :=
  if wait_reason =? PROC_WAIT_CHILD_EXIT then bytes "CHILD_EXIT"
  else if wait_reason =? PROC_WAIT_CONSOLE_INPUT then bytes "CONSOLE_INPUT"
  else if wait_reason =? PROC_WAIT_IPC_RECV then bytes "IPC_RECV"
  else if wait_reason =? PROC_WAIT_NONE then []
  else bytes "UNKNOWN".

(** An [int] at an offset of a structure. *)
Definition int_at (b : list Z) (off : nat) : Z := i32 (word_of (drop off b)).

Definition ps_main (argv : list (list Z)) : prog Z :=
  let tab := [9] in
  let* _h := u_printf (bytes "PID" ++ tab ++ bytes "PPID" ++ tab ++ bytes "APP" ++ tab ++ bytes "STATE" ++ tab
                       ++ bytes "REASON" ++ [10]) [] in
  let* _l := forever (λ i,
    let* r := ps i in
    let info := snd r in
    if i32 (fst r) <? 0 then Ret (inr tt)
    else if int_at info 8 =? PROC_UNUSED then Ret (inl (i32 (i + 1)))
    else
      let* _p := u_printf ([37; 100; 9; 37; 100; 9; 37; 115; 9; 37; 115; 9; 37; 115; 10])
        [AInt (int_at info 0); AInt (int_at info 4); AStr (drop 16 info);
         AStr (proc_state_to_string (int_at info 8)); AStr (proc_wait_reason_to_string (int_at info 12))] in
      Ret (inl (i32 (i + 1)))) 1 in
  Ret 0.

(** [parse_int_local] of [kill] and of [ipc_rx] is [parse_int] of the shell. *)
Definition parse_int_local (s : list Z) : option Z := parse_int (Some s).

Definition kill_main (argv : list (list Z)) : prog Z :=
  if negb (length argv =? 2)%nat then fails "target pid is required. kill <pid>"
  else
    match parse_int_local (arg_at argv 1) with
    | None => fails "invalid pid specified"
    | Some target_pid =>
        let* ret := kill target_pid in
        if ret <? 0 then
          let* _p := u_printf (bytes "pid: %d kill failed. ") [AInt target_pid] in
          let reason := i32 (-1 * ret) in
          if reason =? 1 then fails "invalid pid specified"
          else if reason =? 2 then fails "process not exist"
          else if reason =? 3 then fails "cannot kill init process"
          else fails "unknown error"
        else
          let* _p := u_printf (bytes "pid: %d killed" ++ [10]) [AInt target_pid] in
          Ret 0
    end.

Definition ipc_run_receiver : prog Z :=
  let* _p := say "ipc_rx started" in
  forever (λ _ : unit,
    let* r := ipc_recv in
    if fst r <? 0 then let* _f := say "ipc_rx: recv failed" in Ret (inl tt)
    else
      let* _m := u_printf (bytes "ipc_rx: from=%d msg=%d" ++ [10]) [AInt (int_at (snd r) 0); AInt (fst r)] in
      Ret (inl tt)) tt.

Definition ipc_run_sender (pid_s msg_s : list Z) : prog Z :=
  match parse_int_local pid_s, parse_int_local msg_s with
  | Some pid, Some msg =>
      let* ret := ipc_send pid msg in
      if ret =? -2 then fails "ipc_send failed: receiver mailbox full"
      else if ret <? 0 then fails "ipc_send failed"
      else Ret 0
  | _, _ => fails "usage: ipc_rx sender <pid> <msg>"
  end.

Definition ipc_rx_main (argv : list (list Z)) : prog Z :=
  if (length argv =? 1)%nat then ipc_run_receiver
  else if strcmp (arg_at argv 1) (bytes "receiver") =? 0 then
    if negb (length argv =? 2)%nat then fails "usage: ipc_rx receiver" else ipc_run_receiver
  else if strcmp (arg_at argv 1) (bytes "sender") =? 0 then
    if negb (length argv =? 4)%nat then fails "usage: ipc_rx sender <pid> <msg>"
    else ipc_run_sender (arg_at argv 2) (arg_at argv 3)
  else fails "usage: ipc_rx receiver | ipc_rx sender <pid> <msg>".

(** ** The system *)

Definition date_main (stack : list Z) (argv : list (list Z)) : prog Z :=
  let* r := u_gettime in
  if fst r <? 0 then Ret (-1)
  else
    let sec := Z.lor (u64 (Z.shiftl (word_of (drop 4 (snd r))) 32)) (word_of (snd r)) in
    match unix_time_to_utc_str sec (take 40 stack) 40 with
    | Some (_, ts) => let* _p := u_printf (bytes "%s" ++ [10]) [AStr ts] in Ret 0
    | None => Ret (-1)
    end.

Definition bitmap_main (argv : list (list Z)) : prog Z :=
  let* c := forever (λ '(i, total, used),
    let* bit := bitmap i in
    if bit <? 0 then Ret (inr (total, used))
    else Ret (inl (i32 (i + 1), i32 (total + 1), if bit =? 1 then i32 (used + 1) else used))) (0, 0, 0) in
  let '(total, used) := c in
  let* _p := u_printf (bytes "bitmap: total=%d/used=%d/free=%d" ++ [10])
    [AInt total; AInt used; AInt (i32 (total - used))] in
  Ret 0.

(** A line of [kernel_info]: the format and the offset of the field. *)
Definition info_line (info : list Z) (fmt : string) (off : nat) : prog unit :=
  u_printf (bytes fmt ++ [10]) [AInt (int_at info off)].

Definition kernel_info_main (argv : list (list Z)) : prog Z :=
  let* r := kernel_info in
  let info := snd r in
  if fst r <? 0 then fails "kernel_info failed"
  else
    let v := Z.to_nat KERNEL_VERSION_MAX in
    let f := (v + 40)%nat in
    let* _1 := u_printf (bytes "version       : %s" ++ [10]) [AStr info] in
    let* _2 := u_printf (bytes "kernel time   : %s" ++ [10]) [AStr (drop v info)] in
    let* _3 := info_line info "total pages   : %d" f in
    let* _4 := info_line info "page size     : %d bytes" (f + 4) in
    let* _5 := info_line info "kernel base   : 0x%x" (f + 8) in
    let* _6 := info_line info "user base     : 0x%x" (f + 12) in
    let* _7 := info_line info "proc max      : %d" (f + 16) in
    let* _8 := info_line info "kernel stack  : %d bytes/proc" (f + 20) in
    let* _9 := info_line info "time slice    : %d ticks" (f + 24) in
    let* _10 := info_line info "timer interval: %d ms" (f + 28) in
    let* _11 := info_line info "ramfs node max: %d" (f + 32) in
    let* _12 := info_line info "ramfs size max: %d bytes" (f + 36) in
    let* _13 := info_line info "pfs blk count : %d" (f + 44) in
    let* _14 := info_line info "pfs blk size  : %d bytes" (f + 40) in
    let* _15 := info_line info "pfs img blks  : %d" (f + 48) in
    let* _16 := info_line info "pfs img bytes : %d" (f + 52) in
    Ret 0.
