(* ===== verification/CommandsSpec.v ===== *)
(** * The commands do what they are for

    The commands on files above the files of the kernel. *)
From Stdlib Require Import ZArith Lia ZifyBool String.
From stdpp Require Import base tactics list numbers option.
From S2P Require Import Prelude CString BlockDev NodeFs NodeFsSpec NodeFsUpdate NodeFsOps NodeFsDisk.
From S2P Require Import Vfs VfsSpec Process UserMemory Syscall UserPath UserProg UserFiles.
From S2P Require Import ShellUtils HistorySpec ShellEdit Commands.
From ITree Require Import Core.ITreeDefinition.
#[local] Open Scope Z_scope.

Section commands.
Context {D : Type} `{BlockDev D}.
Context (pid : Z).
#[local] Existing Instance world_kernel.
#[local] Instance commands_kernel : Kernel (world D) := world_kernel pid.
Implicit Types w : world D.
Implicit Types v : vfs D.

(** ** The file an argument leads to *)

(** The reference normalisation of [UserPath.v], below the working directory. *)
Definition leads_to w (path : list Z) : list Z :=
  match absolute_path path (Some (take 63 (cstr (cwd_in w)))) with
  | Some p => render (resolved p)
  | None => []
  end.

Lemma leads_to_bytes w path :
  Forall is_byte path → Forall is_byte (cwd_in w) → Forall is_byte (leads_to w path).
Proof.
  intros Hp Hc. assert (∀ l n, Forall is_byte l → Forall is_byte (take n (cstr l))) as Ht.
  { intros l n Hl. apply Forall_take. rewrite <-cstr_prefix. by apply Forall_take. }
  assert (∀ p, Forall is_byte p → Forall is_byte (render (resolved p))) as Hr.
  { intros p Hb. assert (Forall (Forall is_byte) (resolved p)) as Hn.
    { unfold resolved, normalize.
      assert (∀ names acc, Forall (Forall is_byte) names → Forall (Forall is_byte) acc →
        Forall (Forall is_byte) (fold_left visit (map (take 15) names) acc)) as Hf.
      { induction names as [|n names IH]; intros acc Hn Ha; [done|].
        apply Forall_cons_iff in Hn as [Hn Hns]. simpl. apply IH; [done|]. unfold visit.
        repeat case_decide; [done| |].
        - destruct acc as [|m acc _] using rev_ind; [done|]. rewrite removelast_last.
          by apply Forall_app in Ha as [? _].
        - apply Forall_app. split; [done|]. constructor; [by apply Forall_take|constructor]. }
      apply Hf; [by apply path_names_bytes|constructor]. }
    destruct (resolved p) as [|n ns]; [by repeat constructor|]. unfold render.
    clear -Hn. induction Hn as [|m ms Hm _ IH]; [constructor|]. simpl.
    constructor; [done|]. by apply Forall_app. }
  unfold leads_to, absolute_path. case_if; [by apply Hr, Ht|]. cbn [mbind option_bind]. apply Hr.
  apply Forall_take, Forall_app. split; [rewrite <-cstr_prefix; apply Forall_take; by apply Ht|].
  apply Forall_app. split; [by case_decide; repeat constructor|].
  rewrite <-cstr_prefix. by apply Forall_take.
Qed.

Lemma leads_to_no_nul w path : no_nul (leads_to w path).
Proof.
  unfold leads_to. destruct (absolute_path _ _) as [p|]; [|constructor].
  apply clean_no_nul, canonical_clean, resolved_canonical.
Qed.

Lemma wp_resolve_path path stack w (Q : option (Z * list Z) → world D → Prop) :
  length stack = 64%nat → ch (cwd_in w) 0 = 47 →
  (∀ out, cstr out = leads_to w path → Q (Some (0, out)) w) →
  wp (resolve_path path stack stack stack) w Q.
Proof.
  intros Hs Hc HQ.
  assert (∀ cwd p, (∀ d, cwd = Some d → ch d 0 = 47) → absolute_path path cwd = Some p →
    render (resolved p) = leads_to w path →
    wp (Ret (user_path_resolve (Some path) cwd stack stack stack 64)) w Q) as Hgo.
  { intros cwd p Hd Hp Hl.
    destruct (user_path_resolve_run path cwd stack stack stack 64 p Hs Hs ltac:(lia) Hd Hp) as (out&->&_&_&Ho&H63).
    apply wp_ret, HQ. rewrite Ho, <-Hl. change (Z.to_nat (64 - 1)) with 63%nat. by apply take_ge. }
  unfold resolve_path. destruct (Z.eqb_spec (ch path 0) 47) as [Hp|Hp].
  - apply (Hgo None (take 63 (cstr path))); [done| |].
    + unfold absolute_path. by rewrite Hp.
    + unfold leads_to, absolute_path. by rewrite Hp.
  - apply wp_bind, wp_syscall. cbn -[take]. destruct (absolute_path path (Some (take 63 (cstr (cwd_in w))))) as [p|] eqn:E.
    + apply (Hgo _ p).
      * intros d [= <-]. destruct (cwd_in w) as [|c l]; [done|]. unfold ch in Hc. simpl in Hc. subst c. done.
      * rewrite <-E. unfold absolute_path. rewrite (proj2 (Z.eqb_neq _ _)) by done. cbn [mbind option_bind].
        rewrite cstr_app_nul by (apply Forall_take, cstr_no_nul).
        rewrite (cstr_id (take 63 _)) by (apply Forall_take, cstr_no_nul). done.
      * unfold leads_to. by rewrite E.
    + unfold absolute_path in E. by rewrite (proj2 (Z.eqb_neq _ _)) in E by done.
Qed.

Lemma wp_with_target stack path k w (Q : option Z → world D → Prop) :
  length stack = 64%nat → ch (cwd_in w) 0 = 47 →
  (∀ out, cstr out = leads_to w path → wp (k out) w Q) → wp (with_target stack path k) w Q.
Proof.
  intros Hs Hc HQ. apply wp_bind, wp_resolve_path; [done..|]. intros out Ho. cbn [then_ fst snd Z.ltb Z.compare].
  by apply HQ.
Qed.

(** ** [write] and [cat] *)

Lemma wp_cat_loop fd c off w (Q : option unit → world D → Prop) :
  vfs_ok (files_in w) → prints pid w → 0 ≤ fd < 16 → no_nul c →
  0 ≤ off ≤ Z.of_nat (length c) → Z.of_nat (length c) ≤ 512 →
  reading pid (files_in w) fd c off → fd ≠ 1 →
  (∀ v', only_fd pid fd (files_in w) v' → fd_used (fd_at v' pid fd) ≠ 0 →
     Q (Some tt) (show (with_files w v') (drop (Z.to_nat off) c))) →
  wp (cat_loop fd) w Q.
Proof.
  intros Hok Hcon Hfd Hnn Ho Hc. remember (length c - Z.to_nat off)%nat as n eqn:Hn.
  revert off w Hok Hcon Ho Hn. induction (lt_wf n) as [n _ IH]. intros off w Hok Hcon Ho -> Hr Hne HQ.
  pose proof Hcon as (Hp&_).
  apply wp_forever, wp_bind. eapply wp_u_read; [done..|lia|lia|]. intros v' b Hof Hr'. cbn [then_ fst snd].
  assert (b = take 63 (drop (Z.to_nat off) c)) as Hb by done.
  assert (length b = Nat.min 63 (length c - Z.to_nat off)) as Hbl
    by (by rewrite Hb, length_take, length_drop).
  assert (prints pid (with_files w v')) as Hcon'.
  { destruct Hcon as (_&H1), Hof as (_&_&_&Hk). split; [done|]. cbn. by rewrite Hk by lia. }
  destruct (Z.leb_spec (Z.of_nat (length b)) 0) as [H0|H0].
  - apply wp_ret. cbn [then_]. specialize (HQ v' Hof (reading_used _ _ _ _ _ Hr')).
    rewrite drop_ge, show_nil in HQ by lia. exact HQ.
  - apply wp_bind, (prints_printf pid); [done|]. cbn [then_]. rewrite Nat2Z.id, (take_ge b) by lia.
    assert (no_nul b) as Hnb by (rewrite Hb; apply Forall_take, Forall_drop, Hnn).
    change (printf (bytes "%s") [AStr b]) with (Some (cstr b ++ [])). rewrite app_nil_r, cstr_id by done.
    apply wp_ret. cbn [then_ default from_option id].
    apply (IH (length c - Z.to_nat (off + Z.of_nat (length b)))%nat ltac:(lia) (off + Z.of_nat (length b)));
      [apply Hof|done|lia|done|exact Hr'|done|].
    intros v'' Hof' Hu. cbn [files_in with_files show] in *.
    assert (show (with_files (show (with_files w v') b) v'') (drop (Z.to_nat (off + Z.of_nat (length b))) c)
            = show (with_files w v'') (drop (Z.to_nat off) c)) as ->.
    { unfold show, with_files. cbn [files_in typed shown cwd_in]. f_equal. rewrite <-app_assoc. f_equal.
      rewrite <-(take_drop 63 (drop (Z.to_nat off) c)) at 1. rewrite <-Hb. f_equal.
      rewrite drop_drop. destruct (Nat.le_gt_cases (length c - Z.to_nat off) 63).
      - by rewrite !drop_ge by lia.
      - f_equal. lia. }
    apply HQ; [by eapply only_fd_trans|done].
Qed.

Lemma wp_cat_main stack path c w (Q : option Z → world D → Prop) :
  length stack = 64%nat → ch (cwd_in w) 0 = 47 → Forall is_byte path → Forall is_byte (cwd_in w) →
  vfs_ok (files_in w) → at_console pid w → file_at (files_in w) (leads_to w path) c → no_nul c →
  Z.of_nat (length c) ≤ 512 →
  (∀ v', only_fd pid 0 (files_in w) v' → fd_used (fd_at v' pid 0) = 0 →
     Q (Some 0) (show (with_files w v') (c ++ [10]))) →
  wp (cat_main stack [bytes "cat"; path]) w Q.
Proof.
  intros Hs Hc Hpb Hcb Hok Hcon Hf Hnn Hlen HQ. pose proof Hcon as (Hp&H0&H1).
  apply wp_with_target; [done..|]. intros out Ho. cbn [arg_at nth] in Ho.
  apply wp_bind, wp_u_open. rewrite Ho.
  destruct (fs_open_read pid (files_in w) (leads_to w path) c 0) as (fd&v1&->&Hfd&Hle&Hfree&Hr&Ho1);
    [done|done|by apply leads_to_bytes|done|lia|done|].
  assert (fd = 0) as -> by lia. cbn [then_ fst snd Z.ltb Z.compare].
  assert (prints pid (with_files w v1)) as Hcon1.
  { destruct Ho1 as (_&_&_&Hk). split; [done|]. cbn. by rewrite Hk by lia. }
  apply wp_bind. eapply (wp_cat_loop 0 c 0); [apply Ho1|done|lia|done|lia|done|exact Hr|done|].
  intros v2 Ho2 Hu2. cbn [then_]. rewrite drop_0.
  apply wp_bind, (prints_printf pid).
  { destruct Ho2 as (_&_&_&Hk). split; [done|]. cbn. cbn in Hk. rewrite Hk by lia. apply Hcon1. }
  cbn [then_]. change (printf [10] []) with (Some [10]). cbn [default from_option id].
  apply wp_bind, wp_u_close; [apply Ho2|done|lia|done|]. intros v3 Ho3 Hu3. cbn [then_]. apply wp_ret.
  cbn [files_in with_files show] in *. specialize (HQ v3). unfold show, with_files in *. cbn in *.
  rewrite <-app_assoc. apply HQ; [by eapply only_fd_trans, only_fd_trans|done].
Qed.

Lemma wp_write_main stack path text w (Q : option Z → world D → Prop) :
  length stack = 64%nat → ch (cwd_in w) 0 = 47 → Forall is_byte path → Forall is_byte (cwd_in w) →
  vfs_ok (files_in w) → at_console pid w → Forall is_byte text → no_nul text → Z.of_nat (length text) ≤ 512 →
  can_rewrite pid (leads_to w path) text (files_in w) →
  (∀ v', vfs_ok v' → file_at v' (leads_to w path) text → at_console pid (with_files w v') →
     Q (Some 0) (with_files w v')) →
  wp (write_main stack [bytes "write"; path; text]) w Q.
Proof.
  intros Hs Hc Hpb Hcb Hok Hcon Hb Hnn Hlen Hcan HQ. destruct Hcon as (Hp&H0&H1).
  apply wp_with_target; [done..|]. intros out Ho. cbn [arg_at nth] in *.
  apply wp_bind, wp_u_open. rewrite Ho. change (Z.lor (Z.lor O_CREAT O_WRONLY) O_TRUNC) with O_REWRITE.
  unfold can_rewrite in Hcan. destruct (fs_open _ _ _ _) as [fd v1] eqn:Eo. cbn [then_ fst snd].
  destruct Hcan as [Hfd Hn]. rewrite (proj2 (Z.ltb_ge _ _)) by done. cbv zeta.
  unfold str_len. rewrite cstr_id by done.
  destruct (fs_write pid fd (Some text) (Z.of_nat (length text)) v1) as [[n out'] v2] eqn:Ew.
  destruct (fs_rewrite pid (files_in w) (leads_to w path) fd v1 text n out' v2) as
    (->&->&Hr&Hok2&Hfile&Hfree&Hused&Hsame); try done; [by apply leads_to_bytes|].
  apply wp_bind. eapply wp_u_write; [lia|exact Ew|]. cbn [then_].
  apply wp_bind, wp_u_close; [done..|]. intros v3 Ho3 Hu3. cbn [then_].
  rewrite (proj2 (Z.ltb_ge _ _)) by lia. apply wp_ret.
  apply HQ; [apply Ho3|by eapply file_at_only|].
  destruct Ho3 as (_&_&_&Hk). cbn [files_in with_files] in Hk. split_and!; [lia..| |]; cbn.
  - destruct (decide (fd = 0)) as [->|]; [done|]. by rewrite Hk, Hsame by lia.
  - destruct (decide (fd = 1)) as [->|]; [done|]. by rewrite Hk, Hsame by lia.
Qed.

(** C24. What [write] writes [cat] shows: with any path, relative to the working directory or
    not, and a text of at most 512 characters, the one program writes the file, the other
    prints its contents and a newline, through the system calls and the files of the
    kernel.  Both return 0, the file is there, and the process is at the console again. *)
Theorem write_then_cat stack path text w :
  length stack = 64%nat → ch (cwd_in w) 0 = 47 → Forall is_byte path → Forall is_byte (cwd_in w) →
  vfs_ok (files_in w) → at_console pid w → Forall is_byte text → no_nul text → Z.of_nat (length text) ≤ 512 →
  can_rewrite pid (leads_to w path) text (files_in w) →
  wp (let* written := write_main stack [bytes "write"; path; text] in
      let* shown := cat_main stack [bytes "cat"; path] in Ret (written, shown)) w
    (λ o w', o = Some (0, 0) ∧ shown w' = shown w ++ text ++ [10] ∧ vfs_ok (files_in w') ∧
       file_at (files_in w') (leads_to w path) text ∧ at_console pid w').
Proof.
  intros Hs Hc Hpb Hcb Hok Hcon Hb Hnn Hlen Hcan.
  apply wp_bind, wp_write_main; [done..|]. intros v1 Hok1 Hf1 Hcon1. cbn [then_].
  apply wp_bind, (wp_cat_main stack path text); [done..|]. intros v2 Ho2 Hu2. cbn [then_]. apply wp_ret.
  split_and!; [done|done|apply Ho2|by eapply file_at_only|].
  by eapply (at_console_closed pid 0 (with_files w v1) v2).
Qed.
End commands.
