(* ===== verification/LsSpec.v ===== *)
(** * [ls] lists directories *)
From Stdlib Require Import ZArith Lia ZifyBool String.
From stdpp Require Import base tactics list numbers option.
From S2P Require Import Prelude CString BlockDev NodeFs NodeFsSpec NodeFsUpdate NodeFsOps NodeFsDisk.
From S2P Require Import Vfs VfsSpec Process UserMemory Syscall UserPath UserProg UserFiles.
From S2P Require Import ShellUtils ShellEdit Commands CommandsSpec.
From ITree Require Import Core.ITreeDefinition.
#[local] Open Scope Z_scope.

(** ** Directories *)

(** The entries of a directory, in the order of the node array. *)
Definition dir_listing (fs : nodefs) (path : list Z) : list fs_dirent :=
  match nodefs_resolve_path fs path with
  | Some i =>
      if ntype (node_at fs i) =? FS_TYPE_DIR then map dirent_of (NodeFsOps.listing (nodes fs) (Z.of_nat i)) else []
  | None => []
  end.

Lemma readdir_listing fs path index :
  0 ≤ index → nodefs_readdir path index fs = dir_listing fs path !! Z.to_nat index.
Proof.
  intros Hi. unfold nodefs_readdir, dir_listing. rewrite (proj2 (Z.ltb_ge _ _)) by lia.
  destruct (nodefs_resolve_path fs path) as [i|]; [|done].
  destruct (Z.eqb_spec (ntype (node_at fs i)) FS_TYPE_DIR); cbn [negb]; [|done].
  rewrite readdir_loop_spec, Z.sub_0_r by lia. symmetry. apply list_lookup_fmap.
Qed.

(** An entry as its structure holds it. *)
Definition entry_ok (d : fs_dirent) : Prop :=
  length (d_name d) = 16%nat ∧ (d_type d = FS_TYPE_FILE ∨ d_type d = FS_TYPE_DIR) ∧ 0 ≤ d_size d ≤ 512.

Lemma dir_listing_ok fs path :
  nodefs_ok fs → Forall entry_ok (dir_listing fs path) ∧ (length (dir_listing fs path) ≤ 128)%nat.
Proof.
  intros Hok. unfold dir_listing. destruct (nodefs_resolve_path fs path) as [i|]; [|by split; [|simpl; lia]].
  case_if; [|by split; [|simpl; lia]]. split.
  - apply List.Forall_forall. intros d Hd. apply in_map_iff in Hd as (n&<-&Hn).
    apply list_elem_of_In in Hn. destruct (listing_child fs i n Hok Hn) as (k&_&_&[Ht (_&Hl&_) Hs _]).
    split; [|split; [exact Ht|exact Hs]].
    destruct (copy_name_spec (zeros 16) (name n)) as (nm&E&_&Hlen&_); [done..|].
    unfold dirent_of. cbn [d_name]. by rewrite E.
  - rewrite length_map. unfold NodeFsOps.listing. etransitivity; [apply filter_length_le|].
    rewrite (fok_len fs Hok). by apply Nat.leb_le.
Qed.

(** The entries that a path stands for in the files. *)
Section ls.
Context {D : Type} `{BlockDev D}.
Context (pid : Z).
#[local] Existing Instance world_kernel.
#[local] Instance ls_kernel : Kernel (world D) := world_kernel pid.
Implicit Types w : world D.
Implicit Types v : vfs D.

Definition path_listing v (path : list Z) : list fs_dirent :=
  match vfs_resolve_mount (mounts v) (Some path) with
  | Some (m, sub) => dir_listing (get_fs v (mount_ctx v m)) sub
  | None => []
  end.

Lemma fs_readdir_listing v path index :
  0 ≤ index →
  fs_readdir (Some path) index true v =
  match path_listing v path !! Z.to_nat index with Some d => (0, Some d) | None => (-1, None) end.
Proof.
  intros Hi. unfold fs_readdir, path_listing. rewrite (proj2 (Z.ltb_ge _ _)) by lia. cbn [negb orb].
  destruct (vfs_resolve_mount _ _) as [[m sub]|]; [|done].
  rewrite readdir_listing by done. by destruct (dir_listing _ _ !! _).
Qed.

Lemma path_listing_ok v path :
  vfs_ok v → Forall entry_ok (path_listing v path) ∧ (length (path_listing v path) ≤ 128)%nat.
Proof.
  intros Hok. unfold path_listing. destruct (vfs_resolve_mount _ _) as [[m sub]|]; [|by split; [|simpl; lia]].
  apply dir_listing_ok, Hok.
Qed.

(** These are all the entries of the directory, each name once, with their types and
    sizes; none where the path names no directory. *)
Definition lists v (path : list Z) (es : list fs_dirent) : Prop :=
  match vfs_resolve_mount (mounts v) (Some path) with
  | Some (m, sub) =>
      let fs := get_fs v (mount_ctx v m) in
      match lookup_path fs sub with
      | Some EDir =>
          NoDup (map (λ de, cstr (d_name de)) es) ∧
          (∀ c, view fs (path_names sub ++ [c]) ≠ None ↔ cstr c ∈ map (λ de, cstr (d_name de)) es) ∧
          ∀ de, de ∈ es → describes de (view fs (path_names sub ++ [cstr (d_name de)]))
      | _ => es = []
      end
  | None => es = []
  end.

Lemma path_listing_lists v path : vfs_ok v → lists v path (path_listing v path).
Proof.
  intros Hok. unfold lists, path_listing. destruct (vfs_resolve_mount _ _) as [[m sub]|]; [|done].
  destruct (vok_fs v Hok (mount_ctx v m)) as [Hfs _].
  destruct (nodefs_readdir_spec (get_fs v (mount_ctx v m)) sub Hfs) as (es&Hes&Hd).
  assert (dir_listing (get_fs v (mount_ctx v m)) sub = es) as ->; [|done].
  apply list_eq. intros i. rewrite <-(Nat2Z.id i), <-readdir_listing, Hes by lia.
  by rewrite (proj2 (Z.ltb_ge _ _)) by lia.
Qed.

(** ** The bytes of an entry *)

Lemma word_of_le32 z r : word_of (le32 z ++ r) = u32 z.
Proof.
  unfold word_of, le32, u8, u32. simpl. rewrite !Z.shiftr_div_pow2 by lia.
  change 4294967296 with (256 * (256 * (256 * 256))). change (2 ^ 8) with 256.
  change (2 ^ 16) with (256 * 256). change (2 ^ 24) with (256 * (256 * 256)).
  rewrite !Z.rem_mul_r by lia. rewrite <-!Z.div_div by lia. ring.
Qed.

Lemma ent_fields d :
  entry_ok d → ent_name (dirent_bytes d) = d_name d ∧ ent_type (dirent_bytes d) = d_type d ∧
  ent_size (dirent_bytes d) = d_size d ∧ ch (dirent_bytes d) 0 = ch (d_name d) 0.
Proof.
  intros (Hl&Ht&Hs). unfold ent_name, ent_type, ent_size, dirent_bytes.
  change (Z.to_nat FS_NAME_MAX) with 16%nat. split_and!.
  - by rewrite take_app_length' by done.
  - rewrite drop_app_length' by done. rewrite word_of_le32. apply u32_small.
    unfold FS_TYPE_FILE, FS_TYPE_DIR in Ht. lia.
  - rewrite <-drop_drop, drop_app_length' by done. rewrite drop_app_length' by done.
    rewrite <-(app_nil_r (le32 (d_size d))), word_of_le32. apply u32_small. lia.
  - unfold ch. by rewrite app_nth1 by lia.
Qed.
(** ** What is printed *)

Definition name_text (d : fs_dirent) : list Z :=
  cstr (d_name d) ++ (if d_type d =? FS_TYPE_DIR then [47] else []).

Definition short_text (i : Z) (d : fs_dirent) : list Z :=
  name_text d ++ [9] ++ (if negb (i =? 0) && (Z.rem i 10 =? 0) then [10] else []).

Definition decimal_text (z : Z) : list Z := default [] (print_decimal z).

Definition long_text (i : Z) (d : fs_dirent) : list Z :=
  (if d_type d =? FS_TYPE_DIR then bytes "d" else bytes "f") ++ [9] ++ decimal_text (d_size d) ++ [9] ++
  name_text d ++ [10].

(** The entries from the one of index [i] on; those whose name starts with a dot only when
    all are asked for. *)
Fixpoint entries_text (all_print : bool) (text : Z → fs_dirent → list Z) (i : Z) (es : list fs_dirent) : list Z :=
  match es with
  | [] => []
  | d :: es' =>
      (if negb all_print && (ch (d_name d) 0 =? 46) then [] else text i d) ++
      entries_text all_print text (i + 1) es'
  end.

Definition ls_text (detail all_print : bool) (es : list fs_dirent) : list Z :=
  if detail then bytes "TYPE" ++ [9] ++ bytes "SIZE" ++ [9] ++ bytes "NAME" ++ [10] ++
                 entries_text all_print long_text 0 es
  else entries_text all_print short_text 0 es ++ (if (length es <? 10)%nat then [10] else []).

Lemma decimal_text_spec z : 0 ≤ z < 2147483648 → print_decimal z = Some (decimal_text z).
Proof.
  intros Hz. unfold decimal_text, print_decimal. rewrite (proj2 (Z.ltb_ge _ _)), u32_small by lia.
  destruct (print_magnitude z) as (ds&Hd&_); [lia|].
  destruct (top_divisor _ _ _) as [d|]; [|done]. by rewrite Hd.
Qed.

Lemma prints_show w l : prints pid w → prints pid (show w l).
Proof. done. Qed.

Lemma wp_short i d w (Q : option unit → world D → Prop) :
  entry_ok d → prints pid w → Q (Some tt) (show w (short_text i d)) → wp (short_entry i (dirent_bytes d)) w Q.
Proof.
  intros Hd Hp HQ. destruct (ent_fields d Hd) as (Hn&Ht&_&_). unfold short_entry. rewrite Hn, Ht.
  assert (∀ l, show w l = show w (name_text d ++ [9]) →
    wp (if negb (i =? 0) && (Z.rem i 10 =? 0) then u_printf [10] [] else Ret tt) (show w l) Q) as Hend.
  { intros l ->. unfold short_text in HQ. case_if.
    - apply (prints_printf pid); [done|]. change (printf [10] []) with (Some [10]). cbn [default from_option id].
      by rewrite show_show, <-app_assoc.
    - apply wp_ret. by rewrite app_nil_r in HQ. }
  apply wp_bind. unfold name_text in *.
  case_if; (apply (prints_printf pid); [done|]); cbn [then_]; apply Hend.
  - change (printf (bytes "%s/" ++ [9]) [AStr (d_name d)]) with (Some (cstr (d_name d) ++ [47; 9])).
    cbn [default from_option id]. by rewrite <-app_assoc.
  - change (printf (bytes "%s" ++ [9]) [AStr (d_name d)]) with (Some (cstr (d_name d) ++ [9])).
    cbn [default from_option id]. by rewrite app_nil_r.
Qed.

Lemma wp_long i d w (Q : option unit → world D → Prop) :
  entry_ok d → prints pid w → Q (Some tt) (show w (long_text i d)) → wp (long_entry (dirent_bytes d)) w Q.
Proof.
  intros Hd Hp HQ. destruct (ent_fields d Hd) as (Hn&Ht&Hs&_). unfold long_entry. rewrite Hn, Ht, Hs.
  destruct Hd as (_&_&Hsz). rewrite i32_small by lia.
  assert (∀ s, printf [37; 115; 9; 37; 100; 9] [AStr s; AInt (d_size d)] =
    Some (cstr s ++ [9] ++ decimal_text (d_size d) ++ [9])) as Hhead.
  { intros s. transitivity ((cstr s ++.) <$> ((9 ::.) <$> (let! n := print_decimal (d_size d) in Some (n ++ [9])))); [done|].
    by rewrite decimal_text_spec by lia. }
  apply wp_bind, (prints_printf pid); [done|]. rewrite Hhead. cbn [default from_option id then_].
  unfold long_text, name_text in HQ.
  case_if; (apply (prints_printf pid); [done|]); rewrite show_show.
  - change (printf (bytes "%s/" ++ [10]) [AStr (d_name d)]) with (Some (cstr (d_name d) ++ [47] ++ [10])).
    cbn [default from_option id]. rewrite <-!app_assoc in *. exact HQ.
  - change (printf (bytes "%s" ++ [10]) [AStr (d_name d)]) with (Some (cstr (d_name d) ++ [10])).
    cbn [default from_option id]. rewrite <-!app_assoc in *. exact HQ.
Qed.

Lemma wp_ls_loop path all_print entry text w (Q : option Z → world D → Prop) :
  vfs_ok (files_in w) → prints pid w →
  (∀ i d w1 (R : option unit → world D → Prop), entry_ok d → prints pid w1 →
     R (Some tt) (show w1 (text i d)) → wp (entry i (dirent_bytes d)) w1 R) →
  (let es := path_listing (files_in w) (cstr path) in
   Q (Some (Z.of_nat (length es))) (show w (entries_text all_print text 0 es))) →
  wp (ls_loop path all_print entry) w Q.
Proof.
  intros Hok Hp Hentry HQ. unfold ls_loop. cbv zeta in HQ.
  destruct (path_listing_ok (files_in w) (cstr path) Hok) as [Hes Hlen].
  set (es := path_listing (files_in w) (cstr path)) in *.
  assert (∀ n k w1, (length es - k = n)%nat → (k ≤ length es)%nat → files_in w1 = files_in w → prints pid w1 →
    Q (Some (Z.of_nat (length es))) (show w1 (entries_text all_print text (Z.of_nat k) (drop k es))) →
    wp (forever (λ i,
      let* r := u_readdir path i in
      if fst r <? 0 then Ret (inr i)
      else if negb all_print && (ch (snd r) 0 =? 46) then Ret (inl (i32 (i + 1)))
      else let* _p := entry i (snd r) in Ret (inl (i32 (i + 1)))) (Z.of_nat k)) w1 Q) as Hgo.
  2:{ apply (Hgo (length es) 0%nat w); try done; lia. }
  induction n as [|n IH]; intros k w1 Hn Hk Hf Hp1 HQ1.
  - assert (k = length es) as -> by lia. rewrite drop_all in HQ1. cbn [entries_text] in HQ1. rewrite show_nil in HQ1.
    apply wp_forever, wp_bind, wp_syscall. cbn -[fs_readdir readdir_call]. unfold readdir_call. rewrite Hf.
    rewrite fs_readdir_listing, Nat2Z.id by lia. fold es. rewrite lookup_ge_None_2 by lia. cbn. apply wp_ret. done.
  - destruct (lookup_lt_is_Some_2 es k) as [d Hd]; [lia|].
    assert (entry_ok d) as Hdok by (by eapply Forall_lookup_1 in Hd).
    destruct (ent_fields d Hdok) as (_&_&_&Hch).
    rewrite (drop_S es d k Hd) in HQ1. cbn [entries_text] in HQ1.
    apply wp_forever, wp_bind, wp_syscall. cbn -[fs_readdir readdir_call dirent_bytes]. unfold readdir_call. rewrite Hf.
    rewrite fs_readdir_listing, Nat2Z.id by lia. fold es. rewrite Hd. cbn [fst snd then_ Z.ltb Z.compare].
    rewrite Hch. rewrite i32_small by lia. replace (Z.of_nat k + 1) with (Z.of_nat (S k)) in * by lia.
    case_if.
    + apply wp_ret. cbn [then_]. apply IH; [lia|lia|done|done|exact HQ1].
    + apply wp_bind, Hentry; [done..|]. cbn [then_]. apply wp_ret. cbn [then_].
      apply IH; [lia|lia|done|done|]. by rewrite show_show.
Qed.
(** ** The arguments *)

(** The option letters: of the word after the name of the program, where it starts with
    '-' and at most one more word follows. *)
Definition option_letters (argv : list (list Z)) : list Z :=
  match argv with
  | [_; o] | [_; o; _] => match cstr o with c :: letters => if decide (c = 45) then letters else [] | [] => [] end
  | _ => []
  end.

Definition asks_long (argv : list (list Z)) : Prop := 108 ∈ option_letters argv.
Definition asks_all (argv : list (list Z)) : Prop := 97 ∈ option_letters argv.

(** What is listed: the last of three words; the second of two, unless it has options;
    and the working directory. *)
Definition directory_asked (argv : list (list Z)) : list Z :=
  match argv with
  | [] => []
  | [_] => bytes "."
  | [_; p] => if decide (asks_long argv ∨ asks_all argv) then bytes "." else p
  | _ :: _ :: p :: _ => p
  end.

Lemma parse_options_letters s d a :
  parse_options s (d, a) = (d || bool_decide (108 ∈ cstr s), a || bool_decide (97 ∈ cstr s)).
Proof.
  revert d a. induction s as [|c s IH]; intros d a; cbn [parse_options cstr].
  - by rewrite !bool_decide_eq_false_2, !orb_false_r by apply not_elem_of_nil.
  - destruct (Z.eqb_spec c 0) as [->|Hc].
    { by rewrite !bool_decide_eq_false_2, !orb_false_r by apply not_elem_of_nil. }
    assert (∀ x, bool_decide (x ∈ c :: cstr s) = (c =? x) || bool_decide (x ∈ cstr s)) as Hx.
    { intros x. apply eq_true_iff_eq. rewrite orb_true_iff, !bool_decide_eq_true, elem_of_cons, Z.eqb_eq.
      split; (intros [?|?]; [by left|by right]). }
    rewrite !Hx. destruct (Z.eqb_spec c 108) as [->|Hl]; [|destruct (Z.eqb_spec c 97) as [->|Ha]];
      rewrite IH; cbn; by rewrite ?orb_true_r.
Qed.

Lemma ls_options_asked argv :
  ls_options argv = (bool_decide (asks_long argv), bool_decide (asks_all argv)).
Proof.
  assert (∀ o, (if ch o 0 =? 45 then parse_options (tail o) (false, false) else (false, false)) =
    (let l := match cstr o with c :: letters => if decide (c = 45) then letters else [] | [] => [] end in
     (bool_decide (108 ∈ l), bool_decide (97 ∈ l)))) as Ho.
  { intros [|c o]; [done|]. cbn [cstr tail]. change (ch (c :: o) 0) with c.
    destruct (Z.eqb_spec c 45) as [->|Hc].
    - rewrite parse_options_letters. change (45 =? 0) with false. cbv iota.
      by destruct (decide (45 = 45)).
    - destruct (c =? 0); [done|]. by destruct (decide (c = 45)). }
  unfold ls_options, asks_long, asks_all, option_letters.
  destruct argv as [|n [|o [|p [|q r]]]]; try done; cbn [length Nat.eqb orb]; apply Ho.
Qed.

Lemma ls_path_asked argv :
  ls_path argv (bool_decide (asks_long argv)) (bool_decide (asks_all argv)) = directory_asked argv.
Proof.
  unfold ls_path, directory_asked. destruct argv as [|n [|o [|p r]]]; try done. cbn [length Nat.eqb].
  destruct (decide (asks_long [n; o] ∨ asks_all [n; o])) as [Ha|Ha].
  - replace (bool_decide _ || bool_decide _) with true; [done|]. symmetry.
    by rewrite orb_true_iff, !bool_decide_eq_true.
  - replace (bool_decide _ || bool_decide _) with false; [done|]. symmetry.
    rewrite orb_false_iff, !bool_decide_eq_false. tauto.
Qed.

End ls.
