(* ===== verification/CommandsTests.v ===== *)
(** * Concrete runs of the commands *)
From Stdlib Require Import ZArith Lia ZifyBool String.
From stdpp Require Import base tactics list numbers option.
From S2P Require Import Prelude CString BlockDev NodeFs Vfs VfsSpec VfsTests Process UserProg UserFiles.
From S2P Require Import ShellUtils HistorySpec ShellEdit ShellTests Commands CommandsSpec LsSpec.
From ITree Require Import Core.ITreeDefinition.
#[local] Open Scope Z_scope.

Definition note_path : list Z := bytes "tmp/../note.txt".
Definition note_text : list Z := bytes "remember the milk".

Lemma note_leads : leads_to boot_world note_path = bytes "/note.txt".
Proof. vm_compute. reflexivity. Qed.

Lemma note_rewrite : can_rewrite 3 (leads_to boot_world note_path) note_text (files_in boot_world).
Proof. rewrite note_leads. vm_compute. split; discriminate. Qed.

Lemma note_text_ok : no_nul note_text ∧ Z.of_nat (length note_text) ≤ 512.
Proof. split; [by repeat constructor|by vm_compute]. Qed.

Lemma write_then_cat_witness :
  @wp _ _ (world_kernel 3)
    (let* written := write_main (zeros 64) [bytes "write"; note_path; note_text] in
     let* shown := cat_main (zeros 64) [bytes "cat"; note_path] in Ret (written, shown)) boot_world
    (λ o w', o = Some (0, 0) ∧ shown w' = shown boot_world ++ note_text ++ [10] ∧ vfs_ok (files_in w') ∧
       file_at (files_in w') (leads_to boot_world note_path) note_text ∧ at_console 3 w').
Proof.
  exact (write_then_cat 3 (zeros 64) note_path note_text boot_world eq_refl eq_refl
    (is_bytes_bytes _) (is_bytes_bytes _) boot_ok boot_console (is_bytes_bytes _)
    (proj1 note_text_ok) (proj2 note_text_ok) note_rewrite).
Defined.

(** The root directory of a system just started. *)
Definition ls_argv : list (list Z) := [bytes "ls"; bytes "-l"; bytes "/"].

Lemma ls_argv_asks :
  bool_decide (asks_long ls_argv) = true ∧ bool_decide (asks_all ls_argv) = false ∧
  directory_asked ls_argv = bytes "/".
Proof. vm_compute. done. Qed.


Definition shown_by {A} (t : prog A) (w : world ramdisk) : option (list Z) :=
  match @run _ (world_kernel 3) A 2000 t w with Some (_, w') => Some (shown w') | None => None end.

(** A directory is made, a file is put in it, and they are listed. *)
Example make_and_list :
  shown_by (let* _a := mkdir_main (zeros 64) [bytes "mkdir"; bytes "box"] in
            let* _b := write_main (zeros 64) [bytes "write"; bytes "box/one"; bytes "1234567"] in
            let* _c := touch_main (zeros 64) [bytes "touch"; bytes "box/.two"] in
            let* _d := ls_main (zeros 64) [bytes "ls"; bytes "-l"; bytes "box"] in
            let* _e := rm_main (zeros 64) [bytes "rm"; bytes "box/one"] in
            let* _f := rmdir_main (zeros 64) [bytes "rmdir"; bytes "box"] in
            ls_main (zeros 64) [bytes "ls"; bytes "-a"; bytes "box"]) boot_world
  = Some (bytes "TYPE" ++ [9] ++ bytes "SIZE" ++ [9] ++ bytes "NAME" ++ [10] ++
          bytes "f" ++ [9] ++ bytes "7" ++ [9] ++ bytes "one" ++ [10] ++
          bytes "rmdir failed" ++ [10] ++ bytes ".two" ++ [9; 10]).
Proof. vm_compute. reflexivity. Qed.
